(* ===== verification/_CoqProject ===== *)
-Q . S2P
Prelude.v
PyText.v
PyJson.v
PyHash.v
PyTime.v
PyStd.v
PyDate.v
PySql.v
ResourceLimits.v
JsonCanonical.v
PyJsonLoads.v
ModelsBase.v
PlatformIdentity.v
ModelsSystems.v
ModelsReviews.v
ModelsAction.v
ModelsBindings.v
ModelsContext.v
ActionGraph.v
ModelsPlan.v
PlanBinding.v
ModelsResults.v
Approvals.v
Policy.v
Capabilities.v
Governance.v
AuditLog.v
PlannerGate.v
Canonical.v
Evidence.v
Security.v
EgressPolicy.v
EgressBinding.v
EgressSanitize.v
Recurring.v
Registry.v
RunMonad.v
Orchestrator.v
EgressRuntime.v
DirectRead.v
Receipts.v
Advisory.v
AdvisoryBudget.v
PyRegex.v
WorkMemory.v
CapabilityRouting.v
Compensation.v
Samples.v
RunSamples.v
EgressSamples.v
PlanTheorems.v
ApprovalTheorems.v
PolicyTheorems.v
GovernanceTheorems.v
CapabilityTheorems.v
AuditTheorems.v
LedgerTheorems.v
CanonicalTheorems.v
PlannerTheorems.v
OrderTheorems.v
OrchestratorTheorems.v
EffectTheorems.v
ReportTheorems.v
RegistryTheorems.v
RecurringTheorems.v
OccurrenceTheorems.v
ClaimTheorems.v
ScheduleTheorems.v
EvidenceTheorems.v
SecurityTheorems.v
EgressTheorems.v
SanitizeTheorems.v
EgressRunTheorems.v
CompensationTheorems.v
DirectReadTheorems.v
ReceiptTheorems.v
AdvisoryTheorems.v
WorkMemoryTheorems.v
RoutingTheorems.v
CapsuleRun.v
