(* ===== verification/Prelude.v ===== *)
(** * A verification development for MasterAgent

    MasterAgent (package [src/src/master_agent]) lets agents propose plans of
    actions against enterprise systems and executes only what policy,
    governance, the capability catalog and authenticated human approvals allow.
    A planner builds a [ChangePlan] and a gate decides on its reasoning record;
    approvers sign its fingerprint; the orchestrator then walks the actions in
    dependency order, asks the source-of-truth registry, the catalog, the
    governance profile and the policy engine about each, claims its idempotency
    key, calls the connector, verifies the effect, compensates when a later
    action fails, and writes every step to a hash-chained audit log.  A
    scheduler starts recurring workflows under claims of its own.

    This library is a shallow embedding of those parts in Gallina: a Python
    function is a function into the error monad [result] of this file (or, in
    the orchestrator, into the state-and-error monad of [RunMonad]), a dataclass
    a [Record] with [X_post_init], [X_to_dict] and [X_from_dict] for its
    [__post_init__] and serialisation, a [StrEnum] an [Inductive].  All
    definitions are executable.

    ** The files

    Foundations.  [Prelude] (this file): exceptions, the error monad and its
    inversion lemmas, the tactic [inv_ok], stable sorting, uniqueness.
    [PyText], [PyJson], [PyHash], [PyTime], [PyStd], [PyJsonLoads]: what the
    code uses of Python's [str], [re], [fnmatch], [json.dumps], [json.loads],
    [hashlib], [hmac], [datetime], [UUID], [pathlib] and [urlsplit]; [PyDate]
    the calendar (conversion to UTC, addition, and that the texts of UTC times
    are ordered as their instants), [PySql] tables of SQLite and sequences of
    operations on them, [PyRegex] [re.search] with assertions.
    [JsonCanonical]: the canonical JSON text determines the value.

    - [ResourceLimits]: [resource_limits.py], the bounded walk over a value.
    - [ModelsBase], [PlatformIdentity], [ModelsSystems], [ModelsReviews],
      [ModelsAction], [ModelsBindings], [ModelsContext], [ActionGraph],
      [ModelsPlan], [PlanBinding], [ModelsResults]: [models.py], class by
      class, with the filesystem identity of [platform_runtime/contracts.py].
    - [Approvals]: [approvals.py], behind the interface [Authenticator].
    - [Policy]: [policy.py], written against [Authenticator].
    - [Capabilities]: [capabilities.py].
    - [Governance]: [governance.py].
    - [AuditLog]: [audit.py]: the hash-chained events, the run checkpoints and
      the idempotency ledger as one [database] with transactions.
    - [PlannerGate]: [planners/base.py], the gate over a plan's reasoning record
      before planning ends and again before execution.
    - [Canonical]: [canonical.py], the source-of-truth rules.
    - [Evidence]: the summaries of results kept in the audit log
      ([evidence.py]).
    - [Security]: [security.py], the patterns of suspicious instructions and the
      scan of a retrieved value.
    - [EgressPolicy], [EgressBinding], [EgressSanitize]: [provider_egress.py], the
      organization's rules for provider data, the binding a read is authorised
      under, and what is let through of its result.  [EgressRuntime] is this
      module as the orchestrator calls it, an instance of the interface
      [ProviderEgress] that the theorems on runs are proved against.
    - [Registry]: [registry.py], the connectors and their resolution, with the
      connector interface of [connectors/base.py].
    - [RunMonad], [Orchestrator]: [orchestrator.py].  A run is a computation
      over the state of the program (the audit database), the world outside
      ([run_state], with a trace of what was dispatched, verified and
      reported), the connectors being parameters.
    - [DirectRead]: [direct_read.py], the session that reads one provider for a
      direct user without an audit log, over the run monad of the orchestrator.
    - [Receipts]: [receipts.py], the signed evidence of a run and its export.
    - [CapsuleRun]: [capsule_operations.py], the coordinator of capsule-bound runs:
      their states and transitions, checkpoints, resumption and evidence, over
      the run monad and the orchestrator, with the serialisation of run reports.
    - [Advisory]: [advisory.py], what a parent may delegate to an advisory child
      and what comes back: payloads, routes, reports, the read-only tools, the
      broker and a session, written against the interface [AdvisoryBudget].
      [AdvisoryBudget]: [advisory_budget.py], its durable implementation, a table
      of authenticated rows.
    - [WorkMemory]: [work_memory.py], the hash-chained journal of issue-to-merge
      work: its two tables, their replay, and the writes.
    - [CapabilityRouting]: [capability_routing.py], the router from a prompt to
      capability cards and the session with its budgets.
    - [Compensation]: [compensation.py], the plans that undo a run's effects or
      correct a sent message.
    - [Recurring]: [recurring.py], the scheduler of recurring workflows: weekly
      schedules over a zone database, the tables of claims and of exact-bound
      occurrences with every operation of the store, the runner and the loading
      of registrations.
    - [Samples], [RunSamples], [EgressSamples]: concrete
      objects the witnesses evaluate.
    - [PlanTheorems], [ApprovalTheorems], [PolicyTheorems],
      [GovernanceTheorems], [CapabilityTheorems], [AuditTheorems],
      [LedgerTheorems], [CanonicalTheorems], [PlannerTheorems], [OrderTheorems],
      [OrchestratorTheorems], [EffectTheorems], [ReportTheorems],
      [RegistryTheorems], [EvidenceTheorems], [RecurringTheorems],
      [OccurrenceTheorems], [ClaimTheorems], [ScheduleTheorems],
      [SecurityTheorems], [EgressTheorems], [SanitizeTheorems],
      [EgressRunTheorems], [DirectReadTheorems], [ReceiptTheorems],
      [AdvisoryTheorems], [WorkMemoryTheorems], [RoutingTheorems],
      [CompensationTheorems] (and the ends of [ResourceLimits] and
      [CapsuleRun]): the properties.

    ** What the theorems show

    - Runs: every effect a run dispatches was authorised by every gate, in
      dependency order, under a freshly granted claim of its key; over any
      sequence of runs on one ledger an effect is not repeated while it is
      outstanding; a report that says verified has a successful verification
      behind it; a dry run changes nothing; every action of the plan is
      reported, and the order is a topological one.
    - Identity: a plan fingerprint, an effect fingerprint, an approval signature,
      the signature of a receipt, the tag of a budget row and a result digest bind
      every field they are about, and two audit logs that verify against one
      checkpoint are equal, each theorem stated "... or here are two texts that
      collide".
    - Permission: an action is permitted exactly when every gate of
      [PolicyEngine.evaluate] is open; a permitted write has the required number
      of distinct authenticated approvers; content retrieved from a provider
      never authorises a write; a projection follows its canonical source.
    - The ledger: the completed-actions table refines an abstract ledger; a key
      is claimed at most once unless it is certified as failed or cleared; an
      operation that raises leaves the database as it was; checkpoints are
      numbered consecutively and read back.
    - The scheduler: the occurrence table, with its text columns, implements an
      abstract book with integer times; a lost claim fence stays lost and a final
      status stays final on any database; a run is claimed once plus once per
      reviewed recovery; a granted run is called unless a lock file is there, and
      is recorded with its outcome while its claim is held; the scheduled instant
      has the configured wall time and lies in the sixteen days up to now, for
      every zone that obeys PEP 495 ([ZoneLaws]).
    - Direct reads: no provider call precedes the gates of the whole plan; what
      is returned was verified, is sanitized and insensitive; what is raised
      after a call does not depend on what the provider answered, an exception of
      a class the session does not name apart; the database is untouched.
    - Receipts: a built receipt verifies and is evidence of its run and plan only;
      results reach it through their digests only.
    - Coordinated runs: over any sessions, each cut short anywhere, a stored run
      moves along the transitions only and ends for good; connectors are called
      under an executing checkpoint; a run ends in a receipt that verifies and in
      an anchor in the log.
    - Delegation: the durable budget implements a map from goals to counters;
      whatever the sessions do, a child is called at most three times to research
      a goal and once to review a plan; what may be handed to a child is
      characterised without the traversal that checks it.
    - Work memory: the journal implements a list of notes; it replays exactly when
      it encodes a history that satisfies a declarative relation; every work in it
      went through the stages in order, up to the one it is in; its last hash determines it.
    - Routing: a session stays within its calls and bytes on its own cards; a
      decision holds the best of the cards that policy and prompt leave, none with
      a negated operation.
    - Corrections: a compensation plan undoes every reported reversible effect,
      the last first, or is not built; a corrective plan passes the check before
      execution, and none of its actions is permitted without approval.
    - Contracts: the catalog accepts exactly the actions that fit their
      definition, the live connector is the bound one, a connector is resolved
      to the one that declares the capability, the governance rule of an action
      is the most specific one.
    - Confidentiality: one rule of the policy, the most specific, decides on a
      read; the binding of a read stays within it; a sanitized result has only
      requested fields, within the limits, and does not depend on secrets or
      redacted fields; a run returns provider data only sanitized, under the
      binding the policy gives; the scanner misses no match at any depth;
      results that differ only under sensitive keys have the same audit summary.
    - Well-formedness and round trips: what [from_dict] returns is a valid
      object, [from_dict (to_dict x)] is [x].
    - Termination and bounds: the measuring walk, the depth-first searches and
      the collection walk end within the fuel their definitions give them.

    ** Fuel

    [measure_loop] runs with [measure_fuel v] (each stack entry is visited at
    most twice), [validate_acyclic] with the number of nodes plus one (the depth
    of the search), [topological_order] with the number of actions plus one,
    [ancestors_loop] with [ancestors_fuel], [translate] with the length of its
    pattern, [repeated] with the length of the text that is left, [scan_value]
    with twice the length of its text, [collection_loop] with the number of
    pending values; the ones a property depends on have a theorem
    that this is enough.

    ** Not modelled

    Characters above U+00FF; objects that contain themselves (a [json] is a
    finite tree); the reading of files (a parsed table is an argument);
    network, process and file-system access; the command line; the limit of 4300
    digits that CPython puts on the text of an integer ([dumps] has none).  An
    authentication contract that is not in the table of [capabilities.py] has no
    allowed mode in [authority_error], where the lookup would raise [KeyError];
    [CapabilityDefinition_post_init] refuses such a definition.  Of the
    orchestrator: the performance recorder, the counting of HTTP requests
    inside connectors, a crash in the middle of a
    run, several runs at once.  Of the scheduler: the upgrade of an older state
    file, and the heartbeat thread, whose renewals are part of what the callback
    of the model does to the state.  Of the advisory subsystem: the profile files
    and their parsing, the host adapter that runs a child, and the creation of
    the budget's directory, key and database files.  Of work memory: opening the
    file and waiting for a concurrent first writer.  Of capability routing: making
    a card from a capsule manifest. *)

From stdpp Require Export base option list strings gmap pretty sorting.
From Stdlib Require Export ZArith Lia.

#[export] Set Default Proof Using "Type".

Declare Scope py_scope.
Delimit Scope py_scope with py.

(** ** Exceptions and the error monad

    A Python function that may raise is a function into [result].  The
    constructors of [exn] are the exception classes the modelled code raises or
    catches ([src/src/master_agent/errors.py] and the builtins);
    [PySubclassError] is a class code outside the model raises, with the class
    it derives from, and [PyOtherError] one no clause catches. *)

(** The classes an [except] clause names, as bases of other classes. *)
Inductive exn_base : Type :=
  | ConnectorErrorBase
  | MasterAgentErrorBase
  | KeyErrorBase
  | OSErrorBase
  | OverflowErrorBase
  | RuntimeErrorBase
  | TypeErrorBase
  | ValueErrorBase.

Inductive exn : Type :=
  | ValidationError (msg : string)
  | ConfigurationError (msg : string)
  | ConnectorError (msg : string)
  | PreEffectError (msg : string)
  | VersionConflictError (msg : string)
  | StructuredDataTypeError (msg : string)
  | PyValueError (msg : string)
  | PyKeyError (msg : string)
  | PyTypeError (msg : string)
  | PyRuntimeError (msg : string)
  | PyOSError (msg : string)
  | PyOtherError (msg : string)
  | PySubclassError (base : exn_base) (cls msg : string).

Inductive result (A : Type) : Type :=
  | Ok (a : A)
  | Err (e : exn).
Arguments Ok {A} a.
Arguments Err {A} e.

#[export] Instance exn_base_eq_dec : EqDecision exn_base.
Proof. solve_decision. Defined.

#[export] Instance exn_eq_dec : EqDecision exn.
Proof. solve_decision. Defined.

#[export] Instance result_eq_dec {A} `{EqDecision A} : EqDecision (result A).
Proof. solve_decision. Defined.

#[export] Instance result_ret : MRet result := λ A a, Ok a.
#[export] Instance result_bind : MBind result :=
  λ A B f m, match m with Ok a => f a | Err e => Err e end.
#[export] Instance result_fmap : FMap result :=
  λ A B f m, match m with Ok a => Ok (f a) | Err e => Err e end.

(** [if c: raise e]. *)
Definition raise_if (c : bool) (e : exn) : result unit :=
  if c then Err e else Ok tt.

(** The value of an option, or the exception raised when there is none. *)
Definition or_raise {A} (o : option A) (e : exn) : result A :=
  match o with Some a => Ok a | None => Err e end.

Definition is_ok {A} (r : result A) : bool :=
  match r with Ok _ => true | Err _ => false end.

(** [str(error)]. *)
Definition exn_message (e : exn) : string :=
  match e with
  | ValidationError m | ConfigurationError m | ConnectorError m | PreEffectError m
  | VersionConflictError m | StructuredDataTypeError m | PyValueError m | PyKeyError m
  | PyTypeError m | PyRuntimeError m | PyOSError m | PyOtherError m
  | PySubclassError _ _ m => m
  end.

(** [type(error).__name__]. *)
Definition exn_class (e : exn) : string :=
  match e with
  | ValidationError _ => "ValidationError"
  | ConfigurationError _ => "ConfigurationError"
  | ConnectorError _ => "ConnectorError"
  | PreEffectError _ => "PreEffectError"
  | VersionConflictError _ => "VersionConflictError"
  | StructuredDataTypeError _ => "StructuredDataTypeError"
  | PyValueError _ => "ValueError"
  | PyKeyError _ => "KeyError"
  | PyTypeError _ => "TypeError"
  | PyRuntimeError _ => "RuntimeError"
  | PyOSError _ => "OSError"
  | PyOtherError _ => "Exception"
  | PySubclassError _ cls _ => cls
  end.

(** [for x in xs: f(x)]. *)
Fixpoint for_each {A} (f : A → result unit) (l : list A) : result unit :=
  match l with
  | [] => Ok tt
  | x :: l => f x ≫= λ _, for_each f l
  end.

(** [try: m  except E as error: raise g(error)], for the exceptions [g] maps. *)
Definition reraise {A} (m : result A) (g : exn → option exn) : result A :=
  match m with
  | Ok a => Ok a
  | Err e => Err (default e (g e))
  end.

(** ** The monad's inversion lemmas *)

Lemma bind_Ok {A B} (m : result A) (f : A → result B) b :
  m ≫= f = Ok b ↔ ∃ a, m = Ok a ∧ f a = Ok b.
Proof. destruct m; simpl; split; [eauto|by intros (?&[= ->]&?)|done|by intros (?&?&?)]. Qed.

Lemma bind_Err {A B} (m : result A) (f : A → result B) e :
  m ≫= f = Err e ↔ m = Err e ∨ ∃ a, m = Ok a ∧ f a = Err e.
Proof.
  destruct m as [a|e0]; simpl; split; intros H.
  - eauto.
  - by destruct H as [H|(a'&[= ->]&H)].
  - left. congruence.
  - destruct H as [H|(a'&H&_)]; congruence.
Qed.

Lemma fmap_Ok {A B} (m : result A) (f : A → B) b :
  f <$> m = Ok b ↔ ∃ a, m = Ok a ∧ f a = b.
Proof.
  destruct m; simpl; split; [intros [= <-]; eauto|by intros (?&[= ->]&<-)|done|].
  by intros (?&?&?).
Qed.

Lemma raise_if_Ok c e u : raise_if c e = Ok u ↔ c = false.
Proof. by destruct c, u. Qed.

Lemma raise_if_Err c e e' : raise_if c e = Err e' ↔ c = true ∧ e' = e.
Proof. destruct c; simpl; split; [by intros [= <-]|by intros [_ ->]|done|by intros [? _]]. Qed.

Lemma or_raise_Ok {A} (o : option A) e a : or_raise o e = Ok a ↔ o = Some a.
Proof. destruct o; simpl; split; congruence. Qed.

Lemma for_each_Ok {A} (f : A → result unit) l u :
  for_each f l = Ok u ↔ Forall (λ x, f x = Ok tt) l.
Proof.
  destruct u. induction l as [|x l IH]; simpl; [done|].
  rewrite bind_Ok, Forall_cons. setoid_rewrite IH. split; [by intros ([]&?&?)|intros []; eauto].
Qed.

Lemma reraise_Ok {A} (m : result A) g a : reraise m g = Ok a ↔ m = Ok a.
Proof. destruct m; simpl; split; congruence. Qed.

Lemma bind_ret_r {A} (m : result A) : (m ≫= λ a, Ok a) = m.
Proof. by destruct m. Qed.

(** A chain of gates [if b then (false, m) else r]: it is passed when no gate
    closes it. *)
Lemma and_gate {M} (b : bool) (m : M) (r : bool * M) (P : Prop) :
  (b = false ↔ P) → ((if b then (false, m) else r).1 = true ↔ P ∧ r.1 = true).
Proof. destruct b; simpl; intuition congruence. Qed.

Lemma last_gate {M} (b : bool) (m m' : M) (P : Prop) :
  (b = false ↔ P) → ((if b then (false, m) else (true, m')).1 = true ↔ P).
Proof. destruct b; simpl; intuition congruence. Qed.

(** ** Hint databases and tactics *)

Create Rewrite HintDb py_ok.
#[export] Hint Rewrite @bind_Ok @fmap_Ok @raise_if_Ok @or_raise_Ok
  @for_each_Ok @reraise_Ok : py_ok.

Create Rewrite HintDb py_bool.
#[export] Hint Rewrite orb_false_iff orb_true_iff andb_true_iff andb_false_iff
  negb_true_iff negb_false_iff Z.ltb_lt Z.ltb_ge Z.leb_le Z.leb_gt Z.eqb_eq
  Z.eqb_neq Nat.ltb_lt Nat.ltb_ge Nat.leb_le Nat.leb_gt Nat.eqb_eq
  Nat.eqb_neq bool_decide_eq_true bool_decide_eq_false String.eqb_eq
  String.eqb_neq : py_bool.

(** Decompose a hypothesis "this monadic chain returned a value" into the
    facts about its steps, and booleans into propositions. *)
Ltac inv_ok :=
  repeat match goal with
  | H : Ok _ = Ok _ |- _ => injection H as H; try subst
  | H : Ok _ = Err _ |- _ => discriminate H
  | H : Err _ = Ok _ |- _ => discriminate H
  | H : _ ≫= _ = Ok _ |- _ =>
      let a := fresh "v" in let Ha := fresh "Hv" in
      apply bind_Ok in H as (a & Ha & H)
  | H : raise_if _ _ = Ok _ |- _ => apply raise_if_Ok in H
  | H : or_raise _ _ = Ok _ |- _ => apply or_raise_Ok in H
  | H : reraise _ _ = Ok _ |- _ => apply reraise_Ok in H
  | H : _ <$> _ = Ok _ |- _ =>
      let a := fresh "v" in apply fmap_Ok in H as (a & ? & ?)
  | u : unit |- _ => destruct u
  end.

(** Take the next step of a monadic chain whose first computation is a value. *)
Ltac mstep := cbn [mbind result_bind fmap result_fmap raise_if or_raise].

Ltac to_prop := autorewrite with py_bool in *.

(** Case analysis on the scrutinee of the innermost [match] of the goal. *)
Ltac case_match_goal :=
  match goal with
  | |- context [match ?x with _ => _ end] =>
      lazymatch x with
      | context [match _ with _ => _ end] => fail
      | _ => destruct x eqn:?
      end
  end.

(** ** Stable sorting: [sorted(xs, key=...)]

    Insertion from the right keeps equal elements in their order, as Python's
    sort does; every stable sort computes this list. *)

Section sort_by.
Context {A : Type} (le : A → A → bool).

Fixpoint insert_by (x : A) (l : list A) : list A :=
  match l with
  | [] => [x]
  | y :: l' => if le x y then x :: l else y :: insert_by x l'
  end.

Definition sort_by (l : list A) : list A := foldr insert_by [] l.

Fixpoint sorted_by (l : list A) : Prop :=
  match l with
  | x :: ((y :: _) as l') => le x y = true ∧ sorted_by l'
  | _ => True
  end.

Lemma insert_by_perm x l : insert_by x l ≡ₚ x :: l.
Proof.
  induction l as [|y l IH]; simpl; [done|]. destruct (le x y); [done|].
  rewrite IH. constructor.
Qed.

Lemma sort_by_perm l : sort_by l ≡ₚ l.
Proof.
  induction l as [|x l IH]; simpl; [done|]. by rewrite insert_by_perm, IH.
Qed.

Lemma insert_by_head x l : sorted_by (x :: l) → insert_by x l = x :: l.
Proof. destruct l as [|y l]; simpl; [done|]. by intros [-> _]. Qed.

Lemma sorted_by_tail x l : sorted_by (x :: l) → sorted_by l.
Proof. destruct l; simpl; [done|]. tauto. Qed.

(** A sorted list is left alone. *)
Lemma sort_by_sorted l : sorted_by l → sort_by l = l.
Proof.
  induction l as [|x l IH]; [done|]. intros H. simpl.
  rewrite IH by (by eapply sorted_by_tail). by apply insert_by_head.
Qed.

Lemma insert_by_sorted x l :
  (∀ a b, le a b = true ∨ le b a = true) → sorted_by l → sorted_by (insert_by x l).
Proof.
  intros Htot. induction l as [|y l IH]; intros Hl; [done|]. simpl.
  destruct (le x y) eqn:E; [done|].
  assert (le y x = true) as Hyx by (destruct (Htot x y); congruence).
  pose proof (IH (sorted_by_tail _ _ Hl)) as Hi.
  destruct l as [|z l]; simpl in *; [done|]. destruct (le x z); simpl in *; tauto.
Qed.

Lemma sort_by_is_sorted l :
  (∀ a b, le a b = true ∨ le b a = true) → sorted_by (sort_by l).
Proof.
  intros Htot. induction l as [|x l IH]; simpl; [done|]. by apply insert_by_sorted.
Qed.

Lemma sort_by_elem x l : x ∈ sort_by l ↔ x ∈ l.
Proof. by rewrite sort_by_perm. Qed.

Lemma sort_by_Forall (P : A → Prop) l : Forall P l → Forall P (sort_by l).
Proof. by rewrite sort_by_perm. Qed.

Lemma sort_by_idem l :
  (∀ a b, le a b = true ∨ le b a = true) → sort_by (sort_by l) = sort_by l.
Proof. intros. by apply sort_by_sorted, sort_by_is_sorted. Qed.
End sort_by.

(** ** Uniqueness tests: [len(xs) == len(set(xs))] *)

Fixpoint nodupb {A} `{EqDecision A} (l : list A) : bool :=
  match l with
  | [] => true
  | x :: l => negb (bool_decide (x ∈ l)) && nodupb l
  end.

Lemma nodupb_NoDup {A} `{EqDecision A} (l : list A) : nodupb l = true ↔ NoDup l.
Proof.
  induction l as [|x l IH]; simpl; [split; [constructor|done]|].
  by rewrite NoDup_cons, andb_true_iff, negb_true_iff, bool_decide_eq_false, IH.
Qed.

Lemma remove_dups_NoDup {A} `{EqDecision A} (l : list A) :
  NoDup l → remove_dups l = l.
Proof.
  induction 1 as [|x l Hx _ IH]; simpl; [done|].
  rewrite IH. by destruct (decide_rel elem_of x l).
Qed.

(** ** [mapM] in the error monad *)

Lemma mapM_Ok {A B} (f : A → result B) l k :
  mapM f l = Ok k ↔ Forall2 (λ x y, f x = Ok y) l k.
Proof.
  revert k; induction l as [|x l IH]; intros k; simpl.
  - split; [intros [= <-]; constructor|by inversion 1].
  - rewrite bind_Ok. split.
    + intros (y & Hy & (k' & Hk & [= <-])%bind_Ok). constructor; [done|]. by apply IH.
    + inversion 1; subst. eexists; split; [done|]. apply bind_Ok.
      eexists; split; [by apply IH|done].
Qed.

Lemma mapM_all_Ok {A B C} (f : B → result C) (g : A → B) (h : A → C) l :
  (∀ x, x ∈ l → f (g x) = Ok (h x)) → mapM f (g <$> l) = Ok (h <$> l).
Proof.
  intros H. apply mapM_Ok, Forall2_fmap, Forall_Forall2_diag, Forall_forall. auto.
Qed.
