(* ===== verification/PyText.v ===== *)
(** * PyText: Python's text and the string operations the runtime uses

    A Python [str] is a [string] whose characters are the code points below
    256; on that range the definitions below are exact: [str.strip]'s white
    space, the Unicode categories Cc and Cf, [str.casefold], the UTF-8 length,
    and NFC normalisation, which is the identity there.  The file also holds
    the part of [re] the models use (a regular-expression type with a
    derivative matcher, proved against its language), [fnmatch], [UUID], and
    fixed-width decimal fields. *)

From S2P Require Import Prelude.
From Stdlib Require Import Ascii.

Open Scope Z_scope.

(** ** Characters *)

Definition code (c : ascii) : Z := Z.of_nat (nat_of_ascii c).
Definition chr (n : Z) : ascii := ascii_of_nat (Z.to_nat n).

Definition in_range (lo hi : Z) (c : ascii) : bool :=
  (lo <=? code c) && (code c <=? hi).

(** [str.isspace] below U+0100. *)
Definition is_space (c : ascii) : bool :=
  in_range 9 13 c || in_range 28 32 c || (code c =? 133) || (code c =? 160).

(** [unicodedata.category(c) in {"Cc", "Cf"}] below U+0100. *)
Definition is_control (c : ascii) : bool :=
  (code c <? 32) || in_range 127 159 c || (code c =? 173).

Definition is_lower (c : ascii) : bool := in_range 97 122 c.
Definition is_upper (c : ascii) : bool := in_range 65 90 c.
Definition is_digit (c : ascii) : bool := in_range 48 57 c.

(** ["0123456789abcdef"]. *)
Definition is_lower_hex (c : ascii) : bool := is_digit c || in_range 97 102 c.

(** ** Whole strings *)

Fixpoint str_forall (p : ascii → bool) (s : string) : bool :=
  match s with
  | EmptyString => true
  | String c s => p c && str_forall p s
  end.

Definition str_exists (p : ascii → bool) (s : string) : bool :=
  negb (str_forall (λ c, negb (p c)) s).

Definition str_in (c : ascii) (s : string) : bool :=
  str_exists (λ d, (c =? d)%char) s.

Definition len (s : string) : Z := Z.of_nat (String.length s).

(** [len(s.encode("utf-8"))]. *)
Fixpoint utf8_length (s : string) : Z :=
  match s with
  | EmptyString => 0
  | String c s => (if code c <? 128 then 1 else 2) + utf8_length s
  end.

(** The UTF-8 encoding, as byte values. *)
Fixpoint utf8 (s : string) : list Z :=
  match s with
  | EmptyString => []
  | String c s =>
      (if code c <? 128 then [code c]
       else [192 + Z.shiftr (code c) 6; 128 + Z.land (code c) 63]) ++ utf8 s
  end.

Fixpoint lstrip_by (p : ascii → bool) (s : string) : string :=
  match s with
  | EmptyString => EmptyString
  | String c s' => if p c then lstrip_by p s' else s
  end.

Fixpoint rstrip_by (p : ascii → bool) (s : string) : string :=
  match s with
  | EmptyString => EmptyString
  | String c s' =>
      match rstrip_by p s' with
      | EmptyString => if p c then EmptyString else String c EmptyString
      | t => String c t
      end
  end.

(** [s.strip()]. *)
Definition strip (s : string) : string := rstrip_by is_space (lstrip_by is_space s).

(** [not s.strip()] and [s != s.strip()]. *)
Definition is_blank (s : string) : bool := (strip s =? "")%string.
Definition untrimmed (s : string) : bool := negb (s =? strip s)%string.

Definition has_control (s : string) : bool := str_exists is_control s.

(** [str.casefold]: A-Z, the capitals U+00C0 to U+00DE except U+00D7, and
    U+00DF, which becomes "ss".  (U+00B5 folds to U+03BC, outside the range;
    it is left alone, which keeps comparison of folded strings exact.) *)
Fixpoint casefold (s : string) : string :=
  match s with
  | EmptyString => EmptyString
  | String c s =>
      if code c =? 223 then String "s" (String "s" (casefold s))
      else
        String (if is_upper c || (in_range 192 222 c && negb (code c =? 215))
                then chr (code c + 32) else c)
               (casefold s)
  end.

(** The code points of [s.casefold()], exact on the whole range. *)
Definition fold_char (c : ascii) : list Z :=
  if code c =? 223 then [115; 115]
  else if code c =? 181 then [956]
  else if is_upper c || (in_range 192 222 c && negb (code c =? 215)) then [code c + 32]
  else [code c].

(** The code points of [unicodedata.normalize("NFKC", s)]: only the
    compatibility characters of the Latin-1 block change. *)
Definition nfkc_char (c : ascii) : list Z :=
  match code c with
  | 160 => [32] | 168 => [32; 776] | 170 => [97] | 175 => [32; 772]
  | 178 => [50] | 179 => [51] | 180 => [32; 769] | 181 => [956] | 184 => [32; 807]
  | 185 => [49] | 186 => [111] | 188 => [49; 8260; 52] | 189 => [49; 8260; 50]
  | 190 => [51; 8260; 52]
  | z => [z]
  end.

Fixpoint codes_of (f : ascii → list Z) (s : string) : list Z :=
  match s with
  | EmptyString => []
  | String c s => f c ++ codes_of f s
  end.

Definition casefold_codes (s : string) : list Z := codes_of fold_char s.

(** [unicodedata.normalize("NFKC", s).casefold()]. *)
Definition fold_code (z : Z) : list Z :=
  if z <? 256 then fold_char (chr z) else [z].
Definition nfkc_casefold (s : string) : list Z :=
  codes_of (λ c, nfkc_char c ≫= fold_code) s.

(** Code-point order on sequences of code points. *)
Fixpoint codes_le (s t : list Z) : bool :=
  match s, t with
  | [], _ => true
  | _ :: _, [] => false
  | c :: s, d :: t => if c =? d then codes_le s t else c <? d
  end.

Lemma codes_le_total s t : codes_le s t = true ∨ codes_le t s = true.
Proof.
  revert t. induction s as [|c s IH]; intros [|d t]; simpl; auto.
  rewrite (Z.eqb_sym d c). destruct (c =? d) eqn:E; [apply IH|]. to_prop. lia.
Qed.

Definition startswith (p s : string) : bool := String.prefix p s.

(** [s.split(c)]. *)
Fixpoint split_on (c : ascii) (s : string) : list string :=
  match s with
  | EmptyString => [""]
  | String d s' =>
      if (c =? d)%char then "" :: split_on c s'
      else match split_on c s' with
           | [] => [String d ""]
           | w :: ws => String d w :: ws
           end
  end.

(** [sep.join(parts)]. *)
Fixpoint str_join (sep : string) (parts : list string) : string :=
  match parts with
  | [] => ""
  | [p] => p
  | p :: ps => p +:+ sep +:+ str_join sep ps
  end.

Fixpoint str_count (p : ascii → bool) (s : string) : Z :=
  match s with
  | EmptyString => 0
  | String c s => (if p c then 1 else 0) + str_count p s
  end.

Fixpoint str_filter (p : ascii → bool) (s : string) : string :=
  match s with
  | EmptyString => EmptyString
  | String c s => if p c then String c (str_filter p s) else str_filter p s
  end.

(** Code-point order, Python's [<=] on strings. *)
Fixpoint str_le (s t : string) : bool :=
  match s, t with
  | EmptyString, _ => true
  | String _ _, EmptyString => false
  | String c s, String d t =>
      if (c =? d)%char then str_le s t else code c <? code d
  end.

(** A lowercase SHA-256 hex digest: [re.fullmatch(r"[0-9a-f]{64}", s)]. *)
Definition is_sha256_hex (s : string) : bool :=
  (len s =? 64) && str_forall is_lower_hex s.

(** ** Regular expressions: [re.fullmatch] *)

Inductive regex : Type :=
  | RVoid
  | REps
  | RChar (p : ascii → bool)
  | RSeq (r s : regex)
  | RAlt (r s : regex)
  | RStar (r : regex)
  | RUpto (n : nat) (r : regex).

(** [r{0,n}] is [RUpto n r], [r+] is [RSeq r (RStar r)]. *)
Definition rplus (r : regex) : regex := RSeq r (RStar r).
Definition ropt (r : regex) : regex := RUpto 1 r.
Definition rlit (c : ascii) : regex := RChar (λ d, (c =? d)%char).

Fixpoint nullable (r : regex) : bool :=
  match r with
  | RVoid => false
  | REps => true
  | RChar _ => false
  | RSeq r s => nullable r && nullable s
  | RAlt r s => nullable r || nullable s
  | RStar _ => true
  | RUpto _ _ => true
  end.

Definition mk_seq (r s : regex) : regex :=
  match r with RVoid => RVoid | REps => s | _ => RSeq r s end.
Definition mk_alt (r s : regex) : regex :=
  match r, s with RVoid, _ => s | _, RVoid => r | _, _ => RAlt r s end.

Fixpoint deriv (c : ascii) (r : regex) : regex :=
  match r with
  | RVoid | REps => RVoid
  | RChar p => if p c then REps else RVoid
  | RSeq r s =>
      mk_alt (mk_seq (deriv c r) s) (if nullable r then deriv c s else RVoid)
  | RAlt r s => mk_alt (deriv c r) (deriv c s)
  | RStar r => mk_seq (deriv c r) (RStar r)
  | RUpto n r =>
      match n with
      | O => RVoid
      | S n => mk_seq (deriv c r) (RUpto n r)
      end
  end.

Fixpoint fullmatch (r : regex) (s : string) : bool :=
  match s with
  | EmptyString => nullable r
  | String c s => fullmatch (deriv c r) s
  end.

(** The language of an expression, by rules. *)
Inductive re_lang : regex → string → Prop :=
  | lang_eps : re_lang REps ""
  | lang_char p c : p c = true → re_lang (RChar p) (String c "")
  | lang_seq r s u v : re_lang r u → re_lang s v → re_lang (RSeq r s) (u +:+ v)
  | lang_alt_l r s u : re_lang r u → re_lang (RAlt r s) u
  | lang_alt_r r s u : re_lang s u → re_lang (RAlt r s) u
  | lang_star_nil r : re_lang (RStar r) ""
  | lang_star_app r u v :
      re_lang r u → re_lang (RStar r) v → re_lang (RStar r) (u +:+ v)
  | lang_upto_nil n r : re_lang (RUpto n r) ""
  | lang_upto_app n r u v :
      re_lang r u → re_lang (RUpto n r) v → re_lang (RUpto (S n) r) (u +:+ v).

Create HintDb regex.
#[export] Hint Constructors re_lang : regex.

Lemma nullable_lang r : nullable r = true ↔ re_lang r "".
Proof.
  split.
  - induction r; simpl; intros H; to_prop; try done; eauto with regex.
    + destruct H. apply (lang_seq _ _ "" ""); auto.
    + destruct H; eauto with regex.
  - intros H. remember "" as w eqn:E. revert E.
    induction H; intros E; simpl; try done; to_prop.
    + destruct u; simpl in E; [subst; auto|discriminate].
    + eauto.
    + eauto.
Qed.

Ltac inv_lang :=
  repeat match goal with
  | H : re_lang RVoid _ |- _ => inversion H
  | H : re_lang REps _ |- _ => inv H
  | H : re_lang (RSeq _ _) _ |- _ => inv H
  | H : re_lang (RAlt _ _) _ |- _ => inv H
  end.

Lemma mk_seq_lang r s w : re_lang (mk_seq r s) w ↔ re_lang (RSeq r s) w.
Proof.
  destruct r; simpl; try done; split; intros H; inv_lang; auto.
  apply (lang_seq REps s "" w); eauto with regex.
Qed.

Lemma mk_alt_lang r s w : re_lang (mk_alt r s) w ↔ re_lang (RAlt r s) w.
Proof.
  split.
  - destruct r, s; simpl; eauto with regex.
  - intros H; inv H; destruct r, s; simpl; inv_lang; eauto with regex.
Qed.

Lemma deriv_lang_sound c r w : re_lang (deriv c r) w → re_lang r (String c w).
Proof.
  revert w; induction r; simpl; intros w H; try by inversion H.
  - destruct (p c) eqn:E; inv H; eauto with regex.
  - apply mk_alt_lang in H; inv H.
    + match goal with H : re_lang (mk_seq _ _) _ |- _ => apply mk_seq_lang in H; inv H end.
      apply (lang_seq r1 r2 (String c u) v); auto.
    + destruct (nullable r1) eqn:E; inv_lang.
      apply nullable_lang in E. apply (lang_seq r1 r2 "" (String c w)); auto.
  - apply mk_alt_lang in H. inv H; eauto with regex.
  - apply mk_seq_lang in H. inv H. apply (lang_star_app r (String c u) v); auto.
  - destruct n; [by inversion H|]. apply mk_seq_lang in H. inv H.
    apply (lang_upto_app n r (String c u) v); auto.
Qed.

Lemma lang_upto_weaken n r w : re_lang (RUpto n r) w → re_lang (RUpto (S n) r) w.
Proof.
  intros H. remember (RUpto n r) as q eqn:E. revert n E.
  induction H; intros m E; inversion E; subst; eauto with regex.
Qed.

Lemma deriv_lang_complete r w :
  re_lang r w → ∀ c v, w = String c v → re_lang (deriv c r) v.
Proof.
  induction 1; intros c' w' E; simpl; try discriminate.
  - injection E as <- <-. rewrite H. constructor.
  - apply mk_alt_lang. destruct u as [|d u]; simpl in E.
    + apply lang_alt_r. rewrite (proj2 (nullable_lang r) H). auto.
    + injection E as <- <-. apply lang_alt_l, mk_seq_lang. eauto with regex.
  - apply mk_alt_lang. eauto with regex.
  - apply mk_alt_lang. eauto with regex.
  - apply mk_seq_lang. destruct u as [|d u]; simpl in E.
    + specialize (IHre_lang2 _ _ E). by apply mk_seq_lang in IHre_lang2.
    + injection E as <- <-. eauto with regex.
  - apply mk_seq_lang. destruct u as [|d u]; simpl in E.
    + specialize (IHre_lang2 _ _ E). simpl in IHre_lang2.
      destruct n; [by inversion IHre_lang2|].
      apply mk_seq_lang in IHre_lang2. inversion IHre_lang2; subst.
      constructor; auto using lang_upto_weaken.
    + injection E as <- <-. eauto with regex.
Qed.

(** The matcher decides the language. *)
Lemma fullmatch_lang r s : fullmatch r s = true ↔ re_lang r s.
Proof.
  revert r; induction s as [|c s IH]; intros r; simpl; [apply nullable_lang|].
  rewrite IH. split; [apply deriv_lang_sound|].
  intros H. by eapply deriv_lang_complete.
Qed.

(** ** [fnmatch]

    [fnmatch.fnmatch(name, pattern)] on POSIX, where [normcase] is the
    identity: [fnmatch.translate] turns the pattern into an expression, which
    must match the whole name.  The bracket rules (chunks split at hyphens,
    empty ranges dropped, [!] negation, an unclosed bracket standing for
    itself) are the library's. *)

Definition any_char : regex := RChar (λ _, true).

(** Split at the first [c], if any. *)
Fixpoint cut_at (c : ascii) (s : string) : option (string * string) :=
  match s with
  | EmptyString => None
  | String d s =>
      if (c =? d)%char then Some ("", s)
      else match cut_at c s with
           | Some (u, v) => Some (String d u, v)
           | None => None
           end
  end.

Definition first_char (s : string) : ascii :=
  match s with String c _ => c | EmptyString => "000"%char end.
Fixpoint last_char (s : string) : ascii :=
  match s with
  | EmptyString => "000"%char
  | String c EmptyString => c
  | String _ s => last_char s
  end.
Fixpoint drop_last (s : string) : string :=
  match s with
  | EmptyString | String _ EmptyString => EmptyString
  | String c s => String c (drop_last s)
  end.
Definition drop_first (s : string) : string :=
  match s with String _ s => s | EmptyString => EmptyString end.

(** The chunks of a bracket body: cut at each hyphen that can denote a range
    (the search restarts two characters after a hyphen's right end).  [acc] is
    the chunk being read and [wait] how many characters must pass first. *)
Fixpoint bracket_chunks (wait : nat) (acc s : string) : list string :=
  match s with
  | EmptyString => [acc]
  | String c s =>
      match wait with
      | S w => bracket_chunks w (acc +:+ String c "") s
      | O => if (c =? "-")%char then acc :: bracket_chunks 2 "" s
             else bracket_chunks O (acc +:+ String c "") s
      end
  end.

(** A trailing empty chunk gives its hyphen back to the one before. *)
Fixpoint close_chunks (cs : list string) : list string :=
  match cs with
  | [u; ""] => [u +:+ "-"]
  | c :: cs => c :: close_chunks cs
  | [] => []
  end.

(** Merge chunks around an empty range, from the right. *)
Fixpoint merge_chunks (cs : list string) : list string :=
  match cs with
  | [] => []
  | c :: cs =>
      match merge_chunks cs with
      | d :: ds =>
          if code (first_char d) <? code (last_char c)
          then (drop_last c +:+ drop_first d) :: ds
          else c :: d :: ds
      | [] => [c]
      end
  end.

Fixpoint in_chunks (cs : list string) (x : ascii) : bool :=
  match cs with
  | [] => false
  | c :: cs =>
      str_in x c
      || match cs with
         | d :: _ => in_range (code (last_char c)) (code (first_char d)) x
         | [] => false
         end
      || in_chunks cs x
  end.

(** The expression of a bracket body (the text between the brackets). *)
Definition bracket_regex (body : string) : regex :=
  let '(neg, rest) :=
    match body with
    | String c s => if (c =? "!")%char then (true, s) else (false, body)
    | EmptyString => (false, "")
    end in
  let chunks := merge_chunks (close_chunks (bracket_chunks 1 "" rest)) in
  let set := in_chunks chunks in
  if neg then (if (rest =? "")%string then any_char
               else RChar (λ x, negb (set x)))
  else RChar set.

(** A closing bracket right after [[] or [[!] is an ordinary member. *)
Definition cut_bracket (s : string) : option (string * string) :=
  let '(pre, s1) :=
    match s with
    | String c s' => if (c =? "!")%char then ("!", s') else ("", s)
    | EmptyString => ("", s)
    end in
  let '(pre, s2) :=
    match s1 with
    | String c s' => if (c =? "]")%char then (pre +:+ "]", s') else (pre, s1)
    | EmptyString => (pre, s1)
    end in
  match cut_at "]" s2 with
  | Some (u, v) => Some (pre +:+ u, v)
  | None => None
  end.

Fixpoint translate_fuel (fuel : nat) (pat : string) : regex :=
  match fuel with
  | O => REps
  | S fuel =>
      match pat with
      | EmptyString => REps
      | String c pat =>
          if (c =? "*")%char then RSeq (RStar any_char) (translate_fuel fuel pat)
          else if (c =? "?")%char then RSeq any_char (translate_fuel fuel pat)
          else if (c =? "[")%char then
            match cut_bracket pat with
            | Some (body, rest) =>
                RSeq (bracket_regex body) (translate_fuel fuel rest)
            | None => RSeq (rlit c) (translate_fuel fuel pat)
            end
          else RSeq (rlit c) (translate_fuel fuel pat)
      end
  end.

(** One step of fuel per character is enough: every step consumes one. *)
Definition translate (pat : string) : regex :=
  translate_fuel (String.length pat) pat.

Definition fnmatch (name pat : string) : bool := fullmatch (translate pat) name.

Example fnmatch_star : fnmatch "jira.issue.update" "jira.*" = true.
Proof. reflexivity. Qed.
Example fnmatch_class : map (λ s, fnmatch s "x[a-c!-]?") ["xb1"; "x!1"; "x-1"; "xd1"; "xb"]
  = [true; true; true; false; false].
Proof. reflexivity. Qed.
Example fnmatch_neg : map (λ s, fnmatch s "[!a]*") ["b"; "a"; ""] = [true; false; false].
Proof. reflexivity. Qed.
Example fnmatch_open : map (λ s, fnmatch s "a[b") ["a[b"; "ab"] = [true; false].
Proof. reflexivity. Qed.

(** A pattern without metacharacters matches exactly itself. *)
Definition is_meta (c : ascii) : bool :=
  (c =? "*")%char || (c =? "?")%char || (c =? "[")%char.

Lemma translate_literal n pat s :
  (String.length pat ≤ n)%nat → str_exists is_meta pat = false →
  re_lang (translate_fuel n pat) s ↔ s = pat.
Proof.
  unfold str_exists. rewrite negb_false_iff.
  revert pat s; induction n as [|n IH]; intros pat s Hn Hm.
  - destruct pat; simpl in *; [|lia]. split; intros H; subst; [by inv H|constructor].
  - destruct pat as [|c pat]; simpl in *.
    { split; intros H; subst; [by inv H|constructor]. }
    apply andb_true_iff in Hm as [Hc Hm].
    unfold is_meta in Hc. rewrite negb_true_iff, !orb_false_iff in Hc.
    destruct Hc as [[-> ->] ->].
    split.
    + intros H; inv H. apply IH in H4 as ->; [|lia|done]. inv H2.
      match goal with H : _ = true |- _ => apply Ascii.eqb_eq in H as -> end. done.
    + intros ->. apply (lang_seq _ _ (String c "") pat).
      * constructor. apply Ascii.eqb_refl.
      * apply IH; [lia|done|done].
Qed.

Lemma fnmatch_literal pat s :
  str_exists is_meta pat = false → fnmatch s pat = true ↔ s = pat.
Proof.
  intros H. unfold fnmatch, translate. rewrite fullmatch_lang.
  by apply translate_literal.
Qed.

Lemma re_lang_any s : re_lang (RStar any_char) s.
Proof.
  induction s as [|c s IH]; [constructor|].
  apply (lang_star_app any_char (String c "") s); [by constructor|done].
Qed.

Lemma append_cons c s t : String c s +:+ t = String c (s +:+ t).
Proof. done. Qed.

Lemma append_nil_r s : s +:+ "" = s.
Proof. induction s as [|c s IH]; [done|]. by rewrite append_cons, IH. Qed.

Lemma append_assoc s t u : (s +:+ t) +:+ u = s +:+ (t +:+ u).
Proof. induction s as [|c s IH]; [done|]. by rewrite !append_cons, IH. Qed.

Lemma length_append s t :
  String.length (s +:+ t) = (String.length s + String.length t)%nat.
Proof. induction s as [|c s IH]; [done|]. rewrite append_cons. simpl. by rewrite IH. Qed.

(** "p*" matches exactly the names that start with a literal [p]. *)
Lemma translate_prefix n p s :
  (String.length p < n)%nat → str_exists is_meta p = false →
  re_lang (translate_fuel n (p +:+ "*")) s ↔ ∃ t, s = p +:+ t.
Proof.
  unfold str_exists. rewrite negb_false_iff.
  revert p s; induction n as [|n IH]; intros p s Hn Hm; [lia|].
  destruct p as [|c p]; rewrite ?append_cons; simpl in *.
  - split; [eauto|]. intros _. rewrite <- (append_nil_r s).
    apply lang_seq; [apply re_lang_any|]. destruct n; constructor.
  - apply andb_true_iff in Hm as [Hc Hm].
    unfold is_meta in Hc. rewrite negb_true_iff, !orb_false_iff in Hc.
    destruct Hc as [[-> ->] ->].
    split.
    + intros H; inv H. apply IH in H4 as [t ->]; [|lia|done]. inv H2.
      match goal with H : _ = true |- _ => apply Ascii.eqb_eq in H as -> end. eauto.
    + intros [t ->]. apply (lang_seq _ _ (String c "") (p +:+ t)).
      * constructor. apply Ascii.eqb_refl.
      * apply IH; [lia|done|eauto].
Qed.

Lemma fnmatch_prefix p s :
  str_exists is_meta p = false →
  fnmatch s (p +:+ "*") = true ↔ ∃ t, s = p +:+ t.
Proof.
  intros H. unfold fnmatch, translate. rewrite fullmatch_lang.
  apply translate_prefix; [|done]. rewrite length_append. simpl. lia.
Qed.

Lemma fnmatch_all s : fnmatch s "*" = true.
Proof. apply (fnmatch_prefix "" s); [done|eauto]. Qed.

(** ** Facts about strings used by the models *)

Lemma str_forall_app p s t : str_forall p (s +:+ t) = str_forall p s && str_forall p t.
Proof.
  induction s as [|c s IH]; rewrite ?append_cons; simpl; [done|].
  rewrite IH. by destruct (p c), (str_forall p s).
Qed.

Lemma rstrip_by_idem p s : rstrip_by p (rstrip_by p s) = rstrip_by p s.
Proof.
  induction s as [|c s IH]; simpl; [done|].
  destruct (rstrip_by p s) eqn:E; [destruct (p c) eqn:Hc; simpl; by rewrite ?Hc|].
  simpl in *. by rewrite IH.
Qed.

Lemma lstrip_by_idem p s : lstrip_by p (lstrip_by p s) = lstrip_by p s.
Proof.
  induction s as [|c s IH]; simpl; [done|]. destruct (p c) eqn:Hc; [done|].
  simpl. by rewrite Hc.
Qed.

Lemma lstrip_rstrip p s :
  lstrip_by p s = s → lstrip_by p (rstrip_by p s) = rstrip_by p s.
Proof.
  destruct s as [|c s]; simpl; [done|].
  destruct (p c) eqn:Hc; intros H.
  - exfalso. assert (String.length (lstrip_by p s) ≤ String.length s)%nat as Hl.
    { clear. induction s; simpl; [lia|]. destruct (p a); simpl; lia. }
    rewrite H in Hl. simpl in Hl. lia.
  - destruct (rstrip_by p s); simpl; by rewrite Hc.
Qed.

(** [s.strip().strip() == s.strip()]. *)
Lemma strip_idem s : strip (strip s) = strip s.
Proof.
  unfold strip. rewrite lstrip_rstrip by apply lstrip_by_idem.
  apply rstrip_by_idem.
Qed.

Lemma utf8_length_nonneg s : 0 ≤ utf8_length s.
Proof. induction s as [|c s IH]; cbn [utf8_length]; [lia|]. destruct (_ <? _); lia. Qed.

Lemma utf8_length_spec s : Z.of_nat (length (utf8 s)) = utf8_length s.
Proof.
  induction s as [|c s IH]; cbn [utf8 utf8_length]; [done|].
  rewrite length_app. destruct (_ <? _); simpl length; lia.
Qed.

Lemma str_le_refl s : str_le s s = true.
Proof. induction s as [|c s IH]; simpl; [done|]. by rewrite Ascii.eqb_refl. Qed.

Lemma code_inj c d : code c = code d → c = d.
Proof.
  unfold code. intros H%Nat2Z.inj.
  by rewrite <- (ascii_nat_embedding c), <- (ascii_nat_embedding d), H.
Qed.

Lemma str_le_total s t : str_le s t = true ∨ str_le t s = true.
Proof.
  revert t; induction s as [|c s IH]; intros [|d t]; simpl; auto.
  destruct (Ascii.eqb_spec c d) as [->|Hcd]; [rewrite Ascii.eqb_refl; auto|].
  destruct (Ascii.eqb_spec d c) as [->|_]; [done|].
  assert (code c ≠ code d) by (intros ?%code_inj; done). rewrite !Z.ltb_lt. lia.
Qed.

Lemma str_le_antisym s t : str_le s t = true → str_le t s = true → s = t.
Proof.
  revert t; induction s as [|c s IH]; intros [|d t]; simpl; try done.
  destruct (Ascii.eqb_spec c d) as [->|Hcd].
  - rewrite Ascii.eqb_refl. intros; f_equal; auto.
  - destruct (Ascii.eqb_spec d c) as [->|_]; [done|]. rewrite !Z.ltb_lt. lia.
Qed.

Lemma str_le_trans s t u : str_le s t = true → str_le t u = true → str_le s u = true.
Proof.
  revert t u; induction s as [|c s IH]; intros [|d t] [|e u]; simpl; try done.
  destruct (Ascii.eqb_spec c d), (Ascii.eqb_spec d e), (Ascii.eqb_spec c e);
    subst; rewrite ?Z.ltb_lt; try done; eauto; lia.
Qed.
