(* ===== verification/PyJson.v ===== *)
(** * PyJson: JSON-compatible Python values

    A [json] is a value built from [None], booleans, integers, floats,
    strings, lists (or tuples) and mappings with string keys in insertion
    order.  A float is represented by the text [float.__repr__] gives it, which
    identifies it; the non-finite ones are "nan", "inf" and "-inf".  The file
    defines the dictionary reads ([d.get], [d[k]], [k in d]), [str(value)],
    [json.dumps(..., sort_keys=True, separators=(",", ":"),
    ensure_ascii=False, allow_nan=False)], and the laws about them. *)

From S2P Require Import Prelude PyText.
From Stdlib Require Import Ascii.

Open Scope Z_scope.

Inductive json : Type :=
  | JNull
  | JBool (b : bool)
  | JInt (z : Z)
  | JFloat (repr : string)
  | JStr (s : string)
  | JList (l : list json)
  | JDict (kvs : list (string * json)).

(** A mapping: its items in iteration order. *)
Abbreviation dict := (list (string * json)).

Section json_ind.
Context (P : json → Prop).
Hypothesis Hnull : P JNull.
Hypothesis Hbool : ∀ b, P (JBool b).
Hypothesis Hint : ∀ z, P (JInt z).
Hypothesis Hfloat : ∀ s, P (JFloat s).
Hypothesis Hstr : ∀ s, P (JStr s).
Hypothesis Hlist : ∀ l, Forall P l → P (JList l).
Hypothesis Hdict : ∀ kvs, Forall (λ kv, P kv.2) kvs → P (JDict kvs).

(** Induction that reaches the elements of lists and mappings. *)
Fixpoint json_nested_ind (v : json) : P v :=
  match v with
  | JNull => Hnull
  | JBool b => Hbool b
  | JInt z => Hint z
  | JFloat s => Hfloat s
  | JStr s => Hstr s
  | JList l =>
      Hlist l ((fix go (l : list json) : Forall P l :=
        match l with
        | [] => Forall_nil_2 _
        | v :: l => Forall_cons_2 _ _ _ (json_nested_ind v) (go l)
        end) l)
  | JDict kvs =>
      Hdict kvs ((fix go (l : dict) : Forall (λ kv, P kv.2) l :=
        match l with
        | [] => Forall_nil_2 _
        | kv :: l =>
            Forall_cons_2 (λ kv, P kv.2) kv l
              (let '(k, v) as p := kv return P p.2 in json_nested_ind v) (go l)
        end) kvs)
  end.
End json_ind.

(** ** Reading mappings *)

(** [d[k]], as an option. *)
Fixpoint dict_lookup (d : dict) (k : string) : option json :=
  match d with
  | [] => None
  | (k', v) :: d => if (k =? k')%string then Some v else dict_lookup d k
  end.

(** [k in d]. *)
Definition dict_mem (d : dict) (k : string) : bool :=
  match dict_lookup d k with Some _ => true | None => false end.

(** [d.get(k, default)] and [d.get(k)]. *)
Definition dict_get_or (d : dict) (k : string) (default : json) : json :=
  match dict_lookup d k with Some v => v | None => default end.
Definition dict_get (d : dict) (k : string) : json := dict_get_or d k JNull.

(** [d[k]], which raises [KeyError]. *)
Definition dict_item (d : dict) (k : string) : result json :=
  or_raise (dict_lookup d k) (PyKeyError k).

(** [d[k] = v] on a mapping: an existing key keeps its position. *)
Fixpoint dict_set (d : dict) (k : string) (v : json) : dict :=
  match d with
  | [] => [(k, v)]
  | (k', w) :: d => if (k =? k')%string then (k', v) :: d else (k', w) :: dict_set d k v
  end.

Definition is_none (v : json) : bool := match v with JNull => true | _ => false end.
Definition is_mapping (v : json) : bool := match v with JDict _ => true | _ => false end.
Definition is_list (v : json) : bool := match v with JList _ => true | _ => false end.
Definition is_str (v : json) : bool := match v with JStr _ => true | _ => false end.

(** The float is finite: its text is none of "nan", "inf", "-inf". *)
Definition float_finite (repr : string) : bool :=
  negb ((repr =? "nan") || (repr =? "inf") || (repr =? "-inf"))%string.

(** ** [str(value)] *)

Definition hex_digit (n : Z) : ascii :=
  if n <? 10 then chr (48 + n) else chr (87 + n).

Definition hex2 (n : Z) : string :=
  String (hex_digit (Z.shiftr n 4)) (String (hex_digit (Z.land n 15)) "").

(** One character of [repr(s)] between [q] quotes. *)
Definition repr_char (q c : ascii) : string :=
  if (c =? "\")%char || (c =? q)%char then String "\" (String c "")
  else if code c =? 10 then "\n"
  else if code c =? 13 then "\r"
  else if code c =? 9 then "\t"
  else if is_control c || (code c =? 160) then "\x" +:+ hex2 (code c)
  else String c "".

Fixpoint concat_map (f : ascii → string) (s : string) : string :=
  match s with
  | EmptyString => EmptyString
  | String c s => f c +:+ concat_map f s
  end.

Definition quote_char : ascii := "034".

Definition repr_str (s : string) : string :=
  let q := if str_in "'" s && negb (str_in quote_char s) then quote_char else "'"%char in
  String q (concat_map (repr_char q) s +:+ String q "").

Fixpoint py_repr (v : json) : string :=
  match v with
  | JNull => "None"
  | JBool b => if b then "True" else "False"
  | JInt z => pretty z
  | JFloat r => r
  | JStr s => repr_str s
  | JList l => "[" +:+ str_join ", " (map py_repr l) +:+ "]"
  | JDict kvs =>
      "{" +:+ str_join ", "
        (map (λ kv, let '(k, v) := kv in repr_str k +:+ ": " +:+ py_repr v) kvs) +:+ "}"
  end.

(** [str(value)]. *)
Definition py_str (v : json) : string :=
  match v with JStr s => s | _ => py_repr v end.

(** ** [json.dumps] *)

Definition key_le {A} (x y : string * A) : bool := str_le x.1 y.1.

(** [sort_keys=True], at every level. *)
Fixpoint norm (v : json) : json :=
  match v with
  | JList l => JList (map norm l)
  | JDict kvs => JDict (sort_by key_le (map (λ kv, let '(k, v) := kv in (k, norm v)) kvs))
  | v => v
  end.

(** One character of a JSON string literal with [ensure_ascii=False]. *)
Definition json_char (c : ascii) : string :=
  if (c =? quote_char)%char || (c =? "\")%char then String "\" (String c "")
  else if code c =? 10 then "\n"
  else if code c =? 13 then "\r"
  else if code c =? 9 then "\t"
  else if code c =? 12 then "\f"
  else if code c =? 8 then "\b"
  else if code c <? 32 then "\u00" +:+ hex2 (code c)
  else String c "".

Definition json_str (s : string) : string :=
  String quote_char (concat_map json_char s +:+ String quote_char "").

(** Serialisation in the given key order. *)
Fixpoint render (v : json) : string :=
  match v with
  | JNull => "null"
  | JBool b => if b then "true" else "false"
  | JInt z => pretty z
  | JFloat r => r
  | JStr s => json_str s
  | JList l => "[" +:+ str_join "," (map render l) +:+ "]"
  | JDict kvs =>
      "{" +:+ str_join ","
        (map (λ kv, let '(k, v) := kv in json_str k +:+ ":" +:+ render v) kvs) +:+ "}"
  end.

Fixpoint all_finite (v : json) : bool :=
  match v with
  | JFloat r => float_finite r
  | JList l => forallb all_finite l
  | JDict kvs => forallb (λ kv, let '(_, v) := kv in all_finite v) kvs
  | _ => true
  end.

(** The canonical text; [allow_nan=False] raises [ValueError]. *)
Definition canonical_text (v : json) : string := render (norm v).
Definition dumps (v : json) : result string :=
  if all_finite v then Ok (canonical_text v)
  else Err (PyValueError "Out of range float values are not JSON compliant").

Example dumps_example :
  dumps (JDict [("b", JList [JInt (-3); JBool true; JNull]);
                ("a", JStr (String "010" (String quote_char "\x")))])
  = Ok (String "{" (json_str "a" +:+ ":" +:+ json_str (String "010" (String quote_char "\x"))
        +:+ "," +:+ json_str "b" +:+ ":[-3,true,null]}")).
Proof. vm_compute. reflexivity. Qed.

(** ** Laws *)

Lemma key_le_total {A} (x y : string * A) : key_le x y = true ∨ key_le y x = true.
Proof. apply str_le_total. Qed.

Lemma dict_set_lookup d k v k' :
  dict_lookup (dict_set d k v) k' = if (k' =? k)%string then Some v else dict_lookup d k'.
Proof.
  induction d as [|[k1 w] d IH]; simpl; [done|].
  destruct (String.eqb_spec k k1) as [->|Hk]; simpl.
  - by destruct (k' =? k1)%string.
  - rewrite IH. destruct (String.eqb_spec k' k1) as [->|Hk']; [|done].
    by destruct (String.eqb_spec k1 k) as [->|_].
Qed.

Lemma norm_idem v : norm (norm v) = norm v.
Proof.
  induction v as [| | | | |l IH|kvs IH] using json_nested_ind; simpl; try done.
  - f_equal. rewrite map_map. apply map_ext_Forall. done.
  - f_equal.
    set (f := λ kv : string * json, let '(k, v) := kv in (k, norm v)).
    assert (∀ l : dict, Forall (λ kv, norm kv.2 = kv.2) l → map f l = l) as Hid.
    { induction 1 as [|[k w] l Hw _ IHl]; simpl in *; congruence. }
    assert (map f (sort_by key_le (map f kvs)) = sort_by key_le (map f kvs)) as ->.
    { apply Hid. rewrite sort_by_perm. apply Forall_map.
      induction IH as [|[k w] l Hw _ IHl]; constructor; auto. }
    apply sort_by_idem, key_le_total.
Qed.
