(* ===== verification/PyHash.v ===== *)
(** * PyHash: [hashlib.sha256] and [hmac]

    SHA-256 (FIPS 180-4) over lists of bytes, 32-bit words as [Z] with the
    wrap-around written out, and HMAC (RFC 2104) on top of it.  The models
    call [sha256] on text, which is encoded to UTF-8 first, and read the
    lowercase hexadecimal digest.  The digest's shape is proved; nothing here
    says it has no collisions, and the theorems about fingerprints are stated
    "... or here is a collision". *)

From S2P Require Import Prelude PyText PyJson.

Open Scope Z_scope.

Definition w32 (x : Z) : Z := Z.land x 4294967295.
Definition add32 (x y : Z) : Z := w32 (x + y).
Definition rotr (n x : Z) : Z :=
  Z.lor (Z.shiftr x n) (w32 (Z.shiftl x (32 - n))).

Definition ch x y z := Z.lxor (Z.land x y) (Z.land (Z.lxor x 4294967295) z).
Definition maj x y z := Z.lxor (Z.lxor (Z.land x y) (Z.land x z)) (Z.land y z).
Definition big_sigma0 x := Z.lxor (Z.lxor (rotr 2 x) (rotr 13 x)) (rotr 22 x).
Definition big_sigma1 x := Z.lxor (Z.lxor (rotr 6 x) (rotr 11 x)) (rotr 25 x).
Definition small_sigma0 x := Z.lxor (Z.lxor (rotr 7 x) (rotr 18 x)) (Z.shiftr x 3).
Definition small_sigma1 x := Z.lxor (Z.lxor (rotr 17 x) (rotr 19 x)) (Z.shiftr x 10).

(** The constants are 32 fractional bits of the cube (and square) roots of the
    first primes, as the standard defines them. *)
Definition divides_none (n : Z) : bool :=
  forallb (λ d, negb (n mod d =? 0)) (seqZ 2 (n - 2)).

Definition first_primes : list Z :=
  Eval vm_compute in List.filter divides_none (seqZ 2 310).

(** The integer cube root, one bit at a time. *)
Fixpoint cube_root (bits : nat) (n r : Z) : Z :=
  match bits with
  | O => r
  | S k =>
      let r' := r + 2 ^ Z.of_nat k in
      cube_root k n (if r' * r' * r' <=? n then r' else r)
  end.

Definition sha_k : list Z :=
  Eval vm_compute in map (λ p, w32 (cube_root 36 (Z.shiftl p 96) 0)) first_primes.

Definition sha_init : list Z :=
  Eval vm_compute in map (λ p, w32 (Z.sqrt (Z.shiftl p 64))) (take 8 first_primes).

(** Big-endian words and bytes. *)
Fixpoint words (bs : list Z) : list Z :=
  match bs with
  | a :: b :: c :: d :: bs =>
      (Z.shiftl a 24 + Z.shiftl b 16 + Z.shiftl c 8 + d) :: words bs
  | _ => []
  end.

Fixpoint be_bytes (n : nat) (x : Z) : list Z :=
  match n with
  | O => []
  | S n => Z.land (Z.shiftr x (8 * Z.of_nat n)) 255 :: be_bytes n x
  end.

Definition sha_pad (bs : list Z) : list Z :=
  let l := Z.of_nat (length bs) in
  bs ++ 128 :: repeat 0 (Z.to_nat ((55 - l) mod 64)) ++ be_bytes 8 (8 * l).

(** The message schedule, most recent word first. *)
Fixpoint schedule (n : nat) (ws : list Z) : list Z :=
  match n with
  | O => ws
  | S n =>
      let w i := nth i ws 0 in
      schedule n
        (add32 (add32 (small_sigma1 (w 1%nat)) (w 6%nat))
               (add32 (small_sigma0 (w 14%nat)) (w 15%nat)) :: ws)
  end.

Definition sha_round (st : list Z) (kw : Z * Z) : list Z :=
  match st with
  | [a; b; c; d; e; f; g; h] =>
      let t1 := add32 (add32 (add32 h (big_sigma1 e)) (ch e f g)) (add32 kw.1 kw.2) in
      let t2 := add32 (big_sigma0 a) (maj a b c) in
      [add32 t1 t2; a; b; c; add32 d t1; e; f; g]
  | _ => st
  end.

Definition sha_block (st ws : list Z) : list Z :=
  zip_with add32 st
    (fold_left sha_round (combine sha_k (rev (schedule 48 (rev ws)))) st).

Fixpoint sha_blocks (n : nat) (st ws : list Z) : list Z :=
  match n with
  | O => st
  | S n => sha_blocks n (sha_block st (take 16 ws)) (drop 16 ws)
  end.

Definition sha256_bytes (bs : list Z) : list Z :=
  let ws := words (sha_pad bs) in
  flat_map (be_bytes 4) (sha_blocks (length ws / 16) sha_init ws).

Definition hexdigest (bs : list Z) : string :=
  foldr (λ b s, hex2 b +:+ s) "" bs.

(** [hashlib.sha256(text.encode("utf-8")).hexdigest()]. *)
Definition sha256 (s : string) : string := hexdigest (sha256_bytes (utf8 s)).

Definition hmac_key (key : list Z) : list Z :=
  let k := if (64 <? length key)%nat then sha256_bytes key else key in
  k ++ repeat 0 (64 - length k).

(** [hmac.new(key, text.encode("utf-8"), hashlib.sha256).hexdigest()]. *)
Definition hmac_sha256 (key : list Z) (s : string) : string :=
  let k := hmac_key key in
  hexdigest (sha256_bytes (map (Z.lxor 92) k
    ++ sha256_bytes (map (Z.lxor 54) k ++ utf8 s))).

Example sha256_abc :
  sha256 "abc" = "ba7816bf8f01cfea414140de5dae2223b00361a396177a9cb410ff61f20015ad".
Proof. vm_compute. reflexivity. Qed.
Example hmac_rfc4231_2 :
  hmac_sha256 (utf8 "Jefe") "what do ya want for nothing?"
  = "5bdcc146bf60754e6a042426089575c75a003f089d2739839dec58b964ec3843".
Proof. vm_compute. reflexivity. Qed.

(** ** The digest is 64 lowercase hexadecimal digits *)

Lemma hex_digit_lower n : 0 ≤ n < 16 → is_lower_hex (hex_digit n) = true.
Proof.
  intros H. assert (n ∈ seqZ 0 16) as Hin by (apply elem_of_seqZ; lia).
  revert Hin. clear. unfold seqZ. simpl. rewrite !elem_of_cons. intros Hin.
  repeat (destruct Hin as [->|Hin]; [reflexivity|]). by apply elem_of_nil in Hin.
Qed.

Lemma hexdigest_shape bs :
  Forall (λ b, 0 ≤ b < 256) bs →
  String.length (hexdigest bs) = (2 * length bs)%nat ∧
  str_forall is_lower_hex (hexdigest bs) = true.
Proof.
  induction 1 as [|b bs Hb _ [IH1 IH2]]; [done|]. 
  change (hexdigest (b :: bs)) with (hex2 b +:+ hexdigest bs). unfold hex2.
  rewrite !append_cons. cbn [String.length str_forall length].
  split; [change ("" +:+ hexdigest bs) with (hexdigest bs); lia|].
  assert (0 ≤ Z.shiftr b 4 < 16).
  { rewrite Z.shiftr_div_pow2 by lia. change (2 ^ 4) with 16.
    split; [apply Z.div_pos; lia|apply Z.div_lt_upper_bound; lia]. }
  assert (0 ≤ Z.land b 15 < 16).
  { change 15 with (Z.ones 4). rewrite Z.land_ones by lia. apply Z.mod_pos_bound. lia. }
  rewrite !hex_digit_lower by done. done.
Qed.

Lemma be_bytes_shape n x :
  length (be_bytes n x) = n ∧ Forall (λ b, 0 ≤ b < 256) (be_bytes n x).
Proof.
  induction n as [|n [IH1 IH2]]; cbn [be_bytes length]; [done|].
  split; [by rewrite IH1|]. constructor; [|done].
  change 255 with (Z.ones 8). rewrite Z.land_ones by lia. apply Z.mod_pos_bound. lia.
Qed.

Lemma flat_be_bytes ws :
  length (flat_map (be_bytes 4) ws) = (4 * length ws)%nat ∧
  Forall (λ b, 0 ≤ b < 256) (flat_map (be_bytes 4) ws).
Proof.
  induction ws as [|w ws [IH1 IH2]]; cbn [flat_map length]; [done|].
  destruct (be_bytes_shape 4 w) as [H1 H2].
  rewrite length_app. split; [lia|]. by apply Forall_app.
Qed.

Lemma sha_round_length st kw : length st = 8%nat → length (sha_round st kw) = 8%nat.
Proof. intros H. by do 9 (destruct st as [|? st]; try discriminate). Qed.

Lemma sha_rounds_length kws st :
  length st = 8%nat → length (fold_left sha_round kws st) = 8%nat.
Proof. revert st; induction kws; simpl; auto using sha_round_length. Qed.

Lemma sha_blocks_length n st ws :
  length st = 8%nat → length (sha_blocks n st ws) = 8%nat.
Proof.
  revert st ws; induction n as [|n IH]; intros st ws H; [done|]. cbn [sha_blocks].
  apply IH. unfold sha_block. rewrite length_zip_with, sha_rounds_length, H; done.
Qed.

Lemma sha256_bytes_shape bs :
  length (sha256_bytes bs) = 32%nat ∧ Forall (λ b, 0 ≤ b < 256) (sha256_bytes bs).
Proof.
  unfold sha256_bytes. destruct (flat_be_bytes
    (sha_blocks (length (words (sha_pad bs)) / 16) sha_init (words (sha_pad bs)))) as [H1 H2].
  rewrite sha_blocks_length in H1 by done. done.
Qed.

Lemma hexdigest_sha256_hex bs : is_sha256_hex (hexdigest (sha256_bytes bs)) = true.
Proof.
  destruct (sha256_bytes_shape bs) as [H1 H2].
  destruct (hexdigest_shape _ H2) as [H3 H4]. unfold is_sha256_hex, len.
  rewrite H3, H1, H4. done.
Qed.

Lemma sha256_hex s : is_sha256_hex (sha256 s) = true.
Proof. apply hexdigest_sha256_hex. Qed.

Lemma hmac_hex k s : is_sha256_hex (hmac_sha256 k s) = true.
Proof. apply hexdigest_sha256_hex. Qed.

#[global] Opaque sha256 hmac_sha256.
