(* ===== verification/PyTime.v ===== *)
(** * PyTime: [datetime] and [UUID]

    A [datetime] has the fields of Python's class; [utcoffset] is [None] for a
    naive value and the offset in whole seconds otherwise.  [instant] is the
    moment an aware value denotes, which is what its comparisons compare.
    [fromisoformat] reads the form [isoformat] writes (the library also accepts
    other ISO 8601 spellings, which the runtime never emits).  A [uuid] is the
    128-bit integer [UUID.int]; [uuid_parse] is [UUID(s)], with the numerals
    [int(s, 16)] accepts. *)

From S2P Require Import Prelude PyText PyJson.
From Stdlib Require Import Ascii.

Open Scope Z_scope.

(** ** Fixed-width numerals *)

Definition digit_val (c : ascii) : option Z :=
  if is_digit c then Some (code c - 48)
  else if in_range 97 102 c then Some (code c - 87)
  else if in_range 65 70 c then Some (code c - 55)
  else None.

Fixpoint fixed (b : Z) (w : nat) (n : Z) : string :=
  match w with
  | O => ""
  | S w => String (hex_digit ((n / b ^ Z.of_nat w) mod b)) (fixed b w n)
  end.

(** Read [w] digits in base [b]: the value and the rest. *)
Fixpoint read_fixed (b : Z) (w : nat) (s : string) : option (Z * string) :=
  match w with
  | O => Some (0, s)
  | S w =>
      match s with
      | EmptyString => None
      | String c s =>
          match digit_val c, read_fixed b w s with
          | Some d, Some (v, r) =>
              if d <? b then Some (d * b ^ Z.of_nat w + v, r) else None
          | _, _ => None
          end
      end
  end.

Lemma digit_val_hex_digit n : 0 ≤ n < 16 → digit_val (hex_digit n) = Some n.
Proof.
  intros H. assert (n ∈ seqZ 0 16) as Hin by (apply elem_of_seqZ; lia).
  revert Hin. clear. unfold seqZ. simpl. rewrite !elem_of_cons. intros Hin.
  repeat (destruct Hin as [->|Hin]; [reflexivity|]). by apply elem_of_nil in Hin.
Qed.

Lemma read_fixed_fixed b w n r :
  2 ≤ b ≤ 16 →
  read_fixed b w (fixed b w n +:+ r) = Some (n mod b ^ Z.of_nat w, r).
Proof.
  intros Hb. induction w as [|w IH]; [simpl; by rewrite Z.mod_1_r|].
  cbn [fixed]. rewrite append_cons. cbn [read_fixed].
  pose proof (Z.mod_pos_bound (n / b ^ Z.of_nat w) b ltac:(lia)).
  rewrite digit_val_hex_digit, IH by lia.
  destruct (Z.ltb_spec ((n / b ^ Z.of_nat w) mod b) b); [|lia]. do 2 f_equal.
  rewrite Nat2Z.inj_succ, Z.pow_succ_r, (Z.mul_comm b) by lia.
  rewrite Z.rem_mul_r by lia. lia.
Qed.

Lemma read_fixed_small b w n r :
  2 ≤ b ≤ 16 → 0 ≤ n < b ^ Z.of_nat w →
  read_fixed b w (fixed b w n +:+ r) = Some (n, r).
Proof. intros. rewrite read_fixed_fixed, Z.mod_small by lia. done. Qed.

Lemma read_fixed_end b w n :
  2 ≤ b ≤ 16 → 0 ≤ n < b ^ Z.of_nat w →
  read_fixed b w (fixed b w n) = Some (n, "").
Proof. intros. rewrite <- (append_nil_r (fixed b w n)). by apply read_fixed_small. Qed.

Lemma fixed_lower_hex b w n : 2 ≤ b ≤ 16 → str_forall is_lower_hex (fixed b w n) = true.
Proof.
  intros Hb. induction w as [|w IH]; simpl; [done|].
  rewrite IH, andb_true_r.
  pose proof (Z.mod_pos_bound (n / b ^ Z.of_nat w) b ltac:(lia)).
  rewrite <- (Z2Nat.id ((n / b ^ Z.of_nat w) mod b)) by lia.
  set (k := Z.to_nat _). assert (k < 16)%nat as Hk by lia. clearbody k. clear -Hk.
  by do 16 (destruct k as [|k]; [reflexivity|]); lia.
Qed.

(** ** Datetimes *)

Record datetime : Type := mk_datetime {
  dt_year : Z; dt_month : Z; dt_day : Z;
  dt_hour : Z; dt_minute : Z; dt_second : Z; dt_micro : Z;
  dt_utcoffset : option Z;
}.

#[export] Instance datetime_eq_dec : EqDecision datetime.
Proof. solve_decision. Defined.

Definition is_leap (y : Z) : bool :=
  (y mod 4 =? 0) && (negb (y mod 100 =? 0) || (y mod 400 =? 0)).

Definition days_in_month (y m : Z) : Z :=
  if (m =? 2) && is_leap y then 29
  else nth (Z.to_nat m) [0; 31; 28; 31; 30; 31; 30; 31; 31; 30; 31; 30; 31] 0.

Definition days_before_month (y m : Z) : Z :=
  nth (Z.to_nat m) [0; 0; 31; 59; 90; 120; 151; 181; 212; 243; 273; 304; 334] 0
  + (if (2 <? m) && is_leap y then 1 else 0).

Definition ymd_ordinal (y m d : Z) : Z :=
  (y - 1) * 365 + (y - 1) / 4 - (y - 1) / 100 + (y - 1) / 400
  + days_before_month y m + d.

(** Microseconds since 0001-01-01T00:00 UTC (naive values read as UTC). *)
Definition instant (d : datetime) : Z :=
  (((ymd_ordinal (dt_year d) (dt_month d) (dt_day d) - 1) * 86400
    + dt_hour d * 3600 + dt_minute d * 60 + dt_second d
    - default 0 (dt_utcoffset d)) * 1000000) + dt_micro d.

Definition is_aware (d : datetime) : bool :=
  match dt_utcoffset d with Some _ => true | None => false end.

Definition dt_le (a b : datetime) : bool := instant a <=? instant b.
Definition dt_lt (a b : datetime) : bool := instant a <? instant b.

(** What the constructor accepts. *)
Definition datetime_valid (d : datetime) : bool :=
  (1 <=? dt_year d) && (dt_year d <=? 9999)
  && (1 <=? dt_month d) && (dt_month d <=? 12)
  && (1 <=? dt_day d) && (dt_day d <=? days_in_month (dt_year d) (dt_month d))
  && (0 <=? dt_hour d) && (dt_hour d <=? 23)
  && (0 <=? dt_minute d) && (dt_minute d <=? 59)
  && (0 <=? dt_second d) && (dt_second d <=? 59)
  && (0 <=? dt_micro d) && (dt_micro d <=? 999999)
  && match dt_utcoffset d with
     | Some o => (-86400 <? o) && (o <? 86400)
     | None => true
     end.

Definition offset_text (o : Z) : string :=
  let a := Z.abs o in
  (if o <? 0 then "-" else "+") +:+ fixed 10 2 (a / 3600) +:+ ":" +:+
  fixed 10 2 (a / 60 mod 60) +:+
  (if a mod 60 =? 0 then "" else ":" +:+ fixed 10 2 (a mod 60)).

(** [d.isoformat()]. *)
Definition isoformat (d : datetime) : string :=
  fixed 10 4 (dt_year d) +:+ "-" +:+ fixed 10 2 (dt_month d) +:+ "-" +:+
  fixed 10 2 (dt_day d) +:+ "T" +:+ fixed 10 2 (dt_hour d) +:+ ":" +:+
  fixed 10 2 (dt_minute d) +:+ ":" +:+ fixed 10 2 (dt_second d) +:+
  (if dt_micro d =? 0 then "" else "." +:+ fixed 10 6 (dt_micro d)) +:+
  match dt_utcoffset d with None => "" | Some o => offset_text o end.

Definition read_char (c : ascii) (s : string) : option string :=
  match s with
  | String d s => if (c =? d)%char then Some s else None
  | EmptyString => None
  end.

(** The optional seconds of an offset, at the end of the text. *)
Definition read_offset_seconds (s : string) : option Z :=
  match s with
  | EmptyString => Some 0
  | _ => s ← read_char ":" s; '(v, r) ← read_fixed 10 2 s;
         if (r =? "")%string then Some v else None
  end.

Definition read_offset (s : string) : option (option Z) :=
  match s with
  | EmptyString => Some None
  | String c s =>
      if (c =? "+")%char || (c =? "-")%char then
        '(h, s) ← read_fixed 10 2 s; s ← read_char ":" s;
        '(m, s) ← read_fixed 10 2 s; x ← read_offset_seconds s;
        let o := h * 3600 + m * 60 + x in
        Some (Some (if (c =? "-")%char then - o else o))
      else None
  end.

Definition read_micro (s : string) : option (Z * string) :=
  match read_char "." s with
  | Some s => read_fixed 10 6 s
  | None => Some (0, s)
  end.

Definition read_datetime (s : string) : option datetime :=
  '(y, s) ← read_fixed 10 4 s; s ← read_char "-" s;
  '(mo, s) ← read_fixed 10 2 s; s ← read_char "-" s;
  '(d, s) ← read_fixed 10 2 s; s ← read_char "T" s;
  '(h, s) ← read_fixed 10 2 s; s ← read_char ":" s;
  '(mi, s) ← read_fixed 10 2 s; s ← read_char ":" s;
  '(x, s) ← read_fixed 10 2 s;
  '(u, s) ← read_micro s; o ← read_offset s;
  Some (mk_datetime y mo d h mi x u o).

(** [datetime.fromisoformat(s)]. *)
Definition fromisoformat (s : string) : result datetime :=
  match read_datetime s with
  | Some d => if datetime_valid d then Ok d
              else Err (PyValueError "datetime field out of range")
  | None => Err (PyValueError "Invalid isoformat string")
  end.

Lemma read_char_cons c s : read_char c (String c s) = Some s.
Proof. unfold read_char. by rewrite Ascii.eqb_refl. Qed.

Lemma append_nil_l s : "" +:+ s = s.
Proof. done. Qed.

(** Run a reader over the text its writer produced, field by field. *)
Ltac read_step :=
  rewrite ?append_cons, ?append_nil_l;
  first [ rewrite read_fixed_small by (simpl; lia)
        | rewrite read_fixed_end by (simpl; lia)
        | rewrite read_char_cons ];
  cbn [mbind option_bind].

Lemma read_offset_seconds_text x :
  0 ≤ x < 60 →
  read_offset_seconds (if x =? 0 then "" else ":" +:+ fixed 10 2 x) = Some x.
Proof.
  intros Hx. destruct (Z.eqb_spec x 0) as [->|_]; [done|].
  rewrite append_cons, append_nil_l. unfold read_offset_seconds.
  by repeat read_step.
Qed.

Lemma read_offset_text o :
  -86400 < o < 86400 → read_offset (offset_text o) = Some (Some o).
Proof.
  intros Ho. unfold offset_text. set (a := Z.abs o).
  assert (0 ≤ a < 86400) as Ha by lia.
  assert (a = (a / 3600) * 3600 + (a / 60 mod 60) * 60 + a mod 60) as Hsplit.
  { change 3600 with (60 * 60). rewrite <- Z.div_div by lia.
    pose proof (Z.div_mod a 60 ltac:(lia)).
    pose proof (Z.div_mod (a / 60) 60 ltac:(lia)). lia. }
  assert (0 ≤ a / 3600 < 24).
  { split; [apply Z.div_pos; lia|apply Z.div_lt_upper_bound; lia]. }
  pose proof (Z.mod_pos_bound a 60 ltac:(lia)).
  pose proof (Z.mod_pos_bound (a / 60) 60 ltac:(lia)).
  destruct (Z.ltb_spec o 0); rewrite append_cons, append_nil_l; unfold read_offset;
    cbn [Ascii.eqb Bool.eqb orb]; do 3 read_step;
    rewrite read_offset_seconds_text by lia; cbn; do 2 f_equal; lia.
Qed.

(** [datetime.fromisoformat(d.isoformat()) == d]. *)
Lemma fromisoformat_valid s d : fromisoformat s = Ok d → datetime_valid d = true.
Proof. unfold fromisoformat. destruct (read_datetime s); [|done]. by case_match; intros [= <-]. Qed.

Lemma fromisoformat_isoformat d :
  datetime_valid d = true → fromisoformat (isoformat d) = Ok d.
Proof.
  intros Hd. unfold fromisoformat.
  enough (read_datetime (isoformat d) = Some d) as -> by (by rewrite Hd).
  destruct d as [y mo dd h mi x u o]; unfold datetime_valid in Hd; simpl in Hd.
  rewrite !andb_true_iff, !Z.leb_le in Hd. destruct_and! Hd.
  assert (days_in_month y mo ≤ 31) as Hdim.
  { unfold days_in_month. destruct (_ && _); [lia|].
    assert (mo ∈ seqZ 1 12) as Hin by (apply elem_of_seqZ; lia).
    revert Hin. clear. unfold seqZ. simpl. rewrite !elem_of_cons. intros Hin.
    repeat (destruct Hin as [->|Hin]; [simpl; lia|]). by apply elem_of_nil in Hin. }
  unfold isoformat, read_datetime. simpl dt_year. simpl dt_month. simpl dt_day.
  simpl dt_hour. simpl dt_minute. simpl dt_second. simpl dt_micro. simpl dt_utcoffset.
  do 11 read_step.
  set (tail := match o with None => "" | Some o => offset_text o end).
  assert (read_char "." tail = None) as Hdot.
  { subst tail. destruct o as [o|]; [|done]. unfold offset_text.
    by destruct (o <? 0); rewrite append_cons. }
  assert (read_micro ((if u =? 0 then "" else String "." (fixed 10 6 u)) +:+ tail)
    = Some (u, tail)) as ->.
  { unfold read_micro. destruct (Z.eqb_spec u 0) as [->|Hu].
    - by rewrite append_nil_l, Hdot.
    - by do 2 read_step. }
  cbn [mbind option_bind]. subst tail.
  destruct o as [o|]; [|done].
  rewrite andb_true_iff, !Z.ltb_lt in *. by rewrite read_offset_text.
Qed.

(** ** UUIDs *)

Abbreviation uuid := Z.

(** [str(u)]: 8-4-4-4-12 hexadecimal digits. *)
Definition uuid_str (u : uuid) : string :=
  fixed 16 8 (Z.shiftr u 96) +:+ "-" +:+ fixed 16 4 (Z.shiftr u 80) +:+ "-" +:+
  fixed 16 4 (Z.shiftr u 64) +:+ "-" +:+ fixed 16 4 (Z.shiftr u 48) +:+ "-" +:+
  fixed 16 12 u.

Definition uuid_valid (u : uuid) : bool := (0 <=? u) && (u <? 2 ^ 128).

(** [s.replace(p, "")] for a nonempty [p]; [skip] characters of a match are
    still to be dropped. *)
Fixpoint remove_all (p : string) (skip : nat) (s : string) : string :=
  match s with
  | EmptyString => EmptyString
  | String c s' =>
      match skip with
      | S k => remove_all p k s'
      | O => if startswith p s then remove_all p (String.length p - 1) s'
             else String c (remove_all p O s')
      end
  end.

Definition is_brace (c : ascii) : bool := (c =? "{")%char || (c =? "}")%char.
Definition is_hyphen (c : ascii) : bool := (c =? "-")%char.

(** The digits of [int(s, b)], with single underscores between them, added to
    [acc].  [gap] says that a digit must come next. *)
Fixpoint digits_in (b acc : Z) (gap : bool) (s : string) : option Z :=
  match s with
  | EmptyString => if gap then None else Some acc
  | String c s =>
      if (c =? "_")%char then (if gap then None else digits_in b acc true s)
      else match digit_val c with
           | Some d => if d <? b then digits_in b (acc * b + d) false s else None
           | None => None
           end
  end.

Definition drop_char (c : ascii) (s : string) : string :=
  match s with String d s' => if (d =? c)%char then s' else s | _ => s end.

(** [int(s, 16)] on text without a minus sign: surrounding whitespace, a plus
    sign and a "0x" prefix are dropped. *)
Definition drop_two (s : string) : string :=
  match s with String _ (String _ s') => s' | _ => s end.

Definition int_base16 (s : string) : option Z :=
  let s := drop_char "+" (strip s) in
  if startswith "0x" s || startswith "0X" s
  then digits_in 16 0 true (drop_char "_" (drop_two s))
  else digits_in 16 0 true s.

(** [UUID(s)]. *)
Definition uuid_parse (s : string) : result uuid :=
  let h := remove_all "uuid:" 0 (remove_all "urn:" 0 s) in
  let h := str_filter (λ c, negb (is_hyphen c))
             (rstrip_by is_brace (lstrip_by is_brace h)) in
  if (String.length h =? 32)%nat then
    or_raise (int_base16 h) (PyValueError "invalid literal for int() with base 16")
  else Err (PyValueError "badly formed hexadecimal UUID string").

Lemma str_filter_app p s t : str_filter p (s +:+ t) = str_filter p s +:+ str_filter p t.
Proof.
  induction s as [|c s IH]; [done|]. rewrite append_cons. simpl.
  rewrite IH. by destruct (p c).
Qed.

Lemma str_filter_all p s : str_forall p s = true → str_filter p s = s.
Proof.
  induction s as [|c s IH]; simpl; [done|]. rewrite andb_true_iff.
  intros [-> ?]. by rewrite IH.
Qed.

Lemma str_forall_impl (p q : ascii → bool) s :
  (∀ c, p c = true → q c = true) → str_forall p s = true → str_forall q s = true.
Proof.
  intros H. induction s as [|c s IH]; simpl; [done|]. rewrite !andb_true_iff.
  intros [??]; auto.
Qed.

Lemma remove_all_absent c p s :
  str_forall (λ d, negb (c =? d)%char) s = true →
  remove_all (String c p) 0 s = s.
Proof.
  induction s as [|d s IH]; simpl; [done|]. rewrite andb_true_iff, negb_true_iff.
  unfold startswith. simpl.
  intros [Hd Hs]. rewrite IH by done. destruct (ascii_dec c d) as [->|_]; [|done].
  by rewrite Ascii.eqb_refl in Hd.
Qed.

Lemma lstrip_none p s : str_forall (λ c, negb (p c)) s = true → lstrip_by p s = s.
Proof.
  destruct s as [|c s]; simpl; [done|]. rewrite andb_true_iff, negb_true_iff. by intros [-> _].
Qed.

Lemma rstrip_none p s : str_forall (λ c, negb (p c)) s = true → rstrip_by p s = s.
Proof.
  induction s as [|c s IH]; simpl; [done|]. rewrite andb_true_iff, negb_true_iff.
  intros [Hc Hs]. rewrite IH by done. destruct s; [by rewrite Hc|done].
Qed.

Definition uuid_char (c : ascii) : bool := is_lower_hex c || is_hyphen c.

Lemma uuid_str_chars u : str_forall uuid_char (uuid_str u) = true.
Proof.
  unfold uuid_str. rewrite !str_forall_app, !andb_true_iff.
  assert (∀ w n, str_forall uuid_char (fixed 16 w n) = true) as H.
  { intros. eapply str_forall_impl, fixed_lower_hex; [|lia].
    intros c Hc. unfold uuid_char. by rewrite Hc. }
  rewrite !H. done.
Qed.

Lemma fixed_length b w n : String.length (fixed b w n) = w.
Proof. induction w; simpl; congruence. Qed.

Lemma fixed_app b v w n :
  2 ≤ b → fixed b v (n / b ^ Z.of_nat w) +:+ fixed b w n = fixed b (v + w) n.
Proof.
  intros Hb. induction v as [|v IH]; [done|]. cbn [fixed Nat.add].
  rewrite append_cons, IH. do 3 f_equal.
  rewrite Z.div_div, <- Z.pow_add_r by lia. do 2 f_equal. lia.
Qed.

Lemma uuid_str_digits u :
  str_filter (λ c, negb (is_hyphen c)) (uuid_str u) = fixed 16 32 u.
Proof.
  unfold uuid_str. rewrite !str_filter_app.
  assert (∀ w n, str_filter (λ c, negb (is_hyphen c)) (fixed 16 w n) = fixed 16 w n) as H.
  { intros. apply str_filter_all. eapply str_forall_impl, fixed_lower_hex; [|lia].
    intros c Hc. unfold is_hyphen. by destruct (Ascii.eqb_spec c "-") as [->|]. }
  rewrite !H. cbn [str_filter is_hyphen Ascii.eqb Bool.eqb negb].
  change ("" +:+ ?s) with s. rewrite !Z.shiftr_div_pow2 by lia.
  change (2 ^ 48) with (16 ^ Z.of_nat 12). change (2 ^ 64) with (16 ^ Z.of_nat 16).
  change (2 ^ 80) with (16 ^ Z.of_nat 20). change (2 ^ 96) with (16 ^ Z.of_nat 24).
  by rewrite !fixed_app by lia.
Qed.

Lemma digits_in_fixed b acc gap w n :
  2 ≤ b ≤ 16 → w ≠ 0%nat ∨ gap = false →
  digits_in b acc gap (fixed b w n)
  = Some (acc * b ^ Z.of_nat w + n mod b ^ Z.of_nat w).
Proof.
  intros Hb. revert acc gap. induction w as [|w IH]; intros acc gap Hw.
  { destruct Hw as [Hw| ->]; [done|]. simpl. f_equal. rewrite Z.mod_1_r. lia. }
  cbn [fixed digits_in]. set (d := (n / b ^ Z.of_nat w) mod b).
  assert (0 ≤ d < b) by (apply Z.mod_pos_bound; lia).
  pose proof (digit_val_hex_digit d ltac:(lia)) as Hd.
  destruct (Ascii.eqb_spec (hex_digit d) "_") as [Hc|_]; [by rewrite Hc in Hd|].
  rewrite Hd. destruct (Z.ltb_spec d b); [|lia]. rewrite IH by auto. f_equal.
  rewrite Nat2Z.inj_succ, Z.pow_succ_r, (Z.mul_comm b (b ^ _)) by lia.
  rewrite (Z.rem_mul_r n (b ^ Z.of_nat w) b) by lia. subst d. ring.
Qed.

Lemma digits_in_bound b acc gap s v :
  2 ≤ b → 0 ≤ acc → digits_in b acc gap s = Some v →
  0 ≤ v < (acc + 1) * b ^ Z.of_nat (String.length s).
Proof.
  intros Hb. revert acc gap. induction s as [|c s IH]; intros acc gap Hacc; cbn [digits_in].
  { destruct gap; [done|]. intros [= ->]. simpl. lia. }
  cbn [String.length]. rewrite Nat2Z.inj_succ, Z.pow_succ_r by lia.
  destruct (c =? "_")%char.
  { destruct gap; [done|]. intros H%IH; [|done]. nia. }
  destruct (digit_val c) as [d|] eqn:Hd; [|done].
  destruct (Z.ltb_spec d b) as [Hdb|]; [|done].
  assert (0 ≤ d) as Hd0.
  { unfold digit_val, is_digit, in_range in Hd.
    repeat (match type of Hd with context [if ?b then _ else _] => destruct b eqn:? end);
      simplify_eq; to_prop; lia. }
  intros H%IH; [|lia]. pose proof (Z.pow_nonneg b (Z.of_nat (String.length s))). nia.
Qed.

Lemma prefix_cons c p d s :
  String.prefix (String c p) (String d s) = (c =? d)%char && String.prefix p s.
Proof.
  cbn [String.prefix].
  destruct (ascii_dec c d) as [->|Hne]; [by rewrite Ascii.eqb_refl|].
  by apply Ascii.eqb_neq in Hne as ->.
Qed.

Lemma int_base16_fixed u :
  0 ≤ u < 2 ^ 128 → int_base16 (fixed 16 32 u) = Some u.
Proof.
  intros Hu. unfold int_base16.
  assert (∀ c, is_lower_hex c = true → is_space c = false) as Hsp.
  { intros c. unfold is_lower_hex, is_digit, is_space, in_range. intros H.
    destruct c as [[] [] [] [] [] [] [] []]; vm_compute in H; try done. }
  assert (str_forall is_lower_hex (fixed 16 32 u) = true) as Hhex
    by (apply fixed_lower_hex; lia).
  assert (strip (fixed 16 32 u) = fixed 16 32 u) as ->.
  { unfold strip. rewrite lstrip_none, rstrip_none; [done| |];
      (eapply str_forall_impl; [|exact Hhex]); intros c Hc; by rewrite Hsp. }
  assert (drop_char "+" (fixed 16 32 u) = fixed 16 32 u) as ->.
  { destruct (fixed 16 32 u) as [|c s]; [done|]. simpl in *. to_prop.
    destruct (Ascii.eqb_spec c "+") as [->|]; [by destruct Hhex|done]. }
  assert (∀ x, is_lower_hex x = false →
    startswith (String "0" (String x "")) (fixed 16 32 u) = false) as Hx.
  { intros x Hx. destruct (fixed 16 32 u) as [|c [|c' s]]; [done| |].
    - unfold startswith. rewrite prefix_cons. apply andb_false_r.
    - cbn [str_forall] in Hhex. to_prop. destruct Hhex as (_ & Hc' & _).
      unfold startswith. rewrite !prefix_cons. to_prop. right. left.
      destruct (Ascii.eqb_spec x c') as [<-|]; congruence. }
  rewrite !Hx by done. simpl orb. cbv iota.
  rewrite digits_in_fixed by (lia || auto). rewrite Z.mod_small; [done|].
  change (16 ^ Z.of_nat 32) with (2 ^ 128). lia.
Qed.

(** [UUID(str(u)) == u]. *)
Lemma uuid_parse_str u : uuid_valid u = true → uuid_parse (uuid_str u) = Ok u.
Proof.
  unfold uuid_valid. rewrite andb_true_iff, Z.leb_le, Z.ltb_lt. intros Hu.
  assert (∀ c : ascii, uuid_char c = false →
    str_forall (λ d, negb (c =? d)%char) (uuid_str u) = true) as Hno.
  { intros c Hc. eapply str_forall_impl, uuid_str_chars. intros d Hd.
    destruct (Ascii.eqb_spec c d) as [->|]; [congruence|done]. }
  assert (str_forall (λ c, negb (is_brace c)) (uuid_str u) = true) as Hbr.
  { eapply str_forall_impl, uuid_str_chars. intros c Hc. unfold is_brace.
    destruct (Ascii.eqb_spec c "{"), (Ascii.eqb_spec c "}"); by subst. }
  unfold uuid_parse.
  rewrite (remove_all_absent "u" "rn:") by (by apply Hno).
  rewrite (remove_all_absent "u" "uid:") by (by apply Hno).
  rewrite lstrip_none, rstrip_none by done.
  rewrite uuid_str_digits, fixed_length, Nat.eqb_refl.
  by rewrite int_base16_fixed.
Qed.

Lemma uuid_str_inj u v :
  uuid_valid u = true → uuid_valid v = true → uuid_str u = uuid_str v → u = v.
Proof.
  intros Hu Hv H. apply uuid_parse_str in Hu, Hv. rewrite H in Hu. congruence.
Qed.

Lemma str_filter_length p s : (String.length (str_filter p s) ≤ String.length s)%nat.
Proof. induction s as [|c s IH]; simpl; [done|]. destruct (p c); simpl; lia. Qed.

Lemma lstrip_length p s : (String.length (lstrip_by p s) ≤ String.length s)%nat.
Proof. induction s as [|c s IH]; simpl; [done|]. destruct (p c); simpl; lia. Qed.

Lemma rstrip_length p s : (String.length (rstrip_by p s) ≤ String.length s)%nat.
Proof.
  induction s as [|c s IH]; simpl; [done|].
  destruct (rstrip_by p s); [destruct (p c)|]; simpl in *; lia.
Qed.

Lemma drop_char_length c s : (String.length (drop_char c s) ≤ String.length s)%nat.
Proof. destruct s as [|d s]; simpl; [done|]. destruct (d =? c)%char; simpl; lia. Qed.

Lemma drop_two_length s : (String.length (drop_two s) ≤ String.length s)%nat.
Proof. destruct s as [|c [|d s]]; simpl; lia. Qed.

Lemma uuid_parse_valid s u : uuid_parse s = Ok u → uuid_valid u = true.
Proof.
  unfold uuid_parse. set (h := str_filter _ _).
  destruct (String.length h =? 32)%nat eqn:Hlen; [|done]. to_prop.
  rewrite or_raise_Ok. unfold int_base16. set (s1 := drop_char "+" (strip h)).
  assert (String.length s1 ≤ 32)%nat as Hs1.
  { rewrite <- Hlen. etrans; [apply drop_char_length|].
    unfold strip. etrans; [apply rstrip_length|apply lstrip_length]. }
  intros H.
  assert (∃ s2, (String.length s2 ≤ 32)%nat ∧ digits_in 16 0 true s2 = Some u) as (s2&Hs2&Hu).
  { destruct (_ || _); eexists; (split; [|exact H]); [|done].
    etrans; [apply drop_char_length|]. etrans; [apply drop_two_length|done]. }
  apply digits_in_bound in Hu; [|lia|lia].
  assert (16 ^ Z.of_nat (String.length s2) ≤ 16 ^ 32) by (apply Z.pow_le_mono_r; lia).
  change (16 ^ 32) with (2 ^ 128) in *. unfold uuid_valid. to_prop. lia.
Qed.

#[global] Opaque uuid_str uuid_parse isoformat fromisoformat.
