(* ===== verification/PyStd.v ===== *)
(** * PyStd: [int()], [pathlib] and [urllib.parse.urlsplit]

    The standard-library functions the binding records read their fields with:
    [int] of a JSON value, the lexical operations of a POSIX path
    ([Path(p).is_absolute()], [str(Path(p).parent)]) and [urlsplit] with the
    [hostname] and user-information properties of its result. *)

From S2P Require Import Prelude PyText PyJson PyTime.
From Stdlib Require Import Ascii.

Open Scope Z_scope.

(** ** [int(value)] *)

(** [sys.int_info.default_max_str_digits]. *)
Definition MAX_STR_DIGITS : Z := 4300.

(** [int(s)], base 10. *)
Definition int_base10 (s : string) : option Z :=
  let s := strip s in
  let '(sign, s) :=
    match s with
    | String c s' => if (c =? "-")%char then (-1, s')
                     else if (c =? "+")%char then (1, s') else (1, s)
    | EmptyString => (1, s)
    end in
  if MAX_STR_DIGITS <? str_count is_digit s then None
  else v ← digits_in 10 0 true s; Some (sign * v).

(** [s.partition(c)], without the separator. *)
Fixpoint partition (c : ascii) (s : string) : string * bool * string :=
  match s with
  | EmptyString => ("", false, "")
  | String d s' =>
      if (c =? d)%char then ("", true, s')
      else let '(l, f, r) := partition c s' in (String d l, f, r)
  end.

(** [s.rpartition(c)], without the separator. *)
Fixpoint rpartition (c : ascii) (s : string) : string * bool * string :=
  match s with
  | EmptyString => ("", false, "")
  | String d s' =>
      let '(l, f, r) := rpartition c s' in
      if f then (String d l, true, r)
      else if (c =? d)%char then ("", true, s')
      else ("", false, s)
  end.

(** [int(x)] for a finite float: the decimal its [repr] states, truncated;
    from 2^53 on, where the floats are integers, rounded to the nearest float
    (ties to even), which is the one the [repr] identifies. *)
Definition float_int (r : string) : Z :=
  let '(sign, r) := match r with
                    | String "-" r => (-1, r)
                    | _ => (1, r)
                    end in
  let '(mantissa, _, exponent) := partition "e" r in
  let '(whole, _, fraction) := partition "." mantissa in
  let e := default 0 (int_base10 exponent) - len fraction in
  let m := default 0 (digits_in 10 0 true (whole +:+ fraction)) in
  let v := if 0 <=? e then m * 10 ^ e else m / 10 ^ (- e) in
  let ulp := 2 ^ (Z.log2 v - 52) in
  sign * (if v <? 2 ^ 53 then v
          else if (2 * (v mod ulp) <? ulp) || ((2 * (v mod ulp) =? ulp) && Z.even (v / ulp))
               then v - v mod ulp
          else v - v mod ulp + ulp).

Definition py_int (v : json) : result Z :=
  match v with
  | JInt z => Ok z
  | JBool b => Ok (if b then 1 else 0)
  | JStr s => or_raise (int_base10 s) (PyValueError "invalid literal for int()")
  | JFloat r =>
      if (r =? "nan")%string
      then Err (PyValueError "cannot convert float NaN to integer")
      else if negb (float_finite r)
      then Err (PyOtherError "cannot convert float infinity to integer")
      else Ok (float_int r)
  | _ => Err (PyTypeError "int() argument must be a string or a real number")
  end.

Example py_int_examples :
  map py_int [JStr " -12_0 "; JFloat "2.75"; JFloat "1e+23"; JFloat "-9.5e-07"; JBool true]
  = [Ok (-120); Ok 2; Ok 99999999999999991611392; Ok 0; Ok 1].
Proof. vm_compute. reflexivity. Qed.

(** ** POSIX paths *)

Definition path_is_absolute (p : string) : bool := startswith "/" p.

(** The root and the parts of [PurePosixPath(p)]: exactly two leading slashes
    make the root "//"; empty and "." parts are dropped. *)
Definition path_root (p : string) : string :=
  if startswith "//" p && negb (startswith "///" p) then "//"
  else if startswith "/" p then "/" else "".

Definition path_parts (p : string) : list string :=
  List.filter (λ w, negb ((w =? "") || (w =? "."))%string) (split_on "/" p).

(** [str(Path(p).parent)]. *)
Definition path_parent (p : string) : string :=
  let text := path_root p +:+ str_join "/" (removelast (path_parts p)) in
  if (text =? "")%string then "." else text.

Example path_parent_examples :
  map path_parent ["/var//log/./audit.db"; "/"; "a"; "//host/x"]
  = ["/var/log"; "/"; "."; "//host"].
Proof. reflexivity. Qed.

(** ** IP addresses in brackets ([ipaddress.ip_address]) *)

Definition is_hex (c : ascii) : bool :=
  is_digit c || in_range 97 102 c || in_range 65 70 c.

Definition hextet_ok (w : string) : bool := (len w <=? 4) && str_forall is_hex w.

Definition octet_ok (w : string) : bool :=
  negb (w =? "")%string && str_forall is_digit w && (len w <=? 3)
  && ((len w =? 1) || negb (startswith "0" w))
  && (default 0 (digits_in 10 0 true w) <=? 255).

Definition ipv4_ok (s : string) : bool :=
  let os := split_on "." s in (length os =? 4)%nat && forallb octet_ok os.

(** The hextets left and right of the "::" of an address, given its parts. *)
Definition ipv6_parts_ok (parts : list string) : bool :=
  let n := length parts in
  let skips := List.filter (λ i, (nth i parts "" =? "")%string) (seq 1 (n - 2)) in
  let first_empty := (nth 0 parts "" =? "")%string in
  let last_empty := (nth (n - 1) parts "" =? "")%string in
  match skips with
  | [] => (n =? 8)%nat && negb first_empty && negb last_empty && forallb hextet_ok parts
  | [i] =>
      let hi := if first_empty then (i - 1)%nat else i in
      let lo := if last_empty then (n - i - 2)%nat else (n - i - 1)%nat in
      negb (first_empty && negb (hi =? 0)%nat) && negb (last_empty && negb (lo =? 0)%nat)
      && (hi + lo <? 8)%nat
      && forallb hextet_ok (firstn hi parts) && forallb hextet_ok (skipn (n - lo) parts)
  | _ => false
  end.

Definition ipv6_ok (s : string) : bool :=
  let '(address, scoped, scope) := partition "%" s in
  let parts := split_on ":" address in
  let tail := List.last parts "" in
  let quad := str_in "." tail in
  let parts' := if quad then removelast parts ++ ["0"; "0"] else parts in
  negb (scoped && ((scope =? "")%string || str_in "%" scope))
  && negb (str_in "/" s)
  && (3 <=? length parts)%nat && (negb quad || ipv4_ok tail)
  && (length parts' <=? 9)%nat && ipv6_parts_ok parts'.

Example ipv6_examples :
  map ipv6_ok ["::1"; "fe80::1%eth0"; "1:2:3:4:5:6:7:8"; "::ffff:10.0.0.1"; "1::2::3"; ":1:2";
               "10.0.0.1"; "1:2:3:4:5:6:7::"]
  = [true; true; true; true; false; false; false; true].
Proof. vm_compute. reflexivity. Qed.

(** [v[a-fA-F0-9]+\..+], an IPvFuture host ("." matches no line feed, which
    [urlsplit] has removed). *)
Definition ipvfuture_ok (s : string) : bool :=
  match s with
  | String "v" rest =>
      let '(version, dot, tail) := partition "." rest in
      dot && negb (version =? "")%string && str_forall is_hex version
      && negb (tail =? "")%string
  | _ => false
  end.

Definition bracketed_host_ok (h : string) : bool :=
  if startswith "v" h then ipvfuture_ok h else ipv6_ok h.

(** ** [urlsplit] *)

Record SplitResult : Type := mk_SplitResult {
  url_scheme : string;
  url_netloc : string;
  url_path : string;
  url_query : string;
  url_fragment : string;
}.

Definition is_alpha (c : ascii) : bool := is_lower c || is_upper c.
Definition is_scheme_char (c : ascii) : bool :=
  is_alpha c || is_digit c || str_in c "+-.".
Definition is_unsafe (c : ascii) : bool :=
  (code c =? 9) || (code c =? 10) || (code c =? 13).

(** [str.lower] on ASCII text, which a scheme is. *)
Fixpoint lower_ascii (s : string) : string :=
  match s with
  | EmptyString => EmptyString
  | String c s => String (if is_upper c then chr (code c + 32) else c) (lower_ascii s)
  end.

(** The longest prefix without a character of [p], and the rest. *)
Fixpoint span_not (p : ascii → bool) (s : string) : string * string :=
  match s with
  | EmptyString => ("", "")
  | String c s' =>
      if p c then ("", s) else let '(l, r) := span_not p s' in (String c l, r)
  end.

Definition split_scheme (url : string) : string * string :=
  let '(scheme, colon, rest) := partition ":" url in
  match scheme with
  | String c _ =>
      if colon && is_alpha c && str_forall is_scheme_char scheme
      then (lower_ascii scheme, rest) else ("", url)
  | EmptyString => ("", url)
  end.

Definition split_netloc (url : string) : string * string :=
  match url with
  | String "/" (String "/" rest) => span_not (λ c, str_in c "/?#") rest
  | _ => ("", url)
  end.

(** The bracket checks on a network location. *)
Definition brackets_ok (netloc : string) : bool :=
  let '(_, _, host_port) := rpartition "@" netloc in
  let '(before, bracket, bracketed) := partition "[" host_port in
  let '(host, _, port) := partition "]" bracketed in
  if bracket then
    (before =? "")%string && ((port =? "")%string || startswith ":" port)
    && bracketed_host_ok host
  else bracketed_host_ok (partition ":" host_port).1.1.

Definition netloc_ok (netloc : string) : bool :=
  let l := str_in "[" netloc in
  let r := str_in "]" netloc in
  Bool.eqb l r && (negb l || brackets_ok netloc).

Definition urlsplit (text : string) : result SplitResult :=
  let url := str_filter (λ c, negb (is_unsafe c)) (lstrip_by (λ c, code c <=? 32) text) in
  let '(scheme, url) := split_scheme url in
  let '(netloc, url) := split_netloc url in
  raise_if (negb (netloc_ok netloc)) (PyValueError "Invalid IPv6 URL");;
  let '(url, _, fragment) := partition "#" url in
  let '(path, _, query) := partition "?" url in
  Ok (mk_SplitResult scheme netloc path query fragment).

(** [result.username is not None]. *)
Definition url_has_userinfo (u : SplitResult) : bool :=
  (rpartition "@" (url_netloc u)).1.2.

(** [result.hostname], up to the case of its letters; "" for [None]. *)
Definition url_hostname (u : SplitResult) : string :=
  let '(_, _, hostinfo) := rpartition "@" (url_netloc u) in
  let '(_, bracket, bracketed) := partition "[" hostinfo in
  if bracket then (partition "]" bracketed).1.1 else (partition ":" hostinfo).1.1.

(** The port text of a network location. *)
Definition url_port_text (u : SplitResult) : string :=
  let '(_, _, hostinfo) := rpartition "@" (url_netloc u) in
  let '(_, bracket, bracketed) := partition "[" hostinfo in
  if bracket then (partition ":" (partition "]" bracketed).2).2
  else (partition ":" hostinfo).2.

(** [result.port]. *)
Definition url_port (u : SplitResult) : result (option Z) :=
  let text := url_port_text u in
  if (text =? "")%string then Ok None
  else if negb (str_forall is_digit text)
  then Err (PyValueError "Port could not be cast to integer value")
  else
    port ← or_raise (int_base10 text) (PyValueError "Exceeds the limit for integer string conversion");
    raise_if (65535 <? port) (PyValueError "Port out of range 0-65535");;
    Ok (Some port).

(** [s.lower()]. *)
Definition lower_char (c : ascii) : ascii :=
  if is_upper c || (in_range 192 222 c && negb (code c =? 215)) then chr (code c + 32) else c.
Fixpoint str_lower (s : string) : string :=
  match s with
  | EmptyString => EmptyString
  | String c s => String (lower_char c) (str_lower s)
  end.

(** [s.endswith(suffix)]. *)
Definition str_endswith (suffix s : string) : bool :=
  let d := (String.length s - String.length suffix)%nat in
  (String.substring d (String.length suffix) s =? suffix)%string.

(** [bool(v)] of a JSON value. *)
Definition truthy (v : json) : bool :=
  match v with
  | JNull => false
  | JBool b => b
  | JInt z => negb (z =? 0)
  | JFloat r => negb (bool_decide (r ∈ ["0.0"; "-0.0"]))
  | JStr s => negb (s =? "")%string
  | JList l => match l with [] => false | _ => true end
  | JDict d => match d with [] => false | _ => true end
  end.

(** [urlunsplit((scheme, netloc, path, "", ""))], for an HTTP scheme. *)
Definition urlunsplit (scheme netloc path : string) : string :=
  let rooted :=
    if negb (netloc =? "")%string
    then "//" +:+ netloc
         +:+ (if negb (path =? "")%string && negb (startswith "/" path) then "/" +:+ path else path)
    else if startswith "//" path || (path =? "")%string || startswith "/" path
    then "//" +:+ path else path in
  scheme +:+ ":" +:+ rooted.

Example url_port_example :
  map (λ s, u ← urlsplit s; url_port u) ["https://h:8443/x"; "https://[::1]"; "https://h:1x"]
  = [Ok (Some 8443); Ok None; Err (PyValueError "Port could not be cast to integer value")].
Proof. vm_compute. reflexivity. Qed.

Example urlsplit_example :
  urlsplit " HTTP://user@[::1]:80/p?q#f"
  = Ok (mk_SplitResult "http" "user@[::1]:80" "/p" "q" "f").
Proof. vm_compute. reflexivity. Qed.

Example urlsplit_bad : is_ok (urlsplit "http://[::1/p") = false.
Proof. vm_compute. reflexivity. Qed.
