(* ===== verification/PyDate.v ===== *)
(** * PyDate: the calendar of [datetime]

    Conversion between instants and UTC dates ([astimezone(UTC)], the addition of
    a [timedelta]), and the order of the texts of UTC datetimes, which SQLite
    compares byte by byte. *)

From S2P Require Import Prelude PyText PyJson PyTime.
From Stdlib Require Import Ascii.

Open Scope Z_scope.

(** ** Ordinals *)

Definition days_before_year (y : Z) : Z :=
  (y - 1) * 365 + (y - 1) / 4 - (y - 1) / 100 + (y - 1) / 400.

Lemma ymd_ordinal_year y m d :
  ymd_ordinal y m d = days_before_year y + days_before_month y m + d.
Proof. done. Qed.

Definition days_in_year (y : Z) : Z := if is_leap y then 366 else 365.

Lemma days_before_next y : days_before_year (y + 1) = days_before_year y + days_in_year y.
Proof.
  unfold days_before_year, days_in_year, is_leap.
  destruct (y mod 4 =? 0) eqn:E4, (y mod 100 =? 0) eqn:E100, (y mod 400 =? 0) eqn:E400;
    cbn [andb orb negb]; to_prop; Z.to_euclidean_division_equations; lia.
Qed.

(** The year of an ordinal: the estimate is off by one year at most. *)
Definition year_of_ordinal (n : Z) : Z :=
  let y := (n - 1) * 400 / 146097 + 1 in
  if n <=? days_before_year y then y - 1
  else if days_before_year (y + 1) <? n then y + 1 else y.

Lemma year_of_ordinal_spec n :
  days_before_year (year_of_ordinal n) < n ≤ days_before_year (year_of_ordinal n + 1).
Proof.
  unfold year_of_ordinal. set (y := (n - 1) * 400 / 146097 + 1).
  destruct (n <=? days_before_year y) eqn:E1;
    [|destruct (days_before_year (y + 1) <? n) eqn:E2]; to_prop; rewrite ?Z.sub_add.
  - split; [|lia]. subst y. unfold days_before_year in *. Z.to_euclidean_division_equations. lia.
  - split; [lia|]. subst y. unfold days_before_year in *. Z.to_euclidean_division_equations. lia.
  - lia.
Qed.

Lemma days_before_year_mono y y' : y ≤ y' → days_before_year y ≤ days_before_year y'.
Proof.
  intros H. unfold days_before_year. Z.to_euclidean_division_equations. lia.
Qed.

Lemma year_of_ordinal_unique y n :
  days_before_year y < n ≤ days_before_year (y + 1) → year_of_ordinal n = y.
Proof.
  intros H. pose proof (year_of_ordinal_spec n) as Hs.
  destruct (Z.lt_trichotomy (year_of_ordinal n) y) as [Hl|[?|Hl]]; [|done|].
  - pose proof (days_before_year_mono (year_of_ordinal n + 1) y ltac:(lia)). lia.
  - pose proof (days_before_year_mono (y + 1) (year_of_ordinal n) ltac:(lia)). lia.
Qed.

(** The month of the [r]-th day of a year, searched from month [m] down. *)
Fixpoint month_of (y r : Z) (m : nat) : Z :=
  match m with
  | O => 1
  | S m' => if days_before_month y (Z.of_nat m) <? r then Z.of_nat m else month_of y r m'
  end.

Definition ymd_of_ordinal (n : Z) : Z * Z * Z :=
  let y := year_of_ordinal n in
  let r := n - days_before_year y in
  let m := month_of y r 12 in
  (y, m, r - days_before_month y m).

Lemma month_cases m : 1 ≤ m ≤ 12 →
  m = 1 ∨ m = 2 ∨ m = 3 ∨ m = 4 ∨ m = 5 ∨ m = 6 ∨ m = 7 ∨ m = 8 ∨ m = 9 ∨ m = 10 ∨ m = 11 ∨ m = 12.
Proof. lia. Qed.

Ltac each_month H := destruct (month_cases _ H) as [->|[->|[->|[->|[->|[->|[->|[->|[->|[->|[->| ->]]]]]]]]]]].

Ltac literal_nats :=
  repeat match goal with
  | |- context [Z.to_nat ?n] => let v := eval vm_compute in (Z.to_nat n) in change (Z.to_nat n) with v
  | |- context [Z.ltb ?a ?b] => let v := eval vm_compute in (Z.ltb a b) in change (Z.ltb a b) with v
  | |- context [Z.eqb ?a ?b] => let v := eval vm_compute in (Z.eqb a b) in change (Z.eqb a b) with v
  end; cbn [nth andb].

(** The first day after a month. *)
Definition month_end (y m : Z) : Z := days_before_month y m + days_in_month y m.

Lemma month_next y m : 1 ≤ m ≤ 11 → days_before_month y (m + 1) = month_end y m.
Proof.
  intros Hm. assert (1 ≤ m ≤ 12) as Hm' by lia. unfold month_end, days_before_month, days_in_month.
  destruct (is_leap y); each_month Hm'; literal_nats; lia.
Qed.

Lemma month_last y : month_end y 12 = days_in_year y.
Proof. unfold month_end, days_before_month, days_in_month, days_in_year. by destruct (is_leap y). Qed.

Lemma month_long y m : 1 ≤ m ≤ 12 → 0 ≤ days_before_month y m ≤ month_end y m.
Proof.
  intros Hm. unfold month_end, days_before_month, days_in_month.
  destruct (is_leap y); each_month Hm; literal_nats; lia.
Qed.

Lemma month_order y m m' : 1 ≤ m → m < m' → m' ≤ 12 → month_end y m ≤ days_before_month y m'.
Proof.
  intros H1 Hlt Hle.
  assert (∀ k : nat, m + 1 + Z.of_nat k ≤ 12 → month_end y m ≤ days_before_month y (m + 1 + Z.of_nat k))
    as Hk.
  { induction k as [|k IH]; intros Hk; [rewrite Z.add_0_r, month_next by lia; done|].
    replace (m + 1 + Z.of_nat (S k)) with (m + 1 + Z.of_nat k + 1) by lia.
    rewrite month_next by lia. etrans; [apply IH; lia|]. apply month_long. lia. }
  specialize (Hk (Z.to_nat (m' - m - 1)) ltac:(lia)).
  by replace (m + 1 + Z.of_nat (Z.to_nat (m' - m - 1))) with m' in Hk by lia.
Qed.

Lemma month_one y : days_before_month y 1 = 0.
Proof. done. Qed.

Lemma month_of_bounds y r m :
  0 < r → (1 ≤ m)%nat →
  let k := month_of y r m in
  1 ≤ k ≤ Z.of_nat m ∧ days_before_month y k < r
  ∧ (k = Z.of_nat m ∨ r ≤ days_before_month y (k + 1)).
Proof.
  intros Hr. induction m as [|m IH]; [lia|]. intros _. cbn [month_of]. cbn zeta.
  destruct (days_before_month y (Z.of_nat (S m)) <? r) eqn:E; to_prop; [lia|].
  destruct m as [|m]; [change (Z.of_nat 1) with 1 in E; rewrite month_one in E; lia|].
  destruct (IH ltac:(lia)) as (Hk&Hlt&Hor). split; [lia|]. split; [done|]. right.
  destruct Hor as [Hk'|]; [|done]. rewrite Hk'. replace (Z.of_nat (S m) + 1) with (Z.of_nat (S (S m))) by lia.
  done.
Qed.

Lemma month_of_spec y r :
  1 ≤ r ≤ days_in_year y →
  let m := month_of y r 12 in 1 ≤ m ≤ 12 ∧ days_before_month y m < r ≤ month_end y m.
Proof.
  intros Hr. destruct (month_of_bounds y r 12 ltac:(lia) ltac:(lia)) as (Hk&Hlt&Hor).
  cbn zeta. split; [lia|]. split; [done|]. destruct (decide (month_of y r 12 = 12)) as [->|Hne].
  - rewrite month_last. lia.
  - destruct Hor as [|Hor]; [lia|]. rewrite month_next in Hor by lia. done.
Qed.

Lemma month_of_unique y r m :
  1 ≤ m ≤ 12 → days_before_month y m < r ≤ month_end y m → month_of y r 12 = m.
Proof.
  intros Hm Hr. assert (1 ≤ r ≤ days_in_year y) as Hy.
  { pose proof (month_long y m Hm). rewrite <-month_last.
    destruct (decide (m = 12)) as [->|]; [lia|].
    pose proof (month_order y m 12 ltac:(lia) ltac:(lia) ltac:(lia)). pose proof (month_long y 12 ltac:(lia)). lia. }
  destruct (month_of_spec y r Hy) as [Hk Hlt]. set (k := month_of y r 12) in *.
  destruct (Z.lt_trichotomy k m) as [Hl|[?|Hl]]; [|done|].
  - pose proof (month_order y k m ltac:(lia) Hl ltac:(lia)). lia.
  - pose proof (month_order y m k ltac:(lia) Hl ltac:(lia)). lia.
Qed.

Lemma ymd_of_ordinal_spec n :
  let '(y, m, d) := ymd_of_ordinal n in
  ymd_ordinal y m d = n ∧ 1 ≤ m ≤ 12 ∧ 1 ≤ d ≤ days_in_month y m.
Proof.
  unfold ymd_of_ordinal. pose proof (year_of_ordinal_spec n) as Hy.
  rewrite days_before_next in Hy. set (y := year_of_ordinal n) in *.
  destruct (month_of_spec y (n - days_before_year y)) as [Hm Hd]; [lia|].
  rewrite ymd_ordinal_year. unfold month_end in Hd. lia.
Qed.

Lemma ymd_of_ordinal_ordinal y m d :
  1 ≤ m ≤ 12 → 1 ≤ d ≤ days_in_month y m → ymd_of_ordinal (ymd_ordinal y m d) = (y, m, d).
Proof.
  intros Hm Hd. unfold ymd_of_ordinal. pose proof (month_long y m Hm).
  assert (month_end y m ≤ days_in_year y) as He.
  { rewrite <-month_last. destruct (decide (m = 12)) as [->|]; [lia|].
    pose proof (month_order y m 12 ltac:(lia) ltac:(lia) ltac:(lia)). pose proof (month_long y 12 ltac:(lia)). lia. }
  unfold month_end in *. rewrite (year_of_ordinal_unique y).
  2: { rewrite days_before_next, ymd_ordinal_year. lia. }
  rewrite ymd_ordinal_year. rewrite (month_of_unique y _ m) by (unfold month_end; lia). f_equal. lia.
Qed.

#[export] Instance Ok_inj {A} : Inj (=) (=) (@Ok A).
Proof. by intros ?? [= ->]. Qed.

(** ** UTC datetimes of instants *)

Definition day_us : Z := 86400000000.

(** The UTC datetime of an instant. *)
Definition of_instant (n : Z) : datetime :=
  let '(y, m, d) := ymd_of_ordinal (n / day_us + 1) in
  let s := (n mod day_us) / 1000000 in
  mk_datetime y m d (s / 3600) (s / 60 mod 60) (s mod 60) (n mod 1000000) (Some 0).

Lemma instant_of_instant n : instant (of_instant n) = n.
Proof.
  unfold of_instant. pose proof (ymd_of_ordinal_spec (n / day_us + 1)) as H.
  destruct (ymd_of_ordinal _) as [[y m] d]. destruct H as [H _]. unfold instant. cbn.
  rewrite H. unfold day_us. Z.to_euclidean_division_equations. lia.
Qed.

(** A datetime of UTC, as [astimezone(UTC)] returns them. *)
Definition utc_valid (d : datetime) : bool :=
  datetime_valid d && bool_decide (dt_utcoffset d = Some 0).

(** The first and the last instants of the years 1 to 9999. *)
Definition last_instant : Z := 3652059 * day_us - 1.

Lemma year_bounds n y : 1 ≤ n ≤ 3652059 → days_before_year y < n ≤ days_before_year (y + 1) → 1 ≤ y ≤ 9999.
Proof.
  intros Hn Hy. split.
  - destruct (Z_lt_ge_dec y 1) as [Hl|]; [|lia].
    pose proof (days_before_year_mono (y + 1) 1 ltac:(lia)) as Hmo.
    replace (days_before_year 1) with 0 in Hmo by reflexivity. lia.
  - destruct (Z_lt_ge_dec 9999 y) as [Hl|]; [|lia].
    pose proof (days_before_year_mono 10000 y ltac:(lia)) as Hmo.
    replace (days_before_year 10000) with 3652059 in Hmo by reflexivity. lia.
Qed.

Lemma ymd_of_ordinal_valid n :
  1 ≤ n ≤ 3652059 →
  let '(y, m, d) := ymd_of_ordinal n in 1 ≤ y ≤ 9999 ∧ 1 ≤ m ≤ 12 ∧ 1 ≤ d ≤ days_in_month y m.
Proof.
  intros Hn. pose proof (ymd_of_ordinal_spec n) as H.
  assert (1 ≤ (ymd_of_ordinal n).1.1 ≤ 9999) as Hy.
  { apply (year_bounds n); [done|]. apply year_of_ordinal_spec. }
  destruct (ymd_of_ordinal n) as [[y m] d]. simpl in Hy. destruct H as (_&?&?). done.
Qed.

Lemma day_bounds n : 0 ≤ n ≤ last_instant → 1 ≤ n / day_us + 1 ≤ 3652059.
Proof. unfold last_instant, day_us. intros. Z.to_euclidean_division_equations. lia. Qed.

Lemma clock_bounds n :
  let s := (n mod day_us) / 1000000 in
  0 ≤ s / 3600 ≤ 23 ∧ 0 ≤ s / 60 mod 60 ≤ 59 ∧ 0 ≤ s mod 60 ≤ 59 ∧ 0 ≤ n mod 1000000 ≤ 999999.
Proof. unfold day_us. Z.to_euclidean_division_equations. lia. Qed.

Lemma of_instant_valid n : 0 ≤ n ≤ last_instant → utc_valid (of_instant n) = true.
Proof.
  intros Hn. pose proof (ymd_of_ordinal_valid _ (day_bounds n Hn)) as H.
  pose proof (clock_bounds n) as Hc. unfold of_instant.
  destruct (ymd_of_ordinal _) as [[y m] d]. cbv zeta in *. unfold utc_valid, datetime_valid.
  cbn [dt_year dt_month dt_day dt_hour dt_minute dt_second dt_micro dt_utcoffset].
  rewrite bool_decide_true, andb_true_r, !andb_true_iff, !Z.leb_le by done. intuition lia.
Qed.

(** The fields of a datetime, in another zone. *)
Definition with_offset (d : datetime) (o : option Z) : datetime :=
  mk_datetime (dt_year d) (dt_month d) (dt_day d) (dt_hour d) (dt_minute d) (dt_second d)
    (dt_micro d) o.

(** [datetime + timedelta]: the fields move, the zone stays. *)
Definition dt_add (d : datetime) (delta : Z) : result datetime :=
  let n := instant (with_offset d None) + delta in
  if (0 <=? n) && (n <=? last_instant) then Ok (with_offset (of_instant n) (dt_utcoffset d))
  else Err (PySubclassError OverflowErrorBase "OverflowError" "date value out of range").

(** [d.astimezone(UTC)]; a naive datetime is a time of the system's zone. *)
Class SystemZone := local_utcoffset : datetime → Z.

Definition astimezone_utc `{SystemZone} (d : datetime) : result datetime :=
  let n := instant d - match dt_utcoffset d with Some _ => 0 | None => local_utcoffset d * 1000000 end in
  if (0 <=? n) && (n <=? last_instant) then Ok (of_instant n)
  else Err (PySubclassError OverflowErrorBase "OverflowError" "date value out of range").

Lemma astimezone_utc_aware `{SystemZone} d u :
  is_aware d = true → astimezone_utc d = Ok u → utc_valid u = true ∧ instant u = instant d.
Proof.
  unfold is_aware, astimezone_utc. destruct (dt_utcoffset d); [intros _|done].
  rewrite Z.sub_0_r. destruct (_ && _) eqn:E; [|done].
  apply andb_true_iff in E as [E1%Z.leb_le E2%Z.leb_le]. intros Hr. apply (inj Ok) in Hr as <-.
  split; [by apply of_instant_valid|apply instant_of_instant].
Qed.

Lemma with_offset_same d o : dt_utcoffset d = o → with_offset d o = d.
Proof. intros <-. by destruct d. Qed.

Lemma of_instant_utc n : dt_utcoffset (of_instant n) = Some 0.
Proof. unfold of_instant. by destruct (ymd_of_ordinal _) as [[??]?]. Qed.

Lemma instant_utc d : dt_utcoffset d = Some 0 → instant (with_offset d None) = instant d.
Proof. intros Hd. unfold instant. by rewrite Hd. Qed.

Lemma utc_valid_offset d : utc_valid d = true → dt_utcoffset d = Some 0.
Proof. unfold utc_valid. rewrite andb_true_iff, bool_decide_eq_true. tauto. Qed.

Lemma dt_add_utc d delta r :
  utc_valid d = true → dt_add d delta = Ok r → utc_valid r = true ∧ instant r = instant d + delta.
Proof.
  intros Hd%utc_valid_offset. unfold dt_add. rewrite instant_utc, Hd by done.
  rewrite with_offset_same by apply of_instant_utc.
  destruct (_ && _) eqn:E; [|done]. apply andb_true_iff in E as [E1%Z.leb_le E2%Z.leb_le].
  intros Hr. apply (inj Ok) in Hr as <-.
  split; [by apply of_instant_valid|apply instant_of_instant].
Qed.

(** ** The order of texts

    SQLite compares text columns byte by byte.  The texts of UTC datetimes are
    in the order of their instants: the fields have fixed widths, most
    significant first, and [+] (no microseconds) precedes [.] *)

Lemma str_le_cons c s t : str_le (String c s) (String c t) = str_le s t.
Proof. cbn. by rewrite Ascii.eqb_refl. Qed.

Lemma str_le_app u s t : str_le (u +:+ s) (u +:+ t) = str_le s t.
Proof. induction u as [|c u IH]; [done|]. rewrite !append_cons, str_le_cons. done. Qed.

Lemma digit_order (a b : Z) : 0 ≤ a < 10 → 0 ≤ b < 10 →
  (hex_digit a =? hex_digit b)%char = (a =? b) ∧ (code (hex_digit a) <? code (hex_digit b)) = (a <? b).
Proof.
  assert (∀ n, 0 ≤ n < 10 → n ∈ seqZ 0 10) as Hin by (intros; apply elem_of_seqZ; lia).
  intros Ha%Hin Hb%Hin. clear Hin. revert b Hb. revert a Ha.
  assert (Forall (λ a, Forall (λ b, (hex_digit a =? hex_digit b)%char = (a =? b)
    ∧ (code (hex_digit a) <? code (hex_digit b)) = (a <? b)) (seqZ 0 10)) (seqZ 0 10)) as H.
  { repeat constructor. }
  rewrite Forall_forall in H. intros a Ha. by apply Forall_forall, H.
Qed.

Lemma fixed_order w a b s t :
  str_le (fixed 10 w a +:+ s) (fixed 10 w b +:+ t)
  = if a mod 10 ^ Z.of_nat w =? b mod 10 ^ Z.of_nat w then str_le s t
    else a mod 10 ^ Z.of_nat w <? b mod 10 ^ Z.of_nat w.
Proof.
  induction w as [|w IH]; [simpl; by rewrite !Z.mod_1_r|].
  cbn [fixed]. rewrite !append_cons. cbn [str_le].
  set (p := 10 ^ Z.of_nat w) in *. assert (0 < p) as Hp by (apply Z.pow_pos_nonneg; lia).
  destruct (digit_order ((a / p) mod 10) ((b / p) mod 10)) as [-> ->];
    [apply Z.mod_pos_bound; lia..|].
  assert (10 ^ Z.of_nat (S w) = p * 10) as ->.
  { rewrite Nat2Z.inj_succ, Z.pow_succ_r by lia. unfold p. lia. }
  rewrite IH, !(Z.rem_mul_r _ p 10) by lia.
  pose proof (Z.mod_pos_bound a p Hp). pose proof (Z.mod_pos_bound b p Hp).
  generalize dependent (a mod p). generalize dependent (b mod p).
  generalize ((a / p) mod 10) ((b / p) mod 10). clear -Hp. intros u v x Hx y _ Hy.
  destruct (Z.eqb_spec u v) as [->|Hne].
  - destruct (Z.eqb_spec y x), (Z.eqb_spec (y + p * v) (x + p * v)); (done || lia).
  - destruct (Z.eqb_spec (y + p * u) (x + p * v)) as [E|_]; [exfalso; nia|].
    destruct (Z.ltb_spec u v), (Z.ltb_spec (y + p * u) (x + p * v)); (done || nia).
Qed.

Lemma field_order w a b c s t :
  0 ≤ a < 10 ^ Z.of_nat w → 0 ≤ b < 10 ^ Z.of_nat w →
  str_le (fixed 10 w a +:+ String c "" +:+ s) (fixed 10 w b +:+ String c "" +:+ t)
  = if a =? b then str_le s t else a <? b.
Proof.
  intros. rewrite fixed_order, !Z.mod_small by done.
  by rewrite !append_cons, str_le_cons, !append_nil_l.
Qed.

(** The seconds and the microseconds: the text that ends a UTC datetime. *)
Definition micro_text (us : Z) : string :=
  (if us =? 0 then "" else "." +:+ fixed 10 6 us) +:+ "+00:00".

Lemma micro_order u v : 0 ≤ u < 1000000 → 0 ≤ v < 1000000 →
  str_le (micro_text u) (micro_text v) = (u <=? v).
Proof.
  intros Hu Hv. unfold micro_text.
  destruct (Z.eqb_spec u 0) as [->|Hu0], (Z.eqb_spec v 0) as [->|Hv0].
  - done.
  - change (str_le _ _) with true. symmetry. apply Z.leb_le. lia.
  - change (str_le _ _) with false. symmetry. apply Z.leb_gt. lia.
  - rewrite !append_cons, str_le_cons, !append_nil_l, fixed_order, !Z.mod_small by done.
    destruct (Z.eqb_spec u v) as [->|]; [by rewrite Z.leb_refl|].
    destruct (Z.ltb_spec u v), (Z.leb_spec u v); (done || lia).
Qed.

Lemma pos_lt (c : bool) (a b : Z) : (if a =? b then c else a <? b) = (a <? b) || ((a =? b) && c).
Proof. destruct (Z.eqb_spec a b) as [->|]; [by rewrite Z.ltb_irrefl|by rewrite orb_false_r]. Qed.

(** Comparing most significant parts first. *)
Lemma mixed_order (a b p x y : Z) (c : bool) :
  0 ≤ x < p → 0 ≤ y < p → c = (x <=? y) →
  (if a =? b then c else a <? b) = (a * p + x <=? b * p + y).
Proof.
  intros Hx Hy ->. destruct (Z.eqb_spec a b) as [->|].
  - destruct (Z.leb_spec x y), (Z.leb_spec (b * p + x) (b * p + y)); (done || lia).
  - destruct (Z.ltb_spec a b), (Z.leb_spec (a * p + x) (b * p + y)); (done || nia).
Qed.

Lemma day_order y y' m m' d d' (c : bool) x x' :
  1 ≤ m ≤ 12 → 1 ≤ m' ≤ 12 → 1 ≤ d ≤ days_in_month y m → 1 ≤ d' ≤ days_in_month y' m' →
  0 ≤ x < day_us → 0 ≤ x' < day_us → c = (x <=? x') →
  (if y =? y' then if m =? m' then if d =? d' then c else d <? d' else m <? m' else y <? y')
  = ((ymd_ordinal y m d - 1) * day_us + x <=? (ymd_ordinal y' m' d' - 1) * day_us + x').
Proof.
  intros Hm Hm' Hd Hd' Hx Hx' Hc. unfold day_us in *. rewrite !ymd_ordinal_year.
  assert (∀ y m d, 1 ≤ m ≤ 12 → 1 ≤ d ≤ days_in_month y m →
    1 ≤ days_before_month y m + d ≤ days_in_year y) as Hlen.
  { clear. intros y m d Hm Hd. pose proof (month_long y m Hm). rewrite <-month_last.
    destruct (decide (m = 12)) as [->|]; [unfold month_end; lia|].
    pose proof (month_order y m 12 ltac:(lia) ltac:(lia) ltac:(lia)).
    pose proof (month_long y 12 ltac:(lia)). unfold month_end in *. lia. }
  pose proof (Hlen y m d Hm Hd) as Hl. pose proof (Hlen y' m' d' Hm' Hd') as Hl'. clear Hlen.
  destruct (Z.eqb_spec y y') as [<-|Hy].
  - destruct (Z.eqb_spec m m') as [<-|Hmm].
    + rewrite (mixed_order d d' 86400000000 x x' c) by done.
      destruct (Z.leb_spec (d * 86400000000 + x) (d' * 86400000000 + x')),
        (Z.leb_spec ((days_before_year y + days_before_month y m + d - 1) * 86400000000 + x)
          ((days_before_year y + days_before_month y m + d' - 1) * 86400000000 + x')); (done || lia).
    + destruct (Z.ltb_spec m m') as [Hlt|Hlt]; symmetry; [apply Z.leb_le|apply Z.leb_gt].
      * pose proof (month_order y m m' ltac:(lia) Hlt ltac:(lia)). unfold month_end in *. lia.
      * pose proof (month_order y m' m ltac:(lia) ltac:(lia) ltac:(lia)). unfold month_end in *. lia.
  - destruct (Z.ltb_spec y y') as [Hlt|Hlt]; symmetry; [apply Z.leb_le|apply Z.leb_gt].
    + pose proof (days_before_year_mono (y + 1) y' ltac:(lia)) as Hmo.
      rewrite days_before_next in Hmo. lia.
    + pose proof (days_before_year_mono (y' + 1) y ltac:(lia)) as Hmo.
      rewrite days_before_next in Hmo. lia.
Qed.

#[local] Transparent isoformat.

Lemma isoformat_utc_text d : dt_utcoffset d = Some 0 →
  isoformat d = fixed 10 4 (dt_year d) +:+ "-" +:+ fixed 10 2 (dt_month d) +:+ "-" +:+
    fixed 10 2 (dt_day d) +:+ "T" +:+ fixed 10 2 (dt_hour d) +:+ ":" +:+
    fixed 10 2 (dt_minute d) +:+ ":" +:+ fixed 10 2 (dt_second d) +:+ micro_text (dt_micro d).
Proof. intros Hd. unfold isoformat. by rewrite Hd. Qed.

Definition clock (d : datetime) : Z :=
  (dt_hour d * 3600 + dt_minute d * 60 + dt_second d) * 1000000 + dt_micro d.

Lemma clock_order h h' m m' s s' u u' (c : bool) :
  0 ≤ m < 60 → 0 ≤ m' < 60 → 0 ≤ s < 60 → 0 ≤ s' < 60 →
  0 ≤ u < 1000000 → 0 ≤ u' < 1000000 → c = (u <=? u') →
  (if h =? h' then if m =? m' then if s =? s' then c else s <? s' else m <? m' else h <? h')
  = ((h * 3600 + m * 60 + s) * 1000000 + u <=? (h' * 3600 + m' * 60 + s') * 1000000 + u').
Proof.
  intros ?????? Hc. rewrite (mixed_order s s' 1000000 u u' c) by done.
  rewrite (mixed_order m m' 60000000 (s * 1000000 + u) (s' * 1000000 + u')) by (done || lia).
  rewrite (mixed_order h h' 3600000000 (m * 60000000 + (s * 1000000 + u))
    (m' * 60000000 + (s' * 1000000 + u'))) by (done || lia).
  f_equal; lia.
Qed.

Lemma utc_valid_fields d : utc_valid d = true →
  1 ≤ dt_year d < 10 ^ 4 ∧ 1 ≤ dt_month d ≤ 12
  ∧ 1 ≤ dt_day d ≤ days_in_month (dt_year d) (dt_month d)
  ∧ 0 ≤ dt_hour d < 24 ∧ 0 ≤ dt_minute d < 60 ∧ 0 ≤ dt_second d < 60
  ∧ 0 ≤ dt_micro d < 1000000 ∧ dt_utcoffset d = Some 0.
Proof.
  intros H. pose proof (utc_valid_offset d H) as Ho. revert H.
  unfold utc_valid, datetime_valid. rewrite Ho, !andb_true_iff, !Z.leb_le. intuition lia.
Qed.

Lemma days_in_month_bound y m : days_in_month y m ≤ 31.
Proof.
  unfold days_in_month. destruct (_ && _); [lia|].
  destruct (Z.to_nat m) as [|[|[|[|[|[|[|[|[|[|[|[|[|[|n]]]]]]]]]]]]]]; cbn; lia.
Qed.

Lemma instant_clock d : dt_utcoffset d = Some 0 →
  instant d = (ymd_ordinal (dt_year d) (dt_month d) (dt_day d) - 1) * day_us + clock d.
Proof. intros Hd. unfold instant, clock, day_us. rewrite Hd. cbn [default from_option id]. lia. Qed.

(** Text order is the order of instants. *)
Lemma isoformat_order a b :
  utc_valid a = true → utc_valid b = true →
  str_le (isoformat a) (isoformat b) = (instant a <=? instant b).
Proof.
  intros (Hy&Hm&Hd&Hh&Hi&Hs&Hu&Ho)%utc_valid_fields (Hy'&Hm'&Hd'&Hh'&Hi'&Hs'&Hu'&Ho')%utc_valid_fields.
  rewrite !isoformat_utc_text, !instant_clock by done.
  pose proof (days_in_month_bound (dt_year a) (dt_month a)).
  pose proof (days_in_month_bound (dt_year b) (dt_month b)).
  rewrite !field_order by (cbn; lia). rewrite !fixed_order, !Z.mod_small by (cbn; lia).
  rewrite micro_order by done.
  apply day_order; try done; unfold clock, day_us; [lia..|]. by apply clock_order.
Qed.

Lemma isoformat_order_iff a b :
  utc_valid a = true → utc_valid b = true →
  str_le (isoformat a) (isoformat b) = true ↔ instant a ≤ instant b.
Proof. intros. by rewrite isoformat_order, Z.leb_le. Qed.
