(* ===== verification/PySql.v ===== *)
(** * PySql: tables of SQLite

    A table is the list of its rows in [rowid] order.  [update_where] is
    [UPDATE ... SET ... WHERE ...] with its row count, [select_where] a [SELECT]
    that fetches one row, [atomically] a [with] block over a connection: it
    commits what the block left, or rolls back when the block raises.  The laws
    are about tables with a unique key.  [call_all] makes a sequence of calls. *)

From S2P Require Import Prelude PyText PyJson PyTime PyDate.

Open Scope Z_scope.

Definition atomically {S A} (block : S → result (A * S)) (s : S) : result A * S :=
  match block s with
  | Ok (a, s') => (Ok a, s')
  | Err e => (Err e, s)
  end.

Definition update_where {R} (where_ : R → bool) (set : R → R) (rows : list R) : Z * list R :=
  (Z.of_nat (length (List.filter where_ rows)), map (λ r, if where_ r then set r else r) rows).

Definition select_where {R} (where_ : R → bool) (rows : list R) : option R :=
  List.find where_ rows.

(** [ORDER BY id DESC LIMIT 1]. *)
Definition select_last {R} (where_ : R → bool) (rows : list R) : option R :=
  List.find where_ (rev rows).

(** [column = ?], [column <= ?] and [column > ?] on a nullable text column. *)
Definition col_eq (column : option string) (value : string) : bool :=
  match column with Some c => (c =? value)%string | None => false end.
Definition col_le (column : option string) (value : string) : bool :=
  match column with Some c => str_le c value | None => false end.
Definition col_gt (column : option string) (value : string) : bool :=
  match column with Some c => negb (str_le c value) | None => false end.

(** The text of an instant in a UTC column. *)
Definition utc_text (n : Z) : string := isoformat (of_instant n).

Definition in_calendar (n : Z) : Prop := 0 ≤ n ≤ last_instant.

Lemma utc_text_le a b : in_calendar a → in_calendar b → str_le (utc_text a) (utc_text b) = (a <=? b).
Proof.
  intros Ha Hb. unfold utc_text. rewrite isoformat_order by by apply of_instant_valid.
  by rewrite !instant_of_instant.
Qed.

Lemma utc_text_eq a b : in_calendar a → in_calendar b → (utc_text a =? utc_text b)%string = (a =? b).
Proof.
  intros Ha Hb. destruct (Z.eqb_spec a b) as [->|Hne]; [apply String.eqb_refl|].
  apply String.eqb_neq. intros He. apply Hne.
  pose proof (utc_text_le a b Ha Hb) as H1. pose proof (utc_text_le b a Hb Ha) as H2.
  rewrite He, str_le_refl in H1. rewrite He, str_le_refl in H2.
  symmetry in H1, H2. apply Z.leb_le in H1, H2. lia.
Qed.

Lemma utc_text_read n : in_calendar n → fromisoformat (utc_text n) = Ok (of_instant n).
Proof.
  intros Hn. apply fromisoformat_isoformat. pose proof (of_instant_valid n Hn) as H.
  unfold utc_valid in H. by apply andb_true_iff in H as [H _].
Qed.

(** Steps of the error monad as equations: the kernel then compares no
    unfolded computations. *)
Lemma Ok_bind {A B} (a : A) (f : A → result B) : Ok a ≫= f = f a.
Proof. done. Qed.
Lemma Err_bind {A B} e (f : A → result B) : Err e ≫= f = Err e.
Proof. done. Qed.

Ltac rstep := rewrite ?Ok_bind, ?Err_bind.

Section keyed.
Context {R K : Type} `{EqDecision K} (key : R → K).

(** The row of a key. *)
Definition row_of (k : K) (rows : list R) : option R :=
  select_where (λ r, bool_decide (key r = k)) rows.

Lemma row_of_key k rows r : row_of k rows = Some r → key r = k.
Proof. intros [_ H]%find_some. by apply bool_decide_eq_true in H. Qed.

Lemma row_of_None k rows : row_of k rows = None ↔ k ∉ map key rows.
Proof.
  unfold row_of, select_where. induction rows as [|r rows IH]; cbn; [split; [intros _; apply not_elem_of_nil|done]|].
  rewrite elem_of_cons. case_bool_decide as Hk; [split; [done|by intros []; left]|].
  rewrite IH. naive_solver.
Qed.

Lemma row_of_snoc k rows r :
  row_of k (rows ++ [r]) = match row_of k rows with
                           | Some r' => Some r'
                           | None => if bool_decide (key r = k) then Some r else None
                           end.
Proof.
  unfold row_of, select_where. induction rows as [|r' rows IH]; [done|]. cbn. destruct (bool_decide (key r' = k)); [done|apply IH].
Qed.

Lemma row_of_elem k rows r : row_of k rows = Some r → r ∈ rows.
Proof. intros [H _]%find_some. by apply list_elem_of_In. Qed.

Lemma row_of_member rows r : NoDup (map key rows) → r ∈ rows → row_of (key r) rows = Some r.
Proof.
  intros Hnd Hr. destruct (row_of (key r) rows) as [r'|] eqn:E.
  - f_equal. pose proof (row_of_elem _ _ _ E) as Hr'. pose proof (row_of_key _ _ _ E) as Hk. clear E.
    induction rows as [|r0 rows IH]; [by apply not_elem_of_nil in Hr|].
    cbn in Hnd. apply NoDup_cons in Hnd as [H0 Hnd].
    apply elem_of_cons in Hr as [->|Hr], Hr' as [->|Hr']; [done|..|by apply IH].
    + destruct H0. rewrite <-Hk. by apply (list_elem_of_fmap_2 key).
    + destruct H0. rewrite Hk. by apply (list_elem_of_fmap_2 key).
  - apply row_of_None in E. destruct E. by apply (list_elem_of_fmap_2 key).
Qed.

Lemma select_row_of k (w : R → bool) rows :
  NoDup (map key rows) → (∀ r, w r = true → key r = k) →
  select_where w rows = match row_of k rows with Some r => if w r then Some r else None | None => None end.
Proof.
  intros Hnd Hw. induction rows as [|r rows IH]; [done|].
  cbn in Hnd. apply NoDup_cons in Hnd as [Hr Hnd]. specialize (IH Hnd).
  unfold row_of, select_where in *. cbn. destruct (w r) eqn:E.
  - rewrite bool_decide_true by auto. by rewrite E.
  - rewrite IH. destruct (bool_decide_reflect (key r = k)) as [Hk|Hk]; [rewrite E|done].
    destruct (List.find (λ r, bool_decide (key r = k)) rows) as [r'|] eqn:Ef; [|done].
    exfalso. apply Hr. rewrite Hk. apply find_some in Ef as [Hin Ek%bool_decide_eq_true].
    rewrite <-Ek. apply list_elem_of_fmap. eexists. split; [done|]. by apply list_elem_of_In.
Qed.

Lemma map_id_on {A} (f : A → A) (l : list A) : (∀ x, x ∈ l → f x = x) → map f l = l.
Proof.
  induction l as [|x l IH]; intros H; [done|]. cbn. rewrite (H x) by by left. f_equal.
  apply IH. intros y Hy. apply H. by right.
Qed.

Lemma update_none w set (rows : list R) :
  (∀ r, r ∈ rows → w r = false) → update_where w set rows = (0, rows).
Proof.
  intros H. unfold update_where. f_equal.
  - induction rows as [|r rows IH]; [done|]. cbn. rewrite H by by left. apply IH.
    intros r' Hr'. apply H. by right.
  - apply map_id_on. intros r Hr. by rewrite H.
Qed.

(** The table with the row of a key changed. *)
Definition set_row (k : K) (f : R → R) (rows : list R) : list R :=
  map (λ r, if bool_decide (key r = k) then f r else r) rows.

Lemma update_row_of k w set rows :
  NoDup (map key rows) → (∀ r, w r = true → key r = k) →
  update_where w set rows
  = match row_of k rows with
    | Some r => if w r then (1, set_row k set rows) else (0, rows)
    | None => (0, rows)
    end.
Proof.
  intros Hnd Hw. destruct (row_of k rows) as [r|] eqn:E; [destruct (w r) eqn:Ew|].
  3: { apply update_none. intros r Hr. destruct (w r) eqn:Ew; [|done]. apply row_of_None in E.
    exfalso. apply E. rewrite <-(Hw r Ew). apply list_elem_of_fmap. eauto. }
  2: { apply update_none. intros r' Hr'. destruct (w r') eqn:Ew'; [|done].
    pose proof (select_row_of k w rows Hnd Hw) as Hs. rewrite E, Ew in Hs.
    apply list_elem_of_In in Hr'. by rewrite (find_none _ _ Hs r' Hr') in Ew'. }
  revert Hnd E. unfold row_of, select_where, update_where, set_row.
  induction rows as [|r' rows IH]; [done|]. intros Hnd E. cbn in Hnd.
  apply NoDup_cons in Hnd as [Hr' Hnd]. cbn in E. case_bool_decide as Hk.
  - injection E as ->.
    assert (∀ r', r' ∈ rows → key r' ≠ k) as Hno.
    { intros r' Hin Hk'. apply Hr'. rewrite Hk, <-Hk'. apply list_elem_of_fmap. eauto. }
    assert (update_where w set rows = (0, rows)) as Hu.
    { apply update_none. intros r' Hin. destruct (w r') eqn:E'; [|done].
      by destruct (Hno r' Hin (Hw r' E')). }
    unfold update_where in Hu. injection Hu as Hl Hm. cbn. rewrite Ew, bool_decide_true by done. cbn.
    rewrite Hm. f_equal; [lia|]. f_equal. symmetry. apply map_id_on. intros r' Hin.
    by rewrite bool_decide_false by auto.
  - specialize (IH Hnd E). injection IH as Hl Hm. assert (w r' = false) as Ew'.
    { destruct (w r') eqn:Ew'; [|done]. by rewrite (Hw r' Ew') in Hk. }
    cbn. rewrite Ew', Hl, Hm, bool_decide_false by done. done.
Qed.

Lemma row_of_set_row k k' f rows :
  (∀ r, key (f r) = key r) →
  row_of k' (set_row k f rows) = if decide (k' = k) then f <$> row_of k rows else row_of k' rows.
Proof.
  intros Hf. unfold row_of, select_where, set_row. induction rows as [|r rows IH]; cbn.
  { by destruct (decide _). }
  assert (key (if bool_decide (key r = k) then f r else r) = key r) as -> by (by case_bool_decide).
  rewrite IH. destruct (decide (k' = k)) as [->|Hne].
  - by case_bool_decide.
  - case_bool_decide as H1; [|done]. by rewrite bool_decide_false by congruence.
Qed.

Lemma set_row_keys k f rows : (∀ r, key (f r) = key r) → map key (set_row k f rows) = map key rows.
Proof.
  intros Hf. unfold set_row. rewrite map_map. apply map_ext. intros r. by case_bool_decide.
Qed.
End keyed.

(** ** Sequences of operations *)

(** The answers of a sequence of operations, and the state it leaves. *)
Fixpoint call_all {C R S} (step : C → S → R * S) (calls : list C) (s : S) : list R * S :=
  match calls with
  | [] => ([], s)
  | c :: calls => let '(r, s) := step c s in let '(rs, s) := call_all step calls s in (r :: rs, s)
  end.

(** A simulation of the single operations is one of their sequences. *)
Lemma call_all_simulates {C R S M} (step : C → S → R * S) (spec : C → M → R * M) (rel : M → S → Prop) :
  (∀ c m s, rel m s → (step c s).1 = (spec c m).1 ∧ rel (spec c m).2 (step c s).2) →
  ∀ calls m s, rel m s →
  (call_all step calls s).1 = (call_all spec calls m).1
  ∧ rel (call_all spec calls m).2 (call_all step calls s).2.
Proof.
  intros Hstep. induction calls as [|c calls IH]; intros m s Hr; [done|]. cbn.
  destruct (Hstep c m s Hr) as [H1 H2]. destruct (step c s) as [r s'], (spec c m) as [r' m'].
  cbn in H1, H2. subst r'. destruct (IH m' s' H2) as [H3 H4].
  destruct (call_all step calls s') as [rs s2], (call_all spec calls m') as [rs' m2].
  cbn in *. by subst rs'.
Qed.
