(* ===== verification/ResourceLimits.v ===== *)
(** * ResourceLimits: [src/src/master_agent/resource_limits.py]

    The bounded walk that measures a JSON-compatible value before anything
    recursive touches it.  [measure_json_resources] is the code's loop over an
    explicit stack of (exiting, value, depth) entries; [usage_of] and
    [within_limits] are the recursive reference it is proved equal to.  A
    [json] is a finite tree, so the loop's active-container test (which fires
    only on an object that contains itself) has nothing to observe and is not
    represented. *)

From S2P Require Import Prelude PyText PyJson.

Open Scope Z_scope.

Definition MAX_PLAN_BYTES : Z := 8 * 1024 * 1024.
Definition MAX_PLAN_ACTIONS : Z := 256.
Definition MAX_ACTION_DEPENDENCIES : Z := 256.
Definition MAX_JSON_DEPTH : Z := 32.
Definition MAX_JSON_COLLECTION_ITEMS : Z := 1024.
Definition MAX_JSON_NODES : Z := 65536.
Definition MAX_JSON_STRING_CHARACTERS : Z := 1048576.
Definition MAX_ACTION_PARAMETER_BYTES : Z := 4 * 1024 * 1024.
Definition MAX_PLAN_PARAMETER_BYTES : Z := 8 * 1024 * 1024.

Record JsonResourceUsage : Type := mk_usage {
  nodes : Z;
  scalar_bytes : Z;
  maximum_depth : Z;
}.

(** Text of code points below 256 always encodes, so the code's
    invalid-Unicode branch has no case here. *)
Definition bounded_string_bytes (value context : string) : result Z :=
  if MAX_JSON_STRING_CHARACTERS <? len value
  then Err (ValidationError (context +:+ " contains a string exceeding the 1048576-character limit"))
  else Ok (utf8_length value).

Definition validate_bounded_string (value context : string) : result unit :=
  _ ← bounded_string_bytes value context; Ok tt.

Definition bit_length (value : Z) : Z :=
  if value =? 0 then 0 else Z.log2 (Z.abs value) + 1.

Definition integer_characters (value : Z) : Z :=
  if value =? 0 then 1
  else (bit_length value * 30103 + 99999) / 100000 + (if value <? 0 then 1 else 0).

(** ** The walk *)

Inductive entry : Type :=
  | Enter (current : json) (depth : Z)
  | Exit.

(** The key bytes of an object, added up in iteration order. *)
Fixpoint key_bytes (kvs : dict) (context : string) (acc : Z) : result Z :=
  match kvs with
  | [] => Ok acc
  | (k, _) :: kvs =>
      b ← bounded_string_bytes k context; key_bytes kvs context (acc + b)
  end.

(** The bytes a value adds by itself, and the entries it pushes. *)
Definition visit (current : json) (depth : Z) (context : string)
    : result (Z * list entry) :=
  match current with
  | JDict kvs =>
      raise_if (MAX_JSON_COLLECTION_ITEMS <? Z.of_nat (length kvs))
        (ValidationError (context +:+ " contains an object exceeding the 1024-item limit"));;
      b ← key_bytes kvs context 0;
      Ok (b, map (λ kv, Enter kv.2 (depth + 1)) kvs ++ [Exit])
  | JList l =>
      raise_if (MAX_JSON_COLLECTION_ITEMS <? Z.of_nat (length l))
        (ValidationError (context +:+ " contains an array exceeding the 1024-item limit"));;
      Ok (0, map (λ v, Enter v (depth + 1)) l ++ [Exit])
  | JStr s => b ← bounded_string_bytes s context; Ok (b, [])
  | JNull => Ok (4, [])
  | JBool b => Ok (if b then 4 else 5, [])
  | JInt z => Ok (integer_characters z, [])
  | JFloat r =>
      raise_if (negb (float_finite r))
        (ValidationError (context +:+ " contains a non-finite number"));;
      Ok (24, [])
  end.

(** One iteration of the [while] loop on an entered value. *)
Definition measure_step (current : json) (depth : Z) (context : string)
    (max_bytes : Z) (u : JsonResourceUsage)
    : result (JsonResourceUsage * list entry) :=
  let n := nodes u + 1 in
  raise_if (MAX_JSON_NODES <? n) (ValidationError (context +:+ " exceeds the 65536-node limit"));;
  let d := Z.max (maximum_depth u) depth in
  raise_if (MAX_JSON_DEPTH <? depth)
    (ValidationError (context +:+ " exceeds the 32-level nesting limit"));;
  '(b, pushed) ← visit current depth context;
  let total := scalar_bytes u + b in
  raise_if (max_bytes <? total)
    (ValidationError (context +:+ " exceeds the " +:+ pretty max_bytes
      +:+ "-byte content limit"));;
  Ok (mk_usage n total d, pushed).

(** The loop; [None] would be fuel running out before the stack does. *)
Fixpoint measure_loop (fuel : nat) (stack : list entry) (context : string)
    (max_bytes : Z) (u : JsonResourceUsage) : option (result JsonResourceUsage) :=
  match stack with
  | [] => Some (Ok u)
  | e :: stack =>
      match fuel with
      | O => None
      | S fuel =>
          match e with
          | Exit => measure_loop fuel stack context max_bytes u
          | Enter v depth =>
              match measure_step v depth context max_bytes u with
              | Err e => Some (Err e)
              | Ok (u', pushed) =>
                  measure_loop fuel (pushed ++ stack) context max_bytes u'
              end
          end
      end
  end.

(** The number of values in a tree. *)
Fixpoint json_size (v : json) : nat :=
  match v with
  | JList l => S (list_sum (map json_size l))
  | JDict kvs => S (list_sum (map (λ kv, let '(_, v) := kv in json_size v) kvs))
  | _ => 1
  end.

(** Each value is entered once and left at most once. *)
Definition measure_fuel (v : json) : nat := 2 * json_size v.

Definition measure_json_resources (value : json) (context : string) (max_bytes : Z)
    : result JsonResourceUsage :=
  match measure_loop (measure_fuel value) [Enter value 1] context max_bytes
          (mk_usage 0 0 0) with
  | Some r => r
  | None => Err (PyRuntimeError "measure_json_resources: fuel")
  end.

(** ** The recursive reference *)

Definition zsum (l : list Z) : Z := foldr Z.add 0 l.
Definition zmax (l : list Z) : Z := foldr Z.max 0 l.

Definition own_bytes (v : json) : Z :=
  match v with
  | JNull => 4
  | JBool b => if b then 4 else 5
  | JInt z => integer_characters z
  | JFloat _ => 24
  | JStr s => utf8_length s
  | JList _ => 0
  | JDict kvs => zsum (map (λ kv, utf8_length kv.1) kvs)
  end.

Fixpoint json_bytes (v : json) : Z :=
  match v with
  | JList l => zsum (map json_bytes l)
  | JDict kvs => own_bytes (JDict kvs) + zsum (map (λ kv, let '(_, v) := kv in json_bytes v) kvs)
  | v => own_bytes v
  end.

Fixpoint json_depth (v : json) : Z :=
  match v with
  | JList l => 1 + zmax (map json_depth l)
  | JDict kvs => 1 + zmax (map (λ kv, let '(_, v) := kv in json_depth v) kvs)
  | _ => 1
  end.

Definition short_string (s : string) : bool := len s <=? MAX_JSON_STRING_CHARACTERS.

(** No collection is too wide, no string too long, no float non-finite. *)
Fixpoint json_shape_ok (v : json) : bool :=
  match v with
  | JStr s => short_string s
  | JFloat r => float_finite r
  | JList l =>
      (Z.of_nat (length l) <=? MAX_JSON_COLLECTION_ITEMS) && forallb json_shape_ok l
  | JDict kvs =>
      (Z.of_nat (length kvs) <=? MAX_JSON_COLLECTION_ITEMS)
      && forallb (λ kv, let '(k, v) := kv in short_string k && json_shape_ok v) kvs
  | _ => true
  end.

Definition usage_of (v : json) : JsonResourceUsage :=
  mk_usage (Z.of_nat (json_size v)) (json_bytes v) (json_depth v).

Definition within_limits (v : json) (max_bytes : Z) : bool :=
  json_shape_ok v && (Z.of_nat (json_size v) <=? MAX_JSON_NODES)
  && (json_depth v <=? MAX_JSON_DEPTH) && (json_bytes v <=? max_bytes).

(** ** The loop computes the reference *)

Lemma bounded_string_bytes_spec s ctx :
  bounded_string_bytes s ctx =
  if short_string s then Ok (utf8_length s)
  else Err (ValidationError (ctx +:+ " contains a string exceeding the 1048576-character limit")).
Proof.
  unfold bounded_string_bytes, short_string.
  destruct (Z.ltb_spec MAX_JSON_STRING_CHARACTERS (len s)),
    (Z.leb_spec (len s) MAX_JSON_STRING_CHARACTERS); done || lia.
Qed.

Lemma zsum_nonneg l : Forall (λ x, 0 ≤ x) l → 0 ≤ zsum l.
Proof. induction 1; simpl; lia. Qed.
Lemma zmax_nonneg l : 0 ≤ zmax l.
Proof. induction l; simpl; lia. Qed.
Lemma zsum_app l k : zsum (l ++ k) = zsum l + zsum k.
Proof. induction l; simpl; lia. Qed.
Lemma zmax_app l k : zmax (l ++ k) = Z.max (zmax l) (zmax k).
Proof. induction l; simpl; pose proof (zmax_nonneg k); lia. Qed.
Lemma zmax_shift {A} (f : A → Z) d l :
  0 ≤ d → Forall (λ x, 0 ≤ f x) l →
  Z.max d (zmax (map (λ x, d + f x) l)) = d + zmax (map f l).
Proof. intros Hd. induction 1; simpl; lia. Qed.

Lemma list_sum_Z {A} (f : A → nat) l :
  Z.of_nat (list_sum (map f l)) = zsum (map (λ x, Z.of_nat (f x)) l).
Proof. induction l as [|x l IH]; [done|]. simpl zsum. rewrite <- IH. simpl. lia. Qed.

Lemma list_sum_double {A} (f : A → nat) l :
  list_sum (map (λ x, 2 * f x)%nat l) = (2 * list_sum (map f l))%nat.
Proof. induction l as [|x l IH]; [done|]. simpl in *. lia. Qed.

Lemma integer_characters_nonneg z : 0 ≤ integer_characters z.
Proof.
  unfold integer_characters, bit_length. destruct (z =? 0); [lia|].
  pose proof (Z.log2_nonneg (Z.abs z)).
  assert (0 ≤ ((Z.log2 (Z.abs z) + 1) * 30103 + 99999) / 100000)
    by (apply Z.div_pos; lia).
  destruct (z <? 0); lia.
Qed.

Lemma own_bytes_nonneg v : 0 ≤ own_bytes v.
Proof.
  destruct v; simpl; try lia; auto using integer_characters_nonneg, utf8_length_nonneg.
  - by destruct b.
  - apply zsum_nonneg, Forall_map, Forall_true. intros. apply utf8_length_nonneg.
Qed.

Lemma json_measures v : (1 ≤ json_size v)%nat ∧ 1 ≤ json_depth v ∧ 0 ≤ json_bytes v.
Proof.
  induction v as [|b|z|r|s|l IH|kvs IH] using json_nested_ind; simpl.
  1,2,3,4,5: split; [lia|split; [lia|]]; try lia; try (by destruct b);
    auto using integer_characters_nonneg, utf8_length_nonneg.
  - split; [lia|]. split; [pose proof (zmax_nonneg (map json_depth l)); lia|].
    apply zsum_nonneg, Forall_map. eapply Forall_impl; [apply IH|]. simpl; tauto.
  - split; [lia|]. split.
    { match goal with |- context [zmax ?l] => pose proof (zmax_nonneg l) end. lia. }
    assert (0 ≤ zsum (map (λ kv : string * json, utf8_length kv.1) kvs))
      by exact (own_bytes_nonneg (JDict kvs)).
    assert (0 ≤ zsum (map (λ kv : string * json, let '(_, v) := kv in json_bytes v) kvs)).
    { apply zsum_nonneg, Forall_map. eapply Forall_impl; [apply IH|].
      intros [k w]; simpl; tauto. }
    lia.
Qed.

Lemma key_bytes_Ok kvs ctx acc b :
  key_bytes kvs ctx acc = Ok b ↔
  forallb (λ kv, short_string kv.1) kvs = true ∧ b = acc + own_bytes (JDict kvs).
Proof.
  revert acc; induction kvs as [|[k v] kvs IH]; intros acc; simpl.
  - split; [intros [= ->]; split; [done|lia]|intros [_ ->]; f_equal; lia].
  - rewrite bounded_string_bytes_spec. destruct (short_string k); simpl; [|by split; [|intros [? _]]].
    rewrite IH. simpl. split; intros [H1 H2]; (split; [done|lia]).
Qed.

Definition entry_size (e : entry) : Z :=
  match e with Enter v _ => Z.of_nat (json_size v) | Exit => 0 end.
Definition entry_bytes (e : entry) : Z :=
  match e with Enter v _ => json_bytes v | Exit => 0 end.
Definition entry_depth (e : entry) : Z :=
  match e with Enter v d => d + json_depth v - 1 | Exit => 0 end.
Definition entry_ok (e : entry) : bool :=
  match e with Enter v _ => json_shape_ok v | Exit => true end.
Definition entry_fuel (e : entry) : nat :=
  match e with Enter v _ => 2 * json_size v | Exit => 1 end.
Definition entry_wf (e : entry) : Prop :=
  match e with Enter _ d => 1 ≤ d | Exit => True end.

(** What the entries pushed for a value's children add up to. *)
Record pushed_for (v : json) (d : Z) (pushed : list entry) : Prop := {
  pf_size : Z.of_nat (json_size v) = 1 + zsum (map entry_size pushed);
  pf_bytes : json_bytes v = own_bytes v + zsum (map entry_bytes pushed);
  pf_depth : d + json_depth v - 1 = Z.max d (zmax (map entry_depth pushed));
  pf_fuel : (S (list_sum (map entry_fuel pushed)) ≤ 2 * json_size v)%nat;
  pf_wf : Forall entry_wf pushed;
}.

Lemma pushed_scalar v d :
  json_size v = 1%nat → json_depth v = 1 → json_bytes v = own_bytes v →
  1 ≤ d → pushed_for v d [].
Proof. intros H1 H2 H3 H4. split; rewrite ?H1, ?H2, ?H3; simpl; try lia. constructor. Qed.

(** The children of a container: entered one level down, in order. *)
Lemma pushed_children {A} (f : A → json) (l : list A) v d :
  json_size v = S (list_sum (map (λ x, json_size (f x)) l)) →
  json_depth v = 1 + zmax (map (λ x, json_depth (f x)) l) →
  json_bytes v = own_bytes v + zsum (map (λ x, json_bytes (f x)) l) →
  1 ≤ d →
  pushed_for v d (map (λ x, Enter (f x) (d + 1)) l ++ [Exit]).
Proof.
  intros H1 H2 H3 Hd. split.
  - rewrite H1, map_app, zsum_app, map_map. simpl zsum.
    rewrite Nat2Z.inj_succ, list_sum_Z. simpl. lia.
  - rewrite H3, map_app, zsum_app, map_map. simpl. lia.
  - rewrite H2, map_app, zmax_app, map_map. simpl.
    rewrite (map_ext (λ x, d + 1 + json_depth (f x) - 1) (λ x, d + json_depth (f x)))
      by (intros; lia).
    pose proof (zmax_shift (λ x, json_depth (f x)) d l ltac:(lia)
      ltac:(apply Forall_true; intros x; pose proof (json_measures (f x)); lia)).
    pose proof (zmax_nonneg (map (λ x, d + json_depth (f x)) l)). cbv beta in *. lia.
  - rewrite H1, map_app, list_sum_app, map_map.
    change (map (λ x, entry_fuel (Enter (f x) (d + 1))) l)
      with (map (λ x, 2 * json_size (f x))%nat l).
    rewrite list_sum_double. simpl. lia.
  - apply Forall_app. split; [|by constructor]. apply Forall_map, Forall_true.
    intros x. simpl. lia.
Qed.

Lemma visit_Ok v d ctx b pushed :
  1 ≤ d → visit v d ctx = Ok (b, pushed) →
  b = own_bytes v ∧ pushed_for v d pushed
  ∧ json_shape_ok v = forallb entry_ok pushed.
Proof.
  intros Hd. destruct v as [|c|z|r|s|l|kvs]; simpl; intros H.
  1,2,3: injection H as <- <-; auto using pushed_scalar.
  - inv_ok. destruct (float_finite r); [|done]. auto using pushed_scalar.
  - inv_ok. rewrite bounded_string_bytes_spec in Hv.
    destruct (short_string s); [|done]. inv_ok. auto using pushed_scalar.
  - inv_ok. split; [done|]. split; [by apply (pushed_children (λ v, v))|].
    apply Z.ltb_ge in Hv. rewrite forallb_app, andb_true_r.
    rewrite (proj2 (Z.leb_le _ _) Hv). simpl. clear.
    induction l as [|v l IH]; simpl; [done|by rewrite IH].
  - inv_ok. apply Z.ltb_ge in Hv. apply key_bytes_Ok in Hv0 as [Hk ->].
    split; [by rewrite Z.add_0_l|]. split.
    { apply pushed_children; [| | |done]; simpl;
        do 2 f_equal; apply map_ext; by intros [k w]. }
    rewrite (proj2 (Z.leb_le _ _) Hv). simpl. clear Hv. revert Hk.
    rewrite forallb_app, andb_true_r.
    induction kvs as [|[k w] kvs IH]; simpl; [done|]. rewrite andb_true_iff.
    intros [-> Hk]. by rewrite IH.
Qed.

Lemma visit_Err v d ctx e : visit v d ctx = Err e → json_shape_ok v = false.
Proof.
  destruct v as [|c|z|r|s|l|kvs]; simpl; try done.
  - destruct (float_finite r); done.
  - rewrite bounded_string_bytes_spec. by destruct (short_string s).
  - destruct (Z.ltb_spec MAX_JSON_COLLECTION_ITEMS (Z.of_nat (length l))); [|done].
    intros _. by destruct (Z.leb_spec (Z.of_nat (length l)) MAX_JSON_COLLECTION_ITEMS); [lia|].
  - destruct (Z.ltb_spec MAX_JSON_COLLECTION_ITEMS (Z.of_nat (length kvs)));
      destruct (Z.leb_spec (Z.of_nat (length kvs)) MAX_JSON_COLLECTION_ITEMS); try lia; try done.
    simpl. destruct (key_bytes kvs ctx 0) eqn:E; [done|]. intros _.
    assert (forallb (λ kv : string * json, short_string kv.1) kvs = false) as Hk.
    { apply not_true_iff_false. intros Hk.
      pose proof (proj2 (key_bytes_Ok kvs ctx 0 _) (conj Hk eq_refl)). congruence. }
    revert Hk. clear. induction kvs as [|[k w] kvs IH]; simpl; [done|].
    rewrite !andb_false_iff. intuition.
Qed.

(** What is left to measure on a stack, and whether it fits. *)
Definition stack_fits (stack : list entry) (max_bytes : Z) (u : JsonResourceUsage) : Prop :=
  forallb entry_ok stack = true
  ∧ nodes u + zsum (map entry_size stack) ≤ MAX_JSON_NODES
  ∧ Z.max (maximum_depth u) (zmax (map entry_depth stack)) ≤ MAX_JSON_DEPTH
  ∧ scalar_bytes u + zsum (map entry_bytes stack) ≤ max_bytes.

Definition stack_usage (stack : list entry) (u : JsonResourceUsage) : JsonResourceUsage :=
  mk_usage (nodes u + zsum (map entry_size stack))
    (scalar_bytes u + zsum (map entry_bytes stack))
    (Z.max (maximum_depth u) (zmax (map entry_depth stack))).

Lemma entries_nonneg (stack : list entry) :
  0 ≤ zsum (map entry_size stack) ∧ 0 ≤ zsum (map entry_bytes stack).
Proof.
  split; apply zsum_nonneg, Forall_map, Forall_true; intros [v d|]; simpl;
    try pose proof (json_measures v); lia.
Qed.

(** One step either stops because a limit is broken for good, or leaves what
    fits and the total unchanged. *)
Lemma measure_step_stack v d ctx mb u stack :
  1 ≤ d →
  match measure_step v d ctx mb u with
  | Err _ => ¬ stack_fits (Enter v d :: stack) mb u
  | Ok (u', pushed) =>
      (stack_fits (Enter v d :: stack) mb u ↔ stack_fits (pushed ++ stack) mb u')
      ∧ stack_usage (Enter v d :: stack) u = stack_usage (pushed ++ stack) u'
      ∧ Forall entry_wf pushed
      ∧ (list_sum (map entry_fuel pushed) < 2 * json_size v)%nat
      ∧ nodes u' ≤ MAX_JSON_NODES ∧ scalar_bytes u' ≤ mb
      ∧ maximum_depth u' = Z.max (maximum_depth u) d ∧ d ≤ MAX_JSON_DEPTH
  end.
Proof.
  intros Hd. pose proof (json_measures v) as Hv. destruct (entries_nonneg stack) as [He1 He2].
  pose proof (own_bytes_nonneg v).
  unfold measure_step. destruct (Z.ltb_spec MAX_JSON_NODES (nodes u + 1)); simpl.
  { unfold stack_fits. simpl. lia. }
  destruct (Z.ltb_spec MAX_JSON_DEPTH d); simpl.
  { unfold stack_fits. simpl. lia. }
  destruct (visit v d ctx) as [[b pushed]|e] eqn:E; simpl.
  2: { apply visit_Err in E. unfold stack_fits. simpl. rewrite E. simpl. by intros [? _]. }
  apply visit_Ok in E as (-> & Hp & Hok); [|done].
  destruct (entries_nonneg pushed) as [Hp1 Hp2]. destruct Hp as [Ps Pb Pd Pf Pw].
  destruct (Z.ltb_spec mb (scalar_bytes u + own_bytes v)); simpl.
  { unfold stack_fits. simpl. lia. }
  unfold stack_fits, stack_usage. simpl.
  rewrite !map_app, !zsum_app, !zmax_app, forallb_app, Hok.
  split; [|split; [f_equal; lia|split; [done|repeat split; lia]]].
  split; intros (?&?&?&?); (split; [done|]); lia.
Qed.

(** With enough fuel the loop finishes, and it returns the stack's totals
    exactly when everything on the stack fits. *)
Lemma measure_loop_spec fuel stack ctx mb u :
  (list_sum (map entry_fuel stack) ≤ fuel)%nat → Forall entry_wf stack →
  nodes u ≤ MAX_JSON_NODES → scalar_bytes u ≤ mb →
  0 ≤ maximum_depth u ≤ MAX_JSON_DEPTH →
  ∃ r, measure_loop fuel stack ctx mb u = Some r ∧
    ∀ w, r = Ok w ↔ stack_fits stack mb u ∧ w = stack_usage stack u.
Proof.
  revert stack u; induction fuel as [|fuel IH]; intros stack u Hf Hwf Hn Hb Hd;
    destruct stack as [|[v d|] stack].
  1,4: exists (Ok u); split; [done|]; intros w; unfold stack_fits, stack_usage; simpl;
    rewrite !Z.add_0_r, Z.max_l by lia; destruct u; simpl in *;
    split; [intros [= <-]; auto with lia|by intros [_ ->]].
  - pose proof (json_measures v). simpl in Hf. lia.
  - simpl in Hf. lia.
  - inversion Hwf as [|? ? Hwd Hwf']; subst. simpl in Hwd.
    pose proof (measure_step_stack v d ctx mb u stack Hwd) as Hs. simpl.
    destruct (measure_step v d ctx mb u) as [[u' pushed]|e].
    + destruct Hs as (Hs1&Hs2&Hs3&Hs4&Hs5&Hs6&Hs7&Hs8). rewrite Hs2.
      destruct (IH (pushed ++ stack) u') as (r&Hr&Hr'); [|by apply Forall_app|done|done|lia|].
      { rewrite map_app, list_sum_app. simpl in *. lia. }
      exists r. split; [done|]. intros w. by rewrite Hr', Hs1.
    + exists (Err e). split; [done|]. intros w. split; [done|]. by intros [? _].
  - inversion Hwf; subst. simpl in Hf |- *.
    destruct (IH stack u) as (r&Hr&Hr'); [lia|done..|]. exists r. split; [done|].
    intros w. rewrite Hr'. unfold stack_fits, stack_usage. simpl.
    by rewrite (Z.max_r 0) by apply zmax_nonneg.
Qed.

(** The walk never runs out of fuel, and succeeds exactly on the values within
    the limits, with their usage. *)
Lemma measure_spec v ctx mb w :
  measure_json_resources v ctx mb = Ok w ↔ within_limits v mb = true ∧ w = usage_of v.
Proof.
  assert (stack_fits [Enter v 1] mb (mk_usage 0 0 0) ↔ within_limits v mb = true) as Hfit.
  { unfold stack_fits, within_limits. simpl. pose proof (json_measures v).
    rewrite andb_true_r, !andb_true_iff, !Z.leb_le. intuition lia. }
  assert (stack_usage [Enter v 1] (mk_usage 0 0 0) = usage_of v) as Huse.
  { unfold stack_usage, usage_of. simpl. pose proof (json_measures v). f_equal; lia. }
  rewrite <- Hfit, <- Huse. unfold measure_json_resources, measure_fuel.
  pose proof (json_measures v) as Hv.
  destruct (2 * json_size v)%nat as [|fuel] eqn:Ef; [lia|]. simpl.
  pose proof (measure_step_stack v 1 ctx mb (mk_usage 0 0 0) [] ltac:(lia)) as Hs.
  destruct (measure_step v 1 ctx mb (mk_usage 0 0 0)) as [[u' pushed]|e].
  - destruct Hs as (Hs1&Hs2&Hs3&Hs4&Hs5&Hs6&Hs7&Hs8). simpl in Hs7.
    destruct (measure_loop_spec fuel (pushed ++ []) ctx mb u') as (r&->&Hr);
      [|by rewrite app_nil_r|done|done|lia|].
    { rewrite app_nil_r. lia. }
    by rewrite Hr, Hs1, Hs2.
  - split; [done|]. by intros [? _].
Qed.

Lemma measure_total v ctx mb :
  measure_loop (measure_fuel v) [Enter v 1] ctx mb (mk_usage 0 0 0) ≠ None.
Proof.
  unfold measure_fuel. pose proof (json_measures v) as Hv.
  destruct (2 * json_size v)%nat as [|fuel] eqn:Ef; [lia|]. simpl.
  pose proof (measure_step_stack v 1 ctx mb (mk_usage 0 0 0) [] ltac:(lia)) as Hs.
  destruct (measure_step v 1 ctx mb (mk_usage 0 0 0)) as [[u' pushed]|e]; [|done].
  destruct Hs as (Hs1&Hs2&Hs3&Hs4&Hs5&Hs6&Hs7&Hs8). simpl in Hs7.
  destruct (measure_loop_spec fuel (pushed ++ []) ctx mb u') as (r&->&_);
    [|by rewrite app_nil_r|done|done|lia|done].
  rewrite app_nil_r. lia.
Qed.

(** ** The decimal-length bound *)

Lemma len_cons c s : len (String c s) = len s + 1.
Proof. unfold len. cbn [String.length]. lia. Qed.

Lemma pretty_N_go_length x s :
  (0 < x)%N →
  ∃ d, len (pretty_N_go x s) = d + len s ∧ 1 ≤ d ∧ 10 ^ (d - 1) ≤ Z.of_N x.
Proof.
  revert s. induction (N.lt_wf_0 x) as [x _ IH]; intros s Hx.
  rewrite pretty_N_go_step by done.
  destruct (N.eq_0_gt_0_cases (x `div` 10)) as [->|Hq].
  - rewrite pretty_N_go_0. exists 1. rewrite len_cons. simpl. lia.
  - destruct (IH (x `div` 10)%N ltac:(by apply N.div_lt)
      (String (pretty_N_char (x `mod` 10)) s) Hq) as (d & -> & Hd & Hp).
    exists (d + 1). split; [rewrite len_cons; lia|]. split; [lia|].
    replace (d + 1 - 1) with (Z.succ (d - 1)) by lia. rewrite Z.pow_succ_r by lia.
    rewrite N2Z.inj_div in Hp. change (Z.of_N 10) with 10 in Hp.
    pose proof (Z.mul_div_le (Z.of_N x) 10 ltac:(lia)). lia.
Qed.

Lemma pretty_pos_length p :
  ∃ d, len (pretty (N.pos p)) = d ∧ 1 ≤ d ∧ 10 ^ (d - 1) ≤ Z.pos p.
Proof.
  destruct (pretty_N_go_length (N.pos p) "" ltac:(lia)) as (d&Hl&Hd&Hp).
  exists d. split; [|done]. unfold pretty, pretty_N.
  rewrite decide_False by done. rewrite Hl. change (len "") with 0. lia.
Qed.

(** 4004/13301 is above log10 2, and below 0.30103. *)
Lemma pow10_step a c e n d f :
  0 ≤ a → 0 ≤ c → 0 ≤ e → 0 ≤ n → 0 ≤ f → c * 2 ^ e ≤ 10 ^ a → d * 2 ^ f ≤ c ^ n →
  d * 2 ^ (f + e * n) ≤ 10 ^ (a * n).
Proof.
  intros Ha Hc He Hn Hf H1 H2. rewrite Z.pow_mul_r by lia.
  transitivity ((c * 2 ^ e) ^ n); [|apply Z.pow_le_mono_l; lia].
  rewrite Z.pow_mul_l, Z.pow_add_r, Z.pow_mul_r by lia. nia.
Qed.

Lemma log10_2_bound : 2 ^ 13301 < 10 ^ 4004.
Proof.
  assert (142108547152020 * 2 ^ 46 ≤ 10 ^ 28) as H1 by (by vm_compute).
  assert (156575653125700 * 2 ^ 976 ≤ 10 ^ 308) as H2.
  { apply (pow10_step 28 142108547152020 46 11 156575653125700 470); [lia..|done|by vm_compute]. }
  assert (140746456479728 * 2 ^ 13254 ≤ 10 ^ 4004) as H3.
  { apply (pow10_step 308 156575653125700 976 13 140746456479728 566); [lia..|done|by vm_compute]. }
  apply Z.lt_le_trans with (140746456479728 * 2 ^ 13254); [|done].
  replace 13301 with (47 + 13254) by lia. rewrite Z.pow_add_r by lia.
  apply Z.mul_lt_mono_pos_r; [apply Z.pow_pos_nonneg; lia|by vm_compute].
Qed.

Lemma pow_cross k m d b n :
  0 < k → 0 < m → 2 ^ k < 10 ^ m → 1 ≤ d → 0 < b → 10 ^ (d - 1) ≤ n < 2 ^ b →
  (d - 1) * k < b * m.
Proof.
  intros Hk Hm Hkm Hd Hb Hn.
  destruct (Z.lt_ge_cases ((d - 1) * k) (b * m)) as [|Hge]; [done|exfalso].
  assert ((10 ^ m) ^ b ≤ (2 ^ k) ^ b) as Hcontra.
  { rewrite <- !Z.pow_mul_r by lia.
    transitivity (10 ^ ((d - 1) * k)); [apply Z.pow_le_mono_r; lia|].
    rewrite Z.pow_mul_r, (Z.mul_comm k), (Z.pow_mul_r 2) by lia.
    apply Z.pow_le_mono_l. split; [apply Z.pow_nonneg; lia|lia]. }
  pose proof (Z.pow_lt_mono_l (2 ^ k) (10 ^ m) b Hb
    (conj (Z.pow_nonneg 2 k ltac:(lia)) Hkm)). lia.
Qed.

Lemma digits_bits d n :
  1 ≤ d → 0 < n → 10 ^ (d - 1) ≤ n →
  d ≤ ((Z.log2 n + 1) * 30103 + 99999) / 100000.
Proof.
  intros Hd Hn Hp. pose proof (Z.log2_nonneg n).
  assert (n < 2 ^ (Z.log2 n + 1)) as Hb by (apply Z.log2_spec; lia).
  pose proof (pow_cross 13301 4004 d (Z.log2 n + 1) n
    ltac:(reflexivity) ltac:(reflexivity) log10_2_bound Hd ltac:(lia) (conj Hp Hb)).
  apply Z.div_le_lower_bound; lia.
Qed.

(** ** Properties *)

(** C40: [measure_json_resources] terminates, and it accepts a value exactly
    when every collection has at most 1024 items, every string at most 1048576
    characters, no float is non-finite, the whole has at most 65536 values,
    nesting at most 32 and content at most [max_bytes]; the usage it returns is
    the value's own node count, content bytes and depth. *)
Theorem measure_json_resources_correct v ctx max_bytes :
  measure_loop (measure_fuel v) [Enter v 1] ctx max_bytes (mk_usage 0 0 0) ≠ None ∧
  ∀ u, measure_json_resources v ctx max_bytes = Ok u ↔
       within_limits v max_bytes = true ∧ u = usage_of v.
Proof. split; [apply measure_total|]. intros u. apply measure_spec. Qed.

(** the content a value is charged for covers the decimal text of every
    integer in it: [integer_characters] is at least the number of characters
    of the integer's decimal representation, sign included. *)
Theorem integer_characters_bound z : len (pretty z) ≤ integer_characters z.
Proof.
  unfold integer_characters, bit_length. destruct z as [|p|p]; [done| |];
    destruct (pretty_pos_length p) as (d&Hl&Hd&Hp);
    pose proof (digits_bits d (Z.pos p) Hd ltac:(lia) Hp) as Hb.
  - change (len (pretty (N.pos p)) ≤
      ((Z.log2 (Z.pos p) + 1) * 30103 + 99999) / 100000 + 0). rewrite Hl. lia.
  - change (len ("-" +:+ pretty (N.pos p)) ≤
      ((Z.log2 (Z.pos p) + 1) * 30103 + 99999) / 100000 + 1).
    rewrite append_cons, len_cons. change ("" +:+ ?s) with s. lia.
Qed.
