(* ===== verification/JsonCanonical.v ===== *)
(** * JsonCanonical: the canonical JSON text identifies the value

    Two JSON values with the same canonical text ([dumps], [PyJson]) are equal
    up to the order of their keys, so a SHA-256 fingerprint binds a value
    unless two texts collide.  The proof reads a text from the left: a value's
    rendering is determined by any continuation that starts with a
    delimiter. *)

From S2P Require Import Prelude PyText PyJson PyHash.
From Stdlib Require Import Ascii.

Open Scope Z_scope.

(** ** The values considered *)

(** The characters of a number, and the shape of a finite float's [repr]. *)
Definition is_num_char (c : ascii) : bool := is_digit c || str_in c "+-.e".
Definition float_text (r : string) : bool :=
  str_forall is_num_char r && str_exists (λ c, str_in c ".e") r.

(** Every float of the value is finite and spelled as Python spells floats. *)
Fixpoint json_ok (v : json) : bool :=
  match v with
  | JFloat r => float_text r
  | JList l => forallb json_ok l
  | JDict kvs => forallb (λ kv, let '(_, v) := kv in json_ok v) kvs
  | _ => true
  end.

(** The two texts are a collision of the hash. *)
Definition collide (s t : string) : Prop := s ≠ t ∧ sha256 s = sha256 t.

(** ** Tokens *)

Definition delimited (r : string) : Prop :=
  match r with "" => True | String c _ => str_in c ",]}" = true end.

Lemma delimited_not_num c r : delimited (String c r) → is_num_char c = false.
Proof. destruct c as [[] [] [] [] [] [] [] []]; simpl; intros H; done || discriminate H. Qed.

Lemma num_token s t r r' :
  str_forall is_num_char s = true → str_forall is_num_char t = true →
  delimited r → delimited r' → s +:+ r = t +:+ r' → s = t ∧ r = r'.
Proof.
  revert t. induction s as [|c s IH]; intros [|d t] Hs Ht Hr Hr' E; cbn [str_forall] in *.
  - done.
  - assert (r = String d (t +:+ r')) as -> by exact E.
    apply delimited_not_num in Hr. by rewrite Hr in Ht.
  - assert (r' = String c (s +:+ r)) as -> by (symmetry; exact E).
    apply delimited_not_num in Hr'. by rewrite Hr' in Hs.
  - rewrite !append_cons in E. injection E as -> E. to_prop.
    destruct (IH t) as [-> ->]; tauto.
Qed.

Lemma pretty_N_go_chars x s :
  str_forall is_digit s = true → str_forall is_digit (pretty_N_go x s) = true.
Proof.
  revert s. induction (N.lt_wf_0 x) as [x _ IH]. intros s Hs.
  destruct (decide (x = 0)%N) as [->|Hx]; [by rewrite pretty_N_go_0|].
  rewrite pretty_N_go_step by lia. apply IH; [apply N.div_lt; lia|].
  simpl. rewrite Hs, andb_true_r. clear.
  assert (x `mod` 10 < 10)%N as H by (apply N.mod_lt; lia).
  unfold pretty_N_char. by repeat case_match.
Qed.

Definition is_int_char (c : ascii) : bool := is_digit c || (c =? "-")%char.

Lemma pretty_Z_chars (z : Z) : str_forall is_int_char (pretty z) = true.
Proof.
  assert (∀ s, str_forall is_digit s = true → str_forall is_int_char s = true) as Hd.
  { induction s as [|c s IH]; simpl; [done|]. unfold is_int_char at 1. to_prop. tauto. }
  assert (∀ n : N, str_forall is_digit (pretty n) = true) as HN.
  { intros n. unfold pretty, pretty_N. case_decide; [done|]. by apply pretty_N_go_chars. }
  destruct z as [|p|p]; [done| |]; unfold pretty, pretty_Z; simpl; apply Hd, HN.
Qed.

Lemma int_token (z : Z) : str_forall is_num_char (pretty z) = true.
Proof.
  generalize (pretty_Z_chars z). generalize (pretty z). intros s.
  induction s as [|c s IH]; simpl; [done|]. rewrite !andb_true_iff. intros [Hc ?].
  split; [|auto]. revert Hc. clear. by destruct c as [[] [] [] [] [] [] [] []].
Qed.

Lemma int_not_float (z : Z) : float_text (pretty z) = false.
Proof.
  unfold float_text. apply andb_false_iff. right.
  generalize (pretty_Z_chars z). generalize (pretty z). intros s. unfold str_exists.
  rewrite negb_false_iff. induction s as [|c s IH]; simpl; [done|].
  rewrite !andb_true_iff. intros [Hc ?]. split; [|auto]. revert Hc. clear.
  by destruct c as [[] [] [] [] [] [] [] []].
Qed.

(** Decode one character of a JSON string literal. *)
Definition read_escape (s : string) : option (ascii * string) :=
  match s with
  | String c s =>
      if (c =? "n")%char then Some (chr 10, s)
      else if (c =? "r")%char then Some (chr 13, s)
      else if (c =? "t")%char then Some (chr 9, s)
      else if (c =? "f")%char then Some (chr 12, s)
      else if (c =? "b")%char then Some (chr 8, s)
      else if (c =? "u")%char then
        match s with
        | String _ (String _ (String h (String l s))) =>
            let digit c := if code c <? 58 then code c - 48 else code c - 87 in
            Some (chr (16 * digit h + digit l), s)
        | _ => None
        end
      else Some (c, s)
  | EmptyString => None
  end.

Definition read_json_char (s : string) : option (ascii * string) :=
  match s with
  | String c s' =>
      if (c =? quote_char)%char then None
      else if (c =? "\")%char then read_escape s' else Some (c, s')
  | EmptyString => None
  end.

Lemma read_json_char_correct c s : read_json_char (json_char c +:+ s) = Some (c, s).
Proof. by destruct c as [[] [] [] [] [] [] [] []]. Qed.

Lemma string_body s t r r' :
  concat_map json_char s +:+ String quote_char r
  = concat_map json_char t +:+ String quote_char r' → s = t ∧ r = r'.
Proof.
  revert t. induction s as [|c s IH]; intros [|d t]; simpl;
    rewrite ?append_assoc; intros E.
  - by injection E as ->.
  - pose proof (read_json_char_correct d (concat_map json_char t +:+ String quote_char r'))
      as Hd. by rewrite <- E in Hd.
  - pose proof (read_json_char_correct c (concat_map json_char s +:+ String quote_char r))
      as Hc. by rewrite E in Hc.
  - pose proof (read_json_char_correct c (concat_map json_char s +:+ String quote_char r))
      as Hc. rewrite E, read_json_char_correct in Hc. injection Hc as -> Hc.
    destruct (IH t) as [-> ->]; done.
Qed.

Lemma string_token s t r r' : json_str s +:+ r = json_str t +:+ r' → s = t ∧ r = r'.
Proof.
  unfold json_str. rewrite !append_cons, !append_assoc. intros E.
  injection E as E. by apply string_body in E.
Qed.

(** ** Values *)

(** The class of a value's first character. *)
Definition json_tag (v : json) : Z :=
  match v with
  | JNull => 0 | JBool true => 1 | JBool false => 2 | JInt _ | JFloat _ => 3
  | JStr _ => 4 | JList _ => 5 | JDict _ => 6
  end.

Definition char_tag (c : ascii) : Z :=
  if (c =? "n")%char then 0 else if (c =? "t")%char then 1
  else if (c =? "f")%char then 2 else if (c =? quote_char)%char then 4
  else if (c =? "[")%char then 5 else if (c =? "{")%char then 6
  else if is_num_char c then 3 else 7.

Definition text_tag (s : string) : Z :=
  match s with String c _ => char_tag c | EmptyString => 8 end.

Lemma num_tag s r : s ≠ "" → str_forall is_num_char s = true → text_tag (s +:+ r) = 3.
Proof.
  destruct s as [|c s]; [done|]. intros _ [Hc _]%andb_true_iff. rewrite append_cons. simpl.
  revert Hc. clear. by destruct c as [[] [] [] [] [] [] [] []].
Qed.

Lemma num_chars_nonempty s : float_text s = true → s ≠ "" ∧ str_forall is_num_char s = true.
Proof. unfold float_text. rewrite andb_true_iff. intros [? H]. split; [|done]. by intros ->. Qed.

Lemma pretty_N_go_nonempty x s : s ≠ "" → pretty_N_go x s ≠ "".
Proof.
  revert s. induction (N.lt_wf_0 x) as [x _ IH]. intros s Hs.
  destruct (decide (x = 0)%N) as [->|Hx]; [by rewrite pretty_N_go_0|].
  rewrite pretty_N_go_step by lia. apply IH; [apply N.div_lt; lia|done].
Qed.

Lemma pretty_Z_nonempty (z : Z) : pretty z ≠ "".
Proof.
  assert (∀ n : N, pretty n ≠ "") as HN.
  { intros n. unfold pretty, pretty_N. case_decide as Hn; [done|].
    rewrite pretty_N_go_step by lia. by apply pretty_N_go_nonempty. }
  destruct z as [|p|p]; [done| |done]. exact (HN (N.pos p)).
Qed.

(** What the proofs need of a renderer of values: both [render] and the one that
    escapes everything outside ASCII are renderers. *)
Record renderer (str : string → string) (rend : json → string) : Prop := mk_renderer {
  rd_null : rend JNull = "null";
  rd_bool b : rend (JBool b) = if b then "true" else "false";
  rd_int z : rend (JInt z) = pretty z;
  rd_float r : rend (JFloat r) = r;
  rd_str s : rend (JStr s) = str s;
  rd_list l r :
    rend (JList l) +:+ r = String "[" (str_join "," (map rend l) +:+ String "]" r);
  rd_dict kvs r :
    rend (JDict kvs) +:+ r
    = String "{" (str_join ","
        (map (λ kv, let '(k, v) := kv in str k +:+ ":" +:+ rend v) kvs) +:+ String "}" r);
  rd_quote s : ∃ t, str s = String quote_char t;
  rd_token s t r r' : str s +:+ r = str t +:+ r' → s = t ∧ r = r';
}.

(** Separated items up to the closing bracket [z]. *)
Section items.
Context {A : Type} (item : A → string) (ok : A → bool) (z : ascii).
Context (z_delimiter : str_in z "]}" = true).
Context (item_head : ∀ x r, ok x = true → ¬ delimited (item x +:+ r)).

Lemma items_determined (l l' : list A) r r' :
  Forall (λ x, ok x = true → ∀ y s s', ok y = true → delimited s → delimited s' →
    item x +:+ s = item y +:+ s' → x = y ∧ s = s') l →
  forallb ok l = true → forallb ok l' = true →
  str_join "," (map item l) +:+ String z r = str_join "," (map item l') +:+ String z r' →
  l = l' ∧ r = r'.
Proof using z_delimiter item_head.
  assert (∀ s, delimited (String z s)) as Hz.
  { intros s. simpl. revert z_delimiter. clear.
    by destruct z as [[] [] [] [] [] [] [] []]. }
  assert (∀ (x : A) (l : list A) s, str_join "," (map item (x :: l)) +:+ String z s
    = item x +:+ match l with [] => String z s
                 | _ => String "," (str_join "," (map item l) +:+ String z s) end) as Hcons.
  { intros x [|y k] s; [done|]. cbn [map str_join]. by rewrite !append_assoc. }
  intros Hl. revert l'. induction Hl as [|x l Hx _ IH]; intros [|y l'] Hok Hok' E;
    rewrite ?Hcons in E; simpl in Hok, Hok'; to_prop.
  - split; [done|]. by injection E as ->.
  - destruct Hok' as [Hy _]. exfalso. eapply item_head; [exact Hy|]. rewrite <- E. apply Hz.
  - destruct Hok as [Hy _]. exfalso. eapply item_head; [exact Hy|]. rewrite E. apply Hz.
  - apply Hx in E as [-> E]; [|tauto|tauto|by destruct l|by destruct l'].
    destruct l as [|x' l], l' as [|y' l'].
    + by injection E as ->.
    + injection E as -> _. discriminate z_delimiter.
    + injection E as <- _. discriminate z_delimiter.
    + injection E as E. destruct (IH (y' :: l') (proj2 Hok) (proj2 Hok') E) as [-> ->].
      done.
Qed.
End items.

Definition entry_ok (kv : string * json) : bool := let '(_, v) := kv in json_ok v.

Section renderer.
Context {str : string → string} {rend : json → string} (R : renderer str rend).

Lemma rend_tag v r : json_ok v = true → text_tag (rend v +:+ r) = json_tag v.
Proof using R.
  destruct v as [|b|z|s|s|l|kvs]; intros H.
  - by rewrite (rd_null _ _ R).
  - rewrite (rd_bool _ _ R). by destruct b.
  - rewrite (rd_int _ _ R). apply num_tag; [apply pretty_Z_nonempty|apply int_token].
  - rewrite (rd_float _ _ R). by apply num_tag; apply num_chars_nonempty.
  - rewrite (rd_str _ _ R). by destruct (rd_quote _ _ R s) as [t ->].
  - by rewrite (rd_list _ _ R).
  - by rewrite (rd_dict _ _ R).
Qed.

Lemma rend_undelimited v r : json_ok v = true → ¬ delimited (rend v +:+ r).
Proof using R.
  intros H%(rend_tag v r). destruct (rend v +:+ r) as [|c s]; simpl in *.
  { by destruct v as [|[]| | | | |]. }
  intros Hc. assert (char_tag c = 7) as E.
  { revert Hc. clear. by destruct c as [[] [] [] [] [] [] [] []]. }
  rewrite E in H. by destruct v as [|[]| | | | |].
Qed.

Definition determined (v : json) : Prop :=
  json_ok v = true → ∀ w r r', json_ok w = true → delimited r → delimited r' →
  rend v +:+ r = rend w +:+ r' → v = w ∧ r = r'.

Definition rend_entry (kv : string * json) : string :=
  let '(k, v) := kv in str k +:+ ":" +:+ rend v.

Lemma entry_determined k v :
  determined v → entry_ok (k, v) = true → ∀ kv' s s', entry_ok kv' = true →
  delimited s → delimited s' →
  rend_entry (k, v) +:+ s = rend_entry kv' +:+ s' → (k, v) = kv' ∧ s = s'.
Proof using R.
  intros Hv Hok [k' v'] s s' Hok' Hs Hs' E. unfold rend_entry in E.
  rewrite !append_assoc in E. apply (rd_token _ _ R) in E as [-> E].
  injection E as E. destruct (Hv Hok v' s s') as [-> ->]; done.
Qed.

(** A rendered value followed by a delimiter determines value and rest. *)
Lemma rend_determined v : determined v.
Proof using R.
  induction v as [|b|z|t|t|l IH|kvs IH] using json_nested_ind;
    intros Hok w r r' Hw Hr Hr' E;
    pose proof (rend_tag _ r Hok) as Htag;
    rewrite E, (rend_tag _ r' Hw) in Htag.
  - destruct w as [|[]| | | | |]; try discriminate Htag.
    rewrite (rd_null _ _ R) in E. by injection E.
  - destruct b, w as [|[]| | | | |]; try discriminate Htag;
      rewrite !(rd_bool _ _ R) in E; by injection E.
  - rewrite (rd_int _ _ R) in E. destruct w as [|[]|z'|t'| | |]; try discriminate Htag.
    + rewrite (rd_int _ _ R) in E. apply num_token in E as [E ->]; try apply int_token; try done.
      by apply (inj pretty) in E as ->.
    + rewrite (rd_float _ _ R) in E. apply num_chars_nonempty in Hw as Hw'.
      apply num_token in E as [E ->]; try apply int_token; try done; [|tauto].
      simpl in Hw. by rewrite <- E, int_not_float in Hw.
  - rewrite (rd_float _ _ R) in E. apply num_chars_nonempty in Hok as Hok'.
    destruct w as [|[]|z'|t'| | |]; try discriminate Htag.
    + rewrite (rd_int _ _ R) in E.
      apply num_token in E as [E ->]; try apply int_token; try done; [|tauto].
      simpl in Hok. by rewrite E, int_not_float in Hok.
    + rewrite (rd_float _ _ R) in E. apply num_chars_nonempty in Hw as Hw'.
      by apply num_token in E as [-> ->]; try done; tauto.
  - destruct w as [|[]| | | | |]; try discriminate Htag. rewrite !(rd_str _ _ R) in E.
    by apply (rd_token _ _ R) in E as [-> ->].
  - destruct w as [|[]| | | |l'|]; try discriminate Htag.
    rewrite !(rd_list _ _ R) in E. injection E as E.
    apply (items_determined rend json_ok "]") in E as [-> ->]; try done.
    apply rend_undelimited.
  - destruct w as [|[]| | | | |kvs']; try discriminate Htag.
    rewrite !(rd_dict _ _ R) in E. injection E as E.
    apply (items_determined rend_entry entry_ok "}") in E as [-> ->]; try done.
    + intros [k v] s _. unfold rend_entry. destruct (rd_quote _ _ R k) as [t ->].
      by rewrite !append_cons.
    + eapply Forall_impl; [exact IH|]. intros [k v]. apply entry_determined.
Qed.
End renderer.

Lemma render_renderer : renderer json_str render.
Proof.
  split; try done.
  - intros l r. simpl. by rewrite !append_cons, !append_assoc.
  - intros kvs r. simpl. by rewrite !append_cons, !append_assoc.
  - intros s. by eexists.
  - apply string_token.
Qed.

(** ** Canonical texts and digests *)

Lemma json_ok_norm v : json_ok (norm v) = json_ok v.
Proof.
  induction v as [| | | | |l IH|kvs IH] using json_nested_ind; try done; simpl.
  - induction IH as [|v l Hv _ IHl]; simpl; congruence.
  - change (λ kv : string * json, let '(_, v) := kv in json_ok v) with entry_ok.
    set (f := λ kv : string * json, let '(k, v) := kv in (k, norm v)).
    assert (∀ l, forallb entry_ok (sort_by key_le l) = forallb entry_ok l) as Hsort.
    { intros l. apply eq_true_iff_eq. rewrite !forallb_forall.
      setoid_rewrite <- list_elem_of_In. by setoid_rewrite sort_by_elem. }
    rewrite Hsort. clear Hsort.
    induction IH as [|[k v] l Hv _ IHl]; simpl in *; congruence.
Qed.

Lemma canonical_text_inj v w :
  json_ok v = true → json_ok w = true → canonical_text v = canonical_text w →
  norm v = norm w.
Proof.
  unfold canonical_text. intros Hv Hw E.
  apply (rend_determined render_renderer (norm v) ltac:(by rewrite json_ok_norm) (norm w) "" "");
    [by rewrite json_ok_norm|done|done|]. by rewrite !append_nil_r.
Qed.

(** Equal digests mean equal values, unless the two texts collide. *)
Lemma digest_json_inj v w :
  json_ok v = true → json_ok w = true →
  ¬ collide (canonical_text v) (canonical_text w) →
  sha256 (canonical_text v) = sha256 (canonical_text w) → norm v = norm w.
Proof.
  intros Hv Hw Hc E. apply canonical_text_inj; try done.
  destruct (decide (canonical_text v = canonical_text w)); [done|]. by destruct Hc.
Qed.

(** ** Reading normalised mappings *)

Lemma dict_lookup_In d k v :
  NoDup (map fst d) → (k, v) ∈ d → dict_lookup d k = Some v.
Proof.
  induction d as [|[k' w] d IH]; simpl; [by intros _ ?%elem_of_nil|].
  rewrite NoDup_cons, elem_of_cons. intros [Hk Hd] [H|H].
  - injection H as -> ->. by rewrite String.eqb_refl.
  - destruct (String.eqb_spec k k') as [->|_]; [|by apply IH].
    destruct Hk. apply list_elem_of_fmap. by exists (k', v).
Qed.

Lemma dict_lookup_elem d k v : dict_lookup d k = Some v → (k, v) ∈ d.
Proof.
  induction d as [|[k' w] d IH]; simpl; [done|].
  destruct (String.eqb_spec k k') as [->|_]; intros H; [simplify_eq; left|right; auto].
Qed.

Lemma norm_dict_keys d :
  map fst (map (λ kv : string * json, let '(k, v) := kv in (k, norm v)) d) = map fst d.
Proof. induction d as [|[] ? IH]; simpl; congruence. Qed.

(** Normalisation acts on a mapping's values. *)
Lemma dict_lookup_norm d k :
  NoDup (map fst d) →
  dict_lookup (sort_by key_le (map (λ kv, let '(k, v) := kv in (k, norm v)) d)) k
  = norm <$> dict_lookup d k.
Proof.
  set (f := λ kv : string * json, let '(k, v) := kv in (k, norm v)). intros Hd.
  assert (NoDup (map fst (sort_by key_le (map f d)))) as Hn.
  { rewrite sort_by_perm. unfold f. by rewrite norm_dict_keys. }
  destruct (dict_lookup d k) as [v|] eqn:E; simpl.
  - apply dict_lookup_In; [done|]. apply sort_by_elem, list_elem_of_fmap.
    exists (k, v). split; [done|]. by apply dict_lookup_elem.
  - destruct (dict_lookup (sort_by key_le (map f d)) k) as [w|] eqn:E'; [|done].
    apply dict_lookup_elem in E'.
    apply sort_by_elem, list_elem_of_fmap in E' as ([k' v] & H & Hin).
    unfold f in H. simplify_eq. by rewrite (dict_lookup_In _ _ _ Hd Hin) in E.
Qed.

(** Mappings equal up to the order of keys agree on every key. *)
Lemma norm_dict_lookup d d' k :
  NoDup (map fst d) → NoDup (map fst d') → norm (JDict d) = norm (JDict d') →
  norm <$> dict_lookup d k = norm <$> dict_lookup d' k.
Proof.
  intros Hd Hd' H. rewrite <- !dict_lookup_norm by done. simpl in H. by injection H as ->.
Qed.
