(* ===== verification/PyJsonLoads.v ===== *)
(** * PyJsonLoads: [json.loads], and [json.dumps] with Python's default spacing

    [dumps_spaced] is [json.dumps(v, sort_keys=True, default=str)] (separators
    ", " and ": ", everything outside printable ASCII escaped), [dumps_compact]
    is the compact form that keeps non-finite floats.  [loads] is [json.loads]
    of a text: the decoder is a recursive descent with fuel, the length of the
    text being enough.  A float is kept as its literal, which for every text
    the encoder wrote is its [repr]; an escape above U+00FF, which no string of
    the model holds, is refused. *)

From S2P Require Import Prelude PyText PyJson PyHash PyTime PyStd JsonCanonical.
From Stdlib Require Import Ascii.

Open Scope Z_scope.

(** ** Encoding *)

(** One character of a string literal with [ensure_ascii=True]. *)
Definition json_char_ascii (c : ascii) : string :=
  if (c =? quote_char)%char || (c =? "\")%char then String "\" (String c "")
  else if code c =? 10 then "\n"
  else if code c =? 13 then "\r"
  else if code c =? 9 then "\t"
  else if code c =? 12 then "\f"
  else if code c =? 8 then "\b"
  else if (code c <? 32) || (126 <? code c) then "\u00" +:+ hex2 (code c)
  else String c "".

Definition json_str_ascii (s : string) : string :=
  String quote_char (concat_map json_char_ascii s +:+ String quote_char "").

(** [float.__repr__], with the names JSON text has for non-finite floats. *)
Definition float_spelling (r : string) : string :=
  if (r =? "nan")%string then "NaN"
  else if (r =? "inf")%string then "Infinity"
  else if (r =? "-inf")%string then "-Infinity" else r.

Fixpoint render_spaced (v : json) : string :=
  match v with
  | JNull => "null"
  | JBool b => if b then "true" else "false"
  | JInt z => pretty z
  | JFloat r => float_spelling r
  | JStr s => json_str_ascii s
  | JList l => String "[" (str_join ", " (map render_spaced l) +:+ "]")
  | JDict kvs =>
      String "{" (str_join ", "
        (map (λ kv, let '(k, v) := kv in json_str_ascii k +:+ ": " +:+ render_spaced v) kvs)
      +:+ "}")
  end.

(** [json.dumps(v, sort_keys=True, default=str)]. *)
Definition dumps_spaced (v : json) : string := render_spaced (norm v).

(** The value with its non-finite floats spelled out. *)
Fixpoint spell (v : json) : json :=
  match v with
  | JFloat r => JFloat (float_spelling r)
  | JList l => JList (map spell l)
  | JDict kvs => JDict (map (λ kv, let '(k, v) := kv in (k, spell v)) kvs)
  | v => v
  end.

(** [json.dumps(v, sort_keys=True, separators=(",", ":"), ensure_ascii=False,
    default=str)]. *)
Definition dumps_compact (v : json) : string := render (spell (norm v)).

(** Compact serialisation in the given key order, with everything outside
    printable ASCII escaped. *)
Fixpoint render_ascii (v : json) : string :=
  match v with
  | JNull => "null"
  | JBool b => if b then "true" else "false"
  | JInt z => pretty z
  | JFloat r => r
  | JStr s => json_str_ascii s
  | JList l => String "[" (str_join "," (map render_ascii l) +:+ "]")
  | JDict kvs =>
      String "{" (str_join ","
        (map (λ kv, let '(k, v) := kv in json_str_ascii k +:+ ":" +:+ render_ascii v) kvs)
      +:+ "}")
  end.

(** [json.dumps(v, sort_keys=True, separators=(",", ":"), ensure_ascii=True,
    allow_nan=False)]. *)
Definition canonical_ascii (v : json) : string := render_ascii (norm v).
Definition dumps_ascii (v : json) : result string :=
  if all_finite v then Ok (canonical_ascii v)
  else Err (PyValueError "Out of range float values are not JSON compliant").

(** ** Decoding *)

Definition is_json_space (c : ascii) : bool := str_in c (String " " (String "009"
  (String "010" (String "013" "")))).

Definition skip_ws (s : string) : string := lstrip_by is_json_space s.

(** Four hexadecimal digits after "\u". *)
Definition read_u16 (s : string) : option (Z * string) := read_fixed 16 4 s.

Definition read_literal_escape (s : string) : option (ascii * string) :=
  match s with
  | String c s =>
      if (c =? quote_char)%char || (c =? "\")%char || (c =? "/")%char then Some (c, s)
      else if (c =? "n")%char then Some (chr 10, s)
      else if (c =? "r")%char then Some (chr 13, s)
      else if (c =? "t")%char then Some (chr 9, s)
      else if (c =? "f")%char then Some (chr 12, s)
      else if (c =? "b")%char then Some (chr 8, s)
      else if (c =? "u")%char then
        '(n, s) ← read_u16 s; if n <? 256 then Some (chr n, s) else None
      else None
  | EmptyString => None
  end.

(** The rest of a string literal; unescaped control characters are refused. *)
Fixpoint scan_string (fuel : nat) (s : string) : option (string * string) :=
  match fuel, s with
  | S fuel, String c s' =>
      if (c =? quote_char)%char then Some ("", s')
      else if (c =? "\")%char then
        '(d, s'') ← read_literal_escape s'; '(t, r) ← scan_string fuel s'';
        Some (String d t, r)
      else if code c <? 32 then None
      else '(t, r) ← scan_string fuel s'; Some (String c t, r)
  | _, _ => None
  end.

Definition span_digits (s : string) : string * string := span_not (λ c, negb (is_digit c)) s.

(** "-"? and the integer part: "0", or digits that do not start with "0". *)
Definition scan_integer (s : string) : option (string * string) :=
  let '(sign, s) := match s with
                    | String c s' => if (c =? "-")%char then ("-", s') else ("", s)
                    | EmptyString => ("", s)
                    end in
  match s with
  | String c s' =>
      if (c =? "0")%char then Some (sign +:+ "0", s')
      else if is_digit c then let '(d, r) := span_digits s in Some (sign +:+ d, r)
      else None
  | EmptyString => None
  end.

(** "." and at least one digit, or nothing. *)
Definition scan_fraction (s : string) : string * string :=
  match s with
  | String c s' =>
      let '(d, r) := span_digits s' in
      if (c =? ".")%char && negb (d =? "")%string then (String c d, r) else ("", s)
  | EmptyString => ("", s)
  end.

Definition scan_sign (s : string) : string * string :=
  match s with
  | String c s' => if (c =? "+")%char || (c =? "-")%char then (String c "", s') else ("", s)
  | EmptyString => ("", s)
  end.

(** "e", an optional sign and at least one digit, or nothing. *)
Definition scan_exponent (s : string) : string * string :=
  match s with
  | String c s' =>
      let '(sign, s'') := scan_sign s' in
      let '(d, r) := span_digits s'' in
      if ((c =? "e")%char || (c =? "E")%char) && negb (d =? "")%string
      then (String c (sign +:+ d), r) else ("", s)
  | EmptyString => ("", s)
  end.

Definition scan_number (s : string) : option (json * string) :=
  '(i, r) ← scan_integer s;
  let '(f, r) := scan_fraction r in
  let '(e, r) := scan_exponent r in
  if (f =? "")%string && (e =? "")%string
  then z ← int_base10 i; Some (JInt z, r)
  else Some (JFloat (i +:+ f +:+ e), r).

Fixpoint strip_prefix (k s : string) : option string :=
  match k, s with
  | EmptyString, _ => Some s
  | String a k, String b s => if (a =? b)%char then strip_prefix k s else None
  | _, _ => None
  end.

Definition keywords : list (string * json) :=
  [("null", JNull); ("true", JBool true); ("false", JBool false); ("NaN", JFloat "nan");
   ("Infinity", JFloat "inf"); ("-Infinity", JFloat "-inf")].

(** A keyword at the start of the text. *)
Fixpoint keyword_in (ks : list (string * json)) (s : string) : option (json * string) :=
  match ks with
  | [] => None
  | (k, v) :: ks => match strip_prefix k s with
                    | Some r => Some (v, r)
                    | None => keyword_in ks s
                    end
  end.
Definition keyword (s : string) : option (json * string) := keyword_in keywords s.

Definition read_colon (s : string) : option string := read_char ":" (skip_ws s).

(** Later bindings of a key replace the value of the first. *)
Definition dict_of_pairs (kvs : dict) : dict :=
  foldl (λ d kv, dict_set d kv.1 kv.2) [] kvs.

(** A value, the items of a list up to "]", the members of an object up to
    "}"; the latter two start at the first item. *)
Fixpoint scan_value (fuel : nat) (s : string) {struct fuel} : option (json * string) :=
  match fuel, s with
  | S fuel, String c s' =>
      if (c =? quote_char)%char then '(t, r) ← scan_string (S (String.length s')) s'; Some (JStr t, r)
      else if (c =? "[")%char then
        match read_char "]" (skip_ws s') with
        | Some r => Some (JList [], r)
        | None => '(l, r) ← scan_items fuel (skip_ws s'); Some (JList l, r)
        end
      else if (c =? "{")%char then
        match read_char "}" (skip_ws s') with
        | Some r => Some (JDict [], r)
        | None => '(l, r) ← scan_members fuel (skip_ws s'); Some (JDict (dict_of_pairs l), r)
        end
      else match keyword s with
           | Some o => Some o
           | None => scan_number s
           end
  | _, _ => None
  end
with scan_items (fuel : nat) (s : string) {struct fuel} : option (list json * string) :=
  match fuel with
  | S fuel =>
      '(v, s) ← scan_value fuel s;
      match skip_ws s with
      | String c s' =>
          if (c =? "]")%char then Some ([v], s')
          else if (c =? ",")%char then
            '(l, r) ← scan_items fuel (skip_ws s'); Some (v :: l, r)
          else None
      | EmptyString => None
      end
  | O => None
  end
with scan_members (fuel : nat) (s : string) {struct fuel} : option (dict * string) :=
  match fuel with
  | S fuel =>
      s ← read_char quote_char s;
      '(k, s) ← scan_string (S (String.length s)) s;
      s ← read_colon s;
      '(v, s) ← scan_value fuel (skip_ws s);
      match skip_ws s with
      | String c s' =>
          if (c =? "}")%char then Some ([(k, v)], s')
          else if (c =? ",")%char then
            '(l, r) ← scan_members fuel (skip_ws s'); Some ((k, v) :: l, r)
          else None
      | EmptyString => None
      end
  | O => None
  end.

(** [json.loads(s)]: the value and nothing but white space after it. *)
Definition loads (s : string) : option json :=
  let s := skip_ws s in
  '(v, r) ← scan_value (S (2 * String.length s)) s;
  if (skip_ws r =? "")%string then Some v else None.

Definition loads_sample : json :=
  JDict [("a", JList [JInt (-30); JFloat "1.5e-07"; JBool true; JNull; JList []]);
         ("b", JStr (String "233" (String "010" (String quote_char "x")))); ("c", JDict [])].

Example loads_examples :
  loads (dumps_spaced loads_sample) = Some loads_sample
  ∧ loads " [1, 02]" = None ∧ loads "[1,]" = None ∧ loads "-" = None
  ∧ loads "[NaN, -Infinity , 0.5E+3]"
    = Some (JList [JFloat "nan"; JFloat "-inf"; JFloat "0.5E+3"]).
Proof. vm_compute. repeat split. Qed.

(** ** Decoding what was encoded *)

(** A float is spelled as Python spells floats. *)
Definition float_literal (r : string) : bool :=
  (r =? "nan")%string || (r =? "inf")%string || (r =? "-inf")%string ||
  match scan_number r with
  | Some (JFloat t, "") => (t =? r)%string
  | _ => false
  end.

(** Integers within the interpreter's digit limit, floats spelled as [repr]
    does, and the keys of a mapping distinct, as they are in a [dict]. *)
Fixpoint json_plain (v : json) : bool :=
  match v with
  | JInt z => str_count is_digit (pretty z) <=? MAX_STR_DIGITS
  | JFloat r => float_literal r
  | JList l => forallb json_plain l
  | JDict kvs =>
      nodupb (map fst kvs) && forallb (λ kv, let '(_, v) := kv in json_plain v) kvs
  | _ => true
  end.

Lemma scan_char c fuel t :
  scan_string (S fuel) (json_char_ascii c +:+ t)
  = ('(u, r) ← scan_string fuel t; Some (String c u, r)).
Proof. by destruct c as [[] [] [] [] [] [] [] []]. Qed.

Lemma scan_string_body s fuel r :
  (String.length s < fuel)%nat →
  scan_string fuel (concat_map json_char_ascii s +:+ String quote_char r) = Some (s, r).
Proof.
  revert fuel. induction s as [|c s IH]; intros [|fuel] Hf; cbn [String.length] in Hf; try lia.
  - done.
  - cbn [concat_map]. rewrite append_assoc, scan_char, IH by lia. done.
Qed.

Lemma concat_map_length s :
  (String.length s ≤ String.length (concat_map json_char_ascii s))%nat.
Proof.
  induction s as [|c s IH]; cbn [concat_map String.length]; [done|].
  rewrite length_append.
  assert (1 ≤ String.length (json_char_ascii c))%nat; [|lia]. clear.
  destruct c as [[] [] [] [] [] [] [] []]; vm_compute; lia.
Qed.

Lemma scan_string_literal s r :
  scan_string (S (String.length (concat_map json_char_ascii s +:+ String quote_char r)))
    (concat_map json_char_ascii s +:+ String quote_char r) = Some (s, r).
Proof.
  apply scan_string_body. rewrite length_append. pose proof (concat_map_length s). lia.
Qed.

Lemma delimited_not_digit c r : delimited (String c r) → is_digit c = false.
Proof. intros H%delimited_not_num. by apply orb_false_iff in H as [? _]. Qed.

Lemma span_digits_app s d t r :
  delimited r → span_digits s = (d, t) → span_digits (s +:+ r) = (d, t +:+ r).
Proof.
  intros Hr. revert d t. unfold span_digits.
  induction s as [|c s IH]; intros d t; cbn [span_not].
  - intros [= <- <-]. destruct r as [|c r]; [done|].
    change ("" +:+ String c r) with (String c r). cbn [span_not].
    by rewrite (delimited_not_digit _ _ Hr).
  - rewrite append_cons. cbn [span_not]. destruct (is_digit c); simpl.
    + destruct (span_not _ s) as [d' t'] eqn:E. intros [= <- <-]. by rewrite (IH _ _ eq_refl).
    + by intros [= <- <-].
Qed.

Lemma span_digits_all s r :
  str_forall is_digit s = true → delimited r → span_digits (s +:+ r) = (s, r).
Proof.
  intros Hs Hr. apply (span_digits_app s s ""); [done|].
  induction s as [|c s IH]; [done|]. cbn [str_forall] in Hs. apply andb_true_iff in Hs as [Hc Hs].
  unfold span_digits in *. cbn [span_not]. rewrite Hc. simpl. by rewrite IH.
Qed.

(** The scanners do not look past a delimiter. *)
Lemma scan_integer_app s i t r :
  delimited r → scan_integer s = Some (i, t) → scan_integer (s +:+ r) = Some (i, t +:+ r).
Proof.
  intros Hr. destruct s as [|c s]; [done|]. rewrite append_cons. unfold scan_integer.
  assert (∀ sign s, match s with
    | String c s' =>
        if (c =? "0")%char then Some (sign +:+ "0", s')
        else if is_digit c then let '(d, r) := span_digits s in Some (sign +:+ d, r) else None
    | EmptyString => None
    end = Some (i, t) → match s +:+ r with
    | String c s' =>
        if (c =? "0")%char then Some (sign +:+ "0", s')
        else if is_digit c then let '(d, r) := span_digits (s +:+ r) in Some (sign +:+ d, r)
             else None
    | EmptyString => None
    end = Some (i, t +:+ r)) as H.
  { intros sign [|a u]; [done|]. rewrite append_cons. case_match; [by intros [= <- <-]|].
    case_match; [|done]. destruct (span_digits (String a u)) as [d v] eqn:E.
    apply (span_digits_app _ _ _ r Hr) in E. rewrite append_cons in E. rewrite E.
    by intros [= <- <-]. }
  destruct (c =? "-")%char; [apply H|]. apply (H "" (String c s)).
Qed.

Lemma scan_fraction_app s f t r :
  delimited r → scan_fraction s = (f, t) → scan_fraction (s +:+ r) = (f, t +:+ r).
Proof.
  intros Hr. destruct s as [|c s]; unfold scan_fraction.
  - intros [= <- <-]. change ("" +:+ r) with r. destruct r as [|c r]; [done|].
    destruct (span_digits r). apply delimited_not_num in Hr.
    destruct (Ascii.eqb_spec c ".") as [->|_]; [done|]. done.
  - rewrite append_cons. destruct (span_digits s) as [d u] eqn:E.
    rewrite (span_digits_app _ _ _ r Hr E). case_match; by intros [= <- <-].
Qed.

Lemma scan_sign_app s f t r :
  delimited r → scan_sign s = (f, t) → scan_sign (s +:+ r) = (f, t +:+ r).
Proof.
  intros Hr. destruct s as [|c s]; unfold scan_sign.
  - intros [= <- <-]. change ("" +:+ r) with r. destruct r as [|c r]; [done|].
    apply delimited_not_num in Hr.
    destruct (Ascii.eqb_spec c "+") as [->|_]; [done|].
    destruct (Ascii.eqb_spec c "-") as [->|_]; [done|]. done.
  - rewrite append_cons. case_match; by intros [= <- <-].
Qed.

Lemma scan_exponent_app s f t r :
  delimited r → scan_exponent s = (f, t) → scan_exponent (s +:+ r) = (f, t +:+ r).
Proof.
  intros Hr. destruct s as [|c s]; unfold scan_exponent.
  - intros [= <- <-]. change ("" +:+ r) with r. destruct r as [|c r]; [done|].
    destruct (scan_sign r) as [sg u], (span_digits u).
    destruct (Ascii.eqb_spec c "e") as [->|_]; [discriminate Hr|].
    destruct (Ascii.eqb_spec c "E") as [->|_]; [discriminate Hr|]. done.
  - rewrite append_cons. destruct (scan_sign s) as [sg u] eqn:E.
    rewrite (scan_sign_app _ _ _ r Hr E).
    destruct (span_digits u) as [d w] eqn:E'.
    rewrite (span_digits_app _ _ _ r Hr E'). case_match; by intros [= <- <-].
Qed.

Lemma scan_number_app s v t r :
  delimited r → scan_number s = Some (v, t) → scan_number (s +:+ r) = Some (v, t +:+ r).
Proof.
  intros Hr. unfold scan_number. destruct (scan_integer s) as [[i u]|] eqn:Ei; [|done].
  rewrite (scan_integer_app _ _ _ r Hr Ei). cbn [mbind option_bind].
  destruct (scan_fraction u) as [f u'] eqn:Ef. rewrite (scan_fraction_app _ _ _ r Hr Ef).
  destruct (scan_exponent u') as [e w] eqn:Ee. rewrite (scan_exponent_app _ _ _ r Hr Ee).
  case_match; [|by intros [= <- <-]].
  destruct (int_base10 i) as [z|]; [|done]. cbn [mbind option_bind]. by intros [= <- <-].
Qed.

Lemma scan_number_keyword s o : scan_number s = Some o → keyword s = None.
Proof.
  unfold scan_number. destruct (scan_integer s) as [[i u]|] eqn:E; [|done]. intros _.
  destruct s as [|c s]; [done|]. unfold scan_integer in E.
  destruct c as [[] [] [] [] [] [] [] []]; try discriminate E; try reflexivity.
  destruct s as [|c s]; [discriminate E|].
  destruct c as [[] [] [] [] [] [] [] []]; try discriminate E; reflexivity.
Qed.

(** *** Integers *)

Lemma pretty_char_digit x : (x < 10)%N →
  digit_val (pretty_N_char x) = Some (Z.of_N x) ∧ (x ≠ 0%N → pretty_N_char x ≠ "0"%char)
  ∧ is_digit (pretty_N_char x) = true ∧ (pretty_N_char x =? "_")%char = false.
Proof.
  intros Hx. assert (x ∈ [0;1;2;3;4;5;6;7;8;9]%N) as Hin by (rewrite !elem_of_cons; lia).
  revert Hin. clear. rewrite !elem_of_cons. intros Hin.
  repeat (destruct Hin as [->|Hin]; [by vm_compute|]). by apply elem_of_nil in Hin.
Qed.

Lemma pretty_N_go_value x s :
  (0 < x)%N → digits_in 10 0 true (pretty_N_go x s) = digits_in 10 (Z.of_N x) false s.
Proof.
  revert s. induction (N.lt_wf_0 x) as [x _ IH]. intros s Hx.
  rewrite pretty_N_go_step by lia.
  assert (x `mod` 10 < 10)%N as Hm by (apply N.mod_lt; lia).
  destruct (pretty_char_digit _ Hm) as (Hd&_&_&Hu).
  assert (Z.of_N (x `div` 10) * 10 + Z.of_N (x `mod` 10) = Z.of_N x) as Hv.
  { pose proof (N.div_mod x 10 ltac:(lia)). lia. }
  destruct (decide (x `div` 10 = 0)%N) as [Hz|Hz].
  - rewrite Hz, pretty_N_go_0. cbn [digits_in]. rewrite Hu, Hd.
    destruct (Z.ltb_spec (Z.of_N (x `mod` 10)) 10); [|lia]. f_equal. lia.
  - rewrite IH; [|apply N.div_lt; lia|lia]. cbn [digits_in]. rewrite Hu, Hd.
    destruct (Z.ltb_spec (Z.of_N (x `mod` 10)) 10); [|lia]. f_equal. lia.
Qed.

Lemma pretty_N_go_head x s :
  (0 < x)%N → ∃ d t, pretty_N_go x s = String d t ∧ is_digit d = true ∧ d ≠ "0"%char.
Proof.
  revert s. induction (N.lt_wf_0 x) as [x _ IH]. intros s Hx.
  rewrite pretty_N_go_step by lia.
  assert (x `mod` 10 < 10)%N as Hm by (apply N.mod_lt; lia).
  destruct (pretty_char_digit _ Hm) as (_&H0&Hd&_).
  destruct (decide (x `div` 10 = 0)%N) as [Hz|Hz].
  - rewrite Hz, pretty_N_go_0. do 2 eexists. split; [done|]. split; [done|]. apply H0.
    pose proof (N.div_mod x 10 ltac:(lia)). lia.
  - apply IH; [apply N.div_lt; lia|by apply N.neq_0_lt_0].
Qed.

Lemma int_chars_strip s : str_forall is_int_char s = true → strip s = s.
Proof.
  intros H. assert (str_forall (λ c, negb (is_space c)) s = true) as Hs.
  { eapply str_forall_impl; [|exact H]. clear. intros c.
    by destruct c as [[] [] [] [] [] [] [] []]. }
  unfold strip. by rewrite lstrip_none, rstrip_none.
Qed.

(** The unsigned numeral of a positive number. *)
Lemma pretty_pos p : ∃ d t,
  pretty (N.pos p) = String d t ∧ is_digit d = true ∧ d ≠ "0"%char
  ∧ str_forall is_digit (pretty (N.pos p)) = true
  ∧ digits_in 10 0 true (pretty (N.pos p)) = Some (Z.pos p).
Proof.
  change (pretty (N.pos p)) with (pretty_N_go (N.pos p) "").
  destruct (pretty_N_go_head (N.pos p) "") as (d&t&E&?&?); [lia|].
  exists d, t. split_and!; try done; [by apply pretty_N_go_chars|].
  by rewrite pretty_N_go_value by lia.
Qed.

Lemma int_base10_pretty (z : Z) :
  (str_count is_digit (pretty z) <=? MAX_STR_DIGITS) = true → int_base10 (pretty z) = Some z.
Proof.
  intros Hl. pose proof (pretty_Z_chars z) as Hc. unfold int_base10.
  rewrite int_chars_strip by done.
  destruct z as [|p|p]; [done| |].
  - change (pretty (Z.pos p)) with (pretty (N.pos p)) in *.
    destruct (pretty_pos p) as (d&t&E&Hd&_&_&Hv). rewrite E in *.
    assert (d ≠ "-"%char ∧ d ≠ "+"%char) as [H1 H2].
    { revert Hd. clear. by destruct d as [[] [] [] [] [] [] [] []]. }
    destruct (Ascii.eqb_spec d "-"); [done|]. destruct (Ascii.eqb_spec d "+"); [done|].
    destruct (Z.ltb_spec MAX_STR_DIGITS (str_count is_digit (String d t))); [to_prop; lia|].
    by rewrite Hv.
  - change (pretty (Z.neg p)) with (String "-" (pretty (N.pos p))) in *.
    destruct (pretty_pos p) as (d&t&E&Hd&_&_&Hv). rewrite E in *.
    change ("-" =? "-")%char with true. cbn beta iota.
    change (str_count is_digit (String "-" (String d t))) with (str_count is_digit (String d t)) in Hl.
    destruct (Z.ltb_spec MAX_STR_DIGITS (str_count is_digit (String d t))) as [Hlt|_].
    { to_prop. lia. }
    rewrite Hv. done.
Qed.

Lemma scan_integer_pretty (z : Z) r :
  delimited r → scan_integer (pretty z +:+ r) = Some (pretty z, r).
Proof.
  intros Hr. destruct z as [|p|p]; [done| |].
  - change (pretty (Z.pos p)) with (pretty (N.pos p)).
    destruct (pretty_pos p) as (d&t&E&Hd&H0&Hall&_). rewrite E in *. rewrite append_cons.
    unfold scan_integer.
    destruct (Ascii.eqb_spec d "-") as [->|_]; [done|].
    destruct (Ascii.eqb_spec d "0") as [->|_]; [done|]. rewrite Hd.
    rewrite <- append_cons, span_digits_all; done.
  - change (pretty (Z.neg p)) with (String "-" (pretty (N.pos p))).
    destruct (pretty_pos p) as (d&t&E&Hd&H0&Hall&_). rewrite E in *. rewrite !append_cons.
    unfold scan_integer. change ("-" =? "-")%char with true. cbn beta iota.
    destruct (Ascii.eqb_spec d "0") as [->|_]; [done|]. rewrite Hd.
    rewrite <- append_cons, span_digits_all; done.
Qed.

Lemma scan_number_pretty (z : Z) r :
  delimited r → json_plain (JInt z) = true → scan_number (pretty z +:+ r) = Some (JInt z, r).
Proof.
  intros Hr Hz. unfold scan_number. rewrite scan_integer_pretty by done.
  cbn [mbind option_bind].
  assert (scan_fraction r = ("", r)) as ->
    by exact (scan_fraction_app "" "" "" r Hr eq_refl).
  assert (scan_exponent r = ("", r)) as ->
    by exact (scan_exponent_app "" "" "" r Hr eq_refl).
  change (("" =? "")%string && ("" =? "")%string) with true. cbn beta iota.
  by rewrite int_base10_pretty.
Qed.

(** *** Values *)

Lemma dict_set_fresh d k v :
  k ∉ d.*1 → dict_set d k v = d ++ [(k, v)].
Proof.
  induction d as [|[k' w] d IH]; simpl; [done|]. rewrite not_elem_of_cons. intros [Hk Hd].
  destruct (String.eqb_spec k k'); [done|]. by rewrite IH.
Qed.

Lemma dict_of_pairs_NoDup kvs : NoDup kvs.*1 → dict_of_pairs kvs = kvs.
Proof.
  intros H. unfold dict_of_pairs.
  assert (∀ d, NoDup (d.*1 ++ kvs.*1) →
    foldl (λ d kv, dict_set d kv.1 kv.2) d kvs = d ++ kvs) as Hd; [|by apply (Hd [])].
  clear H. induction kvs as [|[k v] kvs IH]; intros d H; simpl in *; [by rewrite app_nil_r|].
  assert (k ∉ d.*1) as Hk.
  { apply NoDup_app in H as (_&H&_). intros Hin. apply (H k Hin). left. }
  rewrite dict_set_fresh by done. rewrite IH, <- app_assoc; [done|].
  by rewrite fmap_app, <- app_assoc.
Qed.

Lemma float_spelling_literal r t :
  float_literal r = true → delimited t →
  keyword (float_spelling r +:+ t) = Some (JFloat r, t)
  ∨ keyword (float_spelling r +:+ t) = None ∧ scan_number (float_spelling r +:+ t) = Some (JFloat r, t).
Proof.
  unfold float_literal, float_spelling. intros H Ht.
  destruct (String.eqb_spec r "nan") as [->|_]; [by left|].
  destruct (String.eqb_spec r "inf") as [->|_]; [by left|].
  destruct (String.eqb_spec r "-inf") as [->|_]; [by left|]. right. simpl in H.
  destruct (scan_number r) as [[[| | |u| | |] [|]]|] eqn:E; try discriminate H.
  apply String.eqb_eq in H as ->. apply (scan_number_app _ _ _ t Ht) in E.
  split; [|done]. by eapply scan_number_keyword.
Qed.

(** What starts a value is not what ends a list or an object, nor white space. *)
Lemma render_spaced_head v t :
  json_plain v = true → skip_ws (render_spaced v +:+ t) = render_spaced v +:+ t
  ∧ read_char "]" (render_spaced v +:+ t) = None.
Proof.
  destruct v as [|b|z|r|s|l|kvs]; intros H; try done.
  - by destruct b.
  - assert (scan_number (pretty z +:+ "") = Some (JInt z, "")) as E
      by by apply scan_number_pretty.
    rewrite append_nil_r in E. simpl render_spaced. revert E. generalize (pretty z). clear H.
    intros s E. destruct s as [|c s]; [done|]. rewrite append_cons.
    destruct c as [[] [] [] [] [] [] [] []]; try discriminate E; done.
  - destruct (float_spelling_literal r "" H I) as [E|[_ E]]; rewrite append_nil_r in E;
      simpl render_spaced; revert E; generalize (float_spelling r); clear H; intros s E;
      (destruct s as [|c s]; [done|]); rewrite append_cons;
      destruct c as [[] [] [] [] [] [] [] []]; try discriminate E; done.
Qed.

Lemma render_spaced_nonempty v :
  json_plain v = true → (1 ≤ String.length (render_spaced v))%nat.
Proof.
  intros H. destruct (render_spaced v) as [|c s] eqn:E; simpl; [|lia].
  destruct v as [|[]|z|r|s|l|kvs]; try discriminate E.
  - assert (scan_number (pretty z +:+ "") = Some (JInt z, "")) as E'
      by by apply scan_number_pretty.
    rewrite append_nil_r in E'. simpl in E. by rewrite E in E'.
  - simpl in E. destruct (float_spelling_literal r "" H I) as [E'|[_ E']];
      rewrite append_nil_r, E in E'; discriminate E'.
Qed.

Definition reads (v : json) : Prop :=
  json_plain v = true → ∀ fuel r, delimited r → (2 * String.length (render_spaced v) ≤ fuel)%nat →
  scan_value fuel (render_spaced v +:+ r) = Some (v, r).

Lemma join_cons {A} (f : A → string) x y l s :
  str_join ", " (map f (x :: y :: l)) +:+ s
  = f x +:+ String "," (String " " (str_join ", " (map f (y :: l)) +:+ s)).
Proof.
  change (str_join ", " (map f (x :: y :: l)))
    with (f x +:+ (", " +:+ str_join ", " (map f (y :: l)))).
  by rewrite !append_assoc.
Qed.

Lemma join_cons_length {A} (f : A → string) x y l :
  String.length (str_join ", " (map f (x :: y :: l)))
  = (String.length (f x) + 2 + String.length (str_join ", " (map f (y :: l))))%nat.
Proof.
  change (str_join ", " (map f (x :: y :: l)))
    with (f x +:+ (", " +:+ str_join ", " (map f (y :: l)))).
  rewrite !length_append. change (String.length ", ") with 2%nat. lia.
Qed.

Lemma join_head {A} (f : A → string) x l s :
  ∃ t, str_join ", " (map f (x :: l)) +:+ s = f x +:+ t.
Proof.
  destruct l as [|y l]; [by exists s|]. rewrite join_cons. eauto.
Qed.

Lemma scan_items_render l x fuel r :
  Forall reads (x :: l) → forallb json_plain (x :: l) = true →
  (2 * String.length (str_join ", " (map render_spaced (x :: l))) + 1 ≤ fuel)%nat →
  scan_items fuel (str_join ", " (map render_spaced (x :: l)) +:+ String "]" r)
  = Some (x :: l, r).
Proof.
  revert x fuel. induction l as [|y l IH]; intros x [|fuel] [Hx Hl]%Forall_cons Hp Hf; try lia;
    apply andb_true_iff in Hp as [Hpx Hpl].
  - cbn [map str_join scan_items] in *. rewrite (Hx Hpx) by (done || lia). done.
  - rewrite join_cons. rewrite join_cons_length in Hf. cbn [scan_items].
    rewrite (Hx Hpx) by (done || lia). cbn [mbind option_bind].
    destruct (join_head render_spaced y l (String "]" r)) as (t&Ht).
    pose proof Hpl as Hpl'. apply andb_true_iff in Hpl' as [Hpy _].
    destruct (render_spaced_head y t Hpy) as [Hw _].
    change (skip_ws (String "," ?s)) with (String "," s).
    change ((?a =? "]")%char) with false || change (("," =? "]")%char) with false.
    change (("," =? ",")%char) with true. cbn beta iota.
    change (skip_ws (String " " ?s)) with (skip_ws s).
    rewrite Ht, Hw, <- Ht, IH; [done|done|done|lia].
Qed.

Definition render_member (kv : string * json) : string :=
  let '(k, v) := kv in json_str_ascii k +:+ ": " +:+ render_spaced v.

Lemma member_text k v s :
  render_member (k, v) +:+ s
  = String quote_char (concat_map json_char_ascii k +:+
      String quote_char (String ":" (String " " (render_spaced v +:+ s)))).
Proof. unfold render_member, json_str_ascii. by rewrite !append_assoc, !append_cons, !append_assoc. Qed.

Lemma scan_member_head fuel k v s :
  json_plain v = true →
  scan_members (S fuel) (render_member (k, v) +:+ s)
  = ('(v', s') ← scan_value fuel (render_spaced v +:+ s);
     match skip_ws s' with
     | String c t =>
         if (c =? "}")%char then Some ([(k, v')], t)
         else if (c =? ",")%char then
           '(l, r) ← scan_members fuel (skip_ws t); Some ((k, v') :: l, r)
         else None
     | EmptyString => None
     end).
Proof.
  intros Hv. rewrite member_text. cbn [scan_members]. rewrite read_char_cons.
  cbn [mbind option_bind]. rewrite scan_string_literal. cbn [mbind option_bind].
  change (read_colon (String ":" ?t)) with (Some t). cbn [mbind option_bind].
  change (skip_ws (String " " ?t)) with (skip_ws t).
  destruct (render_spaced_head v s Hv) as [-> _]. done.
Qed.

Lemma member_length k v :
  (String.length (render_spaced v) ≤ String.length (render_member (k, v)))%nat.
Proof. unfold render_member. rewrite !length_append. lia. Qed.

Definition member_plain (kv : string * json) : bool := let '(_, v) := kv in json_plain v.

Lemma scan_members_render l k v fuel r :
  Forall (λ kv, reads kv.2) ((k, v) :: l) → forallb member_plain ((k, v) :: l) = true →
  (2 * String.length (str_join ", " (map render_member ((k, v) :: l))) + 1 ≤ fuel)%nat →
  scan_members fuel (str_join ", " (map render_member ((k, v) :: l)) +:+ String "}" r)
  = Some ((k, v) :: l, r).
Proof.
  revert k v fuel. induction l as [|[k' v'] l IH];
    intros k v [|fuel] [Hx Hl]%Forall_cons Hp Hf; try lia;
    apply andb_true_iff in Hp as [Hpx Hpl]; simpl in Hx; cbn [member_plain] in Hpx;
    pose proof (member_length k v) as Hm.
  - cbn [map str_join] in *. rewrite scan_member_head by done.
    rewrite (Hx Hpx) by (done || lia). done.
  - rewrite join_cons. rewrite join_cons_length in Hf. rewrite scan_member_head by done.
    rewrite (Hx Hpx) by (done || lia). cbn [mbind option_bind].
    change (skip_ws (String "," ?s)) with (String "," s).
    change (("," =? "}")%char) with false. change (("," =? ",")%char) with true.
    cbn beta iota. change (skip_ws (String " " ?s)) with (skip_ws s).
    destruct (join_head render_member (k', v') l (String "}" r)) as (t&Ht).
    assert (skip_ws (render_member (k', v') +:+ t) = render_member (k', v') +:+ t) as Hw
      by by rewrite member_text.
    rewrite Ht, Hw, <- Ht, IH; [done|done|done|lia].
Qed.

Lemma reads_all v : reads v.
Proof.
  induction v as [|b|z|t|t|l IH|kvs IH] using json_nested_ind;
    intros Hok [|fuel] r Hr Hf; try (pose proof (render_spaced_nonempty _ Hok); lia).
  - done.
  - by destruct b.
  - pose proof (scan_number_pretty z r Hr Hok) as E. simpl render_spaced.
    pose proof (scan_number_keyword _ _ E) as Hk. revert E Hk. clear Hf.
    generalize (pretty z +:+ r). intros [|c s] E Hk; [done|].
    cbn [scan_value]. rewrite Hk, E.
    destruct c as [[] [] [] [] [] [] [] []]; try discriminate E; done.
  - pose proof (float_spelling_literal t r Hok Hr) as E. simpl render_spaced.
    revert E. clear Hf. generalize (float_spelling t +:+ r). intros s E.
    destruct s as [|c s]; [by destruct E as [E|[_ E]]|]. cbn [scan_value].
    destruct E as [E|[Hk E]]; [rewrite E|rewrite Hk, E];
      destruct c as [[] [] [] [] [] [] [] []]; try discriminate E; done.
  - simpl render_spaced. unfold json_str_ascii. rewrite append_cons, append_assoc.
    cbn [scan_value]. change ((quote_char =? quote_char)%char) with true. cbn beta iota.
    change (String quote_char "" +:+ r) with (String quote_char r).
    by rewrite scan_string_literal.
  - destruct l as [|x l]; [done|].
    change (render_spaced (JList (x :: l))) with
      (String "[" (str_join ", " (map render_spaced (x :: l)) +:+ "]")) in *.
    cbn [String.length] in Hf. rewrite length_append in Hf.
    change (String.length "]") with 1%nat in Hf.
    rewrite append_cons, append_assoc. change ("]" +:+ r) with (String "]" r).
    cbn [scan_value]. change (("[" =? quote_char)%char) with false.
    change (("[" =? "[")%char) with true. cbn beta iota.
    destruct (join_head render_spaced x l (String "]" r)) as (t&Ht).
    cbn [json_plain] in Hok. pose proof Hok as Hx. apply andb_true_iff in Hx as [Hx _].
    destruct (render_spaced_head x t Hx) as [Hw Hc].
    rewrite Ht, Hw, Hc, <- Ht, scan_items_render; [done|done|done|].
    revert Hf. cbn [map]. lia.
  - destruct kvs as [|[k v] l]; [done|].
    change (render_spaced (JDict ((k, v) :: l))) with
      (String "{" (str_join ", " (map render_member ((k, v) :: l)) +:+ "}")) in *.
    cbn [String.length] in Hf. rewrite length_append in Hf.
    change (String.length "}") with 1%nat in Hf.
    rewrite append_cons, append_assoc. change ("}" +:+ r) with (String "}" r).
    cbn [scan_value]. change (("{" =? quote_char)%char) with false.
    change (("{" =? "[")%char) with false. change (("{" =? "{")%char) with true.
    cbn beta iota.
    destruct (join_head render_member (k, v) l (String "}" r)) as (t&Ht).
    cbn [json_plain] in Hok. apply andb_true_iff in Hok as [Hnd Hok].
    assert (skip_ws (render_member (k, v) +:+ t) = render_member (k, v) +:+ t
            ∧ read_char "}" (render_member (k, v) +:+ t) = None) as [Hw Hc]
      by by rewrite member_text.
    rewrite Ht, Hw, Hc, <- Ht, scan_members_render; [|done|done|revert Hf; cbn [map]; lia].
    cbn [mbind option_bind]. do 3 f_equal. apply dict_of_pairs_NoDup.
    by apply nodupb_NoDup.
Qed.

Lemma forallb_iff {A} (f : A → bool) l : forallb f l = true ↔ Forall (λ x, f x = true) l.
Proof.
  induction l as [|x l IH]; simpl; [split; [constructor|done]|].
  by rewrite andb_true_iff, IH, Forall_cons.
Qed.

Lemma json_plain_norm v : json_plain v = true → json_plain (norm v) = true.
Proof.
  induction v as [| | | | |l IH|kvs IH] using json_nested_ind; try done.
  - cbn [json_plain norm]. rewrite !forallb_iff. intros H. apply Forall_map.
    eapply Forall_impl; [exact (proj2 (Forall_and _ _) (conj IH H))|]. simpl. tauto.
  - cbn [json_plain norm]. rewrite !andb_true_iff, !nodupb_NoDup, !forallb_iff.
    intros [Hnd Hp].
    set (f := λ kv : string * json, let '(k, v) := kv in (k, norm v)).
    split.
    + change (map fst ?l) with (l.*1). rewrite sort_by_perm.
      assert ((map f kvs).*1 = kvs.*1) as ->; [|done].
      clear. induction kvs as [|[k v] l IH]; cbn; [done|]; f_equal; exact IH.
    + rewrite sort_by_perm. apply Forall_map.
      eapply Forall_impl; [exact (proj2 (Forall_and _ _) (conj IH Hp))|].
      intros [k v] [H1 H2]. simpl in *. auto.
Qed.

(** What [json.dumps] wrote is read back, up to the order of the keys. *)
Lemma loads_dumps v : json_plain v = true → loads (dumps_spaced v) = Some (norm v).
Proof.
  intros H. unfold loads, dumps_spaced.
  pose proof (json_plain_norm v H) as Hn.
  destruct (render_spaced_head (norm v) "" Hn) as [Hw _]. rewrite !append_nil_r in Hw.
  rewrite Hw. pose proof (reads_all (norm v) Hn (S (2 * String.length (render_spaced (norm v)))) "")
    as E. rewrite append_nil_r in E. rewrite E by (done || lia). done.
Qed.

(** ** The compact ASCII text determines the value *)

Lemma ascii_token s t r r' :
  json_str_ascii s +:+ r = json_str_ascii t +:+ r' → s = t ∧ r = r'.
Proof.
  unfold json_str_ascii. rewrite !append_cons, !append_assoc. intros E. injection E as E.
  pose proof (scan_string_literal s r) as Hs. pose proof (scan_string_literal t r') as Ht.
  change (String quote_char "" +:+ r) with (String quote_char r) in E.
  change (String quote_char "" +:+ r') with (String quote_char r') in E.
  rewrite E, Ht in Hs. by injection Hs as -> ->.
Qed.

Lemma render_ascii_renderer : renderer json_str_ascii render_ascii.
Proof.
  split; try done.
  - intros l r. simpl. by rewrite !append_cons, !append_assoc.
  - intros kvs r. simpl. by rewrite !append_cons, !append_assoc.
  - intros s. by eexists.
  - apply ascii_token.
Qed.

Lemma canonical_ascii_inj v w :
  json_ok v = true → json_ok w = true → canonical_ascii v = canonical_ascii w →
  norm v = norm w.
Proof.
  unfold canonical_ascii. intros Hv Hw E.
  apply (rend_determined render_ascii_renderer (norm v) ltac:(by rewrite json_ok_norm)
           (norm w) "" ""); [by rewrite json_ok_norm|done|done|]. by rewrite !append_nil_r.
Qed.
