(* ===== verification/ModelsBase.v ===== *)
(** * ModelsBase: enumerations and field checks of [src/src/master_agent/models.py]

    The enumerations of the domain model, with the string each member stands
    for and the constructor that parses it, and the module's private helpers:
    typed reads of a payload ([strict_bool], [strict_int], [expect_mapping],
    [systems_text_list], ...) and checks on text ([require_systems_text],
    [reject_control_characters], [validate_sha256], ...).

    Python's [isinstance] checks on dataclass fields hold by typing here; the
    checks on payload values are kept. *)

From S2P Require Import Prelude PyText PyJson PyHash ResourceLimits.
From Stdlib Require Import Ascii.

Open Scope Z_scope.

(** ** [StrEnum] *)

Class StrEnum (A : Type) := {
  enum_name : string;
  enum_members : list A;
  enum_str : A → string;
}.

#[global] Arguments enum_str {A _} a : simpl never.

(** [E(s)]: the member whose value is [s], or [ValueError]. *)
Definition enum_parse {A} `{StrEnum A} (s : string) : result A :=
  match List.find (λ a, (enum_str a =? s)%string) enum_members with
  | Some a => Ok a
  | None => Err (PyValueError (repr_str s +:+ " is not a valid " +:+ enum_name))
  end.

(** Parsing a member's string gives the member back. *)
Class StrEnumLaws (A : Type) `{StrEnum A} :=
  enum_parse_str (a : A) : enum_parse (enum_str a) = Ok a.

Inductive RiskLevel : Type :=
  | READ_ONLY | LOCAL_GENERATION | REVERSIBLE_WRITE | EXTERNAL_COMMUNICATION
  | HIGH_IMPACT | DESTRUCTIVE.
#[export] Instance RiskLevel_eq_dec : EqDecision RiskLevel.
Proof. solve_decision. Defined.

Definition RiskLevel_str (r : RiskLevel) : string :=
  match r with
  | READ_ONLY => "read_only" | LOCAL_GENERATION => "local_generation"
  | REVERSIBLE_WRITE => "reversible_write"
  | EXTERNAL_COMMUNICATION => "external_communication"
  | HIGH_IMPACT => "high_impact" | DESTRUCTIVE => "destructive"
  end.
#[export] Instance RiskLevel_enum : StrEnum RiskLevel := {
  enum_name := "RiskLevel";
  enum_members := [READ_ONLY; LOCAL_GENERATION; REVERSIBLE_WRITE;
                   EXTERNAL_COMMUNICATION; HIGH_IMPACT; DESTRUCTIVE];
  enum_str := RiskLevel_str }.
#[export] Instance RiskLevel_laws : StrEnumLaws RiskLevel.
Proof. by intros []. Qed.

Inductive SystemsGateRoute : Type := FAST_PATH | GATED.
#[export] Instance SystemsGateRoute_eq_dec : EqDecision SystemsGateRoute.
Proof. solve_decision. Defined.
Definition SystemsGateRoute_str (r : SystemsGateRoute) : string :=
  match r with FAST_PATH => "fast_path" | GATED => "gated" end.
#[export] Instance SystemsGateRoute_enum : StrEnum SystemsGateRoute := {
  enum_name := "SystemsGateRoute"; enum_members := [FAST_PATH; GATED];
  enum_str := SystemsGateRoute_str }.
#[export] Instance SystemsGateRoute_laws : StrEnumLaws SystemsGateRoute.
Proof. by intros []. Qed.

Inductive ComplexityKind : Type :=
  | DEPENDENCY | PERSISTENT_SERVICE | AGENT | CONFIGURATION_SURFACE
  | AUTHORITATIVE_DOCUMENT | STATE_STORE | CONNECTOR | USER_WORKFLOW.
#[export] Instance ComplexityKind_eq_dec : EqDecision ComplexityKind.
Proof. solve_decision. Defined.
Definition ComplexityKind_str (k : ComplexityKind) : string :=
  match k with
  | DEPENDENCY => "dependency" | PERSISTENT_SERVICE => "persistent_service"
  | AGENT => "agent" | CONFIGURATION_SURFACE => "configuration_surface"
  | AUTHORITATIVE_DOCUMENT => "authoritative_document"
  | STATE_STORE => "state_store" | CONNECTOR => "connector"
  | USER_WORKFLOW => "user_workflow"
  end.
#[export] Instance ComplexityKind_enum : StrEnum ComplexityKind := {
  enum_name := "ComplexityKind";
  enum_members := [DEPENDENCY; PERSISTENT_SERVICE; AGENT; CONFIGURATION_SURFACE;
                   AUTHORITATIVE_DOCUMENT; STATE_STORE; CONNECTOR; USER_WORKFLOW];
  enum_str := ComplexityKind_str }.
#[export] Instance ComplexityKind_laws : StrEnumLaws ComplexityKind.
Proof. by intros []. Qed.

Inductive SystemsMetricStatus : Type :=
  | NOT_OBSERVED | CONFIRMED_MOVED | CONFIRMED_UNCHANGED.
#[export] Instance SystemsMetricStatus_eq_dec : EqDecision SystemsMetricStatus.
Proof. solve_decision. Defined.
Definition SystemsMetricStatus_str (s : SystemsMetricStatus) : string :=
  match s with
  | NOT_OBSERVED => "not_observed" | CONFIRMED_MOVED => "confirmed_moved"
  | CONFIRMED_UNCHANGED => "confirmed_unchanged"
  end.
#[export] Instance SystemsMetricStatus_enum : StrEnum SystemsMetricStatus := {
  enum_name := "SystemsMetricStatus";
  enum_members := [NOT_OBSERVED; CONFIRMED_MOVED; CONFIRMED_UNCHANGED];
  enum_str := SystemsMetricStatus_str }.
#[export] Instance SystemsMetricStatus_laws : StrEnumLaws SystemsMetricStatus.
Proof. by intros []. Qed.

Inductive AuthoritySource : Type :=
  | DIRECT_USER | REGISTERED_WORKFLOW | ORGANIZATION_POLICY
  | RETRIEVED_INTERNAL_CONTENT | RETRIEVED_EXTERNAL_CONTENT.
#[export] Instance AuthoritySource_eq_dec : EqDecision AuthoritySource.
Proof. solve_decision. Defined.
Definition AuthoritySource_str (s : AuthoritySource) : string :=
  match s with
  | DIRECT_USER => "direct_user" | REGISTERED_WORKFLOW => "registered_workflow"
  | ORGANIZATION_POLICY => "organization_policy"
  | RETRIEVED_INTERNAL_CONTENT => "retrieved_internal_content"
  | RETRIEVED_EXTERNAL_CONTENT => "retrieved_external_content"
  end.
#[export] Instance AuthoritySource_enum : StrEnum AuthoritySource := {
  enum_name := "AuthoritySource";
  enum_members := [DIRECT_USER; REGISTERED_WORKFLOW; ORGANIZATION_POLICY;
                   RETRIEVED_INTERNAL_CONTENT; RETRIEVED_EXTERNAL_CONTENT];
  enum_str := AuthoritySource_str }.
#[export] Instance AuthoritySource_laws : StrEnumLaws AuthoritySource.
Proof. by intros []. Qed.

Inductive DataClassification : Type := PUBLIC | INTERNAL | CONFIDENTIAL | RESTRICTED.
#[export] Instance DataClassification_eq_dec : EqDecision DataClassification.
Proof. solve_decision. Defined.
Definition DataClassification_str (c : DataClassification) : string :=
  match c with
  | PUBLIC => "public" | INTERNAL => "internal"
  | CONFIDENTIAL => "confidential" | RESTRICTED => "restricted"
  end.
#[export] Instance DataClassification_enum : StrEnum DataClassification := {
  enum_name := "DataClassification";
  enum_members := [PUBLIC; INTERNAL; CONFIDENTIAL; RESTRICTED];
  enum_str := DataClassification_str }.
#[export] Instance DataClassification_laws : StrEnumLaws DataClassification.
Proof. by intros []. Qed.

Inductive ActionState : Type :=
  | PLANNED | PERMITTED | APPROVAL_REQUIRED | PROHIBITED | SKIPPED | SUCCEEDED
  | FAILED | VERIFIED | CONFLICTED | COMPENSATING | COMPENSATED
  | COMPENSATION_FAILED | REUSED | INDETERMINATE.
#[export] Instance ActionState_eq_dec : EqDecision ActionState.
Proof. solve_decision. Defined.
Definition ActionState_str (s : ActionState) : string :=
  match s with
  | PLANNED => "planned" | PERMITTED => "permitted"
  | APPROVAL_REQUIRED => "approval_required" | PROHIBITED => "prohibited"
  | SKIPPED => "skipped" | SUCCEEDED => "succeeded" | FAILED => "failed"
  | VERIFIED => "verified" | CONFLICTED => "conflicted"
  | COMPENSATING => "compensating" | COMPENSATED => "compensated"
  | COMPENSATION_FAILED => "compensation_failed" | REUSED => "reused"
  | INDETERMINATE => "indeterminate"
  end.
#[export] Instance ActionState_enum : StrEnum ActionState := {
  enum_name := "ActionState";
  enum_members := [PLANNED; PERMITTED; APPROVAL_REQUIRED; PROHIBITED; SKIPPED;
    SUCCEEDED; FAILED; VERIFIED; CONFLICTED; COMPENSATING; COMPENSATED;
    COMPENSATION_FAILED; REUSED; INDETERMINATE];
  enum_str := ActionState_str }.
#[export] Instance ActionState_laws : StrEnumLaws ActionState.
Proof. by intros []. Qed.

Inductive CompensationMode : Type := PLAN | IN_PROCESS | MANUAL.
#[export] Instance CompensationMode_eq_dec : EqDecision CompensationMode.
Proof. solve_decision. Defined.
Definition CompensationMode_str (m : CompensationMode) : string :=
  match m with PLAN => "plan" | IN_PROCESS => "in_process" | MANUAL => "manual" end.
#[export] Instance CompensationMode_enum : StrEnum CompensationMode := {
  enum_name := "CompensationMode"; enum_members := [PLAN; IN_PROCESS; MANUAL];
  enum_str := CompensationMode_str }.
#[export] Instance CompensationMode_laws : StrEnumLaws CompensationMode.
Proof. by intros []. Qed.

(** ** Reading a payload *)

(** [str(data.get(k, d))]. *)
Definition get_str (data : dict) (k d : string) : string :=
  py_str (dict_get_or data k (JStr d)).

(** [str(data[k])]. *)
Definition item_str (data : dict) (k : string) : result string :=
  v ← dict_item data k; Ok (py_str v).

(** [str(data[k]) if data.get(k) is not None else None]. *)
Definition opt_str (data : dict) (k : string) : option string :=
  match dict_get data k with JNull => None | v => Some (py_str v) end.

(** [x] or [None], as a payload value. *)
Definition opt_json {A} (f : A → json) (o : option A) : json :=
  match o with Some a => f a | None => JNull end.

Definition str_list (l : list string) : json := JList (map JStr l).

Definition json_strings (v : json) : option (list string) :=
  match v with
  | JList l => mapM (λ v, match v with JStr s => Some s | _ => None end) l
  | _ => None
  end.

(** A list of mappings, as its items. *)
Definition json_mappings (v : json) : option (list dict) :=
  match v with
  | JList l => mapM (λ v, match v with JDict d => Some d | _ => None end) l
  | _ => None
  end.

Definition systems_text_list (data : dict) (key : string) : result (list string) :=
  or_raise (json_strings (dict_get data key))
    (ValidationError ("systems " +:+ key +:+ " must be a string list")).

Definition capsule_binding_strings (data : dict) (key : string) : result (list string) :=
  or_raise (json_strings (dict_get data key))
    (ValidationError ("capsule binding " +:+ key +:+ " must be a string list")).

Definition approval_roles_from_data (data : dict) : result (list string) :=
  or_raise (json_strings (dict_get data "roles"))
    (ValidationError "approval roles must be a string list").

Definition strict_int (value : json) (name : string) : result Z :=
  match value with
  | JInt z => Ok z
  | _ => Err (ValidationError (name +:+ " must be an integer"))
  end.

Definition strict_bool (value : json) (name : string) : result bool :=
  match value with
  | JBool b => Ok b
  | _ => Err (ValidationError (name +:+ " must be a boolean"))
  end.

(** [strict(data.get(k), name) if data.get(k) is not None else None]. *)
Definition opt_strict {A} (strict : json → string → result A) (data : dict)
    (k name : string) : result (option A) :=
  match dict_get data k with
  | JNull => Ok None
  | v => a ← strict v name; Ok (Some a)
  end.

Definition required_positive_int (data : dict) (key : string) : result Z :=
  match dict_get data key with
  | JInt z => if z <=? 0
              then Err (ValidationError ("capsule binding " +:+ key +:+ " must be positive"))
              else Ok z
  | _ => Err (ValidationError ("capsule binding " +:+ key +:+ " must be positive"))
  end.

Definition expect_mapping (data : dict) (key : string) : result dict :=
  match dict_get data key with
  | JDict d => Ok d
  | _ => Err (ValidationError (key +:+ " must be an object"))
  end.

Definition required_approval_string (data : dict) (key : string) : result string :=
  match dict_get data key with
  | JStr s => Ok s
  | _ => Err (ValidationError ("approval " +:+ key +:+ " must be a string"))
  end.

(** ** Checks on text *)

Definition reject_control_characters (value name : string) : result unit :=
  raise_if (has_control value)
    (ValidationError (name +:+ " must not contain control characters")).

Definition require_systems_text (value name : string) : result unit :=
  raise_if (is_blank value) (ValidationError (name +:+ " must not be empty"));;
  raise_if (untrimmed value) (ValidationError (name +:+ " must be trimmed"));;
  validate_bounded_string value name;;
  reject_control_characters value name.

Definition normalize_systems_text_tuple (values : list string) (name : string)
    : result (list string) :=
  mapM (λ v, require_systems_text v name) values;; Ok values.

(** NFC normalisation is the identity on the modelled text, so that test
    never fires. *)
Definition validate_approval_claim (value name : string) : result unit :=
  raise_if ((value =? "")%string || untrimmed value)
    (ValidationError (name +:+ " must be a non-empty normalized value"));;
  reject_control_characters value name.

Definition validate_sha256 (value name : string) : result unit :=
  raise_if (negb (is_sha256_hex value))
    (ValidationError (name +:+ " must be a lowercase SHA-256 digest")).

(** [[a-z][a-z0-9_]{0,63}], the shape of intent IDs and reason codes. *)
Definition STRATEGY_INTENT_PATTERN : regex :=
  RSeq (RChar is_lower)
    (RUpto 63 (RChar (λ c, is_lower c || is_digit c || (c =? "_")%char))).

(** [_stable_sha256]: the digest of the canonical JSON text. *)
Definition stable_sha256 (value : json) : result string :=
  text ← dumps value; Ok (sha256 text).

(** [stable_sha256] where the value holds no float. *)
Definition digest_json (value : json) : string := sha256 (canonical_text value).

(** [_freeze_json]: a value of the model is JSON-compatible and immutable by
    typing, so freezing returns the same value and can only reject a
    non-finite float, named by its path. *)
Definition freeze_items (freeze : json → string → result json) (path : string) :=
  fix go (kvs : dict) : result dict :=
    match kvs with
    | [] => Ok []
    | (k, v) :: kvs =>
        w ← freeze v (path +:+ "." +:+ k); r ← go kvs; Ok ((k, w) :: r)
    end.

Definition freeze_elements (freeze : json → string → result json) (path : string) :=
  fix go (i : nat) (l : list json) : result (list json) :=
    match l with
    | [] => Ok []
    | v :: l =>
        w ← freeze v (path +:+ "[" +:+ pretty i +:+ "]"); r ← go (S i) l; Ok (w :: r)
    end.

Fixpoint freeze_json (v : json) (path : string) : result json :=
  match v with
  | JDict kvs => frozen ← freeze_items freeze_json path kvs; Ok (JDict frozen)
  | JList l => frozen ← freeze_elements freeze_json path O l; Ok (JList frozen)
  | JFloat r =>
      raise_if (negb (float_finite r))
        (ValidationError (path +:+ " contains a non-finite number"));;
      Ok v
  | _ => Ok v
  end.

Definition freeze_json_mapping (value : dict) : result dict :=
  frozen ← freeze_json (JDict value) "mapping";
  match frozen with
  | JDict d => Ok d
  | _ => Err (ValidationError "value must be an object")
  end.

(** ** Dataclasses

    What a client may rely on of one of the module's frozen dataclasses: its
    serialisation, and the invariant [wf] that holds of every object the class
    can construct (its own checks and those of the objects it holds). *)

Class Dataclass (A : Type) := {
  to_dict : A → dict;
  from_dict : dict → result A;
  wf : A → Prop;
}.

Class DataclassLaws (A : Type) `{Dataclass A} := {
  from_to_dict (x : A) : wf x → from_dict (to_dict x) = Ok x;
  from_dict_wf (d : dict) (x : A) : from_dict d = Ok x → wf x;
}.

(** ** Round-trip lemmas *)

Lemma json_strings_str_list l : json_strings (str_list l) = Some l.
Proof. simpl. induction l as [|s l IH]; simpl; [done|]. by rewrite IH. Qed.

Lemma json_mappings_JDict {A} (f : A → dict) l :
  json_mappings (JList (map (λ x, JDict (f x)) l)) = Some (map f l).
Proof. simpl. induction l as [|s l IH]; simpl; [done|]. by rewrite IH. Qed.

#[global] Arguments json_strings : simpl never.
#[global] Arguments json_mappings : simpl never.

Lemma freeze_json_Ok v path w :
  freeze_json v path = Ok w ↔ all_finite v = true ∧ w = v.
Proof.
  revert path w. induction v as [|b|z|r|s|l IH|kvs IH] using json_nested_ind;
    intros path w; simpl.
  1,2,3,5: split; [by intros [= <-]|by intros [_ ->]].
  - destruct (float_finite r); simpl; (split; [|by intros [? ->]]); by intros [= <-].
  - assert (∀ i k, freeze_elements freeze_json path i l = Ok k ↔
      forallb all_finite l = true ∧ k = l) as Hgo.
    { induction IH as [|v l Hv _ IHl]; intros i k; simpl.
      { split; [by intros [= <-]|by intros [_ ->]]. }
      rewrite bind_Ok, andb_true_iff. setoid_rewrite Hv. setoid_rewrite bind_Ok.
      setoid_rewrite IHl. split.
      - intros (a&[? ->]&r&[? ->]&[= <-]). done.
      - intros [[??] ->]. eauto 10. }
    rewrite bind_Ok. setoid_rewrite Hgo. split.
    + intros (a&[? ->]&[= <-]). done.
    + intros [? ->]. eauto.
  - assert (∀ k, freeze_items freeze_json path kvs = Ok k ↔
      forallb (λ kv : string * json, let '(_, v) := kv in all_finite v) kvs = true ∧ k = kvs)
      as Hgo.
    { induction IH as [|[k0 v] l Hv _ IHl]; intros k; simpl.
      { split; [by intros [= <-]|by intros [_ ->]]. }
      simpl in Hv. rewrite bind_Ok, andb_true_iff. setoid_rewrite Hv.
      setoid_rewrite bind_Ok. setoid_rewrite IHl. split.
      - intros (a&[? ->]&r&[? ->]&[= <-]). done.
      - intros [[??] ->]. eauto 10. }
    rewrite bind_Ok. setoid_rewrite Hgo. split.
    + intros (a&[? ->]&[= <-]). done.
    + intros [? ->]. eauto.
Qed.

(** Freezing keeps a finite mapping and rejects every other one. *)
Lemma freeze_json_mapping_Ok d w :
  freeze_json_mapping d = Ok w ↔ all_finite (JDict d) = true ∧ w = d.
Proof.
  unfold freeze_json_mapping. rewrite bind_Ok. setoid_rewrite freeze_json_Ok.
  split; [intros (a&[? ->]&[= <-]); done|intros [? ->]; eauto].
Qed.

Lemma stable_sha256_finite v :
  all_finite v = true → stable_sha256 v = Ok (digest_json v).
Proof. intros H. unfold stable_sha256, dumps. by rewrite H. Qed.

Lemma digest_json_hex v : is_sha256_hex (digest_json v) = true.
Proof. apply sha256_hex. Qed.

Create Rewrite HintDb roundtrip.
#[export] Hint Rewrite json_strings_str_list @json_mappings_JDict : roundtrip.

(** A list of objects is parsed back from the list of their mappings. *)
Lemma mapM_from_to_dict {A} `{DataclassLaws A} (l : list A) :
  Forall wf l → mapM from_dict (map to_dict l) = Ok l.
Proof.
  intros Hl. apply mapM_Ok, Forall2_fmap_l, Forall_Forall2_diag.
  eapply Forall_impl; [exact Hl|]. intros x. apply from_to_dict.
Qed.

Lemma mapM_from_dict_wf {A} `{DataclassLaws A} ds (l : list A) :
  mapM from_dict ds = Ok l → Forall wf l.
Proof.
  intros Hl%mapM_Ok. induction Hl; constructor; eauto using from_dict_wf.
Qed.

(** The reads of [from_dict] at the literal keys [to_dict] wrote. *)
Ltac read_keys :=
  cbv [dict_get dict_get_or dict_item dict_lookup get_str item_str opt_str opt_strict
       systems_text_list capsule_binding_strings approval_roles_from_data
       required_positive_int required_approval_string expect_mapping
       String.eqb Ascii.eqb Bool.eqb app or_raise];
  cbn [py_str strict_bool strict_int is_none is_mapping is_list negb andb orb].

(** Rewrite with a law of a dataclass instance, instance unfolded. *)
Ltac rewrite_law law :=
  let E := fresh "E" in pose proof law as E; simpl in E; rewrite E; clear E.

Ltac use_law law :=
  let E := fresh "E" in pose proof law as E; simpl in E; eapply E; eassumption.

(** Evaluate [from_dict] on the output of [to_dict]. *)
Ltac read_back := read_keys; autorewrite with roundtrip; rewrite ?enum_parse_str.
