(* ===== verification/PlatformIdentity.v ===== *)
(** * PlatformIdentity: [PlatformObjectIdentity] of
    [src/src/master_agent/platform_runtime/contracts.py]

    The native identity of a filesystem object that an approval binds: a
    tagged payload, POSIX or Windows, never a mixture of both. *)

From S2P Require Import Prelude PyText PyJson ModelsBase.
From Stdlib Require Import Ascii.

Open Scope Z_scope.

Inductive FilesystemObjectKind : Type := DIRECTORY | FILE.
#[export] Instance FilesystemObjectKind_eq_dec : EqDecision FilesystemObjectKind.
Proof. solve_decision. Defined.
Definition FilesystemObjectKind_str (k : FilesystemObjectKind) : string :=
  match k with DIRECTORY => "directory" | FILE => "file" end.
#[export] Instance FilesystemObjectKind_enum : StrEnum FilesystemObjectKind := {
  enum_name := "FilesystemObjectKind"; enum_members := [DIRECTORY; FILE];
  enum_str := FilesystemObjectKind_str }.
#[export] Instance FilesystemObjectKind_laws : StrEnumLaws FilesystemObjectKind.
Proof. by intros []. Qed.

Record PlatformObjectIdentity : Type := mk_PlatformObjectIdentity {
  poi_platform : string;
  poi_kind : FilesystemObjectKind;
  poi_device : option Z;
  poi_inode : option Z;
  poi_owner : option Z;
  poi_mode : option Z;
  poi_volume_serial : option string;
  poi_file_id : option string;
  poi_owner_sid : option string;
  poi_dacl_sha256 : option string;
  poi_trust_policy_sha256 : option string;
  poi_schema : string;
}.
#[export] Instance PlatformObjectIdentity_eq_dec : EqDecision PlatformObjectIdentity.
Proof. solve_decision. Defined.

Definition is_someb {A} (o : option A) : bool :=
  match o with Some _ => true | None => false end.

(** [_lower_hex]. *)
Definition lower_hex (value : option string) (minimum maximum : Z) : bool :=
  match value with
  | Some s => (minimum <=? len s) && (len s <=? maximum) && str_forall is_lower_hex s
  | None => false
  end.

(** [not isinstance(value, int) or value < 0]. *)
Definition not_natural (value : option Z) : bool :=
  match value with Some z => z <? 0 | None => true end.

Definition validate_posix (self : PlatformObjectIdentity) : result unit :=
  raise_if (existsb not_natural
              [poi_device self; poi_inode self; poi_owner self; poi_mode self])
    (PyValueError "POSIX platform object identity payload is invalid");;
  raise_if (match poi_mode self with Some m => 4095 <? m | None => false end)
    (PyValueError "POSIX platform object identity mode is invalid");;
  raise_if (existsb is_someb
              [poi_volume_serial self; poi_file_id self; poi_owner_sid self;
               poi_dacl_sha256 self; poi_trust_policy_sha256 self])
    (PyValueError "POSIX platform object identity mixes native payloads").

Definition owner_sid_malformed (sid : option string) : bool :=
  match sid with
  | Some s => negb (startswith "S-" s) || negb ((3 <=? len s) && (len s <=? 184))
              || str_exists (λ c, (code c <? 33) || (126 <? code c)) s
  | None => true
  end.

Definition validate_windows (self : PlatformObjectIdentity) : result unit :=
  raise_if (existsb is_someb
              [poi_device self; poi_inode self; poi_owner self; poi_mode self])
    (PyValueError "Windows platform object identity mixes native payloads");;
  raise_if (negb (lower_hex (poi_volume_serial self) 1 16))
    (PyValueError "Windows platform volume identity is invalid");;
  raise_if (negb (lower_hex (poi_file_id self) 32 32))
    (PyValueError "Windows platform file identity is invalid");;
  raise_if (owner_sid_malformed (poi_owner_sid self))
    (PyValueError "Windows platform owner SID is invalid");;
  raise_if (negb (lower_hex (poi_dacl_sha256 self) 64 64))
    (PyValueError "Windows platform DACL digest is invalid");;
  raise_if (negb (lower_hex (poi_trust_policy_sha256 self) 64 64))
    (PyValueError "Windows platform trust policy digest is invalid").

Definition PlatformObjectIdentity_post_init (self : PlatformObjectIdentity)
    : result PlatformObjectIdentity :=
  raise_if (negb (poi_schema self =? "master-agent/platform-object-identity@1")%string)
    (PyValueError "unsupported platform object identity schema");;
  (if (poi_platform self =? "posix")%string then validate_posix self
   else if (poi_platform self =? "windows")%string then validate_windows self
   else Err (PyValueError "platform object identity platform is invalid"));;
  Ok self.

Definition identity_schema : string := "master-agent/platform-object-identity@1".

Definition from_posix (kind : FilesystemObjectKind) (device inode owner mode : Z)
    : result PlatformObjectIdentity :=
  PlatformObjectIdentity_post_init
    (mk_PlatformObjectIdentity "posix" kind (Some device) (Some inode) (Some owner)
       (Some mode) None None None None None identity_schema).

Definition from_windows (kind : FilesystemObjectKind)
    (volume_serial file_id owner_sid dacl_sha256 trust_policy_sha256 : string)
    : result PlatformObjectIdentity :=
  PlatformObjectIdentity_post_init
    (mk_PlatformObjectIdentity "windows" kind None None None None (Some volume_serial)
       (Some file_id) (Some owner_sid) (Some dacl_sha256) (Some trust_policy_sha256)
       identity_schema).

(** The volume and object an identity names, for alias detection. *)
Definition object_key (self : PlatformObjectIdentity) : string * string * string :=
  if (poi_platform self =? "posix")%string
  then (poi_platform self, py_str (opt_json JInt (poi_device self)),
        py_str (opt_json JInt (poi_inode self)))
  else (poi_platform self, default "" (poi_volume_serial self),
        default "" (poi_file_id self)).

Definition PlatformObjectIdentity_to_dict (self : PlatformObjectIdentity) : dict :=
  [("schema", JStr (poi_schema self));
   ("platform", JStr (poi_platform self));
   ("kind", JStr (enum_str (poi_kind self)))]
  ++ if (poi_platform self =? "posix")%string then
       [("posix", JDict
          [("device", opt_json JInt (poi_device self));
           ("inode", opt_json JInt (poi_inode self));
           ("owner", opt_json JInt (poi_owner self));
           ("mode", opt_json JInt (poi_mode self))])]
     else
       [("windows", JDict
          [("volume_serial", opt_json JStr (poi_volume_serial self));
           ("file_id", opt_json JStr (poi_file_id self));
           ("owner_sid", opt_json JStr (poi_owner_sid self));
           ("dacl_sha256", opt_json JStr (poi_dacl_sha256 self));
           ("trust_policy_sha256", opt_json JStr (poi_trust_policy_sha256 self))])].

Definition identity_int (data : dict) (name : string) : result Z :=
  match dict_get data name with
  | JInt z => Ok z
  | _ => Err (PyTypeError ("platform object identity " +:+ name +:+ " is invalid"))
  end.

(** [set(data) == {...}]. *)
Definition keys_are (data : dict) (names : list string) : bool :=
  forallb (λ n, dict_mem data n) names
  && forallb (λ kv, bool_decide (kv.1 ∈ names)) data.

(** The native payload under [key], when the object has exactly its shape. *)
Definition native_payload (data : dict) (key label : string) (names : list string)
    : result dict :=
  raise_if (negb (keys_are data ["schema"; "platform"; "kind"; key]))
    (PyValueError (label +:+ " platform object identity shape is invalid"));;
  match dict_get data key with
  | JDict native =>
      raise_if (negb (keys_are native names))
        (PyValueError (label +:+ " platform object identity shape is invalid"));;
      Ok native
  | _ => Err (PyValueError (label +:+ " platform object identity payload is invalid"))
  end.

Definition PlatformObjectIdentity_from_dict (data : dict)
    : result PlatformObjectIdentity :=
  let platform := get_str data "platform" "" in
  kind ← reraise (enum_parse (get_str data "kind" ""))
           (λ _, Some (PyValueError "platform object identity kind is invalid"));
  let schema := get_str data "schema" "" in
  if (platform =? "posix")%string then
    native ← native_payload data "posix" "POSIX" ["device"; "inode"; "owner"; "mode"];
    device ← identity_int native "device";
    inode ← identity_int native "inode";
    owner ← identity_int native "owner";
    mode ← identity_int native "mode";
    PlatformObjectIdentity_post_init
      (mk_PlatformObjectIdentity platform kind (Some device) (Some inode) (Some owner)
         (Some mode) None None None None None schema)
  else if (platform =? "windows")%string then
    native ← native_payload data "windows" "Windows"
      ["volume_serial"; "file_id"; "owner_sid"; "dacl_sha256"; "trust_policy_sha256"];
    PlatformObjectIdentity_post_init
      (mk_PlatformObjectIdentity platform kind None None None None
         (Some (get_str native "volume_serial" "")) (Some (get_str native "file_id" ""))
         (Some (get_str native "owner_sid" "")) (Some (get_str native "dacl_sha256" ""))
         (Some (get_str native "trust_policy_sha256" "")) schema)
  else
    PlatformObjectIdentity_post_init
      (mk_PlatformObjectIdentity platform kind None None None None None None None None
         None schema).

(** ** Laws *)

#[export] Instance PlatformObjectIdentity_dataclass : Dataclass PlatformObjectIdentity := {
  to_dict := PlatformObjectIdentity_to_dict;
  from_dict := PlatformObjectIdentity_from_dict;
  wf x := PlatformObjectIdentity_post_init x = Ok x }.

Lemma PlatformObjectIdentity_post_init_id x y :
  PlatformObjectIdentity_post_init x = Ok y → y = x.
Proof. unfold PlatformObjectIdentity_post_init. intros H. by inv_ok. Qed.

(** A constructed identity holds the complete payload of one platform and
    nothing of the other. *)
Lemma identity_payload x :
  PlatformObjectIdentity_post_init x = Ok x →
  (∃ k d i o m, x = mk_PlatformObjectIdentity "posix" k (Some d) (Some i) (Some o) (Some m)
      None None None None None identity_schema) ∨
  (∃ k v f s d t, x = mk_PlatformObjectIdentity "windows" k None None None None
      (Some v) (Some f) (Some s) (Some d) (Some t) identity_schema).
Proof.
  intros H. destruct x as [p k dev ino own mode vs fid sid dacl tp sch].
  unfold PlatformObjectIdentity_post_init in H.
  cbn [poi_schema poi_platform] in H. inv_ok. to_prop. subst sch.
  destruct (String.eqb_spec p "posix") as [->|_];
    [|destruct (String.eqb_spec p "windows") as [->|_]; [|done]].
  - left. unfold validate_posix in Hv0. inv_ok. simpl in *.
    destruct dev, ino, own, mode; simpl in *; rewrite ?orb_true_r in *; try discriminate.
    destruct vs, fid, sid, dacl, tp; try discriminate. by repeat eexists.
  - right. unfold validate_windows in Hv0. inv_ok. simpl in *.
    destruct dev, ino, own, mode; try discriminate.
    destruct vs, fid, sid, dacl, tp; simpl in *; try discriminate. by repeat eexists.
Qed.

#[export] Instance PlatformObjectIdentity_laws : DataclassLaws PlatformObjectIdentity.
Proof.
  split; simpl.
  - intros x H. pose proof H as Hp. apply identity_payload in Hp.
    destruct Hp as [(k&d&i&o&m&->)|(k&v&f&s&d&t&->)];
      by destruct k.
  - intros d x H. unfold PlatformObjectIdentity_from_dict in H. inv_ok.
    repeat case_match; inv_ok;
      by match goal with H : PlatformObjectIdentity_post_init _ = Ok _ |- _ =>
           pose proof (PlatformObjectIdentity_post_init_id _ _ H) as -> end.
Qed.
