(* ===== verification/ModelsSystems.v ===== *)
(** * ModelsSystems: the systems-governance records of [src/src/master_agent/models.py]

    One [Record] per frozen dataclass; [X_post_init] is its [__post_init__]
    (the value it leaves behind, or the exception), [X_to_dict] and
    [X_from_dict] its serialisation, and the properties and alternative
    constructors under their own names.  A Python object of the class is an [x]
    with [X_post_init x = Ok x]. *)

From S2P Require Import Prelude PyText PyJson PyHash ResourceLimits ModelsBase.
From Stdlib Require Import Ascii.

Open Scope Z_scope.

(** ** Complexity items *)

Definition complexity_weight (k : ComplexityKind) : Z :=
  match k with
  | DEPENDENCY => 1 | PERSISTENT_SERVICE => 2 | AGENT => 2
  | CONFIGURATION_SURFACE => 1 | AUTHORITATIVE_DOCUMENT => 1
  | STATE_STORE => 2 | CONNECTOR => 1 | USER_WORKFLOW => 1
  end.

Record ComplexityItem : Type := mk_ComplexityItem {
  ci_kind : ComplexityKind;
  ci_description : string;
}.
#[export] Instance ComplexityItem_eq_dec : EqDecision ComplexityItem.
Proof. solve_decision. Defined.

Definition ComplexityItem_post_init (self : ComplexityItem) : result ComplexityItem :=
  require_systems_text (ci_description self) "complexity item description";;
  Ok self.

Definition ComplexityItem_weight (self : ComplexityItem) : Z :=
  complexity_weight (ci_kind self).

Definition ComplexityItem_to_dict (self : ComplexityItem) : dict :=
  [("kind", JStr (enum_str (ci_kind self)));
   ("description", JStr (ci_description self));
   ("weight", JInt (ComplexityItem_weight self))].

Definition ComplexityItem_from_dict (data : dict) : result ComplexityItem :=
  kind ← enum_parse (get_str data "kind" "");
  item ← ComplexityItem_post_init
    (mk_ComplexityItem kind (get_str data "description" ""));
  supplied_weight ← strict_int (dict_get data "weight") "complexity item weight";
  raise_if (negb (supplied_weight =? ComplexityItem_weight item))
    (ValidationError "complexity item weight does not match its kind");;
  Ok item.

(** ** Strategy kernel *)

Record StrategyActionIntent : Type := mk_StrategyActionIntent {
  si_intent_id : string;
  si_description : string;
  si_expected_effect : string;
  si_schema : string;
}.
#[export] Instance StrategyActionIntent_eq_dec : EqDecision StrategyActionIntent.
Proof. solve_decision. Defined.

Definition StrategyActionIntent_post_init (self : StrategyActionIntent)
    : result StrategyActionIntent :=
  raise_if (negb (si_schema self =? "master-agent/strategy-action-intent@1")%string)
    (ValidationError "unsupported strategy action intent schema");;
  raise_if (negb (fullmatch STRATEGY_INTENT_PATTERN (si_intent_id self)))
    (ValidationError "strategy action intent ID is invalid");;
  require_systems_text (si_description self) "strategy action description";;
  require_systems_text (si_expected_effect self) "strategy expected effect";;
  Ok self.

Definition StrategyActionIntent_to_dict (self : StrategyActionIntent) : dict :=
  [("schema", JStr (si_schema self));
   ("intent_id", JStr (si_intent_id self));
   ("description", JStr (si_description self));
   ("expected_effect", JStr (si_expected_effect self))].

Definition StrategyActionIntent_from_dict (data : dict) : result StrategyActionIntent :=
  StrategyActionIntent_post_init {|
    si_schema := get_str data "schema" "";
    si_intent_id := get_str data "intent_id" "";
    si_description := get_str data "description" "";
    si_expected_effect := get_str data "expected_effect" "" |}.

Record StrategyKernel : Type := mk_StrategyKernel {
  sk_diagnosis : string;
  sk_guiding_policy : string;
  sk_proximate_objective : string;
  sk_tradeoffs : list string;
  sk_coherent_actions : list StrategyActionIntent;
  sk_schema : string;
}.
#[export] Instance StrategyKernel_eq_dec : EqDecision StrategyKernel.
Proof. solve_decision. Defined.

(** [len(tuple(islice(iter(xs), MAX + 1))) > MAX]. *)
Definition too_many {A} (l : list A) : bool := MAX_PLAN_ACTIONS <? Z.of_nat (length l).

Definition StrategyKernel_post_init (self : StrategyKernel) : result StrategyKernel :=
  raise_if (negb (sk_schema self =? "master-agent/strategy-kernel@1")%string)
    (ValidationError "unsupported strategy kernel schema");;
  require_systems_text (sk_diagnosis self) "strategy diagnosis";;
  require_systems_text (sk_guiding_policy self) "strategy guiding_policy";;
  require_systems_text (sk_proximate_objective self) "strategy proximate_objective";;
  raise_if (too_many (sk_tradeoffs self))
    (ValidationError "strategy kernel exceeds the 256-tradeoff limit");;
  normalize_systems_text_tuple (sk_tradeoffs self) "strategy tradeoffs";;
  raise_if (bool_decide (sk_tradeoffs self = []))
    (ValidationError "strategy kernel must state at least one tradeoff");;
  raise_if (too_many (sk_coherent_actions self))
    (ValidationError "strategy kernel exceeds the 256-intent limit");;
  raise_if (bool_decide (sk_coherent_actions self = []))
    (ValidationError "strategy kernel must contain coherent StrategyActionIntent values");;
  raise_if (negb (nodupb (map si_intent_id (sk_coherent_actions self))))
    (ValidationError "strategy coherent action IDs must be unique");;
  Ok self.

Definition StrategyKernel_to_dict (self : StrategyKernel) : dict :=
  [("schema", JStr (sk_schema self));
   ("diagnosis", JStr (sk_diagnosis self));
   ("guiding_policy", JStr (sk_guiding_policy self));
   ("proximate_objective", JStr (sk_proximate_objective self));
   ("tradeoffs", str_list (sk_tradeoffs self));
   ("coherent_actions",
    JList (map (λ i, JDict (StrategyActionIntent_to_dict i)) (sk_coherent_actions self)))].

Definition StrategyKernel_fingerprint (self : StrategyKernel) : string :=
  digest_json (JDict (StrategyKernel_to_dict self)).

Definition StrategyKernel_from_dict (data : dict) : result StrategyKernel :=
  raw_actions ← or_raise (json_mappings (dict_get data "coherent_actions"))
    (ValidationError "strategy coherent_actions must be a list");
  tradeoffs ← systems_text_list data "tradeoffs";
  coherent_actions ← mapM StrategyActionIntent_from_dict raw_actions;
  StrategyKernel_post_init {|
    sk_schema := get_str data "schema" "";
    sk_diagnosis := get_str data "diagnosis" "";
    sk_guiding_policy := get_str data "guiding_policy" "";
    sk_proximate_objective := get_str data "proximate_objective" "";
    sk_tradeoffs := tradeoffs;
    sk_coherent_actions := coherent_actions |}.

(** ** Systems assessment *)

Record SystemsAssessment : Type := mk_SystemsAssessment {
  sa_desired_outcome : string;
  sa_current_behavior : string;
  sa_constraint : string;
  sa_leverage_point : string;
  sa_simplest_intervention : string;
  sa_success_metric : string;
  sa_failure_condition : string;
  sa_low_risk : bool;
  sa_reversible : bool;
  sa_well_understood : bool;
  sa_stocks : list string;
  sa_flows : list string;
  sa_feedback_loops : list string;
  sa_delays : list string;
  sa_unintended_consequences : list string;
  sa_removable_complexity : list string;
  sa_alternatives_considered : list string;
  sa_added_complexity : list ComplexityItem;
  sa_existing_mechanisms_insufficient_because : string;
  sa_reversibility_strategy : string;
  sa_strategy_kernel : option StrategyKernel;
  sa_schema : string;
}.
#[export] Instance SystemsAssessment_eq_dec : EqDecision SystemsAssessment.
Proof. solve_decision. Defined.

(** [if value: _require_systems_text(value, name)]. *)
Definition require_optional_text (value name : string) : result unit :=
  if (value =? "")%string then Ok tt else require_systems_text value name.

Definition SystemsAssessment_post_init (self : SystemsAssessment)
    : result SystemsAssessment :=
  raise_if (negb (sa_schema self =? "master-agent/systems-assessment@1")%string)
    (ValidationError "unsupported systems assessment schema");;
  require_systems_text (sa_desired_outcome self) "systems assessment desired_outcome";;
  require_systems_text (sa_current_behavior self) "systems assessment current_behavior";;
  require_systems_text (sa_constraint self) "systems assessment constraint";;
  require_systems_text (sa_leverage_point self) "systems assessment leverage_point";;
  require_systems_text (sa_simplest_intervention self)
    "systems assessment simplest_intervention";;
  require_systems_text (sa_success_metric self) "systems assessment success_metric";;
  require_systems_text (sa_failure_condition self) "systems assessment failure_condition";;
  normalize_systems_text_tuple (sa_stocks self) "systems assessment stocks";;
  normalize_systems_text_tuple (sa_flows self) "systems assessment flows";;
  normalize_systems_text_tuple (sa_feedback_loops self) "systems assessment feedback_loops";;
  normalize_systems_text_tuple (sa_delays self) "systems assessment delays";;
  normalize_systems_text_tuple (sa_unintended_consequences self)
    "systems assessment unintended_consequences";;
  normalize_systems_text_tuple (sa_removable_complexity self)
    "systems assessment removable_complexity";;
  normalize_systems_text_tuple (sa_alternatives_considered self)
    "systems assessment alternatives_considered";;
  require_optional_text (sa_existing_mechanisms_insufficient_because self)
    "systems assessment existing_mechanisms_insufficient_because";;
  require_optional_text (sa_reversibility_strategy self)
    "systems assessment reversibility_strategy";;
  Ok self.

Definition SystemsAssessment_for_fast_path
    (desired_outcome current_behavior constraint leverage_point
     simplest_intervention success_metric failure_condition : string)
    : result SystemsAssessment :=
  SystemsAssessment_post_init
    (mk_SystemsAssessment desired_outcome current_behavior constraint leverage_point
       simplest_intervention success_metric failure_condition true true true
       [] [] [] [] [] [] [] [] "" "" None "master-agent/systems-assessment@1").

Definition SystemsAssessment_for_static_intervention
    (desired_outcome current_behavior constraint : string)
    (stocks flows feedback_loops delays : list string)
    (leverage_point simplest_intervention success_metric failure_condition : string)
    (unintended_consequences removable_complexity : list string)
    (strategy_kernel : StrategyKernel) (reversible well_understood : bool)
    (alternatives_considered : list string) (added_complexity : list ComplexityItem)
    (existing_mechanisms_insufficient_because reversibility_strategy : string)
    : result SystemsAssessment :=
  SystemsAssessment_post_init
    (mk_SystemsAssessment desired_outcome current_behavior constraint leverage_point
       simplest_intervention success_metric failure_condition
       false reversible well_understood stocks flows feedback_loops delays
       unintended_consequences removable_complexity alternatives_considered
       added_complexity existing_mechanisms_insufficient_because
       reversibility_strategy (Some strategy_kernel) "master-agent/systems-assessment@1").

Definition SystemsAssessment_fast_path_requested (self : SystemsAssessment) : bool :=
  sa_low_risk self && sa_reversible self && sa_well_understood self.

Definition SystemsAssessment_complexity_score (self : SystemsAssessment) : Z :=
  zsum (map ComplexityItem_weight (sa_added_complexity self)).

Definition SystemsAssessment_success_metric_sha256 (self : SystemsAssessment) : string :=
  sha256 (sa_success_metric self).

Definition SystemsAssessment_to_dict (self : SystemsAssessment) : dict :=
  [("schema", JStr (sa_schema self));
   ("desired_outcome", JStr (sa_desired_outcome self));
   ("current_behavior", JStr (sa_current_behavior self));
   ("constraint", JStr (sa_constraint self));
   ("stocks", str_list (sa_stocks self));
   ("flows", str_list (sa_flows self));
   ("feedback_loops", str_list (sa_feedback_loops self));
   ("delays", str_list (sa_delays self));
   ("leverage_point", JStr (sa_leverage_point self));
   ("simplest_intervention", JStr (sa_simplest_intervention self));
   ("success_metric", JStr (sa_success_metric self));
   ("failure_condition", JStr (sa_failure_condition self));
   ("unintended_consequences", str_list (sa_unintended_consequences self));
   ("removable_complexity", str_list (sa_removable_complexity self));
   ("alternatives_considered", str_list (sa_alternatives_considered self));
   ("added_complexity",
    JList (map (λ i, JDict (ComplexityItem_to_dict i)) (sa_added_complexity self)));
   ("existing_mechanisms_insufficient_because",
    JStr (sa_existing_mechanisms_insufficient_because self));
   ("reversibility_strategy", JStr (sa_reversibility_strategy self));
   ("low_risk", JBool (sa_low_risk self));
   ("reversible", JBool (sa_reversible self));
   ("well_understood", JBool (sa_well_understood self));
   ("complexity_score", JInt (SystemsAssessment_complexity_score self))]
  ++ match sa_strategy_kernel self with
     | Some k => [("strategy_kernel", JDict (StrategyKernel_to_dict k))]
     | None => []
     end.

Definition SystemsAssessment_fingerprint (self : SystemsAssessment) : string :=
  digest_json (JDict (SystemsAssessment_to_dict self)).

(** [data.get("complexity_score") != assessment.complexity_score]: a JSON
    boolean equals the integer it stands for, and so does a float. *)
Definition json_equals_int (v : json) (z : Z) : bool :=
  match v with
  | JInt x => x =? z
  | JBool b => (if b then 1 else 0) =? z
  | JFloat r => (r =? pretty z +:+ ".0")%string
  | _ => false
  end.

Definition SystemsAssessment_from_dict (data : dict) : result SystemsAssessment :=
  raw_complexity ← or_raise (json_mappings (dict_get_or data "added_complexity" (JList [])))
    (ValidationError "systems assessment added_complexity must be a list");
  let raw_strategy := dict_get data "strategy_kernel" in
  raise_if (negb (is_none raw_strategy) && negb (is_mapping raw_strategy))
    (ValidationError "systems assessment strategy_kernel must be an object");;
  stocks ← systems_text_list data "stocks";
  flows ← systems_text_list data "flows";
  feedback_loops ← systems_text_list data "feedback_loops";
  delays ← systems_text_list data "delays";
  unintended_consequences ← systems_text_list data "unintended_consequences";
  removable_complexity ← systems_text_list data "removable_complexity";
  alternatives_considered ← systems_text_list data "alternatives_considered";
  added_complexity ← mapM ComplexityItem_from_dict raw_complexity;
  low_risk ← strict_bool (dict_get data "low_risk") "systems assessment low_risk";
  reversible ← strict_bool (dict_get data "reversible") "systems assessment reversible";
  well_understood ←
    strict_bool (dict_get data "well_understood") "systems assessment well_understood";
  strategy_kernel ←
    match raw_strategy with
    | JDict d => k ← StrategyKernel_from_dict d; Ok (Some k)
    | _ => Ok None
    end;
  assessment ← SystemsAssessment_post_init {|
    sa_schema := get_str data "schema" "";
    sa_desired_outcome := get_str data "desired_outcome" "";
    sa_current_behavior := get_str data "current_behavior" "";
    sa_constraint := get_str data "constraint" "";
    sa_stocks := stocks; sa_flows := flows; sa_feedback_loops := feedback_loops;
    sa_delays := delays;
    sa_leverage_point := get_str data "leverage_point" "";
    sa_simplest_intervention := get_str data "simplest_intervention" "";
    sa_success_metric := get_str data "success_metric" "";
    sa_failure_condition := get_str data "failure_condition" "";
    sa_unintended_consequences := unintended_consequences;
    sa_removable_complexity := removable_complexity;
    sa_alternatives_considered := alternatives_considered;
    sa_added_complexity := added_complexity;
    sa_existing_mechanisms_insufficient_because :=
      get_str data "existing_mechanisms_insufficient_because" "";
    sa_reversibility_strategy := get_str data "reversibility_strategy" "";
    sa_low_risk := low_risk; sa_reversible := reversible;
    sa_well_understood := well_understood;
    sa_strategy_kernel := strategy_kernel |};
  raise_if (negb (json_equals_int (dict_get data "complexity_score")
                    (SystemsAssessment_complexity_score assessment)))
    (ValidationError "systems assessment complexity score does not match its items");;
  Ok assessment.

(** ** The dataclass laws *)

#[export] Instance ComplexityItem_dataclass : Dataclass ComplexityItem := {
  to_dict := ComplexityItem_to_dict;
  from_dict := ComplexityItem_from_dict;
  wf x := ComplexityItem_post_init x = Ok x }.

Lemma ComplexityItem_post_init_id x y : ComplexityItem_post_init x = Ok y → y = x.
Proof. unfold ComplexityItem_post_init. intros H. by inv_ok. Qed.

#[export] Instance ComplexityItem_laws : DataclassLaws ComplexityItem.
Proof.
  split; simpl.
  - intros [k d] H. unfold ComplexityItem_from_dict, ComplexityItem_to_dict.
    read_keys. rewrite enum_parse_str. simpl. rewrite H. simpl.
    by rewrite Z.eqb_refl.
  - intros d x H. unfold ComplexityItem_from_dict in H. inv_ok.
    by rewrite <- (ComplexityItem_post_init_id _ _ Hv0) in Hv0.
Qed.

#[export] Instance StrategyActionIntent_dataclass : Dataclass StrategyActionIntent := {
  to_dict := StrategyActionIntent_to_dict;
  from_dict := StrategyActionIntent_from_dict;
  wf x := StrategyActionIntent_post_init x = Ok x }.

Lemma StrategyActionIntent_post_init_id x y :
  StrategyActionIntent_post_init x = Ok y → y = x.
Proof. unfold StrategyActionIntent_post_init. intros H. by inv_ok. Qed.

#[export] Instance StrategyActionIntent_laws : DataclassLaws StrategyActionIntent.
Proof.
  split; simpl.
  - by intros [] H.
  - intros d x H. unfold StrategyActionIntent_from_dict in H.
    by rewrite <- (StrategyActionIntent_post_init_id _ _ H) in H.
Qed.

#[export] Instance StrategyKernel_dataclass : Dataclass StrategyKernel := {
  to_dict := StrategyKernel_to_dict;
  from_dict := StrategyKernel_from_dict;
  wf x := StrategyKernel_post_init x = Ok x ∧ Forall wf (sk_coherent_actions x) }.

Lemma StrategyKernel_post_init_id x y : StrategyKernel_post_init x = Ok y → y = x.
Proof. unfold StrategyKernel_post_init. intros H. by inv_ok. Qed.

#[export] Instance StrategyKernel_laws : DataclassLaws StrategyKernel.
Proof.
  split; simpl.
  - intros [] [H Ha]. unfold StrategyKernel_from_dict, StrategyKernel_to_dict.
    read_back. simpl.
    rewrite_law (mapM_from_to_dict (A := StrategyActionIntent) _ Ha). exact H.
  - intros d x H. unfold StrategyKernel_from_dict in H. inv_ok.
    pose proof (StrategyKernel_post_init_id _ _ H) as ->. split; [done|].
    by use_law (mapM_from_dict_wf (A := StrategyActionIntent)).
Qed.

#[export] Instance SystemsAssessment_dataclass : Dataclass SystemsAssessment := {
  to_dict := SystemsAssessment_to_dict;
  from_dict := SystemsAssessment_from_dict;
  wf x := SystemsAssessment_post_init x = Ok x ∧ Forall wf (sa_added_complexity x)
          ∧ (∀ k, sa_strategy_kernel x = Some k → wf k) }.

Lemma SystemsAssessment_post_init_id x y :
  SystemsAssessment_post_init x = Ok y → y = x.
Proof. unfold SystemsAssessment_post_init. intros H. by inv_ok. Qed.

#[export] Instance SystemsAssessment_laws : DataclassLaws SystemsAssessment.
Proof.
  split; simpl.
  - intros x (H & Hc & Hk). destruct x as [a1 a2 a3 a4 a5 a6 a7 b1 b2 b3 l1 l2 l3 l4 l5 l6 l7
      items e1 e2 kernel sch]. simpl in *.
    assert (dict_get (SystemsAssessment_to_dict (mk_SystemsAssessment a1 a2 a3 a4 a5 a6 a7
      b1 b2 b3 l1 l2 l3 l4 l5 l6 l7 items e1 e2 kernel sch)) "strategy_kernel"
      = match kernel with Some k => JDict (StrategyKernel_to_dict k) | None => JNull end)
      as Hget by (by destruct kernel).
    unfold SystemsAssessment_from_dict. rewrite Hget. unfold SystemsAssessment_to_dict.
    read_back. simpl.
    rewrite_law (mapM_from_to_dict (A := ComplexityItem) _ Hc). simpl.
    destruct kernel as [k|]; simpl;
      [rewrite_law (from_to_dict (A := StrategyKernel) k (Hk _ eq_refl)); simpl|];
      rewrite H; simpl; by rewrite Z.eqb_refl.
  - intros d x H. unfold SystemsAssessment_from_dict in H. inv_ok.
    match goal with H : SystemsAssessment_post_init _ = Ok _ |- _ =>
      pose proof (SystemsAssessment_post_init_id _ _ H) as -> end.
    split_and!; [done|by use_law (mapM_from_dict_wf (A := ComplexityItem))|].
    simpl. intros k ->. destruct (dict_get d "strategy_kernel"); inv_ok; try done.
    by use_law (from_dict_wf (A := StrategyKernel)).
Qed.
