(* ===== verification/ModelsReviews.v ===== *)
(** * ModelsReviews: coherence reviews, gate decisions and outcome records

    The second half of the systems-governance records of
    [src/src/master_agent/models.py], modelled as in [ModelsSystems]:
    [StrategyActionTrace], [StrategyCoherenceReview], [SystemsGateDecision],
    [SystemsOutcomeEvidence] and [SystemsPostExecutionReview]. *)

From S2P Require Import Prelude PyText PyJson PyHash PyTime ResourceLimits ModelsBase.
From S2P Require Import ModelsSystems.
From Stdlib Require Import Ascii.

Open Scope Z_scope.

(** ** Action traces *)

Record StrategyActionTrace : Type := mk_StrategyActionTrace {
  st_action_id : uuid;
  st_intent_id : string;
  st_schema : string;
}.
#[export] Instance StrategyActionTrace_eq_dec : EqDecision StrategyActionTrace.
Proof. solve_decision. Defined.

Definition StrategyActionTrace_post_init (self : StrategyActionTrace)
    : result StrategyActionTrace :=
  raise_if (negb (st_schema self =? "master-agent/strategy-action-trace@1")%string)
    (ValidationError "unsupported strategy action trace schema");;
  raise_if (negb (fullmatch STRATEGY_INTENT_PATTERN (st_intent_id self)))
    (ValidationError "strategy action trace intent_id is invalid");;
  Ok self.

Definition StrategyActionTrace_to_dict (self : StrategyActionTrace) : dict :=
  [("schema", JStr (st_schema self));
   ("action_id", JStr (uuid_str (st_action_id self)));
   ("intent_id", JStr (st_intent_id self))].

Definition StrategyActionTrace_from_dict (data : dict) : result StrategyActionTrace :=
  action_id ← uuid_parse (get_str data "action_id" "");
  StrategyActionTrace_post_init {|
    st_schema := get_str data "schema" "";
    st_action_id := action_id;
    st_intent_id := get_str data "intent_id" "" |}.

(** ** Coherence review *)

Record StrategyCoherenceReview : Type := mk_StrategyCoherenceReview {
  scr_assessment_fingerprint : string;
  scr_strategy_kernel_fingerprint : string;
  scr_diagnosis_addresses_constraint : bool;
  scr_guiding_policy_targets_leverage_point : bool;
  scr_proximate_objective_advances_outcome : bool;
  scr_coherent_actions_support_success_metric : bool;
  scr_tradeoffs_cover_alternatives : bool;
  scr_reason_codes : list string;
  scr_schema : string;
}.
#[export] Instance StrategyCoherenceReview_eq_dec : EqDecision StrategyCoherenceReview.
Proof. solve_decision. Defined.

(** [_STRATEGY_COHERENCE_FINDINGS] with each finding's value. *)
Definition strategy_coherence_findings (self : StrategyCoherenceReview)
    : list (string * bool) :=
  [("diagnosis_addresses_constraint", scr_diagnosis_addresses_constraint self);
   ("guiding_policy_targets_leverage_point", scr_guiding_policy_targets_leverage_point self);
   ("proximate_objective_advances_outcome", scr_proximate_objective_advances_outcome self);
   ("coherent_actions_support_success_metric",
    scr_coherent_actions_support_success_metric self);
   ("tradeoffs_cover_alternatives", scr_tradeoffs_cover_alternatives self)].

(** The positive findings no reason code repeats, sorted. *)
Definition missing_reason_codes (self : StrategyCoherenceReview) : list string :=
  sort_by str_le
    (map fst (List.filter (λ f : string * bool,
       f.2 && negb (bool_decide (f.1 ∈ scr_reason_codes self)))
       (strategy_coherence_findings self))).

Definition StrategyCoherenceReview_post_init (self : StrategyCoherenceReview)
    : result StrategyCoherenceReview :=
  raise_if (negb (scr_schema self =? "master-agent/strategy-coherence-review@1")%string)
    (ValidationError "unsupported strategy coherence review schema");;
  raise_if (negb (is_sha256_hex (scr_assessment_fingerprint self)))
    (ValidationError "strategy coherence assessment_fingerprint must be a SHA-256 digest");;
  raise_if (negb (is_sha256_hex (scr_strategy_kernel_fingerprint self)))
    (ValidationError
       "strategy coherence strategy_kernel_fingerprint must be a SHA-256 digest");;
  raise_if (too_many (scr_reason_codes self))
    (ValidationError "strategy coherence exceeds the 256-reason limit");;
  raise_if (negb (forallb (fullmatch STRATEGY_INTENT_PATTERN) (scr_reason_codes self)))
    (ValidationError "strategy coherence reason codes are invalid");;
  raise_if (negb (nodupb (scr_reason_codes self)))
    (ValidationError "strategy coherence reason codes must be unique");;
  raise_if (negb (bool_decide (missing_reason_codes self = [])))
    (ValidationError ("positive strategy coherence findings require matching reason codes: "
       +:+ str_join ", " (missing_reason_codes self)));;
  Ok self.

Definition StrategyCoherenceReview_for_review (assessment : SystemsAssessment)
    (diagnosis_addresses_constraint guiding_policy_targets_leverage_point
     proximate_objective_advances_outcome coherent_actions_support_success_metric
     tradeoffs_cover_alternatives : bool) (reason_codes : list string)
    : result StrategyCoherenceReview :=
  kernel ← or_raise (sa_strategy_kernel assessment)
    (ValidationError "strategy coherence review requires a strategy kernel");
  StrategyCoherenceReview_post_init
    (mk_StrategyCoherenceReview (SystemsAssessment_fingerprint assessment)
       (StrategyKernel_fingerprint kernel) diagnosis_addresses_constraint
       guiding_policy_targets_leverage_point proximate_objective_advances_outcome
       coherent_actions_support_success_metric tradeoffs_cover_alternatives
       reason_codes "master-agent/strategy-coherence-review@1").

Definition StrategyCoherenceReview_for_static_intervention
    (assessment : SystemsAssessment) : result StrategyCoherenceReview :=
  StrategyCoherenceReview_for_review assessment true true true true true
    ["diagnosis_addresses_constraint"; "guiding_policy_targets_leverage_point";
     "proximate_objective_advances_outcome"; "coherent_actions_support_success_metric";
     "tradeoffs_cover_alternatives"; "static_intervention"].

Definition StrategyCoherenceReview_all_findings_confirmed
    (self : StrategyCoherenceReview) : bool :=
  forallb snd (strategy_coherence_findings self).

Definition StrategyCoherenceReview_to_dict (self : StrategyCoherenceReview) : dict :=
  [("schema", JStr (scr_schema self));
   ("assessment_fingerprint", JStr (scr_assessment_fingerprint self));
   ("strategy_kernel_fingerprint", JStr (scr_strategy_kernel_fingerprint self))]
  ++ map (λ f : string * bool, (f.1, JBool f.2)) (strategy_coherence_findings self)
  ++ [("reason_codes", str_list (scr_reason_codes self))].

Definition StrategyCoherenceReview_fingerprint (self : StrategyCoherenceReview) : string :=
  digest_json (JDict (StrategyCoherenceReview_to_dict self)).

Definition StrategyCoherenceReview_from_dict (data : dict)
    : result StrategyCoherenceReview :=
  f1 ← strict_bool (dict_get data "diagnosis_addresses_constraint")
    "strategy coherence diagnosis_addresses_constraint";
  f2 ← strict_bool (dict_get data "guiding_policy_targets_leverage_point")
    "strategy coherence guiding_policy_targets_leverage_point";
  f3 ← strict_bool (dict_get data "proximate_objective_advances_outcome")
    "strategy coherence proximate_objective_advances_outcome";
  f4 ← strict_bool (dict_get data "coherent_actions_support_success_metric")
    "strategy coherence coherent_actions_support_success_metric";
  f5 ← strict_bool (dict_get data "tradeoffs_cover_alternatives")
    "strategy coherence tradeoffs_cover_alternatives";
  codes ← systems_text_list data "reason_codes";
  StrategyCoherenceReview_post_init
    (mk_StrategyCoherenceReview (get_str data "assessment_fingerprint" "")
       (get_str data "strategy_kernel_fingerprint" "") f1 f2 f3 f4 f5 codes
       (get_str data "schema" "")).

(** ** Gate decision *)

Record SystemsGateDecision : Type := mk_SystemsGateDecision {
  sd_route : SystemsGateRoute;
  sd_permitted : bool;
  sd_reasons : list string;
  sd_complexity_score : Z;
  sd_assessment_fingerprint : string;
  sd_requires_human_review : bool;
  sd_strategy_coherence_review_fingerprint : option string;
  sd_schema : string;
}.
#[export] Instance SystemsGateDecision_eq_dec : EqDecision SystemsGateDecision.
Proof. solve_decision. Defined.

(** [x is not None and not p(x)]. *)
Definition some_fails {A} (p : A → bool) (o : option A) : bool :=
  match o with Some a => negb (p a) | None => false end.

Definition SystemsGateDecision_post_init (self : SystemsGateDecision)
    : result SystemsGateDecision :=
  raise_if (negb (sd_schema self =? "master-agent/systems-gate-decision@1")%string)
    (ValidationError "unsupported systems gate decision schema");;
  normalize_systems_text_tuple (sd_reasons self) "systems gate reasons";;
  raise_if (bool_decide (sd_reasons self = []))
    (ValidationError "systems gate decision must include a reason");;
  raise_if (sd_complexity_score self <? 0)
    (ValidationError "systems gate complexity score cannot be negative");;
  raise_if (negb (is_sha256_hex (sd_assessment_fingerprint self)))
    (ValidationError "systems gate assessment fingerprint must be a SHA-256 digest");;
  raise_if (some_fails is_sha256_hex (sd_strategy_coherence_review_fingerprint self))
    (ValidationError
       "systems gate strategy coherence fingerprint must be a SHA-256 digest");;
  Ok self.

Definition SystemsGateDecision_to_dict (self : SystemsGateDecision) : dict :=
  [("schema", JStr (sd_schema self));
   ("route", JStr (enum_str (sd_route self)));
   ("permitted", JBool (sd_permitted self));
   ("reasons", str_list (sd_reasons self));
   ("complexity_score", JInt (sd_complexity_score self));
   ("assessment_fingerprint", JStr (sd_assessment_fingerprint self));
   ("requires_human_review", JBool (sd_requires_human_review self))]
  ++ match sd_strategy_coherence_review_fingerprint self with
     | Some f => [("strategy_coherence_review_fingerprint", JStr f)]
     | None => []
     end.

Definition SystemsGateDecision_fingerprint (self : SystemsGateDecision) : string :=
  digest_json (JDict (SystemsGateDecision_to_dict self)).

Definition SystemsGateDecision_from_dict (data : dict) : result SystemsGateDecision :=
  route ← enum_parse (get_str data "route" "");
  permitted ← strict_bool (dict_get data "permitted") "systems gate decision permitted";
  reasons ← systems_text_list data "reasons";
  score ← strict_int (dict_get data "complexity_score")
    "systems gate decision complexity_score";
  review ← strict_bool (dict_get_or data "requires_human_review" (JBool false))
    "systems gate decision requires_human_review";
  SystemsGateDecision_post_init
    (mk_SystemsGateDecision route permitted reasons score
       (get_str data "assessment_fingerprint" "") review
       (opt_str data "strategy_coherence_review_fingerprint") (get_str data "schema" "")).

(** ** Outcome evidence *)

Record SystemsOutcomeEvidence : Type := mk_SystemsOutcomeEvidence {
  oe_assessment_fingerprint : string;
  oe_decision_fingerprint : string;
  oe_success_metric_sha256 : string;
  oe_metric_status : SystemsMetricStatus;
  oe_unintended_effects_detected : bool;
  oe_observed_complexity_score : option Z;
  oe_removal_candidate_count : Z;
  oe_stop_condition_checked : bool;
  oe_stop_condition_triggered : option bool;
  oe_reason_codes : list string;
  oe_schema : string;
}.
#[export] Instance SystemsOutcomeEvidence_eq_dec : EqDecision SystemsOutcomeEvidence.
Proof. solve_decision. Defined.

(** [not codes or any(re.fullmatch(...) is None for item in codes)]. *)
Definition reason_codes_invalid (codes : list string) : bool :=
  bool_decide (codes = []) || negb (forallb (fullmatch STRATEGY_INTENT_PATTERN) codes).

Definition SystemsOutcomeEvidence_post_init (self : SystemsOutcomeEvidence)
    : result SystemsOutcomeEvidence :=
  raise_if (negb (oe_schema self =? "master-agent/systems-outcome-evidence@1")%string)
    (ValidationError "unsupported systems outcome evidence schema");;
  raise_if (negb (is_sha256_hex (oe_assessment_fingerprint self)))
    (ValidationError
       "systems outcome evidence assessment_fingerprint must be a SHA-256 digest");;
  raise_if (negb (is_sha256_hex (oe_decision_fingerprint self)))
    (ValidationError
       "systems outcome evidence decision_fingerprint must be a SHA-256 digest");;
  raise_if (negb (is_sha256_hex (oe_success_metric_sha256 self)))
    (ValidationError
       "systems outcome evidence success_metric_sha256 must be a SHA-256 digest");;
  raise_if (bool_decide (oe_metric_status self = NOT_OBSERVED))
    (ValidationError "systems outcome evidence must independently observe the metric");;
  raise_if (oe_stop_condition_checked self
            && bool_decide (oe_stop_condition_triggered self = None))
    (ValidationError
       "checked systems outcome evidence requires a stop-condition result");;
  raise_if (negb (oe_stop_condition_checked self)
            && negb (bool_decide (oe_stop_condition_triggered self = None)))
    (ValidationError
       "unchecked systems outcome evidence cannot state a stop result");;
  raise_if (some_fails (Z.leb 0) (oe_observed_complexity_score self))
    (ValidationError
       "systems outcome evidence observed_complexity_score must be non-negative or null");;
  raise_if (oe_removal_candidate_count self <? 0)
    (ValidationError
       "systems outcome evidence removal_candidate_count must be a non-negative integer");;
  raise_if (reason_codes_invalid (oe_reason_codes self))
    (ValidationError "systems outcome evidence reason codes are invalid");;
  Ok self.

Definition SystemsOutcomeEvidence_for_observation (assessment : SystemsAssessment)
    (decision : SystemsGateDecision) (metric_status : SystemsMetricStatus)
    (unintended_effects_detected : bool) (observed_complexity_score : option Z)
    (removal_candidate_count : Z) (stop_condition_checked : bool)
    (stop_condition_triggered : option bool) (reason_codes : list string)
    : result SystemsOutcomeEvidence :=
  SystemsOutcomeEvidence_post_init
    (mk_SystemsOutcomeEvidence (SystemsAssessment_fingerprint assessment)
       (SystemsGateDecision_fingerprint decision)
       (SystemsAssessment_success_metric_sha256 assessment) metric_status
       unintended_effects_detected observed_complexity_score removal_candidate_count
       stop_condition_checked stop_condition_triggered reason_codes
       "master-agent/systems-outcome-evidence@1").

Definition SystemsOutcomeEvidence_to_dict (self : SystemsOutcomeEvidence) : dict :=
  [("schema", JStr (oe_schema self));
   ("assessment_fingerprint", JStr (oe_assessment_fingerprint self));
   ("decision_fingerprint", JStr (oe_decision_fingerprint self));
   ("success_metric_sha256", JStr (oe_success_metric_sha256 self));
   ("metric_status", JStr (enum_str (oe_metric_status self)));
   ("unintended_effects_detected", JBool (oe_unintended_effects_detected self));
   ("observed_complexity_score", opt_json JInt (oe_observed_complexity_score self));
   ("removal_candidate_count", JInt (oe_removal_candidate_count self));
   ("stop_condition_checked", JBool (oe_stop_condition_checked self));
   ("stop_condition_triggered", opt_json JBool (oe_stop_condition_triggered self));
   ("reason_codes", str_list (oe_reason_codes self))].

Definition SystemsOutcomeEvidence_from_dict (data : dict) : result SystemsOutcomeEvidence :=
  status ← enum_parse (get_str data "metric_status" "");
  unintended ← strict_bool (dict_get data "unintended_effects_detected")
    "systems outcome evidence unintended_effects_detected";
  observed ← opt_strict strict_int data "observed_complexity_score"
    "systems outcome evidence observed_complexity_score";
  removal ← strict_int (dict_get data "removal_candidate_count")
    "systems outcome evidence removal_candidate_count";
  checked ← strict_bool (dict_get data "stop_condition_checked")
    "systems outcome evidence stop_condition_checked";
  triggered ← opt_strict strict_bool data "stop_condition_triggered"
    "systems outcome evidence stop_condition_triggered";
  codes ← systems_text_list data "reason_codes";
  SystemsOutcomeEvidence_post_init
    (mk_SystemsOutcomeEvidence (get_str data "assessment_fingerprint" "")
       (get_str data "decision_fingerprint" "") (get_str data "success_metric_sha256" "")
       status unintended observed removal checked triggered codes
       (get_str data "schema" "")).

(** ** Post-execution review *)

Record SystemsPostExecutionReview : Type := mk_SystemsPostExecutionReview {
  pr_assessment_fingerprint : string;
  pr_decision_fingerprint : string;
  pr_success_metric_sha256 : string;
  pr_metric_status : SystemsMetricStatus;
  pr_unintended_effects_detected : bool;
  pr_planned_complexity_score : Z;
  pr_removal_candidate_count : Z;
  pr_stop_condition_checked : bool;
  pr_reassessment_required : bool;
  pr_reason_codes : list string;
  pr_observed_complexity_score : option Z;
  pr_complexity_growth : option Z;
  pr_stop_condition_triggered : option bool;
  pr_schema : string;
}.
#[export] Instance SystemsPostExecutionReview_eq_dec : EqDecision SystemsPostExecutionReview.
Proof. solve_decision. Defined.

Definition review_schema_v1 : string := "master-agent/systems-post-execution-review@1".
Definition review_schema_v2 : string := "master-agent/systems-post-execution-review@2".

Definition SystemsPostExecutionReview_post_init (self : SystemsPostExecutionReview)
    : result SystemsPostExecutionReview :=
  let is_v2 := (pr_schema self =? review_schema_v2)%string in
  raise_if (negb ((pr_schema self =? review_schema_v1)%string || is_v2))
    (ValidationError "unsupported systems post-execution review schema");;
  raise_if (negb (is_sha256_hex (pr_assessment_fingerprint self)))
    (ValidationError "systems review assessment_fingerprint must be a SHA-256 digest");;
  raise_if (negb (is_sha256_hex (pr_decision_fingerprint self)))
    (ValidationError "systems review decision_fingerprint must be a SHA-256 digest");;
  raise_if (negb (is_sha256_hex (pr_success_metric_sha256 self)))
    (ValidationError "systems review success_metric_sha256 must be a SHA-256 digest");;
  raise_if (pr_planned_complexity_score self <? 0)
    (ValidationError "systems review planned_complexity_score must be a non-negative integer");;
  raise_if (pr_removal_candidate_count self <? 0)
    (ValidationError "systems review removal_candidate_count must be a non-negative integer");;
  raise_if (some_fails (Z.leb 0) (pr_observed_complexity_score self))
    (ValidationError "systems review observed_complexity_score must be non-negative");;
  raise_if (is_v2 && pr_stop_condition_checked self
            && bool_decide (pr_stop_condition_triggered self = None))
    (ValidationError "checked systems review requires a stop-condition result");;
  raise_if (is_v2 && negb (pr_stop_condition_checked self)
            && negb (bool_decide (pr_stop_condition_triggered self = None)))
    (ValidationError "unchecked systems review cannot state a stop-condition result");;
  raise_if (reason_codes_invalid (pr_reason_codes self))
    (ValidationError "systems review reason codes are invalid");;
  Ok self.

Definition SystemsPostExecutionReview_to_dict (self : SystemsPostExecutionReview) : dict :=
  [("schema", JStr (pr_schema self));
   ("assessment_fingerprint", JStr (pr_assessment_fingerprint self));
   ("decision_fingerprint", JStr (pr_decision_fingerprint self));
   ("success_metric_sha256", JStr (pr_success_metric_sha256 self));
   ("metric_status", JStr (enum_str (pr_metric_status self)));
   ("unintended_effects_detected", JBool (pr_unintended_effects_detected self));
   ("planned_complexity_score", JInt (pr_planned_complexity_score self));
   ("removal_candidate_count", JInt (pr_removal_candidate_count self));
   ("stop_condition_checked", JBool (pr_stop_condition_checked self));
   ("reassessment_required", JBool (pr_reassessment_required self));
   ("reason_codes", str_list (pr_reason_codes self))]
  ++ (if (pr_schema self =? review_schema_v2)%string then
        [("observed_complexity_score", opt_json JInt (pr_observed_complexity_score self));
         ("complexity_growth", opt_json JInt (pr_complexity_growth self));
         ("stop_condition_triggered", opt_json JBool (pr_stop_condition_triggered self))]
      else []).

Definition SystemsPostExecutionReview_from_dict (data : dict)
    : result SystemsPostExecutionReview :=
  status ← enum_parse (get_str data "metric_status" "");
  unintended ← strict_bool (dict_get data "unintended_effects_detected")
    "systems review unintended_effects_detected";
  planned ← strict_int (dict_get data "planned_complexity_score")
    "systems review planned_complexity_score";
  removal ← strict_int (dict_get data "removal_candidate_count")
    "systems review removal_candidate_count";
  checked ← strict_bool (dict_get data "stop_condition_checked")
    "systems review stop_condition_checked";
  reassess ← strict_bool (dict_get data "reassessment_required")
    "systems review reassessment_required";
  codes ← systems_text_list data "reason_codes";
  observed ← opt_strict strict_int data "observed_complexity_score"
    "systems review observed_complexity_score";
  growth ← opt_strict strict_int data "complexity_growth" "systems review complexity_growth";
  triggered ← opt_strict strict_bool data "stop_condition_triggered"
    "systems review stop_condition_triggered";
  SystemsPostExecutionReview_post_init
    (mk_SystemsPostExecutionReview (get_str data "assessment_fingerprint" "")
       (get_str data "decision_fingerprint" "") (get_str data "success_metric_sha256" "")
       status unintended planned removal checked reassess codes observed growth triggered
       (get_str data "schema" "")).

(** ** The dataclass laws *)

#[export] Instance StrategyActionTrace_dataclass : Dataclass StrategyActionTrace := {
  to_dict := StrategyActionTrace_to_dict;
  from_dict := StrategyActionTrace_from_dict;
  wf x := StrategyActionTrace_post_init x = Ok x ∧ uuid_valid (st_action_id x) = true }.

Lemma StrategyActionTrace_post_init_id x y :
  StrategyActionTrace_post_init x = Ok y → y = x.
Proof. unfold StrategyActionTrace_post_init. intros H. by inv_ok. Qed.

#[export] Instance StrategyActionTrace_laws : DataclassLaws StrategyActionTrace.
Proof.
  split; simpl.
  - intros [] [H Hu]. unfold StrategyActionTrace_from_dict, StrategyActionTrace_to_dict.
    read_keys. simpl in *. rewrite uuid_parse_str by done. exact H.
  - intros d x H. unfold StrategyActionTrace_from_dict in H. inv_ok.
    pose proof (StrategyActionTrace_post_init_id _ _ H) as ->. split; [done|].
    by eapply uuid_parse_valid.
Qed.

#[export] Instance StrategyCoherenceReview_dataclass
    : Dataclass StrategyCoherenceReview := {
  to_dict := StrategyCoherenceReview_to_dict;
  from_dict := StrategyCoherenceReview_from_dict;
  wf x := StrategyCoherenceReview_post_init x = Ok x }.

Lemma StrategyCoherenceReview_post_init_id x y :
  StrategyCoherenceReview_post_init x = Ok y → y = x.
Proof. unfold StrategyCoherenceReview_post_init. intros H. by inv_ok. Qed.

#[export] Instance StrategyCoherenceReview_laws : DataclassLaws StrategyCoherenceReview.
Proof.
  split; simpl.
  - intros [] H. unfold StrategyCoherenceReview_from_dict, StrategyCoherenceReview_to_dict,
      strategy_coherence_findings. cbn [map fst snd]. read_back. exact H.
  - intros d x H. unfold StrategyCoherenceReview_from_dict in H. inv_ok.
    by pose proof (StrategyCoherenceReview_post_init_id _ _ H) as ->.
Qed.

#[export] Instance SystemsGateDecision_dataclass : Dataclass SystemsGateDecision := {
  to_dict := SystemsGateDecision_to_dict;
  from_dict := SystemsGateDecision_from_dict;
  wf x := SystemsGateDecision_post_init x = Ok x }.

Lemma SystemsGateDecision_post_init_id x y :
  SystemsGateDecision_post_init x = Ok y → y = x.
Proof. unfold SystemsGateDecision_post_init. intros H. by inv_ok. Qed.

#[export] Instance SystemsGateDecision_laws : DataclassLaws SystemsGateDecision.
Proof.
  split; simpl.
  - intros [? ? ? ? ? ? [f|] ?] H;
      unfold SystemsGateDecision_from_dict, SystemsGateDecision_to_dict; cbn [sd_route
        sd_strategy_coherence_review_fingerprint]; read_back; exact H.
  - intros d x H. unfold SystemsGateDecision_from_dict in H. inv_ok.
    by pose proof (SystemsGateDecision_post_init_id _ _ H) as ->.
Qed.

#[export] Instance SystemsOutcomeEvidence_dataclass : Dataclass SystemsOutcomeEvidence := {
  to_dict := SystemsOutcomeEvidence_to_dict;
  from_dict := SystemsOutcomeEvidence_from_dict;
  wf x := SystemsOutcomeEvidence_post_init x = Ok x }.

Lemma SystemsOutcomeEvidence_post_init_id x y :
  SystemsOutcomeEvidence_post_init x = Ok y → y = x.
Proof. unfold SystemsOutcomeEvidence_post_init. intros H. by inv_ok. Qed.

#[export] Instance SystemsOutcomeEvidence_laws : DataclassLaws SystemsOutcomeEvidence.
Proof.
  split; simpl.
  - intros [? ? ? ? ? [o|] ? ? [t|] ? ?] H;
      unfold SystemsOutcomeEvidence_from_dict, SystemsOutcomeEvidence_to_dict;
      read_back; exact H.
  - intros d x H. unfold SystemsOutcomeEvidence_from_dict in H. inv_ok.
    by pose proof (SystemsOutcomeEvidence_post_init_id _ _ H) as ->.
Qed.

(** A review's version-2 fields are serialised only under the version-2
    schema, so a version-1 review must not carry them. *)
#[export] Instance SystemsPostExecutionReview_dataclass
    : Dataclass SystemsPostExecutionReview := {
  to_dict := SystemsPostExecutionReview_to_dict;
  from_dict := SystemsPostExecutionReview_from_dict;
  wf x := SystemsPostExecutionReview_post_init x = Ok x }.

Lemma SystemsPostExecutionReview_post_init_id x y :
  SystemsPostExecutionReview_post_init x = Ok y → y = x.
Proof. unfold SystemsPostExecutionReview_post_init. intros H. by inv_ok. Qed.

Definition review_v1_fields_absent (self : SystemsPostExecutionReview) : Prop :=
  pr_schema self = review_schema_v2 ∨
  (pr_observed_complexity_score self = None ∧ pr_complexity_growth self = None
   ∧ pr_stop_condition_triggered self = None).

Lemma SystemsPostExecutionReview_from_to_dict x :
  wf x → review_v1_fields_absent x → from_dict (to_dict x) = Ok x.
Proof.
  simpl. intros H Hv.
  unfold SystemsPostExecutionReview_from_dict, SystemsPostExecutionReview_to_dict.
  destruct x as [? ? ? ? ? ? ? ? ? ? o g t sch]. unfold review_v1_fields_absent in Hv.
  cbn [pr_schema pr_observed_complexity_score pr_complexity_growth
       pr_stop_condition_triggered] in *.
  destruct (String.eqb_spec sch review_schema_v2) as [->|Hne].
  - destruct o, g, t; read_back; exact H.
  - destruct Hv as [?|(-> & -> & ->)]; [done|]. read_back; exact H.
Qed.
