(* ===== verification/ModelsAction.v ===== *)
(** * ModelsAction: [ResourceRef] and [AgentAction] of [src/src/master_agent/models.py]

    The proposed operation a plan is made of: its checks, serialisation and
    effect fingerprint.  [sys_float] and friends do not occur: parameters are
    JSON values ([PyJson]); [freeze_json_mapping] can only reject a non-finite
    number, after [measure_json_resources] has bounded the mapping. *)

From S2P Require Import Prelude PyText PyJson PyHash PyTime ResourceLimits ModelsBase.
From Stdlib Require Import Ascii.

Open Scope Z_scope.

(** ** Resource references *)

Record ResourceRef : Type := mk_ResourceRef {
  rr_system : string;
  rr_resource_type : string;
  rr_resource_id : string;
  rr_expected_version : option string;
}.
#[export] Instance ResourceRef_eq_dec : EqDecision ResourceRef.
Proof. solve_decision. Defined.

Definition check_ref_text (name value : string) : result unit :=
  raise_if (is_blank value) (ValidationError (name +:+ " must not be empty"));;
  validate_bounded_string value name;;
  reject_control_characters value name.

Definition ResourceRef_post_init (self : ResourceRef) : result ResourceRef :=
  check_ref_text "system" (rr_system self);;
  check_ref_text "resource_type" (rr_resource_type self);;
  check_ref_text "resource_id" (rr_resource_id self);;
  match rr_expected_version self with
  | Some v => validate_bounded_string v "expected_version"
  | None => Ok tt
  end;;
  Ok self.

Definition ResourceRef_uri (self : ResourceRef) : string :=
  rr_system self +:+ ":" +:+ rr_resource_id self.

(** The mapping [AgentAction.to_dict] writes under "target". *)
Definition ResourceRef_to_dict (self : ResourceRef) : dict :=
  [("system", JStr (rr_system self));
   ("resource_type", JStr (rr_resource_type self));
   ("resource_id", JStr (rr_resource_id self));
   ("expected_version", opt_json JStr (rr_expected_version self))].

(** The target [AgentAction.from_dict] reads back. *)
Definition ResourceRef_from_dict (data : dict) : result ResourceRef :=
  system ← item_str data "system";
  resource_type ← item_str data "resource_type";
  resource_id ← item_str data "resource_id";
  ResourceRef_post_init
    (mk_ResourceRef system resource_type resource_id (opt_str data "expected_version")).

(** ** Actions *)

Record AgentAction : Type := mk_AgentAction {
  aa_capability : string;
  aa_target : ResourceRef;
  aa_parameters : dict;
  aa_risk : RiskLevel;
  aa_authority_source : AuthoritySource;
  aa_requires_approval : bool;
  aa_idempotency_key : string;
  aa_justification : string;
  aa_data_classification : DataClassification;
  aa_dependencies : list uuid;
  aa_action_id : uuid;
}.

(** ["." not in capability or not capability.strip()]. *)
Definition capability_malformed (capability : string) : bool :=
  negb (str_in "." capability) || is_blank capability.

Definition AgentAction_post_init (self : AgentAction) : result AgentAction :=
  raise_if (capability_malformed (aa_capability self))
    (ValidationError "capability must be a non-empty domain-specific dotted name");;
  reject_control_characters (aa_capability self) "capability";;
  validate_bounded_string (aa_capability self) "capability";;
  raise_if (is_blank (aa_idempotency_key self))
    (ValidationError "idempotency_key must not be empty");;
  raise_if (is_blank (aa_justification self))
    (ValidationError "justification must not be empty");;
  validate_bounded_string (aa_idempotency_key self) "idempotency_key";;
  validate_bounded_string (aa_justification self) "justification";;
  raise_if (MAX_ACTION_DEPENDENCIES <? Z.of_nat (length (aa_dependencies self)))
    (ValidationError ("action dependencies exceed the "
       +:+ pretty MAX_ACTION_DEPENDENCIES +:+ "-item limit"));;
  raise_if (bool_decide (aa_action_id self ∈ aa_dependencies self))
    (ValidationError "an action cannot depend on itself");;
  measure_json_resources (JDict (aa_parameters self)) "action parameters"
    MAX_ACTION_PARAMETER_BYTES;;
  freeze_json_mapping (aa_parameters self);;
  Ok self.

Definition AgentAction_to_dict (self : AgentAction) : dict :=
  [("action_id", JStr (uuid_str (aa_action_id self)));
   ("capability", JStr (aa_capability self));
   ("target", JDict (ResourceRef_to_dict (aa_target self)));
   ("parameters", JDict (aa_parameters self));
   ("risk", JStr (enum_str (aa_risk self)));
   ("data_classification", JStr (enum_str (aa_data_classification self)));
   ("authority_source", JStr (enum_str (aa_authority_source self)));
   ("requires_approval", JBool (aa_requires_approval self));
   ("idempotency_key", JStr (aa_idempotency_key self));
   ("justification", JStr (aa_justification self));
   ("dependencies", str_list (map uuid_str (aa_dependencies self)))].

Definition effect_payload (self : AgentAction) : dict :=
  [("capability", JStr (aa_capability self));
   ("target", JDict (ResourceRef_to_dict (aa_target self)));
   ("parameters", JDict (aa_parameters self));
   ("risk", JStr (enum_str (aa_risk self)));
   ("data_classification", JStr (enum_str (aa_data_classification self)));
   ("authority_source", JStr (enum_str (aa_authority_source self)));
   ("requires_approval", JBool (aa_requires_approval self))].

(** The frozen parameters are finite, so [allow_nan=False] never fires. *)
Definition AgentAction_effect_fingerprint (self : AgentAction) : string :=
  digest_json (JDict (effect_payload self)).

Definition AgentAction_from_dict (data : dict) : result AgentAction :=
  target_data ← expect_mapping data "target";
  dependencies ←
    match dict_get_or data "dependencies" (JList []) with
    | JList l => Ok l
    | _ => Err (ValidationError "dependencies must be a list")
    end;
  risk_text ← item_str data "risk";
  risk ← enum_parse risk_text;
  raise_if (bool_decide (risk = READ_ONLY) && negb (dict_mem data "data_classification"))
    (ValidationError "serialized read actions require an explicit data_classification");;
  capability ← item_str data "capability";
  target ← ResourceRef_from_dict target_data;
  parameters ← expect_mapping data "parameters";
  classification ← enum_parse (get_str data "data_classification" "internal");
  authority_text ← item_str data "authority_source";
  authority_source ← enum_parse authority_text;
  requires_approval ← strict_bool (dict_get data "requires_approval") "requires_approval";
  idempotency_key ← item_str data "idempotency_key";
  justification ← item_str data "justification";
  dependency_ids ← mapM (λ v, uuid_parse (py_str v)) dependencies;
  id_text ← item_str data "action_id";
  action_id ← uuid_parse id_text;
  AgentAction_post_init
    (mk_AgentAction capability target parameters risk authority_source requires_approval
       idempotency_key justification classification dependency_ids action_id).

(** ** The dataclass laws *)

#[export] Instance ResourceRef_dataclass : Dataclass ResourceRef := {
  to_dict := ResourceRef_to_dict;
  from_dict := ResourceRef_from_dict;
  wf x := ResourceRef_post_init x = Ok x }.

Lemma ResourceRef_post_init_id x y : ResourceRef_post_init x = Ok y → y = x.
Proof. unfold ResourceRef_post_init. intros H. by inv_ok. Qed.

#[export] Instance ResourceRef_laws : DataclassLaws ResourceRef.
Proof.
  split; simpl.
  - intros [? ? ? [v|]] H; unfold ResourceRef_from_dict, ResourceRef_to_dict;
      read_back; exact H.
  - intros d x H. unfold ResourceRef_from_dict in H. inv_ok.
    by pose proof (ResourceRef_post_init_id _ _ H) as ->.
Qed.

#[export] Instance AgentAction_dataclass : Dataclass AgentAction := {
  to_dict := AgentAction_to_dict;
  from_dict := AgentAction_from_dict;
  wf x := AgentAction_post_init x = Ok x ∧ wf (aa_target x)
          ∧ uuid_valid (aa_action_id x) = true
          ∧ Forall (λ d, uuid_valid d = true) (aa_dependencies x) }.

Lemma AgentAction_post_init_id x y : AgentAction_post_init x = Ok y → y = x.
Proof. unfold AgentAction_post_init. intros H. by inv_ok. Qed.

Lemma uuids_from_text l :
  Forall (λ d, uuid_valid d = true) l →
  mapM (λ v, uuid_parse (py_str v)) (map JStr (map uuid_str l)) = Ok l.
Proof.
  intros Hl. apply mapM_Ok. rewrite map_map. apply Forall2_fmap_l, Forall_Forall2_diag.
  eapply Forall_impl; [exact Hl|]. intros d. apply uuid_parse_str.
Qed.

Lemma uuids_from_text_valid vs l :
  mapM (λ v, uuid_parse (py_str v)) vs = Ok l → Forall (λ d, uuid_valid d = true) l.
Proof.
  intros H%mapM_Ok. induction H; constructor; eauto using uuid_parse_valid.
Qed.

#[export] Instance AgentAction_laws : DataclassLaws AgentAction.
Proof.
  split; simpl.
  - intros x (H & Ht & Hid & Hd). destruct x as [cap tgt ps risk auth req key just cls deps aid].
    simpl in *. unfold AgentAction_from_dict, AgentAction_to_dict.
    unfold str_list, dict_mem. read_back. mstep.
    simpl. rewrite ?enum_parse_str. simpl. rewrite andb_false_r. simpl.
    rewrite_law (from_to_dict tgt Ht). simpl. rewrite ?enum_parse_str. simpl.
    rewrite ?enum_parse_str. simpl.
    rewrite uuids_from_text by done. simpl. rewrite uuid_parse_str by done. exact H.
  - intros d x H. unfold AgentAction_from_dict in H. inv_ok.
    pose proof (AgentAction_post_init_id _ _ H) as ->. split; [done|]. simpl. split_and!.
    + by use_law (from_dict_wf (A := ResourceRef)).
    + by eapply uuid_parse_valid.
    + by eapply uuids_from_text_valid.
Qed.
