(* ===== verification/ModelsBindings.v ===== *)
(** * ModelsBindings: the connector, configuration, path, plugin and capsule
    bindings of [src/src/master_agent/models.py]

    The secret-free identities an approved plan is bound to.  Paths are POSIX
    paths and URLs are split by [urlsplit] ([PyStd]).  A field the class
    normalises ([credential_scopes], a sorted set) is the value [X_post_init]
    returns. *)

From S2P Require Import Prelude PyText PyJson PyHash PyTime PyStd ResourceLimits.
From S2P Require Import ModelsBase PlatformIdentity.
From Stdlib Require Import Ascii.

Open Scope Z_scope.

(** ** Connector *)

Record ConnectorExecutionBinding : Type := mk_ConnectorExecutionBinding {
  ceb_system : string;
  ceb_deployment : string;
  ceb_config_identity_sha256 : string;
  ceb_resolved_base_url : string;
  ceb_resolved_origin : string;
  ceb_implementation : string;
  ceb_authentication_mode : string;
  ceb_credential_scopes : list string;
  ceb_credential_identity : option string;
  ceb_ca_bundle_path : option string;
  ceb_ca_bundle_sha256 : option string;
  ceb_network_profile_name : string;
  ceb_network_profile_sha256 : option string;
  ceb_proxy_origin : option string;
}.
#[export] Instance ConnectorExecutionBinding_eq_dec : EqDecision ConnectorExecutionBinding.
Proof. solve_decision. Defined.

Definition is_some_blank (o : option string) : bool :=
  match o with Some s => is_blank s | None => false end.

(** [if o is not None: f(o)]. *)
Definition when_some {A} (o : option A) (f : A → result unit) : result unit :=
  match o with Some a => f a | None => Ok tt end.

Definition proxy_origin_malformed (u : SplitResult) : bool :=
  negb (url_scheme u =? "http")%string || (url_hostname u =? "")%string
  || url_has_userinfo u || negb ((url_path u =? "") || (url_path u =? "/"))%string
  || negb (url_query u =? "")%string || negb (url_fragment u =? "")%string.

(** [tuple(sorted(set(xs)))]. *)
Definition sorted_set (l : list string) : list string := sort_by str_le (remove_dups l).

Definition with_scopes (self : ConnectorExecutionBinding) (scopes : list string)
    : ConnectorExecutionBinding :=
  mk_ConnectorExecutionBinding (ceb_system self) (ceb_deployment self)
    (ceb_config_identity_sha256 self) (ceb_resolved_base_url self)
    (ceb_resolved_origin self) (ceb_implementation self) (ceb_authentication_mode self)
    scopes (ceb_credential_identity self) (ceb_ca_bundle_path self)
    (ceb_ca_bundle_sha256 self) (ceb_network_profile_name self)
    (ceb_network_profile_sha256 self) (ceb_proxy_origin self).

Definition ConnectorExecutionBinding_post_init (self : ConnectorExecutionBinding)
    : result ConnectorExecutionBinding :=
  for_each (λ nv : string * string,
      raise_if (is_blank nv.2)
        (ValidationError ("connector execution binding " +:+ nv.1 +:+ " is empty")))
    [("system", ceb_system self); ("deployment", ceb_deployment self);
     ("implementation", ceb_implementation self);
     ("resolved_base_url", ceb_resolved_base_url self);
     ("resolved_origin", ceb_resolved_origin self);
     ("authentication_mode", ceb_authentication_mode self)];;
  raise_if (negb (ceb_implementation self =? "native")%string)
    (ValidationError "connector execution binding implementation is unsupported");;
  validate_sha256 (ceb_config_identity_sha256 self)
    "connector execution binding config_identity_sha256";;
  raise_if (negb (Bool.eqb (is_someb (ceb_ca_bundle_path self))
                           (is_someb (ceb_ca_bundle_sha256 self))))
    (ValidationError
       "connector execution binding CA path and digest must be supplied together");;
  raise_if (is_some_blank (ceb_credential_identity self))
    (ValidationError "connector execution binding credential_identity is empty");;
  let scopes := sorted_set (ceb_credential_scopes self) in
  raise_if (existsb is_blank scopes)
    (ValidationError "connector execution binding credential scope is empty");;
  raise_if ((128 <? Z.of_nat (length scopes)) || existsb (λ s, 256 <? len s) scopes)
    (ValidationError "connector execution binding credential scopes are too large");;
  for_each (λ s, reject_control_characters s
                   "connector execution binding credential scope") scopes;;
  raise_if (is_some_blank (ceb_ca_bundle_path self))
    (ValidationError "connector execution binding CA path is empty");;
  when_some (ceb_ca_bundle_sha256 self) (λ d,
    validate_sha256 d "connector execution binding ca_bundle_sha256");;
  raise_if (is_blank (ceb_network_profile_name self))
    (ValidationError "connector execution binding network profile name is empty");;
  when_some (ceb_network_profile_sha256 self) (λ d,
    validate_sha256 d "connector execution binding network_profile_sha256");;
  when_some (ceb_proxy_origin self) (λ origin,
    parsed ← urlsplit origin;
    raise_if (proxy_origin_malformed parsed)
      (ValidationError "connector execution binding proxy origin is invalid"));;
  Ok (with_scopes self scopes).

Definition ConnectorExecutionBinding_to_dict (self : ConnectorExecutionBinding) : dict :=
  [("system", JStr (ceb_system self));
   ("deployment", JStr (ceb_deployment self));
   ("implementation", JStr (ceb_implementation self));
   ("config_identity_sha256", JStr (ceb_config_identity_sha256 self));
   ("resolved_base_url", JStr (ceb_resolved_base_url self));
   ("resolved_origin", JStr (ceb_resolved_origin self));
   ("authentication_mode", JStr (ceb_authentication_mode self));
   ("ca_bundle_path", opt_json JStr (ceb_ca_bundle_path self));
   ("ca_bundle_sha256", opt_json JStr (ceb_ca_bundle_sha256 self));
   ("network_profile_name", JStr (ceb_network_profile_name self));
   ("network_profile_sha256", opt_json JStr (ceb_network_profile_sha256 self));
   ("proxy_origin", opt_json JStr (ceb_proxy_origin self));
   ("credential_scopes", str_list (ceb_credential_scopes self))]
  ++ match ceb_credential_identity self with
     | Some i => [("credential_identity", JStr i)]
     | None => []
     end.

Definition ConnectorExecutionBinding_from_dict (data : dict)
    : result ConnectorExecutionBinding :=
  raise_if (negb (dict_mem data "implementation"))
    (ValidationError "connector execution binding implementation is required");;
  raw_scopes ← or_raise (json_strings (dict_get_or data "credential_scopes" (JList [])))
    (ValidationError "connector execution binding credential_scopes must be strings");
  system ← item_str data "system";
  deployment ← item_str data "deployment";
  implementation ← item_str data "implementation";
  config ← item_str data "config_identity_sha256";
  base_url ← item_str data "resolved_base_url";
  origin ← item_str data "resolved_origin";
  ConnectorExecutionBinding_post_init {|
    ceb_system := system; ceb_deployment := deployment;
    ceb_implementation := implementation; ceb_config_identity_sha256 := config;
    ceb_resolved_base_url := base_url; ceb_resolved_origin := origin;
    ceb_authentication_mode := get_str data "authentication_mode" "none";
    ceb_credential_scopes := raw_scopes;
    ceb_credential_identity := opt_str data "credential_identity";
    ceb_ca_bundle_path := opt_str data "ca_bundle_path";
    ceb_ca_bundle_sha256 := opt_str data "ca_bundle_sha256";
    ceb_network_profile_name := get_str data "network_profile_name" "direct";
    ceb_network_profile_sha256 := opt_str data "network_profile_sha256";
    ceb_proxy_origin := opt_str data "proxy_origin" |}.

(** ** Configuration snapshot *)

Record ConfigurationExecutionBinding : Type := mk_ConfigurationExecutionBinding {
  cfg_name : string;
  cfg_sha256 : string;
}.
#[export] Instance ConfigurationExecutionBinding_eq_dec
  : EqDecision ConfigurationExecutionBinding.
Proof. solve_decision. Defined.

Definition ConfigurationExecutionBinding_post_init (self : ConfigurationExecutionBinding)
    : result ConfigurationExecutionBinding :=
  raise_if (is_blank (cfg_name self))
    (ValidationError "configuration execution binding name is empty");;
  validate_sha256 (cfg_sha256 self)
    ("configuration binding " +:+ cfg_name self +:+ " sha256");;
  Ok self.

Definition ConfigurationExecutionBinding_to_dict (self : ConfigurationExecutionBinding)
    : dict :=
  [("name", JStr (cfg_name self)); ("sha256", JStr (cfg_sha256 self))].

Definition ConfigurationExecutionBinding_from_dict (data : dict)
    : result ConfigurationExecutionBinding :=
  name ← item_str data "name";
  sha256 ← item_str data "sha256";
  ConfigurationExecutionBinding_post_init (mk_ConfigurationExecutionBinding name sha256).

(** ** Runtime path *)

Record RuntimePathExecutionBinding : Type := mk_RuntimePathExecutionBinding {
  rpb_name : string;
  rpb_path : string;
  rpb_anchor_path : string;
  rpb_device : Z;
  rpb_inode : Z;
  rpb_owner : Z;
  rpb_mode : Z;
  rpb_object_identity : option PlatformObjectIdentity;
}.
#[export] Instance RuntimePathExecutionBinding_eq_dec : EqDecision RuntimePathExecutionBinding.
Proof. solve_decision. Defined.

(** [except ValueError]. *)
Definition on_value_error (message : string) (e : exn) : option exn :=
  match e with PyValueError _ => Some (ValidationError message) | _ => None end.

Definition path_malformed (p : string) : bool := is_blank p || negb (path_is_absolute p).

(** The explicit identity, or the POSIX one the four fields spell. *)
Definition rpb_native (self : RuntimePathExecutionBinding) (message : string)
    : result PlatformObjectIdentity :=
  match rpb_object_identity self with
  | Some identity => Ok identity
  | None =>
      reraise (from_posix DIRECTORY (rpb_device self) (rpb_inode self) (rpb_owner self)
                 (rpb_mode self))
        (on_value_error message)
  end.

Definition RuntimePathExecutionBinding_post_init (self : RuntimePathExecutionBinding)
    : result RuntimePathExecutionBinding :=
  let label := "runtime path execution binding " +:+ rpb_name self in
  raise_if (is_blank (rpb_name self))
    (ValidationError "runtime path execution binding name is empty");;
  raise_if (path_malformed (rpb_path self))
    (ValidationError (label +:+ " must be absolute"));;
  raise_if (path_malformed (rpb_anchor_path self))
    (ValidationError (label +:+ " anchor must be absolute"));;
  raise_if (negb (rpb_anchor_path self =? rpb_path self)%string)
    (ValidationError (label +:+ " must pin its exact path"));;
  identity ← rpb_native self (label +:+ " identity is invalid");
  raise_if (negb (bool_decide (poi_kind identity = DIRECTORY)))
    (ValidationError (label +:+ " must identify a directory"));;
  let legacy := [rpb_device self; rpb_inode self; rpb_owner self; rpb_mode self] in
  let native := [poi_device identity; poi_inode identity; poi_owner identity;
                 poi_mode identity] in
  (if (poi_platform identity =? "posix")%string then
     raise_if (negb (bool_decide (map Some legacy = native)))
       (ValidationError (label +:+ " POSIX identity drifted"))
   else
     raise_if (negb (bool_decide (legacy = [0; 0; 0; 0])))
       (ValidationError (label +:+ " mixes native identities")));;
  Ok self.

Definition RuntimePathExecutionBinding_to_dict (self : RuntimePathExecutionBinding)
    : dict :=
  [("name", JStr (rpb_name self));
   ("path", JStr (rpb_path self));
   ("anchor_path", JStr (rpb_anchor_path self));
   ("device", JInt (rpb_device self));
   ("inode", JInt (rpb_inode self));
   ("owner", JInt (rpb_owner self));
   ("mode", JInt (rpb_mode self))]
  ++ match rpb_object_identity self with
     | Some i => [("object_identity", JDict (PlatformObjectIdentity_to_dict i))]
     | None => []
     end.

Definition RuntimePathExecutionBinding_from_dict (data : dict)
    : result RuntimePathExecutionBinding :=
  identity ← reraise
    (match dict_lookup data "object_identity" with
     | None => Ok None
     | Some (JDict d) => i ← PlatformObjectIdentity_from_dict d; Ok (Some i)
     | Some _ => Err (PyTypeError "runtime path object identity is not an object")
     end)
    (λ _, Some (ValidationError "runtime path object identity is invalid"));
  name ← item_str data "name";
  path ← item_str data "path";
  device ← py_int (dict_get_or data "device" (JInt (-1)));
  inode ← py_int (dict_get_or data "inode" (JInt (-1)));
  owner ← py_int (dict_get_or data "owner" (JInt (-1)));
  mode ← py_int (dict_get_or data "mode" (JInt (-1)));
  RuntimePathExecutionBinding_post_init
    (mk_RuntimePathExecutionBinding name path (get_str data "anchor_path" "") device inode
       owner mode identity).

(** [_identity] and [platform_identity]. *)
Definition platform_identity (self : RuntimePathExecutionBinding)
    : result PlatformObjectIdentity :=
  rpb_native self "runtime path object identity is invalid".

(** ** Plugin *)

Record PluginExecutionBinding : Type := mk_PluginExecutionBinding {
  peb_name : string;
  peb_group : string;
  peb_entry_point : string;
  peb_distribution : string;
  peb_distribution_version : string;
  peb_artifact_sha256 : string;
  peb_identity_sha256 : string;
}.
#[export] Instance PluginExecutionBinding_eq_dec : EqDecision PluginExecutionBinding.
Proof. solve_decision. Defined.

Definition PluginExecutionBinding_post_init (self : PluginExecutionBinding)
    : result PluginExecutionBinding :=
  for_each (λ nv : string * string,
      raise_if (is_blank nv.2)
        (ValidationError ("plugin execution binding " +:+ nv.1 +:+ " is empty")))
    [("name", peb_name self); ("group", peb_group self);
     ("entry_point", peb_entry_point self); ("distribution", peb_distribution self);
     ("distribution_version", peb_distribution_version self)];;
  validate_sha256 (peb_artifact_sha256 self) "plugin execution binding artifact_sha256";;
  validate_sha256 (peb_identity_sha256 self) "plugin execution binding identity_sha256";;
  Ok self.

Definition PluginExecutionBinding_to_dict (self : PluginExecutionBinding) : dict :=
  [("name", JStr (peb_name self));
   ("group", JStr (peb_group self));
   ("entry_point", JStr (peb_entry_point self));
   ("distribution", JStr (peb_distribution self));
   ("distribution_version", JStr (peb_distribution_version self));
   ("artifact_sha256", JStr (peb_artifact_sha256 self));
   ("identity_sha256", JStr (peb_identity_sha256 self))].

Definition PluginExecutionBinding_from_dict (data : dict) : result PluginExecutionBinding :=
  name ← item_str data "name";
  group ← item_str data "group";
  entry_point ← item_str data "entry_point";
  distribution ← item_str data "distribution";
  version ← item_str data "distribution_version";
  artifact ← item_str data "artifact_sha256";
  identity ← item_str data "identity_sha256";
  PluginExecutionBinding_post_init
    (mk_PluginExecutionBinding name group entry_point distribution version artifact
       identity).

(** ** The dataclass laws *)

#[export] Instance ConnectorExecutionBinding_dataclass
    : Dataclass ConnectorExecutionBinding := {
  to_dict := ConnectorExecutionBinding_to_dict;
  from_dict := ConnectorExecutionBinding_from_dict;
  wf x := ConnectorExecutionBinding_post_init x = Ok x }.

Lemma sorted_set_idem l : sorted_set (sorted_set l) = sorted_set l.
Proof.
  unfold sorted_set. rewrite remove_dups_NoDup.
  - apply sort_by_idem, str_le_total.
  - rewrite sort_by_perm. apply NoDup_remove_dups.
Qed.

Lemma ConnectorExecutionBinding_post_init_wf x y :
  ConnectorExecutionBinding_post_init x = Ok y → wf y.
Proof.
  simpl. intros H. pose proof H as Hy. unfold ConnectorExecutionBinding_post_init in Hy.
  inv_ok. destruct x as [? ? ? ? ? ? ? scopes ? ? ? ? ? ?].
  unfold ConnectorExecutionBinding_post_init, with_scopes in *. simpl in *.
  rewrite sorted_set_idem. exact H.
Qed.

#[export] Instance ConnectorExecutionBinding_laws : DataclassLaws ConnectorExecutionBinding.
Proof.
  split; simpl.
  - intros [? ? ? ? ? ? ? ? [ci|] [cp|] [cs|] ? [np|] [po|]] H;
      unfold ConnectorExecutionBinding_from_dict, ConnectorExecutionBinding_to_dict,
        dict_mem; read_back; exact H.
  - intros d x H. unfold ConnectorExecutionBinding_from_dict in H. inv_ok.
    by eapply ConnectorExecutionBinding_post_init_wf.
Qed.

#[export] Instance ConfigurationExecutionBinding_dataclass
    : Dataclass ConfigurationExecutionBinding := {
  to_dict := ConfigurationExecutionBinding_to_dict;
  from_dict := ConfigurationExecutionBinding_from_dict;
  wf x := ConfigurationExecutionBinding_post_init x = Ok x }.

#[export] Instance ConfigurationExecutionBinding_laws
  : DataclassLaws ConfigurationExecutionBinding.
Proof.
  split; simpl; [by intros []|].
  intros d x H. unfold ConfigurationExecutionBinding_from_dict in H. inv_ok.
  pose proof H as H'. unfold ConfigurationExecutionBinding_post_init in H'. by inv_ok.
Qed.

#[export] Instance RuntimePathExecutionBinding_dataclass
    : Dataclass RuntimePathExecutionBinding := {
  to_dict := RuntimePathExecutionBinding_to_dict;
  from_dict := RuntimePathExecutionBinding_from_dict;
  wf x := RuntimePathExecutionBinding_post_init x = Ok x
          ∧ (∀ i, rpb_object_identity x = Some i → wf i) }.

#[export] Instance RuntimePathExecutionBinding_laws
  : DataclassLaws RuntimePathExecutionBinding.
Proof.
  split; simpl.
  - intros [? ? ? ? ? ? ? [i|]] [H Hi]; unfold RuntimePathExecutionBinding_from_dict,
      RuntimePathExecutionBinding_to_dict; read_back; simpl;
      [rewrite_law (from_to_dict i (Hi _ eq_refl))|]; exact H.
  - intros d x H. unfold RuntimePathExecutionBinding_from_dict in H. inv_ok.
    pose proof H as H'. unfold RuntimePathExecutionBinding_post_init in H'. inv_ok.
    split; [done|]. simpl. intros i ->.
    destruct (dict_lookup d "object_identity") as [[]|]; inv_ok; try done.
    by use_law (from_dict_wf (A := PlatformObjectIdentity)).
Qed.

#[export] Instance PluginExecutionBinding_dataclass : Dataclass PluginExecutionBinding := {
  to_dict := PluginExecutionBinding_to_dict;
  from_dict := PluginExecutionBinding_from_dict;
  wf x := PluginExecutionBinding_post_init x = Ok x }.

#[export] Instance PluginExecutionBinding_laws : DataclassLaws PluginExecutionBinding.
Proof.
  split; simpl; [by intros []|].
  intros d x H. unfold PluginExecutionBinding_from_dict in H. inv_ok.
  pose proof H as H'. unfold PluginExecutionBinding_post_init in H'. by inv_ok.
Qed.
