(* ===== verification/ModelsContext.v ===== *)
(** * ModelsContext: capsule, runtime and execution-context bindings of
    [src/src/master_agent/models.py]

    [CapabilityCapsuleExecutionBinding], [RuntimeExecutionBinding] and
    [ExecutionContext], which sort their tuples and require unique names. *)

From S2P Require Import Prelude PyText PyJson PyHash PyTime PyStd ResourceLimits.
From S2P Require Import ModelsBase PlatformIdentity ModelsBindings.
From Stdlib Require Import Ascii.

Open Scope Z_scope.

(** ** Capability capsule *)

Record CapabilityCapsuleExecutionBinding : Type := mk_CapsuleBinding {
  ccb_capability_id : string;
  ccb_version : string;
  ccb_risk : RiskLevel;
  ccb_manifest_sha256 : string;
  ccb_source_sha256 : string;
  ccb_artifact_sha256 : string;
  ccb_dependency_lock_sha256 : string;
  ccb_sbom_sha256 : string;
  ccb_test_suite_sha256 : string;
  ccb_validation_result_sha256 : string;
  ccb_sandbox_validation_sha256 : string;
  ccb_verification_contract_sha256 : string;
  ccb_compensation_contract_sha256 : string;
  ccb_policy_contract_sha256 : string;
  ccb_worker_sha256 : string;
  ccb_publisher : string;
  ccb_reviewer : string;
  ccb_signer_key_id : string;
  ccb_authenticated_principal : string;
  ccb_agent_identity : string;
  ccb_tenant_id : string;
  ccb_provider_account_id : string;
  ccb_credential_provider_id : string;
  ccb_allowed_origins : list string;
  ccb_allowed_methods : list string;
  ccb_allowed_path_prefixes : list string;
  ccb_credential_names : list string;
  ccb_credential_scopes : list string;
  ccb_data_classification : DataClassification;
  ccb_retention_class : string;
  ccb_max_input_bytes : Z;
  ccb_max_output_bytes : Z;
  ccb_timeout_seconds : Z;
  ccb_cpu_seconds : Z;
  ccb_memory_bytes : Z;
  ccb_max_processes : Z;
  ccb_state : string;
}.
#[export] Instance CapsuleBinding_eq_dec : EqDecision CapabilityCapsuleExecutionBinding.
Proof. solve_decision. Defined.

(** A lowercase name of at least two segments separated by one of "._-". *)
Definition CAPSULE_CAPABILITY_PATTERN : regex :=
  let alnum c := is_lower c || is_digit c in
  RSeq (RChar is_lower) (RSeq (RStar (RChar alnum))
    (rplus (RSeq (RChar (λ c, str_in c "._-"))
       (RSeq (RChar alnum) (RStar (RChar (λ c, alnum c || str_in c "_-"))))))).

(** Three dotted numbers with an optional "-" or "+" suffix. *)
Definition CAPSULE_VERSION_PATTERN : regex :=
  let number := rplus (RChar is_digit) in
  let dot := RChar (λ c, (c =? ".")%char) in
  RSeq number (RSeq dot (RSeq number (RSeq dot (RSeq number
    (ropt (RSeq (RChar (λ c, str_in c "-+"))
       (rplus (RChar (λ c, is_lower c || is_upper c || is_digit c || str_in c ".-"))))))))).

(** [not value or value != value.strip()]. *)
Definition empty_or_untrimmed (s : string) : bool := (s =? "")%string || untrimmed s.

Definition capsule_claims (self : CapabilityCapsuleExecutionBinding)
    : list (string * string) :=
  [("publisher", ccb_publisher self);
   ("reviewer", ccb_reviewer self);
   ("signer_key_id", ccb_signer_key_id self);
   ("authenticated_principal", ccb_authenticated_principal self);
   ("agent_identity", ccb_agent_identity self);
   ("tenant_id", ccb_tenant_id self);
   ("provider_account_id", ccb_provider_account_id self);
   ("credential_provider_id", ccb_credential_provider_id self);
   ("retention_class", ccb_retention_class self)].

Definition check_capsule_claim (nv : string * string) : result unit :=
  raise_if (empty_or_untrimmed nv.2)
    (ValidationError ("capsule binding " +:+ nv.1 +:+ " is empty or malformed"));;
  validate_approval_claim nv.2 ("capsule binding " +:+ nv.1);;
  validate_bounded_string nv.2 ("capsule binding " +:+ nv.1).

Definition capsule_digests (self : CapabilityCapsuleExecutionBinding)
    : list (string * string) :=
  [("manifest_sha256", ccb_manifest_sha256 self);
   ("source_sha256", ccb_source_sha256 self);
   ("artifact_sha256", ccb_artifact_sha256 self);
   ("dependency_lock_sha256", ccb_dependency_lock_sha256 self);
   ("sbom_sha256", ccb_sbom_sha256 self);
   ("test_suite_sha256", ccb_test_suite_sha256 self);
   ("validation_result_sha256", ccb_validation_result_sha256 self);
   ("sandbox_validation_sha256", ccb_sandbox_validation_sha256 self);
   ("verification_contract_sha256", ccb_verification_contract_sha256 self);
   ("compensation_contract_sha256", ccb_compensation_contract_sha256 self);
   ("policy_contract_sha256", ccb_policy_contract_sha256 self);
   ("worker_sha256", ccb_worker_sha256 self)].

Definition check_capsule_values (nvs : string * list string) : result unit :=
  raise_if (negb (nodupb nvs.2) || existsb empty_or_untrimmed nvs.2)
    (ValidationError ("capsule binding " +:+ nvs.1 +:+ " is malformed"));;
  for_each (λ v,
    reject_control_characters v ("capsule binding " +:+ nvs.1);;
    validate_bounded_string v ("capsule binding " +:+ nvs.1)) nvs.2.

Definition check_capsule_limit (limit : string * Z * Z * Z) : result unit :=
  let '(name, value, minimum, maximum) := limit in
  raise_if (negb ((minimum <=? value) && (value <=? maximum)))
    (ValidationError ("capsule binding " +:+ name +:+ " is outside its safe bound")).

Definition capsule_limits (self : CapabilityCapsuleExecutionBinding)
    : list (string * Z * Z * Z) :=
  [("max_input_bytes", ccb_max_input_bytes self, 1, 1024 * 1024);
   ("max_output_bytes", ccb_max_output_bytes self, 1, 1024 * 1024);
   ("timeout_seconds", ccb_timeout_seconds self, 1, 30);
   ("cpu_seconds", ccb_cpu_seconds self, 1, 10);
   ("memory_bytes", ccb_memory_bytes self, 32 * 1024 * 1024, 512 * 1024 * 1024);
   ("max_processes", ccb_max_processes self, 1, 4)].

Definition CapsuleBinding_post_init (self : CapabilityCapsuleExecutionBinding)
    : result CapabilityCapsuleExecutionBinding :=
  validate_bounded_string (ccb_capability_id self) "capsule binding capability_id";;
  validate_bounded_string (ccb_version self) "capsule binding version";;
  raise_if (negb (fullmatch CAPSULE_CAPABILITY_PATTERN (ccb_capability_id self)))
    (ValidationError "capsule binding capability_id is malformed");;
  raise_if (negb (fullmatch CAPSULE_VERSION_PATTERN (ccb_version self)))
    (ValidationError "capsule binding version is malformed");;
  for_each check_capsule_claim (capsule_claims self);;
  raise_if (casefold (ccb_publisher self) =? casefold (ccb_reviewer self))%string
    (ValidationError "capsule publisher and reviewer must be distinct");;
  raise_if (negb (ccb_state self =? "enabled")%string)
    (ValidationError "only enabled capability capsules may bind to plans");;
  for_each (λ nv : string * string,
    validate_sha256 nv.2 ("capsule binding " +:+ nv.1)) (capsule_digests self);;
  for_each check_capsule_values
    [("allowed_origins", ccb_allowed_origins self);
     ("allowed_methods", ccb_allowed_methods self);
     ("allowed_path_prefixes", ccb_allowed_path_prefixes self);
     ("credential_names", ccb_credential_names self);
     ("credential_scopes", ccb_credential_scopes self)];;
  for_each check_capsule_limit (capsule_limits self);;
  Ok self.

Definition CapsuleBinding_to_dict (self : CapabilityCapsuleExecutionBinding) : dict :=
  [("capability_id", JStr (ccb_capability_id self));
   ("version", JStr (ccb_version self));
   ("risk", JStr (enum_str (ccb_risk self)))]
  ++ map (λ nv : string * string, (nv.1, JStr nv.2)) (capsule_digests self)
  ++ map (λ nv : string * string, (nv.1, JStr nv.2)) (firstn 8 (capsule_claims self))
  ++ [("allowed_origins", str_list (ccb_allowed_origins self));
      ("allowed_methods", str_list (ccb_allowed_methods self));
      ("allowed_path_prefixes", str_list (ccb_allowed_path_prefixes self));
      ("credential_names", str_list (ccb_credential_names self));
      ("credential_scopes", str_list (ccb_credential_scopes self));
      ("data_classification", JStr (enum_str (ccb_data_classification self)));
      ("retention_class", JStr (ccb_retention_class self));
      ("max_input_bytes", JInt (ccb_max_input_bytes self));
      ("max_output_bytes", JInt (ccb_max_output_bytes self));
      ("timeout_seconds", JInt (ccb_timeout_seconds self));
      ("cpu_seconds", JInt (ccb_cpu_seconds self));
      ("memory_bytes", JInt (ccb_memory_bytes self));
      ("max_processes", JInt (ccb_max_processes self));
      ("state", JStr (ccb_state self))].

Definition CapsuleBinding_from_dict (data : dict)
    : result CapabilityCapsuleExecutionBinding :=
  capability_id ← item_str data "capability_id";
  version ← item_str data "version";
  risk_text ← item_str data "risk";
  risk ← enum_parse risk_text;
  manifest ← item_str data "manifest_sha256";
  source ← item_str data "source_sha256";
  artifact ← item_str data "artifact_sha256";
  dependency_lock ← item_str data "dependency_lock_sha256";
  sbom ← item_str data "sbom_sha256";
  test_suite ← item_str data "test_suite_sha256";
  validation_result ← item_str data "validation_result_sha256";
  sandbox_validation ← item_str data "sandbox_validation_sha256";
  verification_contract ← item_str data "verification_contract_sha256";
  compensation_contract ← item_str data "compensation_contract_sha256";
  policy_contract ← item_str data "policy_contract_sha256";
  worker ← item_str data "worker_sha256";
  publisher ← item_str data "publisher";
  reviewer ← item_str data "reviewer";
  signer_key_id ← item_str data "signer_key_id";
  principal ← item_str data "authenticated_principal";
  agent_identity ← item_str data "agent_identity";
  tenant_id ← item_str data "tenant_id";
  provider_account_id ← item_str data "provider_account_id";
  credential_provider_id ← item_str data "credential_provider_id";
  origins ← capsule_binding_strings data "allowed_origins";
  methods ← capsule_binding_strings data "allowed_methods";
  prefixes ← capsule_binding_strings data "allowed_path_prefixes";
  names ← capsule_binding_strings data "credential_names";
  scopes ← capsule_binding_strings data "credential_scopes";
  classification_text ← item_str data "data_classification";
  classification ← enum_parse classification_text;
  retention_class ← item_str data "retention_class";
  max_input ← required_positive_int data "max_input_bytes";
  max_output ← required_positive_int data "max_output_bytes";
  timeout ← required_positive_int data "timeout_seconds";
  cpu ← required_positive_int data "cpu_seconds";
  memory ← required_positive_int data "memory_bytes";
  processes ← required_positive_int data "max_processes";
  state ← item_str data "state";
  CapsuleBinding_post_init
    (mk_CapsuleBinding capability_id version risk manifest source artifact
       dependency_lock sbom test_suite validation_result sandbox_validation
       verification_contract compensation_contract policy_contract worker publisher
       reviewer signer_key_id principal agent_identity tenant_id provider_account_id
       credential_provider_id origins methods prefixes names scopes classification
       retention_class max_input max_output timeout cpu memory processes state).

#[export] Instance CapsuleBinding_dataclass
    : Dataclass CapabilityCapsuleExecutionBinding := {
  to_dict := CapsuleBinding_to_dict;
  from_dict := CapsuleBinding_from_dict;
  wf x := CapsuleBinding_post_init x = Ok x }.

(** The resource limits of a constructed binding are positive. *)
Lemma capsule_limits_positive x n v lo hi :
  CapsuleBinding_post_init x = Ok x → (n, v, lo, hi) ∈ capsule_limits x →
  lo ≤ v ≤ hi ∧ 0 < v.
Proof.
  intros H Hin. unfold CapsuleBinding_post_init in H. inv_ok.
  repeat match goal with H : for_each _ _ = Ok _ |- _ => apply for_each_Ok in H end.
  match goal with H : Forall _ (capsule_limits x) |- _ =>
    eapply Forall_forall in H; [|exact Hin]; rename H into Hl end.
  unfold check_capsule_limit in Hl. apply raise_if_Ok in Hl. to_prop.
  assert (0 < lo); [|lia]. unfold capsule_limits in Hin.
  repeat (apply elem_of_cons in Hin as [Hin|Hin]; [by simplify_eq|]).
  by apply elem_of_nil in Hin.
Qed.

Lemma capsule_positive_int x n v lo hi :
  CapsuleBinding_post_init x = Ok x → (n, v, lo, hi) ∈ capsule_limits x → (v <=? 0) = false.
Proof. intros H Hin. to_prop. pose proof (capsule_limits_positive _ _ _ _ _ H Hin). lia. Qed.

#[export] Instance CapsuleBinding_laws : DataclassLaws CapabilityCapsuleExecutionBinding.
Proof.
  split; simpl.
  - intros x H.
    pose proof (λ n v lo hi, capsule_positive_int x n v lo hi H) as Hpos.
    unfold CapsuleBinding_from_dict, CapsuleBinding_to_dict, capsule_digests, capsule_claims.
    cbn [map firstn fst snd]. destruct x. unfold capsule_limits in Hpos.
    cbn [ccb_max_input_bytes ccb_max_output_bytes ccb_timeout_seconds ccb_cpu_seconds
      ccb_memory_bytes ccb_max_processes] in Hpos.
    read_back. simpl. rewrite ?enum_parse_str. simpl. rewrite ?enum_parse_str. simpl.
    do 6 (erewrite Hpos by (rewrite !elem_of_cons; eauto 10); simpl).
    exact H.
  - intros d x H. unfold CapsuleBinding_from_dict in H. inv_ok.
    pose proof H as H'. unfold CapsuleBinding_post_init in H'. by inv_ok.
Qed.

(** ** Runtime binding *)

Record RuntimeExecutionBinding : Type := mk_RuntimeExecutionBinding {
  reb_connector_mode : string;
  reb_include_writes : bool;
  reb_include_communications : bool;
  reb_audit_database : string;
  reb_artifact_root : string;
  reb_workspace_root : option string;
  reb_result_json : option string;
  reb_evidence_type : option string;
  reb_configurations : list ConfigurationExecutionBinding;
  reb_runtime_paths : list RuntimePathExecutionBinding;
  reb_credential_file : option string;
  reb_publication_roots : list RuntimePathExecutionBinding;
  reb_schema : string;
}.
#[export] Instance RuntimeExecutionBinding_eq_dec : EqDecision RuntimeExecutionBinding.
Proof. solve_decision. Defined.

(** [sorted(xs, key=lambda item: item.name)]. *)
Definition name_le {A} (name : A → string) (x y : A) : bool := str_le (name x) (name y).
Definition sort_names {A} (name : A → string) (l : list A) : list A :=
  sort_by (name_le name) l.

Definition opt_path (k : string) (p : option string) : list (string * string) :=
  match p with Some p => [(k, p)] | None => [] end.

(** [writable_directories]. *)
Definition writable_directories (self : RuntimeExecutionBinding) : list (string * string) :=
  [("audit.parent", path_parent (reb_audit_database self));
   ("artifact.root", reb_artifact_root self)]
  ++ opt_path "result.parent" (path_parent <$> reb_result_json self).

(** [expected_runtime_paths]; its comparison with the observed mapping ignores
    the order of the keys. *)
Definition expected_runtime_paths (self : RuntimeExecutionBinding) : gmap string string :=
  list_to_map
    ([("audit.parent", path_parent (reb_audit_database self));
      ("artifact.root", reb_artifact_root self)]
     ++ opt_path "workspace.root" (reb_workspace_root self)
     ++ opt_path "result.parent" (path_parent <$> reb_result_json self)).

Definition observed_runtime_paths (paths : list RuntimePathExecutionBinding)
    : gmap string string :=
  list_to_map (map (λ p, (rpb_name p, rpb_path p)) paths).

Definition writable_names : list string := ["audit.parent"; "artifact.root"; "result.parent"].

Definition is_writable_path (p : RuntimePathExecutionBinding) : bool :=
  bool_decide (rpb_name p ∈ writable_names).

Definition with_sorted (self : RuntimeExecutionBinding) : RuntimeExecutionBinding :=
  mk_RuntimeExecutionBinding (reb_connector_mode self) (reb_include_writes self)
    (reb_include_communications self) (reb_audit_database self) (reb_artifact_root self)
    (reb_workspace_root self) (reb_result_json self) (reb_evidence_type self)
    (sort_names cfg_name (reb_configurations self))
    (sort_names rpb_name (reb_runtime_paths self)) (reb_credential_file self)
    (sort_names rpb_name (reb_publication_roots self)) (reb_schema self).

Definition check_absolute (np : string * string) : result unit :=
  raise_if (path_malformed np.2)
    (ValidationError ("runtime " +:+ np.1 +:+ " must be an absolute path")).

Definition RuntimeExecutionBinding_post_init (self : RuntimeExecutionBinding)
    : result RuntimeExecutionBinding :=
  raise_if (negb (reb_schema self =? "master-agent/runtime-execution-binding@2")%string)
    (ValidationError "unsupported runtime execution binding schema");;
  raise_if (negb (bool_decide (reb_connector_mode self ∈ ["mock"; "live"])))
    (ValidationError "runtime connector_mode must be mock or live");;
  for_each check_absolute
    [("audit_database", reb_audit_database self); ("artifact_root", reb_artifact_root self)];;
  for_each check_absolute
    (opt_path "workspace_root" (reb_workspace_root self)
     ++ opt_path "result_json" (reb_result_json self)
     ++ opt_path "credential_file" (reb_credential_file self));;
  raise_if (negb (Bool.eqb (is_someb (reb_result_json self))
                           (is_someb (reb_evidence_type self))))
    (ValidationError "runtime result_json and evidence_type must be supplied together");;
  raise_if (is_some_blank (reb_evidence_type self))
    (ValidationError "runtime evidence_type is empty");;
  raise_if (negb (nodupb (map snd (writable_directories self))))
    (ValidationError
       "runtime audit, artifact, and result directories must be pairwise distinct");;
  let sorted := with_sorted self in
  raise_if (negb (nodupb (map cfg_name (reb_configurations sorted))))
    (ValidationError "runtime configuration binding names must be unique");;
  raise_if (negb (nodupb (map rpb_name (reb_runtime_paths sorted))))
    (ValidationError "runtime path identity names must be unique");;
  raise_if (negb (nodupb (map rpb_name (reb_publication_roots sorted))))
    (ValidationError "runtime publication root names must be unique");;
  raise_if (negb (bool_decide (observed_runtime_paths (reb_runtime_paths sorted)
                               = expected_runtime_paths self)))
    (ValidationError
       "runtime path identities must exactly cover selected writable roots");;
  identities ← mapM platform_identity
    (List.filter is_writable_path (reb_runtime_paths sorted));
  raise_if (negb (nodupb (map object_key identities)))
    (ValidationError ("runtime audit, artifact, and result directory identities must be "
       +:+ "pairwise distinct"));;
  Ok sorted.

Definition RuntimeExecutionBinding_to_dict (self : RuntimeExecutionBinding) : dict :=
  [("schema", JStr (reb_schema self));
   ("connector_mode", JStr (reb_connector_mode self));
   ("include_writes", JBool (reb_include_writes self));
   ("include_communications", JBool (reb_include_communications self));
   ("audit_database", JStr (reb_audit_database self));
   ("artifact_root", JStr (reb_artifact_root self));
   ("workspace_root", opt_json JStr (reb_workspace_root self));
   ("result_json", opt_json JStr (reb_result_json self));
   ("evidence_type", opt_json JStr (reb_evidence_type self));
   ("configurations", JList (map (λ c, JDict (ConfigurationExecutionBinding_to_dict c))
                               (reb_configurations self)));
   ("runtime_paths", JList (map (λ p, JDict (RuntimePathExecutionBinding_to_dict p))
                              (reb_runtime_paths self)));
   ("publication_roots", JList (map (λ p, JDict (RuntimePathExecutionBinding_to_dict p))
                                  (reb_publication_roots self)))]
  ++ match reb_credential_file self with
     | Some f => [("credential_file", JStr f)]
     | None => []
     end.

Definition RuntimeExecutionBinding_from_dict (data : dict)
    : result RuntimeExecutionBinding :=
  configurations ← or_raise (json_mappings (dict_get data "configurations"))
    (ValidationError "runtime configurations must be a list of objects");
  publication_roots ←
    or_raise (json_mappings (dict_get_or data "publication_roots" (JList [])))
      (ValidationError "runtime publication_roots must be a list of objects");
  runtime_paths ← or_raise (json_mappings (dict_get data "runtime_paths"))
    (ValidationError "runtime runtime_paths must be a list of objects");
  connector_mode ← item_str data "connector_mode";
  include_writes ← strict_bool (dict_get data "include_writes") "runtime include_writes";
  include_communications ←
    strict_bool (dict_get data "include_communications") "runtime include_communications";
  audit_database ← item_str data "audit_database";
  artifact_root ← item_str data "artifact_root";
  configurations ← mapM ConfigurationExecutionBinding_from_dict configurations;
  runtime_paths ← mapM RuntimePathExecutionBinding_from_dict runtime_paths;
  publication_roots ← mapM RuntimePathExecutionBinding_from_dict publication_roots;
  RuntimeExecutionBinding_post_init {|
    reb_schema := get_str data "schema" "";
    reb_connector_mode := connector_mode;
    reb_include_writes := include_writes;
    reb_include_communications := include_communications;
    reb_audit_database := audit_database;
    reb_artifact_root := artifact_root;
    reb_workspace_root := opt_str data "workspace_root";
    reb_result_json := opt_str data "result_json";
    reb_credential_file := opt_str data "credential_file";
    reb_evidence_type := opt_str data "evidence_type";
    reb_configurations := configurations;
    reb_runtime_paths := runtime_paths;
    reb_publication_roots := publication_roots |}.

#[export] Instance RuntimeExecutionBinding_dataclass
    : Dataclass RuntimeExecutionBinding := {
  to_dict := RuntimeExecutionBinding_to_dict;
  from_dict := RuntimeExecutionBinding_from_dict;
  wf x := RuntimeExecutionBinding_post_init x = Ok x
          ∧ Forall wf (reb_configurations x) ∧ Forall wf (reb_runtime_paths x)
          ∧ Forall wf (reb_publication_roots x) }.

Lemma sort_names_idem {A} (name : A → string) l :
  sort_names name (sort_names name l) = sort_names name l.
Proof. apply sort_by_idem. intros. apply str_le_total. Qed.

Lemma sort_names_Forall {A} (P : A → Prop) name l : Forall P l → Forall P (sort_names name l).
Proof. apply sort_by_Forall. Qed.

Lemma RuntimeExecutionBinding_post_init_fix x y :
  RuntimeExecutionBinding_post_init x = Ok y →
  y = with_sorted x ∧ RuntimeExecutionBinding_post_init y = Ok y.
Proof.
  intros H. pose proof H as Hy. unfold RuntimeExecutionBinding_post_init in Hy. inv_ok.
  split; [done|]. destruct x. unfold RuntimeExecutionBinding_post_init, with_sorted in *.
  simpl in *. rewrite !sort_names_idem. exact H.
Qed.

#[export] Instance RuntimeExecutionBinding_laws : DataclassLaws RuntimeExecutionBinding.
Proof.
  split; simpl.
  - intros [m iw ic ad ar wr rj et cs ps cf rs sch] (H & Hc & Hp & Hr). simpl in *.
    unfold RuntimeExecutionBinding_from_dict, RuntimeExecutionBinding_to_dict.
    destruct wr, rj, et, cf; read_back; simpl; autorewrite with roundtrip; simpl;
      rewrite_law (mapM_from_to_dict (A := ConfigurationExecutionBinding) _ Hc); simpl;
      rewrite_law (mapM_from_to_dict (A := RuntimePathExecutionBinding) _ Hp); simpl;
      rewrite_law (mapM_from_to_dict (A := RuntimePathExecutionBinding) _ Hr); exact H.
  - intros d x H. unfold RuntimeExecutionBinding_from_dict in H. inv_ok.
    apply RuntimeExecutionBinding_post_init_fix in H as [-> H]. split; [done|]. simpl.
    split_and!; apply sort_names_Forall.
    + by use_law (mapM_from_dict_wf (A := ConfigurationExecutionBinding)).
    + by use_law (mapM_from_dict_wf (A := RuntimePathExecutionBinding)).
    + by use_law (mapM_from_dict_wf (A := RuntimePathExecutionBinding)).
Qed.

(** ** Execution context *)

Record ExecutionContext : Type := mk_ExecutionContext {
  ec_integrations_sha256 : string;
  ec_connectors : list ConnectorExecutionBinding;
  ec_plugins : list PluginExecutionBinding;
  ec_capsules : list CapabilityCapsuleExecutionBinding;
  ec_runtime : option RuntimeExecutionBinding;
  ec_schema : string;
}.
#[export] Instance ExecutionContext_eq_dec : EqDecision ExecutionContext.
Proof. solve_decision. Defined.

Definition context_schema : string := "master-agent/execution-context@2".

(** The order of the keys [(capability_id, version)]. *)
Definition capsule_le (x y : CapabilityCapsuleExecutionBinding) : bool :=
  if (ccb_capability_id x =? ccb_capability_id y)%string
  then str_le (ccb_version x) (ccb_version y)
  else str_le (ccb_capability_id x) (ccb_capability_id y).

Definition context_sorted (self : ExecutionContext) : ExecutionContext :=
  mk_ExecutionContext (ec_integrations_sha256 self)
    (sort_names ceb_system (ec_connectors self)) (sort_names peb_name (ec_plugins self))
    (sort_by capsule_le (ec_capsules self)) (ec_runtime self) (ec_schema self).

Definition ExecutionContext_post_init (self : ExecutionContext) : result ExecutionContext :=
  raise_if (negb (ec_schema self =? context_schema)%string)
    (ValidationError "unsupported execution context schema");;
  validate_sha256 (ec_integrations_sha256 self) "execution context integrations_sha256";;
  let sorted := context_sorted self in
  raise_if (negb (nodupb (map ceb_system (ec_connectors sorted))))
    (ValidationError "execution context connector systems must be unique");;
  raise_if (negb (nodupb (map peb_name (ec_plugins sorted))))
    (ValidationError "execution context plugin names must be unique");;
  raise_if (negb (nodupb (map ccb_capability_id (ec_capsules sorted))))
    (ValidationError "execution context capsule capabilities must be unique");;
  Ok sorted.

Definition ExecutionContext_to_dict (self : ExecutionContext) : dict :=
  [("schema", JStr (ec_schema self));
   ("integrations_sha256", JStr (ec_integrations_sha256 self));
   ("connectors", JList (map (λ c, JDict (ConnectorExecutionBinding_to_dict c))
                           (ec_connectors self)));
   ("plugins", JList (map (λ p, JDict (PluginExecutionBinding_to_dict p))
                        (ec_plugins self)))]
  ++ match ec_runtime self with
     | Some r => [("runtime", JDict (RuntimeExecutionBinding_to_dict r))]
     | None => []
     end
  ++ match ec_capsules self with
     | [] => []
     | cs => [("capsules", JList (map (λ c, JDict (CapsuleBinding_to_dict c)) cs))]
     end.

Definition ExecutionContext_fingerprint (self : ExecutionContext) : string :=
  digest_json (JDict (ExecutionContext_to_dict self)).

(** A list whose items are mappings, checked in two steps. *)
Definition context_items (kind : string) (v : json) : result (list dict) :=
  raise_if (negb (is_list v))
    (ValidationError ("execution context " +:+ kind +:+ " must be a list"));;
  or_raise (json_mappings v)
    (ValidationError ("execution context " +:+ kind +:+ " must be objects")).

Definition json_is_str (v : json) (s : string) : bool :=
  match v with JStr t => (t =? s)%string | _ => false end.

Definition ExecutionContext_from_dict (data : dict) : result ExecutionContext :=
  raise_if (negb (json_is_str (dict_get data "schema") context_schema))
    (ValidationError "unsupported execution context schema");;
  let connectors := dict_get data "connectors" in
  let plugins := dict_get data "plugins" in
  let capsules := dict_get_or data "capsules" (JList []) in
  raise_if (negb (is_list connectors))
    (ValidationError "execution context connectors must be a list");;
  raise_if (negb (is_list plugins))
    (ValidationError "execution context plugins must be a list");;
  raise_if (negb (is_list capsules))
    (ValidationError "execution context capsules must be a list");;
  connectors ← context_items "connectors" connectors;
  plugins ← context_items "plugins" plugins;
  capsules ← context_items "capsules" capsules;
  integrations ← item_str data "integrations_sha256";
  connectors ← mapM ConnectorExecutionBinding_from_dict connectors;
  plugins ← mapM PluginExecutionBinding_from_dict plugins;
  capsules ← mapM CapsuleBinding_from_dict capsules;
  runtime ← match dict_get data "runtime" with
            | JNull => Ok None
            | _ => d ← expect_mapping data "runtime";
                   r ← RuntimeExecutionBinding_from_dict d; Ok (Some r)
            end;
  ExecutionContext_post_init {|
    ec_schema := get_str data "schema" "";
    ec_integrations_sha256 := integrations;
    ec_connectors := connectors; ec_plugins := plugins; ec_capsules := capsules;
    ec_runtime := runtime |}.

#[export] Instance ExecutionContext_dataclass : Dataclass ExecutionContext := {
  to_dict := ExecutionContext_to_dict;
  from_dict := ExecutionContext_from_dict;
  wf x := ExecutionContext_post_init x = Ok x ∧ Forall wf (ec_connectors x)
          ∧ Forall wf (ec_plugins x) ∧ Forall wf (ec_capsules x)
          ∧ (∀ r, ec_runtime x = Some r → wf r) }.

Lemma capsule_le_total x y : capsule_le x y = true ∨ capsule_le y x = true.
Proof.
  unfold capsule_le. rewrite (String.eqb_sym (ccb_capability_id y)).
  destruct (_ =? _)%string; apply str_le_total.
Qed.

Lemma ExecutionContext_post_init_fix x y :
  ExecutionContext_post_init x = Ok y →
  y = context_sorted x ∧ ExecutionContext_post_init y = Ok y.
Proof.
  intros H. pose proof H as Hy. unfold ExecutionContext_post_init in Hy. inv_ok.
  split; [done|]. destruct x. unfold ExecutionContext_post_init, context_sorted in *.
  simpl in *. rewrite !sort_names_idem, (sort_by_idem capsule_le) by apply capsule_le_total.
  exact H.
Qed.

Lemma context_capsules_read x :
  dict_get_or (ExecutionContext_to_dict x) "capsules" (JList [])
  = JList (map (λ c, JDict (CapsuleBinding_to_dict c)) (ec_capsules x)).
Proof. by destruct x as [? ? ? [|] [|] ?]. Qed.

Lemma context_runtime_read x :
  dict_get (ExecutionContext_to_dict x) "runtime"
  = match ec_runtime x with
    | Some r => JDict (RuntimeExecutionBinding_to_dict r)
    | None => JNull
    end.
Proof. by destruct x as [? ? ? [|] [|] ?]. Qed.

#[export] Instance ExecutionContext_laws : DataclassLaws ExecutionContext.
Proof.
  split; simpl.
  - intros [i cs ps ks r sch] (H & Hc & Hp & Hk & Hr). simpl in *.
    assert (sch = context_schema) as ->.
    { unfold ExecutionContext_post_init in H. inv_ok. by to_prop. }
    unfold ExecutionContext_from_dict, expect_mapping.
    rewrite context_capsules_read, context_runtime_read.
    unfold ExecutionContext_to_dict, context_items.
    cbn [ec_schema ec_integrations_sha256 ec_connectors ec_plugins ec_runtime ec_capsules].
    read_back. simpl. autorewrite with roundtrip. simpl.
    rewrite_law (mapM_from_to_dict (A := ConnectorExecutionBinding) _ Hc); simpl.
    rewrite_law (mapM_from_to_dict (A := PluginExecutionBinding) _ Hp); simpl.
    rewrite_law (mapM_from_to_dict (A := CapabilityCapsuleExecutionBinding) _ Hk); simpl.
    destruct r as [r|]; simpl; [rewrite_law (from_to_dict r (Hr _ eq_refl)); simpl|]; exact H.
  - intros d x H. unfold ExecutionContext_from_dict in H. inv_ok.
    apply ExecutionContext_post_init_fix in H as [-> H]. split; [done|]. simpl. split_and!.
    + apply sort_names_Forall. by use_law (mapM_from_dict_wf (A := ConnectorExecutionBinding)).
    + apply sort_names_Forall. by use_law (mapM_from_dict_wf (A := PluginExecutionBinding)).
    + apply sort_by_Forall.
      by use_law (mapM_from_dict_wf (A := CapabilityCapsuleExecutionBinding)).
    + intros r Hr. destruct (dict_get d "runtime"); inv_ok; try done; simplify_eq;
        by use_law (from_dict_wf (A := RuntimeExecutionBinding)).
Qed.
