(* ===== verification/ActionGraph.v ===== *)
(** * ActionGraph: the dependency graph of a plan's actions

    [_validate_acyclic] of [src/src/master_agent/models.py], a depth-first
    search with the sets [visiting] and [visited], and its correctness: it
    accepts exactly the graphs without a cycle, and the recursion depth it
    needs is at most the number of actions. *)

From S2P Require Import Prelude PyText PyJson PyTime.
From stdpp Require Import relations.

Open Scope Z_scope.

Section graph.
Context (dependencies : gmap uuid (list uuid)).

(** [d] is a dependency of [x]. *)
Definition edge (x d : uuid) : Prop := ∃ ds, dependencies !! x = Some ds ∧ d ∈ ds.

Definition acyclic : Prop := ∀ x, ¬ tc edge x x.

Record search : Type := mk_search {
  visiting : gset uuid;
  visited : gset uuid;
}.

Definition cycle_error : exn := ValidationError "action dependency graph contains a cycle".
Definition recursion_error : exn := PyRuntimeError "maximum recursion depth exceeded".

(** [for d in ds: visit(d)]. *)
Fixpoint visit_all (visit : search → uuid → result search) (s : search) (ds : list uuid)
    : result search :=
  match ds with
  | [] => Ok s
  | d :: ds => s ← visit s d; visit_all visit s ds
  end.

(** [visit]; [depth] bounds the recursion. *)
Fixpoint visit (depth : nat) (s : search) (action_id : uuid) : result search :=
  match depth with
  | O => Err recursion_error
  | S depth =>
      if bool_decide (action_id ∈ visited s) then Ok s
      else if bool_decide (action_id ∈ visiting s) then Err cycle_error
      else
        ds ← or_raise (dependencies !! action_id) (PyKeyError (uuid_str action_id));
        s ← visit_all (visit depth) (mk_search ({[ action_id ]} ∪ visiting s) (visited s)) ds;
        Ok (mk_search (visiting s ∖ {[ action_id ]}) ({[ action_id ]} ∪ visited s))
  end.

(** The nodes below which every path ends. *)
Definition grounded (x : uuid) : Prop := Acc (λ d x, edge x d) x.

Lemma grounded_acyclic x : grounded x → ¬ tc edge x x.
Proof.
  intros Hg. induction Hg as [x _ IH]. intros Hc. inversion Hc as [y z He|y z w He Hzx].
  - subst. exact (IH x He Hc).
  - subst. apply (IH z He). eapply tc_r; eassumption.
Qed.

Definition sound_step (s s' : search) (ds : list uuid) : Prop :=
  visiting s' = visiting s ∧ visited s ⊆ visited s'
  ∧ (∀ d, d ∈ ds → d ∈ visited s') ∧ (∀ x, x ∈ visited s' → grounded x).

Lemma visit_all_sound f s ds s' :
  (∀ s d s', (∀ x, x ∈ visited s → grounded x) → f s d = Ok s' → sound_step s s' [d]) →
  (∀ x, x ∈ visited s → grounded x) →
  visit_all f s ds = Ok s' → sound_step s s' ds.
Proof.
  intros Hf. revert s. induction ds as [|d ds IH]; intros s Hg H; simpl in H.
  - inv_ok. unfold sound_step; split_and!; [done|done| |done]. intros d. by rewrite elem_of_nil.
  - apply bind_Ok in H as (s1 & Hd & H).
    destruct (Hf _ _ _ Hg Hd) as (Hv1 & Hs1 & Hd1 & Hg1).
    destruct (IH _ Hg1 H) as (Hv2 & Hs2 & Hd2 & Hg2).
    unfold sound_step; split_and!; [congruence|by etrans| |done].
    intros d'. rewrite elem_of_cons. intros [->|?]; [|by apply Hd2]. set_solver.
Qed.

(** A visit that returns leaves only grounded nodes in [visited]. *)
Lemma visit_sound depth s x s' :
  (∀ y, y ∈ visited s → grounded y) → visit depth s x = Ok s' → sound_step s s' [x].
Proof.
  revert s x s'. induction depth as [|depth IH]; intros s x s' Hg H; [done|].
  cbn [visit] in H.
  destruct (bool_decide_reflect (x ∈ visited s)) as [Hx|Hx].
  { inv_ok. unfold sound_step; split_and!; [done|done| |done]. intros d. by intros ->%list_elem_of_singleton. }
  destruct (bool_decide_reflect (x ∈ visiting s)) as [Hi|Hi]; [done|].
  apply bind_Ok in H as (ds & Hds%or_raise_Ok & H).
  apply bind_Ok in H as (s1 & H1 & [= <-]).
  apply visit_all_sound in H1 as (Hv & Hs & Hd & Hg1); [|exact IH|done].
  simpl in Hv, Hs. unfold sound_step. split_and!; simpl.
  - rewrite Hv. clear -Hi. set_solver.
  - clear -Hs. set_solver.
  - clear. set_solver.
  - intros y. rewrite elem_of_union, elem_of_singleton. intros [->|Hy]; [|by apply Hg1].
    constructor. intros d (ds' & Hds' & Hd'). simplify_eq. exact (Hg1 _ (Hd _ Hd')).
Qed.

(** What a search needs to go on from [x]: room in the recursion for the
    nodes not yet being visited, each of which leads to [x]. *)
Definition ready (depth : nat) (s : search) (x : uuid) : Prop :=
  visiting s ⊆ dom dependencies ∧ x ∈ dom dependencies
  ∧ (∀ y, y ∈ visiting s → tc edge y x)
  ∧ (size (dom dependencies) < depth + size (visiting s))%nat.

Lemma visit_all_total depth x s ds :
  (∀ s d, ready depth s d → (∀ y, y ∈ visited s → grounded y) →
     visit depth s d = Err cycle_error ∨ ∃ s', visit depth s d = Ok s') →
  (∀ d, d ∈ ds → edge x d) →
  (∀ d, d ∈ ds → ready depth s d) → (∀ y, y ∈ visited s → grounded y) →
  visit_all (visit depth) s ds = Err cycle_error
  ∨ ∃ s', visit_all (visit depth) s ds = Ok s'.
Proof.
  intros Hv. revert s. induction ds as [|d ds IH]; intros s He Hr Hg; simpl; [eauto|].
  destruct (Hv s d) as [H|[s' H]]; [apply Hr; set_solver|done| |].
  { left. by rewrite H. }
  rewrite H. simpl. destruct (visit_sound _ _ _ _ Hg H) as (Hvi & _ & _ & Hg').
  apply IH; [set_solver| |done].
  intros d' Hd'. unfold ready. rewrite Hvi. apply Hr. set_solver.
Qed.

(** A cycle is only reported when there is one. *)
Lemma visit_all_cycle depth s ds :
  (∀ s d, ready depth s d → (∀ y, y ∈ visited s → grounded y) →
     visit depth s d = Err cycle_error → ¬ acyclic) →
  (∀ d, d ∈ ds → ready depth s d) → (∀ y, y ∈ visited s → grounded y) →
  visit_all (visit depth) s ds = Err cycle_error → ¬ acyclic.
Proof.
  intros Hv. revert s. induction ds as [|d ds IH]; intros s Hr Hg; simpl; [done|].
  intros [H|(s' & H & H')]%bind_Err; [eapply (Hv s d); [apply Hr; set_solver|done|done]|].
  destruct (visit_sound _ _ _ _ Hg H) as (Hvi & _ & _ & Hg').
  eapply (IH s'); [|done|done].
  intros d' Hd'. unfold ready. rewrite Hvi. apply Hr. set_solver.
Qed.
Context (closed : ∀ x d, edge x d → d ∈ dom dependencies).

Lemma ready_step depth s x ds d :
  ready (S depth) s x → x ∉ visiting s → dependencies !! x = Some ds → d ∈ ds →
  ready depth (mk_search ({[ x ]} ∪ visiting s) (visited s)) d.
Proof using closed.
  intros (Hsub & Hx & Hp & Hsz) Hxi Hds Hd. assert (edge x d) by (by exists ds).
  split_and!; simpl; [set_solver|by eapply closed| |].
  - intros y. rewrite elem_of_union, elem_of_singleton. intros [->|Hy]; [by apply tc_once|].
    eapply tc_r; eauto.
  - rewrite size_union, size_singleton by set_solver. lia.
Qed.

(** With that room, a visit returns or finds a cycle. *)
Lemma visit_total depth s x :
  ready depth s x → (∀ y, y ∈ visited s → grounded y) →
  visit depth s x = Err cycle_error ∨ ∃ s', visit depth s x = Ok s'.
Proof using closed.
  revert s x. induction depth as [|depth IH]; intros s x Hr Hg.
  { destruct Hr as (Hsub & _ & _ & Hsz). apply subseteq_size in Hsub. lia. }
  cbn [visit].
  destruct (bool_decide_reflect (x ∈ visited s)) as [Hx|Hx]; [eauto|].
  destruct (bool_decide_reflect (x ∈ visiting s)) as [Hi|Hi]; [auto|].
  destruct (proj1 (elem_of_dom _ _) (proj1 (proj2 Hr))) as [ds Hds].
  rewrite Hds. simpl.
  destruct (visit_all_total depth x
    (mk_search ({[ x ]} ∪ visiting s) (visited s)) ds IH) as [H|[s' H]].
  - intros d Hd. by exists ds.
  - intros d Hd. by eapply ready_step.
  - done.
  - left. by rewrite H.
  - right. rewrite H. simpl. eauto.
Qed.

Lemma visit_cycle depth s x :
  ready depth s x → (∀ y, y ∈ visited s → grounded y) →
  visit depth s x = Err cycle_error → ¬ acyclic.
Proof using closed.
  revert s x. induction depth as [|depth IH]; intros s x Hr Hg; [done|]. cbn [visit].
  destruct (bool_decide_reflect (x ∈ visited s)) as [Hx|Hx]; [done|].
  destruct (bool_decide_reflect (x ∈ visiting s)) as [Hi|Hi].
  { intros _ Hac. destruct Hr as (_ & _ & Hp & _). by apply (Hac x), Hp. }
  destruct (proj1 (elem_of_dom _ _) (proj1 (proj2 Hr))) as [ds Hds].
  rewrite Hds. simpl. intros [H|(s' & _ & H)]%bind_Err; [|done].
  eapply (visit_all_cycle depth (mk_search _ _) ds IH); [|exact Hg|exact H].
  intros d Hd. by eapply ready_step.
Qed.

(** [_validate_acyclic] on the keys of the mapping, in their order. *)
Definition start : search := mk_search ∅ ∅.

Lemma visit_roots_total ids s :
  (∀ x, x ∈ ids → x ∈ dom dependencies) → visiting s = ∅ →
  (∀ y, y ∈ visited s → grounded y) →
  let r := visit_all (visit (S (size (dom dependencies)))) s ids in
  (r = Err cycle_error ∧ ¬ acyclic)
  ∨ ∃ s', r = Ok s' ∧ ∀ x, x ∈ ids → grounded x.
Proof using closed.
  set (depth := S _). intros Hids Hvi Hg. cbv zeta.
  assert (∀ x, x ∈ ids → ready depth s x) as Hr.
  { intros x Hx. unfold ready. rewrite Hvi, size_empty.
    split_and!; [set_solver|by apply Hids|set_solver|lia]. }
  clear Hvi. clearbody depth. revert s Hg Hr. induction ids as [|x ids IH]; intros s Hg Hr; simpl.
  { right. eexists; split; [done|]. intros x. by rewrite elem_of_nil. }
  assert (ready depth s x) as Hx by (apply Hr; set_solver).
  destruct (visit_total depth s x Hx Hg) as [H|[s1 H]]; rewrite H; simpl.
  { left. split; [done|]. by eapply visit_cycle. }
  destruct (visit_sound _ _ _ _ Hg H) as (Hv1 & _ & Hd1 & Hg1).
  destruct (IH (λ y Hy, Hids y (list_elem_of_further _ _ _ Hy)) s1 Hg1) as [?|(s'&Hs'&Hall)].
  { intros y Hy. unfold ready. rewrite Hv1. apply Hr. set_solver. }
  { by left. }
  right. exists s'. split; [done|]. intros y. rewrite elem_of_cons.
  intros [->|Hy]; [|by apply Hall]. apply Hg1, Hd1. by left.
Qed.
End graph.

(** The mapping [{action_id: set(dependencies)}]. *)
Definition dependency_map (nodes : list (uuid * list uuid)) : gmap uuid (list uuid) :=
  list_to_map nodes.

Definition validate_acyclic (nodes : list (uuid * list uuid)) : result unit :=
  let dependencies := dependency_map nodes in
  visit_all (visit dependencies (S (size (dom dependencies))))
    start (map fst nodes);;
  Ok tt.

(** Every dependency is the ID of a node ([known] in [ChangePlan]). *)
Definition dependencies_known (nodes : list (uuid * list uuid)) : Prop :=
  ∀ x ds d, (x, ds) ∈ nodes → d ∈ ds → d ∈ map fst nodes.

Lemma dependency_map_closed nodes x d :
  dependencies_known nodes → edge (dependency_map nodes) x d →
  d ∈ dom (dependency_map nodes).
Proof.
  intros Hk (ds & Hds & Hd). unfold dependency_map in *.
  apply elem_of_list_to_map_2 in Hds. rewrite dom_list_to_map.
  apply elem_of_list_to_set. by eapply Hk.
Qed.

(** The search accepts the acyclic graphs and reports a cycle in the others. *)
Lemma validate_acyclic_cases nodes :
  dependencies_known nodes →
  (validate_acyclic nodes = Ok tt ∧ acyclic (dependency_map nodes)) ∨
  (validate_acyclic nodes = Err cycle_error ∧ ¬ acyclic (dependency_map nodes)).
Proof.
  intros Hk. unfold validate_acyclic.
  set (g := dependency_map nodes).
  assert (∀ x d, edge g x d → d ∈ dom g) as Hcl
    by (intros x d; by apply dependency_map_closed).
  assert (∀ x, x ∈ dom g ↔ x ∈ map fst nodes) as Hdom.
  { intros x. unfold g, dependency_map. by rewrite dom_list_to_map, elem_of_list_to_set. }
  pose proof (visit_roots_total g Hcl (map fst nodes) start) as Hr. cbv zeta in Hr.
  destruct Hr as [[H Hc]|(s' & H & Hg)];
    [intros x; apply Hdom|done|intros y; set_solver| |]; rewrite H; simpl.
  - by right.
  - left. split; [done|]. intros x Hx. eapply grounded_acyclic; [|exact Hx].
    apply Hg, Hdom, elem_of_dom. inversion Hx as [? ? (ds&?&?)|? ? ? (ds&?&?)]; subst;
      by eexists.
Qed.
