(* ===== verification/ModelsPlan.v ===== *)
(** * ModelsPlan: [ChangePlan] of [src/src/master_agent/models.py]

    The immutable set of actions approvals bind to.  [cp_trusted] is the
    in-process admission marker [_trusted_strategy_coherence_admission], which
    no serialisation carries. *)

From S2P Require Import Prelude PyText PyJson PyHash PyTime PyStd ResourceLimits.
From S2P Require Import ModelsBase PlatformIdentity ModelsSystems ModelsReviews.
From S2P Require Import ModelsAction ModelsBindings ModelsContext ActionGraph.
From Stdlib Require Import Ascii.

Open Scope Z_scope.

Record ChangePlan : Type := mk_ChangePlan {
  cp_goal : string;
  cp_actions : list AgentAction;
  cp_created_by : string;
  cp_plan_id : uuid;
  cp_created_at : datetime;
  cp_schema_version : string;
  cp_workflow_id : option string;
  cp_workflow_fingerprint : option string;
  cp_compensate_on_failure : bool;
  cp_execution_context : option ExecutionContext;
  cp_systems_assessment : option SystemsAssessment;
  cp_systems_decision : option SystemsGateDecision;
  cp_strategy_traces : list StrategyActionTrace;
  cp_strategy_coherence_review : option StrategyCoherenceReview;
  cp_trusted : bool;
}.

(** ** [__post_init__] *)

(** The decision is permitted and bound to the assessment and the review. *)
Definition check_systems_binding (self : ChangePlan) : result unit :=
  raise_if (negb (Bool.eqb (is_someb (cp_systems_assessment self))
                           (is_someb (cp_systems_decision self))))
    (ValidationError "systems assessment and gate decision must be supplied together");;
  match cp_systems_assessment self, cp_systems_decision self with
  | Some assessment, Some decision =>
      raise_if (negb (sd_permitted decision))
        (ValidationError "a denied systems decision cannot bind a plan");;
      raise_if (negb (sd_assessment_fingerprint decision
                      =? SystemsAssessment_fingerprint assessment)%string)
        (ValidationError "systems gate decision is not bound to the plan assessment");;
      raise_if (negb (sd_complexity_score decision
                      =? SystemsAssessment_complexity_score assessment))
        (ValidationError
           "systems gate decision complexity does not match the assessment");;
      raise_if (negb (bool_decide (sd_strategy_coherence_review_fingerprint decision
                 = StrategyCoherenceReview_fingerprint <$> cp_strategy_coherence_review self)))
        (ValidationError
           "systems gate decision does not match the strategy coherence review")
  | _, _ => Ok tt
  end.

Definition check_plan_text (self : ChangePlan) : result unit :=
  raise_if (is_blank (cp_goal self)) (ValidationError "goal must not be empty");;
  validate_bounded_string (cp_goal self) "goal";;
  reject_control_characters (cp_goal self) "goal";;
  raise_if (is_blank (cp_created_by self)) (ValidationError "created_by must not be empty");;
  validate_bounded_string (cp_created_by self) "created_by";;
  raise_if (is_some_blank (cp_workflow_id self))
    (ValidationError "workflow_id must not be empty when supplied");;
  raise_if (is_some_blank (cp_workflow_fingerprint self))
    (ValidationError "workflow_fingerprint must not be empty when supplied");;
  raise_if (is_someb (cp_workflow_fingerprint self) && negb (is_someb (cp_workflow_id self)))
    (ValidationError "workflow_fingerprint requires workflow_id");;
  when_some (cp_workflow_id self) (λ v, validate_bounded_string v "workflow_id");;
  when_some (cp_workflow_fingerprint self)
    (λ v, validate_bounded_string v "workflow_fingerprint").

(** The aggregate limit on the parameter bytes of the actions. *)
Fixpoint check_parameter_bytes (parameter_bytes : Z) (actions : list AgentAction)
    : result unit :=
  match actions with
  | [] => Ok tt
  | action :: actions =>
      usage ← measure_json_resources (JDict (aa_parameters action)) "action parameters"
                MAX_ACTION_PARAMETER_BYTES;
      let parameter_bytes := parameter_bytes + scalar_bytes usage in
      raise_if (MAX_PLAN_PARAMETER_BYTES <? parameter_bytes)
        (ValidationError "change plan exceeds the aggregate parameter-byte limit");;
      check_parameter_bytes parameter_bytes actions
  end.

Definition plan_graph (actions : list AgentAction) : list (uuid * list uuid) :=
  map (λ a, (aa_action_id a, aa_dependencies a)) actions.

(** The IDs and keys are unique, every dependency is known, and there is no
    cycle.  (The message leaves out the printed set of unknown IDs, whose
    order Python does not fix.) *)
Definition check_plan_graph (actions : list AgentAction) : result unit :=
  let known := map aa_action_id actions in
  raise_if (negb (nodupb known)) (ValidationError "action IDs must be unique");;
  raise_if (negb (nodupb (map aa_idempotency_key actions)))
    (ValidationError "idempotency keys must be unique within a plan");;
  for_each (λ a : AgentAction,
    raise_if (existsb (λ d, negb (bool_decide (d ∈ known))) (aa_dependencies a))
      (ValidationError ("action " +:+ uuid_str (aa_action_id a)
         +:+ " has unknown dependencies"))) actions;;
  validate_acyclic (plan_graph actions).

Definition systems_binding_payload (self : ChangePlan) (assessment : SystemsAssessment)
    : dict :=
  [("systems_assessment", JDict (SystemsAssessment_to_dict assessment));
   ("systems_decision",
    opt_json (λ d, JDict (SystemsGateDecision_to_dict d)) (cp_systems_decision self));
   ("strategy_coherence_review",
    opt_json (λ r, JDict (StrategyCoherenceReview_to_dict r))
      (cp_strategy_coherence_review self))].

Definition ChangePlan_checks (self : ChangePlan) : result unit :=
  check_systems_binding self;;
  check_plan_text self;;
  raise_if (too_many (cp_actions self))
    (ValidationError ("change plan exceeds the " +:+ pretty MAX_PLAN_ACTIONS
       +:+ "-action limit"));;
  raise_if (too_many (cp_strategy_traces self))
    (ValidationError ("change plan exceeds the " +:+ pretty MAX_PLAN_ACTIONS
       +:+ "-strategy-trace limit"));;
  raise_if (match cp_actions self with [] => true | _ => false end)
    (ValidationError "a change plan must contain at least one action");;
  check_parameter_bytes 0 (cp_actions self);;
  check_plan_graph (cp_actions self);;
  when_some (cp_systems_assessment self) (λ assessment,
    measure_json_resources (JDict (systems_binding_payload self assessment))
      "systems governance binding" MAX_PLAN_BYTES;;
    Ok tt).

Definition ChangePlan_post_init (self : ChangePlan) : result ChangePlan :=
  ChangePlan_checks self;; Ok self.

(** ** Serialisation *)

(** [k: x.to_dict()], only when there is an [x]. *)
Definition opt_entry {A} (k : string) (f : A → dict) (o : option A) : dict :=
  match o with Some a => [(k, JDict (f a))] | None => [] end.

Definition list_entry {A} (k : string) (f : A → dict) (l : list A) : dict :=
  match l with [] => [] | _ => [(k, JList (map (λ x, JDict (f x)) l))] end.

Definition plan_payload (self : ChangePlan) : dict :=
  [("schema_version", JStr (cp_schema_version self));
   ("plan_id", JStr (uuid_str (cp_plan_id self)));
   ("goal", JStr (cp_goal self));
   ("created_by", JStr (cp_created_by self));
   ("created_at", JStr (isoformat (cp_created_at self)));
   ("workflow_id", opt_json JStr (cp_workflow_id self));
   ("workflow_fingerprint", opt_json JStr (cp_workflow_fingerprint self));
   ("compensate_on_failure", JBool (cp_compensate_on_failure self));
   ("actions", JList (map (λ a, JDict (AgentAction_to_dict a)) (cp_actions self)))]
  ++ opt_entry "execution_context" ExecutionContext_to_dict (cp_execution_context self)
  ++ list_entry "strategy_traces" StrategyActionTrace_to_dict (cp_strategy_traces self)
  ++ opt_entry "strategy_coherence_review" StrategyCoherenceReview_to_dict
       (cp_strategy_coherence_review self)
  ++ match cp_systems_assessment self, cp_systems_decision self with
     | Some assessment, Some decision =>
         [("systems_assessment", JDict (SystemsAssessment_to_dict assessment));
          ("systems_decision", JDict (SystemsGateDecision_to_dict decision))]
     | _, _ => []
     end.

Definition ChangePlan_to_dict (self : ChangePlan) : result dict :=
  raise_if (is_someb (cp_systems_assessment self)
            && negb (is_someb (cp_systems_decision self)))
    (ValidationError "systems gate decision is missing");;
  Ok (plan_payload self).

(** A constructed plan serialises ([ChangePlan_to_dict_Ok] below) and its
    parameters are finite. *)
Definition ChangePlan_fingerprint (self : ChangePlan) : string :=
  digest_json (JDict (plan_payload self)).

(** [X.from_dict(_expect_mapping(data, k)) if data.get(k) is not None else None]. *)
Definition opt_object {A} (parse : dict → result A) (data : dict) (k : string)
    : result (option A) :=
  match dict_get data k with
  | JNull => Ok None
  | _ => d ← expect_mapping data k; a ← parse d; Ok (Some a)
  end.

Definition ChangePlan_from_dict (data : dict) : result ChangePlan :=
  measure_json_resources (JDict data) "change plan" MAX_PLAN_BYTES;;
  let raw_actions := dict_get data "actions" in
  raise_if (negb (is_list raw_actions)) (ValidationError "actions must be a list");;
  raise_if (match raw_actions with JList l => too_many l | _ => false end)
    (ValidationError ("change plan exceeds the " +:+ pretty MAX_PLAN_ACTIONS
       +:+ "-action limit"));;
  actions_data ← or_raise (json_mappings raw_actions)
    (ValidationError "actions must contain objects");
  traces_data ← or_raise (json_mappings (dict_get_or data "strategy_traces" (JList [])))
    (ValidationError "strategy_traces must contain objects");
  id_text ← item_str data "plan_id";
  plan_id ← uuid_parse id_text;
  goal ← item_str data "goal";
  created_by ← item_str data "created_by";
  created_text ← item_str data "created_at";
  created_at ← fromisoformat created_text;
  compensate ← strict_bool (dict_get_or data "compensate_on_failure" (JBool false))
    "compensate_on_failure";
  execution_context ← opt_object ExecutionContext_from_dict data "execution_context";
  systems_assessment ← opt_object SystemsAssessment_from_dict data "systems_assessment";
  systems_decision ← opt_object SystemsGateDecision_from_dict data "systems_decision";
  strategy_traces ← mapM StrategyActionTrace_from_dict traces_data;
  review ← opt_object StrategyCoherenceReview_from_dict data "strategy_coherence_review";
  actions ← mapM AgentAction_from_dict actions_data;
  ChangePlan_post_init {|
    cp_schema_version := get_str data "schema_version" "1.0";
    cp_plan_id := plan_id; cp_goal := goal; cp_created_by := created_by;
    cp_created_at := created_at;
    cp_workflow_id := opt_str data "workflow_id";
    cp_workflow_fingerprint := opt_str data "workflow_fingerprint";
    cp_compensate_on_failure := compensate;
    cp_execution_context := execution_context;
    cp_systems_assessment := systems_assessment;
    cp_systems_decision := systems_decision;
    cp_strategy_traces := strategy_traces;
    cp_strategy_coherence_review := review;
    cp_actions := actions;
    cp_trusted := false |}.

Definition set_trusted (trusted : bool) (self : ChangePlan) : ChangePlan :=
  mk_ChangePlan (cp_goal self) (cp_actions self) (cp_created_by self) (cp_plan_id self)
    (cp_created_at self) (cp_schema_version self) (cp_workflow_id self)
    (cp_workflow_fingerprint self) (cp_compensate_on_failure self)
    (cp_execution_context self) (cp_systems_assessment self) (cp_systems_decision self)
    (cp_strategy_traces self) (cp_strategy_coherence_review self) trusted.

Definition with_trusted_strategy_coherence_admission (self : ChangePlan) : ChangePlan :=
  set_trusted true self.

Definition has_trusted_strategy_coherence_admission (self : ChangePlan) : bool :=
  cp_trusted self.

Definition execution_snapshot (self : ChangePlan) : result ChangePlan :=
  data ← ChangePlan_to_dict self;
  snapshot ← ChangePlan_from_dict data;
  Ok (if has_trusted_strategy_coherence_admission self
      then with_trusted_strategy_coherence_admission snapshot else snapshot).

(** ** Laws *)

(** Every object inside is one its class constructs. *)
Definition plan_parts_wf (self : ChangePlan) : Prop :=
  Forall wf (cp_actions self) ∧ Forall wf (cp_strategy_traces self)
  ∧ uuid_valid (cp_plan_id self) = true ∧ datetime_valid (cp_created_at self) = true
  ∧ (∀ c, cp_execution_context self = Some c → wf c)
  ∧ (∀ a, cp_systems_assessment self = Some a → wf a)
  ∧ (∀ d, cp_systems_decision self = Some d → wf d)
  ∧ (∀ r, cp_strategy_coherence_review self = Some r → wf r).

(** A plan object of the runtime. *)
Definition plan_wf (self : ChangePlan) : Prop :=
  ChangePlan_post_init self = Ok self ∧ plan_parts_wf self.

Lemma ChangePlan_post_init_id x y : ChangePlan_post_init x = Ok y → y = x.
Proof. unfold ChangePlan_post_init. intros H. by inv_ok. Qed.

(** The marker takes no part in construction. *)
Lemma ChangePlan_post_init_untrusted x b :
  ChangePlan_post_init x = Ok x → ChangePlan_post_init (set_trusted b x) = Ok (set_trusted b x).
Proof.
  unfold ChangePlan_post_init.
  assert (ChangePlan_checks (set_trusted b x) = ChangePlan_checks x) as -> by reflexivity.
  by intros ([] & -> & _)%bind_Ok.
Qed.

Lemma plan_systems_together x :
  ChangePlan_post_init x = Ok x →
  is_someb (cp_systems_assessment x) = is_someb (cp_systems_decision x).
Proof.
  unfold ChangePlan_post_init, ChangePlan_checks, check_systems_binding.
  intros H. inv_ok. to_prop.
  by apply eqb_prop.
Qed.

Lemma ChangePlan_to_dict_Ok x :
  ChangePlan_post_init x = Ok x → ChangePlan_to_dict x = Ok (plan_payload x).
Proof.
  intros H%plan_systems_together. unfold ChangePlan_to_dict. rewrite H.
  by rewrite andb_negb_r.
Qed.

(** The reads of [from_dict] on the mapping [to_dict] writes. *)
Lemma plan_payload_reads x :
  is_someb (cp_systems_assessment x) = is_someb (cp_systems_decision x) →
  let d := plan_payload x in
  dict_get d "execution_context"
    = opt_json (λ c, JDict (ExecutionContext_to_dict c)) (cp_execution_context x)
  ∧ dict_get_or d "strategy_traces" (JList [])
    = JList (map (λ t, JDict (StrategyActionTrace_to_dict t)) (cp_strategy_traces x))
  ∧ dict_get d "strategy_coherence_review"
    = opt_json (λ r, JDict (StrategyCoherenceReview_to_dict r))
        (cp_strategy_coherence_review x)
  ∧ dict_get d "systems_assessment"
    = opt_json (λ a, JDict (SystemsAssessment_to_dict a)) (cp_systems_assessment x)
  ∧ dict_get d "systems_decision"
    = opt_json (λ d, JDict (SystemsGateDecision_to_dict d)) (cp_systems_decision x).
Proof.
  destruct x as [? ? ? ? ? ? ? ? ? [|] [|] [|] [|] [|] ?]; intros H; try discriminate H;
    by split_and!.
Qed.

Lemma opt_object_read {A} `{DataclassLaws A} (d : dict) k (o : option A) :
  dict_get d k = opt_json (λ a, JDict (to_dict a)) o → (∀ a, o = Some a → wf a) →
  opt_object from_dict d k = Ok o.
Proof.
  intros Hk Hwf. unfold opt_object, expect_mapping. rewrite Hk.
  destruct o as [a|]; simpl; [|done]. by rewrite from_to_dict by eauto.
Qed.

Lemma opt_object_wf {A} `{DataclassLaws A} (d : dict) k (o : option A) a :
  opt_object from_dict d k = Ok o → o = Some a → wf a.
Proof.
  unfold opt_object. intros Ho ->.
  destruct (dict_get d k); inv_ok; simplify_eq; by eapply from_dict_wf.
Qed.

(** Parsing what a plan serialises gives the plan back, without the in-process
    marker; only the size limit of [from_dict] can reject it. *)
Lemma plan_from_payload x :
  plan_wf x →
  ChangePlan_from_dict (plan_payload x)
  = (measure_json_resources (JDict (plan_payload x)) "change plan" MAX_PLAN_BYTES;;
     Ok (set_trusted false x)).
Proof.
  intros (H & Ha & Ht & Hid & Hdt & Hc & Hs & Hd & Hr).
  destruct (plan_payload_reads x (plan_systems_together _ H)) as (E1 & E2 & E3 & E4 & E5).
  unfold ChangePlan_from_dict. destruct (measure_json_resources _ _ _); [|done]. simpl.
  rewrite E2.
  rewrite_law (opt_object_read (A := ExecutionContext) _ _ _ E1 Hc).
  rewrite_law (opt_object_read (A := SystemsAssessment) _ _ _ E4 Hs).
  rewrite_law (opt_object_read (A := SystemsGateDecision) _ _ _ E5 Hd).
  rewrite_law (opt_object_read (A := StrategyCoherenceReview) _ _ _ E3 Hr).
  unfold plan_payload. autorewrite with roundtrip.
  assert (too_many (map (λ a, JDict (AgentAction_to_dict a)) (cp_actions x)) = false) as Hmany.
  { unfold too_many. rewrite length_map.
    unfold ChangePlan_post_init, ChangePlan_checks in H. by inv_ok. }
  assert (opt_str (plan_payload x) "workflow_id" = cp_workflow_id x
    ∧ opt_str (plan_payload x) "workflow_fingerprint" = cp_workflow_fingerprint x)
    as [Ew Ef] by (by destruct x as [? ? ? ? ? ? [|] [|]]).
  unfold plan_payload in Ew, Ef. rewrite Ew, Ef.
  read_keys. rewrite Hmany. autorewrite with roundtrip. simpl.
  rewrite uuid_parse_str by done. simpl. rewrite fromisoformat_isoformat by done. simpl.
  rewrite_law (mapM_from_to_dict (A := StrategyActionTrace) _ Ht). simpl.
  rewrite_law (mapM_from_to_dict (A := AgentAction) _ Ha). simpl.
  apply ChangePlan_post_init_untrusted, H.
Qed.

(** The snapshot execution works on is the plan, marker included. *)
Lemma execution_snapshot_plan x :
  plan_wf x →
  execution_snapshot x
  = (measure_json_resources (JDict (plan_payload x)) "change plan" MAX_PLAN_BYTES;; Ok x).
Proof.
  intros H. unfold execution_snapshot. rewrite ChangePlan_to_dict_Ok by apply H. simpl.
  rewrite plan_from_payload by done. destruct (measure_json_resources _ _ _); [|done].
  simpl. by destruct x as [? ? ? ? ? ? ? ? ? ? ? ? ? ? []].
Qed.

(** Every parsed plan is a plan object without the marker. *)
Lemma ChangePlan_from_dict_wf d x :
  ChangePlan_from_dict d = Ok x → plan_wf x ∧ cp_trusted x = false.
Proof.
  intros H. unfold ChangePlan_from_dict in H. inv_ok.
  pose proof (ChangePlan_post_init_id _ _ H) as ->.
  split; [|done]. split; [done|]. unfold plan_parts_wf. simpl. split_and!.
  - by use_law (mapM_from_dict_wf (A := AgentAction)).
  - by use_law (mapM_from_dict_wf (A := StrategyActionTrace)).
  - by eapply uuid_parse_valid.
  - by eapply fromisoformat_valid.
  - intros c. by use_law (opt_object_wf (A := ExecutionContext)).
  - intros c. by use_law (opt_object_wf (A := SystemsAssessment)).
  - intros c. by use_law (opt_object_wf (A := SystemsGateDecision)).
  - intros c. by use_law (opt_object_wf (A := StrategyCoherenceReview)).
Qed.
