(* ===== verification/PlanBinding.v ===== *)
(** * PlanBinding: what a plan's fingerprint binds

    [ChangePlan.fingerprint] and [AgentAction.effect_fingerprint] identify what
    they digest: two plans with the same fingerprint agree on every field an
    approval is about, unless their canonical texts are a SHA-256 collision. *)

From S2P Require Import Prelude PyText PyJson PyHash PyTime PyStd ResourceLimits.
From S2P Require Import JsonCanonical ModelsBase PlatformIdentity ModelsSystems.
From S2P Require Import ModelsReviews ModelsAction ModelsBindings ModelsContext.
From S2P Require Import ModelsPlan.
From Stdlib Require Import Ascii.

Open Scope Z_scope.

(** ** Payloads without floats *)

Lemma json_ok_JDict d : json_ok (JDict d) = forallb entry_ok d.
Proof. done. Qed.

Lemma json_ok_str_list l : json_ok (str_list l) = true.
Proof. unfold str_list. simpl. by induction l. Qed.

Lemma json_ok_dicts {A} (f : A → dict) l :
  (∀ x, x ∈ l → json_ok (JDict (f x)) = true) →
  json_ok (JList (map (λ x, JDict (f x)) l)) = true.
Proof.
  intros H. simpl. induction l as [|x l IH]; [done|]. cbn [map forallb].
  rewrite H by set_solver. apply IH. set_solver.
Qed.

Lemma json_ok_entry {A} k (f : A → dict) o :
  (∀ a, json_ok (JDict (f a)) = true) → forallb entry_ok (opt_entry k f o) = true.
Proof. intros H. destruct o as [a|]; [|done]. cbn [opt_entry forallb entry_ok]. by rewrite H. Qed.

Lemma json_ok_list_entry {A} k (f : A → dict) l :
  (∀ a, json_ok (JDict (f a)) = true) → forallb entry_ok (list_entry k f l) = true.
Proof.
  intros H. pose proof (json_ok_dicts f l (λ a _, H a)) as Hl.
  destruct l; [done|]. cbn [list_entry forallb entry_ok]. by rewrite Hl.
Qed.

Lemma json_ok_opt_str (o : option string) : json_ok (opt_json JStr o) = true.
Proof. by destruct o. Qed.

(** Check the entries of a literal payload, given facts on the nested ones. *)
Ltac json_ok_entries :=
  rewrite ?json_ok_JDict; cbn [app forallb entry_ok map fst snd];
  rewrite ?forallb_app; cbn [forallb entry_ok];
  rewrite ?json_ok_str_list, ?json_ok_opt_str.

Lemma json_ok_Intent x : json_ok (JDict (StrategyActionIntent_to_dict x)) = true.
Proof. done. Qed.
Lemma json_ok_Kernel x : json_ok (JDict (StrategyKernel_to_dict x)) = true.
Proof.
  unfold StrategyKernel_to_dict. json_ok_entries.
  by rewrite json_ok_dicts by (intros; apply json_ok_Intent).
Qed.
Lemma json_ok_Assessment x : json_ok (JDict (SystemsAssessment_to_dict x)) = true.
Proof.
  unfold SystemsAssessment_to_dict. json_ok_entries. rewrite json_ok_dicts by done.
  destruct (sa_strategy_kernel x) as [k|]; json_ok_entries; [|done].
  by rewrite json_ok_Kernel.
Qed.
Lemma json_ok_Review x : json_ok (JDict (StrategyCoherenceReview_to_dict x)) = true.
Proof.
  unfold StrategyCoherenceReview_to_dict, strategy_coherence_findings. by json_ok_entries.
Qed.
Lemma json_ok_Decision x : json_ok (JDict (SystemsGateDecision_to_dict x)) = true.
Proof.
  unfold SystemsGateDecision_to_dict. json_ok_entries.
  by destruct (sd_strategy_coherence_review_fingerprint x).
Qed.
Lemma json_ok_Connector x : json_ok (JDict (ConnectorExecutionBinding_to_dict x)) = true.
Proof.
  unfold ConnectorExecutionBinding_to_dict. json_ok_entries.
  by destruct (ceb_credential_identity x).
Qed.
Lemma json_ok_Identity x : json_ok (JDict (PlatformObjectIdentity_to_dict x)) = true.
Proof.
  unfold PlatformObjectIdentity_to_dict.
  by destruct (_ =? _)%string, x as [? ? [] [] [] [] [] [] [] [] [] ?].
Qed.
Lemma json_ok_RuntimePath x : json_ok (JDict (RuntimePathExecutionBinding_to_dict x)) = true.
Proof.
  unfold RuntimePathExecutionBinding_to_dict.
  destruct (rpb_object_identity x) as [i|]; json_ok_entries; [|done].
  by rewrite json_ok_Identity.
Qed.
Lemma json_ok_Runtime x : json_ok (JDict (RuntimeExecutionBinding_to_dict x)) = true.
Proof.
  unfold RuntimeExecutionBinding_to_dict. json_ok_entries.
  rewrite !json_ok_dicts by (intros; (done || apply json_ok_RuntimePath)).
  by destruct (reb_credential_file x).
Qed.
Lemma json_ok_Capsule x : json_ok (JDict (CapsuleBinding_to_dict x)) = true.
Proof.
  unfold CapsuleBinding_to_dict, capsule_digests, capsule_claims. cbn [firstn].
  by json_ok_entries.
Qed.
Lemma json_ok_Context x : json_ok (JDict (ExecutionContext_to_dict x)) = true.
Proof.
  unfold ExecutionContext_to_dict. json_ok_entries.
  rewrite !json_ok_dicts by (intros; (done || apply json_ok_Connector)).
  assert (forallb entry_ok (match ec_runtime x with
    | Some r => [("runtime", JDict (RuntimeExecutionBinding_to_dict r))]
    | None => []
    end) = true) as ->.
  { apply (json_ok_entry "runtime" _ (ec_runtime x)), json_ok_Runtime. }
  pose proof (json_ok_list_entry "capsules" _ (ec_capsules x) json_ok_Capsule) as Hc.
  cbn [json_ok andb]. destruct (ec_capsules x); [done|exact Hc].
Qed.

(** The parameters of an action spell every float as Python does. *)
Definition parameters_ok (a : AgentAction) : Prop := json_ok (JDict (aa_parameters a)) = true.

Lemma json_ok_Ref x : json_ok (JDict (ResourceRef_to_dict x)) = true.
Proof. by destruct x as [? ? ? []]. Qed.
Lemma json_ok_Action x : parameters_ok x → json_ok (JDict (AgentAction_to_dict x)) = true.
Proof.
  unfold parameters_ok. intros H. unfold AgentAction_to_dict. json_ok_entries.
  by rewrite H, json_ok_Ref.
Qed.
Lemma json_ok_effect x : parameters_ok x → json_ok (JDict (effect_payload x)) = true.
Proof.
  unfold parameters_ok. intros H. unfold effect_payload. json_ok_entries.
  by rewrite H, json_ok_Ref.
Qed.

Lemma json_ok_plan p :
  Forall parameters_ok (cp_actions p) → json_ok (JDict (plan_payload p)) = true.
Proof.
  intros Hp. unfold plan_payload. json_ok_entries. rewrite json_ok_dicts.
  2: { intros a Ha. apply json_ok_Action. by eapply Forall_forall in Hp. }
  rewrite !json_ok_entry by (apply json_ok_Context || apply json_ok_Review).
  rewrite json_ok_list_entry by done.
  destruct (cp_systems_assessment p) as [a|], (cp_systems_decision p) as [d|]; try done.
  json_ok_entries. by rewrite json_ok_Assessment, json_ok_Decision.
Qed.

(** ** Reading equal payloads *)

Lemma enum_str_inj {A} `{StrEnumLaws A} (a b : A) : enum_str a = enum_str b → a = b.
Proof.
  intros E. pose proof (enum_parse_str a) as Ha. rewrite E, enum_parse_str in Ha. congruence.
Qed.

Lemma norm_str_list l : norm (str_list l) = str_list l.
Proof. unfold str_list. simpl. f_equal. rewrite map_map. by apply map_ext. Qed.

Lemma cons_eq_inv {A} (x y : A) l l' : x :: l = y :: l' → x = y ∧ l = l'.
Proof. split; congruence. Qed.

Lemma JStr_inj s t : JStr s = JStr t → s = t.
Proof. congruence. Qed.

Lemma str_list_inj l l' : str_list l = str_list l' → l = l'.
Proof.
  unfold str_list. intros [= E]. revert l' E.
  induction l as [|x l IH]; intros [|y l'] E; try discriminate E; [done|].
  injection E as -> E. f_equal. by apply IH.
Qed.

Lemma uuid_list_inj l l' :
  Forall (λ d, uuid_valid d = true) l → Forall (λ d, uuid_valid d = true) l' →
  map uuid_str l = map uuid_str l' → l = l'.
Proof.
  intros Hl. revert l'. induction Hl as [|x l Hx _ IH]; intros [|y l'] Hl' E;
    try discriminate E; [done|].
  cbn [map] in E. apply cons_eq_inv in E as [Ex El].
  apply Forall_cons in Hl' as [Hy Hl'].
  f_equal; [by apply uuid_str_inj|by apply IH].
Qed.

Lemma norm_dicts {A} (f : A → dict) l l' :
  norm (JList (map (λ x, JDict (f x)) l)) = norm (JList (map (λ x, JDict (f x)) l')) →
  Forall2 (λ x y, norm (JDict (f x)) = norm (JDict (f y))) l l'.
Proof.
  cbn [norm]. intros [= E]. revert l' E.
  induction l as [|x l IH]; intros [|y l'] E; try discriminate E; constructor;
    cbn [map] in E; injection E as Ex El; [|by apply IH].
  cbn [norm]. by f_equal.
Qed.

Lemma isoformat_inj d d' :
  datetime_valid d = true → datetime_valid d' = true → isoformat d = isoformat d' → d = d'.
Proof.
  intros Hd Hd' E. apply fromisoformat_isoformat in Hd, Hd'. rewrite E in Hd. congruence.
Qed.

Definition same_json (d d' : dict) : Prop := norm (JDict d) = norm (JDict d').

(** The two actions are the same, up to the order of the parameters' keys. *)
Definition action_agrees (a b : AgentAction) : Prop :=
  aa_action_id a = aa_action_id b ∧ aa_capability a = aa_capability b
  ∧ aa_target a = aa_target b ∧ same_json (aa_parameters a) (aa_parameters b)
  ∧ aa_risk a = aa_risk b ∧ aa_data_classification a = aa_data_classification b
  ∧ aa_authority_source a = aa_authority_source b
  ∧ aa_requires_approval a = aa_requires_approval b
  ∧ aa_idempotency_key a = aa_idempotency_key b ∧ aa_justification a = aa_justification b
  ∧ aa_dependencies a = aa_dependencies b.

Lemma ref_keys x : NoDup (map fst (ResourceRef_to_dict x)).
Proof. apply (bool_decide_unpack _). by vm_compute. Qed.
Lemma action_keys x : NoDup (map fst (AgentAction_to_dict x)).
Proof. apply (bool_decide_unpack _). by vm_compute. Qed.
Lemma effect_keys x : NoDup (map fst (effect_payload x)).
Proof. apply (bool_decide_unpack _). by vm_compute. Qed.

Lemma dict_value d d' k :
  NoDup (map fst d) → NoDup (map fst d') → same_json d d' →
  norm (dict_get d k) = norm (dict_get d' k).
Proof.
  intros Hd Hd' H. pose proof (norm_dict_lookup d d' k Hd Hd' H) as E.
  unfold dict_get, dict_get_or.
  destruct (dict_lookup d k), (dict_lookup d' k); simpl in E; congruence.
Qed.

Lemma ref_agrees x y : same_json (ResourceRef_to_dict x) (ResourceRef_to_dict y) → x = y.
Proof.
  intros H. pose proof (λ k, dict_value _ _ k (ref_keys x) (ref_keys y) H) as E.
  pose proof (E "system") as E1. pose proof (E "resource_type") as E2.
  pose proof (E "resource_id") as E3. pose proof (E "expected_version") as E4.
  destruct x as [? ? ? v], y as [? ? ? v']. cbn in E1, E2, E3, E4.
  destruct v, v'; cbn in E4; congruence.
Qed.

Lemma action_agrees_payload a b :
  wf a → wf b → same_json (AgentAction_to_dict a) (AgentAction_to_dict b) →
  action_agrees a b.
Proof.
  intros (_ & _ & Hai & Had) (_ & _ & Hbi & Hbd) H.
  pose proof (λ k, dict_value _ _ k (action_keys a) (action_keys b) H) as E.
  unfold action_agrees. split_and!.
  - apply uuid_str_inj; [done|done|]. exact (JStr_inj _ _ (E "action_id")).
  - exact (JStr_inj _ _ (E "capability")).
  - exact (ref_agrees _ _ (E "target")).
  - exact (E "parameters").
  - apply enum_str_inj. exact (JStr_inj _ _ (E "risk")).
  - apply enum_str_inj. exact (JStr_inj _ _ (E "data_classification")).
  - apply enum_str_inj. exact (JStr_inj _ _ (E "authority_source")).
  - pose proof (E "requires_approval") as E1. by injection E1.
  - exact (JStr_inj _ _ (E "idempotency_key")).
  - exact (JStr_inj _ _ (E "justification")).
  - pose proof (E "dependencies") as E1.
    change (norm (str_list (map uuid_str (aa_dependencies a)))
            = norm (str_list (map uuid_str (aa_dependencies b)))) in E1.
    rewrite !norm_str_list in E1. by apply str_list_inj, uuid_list_inj in E1.
Qed.

(** The two plans agree on what an approval, the policy and the audit trail
    see of them. *)
Definition plan_agrees (p q : ChangePlan) : Prop :=
  cp_plan_id p = cp_plan_id q ∧ cp_goal p = cp_goal q ∧ cp_created_by p = cp_created_by q
  ∧ cp_created_at p = cp_created_at q ∧ cp_schema_version p = cp_schema_version q
  ∧ cp_workflow_id p = cp_workflow_id q
  ∧ cp_workflow_fingerprint p = cp_workflow_fingerprint q
  ∧ cp_compensate_on_failure p = cp_compensate_on_failure q
  ∧ Forall2 action_agrees (cp_actions p) (cp_actions q)
  ∧ cp_strategy_traces p = cp_strategy_traces q
  ∧ ExecutionContext_fingerprint <$> cp_execution_context p
    = ExecutionContext_fingerprint <$> cp_execution_context q
  ∧ StrategyCoherenceReview_fingerprint <$> cp_strategy_coherence_review p
    = StrategyCoherenceReview_fingerprint <$> cp_strategy_coherence_review q
  ∧ SystemsAssessment_fingerprint <$> cp_systems_assessment p
    = SystemsAssessment_fingerprint <$> cp_systems_assessment q
  ∧ SystemsGateDecision_fingerprint <$> cp_systems_decision p
    = SystemsGateDecision_fingerprint <$> cp_systems_decision q.

Lemma plan_keys p : NoDup (map fst (plan_payload p)).
Proof.
  apply (bool_decide_unpack _).
  by destruct p as [? ? ? ? ? ? ? ? ? [] [] [] [] [] ?].
Qed.

Lemma opt_digests {A} (f : A → dict) (o o' : option A) :
  norm (opt_json (λ c, JDict (f c)) o) = norm (opt_json (λ c, JDict (f c)) o') →
  (λ c, digest_json (JDict (f c))) <$> o = (λ c, digest_json (JDict (f c))) <$> o'.
Proof.
  destruct o as [a|], o' as [b|]; try done; try discriminate. cbn [opt_json fmap option_fmap option_map].
  intros E. unfold digest_json, canonical_text. by rewrite E.
Qed.

Lemma opt_text_inj (o o' : option string) :
  norm (opt_json JStr o) = norm (opt_json JStr o') → o = o'.
Proof. destruct o, o'; cbn; congruence. Qed.

Lemma trace_agrees x y :
  wf x → wf y → same_json (StrategyActionTrace_to_dict x) (StrategyActionTrace_to_dict y) →
  x = y.
Proof.
  intros [_ Hx] [_ Hy] H.
  assert (∀ t, NoDup (map fst (StrategyActionTrace_to_dict t))) as Hk
    by (intros t; apply (bool_decide_unpack _); by vm_compute).
  pose proof (λ k, dict_value _ _ k (Hk x) (Hk y) H) as E.
  pose proof (JStr_inj _ _ (E "schema")). pose proof (JStr_inj _ _ (E "intent_id")).
  assert (st_action_id x = st_action_id y)
    by (apply uuid_str_inj; [done|done|exact (JStr_inj _ _ (E "action_id"))]).
  destruct x, y; simpl in *; congruence.
Qed.

Lemma Forall2_wf_impl {A} `{Dataclass A} (R R' : A → A → Prop) l l' :
  (∀ x y, wf x → wf y → R x y → R' x y) → Forall wf l → Forall wf l' →
  Forall2 R l l' → Forall2 R' l l'.
Proof.
  intros HR Hl Hl' HF. revert Hl Hl'. induction HF; intros; [constructor|].
  repeat match goal with H : Forall wf (_ :: _) |- _ => apply Forall_cons in H as [??] end.
  constructor; auto.
Qed.

(** Payloads equal up to key order belong to plans that agree. *)
Lemma plan_agrees_payload p q :
  plan_wf p → plan_wf q → same_json (plan_payload p) (plan_payload q) → plan_agrees p q.
Proof.
  intros (Hp & Hpa & Hpt & Hpi & Hpd & _) (Hq & Hqa & Hqt & Hqi & Hqd & _) H.
  pose proof (λ k, dict_value _ _ k (plan_keys p) (plan_keys q) H) as E.
  destruct (plan_payload_reads p (plan_systems_together _ Hp)) as (P1 & P2 & P3 & P4 & P5).
  destruct (plan_payload_reads q (plan_systems_together _ Hq)) as (Q1 & Q2 & Q3 & Q4 & Q5).
  unfold plan_agrees. split_and!.
  - apply uuid_str_inj; [done|done|]. exact (JStr_inj _ _ (E "plan_id")).
  - exact (JStr_inj _ _ (E "goal")).
  - exact (JStr_inj _ _ (E "created_by")).
  - apply isoformat_inj; [done|done|]. exact (JStr_inj _ _ (E "created_at")).
  - exact (JStr_inj _ _ (E "schema_version")).
  - exact (opt_text_inj _ _ (E "workflow_id")).
  - exact (opt_text_inj _ _ (E "workflow_fingerprint")).
  - pose proof (E "compensate_on_failure") as E1. by injection E1.
  - eapply Forall2_wf_impl; [apply action_agrees_payload|done|done|].
    exact (norm_dicts AgentAction_to_dict _ _ (E "actions")).
  - apply list_eq_Forall2. eapply Forall2_wf_impl; [apply trace_agrees|done|done|].
    pose proof (norm_dict_lookup _ _ "strategy_traces" (plan_keys p) (plan_keys q) H) as E1.
    apply (norm_dicts StrategyActionTrace_to_dict). rewrite <- P2, <- Q2. unfold dict_get_or.
    by destruct (dict_lookup (plan_payload p) "strategy_traces"),
      (dict_lookup (plan_payload q) "strategy_traces"); simpl in E1; simplify_eq E1.
  - apply (opt_digests ExecutionContext_to_dict). rewrite <- P1, <- Q1. apply E.
  - apply (opt_digests StrategyCoherenceReview_to_dict). rewrite <- P3, <- Q3. apply E.
  - apply (opt_digests SystemsAssessment_to_dict). rewrite <- P4, <- Q4. apply E.
  - apply (opt_digests SystemsGateDecision_to_dict). rewrite <- P5, <- Q5. apply E.
Qed.
