(* ===== verification/ModelsResults.v ===== *)
(** * ModelsResults: approvals, compensation descriptors and results of
    [src/src/master_agent/models.py]

    [Approval], [CompensationDescriptor], [ExecutionResult] and
    [VerificationResult].  An execution result holds mutable copies of the
    connector's snapshots; [set_before] and [set_after] are the mutations a
    later holder of the object can make, which [validate_integrity] detects by
    the digests taken at construction. *)

From S2P Require Import Prelude PyText PyJson PyHash PyTime ResourceLimits ModelsBase.
From S2P Require Import PlatformIdentity ModelsAction ModelsBindings ModelsContext.
From S2P Require Import ModelsPlan.
From Stdlib Require Import Ascii.

Open Scope Z_scope.

(** ** Approval *)

Record Approval : Type := mk_Approval {
  ap_plan_fingerprint : string;
  ap_approved_action_ids : list uuid;
  ap_approved_by : string;
  ap_issuer : string;
  ap_tenant : string;
  ap_roles : list string;
  ap_issued_at : datetime;
  ap_expires_at : datetime;
  ap_key_id : string;
  ap_signature : string;
  ap_signature_scheme : string;
  ap_approval_id : uuid;
}.
#[export] Instance Approval_eq_dec : EqDecision Approval.
Proof. solve_decision. Defined.

(** The loop over [self.roles], with the keys seen so far. *)
Fixpoint check_roles (role_keys : list (list Z)) (roles : list string) : result unit :=
  match roles with
  | [] => Ok tt
  | role :: roles =>
      validate_approval_claim role "approval role";;
      raise_if (bool_decide (nfkc_casefold role ∈ role_keys))
        (ValidationError "approval roles must be unique");;
      check_roles (nfkc_casefold role :: role_keys) roles
  end.

Definition role_le (x y : string) : bool := codes_le (casefold_codes x) (casefold_codes y).

Definition approval_sorted (self : Approval) : Approval :=
  mk_Approval (ap_plan_fingerprint self) (ap_approved_action_ids self) (ap_approved_by self)
    (ap_issuer self) (ap_tenant self) (sort_by role_le (ap_roles self)) (ap_issued_at self)
    (ap_expires_at self) (ap_key_id self) (ap_signature self) (ap_signature_scheme self)
    (ap_approval_id self).

Definition Approval_post_init (self : Approval) : result Approval :=
  raise_if (is_blank (ap_plan_fingerprint self))
    (ValidationError "plan_fingerprint must not be empty");;
  raise_if (bool_decide (ap_approved_action_ids self = []))
    (ValidationError "approval must cover at least one action");;
  validate_approval_claim (ap_approved_by self) "approved_by";;
  validate_approval_claim (ap_issuer self) "approval issuer";;
  validate_approval_claim (ap_tenant self) "approval tenant";;
  raise_if (bool_decide (ap_roles self = []))
    (ValidationError "approval roles must not be empty");;
  check_roles [] (ap_roles self);;
  validate_approval_claim (ap_key_id self) "approval key_id";;
  raise_if (is_blank (ap_signature self))
    (ValidationError "approval signature must not be empty");;
  raise_if (is_blank (ap_signature_scheme self))
    (ValidationError "approval signature scheme must not be empty");;
  raise_if (negb (is_aware (ap_issued_at self)))
    (ValidationError "approval issued_at must include a timezone offset");;
  raise_if (negb (is_aware (ap_expires_at self)))
    (ValidationError "approval expires_at must include a timezone offset");;
  raise_if (dt_le (ap_expires_at self) (ap_issued_at self))
    (ValidationError "approval must expire after it is issued");;
  Ok (approval_sorted self).

Definition covers (self : Approval) (plan : ChangePlan) (action : AgentAction)
    (now : datetime) : bool :=
  (ap_plan_fingerprint self =? ChangePlan_fingerprint plan)%string
  && bool_decide (aa_action_id action ∈ ap_approved_action_ids self)
  && (dt_le (ap_issued_at self) now && dt_lt now (ap_expires_at self)).

(** The fields of [signing_payload], which is [to_dict] without the signature. *)
Definition approval_claims (self : Approval) : dict :=
  [("approval_id", JStr (uuid_str (ap_approval_id self)));
   ("plan_fingerprint", JStr (ap_plan_fingerprint self));
   ("approved_action_ids", str_list (map uuid_str (ap_approved_action_ids self)));
   ("approved_by", JStr (ap_approved_by self));
   ("issuer", JStr (ap_issuer self));
   ("tenant", JStr (ap_tenant self));
   ("roles", str_list (ap_roles self));
   ("issued_at", JStr (isoformat (ap_issued_at self)));
   ("expires_at", JStr (isoformat (ap_expires_at self)));
   ("key_id", JStr (ap_key_id self));
   ("signature_scheme", JStr (ap_signature_scheme self))].

Definition Approval_to_dict (self : Approval) : dict :=
  approval_claims self ++ [("signature", JStr (ap_signature self))].

(** [payload.pop("signature")]. *)
Definition dict_pop (d : dict) (k : string) : dict :=
  List.filter (λ kv, negb (kv.1 =? k)%string) d.

Definition signing_payload (self : Approval) : string :=
  canonical_text (JDict (dict_pop (Approval_to_dict self) "signature")).

(** Iterating [data["approved_action_ids"]]: a list gives its items, a mapping
    its keys, text its characters. *)
Definition json_iter (v : json) : result (list json) :=
  match v with
  | JList l => Ok l
  | JDict kvs => Ok (map (λ kv, JStr kv.1) kvs)
  | JStr s => Ok (map (λ c, JStr (String c "")) (String.list_ascii_of_string s))
  | _ => Err (PyTypeError "object is not iterable")
  end.

Definition Approval_from_dict (data : dict) : result Approval :=
  id_text ← item_str data "approval_id";
  approval_id ← uuid_parse id_text;
  plan_fingerprint ← item_str data "plan_fingerprint";
  ids ← dict_item data "approved_action_ids";
  ids ← json_iter ids;
  action_ids ← mapM (λ v, uuid_parse (py_str v)) ids;
  approved_by ← required_approval_string data "approved_by";
  issuer ← required_approval_string data "issuer";
  tenant ← required_approval_string data "tenant";
  roles ← approval_roles_from_data data;
  issued_text ← item_str data "issued_at";
  issued_at ← fromisoformat issued_text;
  expires_text ← item_str data "expires_at";
  expires_at ← fromisoformat expires_text;
  key_id ← item_str data "key_id";
  signature ← item_str data "signature";
  Approval_post_init
    (mk_Approval plan_fingerprint action_ids approved_by issuer tenant roles issued_at
       expires_at key_id signature (get_str data "signature_scheme" "hmac-sha256")
       approval_id).

(** ** Compensation descriptor *)

Record CompensationDescriptor : Type := mk_CompensationDescriptor {
  cd_kind : string;
  cd_mode : CompensationMode;
  cd_capability : option string;
  cd_parameters : dict;
  cd_expected_version : option string;
  cd_target_resource_id : option string;
  cd_reason : option string;
  cd_schema : string;
}.

(** [x and x.strip()] is falsy. *)
Definition missing_text (o : option string) : bool :=
  match o with Some s => is_blank s | None => true end.

Definition CompensationDescriptor_post_init (self : CompensationDescriptor)
    : result CompensationDescriptor :=
  raise_if (negb (cd_schema self =? "master-agent/compensation@1")%string)
    (ValidationError "unsupported compensation descriptor schema");;
  raise_if (is_blank (cd_kind self))
    (ValidationError "compensation kind must not be empty");;
  raise_if (bool_decide (cd_mode self = PLAN) && missing_text (cd_capability self))
    (ValidationError "plan compensation requires an executable capability");;
  raise_if (negb (bool_decide (cd_mode self = PLAN)) && missing_text (cd_reason self))
    (ValidationError "non-plan compensation requires an operator-facing reason");;
  freeze_json_mapping (cd_parameters self);;
  Ok self.

Definition CompensationDescriptor_to_dict (self : CompensationDescriptor) : dict :=
  [("schema", JStr (cd_schema self));
   ("kind", JStr (cd_kind self));
   ("mode", JStr (enum_str (cd_mode self)));
   ("capability", opt_json JStr (cd_capability self));
   ("parameters", JDict (cd_parameters self));
   ("expected_version", opt_json JStr (cd_expected_version self));
   ("target_resource_id", opt_json JStr (cd_target_resource_id self));
   ("reason", opt_json JStr (cd_reason self))].

Definition CompensationDescriptor_from_dict (data : dict) : result CompensationDescriptor :=
  raise_if (negb (json_is_str (dict_get data "schema") "master-agent/compensation@1"))
    (ValidationError "compensation descriptor must use master-agent/compensation@1");;
  parameters ← match dict_get_or data "parameters" (JDict []) with
               | JDict d => Ok d
               | _ => Err (ValidationError "compensation parameters must be an object")
               end;
  schema ← item_str data "schema";
  kind ← item_str data "kind";
  mode_text ← item_str data "mode";
  mode ← enum_parse mode_text;
  CompensationDescriptor_post_init
    (mk_CompensationDescriptor kind mode (opt_str data "capability") parameters
       (opt_str data "expected_version") (opt_str data "target_resource_id")
       (opt_str data "reason") schema).

(** ** Execution result *)

Record ExecutionResult : Type := mk_ExecutionResult {
  er_action_id : uuid;
  er_state : ActionState;
  er_before : option dict;
  er_after : option dict;
  er_connector_reference : option string;
  er_message : string;
  er_compensation : option CompensationDescriptor;
  er_before_digest : string;
  er_after_digest : string;
}.

Definition opt_dict (o : option dict) : json := opt_json JDict o.

(** [_result_state_digest]: [json.dumps] raises [ValueError] on a non-finite
    number a mutation has put in. *)
Definition result_state_digest (value : option dict) : result string :=
  stable_sha256 (opt_dict value).

Definition ExecutionResult_post_init (action_id : uuid) (state : ActionState)
    (before after : option dict) (connector_reference : option string)
    (message : string) (compensation : option CompensationDescriptor)
    : result ExecutionResult :=
  when_some before (λ d, freeze_json_mapping d;; Ok tt);;
  when_some after (λ d, freeze_json_mapping d;; Ok tt);;
  before_digest ← result_state_digest before;
  after_digest ← result_state_digest after;
  Ok (mk_ExecutionResult action_id state before after connector_reference message
        compensation before_digest after_digest).

Definition validate_integrity (self : ExecutionResult) : result unit :=
  before ← result_state_digest (er_before self);
  raise_if (negb (before =? er_before_digest self)%string)
    (ValidationError "execution result before-state changed after return");;
  after ← result_state_digest (er_after self);
  raise_if (negb (after =? er_after_digest self)%string)
    (ValidationError "execution result after-state changed after return").

(** Mutation of the copies through the object's references. *)
Definition set_before (before : option dict) (self : ExecutionResult) : ExecutionResult :=
  mk_ExecutionResult (er_action_id self) (er_state self) before (er_after self)
    (er_connector_reference self) (er_message self) (er_compensation self)
    (er_before_digest self) (er_after_digest self).
Definition set_after (after : option dict) (self : ExecutionResult) : ExecutionResult :=
  mk_ExecutionResult (er_action_id self) (er_state self) (er_before self) after
    (er_connector_reference self) (er_message self) (er_compensation self)
    (er_before_digest self) (er_after_digest self).

Definition ExecutionResult_to_dict (self : ExecutionResult) : result dict :=
  validate_integrity self;;
  Ok [("action_id", JStr (uuid_str (er_action_id self)));
      ("state", JStr (enum_str (er_state self)));
      ("before", opt_dict (er_before self));
      ("after", opt_dict (er_after self));
      ("connector_reference", opt_json JStr (er_connector_reference self));
      ("message", JStr (er_message self));
      ("compensation",
       opt_json (λ c, JDict (CompensationDescriptor_to_dict c)) (er_compensation self))].

(** A mapping or [None]. *)
Definition opt_mapping (v : json) (message : string) : result (option dict) :=
  match v with
  | JNull => Ok None
  | JDict d => Ok (Some d)
  | _ => Err (ValidationError message)
  end.

Definition ExecutionResult_from_dict (data : dict) : result ExecutionResult :=
  before ← opt_mapping (dict_get data "before")
    "execution result before must be an object or null";
  after ← opt_mapping (dict_get data "after")
    "execution result after must be an object or null";
  compensation ← opt_mapping (dict_get data "compensation")
    "execution result compensation must be an object or null";
  id_text ← item_str data "action_id";
  action_id ← uuid_parse id_text;
  state_text ← item_str data "state";
  state ← enum_parse state_text;
  descriptor ← match compensation with
               | Some d => c ← CompensationDescriptor_from_dict d; Ok (Some c)
               | None => Ok None
               end;
  ExecutionResult_post_init action_id state before after
    (opt_str data "connector_reference") (get_str data "message" "") descriptor.

(** ** Verification result *)

Record VerificationResult : Type := mk_VerificationResult {
  vr_action_id : uuid;
  vr_verified : bool;
  vr_observed : option dict;
  vr_message : string;
}.

Definition VerificationResult_to_dict (self : VerificationResult) : dict :=
  [("action_id", JStr (uuid_str (vr_action_id self)));
   ("verified", JBool (vr_verified self));
   ("observed", opt_dict (vr_observed self));
   ("message", JStr (vr_message self))].

(** ** Laws *)

#[export] Instance Approval_dataclass : Dataclass Approval := {
  to_dict := Approval_to_dict;
  from_dict := Approval_from_dict;
  wf x := Approval_post_init x = Ok x ∧ uuid_valid (ap_approval_id x) = true
          ∧ Forall (λ d, uuid_valid d = true) (ap_approved_action_ids x)
          ∧ datetime_valid (ap_issued_at x) = true
          ∧ datetime_valid (ap_expires_at x) = true }.

Lemma check_roles_Ok ks roles :
  check_roles ks roles = Ok tt ↔
  Forall (λ r, validate_approval_claim r "approval role" = Ok tt) roles
  ∧ NoDup (map nfkc_casefold roles) ∧ (∀ r, r ∈ roles → nfkc_casefold r ∉ ks).
Proof.
  revert ks. induction roles as [|r roles IH]; intros ks; simpl.
  { split; [|done]. intros _. split_and!; [done|constructor|]. intros r. by rewrite elem_of_nil. }
  rewrite bind_Ok, Forall_cons, NoDup_cons. split.
  - intros ([] & H1 & ([] & H2 & (H3 & H4 & H5)%IH)%bind_Ok).
    apply raise_if_Ok, bool_decide_eq_false in H2. split_and!; try done.
    + rewrite list_elem_of_fmap. intros (r' & E & Hr'). apply (H5 r' Hr'). rewrite <- E. by left.
    + intros r'. rewrite elem_of_cons. intros [->|Hr']; [done|].
      intros Hk. apply (H5 r' Hr'). by right.
  - intros ([H1 H3] & [Hn H4] & H5). exists tt. split; [done|].
    rewrite bool_decide_false by (apply H5; left). simpl. apply IH. split_and!; [done|done|].
    intros r' Hr'. rewrite elem_of_cons. intros [E|Hk].
    + apply Hn. rewrite list_elem_of_fmap. eauto.
    + eapply H5; [right; exact Hr'|done].
Qed.

Lemma check_roles_sorted roles :
  check_roles [] roles = Ok tt → check_roles [] (sort_by role_le roles) = Ok tt.
Proof.
  rewrite !check_roles_Ok. intros (H1 & H2 & H3).
  split_and!; [by apply sort_by_Forall|by rewrite sort_by_perm|].
  intros r. rewrite sort_by_elem. apply H3.
Qed.

Lemma role_le_total x y : role_le x y = true ∨ role_le y x = true.
Proof. apply codes_le_total. Qed.

Lemma Approval_post_init_fix x y :
  Approval_post_init x = Ok y → y = approval_sorted x ∧ Approval_post_init y = Ok y.
Proof.
  intros H. pose proof H as Hy. unfold Approval_post_init in Hy. inv_ok. split; [done|].
  pose proof (check_roles_sorted (ap_roles x) ltac:(done)) as Hr.
  unfold Approval_post_init, approval_sorted in *.
  cbn [ap_plan_fingerprint ap_approved_action_ids ap_approved_by ap_issuer ap_tenant ap_roles
    ap_issued_at ap_expires_at ap_key_id ap_signature ap_signature_scheme ap_approval_id].
  assert (∀ l : list string, sort_by role_le l = [] ↔ l = []) as Hnil.
  { intros l. split; [|by intros ->]. intros E. apply Permutation_nil_r.
    by rewrite <- (sort_by_perm role_le l), E. }
  rewrite sort_by_idem by apply role_le_total.
  rewrite (bool_decide_ext _ _ (Hnil _)), Hr.
  match goal with H : check_roles [] (ap_roles x) = _ |- _ => rewrite H in * end. exact H.
Qed.

#[export] Instance Approval_laws : DataclassLaws Approval.
Proof.
  split; simpl.
  - intros [? ids ? ? ? ? ia ea ? ? ? aid] (H & Hid & Hids & Hia & Hea). simpl in *.
    unfold Approval_from_dict, Approval_to_dict, approval_claims. cbn [app].
    read_back. simpl. rewrite uuid_parse_str by done. simpl.
    rewrite uuids_from_text by done. simpl.
    rewrite !fromisoformat_isoformat by done. exact H.
  - intros d x H. unfold Approval_from_dict in H. inv_ok.
    apply Approval_post_init_fix in H as [-> H]. split; [done|]. simpl. split_and!.
    + by eapply uuid_parse_valid.
    + by eapply uuids_from_text_valid.
    + by eapply fromisoformat_valid.
    + by eapply fromisoformat_valid.
Qed.

#[export] Instance CompensationDescriptor_dataclass : Dataclass CompensationDescriptor := {
  to_dict := CompensationDescriptor_to_dict;
  from_dict := CompensationDescriptor_from_dict;
  wf x := CompensationDescriptor_post_init x = Ok x }.

#[export] Instance CompensationDescriptor_laws : DataclassLaws CompensationDescriptor.
Proof.
  split; simpl.
  - intros x H. pose proof H as H'. unfold CompensationDescriptor_post_init in H'. inv_ok.
    destruct x as [? ? cap ? ev tr rs sch]. simpl in *. to_prop. subst sch.
    unfold CompensationDescriptor_from_dict, CompensationDescriptor_to_dict, json_is_str.
    destruct cap, ev, tr, rs; read_back; simpl; rewrite ?enum_parse_str; exact H.
  - intros d x H. unfold CompensationDescriptor_from_dict in H. inv_ok.
    pose proof H as H'. unfold CompensationDescriptor_post_init in H'. by inv_ok.
Qed.

(** A result object: its snapshots are finite and its digests are theirs. *)
Definition result_wf (self : ExecutionResult) : Prop :=
  uuid_valid (er_action_id self) = true
  ∧ all_finite (opt_dict (er_before self)) = true
  ∧ all_finite (opt_dict (er_after self)) = true
  ∧ er_before_digest self = digest_json (opt_dict (er_before self))
  ∧ er_after_digest self = digest_json (opt_dict (er_after self))
  ∧ (∀ c, er_compensation self = Some c → wf c).

Lemma result_state_digest_finite o :
  all_finite (opt_dict o) = true → result_state_digest o = Ok (digest_json (opt_dict o)).
Proof. apply stable_sha256_finite. Qed.

Lemma freeze_snapshot_finite o :
  when_some o (λ d, freeze_json_mapping d;; Ok tt) = Ok tt ↔ all_finite (opt_dict o) = true.
Proof.
  destruct o as [d|]; [|done]. cbn [when_some opt_dict opt_json].
  rewrite bind_Ok. setoid_rewrite freeze_json_mapping_Ok. naive_solver.
Qed.

(** Construction returns exactly the objects above. *)
Lemma ExecutionResult_post_init_Ok i s b a r m c x :
  ExecutionResult_post_init i s b a r m c = Ok x ↔
  all_finite (opt_dict b) = true ∧ all_finite (opt_dict a) = true
  ∧ x = mk_ExecutionResult i s b a r m c (digest_json (opt_dict b)) (digest_json (opt_dict a)).
Proof.
  unfold ExecutionResult_post_init. split.
  - intros H. apply bind_Ok in H as ([] & Hb%freeze_snapshot_finite & H).
    apply bind_Ok in H as ([] & Ha%freeze_snapshot_finite & H).
    rewrite !result_state_digest_finite in H by done. by inv_ok.
  - intros (Hb & Ha & ->). rewrite !result_state_digest_finite by done.
    apply freeze_snapshot_finite in Hb, Ha. by rewrite Hb, Ha.
Qed.

Lemma validate_integrity_wf x : result_wf x → validate_integrity x = Ok tt.
Proof.
  intros (_ & Hb & Ha & Db & Da & _). unfold validate_integrity.
  rewrite !result_state_digest_finite by done. simpl. rewrite Db, Da, !String.eqb_refl. done.
Qed.

Lemma opt_mapping_opt_dict o msg : opt_mapping (opt_dict o) msg = Ok o.
Proof. by destruct o. Qed.

(** A result survives serialisation. *)
Lemma ExecutionResult_from_to_dict x :
  result_wf x → (ExecutionResult_to_dict x ≫= ExecutionResult_from_dict) = Ok x.
Proof.
  intros H. unfold ExecutionResult_to_dict. rewrite validate_integrity_wf by done. simpl.
  destruct H as (Hid & Hb & Ha & Db & Da & Hc).
  destruct x as [i s b a cr m c db da]. simpl in *. subst db da.
  unfold ExecutionResult_from_dict. read_back.
  rewrite !opt_mapping_opt_dict. mstep.
  destruct c as [c|], cr as [cr|]; simpl; rewrite uuid_parse_str by done; simpl;
    rewrite enum_parse_str; simpl;
    try (rewrite_law (from_to_dict c (Hc _ eq_refl)); simpl);
    by apply ExecutionResult_post_init_Ok.
Qed.

(** Every parsed result is a result object. *)
Lemma ExecutionResult_from_dict_wf d x : ExecutionResult_from_dict d = Ok x → result_wf x.
Proof.
  intros H. unfold ExecutionResult_from_dict in H. inv_ok.
  apply ExecutionResult_post_init_Ok in H as (Hb & Ha & ->).
  split_and!; try done; simpl; [by eapply uuid_parse_valid|].
  intros c ->. destruct v1 as [dc|]; inv_ok; simplify_eq.
  by use_law (from_dict_wf (A := CompensationDescriptor)).
Qed.
