(* ===== verification/Approvals.v ===== *)
(** * Approvals: authenticated approvals, [src/src/master_agent/approvals.py]

    The key ring of approval authorities, issuance and verification of
    HMAC-SHA-256 approvals.  Text that has been normalised and case-folded
    ([_claim_key], principals) is the list of its code points.  The TOML file
    is its parsed table; a naive datetime never reaches a comparison, and
    [astimezone(UTC)], which keeps the instant that comparisons read, is the
    identity. *)

From S2P Require Import Prelude PyText PyJson PyHash PyTime ResourceLimits.
From S2P Require Import JsonCanonical ModelsBase PlatformIdentity ModelsSystems.
From S2P Require Import ModelsReviews ModelsAction ModelsBindings ModelsContext.
From S2P Require Import ModelsPlan PlanBinding ModelsResults.
From Stdlib Require Import Ascii.

Open Scope Z_scope.

(** Text beyond the Latin-1 range, as code points. *)
Abbreviation text := (list Z).

(** ** The authenticator interface ([ApprovalAuthenticator])

    [authenticated_subject] returns the trusted principal of an approval;
    [genuine] is what a client may conclude when it returns one. *)

Class Authenticator (A : Type) := {
  authenticated_subject : A → Approval → result (option text);
  genuine : A → Approval → text → Prop;
}.

Class AuthenticatorLaws (A : Type) `{Authenticator A} :=
  authenticated_genuine (a : A) (approval : Approval) (subject : text) :
    authenticated_subject a approval = Ok (Some subject) → genuine a approval subject.

(** ** Authorities *)

Record ApprovalAuthority : Type := mk_ApprovalAuthority {
  au_key_id : string;
  au_subject : string;
  au_issuer : string;
  au_tenant : string;
  au_roles : list string;
  au_secret : list Z;
  au_revoked_before : option datetime;
  au_revoked_approval_ids : gset uuid;
}.

Definition claim_key (value : string) : text := nfkc_casefold value.

(** NFC normalisation is the identity on the modelled text. *)
Definition validate_claim (value name : string) : result unit :=
  raise_if (empty_or_untrimmed value)
    (ConfigurationError ("approval authority " +:+ name
       +:+ " must be a non-empty normalized value"));;
  raise_if (has_control value)
    (ConfigurationError ("approval authority " +:+ name
       +:+ " must not contain control characters")).

Fixpoint check_authority_roles (role_keys : list text) (roles : list string)
    : result unit :=
  match roles with
  | [] => Ok tt
  | role :: roles =>
      validate_claim role "role";;
      raise_if (bool_decide (claim_key role ∈ role_keys))
        (ConfigurationError "approval authority roles must be unique");;
      check_authority_roles (claim_key role :: role_keys) roles
  end.

Definition require_aware_datetime (value : datetime) (name : string) : result unit :=
  raise_if (negb (is_aware value))
    (ConfigurationError ("approval authority " +:+ name +:+ " must include a timezone offset")).

Definition authority_sorted (self : ApprovalAuthority) : ApprovalAuthority :=
  mk_ApprovalAuthority (au_key_id self) (au_subject self) (au_issuer self) (au_tenant self)
    (sort_by role_le (au_roles self)) (au_secret self) (au_revoked_before self)
    (au_revoked_approval_ids self).

Definition ApprovalAuthority_post_init (self : ApprovalAuthority)
    : result ApprovalAuthority :=
  raise_if (is_blank (au_key_id self) || untrimmed (au_key_id self))
    (ConfigurationError "approval authority key_id must be normalized");;
  validate_claim (au_key_id self) "key_id";;
  raise_if (is_blank (au_subject self) || untrimmed (au_subject self))
    (ConfigurationError "approval authority subject must be normalized");;
  validate_claim (au_subject self) "subject";;
  validate_claim (au_issuer self) "issuer";;
  validate_claim (au_tenant self) "tenant";;
  raise_if (bool_decide (au_roles self = []))
    (ConfigurationError "approval authority roles must not be empty");;
  check_authority_roles [] (au_roles self);;
  raise_if (Z.of_nat (length (au_secret self)) <? 32)
    (ConfigurationError ("approval authority " +:+ au_key_id self
       +:+ " requires at least 32 secret bytes"));;
  when_some (au_revoked_before self) (λ d, require_aware_datetime d "revoked_before");;
  Ok (authority_sorted self).

(** [_principal_id]: issuer, tenant and subject, joined by "|" (124). *)
Definition principal_id (authority : ApprovalAuthority) : text :=
  claim_key (au_issuer authority) ++ [124] ++ claim_key (au_tenant authority) ++ [124]
  ++ claim_key (au_subject authority).

(** ** The key ring *)

Record HmacApprovalAuthenticator : Type := mk_ring {
  ring_authorities : gmap string ApprovalAuthority;
}.

Definition HmacApprovalAuthenticator_init (authorities : gmap string ApprovalAuthority)
    : result HmacApprovalAuthenticator :=
  raise_if (bool_decide (authorities = ∅))
    (ConfigurationError "at least one approval authority is required");;
  raise_if (negb (bool_decide (map_Forall (λ k a, k = au_key_id a) authorities)))
    (ConfigurationError "approval authority mapping key must match authority key_id");;
  Ok (mk_ring authorities).

(** [issue]; [fresh] is the value of [uuid4()].  The message names the unknown
    IDs in the order of their text. *)
Definition issue (self : HmacApprovalAuthenticator) (fresh : uuid) (plan : ChangePlan)
    (approved_action_ids : list uuid) (key_id : string) (issued_at expires_at : datetime)
    (approval_id : option uuid) : result Approval :=
  let known := map aa_action_id (cp_actions plan) in
  let unknown := remove_dups
    (List.filter (λ i, negb (bool_decide (i ∈ known))) approved_action_ids) in
  raise_if (negb (bool_decide (unknown = [])))
    (ValidationError ("approval references unknown action IDs: "
       +:+ py_repr (str_list (sort_by str_le (map uuid_str unknown)))));;
  authority ← or_raise (ring_authorities self !! key_id)
    (ConfigurationError ("unknown approval authority key_id: " +:+ key_id));
  unsigned ← Approval_post_init {|
    ap_approval_id := default fresh approval_id;
    ap_plan_fingerprint := ChangePlan_fingerprint plan;
    ap_approved_action_ids := approved_action_ids;
    ap_approved_by := au_subject authority;
    ap_issuer := au_issuer authority;
    ap_tenant := au_tenant authority;
    ap_roles := au_roles authority;
    ap_issued_at := issued_at;
    ap_expires_at := expires_at;
    ap_key_id := au_key_id authority;
    ap_signature := "pending";
    ap_signature_scheme := "hmac-sha256" |};
  let signature := hmac_sha256 (au_secret authority) (signing_payload unsigned) in
  Approval_post_init
    (mk_Approval (ap_plan_fingerprint unsigned) (ap_approved_action_ids unsigned)
       (ap_approved_by unsigned) (ap_issuer unsigned) (ap_tenant unsigned)
       (ap_roles unsigned) (ap_issued_at unsigned) (ap_expires_at unsigned)
       (ap_key_id unsigned) signature (ap_signature_scheme unsigned)
       (ap_approval_id unsigned)).

(** [hmac.compare_digest] of two strings, which must be ASCII. *)
Definition is_ascii (s : string) : bool := str_forall (λ c, code c <? 128) s.

Definition compare_digest (a b : string) : result bool :=
  raise_if (negb (is_ascii a && is_ascii b))
    (PyTypeError "comparing strings with non-ASCII characters is not supported");;
  Ok (a =? b)%string.

(** The approval states the authority's own claims and is not revoked. *)
Definition claims_match (authority : ApprovalAuthority) (approval : Approval) : bool :=
  (ap_approved_by approval =? au_subject authority)%string
  && (ap_issuer approval =? au_issuer authority)%string
  && (ap_tenant approval =? au_tenant authority)%string
  && bool_decide (ap_roles approval = au_roles authority).

Definition revoked (authority : ApprovalAuthority) (approval : Approval) : bool :=
  bool_decide (ap_approval_id approval ∈ au_revoked_approval_ids authority)
  || match au_revoked_before authority with
     | Some d => dt_le (ap_issued_at approval) d
     | None => false
     end.

Definition hmac_authenticated_subject (self : HmacApprovalAuthenticator)
    (approval : Approval) : result (option text) :=
  if negb (ap_signature_scheme approval =? "hmac-sha256")%string then Ok None
  else
    match ring_authorities self !! ap_key_id approval with
    | None => Ok None
    | Some authority =>
        if negb (claims_match authority approval) then Ok None
        else if revoked authority approval then Ok None
        else
          equal ← compare_digest
            (hmac_sha256 (au_secret authority) (signing_payload approval))
            (ap_signature approval);
          Ok match equal with true => Some (principal_id authority) | false => None end
    end.

(** ** Loading ([_from_toml]) *)

Definition required_string (item : dict) (name key_id : string) : result string :=
  let error := ConfigurationError ("approval authority " +:+ key_id
                 +:+ " requires string field " +:+ name) in
  match dict_get item name with
  | JStr s => raise_if (s =? "")%string error;; Ok s
  | _ => Err error
  end.

Definition optional_datetime (value : json) (key_id : string) : result (option datetime) :=
  let error := ConfigurationError ("approval authority " +:+ key_id
                 +:+ " revoked_before must be an ISO datetime") in
  match value with
  | JNull => Ok None
  | JStr s =>
      parsed ← reraise (fromisoformat s) (λ _, Some error);
      require_aware_datetime parsed "revoked_before";;
      Ok (Some parsed)
  | _ => Err error
  end.

(** The roles of an entry: a non-empty list of strings. *)
Definition entry_roles (item : dict) (key_id : string) : result (list string) :=
  let error := ConfigurationError ("approval authority " +:+ key_id
                 +:+ " roles must be a non-empty string list") in
  match json_strings (dict_get item "roles") with
  | Some (r :: rs) => Ok (r :: rs)
  | _ => Err error
  end.

(** One entry of [[authorities]]: [None] when it is disabled or not selected. *)
Definition load_authority (environ : gmap string string) (selected : option (gset string))
    (key_id : string) (v : json) : result (option ApprovalAuthority) :=
  let label := "approval authority " +:+ key_id in
  match v with
  | JDict item =>
      enabled ← match dict_get_or item "enabled" (JBool true) with
                | JBool b => Ok b
                | _ => Err (ConfigurationError (label +:+ " enabled must be a boolean"))
                end;
      if negb enabled then Ok None
      else if match selected with
              | Some ids => negb (bool_decide (key_id ∈ ids))
              | None => false
              end then Ok None
      else
        subject ← required_string item "subject" key_id;
        issuer ← required_string item "issuer" key_id;
        tenant ← required_string item "tenant" key_id;
        roles ← entry_roles item key_id;
        revoked_before ← optional_datetime (dict_get item "revoked_before") key_id;
        raw_ids ←
          or_raise (json_strings (dict_get_or item "revoked_approval_ids" (JList [])))
            (ConfigurationError (label +:+ " revoked_approval_ids must be a string list"));
        ids ← reraise (mapM uuid_parse raw_ids)
          (λ _, Some (ConfigurationError (label +:+ " has an invalid revoked approval ID")));
        let secret_env := strip (get_str item "secret_env" "") in
        raise_if (secret_env =? "")%string
          (ConfigurationError (label +:+ " requires secret_env"));;
        let secret := utf8 (default "" (environ !! secret_env)) in
        raise_if (bool_decide (secret = []))
          (ConfigurationError ("approval authority secret is unavailable: " +:+ secret_env));;
        authority ← ApprovalAuthority_post_init
          (mk_ApprovalAuthority key_id subject issuer tenant roles secret revoked_before
             (list_to_set ids));
        Ok (Some authority)
  | _ => Err (ConfigurationError (label +:+ " must be a TOML table"))
  end.

Fixpoint load_authorities (environ : gmap string string) (selected : option (gset string))
    (table : dict) (authorities : gmap string ApprovalAuthority)
    : result (gmap string ApprovalAuthority) :=
  match table with
  | [] => Ok authorities
  | (key_id, v) :: table =>
      loaded ← load_authority environ selected key_id v;
      load_authorities environ selected table
        match loaded with
        | Some authority => <[au_key_id authority := authority]> authorities
        | None => authorities
        end
  end.

Definition ring_from_toml (raw : dict) (environ : gmap string string)
    (selected : option (gset string)) : result HmacApprovalAuthenticator :=
  let error := ConfigurationError "[authorities] must contain at least one entry" in
  table ← match dict_get raw "authorities" with
          | JDict [] => Err error
          | JDict d => Ok d
          | _ => Err error
          end;
  authorities ← load_authorities environ selected table ∅;
  when_some selected (λ ids,
    raise_if (negb (bool_decide (dom authorities = ids)))
      (ConfigurationError ("unknown approval authority key_id: "
         +:+ str_join ", " (sort_by str_le (elements (ids ∖ dom authorities))))));;
  HmacApprovalAuthenticator_init authorities.

Definition ring_from_toml_for_key (raw : dict) (key_id : string)
    (environ : gmap string string) : result HmacApprovalAuthenticator :=
  raise_if (is_blank key_id || untrimmed key_id)
    (ConfigurationError "approval authority key_id must be normalized");;
  ring_from_toml raw environ (Some {[ key_id ]}).

(** ** What verification establishes *)

(** An authority of the ring signed these claims, and has not revoked them. *)
Definition hmac_genuine (self : HmacApprovalAuthenticator) (approval : Approval)
    (subject : text) : Prop :=
  ∃ authority, ring_authorities self !! ap_key_id approval = Some authority
    ∧ claims_match authority approval = true ∧ revoked authority approval = false
    ∧ ap_signature_scheme approval = "hmac-sha256"
    ∧ ap_signature approval = hmac_sha256 (au_secret authority) (signing_payload approval)
    ∧ subject = principal_id authority.

#[export] Instance hmac_authenticator : Authenticator HmacApprovalAuthenticator := {
  authenticated_subject := hmac_authenticated_subject;
  genuine := hmac_genuine }.

Lemma lower_hex_ascii s : str_forall is_lower_hex s = true → is_ascii s = true.
Proof.
  apply str_forall_impl. intros c. unfold is_lower_hex, is_digit, in_range.
  rewrite Z.ltb_lt. to_prop. lia.
Qed.

Lemma hmac_ascii k s : is_ascii (hmac_sha256 k s) = true.
Proof.
  apply lower_hex_ascii. pose proof (hmac_hex k s) as H. unfold is_sha256_hex in H.
  by apply andb_true_iff in H as [_ H].
Qed.

(** The subject is returned exactly for genuine approvals. *)
Lemma hmac_authenticated_iff self approval subject :
  hmac_authenticated_subject self approval = Ok (Some subject) ↔
  hmac_genuine self approval subject.
Proof.
  unfold hmac_authenticated_subject, hmac_genuine, compare_digest. split.
  - intros H. destruct (String.eqb_spec (ap_signature_scheme approval) "hmac-sha256");
      [|done].
    simpl in H. destruct (ring_authorities self !! _) as [a|]; [|done].
    destruct (claims_match a approval) eqn:Hc; [|done]. simpl in H.
    destruct (revoked a approval) eqn:Hr; [done|].
    apply bind_Ok in H as (b & H & Hb). apply bind_Ok in H as (_ & _ & [= <-]).
    destruct (String.eqb_spec (hmac_sha256 (au_secret a) (signing_payload approval))
      (ap_signature approval)); [|done]. injection Hb as <-. eauto 10.
  - intros (a & -> & -> & -> & -> & -> & ->). simpl.
    rewrite hmac_ascii. simpl. by rewrite String.eqb_refl.
Qed.

#[export] Instance hmac_authenticator_laws : AuthenticatorLaws HmacApprovalAuthenticator.
Proof. intros self approval subject. apply hmac_authenticated_iff. Qed.

(** ** Laws of issuance *)

(** The signature is popped from the signed payload. *)
Lemma signing_payload_claims x :
  signing_payload x = canonical_text (JDict (approval_claims x)).
Proof. done. Qed.

(** A ring the constructors build. *)
Definition ring_wf (self : HmacApprovalAuthenticator) : Prop :=
  map_Forall (λ k a, k = au_key_id a ∧ sort_by role_le (au_roles a) = au_roles a)
    (ring_authorities self).

Lemma load_authority_wf environ selected key_id v a :
  load_authority environ selected key_id v = Ok (Some a) →
  sort_by role_le (au_roles a) = au_roles a.
Proof.
  unfold load_authority. intros H. destruct v; try done. inv_ok.
  destruct (negb _); [done|]. destruct (match selected with Some _ => _ | None => _ end); [done|].
  inv_ok. simplify_eq.
  match goal with H : ApprovalAuthority_post_init _ = Ok _ |- _ =>
    unfold ApprovalAuthority_post_init in H end.
  inv_ok. simpl. apply sort_by_idem, role_le_total.
Qed.

Lemma load_authorities_wf environ selected table acc authorities :
  map_Forall (λ _ a, sort_by role_le (au_roles a) = au_roles a) acc →
  load_authorities environ selected table acc = Ok authorities →
  map_Forall (λ _ a, sort_by role_le (au_roles a) = au_roles a) authorities.
Proof.
  revert acc. induction table as [|[k v] table IH]; intros acc Hacc H; simpl in H; [by inv_ok|].
  apply bind_Ok in H as ([a|] & Ha & H); (eapply IH; [|exact H]); [|done].
  apply map_Forall_insert_2; [|done]. by eapply load_authority_wf.
Qed.

Lemma ring_init_keys authorities self :
  HmacApprovalAuthenticator_init authorities = Ok self →
  self = mk_ring authorities ∧ map_Forall (λ k a, k = au_key_id a) authorities.
Proof.
  unfold HmacApprovalAuthenticator_init. intros H. inv_ok. split; [done|]. by to_prop.
Qed.

Lemma ring_from_toml_wf raw environ selected self :
  ring_from_toml raw environ selected = Ok self → ring_wf self.
Proof.
  unfold ring_from_toml. intros H. inv_ok. apply ring_init_keys in H as [-> Hk].
  intros k a Ha. split; [by apply Hk|]. simpl in Ha.
  match goal with H : load_authorities _ _ _ _ = Ok _ |- _ =>
    eapply load_authorities_wf in H; [by eapply H|apply map_Forall_empty] end.
Qed.

(** What [issue] returns: the claims of the authority and of the request,
    signed with the authority's secret. *)
Lemma issue_spec self fresh plan ids key_id ia ea aid approval :
  issue self fresh plan ids key_id ia ea aid = Ok approval →
  ∃ a, ring_authorities self !! key_id = Some a
    ∧ (∀ i, i ∈ ids → i ∈ map aa_action_id (cp_actions plan))
    ∧ is_aware ia = true ∧ is_aware ea = true ∧ dt_lt ia ea = true
    ∧ approval = mk_Approval (ChangePlan_fingerprint plan) ids (au_subject a) (au_issuer a)
        (au_tenant a) (sort_by role_le (au_roles a)) ia ea (au_key_id a)
        (hmac_sha256 (au_secret a) (signing_payload approval)) "hmac-sha256"
        (default fresh aid).
Proof.
  unfold issue. intros H. apply bind_Ok in H as ([] & Hu & H).
  apply bind_Ok in H as (a & Ha%or_raise_Ok & H).
  apply bind_Ok in H as (unsigned & Hun & H).
  pose proof Hun as Hdates. apply Approval_post_init_fix in Hun as [-> Hun].
  apply Approval_post_init_fix in H as [-> _].
  exists a. unfold Approval_post_init in Hdates.
  cbn [ap_issued_at ap_expires_at] in Hdates. inv_ok.
  split_and!; try done.
  - apply negb_false_iff, bool_decide_eq_true in Hu. intros i Hi.
    destruct (decide (i ∈ map aa_action_id (cp_actions plan))) as [|Hn]; [done|].
    assert (i ∈ remove_dups (List.filter (λ i, negb (bool_decide
      (i ∈ map aa_action_id (cp_actions plan)))) ids)) as Hin.
    { apply elem_of_remove_dups, list_elem_of_In, filter_In.
      rewrite <- list_elem_of_In. split; [done|]. by rewrite bool_decide_false. }
    rewrite Hu in Hin. by apply elem_of_nil in Hin.
  - by to_prop.
  - by to_prop.
  - unfold dt_le, dt_lt in *. to_prop. lia.
  - unfold approval_sorted. cbn [ap_plan_fingerprint ap_approved_action_ids ap_approved_by
      ap_issuer ap_tenant ap_roles ap_issued_at ap_expires_at ap_key_id ap_signature
      ap_signature_scheme ap_approval_id].
    rewrite !signing_payload_claims. unfold approval_claims.
    cbn [ap_plan_fingerprint ap_approved_action_ids ap_approved_by ap_issuer ap_tenant
      ap_roles ap_issued_at ap_expires_at ap_key_id ap_signature ap_signature_scheme
      ap_approval_id].
    by rewrite (sort_by_idem role_le) by apply role_le_total.
Qed.

(** An issued approval is genuine, unless its authority has revoked it. *)
Lemma issue_genuine self fresh plan ids key_id ia ea aid approval :
  ring_wf self → issue self fresh plan ids key_id ia ea aid = Ok approval →
  ∃ a, ring_authorities self !! key_id = Some a
    ∧ (revoked a approval = false → hmac_genuine self approval (principal_id a)).
Proof.
  intros Hwf H. apply issue_spec in H as (a & Ha & _ & _ & _ & _ & E).
  exists a. split; [done|]. intros Hr. exists a. destruct (Hwf _ _ Ha) as [Hk Hs].
  rewrite Hs in E. clear Hs. split_and!; try done.
  - by rewrite E, <- Hk.
  - rewrite E. unfold claims_match. cbn. by rewrite !String.eqb_refl, bool_decide_true.
  - by rewrite E.
  - rewrite E at 1. done.
Qed.

(** ** A signature is bound to one approval *)

Lemma claims_keys x : NoDup (map fst (approval_claims x)).
Proof. apply (bool_decide_unpack _). by vm_compute. Qed.

Lemma approval_claims_inj x y :
  wf x → wf y → same_json (approval_claims x) (approval_claims y) →
  ap_signature x = ap_signature y → x = y.
Proof.
  intros (_ & Hi & Hids & Hia & Hea) (_ & Hi' & Hids' & Hia' & Hea') H Hs.
  pose proof (λ k, dict_value _ _ k (claims_keys x) (claims_keys y) H) as E.
  assert (ap_approval_id x = ap_approval_id y)
    by (apply uuid_str_inj; [done|done|exact (JStr_inj _ _ (E "approval_id"))]).
  pose proof (JStr_inj _ _ (E "plan_fingerprint")).
  assert (ap_approved_action_ids x = ap_approved_action_ids y).
  { pose proof (E "approved_action_ids") as E1.
    change (norm (str_list (map uuid_str (ap_approved_action_ids x)))
            = norm (str_list (map uuid_str (ap_approved_action_ids y)))) in E1.
    rewrite !norm_str_list in E1. by apply str_list_inj, uuid_list_inj in E1. }
  pose proof (JStr_inj _ _ (E "approved_by")). pose proof (JStr_inj _ _ (E "issuer")).
  pose proof (JStr_inj _ _ (E "tenant")).
  assert (ap_roles x = ap_roles y).
  { pose proof (E "roles") as E1.
    change (norm (str_list (ap_roles x)) = norm (str_list (ap_roles y))) in E1.
    rewrite !norm_str_list in E1. by apply str_list_inj in E1. }
  assert (ap_issued_at x = ap_issued_at y)
    by (apply isoformat_inj; [done|done|exact (JStr_inj _ _ (E "issued_at"))]).
  assert (ap_expires_at x = ap_expires_at y)
    by (apply isoformat_inj; [done|done|exact (JStr_inj _ _ (E "expires_at"))]).
  pose proof (JStr_inj _ _ (E "key_id")). pose proof (JStr_inj _ _ (E "signature_scheme")).
  destruct x, y; simpl in *; congruence.
Qed.

Lemma json_ok_claims x : json_ok (JDict (approval_claims x)) = true.
Proof. unfold approval_claims. by json_ok_entries. Qed.
