(* ===== verification/Policy.v ===== *)
(** * Policy: risk, approval and authority policy, [src/src/master_agent/policy.py]

    [ContextualPolicyConstraints], [PolicyEngine.evaluate] and
    [authenticated_approvals].  A frozenset is the list of its members.  The
    engine is written against the [Authenticator] interface of [Approvals];
    the evaluation time is an aware datetime, as the default is. *)

From S2P Require Import Prelude PyText PyJson PyHash PyTime ResourceLimits ModelsBase.
From S2P Require Import PlatformIdentity ModelsReviews ModelsAction ModelsBindings.
From S2P Require Import ModelsContext ModelsPlan ModelsResults Approvals.
From Stdlib Require Import Ascii.

Open Scope Z_scope.

(** ** [_collection_items] *)

(** What a collection pushes: its values, the last one on top. *)
Definition collection_values (v : json) : list json :=
  match v with
  | JDict kvs => map snd kvs
  | JList l => l
  | _ => []
  end.

(** The loop; [pending] has its top first.  [None] would be fuel running out. *)
Fixpoint collection_loop (fuel : nat) (pending : list json) (count : Z) : option Z :=
  match pending, fuel with
  | [], _ => Some count
  | _ :: _, O => None
  | current :: pending, S fuel =>
      let values := collection_values current in
      collection_loop fuel (rev values ++ pending) (count + Z.of_nat (length values))
  end.

Definition collection_items (value : json) : Z :=
  default 0 (collection_loop (json_size value) [value] 0).

(** ** Contextual constraints *)

Record ContextualPolicyConstraints : Type := mk_constraints {
  pc_authenticated_principals : list string;
  pc_agent_identities : list string;
  pc_tenant_ids : list string;
  pc_provider_account_ids : list string;
  pc_resource_allowlists : list (string * list string);
  pc_maximum_items_per_action : Z;
  pc_maximum_bytes_per_action : Z;
  pc_allowed_classifications : list DataClassification;
  pc_not_before : option datetime;
  pc_not_after : option datetime;
}.

Definition constraints_default : ContextualPolicyConstraints :=
  mk_constraints [] [] [] [] [] 1024 (4 * 1024 * 1024)
    [PUBLIC; INTERNAL; CONFIDENTIAL; RESTRICTED] None None.

Definition allowlist_malformed (entry : string * list string) : bool :=
  (entry.1 =? "")%string || bool_decide (entry.2 = []) || existsb empty_or_untrimmed entry.2.

Definition constraints_post_init (self : ContextualPolicyConstraints)
    : result ContextualPolicyConstraints :=
  for_each (λ nv : string * list string,
      raise_if (existsb empty_or_untrimmed nv.2)
        (PyValueError ("contextual policy " +:+ nv.1 +:+ " is malformed")))
    [("authenticated_principals", pc_authenticated_principals self);
     ("agent_identities", pc_agent_identities self);
     ("tenant_ids", pc_tenant_ids self);
     ("provider_account_ids", pc_provider_account_ids self)];;
  raise_if (negb ((1 <=? pc_maximum_items_per_action self)
                  && (pc_maximum_items_per_action self <=? 65536)))
    (PyValueError "contextual policy item budget is outside safe limits");;
  raise_if (negb ((1 <=? pc_maximum_bytes_per_action self)
                  && (pc_maximum_bytes_per_action self <=? 8 * 1024 * 1024)))
    (PyValueError "contextual policy byte budget is outside safe limits");;
  raise_if (bool_decide (pc_allowed_classifications self = []))
    (PyValueError "contextual policy classifications are empty");;
  for_each (λ nd : string * option datetime,
      raise_if (some_fails is_aware nd.2)
        (PyValueError ("contextual policy " +:+ nd.1 +:+ " requires a timezone")))
    [("not_before", pc_not_before self); ("not_after", pc_not_after self)];;
  raise_if (match pc_not_before self, pc_not_after self with
            | Some lo, Some hi => dt_le hi lo
            | _, _ => false
            end)
    (PyValueError "contextual policy time window is empty");;
  raise_if (existsb allowlist_malformed (pc_resource_allowlists self))
    (PyValueError "contextual policy resource allowlists are malformed");;
  Ok self.

(** [next((item for item in context.capsules if ...), None)]. *)
Definition capsule_binding_for (plan : ChangePlan) (action : AgentAction)
    : option CapabilityCapsuleExecutionBinding :=
  match cp_execution_context plan with
  | Some context =>
      List.find (λ item, (ccb_capability_id item =? aa_capability action)%string)
        (ec_capsules context)
  | None => None
  end.

Definition matched_prefixes (self : ContextualPolicyConstraints) (action : AgentAction)
    : list string :=
  flat_map (λ entry : string * list string,
      if fnmatch (aa_capability action) entry.1 then entry.2 else [])
    (pc_resource_allowlists self).

(** The allowed identities and the ones a capsule binding states, in step. *)
Definition identity_sets (self : ContextualPolicyConstraints) : list (list string) :=
  [pc_authenticated_principals self; pc_agent_identities self; pc_tenant_ids self;
   pc_provider_account_ids self].

Definition binding_identities (binding : CapabilityCapsuleExecutionBinding) : list string :=
  [ccb_authenticated_principal binding; ccb_agent_identity binding;
   ccb_tenant_id binding; ccb_provider_account_id binding].

(** [allowed and value not in allowed]. *)
Definition identity_rejected (av : list string * string) : bool :=
  negb (bool_decide (av.1 = [])) && negb (bool_decide (av.2 ∈ av.1)).

Definition constraints_identity (self : ContextualPolicyConstraints) (plan : ChangePlan)
    (action : AgentAction) : bool * string :=
  let sets := identity_sets self in
  if existsb (λ s, negb (bool_decide (s = []))) sets then
    match capsule_binding_for plan action with
    | None => (false, "contextual identity policy requires a capsule binding")
    | Some binding =>
        if negb (bool_decide (ccb_data_classification binding
                              = aa_data_classification action))
        then (false, "capsule and action data classifications differ")
        else if existsb identity_rejected (combine sets (binding_identities binding))
        then (false, "contextual principal, tenant, or account is not allowed")
        else (true, "contextual typed policy constraints satisfied")
    end
  else (true, "contextual typed policy constraints satisfied").

Definition constraints_validate (self : ContextualPolicyConstraints) (plan : ChangePlan)
    (action : AgentAction) (now : datetime) : bool * string :=
  if match pc_not_before self with Some d => dt_lt now d | None => false end
  then (false, "contextual policy time window has not started")
  else if match pc_not_after self with Some d => dt_le d now | None => false end
  then (false, "contextual policy time window has ended")
  else if negb (bool_decide (aa_data_classification action
                             ∈ pc_allowed_classifications self))
  then (false, "contextual policy rejects the data classification")
  else if pc_maximum_items_per_action self
          <? collection_items (JDict (aa_parameters action))
  then (false, "contextual policy item budget is exceeded")
  else if negb (is_ok (measure_json_resources (JDict (aa_parameters action))
                         "contextual policy action" (pc_maximum_bytes_per_action self)))
  then (false, "contextual policy byte budget is exceeded: ValidationError")
  else
    let prefixes := matched_prefixes self action in
    if negb (bool_decide (pc_resource_allowlists self = []))
       && (bool_decide (prefixes = [])
           || negb (existsb (λ p, startswith p (ResourceRef_uri (aa_target action)))
                      prefixes))
    then (false, "contextual policy rejects the target resource")
    else constraints_identity self plan action.

(** ** Engine *)

Record PolicyConfig : Type := mk_PolicyConfig {
  auto_permit_risks : list RiskLevel;
  require_approval_risks : list RiskLevel;
  prohibit_risks : list RiskLevel;
  prohibited_capabilities : list string;
  write_capability_patterns : list string;
}.

Record PolicyDecision : Type := mk_PolicyDecision {
  pd_permitted : bool;
  pd_approval_required : bool;
  pd_reason : string;
}.

(** [subject.casefold()]. *)
Definition fold_text (subject : text) : text := subject ≫= fold_code.

Definition is_write_risk (r : RiskLevel) : bool :=
  negb (bool_decide (r ∈ [READ_ONLY; LOCAL_GENERATION])).

Definition matches_any (capability : string) (patterns : list string) : bool :=
  existsb (fnmatch capability) patterns.

Definition is_write (config : PolicyConfig) (action : AgentAction) : bool :=
  matches_any (aa_capability action) (write_capability_patterns config)
  || is_write_risk (aa_risk action).

Definition retrieved_authority (action : AgentAction) : bool :=
  bool_decide (aa_authority_source action
               ∈ [RETRIEVED_INTERNAL_CONTENT; RETRIEVED_EXTERNAL_CONTENT]).

Section engine.
Context {A : Type} `{Authenticator A}.

Record PolicyEngine : Type := mk_PolicyEngine {
  pe_config : PolicyConfig;
  pe_authenticator : option A;
  pe_constraints : option ContextualPolicyConstraints;
}.

Definition denied (approval_required : bool) (reason : string) : result PolicyDecision :=
  Ok (mk_PolicyDecision false approval_required reason).

(** The loop that fills [covered_by], keyed by the folded principal. *)
Fixpoint cover (a : A) (plan : ChangePlan) (action : AgentAction) (now : datetime)
    (approvals : list Approval) (covered_by : gmap text Approval)
    : result (gmap text Approval) :=
  match approvals with
  | [] => Ok covered_by
  | approval :: approvals =>
      subject ← authenticated_subject a approval;
      match subject with
      | None => cover a plan action now approvals covered_by
      | Some s =>
          if negb (covers approval plan action now)
          then cover a plan action now approvals covered_by
          else cover a plan action now approvals (<[fold_text s := approval]> covered_by)
      end
  end.

Definition covered_approvals (self : PolicyEngine) (plan : ChangePlan)
    (action : AgentAction) (now : datetime) (approvals : list Approval)
    : result (gmap text Approval) :=
  match pe_authenticator self with
  | Some a => cover a plan action now approvals ∅
  | None => Ok ∅
  end.

Definition evaluate (self : PolicyEngine) (plan : ChangePlan) (action : AgentAction)
    (approvals : list Approval) (now : datetime) (minimum_distinct_approvers : Z)
    : result PolicyDecision :=
  let config := pe_config self in
  raise_if (minimum_distinct_approvers <? 0)
    (PyValueError "minimum_distinct_approvers must not be negative");;
  if match capsule_binding_for plan action with
     | Some binding =>
         negb (bool_decide (ccb_risk binding = aa_risk action))
         || negb (bool_decide (ccb_data_classification binding
                               = aa_data_classification action))
     | None => false
     end
  then denied false "capsule risk or data classification differs from the action"
  else
  let '(allowed, reason) :=
    match pe_constraints self with
    | Some constraints => constraints_validate constraints plan action now
    | None => (true, "")
    end in
  if negb allowed then denied false reason
  else if matches_any (aa_capability action) (prohibited_capabilities config)
  then denied false ("capability is prohibited: " +:+ aa_capability action)
  else if bool_decide (aa_risk action ∈ prohibit_risks config)
  then denied false ("risk tier is prohibited: " +:+ enum_str (aa_risk action))
  else if is_write config action && retrieved_authority action
  then denied false "retrieved content is data and cannot authorize a write or external action"
  else if aa_requires_approval action
          || bool_decide (aa_risk action ∈ require_approval_risks config)
          || (0 <? minimum_distinct_approvers)
  then
    covered_by ← covered_approvals self plan action now approvals;
    let required := Z.max 1 minimum_distinct_approvers in
    if Z.of_nat (size covered_by) <? required
    then denied true (pretty required
           +:+ " distinct approval(s) bound to this exact plan and action are required")
    else Ok (mk_PolicyDecision true true
               (pretty (size covered_by) +:+ " valid immutable-plan approval(s) supplied"))
  else if bool_decide (aa_risk action ∈ auto_permit_risks config)
  then Ok (mk_PolicyDecision true false
             ("risk tier is auto-permitted: " +:+ enum_str (aa_risk action)))
  else denied true "risk tier has no explicit permit rule".

(** The loop of [authenticated_approvals], keyed by approval ID. *)
Fixpoint select_approvals (a : A) (plan : ChangePlan) (now : datetime)
    (approvals : list Approval) (selected : gmap uuid (Approval * text))
    : result (gmap uuid (Approval * text)) :=
  match approvals with
  | [] => Ok selected
  | approval :: approvals =>
      subject ← authenticated_subject a approval;
      match subject with
      | None => select_approvals a plan now approvals selected
      | Some s =>
          if negb (existsb (λ action, covers approval plan action now) (cp_actions plan))
          then select_approvals a plan now approvals selected
          else select_approvals a plan now approvals
                 (<[ap_approval_id approval := (approval, s)]> selected)
      end
  end.

Definition authenticated_approvals (self : PolicyEngine) (plan : ChangePlan)
    (approvals : list Approval) (now : datetime) : result (list (Approval * text)) :=
  match pe_authenticator self with
  | None => Ok []
  | Some a =>
      selected ← select_approvals a plan now approvals ∅;
      Ok (map snd (sort_by (λ x y, str_le (uuid_str x.1) (uuid_str y.1))
                     (map_to_list selected)))
  end.
End engine.
Arguments PolicyEngine : clear implicits.

(** ** The number of items in a collection *)

(** The items of every mapping and list inside a value. *)
Fixpoint json_items (v : json) : Z :=
  match v with
  | JDict kvs =>
      Z.of_nat (length kvs) + zsum (map (λ kv, let '(_, v) := kv in json_items v) kvs)
  | JList l => Z.of_nat (length l) + zsum (map json_items l)
  | _ => 0
  end.

Lemma json_items_values v :
  json_items v = Z.of_nat (length (collection_values v))
                 + zsum (map json_items (collection_values v)).
Proof.
  destruct v as [| | | | |l|kvs]; try done. cbn [json_items collection_values].
  rewrite length_map, map_map. f_equal. f_equal. by apply map_ext; intros [].
Qed.

Lemma json_size_values v :
  json_size v = S (list_sum (map json_size (collection_values v))).
Proof.
  destruct v as [| | | | |l|kvs]; try done. cbn [json_size collection_values].
  rewrite map_map. do 2 f_equal. by apply map_ext; intros [].
Qed.

Lemma zsum_rev {B} (f : B → Z) l : zsum (map f (rev l)) = zsum (map f l).
Proof.
  induction l as [|x l IH]; [done|]. simpl. rewrite map_app, zsum_app, IH.
  simpl. unfold zsum. simpl. lia.
Qed.

Lemma list_sum_rev (l : list nat) : list_sum (rev l) = list_sum l.
Proof.
  induction l as [|x l IH]; [done|]. simpl. rewrite list_sum_app, IH. simpl. lia.
Qed.

(** Fuel for the values on the stack is enough, and the loop counts them. *)
Lemma collection_loop_spec fuel pending count :
  (list_sum (map json_size pending) ≤ fuel)%nat →
  collection_loop fuel pending count = Some (count + zsum (map json_items pending)).
Proof.
  revert pending count. induction fuel as [|fuel IH]; intros [|v pending] count Hf.
  - simpl. f_equal. lia.
  - simpl in Hf. rewrite json_size_values in Hf. simpl in Hf. lia.
  - simpl. f_equal. lia.
  - cbn [collection_loop]. cbn [map list_sum foldr] in Hf.
    rewrite json_size_values in Hf. rewrite IH.
    + f_equal. rewrite map_app, zsum_app, zsum_rev. cbn [map].
      change (zsum (json_items v :: map json_items pending))
        with (json_items v + zsum (map json_items pending)).
      rewrite (json_items_values v). lia.
    + rewrite map_app, list_sum_app, map_rev, list_sum_rev.
      change (foldr Nat.add 0%nat (map json_size pending))
        with (list_sum (map json_size pending)) in Hf. lia.
Qed.

Lemma collection_items_spec v : collection_items v = json_items v.
Proof.
  unfold collection_items. rewrite collection_loop_spec by (simpl; lia). simpl.
  unfold zsum. simpl. lia.
Qed.

(** ** Coverage *)

Section coverage.
Context {A : Type} `{AuthenticatorLaws A}.

(** The approval counts for the action: an authenticated principal gave it, and
    it covers the action of this exact plan now. *)
Definition counts_for (a : A) (plan : ChangePlan) (action : AgentAction) (now : datetime)
    (approval : Approval) (principal : text) : Prop :=
  ∃ s, authenticated_subject a approval = Ok (Some s) ∧ fold_text s = principal
    ∧ covers approval plan action now = true.

(** [covered_by] has exactly the principals of the approvals that count. *)
Lemma cover_spec a plan action now approvals acc covered_by :
  cover a plan action now approvals acc = Ok covered_by →
  ∀ p, is_Some (covered_by !! p) ↔
    is_Some (acc !! p)
    ∨ ∃ approval, approval ∈ approvals ∧ counts_for a plan action now approval p.
Proof using H.
  revert acc. induction approvals as [|x approvals IH]; intros acc Hc p; simpl in Hc.
  { inv_ok. split; [auto|]. intros [?|(?&?%elem_of_nil&_)]; done. }
  apply bind_Ok in Hc as (subject & Hs & Hc).
  assert (∀ s, subject = Some s → covers x plan action now = true →
    counts_for a plan action now x (fold_text s)) as Hyes
    by (intros s -> Hcov; by exists s).
  assert (∀ q, counts_for a plan action now x q →
    ∃ s, subject = Some s ∧ covers x plan action now = true ∧ q = fold_text s) as Hno.
  { intros q (s & Hs' & <- & Hcov). rewrite Hs in Hs'. simplify_eq. eauto. }
  destruct subject as [s|]; [destruct (covers x plan action now) eqn:Hcov|];
    simpl in Hc; rewrite (IH _ Hc p); setoid_rewrite elem_of_cons.
  - destruct (decide (fold_text s = p)) as [<-|Hp].
    + rewrite lookup_insert. rewrite decide_True by done. split; [|by eauto].
      intros _. right. exists x. split; [by left|]. by apply Hyes.
    + rewrite lookup_insert_ne by done. split; [naive_solver|].
      intros [?|(y & [->|Hy] & Hcy)]; [by left| |by eauto].
      apply Hno in Hcy as (s' & [= <-] & _ & Hq). done.
  - split; [naive_solver|]. intros [?|(y & [->|Hy] & Hcy)]; [by left| |by eauto].
    apply Hno in Hcy as (? & _ & ? & _). done.
  - split; [naive_solver|]. intros [?|(y & [->|Hy] & Hcy)]; [by left| |by eauto].
    by apply Hno in Hcy as (? & ? & _).
Qed.

(** At least [n] distinct principals approved. *)
Definition approved_by (a : A) (plan : ChangePlan) (action : AgentAction) (now : datetime)
    (approvals : list Approval) (n : Z) : Prop :=
  ∃ principals : list text, NoDup principals ∧ n ≤ Z.of_nat (length principals)
    ∧ Forall (λ p, ∃ approval s, approval ∈ approvals ∧ genuine a approval s
        ∧ fold_text s = p ∧ covers approval plan action now = true) principals.

Lemma covered_principals self plan action now approvals covered_by n :
  covered_approvals self plan action now approvals = Ok covered_by →
  n ≤ Z.of_nat (size covered_by) → 0 < n →
  ∃ a, pe_authenticator self = Some a ∧ approved_by a plan action now approvals n.
Proof using All.
  unfold covered_approvals. intros Hc Hn Hpos.
  destruct (pe_authenticator self) as [a|]; inv_ok; [|by rewrite map_size_empty in Hn; lia].
  exists a. split; [done|].
  exists (map fst (map_to_list covered_by)). split_and!.
  - apply NoDup_fst_map_to_list.
  - by rewrite length_map, length_map_to_list.
  - apply Forall_forall. intros p ((q & ap) & -> & Hin)%list_elem_of_fmap. simpl.
    apply elem_of_map_to_list in Hin.
    assert (is_Some (covered_by !! q)) as Hq by eauto.
    apply (cover_spec _ _ _ _ _ _ _ Hc) in Hq as [[? Hq]|(y & Hy & s & Hs & <- & Hcov)].
    { by rewrite lookup_empty in Hq. }
    exists y, s. split_and!; try done. by apply authenticated_genuine.
Qed.

(** ** What a permission means *)

Definition capsule_consistent (plan : ChangePlan) (action : AgentAction) : Prop :=
  ∀ b, capsule_binding_for plan action = Some b →
    ccb_risk b = aa_risk action ∧ ccb_data_classification b = aa_data_classification action.

Definition constraints_allow (self : PolicyEngine A) (plan : ChangePlan)
    (action : AgentAction) (now : datetime) : Prop :=
  ∀ c, pe_constraints self = Some c → (constraints_validate c plan action now).1 = true.

Definition approval_needed (self : PolicyEngine A) (action : AgentAction) (n : Z) : bool :=
  aa_requires_approval action
  || bool_decide (aa_risk action ∈ require_approval_risks (pe_config self))
  || (0 <? n).

(** A permitted action has passed every gate of the engine. *)
Lemma permitted_inv self plan action approvals now n d :
  evaluate self plan action approvals now n = Ok d → pd_permitted d = true →
  0 ≤ n ∧ capsule_consistent plan action ∧ constraints_allow self plan action now
  ∧ matches_any (aa_capability action) (prohibited_capabilities (pe_config self)) = false
  ∧ aa_risk action ∉ prohibit_risks (pe_config self)
  ∧ is_write (pe_config self) action && retrieved_authority action = false
  ∧ (if approval_needed self action n
    then ∃ covered_by, covered_approvals self plan action now approvals = Ok covered_by
           ∧ Z.max 1 n ≤ Z.of_nat (size covered_by)
    else aa_risk action ∈ auto_permit_risks (pe_config self)).
Proof using Type.
  unfold evaluate, denied, approval_needed. intros Hev Hp.
  apply bind_Ok in Hev as ([] & Hn%raise_if_Ok & Hev). apply Z.ltb_ge in Hn.
  split; [done|].
  destruct (match capsule_binding_for plan action with Some _ => _ | None => _ end) eqn:Hcap.
  { by inv_ok. }
  split.
  { intros b Hb. rewrite Hb in Hcap. apply orb_false_iff in Hcap as [H1 H2].
    apply negb_false_iff, bool_decide_eq_true in H1, H2. done. }
  destruct (match pe_constraints self with Some _ => _ | None => _ end) as [allowed reason]
    eqn:Hcon.
  destruct allowed; cbn [negb] in Hev; [|by inv_ok].
  split. { intros c Hc. rewrite Hc in Hcon. by rewrite Hcon. }
  destruct (matches_any _ _); [by inv_ok|]. split; [done|].
  destruct (bool_decide_reflect (aa_risk action ∈ prohibit_risks (pe_config self)));
    [by inv_ok|]. split; [done|].
  destruct (is_write _ _ && _); [by inv_ok|]. split; [done|].
  destruct (_ || _ || _).
  - apply bind_Ok in Hev as (covered_by & Hc & Hev).
    destruct (Z.ltb_spec (Z.of_nat (size covered_by)) (Z.max 1 n)); [by inv_ok|]. eauto.
  - destruct (bool_decide_reflect (aa_risk action ∈ auto_permit_risks (pe_config self)));
      [done|by inv_ok].
Qed.
End coverage.
