(* ===== verification/Capabilities.v ===== *)
(** * Capabilities: the capability catalog, [src/src/master_agent/capabilities.py]

    [CapabilityDefinition], [CapabilityCatalog] and the checks of an action and
    of a live connector against them.  The TOML document is its parsed table.
    Of a connector the module reads attributes of its configuration; they are
    the fields of [ConnectorView], [None] when [getattr] finds none. *)

From S2P Require Import Prelude PyText PyJson PyTime PyStd ResourceLimits ModelsBase.
From S2P Require Import PlatformIdentity ModelsAction ModelsBindings.
From Stdlib Require Import Ascii.

Open Scope Z_scope.

Definition MAX_LOCAL_ARTIFACT_BYTES : Z := 16 * 1024 * 1024.

Definition AUTHENTICATION_MODES : list (string * list string) :=
  [("anonymous_or_configured_connector",
    ["none"; "basic"; "bearer"; "oauth_delegated"; "oauth_application"]);
   ("configured_connector", ["basic"; "bearer"; "oauth_delegated"; "oauth_application"]);
   ("delegated", ["oauth_delegated"]);
   ("delegated_or_application", ["oauth_delegated"; "oauth_application"]);
   ("delegated_or_explicit_user", ["oauth_delegated"; "oauth_application"]);
   ("local", ["local"]);
   ("local_git", ["local_git"]);
   ("microsoft_graph", ["oauth_delegated"; "oauth_application"]);
   ("microsoft_graph_mail", ["oauth_delegated"; "oauth_application"]);
   ("microsoft_graph_teams", ["oauth_delegated"; "oauth_application"]);
   ("service_or_delegated", ["basic"; "bearer"; "oauth_delegated"; "oauth_application"])].

Definition PARAMETER_TYPES : list string :=
  ["array"; "boolean"; "integer"; "number"; "object"; "string"; "string_list";
   "string_or_string_list"].
Definition PROVIDER_PRECONDITIONS : list string := ["none"; "if_match"; "version"].
Definition READ_RESULT_RESOURCE_TYPES : list string := ["object"; "object_list"; "value"].
Definition READ_RESULT_RESERVED_FIELDS : list string :=
  ["schema"; "evidence"; "security"; "citations"; "citation_ids"; "query"].

(** An association list read as a mapping. *)
Fixpoint assoc {B} (k : string) (l : list (string * B)) : option B :=
  match l with
  | [] => None
  | (k', v) :: l => if (k =? k')%string then Some v else assoc k l
  end.

(** ** Reserved result fields *)

(** The longest prefix whose characters satisfy [p], and the rest. *)
Definition span_str (p : ascii → bool) (s : string) : string * string :=
  span_not (λ c, negb (p c)) s.

(** [re.sub(r"(.)([A-Z][a-z]+)", r"\1_\2", s)]: [skip] characters belong to the
    match already replaced. *)
Fixpoint split_words (skip : nat) (s : string) : string :=
  match s with
  | EmptyString => EmptyString
  | String c s' =>
      match skip with
      | S k => String c (split_words k s')
      | O =>
          match s' with
          | String u rest =>
              let n := String.length (span_str is_lower rest).1 in
              if negb (code c =? 10) && is_upper u && negb (n =? 0)%nat
              then String c (String "_" (split_words (S n) s'))
              else String c (split_words O s')
          | EmptyString => String c EmptyString
          end
      end
  end.

(** [re.sub(r"([a-z0-9])([A-Z])", r"\1_\2", s)]. *)
Fixpoint split_humps (s : string) : string :=
  match s with
  | String c ((String u _) as s') =>
      if (is_lower c || is_digit c) && is_upper u
      then String c (String "_" (split_humps s'))
      else String c (split_humps s')
  | s => s
  end.

(** [\w] below U+0100. *)
Definition is_word (c : ascii) : bool :=
  is_lower c || is_upper c || is_digit c || (c =? "_")%char
  || bool_decide (code c ∈ [170; 178; 179; 181; 185; 186; 188; 189; 190])
  || (in_range 192 255 c && negb (code c =? 215) && negb (code c =? 247)).

(** Replace each run of characters of [p] by one underscore. *)
Fixpoint squeeze (p : ascii → bool) (inside : bool) (s : string) : string :=
  match s with
  | EmptyString => EmptyString
  | String c s =>
      if p c then (if inside then squeeze p true s else String "_" (squeeze p true s))
      else String c (squeeze p false s)
  end.

Definition is_underscore (c : ascii) : bool := (c =? "_")%char.

Definition normalize_read_result_field_name (value : string) : string :=
  let snake := squeeze (λ c, negb (is_word c)) false (split_humps (split_words O value)) in
  casefold (rstrip_by is_underscore (lstrip_by is_underscore (squeeze is_underscore false snake))).

Definition drop_underscores (s : string) : string :=
  str_filter (λ c, negb (is_underscore c)) s.

Definition is_reserved_read_result_field_name (value : string) : bool :=
  let normalized := normalize_read_result_field_name value in
  bool_decide (normalized ∈ READ_RESULT_RESERVED_FIELDS)
  || bool_decide (drop_underscores normalized ∈ map drop_underscores READ_RESULT_RESERVED_FIELDS).

Example reserved_names :
  map is_reserved_read_result_field_name
    ["Citation-IDs"; "citationIds"; "SCHEMA"; "query"; "_Query_"; "queries"; "HTTPQuery"]
  = [true; true; true; true; true; false; false].
Proof. vm_compute. reflexivity. Qed.

(** ** Definitions *)

Record CapabilityDefinition : Type := mk_CapabilityDefinition {
  cap_name : string;
  cap_enabled : bool;
  cap_authentication : string;
  cap_risk : RiskLevel;
  cap_reversible : bool;
  cap_requires_expected_version : bool;
  cap_provider_precondition : string;
  cap_required_scopes : list string;
  cap_target_system : string;
  cap_target_resource_types : list string;
  cap_parameter_schema : list (string * string);
  cap_read_result_schema : string;
  cap_read_result_resources : list (string * string);
  cap_read_result_metadata : list string;
  cap_max_input_bytes : option Z;
  cap_max_output_bytes : option Z;
  cap_uses_external_model : bool;
  cap_description : string;
}.

(** [s.removesuffix("?")] and [s.endswith("?")]. *)
Fixpoint ends_with (c : ascii) (s : string) : bool :=
  match s with
  | EmptyString => false
  | String d EmptyString => (c =? d)%char
  | String _ s => ends_with c s
  end.
Fixpoint remove_suffix (c : ascii) (s : string) : string :=
  match s with
  | EmptyString => EmptyString
  | String d EmptyString => if (c =? d)%char then EmptyString else s
  | String d s => String d (remove_suffix c s)
  end.

Definition is_printable (c : ascii) : bool := negb (is_control c || (code c =? 160)).

Definition blank_or_untrimmed (s : string) : bool := is_blank s || untrimmed s.

(** The checks on a declared read-result contract. *)
Definition check_read_result (self : CapabilityDefinition) (schema : string)
    (resources : list (string * string)) (metadata : list string) : result unit :=
  let label := "capability " +:+ cap_name self in
  raise_if (negb (bool_decide (cap_risk self = READ_ONLY)))
    (ConfigurationError ("non-read capability " +:+ cap_name self
       +:+ " must not declare a read result contract"));;
  raise_if ((schema =? "")%string || (256 <? len schema) || negb (str_in "@" schema))
    (ConfigurationError (label +:+ " requires a versioned read_result_schema"));;
  raise_if (negb (str_forall is_printable schema) || untrimmed schema)
    (ConfigurationError (label +:+ " has an invalid read_result_schema"));;
  raise_if (bool_decide (resources = []))
    (ConfigurationError (label +:+ " requires read_result_resources"));;
  for_each (λ rd : string * string,
    raise_if (blank_or_untrimmed rd.1)
      (ConfigurationError (label +:+ " has an invalid read result resource"));;
    raise_if (negb (bool_decide (rd.2 ∈ READ_RESULT_RESOURCE_TYPES)))
      (ConfigurationError (label +:+ " has unsupported read result resource: "
         +:+ rd.1 +:+ "=" +:+ rd.2))) resources;;
  raise_if (existsb blank_or_untrimmed metadata)
    (ConfigurationError (label +:+ " has invalid read result metadata"));;
  let names := map fst resources in
  let overlap := sort_by str_le (List.filter (λ n, bool_decide (n ∈ metadata)) names) in
  raise_if (negb (bool_decide (overlap = [])))
    (ConfigurationError (label +:+ " read result fields overlap: "
       +:+ str_join ", " overlap));;
  let reserved := sort_by str_le
    (remove_dups (List.filter is_reserved_read_result_field_name (names ++ metadata))) in
  raise_if (negb (bool_decide (reserved = [])))
    (ConfigurationError (label +:+ " read result fields are reserved: "
       +:+ str_join ", " reserved)).

Definition positive_option (o : option Z) : bool :=
  match o with Some z => 0 <? z | None => false end.

(** The byte quotas, which local generators must and others must not declare. *)
Definition check_quotas (self : CapabilityDefinition) : result unit :=
  if bool_decide (cap_risk self = LOCAL_GENERATION) then
    raise_if (negb (positive_option (cap_max_input_bytes self))
              || negb (positive_option (cap_max_output_bytes self)))
      (ConfigurationError ("local-generation capability " +:+ cap_name self
         +:+ " requires positive max_input_bytes and max_output_bytes quotas"));;
    raise_if (MAX_ACTION_PARAMETER_BYTES <? default 0 (cap_max_input_bytes self))
      (ConfigurationError ("capability " +:+ cap_name self
         +:+ " max_input_bytes exceeds the model ceiling"));;
    raise_if (MAX_LOCAL_ARTIFACT_BYTES <? default 0 (cap_max_output_bytes self))
      (ConfigurationError ("capability " +:+ cap_name self
         +:+ " max_output_bytes exceeds the artifact ceiling"))
  else
    raise_if (is_someb (cap_max_input_bytes self) || is_someb (cap_max_output_bytes self))
      (ConfigurationError ("non-local capability " +:+ cap_name self
         +:+ " must not declare artifact quotas")).

(** The part of the name before the first dot. *)
Definition name_domain (name : string) : string := (partition "." name).1.1.

Definition CapabilityDefinition_post_init (self : CapabilityDefinition)
    : result CapabilityDefinition :=
  let label := "capability " +:+ cap_name self in
  raise_if (negb (str_in "." (cap_name self)))
    (ConfigurationError ("capability name must be a dotted domain name: " +:+ cap_name self));;
  raise_if (is_blank (cap_authentication self))
    (ConfigurationError ("capability authentication must not be empty: " +:+ cap_name self));;
  raise_if (negb (is_someb (assoc (cap_authentication self) AUTHENTICATION_MODES)))
    (ConfigurationError (label +:+ " has unsupported authentication contract: "
       +:+ cap_authentication self));;
  raise_if (negb (bool_decide (cap_provider_precondition self ∈ PROVIDER_PRECONDITIONS)))
    (ConfigurationError (label +:+ " has unsupported provider_precondition: "
       +:+ cap_provider_precondition self));;
  let stripped := strip (cap_target_system self) in
  let target_system :=
    if (stripped =? "")%string then name_domain (cap_name self) else stripped in
  raise_if (target_system =? "")%string
    (ConfigurationError ("capability target system must not be empty: " +:+ cap_name self));;
  let resource_types := sorted_set (cap_target_resource_types self) in
  raise_if (existsb is_blank resource_types)
    (ConfigurationError (label +:+ " target resource types must not be empty"));;
  let schema := cap_parameter_schema self in
  for_each (λ pd : string * string,
    raise_if (is_blank pd.1)
      (ConfigurationError (label +:+ " parameter name must not be empty"));;
    raise_if (negb (bool_decide (remove_suffix "?" pd.2 ∈ PARAMETER_TYPES)))
      (ConfigurationError (label +:+ " has unsupported parameter type: "
         +:+ pd.1 +:+ "=" +:+ pd.2))) schema;;
  let result_schema := strip (cap_read_result_schema self) in
  let resources := cap_read_result_resources self in
  let metadata := sorted_set (cap_read_result_metadata self) in
  (if negb (result_schema =? "")%string || negb (bool_decide (resources = []))
      || negb (bool_decide (metadata = []))
   then check_read_result self result_schema resources metadata else Ok tt);;
  let side_effect := cap_enabled self && negb (bool_decide (cap_risk self = READ_ONLY)) in
  raise_if (side_effect && bool_decide (resource_types = []))
    (ConfigurationError ("enabled side-effect " +:+ label
       +:+ " requires target_resource_types"));;
  raise_if (side_effect && bool_decide (schema = []))
    (ConfigurationError ("enabled side-effect " +:+ label +:+ " requires a parameter_schema"));;
  raise_if (cap_enabled self && cap_requires_expected_version self
            && (cap_provider_precondition self =? "none")%string)
    (ConfigurationError ("enabled modifying " +:+ label
       +:+ " requires a provider_precondition"));;
  check_quotas self;;
  Ok (mk_CapabilityDefinition (cap_name self) (cap_enabled self) (cap_authentication self)
        (cap_risk self) (cap_reversible self) (cap_requires_expected_version self)
        (cap_provider_precondition self) (cap_required_scopes self) target_system
        resource_types schema result_schema resources metadata (cap_max_input_bytes self)
        (cap_max_output_bytes self) (cap_uses_external_model self) (cap_description self)).

(** ** Parameters *)

Definition is_string_list (v : json) : bool :=
  match v with JList l => forallb is_str l | _ => false end.

Definition parameter_matches (value : json) (expected : string) : bool :=
  if (expected =? "string")%string then is_str value
  else if (expected =? "boolean")%string
  then match value with JBool _ => true | _ => false end
  else if (expected =? "integer")%string
  then match value with JInt _ => true | _ => false end
  else if (expected =? "number")%string
  then match value with JInt _ | JFloat _ => true | _ => false end
  else if (expected =? "object")%string then is_mapping value
  else if (expected =? "array")%string then is_list value
  else if (expected =? "string_list")%string then is_string_list value
  else if (expected =? "string_or_string_list")%string
  then is_str value || is_string_list value
  else false.

Fixpoint check_schema (parameters : dict) (schema : list (string * string))
    : option string :=
  match schema with
  | [] => None
  | (name, descriptor) :: schema =>
      let optional := ends_with "?" descriptor in
      match dict_lookup parameters name with
      | None => if optional then check_schema parameters schema
                else Some ("required parameter is missing: " +:+ name)
      | Some value =>
          if optional && is_none value then check_schema parameters schema
          else
            let expected := remove_suffix "?" descriptor in
            if parameter_matches value expected then check_schema parameters schema
            else Some ("parameter " +:+ name +:+ " must be " +:+ expected)
      end
  end.

Definition validate_parameters (parameters : dict) (schema : list (string * string))
    : option string :=
  match schema with
  | [] => None
  | _ =>
      let unknown := sort_by str_le
        (List.filter (λ k, negb (is_someb (assoc k schema))) (map fst parameters)) in
      if bool_decide (unknown = []) then check_schema parameters schema
      else Some ("unexpected parameters: " +:+ str_join ", " unknown)
  end.

(** ** Catalog *)

Abbreviation catalog := (gmap string CapabilityDefinition).

Definition catalog_definition (self : catalog) (capability : string)
    : result CapabilityDefinition :=
  or_raise (self !! capability)
    (ValidationError ("capability is not registered in the catalog: " +:+ capability)).

Definition catalog_validate_action (self : catalog) (action : AgentAction)
    (require_enabled : bool) : bool * string :=
  let capability := aa_capability action in
  match catalog_definition self capability with
  | Err error => (false, exn_message error)
  | Ok definition =>
      if require_enabled && negb (cap_enabled definition)
      then (false, "capability is disabled by catalog: " +:+ capability)
      else if negb (bool_decide (cap_risk definition = aa_risk action))
      then (false, "capability risk mismatch for " +:+ capability +:+ ": catalog="
                   +:+ enum_str (cap_risk definition) +:+ ", action="
                   +:+ enum_str (aa_risk action))
      else if negb (cap_target_system definition =? rr_system (aa_target action))%string
      then (false, "capability target system mismatch for " +:+ capability +:+ ": catalog="
                   +:+ cap_target_system definition +:+ ", action="
                   +:+ rr_system (aa_target action))
      else if negb (bool_decide (cap_target_resource_types definition = []))
              && negb (bool_decide (rr_resource_type (aa_target action)
                                    ∈ cap_target_resource_types definition))
      then (false, "capability target resource type mismatch for " +:+ capability
                   +:+ ": action=" +:+ rr_resource_type (aa_target action))
      else
      match validate_parameters (aa_parameters action) (cap_parameter_schema definition) with
      | Some error => (false, "capability parameter schema mismatch: " +:+ error)
      | None =>
          let quota :=
            if bool_decide (cap_risk definition = LOCAL_GENERATION) then
              match cap_max_input_bytes definition with
              | None => Some "local-generation input quota is missing"
              | Some limit =>
                  match measure_json_resources (JDict (aa_parameters action))
                          (capability +:+ " input") limit with
                  | Err error => Some ("capability input quota exceeded: "
                                       +:+ exn_message error)
                  | Ok _ => None
                  end
              end
            else None in
          match quota with
          | Some error => (false, error)
          | None =>
              if cap_requires_expected_version definition
                 && (default "" (rr_expected_version (aa_target action)) =? "")%string
              then (false, "capability requires an approved expected_version: "
                           +:+ capability)
              else (true, "capability is enabled and risk-classified")
          end
      end
  end.

Definition sorted_names (self : catalog) : list string :=
  sort_by str_le (map fst (map_to_list self)).

Definition enabled_names (self : catalog) : list string :=
  sort_by str_le
    (map fst (List.filter (λ nd : string * CapabilityDefinition, cap_enabled nd.2)
       (map_to_list self))).

(** The quota a local generator declares. *)
Definition output_limit (d : CapabilityDefinition) : option Z :=
  if bool_decide (cap_risk d = LOCAL_GENERATION) then cap_max_output_bytes d else None.

Definition local_generation_output_limits (self : catalog) : gmap string Z :=
  omap output_limit self.

(** ** Live connectors *)

Record ConnectorView : Type := mk_ConnectorView {
  cv_authentication_mode : option string;
  cv_config_identity : option string;
  cv_implementation : option string;
  cv_base_url : option string;
  cv_ca_bundle : option string;
  cv_ca_bundle_sha256 : option string;
  cv_network_profile_name : string;
  cv_network_profile_sha256 : option string;
  cv_proxy_url : option string;
  cv_compensating : bool;
}.

(** The origin a base URL resolves to: [None] when it is no HTTPS endpoint. *)
Definition resolved_origin (base_url : string) : option string :=
  match (u ← urlsplit base_url; port ← url_port u; Ok (u, port)) with
  | Err _ => None
  | Ok (u, port) =>
      let hostname := rstrip_by (λ c, (c =? ".")%char) (str_lower (url_hostname u)) in
      if negb (url_scheme u =? "https")%string || (hostname =? "")%string
         || url_has_userinfo u || negb (url_query u =? "")%string
         || negb (url_fragment u =? "")%string
      then None
      else
        let host := if str_in ":" hostname then "[" +:+ hostname +:+ "]" else hostname in
        Some ("https://" +:+ host +:+
              match port with
              | Some p => if p =? 443 then "" else ":" +:+ pretty p
              | None => ""
              end)
  end.

Definition legacy_direct (binding : ConnectorExecutionBinding) : bool :=
  (ceb_network_profile_name binding =? "direct")%string
  && negb (is_someb (ceb_network_profile_sha256 binding))
  && negb (is_someb (ceb_proxy_origin binding)).

Definition network_drifted (c : ConnectorView) (binding : ConnectorExecutionBinding) : bool :=
  if legacy_direct binding
  then negb (cv_network_profile_name c =? "direct")%string || is_someb (cv_proxy_url c)
  else negb (cv_network_profile_name c =? ceb_network_profile_name binding)%string
       || negb (bool_decide (cv_network_profile_sha256 c
                             = ceb_network_profile_sha256 binding))
       || negb (bool_decide (cv_proxy_url c = ceb_proxy_origin binding)).

Definition connector_execution_binding_error (c : ConnectorView)
    (binding : ConnectorExecutionBinding) : option string :=
  let invalid := Some "execution binding has an invalid provider endpoint" in
  if negb (bool_decide (cv_implementation c = Some (ceb_implementation binding)))
  then Some "implementation drifted from its execution binding"
  else if (default "" (cv_base_url c) =? "")%string
  then Some "has no resolved provider endpoint"
  else if negb (bool_decide (cv_base_url c = Some (ceb_resolved_base_url binding)))
  then Some "endpoint drifted from its execution binding"
  else
  match resolved_origin (ceb_resolved_base_url binding) with
  | None => invalid
  | Some origin =>
      if negb (ceb_resolved_origin binding =? origin)%string
      then Some "origin drifted from its execution binding"
      else if negb (bool_decide (cv_ca_bundle c = ceb_ca_bundle_path binding))
              || negb (bool_decide (cv_ca_bundle_sha256 c = ceb_ca_bundle_sha256 binding))
      then Some "CA identity drifted from its execution binding"
      else if network_drifted c binding
      then Some "network profile drifted from its execution binding"
      else None
  end.

Definition validate_connector_execution_binding (c : ConnectorView)
    (binding : ConnectorExecutionBinding) : bool * string :=
  match connector_execution_binding_error c binding with
  | Some error => (false, "resolved connector " +:+ error)
  | None => (true, "resolved connector endpoint, CA, and network profile match the execution binding")
  end.

(** The drift of the live connector from its binding, as [validate_execution]
    words it. *)
Definition binding_drift (c : ConnectorView) (binding : ConnectorExecutionBinding)
    (capability : string) : option string :=
  if negb (bool_decide (cv_authentication_mode c = Some (ceb_authentication_mode binding)))
  then Some ("resolved connector authentication drifted for " +:+ capability)
  else if negb (bool_decide (cv_config_identity c = Some (ceb_config_identity_sha256 binding)))
  then Some ("resolved connector configuration drifted for " +:+ capability)
  else match connector_execution_binding_error c binding with
       | Some error => Some ("resolved connector " +:+ error +:+ " for " +:+ capability)
       | None => None
       end.

(** The binding's sets are what the definition requires.  A definition whose
    authentication contract is not in the table has no allowed mode here; the
    source raises [KeyError], and [CapabilityDefinition_post_init] refuses such a
    definition. *)
Definition authority_error (definition : CapabilityDefinition) (c : ConnectorView)
    (binding : option ConnectorExecutionBinding) (capability : string) : option string :=
  let observed_mode :=
    match binding with
    | Some b => ceb_authentication_mode b
    | None => if (cap_authentication definition =? "local_git")%string
              then "local_git" else "local"
    end in
  let allowed := default [] (assoc (cap_authentication definition) AUTHENTICATION_MODES) in
  let observed_scopes := match binding with Some b => ceb_credential_scopes b | None => [] end in
  let missing := sort_by str_le
    (remove_dups (List.filter (λ s, negb (bool_decide (s ∈ observed_scopes)))
       (cap_required_scopes definition))) in
  if negb (bool_decide (observed_mode ∈ allowed))
  then Some ("effective authentication mode " +:+ observed_mode
             +:+ " is not allowed for " +:+ capability)
  else if negb (bool_decide (observed_mode ∈ ["none"; "local"; "local_git"]))
          && negb (is_someb (binding ≫= ceb_credential_identity))
  then Some ("effective credential identity is not bound for " +:+ capability)
  else if negb (bool_decide (missing = []))
  then Some ("effective credential scopes are missing for " +:+ capability +:+ ": "
             +:+ str_join ", " missing)
  else if cap_reversible definition && negb (cv_compensating c)
  then Some ("connector does not implement verified compensation: " +:+ capability)
  else None.

Definition validate_execution (self : catalog) (action : AgentAction) (c : ConnectorView)
    (binding : option ConnectorExecutionBinding) (connector_mode : string)
    : result (bool * string) :=
  let capability := aa_capability action in
  definition ← catalog_definition self capability;
  if (connector_mode =? "mock")%string
  then Ok (true, "mock connector has no external authority")
  else
    let drift := match binding with
                 | Some b => binding_drift c b capability
                 | None => None
                 end in
    match drift with
    | Some error => Ok (false, error)
    | None =>
        match authority_error definition c binding capability with
        | Some error => Ok (false, error)
        | None => Ok (true, "effective connector authority satisfies the capability contract")
        end
    end.

(** ** Loading and serialisation *)

Definition config_bool (v : json) (name : string) : result bool :=
  match v with
  | JBool b => Ok b
  | _ => Err (ConfigurationError (name +:+ " must be a boolean"))
  end.

(** A list of non-blank strings, or the error. *)
Definition text_list (v : json) (error : string) : result (list string) :=
  match json_strings v with
  | Some l => raise_if (existsb is_blank l) (ConfigurationError error);; Ok l
  | None => Err (ConfigurationError error)
  end.

(** A table of non-blank strings with non-blank keys, or the error. *)
Definition text_table (v : json) (error : string) : result (list (string * string)) :=
  match v with
  | JDict d =>
      or_raise
        (mapM (λ kv : string * json,
           match kv.2 with
           | JStr s => if is_blank kv.1 || is_blank s then None else Some (kv.1, s)
           | _ => None
           end) d)
        (ConfigurationError error)
  | _ => Err (ConfigurationError error)
  end.

Definition optional_positive_int (v : json) (name : string) : result (option Z) :=
  match v with
  | JNull => Ok None
  | JInt z => raise_if (z <=? 0) (ConfigurationError (name +:+ " must be a positive integer"));;
              Ok (Some z)
  | _ => Err (ConfigurationError (name +:+ " must be a positive integer"))
  end.

(** The keys of a mapping that [known] does not hold, sorted. *)
Definition unknown_keys (d : dict) (known : string → bool) : list string :=
  sort_by str_le (List.filter (λ k, negb (known k)) (map fst d)).

Definition load_definition (result_contracts : dict) (name : string) (v : json)
    : result CapabilityDefinition :=
  let label := "capability " +:+ name in
  value ← match v with
          | JDict d => Ok d
          | _ => Err (ConfigurationError ("capability definition must be a table: " +:+ name))
          end;
  risk ← reraise (text ← item_str value "risk"; enum_parse text)
    (λ _, Some (ConfigurationError (label +:+ " has an invalid or missing risk")));
  scopes ← text_list (dict_get_or value "required_scopes" (JList []))
    (label +:+ " required_scopes must be a list of strings");
  resource_types ← text_list (dict_get_or value "target_resource_types" (JList []))
    (label +:+ " target_resource_types must be a list of strings");
  parameter_schema ← text_table (dict_get_or value "parameter_schema" (JDict []))
    (label +:+ " parameter_schema must be a string table");
  contract ← match dict_get_or result_contracts name (JDict []) with
             | JDict d => Ok d
             | _ => Err (ConfigurationError ("read result contract must be a table: " +:+ name))
             end;
  let unknown := unknown_keys contract
    (λ k, bool_decide (k ∈ ["schema"; "resources"; "metadata"])) in
  raise_if (negb (bool_decide (unknown = [])))
    (ConfigurationError ("read result contract " +:+ name +:+ " has unknown keys: "
       +:+ str_join ", " unknown));;
  resources ← text_table
    (dict_get_or contract "resources" (dict_get_or value "read_result_resources" (JDict [])))
    (label +:+ " read_result_resources must be a string table");
  metadata ← text_list
    (dict_get_or contract "metadata" (dict_get_or value "read_result_metadata" (JList [])))
    (label +:+ " read_result_metadata must be a list of strings");
  enabled ← config_bool (dict_get_or value "enabled" (JBool false)) (label +:+ " enabled");
  reversible ← config_bool (dict_get_or value "reversible" (JBool false))
    (label +:+ " reversible");
  requires ← config_bool (dict_get_or value "requires_expected_version" (JBool false))
    (label +:+ " requires_expected_version");
  max_input ← optional_positive_int (dict_get value "max_input_bytes")
    (label +:+ " max_input_bytes");
  max_output ← optional_positive_int (dict_get value "max_output_bytes")
    (label +:+ " max_output_bytes");
  external ← config_bool (dict_get_or value "uses_external_model" (JBool false))
    (label +:+ " uses_external_model");
  CapabilityDefinition_post_init
    (mk_CapabilityDefinition name enabled (get_str value "authentication" "unspecified") risk
       reversible requires (get_str value "provider_precondition" "none") scopes
       (get_str value "target_system" "") resource_types parameter_schema
       (py_str (dict_get_or contract "schema"
                  (dict_get_or value "read_result_schema" (JStr ""))))
       resources metadata max_input max_output external (get_str value "description" "")).

Fixpoint load_definitions (result_contracts table : dict) (parsed : catalog)
    : result catalog :=
  match table with
  | [] => Ok parsed
  | (name, v) :: table =>
      d ← load_definition result_contracts name v;
      load_definitions result_contracts table (<[cap_name d := d]> parsed)
  end.

Definition catalog_from_toml (raw : dict) : result catalog :=
  table ← match dict_get_or raw "capabilities" (JDict []) with
          | JDict d => Ok d
          | _ => Err (ConfigurationError "[capabilities] must be a TOML table")
          end;
  contracts ← match dict_get_or raw "read_result_contracts" (JDict []) with
              | JDict d => Ok d
              | _ => Err (ConfigurationError "[read_result_contracts] must be a TOML table")
              end;
  let orphans := unknown_keys contracts (dict_mem table) in
  raise_if (negb (bool_decide (orphans = [])))
    (ConfigurationError ("read result contracts reference unknown capabilities: "
       +:+ str_join ", " orphans));;
  load_definitions contracts table ∅.

Definition text_dict (l : list (string * string)) : json :=
  JDict (map (λ kv : string * string, (kv.1, JStr kv.2)) l).

Definition definition_to_dict (item : CapabilityDefinition) : dict :=
  [("enabled", JBool (cap_enabled item));
   ("authentication", JStr (cap_authentication item));
   ("risk", JStr (enum_str (cap_risk item)));
   ("reversible", JBool (cap_reversible item));
   ("requires_expected_version", JBool (cap_requires_expected_version item));
   ("provider_precondition", JStr (cap_provider_precondition item));
   ("required_scopes", str_list (cap_required_scopes item));
   ("target_system", JStr (cap_target_system item));
   ("target_resource_types", str_list (cap_target_resource_types item));
   ("parameter_schema", text_dict (cap_parameter_schema item));
   ("read_result_schema", JStr (cap_read_result_schema item));
   ("read_result_resources", text_dict (cap_read_result_resources item));
   ("read_result_metadata", str_list (cap_read_result_metadata item));
   ("max_input_bytes", opt_json JInt (cap_max_input_bytes item));
   ("max_output_bytes", opt_json JInt (cap_max_output_bytes item));
   ("uses_external_model", JBool (cap_uses_external_model item));
   ("description", JStr (cap_description item))].

Definition catalog_to_dict (self : catalog) : dict :=
  [("capabilities",
    JDict (map (λ name, (name, match self !! name with
                                | Some item => JDict (definition_to_dict item)
                                | None => JNull
                                end))
             (sorted_names self)))].
