(* ===== verification/Governance.v ===== *)
(** * Governance: organization profile, [src/src/master_agent/governance.py]

    Governance rules, the most specific match, and the checks on actions,
    external models and direct read sessions.  The TOML document is its parsed
    table.  The profile only stores the [model_context] policy of
    [provider_egress.py]: its type is a parameter, and its constructor
    [ProviderDataEgressPolicy.from_mapping] an argument of the loader. *)

From S2P Require Import Prelude PyText PyJson PyTime PyStd ResourceLimits ModelsBase.
From S2P Require Import PlatformIdentity ModelsAction ModelsBindings ModelsContext.
From S2P Require Import ModelsPlan ModelsResults Policy Capabilities.
From Stdlib Require Import Ascii.

Open Scope Z_scope.

Inductive EnvironmentKind : Type := DEVELOPMENT | NON_PRODUCTION | PRODUCTION.
#[export] Instance EnvironmentKind_eq_dec : EqDecision EnvironmentKind.
Proof. solve_decision. Defined.
Definition EnvironmentKind_str (e : EnvironmentKind) : string :=
  match e with
  | DEVELOPMENT => "development" | NON_PRODUCTION => "non_production"
  | PRODUCTION => "production"
  end.
#[export] Instance EnvironmentKind_enum : StrEnum EnvironmentKind := {
  enum_name := "EnvironmentKind";
  enum_members := [DEVELOPMENT; NON_PRODUCTION; PRODUCTION];
  enum_str := EnvironmentKind_str }.
#[export] Instance EnvironmentKind_laws : StrEnumLaws EnvironmentKind.
Proof. by intros []. Qed.

Inductive ApprovalTier : Type := AUTOMATIC | SINGLE | DUAL | TIER_PROHIBITED.
#[export] Instance ApprovalTier_eq_dec : EqDecision ApprovalTier.
Proof. solve_decision. Defined.
Definition ApprovalTier_str (t : ApprovalTier) : string :=
  match t with
  | AUTOMATIC => "automatic" | SINGLE => "single" | DUAL => "dual"
  | TIER_PROHIBITED => "prohibited"
  end.
#[export] Instance ApprovalTier_enum : StrEnum ApprovalTier := {
  enum_name := "ApprovalTier"; enum_members := [AUTOMATIC; SINGLE; DUAL; TIER_PROHIBITED];
  enum_str := ApprovalTier_str }.
#[export] Instance ApprovalTier_laws : StrEnumLaws ApprovalTier.
Proof. by intros []. Qed.

(** ** Rules *)

Record GovernanceRule : Type := mk_GovernanceRule {
  gr_pattern : string;
  gr_owner : string;
  gr_authentication : string;
  gr_data_classifications : list DataClassification;
  gr_approval_tier : ApprovalTier;
  gr_environments : list EnvironmentKind;
  gr_enabled : bool;
}.

Definition GovernanceRule_post_init (self : GovernanceRule) : result GovernanceRule :=
  raise_if (is_blank (gr_pattern self))
    (ConfigurationError "governance rule pattern must not be empty");;
  raise_if (is_blank (gr_owner self))
    (ConfigurationError ("governance owner must not be empty for " +:+ gr_pattern self));;
  raise_if (is_blank (gr_authentication self))
    (ConfigurationError ("governance authentication must not be empty for "
       +:+ gr_pattern self));;
  raise_if (bool_decide (gr_data_classifications self = []))
    (ConfigurationError ("governance data classifications are required for "
       +:+ gr_pattern self));;
  raise_if (bool_decide (gr_environments self = []))
    (ConfigurationError ("governance environments are required for " +:+ gr_pattern self));;
  Ok self.

Definition is_wildcard (c : ascii) : bool := (c =? "*")%char || (c =? "?")%char.

(** [specificity]: literal length, fewer wildcards, length. *)
Definition specificity (self : GovernanceRule) : Z * Z * Z :=
  let wildcards := str_count is_wildcard (gr_pattern self) in
  (len (gr_pattern self) - wildcards, - wildcards, len (gr_pattern self)).

(** The order of Python's tuples. *)
Definition triple_lt (x y : Z * Z * Z) : bool :=
  let '(a, b, c) := x in
  let '(a', b', c') := y in
  if a =? a' then (if b =? b' then c <? c' else b <? b') else a <? a'.

(** ** Profile *)

Record GovernanceProfile (Egress : Type) : Type := mk_GovernanceProfile {
  gp_organization : string;
  gp_environment : EnvironmentKind;
  gp_secret_manager : string;
  gp_audit_sink : string;
  gp_external_model_policy : string;
  gp_rules : list GovernanceRule;
  gp_metadata : dict;
  gp_model_context : option Egress;
}.
#[global] Arguments mk_GovernanceProfile {Egress}.
#[global] Arguments gp_organization {Egress} _.
#[global] Arguments gp_environment {Egress} _.
#[global] Arguments gp_secret_manager {Egress} _.
#[global] Arguments gp_audit_sink {Egress} _.
#[global] Arguments gp_external_model_policy {Egress} _.
#[global] Arguments gp_rules {Egress} _.
#[global] Arguments gp_metadata {Egress} _.
#[global] Arguments gp_model_context {Egress} _.

Section profile.
Context {Egress : Type}.
#[local] Abbreviation GovernanceProfile := (GovernanceProfile Egress).

Definition GovernanceProfile_post_init (self : GovernanceProfile)
    : result GovernanceProfile :=
  for_each (λ nv : string * string,
      raise_if (is_blank nv.2)
        (ConfigurationError ("governance " +:+ nv.1 +:+ " must not be empty")))
    [("organization", gp_organization self); ("secret_manager", gp_secret_manager self);
     ("audit_sink", gp_audit_sink self);
     ("external_model_policy", gp_external_model_policy self)];;
  Ok self.

(** [max(xs, key=...)] from a first element on: the first of the maximal ones. *)
Fixpoint max_rule (best : GovernanceRule) (rules : list GovernanceRule) : GovernanceRule :=
  match rules with
  | [] => best
  | r :: rules => max_rule (if triple_lt (specificity best) (specificity r) then r else best) rules
  end.

Definition rule_for (self : GovernanceProfile) (capability : string)
    : option GovernanceRule :=
  match List.filter (λ r, fnmatch capability (gr_pattern r)) (gp_rules self) with
  | [] => None
  | r :: rules => Some (max_rule r rules)
  end.

Definition governance_validate_action (self : GovernanceProfile) (action : AgentAction)
    : bool * string :=
  let capability := aa_capability action in
  match rule_for self capability with
  | None => (false, "no governance owner/rule covers " +:+ capability)
  | Some rule =>
      if negb (gr_enabled rule) then (false, "governance rule disables " +:+ capability)
      else if negb (bool_decide (gp_environment self ∈ gr_environments rule))
      then (false, "capability " +:+ capability +:+ " is not allowed in "
                   +:+ enum_str (gp_environment self))
      else if negb (bool_decide (aa_data_classification action
                                 ∈ gr_data_classifications rule))
      then (false, "data classification " +:+ enum_str (aa_data_classification action)
                   +:+ " is not allowed for " +:+ capability)
      else if bool_decide (gr_approval_tier rule = TIER_PROHIBITED)
      then (false, "governance prohibits " +:+ capability)
      else if bool_decide (gr_approval_tier rule = AUTOMATIC) && is_write_risk (aa_risk action)
      then (false, "write capability " +:+ capability
                   +:+ " cannot use automatic governance approval")
      else (true, "governed by " +:+ gr_owner rule +:+ " ("
                  +:+ enum_str (gr_approval_tier rule) +:+ ")")
  end.

Definition validate_external_model (self : GovernanceProfile) (action : AgentAction)
    (definition : CapabilityDefinition) : bool * string :=
  if negb (cap_uses_external_model definition)
  then (true, "capability does not use an external model")
  else
    match json_strings (dict_get_or (gp_metadata self)
                          "external_model_approved_classifications" (JList [])) with
    | None => (false, "external-model approved classifications are invalid")
    | Some allowed =>
        if negb (bool_decide (enum_str (aa_data_classification action) ∈ allowed))
        then (false, "external-model policy " +:+ gp_external_model_policy self
                     +:+ " does not approve " +:+ enum_str (aa_data_classification action)
                     +:+ " data for " +:+ aa_capability action)
        else (true, "external-model policy explicitly permits this classification")
    end.

Definition approval_tier_for (self : GovernanceProfile) (capability : string)
    : option ApprovalTier := gr_approval_tier <$> rule_for self capability.

Definition minimum_approvers (self : GovernanceProfile) (capability : string) : result Z :=
  rule ← or_raise (rule_for self capability)
    (ConfigurationError ("no governance owner/rule covers " +:+ capability));
  raise_if (negb (gr_enabled rule) || bool_decide (gr_approval_tier rule = TIER_PROHIBITED))
    (ConfigurationError ("governance prohibits " +:+ capability));;
  Ok match gr_approval_tier rule with SINGLE => 1 | DUAL => 2 | _ => 0 end.

(** The checks of [allows_direct_read_session] on one action. *)
Definition direct_read_error (action : AgentAction) : option string :=
  if negb (bool_decide (aa_risk action = READ_ONLY))
  then Some "direct read sessions permit read-only actions only"
  else if negb (bool_decide (aa_authority_source action = DIRECT_USER))
  then Some "direct read sessions require direct-user authority"
  else if aa_requires_approval action
  then Some "direct read sessions cannot carry approval-required actions"
  else None.

Fixpoint first_error {B} (f : B → option string) (l : list B) : option string :=
  match l with
  | [] => None
  | x :: l => match f x with Some e => Some e | None => first_error f l end
  end.

Definition allows_direct_read_session (self : GovernanceProfile) (plan : ChangePlan)
    : bool * string :=
  match dict_get_or (gp_metadata self) "allow_ephemeral_direct_reads" (JBool false) with
  | JBool configured =>
      if negb configured then (false, "governance disables direct read sessions")
      else if is_someb (cp_execution_context plan)
      then (false, "direct read sessions must not use an execution context")
      else if is_someb (cp_workflow_id plan) || is_someb (cp_workflow_fingerprint plan)
      then (false, "direct read sessions cannot execute a registered workflow")
      else if cp_compensate_on_failure plan
      then (false, "direct read sessions cannot request compensation")
      else if negb (length (remove_dups (map (λ a, rr_system (aa_target a)) (cp_actions plan)))
                    =? 1)%nat
      then (false, "direct read sessions require exactly one provider")
      else match first_error direct_read_error (cp_actions plan) with
           | Some e => (false, e)
           | None => (true, "governance permits an ephemeral direct read session")
           end
  | _ => (false, "allow_ephemeral_direct_reads must be a boolean")
  end.

(** ** Coverage report *)

(** The entry and the errors of one catalog capability. *)
Definition coverage_entry (self : GovernanceProfile) (name : string)
    (definition : CapabilityDefinition) : list json * list string :=
  match rule_for self name with
  | None => ([], ["no governance rule covers " +:+ name])
  | Some rule =>
      ([JDict
          [("capability", JStr name);
           ("catalog_enabled", JBool (cap_enabled definition));
           ("owner", JStr (gr_owner rule));
           ("approval_tier", JStr (enum_str (gr_approval_tier rule)));
           ("governance_enabled", JBool (gr_enabled rule));
           ("environment_allowed",
            JBool (bool_decide (gp_environment self ∈ gr_environments rule)))]],
       (if cap_enabled definition && negb (gr_enabled rule)
        then ["enabled catalog capability is disabled by governance: " +:+ name] else [])
       ++ (if negb (cap_authentication definition =? gr_authentication rule)%string
              && negb (gr_authentication rule =? "provider_specific")%string
           then ["authentication mismatch for " +:+ name +:+ ": catalog="
                 +:+ cap_authentication definition +:+ ", governance="
                 +:+ gr_authentication rule]
           else []))
  end.

Definition coverage (self : GovernanceProfile) (c : catalog)
    : list (list json * list string) :=
  omap (λ name, coverage_entry self name <$> (c !! name)) (sorted_names c).

Definition coverage_report (self : GovernanceProfile) (c : catalog) : dict :=
  let covered := flat_map fst (coverage self c) in
  let errors := flat_map snd (coverage self c) in
  [("organization", JStr (gp_organization self));
   ("environment", JStr (enum_str (gp_environment self)));
   ("secret_manager", JStr (gp_secret_manager self));
   ("audit_sink", JStr (gp_audit_sink self));
   ("external_model_policy", JStr (gp_external_model_policy self));
   ("covered", JList covered);
   ("errors", str_list errors);
   ("ready", JBool (bool_decide (errors = [])))].

(** ** Loading *)

(** [frozenset(E(str(item)) for item in value.get(k, []))]. *)
Definition enum_set {E} `{StrEnum E} (value : dict) (k : string) : result (list E) :=
  items ← json_iter (dict_get_or value k (JList []));
  mapM (λ v, enum_parse (py_str v)) items.

(** [except (KeyError, ValueError)]. *)
Definition enum_failure (index : Z) (e : exn) : option exn :=
  match e with
  | PyKeyError _ | PyValueError _ =>
      Some (ConfigurationError ("governance rule " +:+ py_str (JInt index)
              +:+ " contains an invalid enum value"))
  | _ => None
  end.

Definition load_rule (index : Z) (v : json) : result GovernanceRule :=
  value ← match v with
          | JDict d => Ok d
          | _ => Err (ConfigurationError ("governance rule " +:+ py_str (JInt index)
                        +:+ " must be a table"))
          end;
  enums ← reraise
    (classifications ← enum_set value "data_classifications";
     environments ← enum_set value "environments";
     text ← item_str value "approval_tier";
     approval ← enum_parse text;
     Ok (classifications, environments, approval)) (enum_failure index);
  let '(classifications, environments, approval) := enums in
  enabled ← config_bool (dict_get_or value "enabled" (JBool true))
    ("governance rule " +:+ py_str (JInt index) +:+ " enabled");
  GovernanceRule_post_init
    (mk_GovernanceRule (get_str value "pattern" "") (get_str value "owner" "")
       (get_str value "authentication" "") classifications approval environments enabled).

Fixpoint load_rules (index : Z) (raw_rules : list json) : result (list GovernanceRule) :=
  match raw_rules with
  | [] => Ok []
  | v :: raw_rules =>
      rule ← load_rule index v;
      rules ← load_rules (index + 1) raw_rules;
      Ok (rule :: rules)
  end.

Definition organization_keys : list string :=
  ["name"; "environment"; "secret_manager"; "audit_sink"; "external_model_policy"].

Definition profile_from_toml (egress_from_mapping : dict → result Egress) (raw : dict)
    : result GovernanceProfile :=
  organization ← match dict_get_or raw "organization" (JDict []) with
                 | JDict d => Ok d
                 | _ => Err (ConfigurationError "[organization] must be a TOML table")
                 end;
  raw_rules ← match dict_get_or raw "rules" (JList []) with
              | JList l => Ok l
              | _ => Err (ConfigurationError "[[rules]] must be a TOML array of tables")
              end;
  rules ← load_rules 1 raw_rules;
  raw_model_context ← match dict_get raw "model_context" with
    | JNull => Ok None
    | JDict d => Ok (Some d)
    | _ => Err (ConfigurationError "[model_context] must be a TOML table")
    end;
  environment ← enum_parse (get_str organization "environment" "development");
  model_context ← match raw_model_context with
                  | Some d => policy ← egress_from_mapping d; Ok (Some policy)
                  | None => Ok None
                  end;
  GovernanceProfile_post_init
    (mk_GovernanceProfile (get_str organization "name" "") environment
       (get_str organization "secret_manager" "") (get_str organization "audit_sink" "")
       (get_str organization "external_model_policy" "") rules
       (List.filter (λ kv : string * json, negb (bool_decide (kv.1 ∈ organization_keys)))
          organization)
       model_context).

(** ** The most specific rule *)

Ltac triples :=
  repeat match goal with x : (Z * Z * Z)%type |- _ => destruct x as [[? ?] ?] end;
  unfold triple_lt in *;
  repeat match goal with
  | |- context [Z.eqb ?a ?b] => destruct (Z.eqb_spec a b)
  | H : context [Z.eqb ?a ?b] |- _ => destruct (Z.eqb_spec a b)
  end; to_prop; lia.

Lemma triple_lt_trans x y z :
  triple_lt x y = true → triple_lt y z = true → triple_lt x z = true.
Proof. intros. triples. Qed.

Lemma triple_le_lt_trans x y z :
  triple_lt y x = false → triple_lt y z = true → triple_lt x z = true.
Proof. intros. triples. Qed.

#[global] Arguments triple_lt : simpl never.
#[global] Arguments specificity : simpl never.

(** [r] is the first rule of [l] that no rule of [l] beats. *)
Definition first_max (r : GovernanceRule) (l : list GovernanceRule) : Prop :=
  ∃ before after, l = before ++ r :: after ∧
    Forall (λ x, triple_lt (specificity x) (specificity r) = true) before ∧
    Forall (λ x, triple_lt (specificity r) (specificity x) = false) after.

Lemma max_rule_first_max best rules : first_max (max_rule best rules) (best :: rules).
Proof.
  revert best. induction rules as [|r rules IH]; intros best; simpl.
  { exists [], []. by repeat constructor. }
  destruct (triple_lt (specificity best) (specificity r)) eqn:E.
  - destruct (IH r) as (before & after & Heq & Hb & Ha).
    exists (best :: before), after. split_and!; [by rewrite Heq| |done].
    constructor; [|done]. destruct before as [|b before]; injection Heq as Hm _.
    + by rewrite <- Hm.
    + subst b. inversion Hb; subst. by eapply triple_lt_trans.
  - destruct (IH best) as (before & after & Heq & Hb & Ha).
    destruct before as [|b before]; injection Heq as Hbest Hrules.
    + exists [], (r :: after). rewrite <- Hbest in *. rewrite <- Hrules in *.
      split_and!; [done|constructor|by constructor].
    + subst b. inversion Hb; subst.
      exists (best :: r :: before), after.
      split_and!; [by simpl; rewrite <- Hrules| |done].
      repeat constructor; [done| |done]. by eapply triple_le_lt_trans.
Qed.

Lemma rule_for_Some self capability r :
  rule_for self capability = Some r →
  first_max r (List.filter (λ r, fnmatch capability (gr_pattern r)) (gp_rules self)).
Proof.
  unfold rule_for. destruct (List.filter _ _) as [|b l]; [done|].
  intros [= <-]. apply max_rule_first_max.
Qed.

Lemma first_max_elem r l : first_max r l → r ∈ l.
Proof. intros (? & ? & -> & _). set_solver. Qed.

Lemma rule_for_matches self capability r :
  rule_for self capability = Some r →
  r ∈ gp_rules self ∧ fnmatch capability (gr_pattern r) = true.
Proof.
  intros H%rule_for_Some%first_max_elem%list_elem_of_In%filter_In.
  by rewrite list_elem_of_In.
Qed.

Lemma rule_for_None self capability :
  rule_for self capability = None ↔
  Forall (λ r, fnmatch capability (gr_pattern r) = false) (gp_rules self).
Proof.
  unfold rule_for. rewrite Forall_forall. split.
  - intros H r Hr%list_elem_of_In. destruct (fnmatch _ _) eqn:E; [|done].
    assert (In r (List.filter (λ r, fnmatch capability (gr_pattern r)) (gp_rules self)))
      as Hin by by apply filter_In.
    by destruct (List.filter _ _).
  - intros H. destruct (List.filter _ _) as [|r l] eqn:E; [done|].
    assert (In r (r :: l)) as Hin by by left. rewrite <- E in Hin.
    apply filter_In in Hin as [Hin%list_elem_of_In Hm]. rewrite (H r Hin) in Hm. done.
Qed.

End profile.
