(* ===== verification/AuditLog.v ===== *)
(** * AuditLog: the audit log and the idempotency ledger, [src/src/master_agent/audit.py]

    A [database] is the content of the SQLite file: the tables [audit_events]
    (in [id] order), [audit_state], [completed_actions] and [run_checkpoints],
    keyed by their primary keys.  Text columns hold text.  [_connect] opens a
    transaction under an exclusive lock, commits it when the block ends and
    rolls it back when the block raises: [transaction].  The clock and the
    random token are arguments.  Every public operation maps a database to its
    outcome and the database it leaves. *)

From S2P Require Import Prelude PyText PyJson PyHash PyTime PyStd JsonCanonical PyJsonLoads.
From Stdlib Require Import Ascii.

Open Scope Z_scope.

Inductive IdempotencyClaimState : Type :=
  | CLAIM_CLAIMED
  | CLAIM_COMPLETED
  | CLAIM_FAILED
  | CLAIM_INDETERMINATE
  | CLAIM_IN_PROGRESS
  | CLAIM_CONFLICT.

#[export] Instance IdempotencyClaimState_eq_dec : EqDecision IdempotencyClaimState.
Proof. solve_decision. Defined.

Record IdempotencyClaim : Type := mk_IdempotencyClaim {
  ic_state : IdempotencyClaimState;
  ic_token : option string;
  ic_result : option dict;
  ic_prior_state : option IdempotencyClaimState;
}.

Record RunCheckpoint : Type := mk_RunCheckpoint {
  rc_run_id : uuid;
  rc_plan_id : uuid;
  rc_plan_fingerprint : string;
  rc_state : string;
  rc_sequence : Z;
  rc_capsule_bindings_sha256 : string;
  rc_result_sha256 : option string;
  rc_updated_at : datetime;
}.

Inductive AuditSinkKind : Type := LOCAL_SQLITE.

Record AuditSinkDescriptor : Type := mk_AuditSinkDescriptor {
  sink_identifier : string;
  sink_kind : AuditSinkKind;
  sink_external : bool;
  sink_tamper_resistant : bool;
}.

Definition LOCAL_SQLITE_SINK : AuditSinkDescriptor :=
  mk_AuditSinkDescriptor "local-sqlite-for-development" LOCAL_SQLITE false false.

Definition implemented_audit_sink (identifier : string) : option AuditSinkDescriptor :=
  if bool_decide (casefold_codes (strip identifier) = map code
       (String.list_ascii_of_string (sink_identifier LOCAL_SQLITE_SINK)))
  then Some LOCAL_SQLITE_SINK else None.

(** ** The tables *)

(** A row of [audit_events]. *)
Record audit_event : Type := mk_audit_event {
  ev_timestamp : string;
  ev_run_id : string;
  ev_plan_id : string;
  ev_action_id : option string;
  ev_event_type : string;
  ev_payload_json : string;
  ev_previous_hash : string;
  ev_event_hash : string;
}.

(** A row of [completed_actions]; its key is [idempotency_key]. *)
Record completed_row : Type := mk_completed_row {
  co_plan_id : string;
  co_action_id : string;
  co_action_fingerprint : option string;
  co_status : string;
  co_claim_token : option string;
  co_result_json : string;
  co_claimed_at : option string;
  co_completed_at : string;
}.

(** A row of [run_checkpoints]; its key is [run_id]. *)
Record checkpoint_row : Type := mk_checkpoint_row {
  cr_plan_id : string;
  cr_plan_fingerprint : string;
  cr_state : string;
  cr_sequence : Z;
  cr_capsule_bindings_sha256 : string;
  cr_result_sha256 : option string;
  cr_updated_at : string;
}.

Record database : Type := mk_database {
  db_events : list audit_event;
  db_state : option (Z * string);
  db_completed : gmap string completed_row;
  db_checkpoints : gmap string checkpoint_row;
  db_user_version : Z;
}.

Definition set_events (es : list audit_event) (st : option (Z * string)) (db : database) : database :=
  mk_database es st (db_completed db) (db_checkpoints db) (db_user_version db).
Definition set_completed (m : gmap string completed_row) (db : database) : database :=
  mk_database (db_events db) (db_state db) m (db_checkpoints db) (db_user_version db).
Definition set_checkpoints (m : gmap string checkpoint_row) (db : database) : database :=
  mk_database (db_events db) (db_state db) (db_completed db) m (db_user_version db).

(** [with self._connect() as connection: ...]: what the block computed and the
    database it committed, or its exception and the database as it was. *)
Definition transaction {A} (db : database) (block : database → result (A * database))
    : result A * database :=
  match block db with
  | Ok (a, db') => (Ok a, db')
  | Err e => (Err e, db)
  end.

(** [UPDATE completed_actions SET ... WHERE idempotency_key = ? AND ...]: the
    row count and the database. *)
Definition update_completed (key : string) (where_ : completed_row → bool)
    (set : completed_row → completed_row) (db : database) : Z * database :=
  match db_completed db !! key with
  | Some row =>
      if where_ row then (1, set_completed (<[key := set row]> (db_completed db)) db)
      else (0, db)
  | None => (0, db)
  end.

(** [column = ?] on a nullable text column. *)
Definition sql_eq (column : option string) (value : string) : bool :=
  match column with Some c => (c =? value)%string | None => false end.

(** ** Events *)

Definition GENESIS : string := "GENESIS".

(** The head of the chain: the hash of the event with the greatest id. *)
Definition latest_hash (es : list audit_event) : string :=
  match last es with Some e => ev_event_hash e | None => GENESIS end.

(** The text an event's hash is taken of. *)
Definition event_material (previous_hash timestamp run_id plan_id : string)
    (action_id : option string) (event_type payload_json : string) : string :=
  str_join "|" [previous_hash; timestamp; run_id; plan_id; default "" action_id;
                event_type; payload_json].

Definition record (run_id plan_id : uuid) (action_id : option uuid) (event_type : string)
    (payload : dict) (now : datetime) (db : database) : result string * database :=
  let timestamp := isoformat now in
  let payload_json := dumps_compact (JDict payload) in
  transaction db (λ db,
    state ← or_raise (db_state db) (PyRuntimeError "audit checkpoint state is missing");
    let '(event_count, previous_hash) := (state : Z * string) in
    _ ← raise_if (negb (latest_hash (db_events db) =? previous_hash)%string)
          (PyRuntimeError "audit checkpoint does not match the event chain");
    let event_hash := sha256 (event_material previous_hash timestamp (uuid_str run_id)
      (uuid_str plan_id) (uuid_str <$> action_id) event_type payload_json) in
    let event := mk_audit_event timestamp (uuid_str run_id) (uuid_str plan_id)
      (uuid_str <$> action_id) event_type payload_json previous_hash event_hash in
    Ok (event_hash,
        set_events (db_events db ++ [event]) (Some (event_count + 1, event_hash)) db)).

(** ** Run checkpoints *)

Definition is_sha256 (value : string) : bool := is_sha256_hex value.
Definition str_isascii (s : string) : bool := str_forall (λ c, code c <? 128) s.

Definition check_checkpoint (plan_fingerprint state capsule_bindings_sha256 : string)
    (result_sha256 : option string) : result unit :=
  _ ← raise_if (negb (is_sha256 plan_fingerprint))
        (ConfigurationError "run checkpoint plan_fingerprint is malformed");
  _ ← raise_if (negb (is_sha256 capsule_bindings_sha256))
        (ConfigurationError "run checkpoint capsule_bindings_sha256 is malformed");
  _ ← raise_if (match result_sha256 with Some d => negb (is_sha256 d) | None => false end)
        (ConfigurationError "run checkpoint result digest is malformed");
  raise_if ((state =? "")%string || negb (str_isascii state))
    (ConfigurationError "run checkpoint state is malformed").

(** The row is not the one the caller resumes. *)
Definition checkpoint_differs (row : checkpoint_row) (plan_id : uuid)
    (plan_fingerprint : string) (expected_state : option string)
    (capsule_bindings_sha256 : string) : bool :=
  negb (cr_plan_id row =? uuid_str plan_id)%string
  || negb (cr_plan_fingerprint row =? plan_fingerprint)%string
  || negb (bool_decide (Some (cr_state row) = expected_state))
  || negb (cr_capsule_bindings_sha256 row =? capsule_bindings_sha256)%string.

(** The row written, and its sequence number. *)
Definition next_checkpoint (run_id plan_id : uuid) (plan_fingerprint state : string)
    (capsule_bindings_sha256 : string) (expected_state result_sha256 : option string)
    (now : datetime) (db : database) : result (Z * database) :=
  let key := uuid_str run_id in
  match db_checkpoints db !! key with
  | None =>
      _ ← raise_if (match expected_state with Some _ => true | None => false end)
            (PyRuntimeError "capsule run checkpoint is missing");
      let row := mk_checkpoint_row (uuid_str plan_id) plan_fingerprint state 0
        capsule_bindings_sha256 result_sha256 (isoformat now) in
      Ok (0, set_checkpoints (<[key := row]> (db_checkpoints db)) db)
  | Some existing =>
      _ ← raise_if (checkpoint_differs existing plan_id plan_fingerprint expected_state
                      capsule_bindings_sha256)
            (PyRuntimeError "capsule run checkpoint differs from the exact resume request");
      let sequence := cr_sequence existing + 1 in
      _ ← raise_if (negb (bool_decide (Some (cr_state existing) = expected_state)))
            (PyRuntimeError "capsule run checkpoint changed concurrently");
      let row := mk_checkpoint_row (cr_plan_id existing) (cr_plan_fingerprint existing) state
        sequence (cr_capsule_bindings_sha256 existing) result_sha256 (isoformat now) in
      Ok (sequence, set_checkpoints (<[key := row]> (db_checkpoints db)) db)
  end.

Definition checkpoint_run (run_id plan_id : uuid) (plan_fingerprint state : string)
    (capsule_bindings_sha256 : string) (expected_state result_sha256 : option string)
    (now : datetime) (db : database) : result RunCheckpoint * database :=
  match check_checkpoint plan_fingerprint state capsule_bindings_sha256 result_sha256 with
  | Err e => (Err e, db)
  | Ok _ =>
      let '(r, db') := transaction db (next_checkpoint run_id plan_id plan_fingerprint state
        capsule_bindings_sha256 expected_state result_sha256 now) in
      ((λ sequence, mk_RunCheckpoint run_id plan_id plan_fingerprint state sequence
          capsule_bindings_sha256 result_sha256 now) <$> r, db')
  end.

Definition run_checkpoint (run_id : uuid) (db : database) : result (option RunCheckpoint) :=
  match db_checkpoints db !! uuid_str run_id with
  | None => Ok None
  | Some row =>
      plan_id ← uuid_parse (cr_plan_id row);
      updated_at ← fromisoformat (cr_updated_at row);
      Ok (Some (mk_RunCheckpoint run_id plan_id (cr_plan_fingerprint row) (cr_state row)
        (cr_sequence row) (cr_capsule_bindings_sha256 row) (cr_result_sha256 row) updated_at))
  end.

(** ** The idempotency ledger *)

(** [_idempotency_result]. *)
Definition idempotency_result (value : string) : option dict :=
  match loads value with Some (JDict d) => Some d | _ => None end.

(** [INSERT OR IGNORE]. *)
Definition save_completed (key : string) (plan_id action_id : uuid) (result_ : dict)
    (action_fingerprint : string) (now : datetime) (db : database) : result unit * database :=
  transaction db (λ db,
    match db_completed db !! key with
    | Some _ => Ok (tt, db)
    | None =>
        let row := mk_completed_row (uuid_str plan_id) (uuid_str action_id)
          (Some action_fingerprint) "completed" None (dumps_spaced (JDict result_))
          (Some (isoformat now)) (isoformat now) in
        Ok (tt, set_completed (<[key := row]> (db_completed db)) db)
    end).

Definition claim_of (state : IdempotencyClaimState) : IdempotencyClaim :=
  mk_IdempotencyClaim state None None None.

Definition claim_action (key action_fingerprint : string) (plan_id action_id : uuid)
    (token : string) (now : datetime) (db : database) : result IdempotencyClaim * database :=
  let claimed_at := isoformat now in
  transaction db (λ db,
    match db_completed db !! key with
    | None =>
        let row := mk_completed_row (uuid_str plan_id) (uuid_str action_id)
          (Some action_fingerprint) "pending" (Some token) "{}" (Some claimed_at) claimed_at in
        Ok (mk_IdempotencyClaim CLAIM_CLAIMED (Some token) None None,
            set_completed (<[key := row]> (db_completed db)) db)
    | Some row =>
        if negb (sql_eq (co_action_fingerprint row) action_fingerprint)
        then Ok (claim_of CLAIM_CONFLICT, db)
        else if (co_status row =? "completed")%string
        then Ok (mk_IdempotencyClaim CLAIM_COMPLETED None
                   (idempotency_result (co_result_json row)) None, db)
        else if (co_status row =? "failed")%string
        then
          let '(rowcount, db') := update_completed key
            (λ r, sql_eq (co_action_fingerprint r) action_fingerprint
                  && (co_status r =? "failed")%string)
            (λ r, mk_completed_row (uuid_str plan_id) (uuid_str action_id)
                    (co_action_fingerprint r) "pending" (Some token) "{}" (Some claimed_at)
                    claimed_at) db in
          _ ← raise_if (negb (rowcount =? 1))
                (PyRuntimeError "failed idempotency outcome changed during retry");
          Ok (mk_IdempotencyClaim CLAIM_CLAIMED (Some token)
                (idempotency_result (co_result_json row)) (Some CLAIM_FAILED), db')
        else if (co_status row =? "indeterminate")%string
        then Ok (mk_IdempotencyClaim CLAIM_INDETERMINATE None
                   (idempotency_result (co_result_json row)) None, db)
        else if (co_status row =? "pending")%string
        then Ok (claim_of CLAIM_IN_PROGRESS, db)
        else Ok (claim_of CLAIM_INDETERMINATE, db)
    end).

(** The row is the exact live reservation. *)
Definition holds_claim (action_fingerprint claim_token : string) (row : completed_row) : bool :=
  sql_eq (co_action_fingerprint row) action_fingerprint
  && (co_status row =? "pending")%string
  && sql_eq (co_claim_token row) claim_token.

Definition complete_action (key action_fingerprint claim_token : string) (result_ : dict)
    (now : datetime) (db : database) : result unit * database :=
  transaction db (λ db,
    let '(rowcount, db') := update_completed key (holds_claim action_fingerprint claim_token)
      (λ r, mk_completed_row (co_plan_id r) (co_action_id r) (co_action_fingerprint r)
              "completed" (co_claim_token r) (dumps_spaced (JDict result_)) (co_claimed_at r)
              (isoformat now)) db in
    _ ← raise_if (negb (rowcount =? 1))
          (PyRuntimeError "idempotency reservation was lost or replaced");
    Ok (tt, db')).

(** The settled row of a claim that ends as failed or indeterminate. *)
Definition settle (status result_json : string) (now : datetime) (r : completed_row)
    : completed_row :=
  mk_completed_row (co_plan_id r) (co_action_id r) (co_action_fingerprint r) status None
    result_json (co_claimed_at r) (isoformat now).

Definition legacy_failure : string :=
  render (JDict [("error", JDict [("code", JStr "legacy_pre_effect_failure")])]).

Definition release_action_claim (key action_fingerprint claim_token : string)
    (now : datetime) (db : database) : result bool * database :=
  transaction db (λ db,
    let '(rowcount, db') := update_completed key (holds_claim action_fingerprint claim_token)
      (settle "failed" legacy_failure now) db in
    Ok (rowcount =? 1, db')).

Definition finish_action_claim (key action_fingerprint claim_token status : string)
    (outcome : dict) (now : datetime) (db : database) : result unit * database :=
  if negb ((status =? "failed") || (status =? "indeterminate"))%string
  then (Err (PyValueError "unsupported idempotency terminal outcome"), db)
  else transaction db (λ db,
    let '(rowcount, db') := update_completed key (holds_claim action_fingerprint claim_token)
      (settle status (dumps_spaced (JDict outcome)) now) db in
    _ ← raise_if (negb (rowcount =? 1))
          (PyRuntimeError "idempotency reservation was lost or replaced");
    Ok (tt, db')).

Definition fail_action (key action_fingerprint claim_token : string) (outcome : dict)
    (now : datetime) : database → result unit * database :=
  finish_action_claim key action_fingerprint claim_token "failed" outcome now.

Definition mark_action_indeterminate (key action_fingerprint claim_token : string)
    (outcome : dict) (now : datetime) : database → result unit * database :=
  finish_action_claim key action_fingerprint claim_token "indeterminate" outcome now.

Definition resolve_indeterminate_action (key action_fingerprint : string)
    (expected_outcome completed : dict) (now : datetime) (db : database)
    : result unit * database :=
  transaction db (λ db,
    let '(rowcount, db') := update_completed key
      (λ r, sql_eq (co_action_fingerprint r) action_fingerprint
            && (co_status r =? "indeterminate")%string
            && (co_result_json r =? dumps_spaced (JDict expected_outcome))%string)
      (λ r, mk_completed_row (co_plan_id r) (co_action_id r) (co_action_fingerprint r)
              "completed" (co_claim_token r) (dumps_spaced (JDict completed)) (co_claimed_at r)
              (isoformat now)) db in
    _ ← raise_if (negb (rowcount =? 1))
          (PyRuntimeError "indeterminate idempotency outcome changed");
    Ok (tt, db')).

Definition idempotency_outcome (key action_fingerprint : string) (db : database)
    : option IdempotencyClaimState :=
  match db_completed db !! key with
  | None => None
  | Some row =>
      if negb (sql_eq (co_action_fingerprint row) action_fingerprint)
      then Some CLAIM_CONFLICT
      else Some (if (co_status row =? "pending")%string then CLAIM_IN_PROGRESS
                 else if (co_status row =? "completed")%string then CLAIM_COMPLETED
                 else if (co_status row =? "failed")%string then CLAIM_FAILED
                 else CLAIM_INDETERMINATE)
  end.

Definition completed_result (key : string) (action_fingerprint : option string)
    (db : database) : result (option dict) :=
  match db_completed db !! key with
  | None => Ok None
  | Some row =>
      if negb (co_status row =? "completed")%string then Ok None
      else if match action_fingerprint with
              | Some fp => negb (sql_eq (co_action_fingerprint row) fp)
              | None => false
              end then Ok None
      else match loads (co_result_json row) with
           | Some (JDict d) => Ok (Some d)
           | Some _ => Err (StructuredDataTypeError
               "completed action result must be a JSON object")
           | None => Err (PyValueError "malformed JSON document")
           end
  end.

Definition clear_completed (key : string) (action_fingerprint : option string)
    (db : database) : result unit * database :=
  transaction db (λ db,
    match db_completed db !! key, action_fingerprint with
    | Some row, Some fp =>
        if sql_eq (co_action_fingerprint row) fp
        then Ok (tt, set_completed (delete key (db_completed db)) db) else Ok (tt, db)
    | Some _, None => Ok (tt, set_completed (delete key (db_completed db)) db)
    | None, _ => Ok (tt, db)
    end).

(** ** Verification *)

(** The material of a stored row: [str(action_id or "")]. *)
Definition row_material (e : audit_event) : string :=
  event_material (ev_previous_hash e) (ev_timestamp e) (ev_run_id e) (ev_plan_id e)
    (ev_action_id e) (ev_event_type e) (ev_payload_json e).

(** The loop over the rows, from event number [index]: the hash the chain ends
    with, or the message of the first defect. *)
Fixpoint verify_rows (index : Z) (expected_previous : string) (rows : list audit_event)
    : string + string :=
  match rows with
  | [] => inl expected_previous
  | e :: rows =>
      if negb (ev_previous_hash e =? expected_previous)%string
      then inr ("broken previous-hash link at event " +:+ pretty index)
      else if negb (sha256 (row_material e) =? ev_event_hash e)%string
      then inr ("event hash mismatch at event " +:+ pretty index)
      else verify_rows (index + 1) (ev_event_hash e) rows
  end.

Definition verify_connection (db : database) : bool * string :=
  let rows := db_events db in
  let count := Z.of_nat (length rows) in
  match rows, db_state db with
  | [], _ => (false, "audit database contains no events")
  | _, None => (false, "audit checkpoint state is missing")
  | _, Some (checkpoint_count, checkpoint_hash) =>
      match verify_rows 1 GENESIS rows with
      | inr message => (false, message)
      | inl expected_previous =>
          if negb (checkpoint_count =? count)
          then (false, "audit checkpoint count does not match the event chain ("
                       +:+ pretty checkpoint_count +:+ " != " +:+ pretty count +:+ ")")
          else if negb (checkpoint_hash =? expected_previous)%string
          then (false, "audit checkpoint head does not match the event chain")
          else (true, "verified " +:+ pretty count +:+ " audit events")
      end
  end.

Definition verify_chain (db : database) : bool * string := verify_connection db.

(** [_initialize], on a database whose tables exist with all their columns: a
    database without a checkpoint and of schema version 0 gets one. *)
Definition initialize (db : database) : database :=
  match db_state db with
  | None =>
      if db_user_version db =? 0
      then mk_database (db_events db)
             (Some (Z.of_nat (length (db_events db)), latest_hash (db_events db)))
             (db_completed db) (db_checkpoints db) 1
      else db
  | Some _ => db
  end.

(** A new file. *)
Definition empty_database : database := mk_database [] None ∅ ∅ 0.

(** ** Operations and histories *)

(** A call of one of the mutating operations, with its clock reading and token. *)
Inductive audit_op : Type :=
  | OpRecord (run_id plan_id : uuid) (action_id : option uuid) (event_type : string)
      (payload : dict) (now : datetime)
  | OpCheckpoint (run_id plan_id : uuid) (plan_fingerprint state capsules : string)
      (expected_state result_sha256 : option string) (now : datetime)
  | OpSave (key : string) (plan_id action_id : uuid) (result_ : dict) (fp : string)
      (now : datetime)
  | OpClaim (key fp : string) (plan_id action_id : uuid) (token : string) (now : datetime)
  | OpComplete (key fp token : string) (result_ : dict) (now : datetime)
  | OpRelease (key fp token : string) (now : datetime)
  | OpFail (key fp token : string) (outcome : dict) (now : datetime)
  | OpIndeterminate (key fp token : string) (outcome : dict) (now : datetime)
  | OpResolve (key fp : string) (expected completed : dict) (now : datetime)
  | OpClear (key : string) (fp : option string).

Inductive audit_reply : Type :=
  | RRecord (r : result string)
  | RCheckpoint (r : result RunCheckpoint)
  | RUnit (r : result unit)
  | RClaim (r : result IdempotencyClaim)
  | RRelease (r : result bool).

Definition reply {A} (f : A → audit_reply) (p : A * database) : audit_reply * database :=
  (f p.1, p.2).

Definition run_op (op : audit_op) (db : database) : audit_reply * database :=
  match op with
  | OpRecord r p a t d now => reply RRecord (record r p a t d now db)
  | OpCheckpoint r p f s c e d now => reply RCheckpoint (checkpoint_run r p f s c e d now db)
  | OpSave k p a d fp now => reply RUnit (save_completed k p a d fp now db)
  | OpClaim k fp p a t now => reply RClaim (claim_action k fp p a t now db)
  | OpComplete k fp t d now => reply RUnit (complete_action k fp t d now db)
  | OpRelease k fp t now => reply RRelease (release_action_claim k fp t now db)
  | OpFail k fp t d now => reply RUnit (fail_action k fp t d now db)
  | OpIndeterminate k fp t d now => reply RUnit (mark_action_indeterminate k fp t d now db)
  | OpResolve k fp e d now => reply RUnit (resolve_indeterminate_action k fp e d now db)
  | OpClear k fp => reply RUnit (clear_completed k fp db)
  end.

(** A history: the operations in the order their transactions committed. *)
Fixpoint run_ops (ops : list audit_op) (db : database) : list audit_reply * database :=
  match ops with
  | [] => ([], db)
  | op :: ops =>
      let '(r, db1) := run_op op db in
      let '(rs, db2) := run_ops ops db1 in (r :: rs, db2)
  end.

Definition after (ops : list audit_op) (db : database) : database := (run_ops ops db).2.
