(* ===== verification/PlannerGate.v ===== *)
(** * PlannerGate: the systems-governance planning gate,
    [src/src/master_agent/planners/base.py]

    [gate_evaluate] is [SystemsGovernanceGate.evaluate]; a gate is its one
    field, the complexity budget.  Assessors, planners, coherence reviewers and
    outcome observers are protocols that users of the runtime implement; they
    are functions here, an observer that raises being one that returns [Err].
    Tests of a value's Python class hold by typing. *)

From S2P Require Import Prelude PyText PyJson PyHash PyTime PyStd ResourceLimits.
From S2P Require Import ModelsBase PlatformIdentity ModelsSystems ModelsReviews ModelsAction ModelsPlan.
From S2P Require Import ModelsResults Approvals Policy.
From Stdlib Require Import Ascii.

Open Scope Z_scope.

(** ** Evidence-backed planning inputs *)

Definition gate_require_text (value name : string) : result unit :=
  raise_if (is_blank value) (ValidationError (name +:+ " must not be empty"));;
  raise_if (untrimmed value) (ValidationError (name +:+ " must be trimmed")).

(** [EvidenceBackedSystemsAssessor.assess]. *)
Definition evidence_assess (assessment : SystemsAssessment) (goal : string)
    : result SystemsAssessment :=
  gate_require_text goal "planner goal";;
  raise_if (negb (goal =? sa_desired_outcome assessment)%string)
    (ValidationError
       "systems assessment desired outcome does not match the planner goal");;
  Ok assessment.

(** [EvidenceBackedStrategyCoherenceReviewer.review]. *)
Definition evidence_review (review : StrategyCoherenceReview) (assessment : SystemsAssessment)
    : result StrategyCoherenceReview :=
  kernel ← or_raise (sa_strategy_kernel assessment)
    (ValidationError "strategy coherence review requires a strategy kernel");
  raise_if (negb (scr_assessment_fingerprint review
                  =? SystemsAssessment_fingerprint assessment)%string)
    (ValidationError "strategy coherence review does not match the systems assessment");;
  raise_if (negb (scr_strategy_kernel_fingerprint review
                  =? StrategyKernel_fingerprint kernel)%string)
    (ValidationError "strategy coherence review does not match the strategy kernel");;
  Ok review.

(** ** The gate *)

Definition MAX_AUTOMATIC_COMPLEXITY_SCORE : Z := 4.

Record SystemsGovernanceGate : Type := mk_gate { max_automatic_complexity_score : Z }.

Definition gate_init (score : Z) : result SystemsGovernanceGate :=
  raise_if (score <? 0)
    (ValidationError "max_automatic_complexity_score must be a non-negative integer");;
  Ok (mk_gate score).

Definition default_gate : SystemsGovernanceGate := mk_gate MAX_AUTOMATIC_COMPLEXITY_SCORE.

Definition FAST_PATH_RISKS : list RiskLevel := [READ_ONLY; LOCAL_GENERATION].

(** [[reason] if c else []]. *)
Definition reason_if (c : bool) (reason : string) : list string := if c then [reason] else [].

Definition is_nil {A} (l : list A) : bool := match l with [] => true | _ => false end.

(** [xs - ys] is not empty. *)
Definition not_subset {A} `{EqDecision A} (xs ys : list A) : bool :=
  existsb (λ x, negb (bool_decide (x ∈ ys))) xs.

Definition strategy_trace_reasons (plan : ChangePlan) (assessment : SystemsAssessment)
    : list string :=
  let traces := cp_strategy_traces plan in
  match sa_strategy_kernel assessment with
  | None => reason_if (negb (is_nil traces)) "strategy traces require a strategy kernel"
  | Some kernel =>
      let action_ids := map aa_action_id (cp_actions plan) in
      let trace_action_ids := map st_action_id traces in
      let intent_ids := map si_intent_id (sk_coherent_actions kernel) in
      let traced_intent_ids := map st_intent_id traces in
      reason_if (negb (nodupb trace_action_ids))
        "strategy traces contain duplicate action IDs"
      ++ reason_if (not_subset action_ids trace_action_ids)
           "strategy traces do not cover every plan action"
      ++ reason_if (not_subset trace_action_ids action_ids)
           "strategy traces contain unknown or stale action IDs"
      ++ reason_if (not_subset traced_intent_ids intent_ids)
           "strategy traces contain unknown intent IDs"
      ++ reason_if (not_subset intent_ids traced_intent_ids)
           "strategy traces do not use every coherent action intent"
  end.

Definition strategy_coherence_reasons (plan : ChangePlan) (assessment : SystemsAssessment)
    : list string :=
  match cp_strategy_coherence_review plan with
  | None => ["gated plan requires a strategy coherence review"]
  | Some review =>
      reason_if (negb (scr_assessment_fingerprint review
                       =? SystemsAssessment_fingerprint assessment)%string)
        "strategy coherence review assessment fingerprint is stale"
      ++ match sa_strategy_kernel assessment with
         | None => ["strategy coherence review requires a strategy kernel"]
         | Some kernel =>
             reason_if (negb (scr_strategy_kernel_fingerprint review
                              =? StrategyKernel_fingerprint kernel)%string)
               "strategy coherence review kernel fingerprint is stale"
         end
      ++ (strategy_coherence_findings review ≫= λ f,
            reason_if (negb f.2) ("strategy coherence finding is false: " +:+ f.1))
  end.

(** The risks of the plan the fast path does not permit, as sorted text. *)
Definition unsafe_risks (plan : ChangePlan) : list string :=
  sort_by str_le (remove_dups (map (λ a, enum_str (aa_risk a))
    (List.filter (λ a, negb (bool_decide (aa_risk a ∈ FAST_PATH_RISKS))) (cp_actions plan)))).

Definition fast_path_reasons (plan : ChangePlan) (assessment : SystemsAssessment) : list string :=
  reason_if (negb (is_nil (unsafe_risks plan)))
    ("fast path permits read-only or local-generation actions only; found "
     +:+ str_join ", " (unsafe_risks plan))
  ++ reason_if (negb (is_nil (sa_added_complexity assessment)))
       "fast path cannot introduce durable complexity"
  ++ reason_if (is_someb (cp_strategy_coherence_review plan))
       "fast path cannot carry a strategy coherence review".

Definition gated_reasons (plan : ChangePlan) (assessment : SystemsAssessment) : list string :=
  reason_if (is_nil (sa_stocks assessment)) "gated assessment requires stocks"
  ++ reason_if (is_nil (sa_flows assessment)) "gated assessment requires flows"
  ++ reason_if (is_nil (sa_feedback_loops assessment))
       "gated assessment requires feedback_loops"
  ++ reason_if (is_nil (sa_delays assessment)) "gated assessment requires delays"
  ++ reason_if (is_nil (sa_unintended_consequences assessment))
       "gated assessment requires unintended_consequences"
  ++ reason_if (negb (is_someb (sa_strategy_kernel assessment)))
       "gated assessment requires a strategy_kernel"
  ++ strategy_coherence_reasons plan assessment.

Definition complexity_reasons (assessment : SystemsAssessment) : list string :=
  if is_nil (sa_added_complexity assessment) then []
  else
    reason_if (is_nil (sa_alternatives_considered assessment))
      "added complexity requires simpler alternatives considered"
    ++ reason_if (sa_existing_mechanisms_insufficient_because assessment =? "")%string
         "added complexity requires evidence that existing mechanisms are insufficient"
    ++ reason_if (sa_reversibility_strategy assessment =? "")%string
         "added complexity requires an explicit removal or reversibility strategy".

Definition gate_route (assessment : SystemsAssessment) : SystemsGateRoute :=
  if SystemsAssessment_fast_path_requested assessment then FAST_PATH else GATED.

(** Every reason to deny the plan, in order. *)
Definition denial_reasons (plan : ChangePlan) (assessment : SystemsAssessment) : list string :=
  reason_if (negb (cp_goal plan =? sa_desired_outcome assessment)%string)
    "plan goal does not match the assessed desired outcome"
  ++ (if SystemsAssessment_fast_path_requested assessment
      then fast_path_reasons plan assessment else gated_reasons plan assessment)
  ++ strategy_trace_reasons plan assessment
  ++ complexity_reasons assessment.

Definition over_budget (gate : SystemsGovernanceGate) (assessment : SystemsAssessment) : bool :=
  max_automatic_complexity_score gate <? SystemsAssessment_complexity_score assessment.

Definition gate_evaluate (gate : SystemsGovernanceGate) (plan : ChangePlan)
    (assessment : SystemsAssessment) : result SystemsGateDecision :=
  let route := gate_route assessment in
  let reasons := denial_reasons plan assessment in
  let requires_human_review := over_budget gate assessment in
  let permitted := is_nil reasons in
  let reasons := reasons
    ++ reason_if requires_human_review
         ("complexity score " +:+ pretty (SystemsAssessment_complexity_score assessment)
          +:+ " exceeds automatic budget " +:+ pretty (max_automatic_complexity_score gate))
    ++ reason_if (permitted && negb requires_human_review)
         (match route with
          | FAST_PATH => "explicit fast path accepted"
          | GATED => "systems governance assessment complete"
          end) in
  SystemsGateDecision_post_init
    (mk_SystemsGateDecision route permitted reasons
       (SystemsAssessment_complexity_score assessment)
       (SystemsAssessment_fingerprint assessment) requires_human_review
       (match route with
        | GATED => StrategyCoherenceReview_fingerprint <$> cp_strategy_coherence_review plan
        | FAST_PATH => None
        end) "master-agent/systems-gate-decision@1").

Definition gate_enforce (gate : SystemsGovernanceGate) (plan : ChangePlan)
    (assessment : SystemsAssessment) : result SystemsGateDecision :=
  decision ← gate_evaluate gate plan assessment;
  raise_if (negb (sd_permitted decision))
    (ValidationError ("systems governance denied plan: "
       +:+ str_join "; " (sd_reasons decision)));;
  raise_if (sd_requires_human_review decision)
    (ValidationError ("systems governance requires authenticated human review: "
       +:+ str_join "; " (sd_reasons decision)));;
  Ok decision.

(** ** Binding a plan *)

(** [replace(plan, systems_assessment=..., systems_decision=...,
    strategy_traces=..., strategy_coherence_review=...)]: a new plan, which is
    validated and carries no admission marker. *)
Definition replace_governance (plan : ChangePlan) (assessment : option SystemsAssessment)
    (decision : option SystemsGateDecision) (traces : list StrategyActionTrace)
    (review : option StrategyCoherenceReview) : result ChangePlan :=
  ChangePlan_post_init
    (mk_ChangePlan (cp_goal plan) (cp_actions plan) (cp_created_by plan) (cp_plan_id plan)
       (cp_created_at plan) (cp_schema_version plan) (cp_workflow_id plan)
       (cp_workflow_fingerprint plan) (cp_compensate_on_failure plan)
       (cp_execution_context plan) assessment decision traces review false).

Definition bind_systems_governance (plan : ChangePlan) (assessment : SystemsAssessment)
    (gate : option SystemsGovernanceGate) : result ChangePlan :=
  raise_if (is_someb (cp_systems_assessment plan) || is_someb (cp_systems_decision plan))
    (ValidationError "plan already contains a systems governance binding");;
  decision ← gate_evaluate (default default_gate gate) plan assessment;
  raise_if (negb (sd_permitted decision))
    (ValidationError ("systems governance denied plan: "
       +:+ str_join "; " (sd_reasons decision)));;
  replace_governance plan (Some assessment) (Some decision) (cp_strategy_traces plan)
    (cp_strategy_coherence_review plan).

Definition static_traces (actions : list AgentAction) (intents : list StrategyActionIntent)
    : result (list StrategyActionTrace) :=
  mapM (λ ai : AgentAction * StrategyActionIntent,
    StrategyActionTrace_post_init (mk_StrategyActionTrace (aa_action_id ai.1)
      (si_intent_id ai.2) "master-agent/strategy-action-trace@1"))
    (zip actions intents).

Definition bind_static_intervention_governance (plan : ChangePlan)
    (assessment : SystemsAssessment) (gate : option SystemsGovernanceGate)
    : result ChangePlan :=
  kernel ← or_raise (sa_strategy_kernel assessment)
    (ValidationError "static intervention requires a strategy kernel");
  raise_if (negb (Nat.eqb (length (sk_coherent_actions kernel)) (length (cp_actions plan))))
    (ValidationError "static intervention requires exactly one intent per plan action");;
  traces ← static_traces (cp_actions plan) (sk_coherent_actions kernel);
  review ← StrategyCoherenceReview_for_static_intervention assessment;
  traced_plan ← replace_governance plan (cp_systems_assessment plan) (cp_systems_decision plan)
    traces (Some review);
  bound ← bind_systems_governance traced_plan assessment gate;
  Ok (with_trusted_strategy_coherence_admission bound).

Definition bind_fast_path_governance (plan : ChangePlan) (current_behavior constraint
    leverage_point success_metric failure_condition : string) : result ChangePlan :=
  assessment ← SystemsAssessment_for_fast_path (cp_goal plan) current_behavior constraint
    leverage_point (cp_goal plan) success_metric failure_condition;
  bind_systems_governance plan assessment None.

(** ** Enforcement at execution *)

Section enforcement.
Context {A : Type} `{Authenticator A}.

(** One authenticated human approved every action of the plan. *)
Definition has_authenticated_whole_plan_review (policy : PolicyEngine A) (plan : ChangePlan)
    (approvals : list Approval) (now : datetime) : result bool :=
  authenticated ← authenticated_approvals policy plan approvals now;
  let action_ids := map aa_action_id (cp_actions plan) in
  Ok (existsb (λ a : Approval * text,
        negb (not_subset action_ids (ap_approved_action_ids a.1))) authenticated).

Definition policy_review (policy : option (PolicyEngine A)) (plan : ChangePlan)
    (approvals : list Approval) (now : datetime) : result bool :=
  match policy with
  | Some policy => has_authenticated_whole_plan_review policy plan approvals now
  | None => Ok false
  end.

Definition strategy_coherence_execution_authenticated (plan : ChangePlan)
    (policy : option (PolicyEngine A)) (approvals : list Approval) (now : datetime)
    : result bool :=
  match cp_systems_decision plan with
  | None => Ok false
  | Some decision =>
      if bool_decide (sd_route decision = FAST_PATH) then Ok true
      else if has_trusted_strategy_coherence_admission plan then Ok true
      else policy_review policy plan approvals now
  end.

Definition enforce_systems_governance (plan : ChangePlan)
    (gate : option SystemsGovernanceGate) (policy : option (PolicyEngine A))
    (approvals : list Approval) (require_trusted_coherence : bool) (now : datetime)
    : result SystemsGateDecision :=
  match cp_systems_assessment plan, cp_systems_decision plan with
  | Some assessment, Some bound_decision =>
      expected ← gate_evaluate (default default_gate gate) plan assessment;
      raise_if (negb (bool_decide (bound_decision = expected)))
        (ValidationError "plan systems governance decision is stale or forged");;
      raise_if (negb (sd_permitted expected))
        (ValidationError ("systems governance denied plan: "
           +:+ str_join "; " (sd_reasons expected)));;
      trusted ← strategy_coherence_execution_authenticated plan policy approvals now;
      raise_if (bool_decide (sd_route expected = GATED) && require_trusted_coherence
                && negb trusted)
        (ValidationError "gated plan requires trusted strategy coherence provenance or an authenticated whole-plan review");;
      reviewed ← (if sd_requires_human_review expected
                  then policy_review policy plan approvals now else Ok true);
      raise_if (negb reviewed)
        (ValidationError ("systems governance requires authenticated human review: "
           +:+ str_join "; " (sd_reasons expected)));;
      Ok bound_decision
  | _, _ => Err (ValidationError "plan is missing a systems governance binding")
  end.
End enforcement.

(** ** The post-execution review *)

Abbreviation SystemsOutcomeObserver :=
  (SystemsAssessment → SystemsGateDecision → list ActionState → result SystemsOutcomeEvidence).

(** The evidence an observer gives, or the reason it does not count. *)
Definition observed_evidence (assessment : SystemsAssessment) (decision : SystemsGateDecision)
    (states : list ActionState) (observer : SystemsOutcomeObserver)
    : SystemsOutcomeEvidence + string :=
  match observer assessment decision states with
  | Err _ => inr "observer_invalid"
  | Ok candidate =>
      if negb (oe_assessment_fingerprint candidate
               =? SystemsAssessment_fingerprint assessment)%string
      then inr "observer_assessment_mismatch"
      else if negb (oe_decision_fingerprint candidate
                    =? SystemsGateDecision_fingerprint decision)%string
      then inr "observer_decision_mismatch"
      else if negb (oe_success_metric_sha256 candidate
                    =? SystemsAssessment_success_metric_sha256 assessment)%string
      then inr "observer_metric_mismatch"
      else inl candidate
  end.

Definition unintended_state (s : ActionState) : bool :=
  bool_decide (s ∈ [INDETERMINATE; COMPENSATION_FAILED]).
Definition successful_state (s : ActionState) : bool :=
  bool_decide (s ∈ [PLANNED; VERIFIED; REUSED]).

(** [if c and code not in codes: codes.append(code)]. *)
Definition add_code (c : bool) (code : string) (codes : list string) : list string :=
  if c && negb (bool_decide (code ∈ codes)) then codes ++ [code] else codes.

Definition review_with_evidence (assessment : SystemsAssessment)
    (decision : SystemsGateDecision) (successful unintended_effects : bool)
    (evidence : SystemsOutcomeEvidence) : result SystemsPostExecutionReview :=
  let planned := SystemsAssessment_complexity_score assessment in
  let observed_unintended_effects :=
    oe_unintended_effects_detected evidence || unintended_effects in
  let complexity_growth := (λ o, o - planned) <$> oe_observed_complexity_score evidence in
  let reassessment_required :=
    bool_decide (oe_metric_status evidence = CONFIRMED_UNCHANGED)
    || negb successful || observed_unintended_effects
    || negb (oe_stop_condition_checked evidence)
    || bool_decide (oe_stop_condition_triggered evidence = Some true)
    || match complexity_growth with Some g => 0 <? g | None => true end in
  let reason_codes :=
    add_code (negb (oe_stop_condition_checked evidence)) "stop_condition_not_observed"
      (add_code (negb (is_someb (oe_observed_complexity_score evidence)))
         "complexity_not_observed"
         (add_code unintended_effects "unintended_effect_possible"
            (add_code (negb successful) "execution_unsuccessful"
               (oe_reason_codes evidence)))) in
  SystemsPostExecutionReview_post_init {|
    pr_assessment_fingerprint := SystemsAssessment_fingerprint assessment;
    pr_decision_fingerprint := SystemsGateDecision_fingerprint decision;
    pr_success_metric_sha256 := SystemsAssessment_success_metric_sha256 assessment;
    pr_metric_status := oe_metric_status evidence;
    pr_unintended_effects_detected := observed_unintended_effects;
    pr_planned_complexity_score := planned;
    pr_removal_candidate_count := oe_removal_candidate_count evidence;
    pr_stop_condition_checked := oe_stop_condition_checked evidence;
    pr_reassessment_required := reassessment_required;
    pr_reason_codes := reason_codes;
    pr_observed_complexity_score := oe_observed_complexity_score evidence;
    pr_complexity_growth := complexity_growth;
    pr_stop_condition_triggered := oe_stop_condition_triggered evidence;
    pr_schema := review_schema_v2 |}.

Definition review_without_evidence (assessment : SystemsAssessment)
    (decision : SystemsGateDecision) (dry_run successful unintended_effects : bool)
    (failure : option string) : result SystemsPostExecutionReview :=
  SystemsPostExecutionReview_post_init {|
    pr_assessment_fingerprint := SystemsAssessment_fingerprint assessment;
    pr_decision_fingerprint := SystemsGateDecision_fingerprint decision;
    pr_success_metric_sha256 := SystemsAssessment_success_metric_sha256 assessment;
    pr_metric_status := NOT_OBSERVED;
    pr_unintended_effects_detected := unintended_effects;
    pr_planned_complexity_score := SystemsAssessment_complexity_score assessment;
    pr_removal_candidate_count := Z.of_nat (length (sa_removable_complexity assessment));
    pr_stop_condition_checked := false;
    pr_reassessment_required := true;
    pr_reason_codes :=
      [if dry_run then "dry_run_metric_not_observed" else "metric_not_observed"]
      ++ match failure with Some code => [code] | None => [] end
      ++ reason_if (negb successful) "execution_unsuccessful"
      ++ reason_if unintended_effects "unintended_effect_possible"
      ++ ["stop_condition_not_observed"];
    pr_observed_complexity_score := None;
    pr_complexity_growth := None;
    pr_stop_condition_triggered := None;
    pr_schema := review_schema_v2 |}.

Definition build_systems_post_execution_review (assessment : SystemsAssessment)
    (decision : SystemsGateDecision) (states : list ActionState) (dry_run : bool)
    (observer : option SystemsOutcomeObserver) : result SystemsPostExecutionReview :=
  let unintended_effects := existsb unintended_state states in
  let successful := forallb successful_state states in
  match observer with
  | Some observer =>
      if dry_run
      then review_without_evidence assessment decision dry_run successful unintended_effects None
      else match observed_evidence assessment decision states observer with
           | inl evidence =>
               review_with_evidence assessment decision successful unintended_effects evidence
           | inr failure =>
               review_without_evidence assessment decision dry_run successful
                 unintended_effects (Some failure)
           end
  | None =>
      review_without_evidence assessment decision dry_run successful unintended_effects
        (Some "observer_unavailable")
  end.

(** ** The governed planner *)

Record GovernedPlan : Type := mk_GovernedPlan {
  gp_plan : ChangePlan;
  gp_assessment : SystemsAssessment;
  gp_decision : SystemsGateDecision;
}.

Definition GovernedPlan_post_init (self : GovernedPlan) : result GovernedPlan :=
  raise_if (negb (bool_decide (cp_systems_assessment (gp_plan self) = Some (gp_assessment self))))
    (ValidationError "governed plan does not contain its assessment");;
  raise_if (negb (bool_decide (cp_systems_decision (gp_plan self) = Some (gp_decision self))))
    (ValidationError "governed plan does not contain its gate decision");;
  Ok self.

Record GovernedPlanner : Type := mk_GovernedPlanner {
  gpl_assessor : string → result SystemsAssessment;
  gpl_planner : string → SystemsAssessment → result ChangePlan;
  gpl_coherence_reviewer : option (SystemsAssessment → result StrategyCoherenceReview);
  gpl_gate : SystemsGovernanceGate;
}.

Definition governed_planner_plan (self : GovernedPlanner) (goal : string) : result GovernedPlan :=
  gate_require_text goal "planner goal";;
  assessment ← gpl_assessor self goal;
  plan ← gpl_planner self goal assessment;
  raise_if (is_someb (cp_strategy_coherence_review plan))
    (ValidationError "systems-aware planner cannot review its own strategy coherence");;
  plan ← (if SystemsAssessment_fast_path_requested assessment then Ok plan
          else
            reviewer ← or_raise (gpl_coherence_reviewer self)
              (ValidationError "gated planning requires a strategy coherence reviewer");
            review ← reviewer assessment;
            replace_governance plan (cp_systems_assessment plan) (cp_systems_decision plan)
              (cp_strategy_traces plan) (Some review));
  bound ← bind_systems_governance plan assessment (Some (gpl_gate self));
  let governed_plan := with_trusted_strategy_coherence_admission bound in
  decision ← or_raise (cp_systems_decision governed_plan)
    (ValidationError "systems governance decision was not bound");
  GovernedPlan_post_init (mk_GovernedPlan governed_plan assessment decision).
