(* ===== verification/Canonical.v ===== *)
(** * Canonical: source-of-truth policy, [src/src/master_agent/canonical.py]

    A rule names the resource that owns a logical field and the projections of
    it; a write to a projection must carry the same value as a write to the
    owner that it depends on.  The TOML document is its parsed table.  Frozen
    sets of resources are lists, sets of digests are [gset]s. *)

From S2P Require Import Prelude PyText PyJson PyHash PyTime PyStd.
From S2P Require Import ModelsBase ModelsAction ModelsPlan ModelsResults.
From Stdlib Require Import Ascii.

Open Scope Z_scope.

Abbreviation resource := (string * string * string)%type.

(** A capability and the selectors of its governed values. *)
Abbreviation binding := (string * list string)%type.

Record SourceRule : Type := mk_SourceRule {
  sr_field : string;
  sr_canonical_resource : resource;
  sr_projection_resources : list resource;
  sr_direction : string;
  sr_canonical_capabilities : list string;
  sr_projection_capabilities : list string;
  sr_canonical_extractors : list binding;
  sr_projection_extractors : list binding;
}.

Definition canonical_uri (self : SourceRule) : string :=
  let '(system, resource_type, resource_id) := sr_canonical_resource self in
  str_join ":" [system; resource_type; resource_id].

Definition SUPPORTED_PARAMETER_SELECTORS : list binding :=
  [("confluence.page.update", ["body"]);
   ("jira.issue.update", ["fields.status"; "fields.status.name"]);
   ("jira.issue.transition", ["target_status"]);
   ("outlook.email.draft", ["body"]);
   ("teams.message.draft", ["body"])].

Fixpoint find_binding (k : string) (bindings : list binding) : option (list string) :=
  match bindings with
  | [] => None
  | (c, selectors) :: bindings =>
      if (c =? k)%string then Some selectors else find_binding k bindings
  end.

(** ** Reading values *)

Definition is_word_start (c : ascii) : bool :=
  in_range 65 90 c || in_range 97 122 c || (c =? "_")%char.

(** [[A-Za-z_][A-Za-z0-9_]*(?:\[\])?]. *)
Definition SELECTOR_SEGMENT : regex :=
  RSeq (RChar is_word_start)
    (RSeq (RStar (RChar (λ c, is_word_start c || is_digit c)))
       (ropt (RSeq (rlit "[") (rlit "]")))).

Definition valid_selector (selector : string) : bool :=
  forallb (fullmatch SELECTOR_SEGMENT) (split_on "." selector).

Definition resource_identity (action : AgentAction) : resource :=
  (rr_system (aa_target action), rr_resource_type (aa_target action),
   rr_resource_id (aa_target action)).

Definition selectors_for (bindings : list binding) (capability : string)
    : result (list string) :=
  or_raise (find_binding capability bindings)
    (ConfigurationError ("source-of-truth capability is missing its parameter verifier: "
       +:+ capability)).

(** [segment.endswith("[]")], and [segment[:-2]]. *)
Definition expands (segment : string) : bool :=
  (last_char (drop_last segment) =? "[")%char && (last_char segment =? "]")%char.
Definition segment_key (segment : string) : string :=
  if expands segment then drop_last (drop_last segment) else segment.

(** The values one segment selects in one value. *)
Definition select_segment (segment : string) (item : json) : list json :=
  match item with
  | JDict d =>
      match dict_lookup d (segment_key segment) with
      | None => []
      | Some value =>
          if expands segment
          then match value with JList l => l | _ => [] end
          else [value]
      end
  | _ => []
  end.

Definition select_values (parameters : dict) (selector : string) : list json :=
  foldl (λ current segment, current ≫= select_segment segment)
    [JDict parameters] (split_on "." selector).

Definition normalize_value (capability selector : string) (value : json) : option string :=
  match value with
  | JStr s => let rendered := strip s in
              if (rendered =? "")%string then None else Some rendered
  | _ => None
  end.

Definition digest_value (value : string) : string := digest_json (JStr value).

(** The governed values of an action, trimmed. *)
Definition governed_values (action : AgentAction) (selectors : list string) : list string :=
  selectors ≫= λ selector,
    omap (normalize_value (aa_capability action) selector)
      (select_values (aa_parameters action) selector).

Definition parameter_digests (action : AgentAction) (selectors : list string) : gset string :=
  list_to_set (digest_value <$> governed_values action selectors).

(** ** Ancestors *)

(** [{a.action_id: a for a in actions}[id]]. *)
Definition find_action (actions : list AgentAction) (id : uuid) : option AgentAction :=
  List.find (λ a, aa_action_id a =? id) (rev actions).

(** The loop over [pending], a stack whose top is its last element; the model
    keeps it reversed. *)
Fixpoint ancestors_loop (fuel : nat) (actions : list AgentAction) (pending : list uuid)
    (ancestors : gset uuid) : option (result (gset uuid)) :=
  match fuel with
  | O => None
  | S fuel =>
      match pending with
      | [] => Some (Ok ancestors)
      | dependency :: pending =>
          if bool_decide (dependency ∈ ancestors)
          then ancestors_loop fuel actions pending ancestors
          else
            match find_action actions dependency with
            | None => Some (Err (PyKeyError (uuid_str dependency)))
            | Some a =>
                ancestors_loop fuel actions (rev (aa_dependencies a) ++ pending)
                  ({[dependency]} ∪ ancestors)
            end
      end
  end.

(** Every edge is pushed at most once, besides the edges of [action] itself. *)
Definition ancestors_fuel (actions : list AgentAction) (action : AgentAction) : nat :=
  S (length (aa_dependencies action) + sum_list_with (λ a, length (aa_dependencies a)) actions).

Definition dependency_ancestors (plan : ChangePlan) (action : AgentAction)
    : result (gset uuid) :=
  default (Err (PyOtherError "out of fuel"))
    (ancestors_loop (ancestors_fuel (cp_actions plan) action) (cp_actions plan)
       (rev (aa_dependencies action)) ∅).

(** ** Validation of an action *)

Definition is_canonical_write (rule : SourceRule) (candidate : AgentAction) : bool :=
  bool_decide (resource_identity candidate = sr_canonical_resource rule)
  && negb (bool_decide (aa_risk candidate ∈ [READ_ONLY; LOCAL_GENERATION]))
  && bool_decide (aa_capability candidate ∈ sr_canonical_capabilities rule).

(** The canonical writes of the plan with the digests of their values. *)
Definition canonical_writes (rule : SourceRule) (plan : ChangePlan)
    : result (list (uuid * gset string)) :=
  mapM (λ candidate,
    selectors ← selectors_for (sr_canonical_extractors rule) (aa_capability candidate);
    Ok (aa_action_id candidate, parameter_digests candidate selectors))
    (List.filter (is_canonical_write rule) (cp_actions plan)).

(** One turn of the loop over the rules: [None] goes on to the next rule. *)
Definition rule_violation (rule : SourceRule) (plan : ChangePlan) (action : AgentAction)
    : result (option string) :=
  if negb (bool_decide (resource_identity action ∈ sr_projection_resources rule)) then Ok None
  else if negb (bool_decide (aa_capability action ∈ sr_projection_capabilities rule))
  then if bool_decide (aa_risk action = READ_ONLY) then Ok None
       else Ok (Some (sr_field rule
                      +:+ " projection capability is not approved by its source rule"))
  else
    selectors ← selectors_for (sr_projection_extractors rule) (aa_capability action);
    let projection_digests := parameter_digests action selectors in
    if negb (Nat.eqb (size projection_digests) 1)
    then Ok (Some (sr_field rule
                   +:+ " projection must expose exactly one verifiable governed value"))
    else
      writes ← canonical_writes rule plan;
      if match writes with [] => true | _ => false end
      then Ok (Some (sr_field rule +:+ " is owned by " +:+ canonical_uri rule
                     +:+ "; update the canonical source before its projection"))
      else
        ancestors ← dependency_ancestors plan action;
        if existsb (λ w : uuid * gset string,
             bool_decide (w.2 = projection_digests) && bool_decide (w.1 ∈ ancestors)) writes
        then Ok None
        else Ok (Some (sr_field rule +:+ " projection must depend on a matching field-value "
                       +:+ canonical_uri rule
                       +:+ "; plan ordering alone is not authority")).

Fixpoint source_validate (rules : list SourceRule) (plan : ChangePlan) (action : AgentAction)
    : result (bool * string) :=
  match rules with
  | [] => Ok (true, "source-of-truth policy satisfied")
  | rule :: rules =>
      violation ← rule_violation rule plan action;
      match violation with
      | Some reason => Ok (false, reason)
      | None => source_validate rules plan action
      end
  end.

(** ** Loading *)

(** [tuple(str(item[name]).strip() for name in names)], all of it present. *)
Definition identity_of (item : dict) (names : string * string * string)
    (missing empty : string) : result resource :=
  let '(n1, n2, n3) := names in
  let part n := strip <$> reraise (item_str item n)
                  (λ e, match e with PyKeyError _ => Some (ConfigurationError missing)
                        | _ => None end) in
  system ← part n1; resource_type ← part n2; resource_id ← part n3;
  raise_if ((system =? "") || (resource_type =? "") || (resource_id =? ""))%string
    (ConfigurationError empty);;
  Ok (system, resource_type, resource_id).

Definition canonical_resource (item : dict) : result resource :=
  identity_of item ("canonical_system", "canonical_resource_type", "canonical_resource_id")
    "source-of-truth canonical resource must declare system, resource_type, and resource_id"
    "source-of-truth canonical resource identity values must not be empty".

Fixpoint load_projections (items : list json) (resources : list resource)
    : result (list resource) :=
  match items with
  | [] => Ok resources
  | JDict item :: items =>
      resource ← identity_of item ("system", "resource_type", "resource_id")
        "source-of-truth projection must declare system, resource_type, and resource_id"
        "source-of-truth projection identity values must not be empty";
      raise_if (bool_decide (resource ∈ resources))
        (ConfigurationError "source-of-truth projection identities must be unique");;
      load_projections items (resources ++ [resource])
  | _ :: _ =>
      Err (ConfigurationError
        "source-of-truth projection must declare system, resource_type, and resource_id")
  end.

Definition projection_resources (value : json) : result (list resource) :=
  match value with
  | JList ((_ :: _) as items) => load_projections items []
  | _ => Err (ConfigurationError
      "source-of-truth projections must be a non-empty array of tables")
  end.

(** Lexicographic order on (capability, selectors). *)
Fixpoint strs_le (xs ys : list string) : bool :=
  match xs, ys with
  | [], _ => true
  | _ :: _, [] => false
  | x :: xs, y :: ys => if (x =? y)%string then strs_le xs ys else str_le x y
  end.
Definition binding_le (x y : binding) : bool :=
  if (x.1 =? y.1)%string then strs_le x.2 y.2 else str_le x.1 y.1.

Definition load_binding (name : string) (kv : string * json) : result binding :=
  let '(raw_capability, raw_selectors) := kv in
  let capability := strip raw_capability in
  raise_if (capability =? "")%string
    (ConfigurationError ("source-of-truth " +:+ name +:+ " capability must not be empty"));;
  match raw_selectors with
  | JList ((_ :: _) as l) =>
      let selectors := map (λ v, strip (py_str v)) l in
      raise_if (existsb (λ s, (s =? "")%string) selectors)
        (ConfigurationError ("source-of-truth " +:+ name +:+ "." +:+ capability
           +:+ " selectors must not be empty"));;
      supported ← or_raise (find_binding capability SUPPORTED_PARAMETER_SELECTORS)
        (ConfigurationError ("source-of-truth capability has no parameter verifier: "
           +:+ capability));
      for_each (λ selector,
        raise_if (negb (valid_selector selector) || negb (bool_decide (selector ∈ supported)))
          (ConfigurationError ("source-of-truth capability has unsupported parameter selector: "
             +:+ capability +:+ "=" +:+ selector))) selectors;;
      Ok (capability, selectors)
  | _ => Err (ConfigurationError ("source-of-truth " +:+ name +:+ "." +:+ capability
             +:+ " must be a non-empty list"))
  end.

Definition extractor_bindings (value : json) (name : string) : result (list binding) :=
  match value with
  | JDict ((_ :: _) as kvs) =>
      bindings ← mapM (load_binding name) kvs;
      Ok (sort_by binding_le bindings)
  | _ => Err (ConfigurationError
      ("source-of-truth " +:+ name +:+ " must be a non-empty table"))
  end.

Definition load_source_rule (v : json) : result SourceRule :=
  match v with
  | JDict item =>
      let field := strip (get_str item "field" "") in
      raise_if (field =? "")%string
        (ConfigurationError "source-of-truth field must not be empty");;
      direction ← item_str item "direction";
      raise_if (negb (direction =? "outbound_only")%string)
        (ConfigurationError ("unsupported source-of-truth direction: " +:+ direction));;
      canonical_extractors ←
        extractor_bindings (dict_get item "canonical_extractors") "canonical_extractors";
      projection_extractors ←
        extractor_bindings (dict_get item "projection_extractors") "projection_extractors";
      canonical ← canonical_resource item;
      projections ← projection_resources (dict_get item "projections");
      Ok (mk_SourceRule field canonical projections direction
            (map fst canonical_extractors) (map fst projection_extractors)
            canonical_extractors projection_extractors)
  | _ => Err (ConfigurationError "source-of-truth rule must be a table")
  end.

Definition sources_from_toml (raw : dict) : result (list SourceRule) :=
  items ← json_iter (dict_get_or raw "rules" (JList []));
  mapM load_source_rule items.
