(* ===== verification/Evidence.v ===== *)
(** * Evidence: audit-safe summaries, [src/src/master_agent/evidence.py]

    What the program writes about messages and connector results into the audit
    log: digests, counts and reason codes instead of content. *)

From S2P Require Import Prelude PyText PyJson PyHash PyTime PyStd JsonCanonical PyJsonLoads.
From S2P Require Import ModelsBase ModelsResults.
From Stdlib Require Import Ascii.

Open Scope Z_scope.

Definition SENSITIVE_KEYS : list string :=
  ["authorization"; "access_token"; "refresh_token"; "api_token"; "token"; "secret";
   "password"; "client_secret"].

Definition KNOWN_ERROR_CODES : list (string * string) :=
  [("ApprovalRequiredError", "approval_required");
   ("AuthenticationError", "authentication_failed");
   ("AuthorizationError", "authorization_failed");
   ("ConfigurationError", "configuration_failed");
   ("ConnectorError", "connector_failed");
   ("ConnectorHttpError", "connector_http_failed");
   ("HttpRequestError", "http_request_failed");
   ("PolicyDeniedError", "policy_denied");
   ("RateLimitError", "rate_limited");
   ("ResourceNotFoundError", "resource_not_found");
   ("ValidationError", "validation_failed");
   ("VerificationError", "verification_failed");
   ("VersionConflictError", "version_conflict")].

Definition content_digest (value : json) : string := sha256 (dumps_compact value).

(** ** Reason codes *)

Definition is_code_char (c : ascii) : bool :=
  is_lower c || is_digit c || (c =? "_")%char.

(** [re.sub(r"[^a-z0-9_]+", "_", s)]; [inside] when the character before is
    part of a run that is already replaced. *)
Fixpoint sub_runs (inside : bool) (s : string) : string :=
  match s with
  | EmptyString => EmptyString
  | String c s =>
      if is_code_char c then String c (sub_runs false s)
      else if inside then sub_runs true s
      else String "_" (sub_runs true s)
  end.

(** [s.strip("_")]. *)
Definition strip_underscores (s : string) : string :=
  rstrip_by (λ c, (c =? "_")%char) (lstrip_by (λ c, (c =? "_")%char) s).

Fixpoint error_code (codes : list (string * string)) (name default : string) : string :=
  match codes with
  | [] => default
  | (k, v) :: codes => if (k =? name)%string then v else error_code codes name default
  end.

Definition reason_code (message default_code : string) : string :=
  let prefix := strip (partition ":" message).1.1 in
  let code := if startswith "verification failed" (casefold message)
              then "verification_failed"
              else error_code KNOWN_ERROR_CODES prefix default_code in
  let code := strip_underscores (sub_runs false (casefold code)) in
  if (code =? "")%string then "unspecified" else code.

Definition audit_message_metadata (message default_code : string) : dict :=
  [("reason_code", JStr (reason_code message default_code));
   ("message_digest", JStr (sha256 message));
   ("message_length", JInt (len message))].

(** ** References *)

(** [urlunparse] of [urlparse]'s path and parameters: an empty parameter text
    loses its semicolon. *)
Definition path_with_params (path : string) : string :=
  let '(_, _, segment) := rpartition "/" path in
  let '(_, found, params) := partition ";" segment in
  if found && (params =? "")%string then drop_last path else path.

(** [parsed._replace(query="", fragment="").geturl()] of an HTTP URL. *)
Definition geturl_without_query (u : SplitResult) : string :=
  urlunsplit (url_scheme u) (url_netloc u) (path_with_params (url_path u)).

Definition reference_summary (value : option string) : result json :=
  match value with
  | None => Ok JNull
  | Some value =>
      parsed ← urlsplit value;
      let safe_value :=
        if bool_decide (url_scheme parsed ∈ ["http"; "https"])
        then geturl_without_query parsed else value in
      Ok (JDict [("value", JStr safe_value); ("digest", JStr (sha256 value))])
  end.

(** ** Results *)

Definition is_sensitive (key : string) : bool :=
  bool_decide (str_lower key ∈ SENSITIVE_KEYS).

Fixpoint redact_secrets (value : json) : json :=
  match value with
  | JDict kvs =>
      JDict (map (λ kv, let '(key, item) := kv in
        (key, if is_sensitive key then JStr "<redacted>" else redact_secrets item)) kvs)
  | JList l => JList (map redact_secrets l)
  | v => v
  end.

(** An integer, a boolean being one. *)
Definition is_int_value (v : json) : bool :=
  match v with JInt _ | JBool _ => true | _ => false end.

Definition mapping_summary (value : option dict) : json :=
  match value with
  | None => JNull
  | Some value =>
      let keys := sort_by str_le (map fst value) in
      JDict ([("digest", JStr (content_digest (redact_secrets (JDict value))));
              ("keys", str_list (firstn 50 keys));
              ("key_count", JInt (Z.of_nat (length keys)))]
             ++ List.filter (λ kv : string * json, is_int_value kv.2)
                  (map (λ k, (k, dict_get value k)) ["count"; "total"; "returned"])
             ++ List.filter (λ kv : string * json, is_str kv.2)
                  (map (λ k, (k, dict_get value k)) ["schema"]))
  end.

Definition result_audit_summary (result_ : ExecutionResult) : result dict :=
  reference ← reference_summary (er_connector_reference result_);
  Ok ([("action_id", JStr (uuid_str (er_action_id result_)));
       ("state", JStr (enum_str (er_state result_)));
       ("connector_reference", reference)]
      ++ audit_message_metadata (er_message result_) "connector_result"
      ++ [("before", mapping_summary (er_before result_));
          ("after", mapping_summary (er_after result_))]).

Example reference_example :
  reference_summary (Some "HTTPS://host/a;?token=x#f")
  = Ok (JDict [("value", JStr "https://host/a"); ("digest", JStr (sha256 "HTTPS://host/a;?token=x#f"))]).
Proof. vm_compute. reflexivity. Qed.

Example reason_examples :
  map (λ m, reason_code m "action_failed")
    ["AuthorizationError: no"; "Verification failed: x"; "plain"]
  = ["authorization_failed"; "verification_failed"; "action_failed"].
Proof. vm_compute. reflexivity. Qed.
