(* ===== verification/EgressPolicy.v ===== *)
(** * EgressPolicy: which provider data may enter a model context

    The organization policy of [src/src/master_agent/provider_egress.py]: rules,
    their precedence, the evaluation before provider access and the loading of
    the [model_context] table.  A [frozenset] of strings is its sorted list
    without repetition ([str_set]), so that equal sets are equal and [sorted] of
    one is itself; where a loop over a set can raise, the model takes this
    order. *)

From S2P Require Import Prelude PyText PyJson PyTime PyStd ResourceLimits ModelsBase PlatformIdentity.
From S2P Require Import Capabilities Governance.
From Stdlib Require Import Ascii.

Open Scope Z_scope.

Definition MAX_RUN_ARTIFACT_BYTES : Z := 64 * 1024 * 1024.
Definition MAX_RULE_ITEMS : Z := 128.
Definition MAX_RULE_TEXT : Z := 256.

(** [frozenset(l)], and an enumeration's. *)
Definition str_set (l : list string) : list string := sort_by str_le (remove_dups l).

Definition MODEL_CONTEXT_KEYS : list string :=
  ["destination"; "model_tenancy"; "source_data_environment"; "dlp_adapter";
   "development_default_classification"; "rules"].
Definition MODEL_CONTEXT_REQUIRED_KEYS : list string :=
  ["destination"; "model_tenancy"; "source_data_environment"; "dlp_adapter"; "rules"].
Definition MODEL_CONTEXT_RULE_KEYS : list string :=
  ["name"; "providers"; "capabilities"; "data_classifications"; "destinations";
   "model_tenancies"; "routes"; "handling"; "audit_required"; "dlp_required";
   "redacted_fields"; "allowed_fields"; "max_items"; "max_output_bytes"].

Inductive ProviderDataRoute : Type := EPHEMERAL | AUDITED.
#[export] Instance ProviderDataRoute_eq_dec : EqDecision ProviderDataRoute.
Proof. solve_decision. Defined.
Definition ProviderDataRoute_str (r : ProviderDataRoute) : string :=
  match r with EPHEMERAL => "ephemeral" | AUDITED => "audited" end.
#[export] Instance ProviderDataRoute_enum : StrEnum ProviderDataRoute := {
  enum_name := "ProviderDataRoute"; enum_members := [EPHEMERAL; AUDITED];
  enum_str := ProviderDataRoute_str }.
#[export] Instance ProviderDataRoute_laws : StrEnumLaws ProviderDataRoute.
Proof. by intros []. Qed.

Inductive ProviderDataHandling : Type := HANDLING_ALLOW | HANDLING_REDACT | HANDLING_DENY.
#[export] Instance ProviderDataHandling_eq_dec : EqDecision ProviderDataHandling.
Proof. solve_decision. Defined.
Definition ProviderDataHandling_str (h : ProviderDataHandling) : string :=
  match h with
  | HANDLING_ALLOW => "allow" | HANDLING_REDACT => "redact" | HANDLING_DENY => "deny"
  end.
#[export] Instance ProviderDataHandling_enum : StrEnum ProviderDataHandling := {
  enum_name := "ProviderDataHandling";
  enum_members := [HANDLING_ALLOW; HANDLING_REDACT; HANDLING_DENY];
  enum_str := ProviderDataHandling_str }.
#[export] Instance ProviderDataHandling_laws : StrEnumLaws ProviderDataHandling.
Proof. by intros []. Qed.

(** ** Field checks *)

Definition egress_validate_text (value name : string) : result unit :=
  raise_if ((value =? "")%string || untrimmed value || (MAX_RULE_TEXT <? len value))
    (ConfigurationError (name +:+ " must be a bounded normalized string"));;
  raise_if (negb (str_forall is_printable value))
    (ConfigurationError (name +:+ " must contain printable characters")).

Definition string_list (value : json) (name : string) : result (list string) :=
  or_raise (json_strings value) (ConfigurationError (name +:+ " must be a list of strings")).

Definition strict_positive_int (value : json) (name : string) : result Z :=
  match value with
  | JInt z => raise_if (z <=? 0) (ConfigurationError (name +:+ " must be a positive integer"));; Ok z
  | _ => Err (ConfigurationError (name +:+ " must be a positive integer"))
  end.

Definition egress_required_string (value : json) (name : string) : result string :=
  match value with
  | JStr s => egress_validate_text s name;; Ok s
  | _ => Err (ConfigurationError (name +:+ " must be a string"))
  end.

Definition validate_mapping_keys (value : dict) (allowed required : list string) (name : string)
    : result unit :=
  let keys := map fst value in
  let unknown := sort_by str_le (List.filter (λ k, negb (bool_decide (k ∈ allowed))) keys) in
  raise_if (negb (bool_decide (unknown = [])))
    (ConfigurationError (name +:+ " has unknown keys: " +:+ str_join ", " unknown));;
  let missing := sort_by str_le (List.filter (λ k, negb (bool_decide (k ∈ keys))) required) in
  raise_if (negb (bool_decide (missing = [])))
    (ConfigurationError (name +:+ " is missing keys: " +:+ str_join ", " missing)).

(** ** Rules *)

Record ModelContextRule : Type := mk_ModelContextRule {
  mr_name : string;
  mr_providers : list string;
  mr_capabilities : list string;
  mr_data_classifications : list DataClassification;
  mr_destinations : list string;
  mr_model_tenancies : list string;
  mr_routes : list ProviderDataRoute;
  mr_handling : ProviderDataHandling;
  mr_audit_required : bool;
  mr_dlp_required : bool;
  mr_redacted_fields : list string;
  mr_allowed_fields : list string;
  mr_max_items : Z;
  mr_max_output_bytes : Z;
}.
#[export] Instance ModelContextRule_eq_dec : EqDecision ModelContextRule.
Proof. solve_decision. Defined.

(** One of the four texts lists of a rule. *)
Definition check_rule_texts (name label : string) (values : list string) : result unit :=
  raise_if (bool_decide (values = []))
    (ConfigurationError ("model-context rule " +:+ name +:+ " requires " +:+ label));;
  raise_if (MAX_RULE_ITEMS <? Z.of_nat (length values))
    (ConfigurationError ("model-context rule " +:+ name +:+ " has too many " +:+ label));;
  for_each (λ v, egress_validate_text v ("model-context rule " +:+ name +:+ " " +:+ label)) values.

Definition HIGH_SENSITIVITY : list DataClassification := [CONFIDENTIAL; RESTRICTED].

(** A rule that lets data of high sensitivity out. *)
Definition releases_sensitive (self : ModelContextRule) : bool :=
  negb (bool_decide (mr_handling self = HANDLING_DENY))
  && existsb (λ c, bool_decide (c ∈ HIGH_SENSITIVITY)) (mr_data_classifications self).

Definition ModelContextRule_post_init (self : ModelContextRule) : result ModelContextRule :=
  let rule := "model-context rule " +:+ mr_name self in
  egress_validate_text (mr_name self) "model-context rule name";;
  check_rule_texts (mr_name self) "providers" (mr_providers self);;
  check_rule_texts (mr_name self) "capabilities" (mr_capabilities self);;
  check_rule_texts (mr_name self) "destinations" (mr_destinations self);;
  check_rule_texts (mr_name self) "model_tenancies" (mr_model_tenancies self);;
  raise_if (bool_decide (mr_data_classifications self = []))
    (ConfigurationError (rule +:+ " requires data classifications"));;
  raise_if (bool_decide (mr_routes self = []))
    (ConfigurationError (rule +:+ " requires routes"));;
  raise_if (mr_audit_required self && bool_decide (EPHEMERAL ∈ mr_routes self))
    (ConfigurationError (rule +:+ " cannot require audit on an ephemeral route"));;
  raise_if (bool_decide (mr_handling self = HANDLING_REDACT)
            && negb (negb (bool_decide (mr_redacted_fields self = [])) || mr_dlp_required self))
    (ConfigurationError (rule +:+ " redaction requires fields or DLP"));;
  raise_if ((mr_max_output_bytes self <=? 0)
            || (MAX_RUN_ARTIFACT_BYTES <? mr_max_output_bytes self))
    (ConfigurationError (rule +:+ " max_output_bytes must be between 1 and "
       +:+ pretty MAX_RUN_ARTIFACT_BYTES));;
  for_each (λ f, egress_validate_text f (rule +:+ " redacted field")) (mr_redacted_fields self);;
  raise_if (bool_decide (mr_allowed_fields self = []))
    (ConfigurationError (rule +:+ " requires allowed_fields"));;
  raise_if (MAX_RULE_ITEMS <? Z.of_nat (length (mr_allowed_fields self)))
    (ConfigurationError (rule +:+ " has too many allowed_fields"));;
  for_each (λ f, egress_validate_text f (rule +:+ " allowed field")) (mr_allowed_fields self);;
  raise_if (bool_decide ("*" ∈ mr_allowed_fields self)
            && negb (Nat.eqb (length (mr_allowed_fields self)) 1))
    (ConfigurationError (rule +:+ " wildcard allowed_fields must stand alone"));;
  raise_if (releases_sensitive self && negb (bool_decide (mr_routes self = [AUDITED])))
    (ConfigurationError (rule +:+ " must keep high-sensitivity data on the audited route"));;
  raise_if (releases_sensitive self && negb (mr_audit_required self))
    (ConfigurationError (rule +:+ " must require audit for high-sensitivity data"));;
  raise_if (releases_sensitive self && bool_decide ("*" ∈ mr_allowed_fields self))
    (ConfigurationError (rule +:+ " must explicitly bound high-sensitivity fields"));;
  raise_if ((mr_max_items self <=? 0) || (MAX_JSON_COLLECTION_ITEMS <? mr_max_items self))
    (ConfigurationError (rule +:+ " max_items must be between 1 and "
       +:+ pretty MAX_JSON_COLLECTION_ITEMS));;
  Ok self.

Definition no_wildcard (pattern : string) : bool := negb (str_exists is_wildcard pattern).

(** [specificity]; tuples of Python are compared lexicographically. *)
Definition rule_specificity (self : ModelContextRule) : list Z :=
  let patterns := mr_providers self ++ mr_capabilities self in
  [Z.of_nat (length (List.filter no_wildcard patterns));
   zsum (map (λ p, len (str_filter (λ c, negb (is_wildcard c)) p)) patterns);
   (if bool_decide ("*" ∈ mr_destinations self) then 0 else 1)
     + (if bool_decide ("*" ∈ mr_model_tenancies self) then 0 else 1);
   - Z.of_nat (length patterns)].

Definition listed (value : string) (values : list string) : bool :=
  bool_decide (value ∈ values) || bool_decide ("*" ∈ values).

Definition rule_matches (self : ModelContextRule) (provider capability : string)
    (data_classification : DataClassification) (destination model_tenancy : string)
    (route : ProviderDataRoute) : bool :=
  existsb (fnmatch provider) (mr_providers self)
  && existsb (fnmatch capability) (mr_capabilities self)
  && bool_decide (data_classification ∈ mr_data_classifications self)
  && listed destination (mr_destinations self)
  && listed model_tenancy (mr_model_tenancies self)
  && bool_decide (route ∈ mr_routes self).

Definition sorted_enums {E} `{StrEnum E} (l : list E) : json :=
  str_list (sort_by str_le (map enum_str l)).

Definition rule_to_dict (self : ModelContextRule) : dict :=
  [("name", JStr (mr_name self));
   ("providers", str_list (mr_providers self));
   ("capabilities", str_list (mr_capabilities self));
   ("data_classifications", sorted_enums (mr_data_classifications self));
   ("destinations", str_list (mr_destinations self));
   ("model_tenancies", str_list (mr_model_tenancies self));
   ("routes", sorted_enums (mr_routes self));
   ("handling", JStr (enum_str (mr_handling self)));
   ("audit_required", JBool (mr_audit_required self));
   ("dlp_required", JBool (mr_dlp_required self));
   ("redacted_fields", str_list (mr_redacted_fields self));
   ("allowed_fields", str_list (mr_allowed_fields self));
   ("max_items", JInt (mr_max_items self));
   ("max_output_bytes", JInt (mr_max_output_bytes self))].

(** ** The policy *)

Record ProviderDataPolicyDecision : Type := mk_ProviderDataPolicyDecision {
  dd_permitted : bool;
  dd_reason : string;
  dd_rule : option ModelContextRule;
}.

Record ProviderDataEgressPolicy : Type := mk_ProviderDataEgressPolicy {
  ep_destination : string;
  ep_model_tenancy : string;
  ep_source_data_environment : string;
  ep_dlp_adapter : string;
  ep_development_default_classification : option DataClassification;
  ep_rules : list ModelContextRule;
}.

Definition SOURCE_DATA_ENVIRONMENTS : list string := ["nonproduction"; "production"].

Definition ProviderDataEgressPolicy_post_init (self : ProviderDataEgressPolicy)
    : result ProviderDataEgressPolicy :=
  egress_validate_text (ep_destination self) "model-context destination";;
  egress_validate_text (ep_model_tenancy self) "model-context model_tenancy";;
  egress_validate_text (ep_source_data_environment self) "model-context source_data_environment";;
  egress_validate_text (ep_dlp_adapter self) "model-context dlp_adapter";;
  raise_if (negb (bool_decide (ep_source_data_environment self ∈ SOURCE_DATA_ENVIRONMENTS)))
    (ConfigurationError
       "model-context source_data_environment must be nonproduction or production");;
  raise_if (bool_decide (ep_rules self = []))
    (ConfigurationError "model-context rules are required");;
  raise_if (negb (nodupb (map mr_name (ep_rules self))))
    (ConfigurationError "model-context rule names must be unique");;
  Ok self.

Definition policy_to_dict (self : ProviderDataEgressPolicy) : dict :=
  [("destination", JStr (ep_destination self));
   ("model_tenancy", JStr (ep_model_tenancy self));
   ("source_data_environment", JStr (ep_source_data_environment self));
   ("dlp_adapter", JStr (ep_dlp_adapter self));
   ("development_default_classification",
    opt_json (λ c, JStr (enum_str c)) (ep_development_default_classification self));
   ("rules", JList (map (λ r, JDict (rule_to_dict r)) (ep_rules self)))].

(** [_digest]; the texts of the model encode. *)
Definition egress_digest (value : json) : result string := stable_sha256 value.

(** The policy holds no number that is not an integer. *)
Definition policy_fingerprint (self : ProviderDataEgressPolicy) : string :=
  digest_json (JDict (policy_to_dict self)).

Definition resolve_probe_classification (self : ProviderDataEgressPolicy)
    (selected : option DataClassification) (environment : string)
    : result DataClassification :=
  match selected with
  | Some c => Ok c
  | None =>
      raise_if (negb (environment =? "development")%string)
        (ConfigurationError
           "provider probe data classification is required outside development");;
      raise_if (negb (ep_source_data_environment self =? "nonproduction")%string)
        (ConfigurationError
           "development provider probes require explicitly nonproduction data");;
      or_raise (ep_development_default_classification self)
        (ConfigurationError "development provider probe classification is not configured")
  end.

(** No DLP adapter is implemented. *)
Definition implemented_dlp_adapter (name : string) : option string := None.

(** [max(...)] of a non-empty list of specificities. *)
Definition max_specificity (first : list Z) (others : list (list Z)) : list Z :=
  fold_left (λ best s, if codes_le s best then best else s) others first.

Definition matching_rules (self : ProviderDataEgressPolicy) (provider capability : string)
    (data_classification : DataClassification) (route : ProviderDataRoute)
    : list ModelContextRule :=
  List.filter (λ r, rule_matches r provider capability data_classification
                      (ep_destination self) (ep_model_tenancy self) route) (ep_rules self).

(** The decision on the selected rule. *)
Definition decide_rule (self : ProviderDataEgressPolicy) (rule : ModelContextRule)
    (audit_available : bool) : ProviderDataPolicyDecision :=
  let name := "model-context rule " +:+ mr_name rule in
  if bool_decide (mr_handling rule = HANDLING_DENY)
  then mk_ProviderDataPolicyDecision false (name +:+ " denies provider data") (Some rule)
  else if mr_audit_required rule && negb audit_available
  then mk_ProviderDataPolicyDecision false
         (name +:+ " requires an implemented audit route") (Some rule)
  else if mr_dlp_required rule && negb (is_someb (implemented_dlp_adapter (ep_dlp_adapter self)))
  then mk_ProviderDataPolicyDecision false
         (name +:+ " requires an implemented DLP adapter") (Some rule)
  else mk_ProviderDataPolicyDecision true
         (name +:+ " approves provider-data egress") (Some rule).

Definition evaluate_egress (self : ProviderDataEgressPolicy) (provider capability : string)
    (data_classification : DataClassification) (route : ProviderDataRoute)
    (audit_available : bool) : ProviderDataPolicyDecision :=
  match matching_rules self provider capability data_classification route with
  | [] => mk_ProviderDataPolicyDecision false
            ("no model-context rule approves " +:+ enum_str data_classification
             +:+ " data from " +:+ provider +:+ " for " +:+ ep_destination self +:+ "/"
             +:+ ep_model_tenancy self +:+ " on " +:+ enum_str route) None
  | first :: others =>
      let best_specificity :=
        max_specificity (rule_specificity first) (map rule_specificity others) in
      match List.filter (λ r, bool_decide (rule_specificity r = best_specificity))
              (first :: others) with
      | [rule] => decide_rule self rule audit_available
      | _ => mk_ProviderDataPolicyDecision false
               "model-context policy has ambiguous equally specific rules" None
      end
  end.

(** ** Loading *)

(** [except (KeyError, ValueError)]. *)
Definition context_enum_failure (rule : string) (e : exn) : option exn :=
  match e with
  | PyKeyError _ | PyValueError _ =>
      Some (ConfigurationError (rule +:+ " contains an invalid enum value"))
  | _ => None
  end.

(** [frozenset(E(item) for item in _string_list(...))]. *)
Definition context_enum_set {E} `{StrEnum E} `{EqDecision E} (value : dict) (k rule : string)
    : result (list E) :=
  items ← string_list (dict_get value k) (rule +:+ " " +:+ k);
  members ← mapM enum_parse items;
  Ok (remove_dups members).

Definition load_context_rule (index : Z) (raw : json) : result ModelContextRule :=
  let rule := "model-context rule " +:+ pretty index in
  raw_rule ← match raw with
             | JDict d => Ok d
             | _ => Err (ConfigurationError (rule +:+ " must be a table"))
             end;
  validate_mapping_keys raw_rule MODEL_CONTEXT_RULE_KEYS MODEL_CONTEXT_RULE_KEYS rule;;
  name ← egress_required_string (dict_get raw_rule "name") (rule +:+ " name");
  enums ← reraise
    (classifications ← context_enum_set raw_rule "data_classifications" rule;
     routes ← context_enum_set raw_rule "routes" rule;
     raw_handling ← dict_item raw_rule "handling";
     handling_text ← egress_required_string raw_handling (rule +:+ " handling");
     handling ← enum_parse handling_text;
     Ok (classifications, routes, handling)) (context_enum_failure rule);
  let '(classifications, routes, handling) := enums in
  max_output_bytes ← match dict_get raw_rule "max_output_bytes" with
    | JInt z => Ok z
    | _ => Err (ConfigurationError (rule +:+ " max_output_bytes must be an integer"))
    end;
  providers ← string_list (dict_get raw_rule "providers") (rule +:+ " providers");
  capabilities ← string_list (dict_get raw_rule "capabilities") (rule +:+ " capabilities");
  destinations ← string_list (dict_get raw_rule "destinations") (rule +:+ " destinations");
  model_tenancies ←
    string_list (dict_get raw_rule "model_tenancies") (rule +:+ " model_tenancies");
  audit_required ← config_bool (dict_get raw_rule "audit_required") (rule +:+ " audit_required");
  dlp_required ← config_bool (dict_get raw_rule "dlp_required") (rule +:+ " dlp_required");
  redacted_fields ←
    string_list (dict_get raw_rule "redacted_fields") (rule +:+ " redacted_fields");
  allowed_fields ← string_list (dict_get raw_rule "allowed_fields") (rule +:+ " allowed_fields");
  max_items ← strict_positive_int (dict_get raw_rule "max_items") (rule +:+ " max_items");
  ModelContextRule_post_init
    (mk_ModelContextRule name providers capabilities classifications (str_set destinations)
       (str_set model_tenancies) routes handling audit_required dlp_required
       (str_set redacted_fields) (str_set allowed_fields) max_items max_output_bytes).

Fixpoint load_context_rules (index : Z) (raw_rules : list json)
    : result (list ModelContextRule) :=
  match raw_rules with
  | [] => Ok []
  | raw :: raw_rules =>
      rule ← load_context_rule index raw;
      rules ← load_context_rules (index + 1) raw_rules;
      Ok (rule :: rules)
  end.

(** [except ValueError]. *)
Definition default_enum_failure (e : exn) : option exn :=
  match e with
  | PyValueError _ =>
      Some (ConfigurationError "model-context development_default_classification is invalid")
  | _ => None
  end.

Definition policy_from_mapping (value : dict) : result ProviderDataEgressPolicy :=
  validate_mapping_keys value MODEL_CONTEXT_KEYS MODEL_CONTEXT_REQUIRED_KEYS
    "model-context policy";;
  raw_rules ← match dict_get value "rules" with
              | JList l => Ok l
              | _ => Err (ConfigurationError "[[model_context.rules]] must be an array")
              end;
  rules ← load_context_rules 1 raw_rules;
  default_classification ← reraise
    (match dict_get value "development_default_classification" with
     | JNull => Ok None
     | default_raw =>
         text ← egress_required_string default_raw
           "model-context development_default_classification";
         c ← enum_parse text;
         Ok (Some c)
     end) default_enum_failure;
  destination ← egress_required_string (dict_get value "destination") "model-context destination";
  model_tenancy ←
    egress_required_string (dict_get value "model_tenancy") "model-context model_tenancy";
  source_data_environment ← egress_required_string (dict_get value "source_data_environment")
    "model-context source_data_environment";
  dlp_adapter ← egress_required_string (dict_get value "dlp_adapter") "model-context dlp_adapter";
  ProviderDataEgressPolicy_post_init
    (mk_ProviderDataEgressPolicy destination model_tenancy source_data_environment dlp_adapter
       default_classification rules).
