(* ===== verification/EgressBinding.v ===== *)
(** * EgressBinding: the authorization of one provider read

    [ProviderDataEgressBinding] of [src/src/master_agent/provider_egress.py]: the
    content-free record a provider read is authorised under, its serialisation,
    and [bind_provider_data_egress], which the orchestrator calls before the
    read and again before the result is returned.  Sets of strings are as in
    [EgressPolicy]. *)

From S2P Require Import Prelude PyText PyJson PyTime PyStd ResourceLimits ModelsBase PlatformIdentity.
From S2P Require Import ModelsAction ModelsBindings ModelsReviews Capabilities Governance EgressPolicy.
From Stdlib Require Import Ascii.

Open Scope Z_scope.

Definition READ_RESULT_CROSSCUT_FIELDS : list string :=
  ["schema"; "evidence"; "security"; "citations"; "citation_ids"].
Definition READ_RESULT_OMITTED_FIELDS : list string := ["query"].
Definition READ_RESULT_RESOURCE_KINDS : list string := ["object"; "object_list"; "value"].

Record ProviderDataEgressBinding : Type := mk_ProviderDataEgressBinding {
  eb_provider : string;
  eb_capability : string;
  eb_action_fingerprint : string;
  eb_policy_fingerprint : string;
  eb_rule_name : string;
  eb_data_classification : DataClassification;
  eb_destination : string;
  eb_model_tenancy : string;
  eb_source_data_environment : string;
  eb_route : ProviderDataRoute;
  eb_handling : ProviderDataHandling;
  eb_audit_required : bool;
  eb_dlp_adapter : string;
  eb_connector_configuration_sha256 : string;
  eb_provider_origin_sha256 : string;
  eb_provider_account_sha256 : string;
  eb_requested_fields : list string;
  eb_field_contract : string;
  eb_output_schema : string;
  eb_output_resources : list (string * string);
  eb_output_metadata_fields : list string;
  eb_request_parameter_names : list string;
  eb_request_parameters_sha256 : string;
  eb_requested_item_limit : option Z;
  eb_max_output_bytes : Z;
  eb_redacted_fields : list string;
  eb_policy_allowed_fields : list string;
  eb_schema : string;
}.
#[export] Instance ProviderDataEgressBinding_eq_dec : EqDecision ProviderDataEgressBinding.
Proof. solve_decision. Defined.

(** ** [__post_init__] *)

Definition egress_validate_sha256 (value name : string) : result unit :=
  raise_if (negb (is_sha256_hex value))
    (ValidationError ("provider-data egress " +:+ name +:+ " is not a SHA-256 digest")).

(** [except ConfigurationError as error: raise ValidationError(str(error))]. *)
Definition as_validation_error (e : exn) : option exn :=
  match e with ConfigurationError m => Some (ValidationError m) | _ => None end.

Definition validate_binding_text (value name : string) : result unit :=
  reraise (egress_validate_text value name) as_validation_error.

Definition check_binding_values (label : string) (values : list string) : result unit :=
  raise_if (MAX_RULE_ITEMS <? Z.of_nat (length values))
    (ValidationError ("provider-data egress has too many " +:+ label));;
  for_each (λ v, validate_binding_text v ("provider-data egress " +:+ label)) values.

(** The loop over the output resources; [resource_names] are those seen. *)
Fixpoint check_output_resources (resource_names : list string) (resources : list (string * string))
    : result unit :=
  match resources with
  | [] => Ok tt
  | (resource_name, descriptor) :: resources =>
      validate_binding_text resource_name "provider-data egress output resource";;
      raise_if (bool_decide (resource_name ∈ resource_names))
        (ValidationError "provider-data egress output resources must be unique");;
      raise_if (negb (bool_decide (descriptor ∈ READ_RESULT_RESOURCE_KINDS)))
        (ValidationError "provider-data egress output resource type is unsupported");;
      check_output_resources (resource_name :: resource_names) resources
  end.

Definition resource_names (self : ProviderDataEgressBinding) : list string :=
  map fst (eb_output_resources self).

Definition binding_checks (self : ProviderDataEgressBinding) : result unit :=
  for_each (λ nv : string * string,
      egress_validate_text nv.2 ("provider-data egress " +:+ nv.1))
    [("provider", eb_provider self); ("capability", eb_capability self);
     ("rule_name", eb_rule_name self); ("destination", eb_destination self);
     ("model_tenancy", eb_model_tenancy self);
     ("source_data_environment", eb_source_data_environment self);
     ("dlp_adapter", eb_dlp_adapter self); ("field_contract", eb_field_contract self);
     ("output_schema", eb_output_schema self)];;
  raise_if (negb (bool_decide (eb_source_data_environment self ∈ SOURCE_DATA_ENVIRONMENTS)))
    (ValidationError "provider-data egress source_data_environment is unsupported");;
  for_each (λ nv : string * string, egress_validate_sha256 nv.2 nv.1)
    [("action_fingerprint", eb_action_fingerprint self);
     ("policy_fingerprint", eb_policy_fingerprint self);
     ("connector_configuration_sha256", eb_connector_configuration_sha256 self);
     ("provider_origin_sha256", eb_provider_origin_sha256 self);
     ("provider_account_sha256", eb_provider_account_sha256 self);
     ("request_parameters_sha256", eb_request_parameters_sha256 self)];;
  raise_if (negb (eb_schema self =? "master-agent/provider-data-egress@1")%string)
    (ValidationError "unsupported provider-data egress schema");;
  raise_if ((eb_max_output_bytes self <=? 0)
            || (MAX_RUN_ARTIFACT_BYTES <? eb_max_output_bytes self))
    (ValidationError "provider-data egress max_output_bytes is outside the supported range");;
  raise_if (match eb_requested_item_limit self with Some z => z <=? 0 | None => false end)
    (ValidationError "provider-data egress requested_item_limit must be positive");;
  for_each (λ nv : string * list string, check_binding_values nv.1 nv.2)
    [("requested_fields", eb_requested_fields self);
     ("output_resource_fields", resource_names self);
     ("output_metadata_fields", eb_output_metadata_fields self);
     ("request_parameter_names", eb_request_parameter_names self);
     ("redacted_fields", eb_redacted_fields self);
     ("policy_allowed_fields", eb_policy_allowed_fields self)];;
  raise_if (MAX_RULE_ITEMS <? Z.of_nat (length (eb_output_resources self)))
    (ValidationError "provider-data egress has too many output resources");;
  check_output_resources [] (eb_output_resources self);;
  raise_if (existsb (λ n, bool_decide (n ∈ eb_output_metadata_fields self)) (resource_names self))
    (ValidationError "provider-data egress output resource and metadata fields overlap");;
  raise_if (existsb is_reserved_read_result_field_name
              (resource_names self ++ eb_output_metadata_fields self))
    (ValidationError "provider-data egress output fields use reserved names").

Definition ProviderDataEgressBinding_post_init (self : ProviderDataEgressBinding)
    : result ProviderDataEgressBinding :=
  binding_checks self;; Ok self.

(** ** Serialisation *)

Definition binding_to_dict (self : ProviderDataEgressBinding) : dict :=
  [("schema", JStr (eb_schema self));
   ("provider", JStr (eb_provider self));
   ("capability", JStr (eb_capability self));
   ("action_fingerprint", JStr (eb_action_fingerprint self));
   ("policy_fingerprint", JStr (eb_policy_fingerprint self));
   ("rule_name", JStr (eb_rule_name self));
   ("data_classification", JStr (enum_str (eb_data_classification self)));
   ("destination", JStr (eb_destination self));
   ("model_tenancy", JStr (eb_model_tenancy self));
   ("source_data_environment", JStr (eb_source_data_environment self));
   ("route", JStr (enum_str (eb_route self)));
   ("handling", JStr (enum_str (eb_handling self)));
   ("audit_required", JBool (eb_audit_required self));
   ("dlp_adapter", JStr (eb_dlp_adapter self));
   ("connector_configuration_sha256", JStr (eb_connector_configuration_sha256 self));
   ("provider_origin_sha256", JStr (eb_provider_origin_sha256 self));
   ("provider_account_sha256", JStr (eb_provider_account_sha256 self));
   ("requested_fields", str_list (eb_requested_fields self));
   ("field_contract", JStr (eb_field_contract self));
   ("output_schema", JStr (eb_output_schema self));
   ("output_resources",
    JDict (map (λ p : string * string, (p.1, JStr p.2)) (eb_output_resources self)));
   ("output_metadata_fields", str_list (eb_output_metadata_fields self));
   ("request_parameter_names", str_list (eb_request_parameter_names self));
   ("request_parameters_sha256", JStr (eb_request_parameters_sha256 self));
   ("requested_item_limit", opt_json JInt (eb_requested_item_limit self));
   ("max_output_bytes", JInt (eb_max_output_bytes self));
   ("redacted_fields", str_list (eb_redacted_fields self));
   ("policy_allowed_fields", str_list (eb_policy_allowed_fields self))].

Definition binding_fingerprint (self : ProviderDataEgressBinding) : string :=
  digest_json (JDict (binding_to_dict self)).

Definition string_sequence (value : json) (name : string) : result (list string) :=
  or_raise (json_strings value) (ValidationError (name +:+ " must be a list of strings")).

(** The pairs of an object of strings. *)
Definition json_string_pairs (v : json) : option (list (string * string)) :=
  match v with
  | JDict d => mapM (λ kv : string * json,
                 match kv.2 with JStr s => Some (kv.1, s) | _ => None end) d
  | _ => None
  end.

Definition binding_from_dict (value : dict) : result ProviderDataEgressBinding :=
  requested_fields ← string_sequence (dict_get value "requested_fields")
    "provider-data egress requested_fields";
  parameter_names ← string_sequence (dict_get value "request_parameter_names")
    "provider-data egress request_parameter_names";
  redacted_fields ← string_sequence (dict_get value "redacted_fields")
    "provider-data egress redacted_fields";
  policy_allowed_fields ← string_sequence (dict_get value "policy_allowed_fields")
    "provider-data egress policy_allowed_fields";
  output_resources ← or_raise (json_string_pairs (dict_get value "output_resources"))
    (ValidationError "provider-data egress output_resources must be a string object");
  output_metadata_fields ← string_sequence (dict_get value "output_metadata_fields")
    "provider-data egress output_metadata_fields";
  item_limit ← match dict_get value "requested_item_limit" with
    | JNull => Ok None
    | JInt z =>
        raise_if (z <=? 0)
          (ValidationError "provider-data egress requested_item_limit must be positive");;
        Ok (Some z)
    | _ => Err (ValidationError "provider-data egress requested_item_limit must be positive")
    end;
  max_output_bytes ← match dict_get value "max_output_bytes" with
    | JInt z => Ok z
    | _ => Err (ValidationError "provider-data egress max_output_bytes must be an integer")
    end;
  provider ← item_str value "provider";
  capability ← item_str value "capability";
  action_fingerprint ← item_str value "action_fingerprint";
  policy_fingerprint ← item_str value "policy_fingerprint";
  rule_name ← item_str value "rule_name";
  classification_text ← item_str value "data_classification";
  data_classification ← enum_parse classification_text;
  destination ← item_str value "destination";
  model_tenancy ← item_str value "model_tenancy";
  source_data_environment ← item_str value "source_data_environment";
  route_text ← item_str value "route";
  route ← enum_parse route_text;
  handling_text ← item_str value "handling";
  handling ← enum_parse handling_text;
  audit_required ← config_bool (dict_get value "audit_required")
    "provider-data egress audit_required";
  dlp_adapter ← item_str value "dlp_adapter";
  connector_configuration ← item_str value "connector_configuration_sha256";
  provider_origin ← item_str value "provider_origin_sha256";
  provider_account ← item_str value "provider_account_sha256";
  field_contract ← item_str value "field_contract";
  output_schema ← item_str value "output_schema";
  request_parameters ← item_str value "request_parameters_sha256";
  ProviderDataEgressBinding_post_init {|
    eb_schema := get_str value "schema" "";
    eb_provider := provider; eb_capability := capability;
    eb_action_fingerprint := action_fingerprint;
    eb_policy_fingerprint := policy_fingerprint; eb_rule_name := rule_name;
    eb_data_classification := data_classification; eb_destination := destination;
    eb_model_tenancy := model_tenancy;
    eb_source_data_environment := source_data_environment; eb_route := route;
    eb_handling := handling; eb_audit_required := audit_required;
    eb_dlp_adapter := dlp_adapter;
    eb_connector_configuration_sha256 := connector_configuration;
    eb_provider_origin_sha256 := provider_origin;
    eb_provider_account_sha256 := provider_account;
    eb_requested_fields := requested_fields; eb_field_contract := field_contract;
    eb_output_schema := output_schema;
    eb_output_resources := sort_by key_le output_resources;
    eb_output_metadata_fields := output_metadata_fields;
    eb_request_parameter_names := parameter_names;
    eb_request_parameters_sha256 := request_parameters;
    eb_requested_item_limit := item_limit; eb_max_output_bytes := max_output_bytes;
    eb_redacted_fields := str_set redacted_fields;
    eb_policy_allowed_fields := str_set policy_allowed_fields |}.

(** A binding is as its constructor leaves it, with its resources in order and its
    sets of fields in the one form of a set. *)
Definition binding_wf (x : ProviderDataEgressBinding) : Prop :=
  ProviderDataEgressBinding_post_init x = Ok x
  ∧ sort_by key_le (eb_output_resources x) = eb_output_resources x
  ∧ str_set (eb_redacted_fields x) = eb_redacted_fields x
  ∧ str_set (eb_policy_allowed_fields x) = eb_policy_allowed_fields x.

#[export] Instance ProviderDataEgressBinding_dataclass : Dataclass ProviderDataEgressBinding := {
  to_dict := binding_to_dict;
  from_dict := binding_from_dict;
  wf := binding_wf }.

Lemma json_string_pairs_object l :
  json_string_pairs (JDict (map (λ p : string * string, (p.1, JStr p.2)) l)) = Some l.
Proof. simpl. induction l as [|[k s] l IH]; simpl; [done|]. by rewrite IH. Qed.
#[global] Arguments json_string_pairs : simpl never.

Lemma str_set_idem l : str_set (str_set l) = str_set l.
Proof.
  unfold str_set. rewrite remove_dups_NoDup; [apply sort_by_idem, str_le_total|].
  rewrite sort_by_perm. apply NoDup_remove_dups.
Qed.

#[export] Instance ProviderDataEgressBinding_laws : DataclassLaws ProviderDataEgressBinding.
Proof.
  split; simpl.
  - intros x (H & Hr & Hf & Ha). unfold binding_from_dict, binding_to_dict.
    assert (match eb_requested_item_limit x with Some z => z <=? 0 | None => false end = false)
      as Hl by (unfold ProviderDataEgressBinding_post_init, binding_checks in H; by inv_ok).
    read_keys. unfold string_sequence. autorewrite with roundtrip. mstep.
    rewrite json_string_pairs_object. mstep.
    destruct (eb_requested_item_limit x) as [z|] eqn:E; cbn [opt_json config_bool py_str];
      rewrite ?Hl; mstep; do 3 (rewrite enum_parse_str; mstep);
      rewrite Hr, Hf, Ha, <- E; destruct x; exact H.
  - intros d x H. unfold binding_from_dict in H. inv_ok.
    pose proof H as H'. unfold ProviderDataEgressBinding_post_init in H'. inv_ok. subst.
    split; [exact H|]. cbn. split; [apply sort_by_idem, key_le_total|].
    split; apply str_set_idem.
Qed.

(** ** The request *)

(** [action.parameters.get("fields")] as a tuple of names. *)
Definition requested_fields_of (raw_fields : json) : result (list string) :=
  match raw_fields with
  | JStr s => Ok [s]
  | JDict d => Ok (sort_by str_le (map fst d))
  | JList l =>
      or_raise (str_set <$> json_strings raw_fields)
        (ConfigurationError
           "provider-data requested fields must be a string, string list, or object")
  | JNull => Ok []
  | _ => Err (ConfigurationError
           "provider-data requested fields must be a string, string list, or object")
  end.

Definition pairs_object (l : list (string * string)) : json :=
  JDict (map (λ p : string * string, (p.1, JStr p.2)) l).

(** What the field contract digests. *)
Definition contract_material (definition : CapabilityDefinition) : json :=
  JDict [("name", JStr (cap_name definition));
         ("target_system", JStr (cap_target_system definition));
         ("target_resource_types", str_list (cap_target_resource_types definition));
         ("parameter_schema", pairs_object (cap_parameter_schema definition));
         ("output_schema", JStr (cap_read_result_schema definition));
         ("output_resources",
          pairs_object (sort_by key_le (cap_read_result_resources definition)));
         ("output_metadata_fields", str_list (cap_read_result_metadata definition));
         ("omitted_result_fields", str_list (sort_by str_le READ_RESULT_OMITTED_FIELDS));
         ("crosscut_result_fields", str_list (sort_by str_le READ_RESULT_CROSSCUT_FIELDS));
         ("contract_version", JInt 2)].

(** The requested fields and the contract they are requested under. *)
Definition requested_field_binding (action : AgentAction) (definition : CapabilityDefinition)
    : result (list string * string) :=
  fields ← requested_fields_of (dict_get (aa_parameters action) "fields");
  for_each (λ f, egress_validate_text f "provider-data requested field") fields;;
  let reserved_fields := sort_by str_le (List.filter is_reserved_read_result_field_name fields) in
  raise_if (negb (bool_decide (reserved_fields = [])))
    (ConfigurationError ("provider-data requested fields use reserved result names: "
       +:+ str_join ", " reserved_fields));;
  raise_if ((cap_read_result_schema definition =? "")%string
            || bool_decide (cap_read_result_resources definition = []))
    (ConfigurationError ("provider read capability " +:+ cap_name definition
       +:+ " requires a versioned read result contract"));;
  let contract := if bool_decide (fields = []) then cap_read_result_schema definition
                  else "explicit-fields@2" in
  digest ← egress_digest (contract_material definition);
  Ok (fields, contract +:+ ";sha256=" +:+ digest).

(** What [_provider_data_shape_preflight] returns. *)
Record egress_shape : Type := mk_egress_shape {
  es_rule : ModelContextRule;
  es_requested_fields : list string;
  es_field_contract : string;
  es_item_limit : Z;
}.

Definition same_folded (s t : string) : bool := bool_decide (casefold_codes s = casefold_codes t).

Definition disallowed_fields (rule : ModelContextRule) (requested : list string) : list string :=
  sort_by str_le (List.filter (λ f,
    negb (bool_decide ("*" ∈ mr_allowed_fields rule))
    && negb (existsb (same_folded f) (mr_allowed_fields rule))) requested).

Definition shape_preflight (policy : ProviderDataEgressPolicy) (action : AgentAction)
    (definition : CapabilityDefinition) (route : ProviderDataRoute) (audit_available : bool)
    : result egress_shape :=
  let decision := evaluate_egress policy (rr_system (aa_target action)) (aa_capability action)
    (aa_data_classification action) route audit_available in
  rule ← or_raise (if dd_permitted decision then dd_rule decision else None)
    (ConfigurationError (dd_reason decision));
  fields ← requested_field_binding action definition;
  let '(requested_fields, field_contract) := fields in
  (if negb (bool_decide (requested_fields = [])) then
     let disallowed := disallowed_fields rule requested_fields in
     raise_if (negb (bool_decide (disallowed = [])))
       (ConfigurationError ("model-context rule " +:+ mr_name rule
          +:+ " does not allow requested fields: " +:+ str_join ", " disallowed))
   else
     raise_if (negb (bool_decide ("*" ∈ mr_allowed_fields rule)))
       (ConfigurationError ("model-context rule " +:+ mr_name rule
          +:+ " requires an explicit field projection")));;
  requested_limit ← match dict_get (aa_parameters action) "limit" with
    | JNull => Ok None
    | JInt z =>
        raise_if (z <=? 0)
          (ConfigurationError "provider-data item limit must be a positive integer");;
        Ok (Some z)
    | _ => Err (ConfigurationError "provider-data item limit must be a positive integer")
    end;
  raise_if (match requested_limit with Some z => mr_max_items rule <? z | None => false end)
    (ConfigurationError ("model-context rule " +:+ mr_name rule
       +:+ " limits provider results to " +:+ pretty (mr_max_items rule) +:+ " items"));;
  raise_if (existsb (λ p : string * string, (p.2 =? "object_list")%string)
              (cap_read_result_resources definition)
            && negb (is_someb requested_limit))
    (ConfigurationError "provider-data collection reads require an explicit item limit");;
  Ok (mk_egress_shape rule requested_fields field_contract
        (default (mr_max_items rule) requested_limit)).

Definition preflight_provider_data_egress (policy : ProviderDataEgressPolicy)
    (action : AgentAction) (definition : CapabilityDefinition) (route : ProviderDataRoute)
    (audit_available : bool) : result unit :=
  shape_preflight policy action definition route audit_available;; Ok tt.

(** ** The connector *)

Definition MICROSOFT_PROVIDERS : list string :=
  ["microsoft"; "sharepoint"; "outlook"; "teams"; "onenote"].

(** The digests of the connector's configuration, origin and account. *)
Definition connector_digests (provider : string) (binding : option ConnectorExecutionBinding)
    (connector_mode : string) : result (string * string * string) :=
  match binding with
  | None =>
      raise_if (negb (bool_decide (connector_mode ∈ ["mock"; "local"])))
        (ConfigurationError
           ("provider-data egress requires a connector binding for " +:+ provider));;
      config ← egress_digest (JDict [("provider", JStr provider); ("mode", JStr connector_mode)]);
      origin ← egress_digest (JDict [("provider", JStr provider); ("origin", JStr connector_mode)]);
      account ← egress_digest
        (JDict [("provider", JStr provider); ("account", JStr connector_mode)]);
      Ok (config, origin, account)
  | Some binding =>
      let expected_system :=
        if bool_decide (provider ∈ MICROSOFT_PROVIDERS) then "microsoft" else provider in
      raise_if (negb (ceb_system binding =? expected_system)%string)
        (ConfigurationError
           "provider-data egress connector binding does not match the provider");;
      account ← (if (ceb_authentication_mode binding =? "none")%string then Ok "anonymous"
                 else or_raise (ceb_credential_identity binding)
                   (ConfigurationError
                      "provider-data egress requires a bound provider account identity"));
      origin_digest ← egress_digest (JStr (ceb_resolved_origin binding));
      account_digest ← egress_digest (JStr account);
      Ok (ceb_config_identity_sha256 binding, origin_digest, account_digest)
  end.

(** ** [bind_provider_data_egress] *)

Definition bind_egress (policy : ProviderDataEgressPolicy) (action : AgentAction)
    (definition : CapabilityDefinition) (connector_binding : option ConnectorExecutionBinding)
    (route : ProviderDataRoute) (audit_available : bool) (connector_mode : string)
    : result ProviderDataEgressBinding :=
  shape ← shape_preflight policy action definition route audit_available;
  let rule := es_rule shape in
  let provider := rr_system (aa_target action) in
  digests ← connector_digests provider connector_binding connector_mode;
  let '(config_digest, origin_digest, account_digest) := digests in
  parameters_digest ← egress_digest (JDict (aa_parameters action));
  ProviderDataEgressBinding_post_init {|
    eb_schema := "master-agent/provider-data-egress@1";
    eb_provider := provider;
    eb_capability := aa_capability action;
    eb_action_fingerprint := AgentAction_effect_fingerprint action;
    eb_policy_fingerprint := policy_fingerprint policy;
    eb_rule_name := mr_name rule;
    eb_data_classification := aa_data_classification action;
    eb_destination := ep_destination policy;
    eb_model_tenancy := ep_model_tenancy policy;
    eb_source_data_environment := ep_source_data_environment policy;
    eb_route := route;
    eb_handling := mr_handling rule;
    eb_audit_required := mr_audit_required rule;
    eb_dlp_adapter := ep_dlp_adapter policy;
    eb_connector_configuration_sha256 := config_digest;
    eb_provider_origin_sha256 := origin_digest;
    eb_provider_account_sha256 := account_digest;
    eb_requested_fields := es_requested_fields shape;
    eb_field_contract := es_field_contract shape;
    eb_output_schema := cap_read_result_schema definition;
    eb_output_resources := sort_by key_le (cap_read_result_resources definition);
    eb_output_metadata_fields := cap_read_result_metadata definition;
    eb_request_parameter_names := sort_by str_le (map fst (aa_parameters action));
    eb_request_parameters_sha256 := parameters_digest;
    eb_requested_item_limit := Some (es_item_limit shape);
    eb_max_output_bytes := mr_max_output_bytes rule;
    eb_redacted_fields := mr_redacted_fields rule;
    eb_policy_allowed_fields := mr_allowed_fields rule |}.
