(* ===== verification/EgressSanitize.v ===== *)
(** * EgressSanitize: what leaves a provider read

    The sanitizing of a verified result in
    [src/src/master_agent/provider_egress.py]: redaction of secrets and
    configured fields, minimization of findings and references, the output
    contract with its projection, and the limits.  A step that only walks the
    value is a function; one that can raise is in [result].  A walk over an
    object whose keys are distinct keeps them, so an object built key by key is
    the list of its entries. *)

From S2P Require Import Prelude PyText PyJson PyTime PyStd ResourceLimits PyJsonLoads ModelsBase PlatformIdentity.
From S2P Require Import ModelsAction ModelsBindings ModelsContext ModelsResults Capabilities Evidence Security.
From S2P Require Import EgressPolicy EgressBinding.
From Stdlib Require Import Ascii.

Open Scope Z_scope.

(** [_field_identity]. *)
Definition field_identity (value : string) : string :=
  drop_underscores (normalize_read_result_field_name value).

(** ** Redaction *)

Definition SENSITIVE_PROVIDER_KEYS : list string :=
  ["authorization"; "authorization_header"; "access_token"; "refresh_token"; "id_token";
   "api_token"; "api_key"; "token"; "secret"; "client_secret"; "password"; "credential";
   "credentials"; "cookie"; "set_cookie"; "private_key"].

Definition SENSITIVE_PROVIDER_SUFFIXES : list string :=
  ["token"; "secret"; "password"; "credential"; "cookie"; "apikey"; "privatekey"].

Definition is_sensitive_variant (key : string) : bool :=
  let identity := field_identity key in
  bool_decide (identity ∈ map drop_underscores SENSITIVE_PROVIDER_KEYS)
  || startswith "authorization" identity
  || existsb (λ suffix, str_endswith suffix identity) SENSITIVE_PROVIDER_SUFFIXES.

(** Replace what is under the keys of [p], at any depth: the shape of
    [_redact_provider_secret_variants] and [_redact_configured_fields]. *)
Fixpoint redact_keys (p : string → bool) (value : json) : json :=
  match value with
  | JDict kvs =>
      JDict (map (λ kv, let '(key, item) := kv in
        (key, if p key then JStr "<redacted>" else redact_keys p item)) kvs)
  | JList l => JList (map (redact_keys p) l)
  | v => v
  end.

Definition redact_provider_secret_variants : json → json := redact_keys is_sensitive_variant.

Definition redact_configured_fields (fields : list string) : json → json :=
  redact_keys (λ key, bool_decide (field_identity key ∈ fields)).

(** ** Findings *)

Definition SENSITIVE_FINDING_KEYS : list string := ["excerpt"; "path"].

(** [next((item for key, item in finding.items() if ...), None)]. *)
Definition first_text (identity : string) (finding : dict) : option string :=
  match List.find (λ kv : string * json,
          (field_identity kv.1 =? identity)%string && is_str kv.2) finding with
  | Some (_, JStr s) => Some s
  | _ => None
  end.

Definition text_digest (s : string) : string := digest_json (JStr s).

Definition finding_metadata (finding : dict) : dict :=
  let metadata := List.filter (λ kv : string * json,
    negb (bool_decide (field_identity kv.1 ∈ SENSITIVE_FINDING_KEYS))) finding in
  let metadata := match first_text "path" finding with
                  | Some path => dict_set metadata "path_sha256" (JStr (text_digest path))
                  | None => metadata
                  end in
  match first_text "excerpt" finding with
  | Some excerpt =>
      dict_set (dict_set metadata "excerpt_sha256" (JStr (text_digest excerpt)))
        "excerpt_length" (JInt (len excerpt))
  | None => metadata
  end.

Definition minimized_findings (items : list json) : json :=
  JList (omap (λ v, match v with JDict d => Some (JDict (finding_metadata d)) | _ => None end)
           items).

Fixpoint minimize_prompt_injection_findings (value : json) : json :=
  match value with
  | JDict kvs =>
      JDict (map (λ kv, let '(key, item) := kv in
        (key, if (field_identity key =? "promptinjectionfindings")%string && is_list item
              then match item with JList items => minimized_findings items | v => v end
              else minimize_prompt_injection_findings item)) kvs)
  | JList l => JList (map minimize_prompt_injection_findings l)
  | v => v
  end.

(** ** References *)

(** A reference that is no HTTP URL is returned as its digest. *)
Definition opaque_reference (value : string) : string :=
  "reference:sha256:" +:+ text_digest value.

Definition url_reference (parsed : SplitResult) (port : option Z) (minimize_path : bool)
    : string :=
  let hostname := rstrip_by (λ c, (c =? ".")%char) (str_lower (url_hostname parsed)) in
  let rendered_host := if str_in ":" hostname then "[" +:+ hostname +:+ "]" else hostname in
  let rendered_host := match port with
                       | Some port => rendered_host +:+ ":" +:+ pretty port
                       | None => rendered_host
                       end in
  let path := if minimize_path then "/_redacted/" +:+ text_digest (url_path parsed)
              else url_path parsed in
  urlunsplit (url_scheme parsed) rendered_host path.

Definition safe_reference (minimize_path : bool) (value : string) : result string :=
  validate_bounded_string value "provider-data egress reference";;
  match (parsed ← urlsplit value; port ← url_port parsed; Ok (parsed, port)) with
  | Ok (parsed, port) =>
      if negb (bool_decide (url_scheme parsed ∈ ["http"; "https"]))
         || (url_hostname parsed =? "")%string
      then Ok (opaque_reference value)
      else Ok (url_reference parsed port minimize_path)
  | Err _ => Ok (opaque_reference value)
  end.

Definition REFERENCE_IDENTITIES : list string :=
  ["connectorreference"; "href"; "link"; "reference"; "sourceurl"; "sourceurls"; "url"].

Definition is_reference_key (key_name : string) : bool :=
  let normalized_key := normalize_read_result_field_name key_name in
  let key_identity := drop_underscores normalized_key in
  bool_decide (key_identity ∈ REFERENCE_IDENTITIES)
  || str_endswith "_url" normalized_key
  || ((4 <? len key_identity) && str_endswith "url" key_identity).

Fixpoint minimize_references (minimize_path : bool) (key_name : string) (value : json)
    : result json :=
  match value with
  | JDict kvs =>
      items ← (fix go (kvs : dict) : result dict :=
                 match kvs with
                 | [] => Ok []
                 | (key, item) :: kvs =>
                     item ← minimize_references minimize_path key item;
                     items ← go kvs;
                     Ok ((key, item) :: items)
                 end) kvs;
      Ok (JDict items)
  | JList l =>
      items ← (fix go (l : list json) : result (list json) :=
                 match l with
                 | [] => Ok []
                 | item :: l =>
                     item ← minimize_references minimize_path key_name item;
                     items ← go l;
                     Ok (item :: items)
                 end) l;
      Ok (JList items)
  | JStr s => if is_reference_key key_name then JStr <$> safe_reference minimize_path s else Ok value
  | v => Ok v
  end.

(** ** The output contract *)

(** A finite JSON scalar. *)
Definition is_json_scalar (value : json) : bool :=
  match value with
  | JNull | JStr _ | JBool _ | JInt _ => true
  | JFloat r => float_finite r
  | JList _ | JDict _ => false
  end.

Definition copy_source_urls (value : json) (limit : option Z) : result json :=
  match value with
  | JList l =>
      raise_if (negb (forallb (λ v, is_none v || is_str v) l))
        (ValidationError "provider-data egress source_urls metadata must be strings");;
      let source_urls := List.filter is_str l in
      raise_if (match limit with
                | Some z => z + 1 <? Z.of_nat (length source_urls)
                | None => false
                end)
        (ValidationError "provider-data egress source_urls exceed the requested item limit");;
      Ok (JList source_urls)
  | _ => Err (ValidationError "provider-data egress source_urls metadata must be strings")
  end.

Definition has_other_keys (d : dict) (allowed : list string) : bool :=
  existsb (λ kv : string * json, negb (bool_decide (kv.1 ∈ allowed))) d.

Definition is_bool_value (v : json) : bool := match v with JBool _ => true | _ => false end.

Definition check_retention_item (kv : string * json) : result unit :=
  if (kv.1 =? "persistence_requires_explicit_output")%string
  then raise_if (negb (is_bool_value kv.2))
         (ValidationError
            "provider-data egress retention persistence flag must be boolean")
  else raise_if (negb (is_str kv.2))
         (ValidationError "provider-data egress retention metadata must be strings").

Definition copy_retention (value : json) : result json :=
  match value with
  | JDict d =>
      raise_if (has_other_keys d
                  ["content_kind"; "evidence_type"; "persistence_requires_explicit_output"])
        (ValidationError "provider-data egress retention metadata has an invalid shape");;
      for_each check_retention_item d;;
      Ok (JDict d)
  | _ => Err (ValidationError "provider-data egress retention metadata must be an object")
  end.

Definition copy_repository (value : json) : result json :=
  match value with
  | JDict d =>
      raise_if (has_other_keys d ["name"; "owner"; "slug"]
                || negb (forallb (λ kv : string * json, is_str kv.2) d))
        (ValidationError "provider-data egress repository context has an invalid shape");;
      Ok (JDict d)
  | _ => Err (ValidationError "provider-data egress repository context must be an object")
  end.

Definition copy_output_metadata (key : string) (value : json) (limit : option Z)
    : result json :=
  if (key =? "source_urls")%string then copy_source_urls value limit
  else if (key =? "retention")%string then copy_retention value
  else if (key =? "repository")%string then copy_repository value
  else
    raise_if (negb (is_json_scalar value))
      (ValidationError "provider-data egress envelope metadata must be a JSON scalar");;
    Ok value.

Definition CITATION_KEYS : list string :=
  ["citation_id"; "marker"; "parent_resource_id"; "resource_id"; "resource_type";
   "retrieved_at"; "system"; "title"; "url"; "version"].

Definition check_citation (citation : dict) : result unit :=
  raise_if (has_other_keys citation CITATION_KEYS
            || negb (forallb (λ kv : string * json, is_json_scalar kv.2) citation))
    (ValidationError "provider-data egress citation has fields outside its fixed schema").

Definition sanitize_citations (value : json) (limit : option Z) : result (list dict) :=
  match value with
  | JNull => Ok []
  | _ =>
      citations ← or_raise (json_mappings value)
        (ValidationError "provider-data egress citations have an invalid shape");
      raise_if (match limit with
                | Some z => z <? Z.of_nat (length citations)
                | None => false
                end)
        (ValidationError "provider-data egress citations exceed the requested item limit");;
      for_each check_citation citations;;
      Ok citations
  end.

(** [_omit_reserved_resource_fields]. *)
Fixpoint omit_reserved_resource_fields (value : json) : json :=
  match value with
  | JDict kvs =>
      JDict ((fix go (kvs : dict) : dict :=
                match kvs with
                | [] => []
                | (key, item) :: kvs =>
                    if is_reserved_read_result_field_name key then go kvs
                    else (key, omit_reserved_resource_fields item) :: go kvs
                end) kvs)
  | JList l => JList (map omit_reserved_resource_fields l)
  | v => v
  end.

Definition FIELD_ALIASES : list (string * list string) :=
  [("issuetype", ["issue_type"]); ("project", ["project_key"]);
   ("resolutiondate", ["resolved_at"]); ("updated", ["updated_at"]);
   ("status", ["status"; "status_category"; "blocked"])].

Definition normalized_requested_fields (fields : list string) : list string :=
  fields ≫= λ f,
    normalize_read_result_field_name f :: default [] (assoc (casefold f) FIELD_ALIASES).

(** The entries of a resource that were asked for. *)
Definition project_resource_object (value : dict) (allowed : list string) : json :=
  omit_reserved_resource_fields (JDict (List.filter (λ kv : string * json,
    bool_decide (normalize_read_result_field_name kv.1 ∈ allowed)) value)).

Section contract.
Context (binding : ProviderDataEgressBinding).

Definition known_fields : list string :=
  ["schema"] ++ resource_names binding ++ eb_output_metadata_fields binding
  ++ READ_RESULT_CROSSCUT_FIELDS ++ READ_RESULT_OMITTED_FIELDS.

Definition render_resource (item : dict) : json :=
  if bool_decide (eb_requested_fields binding = [])
  then omit_reserved_resource_fields (JDict item)
  else project_resource_object item (normalized_requested_fields (eb_requested_fields binding)).

(** The rendering of one resource; [None] when it is left out. *)
Definition project_resource (value : dict) (key descriptor : string) : result (option json) :=
  item ← or_raise (dict_lookup value key)
    (ValidationError "provider-data egress result is missing a bound resource field");
  if (descriptor =? "object")%string then
    match item with
    | JDict d => Ok (Some (render_resource d))
    | _ => Err (ValidationError "provider-data egress object resource has an invalid shape")
    end
  else if (descriptor =? "object_list")%string then
    entries ← or_raise (json_mappings item)
      (ValidationError "provider-data egress collection resource has an invalid shape");
    Ok (Some (JList (map render_resource entries)))
  else if (descriptor =? "value")%string then
    raise_if (negb (is_json_scalar item))
      (ValidationError "provider-data egress value resource must be a JSON scalar");;
    Ok (if bool_decide (eb_requested_fields binding = [])
           || bool_decide (normalize_read_result_field_name key
                ∈ normalized_requested_fields (eb_requested_fields binding))
        then Some item else None)
  else Err (ValidationError "provider-data egress output resource type is unsupported").

Fixpoint copy_metadata_fields (value projected : dict) (keys : list string) : result dict :=
  match keys with
  | [] => Ok projected
  | key :: keys =>
      match dict_lookup value key with
      | None => copy_metadata_fields value projected keys
      | Some v =>
          copied ← copy_output_metadata key v (eb_requested_item_limit binding);
          copy_metadata_fields value (dict_set projected key copied) keys
      end
  end.

Fixpoint project_resources (value projected : dict) (resources : list (string * string))
    : result dict :=
  match resources with
  | [] => Ok projected
  | (key, descriptor) :: resources =>
      rendered ← project_resource value key descriptor;
      project_resources value
        (match rendered with Some v => dict_set projected key v | None => projected end) resources
  end.

(** The citations of a read that asked for no particular fields. *)
Definition add_citations (value projected : dict) : result dict :=
  if negb (bool_decide (eb_requested_fields binding = [])) then Ok projected
  else
    citations ← sanitize_citations (dict_get value "citations") (eb_requested_item_limit binding);
    Ok (match citations with
        | [] => projected
        | _ => dict_set (dict_set projected "citations" (JList (map JDict citations)))
                 "citation_ids" (JList (omap (λ c, dict_lookup c "citation_id") citations))
        end).

Definition finding_summary (finding : LocatedSecurityFinding) : json :=
  JDict [("category", JStr (lf_category finding)); ("severity", JStr (lf_severity finding));
         ("path_sha256", JStr (text_digest (lf_path finding)));
         ("excerpt_sha256", JStr (text_digest (lf_excerpt finding)));
         ("excerpt_length", JInt (len (lf_excerpt finding)))].

Definition apply_output_contract (value : dict) : result dict :=
  raise_if (negb (json_is_str (dict_get value "schema") (eb_output_schema binding)))
    (ValidationError "provider-data egress result does not match its bound output schema");;
  raise_if (has_other_keys value known_fields)
    (ValidationError
       "provider-data egress result has fields outside its bound output contract");;
  projected ← copy_metadata_fields value [("schema", JStr (eb_output_schema binding))]
    (eb_output_metadata_fields binding);
  projected ← add_citations value projected;
  projected ← project_resources value projected (eb_output_resources binding);
  measure_json_resources (JDict projected) "provider-data egress projected result"
    (eb_max_output_bytes binding);;
  let evidence_digest := content_digest (JDict projected) in
  let findings := scan_untrusted_value (JDict projected) MAX_CHARACTERS in
  let projected := dict_set projected "evidence"
    (JDict [("content_sha256", JStr evidence_digest)]) in
  Ok (dict_set projected "security"
        (JDict [("content_is_untrusted", JBool true);
                ("prompt_injection_findings", JList (map finding_summary findings))])).

(** ** Limits *)

Definition exceeds_limit (value : dict) (limit : Z) : bool :=
  existsb (λ count_key, match dict_get value count_key with
                        | JInt count => limit <? count
                        | _ => false
                        end) ["count"; "returned"]
  || existsb (λ p : string * string,
       (p.2 =? "object_list")%string
       && match dict_get value p.1 with
          | JList l => limit <? Z.of_nat (length l)
          | _ => false
          end) (eb_output_resources binding).

Definition enforce_item_limit (value : dict) : result unit :=
  match eb_requested_item_limit binding with
  | None => Ok tt
  | Some limit =>
      raise_if (exceeds_limit value limit)
        (ValidationError "provider-data egress result exceeds the requested item limit")
  end.

(** What is done to the value before the contract is applied. *)
Definition redact_value (value : dict) : json :=
  minimize_prompt_injection_findings
    (redact_configured_fields (map field_identity (eb_redacted_fields binding))
       (redact_provider_secret_variants (redact_secrets (JDict value)))).

Definition minimize_path_of : bool := bool_decide (eb_handling binding = HANDLING_REDACT).

Definition as_mapping (v : json) : result dict :=
  match v with
  | JDict d => Ok d
  | _ => Err (ValidationError "provider-data egress result must be an object")
  end.

Definition sanitize_provider_mapping (value : dict) : result dict :=
  minimized ← minimize_references minimize_path_of "" (redact_value value);
  redacted ← as_mapping minimized;
  normalized ← apply_output_contract redacted;
  enforce_item_limit normalized;;
  measure_json_resources (JDict normalized) "provider-data egress result"
    (eb_max_output_bytes binding);;
  rendered ← dumps (JDict normalized);
  raise_if (eb_max_output_bytes binding <? utf8_length rendered)
    (ValidationError "provider-data egress result exceeds the serialized byte limit");;
  Ok normalized.

(** ** Results *)

Definition sanitize_result (result_ : ExecutionResult) : result ExecutionResult :=
  raise_if (is_someb (er_compensation result_))
    (ValidationError "provider read result must not contain compensation");;
  raw ← or_raise (er_after result_)
    (ValidationError "provider read result is missing its bound output");
  after ← sanitize_provider_mapping raw;
  reference ← match er_connector_reference result_ with
              | None => Ok None
              | Some r => Some <$> safe_reference minimize_path_of r
              end;
  ExecutionResult_post_init (er_action_id result_) (er_state result_) None (Some after) reference
    "provider read completed and crossed the approved egress boundary" None.

Definition verification_metadata (observed : option dict) : result (option dict) :=
  match observed with
  | None => Ok None
  | Some observed =>
      sanitized ← sanitize_provider_mapping observed;
      Ok (Some [("content_sha256", JStr (content_digest (JDict sanitized)));
                ("key_count", JInt (Z.of_nat (length sanitized)))])
  end.

Definition minimize_probe_result (result_ : dict) : result dict :=
  minimized ← minimize_references minimize_path_of "" (redact_value result_);
  redacted ← as_mapping minimized;
  measure_json_resources (JDict redacted) "provider probe result" (eb_max_output_bytes binding);;
  sanitized ← sanitize_provider_mapping
    [("schema", JStr "master-agent/provider-probe@1");
     ("reachable", JBool (truthy (dict_get_or redacted "reachable" (JBool true))));
     ("result_sha256", JStr (content_digest (JDict redacted)))];
  schema ← item_str sanitized "schema";
  reachable ← dict_item sanitized "reachable";
  digest ← item_str sanitized "result_sha256";
  Ok [("schema", JStr schema); ("reachable", JBool (truthy reachable));
      ("result_sha256", JStr digest)].

Definition result_egress_summary (result_ : ExecutionResult) : dict :=
  let after := default [] (er_after result_) in
  [("action_id", JStr (uuid_str (er_action_id result_)));
   ("state", JStr (enum_str (er_state result_)));
   ("content_sha256", JStr (content_digest (JDict after)));
   ("key_count", JInt (Z.of_nat (length after)));
   ("egress_fingerprint", JStr (binding_fingerprint binding))].
End contract.
