(* ===== verification/Recurring.v ===== *)
(** * Recurring: the recurring-workflow scheduler, [src/src/master_agent/recurring.py]

    The schedule of a workflow, the scheduler's SQLite state (the tables
    [recurring_runs] and [recurring_occurrences], as lists of rows with text
    columns) with every operation of [RecurringStateStore], and the runner.  The
    zones of the IANA database and the system's zone are parameters; so are the
    clock, the random claim tokens and the lease duration (in microseconds).  An
    absent state file reads as empty tables. *)

From S2P Require Import Prelude PyText PyJson PyHash PyTime PyStd PyDate PySql PyJsonLoads ResourceLimits ModelsBase.
From Stdlib Require Import Ascii.

Open Scope Z_scope.

(** ** Enumerations *)

Inductive WorkflowKind : Type :=
  | WEEKLY_STATUS_PACKAGE | COMMUNICATION_CONTEXT_PACKAGE | WEEKLY_OPERATING_REVIEW.
#[export] Instance WorkflowKind_eq_dec : EqDecision WorkflowKind.
Proof. solve_decision. Defined.
Definition WorkflowKind_str (k : WorkflowKind) : string :=
  match k with
  | WEEKLY_STATUS_PACKAGE => "weekly_status_package"
  | COMMUNICATION_CONTEXT_PACKAGE => "communication_context_package"
  | WEEKLY_OPERATING_REVIEW => "weekly_operating_review"
  end.
#[export] Instance WorkflowKind_enum : StrEnum WorkflowKind := {
  enum_name := "WorkflowKind";
  enum_members := [WEEKLY_STATUS_PACKAGE; COMMUNICATION_CONTEXT_PACKAGE; WEEKLY_OPERATING_REVIEW];
  enum_str := WorkflowKind_str }.
#[export] Instance WorkflowKind_laws : StrEnumLaws WorkflowKind.
Proof. by intros []. Qed.

Inductive DeliveryMode : Type := LOCAL_ONLY | DRAFT_ONLY.
#[export] Instance DeliveryMode_eq_dec : EqDecision DeliveryMode.
Proof. solve_decision. Defined.
Definition DeliveryMode_str (m : DeliveryMode) : string :=
  match m with LOCAL_ONLY => "local_only" | DRAFT_ONLY => "draft_only" end.
#[export] Instance DeliveryMode_enum : StrEnum DeliveryMode := {
  enum_name := "DeliveryMode"; enum_members := [LOCAL_ONLY; DRAFT_ONLY];
  enum_str := DeliveryMode_str }.
#[export] Instance DeliveryMode_laws : StrEnumLaws DeliveryMode.
Proof. by intros []. Qed.

Inductive DstFoldPolicy : Type := FOLD_REJECT | FOLD_FIRST | FOLD_SECOND.
#[export] Instance DstFoldPolicy_eq_dec : EqDecision DstFoldPolicy.
Proof. solve_decision. Defined.
Definition DstFoldPolicy_str (p : DstFoldPolicy) : string :=
  match p with FOLD_REJECT => "reject" | FOLD_FIRST => "first" | FOLD_SECOND => "second" end.
#[export] Instance DstFoldPolicy_enum : StrEnum DstFoldPolicy := {
  enum_name := "DstFoldPolicy"; enum_members := [FOLD_REJECT; FOLD_FIRST; FOLD_SECOND];
  enum_str := DstFoldPolicy_str }.
#[export] Instance DstFoldPolicy_laws : StrEnumLaws DstFoldPolicy.
Proof. by intros []. Qed.

Inductive CatchUpPolicy : Type := LATEST_ONLY.
#[export] Instance CatchUpPolicy_eq_dec : EqDecision CatchUpPolicy.
Proof. solve_decision. Defined.
Definition CatchUpPolicy_str (p : CatchUpPolicy) : string := "latest_only".
#[export] Instance CatchUpPolicy_enum : StrEnum CatchUpPolicy := {
  enum_name := "CatchUpPolicy"; enum_members := [LATEST_ONLY]; enum_str := CatchUpPolicy_str }.
#[export] Instance CatchUpPolicy_laws : StrEnumLaws CatchUpPolicy.
Proof. by intros []. Qed.

Inductive ClaimStatus : Type :=
  | RUN_RUNNING | RUN_SUCCEEDED | RUN_FAILED | RUN_EXPIRED | RUN_RECOVERABLE.
#[export] Instance ClaimStatus_eq_dec : EqDecision ClaimStatus.
Proof. solve_decision. Defined.
Definition ClaimStatus_str (s : ClaimStatus) : string :=
  match s with
  | RUN_RUNNING => "running" | RUN_SUCCEEDED => "succeeded" | RUN_FAILED => "failed"
  | RUN_EXPIRED => "expired" | RUN_RECOVERABLE => "recoverable"
  end.
#[export] Instance ClaimStatus_enum : StrEnum ClaimStatus := {
  enum_name := "ClaimStatus";
  enum_members := [RUN_RUNNING; RUN_SUCCEEDED; RUN_FAILED; RUN_EXPIRED; RUN_RECOVERABLE];
  enum_str := ClaimStatus_str }.
#[export] Instance ClaimStatus_laws : StrEnumLaws ClaimStatus.
Proof. by intros []. Qed.

Inductive OccurrenceStatus : Type :=
  | OCC_BOUND | OCC_RUNNING | OCC_APPROVAL_BLOCKED | OCC_SUCCEEDED | OCC_FAILED_PRE_EFFECT
  | OCC_RECOVERABLE | OCC_EXPIRED | OCC_CANCELLED | OCC_INDETERMINATE | OCC_REVOKED.
#[export] Instance OccurrenceStatus_eq_dec : EqDecision OccurrenceStatus.
Proof. solve_decision. Defined.
Definition OccurrenceStatus_str (s : OccurrenceStatus) : string :=
  match s with
  | OCC_BOUND => "bound" | OCC_RUNNING => "running"
  | OCC_APPROVAL_BLOCKED => "approval_blocked" | OCC_SUCCEEDED => "succeeded"
  | OCC_FAILED_PRE_EFFECT => "failed_pre_effect" | OCC_RECOVERABLE => "recoverable"
  | OCC_EXPIRED => "expired" | OCC_CANCELLED => "cancelled"
  | OCC_INDETERMINATE => "indeterminate" | OCC_REVOKED => "revoked"
  end.
#[export] Instance OccurrenceStatus_enum : StrEnum OccurrenceStatus := {
  enum_name := "OccurrenceStatus";
  enum_members := [OCC_BOUND; OCC_RUNNING; OCC_APPROVAL_BLOCKED; OCC_SUCCEEDED;
                   OCC_FAILED_PRE_EFFECT; OCC_RECOVERABLE; OCC_EXPIRED; OCC_CANCELLED;
                   OCC_INDETERMINATE; OCC_REVOKED];
  enum_str := OccurrenceStatus_str }.
#[export] Instance OccurrenceStatus_laws : StrEnumLaws OccurrenceStatus.
Proof. by intros []. Qed.

(** ** Schedules *)

(** [zoneinfo.ZoneInfo]: the zones of the database; the offset of a wall time
    of a fold, in seconds; and the wall time of an instant, with its fold. *)
Class ZoneDatabase := {
  zone : Type;
  zone_load : string → result zone;
  zone_utcoffset : zone → datetime → bool → Z;
  zone_local : zone → Z → datetime * bool;
}.

Record WeeklySchedule : Type := mk_WeeklySchedule {
  ws_weekday : Z;
  ws_hour : Z;
  ws_minute : Z;
  ws_timezone : string;
  ws_max_lateness_minutes : Z;
  ws_fold_policy : DstFoldPolicy;
}.

Definition overflow : exn :=
  PySubclassError OverflowErrorBase "OverflowError" "date value out of range".

(** [timedelta(days=1)], [timedelta(minutes=1)]. *)
Definition minute_us : Z := 60000000.

(** [timedelta(minutes=n)]. *)
Definition timedelta_minutes (n : Z) : result Z :=
  raise_if ((n * minute_us / day_us >? 999999999) || (n * minute_us / day_us <? -999999999)) overflow;;
  Ok (n * minute_us).

(** [date.weekday()]: Monday is 0. *)
Definition weekday (d : datetime) : Z :=
  (ymd_ordinal (dt_year d) (dt_month d) (dt_day d) + 6) mod 7.

Section schedule.
Context `{ZoneDatabase} `{SystemZone}.

Definition WeeklySchedule_post_init (s : WeeklySchedule) : result WeeklySchedule :=
  raise_if (negb ((0 <=? ws_weekday s) && (ws_weekday s <=? 6)))
    (ConfigurationError "weekday must be 0 (Monday) through 6 (Sunday)");;
  raise_if (negb ((0 <=? ws_hour s) && (ws_hour s <=? 23)))
    (ConfigurationError "hour must be 0 through 23");;
  raise_if (negb ((0 <=? ws_minute s) && (ws_minute s <=? 59)))
    (ConfigurationError "minute must be 0 through 59");;
  raise_if (ws_max_lateness_minutes s <? 0)
    (ConfigurationError "max_lateness_minutes must not be negative");;
  reraise (zone_load (ws_timezone s))
    (λ e, match e with
          | PySubclassError KeyErrorBase "ZoneInfoNotFoundError" _ =>
              Some (ConfigurationError ("unknown IANA timezone: " +:+ ws_timezone s))
          | _ => None
          end);;
  Ok s.

(** The instant of a wall time of a fold, if converting it back gives it. *)
Definition fold_candidate (z : zone) (local : datetime) (fold : bool) : result (option datetime) :=
  let n := instant local - zone_utcoffset z local fold * 1000000 in
  raise_if (negb ((0 <=? n) && (n <=? last_instant))) overflow;;
  let '(back, back_fold) := zone_local z n in
  Ok (if bool_decide (back = local) && Bool.eqb back_fold fold then Some (of_instant n) else None).

Definition resolve_local (s : WeeklySchedule) (local : datetime) (z : zone) : result datetime :=
  first ← fold_candidate z local false;
  second ← fold_candidate z local true;
  match first, second with
  | None, None => Err (ConfigurationError "recurring local time does not exist in its zone")
  | Some i, None | None, Some i => Ok i
  | Some i, Some j =>
      if dt_le i j && dt_le j i then Ok i
      else match ws_fold_policy s with
           | FOLD_REJECT =>
               Err (ConfigurationError "recurring local time is ambiguous and requires a fold policy")
           | FOLD_FIRST => Ok i
           | FOLD_SECOND => Ok j
           end
  end.

Definition scheduled_at_or_before (s : WeeklySchedule) (now : datetime) : result datetime :=
  z ← zone_load (ws_timezone s);
  current ← astimezone_utc now;
  let '(local, _) := zone_local z (instant current) in
  let days_back := (weekday local - ws_weekday s) mod 7 in
  date ← dt_add local (- days_back * day_us);
  let candidate := mk_datetime (dt_year date) (dt_month date) (dt_day date)
    (ws_hour s) (ws_minute s) 0 0 None in
  selected ← resolve_local s candidate z;
  if dt_lt current selected then
    candidate ← dt_add candidate (- 7 * day_us);
    resolve_local s candidate z
  else Ok selected.

Definition resolve_occurrence (s : WeeklySchedule) (local : datetime) : result datetime :=
  raise_if (is_aware local)
    (ConfigurationError "recurring occurrence must be a local wall time");;
  z ← zone_load (ws_timezone s);
  resolve_local s local z.
End schedule.

(** ** The scheduler's tables *)

Record run_row : Type := mk_run_row {
  rr_workflow_name : string;
  rr_scheduled_at : string;
  rr_started_at : string;
  rr_finished_at : string;
  rr_successful : Z;
  rr_summary_json : string;
  rr_status : string;
  rr_lease_expires_at : option string;
  rr_attempt_count : Z;
  rr_recovery_reason : option string;
  rr_claim_token : option string;
}.

Record occurrence_row : Type := mk_occurrence_row {
  oc_workflow_name : string;
  oc_scheduled_at : string;
  oc_artifact_fingerprint : string;
  oc_artifact_sha256 : string;
  oc_registration_digest : string;
  oc_execution_key : string;
  oc_status : string;
  oc_claim_generation : Z;
  oc_claim_token : option string;
  oc_lease_expires_at : option string;
  oc_approval_request_fingerprint : option string;
  oc_resume_deadline : string;
  oc_finished_at : option string;
}.

Record scheduler_state : Type := mk_scheduler_state {
  recurring_runs : list run_row;
  recurring_occurrences : list occurrence_row;
}.

Definition set_runs (rows : list run_row) (db : scheduler_state) : scheduler_state :=
  mk_scheduler_state rows (recurring_occurrences db).
Definition set_occurrences (rows : list occurrence_row) (db : scheduler_state) : scheduler_state :=
  mk_scheduler_state (recurring_runs db) rows.

(** The database a fresh file is initialised to. *)
Definition empty_state : scheduler_state := mk_scheduler_state [] [].

(** The unique keys of the tables. *)
Definition run_key (r : run_row) : string * string := (rr_workflow_name r, rr_scheduled_at r).
Definition occurrence_key (r : occurrence_row) : string * string :=
  (oc_workflow_name r, oc_scheduled_at r).

(** What an [UPDATE] of the occurrences writes: the status, the fence, and the
    columns an operation names. *)
Definition set_fence (status : OccurrenceStatus) (generation : Z) (token lease : option string)
    (request finished : option string) (r : occurrence_row) : occurrence_row :=
  mk_occurrence_row (oc_workflow_name r) (oc_scheduled_at r) (oc_artifact_fingerprint r)
    (oc_artifact_sha256 r) (oc_registration_digest r) (oc_execution_key r)
    (OccurrenceStatus_str status) generation token lease request (oc_resume_deadline r) finished.

Definition update_occurrences (where_ : occurrence_row → bool)
    (set : occurrence_row → occurrence_row) (db : scheduler_state) : Z * scheduler_state :=
  let '(n, rows) := update_where where_ set (recurring_occurrences db) in
  (n, set_occurrences rows db).

Definition update_runs (where_ : run_row → bool) (set : run_row → run_row)
    (db : scheduler_state) : Z * scheduler_state :=
  let '(n, rows) := update_where where_ set (recurring_runs db) in (n, set_runs rows db).

(** [WHERE artifact_fingerprint = ? AND status = ?]. *)
Definition in_status (fp : string) (status : OccurrenceStatus) (r : occurrence_row) : bool :=
  (oc_artifact_fingerprint r =? fp)%string && (oc_status r =? OccurrenceStatus_str status)%string.

Definition occurrence_of (fp : string) (db : scheduler_state) : option occurrence_row :=
  select_where (λ r, (oc_artifact_fingerprint r =? fp)%string) (recurring_occurrences db).

(** A write that ran, after which the caller looks at its row count. *)
Definition unless_one (n : Z) (message : string) : result unit :=
  raise_if (negb (n =? 1)) (ConfigurationError message).

Section store.
Context `{SystemZone}.
(** [self._lease_duration]. *)
Context (lease_duration : Z).

Definition check_lease_duration : result unit :=
  raise_if (lease_duration <=? 0) (PyValueError "lease_duration must be positive").

(** ** Exact-bound occurrences *)

Definition register_occurrence_artifact (workflow_name : string) (scheduled_at : datetime)
    (artifact_fingerprint artifact_sha256 registration_digest execution_key : string)
    (resume_deadline : datetime) (db : scheduler_state) : result unit * scheduler_state :=
  atomically (λ db,
    scheduled ← astimezone_utc scheduled_at;
    deadline ← astimezone_utc resume_deadline;
    let key := (workflow_name, isoformat scheduled) in
    match select_where (λ r, bool_decide (occurrence_key r = key)) (recurring_occurrences db) with
    | Some r =>
        raise_if (negb (bool_decide
            ([oc_artifact_fingerprint r; oc_artifact_sha256 r; oc_registration_digest r;
              oc_execution_key r; oc_resume_deadline r]
             = [artifact_fingerprint; artifact_sha256; registration_digest; execution_key;
                isoformat deadline])))
          (ConfigurationError "a different recurring artifact is already registered for this occurrence");;
        Ok (tt, db)
    | None =>
        raise_if (existsb (λ r, (oc_artifact_fingerprint r =? artifact_fingerprint)%string)
                    (recurring_occurrences db))
          (PyOtherError "UNIQUE constraint failed: recurring_occurrences.artifact_fingerprint");;
        Ok (tt, set_occurrences (recurring_occurrences db ++
          [mk_occurrence_row workflow_name (isoformat scheduled) artifact_fingerprint
             artifact_sha256 registration_digest execution_key (OccurrenceStatus_str OCC_BOUND)
             0 None None None (isoformat deadline) None]) db)
    end) db.

Definition authenticate_occurrence_artifact (workflow_name : string) (scheduled_at : datetime)
    (artifact_fingerprint artifact_sha256 registration_digest execution_key : string)
    (db : scheduler_state) : result OccurrenceStatus :=
  scheduled ← astimezone_utc scheduled_at;
  r ← or_raise (select_where (λ r, bool_decide (occurrence_key r = (workflow_name, isoformat scheduled)))
                  (recurring_occurrences db))
        (ConfigurationError "recurring artifact is not registered in trusted local state");
  raise_if (negb (bool_decide
      ([oc_artifact_fingerprint r; oc_artifact_sha256 r; oc_registration_digest r; oc_execution_key r]
       = [artifact_fingerprint; artifact_sha256; registration_digest; execution_key])))
    (ConfigurationError "recurring artifact authentication changed");;
  reraise (enum_parse (oc_status r))
    (λ _, Some (ConfigurationError "recurring occurrence state is invalid")).

Definition reserve_occurrence (artifact_fingerprint : string) (started_at : datetime)
    (token : uuid) (db : scheduler_state) : result (Z * uuid) * scheduler_state :=
  atomically (λ db,
    current ← astimezone_utc started_at;
    until ← dt_add current lease_duration;
    let '(n, db) := update_occurrences
      (λ r, (oc_artifact_fingerprint r =? artifact_fingerprint)%string
            && ((oc_status r =? OccurrenceStatus_str OCC_BOUND)%string
                || (oc_status r =? OccurrenceStatus_str OCC_RECOVERABLE)%string)
            && str_le (isoformat current) (oc_resume_deadline r))
      (λ r, set_fence OCC_RUNNING (oc_claim_generation r + 1) (Some (uuid_str token))
              (Some (isoformat until)) (oc_approval_request_fingerprint r) None r) db in
    unless_one n "recurring occurrence is not eligible for reservation";;
    r ← or_raise (occurrence_of artifact_fingerprint db)
          (PyRuntimeError "reserved recurring occurrence disappeared");
    Ok ((oc_claim_generation r, token), db)) db.

Definition mark_occurrence_recoverable (artifact_fingerprint : string) (db : scheduler_state)
    : result unit * scheduler_state :=
  let '(n, db) := update_occurrences (in_status artifact_fingerprint OCC_FAILED_PRE_EFFECT)
    (λ r, set_fence OCC_RECOVERABLE (oc_claim_generation r) (oc_claim_token r)
            (oc_lease_expires_at r) None (oc_finished_at r) r) db in
  (unless_one n "only a certified failed-pre-effect occurrence can be recovered", db).

Definition reconcile_expired_occurrence (artifact_fingerprint : string) (status : OccurrenceStatus)
    (now : datetime) (db : scheduler_state) : result unit * scheduler_state :=
  if negb (bool_decide (status ∈ [OCC_RECOVERABLE; OCC_INDETERMINATE]))
  then (Err (PyValueError "unsupported recurring reconciliation state"), db)
  else match astimezone_utc now with
  | Err e => (Err e, db)
  | Ok current =>
      let '(n, db) := update_occurrences
        (λ r, in_status artifact_fingerprint OCC_RUNNING r
              && col_le (oc_lease_expires_at r) (isoformat current))
        (λ r, set_fence status (oc_claim_generation r) None None
                (oc_approval_request_fingerprint r) (Some (isoformat current)) r) db in
      (unless_one n "recurring occurrence has no expired running claim to reconcile", db)
  end.

Definition cancel_occurrence (artifact_fingerprint : string) (now : datetime)
    (db : scheduler_state) : result OccurrenceStatus * scheduler_state :=
  atomically (λ db,
    r ← or_raise (occurrence_of artifact_fingerprint db)
          (ConfigurationError "recurring occurrence is not registered");
    current ← enum_parse (oc_status r);
    raise_if (bool_decide (current ∈ [OCC_SUCCEEDED; OCC_INDETERMINATE; OCC_REVOKED; OCC_CANCELLED]))
      (ConfigurationError "completed or uncertain recurring occurrence cannot be cancelled");;
    let selected := if bool_decide (current = OCC_RUNNING) then OCC_INDETERMINATE else OCC_CANCELLED in
    let '(n, db) := update_occurrences (in_status artifact_fingerprint current)
      (λ r, set_fence selected (oc_claim_generation r) None None
              (oc_approval_request_fingerprint r) (Some (isoformat now)) r) db in
    unless_one n "recurring occurrence changed during cancel";;
    Ok (selected, db)) db.

(** [str(row[i])] of a nullable text column. *)
Definition column_str (c : option string) : string := default "None" c.

Definition validate_occurrence_fence (artifact_fingerprint : string) (claim_generation : Z)
    (claim_token : uuid) (now : datetime) (db : scheduler_state) : result unit :=
  current ← astimezone_utc now;
  let lost := ConfigurationError "recurring occurrence claim fence was lost" in
  r ← or_raise (occurrence_of artifact_fingerprint db) lost;
  raise_if (negb (oc_status r =? OccurrenceStatus_str OCC_RUNNING)%string) lost;;
  raise_if (negb (oc_claim_generation r =? claim_generation)) lost;;
  raise_if (negb (column_str (oc_claim_token r) =? uuid_str claim_token)%string) lost;;
  until ← or_raise (oc_lease_expires_at r) lost;
  until ← fromisoformat until;
  raise_if (negb (is_aware until)) (PyTypeError "can't compare offset-naive and offset-aware datetimes");;
  raise_if (dt_le until current) lost.

(** [WHERE artifact_fingerprint = ? AND status = ? AND claim_generation = ? AND
    claim_token = ?]. *)
Definition holds_fence (fp : string) (generation : Z) (token : uuid) (r : occurrence_row) : bool :=
  in_status fp OCC_RUNNING r && (oc_claim_generation r =? generation)
  && col_eq (oc_claim_token r) (uuid_str token).

Definition renew_occurrence_fence (artifact_fingerprint : string) (claim_generation : Z)
    (claim_token : uuid) (now : datetime) (db : scheduler_state) : result bool * scheduler_state :=
  atomically (λ db,
    current ← astimezone_utc now;
    until ← dt_add current lease_duration;
    let '(n, db) := update_occurrences
      (λ r, holds_fence artifact_fingerprint claim_generation claim_token r
            && col_gt (oc_lease_expires_at r) (isoformat current))
      (λ r, mk_occurrence_row (oc_workflow_name r) (oc_scheduled_at r) (oc_artifact_fingerprint r)
              (oc_artifact_sha256 r) (oc_registration_digest r) (oc_execution_key r) (oc_status r)
              (oc_claim_generation r) (oc_claim_token r) (Some (isoformat until))
              (oc_approval_request_fingerprint r) (oc_resume_deadline r) (oc_finished_at r)) db in
    Ok (n =? 1, db)) db.

Definition transition_running_occurrence (artifact_fingerprint : string) (claim_generation : Z)
    (claim_token : uuid) (status : OccurrenceStatus) (request_fingerprint : option string)
    (finished_at : option datetime) (db : scheduler_state) : result unit * scheduler_state :=
  match match finished_at with
        | Some d => u ← astimezone_utc d; Ok (Some (isoformat u))
        | None => Ok None
        end with
  | Err e => (Err e, db)
  | Ok finished =>
      let '(n, db) := update_occurrences (holds_fence artifact_fingerprint claim_generation claim_token)
        (λ r, set_fence status (oc_claim_generation r) None None request_fingerprint finished r) db in
      (unless_one n "recurring occurrence claim fence was lost", db)
  end.

Definition block_occurrence_for_approval (artifact_fingerprint : string) (claim_generation : Z)
    (claim_token : uuid) (request_fingerprint : string) (db : scheduler_state)
    : result unit * scheduler_state :=
  transition_running_occurrence artifact_fingerprint claim_generation claim_token
    OCC_APPROVAL_BLOCKED (Some request_fingerprint) None db.

Definition resume_approval_blocked_occurrence (artifact_fingerprint : string) (prior_generation : Z)
    (request_fingerprint : string) (started_at : datetime) (token : uuid) (db : scheduler_state)
    : result (Z * uuid) * scheduler_state :=
  atomically (λ db,
    current ← astimezone_utc started_at;
    until ← dt_add current lease_duration;
    let '(n, db) := update_occurrences
      (λ r, in_status artifact_fingerprint OCC_APPROVAL_BLOCKED r
            && (oc_claim_generation r =? prior_generation)
            && col_eq (oc_approval_request_fingerprint r) request_fingerprint
            && str_le (isoformat current) (oc_resume_deadline r))
      (λ r, set_fence OCC_RUNNING (oc_claim_generation r + 1) (Some (uuid_str token))
              (Some (isoformat until)) (oc_approval_request_fingerprint r) None r) db in
    unless_one n "recurring approval resume is stale, expired, or changed";;
    Ok ((prior_generation + 1, token), db)) db.

Definition finalize_occurrence (artifact_fingerprint : string) (claim_generation : Z)
    (claim_token : uuid) (status : OccurrenceStatus) (finished_at : datetime)
    (db : scheduler_state) : result unit * scheduler_state :=
  if negb (bool_decide (status ∈ [OCC_SUCCEEDED; OCC_FAILED_PRE_EFFECT; OCC_INDETERMINATE; OCC_REVOKED]))
  then (Err (PyValueError "unsupported recurring occurrence terminal state"), db)
  else transition_running_occurrence artifact_fingerprint claim_generation claim_token status None
         (Some finished_at) db.

(** ** Claims of scheduled runs *)

Definition set_run (started finished : string) (successful : Z) (summary : string)
    (status : ClaimStatus) (lease : option string) (attempts : Z) (reason token : option string)
    (r : run_row) : run_row :=
  mk_run_row (rr_workflow_name r) (rr_scheduled_at r) started finished successful summary
    (ClaimStatus_str status) lease attempts reason token.

(** [WHERE workflow_name = ? AND scheduled_at = ? AND status = ?]. *)
Definition run_in_status (name scheduled : string) (status : ClaimStatus) (r : run_row) : bool :=
  bool_decide (run_key r = (name, scheduled)) && (rr_status r =? ClaimStatus_str status)%string.

Definition claim (name : string) (scheduled_at started_at : datetime) (claim_token : uuid)
    (db : scheduler_state) : result (option uuid) * scheduler_state :=
  atomically (λ db,
    until ← dt_add started_at lease_duration;
    let started := isoformat started_at in
    let scheduled := isoformat scheduled_at in
    if existsb (λ r, bool_decide (run_key r = (name, scheduled))) (recurring_runs db) then
      let '(n, db) := update_runs (run_in_status name scheduled RUN_RECOVERABLE)
        (λ r, set_run started started 0 "{}" RUN_RUNNING (Some (isoformat until))
                (rr_attempt_count r + 1) None (Some (uuid_str claim_token)) r) db in
      Ok (if n =? 1 then Some claim_token else None, db)
    else
      Ok (Some claim_token,
          set_runs (recurring_runs db ++
            [mk_run_row name scheduled started started 0 "{}" (ClaimStatus_str RUN_RUNNING)
               (Some (isoformat until)) 1 None (Some (uuid_str claim_token))]) db)) db.

Definition holds_run (name scheduled : string) (claim_token : uuid) (r : run_row) : bool :=
  run_in_status name scheduled RUN_RUNNING r && col_eq (rr_claim_token r) (uuid_str claim_token).

Definition renew (name : string) (scheduled_at : datetime) (claim_token : uuid) (now : datetime)
    (db : scheduler_state) : result bool * scheduler_state :=
  atomically (λ db,
    current ← astimezone_utc now;
    until ← dt_add current lease_duration;
    let '(n, db) := update_runs (holds_run name (isoformat scheduled_at) claim_token)
      (λ r, mk_run_row (rr_workflow_name r) (rr_scheduled_at r) (rr_started_at r)
              (rr_finished_at r) (rr_successful r) (rr_summary_json r) (rr_status r)
              (Some (isoformat until)) (rr_attempt_count r) (rr_recovery_reason r)
              (rr_claim_token r)) db in
    Ok (n =? 1, db)) db.

Definition expire_claims (now : datetime) (db : scheduler_state) : result Z * scheduler_state :=
  atomically (λ db,
    current ← astimezone_utc now;
    let '(n, db) := update_runs
      (λ r, (rr_status r =? ClaimStatus_str RUN_RUNNING)%string
            && col_le (rr_lease_expires_at r) (isoformat current))
      (λ r, set_run (rr_started_at r) (rr_finished_at r) (rr_successful r) (rr_summary_json r)
              RUN_EXPIRED (rr_lease_expires_at r) (rr_attempt_count r) (Some "lease_expired") None r)
      db in
    Ok (n, db)) db.

Definition mark_recoverable (name : string) (scheduled_at : datetime) (db : scheduler_state)
    : bool * scheduler_state :=
  let '(n, db) := update_runs (run_in_status name (isoformat scheduled_at) RUN_EXPIRED)
    (λ r, set_run (rr_started_at r) (rr_finished_at r) (rr_successful r) (rr_summary_json r)
            RUN_RECOVERABLE (rr_lease_expires_at r) (rr_attempt_count r)
            (Some "operator_reviewed") (rr_claim_token r) r) db in
  (n =? 1, db).

Record RecurringRunResult : Type := mk_RecurringRunResult {
  rrr_successful : bool;
  rrr_summary : dict;
}.

Definition complete (name : string) (scheduled_at : datetime) (claim_token : uuid)
    (finished_at : datetime) (result_ : RecurringRunResult) (db : scheduler_state)
    : result unit * scheduler_state :=
  let payload := dumps_compact (JDict (rrr_summary result_)) in
  atomically (λ db,
    let '(n, db) := update_runs (holds_run name (isoformat scheduled_at) claim_token)
      (λ r, set_run (rr_started_at r) (isoformat finished_at)
              (if rrr_successful result_ then 1 else 0) payload
              (if rrr_successful result_ then RUN_SUCCEEDED else RUN_FAILED) None
              (rr_attempt_count r) (rr_recovery_reason r) None r) db in
    unless_one n ("recurring occurrence is not actively claimed: " +:+ name +:+ " at "
                  +:+ isoformat scheduled_at);;
    Ok (tt, db)) db.

Definition fail (name : string) (scheduled_at : datetime) (claim_token : uuid)
    (finished_at : datetime) (error : exn) (db : scheduler_state) : result unit * scheduler_state :=
  complete name scheduled_at claim_token finished_at
    (mk_RecurringRunResult false [("workflow", JStr name); ("failed", JBool true);
                                  ("error_type", JStr (exn_class error))]) db.

Definition last_success (name : string) (db : scheduler_state) : result (option datetime) :=
  match select_last (λ r, (rr_workflow_name r =? name)%string && (rr_successful r =? 1))
          (recurring_runs db) with
  | Some r => Some <$> fromisoformat (rr_finished_at r)
  | None => Ok None
  end.

Definition occurrence_status (name : string) (scheduled_at : datetime) (db : scheduler_state)
    : option string :=
  rr_status <$> select_where (λ r, bool_decide (run_key r = (name, isoformat scheduled_at)))
                  (recurring_runs db).
End store.

(** ** The registered workflows and the runner *)

Record RegisteredWorkflow : Type := mk_RegisteredWorkflow {
  rw_name : string;
  rw_enabled : bool;
  rw_kind : WorkflowKind;
  rw_schedule : WeeklySchedule;
  rw_delivery_mode : DeliveryMode;
  rw_output_dir : string;
  rw_integration_config : string;
  rw_workflow_config : string;
  rw_identity_config : option string;
  rw_retention_config : option string;
  rw_allowed_capabilities : list string;
  rw_allowed_recipients : list string;
  rw_canonical_sources : list string;
  rw_generation : Z;
  rw_revoked : bool;
  rw_catch_up_policy : CatchUpPolicy;
  rw_approval_resume_minutes : Z;
}.

Record RecurringConfig : Type := mk_RecurringConfig {
  rcfg_state_database : string;
  rcfg_lock_dir : string;
  rcfg_workflows : list (string * RegisteredWorkflow);
  rcfg_occurrence_root : option string;
}.

Record WorkflowDueStatus : Type := mk_WorkflowDueStatus {
  wds_name : string;
  wds_enabled : bool;
  wds_due : bool;
  wds_scheduled_at : datetime;
  wds_last_success_at : option datetime;
  wds_reason : string;
}.

Definition WorkflowDueStatus_to_dict (s : WorkflowDueStatus) : dict :=
  [("name", JStr (wds_name s)); ("enabled", JBool (wds_enabled s)); ("due", JBool (wds_due s));
   ("scheduled_at", JStr (isoformat (wds_scheduled_at s)));
   ("last_success_at", match wds_last_success_at s with
                       | Some d => JStr (isoformat d)
                       | None => JNull
                       end);
   ("reason", JStr (wds_reason s))].

(** The runner's state: the scheduler's database and the lock files that exist. *)
Record runner_state : Type := mk_runner_state {
  rs_store : scheduler_state;
  rs_locks : gset string;
}.

Definition set_store (db : scheduler_state) (s : runner_state) : runner_state :=
  mk_runner_state db (rs_locks s).

(** [str.isalnum] of one character. *)
Definition is_alnum (c : ascii) : bool :=
  is_digit c || is_alpha c || bool_decide (code c ∈ [170; 178; 179; 181; 185; 186; 188; 189; 190])
  || ((192 <=? code c) && negb (code c =? 215) && negb (code c =? 247)).

Fixpoint safe_name (value : string) : string :=
  match value with
  | EmptyString => EmptyString
  | String c value => String (if is_alnum c || str_in c "._-" then c else "-"%char) (safe_name value)
  end.

Section runner.
Context `{ZoneDatabase} `{SystemZone}.

(** [timedelta(minutes=5)]. *)
Definition default_lease : Z := 5 * minute_us.

Definition due_status (workflow : RegisteredWorkflow) (now : datetime) (db : scheduler_state)
    : result WorkflowDueStatus * scheduler_state :=
  match astimezone_utc now with
  | Err e => (Err e, db)
  | Ok current =>
      let '(expired, db) := expire_claims current db in
      (_ ← expired;
       scheduled ← scheduled_at_or_before (rw_schedule workflow) current;
       last ← last_success (rw_name workflow) db;
       let status := occurrence_status (rw_name workflow) scheduled db in
       let lateness := instant current - instant scheduled in
       let report due reason :=
         mk_WorkflowDueStatus (rw_name workflow) (rw_enabled workflow) due scheduled last reason in
       if negb (rw_enabled workflow) then Ok (report false "workflow is disabled")
       else window ← timedelta_minutes (ws_max_lateness_minutes (rw_schedule workflow));
       if lateness >? window then
         Ok (report false "latest schedule is outside the configured lateness window")
       else match status with
       | Some s => Ok (report false ("latest scheduled occurrence is already claimed (" +:+ s +:+ ")"))
       | None => Ok (report true "registered workflow is due")
       end, db)
  end.

(** What happens while a claim is held: the callback's outcome, the errors of
    the heartbeat, and the state they (and other processes) leave. *)
Definition callback : Type :=
  RegisteredWorkflow → runner_state → result RecurringRunResult * list exn * runner_state.

(** [with self._lock(name): result = callback(workflow)]. *)
Definition locked_call (name : string) (workflow : RegisteredWorkflow) (call : callback)
    (s : runner_state) : result RecurringRunResult * runner_state :=
  let lock := safe_name name +:+ ".lock" in
  if bool_decide (lock ∈ rs_locks s)
  then (Err (ConfigurationError ("recurring workflow is already running: " +:+ name)), s)
  else
    let '(outcome, heartbeat_errors, s) :=
      call workflow (mk_runner_state (rs_store s) ({[lock]} ∪ rs_locks s)) in
    let s := mk_runner_state (rs_store s) (rs_locks s ∖ {[lock]}) in
    (result_ ← outcome;
     raise_if (negb (bool_decide (heartbeat_errors = [])))
       (ConfigurationError "recurring occurrence lease could not be renewed");;
     Ok result_, s).

Definition skipped (reason : string) : RecurringRunResult :=
  mk_RecurringRunResult true [("skipped", JBool true); ("reason", JStr reason)].

(** [finished] is the clock when the callback has ended. *)
Definition run (config : RecurringConfig) (name : string) (call : callback) (now : datetime)
    (force : bool) (claim_token : uuid) (finished : datetime) (s : runner_state)
    : result RecurringRunResult * runner_state :=
  match List.find (λ kv, (kv.1 =? name)%string) (rcfg_workflows config) with
  | None => (Err (ConfigurationError ("recurring workflow is not registered: " +:+ name)), s)
  | Some (_, workflow) =>
      let '(status, db) := due_status workflow now (rs_store s) in
      let s := set_store db s in
      match status with
      | Err e => (Err e, s)
      | Ok status =>
          if negb (rw_enabled workflow)
          then (Err (ConfigurationError ("recurring workflow is disabled: " +:+ name)), s)
          else if negb force && negb (wds_due status) then (Ok (skipped (wds_reason status)), s)
          else match astimezone_utc now with
          | Err e => (Err e, s)
          | Ok started =>
              let '(granted, db) :=
                claim default_lease name (wds_scheduled_at status) started claim_token (rs_store s) in
              let s := set_store db s in
              match granted with
              | Err e => (Err e, s)
              | Ok None => (Ok (skipped "latest scheduled occurrence is already claimed"), s)
              | Ok (Some token) =>
                  let '(outcome, s) := locked_call name workflow call s in
                  match outcome with
                  | Err error =>
                      let '(failed, db) :=
                        fail name (wds_scheduled_at status) token finished error (rs_store s) in
                      (match failed with Ok _ => Err error | Err e => Err e end, set_store db s)
                  | Ok result_ =>
                      let '(completed, db) :=
                        complete name (wds_scheduled_at status) token finished result_ (rs_store s) in
                      (completed;; Ok result_, set_store db s)
                  end
              end
          end
      end
  end.
End runner.

(** ** Scope of a registration *)

Definition validate_plan_scope (capabilities : list string) (workflow : RegisteredWorkflow)
    : result unit :=
  let unexpected := sort_by str_le (remove_dups
    (List.filter (λ c, negb (bool_decide (c ∈ rw_allowed_capabilities workflow))) capabilities)) in
  raise_if (negb (bool_decide (unexpected = [])))
    (ConfigurationError ("registered workflow generated unapproved capabilities: "
       +:+ str_join ", " unexpected)).

Definition validate_recipients (recipients : list string) (workflow : RegisteredWorkflow)
    : result unit :=
  let allowed := map casefold_codes (rw_allowed_recipients workflow) in
  let unexpected := sort_by str_le
    (List.filter (λ r, negb (bool_decide (casefold_codes r ∈ allowed))) recipients) in
  raise_if (negb (bool_decide (unexpected = [])))
    (ConfigurationError ("registered workflow selected unapproved recipients: "
       +:+ str_join ", " unexpected)).

(** ** Loading the registrations *)

(** [bool(value)]. *)
Definition truth (v : json) : bool :=
  match v with
  | JNull => false
  | JBool b => b
  | JInt z => negb (z =? 0)
  | JFloat r => negb ((r =? "0.0")%string || (r =? "-0.0")%string)
  | JStr s => negb (s =? "")%string
  | JList l => match l with [] => false | _ => true end
  | JDict d => match d with [] => false | _ => true end
  end.

Definition config_mapping (value : json) (name : string) : result dict :=
  match value with
  | JDict d => Ok d
  | _ => Err (ConfigurationError (name +:+ " must be a TOML table"))
  end.

Definition config_table (raw : dict) (key : string) : result dict :=
  config_mapping (dict_get_or raw key (JDict [])) ("[" +:+ key +:+ "]").

Definition required (value : dict) (key : string) : result string :=
  let rendered := strip (py_str (dict_get_or value key (JStr ""))) in
  raise_if (rendered =? "")%string (ConfigurationError (key +:+ " must not be empty"));;
  Ok rendered.

Definition strict_config_bool (value : dict) (key : string) (default : bool) : result bool :=
  match dict_get_or value key (JBool default) with
  | JBool b => Ok b
  | _ => Err (ConfigurationError (key +:+ " must be a TOML boolean"))
  end.

(** [except (TypeError, ValueError)]. *)
Definition int_or_configuration (key : string) (e : exn) : option exn :=
  match e with
  | PyTypeError _ | PyValueError _ | PySubclassError TypeErrorBase _ _
  | PySubclassError ValueErrorBase _ _ => Some (ConfigurationError (key +:+ " must be an integer"))
  | _ => None
  end.

Definition config_int (value : dict) (key : string) (default : Z) : result Z :=
  match dict_get_or value key (JInt default) with
  | JBool _ => Err (ConfigurationError (key +:+ " must be an integer"))
  | item => reraise (py_int item) (int_or_configuration key)
  end.

Definition config_positive_int (value : dict) (key : string) (default : Z) : result Z :=
  item ← config_int value key default;
  raise_if (item <=? 0) (ConfigurationError (key +:+ " must be positive"));;
  Ok item.

Definition config_enum {A} `{StrEnum A} (value : dict) (key : string) (default : A) : result A :=
  match dict_get_or value key (JStr (enum_str default)) with
  | JStr raw => reraise (enum_parse raw) (λ _, Some (ConfigurationError (key +:+ " is unsupported")))
  | _ => Err (ConfigurationError (key +:+ " must be a string"))
  end.

Definition string_list (value : dict) (key : string) : result (list string) :=
  match dict_get_or value key (JList []) with
  | JList l => Ok (List.filter (λ s, negb (s =? "")%string) (map (λ v, strip (py_str v)) l))
  | _ => Err (ConfigurationError (key +:+ " must be a string list"))
  end.

Section loading.
Context `{ZoneDatabase}.
(** [_resolve(base, value)]: a path made absolute against the configuration's
    directory. *)
Context (resolve_path : string → result string).

Definition optional_path (value : dict) (key : string) : result (option string) :=
  if truth (dict_get value key) then Some <$> resolve_path (py_str (dict_get value key)) else Ok None.

Definition load_schedule (value : dict) : result WeeklySchedule :=
  day ← config_int value "weekday" 0;
  hour ← config_int value "hour" 0;
  minute ← config_int value "minute" 0;
  timezone ← required value "timezone";
  lateness ← config_int value "max_lateness_minutes" 1440;
  fold ← config_enum value "dst_fold" FOLD_REJECT;
  WeeklySchedule_post_init (mk_WeeklySchedule day hour minute timezone lateness fold).

Definition load_workflow (name : string) (raw_value : json) : result RegisteredWorkflow :=
  value ← config_mapping raw_value ("workflow " +:+ name);
  '(kind, mode) ← reraise
    (kind ← enum_parse (py_str (dict_get_or value "kind" (JStr "")));
     mode ← enum_parse (py_str (dict_get_or value "delivery_mode" (JStr "local_only")));
     Ok (kind, mode))
    (λ _, Some (ConfigurationError ("unsupported recurring workflow: " +:+ name)));
  capabilities ← string_list value "allowed_capabilities";
  raise_if (bool_decide (capabilities = []))
    (ConfigurationError ("recurring workflow " +:+ name +:+ " requires allowed_capabilities"));;
  sources ← string_list value "canonical_sources";
  raise_if (bool_decide (sources = []))
    (ConfigurationError ("recurring workflow " +:+ name +:+ " requires canonical_sources"));;
  enabled ← strict_config_bool value "enabled" false;
  schedule ← load_schedule value;
  output ← (text ← required value "output_dir"; resolve_path text);
  integration ← (text ← required value "integration_config"; resolve_path text);
  workflow ← (text ← required value "workflow_config"; resolve_path text);
  identity ← optional_path value "identity_config";
  retention ← optional_path value "retention_config";
  recipients ← string_list value "allowed_recipients";
  generation ← config_positive_int value "generation" 1;
  revoked ← strict_config_bool value "revoked" false;
  catch_up ← config_enum value "catch_up_policy" LATEST_ONLY;
  resume ← config_positive_int value "approval_resume_minutes" 1440;
  Ok (mk_RegisteredWorkflow name enabled kind schedule mode output integration workflow identity
        retention capabilities recipients sources generation revoked catch_up resume).

Definition recurring_config_from_toml (raw : dict) : result RecurringConfig :=
  scheduler ← config_table raw "scheduler";
  state_database ← (text ← required scheduler "state_database"; resolve_path text);
  lock_dir ← (text ← required scheduler "lock_dir"; resolve_path text);
  let occurrence_root := strip (py_str (dict_get_or scheduler "occurrence_root" (JStr ""))) in
  root ← (if (occurrence_root =? "")%string then Ok None else Some <$> resolve_path occurrence_root);
  table ← config_table raw "workflows";
  workflows ← mapM (λ kv : string * json, w ← load_workflow kv.1 kv.2; Ok (kv.1, w)) table;
  Ok (mk_RecurringConfig state_database lock_dir workflows root).
End loading.
