(* ===== verification/Registry.v ===== *)
(** * Registry: connectors and their resolution,
    [src/src/master_agent/registry.py] and [connectors/base.py]

    A connector is the record of the operations of the protocols of
    [connectors/base.py], over the state [W] of the systems it talks to; an
    optional protocol it does not implement is [None].  An operation that raises
    returns [Err] and may still have changed [W]. *)

From S2P Require Import Prelude PyText PyJson ModelsBase ModelsAction ModelsResults Capabilities.

Open Scope Z_scope.

Section connectors.
Context {W : Type}.

Record Connector : Type := mk_Connector {
  con_system : string;
  con_capabilities : list string;
  (** [type(connector) is MockConnector] *)
  con_is_mock : bool;
  (** what [CapabilityCatalog.validate_execution] reads *)
  con_view : ConnectorView;
  (** [connector._config.max_pages] and [max_response_bytes] *)
  con_http_config : option (Z * Z);
  con_execute : AgentAction → W → result ExecutionResult * W;
  con_verify : AgentAction → ExecutionResult → W → result VerificationResult * W;
  con_verify_completed : option (AgentAction → dict → W → result VerificationResult * W);
  con_idempotency_record : option (AgentAction → ExecutionResult → W → result dict * W);
  con_compensation :
    option ((AgentAction → ExecutionResult → W → result ExecutionResult * W)
            * (AgentAction → ExecutionResult → ExecutionResult → W
               → result VerificationResult * W));
}.

Abbreviation registry := (gmap string (list Connector)).

(** [incoming & _capabilities(candidate)]. *)
Definition overlap (incoming : list string) (candidate : Connector) : list string :=
  remove_dups (List.filter (λ c, bool_decide (c ∈ con_capabilities candidate)) incoming).

Definition check_candidate (connector candidate : Connector) : result unit :=
  let common := overlap (con_capabilities connector) candidate in
  raise_if (negb (bool_decide (common = [])))
    (ConnectorError ("connector capability already registered for system "
       +:+ con_system connector +:+ ": " +:+ str_join ", " (sort_by str_le common)));;
  raise_if (bool_decide (con_capabilities connector = [])
            && bool_decide (con_capabilities candidate = []))
    (ConnectorError ("connector already registered for system: " +:+ con_system connector)).

Definition registered (self : registry) (system : string) : list Connector :=
  default [] (self !! system).

Definition register (connector : Connector) (self : registry) : result registry :=
  let existing := registered self (con_system connector) in
  for_each (check_candidate connector) existing;;
  Ok (<[con_system connector := existing ++ [connector]]> self).

Definition resolve (self : registry) (system : string) (capability : option string)
    : result Connector :=
  let candidates := registered self system in
  raise_if (match candidates with [] => true | _ => false end)
    (ConnectorError ("no connector registered for system: " +:+ system));;
  match capability with
  | None =>
      match candidates with
      | [c] => Ok c
      | _ => Err (ConnectorError ("multiple connectors registered for system " +:+ system
                                  +:+ "; capability is required"))
      end
  | Some capability =>
      match List.filter (λ c, bool_decide (capability ∈ con_capabilities c)) candidates with
      | [c] => Ok c
      | [] =>
          match List.filter (λ c, bool_decide (con_capabilities c = [])) candidates with
          | [c] => Ok c
          | _ => Err (ConnectorError ("no connector registered for capability " +:+ capability
                                      +:+ " on system " +:+ system))
          end
      | _ => Err (ConnectorError ("multiple connectors registered for capability "
                                  +:+ capability +:+ " on system " +:+ system))
      end
  end.

Definition systems (self : registry) : list string :=
  sort_by str_le (map fst (map_to_list self)).

Definition connectors (self : registry) (system : option string) : list Connector :=
  match system with
  | Some system => registered self system
  | None => systems self ≫= registered self
  end.
End connectors.

#[global] Arguments Connector W : clear implicits.

(** ** The lifecycle budget of a live connector ([http.py]) *)

Record HttpActionBudget : Type := mk_HttpActionBudget {
  max_requests : Z;
  max_response_bytes : Z;
}.

Definition connector_http_action_budget {W} (connector : Connector W)
    : result (option HttpActionBudget) :=
  match con_http_config connector with
  | None => Ok None
  | Some (requests, bytes) =>
      raise_if ((requests <=? 0) || (bytes <=? 0))
        (ConfigurationError "live connector HTTP action budgets must be positive integers");;
      Ok (Some (mk_HttpActionBudget requests bytes))
  end.
