(* ===== verification/RunMonad.v ===== *)
(** * RunMonad: the state of a workflow run

    A run of the orchestrator threads the audit database, the state [W] of the
    systems behind the connectors, the clock and the source of random UUIDs, and
    the local variables of [WorkflowOrchestrator._run_internal]; it may raise.
    Variables assigned before an exception keep their values, as in Python: the
    state survives an [Err].  The trace is a ghost: it records the audit
    operations and the connector calls in order, with their outcomes. *)

From S2P Require Import Prelude PyText PyJson PyHash PyTime ModelsBase ModelsAction ModelsResults.
From S2P Require Import AuditLog Registry.

Open Scope Z_scope.

(** ** Reports *)

Record ActionReport (B : Type) : Type := mk_ActionReport {
  ar_action_id : uuid;
  ar_capability : string;
  ar_state : ActionState;
  ar_message : string;
  ar_result : option ExecutionResult;
  ar_compensation : option ExecutionResult;
  ar_egress : option B;
}.
#[global] Arguments mk_ActionReport {B}.
#[global] Arguments ar_action_id {B} _.
#[global] Arguments ar_capability {B} _.
#[global] Arguments ar_state {B} _.
#[global] Arguments ar_message {B} _.
#[global] Arguments ar_result {B} _.
#[global] Arguments ar_compensation {B} _.
#[global] Arguments ar_egress {B} _.

Record ExecutedAction (W : Type) : Type := mk_ExecutedAction {
  xa_action : AgentAction;
  xa_connector : Connector W;
  xa_result : ExecutionResult;
  xa_report_index : nat;
  xa_http_budget : option HttpActionBudget;
}.
#[global] Arguments mk_ExecutedAction {W}.
#[global] Arguments xa_action {W} _.
#[global] Arguments xa_connector {W} _.
#[global] Arguments xa_result {W} _.
#[global] Arguments xa_report_index {W} _.
#[global] Arguments xa_http_budget {W} _.

(** ** The trace *)

Inductive provider_call : Type :=
  | CallGuard (action : AgentAction)
  | CallExecute (action : AgentAction)
  | CallVerify (action : AgentAction) (result_ : ExecutionResult)
  | CallVerifyCompleted (action : AgentAction) (prior : dict)
  | CallIdempotencyRecord (action : AgentAction) (result_ : ExecutionResult)
  | CallCompensate (action : AgentAction) (result_ : ExecutionResult)
  | CallVerifyCompensation (action : AgentAction) (original compensation : ExecutionResult).

Inductive provider_reply : Type :=
  | ReplyGuard (r : result unit)
  | ReplyResult (r : result ExecutionResult)
  | ReplyVerification (r : result VerificationResult)
  | ReplyRecord (r : result dict).

Inductive event : Type :=
  | Audited (op : audit_op) (r : audit_reply)
  | Called (call : provider_call) (r : provider_reply).

(** ** The state *)

(** The clock readings and the random UUIDs of a run, by their number. *)
Record environment : Type := mk_environment {
  clock_now : nat → datetime;
  fresh_uuid : nat → uuid;
}.

Section run.
Context {W B : Type} (env : environment).

(** The local variables: the first four live through the run, the others
    through one attempt of an action. *)
Record run_vars : Type := mk_run_vars {
  rv_reports : list (ActionReport B);
  rv_state_by_id : gmap uuid ActionState;
  rv_executed : list (ExecutedAction W);
  rv_abort_remaining : bool;
  rv_connector : option (Connector W);
  rv_result : option ExecutionResult;
  rv_claim_token : option string;
  rv_egress : option B;
}.

Record run_state : Type := mk_run_state {
  rs_database : database;
  rs_world : W;
  rs_tick : nat;
  rs_trace : list event;
  rs_vars : run_vars;
}.

Definition run (A : Type) : Type := run_state → result A * run_state.

#[global] Instance run_ret : MRet run := λ A a s, (Ok a, s).
#[global] Instance run_bind : MBind run := λ A A' f m s,
  match m s with
  | (Ok a, s') => f a s'
  | (Err e, s') => (Err e, s')
  end.

(** A computation that does not touch the state. *)
Definition lift {A} (r : result A) : run A := λ s, (r, s).

Definition raise {A} (e : exn) : run A := lift (Err e).

(** [try: m  except ...: h(error)], for the exceptions [h] handles. *)
Definition try_except {A} (m : run A) (h : exn → option (run A)) : run A := λ s,
  match m s with
  | (Ok a, s') => (Ok a, s')
  | (Err e, s') => match h e with Some k => k s' | None => (Err e, s') end
  end.

Fixpoint for_each_run {A} (f : A → run unit) (l : list A) : run unit :=
  match l with
  | [] => mret tt
  | x :: l => f x ≫= λ _, for_each_run f l
  end.

Definition when_run (c : bool) (m : run unit) : run unit := if c then m else mret tt.

(** *** Local variables *)

Definition get {A} (f : run_vars → A) : run A := λ s, (Ok (f (rs_vars s)), s).

Definition assign (f : run_vars → run_vars) : run unit := λ s,
  (Ok tt, mk_run_state (rs_database s) (rs_world s) (rs_tick s) (rs_trace s) (f (rs_vars s))).

Definition set_reports (f : list (ActionReport B) → list (ActionReport B)) (v : run_vars) : run_vars :=
  mk_run_vars (f (rv_reports v)) (rv_state_by_id v) (rv_executed v) (rv_abort_remaining v)
    (rv_connector v) (rv_result v) (rv_claim_token v) (rv_egress v).
Definition set_state_of (i : uuid) (st : ActionState) (v : run_vars) : run_vars :=
  mk_run_vars (rv_reports v) (<[i := st]> (rv_state_by_id v)) (rv_executed v)
    (rv_abort_remaining v) (rv_connector v) (rv_result v) (rv_claim_token v) (rv_egress v).
Definition set_executed (f : list (ExecutedAction W) → list (ExecutedAction W)) (v : run_vars) : run_vars :=
  mk_run_vars (rv_reports v) (rv_state_by_id v) (f (rv_executed v)) (rv_abort_remaining v)
    (rv_connector v) (rv_result v) (rv_claim_token v) (rv_egress v).
Definition set_abort (b : bool) (v : run_vars) : run_vars :=
  mk_run_vars (rv_reports v) (rv_state_by_id v) (rv_executed v) b
    (rv_connector v) (rv_result v) (rv_claim_token v) (rv_egress v).
Definition set_connector (c : option (Connector W)) (v : run_vars) : run_vars :=
  mk_run_vars (rv_reports v) (rv_state_by_id v) (rv_executed v) (rv_abort_remaining v)
    c (rv_result v) (rv_claim_token v) (rv_egress v).
Definition set_result (r : option ExecutionResult) (v : run_vars) : run_vars :=
  mk_run_vars (rv_reports v) (rv_state_by_id v) (rv_executed v) (rv_abort_remaining v)
    (rv_connector v) r (rv_claim_token v) (rv_egress v).
Definition set_claim_token (t : option string) (v : run_vars) : run_vars :=
  mk_run_vars (rv_reports v) (rv_state_by_id v) (rv_executed v) (rv_abort_remaining v)
    (rv_connector v) (rv_result v) t (rv_egress v).
Definition set_egress (e : option B) (v : run_vars) : run_vars :=
  mk_run_vars (rv_reports v) (rv_state_by_id v) (rv_executed v) (rv_abort_remaining v)
    (rv_connector v) (rv_result v) (rv_claim_token v) e.

(** The variables of an attempt before it starts. *)
Definition reset_attempt (v : run_vars) : run_vars :=
  mk_run_vars (rv_reports v) (rv_state_by_id v) (rv_executed v) (rv_abort_remaining v)
    None None None None.

Definition initial_vars : run_vars := mk_run_vars [] ∅ [] false None None None None.

(** A run starts. *)
Definition start (db : database) (world : W) : run_state :=
  mk_run_state db world 0 [] initial_vars.

(** *** Clock, audit log and connectors *)

Definition now : run datetime := λ s,
  (Ok (clock_now env (rs_tick s)),
   mk_run_state (rs_database s) (rs_world s) (S (rs_tick s)) (rs_trace s) (rs_vars s)).

Definition uuid4 : run uuid := λ s,
  (Ok (fresh_uuid env (rs_tick s)),
   mk_run_state (rs_database s) (rs_world s) (S (rs_tick s)) (rs_trace s) (rs_vars s)).

(** One call of the audit log; [project] reads the reply of this operation. *)
Definition audit {A} (op : audit_op) (project : audit_reply → result A) : run A := λ s,
  let '(r, db') := run_op op (rs_database s) in
  (project r,
   mk_run_state db' (rs_world s) (rs_tick s) (rs_trace s ++ [Audited op r]) (rs_vars s)).

Definition unexpected_reply {A} : result A := Err (PyOtherError "reply of another operation").
Definition as_record (r : audit_reply) : result unit :=
  match r with RRecord r => (λ _, tt) <$> r | _ => unexpected_reply end.
Definition as_unit (r : audit_reply) : result unit :=
  match r with RUnit r => r | _ => unexpected_reply end.
Definition as_claim (r : audit_reply) : result IdempotencyClaim :=
  match r with RClaim r => r | _ => unexpected_reply end.

(** One call of a connector. *)
Definition provider {A} (call : provider_call) (wrap : result A → provider_reply)
    (f : W → result A * W) : run A := λ s,
  let '(r, w') := f (rs_world s) in
  (r, mk_run_state (rs_database s) w' (rs_tick s) (rs_trace s ++ [Called call (wrap r)])
        (rs_vars s)).

Definition record_event (run_id plan_id : uuid) (action_id : option uuid) (event_type : string)
    (payload : dict) : run unit :=
  t ← now; audit (OpRecord run_id plan_id action_id event_type payload t) as_record.

(** [reports[i] = report]; an index out of range raises [IndexError]. *)
Definition replace_report (i : nat) (report : ActionReport B) : run unit :=
  reports ← get rv_reports;
  if (i <? length reports)%nat
  then assign (set_reports (λ l, <[i := report]> l))
  else raise (PyOtherError "list assignment index out of range").
End run.

#[global] Arguments run_vars W B : clear implicits.
#[global] Arguments run_state W B : clear implicits.
#[global] Arguments run W B A : clear implicits.

(** ** Reasoning about runs

    [wp m Q E s]: run from [s], [m] returns a value and a state that satisfy
    [Q], or raises in a state that satisfies [E]. *)

Section reasoning.
Context {W B : Type}.
#[local] Abbreviation run := (run W B).
#[local] Abbreviation run_state := (run_state W B).

Definition wp {A} (m : run A) (Q : A → run_state → Prop) (E : exn → run_state → Prop)
    (s : run_state) : Prop :=
  match m s with
  | (Ok a, s') => Q a s'
  | (Err e, s') => E e s'
  end.

Lemma wp_mono {A} (m : run A) (Q Q' : A → run_state → Prop) (E E' : exn → run_state → Prop) s :
  wp m Q E s → (∀ a s', Q a s' → Q' a s') → (∀ e s', E e s' → E' e s') → wp m Q' E' s.
Proof. unfold wp. destruct (m s) as [[a|e] s']; auto. Qed.

Lemma wp_and {A} (m : run A) (Q Q' : A → run_state → Prop) (E E' : exn → run_state → Prop) s :
  wp m Q E s → wp m Q' E' s →
  wp m (λ a s', Q a s' ∧ Q' a s') (λ e s', E e s' ∧ E' e s') s.
Proof. unfold wp. by destruct (m s) as [[a|e] s']. Qed.

Lemma wp_ret {A} (a : A) (Q : A → run_state → Prop) E s : Q a s → wp (mret a) Q E s.
Proof. done. Qed.

Lemma wp_bind {A A'} (m : run A) (f : A → run A') Q E s :
  wp m (λ a s', wp (f a) Q E s') E s → wp (m ≫= f) Q E s.
Proof. unfold wp, mbind, run_bind. by destruct (m s) as [[a|e] s']. Qed.

Lemma wp_lift {A} (r : result A) Q E s :
  (∀ a, r = Ok a → Q a s) → (∀ e, r = Err e → E e s) → wp (lift r) Q E s.
Proof. unfold wp, lift. destruct r; auto. Qed.

Lemma wp_try {A} (m : run A) h Q E s :
  wp m Q (λ e s', match h e with Some k => wp k Q E s' | None => E e s' end) s →
  wp (try_except m h) Q E s.
Proof. unfold wp, try_except. destruct (m s) as [[a|e] s']; [done|]. by destruct (h e). Qed.

Lemma wp_get {A} (f : run_vars W B → A) Q E s : Q (f (rs_vars s)) s → wp (get f) Q E s.
Proof. done. Qed.

Lemma wp_state {A} (m : run A) (C : run_state → Prop) s :
  wp m (λ _, C) (λ _, C) s → C (m s).2.
Proof. unfold wp. by destruct (m s) as [[a|e] s']. Qed.

Lemma wp_now env Q E s :
  Q (clock_now env (rs_tick s))
    (mk_run_state (rs_database s) (rs_world s) (S (rs_tick s)) (rs_trace s) (rs_vars s)) →
  wp (now env) Q E s.
Proof. done. Qed.

(** *** Invariants *)

Context (I : run_state → Prop).

Definition keeps {A} (m : run A) : Prop := ∀ s, I s → I (m s).2.

Lemma keeps_wp {A} (m : run A) : keeps m ↔ ∀ s, I s → wp m (λ _ s', I s') (λ _ s', I s') s.
Proof.
  unfold keeps, wp. split; intros H s Hs; specialize (H s Hs); by destruct (m s) as [[a|e] s'].
Qed.

Lemma keeps_ret {A} (a : A) : keeps (mret a).
Proof. by intros s. Qed.
Lemma keeps_lift {A} (r : result A) : keeps (lift r).
Proof. by intros s. Qed.
Lemma keeps_raise {A} e : keeps (raise e : run A).
Proof. by intros s. Qed.
Lemma keeps_get {A} (f : run_vars W B → A) : keeps (get f).
Proof. by intros s. Qed.

Lemma keeps_bind {A A'} (m : run A) (f : A → run A') :
  keeps m → (∀ a, keeps (f a)) → keeps (m ≫= f).
Proof.
  intros Hm Hf s Hs. specialize (Hm s Hs). unfold mbind, run_bind.
  destruct (m s) as [[a|e] s']; [by apply Hf|done].
Qed.

Lemma keeps_try {A} (m : run A) h :
  keeps m → (∀ e k, h e = Some k → keeps k) → keeps (try_except m h).
Proof.
  intros Hm Hh s Hs. specialize (Hm s Hs). unfold try_except.
  destruct (m s) as [[a|e] s']; [done|]. destruct (h e) as [k|] eqn:E; [|done].
  by apply (Hh e k E).
Qed.

Lemma keeps_when c (m : run unit) : (c = true → keeps m) → keeps (when_run c m).
Proof. destruct c; [auto|]. intros _. apply keeps_ret. Qed.

Lemma keeps_if {A} (c : bool) (m m' : run A) :
  (c = true → keeps m) → (c = false → keeps m') → keeps (if c then m else m').
Proof. destruct c; auto. Qed.

Lemma keeps_for_each {A} (f : A → run unit) l :
  (∀ x, x ∈ l → keeps (f x)) → keeps (for_each_run f l).
Proof.
  induction l as [|x l IH]; intros H; [apply keeps_ret|].
  apply keeps_bind; [apply H; set_solver|]. intros _. apply IH. intros y Hy. apply H. set_solver.
Qed.

Lemma keeps_assign f :
  (∀ s, I s → I (mk_run_state (rs_database s) (rs_world s) (rs_tick s) (rs_trace s)
                   (f (rs_vars s)))) → keeps (assign f).
Proof. done. Qed.

(** *** The steps of a run

    What an invariant needs so that the clock, audit and connector calls keep
    it: [audit_kept] and [call_kept] say it of an operation and of a call,
    whatever the reply. *)

Definition clock_kept : Prop := ∀ s,
  I s → I (mk_run_state (rs_database s) (rs_world s) (S (rs_tick s)) (rs_trace s) (rs_vars s)).
Definition audit_kept (op : audit_op) : Prop := ∀ s,
  I s → I (mk_run_state (run_op op (rs_database s)).2 (rs_world s) (rs_tick s)
             (rs_trace s ++ [Audited op (run_op op (rs_database s)).1]) (rs_vars s)).
Definition call_kept (call : provider_call) : Prop := ∀ s w r,
  I s → I (mk_run_state (rs_database s) w (rs_tick s) (rs_trace s ++ [Called call r]) (rs_vars s)).

Lemma keeps_now env : clock_kept → keeps (now env).
Proof. intros H s. apply H. Qed.
Lemma keeps_uuid4 env : clock_kept → keeps (uuid4 env).
Proof. intros H s. apply H. Qed.

Lemma keeps_audit {A} op (project : audit_reply → result A) :
  audit_kept op → keeps (audit op project).
Proof.
  intros H s Hs. specialize (H s Hs). unfold audit. by destruct (run_op op (rs_database s)).
Qed.

Lemma keeps_provider {A} call (wrap : result A → provider_reply) f :
  call_kept call → keeps (provider call wrap f).
Proof.
  intros H s Hs. unfold provider. destruct (f (rs_world s)) as [r w]. by apply H.
Qed.

Lemma keeps_record_event env run_id plan_id action_id event_type payload :
  clock_kept → (∀ t, audit_kept (OpRecord run_id plan_id action_id event_type payload t)) →
  keeps (record_event env run_id plan_id action_id event_type payload).
Proof.
  intros Ht Ha. apply keeps_bind; [by apply keeps_now|]. intros t. by apply keeps_audit.
Qed.

(** *** Computations that establish something

    [m] keeps the invariant, and gives [Q] when it returns. *)

Definition gives {A} (m : run A) (Q : A → run_state → Prop) : Prop :=
  ∀ s, I s → wp m (λ a s', I s' ∧ Q a s') (λ _ s', I s') s.

Lemma gives_keeps {A} (m : run A) Q : gives m Q → keeps m.
Proof.
  intros Hm. apply keeps_wp. intros s Hs. eapply wp_mono; [by apply Hm| |done]. by intros ?? [??].
Qed.

Lemma keeps_gives {A} (m : run A) : keeps m → gives m (λ _ _, True).
Proof.
  intros Hm s Hs. eapply wp_mono; [by apply (proj1 (keeps_wp _) Hm)| |done]. by split.
Qed.

Lemma gives_ret {A} (a : A) (Q : A → run_state → Prop) : (∀ s, Q a s) → gives (mret a) Q.
Proof. intros HQ s Hs. by split. Qed.

Lemma gives_mono {A} (m : run A) (Q Q' : A → run_state → Prop) :
  gives m Q → (∀ a s, I s → Q a s → Q' a s) → gives m Q'.
Proof.
  intros Hm HQ s Hs. eapply wp_mono; [by apply Hm| |done]. intros a s' [Hs' Ha]. split; auto.
Qed.

Lemma gives_lift {A} (r : result A) : gives (lift r) (λ a _, r = Ok a).
Proof. intros s Hs. by apply wp_lift; [split|]. Qed.

Lemma gives_seq {A1 A2} (m : run A1) (f : A1 → run A2) Q1 Q :
  gives m Q1 →
  (∀ a s, I s → Q1 a s → wp (f a) (λ a s', I s' ∧ Q a s') (λ _ s', I s') s) →
  gives (m ≫= f) Q.
Proof.
  intros Hm Hf s Hs. apply wp_bind. eapply wp_mono; [by apply Hm| |done].
  intros a s' [??]. by apply Hf.
Qed.

(** When what [m] gives does not depend on the state. *)
Lemma gives_then {A1 A2} (m : run A1) (f : A1 → run A2) (Q1 : A1 → Prop) Q :
  gives m (λ a _, Q1 a) → (∀ a, Q1 a → gives (f a) Q) → gives (m ≫= f) Q.
Proof. intros Hm Hf. eapply gives_seq; [exact Hm|]. intros a s Hs Ha. by apply Hf. Qed.

Lemma gives_bind {A1 A2} (m : run A1) (f : A1 → run A2) Q :
  keeps m → (∀ a, gives (f a) Q) → gives (m ≫= f) Q.
Proof.
  intros Hm Hf. eapply gives_seq; [by apply keeps_gives|]. intros a s Hs _. by apply Hf.
Qed.

Lemma gives_try {A} (m : run A) h Q :
  gives m Q → (∀ e k, h e = Some k → gives k Q) → gives (try_except m h) Q.
Proof.
  intros Hm Hh s Hs. apply wp_try. eapply wp_mono; [by apply Hm|done|].
  intros e s' Hs'. destruct (h e) as [k|] eqn:E; [|done]. by eapply Hh.
Qed.

Lemma keeps_replace_report i report :
  (∀ f, keeps (assign (set_reports f))) → keeps (replace_report i report).
Proof.
  intros H. apply keeps_bind; [apply keeps_get|]. intros l.
  destruct (i <? length l)%nat; [apply H|apply keeps_raise].
Qed.
End reasoning.

(** *** Automation

    [keep] walks through a computation; the steps that are particular to an
    invariant are solved by the hints of [keeps_db]. *)
Create HintDb keeps_db.

Ltac keep_handler :=
  let e := fresh "e" in let k := fresh "k" in let E := fresh "E" in
  intros e k E; repeat (case_match; simplify_eq/=).

Ltac keep_step :=
  match goal with
  | |- keeps _ (mret _) => apply keeps_ret
  | |- keeps _ (lift _) => apply keeps_lift
  | |- keeps _ (raise _) => apply keeps_raise
  | |- keeps _ (get _) => apply keeps_get
  | |- keeps _ _ => solve [eauto 2 with keeps_db]
  | |- keeps _ (when_run _ _) => apply keeps_when; intros ?
  | |- keeps _ (mbind _ _) => apply keeps_bind; [|intros ?]
  | |- keeps _ (try_except _ _) => apply keeps_try; [|keep_handler]
  | |- keeps _ (for_each_run _ _) => apply keeps_for_each; intros ? ?
  | |- keeps _ (match ?x with _ => _ end) => destruct x eqn:?
  end.

Ltac keep := repeat (cbn beta zeta; keep_step).
