(* ===== verification/Orchestrator.v ===== *)
(** * Orchestrator: policy-gated execution of a plan,
    [src/src/master_agent/orchestrator.py]

    [run_internal] is [WorkflowOrchestrator._run_internal]; [run] wraps it with
    performance counters, which are not modelled (they never change control
    flow), nor is the HTTP budget's effect inside a connector.  The egress
    policy of provider reads is the interface [ProviderEgress].  A repeated
    block of the source (append a report, note its state, audit it) is one
    definition here: [conclude], and [refuse] when compensation follows. *)

From S2P Require Import Prelude PyText PyJson PyHash PyTime PyStd ResourceLimits JsonCanonical PyJsonLoads.
From S2P Require Import ModelsBase PlatformIdentity ModelsSystems ModelsReviews ModelsAction ModelsBindings.
From S2P Require Import ModelsContext ActionGraph ModelsPlan ModelsResults Approvals Policy.
From S2P Require Import Capabilities Governance AuditLog PlannerGate Canonical Evidence Registry RunMonad.
From Stdlib Require Import Ascii.

Open Scope Z_scope.

(** ** The egress interface ([provider_egress.py])

    [P] is the organisation's model-context policy, [B] the binding one provider
    read is authorised under. *)
Class ProviderEgress (P B : Type) : Type := {
  bind_provider_data_egress : P → AgentAction → CapabilityDefinition
    → option ConnectorExecutionBinding → bool → string → result B;
  sanitize_provider_result : ExecutionResult → B → result ExecutionResult;
  provider_result_audit_summary : ExecutionResult → B → result dict;
  egress_to_dict : B → dict;
  egress_fingerprint : B → string;
}.

(** ** Except clauses *)

(** [except (ConnectorError, KeyError, OSError, RuntimeError, TypeError,
    ValueError)]. *)
Definition connector_failure (e : exn) : bool :=
  match e with
  | ConnectorError _ | PreEffectError _ | VersionConflictError _
  | StructuredDataTypeError _ | PyValueError _ | PyKeyError _ | PyTypeError _
  | PyRuntimeError _ | PyOSError _ => true
  | PySubclassError b _ _ =>
      bool_decide (b ∈ [ConnectorErrorBase; KeyErrorBase; OSErrorBase; RuntimeErrorBase;
                        TypeErrorBase; ValueErrorBase])
  | ValidationError _ | ConfigurationError _ | PyOtherError _ => false
  end.

(** The same clause with [ValidationError]. *)
Definition compensation_failure (e : exn) : bool :=
  match e with ValidationError _ => true | e => connector_failure e end.

(** [except (ConnectorError, KeyError, TypeError, ValueError)]. *)
Definition record_failure (e : exn) : bool :=
  match e with
  | PyOSError _ | PyRuntimeError _ => false
  | PySubclassError (OSErrorBase | RuntimeErrorBase) _ _ => false
  | e => connector_failure e
  end.

(** [except (OSError, RuntimeError, sqlite3.Error, ConfigurationError)]. *)
Definition persist_failure (e : exn) : bool :=
  match e with
  | PyOSError _ | PyRuntimeError _ | ConfigurationError _
  | PySubclassError (OSErrorBase | RuntimeErrorBase) _ _ => true
  | _ => false
  end.

(** [except (KeyError, MasterAgentError, OSError, OverflowError, RuntimeError,
    TypeError, ValueError)]. *)
Definition boundary_failure (e : exn) : bool :=
  match e with PyOtherError _ => false | _ => true end.

(** ** Pure helpers *)

Definition uses_idempotency (action : AgentAction) : bool :=
  negb (bool_decide (aa_risk action ∈ [READ_ONLY; LOCAL_GENERATION])).

Definition dependency_succeeded (dry_run : bool) (state : option ActionState) : bool :=
  bool_decide (state = Some VERIFIED) || bool_decide (state = Some REUSED)
  || (dry_run && bool_decide (state = Some PLANNED)).

Definition copy_execution_result (result_ : ExecutionResult) : result ExecutionResult :=
  validate_integrity result_;;
  ExecutionResult_post_init (er_action_id result_) (er_state result_) (er_before result_)
    (er_after result_) (er_connector_reference result_) (er_message result_)
    (er_compensation result_).

Definition validate_execution_result (action : AgentAction) (result_ : ExecutionResult)
    : result unit :=
  raise_if (negb (bool_decide (er_action_id result_ = aa_action_id action)))
    (ConnectorError "connector result action ID did not match the action");;
  validate_integrity result_;;
  raise_if (negb (bool_decide (er_state result_ = SUCCEEDED)))
    (ConnectorError "connector result must report succeeded before verification");;
  raise_if (bool_decide (aa_risk action = REVERSIBLE_WRITE)
            && negb (is_someb (er_compensation result_)))
    (ConnectorError "reversible connector result omitted a typed compensation descriptor").

Definition ALLOWED_SUFFIXES : list string :=
  ["_accepted"; "_count"; "_digest"; "_id"; "_reference"; "_status"; "_version"].

Definition check_record_entry (kv : string * json) : result unit :=
  let '(key, value) := kv in
  raise_if (negb (key =? "schema")%string
            && negb (existsb (λ suffix, str_endswith suffix key) ALLOWED_SUFFIXES))
    (StructuredDataTypeError "idempotency record contains content-bearing metadata");;
  match value with
  | JStr s => raise_if (2048 <? utf8_length s)
                (StructuredDataTypeError "idempotency record value is too large")
  | JBool _ | JInt _ | JNull => Ok tt
  | JFloat _ | JList _ | JDict _ =>
      Err (StructuredDataTypeError "idempotency record values must be scalar metadata")
  end.

Definition validate_idempotency_record (record : dict) : result dict :=
  for_each check_record_entry record;;
  raise_if (32 <? Z.of_nat (length record))
    (StructuredDataTypeError "idempotency record has too many fields");;
  Ok record.

Definition indeterminate_result (outcome : option dict) : option dict :=
  match outcome with
  | Some d => match dict_get d "result" with JDict r => Some r | _ => None end
  | None => None
  end.

(** ** Topological order *)

Section order.
Context (actions : list AgentAction).

(** [by_id[dependency]]. *)
Definition action_by_id (i : uuid) : result AgentAction :=
  or_raise (find_action actions i) (PyKeyError (uuid_str i)).

Definition done_ids (ordered : list AgentAction) : list uuid := map aa_action_id ordered.

(** [for dependency in action.dependencies: visit(by_id[dependency])]. *)
Fixpoint visit_dependencies (visit : list AgentAction → AgentAction → result (list AgentAction))
    (ordered : list AgentAction) (ds : list uuid) : result (list AgentAction) :=
  match ds with
  | [] => Ok ordered
  | d :: ds =>
      a ← action_by_id d;
      ordered ← visit ordered a;
      visit_dependencies visit ordered ds
  end.

(** [visit]: [visited] is always the set of the IDs of [ordered]; [depth]
    bounds the recursion. *)
Fixpoint visit_action (depth : nat) (ordered : list AgentAction) (action : AgentAction)
    : result (list AgentAction) :=
  match depth with
  | O => Err recursion_error
  | S depth =>
      if bool_decide (aa_action_id action ∈ done_ids ordered) then Ok ordered
      else
        ordered ← visit_dependencies (visit_action depth) ordered (aa_dependencies action);
        Ok (ordered ++ [action])
  end.

Fixpoint visit_actions (depth : nat) (ordered candidates : list AgentAction)
    : result (list AgentAction) :=
  match candidates with
  | [] => Ok ordered
  | a :: candidates =>
      ordered ← visit_action depth ordered a; visit_actions depth ordered candidates
  end.
End order.

Definition topological_order (actions : list AgentAction) : result (list AgentAction) :=
  visit_actions actions (S (length actions)) [] actions.

(** ** Messages and payloads *)

(** [f"{type(error).__name__}: {error}"]. *)
Definition described (e : exn) : string := exn_class e +:+ ": " +:+ exn_message e.

(** [str] of a list of UUIDs. *)
Definition uuids_repr (ids : list uuid) : string :=
  "[" +:+ str_join ", " (map (λ i, "UUID('" +:+ uuid_str i +:+ "')") ids) +:+ "]".

Definition KNOWN_SYSTEMS : list string :=
  ["bitbucket"; "confluence"; "github"; "identity"; "jira"; "microsoft"; "onenote";
   "outlook"; "reddit"; "repository"; "sharepoint"; "teams"; "other"].

Definition bounded_system (value : string) : string :=
  if bool_decide (value ∈ KNOWN_SYSTEMS) then value else "other".

(** The order of pairs of strings. *)
Definition pair_le (x y : string * string) : bool :=
  if (x.1 =? y.1)%string then str_le x.2 y.2 else str_le x.1 y.1.

Definition connector_implementations (context : ExecutionContext) : list json :=
  map (λ p : string * string, JDict [("system", JStr p.1); ("implementation", JStr p.2)])
    (sort_by pair_le (remove_dups
       (map (λ item, (bounded_system (ceb_system item), ceb_implementation item))
          (ec_connectors context)))).

Definition plan_started_payload (plan : ChangePlan) (assessment : SystemsAssessment)
    (decision : SystemsGateDecision) (dry_run : bool) : dict :=
  [("goal_digest", JStr (sha256 (cp_goal plan)));
   ("goal_length", JInt (len (cp_goal plan)));
   ("fingerprint", JStr (ChangePlan_fingerprint plan));
   ("dry_run", JBool dry_run);
   ("workflow_id", opt_json JStr (cp_workflow_id plan));
   ("workflow_fingerprint", opt_json JStr (cp_workflow_fingerprint plan));
   ("compensate_on_failure", JBool (cp_compensate_on_failure plan));
   ("systems_assessment_fingerprint", JStr (SystemsAssessment_fingerprint assessment));
   ("systems_decision_fingerprint", JStr (SystemsGateDecision_fingerprint decision));
   ("systems_route", JStr (enum_str (sd_route decision)));
   ("systems_complexity_score", JInt (sd_complexity_score decision))]
  ++ match cp_execution_context plan with
     | Some context =>
         match ec_connectors context with
         | [] => []
         | _ => [("connector_implementations", JList (connector_implementations context))]
         end
         ++ match ec_capsules context with
            | [] => []
            | cs => [("capsule_bindings", JList (map (λ c, JDict (CapsuleBinding_to_dict c)) cs))]
            end
     | None => []
     end.

(** ** The orchestrator *)

Section orchestrator.
Context {A P B W : Type} `{Authenticator A} `{ProviderEgress P B}.
Context (env : environment).
#[local] Abbreviation run := (run W B).
#[local] Abbreviation ActionReport := (ActionReport B).
#[local] Abbreviation Connector := (Connector W).
#[local] Abbreviation ExecutedAction := (ExecutedAction W).

Record WorkflowOrchestrator : Type := mk_WorkflowOrchestrator {
  wo_policy : PolicyEngine A;
  wo_sources : list SourceRule;
  wo_connectors : gmap string (list Connector);
  wo_capabilities : option (gmap string CapabilityDefinition);
  wo_governance : option (GovernanceProfile P);
  wo_pre_effect_guard : option (AgentAction → W → result unit * W);
  wo_systems_outcome_observer :
    option (SystemsAssessment → SystemsGateDecision → list ActionState
            → result SystemsOutcomeEvidence);
}.

Record RunReport : Type := mk_RunReport {
  rr_run_id : uuid;
  rr_plan_id : uuid;
  rr_plan_fingerprint : string;
  rr_dry_run : bool;
  rr_actions : list ActionReport;
  rr_systems_review : option SystemsPostExecutionReview;
}.

Definition successful (self : RunReport) : bool :=
  forallb (λ item, bool_decide (ar_state item ∈ [PLANNED; VERIFIED; REUSED])) (rr_actions self).

Definition compensated (self : RunReport) : bool :=
  existsb (λ item, bool_decide (ar_state item = COMPENSATED)) (rr_actions self).

Context (self : WorkflowOrchestrator).

(** *** Checks *)

Definition validate_governance (action : AgentAction) : result (bool * string) :=
  let passed := Ok (true, "capability passed catalog and governance checks") in
  match wo_governance self with
  | None => passed
  | Some governance =>
      let '(allowed, reason) := governance_validate_action governance action in
      if negb allowed then Ok (false, reason)
      else match wo_capabilities self with
           | None => passed
           | Some capabilities =>
               definition ← catalog_definition capabilities (aa_capability action);
               let '(allowed, reason) := validate_external_model governance action definition in
               if negb allowed then Ok (false, reason) else passed
           end
  end.

Definition validate_capability (action : AgentAction) : result (bool * string) :=
  match wo_capabilities self with
  | Some capabilities =>
      let '(allowed, reason) := catalog_validate_action capabilities action true in
      if negb allowed then Ok (false, reason) else validate_governance action
  | None => validate_governance action
  end.

Definition execution_connector_binding (plan : ChangePlan) (action : AgentAction)
    : option ConnectorExecutionBinding :=
  let system := rr_system (aa_target action) in
  let binding_system :=
    if bool_decide (system ∈ ["microsoft"; "sharepoint"; "outlook"; "teams"; "onenote"])
    then "microsoft" else system in
  List.find (λ item, (ceb_system item =? binding_system)%string)
    (match cp_execution_context plan with Some c => ec_connectors c | None => [] end).

Definition validate_execution_contract (plan : ChangePlan) (action : AgentAction)
    (connector : Connector) : result (bool * string) :=
  match wo_capabilities self with
  | None => Ok (true, "no capability catalog was configured")
  | Some capabilities =>
      let connector_mode :=
        match cp_execution_context plan with
        | Some context =>
            match ec_runtime context with
            | Some runtime => reb_connector_mode runtime
            | None => "live"
            end
        | None => "live"
        end in
      definition ← catalog_definition capabilities (aa_capability action);
      let provider_backed := negb (cap_authentication definition =? "local")%string in
      if provider_backed && (connector_mode =? "mock")%string && negb (con_is_mock connector)
      then Ok (false, "mock execution context requires a MockConnector")
      else if provider_backed && (connector_mode =? "live")%string && con_is_mock connector
      then Ok (false, "live execution context cannot use a MockConnector")
      else validate_execution capabilities action (con_view connector)
             (execution_connector_binding plan action) connector_mode
  end.

Definition provider_data_egress_binding (plan : ChangePlan) (action : AgentAction)
    (connector : Connector) : result (option B) :=
  if negb (bool_decide (aa_risk action = READ_ONLY)) then Ok None
  else
    match wo_capabilities self with
    | None =>
        if con_is_mock connector then Ok None
        else Err (ConfigurationError "provider reads require capability and governance policy")
    | Some capabilities =>
        definition ← catalog_definition capabilities (aa_capability action);
        if (cap_authentication definition =? "local")%string then Ok None
        else
          governance ← or_raise (wo_governance self)
            (ConfigurationError "provider reads require capability and governance policy");
          policy ← or_raise (gp_model_context governance)
            (ConfigurationError "provider reads require configured model-context policy");
          let connector_mode := if con_is_mock connector then "mock" else "live" in
          binding ← bind_provider_data_egress policy action definition
            (execution_connector_binding plan action)
            (is_someb (implemented_audit_sink (gp_audit_sink governance))) connector_mode;
          Ok (Some binding)
    end.

Definition minimum_approvers_of (action : AgentAction) : result Z :=
  match wo_governance self with
  | None => Ok 0
  | Some governance =>
      match minimum_approvers governance (aa_capability action) with
      | Err (ConfigurationError _) => Ok 1
      | r => r
      end
  end.

(** *** Reporting *)

Definition report_of (action : AgentAction) (state : ActionState) (message : string)
    : ActionReport :=
  mk_ActionReport (aa_action_id action) (aa_capability action) state message None None None.

Definition governed_read (action : AgentAction) : bool :=
  bool_decide (aa_risk action = READ_ONLY)
  && match wo_governance self with
     | Some governance => is_someb (gp_model_context governance)
     | None => false
     end.

Definition action_payload (action : AgentAction) (report : ActionReport) (extra : dict)
    : result dict :=
  let target := ResourceRef_uri (aa_target action) in
  let governed := governed_read action in
  summary ← match ar_result report, ar_egress report with
            | None, _ => Ok []
            | Some r, Some egress =>
                d ← provider_result_audit_summary r egress; Ok [("result", JDict d)]
            | Some r, None => d ← result_audit_summary r; Ok [("result", JDict d)]
            end;
  compensation ← match ar_compensation report with
                 | None => Ok []
                 | Some r => d ← result_audit_summary r; Ok [("compensation", JDict d)]
                 end;
  Ok ([("capability", JStr (aa_capability action));
       ("risk", JStr (enum_str (aa_risk action)));
       ("authority_source", JStr (enum_str (aa_authority_source action)));
       ("state", JStr (enum_str (ar_state report)))]
      ++ audit_message_metadata (ar_message report)
           ("action_" +:+ enum_str (ar_state report))
      ++ (if is_someb (ar_egress report) || governed
          then [("target_sha256", JStr (sha256 target))] else [])
      ++ match ar_egress report with
         | Some egress =>
             [("egress", JDict (egress_to_dict egress));
              ("egress_fingerprint", JStr (egress_fingerprint egress))]
         | None => if governed then [] else [("target", JStr target)]
         end
      ++ summary ++ compensation ++ extra).

Definition record_action (run_id : uuid) (plan : ChangePlan) (action : AgentAction)
    (report : ActionReport) (extra : dict) : run unit :=
  payload ← lift (action_payload action report extra);
  record_event env run_id (cp_plan_id plan) (Some (aa_action_id action)) "action_state" payload.

(** [reports.append(report); state_by_id[...] = report.state;
    self._record_action(...)]. *)
Definition conclude_with (run_id : uuid) (plan : ChangePlan) (action : AgentAction)
    (report : ActionReport) (extra : dict) : run unit :=
  assign (set_reports (λ l, l ++ [report]));;
  assign (set_state_of (aa_action_id action) (ar_state report));;
  record_action run_id plan action report extra.

Definition conclude (run_id : uuid) (plan : ChangePlan) (action : AgentAction)
    (report : ActionReport) : run unit :=
  conclude_with run_id plan action report [].

(** *** Compensation *)

Definition compensation_report (item : ExecutedAction) (state : ActionState) (message : string)
    (compensation : option ExecutionResult) : ActionReport :=
  mk_ActionReport (aa_action_id (xa_action item)) (aa_capability (xa_action item)) state message
    (Some (xa_result item)) compensation None.

(** Put the report in its place and audit it. *)
Definition settle_report (run_id : uuid) (plan : ChangePlan) (item : ExecutedAction)
    (report : ActionReport) : run unit :=
  replace_report (xa_report_index item) report;;
  record_action run_id plan (xa_action item) report [].

(** The calls of one automatic compensation, up to its verified report. *)
Definition compensate_verified (item : ExecutedAction)
    (compensate_ : AgentAction → ExecutionResult → W → result ExecutionResult * W)
    (verify_ : AgentAction → ExecutionResult → ExecutionResult → W
               → result VerificationResult * W) : run unit :=
  let action := xa_action item in
  snapshot ← lift (copy_execution_result (xa_result item));
  postcondition ← provider (CallVerify action snapshot) ReplyVerification
    (con_verify (xa_connector item) action snapshot);
  lift (raise_if (negb (vr_verified postcondition))
    (VersionConflictError "automatic compensation refused because the target no longer matches the agent's verified post-state"));;
  snapshot ← lift (copy_execution_result (xa_result item));
  compensation ← provider (CallCompensate action snapshot) ReplyResult
    (compensate_ action snapshot);
  original ← lift (copy_execution_result (xa_result item));
  reversal ← lift (copy_execution_result compensation);
  verification ← provider (CallVerifyCompensation action original reversal) ReplyVerification
    (verify_ action original reversal);
  lift (raise_if (negb (vr_verified verification))
    (PyRuntimeError ("compensation verification failed: " +:+ vr_message verification)));;
  replace_report (xa_report_index item)
    (compensation_report item COMPENSATED
       ("compensated and verified: " +:+ vr_message verification) (Some compensation));;
  audit (OpClear (aa_idempotency_key action) (Some (AgentAction_effect_fingerprint action)))
    as_unit.

Definition failed_compensation (item : ExecutedAction) (message : string) : ActionReport :=
  compensation_report item COMPENSATION_FAILED message None.

(** [reports[item.report_index]]. *)
Definition current_report (item : ExecutedAction) : run ActionReport :=
  reports ← get rv_reports;
  lift (or_raise (reports !! xa_report_index item) (PyOtherError "list index out of range")).

Definition compensate_item (run_id : uuid) (plan : ChangePlan) (item : ExecutedAction)
    : run unit :=
  let refuse message := settle_report run_id plan item (failed_compensation item message) in
  match validate_integrity (xa_result item) with
  | Err (ValidationError message) => refuse ("compensation refused: " +:+ message)
  | Err e => raise e
  | Ok _ =>
      match er_compensation (xa_result item), con_compensation (xa_connector item) with
      | None, _ => refuse "reversible result omitted its compensation descriptor"
      | Some descriptor, operations =>
          if bool_decide (cd_mode descriptor = MANUAL)
          then refuse ("automatic compensation is unavailable: "
                       +:+ match cd_reason descriptor with
                           | Some reason => if (reason =? "")%string then cd_kind descriptor
                                            else reason
                           | None => cd_kind descriptor
                           end)
          else
            match operations with
            | None => refuse "connector does not implement verified compensation"
            | Some (compensate_, verify_) =>
                try_except (compensate_verified item compensate_ verify_)
                  (λ e, if compensation_failure e
                        then Some (replace_report (xa_report_index item)
                               (failed_compensation item
                                  ("compensation failed: " +:+ described e)))
                        else None);;
                report ← current_report item;
                record_action run_id plan (xa_action item) report []
            end
      end
  end.

(** [{key: value for ...}]. *)
Definition states_payload (states : list (uuid * ActionState)) : json :=
  JDict (dict_of_pairs (map (λ p : uuid * ActionState, (uuid_str p.1, JStr (enum_str p.2))) states)).

Fixpoint item_states (items : list ExecutedAction) : run (list (uuid * ActionState)) :=
  match items with
  | [] => mret []
  | item :: items =>
      report ← current_report item;
      states ← item_states items;
      mret ((aa_action_id (xa_action item), ar_state report) :: states)
  end.

Definition maybe_compensate (run_id : uuid) (plan : ChangePlan) (dry_run : bool) : run bool :=
  executed ← get rv_executed;
  if dry_run || negb (cp_compensate_on_failure plan)
     || match executed with [] => true | _ => false end
  then mret false
  else
    record_event env run_id (cp_plan_id plan) None "compensation_started"
      [("action_count", JInt (Z.of_nat (length executed)))];;
    for_each_run (compensate_item run_id plan) (rev executed);;
    states ← item_states executed;
    record_event env run_id (cp_plan_id plan) None "compensation_finished"
      [("states", states_payload states)];;
    assign (set_executed (λ _, []));;
    mret true.

(** [abort_remaining = self._maybe_compensate(...)]. *)
Definition compensate_and_stop (run_id : uuid) (plan : ChangePlan) (dry_run : bool) : run unit :=
  stop ← maybe_compensate run_id plan dry_run; assign (set_abort stop).

(** Report an action that did not run, then compensate what did. *)
Definition refuse (run_id : uuid) (plan : ChangePlan) (dry_run : bool) (action : AgentAction)
    (state : ActionState) (message : string) : run unit :=
  conclude run_id plan action (report_of action state message);;
  compensate_and_stop run_id plan dry_run.

(** *** The idempotency ledger *)

Definition idempotency_record (connector : option Connector) (action : AgentAction)
    (result_ : ExecutionResult) : run dict :=
  match connector ≫= con_idempotency_record with
  | None => lift (result_audit_summary result_)
  | Some f =>
      try_except
        (record ← provider (CallIdempotencyRecord action result_) ReplyRecord (f action result_);
         lift (validate_idempotency_record record))
        (λ e, if record_failure e then Some (lift (result_audit_summary result_)) else None)
  end.

(** [_persist_idempotency_outcome]; [certified] when the state is FAILED, else
    it is INDETERMINATE (there is no other caller). *)
Definition persist_idempotency_outcome (action : AgentAction) (claim_token : option string)
    (certified : bool) (message : string) (result_ : option ExecutionResult)
    (connector : option Connector) : run bool :=
  match claim_token with
  | None => mret true
  | Some token =>
      let error := JDict (audit_message_metadata message
        (if certified then "action_failed" else "action_indeterminate")) in
      record ← match result_ with
               | Some r => d ← idempotency_record connector action r; mret [("result", JDict d)]
               | None => mret []
               end;
      let outcome := [("error", error)] ++ record in
      let key := aa_idempotency_key action in
      let fingerprint := AgentAction_effect_fingerprint action in
      try_except
        (t ← now env;
         audit (if certified then OpFail key fingerprint token outcome t
                else OpIndeterminate key fingerprint token outcome t) as_unit;;
         mret true)
        (λ e, if persist_failure e then Some (mret false) else None)
  end.

(** *** One attempt of a permitted action

    [attempt] is the body of the [try] statement; [None] is Python's
    [continue]: the action is already reported. *)

Section attempt.
Context (run_id : uuid) (plan : ChangePlan) (dry_run : bool) (action : AgentAction).
#[local] Abbreviation key := (aa_idempotency_key action).
#[local] Abbreviation fingerprint := (AgentAction_effect_fingerprint action).
#[local] Abbreviation refuse_action := (refuse run_id plan dry_run action).

(** The prior completion: reverified with the provider, or a conflict. *)
Definition reuse_completed (connector : Connector) (prior : dict) : run unit :=
  match con_verify_completed connector with
  | None =>
      refuse_action CONFLICTED
        "prior idempotent completion cannot be independently reverified by this connector"
  | Some f =>
      verification ← try_except
        (v ← provider (CallVerifyCompleted action prior) ReplyVerification (f action prior);
         mret (inl v))
        (λ e, if connector_failure e then Some (mret (inr (exn_class e))) else None);
      match verification with
      | inr cls =>
          refuse_action CONFLICTED
            ("prior idempotent completion could not be independently reverified: " +:+ cls)
      | inl v =>
          if negb (vr_verified v)
          then refuse_action CONFLICTED
                 ("prior idempotent effect no longer verifies: " +:+ vr_message v)
          else
            conclude_with run_id plan action
              (report_of action REUSED
                 "the same idempotent action already completed; verified result metadata reused")
              [("prior_result", JDict prior)]
      end
  end.

(** The reconciliation of an indeterminate outcome: [None] when it succeeded
    and was reported, else why it did not. *)
Definition reconcile (connector : Connector) (outcome : dict)
    : run (option (option string)) :=
  match indeterminate_result (Some outcome), con_verify_completed connector with
  | Some record, Some f =>
      try_except
        (v ← provider (CallVerifyCompleted action record) ReplyVerification (f action record);
         if vr_verified v
         then
           t ← now env;
           audit (OpResolve key fingerprint outcome record t) as_unit;;
           conclude_with run_id plan action
             (report_of action REUSED
                "durable indeterminate outcome was independently reconciled against provider state")
             [("prior_result", JDict record)];;
           mret None
         else mret (Some (Some (vr_message v))))
        (λ e, if connector_failure e then Some (mret (Some (Some (exn_class e)))) else None)
  | _, _ => mret (Some None)
  end.

Definition resolve_indeterminate (connector : Connector) (outcome : dict) : run unit :=
  failure ← reconcile connector outcome;
  match failure with
  | None => mret tt
  | Some why =>
      refuse_action CONFLICTED
        ("idempotent action has a durable indeterminate outcome; provider reconciliation or operator resolution is required before retry"
         +:+ match why with
             | Some message => "; reconciliation did not verify: " +:+ message
             | None => ""
             end)
  end.

(** Reserve the idempotency key: [true] when the action may run. *)
Definition claim_key (connector : Connector) : run bool :=
  token ← uuid4 env;
  t ← now env;
  claim ← audit (OpClaim key fingerprint (cp_plan_id plan) (aa_action_id action)
                   (uuid_str token) t) as_claim;
  match ic_state claim with
  | CLAIM_COMPLETED =>
      reuse_completed connector (default [] (ic_result claim));; mret false
  | CLAIM_CONFLICT =>
      refuse_action CONFLICTED "idempotency key is bound to a different action effect";;
      mret false
  | CLAIM_IN_PROGRESS =>
      refuse_action CONFLICTED "idempotent action is already in progress";; mret false
  | CLAIM_INDETERMINATE =>
      resolve_indeterminate connector (default [] (ic_result claim));; mret false
  | CLAIM_CLAIMED | CLAIM_FAILED =>
      assign (set_claim_token (ic_token claim));;
      lift (raise_if (negb (is_someb (ic_token claim)))
        (PyRuntimeError "idempotency claim omitted its token"));;
      mret true
  end.

(** What the runtime keeps of an effect: an audit event, a private snapshot, and
    the means to compensate it. *)
Definition retain_effect (connector : Connector) (budget : option HttpActionBudget)
    (result_ : ExecutionResult) : run ExecutionResult :=
  assign (set_result (Some result_));;
  when_run (uses_idempotency action)
    (summary ← lift (result_audit_summary result_);
     record_event env run_id (cp_plan_id plan) (Some (aa_action_id action))
       "side_effect_may_have_occurred"
       [("capability", JStr (aa_capability action)); ("result", JDict summary)]);;
  result_ ← lift (copy_execution_result result_);
  assign (set_result (Some result_));;
  when_run (bool_decide (aa_risk action = REVERSIBLE_WRITE))
    (reports ← get rv_reports;
     assign (set_executed (λ l,
       l ++ [mk_ExecutedAction action connector result_ (length reports) budget])));;
  lift (validate_execution_result action result_);;
  mret result_.

(** The egress check repeated before a provider read is returned: the message
    of the [ConfigurationError], if any. *)
Definition recheck_egress (connector : Connector) (result_ : ExecutionResult)
    (egress : B) : run (option string) :=
  try_except
    ('(ok, reason) ← lift (validate_execution_contract plan action connector);
     lift (raise_if (negb ok) (ConfigurationError reason));;
     rechecked ← lift (provider_data_egress_binding plan action connector);
     lift (raise_if (match rechecked with
                     | Some b => negb (egress_fingerprint b =? egress_fingerprint egress)%string
                     | None => true
                     end)
       (ConfigurationError "provider-data egress binding changed before result return"));;
     sanitized ← lift (sanitize_provider_result result_ egress);
     assign (set_result (Some sanitized));;
     mret None)
    (λ e, match e with ConfigurationError m => Some (mret (Some m)) | _ => None end).

Definition with_result (report : ActionReport) (result_ : option ExecutionResult)
    (egress : option B) : ActionReport :=
  mk_ActionReport (ar_action_id report) (ar_capability report) (ar_state report)
    (ar_message report) result_ (ar_compensation report) egress.

(** The report of an effect whose verification failed. *)
Definition unverified_report (connector : Connector) (result_ : ExecutionResult)
    (message : string) : run ActionReport :=
  claim_token ← get rv_claim_token;
  persisted ← persist_idempotency_outcome action claim_token false message (Some result_)
    (Some connector);
  mret (with_result
    (report_of action INDETERMINATE
       ("connector may have produced a side effect but verification failed: " +:+ message
        +:+ (if (persisted : bool) then "" else "; durable outcome could not be finalized")))
    (Some result_) None).

(** The report of a verified effect, which completes the claim. *)
Definition verified_report (connector : Connector) (verification : VerificationResult)
    : run ActionReport :=
  egress ← get rv_egress;
  result_ ← get rv_result;
  result_ ← lift (or_raise result_ (PyOtherError "no result"));
  recheck_error ← match egress with
                  | Some e => recheck_egress connector result_ e
                  | None => mret None
                  end;
  result_ ← get rv_result;
  let report :=
    with_result
      (report_of action (if is_someb recheck_error then FAILED else VERIFIED)
         (if is_someb recheck_error
          then "provider-data egress binding changed before result return"
          else if is_someb egress then "provider read independently verified"
          else vr_message verification))
      (if is_someb recheck_error then None else result_) egress in
  when_run (uses_idempotency action)
    (result_ ← lift (or_raise result_ (PyOtherError "no result"));
     record ← idempotency_record (Some connector) action result_;
     claim_token ← get rv_claim_token;
     t ← now env;
     audit (OpComplete key fingerprint (default "" claim_token) record t) as_unit);;
  mret report.

Definition verify_effect (connector : Connector) (result_ : ExecutionResult)
    : run ActionReport :=
  snapshot ← lift (copy_execution_result result_);
  verification ← provider (CallVerify action snapshot) ReplyVerification
    (con_verify connector action snapshot);
  if negb (vr_verified verification)
  then unverified_report connector result_ (vr_message verification)
  else verified_report connector verification.

Definition dispatch (connector : Connector) (budget : option HttpActionBudget)
    : run ActionReport :=
  result_ ← provider (CallExecute action) ReplyResult (con_execute connector action);
  result_ ← retain_effect connector budget result_;
  verify_effect connector result_.

(** The egress authorisation of a provider read: the message of the
    [ConfigurationError] that refuses it, if any. *)
Definition authorize_egress (connector : Connector) : run (option string) :=
  try_except
    (egress ← lift (provider_data_egress_binding plan action connector);
     assign (set_egress egress);; mret None)
    (λ e, match e with ConfigurationError m => Some (mret (Some m)) | _ => None end).

Definition record_egress : run unit :=
  egress ← get rv_egress;
  match egress with
  | Some e =>
      record_event env run_id (cp_plan_id plan) (Some (aa_action_id action))
        "provider_data_egress_authorized"
        [("egress", JDict (egress_to_dict e)); ("egress_fingerprint", JStr (egress_fingerprint e))]
  | None => mret tt
  end.

Definition pre_effect_guard : run unit :=
  match wo_pre_effect_guard self with
  | Some guard =>
      when_run (uses_idempotency action)
        (provider (CallGuard action) ReplyGuard (guard action))
  | None => mret tt
  end.

Definition attempt : run (option ActionReport) :=
  connector ← lift (resolve (wo_connectors self) (rr_system (aa_target action))
                      (Some (aa_capability action)));
  assign (set_connector (Some connector));;
  '(execution_ok, execution_reason) ← lift (validate_execution_contract plan action connector);
  if negb execution_ok
  then refuse_action PROHIBITED execution_reason;; mret None
  else
  refused ← authorize_egress connector;
  match refused with
  | Some message => refuse_action PROHIBITED message;; mret None
  | None =>
      record_egress;;
      budget ← lift (connector_http_action_budget connector);
      proceed ← (if uses_idempotency action then claim_key connector else mret true);
      if negb proceed then mret None
      else
        pre_effect_guard;;
        report ← dispatch connector budget;
        mret (Some report)
  end.

(** *** Failures of the attempt *)

(** The handler of [VersionConflictError] and [PreEffectError]: a failure
    before the effect is certified as failed, one after it is indeterminate. *)
Definition certified_failure (state : ActionState) (message after_effect : string)
    : run ActionReport :=
  result_ ← get rv_result;
  claim_token ← get rv_claim_token;
  connector ← get rv_connector;
  persisted ← match result_, claim_token with
              | None, None => mret true
              | None, Some _ =>
                  persist_idempotency_outcome action claim_token true message None connector
              | Some r, Some _ =>
                  persist_idempotency_outcome action claim_token false message (Some r) connector;;
                  mret false
              | Some _, None => mret false
              end;
  mret (with_result
    (report_of action (if (persisted : bool) then state else INDETERMINATE)
       (message +:+ (if persisted then ""
                     else if is_someb result_ then after_effect
                     else "; durable failure outcome could not be recorded")))
    result_ None).

Definition uncertain_failure (e : exn) : run ActionReport :=
  result_ ← get rv_result;
  claim_token ← get rv_claim_token;
  connector ← get rv_connector;
  persisted ← persist_idempotency_outcome action claim_token false (described e) result_ connector;
  mret (with_result
    (report_of action
       (if is_someb result_ || is_someb claim_token then INDETERMINATE else FAILED)
       (described e +:+ (if (persisted : bool) then ""
                         else "; durable outcome could not be finalized")))
    result_ None).

Definition attempt_failure (e : exn) : option (run (option ActionReport)) :=
  match e with
  | VersionConflictError message =>
      Some (report ← certified_failure CONFLICTED message
              "; conflict occurred after connector execution";
            mret (Some report))
  | PreEffectError _ =>
      Some (report ← certified_failure FAILED (described e)
              "; exception occurred after connector execution";
            mret (Some report))
  | e =>
      if boundary_failure e
      then Some (report ← uncertain_failure e; mret (Some report)) else None
  end.

(** A failed provider read reports nothing but its state. *)
Definition hide_failed_read (egress : option B) (report : ActionReport) : ActionReport :=
  match egress with
  | Some e =>
      if bool_decide (ar_state report = VERIFIED) then report
      else mk_ActionReport (ar_action_id report) (ar_capability report) (ar_state report)
             ("provider read failed after egress authorization: "
              +:+ enum_str (ar_state report)) None None (Some e)
  | None => report
  end.

Definition execute_permitted : run unit :=
  assign reset_attempt;;
  outcome ← try_except attempt attempt_failure;
  match outcome with
  | None => mret tt
  | Some report =>
      egress ← get rv_egress;
      let report := hide_failed_read egress report in
      conclude run_id plan action report;;
      when_run (bool_decide (ar_state report ∈ [FAILED; CONFLICTED; PROHIBITED;
                                                APPROVAL_REQUIRED; INDETERMINATE]))
        (compensate_and_stop run_id plan dry_run)
  end.
End attempt.

(** *** The loop over the plan *)

Section loop.
Context (run_id : uuid) (plan : ChangePlan) (approvals : list Approval) (dry_run : bool).
Context (coherence_approval_required : bool).

(** An action of a plan whose strategy review is not authenticated. *)
Definition review_required (action : AgentAction) : run unit :=
  '(source_ok, source_reason) ← lift (source_validate (wo_sources self) plan action);
  conclude run_id plan action
    (if (source_ok : bool)
     then report_of action APPROVAL_REQUIRED
            "authenticated whole-plan strategy coherence review is required"
     else report_of action PROHIBITED source_reason).

Definition failed_dependencies (action : AgentAction) : run (list uuid) :=
  states ← get rv_state_by_id;
  mret (List.filter (λ d, negb (dependency_succeeded dry_run (states !! d)))
          (aa_dependencies action)).

Definition decide_action (action : AgentAction) : run unit :=
  '(source_ok, source_reason) ← lift (source_validate (wo_sources self) plan action);
  if negb source_ok
  then refuse run_id plan dry_run action PROHIBITED source_reason
  else
    minimum ← lift (minimum_approvers_of action);
    t ← now env;
    decision ← lift (evaluate (wo_policy self) plan action approvals t minimum);
    if negb (pd_permitted decision)
    then refuse run_id plan dry_run action
           (if pd_approval_required decision then APPROVAL_REQUIRED else PROHIBITED)
           (pd_reason decision)
    else if dry_run
    then conclude run_id plan action
           (report_of action PLANNED ("permitted dry run: " +:+ pd_reason decision))
    else execute_permitted run_id plan dry_run action.

Definition process_action (action : AgentAction) : run unit :=
  abort_remaining ← get rv_abort_remaining;
  if (abort_remaining : bool)
  then conclude run_id plan action
         (report_of action SKIPPED "plan stopped after a failure and compensation attempt")
  else
    '(catalog_ok, catalog_reason) ← lift (validate_capability action);
    if negb catalog_ok
    then refuse run_id plan dry_run action PROHIBITED catalog_reason
    else if coherence_approval_required then review_required action
    else
      failed ← failed_dependencies action;
      match failed with
      | _ :: _ =>
          conclude run_id plan action
            (report_of action SKIPPED ("dependencies did not succeed: " +:+ uuids_repr failed))
      | [] => decide_action action
      end.
End loop.

(** *** The run *)

Definition plan_finished_payload (reports : list ActionReport)
    (review : SystemsPostExecutionReview) : dict :=
  [("states", states_payload (map (λ r, (ar_action_id r, ar_state r)) reports));
   ("compensated", JBool (existsb (λ r, bool_decide (ar_state r = COMPENSATED)) reports));
   ("systems_review", JDict (SystemsPostExecutionReview_to_dict review))].

(** The admission of a plan: its snapshot, assessment, decision, and whether an
    authenticated review of its strategy is still missing. *)
Definition admit_plan (plan : ChangePlan) (approvals : list Approval) (dry_run : bool)
    : run (ChangePlan * SystemsAssessment * SystemsGateDecision * bool) :=
  plan ← lift (execution_snapshot plan);
  t ← now env;
  systems_decision ← lift (enforce_systems_governance plan None (Some (wo_policy self))
                             approvals false t);
  t ← now env;
  required ← (if dry_run then mret false
              else authenticated ← lift (strategy_coherence_execution_authenticated plan
                     (Some (wo_policy self)) approvals t);
                   mret (negb authenticated));
  assessment ← lift (or_raise (cp_systems_assessment plan)
    (ValidationError "plan is missing a systems governance assessment"));
  mret (plan, assessment, systems_decision, required).

Definition run_internal (plan : ChangePlan) (approvals : list Approval) (dry_run : bool)
    : run RunReport :=
  '(plan, systems_assessment, systems_decision, coherence_approval_required) ←
    admit_plan plan approvals dry_run;
  run_id ← uuid4 env;
  ordered ← lift (topological_order (cp_actions plan));
  record_event env run_id (cp_plan_id plan) None "plan_started"
    (plan_started_payload plan systems_assessment systems_decision dry_run);;
  for_each_run (process_action run_id plan approvals dry_run coherence_approval_required) ordered;;
  reports ← get rv_reports;
  systems_review ← lift (build_systems_post_execution_review systems_assessment systems_decision
    (map ar_state reports) dry_run (wo_systems_outcome_observer self));
  record_event env run_id (cp_plan_id plan) None "plan_finished"
    (plan_finished_payload reports systems_review);;
  mret (mk_RunReport run_id (cp_plan_id plan) (ChangePlan_fingerprint plan) dry_run reports
          (Some systems_review)).

(** [authenticated_approvals]: the receipt evidence of a plan. *)
Definition orchestrator_authenticated_approvals (plan : ChangePlan) (approvals : list Approval)
    (now : datetime) : result (list (Approval * text)) :=
  data ← ChangePlan_to_dict plan;
  snapshot ← ChangePlan_from_dict data;
  authenticated_approvals (wo_policy self) snapshot approvals now.
End orchestrator.
