(* ===== verification/EgressRuntime.v ===== *)
(** * EgressRuntime: the orchestrator's provider-data boundary

    The calls of [provider_egress] that [WorkflowOrchestrator] makes, as the
    instance of the interface its runs are proved against: an authorisation is
    always asked for on the audited route. *)

From S2P Require Import Prelude PyJson ModelsBase ModelsAction ModelsBindings ModelsResults.
From S2P Require Import Capabilities Orchestrator EgressPolicy EgressBinding EgressSanitize.

#[export] Instance provider_egress
    : ProviderEgress ProviderDataEgressPolicy ProviderDataEgressBinding := {
  bind_provider_data_egress policy action definition connector_binding audit_available mode :=
    bind_egress policy action definition connector_binding AUDITED audit_available mode;
  sanitize_provider_result result_ binding := sanitize_result binding result_;
  provider_result_audit_summary result_ binding := Ok (result_egress_summary binding result_);
  egress_to_dict := binding_to_dict;
  egress_fingerprint := binding_fingerprint }.
