(* ===== verification/DirectRead.v ===== *)
(** * DirectRead: ephemeral provider reads, [src/src/master_agent/direct_read.py]

    A session executes a plan of reads of one provider for a direct user, with no
    audit log.  Its steps are those of the run monad: the world of the provider,
    the clock and the trace of the connector calls; the database stays as it is.
    The performance counters are not modelled, nor the HTTP budget's effect inside
    a connector.  Which connectors are built in, by their exact class, is an
    argument of [direct_read_session]. *)

From S2P Require Import Prelude PyText PyJson PyHash PyTime PyStd ResourceLimits ModelsBase PlatformIdentity ModelsSystems ModelsReviews.
From S2P Require Import ModelsAction ModelsBindings ModelsContext ModelsPlan ModelsResults Approvals Policy.
From S2P Require Import Capabilities Governance PlannerGate Canonical Registry RunMonad Orchestrator.
From S2P Require Import EgressPolicy EgressBinding EgressSanitize.
From Stdlib Require Import Ascii.

Open Scope Z_scope.

(** ** Reports *)

Record DirectReadPayload : Type := mk_DirectReadPayload {
  dp_data : dict;
  dp_connector_reference : option string;
}.

Definition DirectReadPayload_post_init (self : DirectReadPayload) : result DirectReadPayload :=
  data ← freeze_json_mapping (dp_data self);
  Ok (mk_DirectReadPayload data (dp_connector_reference self)).

Definition DirectReadPayload_to_dict (self : DirectReadPayload) : dict :=
  [("data", JDict (dp_data self));
   ("connector_reference", opt_json JStr (dp_connector_reference self))].

Record DirectReadVerification : Type := mk_DirectReadVerification {
  dv_verified : bool;
  dv_observed : option dict;
  dv_message : string;
}.

Definition DirectReadVerification_post_init (self : DirectReadVerification)
    : result DirectReadVerification :=
  match dv_observed self with
  | None => Ok self
  | Some d =>
      observed ← freeze_json_mapping d;
      Ok (mk_DirectReadVerification (dv_verified self) (Some observed) (dv_message self))
  end.

Definition DirectReadVerification_to_dict (self : DirectReadVerification) : dict :=
  [("verified", JBool (dv_verified self)); ("observed", opt_json JDict (dv_observed self));
   ("message", JStr (dv_message self))].

Record DirectReadActionReport : Type := mk_DirectReadActionReport {
  dar_action_id : uuid;
  dar_capability : string;
  dar_state : ActionState;
  dar_message : string;
  dar_payload : DirectReadPayload;
  dar_verification : DirectReadVerification;
  dar_egress : ProviderDataEgressBinding;
}.

Definition DirectReadActionReport_post_init (self : DirectReadActionReport)
    : result DirectReadActionReport :=
  raise_if (negb (bool_decide (dar_state self = VERIFIED)))
    (PyValueError "direct read action reports must be verified");;
  raise_if (negb (dv_verified (dar_verification self)))
    (PyValueError "direct read action reports require verified evidence");;
  Ok self.

Definition DirectReadActionReport_to_dict (self : DirectReadActionReport) : dict :=
  [("action_id", JStr (uuid_str (dar_action_id self)));
   ("capability", JStr (dar_capability self));
   ("state", JStr (enum_str (dar_state self)));
   ("message", JStr (dar_message self));
   ("payload", JDict (DirectReadPayload_to_dict (dar_payload self)));
   ("verification", JDict (DirectReadVerification_to_dict (dar_verification self)));
   ("egress", JDict (binding_to_dict (dar_egress self)))].

Record DirectReadReport : Type := mk_DirectReadReport {
  drr_plan_id : uuid;
  drr_plan_fingerprint : string;
  drr_provider : string;
  drr_actions : list DirectReadActionReport;
  drr_systems_review : SystemsPostExecutionReview;
  drr_schema : string;
}.

Definition DirectReadReport_post_init (self : DirectReadReport) : result DirectReadReport :=
  raise_if (negb (drr_schema self =? "master-agent/direct-read-report@1")%string)
    (PyValueError "unsupported direct read report schema");;
  raise_if (is_blank (drr_provider self))
    (PyValueError "direct read report provider must not be empty");;
  raise_if (match drr_actions self with [] => true | _ => false end)
    (PyValueError "direct read report must contain at least one action");;
  Ok self.

Definition direct_successful (self : DirectReadReport) : bool :=
  forallb (λ a, bool_decide (dar_state a = VERIFIED) && dv_verified (dar_verification a))
    (drr_actions self).

Definition direct_payloads (self : DirectReadReport) : list DirectReadPayload :=
  map dar_payload (drr_actions self).

Definition DirectReadReport_to_dict (self : DirectReadReport) : dict :=
  [("schema", JStr (drr_schema self));
   ("plan_id", JStr (uuid_str (drr_plan_id self)));
   ("plan_fingerprint", JStr (drr_plan_fingerprint self));
   ("provider", JStr (drr_provider self));
   ("successful", JBool (direct_successful self));
   ("actions", JList (map (λ a, JDict (DirectReadActionReport_to_dict a)) (drr_actions self)));
   ("systems_review", JDict (SystemsPostExecutionReview_to_dict (drr_systems_review self)))].

(** ** The shape of the session *)

(** One action of a direct session. *)
Definition check_direct_action (action : AgentAction) : result unit :=
  raise_if (negb (bool_decide (aa_risk action = READ_ONLY)))
    (ConfigurationError "direct read sessions permit read-only actions only");;
  raise_if (negb (bool_decide (aa_authority_source action = DIRECT_USER)))
    (ConfigurationError "direct read sessions require direct-user authority");;
  raise_if (aa_requires_approval action)
    (ConfigurationError "direct read sessions cannot carry approval-required actions").

Definition validate_unbound_session_shape (plan : ChangePlan) : result string :=
  match cp_execution_context plan with
  | Some context =>
      raise_if (negb (bool_decide (ec_plugins context = [])))
        (ConfigurationError "direct read sessions cannot execute plugins");;
      raise_if (negb (bool_decide (ec_capsules context = [])))
        (ConfigurationError "direct read sessions cannot execute capability capsules");;
      Err (ConfigurationError "direct read sessions must not use a persisted execution context")
  | None =>
      raise_if (is_someb (cp_workflow_id plan) || is_someb (cp_workflow_fingerprint plan))
        (ConfigurationError "direct read sessions cannot execute a registered workflow");;
      raise_if (cp_compensate_on_failure plan)
        (ConfigurationError "direct read sessions cannot request compensation");;
      match remove_dups (map (λ a, rr_system (aa_target a)) (cp_actions plan)) with
      | [provider] => for_each check_direct_action (cp_actions plan);; Ok provider
      | _ => Err (ConfigurationError "direct read sessions require exactly one provider")
      end
  end.

(** ** Endpoints *)

Definition binding_system_for (system : string) : string :=
  if bool_decide (system ∈ ["microsoft"; "sharepoint"; "outlook"; "teams"; "onenote"])
  then "microsoft" else system.

Definition validate_binding_endpoint (binding : ConnectorExecutionBinding) : result unit :=
  parsed ← urlsplit (ceb_resolved_base_url binding);
  let hostname := rstrip_by (λ c, (c =? ".")%char) (str_lower (url_hostname parsed)) in
  raise_if (negb (url_scheme parsed =? "https")%string || (hostname =? "")%string
            || url_has_userinfo parsed || negb (url_query parsed =? "")%string
            || negb (url_fragment parsed =? "")%string)
    (ConfigurationError "direct read execution binding must use an HTTPS provider endpoint");;
  port ← reraise (url_port parsed) (λ e,
    match e with
    | PyValueError _ =>
        Some (ConfigurationError
                "direct read execution binding has an invalid provider endpoint port")
    | _ => None
    end);
  let rendered_host := if str_in ":" hostname then "[" +:+ hostname +:+ "]" else hostname in
  let rendered_host := match port with
                       | Some p => if p =? 443 then rendered_host
                                   else rendered_host +:+ ":" +:+ pretty p
                       | None => rendered_host
                       end in
  raise_if (negb (ceb_resolved_origin binding =? "https://" +:+ rendered_host)%string)
    (ConfigurationError
       "direct read execution binding origin does not match its provider endpoint").

(** [has_config]: the connector has a resolved configuration. *)
Definition validate_connector_endpoint (has_config : bool) (c : ConnectorView)
    (binding : ConnectorExecutionBinding) : result unit :=
  raise_if (negb has_config)
    (ConfigurationError "direct read connector has no resolved configuration");;
  raise_if (negb (bool_decide (cv_implementation c = Some (ceb_implementation binding))))
    (ConfigurationError
       "resolved connector implementation drifted from the direct read binding");;
  raise_if (default "" (cv_base_url c) =? "")%string
    (ConfigurationError "direct read connector has no resolved provider endpoint");;
  raise_if (negb (bool_decide (cv_base_url c = Some (ceb_resolved_base_url binding))))
    (ConfigurationError "resolved connector endpoint drifted from the direct read binding");;
  raise_if ((is_someb (cv_ca_bundle c) || is_someb (cv_ca_bundle_sha256 c)
             || is_someb (ceb_ca_bundle_path binding) || is_someb (ceb_ca_bundle_sha256 binding))
            && (negb (bool_decide (cv_ca_bundle c = ceb_ca_bundle_path binding))
                || negb (bool_decide (cv_ca_bundle_sha256 c = ceb_ca_bundle_sha256 binding))))
    (ConfigurationError "resolved connector CA identity drifted from the direct read binding");;
  raise_if (network_drifted c binding)
    (ConfigurationError
       "resolved connector network profile drifted from the direct read binding").

(** ** Provider answers *)

Definition validate_read_result (action : AgentAction) (result_ : ExecutionResult)
    : result unit :=
  raise_if (negb (bool_decide (er_action_id result_ = aa_action_id action)))
    (ConnectorError "connector result action ID did not match the action");;
  validate_integrity result_;;
  raise_if (negb (bool_decide (er_state result_ = SUCCEEDED)))
    (ConnectorError "direct read connector result must report succeeded before verification").

Definition validate_verification (action : AgentAction) (verification : VerificationResult)
    : result unit :=
  raise_if (negb (bool_decide (vr_action_id verification = aa_action_id action)))
    (ConnectorError "connector verification action ID did not match the action").

(** What is raised in place of any failure that provider content may have caused. *)
Definition provider_read_failed : exn :=
  ConnectorError "provider read failed after egress authorization".

Definition not_verified (action : AgentAction) : exn :=
  PySubclassError MasterAgentErrorBase "VerificationError"
    ("direct read did not independently verify " +:+ aa_capability action).

(** ** Sessions *)

Section session.
Context {A W : Type} `{Authenticator A} (env : environment).
#[local] Abbreviation run := (run W ProviderDataEgressBinding).
#[local] Abbreviation Connector := (Connector W).
#[local] Abbreviation GovernanceProfile := (GovernanceProfile ProviderDataEgressPolicy).

Record DirectReadSession : Type := mk_DirectReadSession {
  ds_catalog : catalog;
  ds_governance : GovernanceProfile;
  ds_policy : PolicyEngine A;
  ds_sources : list SourceRule;
  ds_connector : Connector;
  ds_execution_binding : ConnectorExecutionBinding;
  ds_systems_outcome_observer : option SystemsOutcomeObserver;
}.

(** The constructor. *)
Definition direct_read_session (builtin : Connector → bool) (self : DirectReadSession)
    : result DirectReadSession :=
  raise_if (negb (builtin (ds_connector self)))
    (ConfigurationError "direct read sessions require a factory-issued built-in connector");;
  Ok self.

(** *** Before any request *)

Section preflight.
Context (catalog : catalog) (governance : GovernanceProfile) (policy : PolicyEngine A).
Context (sources : list SourceRule).

Definition validate_unbound_action (plan : ChangePlan) (action : AgentAction) (now : datetime)
    : result unit :=
  let '(catalog_ok, catalog_reason) := catalog_validate_action catalog action true in
  raise_if (negb catalog_ok) (ConfigurationError catalog_reason);;
  let '(governance_ok, governance_reason) := governance_validate_action governance action in
  raise_if (negb governance_ok) (ConfigurationError governance_reason);;
  definition ← catalog_definition catalog (aa_capability action);
  model_context ← or_raise (gp_model_context governance)
    (ConfigurationError "provider reads require configured model-context policy");
  preflight_provider_data_egress model_context action definition EPHEMERAL false;;
  let '(external_model_ok, external_model_reason) :=
    validate_external_model governance action definition in
  raise_if (negb external_model_ok) (ConfigurationError external_model_reason);;
  '(source_ok, source_reason) ← source_validate sources plan action;
  raise_if (negb source_ok) (ConfigurationError source_reason);;
  minimum ← minimum_approvers governance (aa_capability action);
  decision ← evaluate policy plan action [] now minimum;
  raise_if (negb (pd_permitted decision) || pd_approval_required decision)
    (ConfigurationError ("direct read policy does not permit " +:+ aa_capability action
       +:+ ": " +:+ pd_reason decision)).

Definition preflight_direct_read_plan (plan : ChangePlan) : run string :=
  t ← now env;
  lift (enforce_systems_governance plan None (Some policy) [] false t);;
  provider ← lift (validate_unbound_session_shape plan);
  let '(governance_ok, governance_reason) := allows_direct_read_session governance plan in
  lift (raise_if (negb governance_ok) (ConfigurationError governance_reason));;
  for_each_run (λ action,
    t ← now env; lift (validate_unbound_action plan action t)) (cp_actions plan);;
  mret provider.
End preflight.

Context (self : DirectReadSession).

Definition validate_connector_shape (plan : ChangePlan) (provider : string) : result unit :=
  let connector := ds_connector self in
  raise_if (negb (provider =? con_system connector)%string)
    (ConfigurationError "direct read plan provider does not match the selected connector");;
  raise_if (negb (ceb_system (ds_execution_binding self)
                  =? binding_system_for (con_system connector))%string)
    (ConfigurationError "direct read execution binding does not match the selected provider");;
  validate_binding_endpoint (ds_execution_binding self);;
  for_each (λ action,
    raise_if (negb (bool_decide (aa_capability action ∈ con_capabilities connector)))
      (ConfigurationError ("selected read connector does not support " +:+ aa_capability action)))
    (cp_actions plan).

Definition validate_direct_contract (action : AgentAction) : result ProviderDataEgressBinding :=
  let connector := ds_connector self in
  '(execution_ok, execution_reason) ← validate_execution (ds_catalog self) action
    (con_view connector) (Some (ds_execution_binding self)) "live";
  raise_if (negb execution_ok) (ConfigurationError execution_reason);;
  validate_connector_endpoint (is_someb (con_http_config connector)) (con_view connector)
    (ds_execution_binding self);;
  model_context ← or_raise (gp_model_context (ds_governance self))
    (ConfigurationError "provider reads require configured model-context policy");
  definition ← catalog_definition (ds_catalog self) (aa_capability action);
  bind_egress model_context action definition (Some (ds_execution_binding self)) EPHEMERAL
    false "live".

(** *** One read *)

(** [except (...): failed = True], and [raise] outside the handler. *)
Definition opaquely {X} (m : run X) : run X :=
  try_except m (λ e, if boundary_failure e then Some (raise provider_read_failed) else None).

(** The read and its verification, on a copy of what was read. *)
Definition read_and_verify (action : AgentAction) : run (ExecutionResult * VerificationResult) :=
  let connector := ds_connector self in
  result_ ← provider (CallExecute action) ReplyResult (con_execute connector action);
  lift (validate_read_result action result_);;
  snapshot ← lift (copy_execution_result result_);
  copied ← lift (copy_execution_result snapshot);
  verification ← provider (CallVerify action copied) ReplyVerification
    (con_verify connector action copied);
  lift (validate_verification action verification);;
  mret (snapshot, verification).

Definition sanitize_read (egress : ProviderDataEgressBinding) (snapshot : ExecutionResult)
    (verification : VerificationResult) : result (ExecutionResult * option dict) :=
  sanitized ← sanitize_result egress snapshot;
  observed ← verification_metadata egress (vr_observed verification);
  Ok (sanitized, observed).

Definition direct_action_report (action : AgentAction) (egress : ProviderDataEgressBinding)
    (sanitized : ExecutionResult) (verified : bool) (observed : option dict)
    : result DirectReadActionReport :=
  data ← or_raise (er_after sanitized)
    (ConnectorError "direct read connector returned no sanitized payload");
  payload ← DirectReadPayload_post_init
    (mk_DirectReadPayload data (er_connector_reference sanitized));
  verification ← DirectReadVerification_post_init
    (mk_DirectReadVerification verified observed "provider read independently verified");
  DirectReadActionReport_post_init
    (mk_DirectReadActionReport (aa_action_id action) (aa_capability action) VERIFIED
       "provider read independently verified" payload verification egress).

Definition execute_direct_action (action : AgentAction) (egress : ProviderDataEgressBinding)
    : run DirectReadActionReport :=
  budget ← lift (connector_http_action_budget (ds_connector self));
  lift (raise_if (negb (is_someb budget))
    (ConfigurationError "direct read connector is missing a live HTTP action budget"));;
  '(snapshot, verification) ← opaquely (read_and_verify action);
  lift (raise_if (negb (vr_verified verification)) (not_verified action));;
  lift (raise_if (negb (is_someb (er_after snapshot)))
    (ConnectorError "direct read connector returned no payload"));;
  rechecked ← lift (validate_direct_contract action);
  lift (raise_if (negb (binding_fingerprint rechecked =? binding_fingerprint egress)%string)
    (ConfigurationError "provider-data egress binding changed before result return"));;
  '(sanitized, observed) ← opaquely (lift (sanitize_read egress snapshot verification));
  lift (direct_action_report action egress sanitized (vr_verified verification) observed).

Fixpoint execute_direct_actions (bound : list (AgentAction * ProviderDataEgressBinding))
    : run (list DirectReadActionReport) :=
  match bound with
  | [] => mret []
  | (action, egress) :: bound =>
      report ← execute_direct_action action egress;
      reports ← execute_direct_actions bound;
      mret (report :: reports)
  end.

(** *** The session *)

(** Every check that precedes the first request. *)
Definition admit_direct_plan (plan : ChangePlan) : run (list ProviderDataEgressBinding) :=
  provider ← preflight_direct_read_plan (ds_catalog self) (ds_governance self) (ds_policy self)
    (ds_sources self) plan;
  lift (validate_connector_shape plan provider);;
  lift (mapM validate_direct_contract (cp_actions plan)).

Definition direct_read_report (plan : ChangePlan) (reports : list DirectReadActionReport)
    : result DirectReadReport :=
  let invalid := ConfigurationError "direct read systems governance binding is invalid" in
  assessment ← or_raise (cp_systems_assessment plan) invalid;
  decision ← or_raise (cp_systems_decision plan) invalid;
  systems_review ← build_systems_post_execution_review assessment decision
    (map dar_state reports) false (ds_systems_outcome_observer self);
  DirectReadReport_post_init
    (mk_DirectReadReport (cp_plan_id plan) (ChangePlan_fingerprint plan)
       (con_system (ds_connector self)) reports systems_review
       "master-agent/direct-read-report@1").

Definition execute_internal (plan : ChangePlan) : run DirectReadReport :=
  egress_bindings ← admit_direct_plan plan;
  reports ← execute_direct_actions (combine (cp_actions plan) egress_bindings);
  lift (direct_read_report plan reports).

Definition execute_direct (plan : ChangePlan) : run DirectReadReport :=
  plan ← lift (execution_snapshot plan);
  execute_internal plan.
End session.
