(* ===== verification/Receipts.v ===== *)
(** * Receipts: signed execution receipts, [src/src/master_agent/receipts.py]

    The receipt of a run, its signer and its export.  The key of a signer is its
    list of bytes; a sink is the record of its operations over the state [W] of
    what is behind it; [_jsonable] is the identity on the JSON values of the
    model. *)

From S2P Require Import Prelude PyText PyJson PyHash PyTime PyDate PyStd PyJsonLoads ModelsBase.
From S2P Require Import PlatformIdentity ModelsAction ModelsBindings ModelsContext ModelsPlan ModelsResults.
From S2P Require Import Approvals RunMonad Orchestrator.
From Stdlib Require Import Ascii.

Open Scope Z_scope.

Definition EXECUTION_RECEIPT_SCHEMA : string := "master-agent/execution-receipt@1".

Definition receipt_sha256_text (value label : string) : result unit :=
  raise_if (negb (is_sha256_hex value))
    (ConfigurationError (label +:+ " must be a lowercase SHA-256 digest")).

(** [json.dumps(..., ensure_ascii=True, allow_nan=False)]. *)
Definition receipt_json (value : json) : result string := dumps_ascii value.

Definition mapping_digest (value : option dict) : result (option string) :=
  match value with
  | None => Ok None
  | Some d => text ← receipt_json (JDict d); Ok (Some (sha256 text))
  end.

(** ** Receipts *)

Record ExecutionReceipt : Type := mk_ExecutionReceipt {
  xr_receipt_id : uuid;
  xr_run_id : uuid;
  xr_plan_id : uuid;
  xr_plan_fingerprint : string;
  xr_dry_run : bool;
  xr_successful : bool;
  xr_approval_claims : list dict;
  xr_capsule_bindings : list dict;
  xr_action_outcomes : list dict;
  xr_audit_anchor_sha256 : string;
  xr_created_at : datetime;
  xr_signer_key_id : string;
  xr_signature : string;
  xr_schema : string;
}.

Definition ExecutionReceipt_post_init (self : ExecutionReceipt) : result ExecutionReceipt :=
  raise_if (negb (xr_schema self =? EXECUTION_RECEIPT_SCHEMA)%string)
    (ConfigurationError "execution receipt schema is unsupported");;
  receipt_sha256_text (xr_plan_fingerprint self) "execution receipt plan_fingerprint";;
  receipt_sha256_text (xr_audit_anchor_sha256 self) "execution receipt audit_anchor_sha256";;
  raise_if (negb (is_aware (xr_created_at self)))
    (ConfigurationError "execution receipt timestamp requires a timezone");;
  raise_if (xr_signer_key_id self =? "")%string
    (ConfigurationError "execution receipt signer is empty");;
  (if negb (xr_signature self =? "")%string
   then receipt_sha256_text (xr_signature self) "execution receipt signature" else Ok tt);;
  approval_claims ← mapM freeze_json_mapping (xr_approval_claims self);
  capsule_bindings ← mapM freeze_json_mapping (xr_capsule_bindings self);
  action_outcomes ← mapM freeze_json_mapping (xr_action_outcomes self);
  Ok (mk_ExecutionReceipt (xr_receipt_id self) (xr_run_id self) (xr_plan_id self)
        (xr_plan_fingerprint self) (xr_dry_run self) (xr_successful self) approval_claims
        capsule_bindings action_outcomes (xr_audit_anchor_sha256 self) (xr_created_at self)
        (xr_signer_key_id self) (xr_signature self) (xr_schema self)).

(** [dataclasses.replace(self, signature=...)], before its checks. *)
Definition with_signature (self : ExecutionReceipt) (signature : string) : ExecutionReceipt :=
  mk_ExecutionReceipt (xr_receipt_id self) (xr_run_id self) (xr_plan_id self)
    (xr_plan_fingerprint self) (xr_dry_run self) (xr_successful self)
    (xr_approval_claims self) (xr_capsule_bindings self) (xr_action_outcomes self)
    (xr_audit_anchor_sha256 self) (xr_created_at self) (xr_signer_key_id self) signature
    (xr_schema self).

Definition dicts (l : list dict) : json := JList (map JDict l).

Section receipts.
Context `{SystemZone}.

Definition unsigned_dict (self : ExecutionReceipt) : result dict :=
  created_at ← astimezone_utc (xr_created_at self);
  Ok [("schema", JStr (xr_schema self));
      ("receipt_id", JStr (uuid_str (xr_receipt_id self)));
      ("run_id", JStr (uuid_str (xr_run_id self)));
      ("plan_id", JStr (uuid_str (xr_plan_id self)));
      ("plan_fingerprint", JStr (xr_plan_fingerprint self));
      ("dry_run", JBool (xr_dry_run self));
      ("successful", JBool (xr_successful self));
      ("approval_claims", dicts (xr_approval_claims self));
      ("capsule_bindings", dicts (xr_capsule_bindings self));
      ("action_outcomes", dicts (xr_action_outcomes self));
      ("audit_anchor_sha256", JStr (xr_audit_anchor_sha256 self));
      ("created_at", JStr (isoformat created_at));
      ("signer_key_id", JStr (xr_signer_key_id self))].

Definition ExecutionReceipt_to_dict (self : ExecutionReceipt) : result dict :=
  d ← unsigned_dict self;
  Ok (dict_set d "signature" (JStr (xr_signature self))).

Definition receipt_sha256 (self : ExecutionReceipt) : result string :=
  raise_if (xr_signature self =? "")%string
    (ConfigurationError "unsigned execution receipt has no identity");;
  d ← ExecutionReceipt_to_dict self;
  text ← receipt_json (JDict d);
  Ok (sha256 text).

(** ** The signer *)

Record ReceiptSigner : Type := mk_ReceiptSigner {
  rs_key_id : string;
  rs_secret : list Z;
}.

Definition ReceiptSigner_post_init (self : ReceiptSigner) : result ReceiptSigner :=
  raise_if ((rs_key_id self =? "")%string || (Z.of_nat (length (rs_secret self)) <? 32))
    (ConfigurationError "receipt signer requires an identity and 32-byte key");;
  Ok self.

Definition sign (self : ReceiptSigner) (receipt : ExecutionReceipt) : result ExecutionReceipt :=
  raise_if (negb (xr_signer_key_id receipt =? rs_key_id self)%string)
    (ConfigurationError "execution receipt signer identity drifted");;
  d ← unsigned_dict receipt;
  text ← receipt_json (JDict d);
  ExecutionReceipt_post_init (with_signature receipt (hmac_sha256 (rs_secret self) text)).

(** The receipt is rebuilt without its signature and with the current schema. *)
Definition unsigned (receipt : ExecutionReceipt) : ExecutionReceipt :=
  mk_ExecutionReceipt (xr_receipt_id receipt) (xr_run_id receipt) (xr_plan_id receipt)
    (xr_plan_fingerprint receipt) (xr_dry_run receipt) (xr_successful receipt)
    (xr_approval_claims receipt) (xr_capsule_bindings receipt) (xr_action_outcomes receipt)
    (xr_audit_anchor_sha256 receipt) (xr_created_at receipt) (xr_signer_key_id receipt) ""
    EXECUTION_RECEIPT_SCHEMA.

Definition verify_receipt (self : ReceiptSigner) (receipt : ExecutionReceipt) : result bool :=
  if negb (xr_signer_key_id receipt =? rs_key_id self)%string
     || (xr_signature receipt =? "")%string
  then Ok false
  else
    rebuilt ← ExecutionReceipt_post_init (unsigned receipt);
    expected ← sign self rebuilt;
    compare_digest (xr_signature expected) (xr_signature receipt).

(** ** Building *)

Definition approval_claim (item : Approval) (subject : string) : dict :=
  [("approval_id", JStr (uuid_str (ap_approval_id item)));
   ("approved_by", JStr (ap_approved_by item));
   ("authenticated_principal", JStr subject);
   ("issuer", JStr (ap_issuer item));
   ("tenant", JStr (ap_tenant item));
   ("roles", str_list (ap_roles item));
   ("key_id", JStr (ap_key_id item));
   ("approved_action_ids", str_list (map uuid_str (ap_approved_action_ids item)));
   ("signature_sha256", JStr (sha256 (ap_signature item)))].

(** The claims of the approvals of this plan. *)
Definition receipt_approvals (fingerprint : string) (approvals : list (Approval * string))
    : list dict :=
  map (λ p : Approval * string, approval_claim p.1 p.2)
    (List.filter (λ p : Approval * string, (ap_plan_fingerprint p.1 =? fingerprint)%string)
       approvals).

(** The digest of a reference that is not empty. *)
Definition reference_digest (result_ : option ExecutionResult) : json :=
  match result_ ≫= er_connector_reference with
  | Some reference => if (reference =? "")%string then JNull else JStr (sha256 reference)
  | None => JNull
  end.

Definition action_outcome {B} (item : ActionReport B) : result dict :=
  before ← mapping_digest (ar_result item ≫= er_before);
  after ← mapping_digest (ar_result item ≫= er_after);
  compensation_after ← mapping_digest (ar_compensation item ≫= er_after);
  let state := enum_str (ar_state item) in
  Ok [("action_id", JStr (uuid_str (ar_action_id item)));
      ("capability", JStr (ar_capability item));
      ("state", JStr state);
      ("policy_permitted", JBool (negb (bool_decide (state ∈ ["prohibited"; "approval_required"]))));
      ("connector_reference_sha256", reference_digest (ar_result item));
      ("readback_verified", JBool (bool_decide (state ∈ ["verified"; "reused"])));
      ("result_before_sha256", opt_json JStr before);
      ("result_after_sha256", opt_json JStr after);
      ("compensation_state",
       opt_json (λ c, JStr (enum_str (er_state c))) (ar_compensation item));
      ("compensation_after_sha256", opt_json JStr compensation_after)].

(** [fresh] is the value of [uuid4()]. *)
Definition build_execution_receipt {B} (plan : ChangePlan) (report : RunReport (B := B))
    (authenticated_approvals : list (Approval * string)) (audit_anchor : string)
    (signer : ReceiptSigner) (fresh : uuid) (now : datetime) : result ExecutionReceipt :=
  raise_if (negb (bool_decide (rr_plan_id report = cp_plan_id plan))
            || negb (rr_plan_fingerprint report =? ChangePlan_fingerprint plan)%string)
    (ConfigurationError "execution report differs from the receipt plan");;
  let capsule_bindings :=
    match cp_execution_context plan with
    | Some context => map CapsuleBinding_to_dict (ec_capsules context)
    | None => []
    end in
  outcomes ← mapM action_outcome (rr_actions report);
  created_at ← astimezone_utc now;
  unsigned ← ExecutionReceipt_post_init
    (mk_ExecutionReceipt fresh (rr_run_id report) (cp_plan_id plan)
       (ChangePlan_fingerprint plan) (rr_dry_run report) (successful report)
       (receipt_approvals (ChangePlan_fingerprint plan) authenticated_approvals)
       capsule_bindings outcomes audit_anchor created_at (rs_key_id signer) ""
       EXECUTION_RECEIPT_SCHEMA);
  sign signer unsigned.

(** ** Export *)

Record ExternalReceiptSink (W : Type) : Type := mk_ExternalReceiptSink {
  sink_id : string;
  sink_external : bool;
  sink_tamper_resistant : bool;
  sink_healthy : W → result bool * W;
  sink_append : dict → W → result string * W;
}.
#[global] Arguments sink_external {W} _.
#[global] Arguments sink_tamper_resistant {W} _.
#[global] Arguments sink_healthy {W} _ _.
#[global] Arguments sink_append {W} _ _ _.

Definition unhealthy : exn :=
  ConfigurationError "external tamper-resistant audit sink is not healthy".

Definition export_execution_receipt {W} (receipt : ExecutionReceipt)
    (sink : ExternalReceiptSink W) (w : W) : result string * W :=
  if negb (sink_external sink) || negb (sink_tamper_resistant sink) then (Err unhealthy, w)
  else
    match sink_healthy sink w with
    | (Err e, w) => (Err e, w)
    | (Ok false, w) => (Err unhealthy, w)
    | (Ok true, w) =>
        match ExecutionReceipt_to_dict receipt with
        | Err e => (Err e, w)
        | Ok d =>
            match sink_append sink d w with
            | (Err e, w) => (Err e, w)
            | (Ok locator, w) =>
                if (locator =? "")%string || untrimmed locator
                then (Err (ConfigurationError
                             "external audit sink returned an invalid locator"), w)
                else (Ok locator, w)
            end
        end
    end.

Definition telemetry_state (item : dict) : result json :=
  capability ← dict_item item "capability";
  state ← dict_item item "state";
  Ok (JDict [("capability", capability); ("state", state)]).

Definition receipt_telemetry (receipt : ExecutionReceipt) : result dict :=
  digest ← receipt_sha256 receipt;
  states ← mapM telemetry_state (xr_action_outcomes receipt);
  manifests ← mapM (λ item, dict_item item "manifest_sha256") (xr_capsule_bindings receipt);
  Ok [("event", JStr "master_agent.execution_receipt");
      ("receipt_id", JStr (uuid_str (xr_receipt_id receipt)));
      ("receipt_sha256", JStr digest);
      ("plan_fingerprint", JStr (xr_plan_fingerprint receipt));
      ("successful", JBool (xr_successful receipt));
      ("dry_run", JBool (xr_dry_run receipt));
      ("action_states", JList states);
      ("capsule_manifest_sha256", JList manifests);
      ("audit_anchor_sha256", JStr (xr_audit_anchor_sha256 receipt))].

Definition emit_receipt_telemetry {W} (receipt : ExecutionReceipt)
    (emit : dict → W → result unit * W) (w : W) : result unit * W :=
  match receipt_telemetry receipt with
  | Err e => (Err e, w)
  | Ok event => emit event w
  end.
End receipts.
