(* ===== verification/Advisory.v ===== *)
(** * Advisory: the advisory delegation boundary, [src/src/master_agent/advisory.py]

    What a parent may hand to an advisory child, what the child may do, and what
    comes back: payloads and reports, the fixture behind the two tools, the broker
    and a session with its budget of attempts.  The child itself and the durable
    budget are arguments, the latter as the interface [AdvisoryBudget].  The
    checked-in profiles are values; reading and parsing their files is not
    modelled.  An unbounded repetition in a pattern is one bounded by the length
    of the text. *)

From S2P Require Import Prelude PyText PyJson PyStd PlatformIdentity ModelsBase Capabilities Security.
From Stdlib Require Import Ascii.

Open Scope Z_scope.

(** ** Errors *)

Definition advisory_error (cls msg : string) : exn := PySubclassError ValueErrorBase cls msg.
Definition AdvisoryPayloadRejected : string → exn := advisory_error "AdvisoryPayloadRejected".
Definition AdvisoryDispatchDenied : string → exn := advisory_error "AdvisoryDispatchDenied".
Definition AdvisoryReportRejected : string → exn := advisory_error "AdvisoryReportRejected".
Definition ProfileValidationError : string → exn := advisory_error "ProfileValidationError".

Definition is_class (cls : string) (e : exn) : bool :=
  match e with PySubclassError _ c _ => (c =? cls)%string | _ => false end.

(** ** Limits and tables *)

Definition MAX_PAYLOAD_BYTES : Z := 64 * 1024.
Definition MAX_PAYLOAD_ITEMS : Z := 256.
Definition MAX_PAYLOAD_DEPTH : Z := 8.
Definition MAX_TEXT : Z := 16 * 1024.
Definition MAX_FILES : Z := 512.
Definition MAX_FILE_BYTES : Z := 64 * 1024.
Definition MAX_RESULTS : nat := 20.

Definition FORBIDDEN_KEYS : list string :=
  ["approval"; "authority"; "changeplan"; "change_plan"; "connector"; "credential"; "password";
   "private_context"; "recipient"; "secret"; "signing"; "target"; "tenant"; "token"].

(** *** Patterns of secrets *)

Definition exactly (c : ascii) : pattern := PChar (λ d, (d =? c)%char).
Fixpoint exact_word (s : string) : pattern :=
  match s with
  | EmptyString => PEmpty
  | String c s => PSeq (exactly c) (exact_word s)
  end.

(** [p{m,}] in a text of at most [n] characters. *)
Fixpoint at_least (m n : nat) (p : ascii → bool) : pattern :=
  match m with
  | O => PUpTo n p
  | S m => PSeq (PChar p) (at_least m n p)
  end.

Definition ascii_word (c : ascii) : bool := is_alpha c || is_digit c || (c =? "_")%char.
Definition not_space (c : ascii) : bool := negb (is_space c).

Definition secret_patterns (n : nat) : list pattern :=
  [PSeq PBound (PSeq (exact_word "gh")
     (PSeq (PChar (λ c, str_in c "pousr"))
        (PSeq (exactly "_") (PSeq (at_least 8 n ascii_word) PBound))));
   PSeq PBound (PSeq (exact_word "sk-")
     (PSeq (at_least 8 n (λ c, ascii_word c || (c =? "-")%char)) PBound));
   PSeq (exact_word "-----BEGIN ")
     (PSeq (PAlt (one_of (exact_word "RSA ") [exact_word "EC "; exact_word "OPENSSH "]) PEmpty)
        (exact_word "PRIVATE KEY-----"));
   PSeq (bounded (one_of (word "token") [word "password"; word "secret"]))
     (PSeq (at_least 0 n is_space)
        (PSeq (PChar (λ c, str_in c ":="))
           (PSeq (at_least 0 n is_space) (at_least 1 n not_space))));
   PSeq PBound (PSeq (word "approval")
     (PSeq (PAlt (word "-artifact") PEmpty) (PSeq (exact_word "://") (at_least 1 n not_space))))].

Definition has_secret (text : string) : bool :=
  existsb (λ p, is_someb (re_search p text)) (secret_patterns (String.length text)).

Definition reject_secret_text (value context : string) : result unit :=
  raise_if (has_secret value)
    (AdvisoryPayloadRejected (context +:+ " contains secret-like content")).

(** ** Payloads *)

(** [part in text], on code points. *)
Fixpoint codes_prefix (p s : list Z) : bool :=
  match p, s with
  | [], _ => true
  | x :: p, y :: s => (x =? y) && codes_prefix p s
  | _ :: _, [] => false
  end.

(** [s.find(p)], or [None] for -1. *)
Fixpoint codes_find (p s : list Z) : option nat :=
  if codes_prefix p s then Some O
  else match s with
       | [] => None
       | _ :: s => S <$> codes_find p s
       end.

(** [key.casefold().replace("-", "_")]. *)
Definition normalized_key (key : string) : list Z :=
  map (λ z, if z =? 45 then 95 else z) (casefold_codes key).

Definition forbidden_key (key : string) : bool :=
  existsb (λ part, is_someb (codes_find (casefold_codes part) (normalized_key key)))
    FORBIDDEN_KEYS.

Definition check_payload_key (context key : string) : result unit :=
  raise_if (key =? "")%string (AdvisoryPayloadRejected (context +:+ " keys must be strings"));;
  raise_if (forbidden_key key)
    (AdvisoryPayloadRejected ("forbidden delegated field: " +:+ key)).

(** [_sanitize] returns an immutable copy of the value; [count] is the number of
    values seen, which it threads through. *)
Fixpoint sanitize_value (value : json) (depth count : Z) (context : string) : result Z :=
  raise_if (MAX_PAYLOAD_DEPTH <? depth)
    (AdvisoryPayloadRejected "delegated payload exceeds the depth limit");;
  let count := count + 1 in
  raise_if (MAX_PAYLOAD_ITEMS <? count)
    (AdvisoryPayloadRejected "delegated payload exceeds the item limit");;
  match value with
  | JNull | JBool _ | JInt _ => Ok count
  | JStr s =>
      raise_if (MAX_TEXT <? len s)
        (AdvisoryPayloadRejected (context +:+ " string is too large"));;
      reject_secret_text s context;;
      Ok count
  | JDict d =>
      (fix sanitize_items (d : dict) (count : Z) : result Z :=
         match d with
         | [] => Ok count
         | (key, item) :: d =>
             check_payload_key context key;;
             count ← sanitize_value item (depth + 1) count (context +:+ "." +:+ key);
             sanitize_items d count
         end) d count
  | JList l =>
      (fix sanitize_list (l : list json) (count : Z) : result Z :=
         match l with
         | [] => Ok count
         | item :: l =>
             count ← sanitize_value item (depth + 1) count (context +:+ "[]");
             sanitize_list l count
         end) l count
  | JFloat _ => Err (AdvisoryPayloadRejected "unsupported delegated value: float")
  end.

Definition sanitize_payload (payload : dict) : result dict :=
  sanitize_value (JDict payload) 0 0 "payload";;
  material ← dumps (JDict payload);
  raise_if (MAX_PAYLOAD_BYTES <? utf8_length material)
    (AdvisoryPayloadRejected "delegated payload exceeds the byte limit");;
  Ok payload.

(** ** Repository paths *)

(** [PurePosixPath(value).as_posix()], of a relative path. *)
Definition relative_posix (value : string) : string :=
  match path_parts value with [] => "." | parts => str_join "/" parts end.

Definition normalize_path (value : string) : result string :=
  let unsafe := AdvisoryDispatchDenied ("unsafe repository path: " +:+ repr_str value) in
  raise_if ((value =? "")%string || str_in "\" value) unsafe;;
  raise_if (path_is_absolute value
            || existsb (λ part, bool_decide (part ∈ [""; "."; ".."])) (path_parts value)) unsafe;;
  raise_if (negb (relative_posix value =? value)%string)
    (AdvisoryDispatchDenied ("repository path is not normalized: " +:+ repr_str value));;
  Ok value.

(** ** The fixture *)

Record Citation : Type := mk_Citation {
  cit_path : string;
  cit_excerpt : string;
}.

(** The normalized files, by path. *)
Record RepositoryFixture : Type := mk_RepositoryFixture {
  rf_files : list (string * string);
}.

Fixpoint fixture_files (files : list (string * string)) : result (list (string * string)) :=
  match files with
  | [] => Ok []
  | (path, content) :: files =>
      raise_if (MAX_FILE_BYTES <? utf8_length content)
        (AdvisoryDispatchDenied ("repository fixture is too large: " +:+ path));;
      normalized ← normalize_path path;
      rest ← fixture_files files;
      Ok ((normalized, content) :: rest)
  end.

Definition repository_fixture (files : list (string * string)) : result RepositoryFixture :=
  raise_if (MAX_FILES <? Z.of_nat (length files))
    (AdvisoryDispatchDenied "repository fixture exceeds the file limit");;
  normalized ← fixture_files files;
  Ok (mk_RepositoryFixture normalized).

(** [self._files[path]]. *)
Definition file_content (self : RepositoryFixture) (path : string) : option string :=
  snd <$> List.find (λ f : string * string, (f.1 =? path)%string) (rf_files self).

Definition fixture_read (self : RepositoryFixture) (path : string) : result Citation :=
  normalized ← normalize_path path;
  content ← or_raise (file_content self normalized)
    (AdvisoryDispatchDenied ("repository path is unavailable: " +:+ path));
  Ok (mk_Citation normalized (String.substring 0 (Z.to_nat 8192) content)).

(** The excerpt around the first occurrence of the folded query. *)
Definition search_file (query : string) (file : string * string) : option Citation :=
  let '(path, content) := file in
  index ← codes_find (casefold_codes query) (casefold_codes content);
  let start := (index - 80)%nat in
  let stop := Nat.min (String.length content) (index + String.length query + 160) in
  Some (mk_Citation path (str_slice start stop content)).

Definition file_le (x y : string * string) : bool :=
  if (x.1 =? y.1)%string then str_le x.2 y.2 else str_le x.1 y.1.

Definition fixture_search (self : RepositoryFixture) (query : string) : result (list Citation) :=
  raise_if ((query =? "")%string || (512 <? len query))
    (AdvisoryDispatchDenied "search query must contain 1-512 characters");;
  Ok (firstn MAX_RESULTS (omap (search_file query) (sort_by file_le (rf_files self)))).

Definition fixture_contains (self : RepositoryFixture) (path : string) : bool :=
  match normalize_path path with
  | Ok normalized => is_someb (file_content self normalized)
  | Err _ => false
  end.

(** ** Profiles and the dispatcher *)

Record AgentProfile : Type := mk_AgentProfile {
  prof_name : string;
  prof_description : string;
  prof_tools : list string;
  prof_user_invocable : bool;
  prof_disable_model_invocation : bool;
  prof_body : string;
}.

Inductive AdvisoryRole : Type := RESEARCH | PLAN_REVIEW.
#[export] Instance AdvisoryRole_eq_dec : EqDecision AdvisoryRole.
Proof. solve_decision. Defined.

Record AgentInventory : Type := mk_AgentInventory {
  inv_parent : AgentProfile;
  inv_researcher : AgentProfile;
  inv_reviewer : AgentProfile;
}.

Definition inventory_child (self : AgentInventory) (role : AdvisoryRole) : AgentProfile :=
  match role with RESEARCH => inv_researcher self | PLAN_REVIEW => inv_reviewer self end.

Record AdvisoryToolResult : Type := mk_AdvisoryToolResult {
  tool_name : string;
  tool_citations : list Citation;
}.

Record AdvisoryDispatcher : Type := mk_AdvisoryDispatcher {
  disp_profile : AgentProfile;
  disp_repository : RepositoryFixture;
}.

(** The value of the only argument, when it has this name. *)
Definition only_argument (name : string) (arguments : dict) : option json :=
  match arguments with
  | [(k, v)] => if (k =? name)%string then Some v else None
  | _ => None
  end.

Definition dispatch_tool (self : AdvisoryDispatcher) (tool : string) (arguments : dict)
    : result AdvisoryToolResult :=
  raise_if (negb (bool_decide (tool ∈ prof_tools (disp_profile self))))
    (AdvisoryDispatchDenied ("tool " +:+ repr_str tool +:+ " is absent from profile "
       +:+ repr_str (prof_name (disp_profile self))));;
  let invalid :=
    Err (AdvisoryDispatchDenied ("invalid arguments for safe tool " +:+ repr_str tool)) in
  if (tool =? "read")%string then
    match only_argument "path" arguments with
    | Some (JStr path) =>
        citation ← fixture_read (disp_repository self) path;
        Ok (mk_AdvisoryToolResult tool [citation])
    | _ => invalid
    end
  else if (tool =? "search")%string then
    match only_argument "query" arguments with
    | Some (JStr query) =>
        citations ← fixture_search (disp_repository self) query;
        Ok (mk_AdvisoryToolResult tool citations)
    | _ => invalid
    end
  else invalid.

(** ** The selected route *)

Record SemanticRouteSlice : Type := mk_SemanticRouteSlice {
  sr_route : string;
  sr_title : string;
  sr_lifecycle : string;
  sr_summary : string;
  sr_authority : list string;
  sr_implementation : list string;
  sr_configuration : list string;
  sr_tests : list string;
  sr_release_gates : list string;
  sr_dependencies : list string;
}.

(** [[a-z0-9][a-z0-9._-]{0,127}]. *)
Definition SEMANTIC_ROUTE_ID : regex :=
  let head c := is_lower c || is_digit c in
  RSeq (RChar head) (RUpto 127 (RChar (λ c, head c || str_in c "._-"))).

Definition check_route_text (field_name value : string) : result unit :=
  let label := "semantic route " +:+ field_name in
  raise_if (is_blank value || untrimmed value || (4096 <? len value)
            || str_exists (λ c, code c <? 32) value)
    (AdvisoryPayloadRejected (label +:+ " must contain bounded text"));;
  reject_secret_text value label.

Definition check_route_path (label value : string) : result unit :=
  raise_if (1024 <? len value) (AdvisoryPayloadRejected (label +:+ " contains an invalid path"));;
  reraise (normalize_path value;; Ok tt)
    (λ e, if is_class "AdvisoryDispatchDenied" e
          then Some (AdvisoryPayloadRejected (label +:+ " contains an unsafe path")) else None).

Definition check_route_paths (field_name : string) (values : list string) : result unit :=
  let label := "semantic route " +:+ field_name in
  raise_if (256 <? Z.of_nat (length values))
    (AdvisoryPayloadRejected (label +:+ " must be a bounded tuple"));;
  for_each (check_route_path label) values.

Definition SemanticRouteSlice_post_init (self : SemanticRouteSlice)
    : result SemanticRouteSlice :=
  raise_if (negb (fullmatch SEMANTIC_ROUTE_ID (sr_route self)))
    (AdvisoryPayloadRejected "semantic route must be one stable lowercase identifier");;
  check_route_text "title" (sr_title self);;
  check_route_text "lifecycle" (sr_lifecycle self);;
  check_route_text "summary" (sr_summary self);;
  check_route_paths "authority" (sr_authority self);;
  check_route_paths "implementation" (sr_implementation self);;
  check_route_paths "configuration" (sr_configuration self);;
  check_route_paths "tests" (sr_tests self);;
  check_route_paths "release_gates" (sr_release_gates self);;
  raise_if (256 <? Z.of_nat (length (sr_dependencies self)))
    (AdvisoryPayloadRejected "semantic route dependencies must be a bounded tuple");;
  for_each (λ d, raise_if (negb (fullmatch SEMANTIC_ROUTE_ID d))
    (AdvisoryPayloadRejected "semantic route dependencies contain an invalid identifier"))
    (sr_dependencies self);;
  Ok self.

Definition route_to_payload (self : SemanticRouteSlice) : dict :=
  [("route", JStr (sr_route self)); ("title", JStr (sr_title self));
   ("lifecycle", JStr (sr_lifecycle self)); ("summary", JStr (sr_summary self));
   ("authority", str_list (sr_authority self));
   ("implementation", str_list (sr_implementation self));
   ("configuration", str_list (sr_configuration self));
   ("tests", str_list (sr_tests self));
   ("release_gates", str_list (sr_release_gates self));
   ("dependencies", str_list (sr_dependencies self))].

(** ** Reports *)

Record AdvisoryReport : Type := mk_AdvisoryReport {
  rep_summary : string;
  rep_findings : list string;
  rep_citations : list string;
  rep_proposed_target : option string;
  rep_claimed_approval : option string;
  rep_proposed_plan : option dict;
  rep_extra : dict;
}.

Definition check_finding (finding : string) : result unit :=
  raise_if (is_blank finding || (MAX_TEXT <? len finding))
    (AdvisoryReportRejected "report finding must contain bounded text");;
  reject_secret_text finding "report finding".

Definition validate_report (report : AdvisoryReport) : result unit :=
  raise_if (is_blank (rep_summary report) || (MAX_TEXT <? len (rep_summary report)))
    (AdvisoryReportRejected "report summary must contain bounded text");;
  raise_if ((64 <? Z.of_nat (length (rep_findings report)))
            || (64 <? Z.of_nat (length (rep_citations report))))
    (AdvisoryReportRejected "report exceeds the item limit");;
  raise_if (is_someb (rep_proposed_target report))
    (AdvisoryReportRejected "report cannot select a target");;
  raise_if (is_someb (rep_claimed_approval report))
    (AdvisoryReportRejected "report cannot claim approval");;
  raise_if (is_someb (rep_proposed_plan report))
    (AdvisoryReportRejected "report cannot create or alter a plan");;
  reraise
    (reject_secret_text (rep_summary report) "report summary";;
     for_each check_finding (rep_findings report);;
     (match rep_extra report with
      | [] => Ok tt
      | extra => sanitize_payload extra;; Ok tt
      end);;
     for_each (λ c, normalize_path c;; Ok tt) (rep_citations report))
    (λ e, if is_class "AdvisoryPayloadRejected" e || is_class "AdvisoryDispatchDenied" e
          then Some (AdvisoryReportRejected (exn_message e)) else None).

Record VerifiedAdvisoryEvidence : Type := mk_VerifiedAdvisoryEvidence {
  ev_summary : string;
  ev_findings : list string;
  ev_citations : list string;
}.

(** ** The broker and its sessions *)

Record AdvisoryEnvelope : Type := mk_AdvisoryEnvelope {
  env_task_id : string;
  env_role : AdvisoryRole;
  env_profile_name : string;
  env_depth : Z;
  env_semantic_route : SemanticRouteSlice;
  env_payload : dict;
}.

Inductive DelegationStatus : Type := COMPLETED | FALLBACK | DENIED.
#[export] Instance DelegationStatus_eq_dec : EqDecision DelegationStatus.
Proof. solve_decision. Defined.

Record DelegationOutcome : Type := mk_DelegationOutcome {
  do_status : DelegationStatus;
  do_role : AdvisoryRole;
  do_fallback_to_parent : bool;
  do_reason : string;
  do_report : option AdvisoryReport;
}.

Record AdvisoryBudgetReservation : Type := mk_AdvisoryBudgetReservation {
  br_allowed : bool;
  br_research_attempts : Z;
  br_review_attempts : Z;
}.

(** The durable backend of the attempt limits, over its state [S]. *)
Class AdvisoryBudget (S : Type) : Type :=
  reserve_goal : string → AdvisoryRole → Z → Z → S → result AdvisoryBudgetReservation * S.

Record AdvisoryBroker : Type := mk_AdvisoryBroker {
  bro_inventory : AgentInventory;
  bro_repository : RepositoryFixture;
  (** a durable budget is configured *)
  bro_budget : bool;
}.

Definition MAX_RESEARCH_TASKS : Z := 3.
Definition MAX_PLAN_REVIEWS : Z := 1.

(** [profiles[name]]: a later entry of the mapping replaces an earlier one. *)
Definition profile_named (inventory : AgentInventory) (name : string) : option AgentProfile :=
  List.find (λ p, (prof_name p =? name)%string)
    [inv_reviewer inventory; inv_researcher inventory; inv_parent inventory].

Definition select_profile (self : AdvisoryBroker) (name : string) (by_user : bool)
    : result AgentProfile :=
  profile ← or_raise (profile_named (bro_inventory self) name)
    (ProfileValidationError ("unknown profile: " +:+ name));
  raise_if (by_user && negb (prof_user_invocable profile))
    (AdvisoryDispatchDenied ("profile " +:+ repr_str name +:+ " is not user-invocable"));;
  raise_if (negb by_user && prof_disable_model_invocation profile)
    (AdvisoryDispatchDenied ("direct host invocation is disabled: " +:+ name));;
  Ok profile.

Record AdvisorySession : Type := mk_AdvisorySession {
  as_task_id : string;
  as_goal_id : string;
  as_semantic_route : option SemanticRouteSlice;
  as_research_attempts : Z;
  as_review_attempts : Z;
}.

Definition start_session (self : AdvisoryBroker) (parent_name task_id : string)
    (goal_id : option string) (semantic_route : option SemanticRouteSlice)
    : result AdvisorySession :=
  raise_if (negb (parent_name =? prof_name (inv_parent (bro_inventory self)))%string)
    (AdvisoryDispatchDenied "session must be owned by selected MasterAgent");;
  raise_if (is_blank task_id || (256 <? len task_id))
    (AdvisoryPayloadRejected "task_id must contain 1-256 characters");;
  let selected_goal := default task_id goal_id in
  raise_if (is_blank selected_goal || untrimmed selected_goal || (256 <? len selected_goal))
    (AdvisoryPayloadRejected "goal_id must contain 1-256 characters");;
  Ok (mk_AdvisorySession task_id selected_goal semantic_route 0 0).

Definition recheck_report (self : AdvisoryBroker) (report : AdvisoryReport)
    : result VerifiedAdvisoryEvidence :=
  validate_report report;;
  let cited := sort_by str_le (remove_dups (rep_citations report)) in
  let missing := List.filter (λ p, negb (fixture_contains (bro_repository self) p)) cited in
  raise_if (negb (bool_decide (missing = [])))
    (AdvisoryReportRejected ("report cites unavailable evidence: " +:+ str_join ", " missing));;
  Ok (mk_VerifiedAdvisoryEvidence (rep_summary report) (rep_findings report) cited).

(** [_content_minimized_worker_failure]. *)
Definition content_minimized_worker_failure (e : exn) : string :=
  let name := exn_class e in
  if (name =? "CopilotSdkUnavailable")%string
  then "optional Copilot SDK is unavailable; keep work on the parent path"
  else if (name =? "CopilotRepositoryChanged")%string
  then "advisory repository state changed during delegation; use parent fallback"
  else if (name =? "CopilotRepositoryScanRejected")%string
  then "advisory repository state could not be bound; use parent fallback"
  else if (name =? "CopilotScopeRejected")%string
  then "advisory route scope failed closed; keep work on the parent path"
  else if (name =? "CopilotResponseRejected")%string
  then "advisory worker output was rejected; keep work on the parent path"
  else "advisory worker failed closed; keep work on the parent path".

(** [except (OSError, RuntimeError, ValueError)]. *)
Definition budget_unavailable (e : exn) : bool :=
  match e with
  | PyOSError _ | PyRuntimeError _ | PyValueError _ | StructuredDataTypeError _ => true
  | PySubclassError b _ _ =>
      bool_decide (b ∈ [OSErrorBase; RuntimeErrorBase; ValueErrorBase])
  | _ => false
  end.

Section session.
Context {S W : Type} `{AdvisoryBudget S} (broker : AdvisoryBroker).

(** The child, over the state [W] of what is behind it. *)
Abbreviation worker :=
  (AdvisoryEnvelope → AdvisoryDispatcher → W → result AdvisoryReport * W).

Definition with_attempts (self : AdvisorySession) (research review : Z) : AdvisorySession :=
  mk_AdvisorySession (as_task_id self) (as_goal_id self) (as_semantic_route self) research review.

(** [_reserve], with the session and the budget it leaves. *)
Definition reserve_role (role : AdvisoryRole) (self : AdvisorySession) (s : S)
    : result bool * AdvisorySession * S :=
  if bro_budget broker then
    match reserve_goal (as_goal_id self) role MAX_RESEARCH_TASKS MAX_PLAN_REVIEWS s with
    | (Err e, s) => (Err e, self, s)
    | (Ok r, s) =>
        (Ok (br_allowed r), with_attempts self (br_research_attempts r) (br_review_attempts r), s)
    end
  else
    let research := as_research_attempts self in
    let review := as_review_attempts self in
    match role with
    | RESEARCH =>
        if MAX_RESEARCH_TASKS <=? research then (Ok false, self, s)
        else (Ok true, with_attempts self (research + 1) review, s)
    | PLAN_REVIEW =>
        if MAX_PLAN_REVIEWS <=? review then (Ok false, self, s)
        else (Ok true, with_attempts self research (review + 1), s)
    end.

Definition kept_on_parent (status : DelegationStatus) (role : AdvisoryRole) (reason : string)
    : DelegationOutcome := mk_DelegationOutcome status role true reason None.

(** The call of the child. *)
Definition run_worker (self : AdvisorySession) (role : AdvisoryRole)
    (route : SemanticRouteSlice) (sanitized : dict) (w : worker) (world : W)
    : DelegationOutcome * W :=
  let profile := inventory_child (bro_inventory broker) role in
  let envelope := mk_AdvisoryEnvelope (as_task_id self) role (prof_name profile) 0 route sanitized in
  let dispatcher := mk_AdvisoryDispatcher profile (bro_repository broker) in
  let '(r, world) := w envelope dispatcher world in
  match (report ← r; validate_report report;; Ok report) with
  | Ok report =>
      (mk_DelegationOutcome COMPLETED role false
         "untrusted report returned for parent re-validation" (Some report), world)
  | Err e => (kept_on_parent FALLBACK role (content_minimized_worker_failure e), world)
  end.

Definition delegate (role : AdvisoryRole) (payload : dict) (w : option worker) (depth : Z)
    (self : AdvisorySession) (s : S) (world : W)
    : result DelegationOutcome * AdvisorySession * S * W :=
  let denied reason := (Ok (kept_on_parent DENIED role reason), self, s, world) in
  if negb (depth =? 0) then denied "nested delegation is denied; keep the task on the parent"
  else
    match as_semantic_route self with
    | None => denied "one validated parent-selected semantic route is required"
    | Some route =>
        match sanitize_payload payload with
        | Err e =>
            if is_class "AdvisoryPayloadRejected" e then denied (exn_message e)
            else (Err e, self, s, world)
        | Ok sanitized =>
            let '(reserved, self, s) := reserve_role role self s in
            let fallback reason := (Ok (kept_on_parent FALLBACK role reason), self, s, world) in
            match reserved with
            | Err e =>
                if budget_unavailable e
                then fallback "advisory budget state is unavailable; keep work on the parent path"
                else (Err e, self, s, world)
            | Ok false => fallback "delegation budget exhausted; keep work on the parent path"
            | Ok true =>
                match w with
                | None =>
                    fallback "no approved host adapter is available; complete the task directly"
                | Some w =>
                    let '(outcome, world) := run_worker self role route sanitized w world in
                    (Ok outcome, self, s, world)
                end
            end
        end
    end.
End session.
