(* ===== verification/AdvisoryBudget.v ===== *)
(** * AdvisoryBudget: durable attempt budgets,
    [src/src/master_agent/advisory_budget.py]

    One SQLite table holds a row per goal: digests, two counters and an HMAC tag.
    A column read back is a JSON scalar, since the file may have been changed from
    outside.  A store is the digest of its repository and its key; creating and
    opening the directory, the key file and the database file is not modelled, so
    the errors of the file system do not appear.  A [with] block over a connection
    is [atomically]. *)

From S2P Require Import Prelude PyText PyJson PyHash PyTime PyDate PySql PyJsonLoads PlatformIdentity.
From S2P Require Import ModelsBase ModelsResults Approvals Advisory.

Open Scope Z_scope.

Definition MAX_GOAL_RECORDS : Z := 4096.
Definition GOAL_ID_BYTES : Z := 256.
Definition SCHEMA_COLUMNS : list string :=
  ["goal_digest"; "repository_digest"; "research_attempts"; "review_attempts"; "tag"].

Definition AdvisoryBudgetStateError (msg : string) : exn :=
  PySubclassError RuntimeErrorBase "AdvisoryBudgetStateError" msg.

(** ** The table *)

Record goal_budget : Type := mk_goal_budget {
  gb_goal_digest : string;
  gb_repository_digest : json;
  gb_research_attempts : json;
  gb_review_attempts : json;
  gb_tag : json;
}.

Record budget_database : Type := mk_budget_database {
  (** the columns of the table, once it exists *)
  bd_columns : option (list string);
  bd_rows : list goal_budget;
}.

Record AdvisoryBudgetStore : Type := mk_AdvisoryBudgetStore {
  bs_repository_digest : string;
  bs_key : list Z;
}.

(** ** Digests and tags *)

Definition goal_digest (goal_id : string) : result string :=
  raise_if ((goal_id =? "")%string || untrimmed goal_id || (GOAL_ID_BYTES <? utf8_length goal_id))
    (PyValueError "advisory goal ID is invalid");;
  Ok (sha256 goal_id).

Section store.
Context (self : AdvisoryBudgetStore).

Definition tag_material (digest : string) (research_attempts review_attempts : Z) : json :=
  JDict [("goal_digest", JStr digest);
         ("repository_digest", JStr (bs_repository_digest self));
         ("research_attempts", JInt research_attempts);
         ("review_attempts", JInt review_attempts);
         ("schema", JInt 1)].

Definition budget_tag (digest : string) (research_attempts review_attempts : Z) : string :=
  hmac_sha256 (bs_key self)
    (canonical_ascii (tag_material digest research_attempts review_attempts)).

(** [_verified_counts], of the columns after the key. *)
Definition verified_counts (digest : string) (row : goal_budget) : result (Z * Z) :=
  let malformed := Err (AdvisoryBudgetStateError "advisory budget row is malformed") in
  match gb_repository_digest row, gb_research_attempts row, gb_review_attempts row, gb_tag row with
  | JStr repository, JInt research, JInt review, JStr tag =>
      if negb (repository =? bs_repository_digest self)%string || (research <? 0) || (review <? 0)
      then malformed
      else
        authentic ← compare_digest (budget_tag digest research review) tag;
        raise_if (negb authentic)
          (AdvisoryBudgetStateError "advisory budget row authentication failed");;
        Ok (research, review)
  | _, _, _, _ => malformed
  end.

(** ** Opening *)

(** [CREATE TABLE IF NOT EXISTS] and the check of its columns. *)
Definition initialize_budget (db : budget_database) : result unit * budget_database :=
  atomically (λ db,
    let columns := default SCHEMA_COLUMNS (bd_columns db) in
    raise_if (negb (bool_decide (columns = SCHEMA_COLUMNS)))
      (AdvisoryBudgetStateError "advisory budget schema is incompatible");;
    Ok (tt, mk_budget_database (Some columns) (bd_rows db))) db.

(** ** Reserving *)

(** The counters of a goal; a goal without a row needs room for one. *)
Definition current_counts (digest : string) (db : budget_database) : result (Z * Z) :=
  match select_where (λ r, (gb_goal_digest r =? digest)%string) (bd_rows db) with
  | None =>
      raise_if (negb (Z.of_nat (length (bd_rows db)) <? MAX_GOAL_RECORDS))
        (AdvisoryBudgetStateError "advisory budget record limit is exhausted");;
      Ok (0, 0)
  | Some row => verified_counts digest row
  end.

(** The counters after the attempt, and whether it is allowed. *)
Definition count_attempt (role : AdvisoryRole) (max_research max_reviews : Z) (counts : Z * Z)
    : bool * (Z * Z) :=
  let '(research, review) := counts in
  match role with
  | RESEARCH =>
      if research <? max_research then (true, (research + 1, review)) else (false, counts)
  | PLAN_REVIEW =>
      if review <? max_reviews then (true, (research, review + 1)) else (false, counts)
  end.

(** [INSERT ... ON CONFLICT(goal_digest) DO UPDATE]. *)
Definition upsert (row : goal_budget) (rows : list goal_budget) : list goal_budget :=
  let same r := (gb_goal_digest r =? gb_goal_digest row)%string in
  if existsb same rows then map (λ r, if same r then row else r) rows else rows ++ [row].

(** SQLite integers have 64 bits. *)
Definition check_sqlite_int (z : Z) : result unit :=
  raise_if (2 ^ 63 <=? z)
    (PySubclassError OverflowErrorBase "OverflowError"
       "Python int too large to convert to SQLite INTEGER").

Definition signed_row (digest : string) (counts : Z * Z) : goal_budget :=
  mk_goal_budget digest (JStr (bs_repository_digest self)) (JInt counts.1) (JInt counts.2)
    (JStr (budget_tag digest counts.1 counts.2)).

Definition reserve_attempt (goal_id : string) (role : AdvisoryRole)
    (max_research_tasks max_plan_reviews : Z) (db : budget_database)
    : result AdvisoryBudgetReservation * budget_database :=
  match goal_digest goal_id with
  | Err e => (Err e, db)
  | Ok digest =>
      if (max_research_tasks <=? 0) || (max_plan_reviews <=? 0)
      then (Err (PyValueError "advisory budget limits must be positive"), db)
      else
        atomically (λ db,
          counts ← current_counts digest db;
          let '(allowed, counts) :=
            count_attempt role max_research_tasks max_plan_reviews counts in
          rows ← (if allowed
                  then check_sqlite_int counts.1;; check_sqlite_int counts.2;;
                       Ok (upsert (signed_row digest counts) (bd_rows db))
                  else Ok (bd_rows db));
          Ok (mk_AdvisoryBudgetReservation allowed counts.1 counts.2,
              mk_budget_database (bd_columns db) rows)) db
  end.

(** The store behind the interface of the broker. *)
Definition store_budget : AdvisoryBudget budget_database := reserve_attempt.
End store.
