(* ===== verification/PyRegex.v ===== *)
(** * PyRegex: [re.search] with assertions

    The fragment of Python's [re] that the patterns of sensitive text use: besides
    alternation and repetition it has lookahead, a negated one-character
    lookbehind, word boundaries and [$].  A position is the character before and
    the text after; [ends] lists the positions at which a match from a position
    can end.  Whether a search succeeds does not depend on their order, and
    [search_found] says so: it succeeds when some match exists. *)

From S2P Require Import Prelude PyText PyStd Capabilities.
From Stdlib Require Import Ascii.

Open Scope Z_scope.

Inductive xre : Type :=
  | XEps
  | XChar (p : ascii → bool)
  | XSeq (r s : xre)
  | XAlt (r s : xre)
  | XStar (r : xre)
  | XAhead (r : xre)                       (* [(?=r)] *)
  | XNotAfter (p : ascii → bool)           (* [(?<!p)] *)
  | XBound                                 (* [\b] *)
  | XEnd.                                  (* [$] *)

Abbreviation pos := (option ascii * string)%type.

Definition word_at (o : option ascii) : bool := match o with Some c => is_word c | None => false end.

Definition next_char (s : string) : option ascii :=
  match s with EmptyString => None | String c _ => Some c end.

Definition bound_at (x : pos) : bool := xorb (word_at x.1) (word_at (next_char x.2)).

(** [$] holds at the end, and before a line feed that ends the text. *)
Definition end_at (x : pos) : bool :=
  (x.2 =? "")%string || (x.2 =? String (chr 10) "")%string.

Definition shorter (x y : pos) : bool := (String.length y.2 <? String.length x.2)%nat.

(** The repetitions of a step that consumes something, up to a number. *)
Fixpoint repeated (n : nat) (step : pos → list pos) (x : pos) : list pos :=
  match n with
  | O => [x]
  | S n => x :: (List.filter (shorter x) (step x) ≫= repeated n step)
  end.

Fixpoint ends (r : xre) (x : pos) : list pos :=
  match r with
  | XEps => [x]
  | XChar p =>
      match x.2 with String c s => if p c then [(Some c, s)] else [] | EmptyString => [] end
  | XSeq r s => ends r x ≫= ends s
  | XAlt r s => ends r x ++ ends s x
  | XStar r => repeated (String.length x.2) (ends r) x
  | XAhead r => match ends r x with [] => [] | _ => [x] end
  | XNotAfter p => match x.1 with Some c => if p c then [] else [x] | None => [x] end
  | XBound => if bound_at x then [x] else []
  | XEnd => if end_at x then [x] else []
  end.

Fixpoint found_from (r : xre) (prev : option ascii) (s : string) : bool :=
  match ends r (prev, s) with
  | _ :: _ => true
  | [] => match s with EmptyString => false | String c s => found_from r (Some c) s end
  end.

(** [pattern.search(text) is not None]. *)
Definition re_found (r : xre) (text : string) : bool := found_from r None text.

(** ** Building patterns *)

Definition xcat : list xre → xre := foldr XSeq XEps.
Definition xalt (rs : list xre) : xre :=
  match rs with [] => XEps | r :: rs => fold_left XAlt rs r end.
Definition xopt (r : xre) : xre := XAlt r XEps.
Definition xplus (r : xre) : xre := XSeq r (XStar r).
Fixpoint xtimes (n : nat) (r : xre) : xre := match n with O => XEps | S n => XSeq r (xtimes n r) end.
(** [r{n,}]. *)
Definition xatleast (n : nat) (r : xre) : xre := XSeq (xtimes n r) (XStar r).

(** Characters, exactly and with [re.IGNORECASE]. *)
Definition xexact (c : ascii) : xre := XChar (λ d, (d =? c)%char).
Definition same_letter (c d : ascii) : bool := (lower_char d =? lower_char c)%char.
Fixpoint xword (s : string) : xre :=
  match s with
  | EmptyString => XEps
  | String c s => XSeq (XChar (same_letter c)) (xword s)
  end.
Definition xone (chars : string) : xre := XChar (λ c, str_in c chars).
Definition xspace : xre := XChar is_space.
Definition xnonspace : xre := XChar (λ c, negb (is_space c)).

(** ** What a pattern matches *)

Inductive match_to : xre → pos → pos → Prop :=
  | mt_eps x : match_to XEps x x
  | mt_char p prev c s : p c = true → match_to (XChar p) (prev, String c s) (Some c, s)
  | mt_seq r s x y z : match_to r x y → match_to s y z → match_to (XSeq r s) x z
  | mt_left r s x y : match_to r x y → match_to (XAlt r s) x y
  | mt_right r s x y : match_to s x y → match_to (XAlt r s) x y
  | mt_none r x : match_to (XStar r) x x
  | mt_more r x y z : match_to r x y → match_to (XStar r) y z → match_to (XStar r) x z
  | mt_ahead r x y : match_to r x y → match_to (XAhead r) x x
  | mt_not_after p prev s : (∀ c, prev = Some c → p c = false) → match_to (XNotAfter p) (prev, s) (prev, s)
  | mt_bound x : bound_at x = true → match_to XBound x x
  | mt_end x : end_at x = true → match_to XEnd x x.

(** A match only moves forward, and stays where it is if it consumes nothing. *)
Lemma match_forward r x y :
  match_to r x y → (String.length y.2 < String.length x.2)%nat ∨ y = x.
Proof.
  assert (∀ x y z : pos, (String.length y.2 < String.length x.2)%nat ∨ y = x →
    (String.length z.2 < String.length y.2)%nat ∨ z = y → (String.length z.2 < String.length x.2)%nat ∨ z = x)
    as trans by (intros x' y' z' [|] [|]; subst; [left; lia|by left|by left|by right]).
  induction 1; cbn [snd String.length] in *; [by right|left; lia|by eapply trans|done|done|by right|
    by eapply trans|by right..].
Qed.

Lemma elem_filter {A} (p : A → bool) (l : list A) x : x ∈ List.filter p l ↔ p x = true ∧ x ∈ l.
Proof. rewrite !list_elem_of_In, filter_In. tauto. Qed.

Lemma repeated_spec r step n x y :
  (∀ x y, y ∈ step x ↔ match_to r x y) → (String.length x.2 ≤ n)%nat →
  y ∈ repeated n step x ↔ match_to (XStar r) x y.
Proof.
  intros Hstep. revert x y. induction n as [|n IH]; intros x y Hn.
  - cbn. rewrite list_elem_of_singleton. split; [intros ->; constructor|].
    intros [H| ->]%match_forward; [lia|done].
  - cbn [repeated]. rewrite elem_of_cons, list_elem_of_bind. split.
    + intros [->|(z & Hy & [Hs Hz]%elem_filter)]; [constructor|].
      apply Nat.ltb_lt in Hs. apply IH in Hy; [|lia]. apply Hstep in Hz. by econstructor.
    + intros H. remember (XStar r) as q eqn:Eq. revert Hn.
      induction H as [| | | | | |r' x y z H1 IH1 H2 IH2| | | |]; intros Hn; simplify_eq; [by left|].
      destruct (match_forward _ _ _ H1) as [Hl| ->]; [right|by apply IH2].
      exists y. split; [apply IH; [lia|done]|].
      apply elem_filter. split; [by apply Nat.ltb_lt|by apply Hstep].
Qed.

Lemma ends_spec r x y : y ∈ ends r x ↔ match_to r x y.
Proof.
  revert x y. induction r as [|p|r IHr s IHs|r IHr s IHs|r IHr|r IHr|p| |]; intros x y; cbn [ends].
  - rewrite list_elem_of_singleton. split; [intros ->; constructor|by inversion 1].
  - destruct x as [prev [|c t]]; cbn [snd].
    { split; [intros H; by apply not_elem_of_nil in H|inversion 1]. }
    destruct (p c) eqn:Hp.
    + rewrite list_elem_of_singleton. split; [intros ->; by constructor|by inversion 1].
    + split; [intros H; by apply not_elem_of_nil in H|inversion 1; congruence].
  - rewrite list_elem_of_bind. split.
    + intros (z & Hy%IHs & Hz%IHr). by econstructor.
    + inversion 1; subst. eexists. split; [by apply IHs|by apply IHr].
  - rewrite elem_of_app, IHr, IHs. split; [intros [H|H]; [by apply mt_left|by apply mt_right]|].
    inversion 1; auto.
  - by apply repeated_spec.
  - destruct (ends r x) as [|z l] eqn:E.
    + split; [intros H; by apply not_elem_of_nil in H|]. inversion 1 as [| | | | | | |? ? z Hz| | |]; subst.
      apply IHr in Hz. rewrite E in Hz. by apply not_elem_of_nil in Hz.
    + rewrite list_elem_of_singleton. split; [|by inversion 1]. intros ->.
      apply (mt_ahead r x z), IHr. rewrite E. by left.
  - destruct x as [[c|] t]; cbn [fst].
    + destruct (p c) eqn:Hp.
      * split; [intros H; by apply not_elem_of_nil in H|]. inversion 1 as [| | | | | | | |? ? ? Hc| |]; subst.
        by rewrite (Hc c eq_refl) in Hp.
      * rewrite list_elem_of_singleton. split; [intros ->; constructor; naive_solver|by inversion 1].
    + rewrite list_elem_of_singleton. split; [intros ->; by constructor|by inversion 1].
  - destruct (bound_at x) eqn:E.
    + rewrite list_elem_of_singleton. split; [intros ->; by constructor|by inversion 1].
    + split; [intros H; by apply not_elem_of_nil in H|]. inversion 1; congruence.
  - destruct (end_at x) eqn:E.
    + rewrite list_elem_of_singleton. split; [intros ->; by constructor|by inversion 1].
    + split; [intros H; by apply not_elem_of_nil in H|]. inversion 1; congruence.
Qed.

(** The character before the text that follows [s]. *)
Fixpoint char_before (prev : option ascii) (s : string) : option ascii :=
  match s with EmptyString => prev | String c s => char_before (Some c) s end.

(** Some match starts somewhere in the text. *)
Lemma search_found r text :
  re_found r text = true
  ↔ ∃ before after y, text = before +:+ after ∧ match_to r (char_before None before, after) y.
Proof.
  unfold re_found. generalize (@None ascii). induction text as [|c text IH]; intros prev; cbn [found_from].
  - destruct (ends r (prev, "")) as [|y l] eqn:E.
    + split; [done|]. intros (before & after & y & Ht & Hy).
      destruct before; [|done]. change ("" = after) in Ht. subst after. apply ends_spec in Hy. cbn in Hy.
      rewrite E in Hy. by apply not_elem_of_nil in Hy.
    + split; [|done]. intros _. exists "", "", y. split; [done|]. apply ends_spec. cbn. rewrite E. by left.
  - destruct (ends r (prev, String c text)) as [|y l] eqn:E.
    + rewrite IH. split.
      * intros (before & after & y & -> & Hy). by exists (String c before), after, y.
      * intros (before & after & y & Ht & Hy). destruct before as [|c' before].
        -- change (String c text = after) in Ht. subst after. apply ends_spec in Hy. cbn in Hy. rewrite E in Hy.
           by apply not_elem_of_nil in Hy.
        -- rewrite append_cons in Ht. injection Ht as <- ->. by exists before, after, y.
    + split; [|done]. intros _. exists "", (String c text), y. split; [done|].
      apply ends_spec. cbn. rewrite E. by left.
Qed.
