(* ===== verification/WorkMemory.v ===== *)
(** * WorkMemory: the journal of issue-to-merge work,
    [src/src/master_agent/work_memory.py]

    An append-only, hash-chained journal in two SQLite tables, replayed in full
    before and after every write.  A column read back is a JSON scalar, since the
    file may have been changed from outside; a table is its rows in the order of
    their key.  Opening the file and waiting for a concurrent first writer is not
    modelled, so the errors of the file system do not appear.  The fresh event ID
    and the clock are arguments of a write. *)

From S2P Require Import Prelude PyText PyJson PyHash PyTime PyDate PyStd PySql PyJsonLoads PyRegex.
From S2P Require Import ModelsBase PlatformIdentity.
From stdpp Require Import gmap strings.
From Stdlib Require Import Ascii.

Open Scope Z_scope.

Definition SCHEMA_VERSION : Z := 1.
Definition GENESIS_HASH : string := "GENESIS".
Definition MAX_EVENTS : Z := 1024.
Definition MAX_WORK_ID_BYTES : Z := 128.
Definition MAX_SUMMARY_BYTES : Z := 2048.
Definition MAX_REFERENCE_BYTES : Z := 1024.
Definition UNINITIALIZED_JOURNAL_MESSAGE : string :=
  "work-memory database does not contain an initialized journal".

Definition WorkMemoryError (msg : string) : exn :=
  PySubclassError RuntimeErrorBase "WorkMemoryError" msg.

(** ** Sensitive text *)

Definition alnum (c : ascii) : bool := is_alpha c || is_digit c.
Definition alnum_or (chars : string) (c : ascii) : bool := alnum c || str_in c chars.
Definition is_quote (c : ascii) : bool := (code c =? 34) || (code c =? 39).
Definition none_of (chars : string) (c : ascii) : bool := negb (str_in c chars).

Definition spaces0 : xre := XStar xspace.
Definition spaces1 : xre := xplus xspace.
Definition quote_mark : xre := XChar is_quote.
Definition quote_maybe : xre := xopt quote_mark.
Definition text1 : xre := xplus xnonspace.
Definition any_word (l : list string) : xre := xalt (map xword l).
Definition sep_maybe : xre := xopt (xone "_-").
Definition two_words (a b : string) : xre := xcat [xword a; sep_maybe; xword b].
Definition no_newline (c : ascii) : bool := negb ((code c =? 10) || (code c =? 13)).
Definition space_or_end : xre := xalt [xspace; XEnd].

(** A name is given a value with [:] or [=]. *)
Definition assigned : xre :=
  xcat [quote_maybe; spaces0; xone ":="; spaces0; quote_maybe; text1].
(** A header is given a value. *)
Definition header_value : xre :=
  xcat [quote_maybe; spaces0; xword ":"; spaces0; quote_maybe; text1].

Definition secret_names : list xre :=
  [xword "password"; xword "passwd"; two_words "api" "key"; two_words "private" "key";
   two_words "client" "secret"; two_words "access" "token"; two_words "refresh" "token";
   two_words "id" "token"; two_words "auth" "token"; xword "secret"; xword "token"].

Definition password_field : xre := xcat [XBound; xword "password"; spaces1; text1].

(** A prefix and at least [n] more characters, up to a word boundary. *)
Definition token_like (prefix : xre) (n : nat) (p : ascii → bool) : xre :=
  xcat [XBound; prefix; xatleast n (XChar p); XBound].

Definition sensitive_alternatives : list xre :=
  let any := alnum_or "_-" in
  let b64 := XChar (alnum_or "+/") in
  let b64_pad := XChar (alnum_or "+/=") in
  let bearer := alnum_or "._~+/-" in
  let bearer_pad := XChar (alnum_or "._~+/=-") in
  [xcat [xword "-----BEGIN "; XStar (XChar (λ c, is_alpha c || (c =? " ")%char)); xword "PRIVATE KEY";
         xopt (xword " BLOCK"); xword "-----"];
   xcat [XBound; xopt (xword "proxy-"); xword "authorization"; header_value;
         xopt (xcat [spaces1; text1])];
   xcat [XBound; any_word ["set-cookie"; "cookie"]; header_value];
   xcat [XBound; any_word ["auth"; "identitytoken"; "registrytoken"]; quote_mark; spaces0; xword ":";
         spaces0; quote_mark; text1];
   xcat [XBound; XChar is_alpha; XStar (XChar (alnum_or "+.-")); xword "://";
         xplus (XChar (λ c, negb (is_space c) && none_of "/@" c)); xword "@"];
   xcat [XBound; xword "http"; xopt (xword "s"); xword "://"; XStar xnonspace; xone "?&";
         any_word ["sig"; "signature"; "x-amz-signature"; "x-amz-credential"; "x-goog-signature";
                "x-goog-credential"; "googleaccessid"];
         xword "="; xplus (XChar (λ c, negb (is_space c) && none_of "&#" c))];
   xcat [XBound; xalt [xcat [xword "machine"; spaces1; text1]; xword "default"]; XBound;
         XAhead (xcat [XStar (XChar no_newline); password_field]);
         XStar (XChar no_newline); password_field];
   xcat [XBound; xword "basic"; spaces1; XAhead (xcat [xatleast 8 b64_pad; space_or_end]);
         XAhead (xcat [XStar b64_pad; XChar (λ c, is_upper c || is_digit c || str_in c "+/=")]);
         xatleast 2 (xtimes 4 b64);
         xopt (xalt [xcat [xtimes 2 b64; xword "=="]; xcat [xtimes 3 b64; xword "="]]);
         XAhead space_or_end];
   xcat [XBound; xword "digest"; spaces1;
         any_word ["username"; "realm"; "nonce"; "uri"; "response"; "opaque"; "algorithm"; "qop"; "nc";
                "cnonce"]; spaces0; xword "="];
   xcat [XBound; xword "aws4-hmac-sha256"; spaces1; xword "credential"; spaces0; xword "="];
   xcat [XBound; xword "bearer"; spaces1; XAhead (xcat [xatleast 16 bearer_pad; space_or_end]);
         XAhead (xcat [XStar bearer_pad;
                       XChar (λ c, is_upper c || is_digit c || str_in c "._~+/-")]);
         xatleast 16 (XChar bearer); XStar (xword "="); XAhead space_or_end];
   xcat [XBound; xopt (xword "_");
         xopt (xcat [XChar is_alpha; XStar (XChar any); xone "_-"]);
         xalt (secret_names ++ [xcat [xword "client"; sep_maybe; xword "key"; sep_maybe; xword "data"]]);
         assigned];
   xcat [xword "<"; xopt (xcat [XChar is_alpha; XStar (XChar (alnum_or "_.-")); xword ":"]);
         xalt secret_names; XBound; XStar (XChar (none_of ">")); xword ">";
         xplus (XChar (none_of "<")); xword "</"];
   xcat [xword "--"; xalt secret_names; spaces1; text1];
   xcat [XNotAfter (alnum_or "_"); xword "_auth"; assigned];
   xcat [XBound; any_word ["pgpassword"; "mysql_pwd"; "rediscli_auth"]; assigned];
   xcat [XBound; any_word ["aws_access_key_id"; "aws_secret_access_key"; "aws_session_token";
                        "azure_client_secret"; "accountkey"; "sharedaccesssignature"]; assigned];
   xcat [XBound; any_word ["AKIA"; "ASIA"; "AIDA"; "AROA"]; xtimes 16 (XChar alnum); XBound];
   token_like (xword "AGE-SECRET-KEY-1") 20 alnum;
   token_like (xword "AIza") 32 any;
   token_like (xcat [xword "xox"; xone "baprsBAPRS"; xword "-"]) 8 (alnum_or "-");
   token_like (xword "xapp-") 20 (alnum_or "-");
   token_like (xword "npm_") 20 alnum;
   token_like (xcat [xword "eyJ"; xatleast 5 (XChar any); xword "."; xatleast 5 (XChar any); xword "."])
     8 any;
   xcat [XBound; xalt [xcat [xword "gh"; xone "pousrPOUSR"; xword "_"]; xword "github_pat_";
                       xword "sk-proj-"; xword "sk_live_"; xword "sk_test_"; xword "rk_live_";
                       xword "rk_test_"; xword "whsec_"]; xatleast 8 (XChar any)];
   token_like (xword "sk-") 20 any;
   token_like (xcat [xword "hv"; xone "sbrSBR"; xword "."]) 16 any;
   token_like (xword "ya29.") 20 any;
   token_like (any_word ["glpat-"; "glptt-"; "glrt-"; "glcbt-"; "glimt-"; "glsoat-"; "glagent-"; "gloas-";
                      "gldt-"]) 16 any;
   token_like (any_word ["hf_"; "lin_api_"; "gsk_"; "dop_v1_"; "doo_v1_"; "dor_v1_"; "shpat_"; "shpca_";
                      "shppa_"; "shpss_"; "sntrys_"; "ops_"; "dckr_pat_"; "PMAK-"]) 16 any;
   token_like (xword "dapi") 24 is_hex;
   token_like (xword "pypi-") 20 any;
   token_like (xcat [xword "SG."; xatleast 16 (XChar any); xword "."]) 16 any;
   token_like (xword "atlasv1.") 16 any].

Definition SENSITIVE_TEXT_PATTERN : xre := xalt sensitive_alternatives.
Definition sensitive_text (text : string) : bool := re_found SENSITIVE_TEXT_PATTERN text.

Example sensitive_examples :
  map sensitive_text ["Authorization: Bearer x"; "token = abc"; "see https://u:p@h/x"; "ghp_abcdefgh1";
                    "fix the token parser"; "src/a.py#L10"; "basic research"; "Basic dXNlcjpwYXNz"]
  = [true; true; true; true; false; false; false; true].
Proof. vm_compute. reflexivity. Qed.

(** ** Field checks *)

Definition check_work_text (label : string) (max_bytes : Z) (value : string) : result string :=
  raise_if ((value =? "")%string || untrimmed value || (max_bytes <? utf8_length value)
            || str_exists (λ c, (code c <? 32) || in_range 127 159 c) value
            || sensitive_text value)
    (PyValueError ("work-memory " +:+ label +:+ " is invalid or sensitive"));;
  Ok value.

Definition check_summary (value : string) : result string :=
  check_work_text "summary" MAX_SUMMARY_BYTES value.

(** ["://" in s]. *)
Fixpoint str_contains (p s : string) : bool :=
  startswith p s || match s with EmptyString => false | String _ s => str_contains p s end.

Definition check_reference (label value : string) : result string :=
  selected ← check_work_text label MAX_REFERENCE_BYTES value;
  parsed ← urlsplit selected;
  raise_if (str_contains "://" selected
            && (negb (url_scheme parsed =? "https")%string || (url_netloc parsed =? "")%string
                || url_has_userinfo parsed || negb (url_query parsed =? "")%string
                || negb (url_fragment parsed =? "")%string))
    (PyValueError (label +:+ " URL is unsafe"));;
  Ok selected.

(** [[A-Za-z0-9][A-Za-z0-9._:/#-]*\Z]. *)
Definition WORK_ID_PATTERN : regex :=
  RSeq (RChar alnum) (RStar (RChar (alnum_or "._:/#-"))).

Definition check_work_id (value : string) : result string :=
  raise_if ((value =? "")%string || untrimmed value || (MAX_WORK_ID_BYTES <? utf8_length value)
            || negb (fullmatch WORK_ID_PATTERN value) || sensitive_text value)
    (PyValueError "work ID is invalid");;
  Ok value.

(** ** Events *)

Inductive WorkStage : Type := ISSUE | PLANNED | IMPLEMENTING | REVIEWING | VERIFIED | MERGED.
#[export] Instance WorkStage_eq_dec : EqDecision WorkStage.
Proof. solve_decision. Defined.

Definition WorkStage_str (s : WorkStage) : string :=
  match s with
  | ISSUE => "issue" | PLANNED => "planned" | IMPLEMENTING => "implementing"
  | REVIEWING => "reviewing" | VERIFIED => "verified" | MERGED => "merged"
  end.
#[export] Instance WorkStage_enum : StrEnum WorkStage := {
  enum_name := "WorkStage";
  enum_members := [ISSUE; PLANNED; IMPLEMENTING; REVIEWING; VERIFIED; MERGED];
  enum_str := WorkStage_str }.
#[export] Instance WorkStage_laws : StrEnumLaws WorkStage.
Proof. by intros []. Qed.

(** [_STAGE_ORDER]. *)
Definition stage_order (s : WorkStage) : Z :=
  match s with
  | ISSUE => 0 | PLANNED => 1 | IMPLEMENTING => 2 | REVIEWING => 3 | VERIFIED => 4 | MERGED => 5
  end.

Inductive WorkEventKind : Type := STARTED | DECISION | CHECKPOINT | REFERENCE.
#[export] Instance WorkEventKind_eq_dec : EqDecision WorkEventKind.
Proof. solve_decision. Defined.

Definition WorkEventKind_str (k : WorkEventKind) : string :=
  match k with
  | STARTED => "started" | DECISION => "decision" | CHECKPOINT => "checkpoint"
  | REFERENCE => "reference"
  end.
#[export] Instance WorkEventKind_enum : StrEnum WorkEventKind := {
  enum_name := "WorkEventKind";
  enum_members := [STARTED; DECISION; CHECKPOINT; REFERENCE];
  enum_str := WorkEventKind_str }.
#[export] Instance WorkEventKind_laws : StrEnumLaws WorkEventKind.
Proof. by intros []. Qed.

Record WorkEvent : Type := mk_WorkEvent {
  we_sequence : Z;
  we_event_id : uuid;
  we_timestamp : datetime;
  we_work_id : string;
  we_kind : WorkEventKind;
  we_stage : WorkStage;
  we_summary : string;
  we_reference : option string;
  we_previous_hash : string;
  we_event_hash : string;
}.

Record WorkSnapshot : Type := mk_WorkSnapshot {
  ws_work_id : string;
  ws_issue_reference : string;
  ws_initial_summary : string;
  ws_stage : WorkStage;
  ws_events : list WorkEvent;
  ws_journal_event_count : Z;
  ws_journal_head_hash : string;
}.

Record WorkMemoryVerification : Type := mk_WorkMemoryVerification {
  wv_valid : bool;
  wv_message : string;
  wv_event_count : Z;
  wv_work_count : Z;
  wv_head_hash : string;
}.

Definition WorkEvent_to_dict (self : WorkEvent) : dict :=
  [("sequence", JInt (we_sequence self)); ("event_id", JStr (uuid_str (we_event_id self)));
   ("timestamp", JStr (isoformat (we_timestamp self))); ("work_id", JStr (we_work_id self));
   ("kind", JStr (enum_str (we_kind self))); ("stage", JStr (enum_str (we_stage self)));
   ("summary", JStr (we_summary self)); ("reference", opt_json JStr (we_reference self));
   ("previous_hash", JStr (we_previous_hash self)); ("event_hash", JStr (we_event_hash self))].

Definition WorkSnapshot_to_dict (self : WorkSnapshot) : dict :=
  [("schema", JStr "master-agent/work-memory@1"); ("untrusted_metadata", JBool true);
   ("work_id", JStr (ws_work_id self)); ("issue_reference", JStr (ws_issue_reference self));
   ("initial_summary", JStr (ws_initial_summary self)); ("stage", JStr (enum_str (ws_stage self)));
   ("event_count", JInt (Z.of_nat (length (ws_events self))));
   ("journal_event_count", JInt (ws_journal_event_count self));
   ("journal_head_hash", JStr (ws_journal_head_hash self));
   ("events", JList (map (λ e, JDict (WorkEvent_to_dict e)) (ws_events self)))].

Definition WorkMemoryVerification_to_dict (self : WorkMemoryVerification) : dict :=
  [("schema", JStr "master-agent/work-memory-verification@1"); ("valid", JBool (wv_valid self));
   ("message", JStr (wv_message self)); ("event_count", JInt (wv_event_count self));
   ("work_count", JInt (wv_work_count self)); ("head_hash", JStr (wv_head_hash self))].

(** What is hashed: every column but the hash itself. *)
Definition work_event_material (self : WorkEvent) : dict :=
  [("schema", JStr "master-agent/work-memory-event@1");
   ("sequence", JInt (we_sequence self)); ("event_id", JStr (uuid_str (we_event_id self)));
   ("timestamp", JStr (isoformat (we_timestamp self))); ("work_id", JStr (we_work_id self));
   ("kind", JStr (enum_str (we_kind self))); ("stage", JStr (enum_str (we_stage self)));
   ("summary", JStr (we_summary self)); ("reference", opt_json JStr (we_reference self));
   ("previous_hash", JStr (we_previous_hash self))].

Definition work_event_hash (self : WorkEvent) : string := sha256 (canonical_ascii (JDict (work_event_material self))).

(** ** The tables *)

Record work_row : Type := mk_work_row {
  wr_sequence : json;
  wr_event_id : json;
  wr_timestamp : json;
  wr_work_id : json;
  wr_kind : json;
  wr_stage : json;
  wr_summary : json;
  wr_reference : json;
  wr_previous_hash : json;
  wr_event_hash : json;
}.

Record state_row : Type := mk_state_row {
  sr_id : json;
  sr_event_count : json;
  sr_head_hash : json;
}.

(** A row of [PRAGMA table_info]: name, type, not null, default, key. *)
Abbreviation column := (string * string * Z * option string * Z)%type.

(** What [sqlite_master] and the pragmas say of the file. *)
Record schema : Type := mk_schema {
  sc_user_version : Z;
  (** type and name of each object *)
  sc_objects : list (string * string);
  (** name and SQL text of each table *)
  sc_definitions : list (string * json);
  sc_event_columns : list column;
  sc_state_columns : list column;
}.

Record work_database : Type := mk_work_database {
  wd_schema : schema;
  wd_events : list work_row;
  wd_state : list state_row;
}.

Definition EVENT_SCHEMA : list column :=
  [("sequence", "INTEGER", 0, None, 1); ("event_id", "TEXT", 1, None, 0);
   ("timestamp", "TEXT", 1, None, 0); ("work_id", "TEXT", 1, None, 0);
   ("kind", "TEXT", 1, None, 0); ("stage", "TEXT", 1, None, 0);
   ("summary", "TEXT", 1, None, 0); ("reference", "TEXT", 0, None, 0);
   ("previous_hash", "TEXT", 1, None, 0); ("event_hash", "TEXT", 1, None, 0)].

Definition STATE_SCHEMA : list column :=
  [("id", "INTEGER", 0, None, 1); ("event_count", "INTEGER", 1, None, 0);
   ("head_hash", "TEXT", 1, None, 0)].

Definition WORK_EVENTS_TABLE_SQL : string := "
    CREATE TABLE work_events (
        sequence INTEGER PRIMARY KEY,
        event_id TEXT NOT NULL,
        timestamp TEXT NOT NULL,
        work_id TEXT NOT NULL,
        kind TEXT NOT NULL,
        stage TEXT NOT NULL,
        summary TEXT NOT NULL,
        reference TEXT,
        previous_hash TEXT NOT NULL,
        event_hash TEXT NOT NULL
    )
".

Definition WORK_MEMORY_STATE_TABLE_SQL : string := "
    CREATE TABLE work_memory_state (
        id INTEGER PRIMARY KEY CHECK (id = 1),
        event_count INTEGER NOT NULL,
        head_hash TEXT NOT NULL
    )
".

(** [s.split()]. *)
Fixpoint split_space (word s : string) : list string :=
  let flush rest := if (word =? "")%string then rest else word :: rest in
  match s with
  | EmptyString => flush []
  | String c s =>
      if is_space c then flush (split_space "" s) else split_space (word +:+ String c "") s
  end.

Definition normalize_schema_sql (value : string) : string := str_join " " (split_space "" value).

Definition str_definitions (l : list (string * json)) : gmap string string :=
  list_to_map (omap (λ d : string * json,
    match d.2 with JStr sql => Some (d.1, normalize_schema_sql sql) | _ => None end) l).

Definition EXPECTED_OBJECTS : list (string * string) :=
  [("table", "work_events"); ("table", "work_memory_state")].

Definition validate_schema (s : schema) : result unit :=
  raise_if (negb (sc_user_version s =? SCHEMA_VERSION))
    (WorkMemoryError "work-memory schema version is incompatible");;
  raise_if (negb (bool_decide (list_to_set (C := gset (string * string)) (sc_objects s)
                               = list_to_set EXPECTED_OBJECTS)))
    (WorkMemoryError "work-memory schema tables are incompatible");;
  raise_if (negb (bool_decide (str_definitions (sc_definitions s)
      = str_definitions [("work_events", JStr WORK_EVENTS_TABLE_SQL);
                         ("work_memory_state", JStr WORK_MEMORY_STATE_TABLE_SQL)])))
    (WorkMemoryError "work-memory schema definitions are incompatible");;
  raise_if (negb (bool_decide (sc_event_columns s = EVENT_SCHEMA))
            || negb (bool_decide (sc_state_columns s = STATE_SCHEMA)))
    (WorkMemoryError "work-memory schema columns are incompatible").

(** ** Replay *)

Record Replay : Type := mk_Replay {
  rp_events : list WorkEvent;
  rp_by_work : gmap string (list WorkEvent);
  rp_head_hash : string;
}.

Definition is_chain_hash (value : string) (allow_genesis : bool) : bool :=
  (allow_genesis && (value =? GENESIS_HASH)%string) || is_sha256_hex value.

(** [except (TypeError, ValueError)]. *)
Definition type_or_value_error (e : exn) : bool :=
  match e with
  | PyTypeError _ | PyValueError _ => true
  | PySubclassError b _ _ => bool_decide (b = ValueErrorBase)
  | _ => false
  end.

(** [UUID(raw)] whose text is [raw]. *)
Definition exact_uuid (raw : string) : result uuid :=
  event_id ← uuid_parse raw;
  raise_if (negb (uuid_str event_id =? raw)%string) (PyValueError "");;
  Ok event_id.

(** [datetime.fromisoformat(raw)] in UTC whose text is [raw]. *)
Definition exact_utc (raw : string) : result datetime :=
  timestamp ← fromisoformat raw;
  raise_if (negb (bool_decide (dt_utcoffset timestamp = Some 0))) (PyValueError "");;
  raise_if (negb (isoformat timestamp =? raw)%string) (PyValueError "");;
  Ok timestamp.

Definition check_optional_reference (reference : option string) : result (option string) :=
  match reference with
  | None => Ok None
  | Some reference => Some <$> check_reference "reference" reference
  end.

(** The fields that are parsed. *)
Definition decode_fields (event_id timestamp work_id kind stage summary : string)
    (reference : option string)
    : result (uuid * datetime * WorkEventKind * WorkStage * string * string * option string) :=
  event_id ← exact_uuid event_id;
  timestamp ← exact_utc timestamp;
  kind ← enum_parse kind;
  stage ← enum_parse stage;
  work_id ← check_work_id work_id;
  summary ← check_summary summary;
  reference ← check_optional_reference reference;
  Ok (event_id, timestamp, kind, stage, work_id, summary, reference).

(** A text, or NULL. *)
Definition nullable_text (v : json) : option (option string) :=
  match v with JNull => Some None | JStr s => Some (Some s) | _ => None end.

Definition decode_event (row : work_row) (expected_sequence : Z) : result WorkEvent :=
  let at_row msg := WorkMemoryError (msg +:+ " at sequence " +:+ pretty expected_sequence) in
  raise_if (negb match wr_sequence row with JInt z => z =? expected_sequence | _ => false end)
    (at_row "event sequence gap");;
  match wr_event_id row, wr_timestamp row, wr_work_id row, wr_kind row, wr_stage row,
        wr_summary row, nullable_text (wr_reference row) with
  | JStr event_id, JStr timestamp, JStr work_id, JStr kind, JStr stage, JStr summary, Some reference =>
      '(event_id, timestamp, kind, stage, work_id, summary, reference) ←
        reraise (decode_fields event_id timestamp work_id kind stage summary reference)
          (λ e, if type_or_value_error e then Some (at_row "malformed event row") else None);
      match wr_previous_hash row, wr_event_hash row with
      | JStr previous_hash, JStr event_hash =>
          raise_if (negb (is_chain_hash previous_hash true) || negb (is_chain_hash event_hash false))
            (at_row "malformed event hash");;
          Ok (mk_WorkEvent expected_sequence event_id timestamp work_id kind stage summary reference
                previous_hash event_hash)
      | _, _ => Err (at_row "malformed event hash")
      end
  | _, _, _, _, _, _, _ => Err (at_row "malformed event row")
  end.

Definition validate_lifecycle_event (event : WorkEvent) (existing : list WorkEvent) : result unit :=
  let at_event msg := WorkMemoryError (msg +:+ " at sequence " +:+ pretty (we_sequence event)) in
  match last existing with
  | None =>
      raise_if (negb (bool_decide (we_kind event = STARTED)) || negb (bool_decide (we_stage event = ISSUE))
                || negb (is_someb (we_reference event)))
        (at_event "work record does not start correctly")
  | Some previous =>
      raise_if (bool_decide (we_kind event = STARTED)) (at_event "duplicate work start");;
      raise_if (bool_decide (we_kind event = REFERENCE) && negb (is_someb (we_reference event)))
        (at_event "reference is missing");;
      raise_if (bool_decide (we_stage previous = MERGED)) (at_event "event follows merge");;
      let difference := stage_order (we_stage event) - stage_order (we_stage previous) in
      raise_if (difference <? 0) (at_event "stage regresses");;
      raise_if (1 <? difference) (at_event "stage skips")
  end.

Definition events_of (by_work : gmap string (list WorkEvent)) (work_id : string) : list WorkEvent :=
  default [] (by_work !! work_id).

(** One row of the loop, after the rows before it. *)
Definition replay_row (row : work_row) (st : Replay) : result Replay :=
  let expected_sequence := Z.of_nat (length (rp_events st)) + 1 in
  let at_row msg := WorkMemoryError (msg +:+ " at sequence " +:+ pretty expected_sequence) in
  event ← decode_event row expected_sequence;
  raise_if (bool_decide (we_event_id event ∈ map we_event_id (rp_events st)))
    (at_row "duplicate event ID");;
  raise_if (negb (we_previous_hash event =? rp_head_hash st)%string)
    (at_row "broken previous-hash link");;
  raise_if (negb (work_event_hash event =? we_event_hash event)%string)
    (at_row "event hash mismatch");;
  let existing := events_of (rp_by_work st) (we_work_id event) in
  validate_lifecycle_event event existing;;
  Ok (mk_Replay (rp_events st ++ [event])
        (<[we_work_id event := existing ++ [event]]> (rp_by_work st)) (we_event_hash event)).

Fixpoint replay_rows (rows : list work_row) (st : Replay) : result Replay :=
  match rows with
  | [] => Ok st
  | row :: rows => st ← replay_row row st; replay_rows rows st
  end.

Definition empty_replay : Replay := mk_Replay [] ∅ GENESIS_HASH.

Definition replay (db : work_database) (allow_empty : bool) : result Replay :=
  let rows := firstn (Z.to_nat (MAX_EVENTS + 1)) (wd_events db) in
  raise_if (MAX_EVENTS <? Z.of_nat (length rows))
    (WorkMemoryError "work-memory event limit was exceeded");;
  let malformed := Err (WorkMemoryError "work-memory checkpoint is malformed") in
  match wd_state db with
  | [state] =>
      match sr_id state, sr_event_count state, sr_head_hash state with
      | JInt 1, JInt checkpoint_count, JStr checkpoint_hash =>
          if checkpoint_count <? 0 then malformed
          else
            raise_if (match rows with [] => negb allow_empty | _ => false end)
              (WorkMemoryError "work-memory journal contains no events");;
            st ← replay_rows rows empty_replay;
            raise_if (negb (checkpoint_count =? Z.of_nat (length (rp_events st))))
              (WorkMemoryError "work-memory checkpoint count does not match history");;
            raise_if (negb (checkpoint_hash =? rp_head_hash st)%string)
              (WorkMemoryError "work-memory checkpoint head does not match history");;
            Ok st
      | _, _, _ => malformed
      end
  | _ => malformed
  end.

Definition work_snapshot (r : Replay) (work_id : string) : result WorkSnapshot :=
  events ← or_raise (rp_by_work r !! work_id) (WorkMemoryError "work record does not exist");
  match events, last events with
  | first :: _, Some latest =>
      issue_reference ← or_raise (we_reference first)
        (WorkMemoryError "work record issue reference is missing");
      Ok (mk_WorkSnapshot work_id issue_reference (we_summary first) (we_stage latest) events
            (Z.of_nat (length (rp_events r))) (rp_head_hash r))
  | _, _ => Err (PyOtherError "list index out of range")
  end.

(** ** Writing *)

(** The row an event is stored as. *)
Definition event_row (event : WorkEvent) : work_row :=
  mk_work_row (JInt (we_sequence event)) (JStr (uuid_str (we_event_id event)))
    (JStr (isoformat (we_timestamp event))) (JStr (we_work_id event))
    (JStr (enum_str (we_kind event))) (JStr (enum_str (we_stage event)))
    (JStr (we_summary event)) (opt_json JStr (we_reference event))
    (JStr (we_previous_hash event)) (JStr (we_event_hash event)).

Definition state_at (event_count : Z) (head_hash : string) (r : state_row) : bool :=
  match sr_id r, sr_event_count r, sr_head_hash r with
  | JInt 1, JInt c, JStr h => (c =? event_count) && (h =? head_hash)%string
  | _, _, _ => false
  end.

(** The next event of the journal, hashed. *)
Definition next_event (r : Replay) (event_id : uuid) (now : datetime) (work_id : string)
    (kind : WorkEventKind) (stage : WorkStage) (summary : string) (reference : option string)
    : WorkEvent :=
  let unhashed := mk_WorkEvent (Z.of_nat (length (rp_events r)) + 1) event_id now work_id kind stage
    summary reference (rp_head_hash r) "" in
  mk_WorkEvent (we_sequence unhashed) event_id now work_id kind stage summary reference
    (rp_head_hash r) (work_event_hash unhashed).

(** [INSERT], at the end of the table, since the replay has found the keys 1 to
    [n] in it, and [UPDATE] of the checkpoint. *)
Definition append_event (r : Replay) (event_id : uuid) (now : datetime) (work_id : string)
    (kind : WorkEventKind) (stage : WorkStage) (summary : string) (reference : option string)
    (db : work_database) : result work_database :=
  raise_if (MAX_EVENTS <=? Z.of_nat (length (rp_events r)))
    (WorkMemoryError "work-memory event limit is exhausted");;
  let event := next_event r event_id now work_id kind stage summary reference in
  let '(rowcount, state) :=
    update_where (state_at (we_sequence event - 1) (rp_head_hash r))
      (λ s, mk_state_row (sr_id s) (JInt (we_sequence event)) (JStr (we_event_hash event)))
      (wd_state db) in
  raise_if (negb (rowcount =? 1))
    (WorkMemoryError "work-memory checkpoint changed concurrently");;
  Ok (mk_work_database (wd_schema db) (wd_events db ++ [event_row event]) state).

(** What [start] and [record] do once the event is determined: write it, replay
    the journal, and let the caller check the snapshot. *)
Definition append_and_replay (r : Replay) (event_id : uuid) (now : datetime) (work_id : string)
    (kind : WorkEventKind) (stage : WorkStage) (summary : string) (reference : option string)
    (snapshot_validator : WorkSnapshot → result unit) (db : work_database)
    : result (WorkSnapshot * work_database) :=
  db ← append_event r event_id now work_id kind stage summary reference db;
  updated ← replay db false;
  snapshot ← work_snapshot updated work_id;
  snapshot_validator snapshot;;
  Ok (snapshot, db).

Definition validate_start_fields (work_id issue summary : string)
    : result (string * string * string) :=
  work_id ← check_work_id work_id;
  issue ← check_reference "issue reference" issue;
  summary ← check_summary summary;
  Ok (work_id, issue, summary).

Section writes.
Context (event_id : uuid) (now : datetime) (snapshot_validator : WorkSnapshot → result unit).

Definition start_work (work_id issue summary : string) (db : work_database)
    : result WorkSnapshot * work_database :=
  match validate_start_fields work_id issue summary with
  | Err e => (Err e, db)
  | Ok (work_id, issue, summary) =>
      atomically (λ db,
        validate_schema (wd_schema db);;
        r ← replay db true;
        raise_if (is_someb (rp_by_work r !! work_id)) (WorkMemoryError "work record already exists");;
        append_and_replay r event_id now work_id STARTED ISSUE summary (Some issue)
          snapshot_validator db) db
  end.

Definition validate_record_fields (work_id : string) (kind : WorkEventKind) (summary : string)
    (reference : option string) : result (string * string * option string) :=
  work_id ← check_work_id work_id;
  raise_if (bool_decide (kind = STARTED)) (PyValueError "started events must use work-memory start");;
  summary ← check_summary summary;
  reference ← check_optional_reference reference;
  raise_if (bool_decide (kind = REFERENCE) && negb (is_someb reference))
    (PyValueError "reference events require --reference");;
  Ok (work_id, summary, reference).

Definition record_work (work_id : string) (kind : WorkEventKind) (summary : string)
    (stage : option WorkStage) (reference : option string) (db : work_database)
    : result WorkSnapshot * work_database :=
  match validate_record_fields work_id kind summary reference with
  | Err e => (Err e, db)
  | Ok (work_id, summary, reference) =>
      atomically (λ db,
        validate_schema (wd_schema db);;
        r ← replay db false;
        work_events ← or_raise (rp_by_work r !! work_id)
          (WorkMemoryError "work record does not exist");
        latest ← or_raise (last work_events) (PyOtherError "list index out of range");
        let current_stage := we_stage latest in
        raise_if (bool_decide (current_stage = MERGED))
          (WorkMemoryError "merged work records are terminal");;
        let selected_stage := default current_stage stage in
        raise_if (stage_order selected_stage <? stage_order current_stage)
          (WorkMemoryError "work stage cannot regress");;
        raise_if (stage_order current_stage + 1 <? stage_order selected_stage)
          (WorkMemoryError "work stage cannot skip lifecycle stages");;
        append_and_replay r event_id now work_id kind selected_stage summary reference
          snapshot_validator db) db
  end.
End writes.

(** ** Opening and inspecting *)

(** [_initialize]. *)
Definition initialize_journal (create_schema : bool) (db : work_database) : result unit * work_database :=
  atomically (λ db,
    let s := wd_schema db in
    let tables := List.filter (λ o : string * string, (o.1 =? "table")%string) (sc_objects s) in
    db ← (if (sc_user_version s =? 0) && (match tables with [] => true | _ => false end)
          then
            raise_if (negb create_schema) (WorkMemoryError UNINITIALIZED_JOURNAL_MESSAGE);;
            Ok (mk_work_database
                  (mk_schema SCHEMA_VERSION (sc_objects s ++ EXPECTED_OBJECTS)
                     (sc_definitions s ++ [("work_events", JStr WORK_EVENTS_TABLE_SQL);
                                           ("work_memory_state", JStr WORK_MEMORY_STATE_TABLE_SQL)])
                     EVENT_SCHEMA STATE_SCHEMA)
                  [] [mk_state_row (JInt 1) (JInt 0) (JStr GENESIS_HASH)])
          else
            raise_if (negb (sc_user_version s =? SCHEMA_VERSION))
              (WorkMemoryError "work-memory schema version is incompatible");;
            Ok db);
    validate_schema (wd_schema db);;
    replay db true;;
    Ok (tt, db)) db.

Definition show_work (work_id : string) (db : work_database) : result WorkSnapshot :=
  work_id ← check_work_id work_id;
  validate_schema (wd_schema db);;
  r ← replay db false;
  work_snapshot r work_id.

Definition verify_journal (db : work_database) : WorkMemoryVerification :=
  match (validate_schema (wd_schema db);; replay db false) with
  | Err e => mk_WorkMemoryVerification false (exn_message e) 0 0 GENESIS_HASH
  | Ok r =>
      let count := Z.of_nat (length (rp_events r)) in
      mk_WorkMemoryVerification true ("verified " +:+ pretty count +:+ " work-memory events")
        count (Z.of_nat (size (rp_by_work r))) (rp_head_hash r)
  end.
