(* ===== verification/CapabilityRouting.v ===== *)
(** * CapabilityRouting: from an intent to a session of exact capabilities,
    [src/src/master_agent/capability_routing.py]

    The router filters the cards by policy, reads the operations and negations of
    a prompt, and ranks what is left; a session spends a budget of calls and bytes
    on its cards only.  The policy is a predicate, the clock an argument.  Making
    a card from a capsule manifest is not modelled.  In the Latin-1 range of this
    library the typographic apostrophe of a contraction does not occur. *)

From S2P Require Import Prelude PyText PyJson PyHash PyTime PyDate PyStd PyJsonLoads ResourceLimits ModelsBase.
From Stdlib Require Import Ascii.

Open Scope Z_scope.

(** ** Cards *)

Definition lower_alnum (c : ascii) : bool := is_lower c || is_digit c.

(** A lower-case word and one or more further parts, each after a separator. *)
Definition CAPABILITY_ID : regex :=
  RSeq (RChar is_lower) (RSeq (RStar (RChar lower_alnum))
    (rplus (RSeq (RChar (λ c, str_in c "._-"))
              (RSeq (RChar lower_alnum) (RStar (RChar (λ c, lower_alnum c || str_in c "_-"))))))).

(** Three numbers, and perhaps a suffix. *)
Definition VERSION : regex :=
  let number := rplus (RChar is_digit) in
  RSeq number (RSeq (rlit ".") (RSeq number (RSeq (rlit ".") (RSeq number
    (ropt (RSeq (RChar (λ c, str_in c "-+"))
             (rplus (RChar (λ c, is_alpha c || is_digit c || str_in c ".-"))))))))).

Record CapabilityCard : Type := mk_CapabilityCard {
  cc_capability_id : string;
  cc_version : string;
  cc_manifest_sha256 : string;
  cc_risk : RiskLevel;
  cc_intents : list string;
  cc_negative_intents : list string;
  cc_data_classification : DataClassification;
}.

Definition CapabilityCard_post_init (self : CapabilityCard) : result CapabilityCard :=
  raise_if (negb (fullmatch CAPABILITY_ID (cc_capability_id self))
            || negb (fullmatch VERSION (cc_version self))
            || negb (len (cc_manifest_sha256 self) =? 64)
            || str_exists (λ c, negb (is_lower_hex c)) (cc_manifest_sha256 self)
            || (match cc_intents self with [] => true | _ => false end)
            || existsb is_blank (cc_intents self))
    (ValidationError "capability routing card is incomplete");;
  Ok self.

Definition CapabilityCard_to_dict (self : CapabilityCard) : dict :=
  [("capability_id", JStr (cc_capability_id self)); ("version", JStr (cc_version self));
   ("manifest_sha256", JStr (cc_manifest_sha256 self)); ("risk", JStr (enum_str (cc_risk self)));
   ("intents", str_list (cc_intents self)); ("negative_intents", str_list (cc_negative_intents self));
   ("data_classification", JStr (enum_str (cc_data_classification self)))].

Definition cards_json (cards : list CapabilityCard) : json :=
  JList (map (λ c, JDict (CapabilityCard_to_dict c)) cards).

Definition cards_sha256 (cards : list CapabilityCard) : string :=
  sha256 (canonical_ascii (cards_json cards)).

Record RoutingDecision : Type := mk_RoutingDecision {
  rd_cards : list CapabilityCard;
  rd_normalized_intent_sha256 : string;
}.

Definition binding_sha256 (self : RoutingDecision) : string := cards_sha256 (rd_cards self).

(** ** Reading a prompt *)

Definition NEGATORS : list string := ["avoid"; "dont"; "never"; "no"; "not"; "without"].
Definition NEGATION_BREAKERS : list string :=
  ["although"; "but"; "except"; "however"; "instead"; "then"; "though"; "yet"].
Definition NEGATION_MODIFIERS : list string :=
  ["accidentally"; "actually"; "any"; "at"; "automatically"; "directly"; "ever"; "even";
   "immediately"; "intentionally"; "just"; "only"; "permanently"; "please"; "possibly"; "really";
   "simply"; "still"; "to"; "under"].
Definition MAX_NEGATION_SCOPE_TOKENS : Z := 12.
Definition READ_TERMS : list string := ["find"; "get"; "inspect"; "list"; "read"; "search"; "show"].
Definition WRITE_TERMS : list string :=
  ["add"; "admin"; "archive"; "create"; "delete"; "edit"; "merge"; "move"; "publish"; "remove";
   "send"; "update"; "write"].

Definition one_of_terms (terms : list string) (t : string) : bool := bool_decide (t ∈ terms).

(** [s.replace("don't", "dont")], on code points. *)
Fixpoint join_contraction (s : list Z) : list Z :=
  match s with
  | 100 :: ((111 :: 110 :: 39 :: 116 :: s) as rest) => 100 :: 111 :: 110 :: 116 :: join_contraction s
  | z :: s => z :: join_contraction s
  | [] => []
  end.

(** [unicodedata.category(c) in {"Cc", "Cf"}], of what NFKC makes of Latin-1. *)
Definition control_code (z : Z) : bool := (z <? 32) || ((127 <=? z) && (z <=? 159)) || (z =? 173).

Definition normalize_surface (value : string) : result (list Z) :=
  let normalized := nfkc_casefold value in
  raise_if (existsb control_code normalized)
    (ValidationError "routing intent contains control or formatting characters");;
  Ok (join_contraction normalized).

Definition token_code (z : Z) : bool := ((97 <=? z) && (z <=? 122)) || ((48 <=? z) && (z <=? 57)).
Definition mark_code (z : Z) : bool := bool_decide (z ∈ [44; 46; 58; 59; 33; 63]).

(** The maximal runs of [p], with the text around them dropped. *)
Fixpoint runs_of (p : Z → bool) (run : string) (s : list Z) : list string :=
  let flush rest := if (run =? "")%string then rest else run :: rest in
  match s with
  | [] => flush []
  | z :: s =>
      if p z then runs_of p (run +:+ String (chr z) "") s else flush (runs_of p "" s)
  end.

(** [_TOKEN.findall]. *)
Definition find_tokens (s : list Z) : list string := runs_of token_code "" s.

(** A word, or a run of punctuation. *)
Inductive negation_unit : Type :=
  | Word (w : string)
  | Mark (m : string).

(** [_NEGATION_UNIT.findall]: [word] tells of which kind the run is. *)
Fixpoint units_of (word : bool) (run : string) (s : list Z) : list negation_unit :=
  let flush rest :=
    if (run =? "")%string then rest else (if word then Word run else Mark run) :: rest in
  match s with
  | [] => flush []
  | z :: s =>
      let c := String (chr z) "" in
      if token_code z
      then (if word then units_of true (run +:+ c) s else flush (units_of true c s))
      else if mark_code z
      then (if word then flush (units_of false c s) else units_of false (run +:+ c) s)
      else flush (units_of true "" s)
  end.

Definition negation_units (s : list Z) : list negation_unit := units_of true "" s.

(** What a negator covers of the units after it: the operations, and the word it
    falls back to. *)
Fixpoint negation_scope (units : list negation_unit) (fallback : option string)
    (operation_found : bool) (words_seen : Z) : list string * option string :=
  match units with
  | [] => ([], fallback)
  | Mark m :: units =>
      if negb (m =? ",")%string || operation_found then ([], fallback)
      else negation_scope units fallback operation_found words_seen
  | Word w :: units =>
      if one_of_terms NEGATION_BREAKERS w then ([], fallback)
      else
        let words_seen := words_seen + 1 in
        if MAX_NEGATION_SCOPE_TOKENS <? words_seen then ([], fallback)
        else
          let fallback :=
            match fallback with
            | None => if one_of_terms NEGATION_MODIFIERS w then None else Some w
            | Some f => Some f
            end in
          if one_of_terms (READ_TERMS ++ WRITE_TERMS) w
          then let '(operations, fallback) := negation_scope units fallback true words_seen in
               (w :: operations, fallback)
          else negation_scope units fallback operation_found words_seen
  end.

Definition negated_by (units : list negation_unit) : list string :=
  match negation_scope units None false 0 with
  | ([], Some fallback) => [fallback]
  | (operations, _) => operations
  end.

Fixpoint negated_terms (units : list negation_unit) : list string :=
  match units with
  | [] => []
  | Word w :: rest =>
      (if one_of_terms NEGATORS w then negated_by rest else []) ++ negated_terms rest
  | Mark _ :: rest => negated_terms rest
  end.

(** ** Routing *)

Definition normalize_intent (value : string) : result string :=
  surface ← normalize_surface value; Ok (str_join " " (find_tokens surface)).

(** [phrase in text], of ASCII texts. *)
Fixpoint phrase_in (phrase text : string) : bool :=
  startswith phrase text || match text with EmptyString => false | String _ t => phrase_in phrase t end.

Fixpoint string_codes (s : string) : list Z :=
  match s with EmptyString => [] | String c s => code c :: string_codes s end.

(** The set of the tokens of its intents. *)
Definition intent_tokens (card : CapabilityCard) : result (list string) :=
  phrases ← mapM normalize_intent (cc_intents card);
  Ok (remove_dups (phrases ≫= λ phrase, find_tokens (string_codes phrase))).

Definition skeleton (capability_id : string) : string := str_filter lower_alnum (casefold capability_id).

(** A dict of the skeletons seen so far, with their IDs. *)
Fixpoint reject_confusable (by_skeleton : list (string * string)) (cards : list CapabilityCard)
    : result unit :=
  match cards with
  | [] => Ok tt
  | card :: cards =>
      let id := cc_capability_id card in
      raise_if (existsb (λ s : string * string, (s.1 =? skeleton id)%string && negb (s.2 =? id)%string)
                  by_skeleton)
        (ConfigurationError "policy-permitted capability names are confusable");;
      reject_confusable ((skeleton id, id) :: by_skeleton) cards
  end.

Definition writes (card : CapabilityCard) : bool :=
  negb (bool_decide (cc_risk card ∈ [READ_ONLY; LOCAL_GENERATION])).

(** What a prompt asks for. *)
Record prompt : Type := mk_prompt {
  pr_normalized : string;
  pr_tokens : list string;
  pr_negated : list string;
}.

Definition read_prompt (text : string) : result prompt :=
  surface ← normalize_surface text;
  let tokens := find_tokens surface in
  raise_if (match tokens with [] => true | _ => false end)
    (ValidationError "routing intent contains no usable terms");;
  Ok (mk_prompt (str_join " " tokens) tokens (negated_terms (negation_units surface))).

Definition explicit_read (p : prompt) : bool := existsb (one_of_terms READ_TERMS) (pr_tokens p).
Definition explicit_write (p : prompt) : bool :=
  existsb (λ t, one_of_terms WRITE_TERMS t && negb (one_of_terms (pr_negated p) t)) (pr_tokens p).

(** A card that writes is passed over by a prompt that only reads, and the other
    way round. *)
Definition other_mode (p : prompt) (card : CapabilityCard) : bool :=
  if writes card then explicit_read p && negb (explicit_write p)
  else explicit_write p && negb (explicit_read p).

(** The score of a card; 0 for one that is passed over. *)
Definition score_card (p : prompt) (card : CapabilityCard) : result Z :=
  if other_mode p card then Ok 0
  else
    tokens ← intent_tokens card;
    negatives ← mapM normalize_intent (cc_negative_intents card);
    if existsb (λ n, negb (n =? "")%string && phrase_in n (pr_normalized p)) negatives then Ok 0
    else if existsb (one_of_terms (pr_negated p)) tokens then Ok 0
    else
      let overlap := length (List.filter (λ t, one_of_terms (pr_tokens p) t) tokens) in
      phrases ← mapM normalize_intent (cc_intents card);
      let bonus := length (List.filter (λ n, phrase_in n (pr_normalized p)) phrases) in
      Ok (Z.of_nat overlap + 4 * Z.of_nat bonus).

Fixpoint score_cards (p : prompt) (cards : list CapabilityCard) : result (list (Z * CapabilityCard)) :=
  match cards with
  | [] => Ok []
  | card :: cards =>
      score ← score_card p card;
      scored ← score_cards p cards;
      Ok (if score =? 0 then scored else (score, card) :: scored)
  end.

(** [(-score, capability_id, version)]. *)
Definition rank_le (x y : Z * CapabilityCard) : bool :=
  if negb (x.1 =? y.1) then y.1 <? x.1
  else if negb (cc_capability_id x.2 =? cc_capability_id y.2)%string
  then str_le (cc_capability_id x.2) (cc_capability_id y.2)
  else str_le (cc_version x.2) (cc_version y.2).

Definition resolve_intent (text : string) (cards : list CapabilityCard)
    (policy_allows : CapabilityCard → bool) (maximum_candidates : Z) : result RoutingDecision :=
  raise_if (negb ((1 <=? maximum_candidates) && (maximum_candidates <=? 8)))
    (ConfigurationError "routing candidate limit must be 1..8");;
  p ← read_prompt text;
  let policy_filtered := List.filter policy_allows cards in
  reject_confusable [] policy_filtered;;
  scored ← score_cards p policy_filtered;
  let selected := map snd (firstn (Z.to_nat maximum_candidates) (sort_by rank_le scored)) in
  raise_if (match selected with [] => true | _ => false end)
    (ValidationError "no policy-permitted capability matches the intent");;
  Ok (mk_RoutingDecision selected (sha256 (pr_normalized p))).

(** ** Sessions *)

Record CapabilitySession : Type := mk_CapabilitySession {
  cs_plan_fingerprint : string;
  cs_cards : list CapabilityCard;
  cs_expires_at : datetime;
  cs_maximum_calls : Z;
  cs_maximum_total_bytes : Z;
  cs_calls : Z;
  cs_bytes : Z;
}.

Definition card_identity (card : CapabilityCard) : string * string * string :=
  (cc_capability_id card, cc_version card, cc_manifest_sha256 card).

Definition CapabilitySession_post_init (self : CapabilitySession) : result CapabilitySession :=
  raise_if (negb (len (cs_plan_fingerprint self) =? 64) || negb (is_aware (cs_expires_at self)))
    (ConfigurationError "capability session identity is malformed");;
  raise_if ((match cs_cards self with [] => true | _ => false end)
            || negb ((1 <=? cs_maximum_calls self) && (cs_maximum_calls self <=? 256)))
    (ConfigurationError "capability session call budget is invalid");;
  raise_if (negb ((1 <=? cs_maximum_total_bytes self)
                  && (cs_maximum_total_bytes self <=? 16 * 1024 * 1024)))
    (ConfigurationError "capability session byte budget is invalid");;
  raise_if (negb (nodupb (map card_identity (cs_cards self))))
    (ConfigurationError "capability session cards must be unique");;
  Ok self.

(** A call: the plan, the capability, its payload and the time. *)
Record capability_call : Type := mk_capability_call {
  cl_plan_fingerprint : string;
  cl_capability_id : string;
  cl_version : string;
  cl_manifest_sha256 : string;
  cl_payload : dict;
  cl_now : datetime;
}.

Definition cl_identity (call : capability_call) : string * string * string :=
  (cl_capability_id call, cl_version call, cl_manifest_sha256 call).

Definition check_call `{SystemZone} (self : CapabilitySession) (call : capability_call)
    : result JsonResourceUsage :=
  current ← astimezone_utc (cl_now call);
  expires ← astimezone_utc (cs_expires_at self);
  raise_if (dt_le expires current) (ConfigurationError "capability session expired");;
  raise_if (negb (cl_plan_fingerprint call =? cs_plan_fingerprint self)%string)
    (ConfigurationError "capability session belongs to another plan");;
  raise_if (negb (bool_decide (cl_identity call ∈ map card_identity (cs_cards self))))
    (ConfigurationError "capability call is outside the active session");;
  usage ← measure_json_resources (JDict (cl_payload call)) "capability session payload"
    (cs_maximum_total_bytes self);
  raise_if (cs_maximum_calls self <? cs_calls self + 1)
    (ConfigurationError "capability session call budget exhausted");;
  raise_if (cs_maximum_total_bytes self <? cs_bytes self + scalar_bytes usage)
    (ConfigurationError "capability session byte budget exhausted");;
  Ok usage.

Definition authorize `{SystemZone} (call : capability_call) (self : CapabilitySession)
    : result unit * CapabilitySession :=
  match check_call self call with
  | Err e => (Err e, self)
  | Ok usage =>
      (Ok tt, mk_CapabilitySession (cs_plan_fingerprint self) (cs_cards self) (cs_expires_at self)
                (cs_maximum_calls self) (cs_maximum_total_bytes self) (cs_calls self + 1)
                (cs_bytes self + scalar_bytes usage))
  end.

Definition CapabilitySession_to_dict `{SystemZone} (self : CapabilitySession) : result dict :=
  expires ← astimezone_utc (cs_expires_at self);
  Ok [("plan_fingerprint", JStr (cs_plan_fingerprint self));
      ("capability_bindings_sha256", JStr (cards_sha256 (cs_cards self)));
      ("expires_at", JStr (isoformat expires)); ("maximum_calls", JInt (cs_maximum_calls self));
      ("calls_used", JInt (cs_calls self));
      ("maximum_total_bytes", JInt (cs_maximum_total_bytes self));
      ("bytes_used", JInt (cs_bytes self))].
