(* ===== verification/Compensation.v ===== *)
(** * Compensation: corrective plans, [src/src/master_agent/compensation.py]

    The plans that undo or correct the effects of an earlier run: the reverse
    of a run's reversible writes, and the correction of a sent message.  The
    action and plan IDs are the successive [uuid4()] values [fresh 0],
    [fresh 1], ... of the call, one per object constructed, and [now] is the
    time the plan is created at.  Keyword arguments left at their defaults are
    written out. *)

From S2P Require Import Prelude PyText PyJson PyHash PyTime PyStd ResourceLimits.
From S2P Require Import ModelsBase PlatformIdentity ModelsSystems ModelsReviews ModelsAction.
From S2P Require Import ModelsPlan ModelsResults Approvals Policy PlannerGate Canonical.
From S2P Require Import RunMonad Orchestrator.

Open Scope Z_scope.

(** [a or b], of an optional text. *)
Definition text_or (a : option string) (b : string) : string :=
  match a with
  | Some s => if (s =? "")%string then b else s
  | None => b
  end.

(** ** The governance of a correction *)

(** The intents of the actions, numbered from [index]. *)
Fixpoint correction_intents (success_metric : string) (index : Z) (actions : list AgentAction)
    : result (list StrategyActionIntent) :=
  match actions with
  | [] => Ok []
  | action :: actions =>
      intent ← StrategyActionIntent_post_init
        (mk_StrategyActionIntent ("correct_effect_" +:+ pretty index)
           (aa_justification action) success_metric "master-agent/strategy-action-intent@1");
      intents ← correction_intents success_metric (index + 1) actions;
      Ok (intent :: intents)
  end.

Definition correction_kernel (plan : ChangePlan)
    (current_behavior simplest_intervention success_metric : string) : result StrategyKernel :=
  intents ← correction_intents success_metric 1 (cp_actions plan);
  StrategyKernel_post_init
    (mk_StrategyKernel current_behavior
       "Use one explicit, approval-gated correction through the existing provider connector."
       simplest_intervention
       ["Prefer a visible correction over attempting to erase history."]
       intents "master-agent/strategy-kernel@1").

Definition bind_correction_governance (plan : ChangePlan)
    (current_behavior simplest_intervention success_metric failure_condition : string)
    : result ChangePlan :=
  kernel ← correction_kernel plan current_behavior simplest_intervention success_metric;
  assessment ← SystemsAssessment_for_static_intervention (cp_goal plan) current_behavior
    "the prior provider state cannot be changed without a new effect"
    ["the current provider state and its verified evidence"]
    ["an approval-gated corrective action to the provider"]
    ["post-effect verification confirms or rejects the correction"]
    ["approval, provider processing, and verification latency"]
    "the smallest connector-supported corrective action"
    simplest_intervention success_metric failure_condition
    ["a transport failure could leave the correction outcome indeterminate"]
    ["the one-use corrective plan"] kernel true true [] [] "" "";
  bind_static_intervention_governance plan assessment None.

(** [ChangePlan(goal=..., actions=..., created_by=...)]. *)
Definition new_plan (goal : string) (actions : list AgentAction) (created_by : string)
    (plan_id : uuid) (now : datetime) : result ChangePlan :=
  ChangePlan_post_init
    (mk_ChangePlan goal actions created_by plan_id now "2.0" None None false
       None None None [] None false).

(** ** Undoing the effects of a run *)

(** The local variables of the loop. *)
Record drafting : Type := mk_drafting {
  compensation_actions : list AgentAction;
  unavailable : list string;
  previous : option uuid;
}.

Section drafting.
Context {B : Type} (original : ChangePlan) (fresh : nat → uuid).

(** The action that undoes the effect of [source] as [descriptor] says. *)
Definition reverse_action (source : AgentAction) (descriptor : CompensationDescriptor)
    (previous : option uuid) (action_id : uuid) : result AgentAction :=
  let capability := default "" (cd_capability descriptor) in
  target ← ResourceRef_post_init
    (mk_ResourceRef (rr_system (aa_target source)) (rr_resource_type (aa_target source))
       (text_or (cd_target_resource_id descriptor) (rr_resource_id (aa_target source)))
       (cd_expected_version descriptor));
  AgentAction_post_init
    (mk_AgentAction capability target (cd_parameters descriptor) REVERSIBLE_WRITE DIRECT_USER
       true
       ("compensate:" +:+ ChangePlan_fingerprint original +:+ ":"
        +:+ uuid_str (aa_action_id source) +:+ ":" +:+ capability)
       ("Compensate approved action " +:+ uuid_str (aa_action_id source) +:+ " from plan "
        +:+ uuid_str (cp_plan_id original) +:+ ".")
       INTERNAL (option_list previous) action_id).

Definition not_available (item : ActionReport B) (why : string) (st : drafting) : drafting :=
  mk_drafting (compensation_actions st)
    (unavailable st ++ [uuid_str (ar_action_id item) +:+ ": " +:+ why]) (previous st).

(** The body of the loop over the reversed reports. *)
Definition draft_compensation (st : drafting) (item : ActionReport B) : result drafting :=
  match ar_result item with
  | None => Ok st
  | Some result_ =>
      match find_action (cp_actions original) (ar_action_id item) with
      | None => Ok (not_available item "original action is unavailable" st)
      | Some source =>
          if negb (bool_decide (aa_risk source = REVERSIBLE_WRITE)) then Ok st
          else
            match er_compensation result_ with
            | None => Ok (not_available item "compensation descriptor is missing" st)
            | Some descriptor =>
                if negb (bool_decide (cd_mode descriptor = PLAN))
                then Ok (not_available item
                           (text_or (cd_reason descriptor) (enum_str (cd_mode descriptor))) st)
                else
                  action ← reverse_action source descriptor (previous st)
                    (fresh (length (compensation_actions st)));
                  Ok (mk_drafting (compensation_actions st ++ [action]) (unavailable st)
                        (Some (aa_action_id action)))
            end
      end
  end.

Fixpoint draft_all (st : drafting) (items : list (ActionReport B)) : result drafting :=
  match items with
  | [] => Ok st
  | item :: items => st ← draft_compensation st item; draft_all st items
  end.

Definition build_compensation_plan (report : RunReport) (created_by : string) (now : datetime)
    : result ChangePlan :=
  st ← draft_all (mk_drafting [] [] None) (rev (rr_actions report));
  raise_if (negb (is_nil (unavailable st)))
    (ValidationError
       ("run cannot produce a complete separately approvable compensation plan: "
        +:+ str_join "; " (unavailable st)));;
  raise_if (is_nil (compensation_actions st))
    (ValidationError "run contains no separately approvable compensation operations");;
  plan ← new_plan
    ("Compensate reversible effects of plan " +:+ uuid_str (cp_plan_id original) +:+ ".")
    (compensation_actions st) created_by (fresh (length (compensation_actions st))) now;
  bind_correction_governance plan
    "verified reversible effects from the original run remain applied"
    "execute the connector-provided reverse operations in reverse order"
    "every reversible effect is restored and independently verified"
    "any compensation is unavailable, conflicts, or fails verification".
End drafting.

(** ** Correcting a sent message *)

(** The one action of a correction. *)
Definition correction_action (capability system resource_type original_reference : string)
    (parameters : dict) (key justification : string) (action_id : uuid) : result AgentAction :=
  target ← ResourceRef_post_init
    (mk_ResourceRef system resource_type ("correction:" +:+ original_reference) None);
  AgentAction_post_init
    (mk_AgentAction capability target parameters EXTERNAL_COMMUNICATION DIRECT_USER true
       (key +:+ original_reference) justification INTERNAL [] action_id).

Definition build_outlook_correction_plan (original_reference : string) (to : list string)
    (subject body created_by : string) (fresh : nat → uuid) (now : datetime)
    : result ChangePlan :=
  action ← correction_action "outlook.email.send" "outlook" "correction_email"
    original_reference
    [("to", str_list to); ("subject", JStr subject); ("body", JStr body);
     ("content_type", JStr "Text"); ("correlation_id", JStr original_reference)]
    "outlook-correction:" "Send an explicit correction for a prior non-reversible email."
    (fresh 0%nat);
  plan ← new_plan ("Send a correction for Outlook message " +:+ original_reference +:+ ".")
    [action] created_by (fresh 1%nat) now;
  bind_correction_governance plan
    "a prior Outlook message requires an explicit correction"
    "send one approval-gated correction email"
    "the correction is sent once and independently verified"
    "approval, delivery, or verification does not succeed".

Definition teams_correction_capability (destination : dict) : result string :=
  if truthy (dict_get destination "chat_id") then Ok "teams.chat.message.send"
  else if truthy (dict_get destination "team_id") && truthy (dict_get destination "channel_id")
  then Ok (if truthy (dict_get destination "parent_message_id")
           then "teams.channel.message.reply" else "teams.channel.message.send")
  else Err (ValidationError
    "Teams correction destination requires chat_id or team_id/channel_id").

Definition build_teams_correction_plan (original_reference body : string) (destination : dict)
    (created_by : string) (fresh : nat → uuid) (now : datetime) : result ChangePlan :=
  capability ← teams_correction_capability destination;
  action ← correction_action capability "teams" "correction_message" original_reference
    (dict_set (dict_set (dict_set destination "body" (JStr body))
       "content_type" (JStr "text")) "correlation_id" (JStr original_reference))
    "teams-correction:" "Post an explicit correction for a prior non-reversible Teams message."
    (fresh 0%nat);
  plan ← new_plan ("Post a correction for Teams message " +:+ original_reference +:+ ".")
    [action] created_by (fresh 1%nat) now;
  bind_correction_governance plan
    "a prior Teams message requires an explicit correction"
    "post one approval-gated correction message"
    "the correction is posted once and independently verified"
    "approval, posting, or verification does not succeed".
