(* ===== verification/Samples.v ===== *)
(** * Samples: concrete objects

    Small objects of every component, built with the modelled constructors:
    the witnesses of the properties evaluate the definitions on them. *)

From S2P Require Import Prelude PyText PyJson PyHash PyTime ResourceLimits.
From S2P Require Import JsonCanonical ModelsBase PlatformIdentity ModelsSystems.
From S2P Require Import ModelsReviews ModelsAction ModelsBindings ModelsContext.
From S2P Require Import ModelsPlan PlanBinding ModelsResults Approvals Policy.
From S2P Require Import Capabilities Governance.
From Stdlib Require Import Ascii.

Open Scope Z_scope.

(** ** A plan of a read and a write that depends on it *)

Definition sample_time (hour : Z) : datetime := mk_datetime 2026 3 1 hour 0 0 0 (Some 0).

Definition read_action : AgentAction := {|
  aa_capability := "jira.issue.read";
  aa_target := mk_ResourceRef "jira" "issue" "OPS-1" None;
  aa_parameters := [("fields", str_list ["summary"])];
  aa_risk := READ_ONLY;
  aa_authority_source := DIRECT_USER;
  aa_requires_approval := false;
  aa_idempotency_key := "read-1";
  aa_justification := "read the issue";
  aa_data_classification := INTERNAL;
  aa_dependencies := [];
  aa_action_id := 1 |}.

Definition write_action : AgentAction := {|
  aa_capability := "jira.issue.update";
  aa_target := mk_ResourceRef "jira" "issue" "OPS-1" (Some "7");
  aa_parameters := [("summary", JStr "done"); ("priority", JInt 2)];
  aa_risk := REVERSIBLE_WRITE;
  aa_authority_source := DIRECT_USER;
  aa_requires_approval := true;
  aa_idempotency_key := "write-1";
  aa_justification := "close the issue";
  aa_data_classification := INTERNAL;
  aa_dependencies := [1];
  aa_action_id := 2 |}.

Definition sample_plan : ChangePlan := {|
  cp_goal := "close OPS-1";
  cp_actions := [read_action; write_action];
  cp_created_by := "planner";
  cp_plan_id := 16;
  cp_created_at := sample_time 9;
  cp_schema_version := "1.0";
  cp_workflow_id := None;
  cp_workflow_fingerprint := None;
  cp_compensate_on_failure := false;
  cp_execution_context := None;
  cp_systems_assessment := None;
  cp_systems_decision := None;
  cp_strategy_traces := [];
  cp_strategy_coherence_review := None;
  cp_trusted := true |}.

Ltac check := vm_compute; reflexivity.

Lemma sample_actions_wf : Forall wf [read_action; write_action].
Proof.
  apply Forall_cons; split; [|apply Forall_cons; split; [|apply Forall_nil; exact I]];
    (split; [check|split; [check|split; [check|repeat constructor]]]).
Defined.

Lemma sample_plan_wf : plan_wf sample_plan.
Proof.
  split; [check|]. split; [exact sample_actions_wf|]. by split_and!.
Defined.

Lemma sample_plan_parameters : Forall parameters_ok (cp_actions sample_plan).
Proof. by repeat constructor. Defined.

(** ** A plan under systems governance *)

Definition sample_assessment : SystemsAssessment :=
  mk_SystemsAssessment "issue closed" "issue open" "manual work" "automation" "one update"
    "closed issues" "issue reopened" true true true [] [] [] [] [] [] [] [] "" "" None
    "master-agent/systems-assessment@1".

Definition sample_decision : SystemsGateDecision :=
  mk_SystemsGateDecision FAST_PATH true ["fast path"] 0
    (SystemsAssessment_fingerprint sample_assessment) false None
    "master-agent/systems-gate-decision@1".

Definition governed_plan : ChangePlan :=
  mk_ChangePlan "close OPS-1" [read_action; write_action] "planner" 17 (sample_time 9) "1.0"
    None None false None (Some sample_assessment) (Some sample_decision) [] None false.

Lemma governed_plan_wf : plan_wf governed_plan.
Proof.
  split; [check|]. split; [exact sample_actions_wf|]. split_and!; try done.
  - intros a [= <-]. split; [check|]. split; [constructor|done].
  - intros d [= <-]. check.
Defined.

(** ** An authority, its ring and an approval of the write *)

Definition sample_authority : ApprovalAuthority := {|
  au_key_id := "ops"; au_subject := "alice"; au_issuer := "idp"; au_tenant := "acme";
  au_roles := ["approver"]; au_secret := repeat 65 32; au_revoked_before := None;
  au_revoked_approval_ids := ∅ |}.

Definition sample_ring : HmacApprovalAuthenticator :=
  mk_ring {[ "ops" := sample_authority ]}.

Lemma sample_ring_wf : ring_wf sample_ring.
Proof. intros k a. simpl. intros [<- <-]%lookup_singleton_Some. by vm_compute. Defined.

Definition unsigned_approval : Approval := {|
  ap_plan_fingerprint := ChangePlan_fingerprint sample_plan;
  ap_approved_action_ids := [2]; ap_approved_by := "alice"; ap_issuer := "idp";
  ap_tenant := "acme"; ap_roles := ["approver"]; ap_issued_at := sample_time 9;
  ap_expires_at := sample_time 12; ap_key_id := "ops"; ap_signature := "pending";
  ap_signature_scheme := "hmac-sha256"; ap_approval_id := 77 |}.

Definition ok_or {A} (r : result A) (d : A) : A := match r with Ok a => a | Err _ => d end.

Definition sample_approval : Approval :=
  ok_or (issue sample_ring 77 sample_plan [2] "ops" (sample_time 9) (sample_time 12) None)
    unsigned_approval.

Example sample_approval_issued :
  issue sample_ring 77 sample_plan [2] "ops" (sample_time 9) (sample_time 12) None
  = Ok sample_approval.
Proof. by vm_compute. Defined.

Example sample_approval_verifies :
  hmac_authenticated_subject sample_ring sample_approval
  = Ok (Some (principal_id sample_authority)).
Proof. by vm_compute. Defined.

(** ** A second approver *)

Definition second_authority : ApprovalAuthority :=
  mk_ApprovalAuthority "sec" "bob" "idp" "acme" ["approver"] (repeat 66 32) None ∅.

Definition dual_ring : HmacApprovalAuthenticator :=
  mk_ring {[ "ops" := sample_authority; "sec" := second_authority ]}.

Definition second_approval : Approval :=
  ok_or (issue dual_ring 78 sample_plan [2] "sec" (sample_time 9) (sample_time 12) None)
    unsigned_approval.

(** ** A policy engine *)

Definition sample_config : PolicyConfig := {|
  auto_permit_risks := [READ_ONLY; LOCAL_GENERATION];
  require_approval_risks := [REVERSIBLE_WRITE; EXTERNAL_COMMUNICATION];
  prohibit_risks := [DESTRUCTIVE];
  prohibited_capabilities := ["*.delete"];
  write_capability_patterns := ["*.update"; "*.create"] |}.

Definition sample_engine : PolicyEngine HmacApprovalAuthenticator :=
  mk_PolicyEngine sample_config (Some sample_ring) (Some constraints_default).

Example sample_permit :
  evaluate sample_engine sample_plan write_action [sample_approval] (sample_time 10) 1
  = Ok (mk_PolicyDecision true true "1 valid immutable-plan approval(s) supplied").
Proof. by vm_compute. Defined.

Definition dual_engine : PolicyEngine HmacApprovalAuthenticator :=
  mk_PolicyEngine sample_config (Some dual_ring) None.

Example dual_permit :
  evaluate dual_engine sample_plan write_action [sample_approval; second_approval]
    (sample_time 10) 2
  = Ok (mk_PolicyDecision true true "2 valid immutable-plan approval(s) supplied").
Proof. by vm_compute. Defined.

Example sample_deny :
  evaluate sample_engine sample_plan write_action [] (sample_time 10) 1
  = Ok (mk_PolicyDecision false true
      "1 distinct approval(s) bound to this exact plan and action are required").
Proof. by vm_compute. Defined.

(** ** A governance profile *)

Definition read_rule : GovernanceRule := {|
  gr_pattern := "jira.*"; gr_owner := "ops"; gr_authentication := "oauth";
  gr_data_classifications := [PUBLIC; INTERNAL]; gr_approval_tier := AUTOMATIC;
  gr_environments := [DEVELOPMENT; PRODUCTION]; gr_enabled := true |}.
Definition write_rule : GovernanceRule := {|
  gr_pattern := "jira.issue.update"; gr_owner := "ops"; gr_authentication := "oauth";
  gr_data_classifications := [PUBLIC; INTERNAL]; gr_approval_tier := DUAL;
  gr_environments := [DEVELOPMENT; PRODUCTION]; gr_enabled := true |}.

Definition sample_profile : GovernanceProfile unit := {|
  gp_organization := "acme"; gp_environment := PRODUCTION; gp_secret_manager := "vault";
  gp_audit_sink := "worm"; gp_external_model_policy := "deny";
  gp_rules := [read_rule; write_rule];
  gp_metadata := [("allow_ephemeral_direct_reads", JBool true)];
  gp_model_context := None |}.

Example sample_rules :
  rule_for sample_profile "jira.issue.update" = Some write_rule
  ∧ rule_for sample_profile "jira.issue.read" = Some read_rule
  ∧ rule_for sample_profile "mail.send" = None.
Proof. by vm_compute. Defined.

(** A plan of one direct read. *)
Definition read_plan : ChangePlan :=
  mk_ChangePlan "look at OPS-1" [read_action] "planner" 18 (sample_time 9) "1.0"
    None None false None None None [] None false.

Definition read_definition : CapabilityDefinition := {|
  cap_name := "jira.issue.read"; cap_enabled := true; cap_authentication := "delegated";
  cap_risk := READ_ONLY; cap_reversible := false; cap_requires_expected_version := false;
  cap_provider_precondition := "none"; cap_required_scopes := [];
  cap_target_system := "jira"; cap_target_resource_types := ["issue"];
  cap_parameter_schema := [("fields", "string_list?")]; cap_read_result_schema := "";
  cap_read_result_resources := []; cap_read_result_metadata := [];
  cap_max_input_bytes := None; cap_max_output_bytes := None;
  cap_uses_external_model := false; cap_description := "" |}.

(** ** Execution results and runtime bindings *)

Definition sample_result : ExecutionResult :=
  match ExecutionResult_post_init 2 SUCCEEDED (Some [("summary", JStr "open")])
          (Some [("summary", JStr "done")]) (Some "OPS-1") "updated" None with
  | Ok r => r
  | Err _ => mk_ExecutionResult 0 FAILED None None None "" None "" ""
  end.

Lemma sample_result_wf : result_wf sample_result.
Proof. split_and!; [check..|done]. Defined.

Definition sample_path (name path : string) (inode : Z) : RuntimePathExecutionBinding :=
  mk_RuntimePathExecutionBinding name path path 1 inode 0 448 None.

Definition sample_runtime : RuntimeExecutionBinding :=
  mk_RuntimeExecutionBinding "mock" true false "/var/agent/audit/audit.db"
    "/var/agent/artifacts" None None None []
    [sample_path "artifact.root" "/var/agent/artifacts" 12;
     sample_path "audit.parent" "/var/agent/audit" 11]
    None [] "master-agent/runtime-execution-binding@2".

Lemma sample_runtime_wf : wf sample_runtime.
Proof.
  split; [check|].
  split_and!; [constructor| |constructor].
  apply Forall_cons; split; [|apply Forall_cons; split; [|apply Forall_nil; exact I]];
    (split; [check|done]).
Defined.
