(* ===== verification/RunSamples.v ===== *)
(** * RunSamples: a concrete workflow run

    A governed plan of a read and an approved write that depends on it, a
    connector over a one-record world, and an orchestrator over both: the
    witnesses of the theorems on runs evaluate them. *)

From S2P Require Import Prelude PyText PyJson PyHash PyTime ResourceLimits.
From S2P Require Import JsonCanonical ModelsBase PlatformIdentity ModelsSystems.
From S2P Require Import ModelsReviews ModelsAction ModelsBindings ModelsContext.
From S2P Require Import ModelsPlan PlanBinding ModelsResults Approvals Policy.
From S2P Require Import Capabilities Governance AuditLog PlannerGate Canonical Evidence Registry RunMonad.
From S2P Require Import Orchestrator Samples.
From Stdlib Require Import Ascii.

Open Scope Z_scope.

(** ** A gated plan *)

Definition run_action : AgentAction := {|
  aa_capability := "jira.issue.update";
  aa_target := mk_ResourceRef "jira" "issue" "A-1" (Some "7");
  aa_parameters := [("summary", JStr "done")];
  aa_risk := REVERSIBLE_WRITE;
  aa_authority_source := DIRECT_USER;
  aa_requires_approval := false;
  aa_idempotency_key := "write-1";
  aa_justification := "close";
  aa_data_classification := INTERNAL;
  aa_dependencies := [];
  aa_action_id := 2 |}.

Definition run_kernel : StrategyKernel :=
  mk_StrategyKernel "stale" "close" "close" ["speed"]
    [mk_StrategyActionIntent "close" "close" "closed" "master-agent/strategy-action-intent@1"]
    "master-agent/strategy-kernel@1".

Definition run_assessment : SystemsAssessment :=
  mk_SystemsAssessment "close" "open" "work" "tool" "update" "closed" "open" true true false
    ["a"] ["a"] ["a"] ["a"] ["a"] [] [] [] "" "" (Some run_kernel)
    "master-agent/systems-assessment@1".

(** The plan, bound to its assessment and a review of its strategy. *)
Definition run_plan : result ChangePlan := Eval vm_compute in
  bind_static_intervention_governance
    (mk_ChangePlan "close" [run_action] "planner" 19 (sample_time 9) "1.0"
       None None true None None None [] None false) run_assessment None.

Definition run_config : PolicyConfig :=
  mk_PolicyConfig [READ_ONLY; REVERSIBLE_WRITE] [] [DESTRUCTIVE] [] [].

Definition run_policy : PolicyEngine HmacApprovalAuthenticator :=
  mk_PolicyEngine run_config None None.

(** ** The world: the summary of the issue and how often it was written *)

Record issue_state : Type := mk_issue_state { is_summary : string; is_writes : Z }.

Definition run_result (i : uuid) (before after : string) : result ExecutionResult :=
  ExecutionResult_post_init i SUCCEEDED (Some [("summary", JStr before)])
    (Some [("summary", JStr after)]) (Some "A-1") "updated"
    (if (i =? 1) then None
     else Some (mk_CompensationDescriptor "restore" MANUAL None [] None None
                  (Some "restore by hand") "master-agent/compensation@1")).

Definition issue_execute (action : AgentAction) (w : issue_state)
    : result ExecutionResult * issue_state :=
  if bool_decide (aa_risk action = READ_ONLY)
  then (run_result (aa_action_id action) (is_summary w) (is_summary w), w)
  else (run_result (aa_action_id action) (is_summary w) "done",
        mk_issue_state "done" (is_writes w + 1)).

Definition issue_verify (action : AgentAction) (r : ExecutionResult) (w : issue_state)
    : result VerificationResult * issue_state :=
  let ok := match er_after r with
            | Some d => match dict_get d "summary" with
                        | JStr x => (x =? is_summary w)%string
                        | _ => false
                        end
            | None => false
            end in
  (Ok (mk_VerificationResult (aa_action_id action) ok None "compared"), w).

Definition issue_verify_completed (action : AgentAction) (prior : dict) (w : issue_state)
    : result VerificationResult * issue_state :=
  let ok := (is_summary w =? "done")%string in
  (Ok (mk_VerificationResult (aa_action_id action) ok None "compared"), w).

Definition issue_connector : Connector issue_state := {|
  con_system := "jira";
  con_capabilities := ["jira.issue.read"; "jira.issue.update"];
  con_is_mock := true;
  con_view := mk_ConnectorView None None None None None None "" None None false;
  con_http_config := None;
  con_execute := issue_execute;
  con_verify := issue_verify;
  con_verify_completed := Some issue_verify_completed;
  con_idempotency_record := None;
  con_compensation := None |}.

(** No provider data leaves through this egress policy. *)
#[export] Instance no_egress : ProviderEgress unit unit := {|
  bind_provider_data_egress := λ _ _ _ _ _ _, Err (ConfigurationError "no policy");
  sanitize_provider_result := λ r _, Ok r;
  provider_result_audit_summary := λ _ _, Ok [];
  egress_to_dict := λ _, [];
  egress_fingerprint := λ _, "" |}.

Definition run_orchestrator : WorkflowOrchestrator (A := HmacApprovalAuthenticator)
    (P := unit) (W := issue_state) :=
  mk_WorkflowOrchestrator run_policy [] {[ "jira" := [issue_connector] ]} None None None None.

Definition run_env (base : Z) : environment :=
  mk_environment (λ n, sample_time 10) (λ n, base + Z.of_nat n).

Definition run_once (base : Z) (db : database) (w : issue_state)
    : result (RunReport (B := unit)) * run_state issue_state unit :=
  run_internal (run_env base) run_orchestrator (ok_or run_plan sample_plan) [] false (start db w).

Definition first_run := run_once 1000 (initialize empty_database) (mk_issue_state "open" 0).
