(* ===== verification/EgressSamples.v ===== *)
(** * EgressSamples: a policy table, a binding and a provider answer

    The witnesses of the properties of the provider-data boundary evaluate the
    definitions on these; then a plan of one confidential read, under the sample
    policy of the boundary. *)

From S2P Require Import Prelude PyText PyJson PyHash PyTime PyStd ResourceLimits.
From S2P Require Import JsonCanonical ModelsBase PlatformIdentity ModelsSystems.
From S2P Require Import ModelsReviews ModelsAction ModelsBindings ModelsContext.
From S2P Require Import ModelsPlan PlanBinding ModelsResults Approvals Policy.
From S2P Require Import Capabilities Governance AuditLog PlannerGate Canonical Evidence Registry RunMonad.
From S2P Require Import Orchestrator EgressPolicy EgressBinding EgressSanitize EgressRuntime.
From S2P Require Import Samples RunSamples.
From Stdlib Require Import Ascii.

Open Scope Z_scope.

(** A rule of the [model_context] table. *)
Definition rule_table (name : string) (classifications routes : list string) (handling : string)
    (audit : bool) (redacted allowed : list string) : json :=
  JDict [("name", JStr name); ("providers", str_list ["jira"]);
         ("capabilities", str_list ["jira.*"]);
         ("data_classifications", str_list classifications);
         ("destinations", str_list ["local"]); ("model_tenancies", str_list ["*"]);
         ("routes", str_list routes); ("handling", JStr handling);
         ("audit_required", JBool audit); ("dlp_required", JBool false);
         ("redacted_fields", str_list redacted); ("allowed_fields", str_list allowed);
         ("max_items", JInt 10); ("max_output_bytes", JInt 4096)].

Definition sample_table : dict :=
  [("destination", JStr "local"); ("model_tenancy", JStr "own");
   ("source_data_environment", JStr "nonproduction"); ("dlp_adapter", JStr "none");
   ("rules", JList [rule_table "open" ["internal"] ["ephemeral"; "audited"] "allow" false [] ["*"];
                    rule_table "sensitive" ["confidential"] ["audited"] "redact" true
                      ["assignee"] ["summary"; "assignee"]])].

Definition loaded_rule (name : string) (classifications : list DataClassification)
    (routes : list ProviderDataRoute) (handling : ProviderDataHandling)
    (audit : bool) (redacted allowed : list string) : ModelContextRule := {|
  mr_name := name; mr_providers := ["jira"]; mr_capabilities := ["jira.*"];
  mr_data_classifications := classifications; mr_destinations := ["local"];
  mr_model_tenancies := ["*"]; mr_routes := routes; mr_handling := handling;
  mr_audit_required := audit; mr_dlp_required := false; mr_redacted_fields := redacted;
  mr_allowed_fields := allowed; mr_max_items := 10; mr_max_output_bytes := 4096 |}.

Definition sample_policy : ProviderDataEgressPolicy := {|
  ep_destination := "local"; ep_model_tenancy := "own";
  ep_source_data_environment := "nonproduction"; ep_dlp_adapter := "none";
  ep_development_default_classification := None;
  ep_rules := [loaded_rule "open" [INTERNAL] [EPHEMERAL; AUDITED] HANDLING_ALLOW false [] ["*"];
               loaded_rule "sensitive" [CONFIDENTIAL] [AUDITED] HANDLING_REDACT true
                 ["assignee"] ["assignee"; "summary"]] |}.

Lemma sample_policy_loaded : policy_from_mapping sample_table = Ok sample_policy.
Proof. check. Qed.

(** A read of confidential fields, and the contract of its capability. *)
Definition confidential_read : AgentAction := {|
  aa_capability := "jira.issue.read";
  aa_target := aa_target read_action;
  aa_parameters := [("fields", str_list ["summary"]); ("limit", JInt 5)];
  aa_risk := READ_ONLY;
  aa_authority_source := DIRECT_USER;
  aa_requires_approval := false;
  aa_idempotency_key := "read-2";
  aa_justification := "read the issue";
  aa_data_classification := CONFIDENTIAL;
  aa_dependencies := [];
  aa_action_id := 3 |}.

Definition contract_definition : CapabilityDefinition := {|
  cap_name := "jira.issue.read"; cap_enabled := true; cap_authentication := "delegated";
  cap_risk := READ_ONLY; cap_reversible := false; cap_requires_expected_version := false;
  cap_provider_precondition := "none"; cap_required_scopes := [];
  cap_target_system := "jira"; cap_target_resource_types := ["issue"];
  cap_parameter_schema := [("fields", "string_list?"); ("limit", "integer?")];
  cap_read_result_schema := "jira/issue@1";
  cap_read_result_resources := [("issue", "object"); ("comments", "object_list")];
  cap_read_result_metadata := ["count"];
  cap_max_input_bytes := None; cap_max_output_bytes := None;
  cap_uses_external_model := false; cap_description := "" |}.

Definition some_digest : string :=
  "0123456789abcdef0123456789abcdef0123456789abcdef0123456789abcdef".

Definition sample_egress_binding : ProviderDataEgressBinding := {|
  eb_schema := "master-agent/provider-data-egress@1";
  eb_provider := "jira"; eb_capability := "jira.issue.read";
  eb_action_fingerprint := some_digest; eb_policy_fingerprint := some_digest;
  eb_rule_name := "sensitive"; eb_data_classification := CONFIDENTIAL;
  eb_destination := "local"; eb_model_tenancy := "own";
  eb_source_data_environment := "nonproduction"; eb_route := AUDITED;
  eb_handling := HANDLING_REDACT; eb_audit_required := true; eb_dlp_adapter := "none";
  eb_connector_configuration_sha256 := some_digest; eb_provider_origin_sha256 := some_digest;
  eb_provider_account_sha256 := some_digest;
  eb_requested_fields := ["summary"]; eb_field_contract := "explicit-fields@2";
  eb_output_schema := "jira/issue@1";
  eb_output_resources := [("comments", "object_list"); ("issue", "object")];
  eb_output_metadata_fields := ["count"];
  eb_request_parameter_names := ["fields"; "limit"];
  eb_request_parameters_sha256 := some_digest;
  eb_requested_item_limit := Some 5; eb_max_output_bytes := 4096;
  eb_redacted_fields := ["assignee"]; eb_policy_allowed_fields := ["assignee"; "summary"] |}.

(** What the provider answered, with the token it was read under. *)
Definition provider_answer (token : string) : dict :=
  [("schema", JStr "jira/issue@1"); ("count", JInt 1);
   ("issue", JDict [("summary", JStr "broken"); ("assignee", JStr "ann"); ("API-Token", JStr token)]);
   ("comments", JList [JDict [("author", JStr "ann"); ("Summary", JStr "seen")]])].

(** ** A run that reads a provider *)

(** The context of a run over mock connectors. *)
Definition mock_context : ExecutionContext :=
  mk_ExecutionContext some_digest [] [] [] (Some sample_runtime) "master-agent/execution-context@2".

Definition read_run_plan : result ChangePlan := Eval vm_compute in
  bind_static_intervention_governance
    (mk_ChangePlan "close" [confidential_read] "planner" 21 (sample_time 9) "1.0"
       None None false (Some mock_context) None None [] None false) run_assessment None.

Definition read_profile : GovernanceProfile ProviderDataEgressPolicy := {|
  gp_organization := "acme"; gp_environment := PRODUCTION; gp_secret_manager := "vault";
  gp_audit_sink := sink_identifier LOCAL_SQLITE_SINK; gp_external_model_policy := "deny";
  gp_rules := [{| gr_pattern := "jira.*"; gr_owner := "ops"; gr_authentication := "oauth";
                  gr_data_classifications := [CONFIDENTIAL]; gr_approval_tier := AUTOMATIC;
                  gr_environments := [PRODUCTION]; gr_enabled := true |}];
  gp_metadata := []; gp_model_context := Some sample_policy |}.

Definition answering : Connector unit := {|
  con_system := "jira";
  con_capabilities := ["jira.issue.read"];
  con_is_mock := true;
  con_view := mk_ConnectorView None None None None None None "" None None false;
  con_http_config := None;
  con_execute := λ action w,
    (ExecutionResult_post_init (aa_action_id action) SUCCEEDED None
       (Some (provider_answer "s3cret")) None "read" None, w);
  con_verify := λ action _ w, (Ok (mk_VerificationResult (aa_action_id action) true None "read"), w);
  con_verify_completed := None;
  con_idempotency_record := None;
  con_compensation := None |}.

Definition read_catalog : catalog := {[ "jira.issue.read" := contract_definition ]}.

Definition read_orchestrator : WorkflowOrchestrator (A := HmacApprovalAuthenticator)
    (P := ProviderDataEgressPolicy) (W := unit) :=
  mk_WorkflowOrchestrator run_policy [] {[ "jira" := [answering] ]} (Some read_catalog)
    (Some read_profile) None None.

Definition read_run :=
  run_internal (run_env 5000) read_orchestrator (ok_or read_run_plan sample_plan) [] false
    (start (initialize empty_database) tt).

