(* ===== verification/PlanTheorems.v ===== *)
(** * PlanTheorems: properties of plans, actions and results

    What a plan object guarantees, what its fingerprint and the effect
    fingerprint of an action bind, and that snapshots and results are faithful. *)

From S2P Require Import Prelude PyText PyJson PyHash PyTime ResourceLimits.
From S2P Require Import JsonCanonical ModelsBase PlatformIdentity ModelsSystems.
From S2P Require Import ModelsReviews ModelsAction ModelsBindings ModelsContext.
From S2P Require Import ActionGraph ModelsPlan PlanBinding ModelsResults Samples.
From Stdlib Require Import Ascii.

Open Scope Z_scope.

(** ** Guarantees of construction *)

Lemma check_parameter_bytes_Ok acc actions :
  check_parameter_bytes acc actions = Ok tt →
  Forall (λ a, within_limits (JDict (aa_parameters a)) MAX_ACTION_PARAMETER_BYTES = true)
    actions
  ∧ (acc ≤ MAX_PLAN_PARAMETER_BYTES →
     acc + zsum (map (λ a, json_bytes (JDict (aa_parameters a))) actions)
     ≤ MAX_PLAN_PARAMETER_BYTES).
Proof.
  revert acc. induction actions as [|a l IH]; intros acc H.
  { split; [constructor|]. unfold zsum. simpl. lia. }
  cbn [check_parameter_bytes] in H. apply bind_Ok in H as (u & Hu & H).
  apply measure_spec in Hu as [Hw ->].
  apply bind_Ok in H as ([] & Hle%raise_if_Ok%Z.ltb_ge & H).
  destruct (IH _ H) as [IH1 IH2]. split; [by constructor|]. intros _.
  change (scalar_bytes (usage_of (JDict (aa_parameters a))))
    with (json_bytes (JDict (aa_parameters a))) in *.
  specialize (IH2 Hle).
  assert (zsum (map (λ a, json_bytes (JDict (aa_parameters a))) (a :: l))
    = json_bytes (JDict (aa_parameters a))
      + zsum (map (λ a, json_bytes (JDict (aa_parameters a))) l)) as -> by done.
  lia.
Qed.

Lemma plan_graph_ids actions : map fst (plan_graph actions) = map aa_action_id actions.
Proof. unfold plan_graph. by rewrite map_map. Qed.

(** The graph checks accept exactly the graphs of distinct, known, acyclic
    dependencies with distinct keys. *)
Lemma check_plan_graph_iff actions :
  check_plan_graph actions = Ok tt ↔
  NoDup (map aa_action_id actions) ∧ NoDup (map aa_idempotency_key actions)
  ∧ dependencies_known (plan_graph actions)
  ∧ acyclic (dependency_map (plan_graph actions)).
Proof.
  assert (for_each (λ a : AgentAction,
      raise_if (existsb (λ d, negb (bool_decide (d ∈ map aa_action_id actions)))
        (aa_dependencies a))
      (ValidationError ("action " +:+ uuid_str (aa_action_id a)
         +:+ " has unknown dependencies"))) actions = Ok tt
    ↔ dependencies_known (plan_graph actions)) as Hk.
  { rewrite for_each_Ok, Forall_forall. unfold dependencies_known. rewrite plan_graph_ids. split.
    - intros H x ds d (a & [= -> ->] & Ha)%list_elem_of_fmap Hd.
      specialize (H a Ha). apply raise_if_Ok in H.
      destruct (decide (d ∈ map aa_action_id actions)) as [|Hn]; [done|].
      assert (existsb (λ d, negb (bool_decide (d ∈ map aa_action_id actions)))
        (aa_dependencies a) = true); [|congruence].
      apply existsb_exists. exists d. rewrite <- list_elem_of_In.
      by rewrite bool_decide_false.
    - intros H a Ha. apply raise_if_Ok, not_true_is_false.
      intros (d & Hd%list_elem_of_In & Hn)%existsb_exists.
      apply negb_true_iff, bool_decide_eq_false in Hn. apply Hn.
      eapply H; [|exact Hd]. apply list_elem_of_fmap. eauto. }
  unfold check_plan_graph. split.
  - intros ([] & H1 & ([] & H2 & ([] & H3 & H4)%bind_Ok)%bind_Ok)%bind_Ok.
    apply raise_if_Ok, negb_false_iff, nodupb_NoDup in H1, H2. apply Hk in H3.
    split_and!; [done..|].
    destruct (validate_acyclic_cases _ H3) as [[_ Ha]|[E _]]; [exact Ha|].
    by rewrite E in H4.
  - intros (H1 & H2 & H3 & H4). apply nodupb_NoDup in H1, H2. rewrite H1, H2. simpl.
    apply Hk in H3 as H3'. rewrite H3'. simpl.
    by destruct (validate_acyclic_cases _ H3) as [[]|[]].
Qed.

(** What holds of a plan object's actions. *)
Definition plan_sound (p : ChangePlan) : Prop :=
  1 ≤ Z.of_nat (length (cp_actions p)) ≤ MAX_PLAN_ACTIONS
  ∧ NoDup (map aa_action_id (cp_actions p))
  ∧ NoDup (map aa_idempotency_key (cp_actions p))
  ∧ dependencies_known (plan_graph (cp_actions p))
  ∧ acyclic (dependency_map (plan_graph (cp_actions p)))
  ∧ Forall (λ a, within_limits (JDict (aa_parameters a)) MAX_ACTION_PARAMETER_BYTES = true)
      (cp_actions p)
  ∧ zsum (map (λ a, json_bytes (JDict (aa_parameters a))) (cp_actions p))
    ≤ MAX_PLAN_PARAMETER_BYTES.

Lemma ChangePlan_post_init_sound p : ChangePlan_post_init p = Ok p → plan_sound p.
Proof.
  unfold ChangePlan_post_init, ChangePlan_checks, too_many.
  intros H. inv_ok. to_prop.
  match goal with H : check_parameter_bytes _ _ = Ok _ |- _ =>
    apply check_parameter_bytes_Ok in H as [Hw Hb] end.
  match goal with H : check_plan_graph _ = Ok _ |- _ =>
    apply check_plan_graph_iff in H as (H1 & H2 & H3 & H4) end.
  assert (cp_actions p ≠ []) as Hne by (intros E; rewrite E in *; discriminate).
  split_and!; [destruct (cp_actions p); [done|cbn [length]; lia]|assumption..|].
  by apply Hb.
Qed.

(** What a plan with a systems assessment carries with it. *)
Definition systems_bound (p : ChangePlan) (assessment : SystemsAssessment) : Prop :=
  ∃ decision, cp_systems_decision p = Some decision ∧ sd_permitted decision = true
    ∧ sd_assessment_fingerprint decision = SystemsAssessment_fingerprint assessment
    ∧ sd_complexity_score decision = SystemsAssessment_complexity_score assessment
    ∧ sd_strategy_coherence_review_fingerprint decision
      = StrategyCoherenceReview_fingerprint <$> cp_strategy_coherence_review p.

Lemma ChangePlan_post_init_systems p assessment :
  ChangePlan_post_init p = Ok p → cp_systems_assessment p = Some assessment →
  systems_bound p assessment.
Proof.
  unfold ChangePlan_post_init, ChangePlan_checks, check_systems_binding, systems_bound.
  intros H E. rewrite E in H. inv_ok.
  destruct (cp_systems_decision p) as [d|]; [|done]. inv_ok. to_prop. eauto 10.
Qed.

(** ** The properties *)

(** C7: [ChangePlan.fingerprint] binds the plan.  Two plan objects with the
    same fingerprint agree on their identity, goal, author, workflow, every
    field of every action in order, the strategy traces and the fingerprints of
    the execution context and of the systems records, unless their two
    canonical texts are a SHA-256 collision. *)
Theorem plan_fingerprint_binds p q :
  plan_wf p → plan_wf q →
  Forall parameters_ok (cp_actions p) → Forall parameters_ok (cp_actions q) →
  ¬ collide (canonical_text (JDict (plan_payload p))) (canonical_text (JDict (plan_payload q))) →
  ChangePlan_fingerprint p = ChangePlan_fingerprint q → plan_agrees p q.
Proof.
  intros Hp Hq Pp Pq Hc H. apply plan_agrees_payload; [done|done|].
  apply (digest_json_inj _ _ (json_ok_plan p Pp) (json_ok_plan q Pq) Hc H).
Qed.

(** The plan with another author. *)
Definition other_plan : ChangePlan := set_trusted false sample_plan.

Lemma other_plan_wf : plan_wf other_plan.
Proof.
  destruct sample_plan_wf as [H Hp].
  exact (conj (ChangePlan_post_init_untrusted _ false H) Hp).
Defined.

Lemma plan_fingerprint_binds_witness : plan_agrees sample_plan other_plan.
Proof.
  apply plan_fingerprint_binds; [exact sample_plan_wf|exact other_plan_wf
    |exact sample_plan_parameters|exact sample_plan_parameters| |reflexivity].
  intros [H _]. by apply H.
Defined.

(** [AgentAction.effect_fingerprint] binds the effect.  Two actions with
    the same effect fingerprint have the same capability, target, parameters
    (up to the order of keys), risk, data classification, authority source and
    approval flag, unless their canonical texts are a SHA-256 collision. *)
Theorem effect_fingerprint_binds a b :
  parameters_ok a → parameters_ok b →
  ¬ collide (canonical_text (JDict (effect_payload a))) (canonical_text (JDict (effect_payload b))) →
  AgentAction_effect_fingerprint a = AgentAction_effect_fingerprint b →
  aa_capability a = aa_capability b ∧ aa_target a = aa_target b
  ∧ same_json (aa_parameters a) (aa_parameters b) ∧ aa_risk a = aa_risk b
  ∧ aa_data_classification a = aa_data_classification b
  ∧ aa_authority_source a = aa_authority_source b
  ∧ aa_requires_approval a = aa_requires_approval b.
Proof.
  intros Ha Hb Hc H.
  assert (same_json (effect_payload a) (effect_payload b)) as HJ
    by exact (digest_json_inj _ _ (json_ok_effect a Ha) (json_ok_effect b Hb) Hc H).
  pose proof (λ k, dict_value _ _ k (effect_keys a) (effect_keys b) HJ) as E.
  split_and!.
  - exact (JStr_inj _ _ (E "capability")).
  - apply ref_agrees. exact (E "target").
  - exact (E "parameters").
  - apply enum_str_inj. exact (JStr_inj _ _ (E "risk")).
  - apply enum_str_inj. exact (JStr_inj _ _ (E "data_classification")).
  - apply enum_str_inj. exact (JStr_inj _ _ (E "authority_source")).
  - pose proof (E "requires_approval") as E1. by injection E1.
Qed.

(** The write with its parameters in another order and another key. *)
Definition reordered_action : AgentAction := {|
  aa_capability := aa_capability write_action;
  aa_target := aa_target write_action;
  aa_parameters := [("priority", JInt 2); ("summary", JStr "done")];
  aa_risk := aa_risk write_action;
  aa_authority_source := aa_authority_source write_action;
  aa_requires_approval := aa_requires_approval write_action;
  aa_idempotency_key := "write-2";
  aa_justification := "again";
  aa_data_classification := aa_data_classification write_action;
  aa_dependencies := [];
  aa_action_id := 3 |}.

Lemma effect_fingerprint_binds_witness :
  aa_capability write_action = aa_capability reordered_action
  ∧ same_json (aa_parameters write_action) (aa_parameters reordered_action).
Proof.
  destruct (effect_fingerprint_binds write_action reordered_action) as (H1 & _ & H2 & _);
    [reflexivity|reflexivity| |by vm_compute|by split].
  intros [H _]. apply H. by vm_compute.
Defined.

(** C38: every plan [ChangePlan.from_dict] returns is a valid plan object: its
    class checks and those of every object in it hold, it has between 1 and 256
    actions with distinct IDs and idempotency keys, its dependency graph is
    closed and acyclic, its parameters are within their limits, and it carries
    no in-process admission marker whatever the payload says. *)
Theorem change_plan_from_dict_sound d p :
  ChangePlan_from_dict d = Ok p →
  plan_wf p ∧ plan_sound p ∧ has_trusted_strategy_coherence_admission p = false
  ∧ within_limits (JDict d) MAX_PLAN_BYTES = true.
Proof.
  intros H. destruct (ChangePlan_from_dict_wf d p H) as [Hwf Ht].
  split_and!; [done|by apply ChangePlan_post_init_sound, Hwf|done|].
  unfold ChangePlan_from_dict in H. apply bind_Ok in H as (u & Hu & _).
  by apply measure_spec in Hu as [? _].
Qed.

Lemma change_plan_from_dict_sound_witness :
  ChangePlan_from_dict (plan_payload sample_plan) = Ok other_plan ∧ plan_sound other_plan.
Proof.
  assert (ChangePlan_from_dict (plan_payload sample_plan) = Ok other_plan) as H
    by by vm_compute.
  split; [exact H|]. destruct (change_plan_from_dict_sound _ _ H) as (_ & Hs & _). exact Hs.
Defined.

(** C37: [execution_snapshot] is faithful.  Serialising a plan object and
    parsing it back returns the same plan, admission marker included, whenever
    its payload is within the limits of [from_dict], and fails otherwise. *)
Theorem execution_snapshot_faithful p :
  plan_wf p →
  if within_limits (JDict (plan_payload p)) MAX_PLAN_BYTES
  then execution_snapshot p = Ok p else is_ok (execution_snapshot p) = false.
Proof.
  intros H. rewrite execution_snapshot_plan by done.
  destruct (measure_json_resources _ _ _) as [u|e] eqn:E.
  - apply measure_spec in E as [-> _]. done.
  - destruct (within_limits _ _) eqn:W; [|done].
    assert (measure_json_resources (JDict (plan_payload p)) "change plan" MAX_PLAN_BYTES
      = Ok (usage_of (JDict (plan_payload p)))) by by apply measure_spec.
    congruence.
Qed.

Lemma execution_snapshot_faithful_witness : execution_snapshot sample_plan = Ok sample_plan.
Proof.
  exact (execution_snapshot_faithful sample_plan sample_plan_wf).
Defined.

(** [_validate_acyclic] is correct.  On a graph whose dependencies are all
    nodes, the recursive search accepts exactly the graphs without a cycle and
    reports [cycle_error] on the others; the recursion never goes deeper than
    the number of nodes plus one. *)
Theorem validate_acyclic_correct nodes :
  dependencies_known nodes →
  (validate_acyclic nodes = Ok tt ↔ acyclic (dependency_map nodes))
  ∧ (validate_acyclic nodes = Err cycle_error ↔ ¬ acyclic (dependency_map nodes)).
Proof.
  intros H. destruct (validate_acyclic_cases nodes H) as [[E Ha]|[E Ha]];
    rewrite E; split; split; (done || by intros ?).
Qed.

Lemma validate_acyclic_correct_witness :
  ¬ acyclic (dependency_map [(1, [2]); (2, [1])]).
Proof.
  apply (validate_acyclic_correct [(1, [2]); (2, [1])]); [|by vm_compute].
  intros x ds d Hx Hd. simpl.
  repeat (apply elem_of_cons in Hx as [[= -> ->]|Hx];
    [by apply list_elem_of_singleton in Hd as ->; repeat constructor|]).
  by apply elem_of_nil in Hx.
Defined.

(** A plan object with a systems assessment carries a permitting gate
    decision that is about this very assessment: it states the assessment's
    fingerprint and complexity score and the fingerprint of the plan's strategy
    coherence review. *)
Theorem plan_systems_bound p assessment :
  plan_wf p → cp_systems_assessment p = Some assessment → systems_bound p assessment.
Proof. intros [H _]. by apply ChangePlan_post_init_systems. Qed.

Lemma plan_systems_bound_witness : systems_bound governed_plan sample_assessment.
Proof. exact (plan_systems_bound governed_plan sample_assessment governed_plan_wf eq_refl). Defined.

(** ** Results *)

(** The integrity check of one snapshot: it passes exactly when the digest is
    still the one taken at construction. *)
Lemma snapshot_unchanged (o o' : option dict) :
  all_finite (opt_dict o) = true → json_ok (opt_dict o) = true → json_ok (opt_dict o') = true →
  ¬ collide (canonical_text (opt_dict o)) (canonical_text (opt_dict o')) →
  (∃ d, result_state_digest o' = Ok d ∧ (d =? digest_json (opt_dict o))%string = true) ↔
  all_finite (opt_dict o') = true ∧ norm (opt_dict o') = norm (opt_dict o).
Proof.
  intros Hf Hj Hj' Hc. unfold result_state_digest, stable_sha256, dumps.
  destruct (all_finite (opt_dict o')) eqn:Hf'; simpl; [|split; [by intros (?&?&?)|by intros [??]]].
  split.
  - intros (d & [= <-] & E%String.eqb_eq). split; [done|].
    symmetry. apply digest_json_inj; done.
  - intros [_ E]. eexists; split; [done|]. apply String.eqb_eq. unfold digest_json, canonical_text.
    by rewrite E.
Qed.

(** An execution result's snapshots cannot change unnoticed.  After any
    later change of the before-state or the after-state of a result object,
    [validate_integrity] passes exactly when the new snapshot is the original
    one up to the order of its keys (unless the texts collide); a non-finite
    number is always rejected. *)
Theorem result_mutation_detected x o :
  result_wf x →
  json_ok (opt_dict (er_before x)) = true → json_ok (opt_dict (er_after x)) = true →
  json_ok (opt_dict o) = true →
  ¬ collide (canonical_text (opt_dict (er_before x))) (canonical_text (opt_dict o)) →
  ¬ collide (canonical_text (opt_dict (er_after x))) (canonical_text (opt_dict o)) →
  (validate_integrity (set_before o x) = Ok tt ↔
     all_finite (opt_dict o) = true ∧ norm (opt_dict o) = norm (opt_dict (er_before x)))
  ∧ (validate_integrity (set_after o x) = Ok tt ↔
     all_finite (opt_dict o) = true ∧ norm (opt_dict o) = norm (opt_dict (er_after x))).
Proof.
  intros (_ & Hb & Ha & Db & Da & _) Jb Ja Jo Cb Ca.
  rewrite <- (snapshot_unchanged _ _ Hb Jb Jo Cb), <- (snapshot_unchanged _ _ Ha Ja Jo Ca).
  unfold validate_integrity, set_before, set_after.
  cbn [er_before er_after er_before_digest er_after_digest].
  rewrite Db, Da, (result_state_digest_finite (er_before x)),
    (result_state_digest_finite (er_after x)) by done. mstep.
  rewrite !String.eqb_refl. cbn [negb]. mstep. split; split.
  - intros (d & Hd & ([] & Hn%raise_if_Ok%negb_false_iff & _)%bind_Ok)%bind_Ok. eauto.
  - intros (d & -> & E). simpl. by rewrite E.
  - intros (d & Hd & Hn%raise_if_Ok%negb_false_iff)%bind_Ok. eauto.
  - intros (d & -> & E). simpl. by rewrite E.
Qed.

(** A changed before-state of [sample_result]. *)
Definition tampered : option dict := Some [("summary", JStr "closed")].

Lemma result_mutation_detected_witness :
  validate_integrity (set_before tampered sample_result) ≠ Ok tt.
Proof.
  destruct (result_mutation_detected sample_result tampered sample_result_wf) as [[Hd _] _];
    [check|check|check|intros [_ E]; vm_compute in E; discriminate E
    |intros [_ E]; vm_compute in E; discriminate E|].
  intros H. destruct (Hd H) as [_ E]. vm_compute in E. discriminate E.
Defined.

(** an execution result survives serialisation, compensation descriptor
    and digests included, and everything [ExecutionResult.from_dict] returns is
    a result whose integrity check passes. *)
Theorem result_roundtrip x :
  (result_wf x → (ExecutionResult_to_dict x ≫= ExecutionResult_from_dict) = Ok x)
  ∧ ∀ d, ExecutionResult_from_dict d = Ok x → result_wf x ∧ validate_integrity x = Ok tt.
Proof.
  split; [apply ExecutionResult_from_to_dict|].
  intros d H%ExecutionResult_from_dict_wf. split; [done|by apply validate_integrity_wf].
Qed.

(** ** Runtime bindings *)

Lemma list_to_map_Some (l : list (string * string)) k v :
  (list_to_map l : gmap string string) !! k = Some v → (k, v) ∈ l.
Proof. apply elem_of_list_to_map_2. Qed.

Lemma writable_expected x n p :
  (n, p) ∈ writable_directories x → expected_runtime_paths x !! n = Some p.
Proof.
  unfold writable_directories, expected_runtime_paths. intros H.
  destruct x as [? ? ? ? ? [w|] [r|] ? ? ? ? ? ?]; simpl in *;
    repeat (apply elem_of_cons in H as [[= -> ->]|H]; [by simplify_map_eq|]);
    by apply elem_of_nil in H.
Qed.

(** The writable directories of a runtime binding: each has an identity that
    pins its path, and no two are the same path or the same object. *)
Definition writable_isolated (x : RuntimeExecutionBinding) : Prop :=
  NoDup (map snd (writable_directories x))
  ∧ (∀ n p, (n, p) ∈ writable_directories x →
       ∃ b, b ∈ reb_runtime_paths x ∧ rpb_name b = n ∧ rpb_path b = p
            ∧ is_writable_path b = true)
  ∧ ∃ identities,
      Forall2 (λ b i, platform_identity b = Ok i)
        (List.filter is_writable_path (reb_runtime_paths x)) identities
      ∧ NoDup (map object_key identities).

Lemma runtime_post_init_isolated x :
  RuntimeExecutionBinding_post_init x = Ok x → writable_isolated x.
Proof.
  intros H. pose proof H as Hfix.
  apply RuntimeExecutionBinding_post_init_fix in Hfix as [Hs _].
  unfold RuntimeExecutionBinding_post_init in H. rewrite <- Hs in H. inv_ok.
  to_prop. repeat match goal with H : nodupb _ = true |- _ => apply nodupb_NoDup in H end.
  match goal with H : mapM platform_identity _ = Ok _ |- _ => apply mapM_Ok in H end.
  split_and!; [done| |eauto].
  intros n p Hin. pose proof (writable_expected _ _ _ Hin) as He.
  match goal with H : observed_runtime_paths _ = _ |- _ => rewrite <- H in He end.
  apply list_to_map_Some, list_elem_of_fmap in He as (b & [= -> ->] & Hb).
  exists b. split_and!; try done. apply bool_decide_eq_true.
  unfold writable_directories in Hin. unfold writable_names.
  destruct (reb_result_json x); cbn in Hin; set_solver.
Qed.

(** the directories a runtime binding writes to are isolated.  In a bound
    runtime, the audit, artifact and result directories are pairwise distinct
    paths, each has exactly its path pinned to a filesystem identity, and the
    identities name pairwise distinct filesystem objects (no alias by a link or
    a second mount). *)
Theorem runtime_directories_isolated d x :
  RuntimeExecutionBinding_from_dict d = Ok x → writable_isolated x.
Proof.
  intros H. apply runtime_post_init_isolated.
  by use_law (from_dict_wf (A := RuntimeExecutionBinding)).
Qed.

Lemma runtime_directories_isolated_witness : writable_isolated sample_runtime.
Proof.
  apply (runtime_directories_isolated (RuntimeExecutionBinding_to_dict sample_runtime)).
  by vm_compute.
Defined.
