(* ===== verification/ApprovalTheorems.v ===== *)
(** * ApprovalTheorems: properties of approvals

    Issuance and verification agree, a signature is bound to one approval, and
    a loaded key ring holds only what its file and environment say. *)

From S2P Require Import Prelude PyText PyJson PyHash PyTime ResourceLimits.
From S2P Require Import JsonCanonical ModelsBase ModelsAction ModelsContext ModelsPlan.
From S2P Require Import PlanBinding ModelsResults Approvals Samples.
From Stdlib Require Import Ascii.

Open Scope Z_scope.

(** C8: issuance and verification agree.  An approval [issue] returns is about
    this plan and only about actions of it; it covers an approved action
    exactly from its issue until its expiry; and the ring that issued it
    authenticates it as its authority's principal, unless the authority has
    revoked it, and then it authenticates nobody. *)
Theorem issue_authenticates self fresh plan ids key_id ia ea aid approval :
  ring_wf self → issue self fresh plan ids key_id ia ea aid = Ok approval →
  (∀ i, i ∈ ap_approved_action_ids approval → i ∈ map aa_action_id (cp_actions plan))
  ∧ (∀ action now, covers approval plan action now = true ↔
       aa_action_id action ∈ ids ∧ instant ia ≤ instant now < instant ea)
  ∧ ∃ a, ring_authorities self !! key_id = Some a
      ∧ hmac_authenticated_subject self approval
        = Ok (if revoked a approval then None else Some (principal_id a)).
Proof.
  intros Hwf H.
  destruct (issue_spec _ _ _ _ _ _ _ _ _ H) as (a & Ha & Hids & _ & _ & _ & E).
  split_and!.
  - rewrite E. exact Hids.
  - intros action now. rewrite E. unfold covers, dt_le, dt_lt. cbn.
    rewrite String.eqb_refl. simpl. rewrite !andb_true_iff, bool_decide_eq_true,
      Z.leb_le, Z.ltb_lt. tauto.
  - destruct (issue_genuine _ _ _ _ _ _ _ _ _ Hwf H) as (a' & Ha' & Hg).
    simplify_eq. exists a. split; [done|]. destruct (revoked a approval) eqn:Hr.
    + unfold hmac_authenticated_subject. destruct (Hwf _ _ Ha) as [Hk _].
      assert (ap_key_id approval = key_id) as -> by (rewrite E, Hk; done).
      rewrite Ha, Hr. by destruct (_ =? _)%string, (claims_match a approval).
    + by apply hmac_authenticated_iff, Hg.
Qed.

Lemma issue_authenticates_witness :
  covers sample_approval sample_plan write_action (sample_time 10) = true
  ∧ covers sample_approval sample_plan read_action (sample_time 10) = false.
Proof.
  destruct (issue_authenticates _ _ _ _ _ _ _ _ _ sample_ring_wf sample_approval_issued)
    as (_ & Hc & _).
  split; [apply Hc; split; [by left|by vm_compute]|].
  apply not_true_is_false. intros [H _]%Hc. by apply list_elem_of_singleton in H.
Defined.

(** The two payloads collide under the key. *)
Definition hmac_collide (secret : list Z) (s t : string) : Prop :=
  s ≠ t ∧ hmac_sha256 secret s = hmac_sha256 secret t.

(** C39: a signature is bound to one approval.  If a ring authenticates two
    approval objects of one key that bear the same signature, they are the same
    approval in every field (plan, actions, principal, roles, validity, ID),
    unless the two payloads are an HMAC collision under the authority's
    secret. *)
Theorem approval_signature_binds self x y s t a :
  wf x → wf y →
  hmac_authenticated_subject self x = Ok (Some s) →
  hmac_authenticated_subject self y = Ok (Some t) →
  ap_key_id x = ap_key_id y → ap_signature x = ap_signature y →
  ring_authorities self !! ap_key_id x = Some a →
  ¬ hmac_collide (au_secret a) (signing_payload x) (signing_payload y) → x = y.
Proof.
  intros Wx Wy (a1 & H1 & _ & _ & _ & S1 & _)%hmac_authenticated_iff
    (a2 & H2 & _ & _ & _ & S2 & _)%hmac_authenticated_iff Hk Hs Ha Hc.
  rewrite Hk in *. simplify_eq.
  apply approval_claims_inj; [done..| |done].
  apply canonical_text_inj; [apply json_ok_claims..|].
  rewrite <- !signing_payload_claims.
  destruct (decide (signing_payload x = signing_payload y)) as [|Hn]; [done|].
  destruct Hc. split; [done|]. congruence.
Qed.

Lemma sample_approval_wf : wf sample_approval.
Proof.
  split; [check|]. split; [check|]. split; [|split; check].
  apply (bool_decide_unpack _). check.
Defined.

(** The approval as its JSON is read back. *)
Definition reread_approval : Approval :=
  ok_or (Approval_from_dict (Approval_to_dict sample_approval)) unsigned_approval.

Lemma reread_approval_wf : wf reread_approval.
Proof.
  split; [check|]. split; [check|]. split; [|split; check].
  apply (bool_decide_unpack _). check.
Defined.

Lemma approval_signature_binds_witness : sample_approval = reread_approval.
Proof.
  apply (approval_signature_binds sample_ring sample_approval reread_approval
    (principal_id sample_authority) (principal_id sample_authority) sample_authority
    sample_approval_wf reread_approval_wf sample_approval_verifies); [check..|].
  intros [H _]. apply H. check.
Defined.

(** The authority an approval names, when its claims hold and it is not
    revoked: only then is the signature looked at. *)
Definition vouching_authority (self : HmacApprovalAuthenticator) (approval : Approval)
    (a : ApprovalAuthority) : Prop :=
  ap_signature_scheme approval = "hmac-sha256"
  ∧ ring_authorities self !! ap_key_id approval = Some a
  ∧ claims_match a approval = true ∧ revoked a approval = false.

(** verification is exact.  [authenticated_subject] returns a principal
    exactly when an authority of the ring vouches for the approval and its
    signature is the HMAC of its payload under that authority's secret, and the
    principal is the authority's; it raises exactly when an authority vouches
    for an approval whose signature has a non-ASCII character (a [TypeError] of
    [compare_digest], though the docstring promises [None]); in every other
    case it returns [None]. *)
Theorem authenticated_subject_exact self approval :
  (∀ p, hmac_authenticated_subject self approval = Ok (Some p) ↔
     ∃ a, vouching_authority self approval a ∧ p = principal_id a
       ∧ ap_signature approval = hmac_sha256 (au_secret a) (signing_payload approval))
  ∧ ((∃ e, hmac_authenticated_subject self approval = Err e) ↔
     ∃ a, vouching_authority self approval a ∧ is_ascii (ap_signature approval) = false).
Proof.
  split.
  - intros p. rewrite hmac_authenticated_iff. unfold hmac_genuine, vouching_authority.
    naive_solver.
  - unfold hmac_authenticated_subject, vouching_authority, compare_digest. split.
    + intros [e H]. destruct (String.eqb_spec (ap_signature_scheme approval) "hmac-sha256");
        [|done]. simpl in H.
      destruct (ring_authorities self !! _) as [a|]; [|done].
      destruct (claims_match a approval) eqn:Hc; [|done]. simpl in H.
      destruct (revoked a approval) eqn:Hr; [done|]. exists a. split; [done|].
      rewrite hmac_ascii in H. by destruct (is_ascii (ap_signature approval)).
    + intros (a & (-> & -> & -> & ->) & Hn). simpl. rewrite hmac_ascii, Hn. eauto.
Qed.

(** ** Loading *)

(** [a] is what the entry [v] under [key_id] configures. *)
Definition configured (environ : gmap string string) (key_id : string) (v : json)
    (a : ApprovalAuthority) : Prop :=
  ∃ item secret_env roles raw_ids ids,
    v = JDict item ∧ dict_get_or item "enabled" (JBool true) = JBool true
    ∧ au_key_id a = key_id
    ∧ dict_get item "subject" = JStr (au_subject a)
    ∧ dict_get item "issuer" = JStr (au_issuer a)
    ∧ dict_get item "tenant" = JStr (au_tenant a)
    ∧ json_strings (dict_get item "roles") = Some roles
    ∧ au_roles a = sort_by role_le roles
    ∧ json_strings (dict_get_or item "revoked_approval_ids" (JList [])) = Some raw_ids
    ∧ mapM uuid_parse raw_ids = Ok ids ∧ au_revoked_approval_ids a = list_to_set ids
    ∧ optional_datetime (dict_get item "revoked_before") key_id = Ok (au_revoked_before a)
    ∧ secret_env = strip (get_str item "secret_env" "")
    ∧ au_secret a = utf8 (default "" (environ !! secret_env))
    ∧ 32 ≤ Z.of_nat (length (au_secret a)).

Lemma required_string_Ok item name key_id s :
  required_string item name key_id = Ok s → dict_get item name = JStr s.
Proof. unfold required_string. destruct (dict_get item name); intros H; by inv_ok. Qed.

Lemma entry_roles_Ok item key_id roles :
  entry_roles item key_id = Ok roles → json_strings (dict_get item "roles") = Some roles.
Proof. unfold entry_roles. destruct (json_strings _) as [[|]|]; intros H; by inv_ok. Qed.

Lemma load_authority_configured environ selected key_id v a :
  load_authority environ selected key_id v = Ok (Some a) →
  configured environ key_id v a ∧ (∀ ids, selected = Some ids → key_id ∈ ids).
Proof.
  unfold load_authority. intros H. destruct v as [| | | | | |item]; try done.
  apply bind_Ok in H as (enabled & He & H).
  destruct enabled; [|done]. cbn [negb] in H.
  destruct (match selected with Some _ => _ | None => _ end) eqn:Hsel; [done|].
  split.
  2: { intros ids ->. by apply negb_false_iff, bool_decide_eq_true in Hsel. }
  inv_ok. simplify_eq.
  repeat match goal with H : required_string _ _ _ = Ok _ |- _ =>
    apply required_string_Ok in H end.
  match goal with H : entry_roles _ _ = Ok _ |- _ => apply entry_roles_Ok in H end.
  match goal with H : ApprovalAuthority_post_init _ = Ok _ |- _ =>
    unfold ApprovalAuthority_post_init in H end.
  inv_ok. cbn in *. to_prop.
  eexists item, (strip (get_str item "secret_env" "")), _, _, _.
  split_and!; try done.
  destruct (dict_get_or item "enabled" (JBool true)) as [|[]| | | | |]; by simplify_eq.
Qed.

Lemma load_authorities_configured environ selected table acc authorities :
  load_authorities environ selected table acc = Ok authorities →
  ∀ k a, authorities !! k = Some a → acc !! k = Some a
    ∨ ∃ v, (k, v) ∈ table ∧ configured environ k v a
        ∧ (∀ ids, selected = Some ids → k ∈ ids).
Proof.
  revert acc. induction table as [|[key v] table IH]; intros acc H k a Hk; simpl in H.
  { inv_ok. by left. }
  apply bind_Ok in H as (loaded & Hl & H).
  destruct (IH _ H k a Hk) as [Hacc|(v' & Hin & Hc)]; [|right; exists v'; split; [by right|done]].
  destruct loaded as [b|]; [|by left].
  destruct (load_authority_configured _ _ _ _ _ Hl) as [Hconf Hsel].
  assert (au_key_id b = key) as Hkey by (by destruct Hconf as (?&?&?&?&?&_&_&?&_)).
  rewrite Hkey in Hacc. apply lookup_insert_Some in Hacc as [[-> ->]|[_ ?]]; [|by left].
  right. exists v. split; [by left|done].
Qed.

(** a key ring holds what was configured.  Every authority of a loaded
    ring comes from an enabled entry of the file's table under its own key ID,
    with the entry's subject, issuer, tenant, roles and revocations and the secret
    of the named environment variable, at least 32 bytes of it; when key IDs were selected,
    the ring has exactly those. *)
Theorem ring_from_toml_configured raw environ selected self :
  ring_from_toml raw environ selected = Ok self →
  (∀ k a, ring_authorities self !! k = Some a →
     ∃ table v, dict_get raw "authorities" = JDict table ∧ (k, v) ∈ table
       ∧ configured environ k v a)
  ∧ ring_authorities self ≠ ∅
  ∧ (∀ ids, selected = Some ids → dom (ring_authorities self) = ids).
Proof.
  unfold ring_from_toml. intros H. apply bind_Ok in H as (table & Ht & H).
  apply bind_Ok in H as (authorities & Ha & H). apply bind_Ok in H as ([] & Hs & H).
  pose proof H as Hi. apply ring_init_keys in Hi as [-> _]. simpl. split_and!.
  - intros k a Hk.
    destruct (load_authorities_configured _ _ _ _ _ Ha k a Hk) as [He|(v & Hin & Hc & _)];
      [by rewrite lookup_empty in He|].
    exists table, v. split_and!; [|done..]. clear -Ht.
    destruct (dict_get raw "authorities") as [| | | | | |[|? ?]]; by simplify_eq.
  - unfold HmacApprovalAuthenticator_init in H. inv_ok. by to_prop.
  - intros ids ->. simpl in Hs. apply raise_if_Ok in Hs. by to_prop.
Qed.

Definition sample_ring_toml : dict :=
  [("authorities", JDict
      [("ops", JDict [("subject", JStr "alice"); ("issuer", JStr "idp");
                      ("tenant", JStr "acme"); ("roles", str_list ["approver"]);
                      ("secret_env", JStr "OPS_SECRET")]);
       ("old", JDict [("enabled", JBool false)])])].
Definition sample_environ : gmap string string :=
  {[ "OPS_SECRET" := "AAAAAAAAAAAAAAAAAAAAAAAAAAAAAAAA" ]}.

Lemma ring_from_toml_configured_witness :
  ring_from_toml sample_ring_toml sample_environ None = Ok sample_ring
  ∧ ring_authorities sample_ring ≠ ∅.
Proof.
  assert (ring_from_toml sample_ring_toml sample_environ None = Ok sample_ring) as H by check.
  split; [exact H|]. destruct (ring_from_toml_configured _ _ _ _ H) as (_ & Hne & _). exact Hne.
Defined.
