(* ===== verification/PolicyTheorems.v ===== *)
(** * PolicyTheorems: properties of the policy engine

    What a permission of the engine means, in terms of the gates of
    [PolicyEngine.evaluate] and of the approvals of an [Authenticator]. *)

From S2P Require Import Prelude PyText PyJson PyHash PyTime ResourceLimits.
From S2P Require Import JsonCanonical ModelsBase PlatformIdentity ModelsReviews.
From S2P Require Import ModelsAction ModelsBindings ModelsContext ModelsPlan.
From S2P Require Import ModelsResults Approvals Policy Samples.
From Stdlib Require Import Ascii.

Open Scope Z_scope.

Section engine.
Context {A : Type} `{AuthenticatorLaws A}.

(** The gates before the approvals. *)
Definition gates (self : PolicyEngine A) (plan : ChangePlan) (action : AgentAction)
    (now : datetime) : Prop :=
  capsule_consistent plan action ∧ constraints_allow self plan action now
  ∧ matches_any (aa_capability action) (prohibited_capabilities (pe_config self)) = false
  ∧ aa_risk action ∉ prohibit_risks (pe_config self)
  ∧ (is_write (pe_config self) action = true → retrieved_authority action = false).

(** The approvals, or the automatic permission. *)
Definition approved (self : PolicyEngine A) (plan : ChangePlan) (action : AgentAction)
    (approvals : list Approval) (now : datetime) (n : Z) : Prop :=
  if approval_needed self action n
  then ∃ covered_by, covered_approvals self plan action now approvals = Ok covered_by
         ∧ Z.max 1 n ≤ Z.of_nat (size covered_by)
  else aa_risk action ∈ auto_permit_risks (pe_config self).

Lemma permitted_complete self plan action approvals now n :
  0 ≤ n → gates self plan action now → approved self plan action approvals now n →
  ∃ d, evaluate self plan action approvals now n = Ok d ∧ pd_permitted d = true.
Proof using Type.
  intros Hn (Hc & Hk & Hp & Hr & Hw) Ha. unfold evaluate.
  destruct (Z.ltb_spec n 0); [lia|]. mstep.
  assert (match capsule_binding_for plan action with
     | Some binding =>
         negb (bool_decide (ccb_risk binding = aa_risk action))
         || negb (bool_decide (ccb_data_classification binding
                               = aa_data_classification action))
     | None => false
     end = false) as ->.
  { unfold capsule_consistent in Hc. destruct (capsule_binding_for plan action); [|done].
    destruct (Hc _ eq_refl) as [-> ->]. by rewrite !bool_decide_true. }
  assert (∃ reason, match pe_constraints self with
    | Some constraints => constraints_validate constraints plan action now
    | None => (true, "")
    end = (true, reason)) as [reason ->].
  { unfold constraints_allow in Hk. destruct (pe_constraints self) as [c|]; [|eauto].
    specialize (Hk c eq_refl). destruct (constraints_validate c plan action now) as [[] r];
      [eauto|done]. }
  cbn [negb]. rewrite Hp, bool_decide_false by done.
  assert (is_write (pe_config self) action && retrieved_authority action = false) as ->.
  { destruct (is_write _ _); [by rewrite Hw|done]. }
  unfold approved, approval_needed in Ha. destruct (_ || _ || _).
  - destruct Ha as (covered_by & -> & Hle). mstep.
    destruct (Z.ltb_spec (Z.of_nat (size covered_by)) (Z.max 1 n)); [lia|]. eauto.
  - rewrite bool_decide_true by done. eauto.
Qed.

(** [PolicyEngine.evaluate] permits an action exactly when every gate is
    open: the capsule binding agrees with the action's risk and classification,
    the contextual constraints hold, neither the capability nor the risk is
    prohibited, a write does not come from retrieved content, and either
    enough distinct principals approved (when the action, its risk or the
    caller asks for approval) or the risk is one that is auto-permitted. *)
Theorem evaluate_permits_iff self plan action approvals now n :
  (∃ d, evaluate self plan action approvals now n = Ok d ∧ pd_permitted d = true) ↔
  0 ≤ n ∧ gates self plan action now ∧ approved self plan action approvals now n.
Proof using Type.
  split.
  - intros (d & He & Hp). apply permitted_inv in He as (H1 & H2 & H3 & H4 & H5 & H6 & H7);
      [|done]. unfold gates. split_and!; try done. intros Hw. by rewrite Hw in H6.
  - intros (Hn & Hg & Ha). by apply permitted_complete.
Qed.

(** C9: approvals count by person.  When an action that needs approval is
    permitted, there are at least [max 1 n] distinct principals, each the
    authenticated (genuine) principal of an approval that is bound to this exact
    plan, covers this action and is in force now; no repetition of an approval
    or second approval by the same person counts. *)
Theorem permitted_has_approvers self plan action approvals now n d :
  evaluate self plan action approvals now n = Ok d → pd_permitted d = true →
  approval_needed self action n = true →
  ∃ a, pe_authenticator self = Some a
    ∧ approved_by a plan action now approvals (Z.max 1 n).
Proof using All.
  intros He Hp Hn. destruct (permitted_inv _ _ _ _ _ _ _ He Hp) as (_ & _ & _ & _ & _ & _ & Ha).
  rewrite Hn in Ha. destruct Ha as (covered_by & Hc & Hle).
  eapply covered_principals; [exact Hc|exact Hle|lia].
Qed.

(** retrieved content never authorises an effect.  Whatever the
    configuration, the approvals and the contextual constraints, an action
    whose authority is retrieved content is not permitted when its risk is
    above local generation or its capability matches a write pattern. *)
Theorem retrieved_content_cannot_write self plan action approvals now n d :
  evaluate self plan action approvals now n = Ok d →
  retrieved_authority action = true →
  is_write_risk (aa_risk action) = true
  ∨ matches_any (aa_capability action) (write_capability_patterns (pe_config self)) = true →
  pd_permitted d = false.
Proof using Type.
  intros He Hr Hw. apply not_true_is_false. intros Hp.
  destruct (permitted_inv _ _ _ _ _ _ _ He Hp) as (_ & _ & _ & _ & _ & H' & _).
  rewrite Hr, andb_true_r in H'. unfold is_write in H'.
  apply orb_false_iff in H'. intuition congruence.
Qed.
End engine.

Lemma permitted_has_approvers_witness :
  ∃ a, pe_authenticator sample_engine = Some a
    ∧ approved_by a sample_plan write_action (sample_time 10) [sample_approval] 1.
Proof.
  exact (permitted_has_approvers sample_engine sample_plan write_action [sample_approval]
    (sample_time 10) 1 _ sample_permit eq_refl eq_refl).
Defined.

(** The write as a retrieved document asks for it. *)
Definition injected_action : AgentAction :=
  mk_AgentAction "jira.issue.update" (aa_target write_action) (aa_parameters write_action)
    REVERSIBLE_WRITE RETRIEVED_EXTERNAL_CONTENT false "injected" "as the page says" INTERNAL
    [] 5.

Lemma retrieved_content_cannot_write_witness :
  ∃ d, evaluate sample_engine sample_plan injected_action [sample_approval]
         (sample_time 10) 0 = Ok d ∧ pd_permitted d = false.
Proof.
  assert (evaluate sample_engine sample_plan injected_action [sample_approval]
    (sample_time 10) 0 = Ok (mk_PolicyDecision false false
      "retrieved content is data and cannot authorize a write or external action")) as H
    by check.
  eexists. split; [exact H|].
  exact (retrieved_content_cannot_write _ _ _ _ _ _ _ H eq_refl (or_introl eq_refl)).
Defined.

(** ** [authenticated_approvals] *)

Section selection.
Context {A : Type} `{Authenticator A}.

(** The approval is authenticated as [s] and covers an action of the plan. *)
Definition usable (a : A) (plan : ChangePlan) (now : datetime) (approval : Approval)
    (s : text) : Prop :=
  authenticated_subject a approval = Ok (Some s)
  ∧ ∃ action, action ∈ cp_actions plan ∧ covers approval plan action now = true.

Definition approval_le (x y : uuid * (Approval * text)) : bool :=
  str_le (uuid_str x.1) (uuid_str y.1).

Lemma existsb_covers approval plan now :
  existsb (λ action, covers approval plan action now) (cp_actions plan) = true ↔
  ∃ action, action ∈ cp_actions plan ∧ covers approval plan action now = true.
Proof. rewrite existsb_exists. by setoid_rewrite list_elem_of_In. Qed.

(** The map holds, for each ID, the last usable approval that bears it. *)
Lemma select_approvals_spec a plan now approvals acc selected :
  select_approvals a plan now approvals acc = Ok selected →
  (∀ i x s, selected !! i = Some (x, s) →
     acc !! i = Some (x, s) ∨ (x ∈ approvals ∧ ap_approval_id x = i ∧ usable a plan now x s))
  ∧ (∀ i, is_Some (acc !! i) → is_Some (selected !! i))
  ∧ (∀ x s, x ∈ approvals → usable a plan now x s → is_Some (selected !! ap_approval_id x)).
Proof.
  revert acc. induction approvals as [|y approvals IH]; intros acc Hs; simpl in Hs.
  { inv_ok. split_and!; [auto|auto|]. by intros x s ?%elem_of_nil. }
  apply bind_Ok in Hs as (subject & Hy & Hs).
  assert (∀ s, subject = Some s → existsb (λ action, covers y plan action now)
    (cp_actions plan) = true → usable a plan now y s) as Huse
    by (intros s -> ?%existsb_covers; done).
  assert (∀ s, usable a plan now y s → subject = Some s ∧
    existsb (λ action, covers y plan action now) (cp_actions plan) = true) as Hinv.
  { intros s [Hs' Hc]. rewrite Hy in Hs'. simplify_eq. by rewrite existsb_covers. }
  destruct subject as [s|]; [destruct (existsb _ _) eqn:Hc|];
    cbn [negb] in Hs; destruct (IH _ Hs) as (IH1 & IH2 & IH3).
  - split_and!.
    + intros i x t Hi. destruct (IH1 i x t Hi) as [Hacc|(? & ? & ?)].
      * apply lookup_insert_Some in Hacc as [[<- [= <- <-]]|[_ Hacc]]; [|by left].
        right. split_and!; [left|done|by apply Huse].
      * right. split_and!; [by right|done|done].
    + intros i Hi. apply IH2. destruct (decide (ap_approval_id y = i)) as [<-|].
      * rewrite lookup_insert, decide_True by done. eauto.
      * by rewrite lookup_insert_ne.
    + intros x t [-> |Hx]%elem_of_cons Hu; [|by eapply IH3].
      apply IH2. rewrite lookup_insert, decide_True by done. eauto.
  - split_and!; [|done|].
    + intros i x t Hi. destruct (IH1 i x t Hi) as [?|(? & ? & ?)]; [by left|].
      right. split_and!; [by right|done|done].
    + intros x t [-> |Hx]%elem_of_cons Hu; [|by eapply IH3]. by apply Hinv in Hu as [_ ?].
  - split_and!; [|done|].
    + intros i x t Hi. destruct (IH1 i x t Hi) as [?|(? & ? & ?)]; [by left|].
      right. split_and!; [by right|done|done].
    + intros x t [-> |Hx]%elem_of_cons Hu; [|by eapply IH3]. by apply Hinv in Hu as [? _].
Qed.

(** [authenticated_approvals] returns exactly the usable approvals: each
    one returned was given, is authenticated as the returned principal and
    covers some action of this plan now; every usable approval's ID is among
    them; no ID comes twice, and they are in the order of their IDs' text. *)
Theorem authenticated_approvals_spec self a plan approvals now l :
  pe_authenticator self = Some a →
  authenticated_approvals self plan approvals now = Ok l →
  (∀ x s, (x, s) ∈ l → x ∈ approvals ∧ usable a plan now x s)
  ∧ (∀ x s, x ∈ approvals → usable a plan now x s →
       ∃ y t, (y, t) ∈ l ∧ ap_approval_id y = ap_approval_id x)
  ∧ NoDup (map (λ xs, ap_approval_id xs.1) l)
  ∧ sorted_by (λ x y, str_le (uuid_str x) (uuid_str y)) (map (λ xs, ap_approval_id xs.1) l).
Proof.
  unfold authenticated_approvals. intros -> Hl.
  apply bind_Ok in Hl as (selected & Hs & [= <-]).
  apply select_approvals_spec in Hs as (Hin & _ & Hall).
  fold approval_le.
  assert (∀ i x s, selected !! i = Some (x, s) →
    x ∈ approvals ∧ ap_approval_id x = i ∧ usable a plan now x s) as Hsel.
  { intros i x s [Hi|?]%Hin; [by rewrite lookup_empty in Hi|done]. }
  set (sorted := sort_by approval_le (map_to_list selected)).
  assert (∀ e, e ∈ sorted ↔ selected !! e.1 = Some e.2) as Helem.
  { intros [i xs]. unfold sorted. by rewrite sort_by_elem, elem_of_map_to_list. }
  assert (map (λ xs, ap_approval_id xs.1) (map snd sorted) = map fst sorted) as Hids.
  { rewrite map_map. apply map_ext_in. intros [i [x s]] He%list_elem_of_In. simpl.
    apply Helem in He. by apply Hsel in He as (_ & ? & _). }
  rewrite Hids. split_and!.
  - intros x s ([i xs] & [= <-] & He)%list_elem_of_fmap. apply Helem in He.
    by apply Hsel in He as (? & _ & ?).
  - intros x s Hx Hu. destruct (Hall x s Hx Hu) as [[y t] Hy].
    exists y, t. pose proof (Hsel _ _ _ Hy) as (_ & ? & _). split; [|done].
    apply list_elem_of_fmap. exists (ap_approval_id x, (y, t)). split; [done|]. by apply Helem.
  - unfold sorted. rewrite sort_by_perm. apply NoDup_fst_map_to_list.
  - assert (sorted_by approval_le sorted) as Hsort
      by (apply sort_by_is_sorted; intros; apply str_le_total).
    clearbody sorted. clear -Hsort. induction sorted as [|x [|y l] IH]; [done|done|].
    destruct Hsort as [Hxy Hsort]. split; [exact Hxy|]. by apply IH.
Qed.
End selection.

Lemma authenticated_approvals_spec_witness :
  authenticated_approvals sample_engine sample_plan [sample_approval; sample_approval]
    (sample_time 10) = Ok [(sample_approval, principal_id sample_authority)]
  ∧ usable sample_ring sample_plan (sample_time 10) sample_approval
      (principal_id sample_authority).
Proof.
  assert (authenticated_approvals sample_engine sample_plan
    [sample_approval; sample_approval] (sample_time 10)
    = Ok [(sample_approval, principal_id sample_authority)]) as H by check.
  split; [exact H|].
  destruct (authenticated_approvals_spec sample_engine sample_ring _ _ _ _ eq_refl H)
    as (Hu & _).
  apply (Hu sample_approval). by left.
Defined.

(** ** Contextual constraints *)

(** the iterative walk of [_collection_items] terminates and counts
    exactly the items of every mapping and list nested in a value. *)
Theorem collection_items_counts v :
  collection_loop (json_size v) [v] 0 = Some (json_items v)
  ∧ collection_items v = json_items v.
Proof.
  split; [|apply collection_items_spec].
  rewrite collection_loop_spec by (simpl; lia). f_equal. unfold zsum. simpl. lia.
Qed.

(** The target is under a prefix of an allowlist entry that matches the
    capability; no allowlist at all allows every target. *)
Definition target_allowed (c : ContextualPolicyConstraints) (action : AgentAction) : Prop :=
  pc_resource_allowlists c = []
  ∨ ∃ pattern prefixes prefix, (pattern, prefixes) ∈ pc_resource_allowlists c
      ∧ fnmatch (aa_capability action) pattern = true ∧ prefix ∈ prefixes
      ∧ startswith prefix (ResourceRef_uri (aa_target action)) = true.

(** A restricted identity is one a capsule binding of the capability states. *)
Definition identity_allowed (c : ContextualPolicyConstraints) (plan : ChangePlan)
    (action : AgentAction) : Prop :=
  Forall (λ s, s = []) (identity_sets c)
  ∨ ∃ b, capsule_binding_for plan action = Some b
      ∧ ccb_data_classification b = aa_data_classification action
      ∧ Forall2 (λ allowed v, allowed = [] ∨ v ∈ allowed)
          (identity_sets c) (binding_identities b).

Lemma matched_prefixes_spec c action :
  negb (bool_decide (pc_resource_allowlists c = []))
  && (bool_decide (matched_prefixes c action = [])
      || negb (existsb (λ p, startswith p (ResourceRef_uri (aa_target action)))
                 (matched_prefixes c action))) = false
  ↔ target_allowed c action.
Proof.
  unfold target_allowed. rewrite andb_false_iff, negb_false_iff, bool_decide_eq_true.
  assert (bool_decide (matched_prefixes c action = [])
      || negb (existsb (λ p, startswith p (ResourceRef_uri (aa_target action)))
                 (matched_prefixes c action)) = false
    ↔ ∃ prefix, In prefix (matched_prefixes c action)
        ∧ startswith prefix (ResourceRef_uri (aa_target action)) = true) as ->.
  { rewrite orb_false_iff, negb_false_iff, existsb_exists, bool_decide_eq_false.
    split; [by intros [_ ?]|]. intros (x & Hx & ?). split; [|by eauto].
    intros E. by rewrite E in Hx. }
  unfold matched_prefixes. setoid_rewrite in_flat_map. setoid_rewrite <- list_elem_of_In.
  split.
  - intros [?|(prefix & ((pattern & prefixes) & Hin & Hp) & Hs)]; [by left|]. right.
    simpl in Hp. destruct (fnmatch _ _) eqn:E; [|by apply elem_of_nil in Hp]. eauto 10.
  - intros [?|(pattern & prefixes & prefix & Hin & Hf & Hp & Hs)]; [by left|]. right.
    exists prefix. split; [|done]. exists (pattern, prefixes). simpl. by rewrite Hf.
Qed.

Lemma existsb_rejected sets values :
  length sets = length values →
  (existsb identity_rejected (combine sets values) = false ↔
   Forall2 (λ allowed v, allowed = [] ∨ v ∈ allowed) sets values).
Proof.
  revert values. induction sets as [|s sets IH]; intros [|v values] Hl; try discriminate Hl.
  { split; [constructor|done]. }
  simpl. injection Hl as Hl. rewrite orb_false_iff, Forall2_cons, (IH _ Hl).
  unfold identity_rejected. cbn [fst snd].
  rewrite andb_false_iff, !negb_false_iff, !bool_decide_eq_true. done.
Qed.

Lemma constraints_identity_spec c plan action :
  (constraints_identity c plan action).1 = true ↔ identity_allowed c plan action.
Proof.
  unfold constraints_identity, identity_allowed.
  destruct (existsb (λ s, negb (bool_decide (s = []))) (identity_sets c)) eqn:E.
  - assert (¬ Forall (λ s, s = []) (identity_sets c)) as Hn.
    { intros HF. apply existsb_exists in E as (s & Hs%list_elem_of_In & Hne).
      eapply Forall_forall in HF; [|exact Hs]. by rewrite HF in Hne. }
    destruct (capsule_binding_for plan action) as [b|].
    2: { split; [done|]. by intros [?|(b & ? & _)]. }
    assert (length (identity_sets c) = length (binding_identities b)) as Hl by done.
    pose proof (existsb_rejected _ _ Hl) as Hr.
    destruct (bool_decide_reflect (ccb_data_classification b = aa_data_classification action))
      as [Hd|Hd]; cbn [negb].
    + destruct (existsb identity_rejected _); cbn [fst].
      * split; [done|]. intros [?|(b' & [= <-] & _ & HF)]; [done|]. by apply Hr in HF.
      * split; [|done]. intros _. right. exists b. split_and!; [done|done|by apply Hr].
    + split; [done|]. by intros [?|(b' & [= <-] & ? & _)].
  - split; [|done]. intros _. left. apply Forall_forall. intros s Hs%list_elem_of_In.
    destruct (decide (s = [])) as [|Hne]; [done|].
    assert (existsb (λ s, negb (bool_decide (s = []))) (identity_sets c) = true);
      [|congruence].
    apply existsb_exists. exists s. by rewrite bool_decide_false.
Qed.

(** the contextual constraints accept exactly the actions in the time
    window, of an allowed classification, within the item and byte budgets,
    with an allowed target, and, when identities are restricted, with a capsule
    binding of the same classification all of whose identities are allowed. *)
Theorem constraints_validate_iff c plan action now :
  (constraints_validate c plan action now).1 = true ↔
  (∀ d, pc_not_before c = Some d → instant d ≤ instant now)
  ∧ (∀ d, pc_not_after c = Some d → instant now < instant d)
  ∧ aa_data_classification action ∈ pc_allowed_classifications c
  ∧ json_items (JDict (aa_parameters action)) ≤ pc_maximum_items_per_action c
  ∧ within_limits (JDict (aa_parameters action)) (pc_maximum_bytes_per_action c) = true
  ∧ target_allowed c action ∧ identity_allowed c plan action.
Proof.
  unfold constraints_validate.
  rewrite (and_gate _ _ _ (∀ d, pc_not_before c = Some d → instant d ≤ instant now)).
  2: { destruct (pc_not_before c) as [d|]; [|naive_solver].
       unfold dt_lt. rewrite Z.ltb_ge. naive_solver. }
  rewrite (and_gate _ _ _ (∀ d, pc_not_after c = Some d → instant now < instant d)).
  2: { destruct (pc_not_after c) as [d|]; [|naive_solver].
       unfold dt_le. rewrite Z.leb_gt. naive_solver. }
  rewrite (and_gate _ _ _ (aa_data_classification action ∈ pc_allowed_classifications c))
    by by rewrite negb_false_iff, bool_decide_eq_true.
  rewrite (and_gate _ _ _ (json_items (JDict (aa_parameters action))
    ≤ pc_maximum_items_per_action c)) by by rewrite collection_items_spec, Z.ltb_ge.
  rewrite (and_gate _ _ _ (within_limits (JDict (aa_parameters action))
    (pc_maximum_bytes_per_action c) = true)).
  2: { rewrite negb_false_iff. split.
       - destruct (measure_json_resources _ _ _) eqn:E; [|done].
         by apply measure_spec in E as [? _].
       - intros Hw. assert (measure_json_resources (JDict (aa_parameters action))
           "contextual policy action" (pc_maximum_bytes_per_action c)
           = Ok (usage_of (JDict (aa_parameters action)))) as -> by by apply measure_spec.
         done. }
  rewrite (and_gate _ _ _ _ (matched_prefixes_spec c action)).
  by rewrite constraints_identity_spec.
Qed.
