(* ===== verification/GovernanceTheorems.v ===== *)
(** * GovernanceTheorems: properties of the organization profile

    The rule an action falls under, what a governed action satisfies, the
    approvers a write needs (together with the policy engine), direct read
    sessions and the coverage report. *)

From S2P Require Import Prelude PyText PyJson PyHash PyTime ResourceLimits.
From S2P Require Import JsonCanonical ModelsBase PlatformIdentity ModelsReviews.
From S2P Require Import ModelsAction ModelsBindings ModelsContext ModelsPlan.
From S2P Require Import ModelsResults Approvals Policy Capabilities Governance Samples.
From Stdlib Require Import Ascii.

Open Scope Z_scope.

Section profile.
Context {Egress : Type}.
Implicit Types self : GovernanceProfile Egress.

(** [rule_for] resolves overlapping rules deterministically.  It returns a
    rule of the profile whose pattern matches, which no matching rule exceeds in
    specificity and which is the first of the matching ones of its specificity;
    it returns nothing exactly when no pattern matches. *)
Theorem rule_for_most_specific self capability :
  match rule_for self capability with
  | Some r => r ∈ gp_rules self ∧ fnmatch capability (gr_pattern r) = true
      ∧ first_max r (List.filter (λ r, fnmatch capability (gr_pattern r)) (gp_rules self))
  | None => Forall (λ r, fnmatch capability (gr_pattern r) = false) (gp_rules self)
  end.
Proof.
  destruct (rule_for self capability) as [r|] eqn:E.
  - destruct (rule_for_matches _ _ _ E). split_and!; [done..|]. by apply rule_for_Some.
  - by apply rule_for_None.
Qed.

(** What the governing rule of an action must satisfy. *)
Definition governed_by (self : GovernanceProfile Egress) (action : AgentAction)
    (rule : GovernanceRule) : Prop :=
  rule_for self (aa_capability action) = Some rule
  ∧ gr_enabled rule = true ∧ gp_environment self ∈ gr_environments rule
  ∧ aa_data_classification action ∈ gr_data_classifications rule
  ∧ gr_approval_tier rule ≠ TIER_PROHIBITED
  ∧ (is_write_risk (aa_risk action) = true → gr_approval_tier rule ≠ AUTOMATIC).

Lemma validate_action_governed self action :
  (governance_validate_action self action).1 = true ↔ ∃ rule, governed_by self action rule.
Proof.
  unfold governance_validate_action, governed_by.
  destruct (rule_for self (aa_capability action)) as [r|]; [|naive_solver].
  rewrite (and_gate _ _ _ (gr_enabled r = true)) by by rewrite negb_false_iff.
  rewrite (and_gate _ _ _ (gp_environment self ∈ gr_environments r))
    by by rewrite negb_false_iff, bool_decide_eq_true.
  rewrite (and_gate _ _ _ (aa_data_classification action ∈ gr_data_classifications r))
    by by rewrite negb_false_iff, bool_decide_eq_true.
  rewrite (and_gate _ _ _ (gr_approval_tier r ≠ TIER_PROHIBITED))
    by by rewrite bool_decide_eq_false.
  rewrite (last_gate _ _ _ (is_write_risk (aa_risk action) = true →
    gr_approval_tier r ≠ AUTOMATIC)).
  2: { rewrite andb_false_iff, bool_decide_eq_false.
       destruct (is_write_risk (aa_risk action)); intuition congruence. }
  split; [intros (?&?&?&?&?); eauto 10|by intros (r' & [= <-] & ?&?&?&?&?)].
Qed.

(** [validate_action] accepts an action exactly when it is governed: the
    most specific rule for its capability is enabled, allows the profile's
    environment and the action's data classification, does not prohibit it,
    and does not leave a write to automatic approval. *)
Theorem governance_validate_action_iff self action :
  (governance_validate_action self action).1 = true ↔ ∃ rule, governed_by self action rule.
Proof. apply validate_action_governed. Qed.

Lemma governed_minimum self action rule :
  governed_by self action rule →
  minimum_approvers self (aa_capability action)
  = Ok match gr_approval_tier rule with SINGLE => 1 | DUAL => 2 | _ => 0 end.
Proof.
  intros (Hr & He & _ & _ & Hp & _). unfold minimum_approvers. rewrite Hr. mstep.
  by rewrite He, bool_decide_false.
Qed.

(** A governed write is approved by people.  When governance accepts a
    write, [minimum_approvers] returns a number that is at least one (two for
    the dual tier), and if the policy engine, called with that number as every
    caller does, permits the write, then at least that many distinct principals
    gave genuine approvals of this action of this plan. *)
Theorem governed_write_needs_people {A} `{AuthenticatorLaws A} self (engine : PolicyEngine A)
    plan action approvals now :
  (governance_validate_action self action).1 = true →
  is_write_risk (aa_risk action) = true →
  ∃ n, minimum_approvers self (aa_capability action) = Ok n ∧ 1 ≤ n
    ∧ (approval_tier_for self (aa_capability action) = Some DUAL → n = 2)
    ∧ ∀ d, evaluate engine plan action approvals now n = Ok d → pd_permitted d = true →
        ∃ a, pe_authenticator engine = Some a ∧ approved_by a plan action now approvals n.
Proof.
  intros (rule & Hg)%validate_action_governed Hw.
  rewrite (governed_minimum _ _ _ Hg). destruct Hg as (Hr & _ & _ & _ & Hp & Ha).
  specialize (Ha Hw). eexists; split; [done|].
  set (n := match gr_approval_tier rule with SINGLE => 1 | DUAL => 2 | _ => 0 end).
  assert (1 ≤ n) as Hn by (subst n; by destruct (gr_approval_tier rule)).
  split_and!; [done| |].
  - unfold approval_tier_for. rewrite Hr. simpl. intros [= E]. subst n. by rewrite E.
  - intros d He Hd.
    destruct (permitted_inv _ _ _ _ _ _ _ He Hd) as (_ & _ & _ & _ & _ & _ & Hap).
    assert (approval_needed engine action n = true) as E.
    { unfold approval_needed. apply orb_true_iff. right. apply Z.ltb_lt. lia. }
    rewrite E in Hap. destruct Hap as (covered_by & Hc & Hle).
    eapply covered_principals; [exact Hc|lia|lia].
Qed.

(** ** Direct read sessions *)

Lemma first_error_None {B} (f : B → option string) l :
  first_error f l = None ↔ Forall (λ x, f x = None) l.
Proof.
  induction l as [|x l IH]; simpl; [split; [constructor|done]|].
  rewrite Forall_cons, <- IH. destruct (f x); naive_solver.
Qed.

Lemma direct_read_error_None action :
  direct_read_error action = None ↔
  aa_risk action = READ_ONLY ∧ aa_authority_source action = DIRECT_USER
  ∧ aa_requires_approval action = false.
Proof.
  unfold direct_read_error.
  destruct (bool_decide_reflect (aa_risk action = READ_ONLY)),
    (bool_decide_reflect (aa_authority_source action = DIRECT_USER)),
    (aa_requires_approval action); naive_solver.
Qed.

(** All actions are for one system. *)
Definition one_system (actions : list AgentAction) : Prop :=
  ∃ system, actions ≠ [] ∧ Forall (λ a, rr_system (aa_target a) = system) actions.

Lemma one_system_iff actions :
  length (remove_dups (map (λ a, rr_system (aa_target a)) actions)) = 1%nat ↔
  one_system actions.
Proof.
  unfold one_system. set (f := λ a, rr_system (aa_target a)).
  assert (∀ x, x ∈ remove_dups (map f actions) ↔ ∃ a, x = f a ∧ a ∈ actions) as Hin
    by (intros x; by rewrite elem_of_remove_dups, list_elem_of_fmap).
  pose proof (NoDup_remove_dups (map f actions)) as Hnd. split.
  - destruct (remove_dups _) as [|s [|? ?]]; try discriminate. intros _. exists s. split.
    + intros ->. destruct (proj1 (Hin s)) as (a & _ & Ha); [by left|by apply elem_of_nil in Ha].
    + apply Forall_forall. intros a Ha.
      assert (f a ∈ [s]) as Hf by (apply Hin; eauto). by apply list_elem_of_singleton in Hf.
  - intros (s & Hne & HF). rewrite Forall_forall in HF.
    destruct (remove_dups _) as [|x [|y l]]; [|done|].
    + destruct actions as [|a ?]; [done|].
      assert (f a ∈ @nil string) as Hf by (apply Hin; exists a; split; [done|by left]).
      by apply elem_of_nil in Hf.
    + destruct (proj1 (Hin x)) as (a & -> & Ha); [by left|].
      destruct (proj1 (Hin y)) as (b & -> & Hb); [right; by left|].
      apply NoDup_cons in Hnd as [Hnd _]. destruct Hnd. unfold f.
      rewrite (HF a Ha), (HF b Hb). by left.
Qed.

(** a direct read session is narrow.  The profile allows one exactly when
    it opts in and the plan has no execution context, workflow or compensation,
    addresses exactly one system, and every action is a read requested by the
    user that needs no approval. *)
Theorem allows_direct_read_session_iff self plan :
  (allows_direct_read_session self plan).1 = true ↔
  dict_get_or (gp_metadata self) "allow_ephemeral_direct_reads" (JBool false) = JBool true
  ∧ cp_execution_context plan = None ∧ cp_workflow_id plan = None
  ∧ cp_workflow_fingerprint plan = None ∧ cp_compensate_on_failure plan = false
  ∧ one_system (cp_actions plan)
  ∧ Forall (λ a, aa_risk a = READ_ONLY ∧ aa_authority_source a = DIRECT_USER
                 ∧ aa_requires_approval a = false) (cp_actions plan).
Proof.
  unfold allows_direct_read_session.
  destruct (dict_get_or _ _ _) as [|configured| | | | |]; try (by split; [done|intros [? _]]).
  rewrite (and_gate _ _ _ (JBool configured = JBool true))
    by (rewrite negb_false_iff; destruct configured; naive_solver).
  rewrite (and_gate _ _ _ (cp_execution_context plan = None))
    by (by destruct (cp_execution_context plan)).
  rewrite (and_gate _ _ _ (cp_workflow_id plan = None ∧ cp_workflow_fingerprint plan = None))
    by (destruct (cp_workflow_id plan), (cp_workflow_fingerprint plan); simpl; naive_solver).
  rewrite (and_gate _ _ _ (cp_compensate_on_failure plan = false)) by done.
  rewrite (and_gate _ _ _ (one_system (cp_actions plan)))
    by by rewrite <- one_system_iff, negb_false_iff, Nat.eqb_eq.
  rewrite (Forall_iff _ _ (λ a, direct_read_error a = None))
    by (intros; by rewrite direct_read_error_None).
  rewrite <- first_error_None. destruct (first_error direct_read_error (cp_actions plan));
    naive_solver.
Qed.

(** ** Coverage *)

(** What coverage asks of one catalog capability. *)
Definition capability_covered (self : GovernanceProfile Egress) (name : string)
    (d : CapabilityDefinition) : Prop :=
  ∃ rule, rule_for self name = Some rule
    ∧ (cap_enabled d = true → gr_enabled rule = true)
    ∧ (gr_authentication rule = cap_authentication d
       ∨ gr_authentication rule = "provider_specific").

Lemma coverage_entry_covered self name d :
  snd (coverage_entry self name d) = [] ↔ capability_covered self name d.
Proof.
  unfold coverage_entry, capability_covered.
  destruct (rule_for self name) as [r|]; [|split; [done|by intros (? & ? & _)]]. cbn [snd].
  rewrite app_nil. split.
  - intros [H1 H2]. exists r. split_and!; [done| |].
    + destruct (cap_enabled d), (gr_enabled r); done.
    + destruct (String.eqb_spec (cap_authentication d) (gr_authentication r)); [by left|].
      destruct (String.eqb_spec (gr_authentication r) "provider_specific"); [by right|done].
  - intros (r' & [= <-] & H1 & H2). split.
    + destruct (cap_enabled d); [by rewrite H1|done].
    + destruct H2 as [-> | ->]; [by rewrite String.eqb_refl|].
      by destruct (_ =? _)%string.
Qed.

(** the coverage report is [ready] exactly when every capability of the
    catalog has a governing rule that does not disable what the catalog
    enables and agrees with its authentication contract. *)
Theorem coverage_report_ready self c :
  dict_get (coverage_report self c) "ready" = JBool true ↔
  map_Forall (capability_covered self) c.
Proof.
  assert (dict_get (coverage_report self c) "ready"
    = JBool (bool_decide (flat_map snd (coverage self c) = []))) as -> by done.
  trans (flat_map snd (coverage self c) = []).
  { split; [intros E; by injection E as ?%bool_decide_eq_true|].
    intros E. by rewrite bool_decide_true. }
  assert (∀ e, e ∈ coverage self c ↔
    ∃ name d, c !! name = Some d ∧ e = coverage_entry self name d) as Hin.
  { intros e. unfold coverage. rewrite list_elem_of_omap. split.
    - intros (name & _ & He). destruct (c !! name) as [d|] eqn:E; simplify_eq/=; eauto.
    - intros (name & d & Hd & ->). exists name. rewrite Hd. split; [|done].
      unfold sorted_names. rewrite sort_by_elem. apply list_elem_of_fmap.
      exists (name, d). split; [done|]. by apply elem_of_map_to_list. }
  split.
  - intros E name d Hd. apply coverage_entry_covered.
    assert (coverage_entry self name d ∈ coverage self c) as He by (apply Hin; eauto).
    destruct (snd (coverage_entry self name d)) as [|m l] eqn:Es; [done|].
    assert (In m (flat_map snd (coverage self c))) as Hm; [|by rewrite E in Hm].
    apply in_flat_map. exists (coverage_entry self name d). rewrite Es.
    split; [by apply list_elem_of_In|by left].
  - intros HF. destruct (flat_map snd (coverage self c)) as [|m l] eqn:E; [done|].
    assert (In m (flat_map snd (coverage self c))) as Hm by (rewrite E; by left).
    apply in_flat_map in Hm as (e & He%list_elem_of_In & Hm).
    apply Hin in He as (name & d & Hd & ->).
    specialize (HF name d Hd). apply coverage_entry_covered in HF. by rewrite HF in Hm.
Qed.
End profile.

Lemma governed_write_needs_people_witness :
  ∃ a, pe_authenticator dual_engine = Some a
    ∧ approved_by a sample_plan write_action (sample_time 10)
        [sample_approval; second_approval] 2.
Proof.
  destruct (governed_write_needs_people sample_profile dual_engine sample_plan write_action
    [sample_approval; second_approval] (sample_time 10)) as (n & _ & _ & Hn & He);
    [check|check|].
  rewrite (Hn ltac:(check)) in He. exact (He _ dual_permit eq_refl).
Defined.

Example sample_direct_read :
  allows_direct_read_session sample_profile read_plan
  = (true, "governance permits an ephemeral direct read session").
Proof. by vm_compute. Qed.
