(* ===== verification/CapabilityTheorems.v ===== *)
(** * CapabilityTheorems: properties of the capability catalog

    Parameter schemas are closed, a loaded catalog is sound, an accepted action
    fits its contract, and a live connector is the bound one. *)

From S2P Require Import Prelude PyText PyJson PyTime PyStd ResourceLimits ModelsBase.
From S2P Require Import PlatformIdentity ModelsAction ModelsBindings Capabilities.
From S2P Require Import Samples.
From Stdlib Require Import Ascii.

Open Scope Z_scope.

(** ** Parameters *)

(** The parameter a schema entry describes is present with a value of its
    type, or is optional and absent or null. *)
Definition parameter_ok (parameters : dict) (nd : string * string) : Prop :=
  match dict_lookup parameters nd.1 with
  | None => ends_with "?" nd.2 = true
  | Some v => (ends_with "?" nd.2 = true ∧ v = JNull)
              ∨ parameter_matches v (remove_suffix "?" nd.2) = true
  end.

Lemma check_schema_None parameters schema :
  check_schema parameters schema = None ↔ Forall (parameter_ok parameters) schema.
Proof.
  induction schema as [|[name descriptor] schema IH]; simpl; [split; [constructor|done]|].
  rewrite Forall_cons, <- IH. unfold parameter_ok. cbn [fst snd].
  destruct (dict_lookup parameters name) as [v|].
  - destruct (ends_with "?" descriptor), (is_none v) eqn:Ev,
      (parameter_matches v (remove_suffix "?" descriptor)); simpl;
      destruct v; simpl in Ev; try discriminate Ev; naive_solver.
  - destruct (ends_with "?" descriptor); naive_solver.
Qed.

Lemma filter_nil {B} (f : B → bool) l :
  List.filter f l = [] ↔ Forall (λ x, f x = false) l.
Proof.
  induction l as [|x l IH]; simpl; [split; [constructor|done]|].
  rewrite Forall_cons, <- IH. destruct (f x); naive_solver.
Qed.

Lemma sort_by_nil {B} (le : B → B → bool) l : sort_by le l = [] ↔ l = [].
Proof.
  split; [|by intros ->]. intros E. apply Permutation_nil_r.
  by rewrite <- (sort_by_perm le l), E.
Qed.

(** Every parameter is declared and every declared one is fine. *)
Definition closed_schema (parameters : dict) (schema : list (string * string)) : Prop :=
  (∀ k, k ∈ map fst parameters → is_Some (assoc k schema))
  ∧ Forall (parameter_ok parameters) schema.

Lemma validate_parameters_closed parameters schema :
  schema ≠ [] →
  (validate_parameters parameters schema = None ↔ closed_schema parameters schema).
Proof.
  unfold validate_parameters, closed_schema. intros Hne.
  destruct schema as [|nd schema]; [done|].
  set (full := nd :: schema).
  assert (sort_by str_le (List.filter (λ k, negb (is_someb (assoc k full)))
      (map fst parameters)) = []
    ↔ ∀ k, k ∈ map fst parameters → is_Some (assoc k full)) as Hu.
  { rewrite sort_by_nil, filter_nil, Forall_forall. split; intros H k Hk; specialize (H k Hk).
    - destruct (assoc k full); [eauto|done].
    - by destruct H as [? ->]. }
  rewrite <- check_schema_None, <- Hu.
  destruct (bool_decide_reflect (sort_by str_le (List.filter (λ k, negb (is_someb (assoc k full)))
    (map fst parameters)) = [])); naive_solver.
Qed.

(** a parameter schema is closed.  With a non-empty schema,
    [_validate_parameters] accepts exactly the mappings all of whose keys are
    declared and in which every declared parameter is present with a value of
    its type or, when optional, absent or null. *)
Theorem validate_parameters_iff parameters schema :
  schema ≠ [] →
  (validate_parameters parameters schema = None ↔ closed_schema parameters schema).
Proof. apply validate_parameters_closed. Qed.

Lemma validate_parameters_iff_witness :
  ¬ closed_schema [("fields", str_list ["a"]); ("extra", JInt 1)]
      (cap_parameter_schema read_definition).
Proof.
  intros H. apply (validate_parameters_iff _ (cap_parameter_schema read_definition))
    in H; [|done]. vm_compute in H. discriminate H.
Defined.

(** ** Loaded catalogs *)

(** What the class guarantees of a definition. *)
Definition definition_sound (d : CapabilityDefinition) : Prop :=
  is_Some (assoc (cap_authentication d) AUTHENTICATION_MODES)
  ∧ cap_target_system d ≠ ""
  ∧ Forall (λ nd, remove_suffix "?" nd.2 ∈ PARAMETER_TYPES) (cap_parameter_schema d)
  ∧ (cap_enabled d = true → cap_risk d ≠ READ_ONLY →
       cap_target_resource_types d ≠ [] ∧ cap_parameter_schema d ≠ [])
  ∧ (cap_enabled d = true → cap_requires_expected_version d = true →
       cap_provider_precondition d ≠ "none")
  ∧ (cap_risk d = LOCAL_GENERATION → ∃ i o,
       cap_max_input_bytes d = Some i ∧ 0 < i ≤ MAX_ACTION_PARAMETER_BYTES
       ∧ cap_max_output_bytes d = Some o ∧ 0 < o ≤ MAX_LOCAL_ARTIFACT_BYTES)
  ∧ Forall (λ n, is_reserved_read_result_field_name n = false)
      (map fst (cap_read_result_resources d) ++ cap_read_result_metadata d).

Lemma check_quotas_Ok d :
  check_quotas d = Ok tt → cap_risk d = LOCAL_GENERATION →
  ∃ i o, cap_max_input_bytes d = Some i ∧ 0 < i ≤ MAX_ACTION_PARAMETER_BYTES
       ∧ cap_max_output_bytes d = Some o ∧ 0 < o ≤ MAX_LOCAL_ARTIFACT_BYTES.
Proof.
  unfold check_quotas. intros H E. rewrite bool_decide_true in H by done. inv_ok.
  destruct (cap_max_input_bytes d) as [i|], (cap_max_output_bytes d) as [o|];
    cbn [positive_option default from_option id negb orb] in *;
    rewrite ?orb_true_r in *; try discriminate; [].
  to_prop. destruct Hv as [??]. eauto 10.
Qed.

Lemma check_read_result_Ok d schema resources metadata :
  check_read_result d schema resources metadata = Ok tt →
  Forall (λ n, is_reserved_read_result_field_name n = false) (map fst resources ++ metadata).
Proof.
  unfold check_read_result. intros H. inv_ok. to_prop.
  match goal with H : sort_by _ (remove_dups _) = [] |- _ =>
    apply sort_by_nil in H; rename H into Hd end.
  apply filter_nil. apply elem_of_nil_inv. intros x Hx.
  apply elem_of_remove_dups in Hx. rewrite Hd in Hx. by apply elem_of_nil in Hx.
Qed.

Lemma CapabilityDefinition_post_init_sound x d :
  CapabilityDefinition_post_init x = Ok d → definition_sound d ∧ cap_name d = cap_name x.
Proof.
  unfold CapabilityDefinition_post_init. intros H. inv_ok. split; [|done].
  to_prop. unfold definition_sound.
  cbn [cap_authentication cap_target_system cap_parameter_schema cap_enabled cap_risk
    cap_target_resource_types cap_requires_expected_version cap_provider_precondition
    cap_max_input_bytes cap_max_output_bytes cap_read_result_resources
    cap_read_result_metadata].
  match goal with H : check_quotas x = Ok _ |- _ => pose proof (check_quotas_Ok _ H) as Hq end.
  match goal with H : for_each _ _ = Ok _ |- _ => apply for_each_Ok in H; rename H into Hs end.
  split_and!.
  - destruct (assoc (cap_authentication x) _); [by eexists|done].
  - done.
  - eapply Forall_impl; [exact Hs|]. intros nd Hnd. cbv beta in Hnd. inv_ok. by to_prop.
  - intros He Hr. rewrite He in *. simpl in *. intuition congruence.
  - intros He Hreq. rewrite He, Hreq in *. simpl in *. intuition congruence.
  - exact Hq.
  - match goal with H : (if _ then check_read_result _ _ _ _ else _) = Ok _ |- _ =>
      rename H into Hrr end.
    destruct (negb _ || _ || _) eqn:E; [by apply check_read_result_Ok in Hrr|].
    apply orb_false_iff in E as [[_ E1]%orb_false_iff E2].
    apply negb_false_iff, bool_decide_eq_true in E1, E2. rewrite E1, E2. constructor.
Qed.

Lemma load_definition_sound contracts name v d :
  load_definition contracts name v = Ok d → definition_sound d ∧ cap_name d = name.
Proof.
  unfold load_definition. intros H. inv_ok.
  by match goal with H : CapabilityDefinition_post_init _ = Ok _ |- _ =>
    apply CapabilityDefinition_post_init_sound in H end.
Qed.

Definition catalog_sound (c : catalog) : Prop :=
  map_Forall (λ name d, cap_name d = name ∧ definition_sound d) c.

Lemma load_definitions_sound contracts table parsed c :
  catalog_sound parsed → load_definitions contracts table parsed = Ok c → catalog_sound c.
Proof.
  revert parsed. induction table as [|[name v] table IH]; intros parsed Hp H; simpl in H;
    [by inv_ok|].
  apply bind_Ok in H as (d & Hd & H). eapply IH; [|exact H].
  apply load_definition_sound in Hd as [Hs _]. by apply map_Forall_insert_2.
Qed.

Lemma catalog_from_toml_catalog_sound raw c : catalog_from_toml raw = Ok c → catalog_sound c.
Proof.
  unfold catalog_from_toml. intros H. inv_ok.
  eapply load_definitions_sound; [apply map_Forall_empty|eassumption].
Qed.

(** A loaded catalog is sound.  Every definition sits under its own name,
    has a known authentication contract, a target system and known parameter
    types; an enabled side effect declares its target resource types and a
    parameter schema, and a precondition when it needs an expected version; a
    local generator has positive quotas under the ceilings; and no declared
    read-result field normalises to a reserved one. *)
Theorem catalog_from_toml_sound raw c :
  catalog_from_toml raw = Ok c →
  map_Forall (λ name d, cap_name d = name ∧ definition_sound d) c
  ∧ map_Forall (λ _ limit, 0 < limit ≤ MAX_LOCAL_ARTIFACT_BYTES)
      (local_generation_output_limits c).
Proof.
  intros H%catalog_from_toml_catalog_sound. split; [exact H|].
  intros name limit Hl. unfold local_generation_output_limits in Hl.
  apply lookup_omap_Some in Hl as (d & Hd & Hc). destruct (H _ _ Hc) as [_ Hs].
  unfold output_limit in Hd. case_bool_decide as Hr; [|done].
  destruct Hs as (_ & _ & _ & _ & _ & Hq & _). destruct (Hq Hr) as (i & o & _ & _ & Ho & ?).
  by simplify_eq.
Qed.

Definition sample_catalog_toml : dict :=
  [("capabilities", JDict
      [("report.render", JDict
          [("enabled", JBool true); ("authentication", JStr "local");
           ("risk", JStr "local_generation"); ("target_system", JStr "report");
           ("target_resource_types", str_list ["document"]);
           ("parameter_schema", JDict [("body", JStr "string")]);
           ("max_input_bytes", JInt 1000); ("max_output_bytes", JInt 2000)])])].

Definition sample_catalog : catalog := ok_or (catalog_from_toml sample_catalog_toml) ∅.

Lemma catalog_from_toml_sound_witness :
  local_generation_output_limits sample_catalog !! "report.render" = Some 2000
  ∧ 0 < 2000 ≤ MAX_LOCAL_ARTIFACT_BYTES.
Proof.
  assert (local_generation_output_limits sample_catalog !! "report.render" = Some 2000)
    as Hl by check.
  split; [exact Hl|].
  destruct (catalog_from_toml_sound sample_catalog_toml sample_catalog) as [_ H]; [check|].
  exact (H _ _ Hl).
Defined.

(** ** Accepted actions *)

(** The contract of the catalog for an action. *)
Definition action_fits (d : CapabilityDefinition) (action : AgentAction) : Prop :=
  cap_risk d = aa_risk action
  ∧ cap_target_system d = rr_system (aa_target action)
  ∧ (cap_target_resource_types d = []
     ∨ rr_resource_type (aa_target action) ∈ cap_target_resource_types d)
  ∧ validate_parameters (aa_parameters action) (cap_parameter_schema d) = None
  ∧ (cap_risk d = LOCAL_GENERATION → ∃ limit, cap_max_input_bytes d = Some limit
       ∧ within_limits (JDict (aa_parameters action)) limit = true)
  ∧ (cap_requires_expected_version d = true →
       ∃ v, rr_expected_version (aa_target action) = Some v ∧ v ≠ "").

Lemma catalog_validate_action_fits c action require_enabled :
  (catalog_validate_action c action require_enabled).1 = true ↔
  ∃ d, c !! aa_capability action = Some d
    ∧ (require_enabled = true → cap_enabled d = true) ∧ action_fits d action.
Proof.
  unfold catalog_validate_action, catalog_definition, action_fits.
  destruct (c !! aa_capability action) as [d|] eqn:Ed; cbn [or_raise]; [|naive_solver].
  trans ((require_enabled = true → cap_enabled d = true) ∧ action_fits d action);
    [|by split; [eauto|intros (d' & [= <-] & ?)]].
  unfold action_fits.
  rewrite (and_gate _ _ _ (require_enabled = true → cap_enabled d = true))
    by (destruct require_enabled, (cap_enabled d); naive_solver).
  rewrite (and_gate _ _ _ (cap_risk d = aa_risk action))
    by by rewrite negb_false_iff, bool_decide_eq_true.
  rewrite (and_gate _ _ _ (cap_target_system d = rr_system (aa_target action)))
    by by rewrite negb_false_iff, String.eqb_eq.
  rewrite (and_gate _ _ _ (cap_target_resource_types d = []
     ∨ rr_resource_type (aa_target action) ∈ cap_target_resource_types d))
    by by rewrite andb_false_iff, !negb_false_iff, !bool_decide_eq_true.
  do 4 (apply and_iff_compat_l).
  destruct (validate_parameters _ _); [naive_solver|].
  assert (∀ m, match (if bool_decide (cap_risk d = LOCAL_GENERATION) then
              match cap_max_input_bytes d with
              | None => Some "local-generation input quota is missing"
              | Some limit =>
                  match measure_json_resources (JDict (aa_parameters action)) m limit with
                  | Err error => Some ("capability input quota exceeded: "
                                       +:+ exn_message error)
                  | Ok _ => None
                  end
              end else None) with Some _ => False | None => True end
     ↔ (cap_risk d = LOCAL_GENERATION → ∃ limit, cap_max_input_bytes d = Some limit
       ∧ within_limits (JDict (aa_parameters action)) limit = true)) as Hq.
  { intros m. case_bool_decide as Hr; [|naive_solver].
    destruct (cap_max_input_bytes d) as [limit|]; [|naive_solver].
    destruct (measure_json_resources _ m limit) as [u|e] eqn:E.
    - apply measure_spec in E as [E _]. naive_solver.
    - split; [done|]. intros (l & [= <-] & Hw); [done|].
      assert (measure_json_resources (JDict (aa_parameters action)) m limit
        = Ok (usage_of (JDict (aa_parameters action)))) by by apply measure_spec.
      congruence. }
  specialize (Hq (aa_capability action +:+ " input")).
  rewrite <- Hq. destruct (if bool_decide _ then _ else _) as [m|]; [naive_solver|].
  rewrite (last_gate _ _ _ (cap_requires_expected_version d = true →
       ∃ v, rr_expected_version (aa_target action) = Some v ∧ v ≠ "")); [naive_solver|].
  destruct (cap_requires_expected_version d); [|naive_solver].
  destruct (rr_expected_version (aa_target action)) as [v|]; simpl; [|naive_solver].
  destruct (String.eqb_spec v ""); naive_solver.
Qed.

(** [CapabilityCatalog.validate_action] accepts an action exactly when
    its capability is registered (and enabled, when required) and the action
    fits the definition: same risk, target system and type, parameters that pass
    the schema, input within the quota for local generation, and a non-empty
    expected version where one is required. *)
Theorem catalog_validate_action_iff c action require_enabled :
  (catalog_validate_action c action require_enabled).1 = true ↔
  ∃ d, c !! aa_capability action = Some d
    ∧ (require_enabled = true → cap_enabled d = true) ∧ action_fits d action.
Proof. apply catalog_validate_action_fits. Qed.

(** An enabled side effect runs on declared input only.  When a loaded
    catalog accepts an enabled action above read risk, the action's target type
    is one the definition lists and its parameters satisfy the definition's
    closed schema: nothing undeclared reaches the connector. *)
Theorem accepted_write_is_declared raw c action :
  catalog_from_toml raw = Ok c →
  (catalog_validate_action c action true).1 = true → aa_risk action ≠ READ_ONLY →
  ∃ d, c !! aa_capability action = Some d
    ∧ rr_resource_type (aa_target action) ∈ cap_target_resource_types d
    ∧ closed_schema (aa_parameters action) (cap_parameter_schema d).
Proof.
  intros Hc%catalog_from_toml_catalog_sound
    (d & Hd & He & Hr & _ & Ht & Hp & _)%catalog_validate_action_fits Hro.
  destruct (Hc _ _ Hd) as (_ & _ & _ & _ & Hs & _).
  rewrite <- Hr in Hro. destruct (Hs (He eq_refl) Hro) as [Hty Hsch].
  exists d. split_and!; [done| |by apply validate_parameters_closed].
  by destruct Ht.
Qed.

Definition render_action : AgentAction :=
  mk_AgentAction "report.render" (mk_ResourceRef "report" "document" "weekly" None)
    [("body", JStr "text")] LOCAL_GENERATION DIRECT_USER false "render" "weekly report"
    INTERNAL [] 9.

Lemma accepted_write_is_declared_witness :
  ∃ d, sample_catalog !! "report.render" = Some d
    ∧ closed_schema [("body", JStr "text")] (cap_parameter_schema d).
Proof.
  destruct (accepted_write_is_declared sample_catalog_toml sample_catalog render_action)
    as (d & Hd & _ & Hs); [check|check|discriminate|].
  exists d. split; [exact Hd|exact Hs].
Defined.

(** ** Live connectors *)

(** The live connector is the bound one: code, endpoint, CA and network. *)
Definition network_matches (c : ConnectorView) (b : ConnectorExecutionBinding) : Prop :=
  cv_network_profile_name c = ceb_network_profile_name b
  ∧ cv_proxy_url c = ceb_proxy_origin b
  ∧ (legacy_direct b = false →
     cv_network_profile_sha256 c = ceb_network_profile_sha256 b).

Definition connector_is (c : ConnectorView) (b : ConnectorExecutionBinding) : Prop :=
  cv_implementation c = Some (ceb_implementation b)
  ∧ cv_base_url c = Some (ceb_resolved_base_url b)
  ∧ resolved_origin (ceb_resolved_base_url b) = Some (ceb_resolved_origin b)
  ∧ cv_ca_bundle c = ceb_ca_bundle_path b
  ∧ cv_ca_bundle_sha256 c = ceb_ca_bundle_sha256 b
  ∧ network_matches c b.

Lemma network_drifted_matches c b : network_drifted c b = false ↔ network_matches c b.
Proof.
  unfold network_drifted, network_matches.
  destruct (legacy_direct b) eqn:E.
  - unfold legacy_direct in E.
    apply andb_true_iff in E as [[En%String.eqb_eq _]%andb_true_iff Ep].
    rewrite En. destruct (ceb_proxy_origin b); [done|].
    rewrite orb_false_iff, negb_false_iff, String.eqb_eq.
    destruct (cv_proxy_url c); naive_solver.
  - rewrite !orb_false_iff, !negb_false_iff, String.eqb_eq, !bool_decide_eq_true. tauto.
Qed.

Lemma origin_needs_text : resolved_origin "" = None.
Proof. by vm_compute. Qed.

Lemma binding_error_None c b :
  connector_execution_binding_error c b = None ↔ connector_is c b.
Proof.
  unfold connector_execution_binding_error, connector_is.
  rewrite <- network_drifted_matches.
  destruct (bool_decide_reflect (cv_implementation c = Some (ceb_implementation b)));
    [|naive_solver]. cbn [negb].
  destruct (String.eqb_spec (default "" (cv_base_url c)) "") as [E|E].
  { split; [done|]. intros (_ & Hu & Ho & _). rewrite Hu in E. simpl in E.
    by rewrite E, origin_needs_text in Ho. }
  destruct (bool_decide_reflect (cv_base_url c = Some (ceb_resolved_base_url b)));
    [|naive_solver]. cbn [negb].
  destruct (resolved_origin (ceb_resolved_base_url b)) as [o|]; [|naive_solver].
  destruct (String.eqb_spec (ceb_resolved_origin b) o); [|naive_solver]. cbn [negb].
  destruct (bool_decide_reflect (cv_ca_bundle c = ceb_ca_bundle_path b)),
    (bool_decide_reflect (cv_ca_bundle_sha256 c = ceb_ca_bundle_sha256 b));
    try naive_solver.
  cbn [negb orb]. destruct (network_drifted c b); naive_solver.
Qed.

(** The bound credentials satisfy the definition's contract. *)
Definition authority_ok (d : CapabilityDefinition) (c : ConnectorView)
    (binding : option ConnectorExecutionBinding) : Prop :=
  let mode := match binding with
              | Some b => ceb_authentication_mode b
              | None => if (cap_authentication d =? "local_git")%string
                        then "local_git" else "local"
              end in
  (∃ modes, assoc (cap_authentication d) AUTHENTICATION_MODES = Some modes ∧ mode ∈ modes)
  ∧ (mode ∈ ["none"; "local"; "local_git"]
     ∨ ∃ b, binding = Some b ∧ is_Some (ceb_credential_identity b))
  ∧ (∀ s, s ∈ cap_required_scopes d → ∃ b, binding = Some b ∧ s ∈ ceb_credential_scopes b)
  ∧ (cap_reversible d = true → cv_compensating c = true).

Lemma missing_scopes (required observed : list string) :
  sort_by str_le (remove_dups (List.filter (λ s, negb (bool_decide (s ∈ observed))) required))
  = [] ↔ ∀ s : string, s ∈ required → s ∈ observed.
Proof.
  rewrite sort_by_nil. split.
  - intros E s Hs. destruct (decide (s ∈ observed)) as [|Hn]; [done|].
    assert (s ∈ remove_dups (List.filter (λ s, negb (bool_decide (s ∈ observed))) required))
      as Hin; [|rewrite E in Hin; by apply elem_of_nil in Hin].
    apply elem_of_remove_dups, list_elem_of_In, filter_In.
    rewrite <- list_elem_of_In. split; [done|]. by rewrite bool_decide_false.
  - intros H. assert (List.filter (λ s, negb (bool_decide (s ∈ observed))) required = [])
      as ->; [|done].
    apply filter_nil, Forall_forall. intros s Hs. by rewrite bool_decide_true by auto.
Qed.

Lemma authority_error_None d c binding capability :
  authority_error d c binding capability = None ↔ authority_ok d c binding.
Proof.
  unfold authority_error, authority_ok. cbv zeta.
  set (mode := match binding with Some b => _ | None => _ end).
  set (scopes := match binding with Some b => ceb_credential_scopes b | None => [] end).
  assert (mode ∈ default [] (assoc (cap_authentication d) AUTHENTICATION_MODES) ↔
    ∃ modes, assoc (cap_authentication d) AUTHENTICATION_MODES = Some modes ∧ mode ∈ modes)
    as <-.
  { destruct (assoc _ _) as [ms|]; simpl; [naive_solver|].
    rewrite elem_of_nil. naive_solver. }
  assert ((∀ s, s ∈ cap_required_scopes d → ∃ b, binding = Some b ∧ s ∈ ceb_credential_scopes b)
    ↔ ∀ s, s ∈ cap_required_scopes d → s ∈ scopes) as ->.
  { subst scopes. destruct binding as [b|]; [naive_solver|].
    setoid_rewrite elem_of_nil. naive_solver. }
  rewrite <- missing_scopes. clearbody mode scopes.
  destruct (bool_decide_reflect (mode ∈ default [] (assoc (cap_authentication d)
    AUTHENTICATION_MODES))); [|naive_solver]. cbn [negb].
  assert (is_someb (binding ≫= ceb_credential_identity) = true ↔
    ∃ b, binding = Some b ∧ is_Some (ceb_credential_identity b)) as <-.
  { destruct binding as [b|]; [|split; [done|by intros (? & ? & _)]]. cbn [mbind option_bind].
    destruct (ceb_credential_identity b) as [i|] eqn:Ei.
    - split; [|done]. intros _. exists b. split; [done|]. by exists i.
    - split; [done|]. intros (? & [= <-] & [i Hi]). congruence. }
  destruct (bool_decide_reflect (mode ∈ ["none"; "local"; "local_git"])),
    (is_someb (binding ≫= ceb_credential_identity)); cbn [negb andb];
    try (split; [done|intros (_ & [?|?] & _); done]);
    (case_bool_decide; cbn [negb]; [|naive_solver]);
    destruct (cap_reversible d), (cv_compensating c); naive_solver.
Qed.

(** Live execution uses the approved connector.  Outside mock mode,
    [validate_execution] accepts a connector exactly when its capability is
    registered; it is the connector the plan was bound to (same authentication
    mode, configuration, implementation, endpoint, origin, CA and network
    profile); and the bound credential has an allowed mode, an identity where
    one is needed and every required scope, with compensation implemented for a
    reversible capability. *)
Theorem validate_execution_iff self action c binding connector_mode :
  connector_mode ≠ "mock" →
  (∃ r, validate_execution self action c binding connector_mode = Ok (true, r)) ↔
  ∃ d, self !! aa_capability action = Some d
    ∧ (∀ b, binding = Some b →
         cv_authentication_mode c = Some (ceb_authentication_mode b)
         ∧ cv_config_identity c = Some (ceb_config_identity_sha256 b) ∧ connector_is c b)
    ∧ authority_ok d c binding.
Proof.
  intros Hm%String.eqb_neq. unfold validate_execution, catalog_definition. rewrite Hm.
  destruct (self !! aa_capability action) as [d|]; cbn [or_raise mbind result_bind];
    [|naive_solver].
  assert (match binding with Some b => binding_drift c b (aa_capability action) | None => None end
    = None ↔ ∀ b, binding = Some b →
         cv_authentication_mode c = Some (ceb_authentication_mode b)
         ∧ cv_config_identity c = Some (ceb_config_identity_sha256 b) ∧ connector_is c b) as Hd.
  { destruct binding as [b|]; [|naive_solver]. unfold binding_drift.
    setoid_rewrite <- binding_error_None.
    case_bool_decide; [|naive_solver]. case_bool_decide; [|naive_solver]. cbn [negb].
    destruct (connector_execution_binding_error c b) eqn:E; [|naive_solver].
    split; [done|]. intros HF. destruct (HF b eq_refl) as (_ & _ & HF'). congruence. }
  destruct (match binding with Some b => _ | None => None end) as [e|].
  { split; [naive_solver|]. intros (d' & [= <-] & HF & _). by apply Hd in HF. }
  destruct (authority_error d c binding (aa_capability action)) eqn:Ea.
  - split; [naive_solver|]. intros (d' & [= <-] & _ & Ho).
    apply (authority_error_None _ _ _ (aa_capability action)) in Ho. congruence.
  - apply authority_error_None in Ea. split; [|eauto].
    intros _. exists d. split_and!; [done|by apply Hd|done].
Qed.

Definition local_connector : ConnectorView :=
  mk_ConnectorView None None None None None None "direct" None None false.

Lemma validate_execution_iff_witness :
  ∃ d, sample_catalog !! "report.render" = Some d ∧ authority_ok d local_connector None.
Proof.
  destruct (proj1 (validate_execution_iff sample_catalog render_action local_connector None
    "live" ltac:(discriminate))) as (d & Hd & _ & Ha).
  - eexists. vm_compute. reflexivity.
  - exists d. split; [exact Hd|exact Ha].
Defined.
