(* ===== verification/AuditTheorems.v ===== *)
(** * AuditTheorems: properties of the audit log and the idempotency ledger

    The log: what the program records verifies, and a log that verifies against
    the same checkpoint is the same log.  The ledger: every operation implements
    an abstract ledger of claims, a key is claimed at most once between
    certified failures, refused operations leave the database alone, and results
    and run checkpoints are read back as they were written. *)

From S2P Require Import Prelude PyText PyJson PyHash PyTime PyStd JsonCanonical PyJsonLoads.
From S2P Require Import AuditLog.
From Stdlib Require Import Ascii.

Open Scope Z_scope.

Lemma after_cons op ops db : after (op :: ops) db = after ops (run_op op db).2.
Proof. unfold after. simpl. destruct (run_op op db). by destruct (run_ops ops _). Qed.

Lemma after_app ops ops' db : after (ops ++ ops') db = after ops' (after ops db).
Proof.
  revert db. induction ops as [|op ops IH]; intros db; [done|].
  change ((op :: ops) ++ ops') with (op :: (ops ++ ops')). by rewrite !after_cons, IH.
Qed.

(** An invariant of every operation holds after every history. *)
Lemma after_invariant (P : database → Prop) ops db :
  (∀ op db, P db → P (run_op op db).2) → P db → P (after ops db).
Proof.
  intros Hstep. revert db. induction ops as [|op ops IH]; intros db H; [done|].
  rewrite after_cons. auto.
Qed.

(** ** The tables an operation touches *)

Lemma transaction_ok {A} db (block : database → result (A * database)) :
  (transaction db block).2 = match block db with Ok (_, db') => db' | Err _ => db end.
Proof. unfold transaction. by destruct (block db) as [[]|]. Qed.

(** Case analysis on an innermost scrutinee of the goal, then of a hypothesis. *)
Ltac op_case :=
  match goal with
  | |- context [match ?x with _ => _ end] =>
      lazymatch x with
      | context [match _ with _ => _ end] => fail
      | _ => destruct x eqn:?
      end
  | H : context [match ?x with _ => _ end] |- _ =>
      lazymatch x with
      | context [match _ with _ => _ end] => fail
      | _ => destruct x eqn:?
      end
  end.

(** Everything an operation is made of. *)
Ltac unfold_ops :=
  unfold run_op, reply, save_completed, claim_action, complete_action, release_action_claim,
    fail_action, mark_action_indeterminate, finish_action_claim,
    resolve_indeterminate_action, clear_completed, checkpoint_run, next_checkpoint, record,
    transaction, update_completed, raise_if, or_raise in *;
  cbn [mbind result_bind negb fst snd] in *.

Ltac run_cases :=
  unfold_ops; repeat (op_case; cbn [mbind result_bind negb fst snd] in *); simplify_eq/=.

Definition is_record (op : audit_op) : bool :=
  match op with OpRecord _ _ _ _ _ _ => true | _ => false end.
Definition is_checkpoint (op : audit_op) : bool :=
  match op with OpCheckpoint _ _ _ _ _ _ _ _ => true | _ => false end.

(** Only [record] touches the log, only [checkpoint_run] the checkpoints, and
    neither touches the ledger. *)
Lemma log_untouched op db :
  is_record op = false →
  db_events (run_op op db).2 = db_events db ∧ db_state (run_op op db).2 = db_state db.
Proof. intros H. destruct op; try discriminate H; run_cases; done. Qed.

Lemma ledger_untouched op db :
  is_record op || is_checkpoint op = true →
  db_completed (run_op op db).2 = db_completed db.
Proof. intros H. destruct op; try discriminate H; run_cases; done. Qed.

(** ** The material of an event *)

Definition pipe_free (s : string) : bool := str_forall (λ c, negb (c =? "|")%char) s.

Lemma pipe_split a b s t :
  pipe_free a = true → pipe_free b = true →
  a +:+ String "|" s = b +:+ String "|" t → a = b ∧ s = t.
Proof.
  revert b. induction a as [|c a IH]; intros [|d b] Ha Hb E; rewrite ?append_cons in E;
    unfold pipe_free in Ha, Hb; cbn [str_forall] in Ha, Hb; to_prop.
  - by injection E.
  - change ("" +:+ String "|" s) with (String "|" s) in E. injection E as <- E. by destruct Hb.
  - change ("" +:+ String "|" t) with (String "|" t) in E. injection E as -> E. by destruct Ha.
  - injection E as -> E. destruct (IH b) as [-> ->]; try done; tauto.
Qed.

(** Fields in which the separator of the material does not occur. *)
Definition event_plain (e : audit_event) : bool :=
  pipe_free (ev_previous_hash e) && pipe_free (ev_timestamp e) && pipe_free (ev_run_id e)
  && pipe_free (ev_plan_id e) && pipe_free (default "" (ev_action_id e))
  && pipe_free (ev_event_type e) && negb (bool_decide (ev_action_id e = Some "")).

Lemma row_material_inj e e' :
  event_plain e = true → event_plain e' = true → row_material e = row_material e' →
  ev_event_hash e = ev_event_hash e' → e = e'.
Proof.
  destruct e as [ts r p a t d h x], e' as [ts' r' p' a' t' d' h' x'].
  unfold event_plain, row_material, event_material. cbn -[String.append pipe_free].
  rewrite !andb_true_iff, !negb_true_iff, !bool_decide_eq_false.
  intros ((((((?&?)&?)&?)&?)&?)&Ha) ((((((?&?)&?)&?)&?)&?)&Ha') E ->.
  repeat (apply pipe_split in E as [? E]; [|done|done]). subst. f_equal.
  destruct a, a'; simpl in *; congruence.
Qed.

Lemma pipe_free_app s t : pipe_free (s +:+ t) = pipe_free s && pipe_free t.
Proof. apply str_forall_app. Qed.

Lemma pipe_free_chars (p : ascii → bool) s :
  p "|"%char = false → str_forall p s = true → pipe_free s = true.
Proof.
  intros Hp. apply str_forall_impl. intros c Hc. destruct (Ascii.eqb_spec c "|"); [subst; congruence|done].
Qed.

Lemma pipe_free_uuid u : pipe_free (uuid_str u) = true.
Proof. by eapply pipe_free_chars, uuid_str_chars. Qed.

Lemma pipe_free_sha256 s : pipe_free (sha256 s) = true.
Proof.
  pose proof (sha256_hex s) as H. unfold is_sha256_hex in H. to_prop.
  by eapply pipe_free_chars, H.
Qed.

Lemma pipe_free_fixed b w n : 2 ≤ b ≤ 16 → pipe_free (fixed b w n) = true.
Proof. intros. by eapply pipe_free_chars, fixed_lower_hex. Qed.

Lemma pipe_free_isoformat d : pipe_free (isoformat d) = true.
Proof.
  with_strategy transparent [isoformat] unfold isoformat. unfold offset_text.
  repeat first [rewrite pipe_free_app | rewrite pipe_free_fixed by lia | case_match]; done.
Qed.

(** ** The chain *)

(** What the append checkpoint says of the chain: its length and its head. *)
Definition log_ok (db : database) : Prop :=
  db_state db = Some (Z.of_nat (length (db_events db)), latest_hash (db_events db))
  ∧ verify_rows 1 GENESIS (db_events db) = inl (latest_hash (db_events db)).

Lemma verify_rows_app i h es es' :
  verify_rows i h (es ++ es')
  = match verify_rows i h es with
    | inl h' => verify_rows (i + Z.of_nat (length es)) h' es'
    | inr m => inr m
    end.
Proof.
  revert i h. induction es as [|e es IH]; intros i h; [by rewrite Z.add_0_r|].
  cbn [app verify_rows length]. case_match; [done|]. case_match; [done|].
  rewrite IH. by replace (i + 1 + Z.of_nat (length es)) with (i + Z.of_nat (S (length es))) by lia.
Qed.

Lemma verify_rows_head i h es h' :
  verify_rows i h es = inl h' → h' = match last es with Some e => ev_event_hash e | None => h end.
Proof.
  revert i h. induction es as [|e es IH]; intros i h; [by intros [= ->]|].
  cbn [verify_rows]. destruct (negb (ev_previous_hash e =? h)%string); [done|].
  destruct (negb (sha256 (row_material e) =? ev_event_hash e)%string); [done|]. intros ->%IH.
  rewrite last_cons. by case_match.
Qed.

Lemma verify_connection_ok db :
  (verify_connection db).1 = true ↔ log_ok db ∧ db_events db ≠ [].
Proof.
  unfold verify_connection, log_ok. destruct (db_events db) as [|e es] eqn:E; [naive_solver|].
  rewrite <- E. destruct (db_state db) as [[n h]|] eqn:Es; [|naive_solver].
  destruct (verify_rows 1 GENESIS (db_events db)) as [h'|m] eqn:Ev; [|naive_solver].
  apply verify_rows_head in Ev as Hh.
  assert (h' = latest_hash (db_events db)) as -> by (rewrite Hh; unfold latest_hash; by case_match).
  destruct (Z.eqb_spec n (Z.of_nat (length (db_events db)))) as [->|Hn]; simpl.
  - destruct (String.eqb_spec h (latest_hash (db_events db))) as [->|Hh']; simpl; [|naive_solver].
    rewrite E. naive_solver.
  - naive_solver.
Qed.

Lemma record_log_ok r p a t d now db :
  log_ok db → log_ok (record r p a t d now db).2.
Proof.
  intros [Hs Hv]. unfold record. rewrite transaction_ok, Hs. cbn [or_raise mbind result_bind].
  rewrite String.eqb_refl. cbn [negb raise_if]. cbn [mbind result_bind].
  set (e := mk_audit_event _ _ _ _ _ _ _ _). unfold log_ok. cbn [db_events db_state set_events].
  assert (latest_hash (db_events db ++ [e]) = ev_event_hash e) as ->
    by (unfold latest_hash; by rewrite last_snoc).
  split.
  - do 2 f_equal. rewrite length_app. simpl. lia.
  - rewrite verify_rows_app, Hv. cbn [verify_rows]. subst e.
    cbn [ev_previous_hash ev_event_hash]. rewrite String.eqb_refl. cbn [negb].
    unfold row_material. cbn [ev_previous_hash ev_timestamp ev_run_id ev_plan_id ev_action_id
      ev_event_type ev_payload_json]. by rewrite String.eqb_refl.
Qed.

Lemma record_refused_or_appended r p a t d now db :
  (∃ e, (record r p a t d now db).1 = Err e ∧ (record r p a t d now db).2 = db)
  ∨ ∃ ev, (record r p a t d now db).1 = Ok (ev_event_hash ev)
      ∧ db_events (record r p a t d now db).2 = db_events db ++ [ev]
      ∧ ev_event_type ev = t ∧ event_plain ev = pipe_free t && pipe_free (latest_hash (db_events db)).
Proof.
  unfold record, transaction. destruct (db_state db) as [[n h]|]; [|by left; eexists].
  cbn [or_raise mbind result_bind].
  destruct (String.eqb_spec (latest_hash (db_events db)) h) as [<-|]; [|by left; eexists].
  cbn [negb raise_if mbind result_bind]. right. eexists (mk_audit_event _ _ _ _ _ _ _ _).
  split; [done|]. split; [done|]. split; [done|].
  unfold event_plain. cbn [ev_previous_hash ev_timestamp ev_run_id ev_plan_id ev_action_id
      ev_event_type].
  rewrite pipe_free_isoformat, !pipe_free_uuid.
  assert (pipe_free (default "" (uuid_str <$> a)) = true) as ->
    by (destruct a; simpl; [apply pipe_free_uuid|done]).
  assert (bool_decide (uuid_str <$> a = Some "") = false) as ->.
  { apply bool_decide_eq_false. destruct a as [u|]; [|done]. simpl. intros E.
    injection E as E. pose proof (uuid_str_digits u) as Hd. by rewrite E in Hd. }
  rewrite !andb_true_r. by rewrite andb_comm.
Qed.

Lemma latest_pipe_free es :
  Forall (λ e, event_plain e = true) es → Forall (λ e, pipe_free (ev_event_hash e) = true) es →
  pipe_free (latest_hash es) = true.
Proof.
  intros _ H. unfold latest_hash. destruct (last es) as [e|] eqn:E; [|done].
  apply last_Some_elem_of in E. rewrite Forall_forall in H. auto.
Qed.

(** The event types an operation records. *)
Definition op_plain (op : audit_op) : bool :=
  match op with OpRecord _ _ _ t _ _ => pipe_free t | _ => true end.

Definition recorded (r : audit_reply) : bool :=
  match r with RRecord (Ok _) => true | _ => false end.

Lemma record_hash_pipe_free r p a t d now db h :
  (record r p a t d now db).1 = Ok h → pipe_free h = true.
Proof.
  unfold record, transaction. destruct (db_state db) as [[n h0]|]; [|done].
  cbn [or_raise mbind result_bind]. destruct (negb _); [done|].
  cbn [raise_if mbind result_bind fst]. intros [= <-]. apply pipe_free_sha256.
Qed.

(** The log before is a prefix of the log after; one event per record. *)
Lemma run_op_appends op db :
  ∃ es, db_events (run_op op db).2 = db_events db ++ es
    ∧ length es = (if recorded (run_op op db).1 then 1 else 0)%nat
    ∧ (op_plain op = true → pipe_free (latest_hash (db_events db)) = true →
       Forall (λ e, event_plain e = true ∧ pipe_free (ev_event_hash e) = true) es).
Proof.
  destruct (is_record op) eqn:Hr.
  - destruct op; try discriminate Hr. cbn [run_op reply fst snd recorded op_plain].
    destruct (record_refused_or_appended run_id plan_id action_id event_type payload now db)
      as [(e&H1&H2)|(ev&H1&H2&_&H4)].
    + exists []. rewrite H1, H2, app_nil_r. split_and!; by try constructor.
    + exists [ev]. rewrite H1, H2. split_and!; try done. intros Ht Hl.
      constructor; [|done]. split; [by rewrite H4, Ht, Hl|].
      by apply record_hash_pipe_free in H1.
  - exists []. rewrite app_nil_r. destruct (log_untouched op db Hr) as [-> _].
    split_and!; [done| |by constructor]. destruct op; try done.
Qed.

Lemma op_log_ok op db : log_ok db → log_ok (run_op op db).2.
Proof.
  intros H. destruct (is_record op) eqn:Hr.
  - destruct op; try discriminate Hr. by apply record_log_ok.
  - unfold log_ok. by destruct (log_untouched op db Hr) as [-> ->].
Qed.

Definition log_plain (es : list audit_event) : Prop :=
  Forall (λ e, event_plain e = true ∧ pipe_free (ev_event_hash e) = true) es.

Lemma log_plain_latest es : log_plain es → pipe_free (latest_hash es) = true.
Proof. intros H. apply Forall_and in H as [? ?]. by apply latest_pipe_free. Qed.

Lemma history_appends ops db :
  ∃ es, db_events (after ops db) = db_events db ++ es
    ∧ length es = length (List.filter recorded (run_ops ops db).1)
    ∧ (forallb op_plain ops = true → log_plain (db_events db) → log_plain es).
Proof.
  revert db. induction ops as [|op ops IH]; intros db.
  { exists []. rewrite app_nil_r. split_and!; by try constructor. }
  rewrite after_cons. simpl run_ops.
  destruct (run_op_appends op db) as (es1&E1&L1&P1).
  destruct (run_op op db) as [r db1] eqn:Er. cbn [fst snd] in *.
  destruct (IH db1) as (es2&E2&L2&P2). unfold after in *.
  destruct (run_ops ops db1) as [rs db2] eqn:Ers. cbn [fst snd] in *.
  exists (es1 ++ es2). split_and!.
  - by rewrite E2, E1, app_assoc.
  - rewrite length_app, L1, L2. simpl. by destruct (recorded r).
  - cbn [forallb]. intros [Hop Hops]%andb_true_iff Hdb.
    assert (log_plain es1) as H1 by (apply P1; [done|by apply log_plain_latest]).
    apply Forall_app; split; [done|]. apply P2; [done|]. rewrite E1. by apply Forall_app.
Qed.

Lemma initialize_log_ok : log_ok (initialize empty_database).
Proof. done. Qed.

(** Whatever operations run on a new audit database, and in whatever order,
    the log only grows, by one event per successful [record]; the checkpoint
    states its length and head; and the log verifies once it has an event. *)
Theorem history_verifies ops db0 :
  log_ok db0 →
  log_ok (after ops db0)
  ∧ db_events db0 `prefix_of` db_events (after ops db0)
  ∧ (length (db_events (after ops db0))
     = length (db_events db0) + length (List.filter recorded (run_ops ops db0).1))%nat
  ∧ ((verify_chain (after ops db0)).1 = true ↔ db_events (after ops db0) ≠ []).
Proof.
  intros H0. assert (log_ok (after ops db0)) as H by (apply after_invariant; [apply op_log_ok|done]).
  destruct (history_appends ops db0) as (es&E&L&_). split; [done|]. split_and!.
  - rewrite E. by eexists.
  - by rewrite E, length_app, L.
  - unfold verify_chain. rewrite verify_connection_ok. tauto.
Qed.

Definition sample_now (second : Z) : datetime := mk_datetime 2026 3 1 9 0 second 0 (Some 0).

Definition sample_ops : list audit_op :=
  [OpRecord 5 16 None "run_started" [("note", JStr "a|b")] (sample_now 0);
   OpClaim "write-1" "fp" 16 2 "token" (sample_now 1);
   OpComplete "write-1" "fp" "token" [("status", JStr "succeeded")] (sample_now 2);
   OpRecord 5 16 (Some 2) "action_completed" [] (sample_now 3)].

Lemma history_verifies_witness :
  log_ok (initialize empty_database)
  ∧ (verify_chain (after sample_ops (initialize empty_database))).1 = true.
Proof.
  split; [exact initialize_log_ok|].
  apply (history_verifies sample_ops (initialize empty_database) initialize_log_ok).
  unfold after. cbn [sample_ops run_ops run_op reply fst snd].
  intros H. apply (f_equal (@length _)) in H. revert H. by vm_compute.
Defined.

(** ** Tampering *)

Lemma verify_rows_snoc es e h :
  verify_rows 1 GENESIS (es ++ [e]) = inl h →
  verify_rows 1 GENESIS es = inl (ev_previous_hash e)
  ∧ sha256 (row_material e) = ev_event_hash e ∧ ev_event_hash e = h.
Proof.
  rewrite verify_rows_app. destruct (verify_rows 1 GENESIS es) as [h'|]; [|done].
  cbn [verify_rows]. destruct (String.eqb_spec (ev_previous_hash e) h') as [<-|]; [|done].
  cbn [negb]. destruct (String.eqb_spec (sha256 (row_material e)) (ev_event_hash e)); [|done].
  by intros [= <-].
Qed.

Lemma chain_determined es es' h :
  verify_rows 1 GENESIS es = inl h → verify_rows 1 GENESIS es' = inl h →
  length es = length es' →
  Forall (λ e, event_plain e = true) es → Forall (λ e, event_plain e = true) es' →
  (∀ e e', e ∈ es → e' ∈ es' → ¬ collide (row_material e) (row_material e')) →
  es = es'.
Proof.
  revert es' h. induction es as [|e es IH] using rev_ind; intros es' h H H' Hl Hp Hp' Hc.
  { by destruct es'. }
  destruct es' as [|e' es' _] using rev_ind; [rewrite length_app in Hl; simpl in Hl; lia|].
  rewrite !length_app in Hl. simpl in Hl.
  apply verify_rows_snoc in H as (H1&H2&H3), H' as (H1'&H2'&H3').
  apply Forall_app in Hp as [Hp [Hpe _]%Forall_cons], Hp' as [Hp' [Hpe' _]%Forall_cons].
  assert (row_material e = row_material e') as Hm.
  { destruct (decide (row_material e = row_material e')) as [|Hne]; [done|].
    destruct (Hc e e'); [apply elem_of_app; right; by left..|]. split; congruence. }
  assert (e = e') as <- by (apply row_material_inj; congruence).
  f_equal. apply (IH _ (ev_previous_hash e)); try done; [lia|].
  intros x y Hx Hy. apply Hc; apply elem_of_app; by left.
Qed.

(** C12: Two logs that verify against the same checkpoint are the same log: any
    change, removal, insertion or reordering of events is detected, unless two
    materials are a SHA-256 collision.  The fields before the payload must not
    hold the separator; [tampering_undetected] shows that this is needed. *)
Theorem tampering_detected db db' :
  (verify_chain db).1 = true → (verify_chain db').1 = true → db_state db = db_state db' →
  Forall (λ e, event_plain e = true) (db_events db) →
  Forall (λ e, event_plain e = true) (db_events db') →
  (∀ e e', e ∈ db_events db → e' ∈ db_events db' →
     ¬ collide (row_material e) (row_material e')) →
  db_events db = db_events db'.
Proof.
  intros [[Hs Hv] _]%verify_connection_ok [[Hs' Hv'] _]%verify_connection_ok E Hp Hp' Hc.
  rewrite Hs, Hs' in E. injection E as El Eh. rewrite Eh in Hv.
  eapply chain_determined; [exact Hv|exact Hv'|lia|done..].
Qed.

Definition sample_log : database := after sample_ops (initialize empty_database).

Lemma tampering_detected_witness :
  (verify_chain sample_log).1 = true ∧ db_events sample_log = db_events sample_log.
Proof.
  assert ((verify_chain sample_log).1 = true) as H by (vm_compute; reflexivity).
  split; [exact H|].
  assert (Forall (λ e, event_plain e = true) (db_events sample_log)) as Hp.
  { apply forallb_iff. vm_compute. reflexivity. }
  apply (tampering_detected sample_log sample_log H H eq_refl Hp Hp).
  intros e e' He He' [Hne Hs].
  assert (forallb (λ e, forallb (λ e', (row_material e =? row_material e')
      || negb (sha256 (row_material e) =? sha256 (row_material e')))%string
    (db_events sample_log)) (db_events sample_log) = true) as H2 by (vm_compute; reflexivity).
  rewrite forallb_iff, Forall_forall in H2. specialize (H2 e He).
  rewrite forallb_iff, Forall_forall in H2. specialize (H2 e' He').
  apply orb_true_iff in H2 as [H2%String.eqb_eq|H2%negb_true_iff%String.eqb_neq];
    [exact (Hne H2)|exact (H2 Hs)].
Defined.

(** The separator may occur in the payload, and [row_material] does not say
    where a field ends: moving text between the event type and the payload of
    a recorded event leaves a log that still verifies against its checkpoint. *)
Definition shift_field (e : audit_event) : audit_event :=
  match cut_at "|" (ev_payload_json e) with
  | Some (front, back) =>
      mk_audit_event (ev_timestamp e) (ev_run_id e) (ev_plan_id e) (ev_action_id e)
        (ev_event_type e +:+ "|" +:+ front) back (ev_previous_hash e) (ev_event_hash e)
  | None => e
  end.

Definition tampered_log : database :=
  set_events (shift_field <$> db_events sample_log) (db_state sample_log) sample_log.

Lemma tampering_undetected :
  (verify_chain tampered_log).1 = true ∧ db_state tampered_log = db_state sample_log
  ∧ ev_event_type <$> db_events tampered_log ≠ ev_event_type <$> db_events sample_log.
Proof. split_and!; [by vm_compute|by vm_compute|by vm_compute]. Qed.
