(* ===== verification/LedgerTheorems.v ===== *)
(** * LedgerTheorems: properties of the idempotency ledger and run checkpoints

    The abstract ledger [entry] says what a claim means; every operation of
    [Audit] implements it.  A key is claimed again only after its claim was
    certified as failed or cleared, a refused operation changes nothing, and
    outcomes and checkpoints are read back as written. *)

From S2P Require Import Prelude PyText PyJson PyHash PyTime PyStd JsonCanonical PyJsonLoads.
From S2P Require Import AuditLog AuditTheorems.
From Stdlib Require Import Ascii.

Open Scope Z_scope.

(** ** The abstract ledger *)

(** What the ledger knows of a key: the fingerprint the key is bound to, and a
    live claim or a settled outcome. *)
Inductive entry : Type :=
  | Held (fp token : string)
  | Done (fp outcome : string)
  | Failed (fp outcome : string)
  | Unsettled (fp outcome : string).

Abbreviation ledger := (gmap string entry).

Definition entry_fp (e : entry) : string :=
  match e with Held fp _ | Done fp _ | Failed fp _ | Unsettled fp _ => fp end.

Inductive ledger_reply : Type :=
  | LClaim (c : IdempotencyClaim)
  | LDone
  | LRefused
  | LReleased (b : bool)
  | LOther.

Definition spec_claim (l : ledger) (key fp token : string) : ledger_reply * ledger :=
  match l !! key with
  | None => (LClaim (mk_IdempotencyClaim CLAIM_CLAIMED (Some token) None None),
             <[key := Held fp token]> l)
  | Some e =>
      if negb (entry_fp e =? fp)%string then (LClaim (claim_of CLAIM_CONFLICT), l) else
      match e with
      | Held _ _ => (LClaim (claim_of CLAIM_IN_PROGRESS), l)
      | Done _ r => (LClaim (mk_IdempotencyClaim CLAIM_COMPLETED None (idempotency_result r) None), l)
      | Unsettled _ r =>
          (LClaim (mk_IdempotencyClaim CLAIM_INDETERMINATE None (idempotency_result r) None), l)
      | Failed _ r =>
          (LClaim (mk_IdempotencyClaim CLAIM_CLAIMED (Some token) (idempotency_result r)
             (Some CLAIM_FAILED)), <[key := Held fp token]> l)
      end
  end.

(** The holder of a claim settles it. *)
Definition spec_settle (l : ledger) (key fp token : string) (e : entry) : bool * ledger :=
  match l !! key with
  | Some (Held fp' token') =>
      if (fp' =? fp)%string && (token' =? token)%string then (true, <[key := e]> l) else (false, l)
  | _ => (false, l)
  end.

Definition done_or_refused (p : bool * ledger) : ledger_reply * ledger :=
  (if p.1 then LDone else LRefused, p.2).

Definition spec_op (op : audit_op) (l : ledger) : ledger_reply * ledger :=
  match op with
  | OpRecord _ _ _ _ _ _ | OpCheckpoint _ _ _ _ _ _ _ _ => (LOther, l)
  | OpSave key _ _ r fp _ =>
      (LDone, match l !! key with
              | Some _ => l
              | None => <[key := Done fp (dumps_spaced (JDict r))]> l
              end)
  | OpClaim key fp _ _ token _ => spec_claim l key fp token
  | OpComplete key fp token r _ =>
      done_or_refused (spec_settle l key fp token (Done fp (dumps_spaced (JDict r))))
  | OpRelease key fp token _ =>
      let '(b, l') := spec_settle l key fp token (Failed fp legacy_failure) in (LReleased b, l')
  | OpFail key fp token r _ =>
      done_or_refused (spec_settle l key fp token (Failed fp (dumps_spaced (JDict r))))
  | OpIndeterminate key fp token r _ =>
      done_or_refused (spec_settle l key fp token (Unsettled fp (dumps_spaced (JDict r))))
  | OpResolve key fp expected r _ =>
      match l !! key with
      | Some (Unsettled fp' r') =>
          if (fp' =? fp)%string && (r' =? dumps_spaced (JDict expected))%string
          then (LDone, <[key := Done fp (dumps_spaced (JDict r))]> l) else (LRefused, l)
      | _ => (LRefused, l)
      end
  | OpClear key fp =>
      (LDone, match l !! key, fp with
              | Some e, Some fp => if (entry_fp e =? fp)%string then delete key l else l
              | Some _, None => delete key l
              | None, _ => l
              end)
  end.

(** ** The refinement relation *)

(** The entry a row stands for; rows of older schemas stand for none. *)
Definition abs_row (r : completed_row) : option entry :=
  fp ← co_action_fingerprint r;
  if (co_status r =? "pending")%string then Held fp <$> co_claim_token r
  else if (co_status r =? "completed")%string then Some (Done fp (co_result_json r))
  else if (co_status r =? "failed")%string then Some (Failed fp (co_result_json r))
  else if (co_status r =? "indeterminate")%string then Some (Unsettled fp (co_result_json r))
  else None.

(** The table implements the ledger: same keys, and each row stands for its
    key's entry. *)
Definition implements (db : database) (l : ledger) : Prop :=
  ∀ key, match db_completed db !! key, l !! key with
         | Some r, Some e => abs_row r = Some e
         | None, None => True
         | _, _ => False
         end.

Definition reply_of (r : audit_reply) : ledger_reply :=
  match r with
  | RRecord _ | RCheckpoint _ => LOther
  | RUnit (Ok _) => LDone
  | RUnit (Err _) => LRefused
  | RClaim (Ok c) => LClaim c
  | RClaim (Err _) => LRefused
  | RRelease (Ok b) => LReleased b
  | RRelease (Err _) => LRefused
  end.

Lemma implements_insert db l key r e :
  implements db l → abs_row r = Some e →
  implements (set_completed (<[key := r]> (db_completed db)) db) (<[key := e]> l).
Proof.
  intros H Hr k. simpl. destruct (decide (k = key)) as [->|].
  - by rewrite !lookup_insert_eq.
  - rewrite !lookup_insert_ne by done. apply H.
Qed.

Lemma implements_delete db l key :
  implements db l →
  implements (set_completed (delete key (db_completed db)) db) (delete key l).
Proof.
  intros H k. simpl. destruct (decide (k = key)) as [->|].
  - by rewrite !lookup_delete_eq.
  - rewrite !lookup_delete_ne by done. apply H.
Qed.

Lemma implements_completed db db' l :
  db_completed db' = db_completed db → implements db l → implements db' l.
Proof. intros E H k. rewrite E. apply H. Qed.

(** The row of a key and its entry, together. *)
Lemma implements_lookup db l key :
  implements db l →
  (db_completed db !! key = None ∧ l !! key = None)
  ∨ ∃ r e, db_completed db !! key = Some r ∧ l !! key = Some e ∧ abs_row r = Some e.
Proof.
  intros H. specialize (H key).
  destruct (db_completed db !! key), (l !! key); naive_solver.
Qed.

(** A row that stands for an entry has its fingerprint, status and outcome. *)
Lemma abs_row_inv r e :
  abs_row r = Some e →
  co_action_fingerprint r = Some (entry_fp e)
  ∧ match e with
    | Held _ token => co_status r = "pending" ∧ co_claim_token r = Some token
    | Done _ o => co_status r = "completed" ∧ co_result_json r = o
    | Failed _ o => co_status r = "failed" ∧ co_result_json r = o
    | Unsettled _ o => co_status r = "indeterminate" ∧ co_result_json r = o
    end.
Proof.
  unfold abs_row. destruct (co_action_fingerprint r) as [fp|]; [|done]. cbn [mbind option_bind].
  destruct (String.eqb_spec (co_status r) "pending") as [->|_].
  { destruct (co_claim_token r); intros [= <-]; done. }
  destruct (String.eqb_spec (co_status r) "completed") as [->|_]; [by intros [= <-]|].
  destruct (String.eqb_spec (co_status r) "failed") as [->|_]; [by intros [= <-]|].
  destruct (String.eqb_spec (co_status r) "indeterminate") as [->|_]; [by intros [= <-]|]. done.
Qed.

Lemma holds_claim_abs r e fp token :
  abs_row r = Some e →
  holds_claim fp token r = match e with
    | Held fp' token' => (fp' =? fp)%string && (token' =? token)%string
    | _ => false
    end.
Proof.
  intros (E1&E2)%abs_row_inv. unfold holds_claim. rewrite E1.
  destruct e; simpl; destruct E2 as [-> E2]; rewrite ?E2; simpl; by rewrite ?andb_false_r, ?andb_true_r.
Qed.

Lemma update_settles db l key fp token set e :
  implements db l →
  (∀ r, abs_row r = Some (Held fp token) → abs_row (set r) = Some e) →
  ((update_completed key (holds_claim fp token) set db).1 =? 1) = (spec_settle l key fp token e).1
  ∧ implements (update_completed key (holds_claim fp token) set db).2
      (spec_settle l key fp token e).2.
Proof.
  intros H Hset. unfold update_completed, spec_settle.
  destruct (implements_lookup db l key H) as [[-> ->]|(r&e'&->&->&Hr)]; [done|].
  rewrite (holds_claim_abs r e' fp token Hr). destruct e' as [fp' token'| | |]; try done.
  destruct (String.eqb_spec fp' fp) as [->|]; [|done].
  destruct (String.eqb_spec token' token) as [->|]; [|done]. simpl.
  split; [done|]. apply implements_insert; auto.
Qed.

Lemma abs_settled (f : completed_row → completed_row) r fp token status o e :
  abs_row r = Some (Held fp token) →
  co_action_fingerprint (f r) = co_action_fingerprint r → co_status (f r) = status →
  co_result_json (f r) = o →
  (status, e) ∈ [("completed", Done fp o); ("failed", Failed fp o); ("indeterminate", Unsettled fp o)] →
  abs_row (f r) = Some e.
Proof.
  intros [E _]%abs_row_inv E1 E2 E3 Hin. unfold abs_row. rewrite E1, E2, E3, E. simpl.
  rewrite !elem_of_cons in Hin. destruct Hin as [[= -> ->]|[[= -> ->]|[[= -> ->]|Hin]]]; try done.
  by apply elem_of_nil in Hin.
Qed.

Lemma settle_refines db l key fp token status o e now f :
  implements db l →
  (∀ r, co_action_fingerprint (f r) = co_action_fingerprint r ∧ co_status (f r) = status
        ∧ co_result_json (f r) = o) →
  (status, e) ∈ [("completed", Done fp o); ("failed", Failed fp o); ("indeterminate", Unsettled fp o)] →
  let t := transaction db (λ db,
    let '(rowcount, db') := update_completed key (holds_claim fp token) f db in
    _ ← raise_if (negb (rowcount =? 1)) (PyRuntimeError now);
    Ok (tt, db')) in
  reply_of (RUnit t.1) = (done_or_refused (spec_settle l key fp token e)).1
  ∧ implements t.2 (done_or_refused (spec_settle l key fp token e)).2.
Proof.
  intros H Hf Hin. cbn zeta. unfold transaction.
  destruct (update_settles db l key fp token f e H) as [E1 E2].
  { intros r Hr. destruct (Hf r) as (?&?&?). by eapply abs_settled. }
  destruct (update_completed key _ f db) as [n db'] eqn:Eu. cbn [fst snd] in *. rewrite E1.
  unfold done_or_refused. destruct (spec_settle l key fp token e) as [[] l'] eqn:Es; simpl in *.
  { done. }
  split; [done|]. revert Es. unfold spec_settle. by repeat case_match; intros [= <-].
Qed.

Lemma claim_refines db l key fp p a token now :
  implements db l →
  reply_of (RClaim (claim_action key fp p a token now db).1) = (spec_claim l key fp token).1
  ∧ implements (claim_action key fp p a token now db).2 (spec_claim l key fp token).2.
Proof.
  intros H. unfold claim_action, transaction, spec_claim.
  destruct (implements_lookup db l key H) as [[El ->]|(r&e&El&->&Hr)]; rewrite El.
  { split; [done|]. by apply implements_insert. }
  destruct (abs_row_inv r e Hr) as [Ef Ee]. rewrite Ef. cbn [sql_eq].
  destruct (String.eqb_spec (entry_fp e) fp) as [Hfp|]; [|done]. cbn [negb].
  destruct e as [fp' t|fp' o|fp' o|fp' o]; destruct Ee as [-> Eo]; simpl in Hfp; subst fp';
    try (rewrite <- Eo; done).
  - done.
  - unfold update_completed. rewrite El, Ef. cbn [sql_eq entry_fp]. rewrite String.eqb_refl.
    cbn [String.eqb Ascii.eqb Bool.eqb andb].
    assert ((co_status r =? "failed")%string = true) as ->
      by (apply abs_row_inv in Hr as [_ [-> _]]; done).
    rewrite !String.eqb_refl. cbn [andb].
    cbn [mbind result_bind raise_if negb Z.eqb Pos.eqb reply_of fst snd]. rewrite Eo.
    split; [done|]. by apply implements_insert.
Qed.

Lemma op_refines op db l :
  implements db l →
  reply_of (run_op op db).1 = (spec_op op l).1 ∧ implements (run_op op db).2 (spec_op op l).2.
Proof.
  intros H.
  destruct op as [| |key p a d fp now|key fp p a t now|key fp t d now|key fp t now
    |key fp t d now|key fp t d now|key fp x d now|key fp].
  - split; [done|]. eapply implements_completed, H. by apply ledger_untouched.
  - split; [done|]. eapply implements_completed, H. by apply ledger_untouched.
  - cbn [run_op reply spec_op fst snd]. unfold save_completed, transaction.
    destruct (implements_lookup db l key H) as [[-> ->]|(r&e&->&->&Hr)]; [|done].
    split; [done|]. by apply implements_insert.
  - by apply claim_refines.
  - apply (settle_refines db l key fp t "completed" (dumps_spaced (JDict d)));
      [done|intros; by split_and!|left].
  - cbn [run_op reply spec_op fst snd]. unfold release_action_claim, transaction.
    destruct (update_settles db l key fp t (settle "failed" legacy_failure now)
      (Failed fp legacy_failure) H) as [E1 E2].
    { intros r Hr. apply (abs_settled _ r fp t "failed" legacy_failure); try done. right; left. }
    destruct (update_completed key _ _ db) as [n db'], (spec_settle _ _ _ _ _) as [b l'].
    simpl in *. by rewrite E1.
  - apply (settle_refines db l key fp t "failed" (dumps_spaced (JDict d)));
      [done|intros; by split_and!|right; left].
  - apply (settle_refines db l key fp t "indeterminate" (dumps_spaced (JDict d)));
      [done|intros; by split_and!|right; right; left].
  - cbn [run_op reply spec_op fst snd]. unfold resolve_indeterminate_action, transaction, update_completed.
    destruct (implements_lookup db l key H) as [[-> ->]|(r&e&->&->&Hr)]; [done|].
    destruct (abs_row_inv r e Hr) as [Ef Ee]. rewrite Ef. cbn [sql_eq].
    destruct e as [fp' o|fp' o|fp' o|fp' o]; destruct Ee as [-> Eo];
      rewrite ?andb_false_r; try done.
    rewrite Eo. cbn [entry_fp String.eqb Ascii.eqb Bool.eqb andb]. rewrite andb_true_r.
    destruct (String.eqb_spec fp' fp) as [->|]; [|done]. simpl.
    destruct (o =? dumps_spaced (JDict x))%string; [|done].
    split; [done|]. apply implements_insert; [done|]. done.
  - cbn [run_op reply spec_op fst snd]. unfold clear_completed, transaction.
    destruct (implements_lookup db l key H) as [[-> ->]|(r&e&->&->&Hr)]; [done|].
    destruct (abs_row_inv r e Hr) as [Ef _]. rewrite Ef. cbn [sql_eq].
    destruct fp as [fp|]; [|split; [done|by apply implements_delete]].
    destruct (String.eqb_spec (entry_fp e) fp); [|done].
    split; [done|by apply implements_delete].
Qed.

Fixpoint spec_ops (ops : list audit_op) (l : ledger) : list ledger_reply * ledger :=
  match ops with
  | [] => ([], l)
  | op :: ops =>
      let '(r, l1) := spec_op op l in let '(rs, l2) := spec_ops ops l1 in (r :: rs, l2)
  end.

(** C10: The table of completed actions refines the abstract ledger: from a
    table that implements a ledger, every history of operations gives exactly
    the ledger's replies (claimed, in progress, completed with the stored
    outcome, retried with the prior outcome, indeterminate, conflict, done,
    refused) and leaves a table that implements the ledger's next state. *)
Theorem ledger_refinement ops db l :
  implements db l →
  reply_of <$> (run_ops ops db).1 = (spec_ops ops l).1
  ∧ implements (run_ops ops db).2 (spec_ops ops l).2.
Proof.
  revert db l. induction ops as [|op ops IH]; intros db l H; [done|]. simpl.
  destruct (op_refines op db l H) as [E1 H1].
  destruct (run_op op db) as [r db1], (spec_op op l) as [s l1]. simpl in *.
  destruct (IH db1 l1 H1) as [E2 H2].
  destruct (run_ops ops db1) as [rs db2], (spec_ops ops l1) as [ss l2]. simpl in *.
  split; [|done]. change (reply_of r :: (reply_of <$> rs) = s :: ss). congruence.
Qed.

(** ** Claims are exclusive *)

Section exclusive.
Context (key fp token : string).

(** The claim [token] on [key] is live, or was settled as completed or
    indeterminate. *)
Definition kept_row (r : completed_row) : Prop :=
  co_action_fingerprint r = Some fp
  ∧ (co_status r = "pending" ∧ co_claim_token r = Some token
     ∨ co_status r = "completed" ∨ co_status r = "indeterminate").

Definition kept (db : database) : Prop :=
  ∃ r, db_completed db !! key = Some r ∧ kept_row r.

(** The operations that make the key claimable again. *)
Definition frees (op : audit_op) : bool :=
  match op with
  | OpClear k _ => (k =? key)%string
  | OpFail k f t _ _ | OpRelease k f t _ =>
      (k =? key)%string && (f =? fp)%string && (t =? token)%string
  | _ => false
  end.

Lemma kept_other k db m :
  k ≠ key → kept db → db_completed m = db_completed db →
  ∀ r, kept (set_completed (<[k := r]> (db_completed m)) db)
       ∧ kept (set_completed (delete k (db_completed m)) db).
Proof.
  intros Hk (r0&H&Hr) E r. rewrite E.
  split; exists r0; simpl; [rewrite lookup_insert_ne by done|rewrite lookup_delete_ne by done]; done.
Qed.

Lemma update_kept k where_ set db :
  (k = key → ∀ r, kept_row r → where_ r = true → kept_row (set r)) →
  kept db → kept (update_completed k where_ set db).2.
Proof.
  intros H Hk. unfold update_completed. destruct (db_completed db !! k) as [r|] eqn:E; [|done].
  destruct (where_ r) eqn:Hw; [|done]. cbn [snd]. destruct (decide (k = key)) as [->|Hne].
  - destruct Hk as (r'&E'&Hr). rewrite E in E'. injection E' as <-.
    exists (set r). cbn [db_completed set_completed]. rewrite lookup_insert_eq. auto.
  - by apply (kept_other k db db).
Qed.

(** A kept row is settled only by its own claim. *)
Lemma kept_holds r f t :
  kept_row r → holds_claim f t r = true → f = fp ∧ t = token.
Proof.
  unfold holds_claim. intros [Ef Hr]. rewrite Ef. simpl. rewrite !andb_true_iff, !String.eqb_eq.
  intros [[-> Hs] Ht]. rewrite Hs in Hr. destruct Hr as [[_ E]|[|]]; try done.
  rewrite E in Ht. simpl in Ht. by apply String.eqb_eq in Ht.
Qed.

Lemma transaction_update k where_ set msg db :
  let t := transaction db (λ db,
    let '(rowcount, db') := update_completed k where_ set db in
    _ ← raise_if (negb (rowcount =? 1)) (PyRuntimeError msg);
    Ok (tt, db')) in
  t.2 = (update_completed k where_ set db).2.
Proof.
  cbn zeta. unfold transaction, update_completed.
  destruct (db_completed db !! k) as [r|]; [|done]. by destruct (where_ r).
Qed.

Lemma claim_kept f p a t now db :
  kept db →
  claim_action key f p a t now db
  = (Ok (if (f =? fp)%string then
           match db_completed db !! key with
           | Some r =>
               if (co_status r =? "pending")%string then claim_of CLAIM_IN_PROGRESS
               else mk_IdempotencyClaim
                 (if (co_status r =? "completed")%string then CLAIM_COMPLETED
                  else CLAIM_INDETERMINATE) None (idempotency_result (co_result_json r)) None
           | None => claim_of CLAIM_CONFLICT
           end
         else claim_of CLAIM_CONFLICT), db).
Proof.
  intros (r&E&Ef&Hs). unfold claim_action, transaction. rewrite E, Ef. cbn [sql_eq].
  rewrite String.eqb_sym. destruct (f =? fp)%string; [|done]. cbn [negb].
  destruct Hs as [[-> _]|[->| ->]]; done.
Qed.

Lemma op_kept op db : frees op = false → kept db → kept (run_op op db).2.
Proof.
  intros Hf H.
  assert (db_completed (run_op op db).2 = db_completed db → kept (run_op op db).2) as Hsame.
  { intros E. destruct H as (r&Hr&?). exists r. by rewrite E. }
  destruct op as [| |k p a d f now|k f p a t now|k f t d now|k f t now
    |k f t d now|k f t d now|k f x d now|k f]; try by apply Hsame, ledger_untouched.
  - cbn [run_op reply snd]. unfold save_completed, transaction.
    destruct (db_completed db !! k) eqn:E; [done|]. simpl.
    destruct (decide (k = key)) as [->|Hk]; [destruct H as (?&?&_); congruence|].
    by apply (kept_other k db db).
  - cbn [run_op reply snd]. destruct (decide (k = key)) as [->|Hk]; [by rewrite claim_kept|].
    unfold claim_action, transaction. destruct (db_completed db !! k) as [r|] eqn:E.
    2: { by apply (kept_other k db db). }
    destruct (negb (sql_eq (co_action_fingerprint r) f)); [done|].
    destruct (co_status r =? "completed")%string; [done|].
    destruct (co_status r =? "failed")%string.
    2: { destruct (co_status r =? "indeterminate")%string; [done|].
         by destruct (co_status r =? "pending")%string. }
    unfold update_completed. rewrite E. destruct (_ && _); [|done].
    cbn [raise_if mbind result_bind negb Z.eqb Pos.eqb fst snd].
    by apply (kept_other k db db).
  - cbn [run_op reply snd]. unfold complete_action. rewrite transaction_update.
    apply update_kept; [|done]. intros _ r [Ef Hr] _. split; [done|]. right; by left.
  - cbn [run_op reply snd]. unfold release_action_claim.
    assert (kept (update_completed k (holds_claim f t) (settle "failed" legacy_failure now) db).2).
    { apply update_kept; [|done]. intros -> r Hr Hh. destruct (kept_holds r f t Hr Hh) as [-> ->].
      cbn [frees] in Hf. by rewrite !String.eqb_refl in Hf. }
    unfold transaction. by destruct (update_completed k _ _ db).
  - cbn [run_op reply snd]. unfold fail_action, finish_action_claim.
    cbn [String.eqb Ascii.eqb Bool.eqb orb negb]. rewrite transaction_update.
    apply update_kept; [|done]. intros -> r Hr Hh. destruct (kept_holds r f t Hr Hh) as [-> ->].
    cbn [frees] in Hf. by rewrite !String.eqb_refl in Hf.
  - cbn [run_op reply snd]. unfold mark_action_indeterminate, finish_action_claim.
    cbn [String.eqb Ascii.eqb Bool.eqb orb negb]. rewrite transaction_update.
    apply update_kept; [|done]. intros _ r [Ef Hr] _. split; [done|]. right; by right.
  - cbn [run_op reply snd]. unfold resolve_indeterminate_action. rewrite transaction_update.
    apply update_kept; [|done]. intros _ r [Ef Hr] _. split; [done|]. right; by left.
  - cbn [run_op reply snd frees] in *. apply String.eqb_neq in Hf.
    unfold clear_completed, transaction.
    destruct (db_completed db !! k) as [r|]; [|done].
    destruct f as [f|]; [destruct (sql_eq _ f); [|done]|]; by apply (kept_other k db db).
Qed.

Lemma history_kept ops db : existsb frees ops = false → kept db → kept (after ops db).
Proof.
  revert db. induction ops as [|op ops IH]; intros db H Hk; [done|].
  cbn [existsb] in H. apply orb_false_iff in H as [H1 H2]. rewrite after_cons.
  apply IH; [done|]. by apply op_kept.
Qed.
End exclusive.

(** A claim that is granted is live. *)
Lemma claimed_kept db key fp p a token now c :
  (claim_action key fp p a token now db).1 = Ok c →
  ic_state c = CLAIM_CLAIMED ∨ is_Some (ic_token c) →
  kept key fp token (claim_action key fp p a token now db).2.
Proof.
  intros Hc Hs. revert Hc. unfold claim_action, transaction.
  assert (∀ st, st ≠ CLAIM_CLAIMED → ∀ r o, c ≠ mk_IdempotencyClaim st None r o) as Hno.
  { intros st Hst r o ->. destruct Hs as [Hs|[? Hs]]; simpl in Hs; [by destruct Hst|done]. }
  destruct (db_completed db !! key) as [r|] eqn:E.
  2: { intros _. eexists. simpl. rewrite lookup_insert_eq. split; [done|]. split; [done|]. by left. }
  destruct (sql_eq (co_action_fingerprint r) fp) eqn:Ef; cbn [negb].
  2: { intros [= <-]. by destruct (Hno CLAIM_CONFLICT (ltac:(done)) _ _ eq_refl). }
  destruct (co_status r =? "completed")%string.
  { intros [= <-]. by destruct (Hno CLAIM_COMPLETED (ltac:(done)) _ _ eq_refl). }
  destruct (co_status r =? "failed")%string eqn:Es.
  - unfold update_completed. rewrite E, Ef, Es. cbn. intros _.
    eexists. simpl. rewrite lookup_insert_eq. split; [done|].
    unfold sql_eq in Ef. destruct (co_action_fingerprint r); [|done].
    apply String.eqb_eq in Ef as ->. split; [done|]. by left.
  - destruct (co_status r =? "indeterminate")%string.
    { intros [= <-]. by destruct (Hno CLAIM_INDETERMINATE (ltac:(done)) _ _ eq_refl). }
    destruct (co_status r =? "pending")%string; intros [= <-].
    + by destruct (Hno CLAIM_IN_PROGRESS (ltac:(done)) _ _ eq_refl).
    + by destruct (Hno CLAIM_INDETERMINATE (ltac:(done)) _ _ eq_refl).
Qed.

(** C11: A key that was claimed is not claimed a second time, whatever happens
    in between, unless the holder's claim was certified as failed (with its own
    token) or the key was cleared; the second claimant is told that the effect
    is in progress, completed or indeterminate, or that the key is bound to
    another effect, and the ledger does not change. *)
Theorem claimed_at_most_once db key fp p a token now ops fp' p' a' token' now' c :
  (claim_action key fp p a token now db).1 = Ok c → ic_state c = CLAIM_CLAIMED →
  existsb (frees key fp token) ops = false →
  let db' := after ops (claim_action key fp p a token now db).2 in
  ∃ c', claim_action key fp' p' a' token' now' db' = (Ok c', db') ∧ ic_token c' = None
    ∧ if decide (fp' = fp)
      then ic_state c' ∈ [CLAIM_IN_PROGRESS; CLAIM_COMPLETED; CLAIM_INDETERMINATE]
      else ic_state c' = CLAIM_CONFLICT.
Proof.
  intros Hc Hs Hf db'. pose proof (claimed_kept _ _ _ _ _ _ _ _ Hc (or_introl Hs)) as Hk.
  apply (history_kept key fp token ops) in Hk; [|done]. fold db' in Hk.
  rewrite (claim_kept key fp token fp' p' a' token' now' db' Hk). eexists. split; [done|].
  destruct Hk as (r&->&_&Hr). destruct (String.eqb_spec fp' fp) as [->|Hne].
  - rewrite decide_True by done. destruct Hr as [[-> _]|[->| ->]]; cbn;
      (split; [done|]); rewrite !elem_of_cons; tauto.
  - by rewrite decide_False by done.
Qed.

Lemma claimed_at_most_once_witness :
  ∃ c', claim_action "write-1" "fp" 16 2 "other" (sample_now 9)
          (after [OpComplete "write-1" "fp" "token" [("n", JInt 1)] (sample_now 2)]
             (claim_action "write-1" "fp" 16 2 "token" (sample_now 1) empty_database).2)
        = (Ok c', after [OpComplete "write-1" "fp" "token" [("n", JInt 1)] (sample_now 2)]
             (claim_action "write-1" "fp" 16 2 "token" (sample_now 1) empty_database).2)
        ∧ ic_token c' = None.
Proof.
  destruct (claimed_at_most_once empty_database "write-1" "fp" 16 2 "token" (sample_now 1)
    [OpComplete "write-1" "fp" "token" [("n", JInt 1)] (sample_now 2)]
    "fp" 16 2 "other" (sample_now 9)
    (mk_IdempotencyClaim CLAIM_CLAIMED (Some "token") None None)) as (c'&H&Ht&_);
    [vm_compute; reflexivity..|].
  exists c'. split; assumption.
Defined.

Lemma sample_implements : implements empty_database ∅.
Proof. intros key. by rewrite !lookup_empty. Qed.

Lemma ledger_refinement_witness :
  implements empty_database ∅
  ∧ implements (run_ops sample_ops empty_database).2 (spec_ops sample_ops ∅).2
  ∧ (spec_ops sample_ops ∅).1
    = [LOther; LClaim (mk_IdempotencyClaim CLAIM_CLAIMED (Some "token") None None); LDone; LOther].
Proof.
  split; [exact sample_implements|].
  destruct (ledger_refinement sample_ops empty_database ∅ sample_implements) as [_ H].
  split; [exact H|]. vm_compute. reflexivity.
Defined.

(** ** Refusals *)

(** The operation did something: it returned, and a claim was granted, a
    release found its claim. *)
Definition accepted (r : audit_reply) : bool :=
  match r with
  | RRecord r => is_ok r
  | RCheckpoint r => is_ok r
  | RUnit r => is_ok r
  | RClaim (Ok c) => bool_decide (ic_state c = CLAIM_CLAIMED)
  | RClaim (Err _) => false
  | RRelease (Ok b) => b
  | RRelease (Err _) => false
  end.

(** An operation that raises, a claim that is not granted and a release
    that finds no claim leave the database exactly as it was. *)
Theorem refused_unchanged op db :
  accepted (run_op op db).1 = false → (run_op op db).2 = db.
Proof.
  destruct op; unfold_ops; intros H;
    repeat (op_case; cbn [mbind result_bind negb fst snd accepted is_ok] in * ); simplify_eq/=;
    done.
Qed.

Lemma refused_unchanged_witness :
  accepted (run_op (OpComplete "write-1" "fp" "stale" [] (sample_now 4)) sample_log).1 = false
  ∧ (run_op (OpComplete "write-1" "fp" "stale" [] (sample_now 4)) sample_log).2 = sample_log.
Proof.
  assert (accepted (run_op (OpComplete "write-1" "fp" "stale" [] (sample_now 4)) sample_log).1
          = false) as H by (vm_compute; reflexivity).
  split; [exact H|]. exact (refused_unchanged _ _ H).
Defined.

(** ** Run checkpoints *)

Definition checkpoint_follows (run_id plan_id : uuid) (fp capsules : string)
    (expected : option string) (sequence : Z) (db : database) : Prop :=
  match db_checkpoints db !! uuid_str run_id with
  | None => expected = None ∧ sequence = 0
  | Some row =>
      cr_plan_id row = uuid_str plan_id ∧ cr_plan_fingerprint row = fp
      ∧ cr_capsule_bindings_sha256 row = capsules ∧ Some (cr_state row) = expected
      ∧ sequence = cr_sequence row + 1
  end.

Lemma checkpoint_differs_false row plan_id fp expected capsules :
  checkpoint_differs row plan_id fp expected capsules = false ↔
  cr_plan_id row = uuid_str plan_id ∧ cr_plan_fingerprint row = fp
  ∧ cr_capsule_bindings_sha256 row = capsules ∧ Some (cr_state row) = expected.
Proof.
  unfold checkpoint_differs.
  rewrite !orb_false_iff, !negb_false_iff, !String.eqb_eq, bool_decide_eq_true. tauto.
Qed.

(** [checkpoint_run] writes exactly when the digests and the state are well
    formed and the caller names the stored run (same plan, fingerprint and
    capsules) in the state it expects, or a run that is not stored yet; the
    sequence number starts at 0 and grows by one, and [run_checkpoint] then
    reads back the checkpoint that was returned. *)
Theorem checkpoint_run_exact run_id plan_id fp st capsules expected digest now db cp :
  uuid_valid plan_id = true → datetime_valid now = true →
  let t := checkpoint_run run_id plan_id fp st capsules expected digest now db in
  (t.1 = Ok cp ↔
     check_checkpoint fp st capsules digest = Ok tt
     ∧ checkpoint_follows run_id plan_id fp capsules expected (rc_sequence cp) db
     ∧ cp = mk_RunCheckpoint run_id plan_id fp st (rc_sequence cp) capsules digest now)
  ∧ (t.1 = Ok cp → run_checkpoint run_id t.2 = Ok (Some cp)).
Proof.
  intros Hp Hn. cbn zeta. unfold checkpoint_run, checkpoint_follows, transaction, next_checkpoint.
  destruct (check_checkpoint fp st capsules digest) as [[]|e]; [|naive_solver].
  assert (∀ row seq,
    cr_plan_id row = uuid_str plan_id → cr_plan_fingerprint row = fp →
    cr_capsule_bindings_sha256 row = capsules →
    run_checkpoint run_id (set_checkpoints (<[uuid_str run_id :=
      mk_checkpoint_row (cr_plan_id row) (cr_plan_fingerprint row) st seq
        (cr_capsule_bindings_sha256 row) digest (isoformat now)]> (db_checkpoints db)) db)
    = Ok (Some (mk_RunCheckpoint run_id plan_id fp st seq capsules digest now))) as Hread.
  { intros row seq -> -> ->. unfold run_checkpoint. simpl. rewrite lookup_insert_eq. simpl.
    rewrite uuid_parse_str, fromisoformat_isoformat by done. done. }
  destruct (db_checkpoints db !! uuid_str run_id) as [row|] eqn:E.
  - destruct (checkpoint_differs row plan_id fp expected capsules) eqn:Hd.
    { cbn [raise_if mbind result_bind fst snd fmap result_fmap]. split; [|done].
      split; [done|]. intros (_&(H1&H2&H3&H4&_)&_).
      assert (checkpoint_differs row plan_id fp expected capsules = false) by
        (by apply checkpoint_differs_false). congruence. }
    apply checkpoint_differs_false in Hd as (H1&H2&H3&H4).
    cbn [raise_if mbind result_bind]. rewrite bool_decide_eq_true_2 by done.
    cbn [negb raise_if mbind result_bind fst snd fmap result_fmap].
    split; [|intros [= <-]; by apply Hread].
    split; [by intros [= <-]|]. intros (_&(_&_&_&_&Hs)&->). rewrite <- Hs. done.
  - destruct expected as [x|]; cbn [raise_if mbind result_bind fst snd fmap result_fmap].
    { split; [|done]. split; [done|]. by intros (_&[? _]&_). }
    split; [|intros [= <-]].
    { split; [by intros [= <-]|]. intros (_&[_ Hs]&->). by rewrite Hs. }
    apply (Hread (mk_checkpoint_row (uuid_str plan_id) fp st 0 capsules digest (isoformat now)) 0);
      done.
Qed.

Definition sample_digest : string := str_join "" (repeat "0123456789abcdef" 4).

Lemma checkpoint_run_exact_witness :
  run_checkpoint 5 (checkpoint_run 5 16 sample_digest "planned" sample_digest None None
    (sample_now 0) empty_database).2
  = Ok (Some (mk_RunCheckpoint 5 16 sample_digest "planned" 0 sample_digest None (sample_now 0))).
Proof.
  apply (checkpoint_run_exact 5 16 sample_digest "planned" sample_digest None None (sample_now 0)
    empty_database (mk_RunCheckpoint 5 16 sample_digest "planned" 0 sample_digest None
      (sample_now 0)) eq_refl eq_refl).
  vm_compute. reflexivity.
Defined.

(** ** Outcomes are read back *)

Lemma idempotency_result_dumps d :
  json_plain (JDict d) = true →
  ∃ d', norm (JDict d) = JDict d' ∧ loads (dumps_spaced (JDict d)) = Some (JDict d')
    ∧ idempotency_result (dumps_spaced (JDict d)) = Some d'.
Proof.
  intros H. eexists. split; [done|]. unfold idempotency_result. rewrite loads_dumps by done. done.
Qed.

(** The outcome a holder stored is the outcome later readers get, up to the
    order of its keys: a completed one from [completed_result] and from a later
    claim, which is not granted; a failed one from the retry, which is. *)
Theorem outcome_read_back db key fp token d now :
  json_plain (JDict d) = true →
  ∃ d', norm (JDict d) = JDict d'
    ∧ ((complete_action key fp token d now db).1 = Ok tt →
       let db' := (complete_action key fp token d now db).2 in
       completed_result key (Some fp) db' = Ok (Some d')
       ∧ ∀ p a t n, claim_action key fp p a t n db'
           = (Ok (mk_IdempotencyClaim CLAIM_COMPLETED None (Some d') None), db'))
    ∧ ((fail_action key fp token d now db).1 = Ok tt →
       ∀ p a t n,
       (claim_action key fp p a t n (fail_action key fp token d now db).2).1
       = Ok (mk_IdempotencyClaim CLAIM_CLAIMED (Some t) (Some d') (Some CLAIM_FAILED))).
Proof.
  intros Hd. destruct (idempotency_result_dumps d Hd) as (d'&En&El&Ei). exists d'.
  split; [done|].
  unfold complete_action, fail_action, finish_action_claim, transaction, update_completed.
  cbn [String.eqb Ascii.eqb Bool.eqb orb negb].
  destruct (db_completed db !! key) as [r|] eqn:E; [|done].
  destruct (holds_claim fp token r) eqn:Hh; [|done].
  cbn [raise_if mbind result_bind negb Z.eqb Pos.eqb fst snd].
  unfold holds_claim in Hh. apply andb_true_iff in Hh as [[Hf _]%andb_true_iff _].
  split; intros _.
  - split.
    + unfold completed_result. simpl. rewrite lookup_insert_eq. simpl. by rewrite Hf, El.
    + intros p a t n. unfold claim_action, transaction. simpl. rewrite lookup_insert_eq. simpl.
      by rewrite Hf, Ei.
  - intros p a t n. unfold claim_action, transaction, update_completed. simpl.
    rewrite lookup_insert_eq. simpl. by rewrite Hf, Ei.
Qed.

Definition claimed_db : database :=
  (claim_action "write-1" "fp" 16 2 "token" (sample_now 1) empty_database).2.

Lemma outcome_read_back_witness :
  json_plain (JDict [("n", JInt 1)]) = true
  ∧ completed_result "write-1" (Some "fp")
      (complete_action "write-1" "fp" "token" [("n", JInt 1)] (sample_now 2) claimed_db).2
    = Ok (Some [("n", JInt 1)]).
Proof.
  split; [vm_compute; reflexivity|].
  destruct (outcome_read_back claimed_db "write-1" "fp" "token" [("n", JInt 1)] (sample_now 2)
    ltac:(vm_compute; reflexivity)) as (d'&E&H&_).
  injection E as <-. apply H. vm_compute. reflexivity.
Defined.
