(* ===== verification/CanonicalTheorems.v ===== *)
(** * CanonicalTheorems: properties of the source-of-truth policy

    The ancestors walk ends and finds exactly the transitive dependencies, and
    an accepted write to a projection follows a write of the same value to the
    resource that owns the field. *)

From S2P Require Import Prelude PyText PyJson PyHash PyTime PyStd JsonCanonical ModelsBase.
From S2P Require Import ModelsAction ModelsPlan ActionGraph ModelsResults Canonical Samples.
From S2P Require Import PlanTheorems.
From stdpp Require Import relations.

Open Scope Z_scope.

Abbreviation depends := (λ actions, edge (dependency_map (plan_graph actions))).

Section ancestors.
Context (actions : list AgentAction).
Context (ids_unique : NoDup (map aa_action_id actions)).
Context (known : dependencies_known (plan_graph actions)).

Lemma find_action_spec d a :
  find_action actions d = Some a ↔ a ∈ actions ∧ aa_action_id a = d.
Proof using ids_unique.
  unfold find_action. split.
  - intros [H1 H2]%List.find_some. rewrite <- in_rev in H1. apply list_elem_of_In in H1.
    apply Z.eqb_eq in H2. done.
  - intros [Ha <-]. destruct (List.find _ _) as [b|] eqn:E.
    + apply List.find_some in E as [Hb E]. rewrite <- in_rev in Hb.
      apply list_elem_of_In in Hb. apply Z.eqb_eq in E. f_equal.
      clear known. induction actions as [|c l IH]; [by apply elem_of_nil in Ha|].
      simpl in ids_unique. apply NoDup_cons in ids_unique as [Hn Hl].
      apply elem_of_cons in Ha, Hb.
      assert (∀ x, x ∈ l → aa_action_id x ∈ map aa_action_id l) as Hm
        by (intros x Hx; apply list_elem_of_fmap; eauto).
      destruct Ha as [->|Ha], Hb as [->|Hb]; [done| | |by apply IH].
      * destruct Hn. rewrite <- E. auto.
      * destruct Hn. rewrite E. auto.
    + exfalso. apply (List.find_none _ _) with (x := a) in E.
      * by rewrite Z.eqb_refl in E.
      * rewrite <- in_rev. by apply list_elem_of_In.
Qed.

Lemma dependency_map_find d ds :
  dependency_map (plan_graph actions) !! d = Some ds ↔
  ∃ a, find_action actions d = Some a ∧ aa_dependencies a = ds.
Proof using ids_unique.
  unfold dependency_map. rewrite <- elem_of_list_to_map.
  2: { change (NoDup (map fst (plan_graph actions))). by rewrite plan_graph_ids. }
  setoid_rewrite find_action_spec. unfold plan_graph. rewrite list_elem_of_fmap. split.
  - intros (a&[= -> ->]&Ha). eauto.
  - intros (a&[Ha <-]&<-). eauto.
Qed.

Lemma depends_find d a y :
  find_action actions d = Some a → depends actions d y ↔ y ∈ aa_dependencies a.
Proof using ids_unique.
  intros H. split.
  - intros (ds&Hd&Hy). apply dependency_map_find in Hd as (b&Hb&<-). congruence.
  - intros Hy. eexists. split; [|exact Hy]. apply dependency_map_find. eauto.
Qed.

Definition is_known (d : uuid) : Prop := d ∈ map aa_action_id actions.

Lemma known_find d : is_known d → ∃ a, find_action actions d = Some a.
Proof using ids_unique.
  intros (a&->&Ha)%list_elem_of_fmap. exists a. by apply find_action_spec.
Qed.

Lemma known_dependencies d a : find_action actions d = Some a → Forall is_known (aa_dependencies a).
Proof using ids_unique known.
  intros (Ha&<-)%find_action_spec. apply Forall_forall. intros y Hy.
  unfold is_known. rewrite <- plan_graph_ids. eapply known; [|exact Hy].
  apply list_elem_of_fmap. eauto.
Qed.

(** The edges still to be pushed. *)
Definition unseen_edges (anc : gset uuid) : nat :=
  sum_list_with (λ a, if bool_decide (aa_action_id a ∈ anc) then O
                      else length (aa_dependencies a)) actions.

Lemma unseen_edges_step d a anc :
  find_action actions d = Some a → d ∉ anc →
  (unseen_edges ({[d]} ∪ anc) + length (aa_dependencies a) ≤ unseen_edges anc)%nat.
Proof using ids_unique.
  intros (Ha&<-)%find_action_spec Hd. unfold unseen_edges. clear ids_unique known.
  assert (∀ l : list AgentAction,
    (sum_list_with (λ b, if bool_decide (aa_action_id b ∈ {[aa_action_id a]} ∪ anc) then O
       else length (aa_dependencies b)) l ≤
     sum_list_with (λ b, if bool_decide (aa_action_id b ∈ anc) then O
       else length (aa_dependencies b)) l)%nat) as Hle.
  { induction l as [|b l IH]; simpl; [lia|].
    do 2 case_bool_decide; try lia. set_solver. }
  induction actions as [|b l IH]; [by apply elem_of_nil in Ha|]. simpl.
  apply elem_of_cons in Ha as [->|Ha].
  - rewrite bool_decide_true by set_solver. rewrite bool_decide_false by done.
    specialize (Hle l). lia.
  - specialize (IH Ha). do 2 case_bool_decide; try lia. set_solver.
Qed.

Lemma ancestors_loop_spec fuel pending anc :
  (unseen_edges anc + length pending < fuel)%nat →
  Forall is_known pending →
  (∀ x y, x ∈ anc → depends actions x y → y ∈ anc ∨ y ∈ pending) →
  ∃ s, ancestors_loop fuel actions pending anc = Some (Ok s)
    ∧ anc ⊆ s ∧ (∀ x, x ∈ pending → x ∈ s)
    ∧ (∀ x y, x ∈ s → depends actions x y → y ∈ s)
    ∧ (∀ x, x ∈ s → x ∈ anc ∨ ∃ p, p ∈ pending ∧ rtc (depends actions) p x).
Proof using ids_unique known.
  revert pending anc. induction fuel as [|fuel IH]; intros pending anc Hf Hk Hinv; [lia|].
  cbn [ancestors_loop]. destruct pending as [|d pending].
  { exists anc. split; [done|]. split; [done|]. split; [by intros x ?%elem_of_nil|].
    split; [|auto]. intros x y Hx Hxy. destruct (Hinv x y Hx Hxy) as [|?%elem_of_nil]; done. }
  apply Forall_cons in Hk as [Hkd Hk]. simpl in Hf. case_bool_decide as Hd.
  - destruct (IH pending anc) as (s&E&H1&H2&H3&H4); [lia|done| |].
    { intros x y Hx Hxy. destruct (Hinv x y Hx Hxy) as [|[->|]%elem_of_cons]; auto. }
    exists s. split; [done|]. split; [done|].
    split; [intros x [->|Hx]%elem_of_cons; auto|]. split; [done|].
    intros x [|(p&?&?)]%H4; [auto|]. right. exists p. split; [by right|done].
  - destruct (known_find d Hkd) as (a&Ha). rewrite Ha.
    pose proof (unseen_edges_step d a anc Ha Hd).
    destruct (IH (rev (aa_dependencies a) ++ pending) ({[d]} ∪ anc)) as (s&E&H1&H2&H3&H4).
    + rewrite length_app, length_rev. lia.
    + apply Forall_app. split; [|done].
      apply Forall_forall. intros y. rewrite list_elem_of_In, <- in_rev, <- list_elem_of_In.
      revert y. apply Forall_forall. by eapply known_dependencies.
    + intros x y [->%elem_of_singleton|Hx]%elem_of_union Hxy.
      * right. apply elem_of_app. left. apply (depends_find _ a _ Ha) in Hxy.
        by rewrite list_elem_of_In, <- in_rev, <- list_elem_of_In.
      * destruct (Hinv x y Hx Hxy) as [|[->|]%elem_of_cons]; set_solver.
    + exists s. split; [done|]. split; [set_solver|]. split; [|split; [done|]].
      { intros x [->|Hx]%elem_of_cons; [set_solver|]. apply H2, elem_of_app. by right. }
      intros x [[->%elem_of_singleton|]%elem_of_union|(p&[Hp|Hp]%elem_of_app&Hr)]%H4; [| | |].
      * right. exists d. split; [by left|done].
      * by left.
      * right. exists d. split; [by left|].
        rewrite list_elem_of_In, <- in_rev, <- list_elem_of_In in Hp.
        eapply rtc_l; [by apply (depends_find _ a _ Ha)|done].
      * right. exists p. split; [by right|done].
Qed.

Lemma unseen_edges_empty : unseen_edges ∅ = sum_list_with (λ a, length (aa_dependencies a)) actions.
Proof. unfold unseen_edges. clear ids_unique known. induction actions; simpl; auto. Qed.
End ancestors.

(** The walk ends on the actions of a plan object and returns exactly the direct
    and transitive dependencies of the action. *)
Lemma dependency_ancestors_spec plan action :
  ChangePlan_post_init plan = Ok plan → action ∈ cp_actions plan →
  ∃ s, dependency_ancestors plan action = Ok s
    ∧ ∀ x, x ∈ s ↔ tc (depends (cp_actions plan)) (aa_action_id action) x.
Proof.
  intros (_&Hn&_&Hk&_)%ChangePlan_post_init_sound Ha.
  assert (find_action (cp_actions plan) (aa_action_id action) = Some action) as Hf
    by by apply find_action_spec.
  destruct (ancestors_loop_spec (cp_actions plan) Hn Hk
    (ancestors_fuel (cp_actions plan) action) (rev (aa_dependencies action)) ∅)
    as (s&E&_&H2&H3&H4).
  - unfold ancestors_fuel. rewrite unseen_edges_empty, length_rev. lia.
  - apply Forall_forall. intros y. rewrite list_elem_of_In, <- in_rev, <- list_elem_of_In.
    revert y. apply Forall_forall. by eapply known_dependencies.
  - set_solver.
  - exists s. unfold dependency_ancestors. rewrite E. split; [done|].
    assert (∀ y, y ∈ rev (aa_dependencies action)
      ↔ depends (cp_actions plan) (aa_action_id action) y) as Hr.
    { intros y. rewrite (depends_find _ Hn _ _ _ Hf).
      by rewrite !list_elem_of_In, <- in_rev. }
    intros x. split.
    + intros [?%elem_of_empty|(p&Hp%Hr&Hpx)]%H4; [done|]. by eapply tc_rtc_r; [apply tc_once|].
    + intros Hx.
      assert (∀ y, rtc (depends (cp_actions plan)) y x → y ∈ s → x ∈ s) as Hrt.
      { intros y. induction 1 as [|y z w Hyz _ IH]; [done|]. intros Hy. eauto. }
      inversion Hx as [? ? Hy|? y ? Hy Hyx]; subst; [by apply H2, Hr|].
      apply (Hrt y); [by apply tc_rtc|by apply H2, Hr].
Qed.

Definition sample_transition : AgentAction := {|
  aa_capability := "jira.issue.transition";
  aa_target := mk_ResourceRef "jira" "issue" "OPS-1" (Some "7");
  aa_parameters := [("target_status", JStr "done")];
  aa_risk := REVERSIBLE_WRITE; aa_authority_source := DIRECT_USER;
  aa_requires_approval := true; aa_idempotency_key := "transition-1";
  aa_justification := "close the issue"; aa_data_classification := INTERNAL;
  aa_dependencies := []; aa_action_id := 1 |}.

Definition sample_notice : AgentAction := {|
  aa_capability := "teams.message.draft";
  aa_target := mk_ResourceRef "teams" "draft" "OPS-1" None;
  aa_parameters := [("body", JStr " done ")];
  aa_risk := LOCAL_GENERATION; aa_authority_source := DIRECT_USER;
  aa_requires_approval := false; aa_idempotency_key := "notice-1";
  aa_justification := "tell the team"; aa_data_classification := INTERNAL;
  aa_dependencies := [1]; aa_action_id := 2 |}.

Definition notice_plan : ChangePlan :=
  mk_ChangePlan "close OPS-1" [sample_transition; sample_notice] "planner" 19 (sample_time 9)
    "2.0" None None false None None None [] None false.

Lemma notice_plan_valid : ChangePlan_post_init notice_plan = Ok notice_plan.
Proof. check. Qed.

(** ** Projections follow their source *)

Lemma digest_value_inj v v' :
  digest_value v = digest_value v' →
  v = v' ∨ collide (canonical_text (JStr v)) (canonical_text (JStr v')).
Proof.
  intros E. unfold digest_value, digest_json in E.
  destruct (decide (canonical_text (JStr v) = canonical_text (JStr v'))) as [Ht|Ht].
  - left. apply canonical_text_inj in Ht; [|done..]. by injection Ht.
  - by right.
Qed.

Lemma parameter_digests_single action selectors :
  size (parameter_digests action selectors) = 1%nat → governed_values action selectors ≠ [].
Proof. unfold parameter_digests. intros H E. by rewrite E in H. Qed.

Lemma single_digest (X : gset string) x y : size X = 1%nat → x ∈ X → y ∈ X → x = y.
Proof. intros H Hx Hy. by apply (size_singleton_inv X x y). Qed.

Lemma canonical_writes_elem rule plan writes id digests :
  canonical_writes rule plan = Ok writes → (id, digests) ∈ writes →
  ∃ w selectors, w ∈ cp_actions plan ∧ is_canonical_write rule w = true ∧ aa_action_id w = id
    ∧ selectors_for (sr_canonical_extractors rule) (aa_capability w) = Ok selectors
    ∧ digests = parameter_digests w selectors.
Proof.
  unfold canonical_writes. intros H%mapM_Ok Hin.
  apply list_elem_of_lookup_1 in Hin as (i&Hi).
  destruct (Forall2_lookup_r _ _ _ _ _ H Hi) as (w&Hw&E). inv_ok.
  apply list_elem_of_lookup_2, list_elem_of_In, List.filter_In in Hw as [Hw1 Hw2].
  apply list_elem_of_In in Hw1. eauto 10.
Qed.

Lemma source_validate_all rules plan action reason rule :
  source_validate rules plan action = Ok (true, reason) → rule ∈ rules →
  rule_violation rule plan action = Ok None.
Proof.
  induction rules as [|r rules IH]; [by intros _ ?%elem_of_nil|].
  cbn [source_validate]. intros H [->|Hin]%elem_of_cons; inv_ok; destruct v as [v|]; try done.
  auto.
Qed.

(** C36: A change of a governed projection that the source-of-truth policy
    accepts depends, directly or transitively, on a write of the plan to the
    resource that owns the field, through a capability the rule allows, and
    both carry the same value, unless two texts are a SHA-256 collision. *)
Theorem projection_follows_source rules plan action reason rule :
  ChangePlan_post_init plan = Ok plan → action ∈ cp_actions plan →
  source_validate rules plan action = Ok (true, reason) → rule ∈ rules →
  resource_identity action ∈ sr_projection_resources rule → aa_risk action ≠ READ_ONLY →
  ∃ w here there,
    w ∈ cp_actions plan ∧ is_canonical_write rule w = true
    ∧ tc (depends (cp_actions plan)) (aa_action_id action) (aa_action_id w)
    ∧ selectors_for (sr_projection_extractors rule) (aa_capability action) = Ok here
    ∧ selectors_for (sr_canonical_extractors rule) (aa_capability w) = Ok there
    ∧ governed_values action here ≠ [] ∧ governed_values w there ≠ []
    ∧ ∀ v v', v ∈ governed_values action here → v' ∈ governed_values w there →
        v = v' ∨ collide (canonical_text (JStr v)) (canonical_text (JStr v')).
Proof.
  intros Hp Ha Hv Hr Hres Hrisk. apply (source_validate_all _ _ _ _ rule) in Hv; [|done].
  unfold rule_violation in Hv. rewrite (bool_decide_true _ Hres) in Hv. cbn [negb] in Hv.
  destruct (bool_decide (aa_capability action ∈ sr_projection_capabilities rule)); cbn [negb] in Hv.
  2: { by rewrite bool_decide_false in Hv. }
  destruct (selectors_for (sr_projection_extractors rule) (aa_capability action))
    as [here|] eqn:Eh; [|done].
  cbn [mbind result_bind] in Hv.
  destruct (Nat.eqb_spec (size (parameter_digests action here)) 1) as [Hsize|]; [|done].
  cbn [negb] in Hv. destruct (canonical_writes rule plan) as [writes|] eqn:Ew; [|done].
  cbn [mbind result_bind] in Hv. destruct writes as [|w0 writes]; [done|].
  destruct (dependency_ancestors_spec plan action Hp Ha) as (s&Es&Hs).
  rewrite Es in Hv. cbn [mbind result_bind] in Hv.
  destruct (existsb _ _) eqn:Ee in Hv; [|done].
  apply existsb_exists in Ee as ([id digests]&Hin&[Hd Hid]%andb_true_iff).
  apply bool_decide_eq_true in Hd, Hid. simpl in Hd, Hid. subst digests.
  rewrite <- list_elem_of_In in Hin.
  destruct (canonical_writes_elem _ _ _ _ _ Ew Hin) as (w&there&Hw&Hc&<-&Et&Edig).
  exists w, here, there. split_and!; try done; [by apply Hs| | |].
  - by apply parameter_digests_single.
  - apply parameter_digests_single. by rewrite <- Edig.
  - intros v v' Hgv Hgv'. apply digest_value_inj.
    apply (single_digest (parameter_digests action here)); [done| |].
    + apply elem_of_list_to_set, list_elem_of_fmap. eauto.
    + rewrite Edig. apply elem_of_list_to_set, list_elem_of_fmap. eauto.
Qed.

Definition sample_source_rule : SourceRule :=
  mk_SourceRule "status" ("jira", "issue", "OPS-1") [("teams", "draft", "OPS-1")] "outbound_only"
    ["jira.issue.transition"] ["teams.message.draft"]
    [("jira.issue.transition", ["target_status"])] [("teams.message.draft", ["body"])].

Lemma projection_follows_source_witness :
  ∃ w, w ∈ cp_actions notice_plan ∧ is_canonical_write sample_source_rule w = true.
Proof.
  destruct (projection_follows_source [sample_source_rule] notice_plan sample_notice
    "source-of-truth policy satisfied" sample_source_rule notice_plan_valid)
    as (w&?&?&Hw&Hc&_); [right; left|check|left|left|discriminate|].
  exists w. split; [exact Hw|exact Hc].
Defined.
