(* ===== verification/PlannerTheorems.v ===== *)
(** * PlannerTheorems: properties of the systems-governance gate

    What a permission of the gate means, that the orchestrator's check accepts
    only plans the gate permits now, and that it accepts what planning bound. *)

From S2P Require Import Prelude PyText PyJson PyHash PyTime PyStd ResourceLimits.
From S2P Require Import ModelsBase PlatformIdentity ModelsSystems ModelsReviews ModelsAction.
From S2P Require Import ModelsPlan ModelsResults Approvals Policy PlannerGate Samples.
From S2P Require Import PlanTheorems PolicyTheorems.

Open Scope Z_scope.

(** ** Reasons and conditions *)

Lemma reason_if_nil c reason : reason_if c reason = [] ↔ c = false.
Proof. by destruct c. Qed.

Lemma is_nil_true {A} (l : list A) : is_nil l = true ↔ l = [].
Proof. by destruct l. Qed.

Lemma is_nil_false {A} (l : list A) : is_nil l = false ↔ l ≠ [].
Proof. by destruct l. Qed.

Lemma is_someb_spec {A} (o : option A) : is_someb o = true ↔ is_Some o.
Proof. destruct o; simpl; split; [eauto|done|done|by intros []]. Qed.

Lemma not_subset_false {A} `{EqDecision A} (xs ys : list A) :
  not_subset xs ys = false ↔ xs ⊆ ys.
Proof.
  unfold not_subset. rewrite <- not_true_iff_false, existsb_exists.
  setoid_rewrite <- list_elem_of_In. setoid_rewrite negb_true_iff.
  setoid_rewrite bool_decide_eq_false. split.
  - intros H x Hx. destruct (decide (x ∈ ys)); [done|]. destruct H. eauto.
  - intros H (x&Hx&Hn). auto.
Qed.

(** Each action is traced exactly once, to an intent of the kernel, and every
    intent is used. *)
Definition traces_cover (plan : ChangePlan) (kernel : StrategyKernel) : Prop :=
  let traced := map st_action_id (cp_strategy_traces plan) in
  let intents := map si_intent_id (sk_coherent_actions kernel) in
  NoDup traced ∧ map aa_action_id (cp_actions plan) ⊆ traced
  ∧ traced ⊆ map aa_action_id (cp_actions plan)
  ∧ map st_intent_id (cp_strategy_traces plan) ⊆ intents
  ∧ intents ⊆ map st_intent_id (cp_strategy_traces plan).

Definition traced (plan : ChangePlan) (assessment : SystemsAssessment) : Prop :=
  match sa_strategy_kernel assessment with
  | Some kernel => traces_cover plan kernel
  | None => cp_strategy_traces plan = []
  end.

(** A confirmed review of this assessment and this kernel. *)
Definition coherent (plan : ChangePlan) (assessment : SystemsAssessment) : Prop :=
  ∃ review kernel,
    cp_strategy_coherence_review plan = Some review
    ∧ sa_strategy_kernel assessment = Some kernel
    ∧ scr_assessment_fingerprint review = SystemsAssessment_fingerprint assessment
    ∧ scr_strategy_kernel_fingerprint review = StrategyKernel_fingerprint kernel
    ∧ StrategyCoherenceReview_all_findings_confirmed review = true.

Definition complexity_justified (assessment : SystemsAssessment) : Prop :=
  sa_added_complexity assessment = []
  ∨ sa_alternatives_considered assessment ≠ []
    ∧ sa_existing_mechanisms_insufficient_because assessment ≠ ""
    ∧ sa_reversibility_strategy assessment ≠ "".

(** What the gate demands of a plan under an assessment. *)
Definition gate_permits (plan : ChangePlan) (assessment : SystemsAssessment) : Prop :=
  cp_goal plan = sa_desired_outcome assessment
  ∧ (if SystemsAssessment_fast_path_requested assessment then
       Forall (λ a, aa_risk a ∈ FAST_PATH_RISKS) (cp_actions plan)
       ∧ sa_added_complexity assessment = [] ∧ cp_strategy_coherence_review plan = None
     else
       sa_stocks assessment ≠ [] ∧ sa_flows assessment ≠ [] ∧ sa_feedback_loops assessment ≠ []
       ∧ sa_delays assessment ≠ [] ∧ sa_unintended_consequences assessment ≠ []
       ∧ coherent plan assessment)
  ∧ traced plan assessment ∧ complexity_justified assessment.

Lemma trace_reasons_nil plan assessment :
  strategy_trace_reasons plan assessment = [] ↔ traced plan assessment.
Proof.
  unfold strategy_trace_reasons, traced, traces_cover.
  destruct (sa_strategy_kernel assessment) as [kernel|].
  - rewrite !app_nil, !reason_if_nil, negb_false_iff, nodupb_NoDup, !not_subset_false. tauto.
  - by rewrite reason_if_nil, negb_false_iff, is_nil_true.
Qed.

Lemma findings_nil review :
  (strategy_coherence_findings review ≫= λ f : string * bool,
     reason_if (negb f.2) ("strategy coherence finding is false: " +:+ f.1)) = []
  ↔ StrategyCoherenceReview_all_findings_confirmed review = true.
Proof.
  unfold StrategyCoherenceReview_all_findings_confirmed.
  induction (strategy_coherence_findings review) as [|[n b] l IH]; [done|].
  rewrite bind_cons, app_nil, reason_if_nil, IH. cbn [forallb snd].
  by rewrite negb_false_iff, andb_true_iff.
Qed.

Lemma coherence_reasons_nil plan assessment :
  strategy_coherence_reasons plan assessment = [] ↔ coherent plan assessment.
Proof.
  unfold strategy_coherence_reasons, coherent.
  destruct (cp_strategy_coherence_review plan) as [review|]; [|naive_solver].
  destruct (sa_strategy_kernel assessment) as [kernel|].
  - rewrite !app_nil, findings_nil, !reason_if_nil, !negb_false_iff, !String.eqb_eq.
    split; [intros (?&?&?); by exists review, kernel|].
    by intros (?&?&[= <-]&[= <-]&?&?&?).
  - rewrite !app_nil. split; [by intros (_&?&_)|by intros (?&?&_&?&_)].
Qed.

Lemma unsafe_risks_nil plan :
  unsafe_risks plan = [] ↔ Forall (λ a, aa_risk a ∈ FAST_PATH_RISKS) (cp_actions plan).
Proof.
  assert (∀ l : list string, sort_by str_le (remove_dups l) = [] ↔ l = []) as Hs.
  { intros l. split; [|by intros ->]. intros E. destruct l as [|x l]; [done|].
    assert (x ∈ sort_by str_le (remove_dups (x :: l))) as Hx.
    { rewrite sort_by_elem, elem_of_remove_dups. by left. }
    rewrite E in Hx. by apply elem_of_nil in Hx. }
  unfold unsafe_risks. rewrite Hs.
  induction (cp_actions plan) as [|a l IH]; [split; [constructor|done]|].
  rewrite Forall_cons. cbn [List.filter]. case_bool_decide as Ha; cbn [negb map].
  - rewrite IH. tauto.
  - split; [done|tauto].
Qed.

Lemma denial_reasons_nil plan assessment :
  denial_reasons plan assessment = [] ↔ gate_permits plan assessment.
Proof.
  unfold denial_reasons, gate_permits.
  rewrite !app_nil, reason_if_nil, negb_false_iff, String.eqb_eq, trace_reasons_nil.
  assert (complexity_reasons assessment = [] ↔ complexity_justified assessment) as ->.
  { unfold complexity_reasons, complexity_justified.
    destruct (sa_added_complexity assessment); simpl; [tauto|].
    rewrite !app_nil, !reason_if_nil, is_nil_false, !String.eqb_neq. naive_solver. }
  destruct (SystemsAssessment_fast_path_requested assessment).
  - unfold fast_path_reasons.
    rewrite !app_nil, !reason_if_nil, !negb_false_iff, !is_nil_true, unsafe_risks_nil.
    destruct (cp_strategy_coherence_review plan); simpl; naive_solver.
  - unfold gated_reasons. rewrite !app_nil, !reason_if_nil, !is_nil_false, negb_false_iff,
      is_someb_spec, coherence_reasons_nil.
    assert (coherent plan assessment → is_Some (sa_strategy_kernel assessment)) as Hk
      by (intros (?&kernel&_&->&_); by eexists).
    tauto.
Qed.

(** ** The decision *)

Lemma SystemsGateDecision_post_init_Ok d d' : SystemsGateDecision_post_init d = Ok d' → d' = d.
Proof. intros H. by pose proof (SystemsGateDecision_post_init_id _ _ H). Qed.

Lemma gate_evaluate_Ok gate plan assessment d :
  gate_evaluate gate plan assessment = Ok d →
  (sd_permitted d = true ↔ gate_permits plan assessment)
  ∧ sd_route d = gate_route assessment
  ∧ sd_requires_human_review d = over_budget gate assessment
  ∧ sd_assessment_fingerprint d = SystemsAssessment_fingerprint assessment
  ∧ sd_complexity_score d = SystemsAssessment_complexity_score assessment.
Proof.
  unfold gate_evaluate. intros ->%SystemsGateDecision_post_init_Ok.
  cbn [sd_permitted sd_route sd_requires_human_review sd_assessment_fingerprint
    sd_complexity_score]. by rewrite is_nil_true, denial_reasons_nil.
Qed.

Section enforcement.
Context {A : Type} `{AuthenticatorLaws A}.

(** A genuine approval, in force now and bound to this plan, of every action. *)
Definition whole_plan_approved (policy : option (PolicyEngine A)) (plan : ChangePlan)
    (approvals : list Approval) (now : datetime) : Prop :=
  ∃ engine a x s, policy = Some engine ∧ pe_authenticator engine = Some a ∧ x ∈ approvals
    ∧ genuine a x s ∧ ap_plan_fingerprint x = ChangePlan_fingerprint plan
    ∧ (dt_le (ap_issued_at x) now && dt_lt now (ap_expires_at x)) = true
    ∧ map aa_action_id (cp_actions plan) ⊆ ap_approved_action_ids x.

Lemma policy_review_sound policy plan approvals now :
  policy_review policy plan approvals now = Ok true →
  whole_plan_approved policy plan approvals now.
Proof using All.
  unfold policy_review, has_authenticated_whole_plan_review, authenticated_approvals.
  destruct policy as [engine|]; [|done].
  destruct (pe_authenticator engine) as [a|] eqn:Ea; [|done].
  intros (l & (selected & Hs & [= <-])%bind_Ok & [= Hex])%bind_Ok.
  apply existsb_exists in Hex as ([x s] & Hin & Hsub%negb_true_iff%not_subset_false).
  rewrite <- list_elem_of_In in Hin.
  apply list_elem_of_fmap in Hin as ([i xs] & [= <-] & Hin).
  rewrite sort_by_elem, elem_of_map_to_list in Hin.
  apply select_approvals_spec in Hs as (Hsel & _ & _).
  destruct (Hsel _ _ _ Hin) as [He|(Hx & _ & Hu & action & _ & Hc)];
    [by rewrite lookup_empty in He|].
  unfold covers in Hc. rewrite !andb_true_iff, String.eqb_eq in Hc.
  exists engine, a, x, s. rewrite andb_true_iff. split_and!; try done; [|tauto..].
  by apply authenticated_genuine.
Qed.

(** C13: A plan that the check before execution accepts carries the decision the
    gate takes on it now, whole: evaluating the gate on the plan and its
    assessment gives the bound decision, with its route, score, reasons and need
    of a review; and that decision permits the plan: the goal is the assessed
    outcome, every action is traced to an intent of the strategy, added
    complexity is justified, a fast path plan only reads or generates, any other
    has a confirmed coherence review of this assessment and kernel.  Beyond the
    complexity budget, a genuine approval in force covers the whole plan; when
    trusted coherence is demanded, a gated plan was admitted in process or has
    such an approval. *)
Theorem enforced_plan_permitted plan gate policy approvals trusted now d :
  enforce_systems_governance plan gate policy approvals trusted now = Ok d →
  ∃ assessment, cp_systems_assessment plan = Some assessment
    ∧ cp_systems_decision plan = Some d
    ∧ gate_evaluate (default default_gate gate) plan assessment = Ok d
    ∧ sd_permitted d = true ∧ gate_permits plan assessment
    ∧ sd_route d = gate_route assessment
    ∧ sd_complexity_score d = SystemsAssessment_complexity_score assessment
    ∧ sd_requires_human_review d = over_budget (default default_gate gate) assessment
    ∧ sd_assessment_fingerprint d = SystemsAssessment_fingerprint assessment
    ∧ (over_budget (default default_gate gate) assessment = true →
         whole_plan_approved policy plan approvals now)
    ∧ (trusted = true → SystemsAssessment_fast_path_requested assessment = false →
         cp_trusted plan = true ∨ whole_plan_approved policy plan approvals now).
Proof using All.
  unfold enforce_systems_governance.
  destruct (cp_systems_assessment plan) as [assessment|] eqn:Ea; [|done].
  destruct (cp_systems_decision plan) as [bound|] eqn:Ed; [|done].
  intros (expected & Hg & Hr)%bind_Ok. apply bind_Ok in Hr as ([] & Hb & Hr).
  apply raise_if_Ok, negb_false_iff, bool_decide_eq_true in Hb. subst expected.
  apply bind_Ok in Hr as ([] & Hp & Hr). apply raise_if_Ok, negb_false_iff in Hp.
  apply bind_Ok in Hr as (t & Ht & Hr). apply bind_Ok in Hr as ([] & Htr & Hr).
  apply raise_if_Ok in Htr. apply bind_Ok in Hr as (reviewed & Hrev & Hr).
  apply bind_Ok in Hr as ([] & Hreviewed & [= ->]).
  apply raise_if_Ok, negb_false_iff in Hreviewed. subst reviewed.
  destruct (gate_evaluate_Ok _ _ _ _ Hg) as (Hperm&Hroute&Hreview&Hfp&Hscore).
  exists assessment. do 4 (split; [done|]). split; [by apply Hperm|]. do 4 (split; [done|]).
  split.
  - intros Hover. rewrite Hreview, Hover in Hrev. by apply policy_review_sound.
  - intros -> Hfast. rewrite Hroute in Htr. unfold gate_route in *. rewrite Hfast in Htr, Hroute.
    rewrite bool_decide_true in Htr by done. simpl in Htr. apply negb_false_iff in Htr. subst t.
    unfold strategy_coherence_execution_authenticated, has_trusted_strategy_coherence_admission in Ht.
    rewrite Ed, bool_decide_false in Ht by congruence.
    destruct (cp_trusted plan); [by left|right]. by apply policy_review_sound.
Qed.

(** The gate reads what binding does not change. *)
Lemma bound_gate_evaluate plan assessment a d p gate :
  replace_governance plan a d (cp_strategy_traces plan) (cp_strategy_coherence_review plan) = Ok p →
  gate_evaluate gate p assessment = gate_evaluate gate plan assessment
  ∧ cp_systems_assessment p = a ∧ cp_systems_decision p = d.
Proof. unfold replace_governance. intros ->%ChangePlan_post_init_id. done. Qed.

Lemma bind_systems_governance_Ok plan assessment gate p :
  bind_systems_governance plan assessment gate = Ok p →
  ∃ d, gate_evaluate (default default_gate gate) p assessment = Ok d ∧ sd_permitted d = true
    ∧ cp_systems_assessment p = Some assessment ∧ cp_systems_decision p = Some d.
Proof.
  unfold bind_systems_governance. intros ([] & _ & (d & Hd & H1)%bind_Ok)%bind_Ok.
  apply bind_Ok in H1 as ([] & Hp & Hr). apply raise_if_Ok, negb_false_iff in Hp.
  destruct (bound_gate_evaluate _ assessment _ _ _ (default default_gate gate) Hr) as (E&Ha&Hsd).
  exists d. by rewrite E.
Qed.

Lemma trusted_gate_evaluate gate p assessment b :
  gate_evaluate gate (set_trusted b p) assessment = gate_evaluate gate p assessment.
Proof. done. Qed.

Lemma trusted_bound_enforced p assessment gate d policy approvals now :
  gate_evaluate gate p assessment = Ok d → sd_permitted d = true →
  cp_systems_assessment p = Some assessment → cp_systems_decision p = Some d →
  over_budget gate assessment = false →
  enforce_systems_governance (with_trusted_strategy_coherence_admission p) (Some gate) policy
    approvals true now = Ok d.
Proof.
  intros Hg Hp Ha Hd Hb. unfold enforce_systems_governance.
  change (cp_systems_assessment (with_trusted_strategy_coherence_admission p))
    with (cp_systems_assessment p).
  change (cp_systems_decision (with_trusted_strategy_coherence_admission p))
    with (cp_systems_decision p).
  rewrite Ha, Hd. cbn [default from_option id]. unfold with_trusted_strategy_coherence_admission.
  rewrite trusted_gate_evaluate, Hg. mstep. rewrite (bool_decide_true (d = d)) by done. mstep.
  rewrite Hp. mstep. unfold strategy_coherence_execution_authenticated.
  change (cp_systems_decision (set_trusted true p)) with (cp_systems_decision p). rewrite Hd.
  change (has_trusted_strategy_coherence_admission (set_trusted true p)) with true.
  destruct (gate_evaluate_Ok _ _ _ _ Hg) as (_&_&Hreview&_). rewrite Hreview, Hb.
  destruct (bool_decide (sd_route d = FAST_PATH)); mstep; cbn [negb];
    rewrite andb_false_r; mstep; done.
Qed.
End enforcement.

(** What planning admits, execution accepts: a plan the governed planner
    returns carries its assessment and decision, and within the complexity
    budget the check before execution accepts it with that decision, without
    any approval. *)
Theorem planned_is_enforced {A} `{Authenticator A} planner goal g (policy : option (PolicyEngine A))
    approvals now :
  governed_planner_plan planner goal = Ok g →
  over_budget (gpl_gate planner) (gp_assessment g) = false →
  cp_systems_assessment (gp_plan g) = Some (gp_assessment g)
  ∧ gate_permits (gp_plan g) (gp_assessment g)
  ∧ enforce_systems_governance (gp_plan g) (Some (gpl_gate planner)) policy approvals true now
    = Ok (gp_decision g).
Proof.
  unfold governed_planner_plan, GovernedPlan_post_init. intros H1 Hb. inv_ok.
  rename select (bind_systems_governance _ _ _ = Ok _) into Hbind.
  apply bind_systems_governance_Ok in Hbind as (d & Hg & Hp & Ha & Hd). cbn [default] in Hg.
  cbn [gp_plan gp_assessment gp_decision] in *.
  rename select (cp_systems_decision (with_trusted_strategy_coherence_admission _) = _) into Hsd.
  change (cp_systems_decision (with_trusted_strategy_coherence_admission ?p))
    with (cp_systems_decision p) in *.
  change (cp_systems_assessment (with_trusted_strategy_coherence_admission ?p))
    with (cp_systems_assessment p) in *.
  rewrite Hd in Hsd. injection Hsd as <-. split; [done|]. split.
  - by destruct (gate_evaluate_Ok _ _ _ _ Hg) as [[Hperm _] _]; apply Hperm in Hp.
  - by eapply trusted_bound_enforced.
Qed.

(** ** A read plan on the fast path *)

Definition read_assessment : SystemsAssessment :=
  mk_SystemsAssessment "look at OPS-1" "unknown" "none" "one read" "look at OPS-1" "seen"
    "not found" true true true [] [] [] [] [] [] [] [] "" "" None
    "master-agent/systems-assessment@1".

Definition read_planner : GovernedPlanner :=
  mk_GovernedPlanner (evidence_assess read_assessment) (λ _ _, Ok read_plan) None default_gate.

Definition read_decision : SystemsGateDecision :=
  mk_SystemsGateDecision FAST_PATH true ["explicit fast path accepted"] 0
    (SystemsAssessment_fingerprint read_assessment) false None
    "master-agent/systems-gate-decision@1".

Definition bound_read_plan : ChangePlan :=
  mk_ChangePlan "look at OPS-1" [read_action] "planner" 18 (sample_time 9) "1.0"
    None None false None (Some read_assessment) (Some read_decision) [] None true.

Lemma planned_is_enforced_witness :
  enforce_systems_governance bound_read_plan (Some default_gate) (Some sample_engine) [] true
    (sample_time 9) = Ok read_decision.
Proof.
  apply (planned_is_enforced read_planner "look at OPS-1"
    (mk_GovernedPlan bound_read_plan read_assessment read_decision)); check.
Defined.

Lemma enforced_plan_permitted_witness :
  gate_evaluate default_gate bound_read_plan read_assessment = Ok read_decision
  ∧ gate_permits bound_read_plan read_assessment.
Proof.
  destruct (enforced_plan_permitted bound_read_plan None (Some sample_engine) [] true
    (sample_time 9) read_decision) as (a&Ha&_&Hg&_&H&_); [check|].
  injection Ha as <-. exact (conj Hg H).
Defined.
