(* ===== verification/OrderTheorems.v ===== *)
(** * OrderTheorems: the dependency order of a run

    [topological_order] ends on the actions of every plan object and lists each
    action once, after its dependencies. *)

From S2P Require Import Prelude PyText PyJson PyHash PyTime PyStd JsonCanonical ModelsBase.
From S2P Require Import ModelsAction ModelsPlan ActionGraph Canonical PlanTheorems CanonicalTheorems.
From S2P Require Import Orchestrator Samples.
From stdpp Require Import relations.

Open Scope Z_scope.

(** Every action of the list comes after its dependencies. *)
Definition dependencies_first (l : list AgentAction) : Prop :=
  ∀ pre a post, l = pre ++ a :: post → ∀ d, d ∈ aa_dependencies a → d ∈ done_ids pre.

Section order.
Context (actions : list AgentAction).
Context (ids_unique : NoDup (map aa_action_id actions)).
Context (known : dependencies_known (plan_graph actions)).
Context (no_cycle : acyclic (dependency_map (plan_graph actions))).
#[local] Abbreviation edge_to := (depends actions).

Definition ordered_ok (l : list AgentAction) : Prop :=
  NoDup (done_ids l) ∧ (∀ a, a ∈ l → a ∈ actions) ∧ dependencies_first l.

Lemma done_ids_app l k : done_ids (l ++ k) = done_ids l ++ done_ids k.
Proof. apply map_app. Qed.

Lemma done_ids_prefix l k d : l `prefix_of` k → d ∈ done_ids l → d ∈ done_ids k.
Proof. intros [m ->] H. rewrite done_ids_app. apply elem_of_app. by left. Qed.

Lemma ordered_ok_snoc l a :
  ordered_ok l → a ∈ actions → aa_action_id a ∉ done_ids l →
  (∀ d, d ∈ aa_dependencies a → d ∈ done_ids l) → ordered_ok (l ++ [a]).
Proof.
  intros (Hn&Hin&Hf) Ha Hnew Hd. split_and!.
  - rewrite done_ids_app. apply NoDup_app. split; [done|]. split; [|by apply NoDup_singleton].
    intros x Hx ->%list_elem_of_singleton. done.
  - intros x Hx. apply elem_of_app in Hx as [Hx|Hx]; [auto|]. by apply list_elem_of_singleton in Hx as ->.
  - intros pre x post E d Hx. destruct post as [|y post _] using rev_ind.
    + apply app_inj_tail in E as [-> ->]. auto.
    + assert (l ++ [a] = (pre ++ x :: post) ++ [y]) as E' by (rewrite E; by rewrite <-(assoc_L (++))).
      apply app_inj_tail in E' as [-> _]. by eapply Hf.
Qed.

(** A step of the search: it goes on from an order of the nodes already done,
    and adds nodes below [x] only. *)
Definition adds_below (x : uuid) (l l' : list AgentAction) : Prop :=
  l `prefix_of` l' ∧ ordered_ok l' ∧ x ∈ done_ids l'
  ∧ ∀ y, y ∈ done_ids l' → y ∈ done_ids l ∨ rtc edge_to x y.

Lemma visit_dependencies_ok visit x l ds :
  (∀ d a l, d ∈ ds → find_action actions d = Some a → ordered_ok l →
     ∃ l', visit l a = Ok l' ∧ adds_below d l l') →
  (∀ d, d ∈ ds → edge_to x d) → Forall (is_known actions) ds → ordered_ok l →
  ∃ l', visit_dependencies actions visit l ds = Ok l' ∧ l `prefix_of` l' ∧ ordered_ok l'
    ∧ (∀ d, d ∈ ds → d ∈ done_ids l') ∧ (∀ y, y ∈ done_ids l' → y ∈ done_ids l ∨ tc edge_to x y).
Proof using ids_unique.
  clear known no_cycle. intros Hv Hx Hk. revert l. induction ds as [|d ds IH]; intros l Hl.
  { exists l. split_and!; try done; [by intros d Hd%elem_of_nil|auto]. }
  apply Forall_cons in Hk as [Hkd Hk]. cbn [visit_dependencies]. unfold action_by_id.
  destruct (known_find actions ids_unique d Hkd) as [a Ha]. rewrite Ha. mstep.
  destruct (Hv d a l ltac:(by left) Ha Hl) as (l1&E1&Hp1&Hok1&Hd1&Hb1). rewrite E1. mstep.
  destruct (IH) with (l := l1) as (l2&E2&Hp2&Hok2&Hd2&Hb2); [| |done..|].
  { intros e b k He. apply Hv. by right. }
  { intros e He. apply Hx. by right. }
  exists l2. split; [done|]. split; [by etrans|]. split; [done|]. split.
  - intros e [->|He]%elem_of_cons; [by eapply done_ids_prefix|auto].
  - intros y [Hy|Hy]%Hb2; [|auto]. destruct (Hb1 y Hy) as [|Hr]; [auto|]. right.
    eapply tc_rtc_r; [|exact Hr]. apply tc_once, Hx. by left.
Qed.

(** The search from [a], below the nodes of [path], none of which is [a]. *)
Lemma visit_action_ok depth path l a :
  a ∈ actions → ordered_ok l → NoDup path →
  (∀ y, y ∈ path → is_known actions y ∧ tc edge_to y (aa_action_id a)) →
  (length actions < depth + length path)%nat →
  ∃ l', visit_action actions depth l a = Ok l' ∧ adds_below (aa_action_id a) l l'.
Proof using ids_unique known no_cycle.
  revert path l a. induction depth as [|depth IH]; intros path l a Ha Hl Hn Hp Hlen.
  { exfalso. assert (path ⊆+ map aa_action_id actions) as Hs.
    { apply NoDup_submseteq; [done|]. intros y Hy. by apply Hp. }
    apply submseteq_length in Hs. rewrite length_map in Hs. lia. }
  cbn [visit_action]. destruct (bool_decide_reflect (aa_action_id a ∈ done_ids l)) as [Hd|Hd].
  { exists l. split; [done|]. split; [done|]. split; [done|]. split; [done|auto]. }
  assert (find_action actions (aa_action_id a) = Some a) as Hf by by apply find_action_spec.
  assert (aa_action_id a ∉ path) as Hnew.
  { intros Hy. destruct (Hp _ Hy) as [_ Hc]. by apply (no_cycle (aa_action_id a)). }
  destruct (visit_dependencies_ok (visit_action actions depth) (aa_action_id a) l
    (aa_dependencies a)) as (l1&E1&Hp1&Hok1&Hd1&Hb1); [| |by eapply known_dependencies|done|].
  - intros d b k Hdep Hb Hk. apply find_action_spec in Hb as [Hb <-]; [|done].
    assert (edge_to (aa_action_id a) (aa_action_id b)) as He by by apply (depends_find _ ids_unique _ a).
    apply (IH (aa_action_id a :: path)); [done|done|by constructor| |cbn [length]; lia].
    intros y [->|Hy]%elem_of_cons.
    + split; [|by apply tc_once]. apply list_elem_of_fmap. by exists a.
    + destruct (Hp y Hy) as [? Ht]. split; [done|]. by eapply tc_r.
  - intros d Hdep. by apply (depends_find _ ids_unique _ a).
  - rewrite E1. mstep. eexists. split; [done|].
    assert (aa_action_id a ∉ done_ids l1) as Hnew1.
    { intros [Hy|Hc]%Hb1; [done|]. by apply (no_cycle (aa_action_id a)). }
    split; [by apply prefix_app_r|]. split; [by apply ordered_ok_snoc|]. split.
    + rewrite done_ids_app. apply elem_of_app. right. by apply list_elem_of_singleton.
    + intros y Hy. rewrite done_ids_app in Hy.
      apply elem_of_app in Hy as [[Hy|Hy]%Hb1| ->%list_elem_of_singleton]; [auto|right; by apply tc_rtc|].
      right. apply rtc_refl.
Qed.

Lemma visit_actions_ok l candidates :
  (∀ a, a ∈ candidates → a ∈ actions) → ordered_ok l →
  ∃ l', visit_actions actions (S (length actions)) l candidates = Ok l' ∧ ordered_ok l'
    ∧ l `prefix_of` l' ∧ ∀ a, a ∈ candidates → aa_action_id a ∈ done_ids l'.
Proof using ids_unique known no_cycle.
  revert l. induction candidates as [|a candidates IH]; intros l Hin Hl.
  { exists l. split_and!; try done. by intros a Ha%elem_of_nil. }
  cbn [visit_actions].
  destruct (visit_action_ok (S (length actions)) [] l a) as (l1&E1&Hp1&Hok1&Hd1&_);
    [apply Hin; by left|done|constructor|by intros y Hy%elem_of_nil|cbn; lia|].
  rewrite E1. mstep. destruct (IH l1) as (l2&E2&Hok2&Hp2&Hd2); [|done|].
  { intros b Hb. apply Hin. by right. }
  exists l2. split; [done|]. split; [done|]. split; [by etrans|].
  intros b [->|Hb]%elem_of_cons; [by eapply done_ids_prefix|auto].
Qed.

Lemma topological_order_ok :
  ∃ l, topological_order actions = Ok l ∧ l ≡ₚ actions ∧ dependencies_first l.
Proof using ids_unique known no_cycle.
  destruct (visit_actions_ok [] actions) as (l&E&(Hn&Hin&Hf)&_&Hall); [done| |].
  { split; [constructor|]. split; [by intros a Ha%elem_of_nil|]. by intros [|b pre] a post Hnil. }
  exists l. split; [done|]. split; [|done].
  apply NoDup_Permutation; [by eapply NoDup_fmap_1|by eapply NoDup_fmap_1|].
  intros a. split; [auto|]. intros Ha.
  pose proof (Hall a Ha) as Hd. apply list_elem_of_fmap in Hd as (b&E'&Hb).
  assert (b = a) as ->; [|done].
  apply Hin in Hb. assert (find_action actions (aa_action_id a) = Some b) as H1.
  { apply find_action_spec; [done|]. by split. }
  assert (find_action actions (aa_action_id a) = Some a) as H2 by by apply find_action_spec.
  congruence.
Qed.
End order.

(** The order of a plan object's actions. *)
Lemma plan_order plan :
  plan_sound plan →
  ∃ l, topological_order (cp_actions plan) = Ok l ∧ l ≡ₚ cp_actions plan ∧ dependencies_first l.
Proof. intros (_&Hn&_&Hk&Ha&_). by apply topological_order_ok. Qed.

(** What a run executes is a plan object. *)
Lemma execution_snapshot_sound plan p : execution_snapshot plan = Ok p → plan_sound p.
Proof.
  unfold execution_snapshot. intros H. inv_ok.
  rename select (ChangePlan_from_dict _ = Ok _) into Hp.
  apply ChangePlan_from_dict_wf in Hp as [[Hp _] _]. apply ChangePlan_post_init_sound in Hp.
  by destruct (has_trusted_strategy_coherence_admission plan).
Qed.

(** C6: The dependency order is total and correct.  For the plan a run executes,
    [_topological_order] returns (its recursion is never deeper than the number of
    actions plus one): each action of the plan exactly once, after all the actions
    it depends on. *)
Theorem topological_order_correct plan p :
  execution_snapshot plan = Ok p →
  ∃ l, topological_order (cp_actions p) = Ok l ∧ l ≡ₚ cp_actions p ∧ dependencies_first l.
Proof. intros Hp. by eapply plan_order, execution_snapshot_sound. Qed.

Lemma topological_order_correct_witness :
  ∃ l, topological_order (cp_actions sample_plan) = Ok l ∧ dependencies_first l.
Proof.
  destruct (topological_order_correct sample_plan sample_plan) as (l&Hl&_&Hd);
    [vm_compute; reflexivity|]. exists l. exact (conj Hl Hd).
Defined.
