(* ===== verification/OrchestratorTheorems.v ===== *)
(** * OrchestratorTheorems: properties of workflow runs

    What a run may do, proved over its trace of audit operations and connector
    calls: a dry run has no effect; an effect is only dispatched for an action
    every gate has passed, whose dependencies were verified and whose key was
    claimed; what is reported as verified was verified; every action of the plan
    is reported, in dependency order; an effect that happened is not repeated by
    a later run. *)

From S2P Require Import Prelude PyText PyJson PyHash PyTime PyStd ResourceLimits JsonCanonical PyJsonLoads.
From S2P Require Import ModelsBase PlatformIdentity ModelsSystems ModelsReviews ModelsAction ModelsBindings.
From S2P Require Import ModelsContext ActionGraph ModelsPlan ModelsResults Approvals Policy.
From S2P Require Import Capabilities Governance AuditLog PlannerGate Canonical Evidence Registry RunMonad.
From S2P Require Import Orchestrator Samples RunSamples PlanTheorems LedgerTheorems OrderTheorems.
From Stdlib Require Import Ascii.

Open Scope Z_scope.

(** ** Bookkeeping keeps every reasonable invariant *)

Section bookkeeping.
Context {A P B W : Type} `{Authenticator A} `{ProviderEgress P B}.
Context (env : environment) (self : WorkflowOrchestrator (A := A) (P := P) (W := W)).
Context (I : run_state W B → Prop) (ok : ActionState → Prop).

(** The invariant does not depend on the clock, audit events keep it, and so do
    reports and notes of the states [ok]. *)
Record bookkept : Prop := mk_bookkept {
  bk_clock : clock_kept I;
  bk_record : ∀ r p a t d now, audit_kept I (OpRecord r p a t d now);
  bk_append : ∀ report, ok (ar_state report) → keeps I (assign (set_reports (λ l, l ++ [report])));
  bk_state : ∀ i st, ok st → keeps I (assign (set_state_of i st));
  bk_abort : ∀ b, keeps I (assign (set_abort b));
}.
Context (Hb : bookkept).

Lemma keeps_event run_id plan_id action_id event_type payload :
  keeps I (record_event env run_id plan_id action_id event_type payload).
Proof using Hb. apply keeps_record_event; [apply Hb|intros; apply Hb]. Qed.

Lemma keeps_record_action run_id plan action report extra :
  keeps I (record_action env self run_id plan action report extra).
Proof using Hb. apply keeps_bind; [apply keeps_lift|]. intros. apply keeps_event. Qed.

Lemma keeps_conclude_with run_id plan action report extra :
  ok (ar_state report) → keeps I (conclude_with env self run_id plan action report extra).
Proof using Hb.
  intros Hs. apply keeps_bind; [by apply Hb|]. intros _. apply keeps_bind; [by apply Hb|]. intros _.
  apply keeps_record_action.
Qed.

Lemma keeps_conclude run_id plan action report :
  ok (ar_state report) → keeps I (conclude env self run_id plan action report).
Proof using Hb. apply keeps_conclude_with. Qed.

Lemma keeps_dry_compensation run_id plan : keeps I (maybe_compensate env self run_id plan true).
Proof. apply keeps_bind; [apply keeps_get|]. intros l. apply keeps_ret. Qed.

Lemma keeps_stop run_id plan dry_run :
  keeps I (maybe_compensate env self run_id plan dry_run) →
  keeps I (compensate_and_stop env self run_id plan dry_run).
Proof using Hb. intros Hm. apply keeps_bind; [exact Hm|]. intros b. apply Hb. Qed.

Lemma keeps_refuse run_id plan dry_run action state message :
  keeps I (maybe_compensate env self run_id plan dry_run) → ok state →
  keeps I (refuse env self run_id plan dry_run action state message).
Proof using Hb.
  intros Hm Hs. apply keeps_bind; [by apply keeps_conclude|]. intros _. by apply keeps_stop.
Qed.

(** The loop body keeps the invariant when the attempt of a permitted action
    does and the states of actions that are not attempted are [ok]. *)
Lemma keeps_process run_id plan approvals dry_run required action :
  keeps I (maybe_compensate env self run_id plan dry_run) →
  (∀ st, st ∈ [PLANNED; PROHIBITED; APPROVAL_REQUIRED; SKIPPED] → ok st) →
  (dry_run = false → keeps I (execute_permitted env self run_id plan dry_run action)) →
  keeps I (process_action env self run_id plan approvals dry_run required action).
Proof using Hb.
  intros Hm Hs Hx. apply keeps_bind; [apply keeps_get|]. intros [].
  { apply keeps_conclude, Hs. set_solver. }
  apply keeps_bind; [apply keeps_lift|]. intros [[] reason]; cbn [negb].
  2: { apply keeps_refuse; [done|]. apply Hs. set_solver. }
  destruct required.
  { apply keeps_bind; [apply keeps_lift|]. intros [[] r]; apply keeps_conclude, Hs; set_solver. }
  apply keeps_bind.
  { apply keeps_bind; [apply keeps_get|]. intros. apply keeps_ret. }
  intros [|d ds]. 2: { apply keeps_conclude, Hs. set_solver. }
  apply keeps_bind; [apply keeps_lift|]. intros [[] r]; cbn [negb].
  2: { apply keeps_refuse; [done|]. apply Hs. set_solver. }
  apply keeps_bind; [apply keeps_lift|]. intros minimum.
  apply keeps_bind; [apply keeps_now, Hb|]. intros t.
  apply keeps_bind; [apply keeps_lift|]. intros d.
  destruct (negb (pd_permitted d)).
  { apply keeps_refuse; [done|]. destruct (pd_approval_required d); apply Hs; set_solver. }
  destruct dry_run; [|auto]. apply keeps_conclude, Hs. set_solver.
Qed.

Lemma keeps_admit_plan plan approvals dry_run :
  keeps I (admit_plan env self plan approvals dry_run).
Proof using Hb.
  apply keeps_bind; [apply keeps_lift|]. intros p. apply keeps_bind; [apply keeps_now, Hb|].
  intros t. apply keeps_bind; [apply keeps_lift|]. intros d.
  apply keeps_bind; [apply keeps_now, Hb|]. intros t'. apply keeps_bind.
  { destruct dry_run; [apply keeps_ret|]. apply keeps_bind; [apply keeps_lift|].
    intros. apply keeps_ret. }
  intros b. apply keeps_bind; [apply keeps_lift|]. intros x. apply keeps_ret.
Qed.

Lemma keeps_run plan approvals dry_run :
  (∀ run_id plan required action,
     keeps I (process_action env self run_id plan approvals dry_run required action)) →
  keeps I (run_internal env self plan approvals dry_run).
Proof using Hb.
  intros Hp. apply keeps_bind; [apply keeps_admit_plan|]. intros [[[p assessment] d] required].
  apply keeps_bind; [apply keeps_uuid4, Hb|]. intros run_id.
  apply keeps_bind; [apply keeps_lift|]. intros ordered.
  apply keeps_bind; [apply keeps_event|]. intros _.
  apply keeps_bind; [apply keeps_for_each; auto|]. intros _.
  apply keeps_bind; [apply keeps_get|]. intros reports.
  apply keeps_bind; [apply keeps_lift|]. intros review.
  apply keeps_bind; [apply keeps_event|]. intros _. apply keeps_ret.
Qed.
End bookkeeping.

(** ** Dry runs *)

Definition is_event_record (e : event) : Prop :=
  match e with Audited (OpRecord _ _ _ _ _ _) _ => True | _ => False end.

Section dry_run.
Context {A P B W : Type} `{Authenticator A} `{ProviderEgress P B}.
Context (env : environment) (self : WorkflowOrchestrator (A := A) (P := P) (W := W)).

(** Since the state [s0], only audit events were written. *)
Definition untouched (s0 s : run_state W B) : Prop :=
  rs_world s = rs_world s0
  ∧ db_completed (rs_database s) = db_completed (rs_database s0)
  ∧ db_checkpoints (rs_database s) = db_checkpoints (rs_database s0)
  ∧ (∃ es, rs_trace s = rs_trace s0 ++ es ∧ Forall is_event_record es)
  ∧ Forall (λ r, ar_state r ∈ [PLANNED; PROHIBITED; APPROVAL_REQUIRED; SKIPPED])
      (rv_reports (rs_vars s)).

Lemma record_ledger r p a t d now db :
  let db' := (run_op (OpRecord r p a t d now) db).2 in
  db_completed db' = db_completed db ∧ db_checkpoints db' = db_checkpoints db.
Proof.
  cbn [run_op reply snd]. unfold record, transaction.
  destruct (db_state db) as [[count hash]|]; [|done]. cbn [or_raise mbind result_bind].
  by destruct (negb (latest_hash (db_events db) =? hash)%string).
Qed.

Lemma untouched_bookkept s0 :
  bookkept (untouched s0) (λ st, st ∈ [PLANNED; PROHIBITED; APPROVAL_REQUIRED; SKIPPED]).
Proof.
  split.
  - by intros s.
  - intros r p a t d now s (Hw&Hc&Hk&(es&He&Hes)&Hr).
    destruct (record_ledger r p a t d now (rs_database s)) as [Ec Ek].
    split; [done|]. split; [by etrans|]. split; [by etrans|]. split; [|done].
    eexists. split; [by rewrite (app_assoc _ es), <-He|].
    apply Forall_app. split; [done|]. by repeat constructor.
  - intros report Hst s (Hw&Hc&Hk&He&Hr). split_and!; try done.
    apply Forall_app. split; [done|]. by apply Forall_singleton.
  - by intros i st _ s.
  - by intros b s.
Qed.
End dry_run.

(** C4: A dry run has no effect: whatever it reports or raises, it leaves the
    systems behind the connectors, the idempotency ledger and the run checkpoints
    as they were, calls no connector and only appends audit events; and every
    action it reports is planned, prohibited, waiting for approval or skipped. *)
Theorem dry_run_has_no_effect {A P B W : Type} `{Authenticator A} `{ProviderEgress P B}
    env (self : WorkflowOrchestrator (A := A) (P := P) (W := W)) plan approvals db (w : W) :
  let s' := (run_internal env self plan approvals true (start db w)).2 in
  rs_world s' = w
  ∧ db_completed (rs_database s') = db_completed db
  ∧ db_checkpoints (rs_database s') = db_checkpoints db
  ∧ Forall is_event_record (rs_trace s')
  ∧ Forall (λ r, ar_state r ∈ [PLANNED; PROHIBITED; APPROVAL_REQUIRED; SKIPPED])
      (rv_reports (rs_vars s')).
Proof.
  intros s'. pose proof (untouched_bookkept (start db w : run_state W B)) as Hb.
  assert (untouched (start db w : run_state W B) s') as (?&?&?&(es&->&?)&?); [|done].
  apply (keeps_run env self _ _ Hb).
  - intros. apply (keeps_process _ _ _ _ Hb); [apply keeps_dry_compensation|auto|done].
  - split_and!; try done. by exists [].
Qed.

(** ** What is dispatched was authorised; what is reported verified was verified *)

(** The event is a successful verification of action [i]. *)
Definition verifies (i : uuid) (e : event) : Prop :=
  match e with
  | Called (CallVerify a _) (ReplyVerification (Ok v))
  | Called (CallVerifyCompleted a _) (ReplyVerification (Ok v)) =>
      aa_action_id a = i ∧ vr_verified v = true
  | _ => False
  end.

Definition verified_in (tr : list event) (i : uuid) : Prop := ∃ e, e ∈ tr ∧ verifies i e.

Definition is_guard (e : event) : Prop :=
  match e with Called (CallGuard _) _ => True | _ => False end.

(** The trace ends with a claim of the action's key that was granted, followed at
    most by the guard before the effect. *)
Definition claim_granted (tr : list event) (plan : ChangePlan) (action : AgentAction) : Prop :=
  ∃ pre token t c gs,
    tr = pre ++ Audited (OpClaim (aa_idempotency_key action)
                  (AgentAction_effect_fingerprint action) (cp_plan_id plan)
                  (aa_action_id action) token t) (RClaim (Ok c)) :: gs
    ∧ ic_state c = CLAIM_CLAIMED ∧ ic_token c = Some token ∧ Forall is_guard gs.

Definition claimed_states : list ActionState := [VERIFIED; REUSED].

Lemma verified_in_mono tr tr' i : tr `prefix_of` tr' → verified_in tr i → verified_in tr' i.
Proof. intros [k ->] (e&He&Hv). exists e. split; [|done]. apply elem_of_app. by left. Qed.

Lemma verified_in_snoc tr e i : verifies i e → verified_in (tr ++ [e]) i.
Proof. intros Hv. exists e. split; [|done]. apply elem_of_app. right. by apply list_elem_of_singleton. Qed.

(** Each dispatch of an effect satisfies [R] of the events before it. *)
Definition each_execute (R : list event → AgentAction → Prop) (tr : list event) : Prop :=
  ∀ pre a r post, tr = pre ++ Called (CallExecute a) r :: post → R pre a.

Lemma each_execute_nil R : each_execute R [].
Proof. by intros [|? ?]. Qed.

Lemma each_execute_snoc R tr e :
  each_execute R tr → (∀ a r, e = Called (CallExecute a) r → R tr a) → each_execute R (tr ++ [e]).
Proof.
  intros Ht He pre a r post E.
  destruct post as [|x post _] using rev_ind.
  - apply app_inj_tail in E as [-> ->]. by eapply He.
  - assert (tr ++ [e] = (pre ++ Called (CallExecute a) r :: post) ++ [x]) as E'.
    { rewrite E. by rewrite <-(assoc_L (++)). }
    apply app_inj_tail in E' as [-> _]. by eapply Ht.
Qed.

Section dispatch.
Context {A P B W : Type} `{Authenticator A} `{ProviderEgress P B}.
Context (env : environment) (self : WorkflowOrchestrator (A := A) (P := P) (W := W)).
Context (plan : ChangePlan) (approvals : list Approval) (dry_run required : bool).

(** The run applies its plan, whose strategy review is authenticated when one
    is required, and catalog, governance, source-of-truth and policy have passed
    the action. *)
Definition decided (action : AgentAction) : Prop :=
  dry_run = false ∧ required = false
  ∧ (∃ r, validate_capability self action = Ok (true, r))
  ∧ (∃ r, source_validate (wo_sources self) plan action = Ok (true, r))
  ∧ ∃ n t d, minimum_approvers_of self action = Ok n
      ∧ evaluate (wo_policy self) plan action approvals t n = Ok d ∧ pd_permitted d = true.

Definition authorised (pre : list event) (action : AgentAction) : Prop :=
  action ∈ cp_actions plan ∧ decided action
  ∧ (∃ c r, resolve (wo_connectors self) (rr_system (aa_target action))
              (Some (aa_capability action)) = Ok c
            ∧ validate_execution_contract self plan action c = Ok (true, r))
  ∧ (∀ d, d ∈ aa_dependencies action → verified_in pre d)
  ∧ (uses_idempotency action = true → claim_granted pre plan action).

Definition trace_ok : list event → Prop := each_execute authorised.

Lemma trace_ok_snoc tr e :
  trace_ok tr → (∀ a r, e = Called (CallExecute a) r → authorised tr a) → trace_ok (tr ++ [e]).
Proof. apply each_execute_snoc. Qed.

Definition noted (tr : list event) (vars : run_vars W B) : Prop :=
  (∀ i st, rv_state_by_id vars !! i = Some st → st ∈ claimed_states → verified_in tr i)
  ∧ (∀ r, r ∈ rv_reports vars → ar_state r ∈ claimed_states → verified_in tr (ar_action_id r)).

(** The invariant, from a point of the run where the trace was [tr0]. *)
Definition lawful (tr0 : list event) (s : run_state W B) : Prop :=
  tr0 `prefix_of` rs_trace s ∧ trace_ok (rs_trace s) ∧ noted (rs_trace s) (rs_vars s).

(** What keeps the invariant: everything but the dispatch of an effect and the
    report of a verified state. *)

Lemma noted_mono tr tr' vars : tr `prefix_of` tr' → noted tr vars → noted tr' vars.
Proof. intros Hp [H1 H2]. split; intros; eapply verified_in_mono; eauto. Qed.

Lemma lawful_event tr0 s db w n e :
  (∀ a r, e = Called (CallExecute a) r → authorised (rs_trace s) a) →
  lawful tr0 s → lawful tr0 (mk_run_state db w n (rs_trace s ++ [e]) (rs_vars s)).
Proof.
  intros He (Hp&Ht&Hn). split_and!; simpl.
  - by apply prefix_app_r.
  - by apply trace_ok_snoc.
  - eapply noted_mono; [|exact Hn]. by apply prefix_app_r.
Qed.

Lemma lawful_audit tr0 op : audit_kept (lawful tr0) op.
Proof. intros s Hs. by apply lawful_event. Qed.

Lemma lawful_call tr0 call :
  (∀ a, call ≠ CallExecute a) → call_kept (lawful tr0) call.
Proof. intros Hc s w r Hs. apply lawful_event; [|done]. intros a r' E. injection E as -> ->. by destruct (Hc a). Qed.

Lemma lawful_clock tr0 : clock_kept (lawful tr0).
Proof. by intros s. Qed.

Lemma lawful_append tr0 report :
  (ar_state report ∈ claimed_states → verified_in tr0 (ar_action_id report)) →
  keeps (lawful tr0) (assign (set_reports (λ l, l ++ [report]))).
Proof.
  intros Hr s (Hp&Ht&Hs&Hl). split; [done|]. split; [done|]. split; [done|].
  intros r Hin Hst. apply elem_of_app in Hin as [?|Hin]; [by apply Hl|].
  apply list_elem_of_singleton in Hin as ->.
  eapply verified_in_mono; [exact Hp|]. auto.
Qed.

Lemma lawful_state tr0 i st :
  (st ∈ claimed_states → verified_in tr0 i) → keeps (lawful tr0) (assign (set_state_of i st)).
Proof.
  intros Hr s (Hp&Ht&Hs&Hl). split; [done|]. split; [done|]. split; [|done]. intros j st' Hj Hst. simpl in Hj.
  apply lookup_insert_Some in Hj as [[<- <-]|[_ Hj]]; [|by eapply Hs].
  eapply verified_in_mono; [exact Hp|]. auto.
Qed.

Lemma lawful_bookkept tr0 : bookkept (lawful tr0) (λ st, st ∉ claimed_states).
Proof.
  split.
  - apply lawful_clock.
  - intros. apply lawful_audit.
  - intros report Hst. by apply lawful_append.
  - intros i st Hst. by apply lawful_state.
  - by intros b s.
Qed.

Lemma lawful_conclude tr0 run_id action report extra :
  (ar_state report ∈ claimed_states → verified_in tr0 (ar_action_id report)) →
  ar_action_id report = aa_action_id action →
  keeps (lawful tr0) (conclude_with env self run_id plan action report extra).
Proof.
  intros Hr Hi. apply keeps_bind; [by apply lawful_append|]. intros _.
  apply keeps_bind; [apply lawful_state; by rewrite <-Hi|]. intros _.
  eapply keeps_record_action, lawful_bookkept.
Qed.

Lemma lawful_replace tr0 i report :
  ar_state report ∉ claimed_states → keeps (lawful tr0) (replace_report i report).
Proof.
  intros Hr. apply keeps_bind; [apply keeps_get|]. intros l.
  destruct (i <? length l)%nat; [|apply keeps_raise].
  intros s (Hp&Ht&Hs&Hl). split; [done|]. split; [done|]. split; [done|]. intros r Hin Hst. simpl in Hin.
  apply list_elem_of_lookup in Hin as [j Hj].
  destruct (decide (j = i)) as [->|Hne].
  - apply list_lookup_insert_Some in Hj as [(_&<-&_)|[]]; done.
  - rewrite list_lookup_insert_ne in Hj by done. apply Hl; [by eapply list_elem_of_lookup_2|done].
Qed.

Lemma lawful_now tr0 : keeps (lawful tr0) (now env).
Proof. apply keeps_now, lawful_clock. Qed.
Lemma lawful_uuid4 tr0 : keeps (lawful tr0) (uuid4 env).
Proof. apply keeps_uuid4, lawful_clock. Qed.
Lemma lawful_audited {A'} tr0 op (project : audit_reply → result A') :
  keeps (lawful tr0) (audit op project).
Proof. apply keeps_audit, lawful_audit. Qed.
Lemma lawful_provider {A'} tr0 call (wrap : result A' → provider_reply) f :
  (∀ a, call ≠ CallExecute a) → keeps (lawful tr0) (provider call wrap f).
Proof. intros Hc. by apply keeps_provider, lawful_call. Qed.
Lemma lawful_record_event tr0 run_id plan_id action_id event_type payload :
  keeps (lawful tr0) (record_event env run_id plan_id action_id event_type payload).
Proof. eapply keeps_event, lawful_bookkept. Qed.
Lemma lawful_record_action tr0 run_id p action report extra :
  keeps (lawful tr0) (record_action env self run_id p action report extra).
Proof. eapply keeps_record_action, lawful_bookkept. Qed.
Lemma lawful_connector tr0 c : keeps (lawful tr0) (assign (set_connector c)).
Proof. by intros s. Qed.
Lemma lawful_result tr0 r : keeps (lawful tr0) (assign (set_result r)).
Proof. by intros s. Qed.
Lemma lawful_token tr0 t : keeps (lawful tr0) (assign (set_claim_token t)).
Proof. by intros s. Qed.
Lemma lawful_egress tr0 e : keeps (lawful tr0) (assign (set_egress e)).
Proof. by intros s. Qed.
Lemma lawful_executed tr0 f : keeps (lawful tr0) (assign (set_executed f)).
Proof. by intros s. Qed.
Lemma lawful_abort tr0 b : keeps (lawful tr0) (assign (set_abort b)).
Proof. by intros s. Qed.
Lemma lawful_reset tr0 : keeps (lawful tr0) (assign reset_attempt).
Proof. by intros s. Qed.
#[local] Hint Resolve lawful_now lawful_uuid4 lawful_audited lawful_record_event
  lawful_record_action lawful_connector lawful_result lawful_token lawful_egress
  lawful_executed lawful_abort lawful_reset : keeps_db.
#[local] Hint Extern 1 (keeps _ (provider _ _ _)) => apply lawful_provider; done : keeps_db.
#[local] Hint Extern 1 (keeps _ (replace_report _ _)) =>
  apply lawful_replace; cbn; set_solver : keeps_db.

Lemma lawful_compensate_item tr0 run_id item :
  keeps (lawful tr0) (compensate_item env self run_id plan item).
Proof.
  unfold compensate_item, settle_report, compensate_verified, current_report. keep.
Qed.

Lemma lawful_compensate tr0 run_id :
  keeps (lawful tr0) (maybe_compensate env self run_id plan dry_run).
Proof.
  unfold maybe_compensate. pose proof lawful_compensate_item. keep.
  assert (∀ items, keeps (lawful tr0) (item_states items)) as Hi.
  { induction items; simpl; unfold current_report; keep. }
  apply Hi.
Qed.
#[local] Hint Resolve lawful_compensate : keeps_db.

Lemma lawful_persist tr0 action token certified message r connector :
  keeps (lawful tr0)
    (persist_idempotency_outcome env action token certified message r connector).
Proof. unfold persist_idempotency_outcome, idempotency_record. keep. Qed.
#[local] Hint Resolve lawful_persist : keeps_db.

Lemma lawful_refuse tr0 run_id action state message :
  state ∉ claimed_states →
  keeps (lawful tr0) (refuse env self run_id plan dry_run action state message).
Proof. intros. eapply keeps_refuse; [apply lawful_bookkept|apply lawful_compensate|done]. Qed.
#[local] Hint Extern 1 (keeps _ (refuse _ _ _ _ _ _ _ _)) =>
  apply lawful_refuse; unfold claimed_states; set_solver : keeps_db.

(** A lawful computation whose value and trace satisfy [R] when it returns. *)
Definition lawfully {A'} (tr0 : list event) (m : run W B A') (R : A' → list event → Prop) : Prop :=
  ∀ s, lawful tr0 s →
    wp m (λ a s', lawful tr0 s' ∧ R a (rs_trace s')) (λ _ s', lawful tr0 s') s.

Lemma lawfully_keeps {A'} tr0 (m : run W B A') R : lawfully tr0 m R → keeps (lawful tr0) m.
Proof. intros Hm. apply keeps_wp. intros s Hs. eapply wp_mono; [by apply Hm|by intros ? ? []|done]. Qed.

Lemma keeps_lawfully {A'} tr0 (m : run W B A') :
  keeps (lawful tr0) m → lawfully tr0 m (λ _ tr, tr0 `prefix_of` tr).
Proof.
  intros Hm s Hs. eapply wp_mono; [exact (proj1 (keeps_wp _ _) Hm s Hs)| |done].
  intros a s' Hs'. split; [done|apply Hs'].
Qed.

Lemma keeps_lawfully_any {A'} tr0 (m : run W B A') :
  keeps (lawful tr0) m → lawfully tr0 m (λ _ _, True).
Proof.
  intros Hm s Hs. eapply wp_mono; [by apply (keeps_lawfully _ _ Hm)|by intros ? ? []|done].
Qed.

(** From the first step's value on, the trace so far is a prefix. *)
Lemma lawful_weaken tr0 tr1 s : tr0 `prefix_of` tr1 → lawful tr1 s → lawful tr0 s.
Proof. intros Hp (?&?). split; [by etrans|done]. Qed.

Lemma lawfully_bind {A1 A2} tr0 (m : run W B A1) (f : A1 → run W B A2) R R' :
  lawfully tr0 m R →
  (∀ a tr1, tr0 `prefix_of` tr1 → R a tr1 → lawfully tr1 (f a) R') →
  lawfully tr0 (m ≫= f) R'.
Proof.
  intros Hm Hf s Hs. apply wp_bind. eapply wp_mono; [by apply Hm| |done].
  intros a s' [Hs' Ha]. assert (tr0 `prefix_of` rs_trace s') as Hp by apply Hs'.
  assert (lawful (rs_trace s') s') as Hs1 by (split; [done|apply Hs']).
  eapply wp_mono; [by apply (Hf a _ Hp Ha)| |].
  - intros b s2 [H2 HR]. split; [by eapply lawful_weaken|done].
  - intros e s2 H2. by eapply lawful_weaken.
Qed.

Lemma lawfully_try {A'} tr0 (m : run W B A') h R :
  lawfully tr0 m R →
  (∀ e k tr1, h e = Some k → tr0 `prefix_of` tr1 → lawfully tr1 k R) →
  lawfully tr0 (try_except m h) R.
Proof.
  intros Hm Hh s Hs. apply wp_try. eapply wp_mono; [by apply Hm|done|].
  intros e s' Hs'. destruct (h e) as [k|] eqn:E; [|done].
  assert (tr0 `prefix_of` rs_trace s') as Hp by apply Hs'.
  assert (lawful (rs_trace s') s') as Hs1 by (split; [done|apply Hs']).
  eapply wp_mono; [by apply (Hh e k _ E Hp)| |].
  - intros b s2 [H2 HR]. split; [by eapply lawful_weaken|done].
  - intros e2 s2 H2. by eapply lawful_weaken.
Qed.

Lemma lawfully_ret {A'} tr0 (a : A') (R : A' → list event → Prop) :
  (∀ tr, tr0 `prefix_of` tr → R a tr) → lawfully tr0 (mret a) R.
Proof. intros HR s Hs. split; [done|]. apply HR, Hs. Qed.

Lemma lawfully_verification tr0 call i (f : W → result VerificationResult * W) :
  (∀ a, call ≠ CallExecute a) →
  (∀ v, vr_verified v = true → verifies i (Called call (ReplyVerification (Ok v)))) →
  lawfully tr0 (provider call ReplyVerification f)
    (λ v tr, vr_verified v = true → verified_in tr i).
Proof.
  intros Hc Hi s Hs. unfold wp, provider. destruct (f (rs_world s)) as [r w].
  assert (lawful tr0 (mk_run_state (rs_database s) w (rs_tick s)
    (rs_trace s ++ [Called call (ReplyVerification r)]) (rs_vars s))) as Hs'.
  { apply lawful_event; [|done]. intros a r' E. injection E as -> _. by destruct (Hc a). }
  destruct r as [v|e]; [|done]. split; [done|]. intros Hv. by apply verified_in_snoc, Hi.
Qed.

Lemma lawful_reuse tr0 run_id action connector prior :
  keeps (lawful tr0) (reuse_completed env self run_id plan dry_run action connector prior).
Proof.
  unfold reuse_completed. destruct (con_verify_completed connector) as [f|]; [|keep].
  eapply lawfully_keeps, lawfully_bind with
    (R := λ o tr, ∀ v, o = inl v → vr_verified v = true → verified_in tr (aa_action_id action))
    (R' := λ _ _, True).
  - apply lawfully_try.
    + eapply lawfully_bind; [by apply (lawfully_verification _ _ (aa_action_id action))|].
      intros v tr1 _ Hv. apply lawfully_ret. intros tr Hp x [= <-] Hx.
      eapply verified_in_mono; [done|]. by apply Hv.
    + intros e k tr1 E _. destruct (connector_failure e); simplify_eq/=. by apply lawfully_ret.
  - intros [v|cls] tr1 _ Hv; [|apply keeps_lawfully_any; keep].
    destruct (vr_verified v) eqn:Ev; cbn [negb]; [|apply keeps_lawfully_any; keep].
    apply keeps_lawfully_any, lawful_conclude; [|done]. intros _. by eapply Hv.
Qed.

Lemma lawful_reconcile tr0 run_id action connector outcome :
  keeps (lawful tr0) (reconcile env self run_id plan action connector outcome).
Proof.
  unfold reconcile. destruct (indeterminate_result _) as [record|]; [|keep].
  destruct (con_verify_completed connector) as [f|]; [|keep].
  apply keeps_try; [|keep_handler; keep].
  eapply lawfully_keeps, lawfully_bind with (R' := λ _ _, True);
    [by apply (lawfully_verification _ _ (aa_action_id action))|].
  intros v tr1 _ Hv. apply keeps_lawfully_any. destruct (vr_verified v) eqn:Ev; [|keep].
  apply keeps_bind; [keep|]. intros t. apply keeps_bind; [keep|]. intros _.
  apply keeps_bind; [|intros _; keep]. apply lawful_conclude; [|done]. intros _. by apply Hv.
Qed.
#[local] Hint Resolve lawful_reuse lawful_reconcile : keeps_db.

(** *** The claim *)

Lemma claim_action_granted key fp p a token t db c :
  (claim_action key fp p a token t db).1 = Ok c → is_someb (ic_token c) = true →
  ic_state c = CLAIM_CLAIMED ∧ ic_token c = Some token.
Proof.
  unfold claim_action, transaction. destruct (db_completed db !! key) as [r|]; [|by intros [= <-]].
  destruct (negb _); [by intros [= <-]|].
  destruct (co_status r =? "completed")%string; [by intros [= <-]|].
  destruct (co_status r =? "failed")%string.
  - destruct (update_completed _ _ _ _) as [n db']. destruct (negb (n =? 1)); [done|].
    by intros [= <-].
  - destruct (co_status r =? "indeterminate")%string; [by intros [= <-]|].
    destruct (co_status r =? "pending")%string; by intros [= <-].
Qed.

Lemma lawfully_claim_key tr0 run_id action connector :
  lawfully tr0 (claim_key env self run_id plan dry_run action connector)
    (λ proceed tr, proceed = true → claim_granted tr plan action).
Proof.
  unfold claim_key.
  eapply lawfully_bind; [apply keeps_lawfully_any; keep|]. intros token tr1 _ _.
  eapply lawfully_bind; [apply keeps_lawfully_any; keep|]. intros t tr2 _ _.
  assert (∀ m : run W B unit, keeps (lawful tr2) m →
    lawfully tr2 (m ;; mret false) (λ proceed tr, proceed = true → claim_granted tr plan action))
    as Hstop.
  { intros m Hm. eapply lawfully_bind; [by apply keeps_lawfully_any|]. intros. by apply lawfully_ret. }
  intros s Hs. apply wp_bind. unfold wp at 1, audit. cbn [run_op reply].
  pose proof (claim_action_granted (aa_idempotency_key action)
    (AgentAction_effect_fingerprint action) (cp_plan_id plan) (aa_action_id action)
    (uuid_str token) t (rs_database s)) as Hg.
  destruct (claim_action _ _ _ _ _ _ _) as [r db']. cbn [fst snd as_claim] in *.
  set (e := Audited _ _).
  assert (lawful tr2 (mk_run_state db' (rs_world s) (rs_tick s) (rs_trace s ++ [e]) (rs_vars s)))
    as Hs' by by apply lawful_event.
  destruct r as [c|err]; [|done].
  assert (is_someb (ic_token c) = true → claim_granted (rs_trace s ++ [e]) plan action) as Hc.
  { intros Hc. destruct (Hg c eq_refl Hc) as [E1 E2].
    exists (rs_trace s), (uuid_str token), t, c, []. by split_and!. }
  destruct (ic_state c);
    try (apply Hstop; [unfold resolve_indeterminate; keep|exact Hs']).
  all: unfold wp, mbind, run_bind, assign, lift; cbn;
    destruct (is_someb (ic_token c)); cbn; [split; [done|auto]|done].
Qed.

(** *** The attempt *)

Definition fits (action : AgentAction) (report : ActionReport B) (tr : list event) : Prop :=
  ar_action_id report = aa_action_id action
  ∧ (ar_state report ∈ claimed_states → verified_in tr (aa_action_id action)).

Lemma lawfully_unverified tr0 action connector r message :
  lawfully tr0 (unverified_report env action connector r message) (fits action).
Proof.
  unfold unverified_report. eapply lawfully_bind; [apply keeps_lawfully_any; keep|]. intros t tr1 _ _.
  eapply lawfully_bind; [apply keeps_lawfully_any; keep|]. intros b tr2 _ _.
  apply lawfully_ret. intros tr _. split; [done|]. cbn. unfold claimed_states. set_solver.
Qed.

Lemma lawfully_verified tr0 action connector v :
  verified_in tr0 (aa_action_id action) →
  lawfully tr0 (verified_report env self plan action connector v) (fits action).
Proof.
  intros Hv. apply (lawfully_bind _ _ _ (λ _ _, True)); [apply keeps_lawfully_any; keep|].
  intros e tr1 H1 _. apply (lawfully_bind _ _ _ (λ _ _, True)); [apply keeps_lawfully_any; keep|].
  intros r tr2 H2 _. apply (lawfully_bind _ _ _ (λ _ _, True)); [apply keeps_lawfully_any; keep|].
  intros x tr3 H3 _. apply (lawfully_bind _ _ _ (λ _ _, True)).
  { apply keeps_lawfully_any. unfold recheck_egress. keep. }
  intros err tr4 H4 _. apply (lawfully_bind _ _ _ (λ _ _, True)); [apply keeps_lawfully_any; keep|].
  intros r' tr5 H5 _. apply (lawfully_bind _ _ _ (λ _ _, True)).
  { apply keeps_lawfully_any. unfold idempotency_record. keep. }
  intros _ tr6 H6 _. apply lawfully_ret. intros tr H7. split; [done|]. intros _.
  eapply verified_in_mono; [|exact Hv]. by repeat (etrans; [eassumption|]).
Qed.

Lemma lawfully_lift {A'} tr0 (r : result A') : lawfully tr0 (lift r) (λ a _, r = Ok a).
Proof. intros s Hs. apply wp_lift; intros ? E; [split; done|done]. Qed.

Lemma lawfully_retain_verify tr0 run_id action connector budget r :
  lawfully tr0 (r ← retain_effect env run_id plan action connector budget r;
                verify_effect env self plan action connector r) (fits action).
Proof.
  apply (lawfully_bind _ _ _ (λ _ _, True)).
  { apply keeps_lawfully_any. unfold retain_effect. keep. }
  intros r' tr1 _ _. unfold verify_effect.
  apply (lawfully_bind _ _ _ (λ _ _, True)); [apply keeps_lawfully_any; keep|].
  intros snapshot tr2 _ _. eapply lawfully_bind; [by apply (lawfully_verification _ _ (aa_action_id action))|].
  intros v tr3 _ Hv. destruct (vr_verified v) eqn:Ev; [|apply lawfully_unverified].
  apply lawfully_verified, Hv, Ev.
Qed.

(** From a state whose trace authorises the action, the dispatch is lawful. *)
Lemma lawful_dispatch tr0 run_id action connector budget s :
  lawful tr0 s → authorised (rs_trace s) action →
  wp (dispatch env self run_id plan action connector budget)
    (λ r s', lawful tr0 s' ∧ fits action r (rs_trace s')) (λ _ s', lawful tr0 s') s.
Proof.
  intros Hs Ha. unfold dispatch. apply wp_bind. unfold wp at 1, provider.
  destruct (con_execute connector action (rs_world s)) as [r w].
  set (s1 := mk_run_state _ _ _ _ _).
  assert (lawful tr0 s1) as H1 by (apply lawful_event; [by intros a r' [= <-]|done]).
  destruct r as [r|]; [|done]. by apply lawfully_retain_verify.
Qed.

Lemma lawfully_attempt tr0 run_id action :
  action ∈ cp_actions plan → decided action →
  (∀ d, d ∈ aa_dependencies action → verified_in tr0 d) →
  lawfully tr0 (attempt env self run_id plan dry_run action)
    (λ o tr, match o with Some r => fits action r tr | None => True end).
Proof.
  intros Hin Hdec Hdeps. unfold attempt.
  eapply lawfully_bind; [apply lawfully_lift|]. intros connector tr1 H1 Hc.
  apply (lawfully_bind _ _ _ (λ _ _, True)); [apply keeps_lawfully_any; keep|]. intros _ tr2 H2 _.
  eapply lawfully_bind; [apply lawfully_lift|]. intros [[] reason] tr3 H3 He; cbn [negb].
  2: { eapply lawfully_bind; [apply keeps_lawfully_any; keep|]. intros. by apply lawfully_ret. }
  apply (lawfully_bind _ _ _ (λ _ _, True)).
  { apply keeps_lawfully_any. unfold authorize_egress. keep. }
  intros [message|] tr4 H4 _.
  { eapply lawfully_bind; [apply keeps_lawfully_any; keep|]. intros. by apply lawfully_ret. }
  apply (lawfully_bind _ _ _ (λ _ _, True)).
  { apply keeps_lawfully_any. unfold record_egress. keep. }
  intros _ tr5 H5 _. apply (lawfully_bind _ _ _ (λ _ _, True)); [apply keeps_lawfully_any; keep|].
  intros budget tr6 H6 _ s Hs. apply wp_bind.
  assert (lawfully tr6 (if uses_idempotency action
      then claim_key env self run_id plan dry_run action connector else mret true)
    (λ proceed tr, proceed = true → uses_idempotency action = true → claim_granted tr plan action))
    as Hclaim.
  { destruct (uses_idempotency action); [|by apply lawfully_ret].
    intros s' Hs'. eapply wp_mono; [by apply lawfully_claim_key| |done].
    intros p s2 [? Hp]. split; [done|]. auto. }
  eapply wp_mono; [by apply Hclaim| |done]. intros [] s1 [Hs1 Hg]; [|by split].
  cbn [negb]. apply wp_bind.
  assert (authorised (rs_trace s1 ++ [Called (CallGuard action) (ReplyGuard (Ok tt))]) action
          ∧ authorised (rs_trace s1) action) as [Ha Ha'].
  { assert (tr0 `prefix_of` rs_trace s1) as Hp.
    { repeat (etrans; [eassumption|]). apply Hs1. }
    split; (split; [done|]; split; [done|]; split; [by exists connector, reason|]; split).
    - intros d Hd. eapply verified_in_mono; [|by apply Hdeps]. by apply prefix_app_r.
    - intros Hu. destruct (Hg eq_refl Hu) as (pre&token&t&c&gs&->&?&?&?).
      exists pre, token, t, c, (gs ++ [Called (CallGuard action) (ReplyGuard (Ok tt))]).
      split_and!; [by rewrite <-(assoc_L (++))|done..|]. apply Forall_app. split; [done|].
      by apply Forall_singleton.
    - intros d Hd. eapply verified_in_mono; [|by apply Hdeps]. done.
    - intros Hu. by apply Hg. }
  eapply (wp_mono _ (λ _ s2, lawful tr6 s2 ∧ authorised (rs_trace s2) action) _
    (λ _ s2, lawful tr6 s2)); [| |done].
  - unfold pre_effect_guard. destruct (wo_pre_effect_guard self) as [guard|]; [|done].
    destruct (uses_idempotency action); [|done]. unfold wp, when_run, provider.
    destruct (guard action (rs_world s1)) as [[[]|e] w]; [split|]; try done; by apply lawful_event.
  - intros _ s2 [H7 H8]. apply wp_bind. eapply wp_mono; [by apply lawful_dispatch| |done].
    intros report s3 [??]. by split.
Qed.

Lemma lawfully_certified tr0 action state message text :
  state ∉ claimed_states →
  lawfully tr0 (certified_failure env action state message text) (fits action).
Proof.
  intros Hst. unfold certified_failure.
  do 4 (eapply lawfully_bind; [apply keeps_lawfully_any; keep|]; intros ? ? _ _).
  apply lawfully_ret. intros tr _. split; [done|]. cbn.
  match goal with |- context [if ?b then _ else _] => destruct b end; [done|].
  unfold claimed_states. set_solver.
Qed.

Lemma lawfully_uncertain tr0 action e :
  lawfully tr0 (uncertain_failure env action e) (fits action).
Proof.
  unfold uncertain_failure.
  do 4 (eapply lawfully_bind; [apply keeps_lawfully_any; keep|]; intros ? ? _ _).
  apply lawfully_ret. intros tr _. split; [done|]. cbn.
  match goal with |- context [if ?b then _ else _] => destruct b end;
    unfold claimed_states; set_solver.
Qed.

Lemma lawfully_failure tr0 action e m :
  attempt_failure env action e = Some m →
  lawfully tr0 m (λ o tr, match o with Some r => fits action r tr | None => True end).
Proof.
  assert (∀ k, lawfully tr0 k (fits action) →
    lawfully tr0 (report ← k; mret (Some report))
      (λ o tr, match o with Some r => fits action r tr | None => True end)) as Hk.
  { intros k Hk. eapply lawfully_bind; [exact Hk|]. intros r tr1 _ [Hi Hr].
    apply lawfully_ret. intros tr Hp. split; [done|]. intros Hst.
    eapply verified_in_mono; [done|]. by apply Hr. }
  unfold attempt_failure. intros E.
  destruct e; simplify_eq/=; try (apply Hk, lawfully_uncertain);
    apply Hk, lawfully_certified; unfold claimed_states; set_solver.
Qed.

Lemma fits_hidden action egress report tr :
  fits action report tr → fits action (hide_failed_read egress report) tr.
Proof.
  intros [Hi Hs]. unfold hide_failed_read. destruct egress as [e|]; [|done].
  destruct (bool_decide_reflect (ar_state report = VERIFIED)); done.
Qed.

Lemma lawful_execute_permitted tr0 run_id action :
  action ∈ cp_actions plan → decided action →
  (∀ d, d ∈ aa_dependencies action → verified_in tr0 d) →
  keeps (lawful tr0) (execute_permitted env self run_id plan dry_run action).
Proof.
  intros Hin Hdec Hdeps. unfold execute_permitted.
  eapply lawfully_keeps, lawfully_bind with (R' := λ _ _, True); [apply keeps_lawfully_any; keep|].
  intros _ tr1 H1 _. eapply lawfully_bind.
  { apply lawfully_try.
    - apply lawfully_attempt; [done..|]. intros d Hd. eapply verified_in_mono; [done|]. by apply Hdeps.
    - intros e k tr2 E _. by eapply lawfully_failure. }
  intros [report|] tr2 _ Hf; [|by apply lawfully_ret].
  eapply lawfully_bind; [apply keeps_lawfully_any; keep|]. intros egress tr3 H3 _.
  apply keeps_lawfully_any. cbn zeta. destruct (fits_hidden _ egress _ _ Hf) as [Hi Hs].
  apply keeps_bind.
  - apply lawful_conclude; [|done]. intros Hst. rewrite Hi. eapply verified_in_mono; [done|]. by apply Hs.
  - intros _. unfold compensate_and_stop. keep.
Qed.
#[local] Hint Extern 1 (keeps _ (conclude _ _ _ _ _ _)) =>
  eapply keeps_conclude; [apply lawful_bookkept|cbn; unfold claimed_states; set_solver] : keeps_db.

(** *** The loop *)

Lemma lawful_decide tr0 run_id action :
  action ∈ cp_actions plan → (∃ r, validate_capability self action = Ok (true, r)) →
  required = false → (dry_run = false → ∀ d, d ∈ aa_dependencies action → verified_in tr0 d) →
  keeps (lawful tr0) (decide_action env self run_id plan approvals dry_run action).
Proof.
  intros Hin Hcap Hreq Hdeps. unfold decide_action.
  eapply lawfully_keeps, lawfully_bind with (R' := λ _ _, True); [apply lawfully_lift|].
  intros [[] reason] tr1 H1 Hsrc; apply keeps_lawfully_any; cbn [negb]; [|keep].
  eapply lawfully_keeps, lawfully_bind with (R' := λ _ _, True); [apply lawfully_lift|].
  intros n tr2 H2 Hn.
  eapply lawfully_bind with (R' := λ _ _, True); [apply keeps_lawfully_any; keep|].
  intros t tr3 H3 _. eapply lawfully_bind with (R' := λ _ _, True); [apply lawfully_lift|].
  intros d tr4 H4 Hd. apply keeps_lawfully_any.
  destruct (pd_permitted d) eqn:Ep; cbn [negb].
  2: { apply lawful_refuse. destruct (pd_approval_required d); unfold claimed_states; set_solver. }
  apply keeps_if; intros Edry; [keep|]. apply lawful_execute_permitted; [done| |].
  - split; [done|]. split; [done|]. split; [done|]. split; [by exists reason|]. by exists n, t, d.
  - intros i Hi. eapply verified_in_mono; [|by apply Hdeps]. by repeat (etrans; [eassumption|]).
Qed.

Lemma lawfully_dependencies tr0 action :
  lawfully tr0 (failed_dependencies false action)
    (λ failed tr, failed = [] → ∀ d, d ∈ aa_dependencies action → verified_in tr d).
Proof.
  intros s Hs. split; [done|]. intros Hnil d Hd.
  destruct Hs as (_&_&Hn&_).
  destruct (dependency_succeeded false (rv_state_by_id (rs_vars s) !! d)) eqn:E.
  - unfold dependency_succeeded in E. rewrite orb_false_r, orb_true_iff, !bool_decide_eq_true in E.
    destruct E as [E|E]; eapply (Hn _ _ E); unfold claimed_states; set_solver.
  - assert (d ∈ List.filter (λ d, negb (dependency_succeeded false
      (rv_state_by_id (rs_vars s) !! d))) (aa_dependencies action)) as Hf.
    { apply list_elem_of_In, filter_In. rewrite E. split; [by apply list_elem_of_In|done]. }
    cbn in Hnil. rewrite Hnil in Hf. by apply elem_of_nil in Hf.
Qed.

Lemma lawful_process tr0 run_id action :
  action ∈ cp_actions plan →
  keeps (lawful tr0) (process_action env self run_id plan approvals dry_run required action).
Proof.
  intros Hin. unfold process_action.
  apply keeps_bind; [keep|]. intros []; [keep|].
  eapply lawfully_keeps, lawfully_bind with (R' := λ _ _, True); [apply lawfully_lift|].
  intros [[] reason] tr1 H1 Hcap; apply keeps_lawfully_any; cbn [negb]; [|keep].
  apply keeps_if; intros Ereq.
  { unfold review_required. apply keeps_bind; [keep|]. intros [[] ?]; keep. }
  eapply lawfully_keeps, lawfully_bind with (R' := λ _ _, True)
    (R := λ failed tr, failed = [] → dry_run = false →
       ∀ d, d ∈ aa_dependencies action → verified_in tr d).
  { intros s Hs. split; [done|]. intros Hnil Edry.
    apply (lawfully_dependencies tr1 action s Hs). by rewrite Edry in Hnil. }
  intros [|d ds] tr2 H2 Hf; apply keeps_lawfully_any; [|keep].
  apply lawful_decide; [done|by eexists|done|auto].
Qed.
End dispatch.

(** *** The whole run *)

Section run.
Context {A P B W : Type} `{Authenticator A} `{ProviderEgress P B}.
Context (env : environment) (self : WorkflowOrchestrator (A := A) (P := P) (W := W)).
Context (plan : ChangePlan) (approvals : list Approval) (dry_run : bool).

(** What [admit_plan] has established of the plan that runs. *)
Definition admitted (p : ChangePlan) (required : bool) : Prop :=
  execution_snapshot plan = Ok p
  ∧ (∃ t d, enforce_systems_governance p None (Some (wo_policy self)) approvals false t = Ok d)
  ∧ (dry_run = false → required = false → ∃ t,
       strategy_coherence_execution_authenticated p (Some (wo_policy self)) approvals t = Ok true).

(** Admission reads the clock and nothing else. *)
Lemma wp_admit_plan (s : run_state W B) :
  wp (admit_plan env self plan approvals dry_run)
    (λ x s', admitted x.1.1.1 x.2 ∧ rs_database s' = rs_database s ∧ rs_world s' = rs_world s
       ∧ rs_trace s' = rs_trace s ∧ rs_vars s' = rs_vars s)
    (λ _ s', rs_trace s' = rs_trace s ∧ rs_vars s' = rs_vars s) s.
Proof.
  unfold admit_plan. apply wp_bind. apply wp_lift; [|done]. intros p Hp. apply wp_bind. apply wp_now.
  apply wp_bind. apply wp_lift; [|done]. intros d Hd. apply wp_bind. apply wp_now.
  assert (∀ (b : bool) s', (dry_run = false → b = false → ∃ t,
      strategy_coherence_execution_authenticated p (Some (wo_policy self)) approvals t = Ok true) →
    rs_database s' = rs_database s → rs_world s' = rs_world s →
    rs_trace s' = rs_trace s → rs_vars s' = rs_vars s →
    wp (assessment ← lift (or_raise (cp_systems_assessment p)
          (ValidationError "plan is missing a systems governance assessment"));
        mret (p, assessment, d, b))
      (λ x s', admitted x.1.1.1 x.2 ∧ rs_database s' = rs_database s ∧ rs_world s' = rs_world s
         ∧ rs_trace s' = rs_trace s ∧ rs_vars s' = rs_vars s)
      (λ _ s', rs_trace s' = rs_trace s ∧ rs_vars s' = rs_vars s) s') as Hlast.
  { intros b s' Hb ????. apply wp_bind. apply wp_lift; [|done]. intros assessment _.
    split_and!; try done. split; [done|]. split; [by eexists _, d|done]. }
  apply wp_bind. destruct dry_run eqn:Edry; [by apply Hlast|].
  apply wp_bind. apply wp_lift; [|done]. intros [] Ha; apply Hlast; try done. intros _ _. by eexists.
Qed.

(** Once a plan is admitted, a lawful loop makes a lawful run. *)
Lemma lawful_run db w :
  let s' := (run_internal env self plan approvals dry_run (start db w)).2 in
  (rs_trace s' = [] ∧ rs_vars s' = initial_vars)
  ∨ ∃ p required, admitted p required ∧ lawful self p approvals dry_run required [] s'.
Proof.
  apply (wp_state (run_internal env self plan approvals dry_run)
    (λ s', rs_trace s' = [] ∧ rs_vars s' = initial_vars
       ∨ ∃ p required, admitted p required ∧ lawful self p approvals dry_run required [] s')
    (start db w)).
  apply wp_bind.
  eapply wp_mono; [apply wp_admit_plan| |by left].
  intros [[[p x] d] required] s1 (Hadm&_&_&Ht&Hv). cbn [fst snd] in Hadm.
  assert (lawful self p approvals dry_run required [] s1) as Hs1.
  { unfold lawful. rewrite Ht, Hv. split; [apply prefix_nil|]. split; [apply each_execute_nil|].
    split; [by intros i st Hi|by intros r Hr%elem_of_nil]. }
  eapply wp_mono; [|intros a s' H'; right; exists p, required; exact (conj Hadm H')
                   |intros e s' H'; right; exists p, required; exact (conj Hadm H')].
  clear Ht Hv. revert s1 Hs1. apply keeps_wp.
  destruct (plan_order p) as (l&El&Hperm&_); [apply (execution_snapshot_sound plan), Hadm|].
  apply keeps_bind; [apply lawful_uuid4|]. intros run_id.
  eapply lawfully_keeps, lawfully_bind with (R' := λ _ _, True); [apply lawfully_lift|].
  intros ordered tr _ Eo. assert (ordered = l) as -> by congruence.
  apply keeps_lawfully_any, keeps_bind; [apply lawful_record_event|]. intros _.
  apply keeps_bind.
  { apply keeps_for_each. intros action Ha. apply lawful_process. by rewrite <-Hperm. }
  intros _. apply keeps_bind; [apply keeps_get|]. intros reports.
  apply keeps_bind; [apply keeps_lift|]. intros review.
  apply keeps_bind; [apply lawful_record_event|]. intros _. apply keeps_ret.
Qed.
End run.

(** C1: Effects are authorised.  Whenever a run calls [execute] of a connector for
    an action, the run is not a dry run; it applies the snapshot of its plan,
    whose systems governance was enforced and whose strategy review is
    authenticated; the action is of that plan and has passed the catalog, the
    governance profile, the source-of-truth rules, the policy (its approvals
    included) and the execution contract of the resolved connector; each of its
    dependencies was verified earlier in the run; and if it writes, its
    idempotency key was claimed just before. *)
Theorem effects_authorised {A P B W : Type} `{Authenticator A} `{ProviderEgress P B}
    env (self : WorkflowOrchestrator (A := A) (P := P) (W := W)) plan approvals dry_run db (w : W)
    pre action reply post :
  rs_trace (run_internal env self plan approvals dry_run (start db w)).2
    = pre ++ Called (CallExecute action) reply :: post →
  ∃ p, execution_snapshot plan = Ok p
    ∧ (∃ t d, enforce_systems_governance p None (Some (wo_policy self)) approvals false t = Ok d)
    ∧ (∃ t, strategy_coherence_execution_authenticated p (Some (wo_policy self)) approvals t
            = Ok true)
    ∧ authorised self p approvals dry_run false pre action.
Proof.
  intros E. destruct (lawful_run env self plan approvals dry_run db w)
    as [[Et _]|(p&required&(Hp&Hg&Hc)&_&Ht&_)].
  { rewrite Et in E. by destruct pre. }
  pose proof (Ht _ _ _ _ E) as Ha. pose proof Ha as (_&(Hd&->&_)&_). exists p. auto.
Qed.

(** C3: What a run reports as verified (or as a verified reuse of a prior effect)
    was verified: the trace of the run has a successful verification of that
    action by its connector, whatever happened later. *)
Theorem verified_means_verified {A P B W : Type} `{Authenticator A} `{ProviderEgress P B}
    env (self : WorkflowOrchestrator (A := A) (P := P) (W := W)) plan approvals dry_run db (w : W) r :
  let s' := (run_internal env self plan approvals dry_run (start db w)).2 in
  r ∈ rv_reports (rs_vars s') → ar_state r ∈ [VERIFIED; REUSED] →
  verified_in (rs_trace s') (ar_action_id r).
Proof.
  intros s' Hr Hs. destruct (lawful_run env self plan approvals dry_run db w)
    as [[_ Ev]|(p&required&_&_&_&_&Hl)]; [|by apply Hl].
  fold s' in Ev. rewrite Ev in Hr. by apply elem_of_nil in Hr.
Qed.

Lemma first_run_outcome :
  (rs_trace first_run.2 !! 2%nat, rs_trace first_run.2 !! 4%nat,
   map (λ r, (ar_action_id r, ar_state r)) (rv_reports (rs_vars first_run.2)), is_ok first_run.1)
  = (Some (Called (CallExecute run_action) (ReplyResult (run_result 2 "open" "done"))),
     Some (Called (CallVerify run_action (ok_or (run_result 2 "open" "done") sample_result))
       (ReplyVerification (Ok (mk_VerificationResult 2 true None "compared")))),
     [(2, VERIFIED)], true).
Proof. vm_compute. reflexivity. Qed.

Lemma first_run_executes : ∃ pre post,
  rs_trace first_run.2
  = pre ++ Called (CallExecute run_action) (ReplyResult (run_result 2 "open" "done")) :: post.
Proof.
  generalize first_run_outcome. generalize (rs_trace first_run.2). intros tr E.
  apply (f_equal (λ x, x.1.1.1)) in E. cbn [fst] in E.
  exists (take 2 tr), (drop 3 tr). symmetry. exact (take_drop_middle _ _ _ E).
Qed.

Lemma first_run_reports : ∃ r,
  r ∈ rv_reports (rs_vars first_run.2) ∧ ar_action_id r = 2 ∧ ar_state r = VERIFIED.
Proof.
  generalize first_run_outcome. generalize (rv_reports (rs_vars first_run.2)). intros l E.
  apply (f_equal (λ x, x.1.2)) in E. cbn [fst snd] in E. destruct l as [|r [|]]; [discriminate E| |discriminate E].
  injection E as E1 E2. exists r. split; [left|]. exact (conj E1 E2).
Qed.

Lemma first_run_returns : ∃ report, first_run = (Ok report, first_run.2).
Proof.
  generalize first_run_outcome. generalize first_run. intros [[report|e] s] E.
  - by exists report.
  - apply (f_equal snd) in E. discriminate E.
Qed.

Lemma effects_authorised_witness :
  ∃ p pre, execution_snapshot (ok_or run_plan sample_plan) = Ok p
    ∧ authorised run_orchestrator p [] false false pre run_action.
Proof.
  destruct first_run_executes as (pre&post&E).
  destruct (effects_authorised _ _ _ _ _ _ _ _ _ _ _ E) as (p&Hp&_&_&Ha).
  exists p, pre. exact (conj Hp Ha).
Defined.

Lemma verified_means_verified_witness : verified_in (rs_trace first_run.2) 2.
Proof.
  destruct first_run_reports as (r&Hr&<-&Hs).
  apply (verified_means_verified _ _ _ _ _ _ _ r Hr). rewrite Hs. left.
Defined.
