(* ===== verification/EffectTheorems.v ===== *)
(** * EffectTheorems: an effect is not repeated

    A ledger that several runs share one after the other, and what its claims
    promise: an effect that a connector has returned is not executed again under
    its idempotency key, by that run or by a later one, until a connector has
    verified its compensation. *)

From S2P Require Import Prelude PyText PyJson PyHash PyTime PyStd ResourceLimits JsonCanonical PyJsonLoads.
From S2P Require Import ModelsBase PlatformIdentity ModelsSystems ModelsReviews ModelsAction ModelsBindings.
From S2P Require Import ModelsContext ActionGraph ModelsPlan ModelsResults Approvals Policy.
From S2P Require Import Capabilities Governance AuditLog PlannerGate Canonical Evidence Registry RunMonad.
From S2P Require Import Orchestrator Samples RunSamples LedgerTheorems OrchestratorTheorems.
From Stdlib Require Import Ascii.

Open Scope Z_scope.

(** ** Outstanding effects *)

Section effects.
Context (key : string).

(** The action writes under the key. *)
Definition writes_key (action : AgentAction) : bool :=
  uses_idempotency action && (aa_idempotency_key action =? key)%string.

(** A returned execution makes the effect outstanding, a verified compensation
    ends it. *)
Definition effect_step (b : bool) (e : event) : bool :=
  match e with
  | Called (CallExecute a) (ReplyResult (Ok _)) => writes_key a || b
  | Called (CallVerifyCompensation a _ _) (ReplyVerification (Ok v)) =>
      b && negb (vr_verified v && (aa_idempotency_key a =? key)%string)
  | _ => b
  end.

Definition outstanding (tr : list event) : bool := fold_left effect_step tr false.

Lemma outstanding_snoc tr e : outstanding (tr ++ [e]) = effect_step (outstanding tr) e.
Proof. unfold outstanding. by rewrite fold_left_app. Qed.

(** No event but an execution makes an effect outstanding. *)
Lemma effect_step_ends b e :
  (∀ a r, e ≠ Called (CallExecute a) r) → effect_step b e = true → b = true.
Proof.
  intros He. destruct e as [|[]]; try done.
  - by edestruct He.
  - simpl. repeat case_match; try done. by intros [? _]%andb_true_iff.
Qed.

(** No second execution while the effect is outstanding. *)
Definition once : list event → Prop :=
  each_execute (λ pre a, writes_key a = true → outstanding pre = false).

Definition kept_any (db : database) : Prop := ∃ fp token, kept key fp token db.

Lemma kept_any_op op db :
  (∀ fp token, frees key fp token op = false) → kept_any db → kept_any (run_op op db).2.
Proof. intros Hf (fp&token&Hk). exists fp, token. by apply op_kept. Qed.

(** A kept key is not granted. *)
Lemma kept_not_granted fp p a token now db c :
  (claim_action key fp p a token now db).1 = Ok c → is_Some (ic_token c) → ¬ kept_any db.
Proof.
  intros Hc [t Ht] (fp'&token'&Hk). rewrite (claim_kept _ _ _ _ _ _ _ _ _ Hk) in Hc.
  injection Hc as <-. revert Ht. repeat case_match; done.
Qed.

(** ** One run *)

Section run.
Context {A P B W : Type} `{Authenticator A} `{ProviderEgress P B}.
Context (env : environment) (self : WorkflowOrchestrator (A := A) (P := P) (W := W)).
Context (tr0 : list event).
#[local] Abbreviation run_state := (run_state W B).
#[local] Abbreviation trace s := (tr0 ++ rs_trace s).

(** The key of an outstanding effect is kept in the ledger; in an attempt on
    that key ([mine]), the claim token is then that of an effect whose result
    is known. *)
Definition once_inv (mine : bool) (s : run_state) : Prop :=
  once (trace s)
  ∧ (outstanding (trace s) = true →
     kept_any (rs_database s)
     ∧ (mine = true → rv_claim_token (rs_vars s) = None ∨ is_Some (rv_result (rs_vars s)))).

(** No effect is outstanding. *)
Definition quiet (s : run_state) : Prop := once (trace s) ∧ outstanding (trace s) = false.

Lemma quiet_once mine s : quiet s → once_inv mine s.
Proof. intros [Ho Hq]. split; [done|]. by rewrite Hq. Qed.

Lemma once_quiet mine s : once_inv mine s → outstanding (trace s) = false → quiet s.
Proof. by intros [Ho _] Hq. Qed.

Lemma once_weaken s : once_inv true s → once_inv false s.
Proof. intros [Ho Hk]. split; [done|]. intros [??]%Hk. by split. Qed.

Lemma once_event tr e :
  (∀ a r, e ≠ Called (CallExecute a) r) → once tr → once (tr ++ [e]).
Proof. intros He Ho. apply each_execute_snoc; [done|]. intros a r ->. by edestruct He. Qed.

Lemma once_audit mine op :
  (∀ fp token, frees key fp token op = false) → audit_kept (once_inv mine) op.
Proof.
  intros Hf s [Ho Hk]. unfold once_inv. cbn [rs_trace rs_database rs_vars]. rewrite (assoc_L (++)).
  split; [by apply once_event|]. rewrite outstanding_snoc. intros [? Hm]%Hk.
  split; [by apply kept_any_op|done].
Qed.

Lemma once_call mine call : (∀ a, call ≠ CallExecute a) → call_kept (once_inv mine) call.
Proof.
  intros Hc s w r [Ho Hk]. unfold once_inv. cbn [rs_trace rs_database rs_vars].
  rewrite (assoc_L (++)).
  assert (∀ a r', Called call r ≠ Called (CallExecute a) r') as He.
  { intros a r' E. injection E as -> _. by destruct (Hc a). }
  split; [by apply once_event|]. rewrite outstanding_snoc. intros Hs. apply Hk.
  by eapply effect_step_ends.
Qed.

Lemma quiet_audit op : audit_kept quiet op.
Proof.
  intros s [Ho Hq]. unfold quiet. cbn [rs_trace]. rewrite (assoc_L (++)), outstanding_snoc.
  by split; [apply once_event|].
Qed.

(** An assignment may not forget the result, nor bring in a token. *)
Definition harmless (mine : bool) (f : run_vars W B → run_vars W B) : Prop :=
  mine = true → ∀ v, (rv_claim_token v = None → rv_claim_token (f v) = None)
    ∧ (is_Some (rv_result v) → is_Some (rv_result (f v))).

Lemma once_assign mine f : harmless mine f → keeps (once_inv mine) (assign f).
Proof.
  intros Hf s [Ho Hk]. split; [done|]. cbn [assign snd rs_trace rs_database rs_vars].
  intros [Hd Hm]%Hk. split; [done|]. intros E. destruct (Hf E (rs_vars s)) as [H1 H2].
  destruct (Hm E); auto.
Qed.

Lemma harmless_assign mine f :
  (∀ v, rv_claim_token (f v) = rv_claim_token v ∧ rv_result (f v) = rv_result v) →
  keeps (once_inv mine) (assign f).
Proof. intros Hf. apply once_assign. intros _ v. by destruct (Hf v) as [-> ->]. Qed.

Lemma once_clock mine : clock_kept (once_inv mine).
Proof. by intros s. Qed.

Lemma once_bookkept mine : bookkept (once_inv mine) (λ _, True).
Proof.
  split.
  - apply once_clock.
  - intros. by apply once_audit.
  - intros. apply harmless_assign. by intros v.
  - intros. apply harmless_assign. by intros v.
  - intros. apply harmless_assign. by intros v.
Qed.

Lemma once_provider {A'} mine call (wrap : result A' → provider_reply) f :
  (∀ a, call ≠ CallExecute a) → keeps (once_inv mine) (provider call wrap f).
Proof. intros Hc. by apply keeps_provider, once_call. Qed.

Lemma once_record_event mine run_id plan_id action_id event_type payload :
  keeps (once_inv mine) (record_event env run_id plan_id action_id event_type payload).
Proof. eapply keeps_event, once_bookkept. Qed.
Lemma once_record_action mine run_id plan action report extra :
  keeps (once_inv mine) (record_action env self run_id plan action report extra).
Proof. eapply keeps_record_action, once_bookkept. Qed.
Lemma once_conclude_with mine run_id plan action report extra :
  keeps (once_inv mine) (conclude_with env self run_id plan action report extra).
Proof. by eapply keeps_conclude_with; [apply once_bookkept|]. Qed.
Lemma once_conclude mine run_id plan action report :
  keeps (once_inv mine) (conclude env self run_id plan action report).
Proof. apply once_conclude_with. Qed.
Lemma once_now mine : keeps (once_inv mine) (now env).
Proof. by intros s. Qed.
Lemma once_uuid4 mine : keeps (once_inv mine) (uuid4 env).
Proof. by intros s. Qed.
Lemma once_replace mine i report : keeps (once_inv mine) (replace_report i report).
Proof. apply keeps_replace_report. intros f. by apply harmless_assign. Qed.
Lemma once_auditing {A'} mine op (project : audit_reply → result A') :
  (∀ fp token, frees key fp token op = false) → keeps (once_inv mine) (audit op project).
Proof. intros Hf. by apply keeps_audit, once_audit. Qed.
#[local] Hint Resolve once_record_event once_record_action once_conclude_with once_conclude
  once_now once_uuid4 once_replace : keeps_db.
#[local] Hint Extern 1 (keeps _ (provider _ _ _)) => apply once_provider; done : keeps_db.
#[local] Hint Extern 1 (keeps _ (audit _ _)) => apply once_auditing; done : keeps_db.
#[local] Hint Extern 1 (keeps _ (assign _)) => apply harmless_assign; done : keeps_db.

(** *** Compensation *)

Lemma quiet_settled i report op :
  keeps quiet (replace_report i report;; audit op as_unit).
Proof.
  apply keeps_bind; [apply keeps_replace_report; by intros f s|]. intros _. apply keeps_audit, quiet_audit.
Qed.

(** A key is only cleared when its effect is no longer outstanding. *)
Lemma once_clears mine action original compensation f i (report : VerificationResult → ActionReport B) fp msg :
  keeps (once_inv mine)
    (v ← provider (CallVerifyCompensation action original compensation) ReplyVerification f;
     lift (raise_if (negb (vr_verified v)) (PyRuntimeError (msg v)));;
     replace_report i (report v);;
     audit (OpClear (aa_idempotency_key action) fp) as_unit).
Proof.
  destruct (String.eqb_spec (aa_idempotency_key action) key) as [Ek|Ek].
  - intros s Hs. apply (wp_state _ (once_inv mine)), wp_bind.
    assert (call_kept (once_inv mine) (CallVerifyCompensation action original compensation))
      as Hc by by apply once_call.
    unfold wp at 1, provider. destruct (f (rs_world s)) as [[v|e] w]; [|by apply Hc].
    apply wp_bind. apply wp_lift; intros ? E; [|by apply Hc].
    destruct (vr_verified v) eqn:Ev; [|done].
    eapply wp_mono; [apply (proj1 (keeps_wp quiet _) (quiet_settled _ _ _))
                   |intros; by apply quiet_once..].
    destruct Hs as [Ho _]. unfold quiet. cbn [rs_trace]. rewrite (assoc_L (++)), outstanding_snoc.
    split; [by apply once_event|]. cbn. rewrite Ev, Ek, String.eqb_refl. by rewrite andb_false_r.
  - apply keeps_bind; [by apply once_provider|]. intros v. keep.
    apply once_auditing. intros. by apply String.eqb_neq.
Qed.
#[local] Hint Resolve once_clears : keeps_db.

Lemma once_compensate_item mine run_id plan item :
  keeps (once_inv mine) (compensate_item env self run_id plan item).
Proof.
  unfold compensate_item, settle_report, current_report. keep. unfold compensate_verified. keep.
Qed.

Lemma once_compensate mine run_id plan dry_run :
  keeps (once_inv mine) (maybe_compensate env self run_id plan dry_run).
Proof.
  unfold maybe_compensate. pose proof once_compensate_item. keep.
  assert (∀ items, keeps (once_inv mine) (item_states items)) as Hi.
  { induction items; simpl; unfold current_report; keep. }
  apply Hi.
Qed.
#[local] Hint Resolve once_compensate : keeps_db.

Lemma once_refuse mine run_id plan dry_run action state message :
  keeps (once_inv mine) (refuse env self run_id plan dry_run action state message).
Proof. by eapply keeps_refuse; [apply once_bookkept|apply once_compensate|]. Qed.
#[local] Hint Resolve once_refuse : keeps_db.

(** *** The ledger during an attempt *)

Lemma once_persist mine action token certified message r connector :
  (certified = true → aa_idempotency_key action ≠ key) →
  keeps (once_inv mine)
    (persist_idempotency_outcome env action token certified message r connector).
Proof.
  intros Hc. unfold persist_idempotency_outcome, idempotency_record. keep.
  all: apply once_auditing; intros; destruct certified; [|done]; cbn.
  all: by rewrite (proj2 (String.eqb_neq _ _) (Hc eq_refl)).
Qed.

(** With no result to record, only the outcome is written. *)
Lemma quiet_persist action token certified message connector :
  keeps quiet (persist_idempotency_outcome env action token certified message None connector).
Proof.
  unfold persist_idempotency_outcome.
  destruct token as [token|]; [|apply keeps_ret]. apply keeps_bind; [apply keeps_ret|]. intros record.
  apply keeps_try; [|keep_handler; apply keeps_ret].
  apply keeps_bind; [by intros s|]. intros t.
  apply keeps_bind; [apply keeps_audit, quiet_audit|]. intros _. apply keeps_ret.
Qed.

Lemma once_claim_key run_id plan dry_run action connector :
  let mine := bool_decide (aa_idempotency_key action = key) in
  ∀ s, once_inv mine s →
    wp (claim_key env self run_id plan dry_run action connector)
      (λ proceed s', once_inv mine s' ∧
         (proceed = true → mine = true → quiet s' ∧ kept_any (rs_database s')))
      (λ _ s', once_inv mine s') s.
Proof.
  intros mine s Hs. unfold claim_key. apply wp_bind.
  eapply wp_mono; [apply (proj1 (keeps_wp _ _) (once_uuid4 mine)), Hs| |done].
  intros token s1 Hs1. apply wp_bind.
  eapply wp_mono; [apply (proj1 (keeps_wp _ _) (once_now mine)), Hs1| |done].
  intros t s2 Hs2. cbn beta. apply wp_bind. unfold wp at 1, audit.
  pose proof (once_audit mine (OpClaim (aa_idempotency_key action)
    (AgentAction_effect_fingerprint action) (cp_plan_id plan) (aa_action_id action)
    (uuid_str token) t) (λ _ _, eq_refl) s2 Hs2) as Hs3.
  cbn [run_op reply fst snd] in *.
  pose proof (kept_not_granted (AgentAction_effect_fingerprint action) (cp_plan_id plan)
    (aa_action_id action) (uuid_str token) t (rs_database s2)) as Hn.
  pose proof (claimed_kept (rs_database s2) (aa_idempotency_key action)
    (AgentAction_effect_fingerprint action) (cp_plan_id plan) (aa_action_id action)
    (uuid_str token) t) as Hk.
  assert (mine = true → aa_idempotency_key action = key) as Hmine by apply bool_decide_eq_true_1.
  assert (∀ c, outstanding (trace s2) = true → mine = true →
    (claim_action (aa_idempotency_key action) (AgentAction_effect_fingerprint action)
       (cp_plan_id plan) (aa_action_id action) (uuid_str token) t (rs_database s2)).1 = Ok c →
    ic_token c = None) as Hdenied.
  { intros c Ho Hm Ec. rewrite Hmine in Ec by done. destruct (ic_token c) eqn:Et; [|done].
    destruct (Hn c Ec); [by eexists|]. by apply Hs2. }
  clear Hn. destruct (claim_action _ _ _ _ _ _ _) as [r db'] eqn:Ec. cbn [fst snd as_claim] in *.
  set (s3 := mk_run_state _ _ _ _ _) in *.
  destruct r as [c|err]; [|done]. specialize (Hdenied c).
  assert (∀ m : run W B unit, keeps (once_inv mine) m →
    wp (m ;; mret false) (λ proceed s', once_inv mine s' ∧
         (proceed = true → mine = true → quiet s' ∧ kept_any (rs_database s')))
      (λ _ s', once_inv mine s') s3) as Hstop.
  { intros m Hm. apply wp_bind. eapply wp_mono; [apply (proj1 (keeps_wp _ _) Hm), Hs3| |done].
    intros ? s' Hs'. split; [exact Hs'|done]. }
  assert (is_Some (ic_token c) →
    (mine = true → outstanding (trace s3) = false) ∧ (mine = true → kept_any (rs_database s3)))
    as Hgranted.
  { intros Hc. split; intros Em.
    - unfold s3. cbn [rs_trace]. rewrite (assoc_L (++)), outstanding_snoc. cbn [effect_step].
      destruct (outstanding (trace s2)) eqn:Eo; [|done].
      destruct Hc as [x Ex]. by rewrite (Hdenied eq_refl Em eq_refl) in Ex.
    - eexists _, _. rewrite <-(Hmine Em). by eapply Hk; [done|right]. }
  destruct (ic_state c);
    try (apply Hstop; unfold reuse_completed, resolve_indeterminate, reconcile; keep).
  all: unfold wp, mbind, run_bind, assign, lift; cbn [fst snd];
    destruct (ic_token c) as [x|] eqn:Et; cbn [is_someb negb raise_if mret run_ret].
  all: try (split; [exact (proj1 Hs3)|]; intros [Hd _]%Hs3; split; [exact Hd|by left]).
  all: destruct (Hgranted (ex_intro _ x eq_refl)) as [Hq Hd]; split;
    [split; [exact (proj1 Hs3)|intros Ho]
    |intros _ Em; exact (conj (conj (proj1 Hs3) (Hq Em)) (Hd Em))].
  all: split; [by apply Hs3|intros Em; pose proof (Hq Em) as Hq'; cbn [rs_trace] in Ho, Hq'; congruence].
Qed.

Lemma once_retain_rest mine run_id plan action connector budget r :
  keeps (once_inv mine) (retain_effect env run_id plan action connector budget r).
Proof.
  assert (∀ r, keeps (once_inv mine) (assign (set_result (Some r)))) as Hr.
  { intros r'. apply once_assign. intros _ v. split; [done|]. by eexists. }
  unfold retain_effect. keep; apply Hr.
Qed.

Lemma once_verify mine plan action connector r :
  keeps (once_inv mine) (verify_effect env self plan action connector r).
Proof.
  assert (∀ m certified t o c, certified = false → keeps (once_inv mine)
    (persist_idempotency_outcome env action t certified m o c)) as Hp.
  { intros. apply once_persist. by subst. }
  assert (∀ r, keeps (once_inv mine) (assign (set_result (Some r)))) as Hr.
  { intros r'. apply once_assign. intros _ v. split; [done|]. by eexists. }
  unfold verify_effect, unverified_report, verified_report, recheck_egress, idempotency_record.
  keep; first [by apply Hp|apply Hr].
Qed.

(** The execution of a quiet key whose claim is kept. *)
Lemma once_dispatch run_id plan action connector budget s :
  let mine := bool_decide (aa_idempotency_key action = key) in
  once_inv mine s →
  (writes_key action = true → quiet s ∧ kept_any (rs_database s)) →
  once_inv mine (dispatch env self run_id plan action connector budget s).2.
Proof.
  intros mine Hs Hq. apply (wp_state _ (once_inv mine)).
  assert (∀ r, keeps (once_inv mine)
    (r' ← retain_effect env run_id plan action connector budget r;
     verify_effect env self plan action connector r')) as Hrest.
  { intros r. apply keeps_bind; [apply once_retain_rest|]. intros r'. apply once_verify. }
  unfold dispatch. apply wp_bind. unfold wp at 1, provider.
  destruct (con_execute connector action (rs_world s)) as [r w].
  set (s1 := mk_run_state _ _ _ _ _).
  assert (trace s1 = trace s ++ [Called (CallExecute action) (ReplyResult r)]) as Et
    by (unfold s1; cbn [rs_trace]; by rewrite (assoc_L (++))).
  assert (once (trace s1)) as Ho1.
  { rewrite Et. apply each_execute_snoc; [apply Hs|]. intros a r' E Hw.
    injection E as <- _. by apply Hq. }
  assert (outstanding (trace s1) = if r is Ok _ then writes_key action || outstanding (trace s)
    else outstanding (trace s)) as Eo.
  { rewrite Et, outstanding_snoc. by destruct r. }
  destruct r as [r|e].
  - change (wp (r' ← retain_effect env run_id plan action connector budget r;
      verify_effect env self plan action connector r') (λ _, once_inv mine) (λ _, once_inv mine)
      (mk_run_state (rs_database s1) (rs_world s1) (rs_tick s1) (rs_trace s1)
         (set_result (Some r) (rs_vars s1)))).
    apply (proj1 (keeps_wp _ _) (Hrest r)). split; [done|]. cbn [rs_trace rs_database rs_vars].
    intros Ht. split; [|right; by eexists]. cbn in Eo. unfold s1 in *. cbn [rs_trace rs_database] in *.
    destruct (writes_key action) eqn:Ew; [by apply Hq|]. apply Hs. cbn in Eo, Ht. congruence.
  - split; [done|]. rewrite Eo. apply Hs.
Qed.

(** A certified failure settles the claim of an effect that did not happen. *)
Lemma once_certified action state message text :
  let mine := bool_decide (aa_idempotency_key action = key) in
  keeps (once_inv mine) (certified_failure env action state message text).
Proof.
  intros mine s Hs. apply (wp_state _ (once_inv mine)). unfold certified_failure.
  do 3 (apply wp_bind; apply wp_get). apply wp_bind.
  eapply (wp_mono _ (λ _, once_inv mine) _ (λ _, once_inv mine)); [|done|done].
  assert (∀ o, keeps (once_inv mine) (persist_idempotency_outcome env action
    (rv_claim_token (rs_vars s)) false message o (rv_connector (rs_vars s)))) as Hp.
  { intros o. by apply once_persist. }
  destruct (rv_result (rs_vars s)) as [r|] eqn:Er, (rv_claim_token (rs_vars s)) as [t|] eqn:Et;
    [apply (proj1 (keeps_wp _ _)); [keep; apply Hp|done]|done| |done].
  destruct (decide (aa_idempotency_key action = key)) as [Ek|Ek].
  - eapply wp_mono; [apply (proj1 (keeps_wp quiet _)); [apply quiet_persist|]
                    |intros; by apply quiet_once..].
    eapply once_quiet; [done|]. destruct (outstanding (trace s)) eqn:Eo; [|done].
    destruct Hs as [_ Hs]. destruct (Hs Eo) as [_ [Hn|[? Hn]]]; [by apply bool_decide_eq_true|..];
      congruence.
  - apply (proj1 (keeps_wp _ _)); [|done]. by apply once_persist.
Qed.

Lemma once_uncertain mine action e : keeps (once_inv mine) (uncertain_failure env action e).
Proof. unfold uncertain_failure. keep. by apply once_persist. Qed.

Lemma once_attempt_failure action e m :
  let mine := bool_decide (aa_idempotency_key action = key) in
  attempt_failure env action e = Some m → keeps (once_inv mine) m.
Proof.
  intros mine E. unfold attempt_failure in E.
  destruct e; simplify_eq/=;
    (apply keeps_bind; [|intros; apply keeps_ret]);
    match goal with
    | |- keeps _ (certified_failure _ _ _ _ _) => apply once_certified
    | |- keeps _ (uncertain_failure _ _ _) => apply once_uncertain
    end.
Qed.

Lemma once_attempt run_id plan dry_run action :
  let mine := bool_decide (aa_idempotency_key action = key) in
  keeps (once_inv mine) (attempt env self run_id plan dry_run action).
Proof.
  intros mine. unfold attempt.
  apply keeps_bind; [keep|]. intros connector. apply keeps_bind; [keep|]. intros _.
  apply keeps_bind; [keep|]. intros [[] reason]; cbn [negb]; [|keep].
  apply keeps_bind; [unfold authorize_egress; keep|]. intros [message|]; [keep|].
  apply keeps_bind; [unfold record_egress; keep|]. intros _. apply keeps_bind; [keep|]. intros budget.
  intros s Hs. apply (wp_state _ (once_inv mine)), wp_bind.
  eapply (wp_mono _ (λ proceed s', once_inv mine s' ∧
    (proceed = true → writes_key action = true → quiet s' ∧ kept_any (rs_database s')))
    _ (λ _, once_inv mine)); [| |done].
  { destruct (uses_idempotency action) eqn:Eu.
    - eapply wp_mono; [by apply once_claim_key| |done]. intros p s' [Hs' Hp]. split; [done|].
      intros -> Hw. apply Hp; [done|]. unfold writes_key in Hw. apply andb_true_iff in Hw as [_ Hw].
      apply bool_decide_eq_true, String.eqb_eq, Hw.
    - split; [done|]. unfold writes_key. by rewrite Eu. }
  intros [] s' [Hs' Hp]; [|done]. cbn [negb]. apply wp_bind.
  eapply (wp_mono _ (λ _ s', once_inv mine s' ∧
    (writes_key action = true → quiet s' ∧ kept_any (rs_database s'))) _ (λ _, once_inv mine));
    [| |done].
  - assert (keeps (λ s', once_inv mine s' ∧
      (writes_key action = true → quiet s' ∧ kept_any (rs_database s')))
      (pre_effect_guard self action)) as Hg.
    { unfold pre_effect_guard. destruct (wo_pre_effect_guard self) as [g|]; [|apply keeps_ret].
      apply keeps_when. intros _. apply keeps_provider. intros s2 w r [H2 Hq2].
      split; [by apply once_call|]. intros Hw. destruct (Hq2 Hw) as [[Ho Ht] Hk]. split; [|done].
      unfold quiet. cbn [rs_trace]. rewrite (assoc_L (++)), outstanding_snoc. split; [|done].
      by apply once_event. }
    eapply wp_mono; [apply (proj1 (keeps_wp _ _) Hg)|done|by intros ? ? [? _]].
    split; [done|]. auto.
  - intros _ s2 [H2 Hq2]. apply wp_bind. pose proof (once_dispatch run_id plan action connector budget s2 H2 Hq2) as Hd.
    unfold wp. by destruct (dispatch _ _ _ _ _ _ _ s2) as [[]].
Qed.

Lemma once_execute run_id plan dry_run action :
  keeps (once_inv false) (execute_permitted env self run_id plan dry_run action).
Proof.
  intros s Hs. apply (wp_state _ (once_inv false)). unfold execute_permitted. apply wp_bind.
  unfold wp at 1, assign. set (s1 := mk_run_state _ _ _ _ _).
  set (mine := bool_decide (aa_idempotency_key action = key)).
  assert (once_inv mine s1) as H1.
  { split; [apply Hs|]. intros Ho. split; [by apply Hs|]. intros _. by left. }
  eapply wp_mono; [apply (proj1 (keeps_wp (once_inv mine) _)); [|exact H1]| |].
  - apply keeps_bind.
    { apply keeps_try; [apply once_attempt|]. intros e k. apply once_attempt_failure. }
    intros o. unfold compensate_and_stop. keep.
  - intros ? s'. destruct mine; [apply once_weaken|done].
  - intros ? s'. destruct mine; [apply once_weaken|done].
Qed.

Lemma once_run plan approvals dry_run :
  keeps (once_inv false) (run_internal env self plan approvals dry_run).
Proof.
  apply (keeps_run env self _ _ (once_bookkept false)). intros.
  apply (keeps_process _ _ _ _ (once_bookkept false)); [apply once_compensate|done|].
  intros _. apply once_execute.
Qed.
End run.
End effects.

(** ** Runs that share a ledger

    Between runs the outside world may change at will, and an operator may write
    to the ledger, short of failing, releasing or clearing a claim. *)
Inductive history {A P B W : Type} `{Authenticator A} `{ProviderEgress P B}
    : database → list event → Prop :=
  | history_start db : history db []
  | history_run db tr env (self : WorkflowOrchestrator (A := A) (P := P) (W := W))
      plan approvals dry_run (w : W) :
      history db tr →
      let s' := (run_internal env self plan approvals dry_run (start db w)).2 in
      history (rs_database s') (tr ++ rs_trace s')
  | history_operation db tr op :
      history db tr → (∀ key fp token, frees key fp token op = false) →
      history (run_op op db).2 (tr ++ [Audited op (run_op op db).1]).

Lemma history_once {A P B W : Type} `{Authenticator A} `{ProviderEgress P B} key db tr :
  history (A := A) (P := P) (B := B) (W := W) db tr →
  once key tr ∧ (outstanding key tr = true → kept_any key db).
Proof.
  induction 1 as [db|db tr env self plan approvals dry_run w _ [IHo IHk] s'|db tr op _ [IHo IHk] Hf].
  - split; [apply each_execute_nil|done].
  - destruct (once_run key env self tr plan approvals dry_run (start db w)) as [Ho Hk].
    { split; cbn [rs_trace rs_database start]; rewrite app_nil_r; [done|]. by split; [auto|]. }
    fold s' in Ho, Hk. split; [done|]. intros Ht. by apply Hk.
  - split; [by apply once_event|]. rewrite outstanding_snoc. intros Ht. by apply kept_any_op, IHk.
Qed.

(** C2: An effect happens at most once.  Over any number of runs on the same
    ledger, of any plans by any orchestrators, a connector is only asked to
    execute a writing action when no effect under the action's idempotency key is
    outstanding: an execution that returned is not repeated, whether the run that
    made it verified it, failed, or left it indeterminate, until its compensation
    was verified. *)
Theorem effect_at_most_once {A P B W : Type} `{Authenticator A} `{ProviderEgress P B}
    db tr pre action reply post :
  history (A := A) (P := P) (B := B) (W := W) db tr →
  tr = pre ++ Called (CallExecute action) reply :: post → uses_idempotency action = true →
  outstanding (aa_idempotency_key action) pre = false.
Proof.
  intros Hh E Hu. destruct (history_once (aa_idempotency_key action) db tr Hh) as [Ho _].
  apply (Ho _ _ _ _ E). unfold writes_key. by rewrite Hu, String.eqb_refl.
Qed.

Lemma effect_at_most_once_witness :
  ∃ pre post, rs_trace first_run.2 = pre ++ Called (CallExecute run_action)
      (ReplyResult (run_result 2 "open" "done")) :: post
    ∧ outstanding "write-1" pre = false.
Proof.
  destruct first_run_executes as (pre&post&E). exists pre, post. split; [exact E|].
  apply (effect_at_most_once (A := HmacApprovalAuthenticator) (P := unit) (B := unit)
    (W := issue_state) (rs_database first_run.2) (rs_trace first_run.2) pre run_action
    (ReplyResult (run_result 2 "open" "done")) post); [|exact E|reflexivity].
  exact (history_run (initialize empty_database) [] (run_env 1000) run_orchestrator
    (ok_or run_plan sample_plan) [] false (mk_issue_state "open" 0) (history_start _)).
Defined.
