(* ===== verification/ReportTheorems.v ===== *)
(** * ReportTheorems: every action is reported, in dependency order

    The reports of a run that returns: none of the plan's actions is left out,
    and the reports of an action come before those of the actions ordered after
    it.  (An action has more than one report when an exception strikes while its
    first report is being recorded.) *)

From S2P Require Import Prelude PyText PyJson PyHash PyTime PyStd ResourceLimits JsonCanonical PyJsonLoads.
From S2P Require Import ModelsBase PlatformIdentity ModelsSystems ModelsReviews ModelsAction ModelsBindings.
From S2P Require Import ModelsContext ActionGraph ModelsPlan ModelsResults Approvals Policy.
From S2P Require Import Capabilities Governance AuditLog PlannerGate Canonical Evidence Registry RunMonad.
From S2P Require Import Orchestrator Samples RunSamples PlanTheorems OrderTheorems OrchestratorTheorems.
From Stdlib Require Import Ascii.

Open Scope Z_scope.

(** The reported IDs run through the ordered ones, each at least once. *)
Inductive in_order : list uuid → list uuid → Prop :=
  | in_order_nil : in_order [] []
  | in_order_cons i k ids reported :
      in_order ids reported → in_order (i :: ids) (replicate (S k) i ++ reported).

Section reports.
Context {A P B W : Type} `{Authenticator A} `{ProviderEgress P B}.
Context (env : environment) (self : WorkflowOrchestrator (A := A) (P := P) (W := W)).
#[local] Abbreviation run_state := (run_state W B).

Definition ids_of (s : run_state) : list uuid := ar_action_id <$> rv_reports (rs_vars s).

(** The executed actions know where their reports are among [l]. *)
Definition placed (l : list uuid) (s : run_state) : Prop :=
  ∀ item, item ∈ rv_executed (rs_vars s) →
    l !! xa_report_index item = Some (aa_action_id (xa_action item)).

(** The reports are those of [l]. *)
Definition reported (l : list uuid) (s : run_state) : Prop := ids_of s = l ∧ placed l s.

Lemma placed_app l k s : placed l s → placed (l ++ k) s.
Proof. intros Hp item Hi. apply lookup_app_l_Some. auto. Qed.

(** The clock, the audit log and the connectors leave the reports alone. *)
Definition of_vars (I : run_state → Prop) : Prop :=
  ∀ s s', rs_vars s = rs_vars s' → I s → I s'.

Section of_vars.
Context (I : run_state → Prop) (HI : of_vars I).

Lemma vars_now : keeps I (now env).
Proof using HI. intros s Hs. by apply (HI s). Qed.
Lemma vars_uuid4 : keeps I (uuid4 env).
Proof using HI. intros s Hs. by apply (HI s). Qed.
Lemma vars_audit {A'} op (project : audit_reply → result A') : keeps I (audit op project).
Proof using HI. apply keeps_audit. intros s Hs. by apply (HI s). Qed.
Lemma vars_provider {A'} call (wrap : result A' → provider_reply) f :
  keeps I (provider call wrap f).
Proof using HI. apply keeps_provider. intros s w r Hs. by apply (HI s). Qed.
Lemma vars_event run_id plan_id action_id event_type payload :
  keeps I (record_event env run_id plan_id action_id event_type payload).
Proof using HI. apply keeps_bind; [apply vars_now|]. intros t. apply vars_audit. Qed.
Lemma vars_record_action run_id plan action report extra :
  keeps I (record_action env self run_id plan action report extra).
Proof using HI. apply keeps_bind; [apply keeps_lift|]. intros. apply vars_event. Qed.
End of_vars.

(** *** Compensation replaces reports, each by one of the same action *)

Lemma reported_of_vars l : of_vars (reported l).
Proof. intros s s' E. unfold reported, ids_of, placed. by rewrite E. Qed.
#[local] Hint Resolve vars_now vars_uuid4 vars_audit vars_provider vars_event vars_record_action
  reported_of_vars : keeps_db.

Lemma reported_replace l i report :
  l !! i = Some (ar_action_id report) → keeps (reported l) (replace_report i report).
Proof.
  intros Hi s [Hl Hp]. unfold replace_report, mbind, run_bind, get.
  destruct (i <? length _)%nat; [|by split].
  split; [|done]. unfold ids_of in *. cbn. rewrite list_fmap_insert, Hl. by apply list_insert_id.
Qed.

Lemma reported_compensate_item l run_id plan item :
  l !! xa_report_index item = Some (aa_action_id (xa_action item)) →
  keeps (reported l) (compensate_item env self run_id plan item).
Proof.
  intros Hi.
  assert (∀ st m c, keeps (reported l)
    (replace_report (xa_report_index item) (compensation_report item st m c))) as Hr.
  { intros. by apply reported_replace. }
  unfold compensate_item, settle_report, failed_compensation, current_report. keep.
  all: unfold compensate_verified, failed_compensation; keep.
Qed.

Lemma reported_compensate l run_id plan dry_run :
  keeps (reported l) (maybe_compensate env self run_id plan dry_run).
Proof.
  intros s Hs. apply (wp_state _ (reported l)). unfold maybe_compensate.
  apply wp_bind, wp_get. pose proof Hs as [_ Hp]. unfold placed in Hp.
  remember (rv_executed (rs_vars s)) as executed eqn:Ee. clear Ee.
  apply (proj1 (keeps_wp (reported l) _)); [|exact Hs]. keep.
  - apply reported_compensate_item, Hp. by apply list_elem_of_In, in_rev, list_elem_of_In.
  - assert (∀ items, keeps (reported l) (item_states items)) as Hi.
    { induction items; simpl; unfold current_report; keep. }
    apply Hi.
  - intros s' [Hl _]. split; [done|]. by intros item Hi%elem_of_nil.
Qed.

(** *** One action

    While [action] is processed, after the reports [l]: it has some reports, and
    maybe a place for the next one; when it is done, it has one at least. *)
Section action.
Context (l : list uuid) (action : AgentAction).
#[local] Abbreviation i := (aa_action_id action).

Definition some_reports (s : run_state) : Prop :=
  ∃ k, ids_of s = l ++ replicate k i ∧ placed (l ++ replicate (S k) i) s.
Definition done_reports (s : run_state) : Prop := ∃ k, reported (l ++ replicate (S k) i) s.

Lemma replicate_more k : l ++ replicate (S k) i = (l ++ replicate k i) ++ [i].
Proof. by rewrite replicate_S_end, (assoc_L (++)). Qed.

Lemma reported_some s : reported l s → some_reports s.
Proof.
  intros [Hl Hp]. exists 0%nat. cbn [replicate]. rewrite app_nil_r. split; [done|].
  by apply placed_app.
Qed.

Lemma done_some s : done_reports s → some_reports s.
Proof.
  intros [k [Hl Hp]]. exists (S k). split; [done|]. rewrite replicate_more. by apply placed_app.
Qed.

Lemma some_of_vars : of_vars some_reports.
Proof. intros s s' E. unfold some_reports, ids_of, placed. by rewrite E. Qed.
Lemma done_of_vars : of_vars done_reports.
Proof. intros s s' E. unfold done_reports, reported, ids_of, placed. by rewrite E. Qed.
#[local] Hint Resolve some_of_vars done_of_vars : keeps_db.

#[local] Abbreviation gives := (RunMonad.gives some_reports).
#[local] Abbreviation ends m := (gives m (λ _ s', done_reports s')).

(** What follows a finished action keeps it finished. *)
Lemma ends_seq {A1 A2} (m : run W B A1) (f : A1 → run W B A2) :
  ends m → (∀ a, keeps done_reports (f a)) → ends (m ≫= f).
Proof.
  intros Hm Hf. eapply gives_seq; [exact Hm|]. cbn beta. intros a s _ Hs.
  eapply wp_mono; [apply (proj1 (keeps_wp _ _) (Hf a) _ Hs)| |].
  - intros b s' Hs'. split; [by apply done_some|done].
  - intros e s' Hs'. by apply done_some.
Qed.

Lemma ends_ret {A1 A2} (m : run W B A1) (b : A2) (Q : A2 → run_state → Prop) :
  ends m → (∀ s, done_reports s → Q b s) → gives (m ≫= λ _, mret b) Q.
Proof. intros Hm HQ. eapply gives_seq; [exact Hm|]. intros a s Hs Hd. split; [done|]. by apply HQ. Qed.

(** *** The steps of an action *)

Lemma ends_conclude_with run_id plan report extra :
  ar_action_id report = i → ends (conclude_with env self run_id plan action report extra).
Proof.
  intros Er s (k&Hl&Hp). unfold conclude_with. apply wp_bind. unfold wp at 1, assign.
  set (s1 := mk_run_state _ _ _ _ _).
  assert (done_reports s1) as H1.
  { exists k. split; [|done]. unfold ids_of, s1 in *. cbn [rs_vars rv_reports set_reports].
    by rewrite fmap_app, Hl, replicate_more, <-Er. }
  assert (keeps done_reports (assign (set_state_of i (ar_state report));;
    record_action env self run_id plan action report extra)) as Hk.
  { apply keeps_bind; [by intros s'|]. intros _. apply vars_record_action, done_of_vars. }
  eapply wp_mono; [apply (proj1 (keeps_wp _ _) Hk _ H1)| |].
  - intros b s' Hs'. split; [by apply done_some|done].
  - intros e s' Hs'. by apply done_some.
Qed.

Lemma ends_conclude run_id plan report :
  ar_action_id report = i → ends (conclude env self run_id plan action report).
Proof. apply ends_conclude_with. Qed.

Lemma done_stop run_id plan dry_run :
  keeps done_reports (compensate_and_stop env self run_id plan dry_run).
Proof.
  apply keeps_bind.
  - intros s [k Hs]. exists k. by apply reported_compensate.
  - intros b. by intros s.
Qed.

Lemma ends_refuse run_id plan dry_run state message :
  ends (refuse env self run_id plan dry_run action state message).
Proof. apply ends_seq; [by apply ends_conclude|]. intros _. apply done_stop. Qed.

Lemma some_refuse run_id plan dry_run state message :
  keeps some_reports (refuse env self run_id plan dry_run action state message).
Proof. eapply gives_keeps, ends_refuse. Qed.
Lemma some_conclude_with run_id plan report extra :
  ar_action_id report = i →
  keeps some_reports (conclude_with env self run_id plan action report extra).
Proof. intros Er. by eapply gives_keeps, ends_conclude_with. Qed.
Lemma some_assign f :
  (∀ v, rv_reports (f v) = rv_reports v ∧ rv_executed (f v) = rv_executed v) →
  keeps some_reports (assign f).
Proof.
  intros Hf s (k&Hl&Hp). destruct (Hf (rs_vars s)) as [E1 E2]. exists k.
  unfold ids_of, placed. cbn [assign snd rs_vars]. by rewrite E1, E2.
Qed.
#[local] Hint Resolve some_refuse : keeps_db.
#[local] Hint Extern 1 (keeps _ (conclude_with _ _ _ _ _ _ _)) =>
  apply some_conclude_with; done : keeps_db.
#[local] Hint Extern 1 (keeps _ (assign _)) => apply some_assign; done : keeps_db.

(** *** The attempt *)

Lemma some_persist token certified message r connector :
  keeps some_reports (persist_idempotency_outcome env action token certified message r connector).
Proof. unfold persist_idempotency_outcome, idempotency_record. keep. Qed.
#[local] Hint Resolve some_persist : keeps_db.

Lemma ends_reuse run_id plan dry_run connector prior :
  ends (reuse_completed env self run_id plan dry_run action connector prior).
Proof.
  unfold reuse_completed. destruct (con_verify_completed connector) as [f|]; [|apply ends_refuse].
  apply gives_bind; [keep|]. intros [v|cls]; [|apply ends_refuse].
  destruct (vr_verified v); [|apply ends_refuse]. by apply ends_conclude_with.
Qed.

Lemma gives_reconcile run_id plan connector outcome :
  gives (reconcile env self run_id plan action connector outcome)
    (λ o s', o = None → done_reports s').
Proof.
  unfold reconcile. destruct (indeterminate_result _) as [record|]; [|by apply gives_ret].
  destruct (con_verify_completed connector) as [f|]; [|by apply gives_ret].
  apply gives_try; [|intros e k E; case_match; simplify_eq; by apply gives_ret].
  apply gives_bind; [keep|]. intros v. destruct (vr_verified v); [|by apply gives_ret].
  apply gives_bind; [keep|]. intros t. apply gives_bind; [keep|]. intros _.
  apply ends_ret; [by apply ends_conclude_with|done].
Qed.

Lemma ends_resolve run_id plan dry_run connector outcome :
  ends (resolve_indeterminate env self run_id plan dry_run action connector outcome).
Proof.
  eapply gives_seq; [apply gives_reconcile|]. intros [why|] s Hs Hd; [by apply ends_refuse|].
  split; [done|auto].
Qed.

Lemma gives_claim run_id plan dry_run connector :
  gives (claim_key env self run_id plan dry_run action connector)
    (λ proceed s', proceed = false → done_reports s').
Proof.
  unfold claim_key. do 2 (apply gives_bind; [keep|]; intros ?). apply gives_bind; [keep|].
  intros claim. destruct (ic_state claim).
  all: try (apply ends_ret; [|done]; first [apply ends_reuse|apply ends_refuse|apply ends_resolve]).
  all: do 2 (apply gives_bind; [keep|]; intros ?); by apply gives_ret.
Qed.

Lemma some_executed connector r budget :
  keeps some_reports
    (reports ← get rv_reports;
     assign (set_executed (λ l, l ++ [mk_ExecutedAction action connector r (length reports) budget]))).
Proof.
  intros s (k&Hl&Hp). exists k. split; [done|]. intros item Hi. cbn in Hi.
  apply elem_of_app in Hi as [Hi| ->%list_elem_of_singleton]; [by apply Hp|].
  cbn [xa_report_index xa_action]. rewrite replicate_more.
  assert (length (rv_reports (rs_vars s)) = length (l ++ replicate k i)) as ->.
  { rewrite <-Hl. unfold ids_of. by rewrite length_fmap. }
  apply list_lookup_middle. done.
Qed.
#[local] Hint Resolve some_executed : keeps_db.

(** A report of this action. *)
Definition ours (r : ActionReport B) (_ : run_state) : Prop := ar_action_id r = i.

Lemma gives_dispatch run_id plan connector budget :
  gives (dispatch env self run_id plan action connector budget) ours.
Proof.
  unfold dispatch. apply gives_bind; [keep|]. intros r.
  apply gives_bind; [unfold retain_effect; keep|]. intros r'. unfold verify_effect.
  do 2 (apply gives_bind; [keep|]; intros ?). case_match.
  - unfold unverified_report. do 2 (apply gives_bind; [keep|]; intros ?). by apply gives_ret.
  - unfold verified_report, recheck_egress, idempotency_record.
    do 6 (apply gives_bind; [keep|]; intros ?). by apply gives_ret.
Qed.

Definition attempted (o : option (ActionReport B)) (s : run_state) : Prop :=
  match o with Some r => ar_action_id r = i | None => done_reports s end.

Lemma refused_attempted run_id plan dry_run state message :
  gives (refuse env self run_id plan dry_run action state message;; mret None) attempted.
Proof. by apply ends_ret; [apply ends_refuse|]. Qed.

Lemma gives_some m : gives m ours → gives (r ← m; mret (Some r)) attempted.
Proof. intros Hm. eapply gives_seq; [exact Hm|]. by intros r s Hs Hr. Qed.

Lemma gives_attempt run_id plan dry_run :
  gives (attempt env self run_id plan dry_run action) attempted.
Proof.
  unfold attempt. apply gives_bind; [keep|]. intros connector. apply gives_bind; [keep|]. intros _.
  apply gives_bind; [keep|]. intros [[] reason]; cbn [negb]; [|apply refused_attempted].
  apply gives_bind; [unfold authorize_egress; keep|]. intros [message|]; [apply refused_attempted|].
  apply gives_bind; [unfold record_egress; keep|]. intros _. apply gives_bind; [keep|]. intros budget.
  eapply gives_seq with (Q1 := λ proceed s', proceed = false → done_reports s').
  { destruct (uses_idempotency action); [apply gives_claim|by apply gives_ret]. }
  intros [] s Hs Hd; cbn [negb]; [|by split; [|apply Hd]].
  clear Hd. revert s Hs. change (gives (pre_effect_guard self action;;
    r ← dispatch env self run_id plan action connector budget; mret (Some r)) attempted).
  apply gives_bind; [unfold pre_effect_guard; keep|]. intros _. apply gives_some, gives_dispatch.
Qed.

Lemma gives_failure e m :
  attempt_failure env action e = Some m → gives m attempted.
Proof.
  intros E. unfold attempt_failure in E.
  destruct e; simplify_eq/=; apply gives_some; unfold certified_failure, uncertain_failure;
    do 4 (apply gives_bind; [keep|]; intros ?); by apply gives_ret.
Qed.

Lemma ends_execute run_id plan dry_run :
  ends (execute_permitted env self run_id plan dry_run action).
Proof.
  unfold execute_permitted. apply gives_bind; [keep|]. intros _. eapply gives_seq.
  { apply gives_try; [apply gives_attempt|]. intros e k. apply gives_failure. }
  intros [report|] s Hs Hr; [|by split]. cbn [attempted] in Hr. revert s Hs Hr.
  assert (ar_action_id report = i → ends (egress ← get rv_egress;
    let report := hide_failed_read egress report in
    conclude env self run_id plan action report;;
    when_run (bool_decide (ar_state report ∈ [FAILED; CONFLICTED; PROHIBITED;
                                              APPROVAL_REQUIRED; INDETERMINATE]))
      (compensate_and_stop env self run_id plan dry_run))) as Hends; [|intros s Hs Hr; by apply Hends].
  intros Hr. apply gives_bind; [keep|]. intros egress. apply ends_seq.
  - apply ends_conclude. unfold hide_failed_read. by repeat case_match.
  - intros _. apply keeps_when. intros _. apply done_stop.
Qed.

Lemma ends_process run_id plan approvals dry_run required :
  ends (process_action env self run_id plan approvals dry_run required action).
Proof.
  unfold process_action. apply gives_bind; [keep|]. intros []; [by apply ends_conclude|].
  apply gives_bind; [keep|]. intros [[] reason]; cbn [negb]; [|apply ends_refuse].
  destruct required.
  { unfold review_required. apply gives_bind; [keep|]. intros [[] ?]; by apply ends_conclude. }
  apply gives_bind; [unfold failed_dependencies; keep|]. intros [|d ds]; [|by apply ends_conclude].
  unfold decide_action. apply gives_bind; [keep|]. intros [[] ?]; cbn [negb]; [|apply ends_refuse].
  do 3 (apply gives_bind; [keep|]; intros ?). case_match; [apply ends_refuse|].
  destruct dry_run; [by apply ends_conclude|]. apply ends_execute.
Qed.
End action.

(** *** The loop *)

Lemma reported_loop l run_id plan approvals dry_run required actions s :
  reported l s →
  wp (for_each_run (process_action env self run_id plan approvals dry_run required) actions)
    (λ _ s', ∃ k, in_order (map aa_action_id actions) k ∧ reported (l ++ k) s')
    (λ _ _, True) s.
Proof.
  revert l s. induction actions as [|action actions IH]; intros l s Hs.
  { exists []. split; [constructor|]. by rewrite app_nil_r. }
  cbn [for_each_run]. apply wp_bind.
  eapply wp_mono; [apply (ends_process l action), reported_some, Hs| |done].
  intros _ s1 [_ [k Hk]]. eapply wp_mono; [by apply IH| |done].
  intros _ s2 (k'&Hk'&Hr). eexists. split; [by apply (in_order_cons _ k)|].
  by rewrite (assoc_L (++)).
Qed.
End reports.

(** C5: Every action is reported.  A run that returns reports every action of the
    plan it applied, in an order in which dependencies come first: its reports are
    those of the plan's actions in topological order, at least one for each. *)
Theorem every_action_reported {A P B W : Type} `{Authenticator A} `{ProviderEgress P B}
    env (self : WorkflowOrchestrator (A := A) (P := P) (W := W)) plan approvals dry_run
    db w report (s' : run_state W B) :
  run_internal env self plan approvals dry_run (start db w) = (Ok report, s') →
  ∃ p ordered, execution_snapshot plan = Ok p
    ∧ topological_order (cp_actions p) = Ok ordered
    ∧ ordered ≡ₚ cp_actions p ∧ dependencies_first ordered
    ∧ in_order (map aa_action_id ordered) (map ar_action_id (rr_actions report)).
Proof.
  intros E.
  assert (wp (run_internal env self plan approvals dry_run) (λ report _, ∃ p ordered,
      execution_snapshot plan = Ok p ∧ topological_order (cp_actions p) = Ok ordered
      ∧ ordered ≡ₚ cp_actions p ∧ dependencies_first ordered
      ∧ in_order (map aa_action_id ordered) (map ar_action_id (rr_actions report)))
    (λ _ _, True) (start db w)) as Hw; [|unfold wp in Hw; by rewrite E in Hw].
  apply wp_bind. eapply wp_mono; [apply wp_admit_plan| |done].
  intros [[[p x] d] required] s1 ([Hp _]&_&_&_&Ev). cbn [fst snd] in Hp.
  destruct (plan_order p) as (ordered&Eo&Hperm&Hd); [by apply (execution_snapshot_sound plan)|].
  assert (reported [] s1) as Hs1.
  { unfold reported, ids_of, placed. rewrite Ev. split; [done|]. by intros item Hi%elem_of_nil. }
  apply wp_bind. eapply wp_mono; [apply (proj1 (keeps_wp (reported []) _)); [|exact Hs1]| |done].
  { apply vars_uuid4, reported_of_vars. }
  intros run_id s2 Hs2. apply wp_bind. apply wp_lift; [|done]. intros ordered' Eo'.
  assert (ordered' = ordered) as -> by congruence.
  apply wp_bind. eapply wp_mono; [apply (proj1 (keeps_wp (reported []) _)); [|exact Hs2]| |done].
  { apply vars_event, reported_of_vars. }
  intros ? s3 Hs3. apply wp_bind. eapply wp_mono; [exact (reported_loop env self [] _ _ _ _ _ _ _ Hs3)| |done].
  intros ? s4 (k&Hk&Hl&_). apply wp_bind, wp_get. apply wp_bind. apply wp_lift; [|done].
  intros review _. apply wp_bind. unfold wp. destruct (record_event _ _ _ _ _ _ s4) as [[]]; [|done].
  exists p, ordered. split_and!; try done. cbn. unfold ids_of in Hl. cbn in Hl. by rewrite <-Hl in Hk.
Qed.

Lemma every_action_reported_witness :
  ∃ p ordered, execution_snapshot (ok_or run_plan sample_plan) = Ok p
    ∧ topological_order (cp_actions p) = Ok ordered.
Proof.
  destruct first_run_returns as [report E].
  destruct (every_action_reported _ _ _ _ _ _ _ _ _ E) as (p&ordered&Hp&Ho&_).
  exists p, ordered. exact (conj Hp Ho).
Defined.
