(* ===== verification/RegistryTheorems.v ===== *)
(** * RegistryTheorems: properties of the connector registry

    However connectors were registered, no capability of a system has two
    connectors, and resolution finds the one that has it. *)

From S2P Require Import Prelude PyText PyJson ModelsBase ModelsAction ModelsResults Capabilities.
From S2P Require Import Registry RunSamples.
From Stdlib Require Import Ascii.

Open Scope Z_scope.

Section registry.
Context {W : Type}.
#[local] Abbreviation Connector := (Connector W).

(** Two connectors a system may have at the same time. *)
Definition compatible (c c' : Connector) : Prop :=
  (∀ x, x ∈ con_capabilities c → x ∉ con_capabilities c')
  ∧ (con_capabilities c ≠ [] ∨ con_capabilities c' ≠ []).

(** Registrations, in some order, that all succeeded. *)
Inductive reachable : gmap string (list Connector) → Prop :=
  | reachable_empty : reachable ∅
  | reachable_register self c self' :
      reachable self → register c self = Ok self' → reachable self'.

Definition registry_ok (self : gmap string (list Connector)) : Prop :=
  ∀ system, let l := registered self system in
    Forall (λ c, con_system c = system) l
    ∧ ∀ i j c c', l !! i = Some c → l !! j = Some c' → i ≠ j → compatible c c'.

Lemma overlap_nil incoming (c : Connector) :
  overlap incoming c = [] ↔ ∀ x, x ∈ incoming → x ∉ con_capabilities c.
Proof.
  unfold overlap. split.
  - intros E x Hx Hc.
    assert (x ∈ remove_dups (List.filter (λ c0, bool_decide (c0 ∈ con_capabilities c)) incoming))
      as Hin; [|rewrite E in Hin; by apply elem_of_nil in Hin].
    apply elem_of_remove_dups, list_elem_of_In, filter_In. split; [by apply list_elem_of_In|].
    by apply bool_decide_eq_true.
  - intros H. destruct (remove_dups _) as [|x l] eqn:E; [done|].
    assert (x ∈ x :: l) as Hx by left. rewrite <-E in Hx.
    apply elem_of_remove_dups, list_elem_of_In, filter_In in Hx as [Hx Hc].
    apply bool_decide_eq_true in Hc. by destruct (H x (proj2 (list_elem_of_In _ _) Hx)).
Qed.

Lemma check_candidate_Ok (c candidate : Connector) u :
  check_candidate c candidate = Ok u ↔ compatible c candidate.
Proof.
  unfold check_candidate, compatible. rewrite <-overlap_nil. destruct u.
  destruct (decide (overlap (con_capabilities c) candidate = [])) as [E|E].
  - rewrite (bool_decide_eq_true_2 _ E). cbn [negb raise_if mbind result_bind].
    destruct (decide (con_capabilities c = [])) as [E1|E1];
      [rewrite (bool_decide_eq_true_2 _ E1)|rewrite (bool_decide_eq_false_2 _ E1); naive_solver].
    destruct (decide (con_capabilities candidate = [])) as [E2|E2];
      [rewrite (bool_decide_eq_true_2 _ E2)|rewrite (bool_decide_eq_false_2 _ E2)]; naive_solver.
  - rewrite (bool_decide_eq_false_2 _ E). naive_solver.
Qed.

Lemma registered_insert (self : gmap string (list Connector)) k l system :
  registered (<[k := l]> self) system = if decide (system = k) then l else registered self system.
Proof.
  unfold registered. destruct (decide (system = k)) as [->|Hne].
  - by rewrite lookup_insert_eq.
  - by rewrite lookup_insert_ne.
Qed.

Lemma reachable_ok self : reachable self → registry_ok self.
Proof.
  induction 1 as [|self c self' _ IH Hr]; intros system.
  { cbn. unfold registered. rewrite lookup_empty. cbn. split; [constructor|]. intros i j c c' Hi. done. }
  unfold register in Hr. destruct (for_each _ _) as [u|] eqn:Ef; [|done]. injection Hr as <-.
  apply for_each_Ok in Ef. specialize (IH (con_system c)) as Hc.
  rewrite registered_insert. destruct (decide (system = con_system c)) as [->|Hne]; [|apply IH].
  destruct Hc as [Hs Hp]. split.
  { apply Forall_app. split; [done|]. by apply Forall_singleton. }
  assert (∀ d, d ∈ registered self (con_system c) → compatible c d) as Hcompat.
  { intros d Hd. rewrite Forall_forall in Ef. by eapply check_candidate_Ok, Ef. }
  intros i j d d' Hi Hj Hij.
  apply lookup_snoc_Some in Hi as [[Hil Hi]|[-> <-]], Hj as [[Hjl Hj]|[-> <-]].
  - by eapply Hp.
  - apply list_elem_of_lookup_2 in Hi. destruct (Hcompat d Hi) as [H1 H2].
    split; [intros x Hx Hc; by apply (H1 x)|tauto].
  - apply Hcompat. by eapply list_elem_of_lookup_2.
  - done.
Qed.

Lemma filter_none {T} (p : T → bool) l : (∀ x, x ∈ l → p x = false) → List.filter p l = [].
Proof.
  induction l as [|x l IH]; intros Hl; [done|]. simpl. rewrite (Hl x) by left.
  apply IH. intros y Hy. apply Hl. by right.
Qed.

Lemma filter_unique {T} (p : T → bool) l i c :
  l !! i = Some c → p c = true → (∀ j c', l !! j = Some c' → p c' = true → j = i) →
  List.filter p l = [c].
Proof.
  revert i. induction l as [|x l IH]; intros i Hi Hc Hu; [done|]. simpl. destruct i as [|i].
  - injection Hi as ->. rewrite Hc. f_equal. apply filter_none. intros y Hy.
    apply list_elem_of_lookup in Hy as [j Hj]. destruct (p y) eqn:E; [|done]. by specialize (Hu (S j) y Hj E).
  - destruct (p x) eqn:E; [by specialize (Hu 0%nat x eq_refl E)|].
    apply (IH i); [done..|]. intros j c' Hj Hc'. by specialize (Hu (S j) c' Hj Hc') as [= ->].
Qed.

(** Capability routing is unambiguous.  In a registry built by registrations,
    the connector that declares a capability of a system is the one resolved for
    it; and whatever connector is resolved is registered under that system and
    declares the capability, or is the one connector of the system without
    declared capabilities while no other declares this one. *)
Theorem resolve_registered (self : gmap string (list Connector)) system capability :
  reachable self →
  (∀ c, c ∈ registered self system → capability ∈ con_capabilities c →
     resolve self system (Some capability) = Ok c)
  ∧ ∀ c, resolve self system (Some capability) = Ok c →
      c ∈ registered self system ∧ con_system c = system
      ∧ (capability ∈ con_capabilities c
         ∨ con_capabilities c = []
           ∧ ∀ c', c' ∈ registered self system → capability ∉ con_capabilities c').
Proof.
  intros Hr. destruct (reachable_ok self Hr system) as [Hs Hp]. rewrite Forall_forall in Hs. split.
  - intros c Hc Hcap. unfold resolve. destruct (registered self system) as [|c0 l] eqn:El.
    { by apply elem_of_nil in Hc. }
    rewrite <-El in *. cbn [raise_if mbind result_bind]. apply list_elem_of_lookup in Hc as [i Hi].
    rewrite (filter_unique _ _ i c Hi); [done|by apply bool_decide_eq_true|].
    intros j c' Hj Hc'%bool_decide_eq_true. destruct (decide (j = i)) as [|Hne]; [done|].
    destruct (Hp j i c' c Hj Hi Hne) as [Hd _]. by destruct (Hd capability).
  - intros c Hc. unfold resolve in Hc. inv_ok.
    assert (∀ c', bool_decide (capability ∈ con_capabilities c') = true → c' ∈ registered self system →
      c' ∈ List.filter (λ c, bool_decide (capability ∈ con_capabilities c)) (registered self system))
      as Hin.
    { intros c' Hb Hc'. apply list_elem_of_In, filter_In. split; [by apply list_elem_of_In|done]. }
    destruct (List.filter _ (registered self system)) as [|c1 [|]] eqn:E1; [| |done].
    + destruct (List.filter (λ c, bool_decide (con_capabilities c = [])) _) as [|c2 [|]] eqn:E2;
        [done| |done]. injection Hc as ->.
      assert (c ∈ List.filter (λ c, bool_decide (con_capabilities c = [])) (registered self system))
        as Hf by (rewrite E2; left).
      apply list_elem_of_In, filter_In in Hf as [Hf Hb]. apply bool_decide_eq_true in Hb.
      apply list_elem_of_In in Hf. split; [done|]. split; [by apply Hs|]. right. split; [done|].
      intros c' Hc' Hcap. specialize (Hin c' (bool_decide_eq_true_2 _ Hcap) Hc').
      by apply elem_of_nil in Hin.
    + injection Hc as ->.
      assert (c ∈ List.filter (λ c, bool_decide (capability ∈ con_capabilities c))
        (registered self system)) as Hf by (rewrite E1; left).
      apply list_elem_of_In, filter_In in Hf as [Hf Hb]. apply bool_decide_eq_true in Hb.
      apply list_elem_of_In in Hf. split; [done|]. split; [by apply Hs|]. by left.
Qed.
End registry.

Lemma resolve_registered_witness :
  resolve {[ "jira" := [issue_connector] ]} "jira" (Some "jira.issue.read") = Ok issue_connector.
Proof.
  apply (resolve_registered {[ "jira" := [issue_connector] ]} "jira" "jira.issue.read").
  - apply (reachable_register ∅ issue_connector); [constructor|reflexivity].
  - left.
  - left.
Defined.
