(* ===== verification/RecurringTheorems.v ===== *)
(** * RecurringTheorems: properties of the scheduler's state, [Recurring]

    Occurrences: a claim fence that was lost is never held again, and a final
    status is final, on any database and whatever operations follow; the table
    refines an abstract book of occurrences with integer times.  Runs: an
    occurrence is claimed once, plus once per reviewed recovery, and completed
    at most once. *)

From S2P Require Import Prelude PyText PyJson PyHash PyTime PyStd PyDate PySql PyJsonLoads ResourceLimits ModelsBase Recurring.
From stdpp Require Import gmap.

Open Scope Z_scope.

(** ** Operations on occurrences *)

Inductive occurrence_op : Type :=
  | RegisterArtifact (name : string) (scheduled_at : datetime) (fp sha digest key : string)
      (deadline : datetime)
  | AuthenticateArtifact (name : string) (scheduled_at : datetime) (fp sha digest key : string)
  | Reserve (fp : string) (started_at : datetime) (token : uuid)
  | MarkRecoverable (fp : string)
  | Reconcile (fp : string) (status : OccurrenceStatus) (now : datetime)
  | CancelArtifact (fp : string) (now : datetime)
  | Validate (fp : string) (generation : Z) (token : uuid) (now : datetime)
  | RenewFence (fp : string) (generation : Z) (token : uuid) (now : datetime)
  | Block (fp : string) (generation : Z) (token : uuid) (request : string)
  | Resume (fp : string) (prior : Z) (request : string) (started_at : datetime) (token : uuid)
  | Finalize (fp : string) (generation : Z) (token : uuid) (status : OccurrenceStatus)
      (finished_at : datetime).

Inductive occurrence_reply : Type :=
  | Refused
  | Done
  | Answer (b : bool)
  | HasStatus (s : OccurrenceStatus)
  | Fence (generation : Z) (token : uuid).

#[export] Instance occurrence_reply_eq_dec : EqDecision occurrence_reply.
Proof. solve_decision. Defined.

Definition reply_of {A} (f : A → occurrence_reply) (r : result A) : occurrence_reply :=
  match r with Ok a => f a | Err _ => Refused end.

Definition replying {A} (f : A → occurrence_reply) (p : result A * scheduler_state)
    : occurrence_reply * scheduler_state := let '(r, db) := p in (reply_of f r, db).

Lemma replying_state {A} (f : A → occurrence_reply) p : (replying f p).2 = p.2.
Proof. by destruct p. Qed.

Section occurrences.
Context {local_zone : SystemZone} (lease : Z).

Definition run_op (op : occurrence_op) (db : scheduler_state) : occurrence_reply * scheduler_state :=
  match op with
  | RegisterArtifact name scheduled_at fp sha digest key deadline =>
      replying (λ _, Done) (register_occurrence_artifact name scheduled_at fp sha digest key deadline db)
  | AuthenticateArtifact name scheduled_at fp sha digest key =>
      (reply_of HasStatus (authenticate_occurrence_artifact name scheduled_at fp sha digest key db), db)
  | Reserve fp started_at token =>
      replying (λ p, Fence p.1 p.2) (reserve_occurrence lease fp started_at token db)
  | MarkRecoverable fp => replying (λ _, Done) (mark_occurrence_recoverable fp db)
  | Reconcile fp status now => replying (λ _, Done) (reconcile_expired_occurrence fp status now db)
  | CancelArtifact fp now => replying HasStatus (cancel_occurrence fp now db)
  | Validate fp generation token now =>
      (reply_of (λ _, Done) (validate_occurrence_fence fp generation token now db), db)
  | RenewFence fp generation token now =>
      replying Answer (renew_occurrence_fence lease fp generation token now db)
  | Block fp generation token request =>
      replying (λ _, Done) (block_occurrence_for_approval fp generation token request db)
  | Resume fp prior request started_at token =>
      replying (λ p, Fence p.1 p.2)
        (resume_approval_blocked_occurrence lease fp prior request started_at token db)
  | Finalize fp generation token status finished_at =>
      replying (λ _, Done) (finalize_occurrence fp generation token status finished_at db)
  end.

Fixpoint run_ops (ops : list occurrence_op) (db : scheduler_state)
    : list occurrence_reply * scheduler_state :=
  match ops with
  | [] => ([], db)
  | op :: ops =>
      let '(r, db) := run_op op db in
      let '(rs, db) := run_ops ops db in (r :: rs, db)
  end.

Definition after (ops : list occurrence_op) (db : scheduler_state) : scheduler_state :=
  (run_ops ops db).2.

Lemma after_call op ops db : after (op :: ops) db = after ops (run_op op db).2.
Proof. unfold after. cbn. destruct (run_op op db), (run_ops ops _). done. Qed.

(** ** What an operation does to one row *)

(** A row-wise change that keeps the fingerprint. *)
Lemma occurrence_of_update w f db fp :
  (∀ r, oc_artifact_fingerprint (f r) = oc_artifact_fingerprint r) →
  occurrence_of fp (update_occurrences w f db).2
  = (λ r, if w r then f r else r) <$> occurrence_of fp db.
Proof.
  intros Hf. unfold occurrence_of, select_where, update_occurrences, update_where. cbn.
  induction (recurring_occurrences db) as [|r rows IH]; [done|]. cbn.
  assert (oc_artifact_fingerprint (if w r then f r else r) = oc_artifact_fingerprint r) as ->
    by (by destruct (w r)).
  by destruct (oc_artifact_fingerprint r =? fp)%string.
Qed.

Create HintDb moved.

(** [moves r r']: one step of a row. *)
Inductive moves (r : occurrence_row) : occurrence_row → Prop :=
  | stays : moves r r
  | starts r' :
      oc_status r ∈ [OccurrenceStatus_str OCC_BOUND; OccurrenceStatus_str OCC_RECOVERABLE;
                     OccurrenceStatus_str OCC_APPROVAL_BLOCKED] →
      oc_artifact_fingerprint r' = oc_artifact_fingerprint r →
      oc_claim_generation r' = oc_claim_generation r + 1 → moves r r'
  | renews r' :
      oc_artifact_fingerprint r' = oc_artifact_fingerprint r →
      oc_status r = OccurrenceStatus_str OCC_RUNNING → oc_status r' = oc_status r →
      oc_claim_generation r' = oc_claim_generation r → oc_claim_token r' = oc_claim_token r →
      moves r r'
  | leaves r' :
      oc_artifact_fingerprint r' = oc_artifact_fingerprint r →
      oc_status r ∈ [OccurrenceStatus_str OCC_BOUND; OccurrenceStatus_str OCC_RECOVERABLE;
                     OccurrenceStatus_str OCC_APPROVAL_BLOCKED; OccurrenceStatus_str OCC_RUNNING;
                     OccurrenceStatus_str OCC_FAILED_PRE_EFFECT; OccurrenceStatus_str OCC_EXPIRED] →
      oc_status r' ≠ OccurrenceStatus_str OCC_RUNNING →
      oc_claim_generation r' = oc_claim_generation r → moves r r'.

Lemma atomically_state {S A} (block : S → result (A * S)) s (P : S → Prop) :
  P s → (∀ a s', block s = Ok (a, s') → P s') → P (atomically block s).2.
Proof. intros H0 Hb. unfold atomically. destruct (block s) as [[a s']|e] eqn:E; cbn; eauto. Qed.

(** The row of [fp] after an update whose changes are moves. *)
Lemma update_moves w f db fp r :
  (∀ r, oc_artifact_fingerprint (f r) = oc_artifact_fingerprint r) →
  (∀ r, w r = true → moves r (f r)) →
  occurrence_of fp db = Some r →
  ∃ r', occurrence_of fp (update_occurrences w f db).2 = Some r' ∧ moves r r'.
Proof.
  intros Hf Hm Hr. rewrite occurrence_of_update, Hr by done. cbn.
  destruct (w r) eqn:E; eexists; (split; [done|]); [by apply Hm|constructor].
Qed.

(** Read a [WHERE] clause. *)
Ltac where_facts :=
  unfold holds_fence, in_status in *;
  repeat match goal with
  | H : _ && _ = true |- _ => apply andb_true_iff in H as [? H]
  | H : _ || _ = true |- _ => apply orb_true_iff in H as [H|H]
  | H : (_ =? _)%string = true |- _ => apply String.eqb_eq in H
  end.

Definition moved (fp : string) (r : occurrence_row) (db : scheduler_state) : Prop :=
  ∃ r', occurrence_of fp db = Some r' ∧ moves r r'.

Lemma not_moved fp r db : occurrence_of fp db = Some r → moved fp r db.
Proof. intros H. exists r. split; [done|constructor]. Qed.

Lemma update_moved w f db fp r n db' :
  update_occurrences w f db = (n, db') →
  (∀ r, oc_artifact_fingerprint (f r) = oc_artifact_fingerprint r) →
  (∀ r, w r = true → moves r (f r)) →
  occurrence_of fp db = Some r → moved fp r db'.
Proof. intros E Hf Hm Hr. pose proof (update_moves w f db fp r Hf Hm Hr) as H. by rewrite E in H. Qed.

Ltac known_status :=
  match goal with E : oc_status ?r = _ |- context [oc_status ?r] => rewrite E end.

Ltac in_list := rewrite ?list_elem_of_In; cbn; tauto.

Lemma status_str_inj s t : OccurrenceStatus_str s = OccurrenceStatus_str t → s = t.
Proof. by destruct s, t. Qed.

Lemma register_occurrence_artifact_moved n at_ f h d k e db fp r :
  occurrence_of fp db = Some r → moved fp r (register_occurrence_artifact n at_ f h d k e db).2.
Proof.
  intros Hr. pose proof (not_moved fp r db Hr) as Hs. unfold register_occurrence_artifact.
  apply (atomically_state _ _ (moved fp r)); [done|]. intros [] db' E. inv_ok.
  cbv zeta in E. case_match; inv_ok; simplify_eq; [done|].
  apply not_moved. unfold occurrence_of, select_where, set_occurrences in *. cbn in *.
  revert Hr. clear. induction (recurring_occurrences db) as [|r' rows IH]; [done|]. cbn.
  by destruct (_ =? _)%string.
Qed.

Lemma reserve_occurrence_moved f st tok db fp r :
  occurrence_of fp db = Some r → moved fp r (reserve_occurrence lease f st tok db).2.
Proof.
  intros Hr. pose proof (not_moved fp r db Hr) as Hs. unfold reserve_occurrence.
  apply (atomically_state _ _ (moved fp r)); [done|]. intros [g t] db' E. inv_ok.
  destruct (update_occurrences _ _ _) as [n db1] eqn:Eu. inv_ok. simplify_eq.
  eapply update_moved; [done|done| |done]. intros r1 Hw. where_facts;
    (apply starts; [|done|done]; known_status; in_list).
Qed.

Lemma mark_occurrence_recoverable_moved f db fp r :
  occurrence_of fp db = Some r → moved fp r (mark_occurrence_recoverable f db).2.
Proof.
  intros Hr. pose proof (not_moved fp r db Hr) as Hs. unfold mark_occurrence_recoverable.
  destruct (update_occurrences _ _ _) as [n db1] eqn:Eu.
  eapply update_moved; [done|done| |done]. intros r1 Hw. where_facts.
  apply leaves; [done| |done|done]. known_status. in_list.
Qed.

Lemma reconcile_expired_occurrence_moved f status now db fp r :
  occurrence_of fp db = Some r → moved fp r (reconcile_expired_occurrence f status now db).2.
Proof.
  intros Hr. pose proof (not_moved fp r db Hr) as Hs. unfold reconcile_expired_occurrence.
  destruct (negb _) eqn:Es; [done|].
  destruct (astimezone_utc now) as [current|e]; [|done].
  destruct (update_occurrences _ _ _) as [n db1] eqn:Eu.
  eapply update_moved; [done|done| |done]. intros r1 Hw. where_facts.
  apply leaves; [done| | |done]; [known_status; in_list|].
  intros Hst. apply (status_str_inj status OCC_RUNNING) in Hst. by subst status.
Qed.

Lemma cancel_occurrence_moved f now db fp r :
  occurrence_of fp db = Some r → moved fp r (cancel_occurrence f now db).2.
Proof.
  intros Hr. pose proof (not_moved fp r db Hr) as Hs. unfold cancel_occurrence.
  apply (atomically_state _ _ (moved fp r)); [done|]. intros s db' E. inv_ok. apply bool_decide_eq_false in Hv1.
  cbv zeta in E.
  destruct (update_occurrences _ _ _) as [n db1] eqn:Eu. inv_ok. simplify_eq.
  eapply update_moved; [done|done| |done]. intros r1 Hw. where_facts.
  apply leaves; [done| | |done].
  + known_status. destruct v0; try in_list; exfalso; apply Hv1; in_list.
  + cbn. by destruct (bool_decide _).
Qed.

Lemma renew_occurrence_fence_moved f g tok now db fp r :
  occurrence_of fp db = Some r → moved fp r (renew_occurrence_fence lease f g tok now db).2.
Proof.
  intros Hr. pose proof (not_moved fp r db Hr) as Hs. unfold renew_occurrence_fence.
  apply (atomically_state _ _ (moved fp r)); [done|]. intros b db' E. inv_ok.
  destruct (update_occurrences _ _ _) as [n db1] eqn:Eu. inv_ok. simplify_eq.
  eapply update_moved; [done|done| |done]. intros r1 Hw. where_facts. by apply renews.
Qed.

Lemma block_occurrence_for_approval_moved f g tok req db fp r :
  occurrence_of fp db = Some r → moved fp r (block_occurrence_for_approval f g tok req db).2.
Proof.
  intros Hr. pose proof (not_moved fp r db Hr) as Hs. unfold block_occurrence_for_approval.
  unfold transition_running_occurrence.
  destruct (update_occurrences _ _ _) as [n db1] eqn:Eu.
  eapply update_moved; [done|done| |done]. intros r1 Hw. where_facts.
  apply leaves; [done| |done|done]. known_status. in_list.
Qed.

Lemma resume_approval_blocked_occurrence_moved f prior req st tok db fp r :
  occurrence_of fp db = Some r → moved fp r (resume_approval_blocked_occurrence lease f prior req st tok db).2.
Proof.
  intros Hr. pose proof (not_moved fp r db Hr) as Hs. unfold resume_approval_blocked_occurrence.
  apply (atomically_state _ _ (moved fp r)); [done|]. intros [g t] db' E. inv_ok.
  destruct (update_occurrences _ _ _) as [n db1] eqn:Eu. inv_ok. simplify_eq.
  eapply update_moved; [done|done| |done]. intros r1 Hw. where_facts.
  apply starts; [|done|done]. known_status. in_list.
Qed.

Lemma finalize_occurrence_moved f g tok status finished_at db fp r :
  occurrence_of fp db = Some r → moved fp r (finalize_occurrence f g tok status finished_at db).2.
Proof.
  intros Hr. pose proof (not_moved fp r db Hr) as Hs. unfold finalize_occurrence.
  unfold transition_running_occurrence. destruct (negb _) eqn:Es; [done|].
  destruct (astimezone_utc finished_at) as [d|e]; cbn [mbind result_bind]; [|done].
  destruct (update_occurrences _ _ _) as [n db1] eqn:Eu.
  eapply update_moved; [done|done| |done]. intros r1 Hw. where_facts.
  apply leaves; [done| | |done]; [known_status; in_list|].
  intros Hst. apply (status_str_inj status OCC_RUNNING) in Hst. by subst status.
Qed.

#[local] Hint Resolve register_occurrence_artifact_moved
  reserve_occurrence_moved
  mark_occurrence_recoverable_moved
  reconcile_expired_occurrence_moved
  cancel_occurrence_moved
  renew_occurrence_fence_moved
  block_occurrence_for_approval_moved
  resume_approval_blocked_occurrence_moved
  finalize_occurrence_moved : moved.

Lemma op_moved op db fp r : occurrence_of fp db = Some r → moved fp r (run_op op db).2.
Proof.
  intros Hr. pose proof (not_moved fp r db Hr). destruct op; cbn [run_op]; rewrite ?replying_state;
    eauto with moved.
Qed.

(** ** Lost fences and final statuses *)

(** The row no longer carries the fence. *)
Definition beyond (fp : string) (generation : Z) (token : uuid) (r : occurrence_row) : Prop :=
  generation ≤ oc_claim_generation r ∧ holds_fence fp generation token r = false.

Lemma moves_beyond fp g t r r' :
  oc_artifact_fingerprint r = fp → moves r r' → beyond fp g t r → beyond fp g t r'.
Proof.
  intros Hfp Hm [Hg Hh]. destruct Hm as [|r' Hs Hf Hg'|r' Hf Hs Hs' Hg' Ht|r' Hf Hs Hs' Hg']; [done|..].
  - split; [lia|]. unfold holds_fence. destruct (Z.eqb_spec (oc_claim_generation r') g); [lia|].
    by rewrite andb_false_r.
  - split; [lia|]. rewrite <-Hh. unfold holds_fence, in_status. by rewrite Hf, Hs', Hg', Ht.
  - split; [lia|]. unfold holds_fence, in_status.
    destruct (String.eqb_spec (oc_status r') (OccurrenceStatus_str OCC_RUNNING)); [done|].
    by rewrite !andb_false_r.
Qed.

Lemma occurrence_of_fp fp db r : occurrence_of fp db = Some r → oc_artifact_fingerprint r = fp.
Proof. intros [_ H]%find_some. by apply String.eqb_eq in H. Qed.

Lemma after_beyond ops fp g t db r :
  occurrence_of fp db = Some r → beyond fp g t r →
  ∃ r', occurrence_of fp (after ops db) = Some r' ∧ beyond fp g t r'.
Proof.
  revert db r. induction ops as [|op ops IH]; intros db r Hr Hb; [by exists r|].
  rewrite after_call. destruct (op_moved op db fp r Hr) as (r'&Hr'&Hm).
  apply (IH _ r' Hr'). exact (moves_beyond _ _ _ _ _ (occurrence_of_fp _ _ _ Hr) Hm Hb).
Qed.

Definition final_statuses : list string :=
  map OccurrenceStatus_str [OCC_SUCCEEDED; OCC_CANCELLED; OCC_INDETERMINATE; OCC_REVOKED].

Ltac each_element H :=
  repeat (apply elem_of_cons in H as [H|H]); [..|by apply elem_of_nil in H].

Lemma moves_final r r' : oc_status r ∈ final_statuses → moves r r' → r' = r.
Proof.
  intros Hf Hm. unfold final_statuses in Hf. cbn [map] in Hf.
  destruct Hm as [|r' Hs _ _|r' _ Hs|r' _ Hs _ _]; [done|exfalso..]; each_element Hf;
    try each_element Hs; rewrite Hf in Hs; discriminate Hs.
Qed.

Lemma after_final ops fp db r :
  occurrence_of fp db = Some r → oc_status r ∈ final_statuses → occurrence_of fp (after ops db) = Some r.
Proof.
  intros Hr Hf. revert db Hr. induction ops as [|op ops IH]; intros db Hr; [done|].
  rewrite after_call. apply IH. destruct (op_moved op db fp r Hr) as (r'&Hr'&Hm).
  by rewrite <-(moves_final r r' Hf Hm).
Qed.

(** The [UNIQUE] constraint of the fingerprint column. *)
Definition unique_fingerprints (db : scheduler_state) : Prop :=
  NoDup (map oc_artifact_fingerprint (recurring_occurrences db)).

Lemma occurrence_of_row fp db :
  occurrence_of fp db = row_of oc_artifact_fingerprint fp (recurring_occurrences db).
Proof.
  unfold occurrence_of, row_of, select_where. induction (recurring_occurrences db) as [|r rows IH]; [done|].
  cbn. rewrite IH. by destruct (String.eqb_spec (oc_artifact_fingerprint r) fp), (bool_decide_reflect (oc_artifact_fingerprint r = fp)).
Qed.

Lemma update_unique w f db :
  (∀ r, oc_artifact_fingerprint (f r) = oc_artifact_fingerprint r) →
  unique_fingerprints db → unique_fingerprints (update_occurrences w f db).2.
Proof.
  intros Hf Hu. unfold unique_fingerprints, update_occurrences, update_where in *. cbn.
  rewrite map_map. erewrite map_ext; [exact Hu|]. intros r. by destruct (w r).
Qed.

Lemma updated_unique w f db n db' :
  update_occurrences w f db = (n, db') →
  (∀ r, oc_artifact_fingerprint (f r) = oc_artifact_fingerprint r) →
  unique_fingerprints db → unique_fingerprints db'.
Proof. intros E Hf Hu. pose proof (update_unique w f db Hf Hu) as H. by rewrite E in H. Qed.

(** The update of [fp]'s row, which the table has once. *)
Lemma update_fingerprint w f fp db :
  unique_fingerprints db → (∀ r, w r = true → oc_artifact_fingerprint r = fp) →
  update_occurrences w f db
  = match occurrence_of fp db with
    | Some r =>
        if w r then (1, set_occurrences (set_row oc_artifact_fingerprint fp f (recurring_occurrences db)) db)
        else (0, db)
    | None => (0, db)
    end.
Proof.
  intros Hu Hw. unfold update_occurrences. rewrite (update_row_of oc_artifact_fingerprint fp w f) by done.
  rewrite occurrence_of_row. destruct (row_of _ _ _) as [r|]; [destruct (w r)|]; by destruct db.
Qed.

Lemma register_unique n at_ f h d k e db :
  unique_fingerprints db → unique_fingerprints (register_occurrence_artifact n at_ f h d k e db).2.
Proof.
  intros Hu. unfold register_occurrence_artifact. apply atomically_state; [done|]. intros [] db' E. inv_ok.
  cbv zeta in E. case_match; inv_ok; simplify_eq; [done|].
  unfold unique_fingerprints. cbn. rewrite map_app. apply NoDup_app. split; [done|].
  split; [|apply NoDup_singleton]. intros x Hx Hx'. apply list_elem_of_singleton in Hx' as ->.
  apply list_elem_of_fmap in Hx as (r&Hr&Hin). cbn in Hr.
  apply not_true_iff_false in Hv1. apply Hv1. apply existsb_exists. exists r.
  split; [by apply list_elem_of_In|]. by apply String.eqb_eq.
Qed.

(** A property every update of the occurrences keeps, through an operation. *)
Ltac through_update keeps :=
  try (apply atomically_state; [done|]; let db' := fresh in let E := fresh "E" in
       intros ? db' E; inv_ok; cbv zeta in E);
  repeat case_match; inv_ok; simplify_eq; try done;
  eapply keeps; done.

Lemma op_unique op db : unique_fingerprints db → unique_fingerprints (run_op op db).2.
Proof.
  intros Hu. destruct op; cbn [run_op]; rewrite ?replying_state; [by apply register_unique|done|..|done| | | |].
  - unfold reserve_occurrence. through_update updated_unique.
  - unfold mark_occurrence_recoverable. through_update updated_unique.
  - unfold reconcile_expired_occurrence. through_update updated_unique.
  - unfold cancel_occurrence. through_update updated_unique.
  - unfold renew_occurrence_fence. through_update updated_unique.
  - unfold block_occurrence_for_approval, transition_running_occurrence. through_update updated_unique.
  - unfold resume_approval_blocked_occurrence. through_update updated_unique.
  - unfold finalize_occurrence, transition_running_occurrence. through_update updated_unique.
Qed.

Lemma after_unique ops db : unique_fingerprints db → unique_fingerprints (after ops db).
Proof.
  revert db. induction ops as [|op ops IH]; intros db Hu; [done|].
  rewrite after_call. by apply IH, op_unique.
Qed.

Definition rejected (p : occurrence_reply * scheduler_state) (db : scheduler_state) : Prop :=
  let '(reply, db') := p in (reply = Refused ∨ reply = Answer false) ∧ db' = db.

(** The fence an operation presents. *)
Definition fence_of (op : occurrence_op) : option (string * Z * uuid) :=
  match op with
  | Validate fp g t _ | RenewFence fp g t _ | Block fp g t _ | Finalize fp g t _ _ => Some (fp, g, t)
  | _ => None
  end.

Lemma no_update w f fp db r :
  unique_fingerprints db → occurrence_of fp db = Some r →
  (∀ r, w r = true → oc_artifact_fingerprint r = fp) → w r = false →
  update_occurrences w f db = (0, db).
Proof. intros Hu Hr Hw Hf. by rewrite (update_fingerprint w f fp), Hr, Hf. Qed.

Lemma in_status_fp fp s r : in_status fp s r = true → oc_artifact_fingerprint r = fp.
Proof. unfold in_status. by intros [H%String.eqb_eq _]%andb_true_iff. Qed.

Lemma holds_fence_fp fp g t r : holds_fence fp g t r = true → oc_artifact_fingerprint r = fp.
Proof. unfold holds_fence. rewrite !andb_true_iff. intros [[H _] _]. by eapply in_status_fp. Qed.

Lemma transition_refused fp g t s q d db r :
  unique_fingerprints db → occurrence_of fp db = Some r → holds_fence fp g t r = false →
  rejected (replying (λ _, Done) (transition_running_occurrence fp g t s q d db)) db.
Proof.
  intros Hu Hr Hh. unfold transition_running_occurrence.
  case_match; [|split; [by left|done]].
  rewrite (no_update _ _ fp db r) by (done || apply holds_fence_fp). split; [by left|done].
Qed.

Lemma uuid_str_not_None t : uuid_str t ≠ "None".
Proof. intros H. pose proof (uuid_str_chars t) as Hc. by rewrite H in Hc. Qed.

Lemma validate_refused fp g t now db r :
  occurrence_of fp db = Some r → holds_fence fp g t r = false →
  reply_of (λ _, Done) (validate_occurrence_fence fp g t now db) = Refused.
Proof.
  intros Hr Hh. unfold validate_occurrence_fence.
  destruct (astimezone_utc now) as [c|]; mstep; [|done]. rewrite Hr. mstep.
  destruct (oc_status r =? _)%string eqn:Es; cbn [negb]; mstep; [|done].
  destruct (oc_claim_generation r =? g) eqn:Eg; cbn [negb]; mstep; [|done].
  destruct (column_str (oc_claim_token r) =? uuid_str t)%string eqn:Et; cbn [negb]; mstep; [exfalso|done].
  revert Hh. unfold holds_fence, in_status. rewrite (occurrence_of_fp _ _ _ Hr), String.eqb_refl, Es, Eg.
  cbn [andb]. apply String.eqb_eq in Et. unfold column_str in Et. unfold col_eq.
  destruct (oc_claim_token r); cbn in Et; [by rewrite Et, String.eqb_refl|].
  by destruct (uuid_str_not_None t).
Qed.

Lemma rejected_intro {A} (f : A → occurrence_reply) (x : result A) db :
  reply_of f x = Refused ∨ reply_of f x = Answer false → rejected (replying f (x, db)) db.
Proof. done. Qed.

Lemma renew_refused fp g t now db r :
  unique_fingerprints db → occurrence_of fp db = Some r → holds_fence fp g t r = false →
  rejected (replying Answer (renew_occurrence_fence lease fp g t now db)) db.
Proof.
  intros Hu Hr Hh. unfold renew_occurrence_fence, atomically.
  destruct (astimezone_utc now) as [c|]; rstep; [|by apply rejected_intro; left].
  destruct (dt_add c lease) as [u|]; rstep; [|by apply rejected_intro; left].
  rewrite (no_update _ _ fp db r); [by apply rejected_intro; right|done..| |].
  - intros r' [H _]%andb_true_iff. by eapply holds_fence_fp.
  - by rewrite Hh.
Qed.

Lemma fence_refused op fp g t db r :
  unique_fingerprints db → occurrence_of fp db = Some r → holds_fence fp g t r = false →
  fence_of op = Some (fp, g, t) → rejected (run_op op db) db.
Proof.
  intros Hu Hr Hh Hop. destruct op; cbn [fence_of] in Hop; try discriminate Hop;
    injection Hop as -> -> ->; cbn [run_op].
  - split; [left|done]. by eapply validate_refused.
  - by eapply renew_refused.
  - unfold block_occurrence_for_approval. by eapply transition_refused.
  - unfold finalize_occurrence. destruct (negb _); [by apply rejected_intro; left|].
    by eapply transition_refused.
Qed.

(** Once an artifact's row no longer carries a claim fence that was handed
    out for it (the generation it names is not in the future), no sequence of
    operations, by whatever processes and clocks, makes that fence valid again:
    validating, renewing, blocking or finalising with it is refused and changes
    nothing. *)
Theorem lost_fence_stays_lost ops op fp g t db r :
  unique_fingerprints db → occurrence_of fp db = Some r →
  g ≤ oc_claim_generation r → holds_fence fp g t r = false →
  fence_of op = Some (fp, g, t) →
  rejected (run_op op (after ops db)) (after ops db).
Proof.
  intros Hu Hr Hg Hh Hop.
  destruct (after_beyond ops fp g t db r Hr (conj Hg Hh)) as (r'&Hr'&_&Hh').
  eapply fence_refused; [by apply after_unique|done..].
Qed.

(** The artifact an operation would change. *)
Definition target (op : occurrence_op) : option string :=
  match op with
  | Reserve fp _ _ | MarkRecoverable fp | Reconcile fp _ _ | CancelArtifact fp _ | Resume fp _ _ _ _ => Some fp
  | Validate fp _ _ _ | RenewFence fp _ _ _ | Block fp _ _ _ | Finalize fp _ _ _ _ => Some fp
  | RegisterArtifact _ _ _ _ _ _ _ | AuthenticateArtifact _ _ _ _ _ _ => None
  end.

Lemma final_not s r : oc_status r ∈ final_statuses →
  s ∉ [OCC_SUCCEEDED; OCC_CANCELLED; OCC_INDETERMINATE; OCC_REVOKED] →
  (oc_status r =? OccurrenceStatus_str s)%string = false.
Proof.
  intros Hf Hs. apply String.eqb_neq. intros He. rewrite He in Hf. apply Hs.
  apply list_elem_of_fmap in Hf as (s'&->%status_str_inj&Hin). done.
Qed.

Lemma final_refused op fp db r :
  unique_fingerprints db → occurrence_of fp db = Some r → oc_status r ∈ final_statuses →
  target op = Some fp → rejected (run_op op db) db.
Proof.
  intros Hu Hr Hf Hop.
  assert (∀ s, s ∉ [OCC_SUCCEEDED; OCC_CANCELLED; OCC_INDETERMINATE; OCC_REVOKED] → in_status fp s r = false) as Hs.
  { intros s Hs. unfold in_status. by rewrite (final_not s r), andb_false_r. }
  assert (∀ g t, holds_fence fp g t r = false) as Hh.
  { intros g t. unfold holds_fence. by rewrite Hs by (by apply (bool_decide_unpack _)). }
  assert (∀ w f, (∀ r, w r = true → oc_artifact_fingerprint r = fp) → w r = false →
    update_occurrences w f db = (0, db)) as Hno by (intros; by eapply no_update).
  destruct op; cbn [target] in Hop; try discriminate Hop; injection Hop as ->;
    try (eapply fence_refused; [done|done|apply Hh|done]); cbn [run_op].
  - unfold replying, reserve_occurrence, atomically, rejected.
    destruct (astimezone_utc started_at) as [c|]; rstep; [|split; [by left|done]].
    destruct (dt_add c lease) as [u|]; rstep; [|split; [by left|done]].
    rewrite Hno; [split; [by left|done]| |].
    + intros r' [[H _]%andb_true_iff _]%andb_true_iff. by apply String.eqb_eq.
    + by rewrite !(final_not _ r), andb_false_r by (done || by apply (bool_decide_unpack _)).
  - unfold replying, mark_occurrence_recoverable, rejected.
    rewrite Hno; [split; [by left|done]|apply in_status_fp|by apply Hs, (bool_decide_unpack _)].
  - unfold replying, reconcile_expired_occurrence, rejected. destruct (negb _); [split; [by left|done]|].
    destruct (astimezone_utc now) as [c|]; [|split; [by left|done]].
    rewrite Hno; [split; [by left|done]| |].
    + intros r' [H _]%andb_true_iff. by eapply in_status_fp.
    + by rewrite Hs by by apply (bool_decide_unpack _).
  - unfold replying, cancel_occurrence, atomically, rejected. rewrite Hr. unfold or_raise. rstep.
    assert (∃ s, oc_status r = OccurrenceStatus_str s
      ∧ bool_decide (s ∈ [OCC_SUCCEEDED; OCC_INDETERMINATE; OCC_REVOKED; OCC_CANCELLED]) = true) as (s&Es&Eb).
    { unfold final_statuses in Hf. apply list_elem_of_fmap in Hf as (s&Es&Hin). exists s. split; [done|].
      apply bool_decide_eq_true. revert Hin. rewrite !elem_of_cons. tauto. }
    rewrite Es. change (OccurrenceStatus_str s) with (enum_str s). rewrite enum_parse_str. rstep.
    rewrite Eb. split; [by left|done].
  - unfold replying, resume_approval_blocked_occurrence, atomically, rejected.
    destruct (astimezone_utc started_at) as [c|]; rstep; [|split; [by left|done]].
    destruct (dt_add c lease) as [u|]; rstep; [|split; [by left|done]].
    rewrite Hno; [split; [by left|done]| |].
    + intros r' [[[H _]%andb_true_iff _]%andb_true_iff _]%andb_true_iff. by eapply in_status_fp.
    + by rewrite Hs by by apply (bool_decide_unpack _).
Qed.

(** An occurrence that succeeded, was cancelled, was revoked or has an
    indeterminate outcome stays exactly as it is, whatever operations follow;
    in particular it is never reserved, resumed, finalised or cancelled again:
    each such operation is refused and changes nothing. *)
Theorem final_occurrence_is_final ops op fp db r :
  unique_fingerprints db → occurrence_of fp db = Some r → oc_status r ∈ final_statuses →
  target op = Some fp →
  occurrence_of fp (after ops db) = Some r ∧ rejected (run_op op (after ops db)) (after ops db).
Proof.
  intros Hu Hr Hf Hop. pose proof (after_final ops fp db r Hr Hf) as Hr'.
  split; [done|]. eapply final_refused; [by apply after_unique|done..].
Qed.
End occurrences.

(** ** A concrete history *)

Definition utc_zone : SystemZone := λ _, 0.

Definition at_minute (m : Z) : datetime := mk_datetime 2026 3 2 9 m 0 0 (Some 0).

(** An occurrence is registered, reserved, failed before any effect, released
    for a retry, reserved again and finalised; the first fence is tried late. *)
Definition sample_history : list occurrence_op :=
  [RegisterArtifact "weekly" (at_minute 0) "fp" "sha" "digest" "key" (at_minute 59);
   Reserve "fp" (at_minute 1) 17;
   Finalize "fp" 1 17 OCC_FAILED_PRE_EFFECT (at_minute 2);
   MarkRecoverable "fp";
   Reserve "fp" (at_minute 3) 18;
   RenewFence "fp" 2 18 (at_minute 4);
   Finalize "fp" 1 17 OCC_SUCCEEDED (at_minute 5);
   Finalize "fp" 2 18 OCC_SUCCEEDED (at_minute 6);
   CancelArtifact "fp" (at_minute 7)].

Example sample_replies :
  (@run_ops utc_zone (300 * 1000000) sample_history empty_state).1
  = [Done; Fence 1 17; Done; Done; Fence 2 18; Answer true; Refused; Done; Refused].
Proof. vm_compute. reflexivity. Qed.

(** The database after the second reservation. *)
Definition sample_state : scheduler_state :=
  @after utc_zone (300 * 1000000) (take 5 sample_history) empty_state.

Lemma sample_unique : unique_fingerprints sample_state.
Proof. apply after_unique. constructor. Qed.

Lemma lost_fence_stays_lost_witness :
  rejected (@run_op utc_zone (300 * 1000000) (Finalize "fp" 1 17 OCC_SUCCEEDED (at_minute 5))
              (@after utc_zone (300 * 1000000) [RenewFence "fp" 2 18 (at_minute 4)] sample_state))
    (@after utc_zone (300 * 1000000) [RenewFence "fp" 2 18 (at_minute 4)] sample_state).
Proof.
  eapply (lost_fence_stays_lost (local_zone:=utc_zone) (300 * 1000000) _ _ "fp" 1 17).
  - apply sample_unique.
  - vm_compute. reflexivity.
  - vm_compute. done.
  - vm_compute. reflexivity.
  - reflexivity.
Defined.

Lemma final_occurrence_is_final_witness :
  let db := @after utc_zone (300 * 1000000) sample_history empty_state in
  let ops := [MarkRecoverable "fp"; Reserve "fp" (at_minute 8) 19] in
  occurrence_of "fp" (@after utc_zone (300 * 1000000) ops db) = occurrence_of "fp" db
  ∧ rejected (@run_op utc_zone (300 * 1000000) (Reserve "fp" (at_minute 9) 20)
                (@after utc_zone (300 * 1000000) ops db))
      (@after utc_zone (300 * 1000000) ops db).
Proof.
  intros db ops. destruct (occurrence_of "fp" db) as [r|] eqn:E; [|vm_compute in E; discriminate E].
  apply (final_occurrence_is_final (local_zone:=utc_zone) (300 * 1000000) ops _ "fp" db r);
    [apply after_unique; constructor|done|..|reflexivity].
  vm_compute in E. injection E as <-. vm_compute. left.
Defined.
