(* ===== verification/OccurrenceTheorems.v ===== *)
(** * OccurrenceTheorems: what the occurrence table promises

    The abstract specification is a book: each artifact has an entry with its
    slot (workflow and instant), its papers (digests), a generation and a phase,
    and times are integers.  [occurrence_refinement] shows that the table of
    [Recurring], with text columns compared as SQLite compares them, implements
    it. *)

From S2P Require Import Prelude PyText PyJson PyHash PyTime PyStd PyDate PySql PyJsonLoads ResourceLimits ModelsBase Recurring RecurringTheorems.
From stdpp Require Import gmap.

Open Scope Z_scope.

(** ** The specification *)

Inductive phase : Type :=
  | PBound
  | PRecoverable
  | PRunning (token : uuid) (until : Z)
  | PBlocked (request : string)
  | PFailed
  | PSucceeded
  | PCancelled
  | PIndeterminate
  | PRevoked.

Definition phase_status (p : phase) : OccurrenceStatus :=
  match p with
  | PBound => OCC_BOUND | PRecoverable => OCC_RECOVERABLE | PRunning _ _ => OCC_RUNNING
  | PBlocked _ => OCC_APPROVAL_BLOCKED | PFailed => OCC_FAILED_PRE_EFFECT
  | PSucceeded => OCC_SUCCEEDED | PCancelled => OCC_CANCELLED
  | PIndeterminate => OCC_INDETERMINATE | PRevoked => OCC_REVOKED
  end.

Definition phase_token (p : phase) : option uuid :=
  match p with PRunning t _ => Some t | _ => None end.
Definition phase_until (p : phase) : option Z :=
  match p with PRunning _ u => Some u | _ => None end.

Record occurrence : Type := mk_occurrence {
  o_name : string;
  o_at : Z;
  o_papers : string * string * string;
  o_generation : Z;
  o_phase : phase;
  o_resume_until : Z;
}.

Definition enter (p : phase) (o : occurrence) : occurrence :=
  mk_occurrence (o_name o) (o_at o) (o_papers o) (o_generation o) p (o_resume_until o).
Definition start (token : uuid) (until : Z) (o : occurrence) : occurrence :=
  mk_occurrence (o_name o) (o_at o) (o_papers o) (o_generation o + 1) (PRunning token until)
    (o_resume_until o).

Record book : Type := mk_book {
  slots : gmap (string * Z) string;
  entries : gmap string occurrence;
}.

Definition empty_book : book := mk_book ∅ ∅.

Definition set_entry (fp : string) (o : occurrence) (b : book) : book :=
  mk_book (slots b) (<[fp := o]> (entries b)).

(** One entry changes, or the operation is turned down. *)
Definition change (fp : string) (g : occurrence → option occurrence)
    (reply : occurrence → occurrence_reply) (refusal : occurrence_reply) (b : book)
    : occurrence_reply * book :=
  match entries b !! fp ≫= g with
  | Some o => (reply o, set_entry fp o b)
  | None => (refusal, b)
  end.

Definition held (g : Z) (t : uuid) (o : occurrence) : option Z :=
  match o_phase o with
  | PRunning t' until => if bool_decide (t' = t ∧ o_generation o = g) then Some until else None
  | _ => None
  end.

(** The phase a final status stands for. *)
Definition outcome (s : OccurrenceStatus) : option phase :=
  match s with
  | OCC_SUCCEEDED => Some PSucceeded | OCC_FAILED_PRE_EFFECT => Some PFailed
  | OCC_INDETERMINATE => Some PIndeterminate | OCC_REVOKED => Some PRevoked
  | _ => None
  end.

Definition review (s : OccurrenceStatus) : option phase :=
  match s with
  | OCC_RECOVERABLE => Some PRecoverable | OCC_INDETERMINATE => Some PIndeterminate
  | _ => None
  end.

Definition cancelled (p : phase) : option phase :=
  match p with
  | PSucceeded | PIndeterminate | PRevoked | PCancelled => None
  | PRunning _ _ => Some PIndeterminate
  | _ => Some PCancelled
  end.

Definition granted (o : occurrence) : occurrence_reply :=
  match o_phase o with PRunning t _ => Fence (o_generation o) t | _ => Refused end.

Definition has_papers (fp' fp : string) (papers : string * string * string) (o : occurrence) : bool :=
  bool_decide (fp' = fp ∧ o_papers o = papers).

Definition spec_op (lease : Z) (op : occurrence_op) (b : book) : occurrence_reply * book :=
  match op with
  | RegisterArtifact name scheduled_at fp sha digest key deadline =>
      let slot := (name, instant scheduled_at) in
      match slots b !! slot with
      | Some fp' =>
          (match entries b !! fp' with
           | Some o => if has_papers fp' fp (sha, digest, key) o
                          && (o_resume_until o =? instant deadline) then Done else Refused
           | None => Refused
           end, b)
      | None =>
          if bool_decide (entries b !! fp = None)
          then (Done, mk_book (<[slot := fp]> (slots b))
                  (<[fp := mk_occurrence name slot.2 (sha, digest, key) 0 PBound (instant deadline)]>
                     (entries b)))
          else (Refused, b)
      end
  | AuthenticateArtifact name scheduled_at fp sha digest key =>
      (match slots b !! (name, instant scheduled_at) ≫= λ fp', (fp',.) <$> entries b !! fp' with
       | Some (fp', o) =>
           if has_papers fp' fp (sha, digest, key) o then HasStatus (phase_status (o_phase o)) else Refused
       | None => Refused
       end, b)
  | Reserve fp started_at token =>
      change fp (λ o,
        match o_phase o with
        | PBound | PRecoverable =>
            if instant started_at <=? o_resume_until o
            then Some (start token (instant started_at + lease) o) else None
        | _ => None
        end) granted Refused b
  | MarkRecoverable fp =>
      change fp (λ o, if bool_decide (phase_status (o_phase o) = OCC_FAILED_PRE_EFFECT)
                      then Some (enter PRecoverable o) else None) (λ _, Done) Refused b
  | Reconcile fp status now =>
      change fp (λ o, until ← phase_until (o_phase o); p ← review status;
                      if until <=? instant now then Some (enter p o) else None) (λ _, Done) Refused b
  | CancelArtifact fp now =>
      change fp (λ o, (λ p, enter p o) <$> cancelled (o_phase o))
        (λ o, HasStatus (phase_status (o_phase o))) Refused b
  | Validate fp g t now =>
      (match entries b !! fp ≫= held g t with
       | Some until => if until <=? instant now then Refused else Done
       | None => Refused
       end, b)
  | RenewFence fp g t now =>
      change fp (λ o, until ← held g t o;
                      if until <=? instant now then None
                      else Some (enter (PRunning t (instant now + lease)) o)) (λ _, Answer true) (Answer false) b
  | Block fp g t request =>
      change fp (λ o, _ ← held g t o; Some (enter (PBlocked request) o)) (λ _, Done) Refused b
  | Resume fp prior request started_at token =>
      change fp (λ o,
        match o_phase o with
        | PBlocked request' =>
            if bool_decide (request' = request ∧ o_generation o = prior)
               && (instant started_at <=? o_resume_until o)
            then Some (start token (instant started_at + lease) o) else None
        | _ => None
        end) granted Refused b
  | Finalize fp g t status finished_at =>
      change fp (λ o, p ← outcome status; _ ← held g t o; Some (enter p o)) (λ _, Done) Refused b
  end.

Fixpoint spec_ops (lease : Z) (ops : list occurrence_op) (b : book) : list occurrence_reply * book :=
  match ops with
  | [] => ([], b)
  | op :: ops =>
      let '(r, b) := spec_op lease op b in
      let '(rs, b) := spec_ops lease ops b in (r :: rs, b)
  end.

(** ** The relation between table and book *)

Record row_means (r : occurrence_row) (o : occurrence) : Prop := mk_row_means {
  rm_name : oc_workflow_name r = o_name o;
  rm_at : oc_scheduled_at r = utc_text (o_at o);
  rm_papers : (oc_artifact_sha256 r, oc_registration_digest r, oc_execution_key r) = o_papers o;
  rm_status : oc_status r = OccurrenceStatus_str (phase_status (o_phase o));
  rm_generation : oc_claim_generation r = o_generation o;
  rm_token : oc_claim_token r = uuid_str <$> phase_token (o_phase o);
  rm_lease : oc_lease_expires_at r = utc_text <$> phase_until (o_phase o);
  rm_request q : o_phase o = PBlocked q → oc_approval_request_fingerprint r = Some q;
  rm_resume : oc_resume_deadline r = utc_text (o_resume_until o);
  rm_at_ok : in_calendar (o_at o);
  rm_resume_ok : in_calendar (o_resume_until o);
  rm_until_ok u : phase_until (o_phase o) = Some u → in_calendar u;
  rm_token_ok t : phase_token (o_phase o) = Some t → uuid_valid t = true;
}.

Record implements (db : scheduler_state) (b : book) : Prop := mk_implements {
  im_unique : unique_fingerprints db;
  im_slots : NoDup (map occurrence_key (recurring_occurrences db));
  im_rows fp : option_Forall2 row_means (occurrence_of fp db) (entries b !! fp);
  im_slot name n fp :
    slots b !! (name, n) = Some fp ↔ ∃ o, entries b !! fp = Some o ∧ o_name o = name ∧ o_at o = n;
}.

Lemma empty_implements : implements empty_state empty_book.
Proof.
  split; try constructor; cbn; [by rewrite lookup_empty|].
  intros (o&H&_). by rewrite lookup_empty in H.
Qed.

Section refinement.
Context {local_zone : SystemZone} (lease : Z).

Definition good_time (d : datetime) : Prop :=
  is_aware d = true ∧ 0 ≤ instant d ∧ instant d + lease ≤ last_instant ∧ 0 < lease.

(** The arguments an operation is called with: aware times far enough from the
    end of the calendar, tokens that are UUIDs. *)
Definition timely (op : occurrence_op) : Prop :=
  match op with
  | RegisterArtifact _ d _ _ _ _ deadline => good_time d ∧ good_time deadline
  | AuthenticateArtifact _ d _ _ _ _ => good_time d
  | Reserve _ d t | Resume _ _ _ d t => good_time d ∧ uuid_valid t = true
  | Reconcile _ _ d | CancelArtifact _ d => good_time d
  | Validate _ _ t d | RenewFence _ _ t d | Finalize _ _ t _ d => good_time d ∧ uuid_valid t = true
  | Block _ _ t _ => uuid_valid t = true
  | MarkRecoverable _ => True
  end.

Lemma good_calendar d : good_time d → in_calendar (instant d) ∧ in_calendar (instant d + lease).
Proof. unfold good_time, in_calendar. lia. Qed.

Lemma good_now d : good_time d → astimezone_utc d = Ok (of_instant (instant d)).
Proof.
  intros (Ha&H0&H1&Hl). unfold astimezone_utc, is_aware in *. destruct (dt_utcoffset d); [|done].
  rewrite Z.sub_0_r. destruct (_ && _) eqn:E; [done|].
  apply andb_false_iff in E as [E%Z.leb_gt|E%Z.leb_gt]; lia.
Qed.

Lemma good_until d : good_time d →
  dt_add (of_instant (instant d)) lease = Ok (of_instant (instant d + lease)).
Proof.
  intros (Ha&H0&H1&Hl). unfold dt_add. rewrite instant_utc, instant_of_instant by apply of_instant_utc.
  rewrite of_instant_utc, with_offset_same by apply of_instant_utc.
  destruct (_ && _) eqn:E; [done|].
  apply andb_false_iff in E as [E%Z.leb_gt|E%Z.leb_gt]; lia.
Qed.

Lemma iso_text n : isoformat (of_instant n) = utc_text n.
Proof. done. Qed.

(** *** Rows and entries *)

Lemma in_status_means fp s r o : row_means r o → oc_artifact_fingerprint r = fp →
  in_status fp s r = bool_decide (phase_status (o_phase o) = s).
Proof.
  intros Hm Hf. unfold in_status. rewrite Hf, String.eqb_refl, (rm_status r o) by done. cbn [andb].
  destruct (String.eqb_spec (OccurrenceStatus_str (phase_status (o_phase o))) (OccurrenceStatus_str s)) as [He|Hne].
  - by rewrite bool_decide_true by by apply status_str_inj.
  - rewrite bool_decide_false; [done|]. intros He. by rewrite He in Hne.
Qed.

Lemma holds_fence_means fp g t r o : row_means r o → oc_artifact_fingerprint r = fp →
  uuid_valid t = true → holds_fence fp g t r = match held g t o with Some _ => true | None => false end.
Proof.
  intros Hm Hf Ht. unfold holds_fence, held. rewrite (in_status_means fp _ r o) by done.
  rewrite (rm_generation r o), (rm_token r o) by done. pose proof (rm_token_ok r o Hm) as Hok.
  destruct (o_phase o) as [| |t' u| | | | | |]; try done. cbn.
  destruct (bool_decide_reflect (t' = t ∧ o_generation o = g)) as [[-> ->]|Hne].
  - by rewrite Z.eqb_refl, String.eqb_refl.
  - destruct (Z.eqb_spec (o_generation o) g) as [Hg|Hg]; [|by rewrite andb_false_r].
    destruct (String.eqb_spec (uuid_str t') (uuid_str t)) as [He|He]; [|by rewrite andb_false_r].
    destruct Hne. split; [|done]. apply uuid_str_inj; [by apply Hok|done..].
Qed.

Lemma held_until g t o u : held g t o = Some u →
  o_phase o = PRunning t u ∧ o_generation o = g.
Proof. unfold held. destruct (o_phase o); [done|done| |done..]. case_bool_decide; naive_solver. Qed.

Lemma implements_entry db b fp :
  implements db b →
  match entries b !! fp with
  | Some o => ∃ r, occurrence_of fp db = Some r ∧ row_means r o ∧ oc_artifact_fingerprint r = fp
  | None => occurrence_of fp db = None
  end.
Proof.
  intros Hi. pose proof (im_rows _ _ Hi fp) as H. pose proof (occurrence_of_fp fp db) as Hf.
  destruct H as [r o Hm|]; [|done]. exists r. split; [done|]. split; [done|]. by apply Hf.
Qed.

(** The [WHERE] of an update selects [fp]'s row exactly when the book changes
    the entry, and what it writes means the new entry. *)
Lemma change_refines fp w f g db b :
  implements db b →
  (∀ r, w r = true → oc_artifact_fingerprint r = fp) →
  (∀ r, oc_artifact_fingerprint (f r) = oc_artifact_fingerprint r ∧ occurrence_key (f r) = occurrence_key r) →
  (∀ r o, row_means r o → oc_artifact_fingerprint r = fp →
     occurrence_of fp db = Some r → entries b !! fp = Some o →
     match g o with
     | Some o' => w r = true ∧ row_means (f r) o' ∧ o_name o' = o_name o ∧ o_at o' = o_at o
     | None => w r = false
     end) →
  match entries b !! fp ≫= g with
  | Some o' => ∃ db' r', update_occurrences w f db = (1, db') ∧ implements db' (set_entry fp o' b)
                         ∧ occurrence_of fp db' = Some r' ∧ row_means r' o'
  | None => update_occurrences w f db = (0, db)
  end.
Proof.
  intros Hi Hw Hf Hg. rewrite (update_fingerprint w f fp) by (done || apply Hi).
  pose proof (implements_entry db b fp Hi) as He.
  destruct (entries b !! fp) as [o|] eqn:Eo; [|by rewrite He].
  destruct He as (r&Hr&Hm&Hfp). rewrite Hr. specialize (Hg r o Hm Hfp Hr eq_refl). cbn [mbind option_bind].
  destruct (g o) as [o'|]; [|by rewrite Hg].
  destruct Hg as (Hwr&Hm'&Hn'&Ha'). rewrite Hwr.
  set (db' := set_occurrences (set_row oc_artifact_fingerprint fp f (recurring_occurrences db)) db).
  assert (∀ fp', occurrence_of fp' db' = if decide (fp' = fp) then Some (f r) else occurrence_of fp' db) as Hof.
  { intros fp'. rewrite !occurrence_of_row. unfold db', set_occurrences. cbn [recurring_occurrences].
    rewrite row_of_set_row by apply Hf.
    destruct (decide (fp' = fp)); [|done]. by rewrite <-occurrence_of_row, Hr. }
  exists db', (f r). split; [done|]. split; [|split; [|done]].
  2: { rewrite Hof. by rewrite decide_True. }
  destruct Hi as [Hu Hk Hrows Hs]. split.
  - unfold unique_fingerprints, db', set_occurrences. cbn [recurring_occurrences]. by rewrite set_row_keys by apply Hf.
  - unfold db', set_occurrences. cbn [recurring_occurrences]. unfold set_row. rewrite map_map. erewrite map_ext; [exact Hk|].
    intros r'. cbn. case_bool_decide; [apply Hf|done].
  - intros fp'. rewrite Hof. cbn. destruct (decide (fp' = fp)) as [->|Hne].
    + rewrite lookup_insert_eq. by constructor.
    + by rewrite lookup_insert_ne.
  - intros name n fp'. rewrite Hs. cbn. destruct (decide (fp' = fp)) as [->|Hne].
    + rewrite lookup_insert_eq, Eo. split; intros (o0&[= <-]&<-&<-); eexists; (split; [done|]); by rewrite ?Hn', ?Ha'.
    + by rewrite lookup_insert_ne.
Qed.

(** The row an update writes for a new phase. *)
Lemma set_fence_means r o p g t l q d :
  row_means r o → t = uuid_str <$> phase_token p → l = utc_text <$> phase_until p →
  (∀ q', p = PBlocked q' → q = Some q') →
  (∀ u, phase_until p = Some u → in_calendar u) → (∀ t, phase_token p = Some t → uuid_valid t = true) →
  row_means (set_fence (phase_status p) g t l q d r)
    (mk_occurrence (o_name o) (o_at o) (o_papers o) g p (o_resume_until o)).
Proof. intros [] -> -> Hq Hu Ht. by split. Qed.

Lemma enter_means r o p q d s :
  row_means r o → s = phase_status p → phase_token p = None → phase_until p = None →
  (∀ q', p = PBlocked q' → q = Some q') →
  row_means (set_fence s (oc_claim_generation r) None None q d r) (enter p o).
Proof.
  intros Hm -> Ht Hu Hq. rewrite (rm_generation r o Hm).
  apply set_fence_means; rewrite ?Ht, ?Hu; by try done.
Qed.

Lemma start_means r o t u q g :
  row_means r o → in_calendar u → uuid_valid t = true → g = o_generation o + 1 →
  row_means (set_fence OCC_RUNNING g (Some (uuid_str t)) (Some (utc_text u)) q None r)
    (start t u o).
Proof.
  intros Hm Hu Ht ->.
  apply (set_fence_means r o (PRunning t u)); try done; cbn; by intros ? [= <-].
Qed.

(** Reply by reply and state by state. *)
Definition agree (p : occurrence_reply * scheduler_state) (q : occurrence_reply * book) : Prop :=
  let '(r, db) := p in let '(r', b) := q in r = r' ∧ implements db b.

Ltac premise H :=
  match type of H with ?A → _ => let HA := fresh "HA" in assert A as HA; [|specialize (H HA); clear HA] end.

(** Use [change_refines] for the update and the change of the goal. *)
Ltac by_change Hi :=
  match goal with
  | |- context [update_occurrences ?w ?f ?db] =>
      match goal with
      | |- context [change ?fp ?g _ _ ?b] =>
          let H := fresh "Hch" in
          pose proof (change_refines fp w f g db b Hi) as H; unfold change;
          premise H; [|premise H; [by intros|premise H; [|
            destruct (entries b !! fp ≫= g) as [o'|] eqn:Eo';
              [destruct H as (db'&r'&Hup&Hi'&Hr'&Hm'); rewrite Hup; clear Hup|rewrite H; clear H]]]]
      end
  end.

Lemma mark_refines fp db b : implements db b →
  agree (run_op lease (MarkRecoverable fp) db) (spec_op lease (MarkRecoverable fp) b).
Proof.
  intros Hi. cbn [run_op spec_op]. unfold mark_occurrence_recoverable. by_change Hi.
  - apply in_status_fp.
  - intros r o Hm Hfp _ _. rewrite (in_status_means fp _ r o) by done. case_bool_decide as Hs; [|done].
    split; [done|]. split; [|done]. rewrite (rm_token r o), (rm_lease r o) by done.
    destruct (o_phase o); try done. by apply enter_means.
  - done.
  - done.
Qed.

Lemma cancelled_Some p p' : cancelled p = Some p' →
  phase_token p' = None ∧ phase_until p' = None ∧ (∀ q, p' ≠ PBlocked q)
  ∧ phase_status p' = (if bool_decide (phase_status p = OCC_RUNNING) then OCC_INDETERMINATE else OCC_CANCELLED)
  ∧ phase_status p ∉ [OCC_SUCCEEDED; OCC_INDETERMINATE; OCC_REVOKED; OCC_CANCELLED].
Proof.
  destruct p; intros [= <-]; (split; [done|]); (split; [done|]); (split; [done|]); (split; [done|]);
    by apply (bool_decide_unpack _).
Qed.

Lemma cancelled_None p : cancelled p = None →
  bool_decide (phase_status p ∈ [OCC_SUCCEEDED; OCC_INDETERMINATE; OCC_REVOKED; OCC_CANCELLED]) = true.
Proof. by destruct p. Qed.

Lemma reconcile_refines fp s d db b : implements db b → good_time d →
  agree (run_op lease (Reconcile fp s d) db) (spec_op lease (Reconcile fp s d) b).
Proof.
  intros Hi Hd. cbn [run_op spec_op]. unfold reconcile_expired_occurrence.
  destruct (review s) as [p|] eqn:Ep.
  2: { replace (negb _) with true by (by destruct s). unfold change.
    destruct (entries b !! fp) as [o|]; cbn; [|done]. by destruct (phase_until _). }
  assert (s = phase_status p ∧ phase_token p = None ∧ phase_until p = None ∧ (∀ q, p ≠ PBlocked q)) as (->&Ht&Hu&Hq).
  { destruct s; try discriminate Ep; injection Ep as <-; done. }
  replace (negb _) with false by (by destruct p).
  rewrite good_now, iso_text by done. by_change Hi.
  - intros r [H _]%andb_true_iff. by eapply in_status_fp.
  - intros r o Hm Hfp _ _. rewrite (in_status_means fp _ r o), (rm_lease r o) by done.
    pose proof (rm_until_ok r o Hm) as Hok.
    destruct (o_phase o) as [| |t u| | | | | |]; try done. cbn -[utc_text].
    rewrite utc_text_le; [|by apply Hok|by apply good_calendar].
    destruct (u <=? instant d); [|done]. split; [done|]. split; [|done]. apply enter_means; try done.
    intros q' ->. by destruct (Hq q').
  - done.
  - done.
Qed.
Lemma cancel_refines fp d db b : implements db b →
  agree (run_op lease (CancelArtifact fp d) db) (spec_op lease (CancelArtifact fp d) b).
Proof.
  intros Hi. cbn [run_op spec_op]. unfold cancel_occurrence, atomically.
  pose proof (implements_entry db b fp Hi) as He.
  destruct (entries b !! fp) as [o|] eqn:Eo.
  2: { rewrite He. unfold change. rewrite Eo. done. }
  destruct He as (r&Hr&Hm&Hfp). rewrite Hr. unfold or_raise at 1. rstep.
  rewrite (rm_status r o Hm). change (OccurrenceStatus_str (phase_status (o_phase o))) with (enum_str (phase_status (o_phase o))).
  rewrite enum_parse_str. rstep.
  destruct (cancelled (o_phase o)) as [p|] eqn:Ec.
  2: { rewrite cancelled_None by done. unfold change. rewrite Eo. cbn. by rewrite Ec. }
  destruct (cancelled_Some _ _ Ec) as (Ht&Hu&Hq&Hs&Hn). rewrite (bool_decide_false _ Hn).
  unfold raise_if at 1. rstep. cbv zeta. by_change Hi.
  - apply in_status_fp.
  - intros r0 o0 _ _ Hr0 Ho0. rewrite Hr in Hr0. injection Hr0 as <-. rewrite Eo in Ho0. injection Ho0 as <-.
    rewrite Ec. cbn [fmap option_fmap option_map]. rewrite (in_status_means fp _ r o), bool_decide_true by done.
    split; [done|]. split; [|done]. rewrite <-Hs. apply enter_means; try done. intros q' ->. by destruct (Hq q').
  - rewrite Eo in Eo'. cbn in Eo'. rewrite Ec in Eo'. injection Eo' as <-. cbn. by rewrite Hs.
  - rewrite Eo in Eo'. cbn in Eo'. by rewrite Ec in Eo'.
Qed.
Lemma reserve_refines fp d t db b : implements db b → good_time d → uuid_valid t = true →
  agree (run_op lease (Reserve fp d t) db) (spec_op lease (Reserve fp d t) b).
Proof.
  intros Hi Hd Ht. destruct (good_calendar d Hd) as [Hnow Huntil].
  cbn [run_op spec_op]. unfold reserve_occurrence, atomically.
  rewrite good_now by done. rstep. rewrite good_until by done. rstep. rewrite !iso_text. by_change Hi.
  - intros r [[H _]%andb_true_iff _]%andb_true_iff. by apply String.eqb_eq.
  - intros r o Hm Hfp _ _. rewrite Hfp, String.eqb_refl, (rm_status r o), (rm_resume r o) by done.
    rewrite utc_text_le by (done || by apply (rm_resume_ok r o)).
    destruct (o_phase o); cbn [phase_status]; try reflexivity;
      (destruct (instant d <=? o_resume_until o); [|done]; split; [done|]; split; [|done];
      apply start_means; try done; by rewrite (rm_generation r o)).
  - unfold unless_one. cbn [Z.eqb Pos.eqb negb raise_if]. rstep. rewrite Hr'. unfold or_raise. rstep.
    split; [|done]. rewrite (rm_generation _ _ Hm').
    apply bind_Some in Eo' as (o&_&Eo'). cbn beta in Eo'. unfold granted.
    assert (o_phase o' = PRunning t (instant d + lease)) as ->; [|done].
    destruct (o_phase o); try discriminate Eo'; case_match; try discriminate Eo'; by injection Eo' as <-.
  - done.
Qed.

Lemma resume_refines fp g q d t db b : implements db b → good_time d → uuid_valid t = true →
  agree (run_op lease (Resume fp g q d t) db) (spec_op lease (Resume fp g q d t) b).
Proof.
  intros Hi Hd Ht. destruct (good_calendar d Hd) as [Hnow Huntil].
  cbn [run_op spec_op]. unfold resume_approval_blocked_occurrence, atomically.
  rewrite good_now by done. rstep. rewrite good_until by done. rstep. rewrite !iso_text. by_change Hi.
  - intros r [[[H _]%andb_true_iff _]%andb_true_iff _]%andb_true_iff. by eapply in_status_fp.
  - intros r o Hm Hfp _ _. rewrite (in_status_means fp _ r o), (rm_generation r o), (rm_resume r o) by done.
    rewrite utc_text_le by (done || by apply (rm_resume_ok r o)).
    destruct (o_phase o) as [| | |q0| | | | |] eqn:Ep; try done.
    rewrite (rm_request r o Hm q0 Ep). cbn [phase_status col_eq].
    rewrite (bool_decide_true (OCC_APPROVAL_BLOCKED = _)) by done. cbn [andb].
    destruct (bool_decide_reflect (q0 = q ∧ o_generation o = g)) as [[-> Hg]|Hne].
    + rewrite Hg, Z.eqb_refl, String.eqb_refl. cbn [andb].
      destruct (instant d <=? o_resume_until o); [|done]. split; [done|]. split; [|done].
      apply start_means; try done. by rewrite Hg.
    + cbn [andb]. destruct (Z.eqb_spec (o_generation o) g), (String.eqb_spec q0 q); try done. by destruct Hne.
  - unfold unless_one. cbn [Z.eqb Pos.eqb negb raise_if]. rstep. split; [|done].
    apply bind_Some in Eo' as (o&_&Eo'). cbn beta in Eo'. unfold granted.
    destruct (o_phase o) as [| | |q0| | | | |]; try discriminate Eo'.
    destruct (bool_decide_reflect (q0 = q ∧ o_generation o = g)) as [[_ Hg]|Hne]; [|discriminate Eo'].
    destruct (_ <=? _); [|discriminate Eo']. injection Eo' as <-. cbn. by rewrite Hg.
  - done.
Qed.

Lemma transition_refines fp g t p q fin db b (msg : string) s : implements db b → uuid_valid t = true →
  s = phase_status p → phase_token p = None → phase_until p = None → (∀ q', p = PBlocked q' → q = Some q') →
  agree (replying (λ _, Done)
    (let '(n, db) := update_occurrences (holds_fence fp g t)
       (λ r, set_fence s (oc_claim_generation r) None None q fin r) db in (unless_one n msg, db)))
    (change fp (λ o, _ ← held g t o; Some (enter p o)) (λ _, Done) Refused b).
Proof.
  intros Hi Ht -> Hpt Hpu Hq. by_change Hi.
  - apply holds_fence_fp.
  - intros r o Hm Hfp _ _. rewrite (holds_fence_means fp g t r o) by done.
    destruct (held g t o) as [u|]; [|done]. cbn. split; [done|]. split; [|done]. by apply enter_means.
  - done.
  - done.
Qed.

Lemma block_refines fp g t q db b : implements db b → uuid_valid t = true →
  agree (run_op lease (Block fp g t q) db) (spec_op lease (Block fp g t q) b).
Proof.
  intros Hi Ht. cbn [run_op spec_op]. unfold block_occurrence_for_approval, transition_running_occurrence.
  apply transition_refines; try done. by intros ? [= <-].
Qed.

Lemma change_never fp g reply refusal b :
  (∀ o, g o = None) → change fp g reply refusal b = (refusal, b).
Proof. intros Hg. unfold change. destruct (entries b !! fp); [|done]. cbn. by rewrite Hg. Qed.

Lemma finalize_refines fp g t s d db b : implements db b → good_time d → uuid_valid t = true →
  agree (run_op lease (Finalize fp g t s d) db) (spec_op lease (Finalize fp g t s d) b).
Proof.
  intros Hi Hd Ht. cbn [run_op spec_op]. unfold finalize_occurrence.
  destruct (outcome s) as [p|] eqn:Ep.
  2: { rewrite change_never by done. by replace (negb _) with true by (by destruct s). }
  assert (s = phase_status p ∧ phase_token p = None ∧ phase_until p = None ∧ ∀ q, p ≠ PBlocked q) as (->&Hpt&Hpu&Hq).
  { destruct s; try discriminate Ep; injection Ep as <-; done. }
  replace (negb _) with false by (by destruct p). unfold transition_running_occurrence.
  rewrite good_now by done. rstep. apply transition_refines; try done. intros q' ->. by destruct (Hq q').
Qed.
Lemma renew_means r o t u u0 :
  row_means r o → o_phase o = PRunning t u0 → in_calendar u → uuid_valid t = true →
  row_means
    (mk_occurrence_row (oc_workflow_name r) (oc_scheduled_at r) (oc_artifact_fingerprint r)
       (oc_artifact_sha256 r) (oc_registration_digest r) (oc_execution_key r) (oc_status r)
       (oc_claim_generation r) (oc_claim_token r) (Some (utc_text u))
       (oc_approval_request_fingerprint r) (oc_resume_deadline r) (oc_finished_at r))
    (enter (PRunning t u) o).
Proof.
  intros [] Hp Hu Ht. rewrite Hp in *. split; try done.
  - intros u' Hu'. by apply (inj Some) in Hu' as <-.
Qed.

Lemma renew_refines fp g t d db b : implements db b → good_time d → uuid_valid t = true →
  agree (run_op lease (RenewFence fp g t d) db) (spec_op lease (RenewFence fp g t d) b).
Proof.
  intros Hi Hd Ht. destruct (good_calendar d Hd) as [Hnow Huntil].
  cbn [run_op spec_op]. unfold renew_occurrence_fence, atomically.
  rewrite good_now by done. rstep. rewrite good_until by done. rstep. rewrite !iso_text. by_change Hi.
  - intros r [H _]%andb_true_iff. by eapply holds_fence_fp.
  - intros r o Hm Hfp _ _. rewrite (holds_fence_means fp g t r o) by done.
    destruct (held g t o) as [u|] eqn:Eh; [|done]. destruct (held_until g t o u Eh) as [Hp Hg].
    cbn [mbind option_bind andb]. rewrite (rm_lease r o Hm), Hp. cbn [phase_until fmap option_fmap option_map col_gt].
    rewrite utc_text_le; [|by apply (rm_until_ok r o Hm); rewrite Hp|done].
    destruct (u <=? instant d); [done|]. split; [done|]. split; [|done].
    by apply (renew_means r o t _ u).
  - done.
  - done.
Qed.

Lemma validate_refines fp g t d db b : implements db b → good_time d → uuid_valid t = true →
  agree (run_op lease (Validate fp g t d) db) (spec_op lease (Validate fp g t d) b).
Proof.
  intros Hi Hd Ht. split; [|done].
  pose proof (implements_entry db b fp Hi) as He. destruct (entries b !! fp) as [o|] eqn:Eo.
  2: { unfold validate_occurrence_fence. rewrite good_now by done. rstep. by rewrite He. }
  destruct He as (r&Hr&Hm&Hfp). cbn [mbind option_bind].
  pose proof (holds_fence_means fp g t r o Hm Hfp Ht) as Hh.
  destruct (held g t o) as [u|] eqn:Eh.
  2: { by apply (validate_refused fp g t d db r). }
  unfold validate_occurrence_fence. rewrite good_now by done. rstep. rewrite Hr. unfold or_raise. rstep.
  destruct (held_until g t o u Eh) as [Hp Hg].
  rewrite (rm_status r o), (rm_generation r o), (rm_token r o), (rm_lease r o), Hp, Hg by done.
  unfold raise_if. cbn [phase_status phase_token phase_until fmap option_fmap option_map].
  unfold column_str. cbn [default from_option id].
  rewrite !String.eqb_refl, Z.eqb_refl. cbn [negb]. rstep. rewrite utc_text_read by (apply (rm_until_ok r o Hm); by rewrite Hp).
  rstep. unfold is_aware. rewrite of_instant_utc. cbn [negb]. rstep. unfold dt_le. rewrite !instant_of_instant.
  by destruct (u <=? instant d).
Qed.

(** The row of a slot. *)
Lemma slot_row name n db b : implements db b → in_calendar n →
  match select_where (λ r, bool_decide (occurrence_key r = (name, utc_text n))) (recurring_occurrences db) with
  | Some r => ∃ o, slots b !! (name, n) = Some (oc_artifact_fingerprint r)
                   ∧ entries b !! oc_artifact_fingerprint r = Some o ∧ row_means r o
  | None => slots b !! (name, n) = None
  end.
Proof.
  intros Hi Hn. change (select_where _ _) with (row_of occurrence_key (name, utc_text n) (recurring_occurrences db)).
  destruct (row_of _ _ _) as [r|] eqn:E.
  - pose proof (row_of_key _ _ _ _ E) as Hk. pose proof (row_of_elem _ _ _ _ E) as Hr.
    pose proof (implements_entry db b (oc_artifact_fingerprint r) Hi) as He.
    rewrite occurrence_of_row, row_of_member in He by (done || apply Hi).
    destruct (entries b !! _) as [o|] eqn:Eo; [|done]. destruct He as (r'&[= <-]&Hm&_).
    exists o. split; [|done]. apply (im_slot _ _ Hi). exists o. split; [done|].
    injection Hk as Hname Hat. rewrite (rm_name r o), (rm_at r o) in * by done.
    split; [done|]. apply Z.eqb_eq. rewrite <-utc_text_eq by (done || by apply (rm_at_ok r o)). by apply String.eqb_eq.
  - destruct (slots b !! (name, n)) as [fp|] eqn:Es; [|done]. exfalso.
    apply (im_slot _ _ Hi) in Es as (o&Eo&Hname&Hat).
    pose proof (implements_entry db b fp Hi) as He. rewrite Eo in He. destruct He as (r&Hr&Hm&_).
    apply row_of_None in E. apply E. rewrite occurrence_of_row in Hr. apply row_of_elem in Hr.
    apply list_elem_of_fmap. exists r. split; [|done]. unfold occurrence_key.
    by rewrite (rm_name r o), (rm_at r o), Hname, Hat.
Qed.
Lemma papers_text r o fp sha digest key : row_means r o →
  bool_decide ([oc_artifact_fingerprint r; oc_artifact_sha256 r; oc_registration_digest r; oc_execution_key r]
    = [fp; sha; digest; key])
  = has_papers (oc_artifact_fingerprint r) fp (sha, digest, key) o.
Proof.
  intros Hm. unfold has_papers. rewrite <-(rm_papers r o Hm). apply bool_decide_ext. naive_solver.
Qed.

Lemma authenticate_refines name at_ fp sha digest key db b : implements db b → good_time at_ →
  agree (run_op lease (AuthenticateArtifact name at_ fp sha digest key) db)
    (spec_op lease (AuthenticateArtifact name at_ fp sha digest key) b).
Proof.
  intros Hi Hd. split; [|done]. destruct (good_calendar at_ Hd) as [Hnow _].
  unfold authenticate_occurrence_artifact. rewrite good_now by done. rstep. rewrite iso_text.
  pose proof (slot_row name (instant at_) db b Hi Hnow) as Hs.
  destruct (select_where _ _) as [r|]; [|by rewrite Hs].
  destruct Hs as (o&Hs&Ho&Hm). rewrite Hs. cbn [mbind option_bind]. rewrite Ho.
  cbn [fmap option_fmap option_map]. unfold or_raise. rstep.
  rewrite (papers_text r o) by done. destruct (has_papers _ _ _ _); [|done]. unfold raise_if. cbn [negb]. rstep.
  rewrite (rm_status r o Hm). change (OccurrenceStatus_str ?s) with (enum_str s). by rewrite enum_parse_str.
Qed.

Lemma deadline_text r o fp sha digest key n : row_means r o → in_calendar n →
  bool_decide ([oc_artifact_fingerprint r; oc_artifact_sha256 r; oc_registration_digest r; oc_execution_key r;
                oc_resume_deadline r] = [fp; sha; digest; key; utc_text n])
  = has_papers (oc_artifact_fingerprint r) fp (sha, digest, key) o && (o_resume_until o =? n).
Proof.
  intros Hm Hn. rewrite <-(papers_text r o) by done. rewrite (rm_resume r o Hm).
  rewrite <-utc_text_eq by (done || apply (rm_resume_ok r o Hm)).
  destruct (String.eqb_spec (utc_text (o_resume_until o)) (utc_text n)) as [->|Hne].
  - rewrite andb_true_r. apply bool_decide_ext. naive_solver.
  - rewrite andb_false_r. apply bool_decide_false. congruence.
Qed.

(** A new row at the end of the table. *)
Lemma occurrence_of_snoc db r fp :
  occurrence_of fp (set_occurrences (recurring_occurrences db ++ [r]) db)
  = match occurrence_of fp db with
    | Some r' => Some r'
    | None => if decide (oc_artifact_fingerprint r = fp) then Some r else None
    end.
Proof.
  rewrite !occurrence_of_row. unfold set_occurrences. cbn [recurring_occurrences]. rewrite row_of_snoc.
  case_match; [done|]. by destruct (decide _), (bool_decide_reflect (oc_artifact_fingerprint r = fp)).
Qed.

Lemma register_implements db b name n fp papers until r :
  implements db b → slots b !! (name, n) = None → entries b !! fp = None →
  oc_artifact_fingerprint r = fp → in_calendar n →
  row_means r (mk_occurrence name n papers 0 PBound until) →
  implements (set_occurrences (recurring_occurrences db ++ [r]) db)
    (mk_book (<[(name, n) := fp]> (slots b)) (<[fp := mk_occurrence name n papers 0 PBound until]> (entries b))).
Proof.
  intros Hi Hs He Hfp Hn Hm. pose proof (implements_entry db b fp Hi) as Hr. rewrite He in Hr.
  pose proof (slot_row name n db b Hi Hn) as Hsr. pose proof (rm_name _ _ Hm) as Hname. pose proof (rm_at _ _ Hm) as Hat.
  cbn in Hname, Hat.
  split; unfold set_occurrences; cbn [recurring_occurrences].
  - unfold unique_fingerprints. cbn [recurring_occurrences]. rewrite map_app. apply NoDup_app.
    split; [apply Hi|]. split; [|apply NoDup_singleton]. intros x Hx Hx'.
    apply list_elem_of_singleton in Hx' as ->. rewrite occurrence_of_row in Hr. apply row_of_None in Hr.
    by rewrite Hfp in Hx.
  - rewrite map_app. apply NoDup_app. split; [apply Hi|]. split; [|apply NoDup_singleton].
    intros x Hx Hx'. apply list_elem_of_singleton in Hx' as ->. assert (occurrence_key r = (name, utc_text n)) as Hk by (unfold occurrence_key; by rewrite Hname, Hat).
    rewrite Hk in Hx.
    change (select_where _ _) with (row_of occurrence_key (name, utc_text n) (recurring_occurrences db)) in Hsr.
    destruct (row_of _ _ _) as [r'|] eqn:E; [|by apply row_of_None in E].
    destruct Hsr as (o&Hs'&_). congruence.
  - intros fp'. pose proof (occurrence_of_snoc db r fp') as Ho. unfold set_occurrences in Ho. rewrite Ho. clear Ho.
    cbn [entries]. destruct (decide (fp' = fp)) as [->|Hne].
    + rewrite Hr, decide_True, lookup_insert_eq by done. by constructor.
    + rewrite lookup_insert_ne by done. pose proof (im_rows _ _ Hi fp') as Hrow.
      destruct Hrow; [by constructor|]. rewrite decide_False by congruence. constructor.
  - intros name' n' fp'. cbn [slots entries].
    destruct (decide ((name', n') = (name, n))) as [[= -> ->]|Hne].
    + rewrite lookup_insert_eq. split.
      * intros [= <-]. rewrite lookup_insert_eq. by eexists.
      * intros (o&Ho&Hon&Hoa). destruct (decide (fp' = fp)) as [->|Hf]; [done|].
        rewrite lookup_insert_ne in Ho by done. exfalso.
        assert (slots b !! (name, n) = Some fp') as E by (apply (im_slot _ _ Hi); eauto). congruence.
    + rewrite lookup_insert_ne by done. rewrite (im_slot _ _ Hi). destruct (decide (fp' = fp)) as [->|Hf].
      * rewrite lookup_insert_eq, He. split; [by intros (?&?&_)|]. intros (o&[= <-]&<-&<-). by destruct Hne.
      * by rewrite lookup_insert_ne.
Qed.
Lemma bound_means name n fp sha digest key m : in_calendar n → in_calendar m →
  row_means (mk_occurrence_row name (utc_text n) fp sha digest key (OccurrenceStatus_str OCC_BOUND)
               0 None None None (utc_text m) None)
    (mk_occurrence name n (sha, digest, key) 0 PBound m).
Proof. intros Hn Hm. by split. Qed.

Lemma register_refines name at_ fp sha digest key deadline db b :
  implements db b → good_time at_ → good_time deadline →
  agree (run_op lease (RegisterArtifact name at_ fp sha digest key deadline) db)
    (spec_op lease (RegisterArtifact name at_ fp sha digest key deadline) b).
Proof.
  intros Hi Hd Hdl. destruct (good_calendar at_ Hd) as [Hnow _]. destruct (good_calendar deadline Hdl) as [Hdln _].
  cbn [run_op spec_op]. unfold register_occurrence_artifact, atomically.
  rewrite !good_now by done. rstep. rewrite !iso_text. cbv zeta.
  pose proof (slot_row name (instant at_) db b Hi Hnow) as Hs.
  destruct (select_where _ _) as [r|].
  - destruct Hs as (o&Hs&Ho&Hm). rewrite Hs, Ho, (deadline_text r o) by done.
    destruct (has_papers _ _ _ _ && _); by split.
  - rewrite Hs. pose proof (implements_entry db b fp Hi) as He.
    assert (existsb (λ r, (oc_artifact_fingerprint r =? fp)%string) (recurring_occurrences db)
      = negb (bool_decide (entries b !! fp = None))) as ->.
    { destruct (entries b !! fp) as [o|] eqn:Eo.
      - rewrite bool_decide_false by done. destruct He as (r&Hr&_). unfold occurrence_of, select_where in Hr.
        apply find_some in Hr. apply existsb_exists. eauto.
      - rewrite bool_decide_true by done. apply not_true_iff_false. intros (r&Hin&Hr)%existsb_exists.
        unfold occurrence_of, select_where in He. pose proof (find_none _ _ He r Hin). congruence. }
    case_bool_decide as Hno; unfold raise_if; cbn [negb]; rstep; [|done].
    split; [done|]. cbn [snd]. revert Hs Hnow Hdln. generalize (instant at_) (instant deadline). intros n m Hs Hnow Hdln.
    apply register_implements; [done|done|done|done|done|by apply bound_means].
Qed.

Lemma occurrence_op_refines op db b : implements db b → timely op → agree (run_op lease op db) (spec_op lease op b).
Proof.
  intros Hi Ht. destruct op; cbn [timely] in Ht;
    eauto using mark_refines, block_refines, cancel_refines, authenticate_refines, reconcile_refines;
    destruct Ht as [Ht1 Ht2];
    eauto using reserve_refines, resume_refines, validate_refines, renew_refines, finalize_refines, register_refines.
Qed.

Lemma history_refines ops db b : implements db b → Forall timely ops →
  (run_ops lease ops db).1 = (spec_ops lease ops b).1 ∧ implements (run_ops lease ops db).2 (spec_ops lease ops b).2.
Proof.
  intros Hi Ht. revert db b Hi. induction Ht as [|op ops Hop _ IH]; intros db b Hi; [done|].
  pose proof (occurrence_op_refines op db b Hi Hop) as Ha. cbn [run_ops spec_ops].
  destruct (run_op lease op db) as [r db'], (spec_op lease op b) as [r' b']. destruct Ha as [-> Hi'].
  destruct (IH db' b' Hi') as [Hrs Him].
  destruct (run_ops lease ops db'), (spec_ops lease ops b'). cbn in *. by rewrite Hrs.
Qed.

(** C33: from the empty database, every history of operations on recurring
    occurrences (with aware times away from the end of the calendar and UUID
    tokens) gives exactly the replies the book of occurrences gives, and leaves
    a table that stands for the book's final state: the text comparisons of the
    SQL statements decide as the instants do. *)
Theorem occurrence_refinement ops :
  Forall timely ops →
  (run_ops lease ops empty_state).1 = (spec_ops lease ops empty_book).1
  ∧ implements (run_ops lease ops empty_state).2 (spec_ops lease ops empty_book).2.
Proof. intros Ht. apply history_refines; [apply empty_implements|done]. Qed.
End refinement.

(** ** The concrete history *)

Lemma sample_timely : Forall (timely (300 * 1000000)) sample_history.
Proof. repeat constructor; vm_compute; done. Qed.

Lemma occurrence_refinement_witness :
  (@run_ops utc_zone (300 * 1000000) sample_history empty_state).1
  = (spec_ops (300 * 1000000) sample_history empty_book).1
  ∧ implements (@run_ops utc_zone (300 * 1000000) sample_history empty_state).2
      (spec_ops (300 * 1000000) sample_history empty_book).2.
Proof. apply (occurrence_refinement (local_zone:=utc_zone) (300 * 1000000)). apply sample_timely. Defined.
