(* ===== verification/ClaimTheorems.v ===== *)
(** * ClaimTheorems: claims of scheduled runs

    A scheduled run is claimed once, and once more for each reviewed recovery of
    an expired claim; it is completed at most once; and the runner calls the
    workflow only under a claim. *)

From S2P Require Import Prelude PyText PyJson PyHash PyTime PyStd PyDate PySql PyJsonLoads ResourceLimits ModelsBase Recurring.
From stdpp Require Import gmap.

Open Scope Z_scope.

Inductive claim_op : Type :=
  | ClaimRun (name : string) (scheduled_at started_at : datetime) (token : uuid)
  | RenewRun (name : string) (scheduled_at : datetime) (token : uuid) (now : datetime)
  | ExpireRuns (now : datetime)
  | RecoverRun (name : string) (scheduled_at : datetime)
  | CompleteRun (name : string) (scheduled_at : datetime) (token : uuid) (finished_at : datetime)
      (result_ : RecurringRunResult).

(** The run an operation is about. *)
Definition claim_op_key (op : claim_op) : option (string * string) :=
  match op with
  | ClaimRun name at_ _ _ | RenewRun name at_ _ _ | RecoverRun name at_ | CompleteRun name at_ _ _ _ =>
      Some (name, isoformat at_)
  | ExpireRuns _ => None
  end.

Section claims.
Context {local_zone : SystemZone} (lease : Z).

(** Whether the operation took effect, and the database it leaves. *)
Definition run_claim (op : claim_op) (db : scheduler_state) : bool * scheduler_state :=
  match op with
  | ClaimRun name at_ started token =>
      let '(r, db) := claim lease name at_ started token db in
      (match r with Ok (Some _) => true | _ => false end, db)
  | RenewRun name at_ token now =>
      let '(r, db) := renew lease name at_ token now db in
      (match r with Ok b => b | _ => false end, db)
  | ExpireRuns now => let '(r, db) := expire_claims now db in (is_ok r, db)
  | RecoverRun name at_ => mark_recoverable name at_ db
  | CompleteRun name at_ token finished result_ =>
      let '(r, db) := complete name at_ token finished result_ db in (is_ok r, db)
  end.

Fixpoint run_claims (ops : list claim_op) (db : scheduler_state)
    : list (claim_op * bool) * scheduler_state :=
  match ops with
  | [] => ([], db)
  | op :: ops =>
      let '(b, db) := run_claim op db in
      let '(trace, db) := run_claims ops db in ((op, b) :: trace, db)
  end.

Definition is_claim (op : claim_op) : bool := match op with ClaimRun _ _ _ _ => true | _ => false end.
Definition is_review (op : claim_op) : bool := match op with RecoverRun _ _ => true | _ => false end.
Definition is_completion (op : claim_op) : bool :=
  match op with CompleteRun _ _ _ _ _ => true | _ => false end.

(** How many operations of a kind took effect on a run. *)
Definition effective (kind : claim_op → bool) (k : string * string) (trace : list (claim_op * bool)) : Z :=
  Z.of_nat (length (List.filter (λ p, kind p.1 && p.2 && bool_decide (claim_op_key p.1 = Some k)) trace)).

(** ** The row of a run *)

Definition run_of (k : string * string) (db : scheduler_state) : option run_row :=
  row_of run_key k (recurring_runs db).

Definition unique_runs (db : scheduler_state) : Prop := NoDup (map run_key (recurring_runs db)).

Lemma update_run w f k db :
  unique_runs db → (∀ r, w r = true → run_key r = k) →
  update_runs w f db
  = match run_of k db with
    | Some r => if w r then (1, set_runs (set_row run_key k f (recurring_runs db)) db) else (0, db)
    | None => (0, db)
    end.
Proof.
  intros Hu Hw. unfold update_runs. rewrite (update_row_of run_key k w f) by done.
  unfold run_of. destruct (row_of _ _ _) as [r|]; [destruct (w r)|]; by destruct db.
Qed.

(** Any update, seen at one run. *)
Lemma run_of_update w f k db :
  (∀ r, run_key (f r) = run_key r) →
  run_of k (update_runs w f db).2 = (λ r, if w r then f r else r) <$> run_of k db.
Proof.
  intros Hf. unfold run_of, row_of, select_where, update_runs, update_where. cbn.
  induction (recurring_runs db) as [|r rows IH]; [done|]. cbn.
  assert (run_key (if w r then f r else r) = run_key r) as -> by (by destruct (w r)).
  by destruct (bool_decide (run_key r = k)).
Qed.

Lemma update_runs_unique w f db :
  (∀ r, run_key (f r) = run_key r) → unique_runs db → unique_runs (update_runs w f db).2.
Proof.
  intros Hf Hu. unfold unique_runs, update_runs, update_where in *. cbn.
  rewrite map_map. erewrite map_ext; [exact Hu|]. intros r. by destruct (w r).
Qed.
Lemma update_run_cases w f k db :
  unique_runs db → (∀ r, w r = true → run_key r = k) → (∀ r, run_key (f r) = run_key r) →
  (∃ r db', run_of k db = Some r ∧ w r = true ∧ update_runs w f db = (1, db') ∧ unique_runs db'
            ∧ ∀ k', run_of k' db' = if decide (k' = k) then Some (f r) else run_of k' db)
  ∨ update_runs w f db = (0, db).
Proof.
  intros Hu Hw Hf. pose proof (update_runs_unique w f db Hf Hu) as Hu'.
  pose proof (λ k', run_of_update w f k' db Hf) as Hrow.
  rewrite (update_run w f k db Hu Hw) in *.
  destruct (run_of k db) as [r|] eqn:Er; [destruct (w r) eqn:Ew|]; [left|by right..].
  eexists r, _. split; [done|]. split; [done|]. split; [done|]. split; [exact Hu'|].
  intros k'. cbn [snd] in Hrow. rewrite Hrow. destruct (decide (k' = k)) as [->|Hne].
  - rewrite Er. cbn. by rewrite Ew.
  - destruct (run_of k' db) as [r'|] eqn:Er'; [|done]. cbn. destruct (w r') eqn:Ew'; [|done].
    apply Hw in Ew'. apply row_of_key in Er'. congruence.
Qed.

(** ** The tally of a run *)

Definition status_in (l : list ClaimStatus) (r : run_row) : Prop :=
  ∃ s, s ∈ l ∧ rr_status r = ClaimStatus_str s.

Definition tally (row : option run_row) (claims reviews completions : Z) : Prop :=
  match row with
  | None => claims = 0 ∧ reviews = 0 ∧ completions = 0
  | Some r =>
      rr_attempt_count r = claims ∧
      (status_in [RUN_RUNNING; RUN_EXPIRED] r ∧ claims = reviews + 1 ∧ completions = 0
       ∨ status_in [RUN_RECOVERABLE] r ∧ claims = reviews ∧ completions = 0
       ∨ status_in [RUN_SUCCEEDED; RUN_FAILED] r ∧ claims = reviews + 1 ∧ completions = 1)
  end.

Definition hit (kind : claim_op → bool) (k : string * string) (op : claim_op) (b : bool) : Z :=
  if kind op && b && bool_decide (claim_op_key op = Some k) then 1 else 0.

Lemma effective_cons kind k op b trace :
  effective kind k ((op, b) :: trace) = hit kind k op b + effective kind k trace.
Proof. unfold effective, hit. cbn. destruct (_ && _); [|done]. cbn [length]. lia. Qed.

Lemma claim_status_inj s t : ClaimStatus_str s = ClaimStatus_str t → s = t.
Proof. by destruct s, t. Qed.

(** A row whose status is known is in the case of its status. *)
Lemma tally_status r s g v c : rr_status r = ClaimStatus_str s → tally (Some r) g v c →
  rr_attempt_count r = g ∧
  match s with
  | RUN_RUNNING | RUN_EXPIRED => g = v + 1 ∧ c = 0
  | RUN_RECOVERABLE => g = v ∧ c = 0
  | RUN_SUCCEEDED | RUN_FAILED => g = v + 1 ∧ c = 1
  end.
Proof.
  intros Hs [Ha Ht]. split; [done|]. unfold status_in in Ht. rewrite Hs in Ht.
  destruct Ht as [((s'&Hin&->%claim_status_inj)&?&?)|[((s'&Hin&->%claim_status_inj)&?&?)|((s'&Hin&->%claim_status_inj)&?&?)]];
    repeat (apply elem_of_cons in Hin as [->|Hin]; [done|]); by apply elem_of_nil in Hin.
Qed.

Lemma tally_intro r s g v c : rr_status r = ClaimStatus_str s → rr_attempt_count r = g →
  match s with
  | RUN_RUNNING | RUN_EXPIRED => g = v + 1 ∧ c = 0
  | RUN_RECOVERABLE => g = v ∧ c = 0
  | RUN_SUCCEEDED | RUN_FAILED => g = v + 1 ∧ c = 1
  end → tally (Some r) g v c.
Proof.
  intros Hs Ha Hc. split; [done|]. unfold status_in. rewrite Hs.
  destruct s; [left|right; right|right; right|left|right; left]; (split; [|done]); eexists; (split; [|done]);
    rewrite ?list_elem_of_In; cbn; tauto.
Qed.

Lemma run_in_status_spec name at_ s r : run_in_status name at_ s r = true →
  run_key r = (name, at_) ∧ rr_status r = ClaimStatus_str s.
Proof. unfold run_in_status. by intros [?%bool_decide_eq_true ?%String.eqb_eq]%andb_true_iff. Qed.

Lemma holds_run_spec name at_ t r : holds_run name at_ t r = true →
  run_key r = (name, at_) ∧ rr_status r = ClaimStatus_str RUN_RUNNING.
Proof. unfold holds_run. intros [H _]%andb_true_iff. by apply run_in_status_spec. Qed.

(** What one operation does to the tally of a run. *)
Definition steps (op : claim_op) (db : scheduler_state) : Prop :=
  let '(b, db') := run_claim op db in
  unique_runs db' ∧
  ∀ k g v c, tally (run_of k db) g v c →
    tally (run_of k db') (g + hit is_claim k op b) (v + hit is_review k op b) (c + hit is_completion k op b).

Lemma no_step op db : unique_runs db → ∀ b,
  b = false ∨ is_claim op || is_review op || is_completion op = false →
  unique_runs db ∧
  ∀ k g v c, tally (run_of k db) g v c →
    tally (run_of k db) (g + hit is_claim k op b) (v + hit is_review k op b) (c + hit is_completion k op b).
Proof.
  intros Hu b Hb. split; [done|]. intros k g v c Ht. unfold hit.
  destruct Hb as [->|Hb]; [by rewrite !andb_false_r, !Z.add_0_r|].
  apply orb_false_iff in Hb as [[-> ->]%orb_false_iff ->]. by rewrite !Z.add_0_r.
Qed.

(** An effective update of one run: only its own tally moves. *)
Lemma own_step op db db' k0 r' :
  unique_runs db' → claim_op_key op = Some k0 →
  (∀ k, run_of k db' = if decide (k = k0) then Some r' else run_of k db) →
  (∀ g v c, tally (run_of k0 db) g v c →
    tally (Some r') (g + Z.b2z (is_claim op)) (v + Z.b2z (is_review op)) (c + Z.b2z (is_completion op))) →
  unique_runs db' ∧
  ∀ k g v c, tally (run_of k db) g v c →
    tally (run_of k db') (g + hit is_claim k op true) (v + hit is_review k op true) (c + hit is_completion k op true).
Proof.
  intros Hu Hk Hrows Hown. split; [done|]. intros k g v c Ht. rewrite Hrows. unfold hit. rewrite Hk, !andb_true_r.
  destruct (decide (k = k0)) as [->|Hne].
  - rewrite bool_decide_true, !andb_true_r by done. specialize (Hown g v c Ht).
    by destruct (is_claim op), (is_review op), (is_completion op).
  - rewrite bool_decide_false, !andb_false_r, !Z.add_0_r by congruence. done.
Qed.
Lemma claim_steps name at_ d t db : unique_runs db → steps (ClaimRun name at_ d t) db.
Proof.
  intros Hu. unfold steps, run_claim, claim, atomically.
  destruct (dt_add d lease) as [until|]; rstep; [|by apply (no_step (ClaimRun name at_ d t)); [|left]].
  set (k0 := (name, isoformat at_)).
  destruct (existsb _ _) eqn:Ex.
  - match goal with |- context [update_runs ?w ?f db] =>
      destruct (update_run_cases w f k0 db Hu) as [(r&db'&Hr&Hw&->&Hu'&Hrows)| ->] end.
    + intros r Hr. by apply run_in_status_spec in Hr as [].
    + done.
    + cbn [Z.eqb Pos.eqb]. apply (own_step (ClaimRun name at_ d t) db db' k0 _ Hu' eq_refl Hrows).
      intros g v c Ht. rewrite Hr in Ht. apply run_in_status_spec in Hw as [_ Hs].
      destruct (tally_status r _ g v c Hs Ht) as (Ha&->&->). cbn [is_claim is_review is_completion Z.b2z].
      apply (tally_intro _ RUN_RUNNING); [done|cbn; lia|lia].
    + cbn [Z.eqb]. by apply (no_step (ClaimRun name at_ d t)); [|left].
  - assert (run_of k0 db = None) as Hno.
    { apply row_of_None. intros Hin. apply list_elem_of_fmap in Hin as (r&Hr&Hin).
      apply not_true_iff_false in Ex. apply Ex, existsb_exists. exists r.
      split; [by apply list_elem_of_In|]. by apply bool_decide_eq_true. }
    eapply (own_step (ClaimRun name at_ d t) db _ k0 _); [|done| |].
    + unfold unique_runs, set_runs. cbn [recurring_runs]. rewrite map_app. apply NoDup_app.
      split; [done|]. split; [|apply NoDup_singleton]. intros x Hx Hx'. apply list_elem_of_singleton in Hx' as ->.
      by apply row_of_None in Hno.
    + intros k. unfold run_of, set_runs. cbn [recurring_runs]. rewrite row_of_snoc.
      fold (run_of k db). destruct (decide (k = k0)) as [->|Hne]; [rewrite Hno|].
      * by rewrite bool_decide_true.
      * destruct (run_of k db); [done|]. by rewrite bool_decide_false by by intros <-.
    + intros g v c Ht. rewrite Hno in Ht. destruct Ht as (->&->&->).
      by apply (tally_intro _ RUN_RUNNING).
Qed.

Lemma renew_steps name at_ t d db : unique_runs db → steps (RenewRun name at_ t d) db.
Proof.
  intros Hu. unfold steps, run_claim, renew, atomically.
  destruct (astimezone_utc d) as [now|]; rstep; [|by apply (no_step (RenewRun name at_ t d)); [|left]].
  destruct (dt_add now lease) as [until|]; rstep; [|by apply (no_step (RenewRun name at_ t d)); [|left]].
  match goal with |- context [update_runs ?w ?f db] =>
    destruct (update_run_cases w f (name, isoformat at_) db Hu) as [(r&db'&Hr&Hw&->&Hu'&Hrows)| ->] end.
  - intros r Hr. by apply holds_run_spec in Hr as [].
  - done.
  - cbn [Z.eqb Pos.eqb]. apply (own_step (RenewRun name at_ t d) db db' _ _ Hu' eq_refl Hrows).
    intros g v c Ht. rewrite Hr in Ht. cbn [is_claim is_review is_completion Z.b2z]. by rewrite !Z.add_0_r.
  - cbn [Z.eqb]. by apply (no_step (RenewRun name at_ t d)); [|left].
Qed.

Lemma expire_steps d db : unique_runs db → steps (ExpireRuns d) db.
Proof.
  intros Hu. unfold steps, run_claim, expire_claims, atomically.
  destruct (astimezone_utc d) as [now|]; rstep; [|by apply (no_step (ExpireRuns d)); [|left]].
  match goal with |- context [update_runs ?w ?f db] =>
    pose proof (update_runs_unique w f db (λ _, eq_refl) Hu) as Hu';
    pose proof (λ k, run_of_update w f k db (λ _, eq_refl)) as Hrows;
    destruct (update_runs w f db) as [n db'] end.
  split; [done|]. intros k g v c Ht. unfold hit. cbn [is_claim is_review is_completion andb].
  rewrite !Z.add_0_r. cbn [snd] in Hrows. rewrite Hrows.
  destruct (run_of k db) as [r|]; [|done]. cbn. destruct (_ && _) eqn:E; [|done].
  apply andb_true_iff in E as [Hs%String.eqb_eq _].
  destruct (tally_status r RUN_RUNNING g v c Hs Ht) as (Ha&Hg).
  by apply (tally_intro _ RUN_EXPIRED).
Qed.

Lemma recover_steps name at_ db : unique_runs db → steps (RecoverRun name at_) db.
Proof.
  intros Hu. unfold steps, run_claim, mark_recoverable.
  match goal with |- context [update_runs ?w ?f db] =>
    destruct (update_run_cases w f (name, isoformat at_) db Hu) as [(r&db'&Hr&Hw&->&Hu'&Hrows)| ->] end.
  - intros r Hr. by apply run_in_status_spec in Hr as [].
  - done.
  - cbn [Z.eqb Pos.eqb]. apply (own_step (RecoverRun name at_) db db' _ _ Hu' eq_refl Hrows).
    intros g v c Ht. rewrite Hr in Ht. apply run_in_status_spec in Hw as [_ Hs].
    destruct (tally_status r _ g v c Hs Ht) as (Ha&->&->). cbn [is_claim is_review is_completion Z.b2z].
    apply (tally_intro _ RUN_RECOVERABLE); [done|cbn; lia|lia].
  - cbn [Z.eqb]. by apply (no_step (RecoverRun name at_)); [|left].
Qed.

Lemma complete_steps name at_ t d res db : unique_runs db → steps (CompleteRun name at_ t d res) db.
Proof.
  intros Hu. unfold steps, run_claim, complete, atomically. cbv zeta.
  match goal with |- context [update_runs ?w ?f db] =>
    destruct (update_run_cases w f (name, isoformat at_) db Hu) as [(r&db'&Hr&Hw&->&Hu'&Hrows)| ->] end.
  - intros r Hr. by apply holds_run_spec in Hr as [].
  - done.
  - apply (own_step (CompleteRun name at_ t d res) db db' _ _ Hu' eq_refl Hrows).
    intros g v c Ht. rewrite Hr in Ht. apply holds_run_spec in Hw as [_ Hs].
    destruct (tally_status r _ g v c Hs Ht) as (Ha&->&->). cbn [is_claim is_review is_completion Z.b2z].
    apply (tally_intro _ (if rrr_successful res then RUN_SUCCEEDED else RUN_FAILED));
      [done|cbn; lia|]. destruct (rrr_successful res); lia.
  - by apply (no_step (CompleteRun name at_ t d res)); [|left].
Qed.

Lemma op_steps op db : unique_runs db → steps op db.
Proof.
  destruct op; auto using claim_steps, renew_steps, expire_steps, recover_steps, complete_steps.
Qed.

Lemma history_tally ops db k g v c :
  unique_runs db → tally (run_of k db) g v c →
  let '(trace, db') := run_claims ops db in
  tally (run_of k db') (g + effective is_claim k trace) (v + effective is_review k trace)
    (c + effective is_completion k trace).
Proof.
  revert db g v c. induction ops as [|op ops IH]; intros db g v c Hu Ht; cbn [run_claims].
  { unfold effective. cbn. by rewrite !Z.add_0_r. }
  pose proof (op_steps op db Hu) as Hs. unfold steps in Hs. destruct (run_claim op db) as [b db1].
  destruct Hs as [Hu1 Hs]. specialize (IH db1 _ _ _ Hu1 (Hs k g v c Ht)).
  destruct (run_claims ops db1) as [trace db2]. by rewrite !effective_cons, !Z.add_assoc.
Qed.

(** C34: in any history of claims, renewals, expiries, reviews and completions
    of scheduled runs, a run (workflow and instant) is claimed at most once plus
    once per operator-reviewed recovery of its expired claim, it is completed
    (or recorded as failed) at most once, and its row counts its claims. *)
Theorem runs_claimed_once ops k :
  let '(trace, db) := run_claims ops empty_state in
  effective is_claim k trace ≤ effective is_review k trace + 1
  ∧ effective is_completion k trace ≤ 1
  ∧ match run_of k db with
    | Some r => rr_attempt_count r = effective is_claim k trace
    | None => effective is_claim k trace = 0
    end.
Proof.
  pose proof (history_tally ops empty_state k 0 0 0 (NoDup_nil_2) (conj eq_refl (conj eq_refl eq_refl))) as H.
  destruct (run_claims ops empty_state) as [trace db]. rewrite !Z.add_0_l in H.
  destruct (run_of k db) as [r|]; cbn in H; [|lia]. destruct H as [Ha H]. split; [|split; [|done]]; intuition lia.
Qed.
End claims.
