(* ===== verification/ScheduleTheorems.v ===== *)
(** * ScheduleTheorems: the schedule and the runner of [Recurring]

    The scheduled instant of a weekly workflow is in the past, at most sixteen
    days back, and its wall time in the workflow's zone is the configured one.
    The runner calls a workflow only under a fresh claim, and records what it
    called. *)

From S2P Require Import Prelude PyText PyJson PyHash PyTime PyStd PyDate PySql PyJsonLoads ResourceLimits ModelsBase Recurring ClaimTheorems.
From stdpp Require Import gmap.

Open Scope Z_scope.

(** What the code relies on of [zoneinfo] (PEP 495): offsets are shorter than a
    day; the wall time of an instant is a naive datetime that, with its fold,
    converts back to the instant. *)
Class ZoneLaws `{ZoneDatabase} : Prop := {
  zone_offset_bound z d f : -86400 < zone_utcoffset z d f < 86400;
  zone_local_naive z n : dt_utcoffset (zone_local z n).1 = None;
  zone_local_valid z n : day_us ≤ n ≤ last_instant - day_us → datetime_valid (zone_local z n).1 = true;
  zone_local_back z n :
    instant (zone_local z n).1 - zone_utcoffset z (zone_local z n).1 (zone_local z n).2 * 1000000 = n;
}.

(** ** Wall times *)

(** The days before a datetime's date. *)
Definition day_of (d : datetime) : Z := ymd_ordinal (dt_year d) (dt_month d) (dt_day d) - 1.

Lemma instant_naive d : dt_utcoffset d = None → instant d = day_of d * day_us + clock d.
Proof. intros Hd. unfold instant, clock, day_of, day_us. rewrite Hd. cbn [default from_option id]. lia. Qed.

Lemma clock_valid d : datetime_valid d = true → 0 ≤ clock d < day_us.
Proof. unfold datetime_valid, clock, day_us. rewrite !andb_true_iff, !Z.leb_le. intuition lia. Qed.

Lemma day_of_instant n : day_of (of_instant n) = n / day_us.
Proof.
  unfold of_instant, day_of. pose proof (ymd_of_ordinal_spec (n / day_us + 1)) as H.
  destruct (ymd_of_ordinal _) as [[y m] d]. destruct H as [H _].
  cbn [dt_year dt_month dt_day]. rewrite H. lia.
Qed.

Lemma clock_fields h mi n k : 0 ≤ h < 24 → 0 ≤ mi < 60 → n = k * day_us + (h * 3600 + mi * 60) * 1000000 →
  n / day_us = k ∧ (n mod day_us) / 1000000 / 3600 = h ∧ (n mod day_us) / 1000000 / 60 mod 60 = mi
  ∧ (n mod day_us) / 1000000 mod 60 = 0 ∧ n mod 1000000 = 0.
Proof.
  intros Hh Hm ->. unfold day_us.
  assert ((k * 86400000000 + (h * 3600 + mi * 60) * 1000000) / 86400000000 = k) as H1
    by (symmetry; apply (Z.div_unique _ _ _ ((h * 3600 + mi * 60) * 1000000)); lia).
  assert ((k * 86400000000 + (h * 3600 + mi * 60) * 1000000) mod 86400000000 = (h * 3600 + mi * 60) * 1000000) as H2
    by (symmetry; apply (Z.mod_unique _ _ k); lia).
  rewrite H1, H2, Z.div_mul by lia. split; [done|].
  assert ((h * 3600 + mi * 60) / 60 = h * 60 + mi) as H3 by (symmetry; apply (Z.div_unique _ _ _ 0); lia).
  rewrite H3.
  split; [symmetry; apply (Z.div_unique _ _ _ (mi * 60)); lia|].
  split; [symmetry; apply (Z.mod_unique _ _ h); lia|].
  split; [symmetry; apply (Z.mod_unique _ _ (h * 60 + mi)); lia|].
  symmetry. apply (Z.mod_unique _ _ (k * 86400 + (h * 3600 + mi * 60))); lia.
Qed.

(** The wall time a schedule asks for, on some day. *)
Definition on_schedule (s : WeeklySchedule) (d : datetime) : Prop :=
  weekday d = ws_weekday s ∧ dt_hour d = ws_hour s ∧ dt_minute d = ws_minute s
  ∧ dt_second d = 0 ∧ dt_micro d = 0 ∧ dt_utcoffset d = None.

Lemma on_schedule_instant s d : on_schedule s d →
  instant d = day_of d * day_us + (ws_hour s * 3600 + ws_minute s * 60) * 1000000
  ∧ (day_of d) mod 7 = ws_weekday s.
Proof.
  intros (Hw&Hh&Hm&Hs&Hu&Ho). rewrite instant_naive by done. unfold clock. rewrite Hh, Hm, Hs, Hu.
  split; [lia|]. rewrite <-Hw. unfold weekday, day_of.
  replace (ymd_ordinal _ _ _ + 6) with (ymd_ordinal (dt_year d) (dt_month d) (dt_day d) - 1 + 1 * 7) by lia.
  by rewrite Z_mod_plus_full.
Qed.

Lemma dt_add_naive d delta r : dt_utcoffset d = None → dt_add d delta = Ok r →
  r = with_offset (of_instant (instant d + delta)) None.
Proof.
  intros Hd. unfold dt_add. rewrite (with_offset_same d None), Hd by done.
  destruct (_ && _); [|done]. intros Hr. by apply (inj Ok) in Hr as <-.
Qed.

Lemma fields_with_offset n o : day_of (with_offset (of_instant n) o) = n / day_us.
Proof. unfold with_offset, day_of. cbn [dt_year dt_month dt_day]. apply day_of_instant. Qed.

(** A week earlier is on schedule too. *)
Lemma week_earlier s d r : 0 ≤ ws_hour s < 24 → 0 ≤ ws_minute s < 60 →
  on_schedule s d → dt_add d (- 7 * day_us) = Ok r → on_schedule s r ∧ day_of r = day_of d - 7.
Proof.
  intros Hh Hmi Hd Hr. pose proof (on_schedule_instant s d Hd) as [Hn Hw].
  apply dt_add_naive in Hr; [|apply Hd].
  set (n := instant d + - 7 * day_us) in *.
  destruct (clock_fields (ws_hour s) (ws_minute s) n (day_of d - 7) Hh Hmi) as (H1&H2&H3&H4&H5).
  { unfold n. rewrite Hn. lia. }
  assert (day_of r = day_of d - 7) as Hday by (rewrite Hr, fields_with_offset; done).
  split; [|done]. split.
  - unfold weekday. fold (day_of r). replace (ymd_ordinal _ _ _ + 6) with (day_of r + 1 * 7) by (unfold day_of; lia).
    rewrite Z_mod_plus_full, Hday, <-Hw. replace (day_of d - 7) with (day_of d + (-1) * 7) by lia.
    apply Z_mod_plus_full.
  - rewrite Hr. unfold with_offset, of_instant. destruct (ymd_of_ordinal _) as [[??]?].
    cbn [dt_hour dt_minute dt_second dt_micro dt_utcoffset]. done.
Qed.

Section schedule.
Context {zones : ZoneDatabase} {local_zone : SystemZone}.

Lemma fold_candidate_spec z local f r : fold_candidate z local f = Ok (Some r) →
  utc_valid r = true ∧ (zone_local z (instant r)).1 = local
  ∧ instant r = instant local - zone_utcoffset z local f * 1000000.
Proof.
  unfold fold_candidate. cbv zeta. intros Hc. apply bind_Ok in Hc as ([]&Hr%raise_if_Ok&Hc).
  apply negb_false_iff, andb_true_iff in Hr as [H0%Z.leb_le H1%Z.leb_le].
  destruct (zone_local z _) as [back bf] eqn:Eb. apply (inj Ok) in Hc.
  destruct (bool_decide_reflect (back = local)) as [->|]; [|discriminate Hc].
  destruct (Bool.eqb bf f); [|discriminate Hc]. cbn [andb] in Hc. apply (inj Some) in Hc as <-.
  split; [by apply of_instant_valid|]. rewrite instant_of_instant, Eb. done.
Qed.

Lemma resolve_local_spec s local z r : resolve_local s local z = Ok r →
  utc_valid r = true ∧ (zone_local z (instant r)).1 = local
  ∧ ∃ f, instant r = instant local - zone_utcoffset z local f * 1000000.
Proof.
  unfold resolve_local. intros Hr. apply bind_Ok in Hr as (first&H1&Hr).
  apply bind_Ok in Hr as (second&H2&Hr).
  assert (first = Some r ∨ second = Some r) as [->| ->].
  { destruct first as [i|], second as [j|]; [|by apply (inj Ok) in Hr as <-; auto..|discriminate Hr].
    destruct (_ && _); [apply (inj Ok) in Hr as <-; auto|].
    destruct (ws_fold_policy s); [discriminate Hr|apply (inj Ok) in Hr as <-; auto..]. }
  - destruct (fold_candidate_spec _ _ _ _ H1) as (?&?&?). eauto.
  - destruct (fold_candidate_spec _ _ _ _ H2) as (?&?&?). eauto.
Qed.

(** The first candidate: the configured weekday of the current week. *)
Lemma candidate_spec s local date :
  0 ≤ ws_weekday s ≤ 6 → dt_utcoffset local = None → datetime_valid local = true →
  let k := (weekday local - ws_weekday s) mod 7 in
  dt_add local (- k * day_us) = Ok date →
  let c := mk_datetime (dt_year date) (dt_month date) (dt_day date) (ws_hour s) (ws_minute s) 0 0 None in
  on_schedule s c ∧ day_of local - 6 ≤ day_of c ≤ day_of local.
Proof.
  intros Hws Hn Hv k Hd c. apply dt_add_naive in Hd; [|done].
  assert (0 ≤ k < 7) as Hk by (apply Z.mod_pos_bound; lia).
  assert (day_of c = day_of local - k) as Hday.
  { change (day_of c) with (day_of date). rewrite Hd, fields_with_offset, instant_naive by done.
    pose proof (clock_valid local Hv). symmetry. apply (Z.div_unique _ _ _ (clock local)); unfold day_us in *; lia. }
  split; [|lia]. split; [|done]. unfold weekday. fold (day_of c).
  replace (ymd_ordinal _ _ _ + 6) with (day_of c + 1 * 7) by (unfold day_of; lia).
  rewrite Z_mod_plus_full, Hday. unfold k, weekday.
  replace (ymd_ordinal _ _ _ + 6) with (day_of local + 1 * 7) by (unfold day_of; lia).
  rewrite Z_mod_plus_full.
  Z.to_euclidean_division_equations. lia.
Qed.

(** The arithmetic of the window: [dl] and [kl] are the local day and clock of
    now, [dc] and [kc] those of the selected wall time. *)
Lemma window now dl kl ol dc kc oc r :
  dl * day_us + kl - ol * 1000000 = now → 0 ≤ kl < day_us → -86400 < ol < 86400 →
  dl - 13 ≤ dc ≤ dl → 0 ≤ kc < day_us → -86400 < oc < 86400 →
  r = dc * day_us + kc - oc * 1000000 →
  now - 16 * day_us < r ∧ (dc ≤ dl - 7 → r ≤ now).
Proof. unfold day_us. lia. Qed.

Lemma wall_clock s : 0 ≤ ws_hour s < 24 → 0 ≤ ws_minute s < 60 →
  0 ≤ (ws_hour s * 3600 + ws_minute s * 60) * 1000000 < day_us.
Proof. unfold day_us. lia. Qed.

(** The steps of a computation that returns. *)
Lemma scheduled_inv s now z r : zone_load (ws_timezone s) = Ok z → scheduled_at_or_before s now = Ok r →
  ∃ current local lf date selected,
    astimezone_utc now = Ok current ∧ zone_local z (instant current) = (local, lf)
    ∧ dt_add local (- ((weekday local - ws_weekday s) mod 7) * day_us) = Ok date
    ∧ let c := mk_datetime (dt_year date) (dt_month date) (dt_day date) (ws_hour s) (ws_minute s) 0 0 None in
      resolve_local s c z = Ok selected
      ∧ (if dt_lt current selected then dt_add c (- 7 * day_us) ≫= λ c, resolve_local s c z
         else Ok selected) = Ok r.
Proof.
  intros Hz Hr. unfold scheduled_at_or_before in Hr. rewrite Hz, Ok_bind in Hr.
  apply bind_Ok in Hr as (current&Hc&Hr). destruct (zone_local z (instant current)) as [local lf] eqn:El.
  cbv zeta in Hr. apply bind_Ok in Hr as (date&Hd&Hr). apply bind_Ok in Hr as (selected&Hsel&Hr).
  exists current, local, lf, date, selected. by rewrite El.
Qed.

Lemma local_spec {laws : ZoneLaws} z n local lf : zone_local z n = (local, lf) →
  dt_utcoffset local = None ∧ instant local - zone_utcoffset z local lf * 1000000 = n
  ∧ -86400 < zone_utcoffset z local lf < 86400
  ∧ (day_us ≤ n ≤ last_instant - day_us → datetime_valid local = true).
Proof.
  intros E. pose proof (zone_local_naive z n) as H1. pose proof (zone_local_back z n) as H2.
  pose proof (zone_local_valid z n) as H3. rewrite E in H1, H2, H3.
  split; [exact H1|]. split; [exact H2|]. split; [apply zone_offset_bound|exact H3].
Qed.

(** The instant the scheduler assigns to a workflow is never in the future,
    lies within the last sixteen days, and its wall time in the workflow's zone
    is the configured weekday, hour and minute, whatever daylight-saving
    transitions the zone has. *)
Theorem scheduled_at_or_before_correct {laws : ZoneLaws} s now z r :
  WeeklySchedule_post_init s = Ok s → is_aware now = true →
  2 * day_us ≤ instant now ≤ last_instant - 2 * day_us →
  zone_load (ws_timezone s) = Ok z →
  scheduled_at_or_before s now = Ok r →
  utc_valid r = true
  ∧ instant now - 16 * day_us < instant r ≤ instant now
  ∧ on_schedule s (zone_local z (instant r)).1.
Proof.
  intros Hs Hn Hrange Hz Hr.
  assert (0 ≤ ws_weekday s ≤ 6 ∧ 0 ≤ ws_hour s < 24 ∧ 0 ≤ ws_minute s < 60) as (Hw&Hh&Hm).
  { unfold WeeklySchedule_post_init in Hs. inv_ok. to_prop. lia. }
  destruct (scheduled_inv s now z r Hz Hr) as (current&local&lf&date&selected&Hc&El&Hd&Hsel&Hr').
  clear Hr. rename Hr' into Hr. destruct (astimezone_utc_aware _ _ Hn Hc) as [Hcv Hci].
  destruct (local_spec z (instant current) local lf El) as (Hln&Hlb&Hlo&Hlv).
  specialize (Hlv ltac:(unfold day_us in *; lia)).
  destruct (candidate_spec s local date Hw Hln Hlv Hd) as [Hon Hday].
  set (c := mk_datetime _ _ _ _ _ _ _ _) in *. clearbody c.
  rewrite (instant_naive local), Hci in Hlb by done.
  pose proof (clock_valid local Hlv) as Hclk. pose proof (wall_clock s Hh Hm) as Hwc.
  destruct (dt_lt current selected) eqn:Elt.
  - apply bind_Ok in Hr as (c'&Hc'&Hr). destruct (week_earlier s c c' Hh Hm Hon Hc') as [Hon' Hday'].
    destruct (resolve_local_spec _ _ _ _ Hr) as (Hv&Hloc&f&Hi).
    destruct (on_schedule_instant s c' Hon') as [Hi' _]. rewrite Hi' in Hi.
    destruct (window _ _ _ _ (day_of c') _ _ _ Hlb Hclk Hlo ltac:(lia) Hwc (zone_offset_bound z c' f) Hi) as [Hlow Hup].
    split; [done|]. rewrite Hloc. split; [|done]. split; [exact Hlow|apply Hup; lia].
  - apply (inj Ok) in Hr as <-. unfold dt_lt in Elt. apply Z.ltb_ge in Elt. rewrite Hci in Elt.
    destruct (resolve_local_spec _ _ _ _ Hsel) as (Hv&Hloc&f&Hi).
    destruct (on_schedule_instant s c Hon) as [Hi' _]. rewrite Hi' in Hi.
    destruct (window _ _ _ _ (day_of c) _ _ _ Hlb Hclk Hlo ltac:(lia) Hwc (zone_offset_bound z c f) Hi) as [Hlow _].
    split; [done|]. rewrite Hloc. split; [|done]. by split.
Qed.
(** ** The runner *)

Lemma not_claimable name at_ d t db r :
  unique_runs db → run_of (name, isoformat at_) db = Some r →
  rr_status r ≠ ClaimStatus_str RUN_RECOVERABLE →
  ∃ o, claim default_lease name at_ d t db = (o, db) ∧ (o = Ok None ∨ o = Err overflow).
Proof.
  intros Hu Hr Hs. unfold claim, atomically. unfold dt_add. destruct (_ && _); rstep; [|by eexists; auto].
  assert (existsb (λ r, bool_decide (run_key r = (name, isoformat at_))) (recurring_runs db) = true) as ->.
  { apply existsb_exists. exists r. split; [apply list_elem_of_In; by eapply row_of_elem|].
    apply bool_decide_eq_true. by eapply row_of_key. }
  rewrite (update_run _ _ (name, isoformat at_)), Hr; [|done|].
  - replace (run_in_status _ _ _ r) with false; [by eexists; auto|]. symmetry. unfold run_in_status.
    apply andb_false_iff. right. by apply String.eqb_neq.
  - intros r' Hr'. by apply run_in_status_spec in Hr' as [].
Qed.

Lemma due_now workflow now db status db' : due_status workflow now db = (Ok status, db') →
  ∃ started, astimezone_utc now = Ok started.
Proof. unfold due_status. destruct (astimezone_utc now); [eauto|discriminate]. Qed.

Lemma skip_not_due config name k workflow now force token finished s status db call :
  List.find (λ kv, (kv.1 =? name)%string) (rcfg_workflows config) = Some (k, workflow) →
  rw_enabled workflow = true → due_status workflow now (rs_store s) = (Ok status, db) →
  negb force && negb (wds_due status) = true →
  run config name call now force token finished s = (Ok (skipped (wds_reason status)), set_store db s).
Proof. intros Hf He Hd Hn. unfold run. by rewrite Hf, Hd, He, Hn. Qed.

(** When the scheduled run of a workflow has already been claimed, finished,
    failed or expired, [run] does not call the workflow, even when forced: the
    outcome is a skip (or an overflow of the calendar) that does not depend on
    the callback, and the state is the one that expiring old claims left. *)
Theorem claimed_run_not_repeated config name k workflow now force token finished s status db r :
  List.find (λ kv, (kv.1 =? name)%string) (rcfg_workflows config) = Some (k, workflow) →
  rw_enabled workflow = true →
  due_status workflow now (rs_store s) = (Ok status, db) →
  unique_runs db →
  run_of (name, isoformat (wds_scheduled_at status)) db = Some r →
  rr_status r ≠ ClaimStatus_str RUN_RECOVERABLE →
  ∃ outcome, ((∃ reason, outcome = Ok (skipped reason)) ∨ outcome = Err overflow)
    ∧ ∀ call, run config name call now force token finished s = (outcome, set_store db s).
Proof.
  intros Hf He Hd Hu Hr Hs.
  destruct (due_now _ _ _ _ _ Hd) as [started Hst].
  destruct (not_claimable name (wds_scheduled_at status) started token db r Hu Hr Hs) as (o&Ho&Hcase).
  destruct (negb force && negb (wds_due status)) eqn:Eforce.
  - exists (Ok (skipped (wds_reason status))). split; [eauto|]. intros call. by eapply skip_not_due.
  - exists (match o with
            | Err e => Err e | _ => Ok (skipped "latest scheduled occurrence is already claimed") end).
    split; [destruct Hcase as [-> | ->]; eauto|]. intros call. unfold run. rewrite Hf, Hd, He, Eforce, Hst.
    cbn [negb rs_store set_store]. rewrite Ho. by destruct Hcase as [-> | ->].
Qed.
(** The status a called run ends with. *)
Definition recorded_status (outcome : result RecurringRunResult) : ClaimStatus :=
  match outcome with
  | Ok result_ => if rrr_successful result_ then RUN_SUCCEEDED else RUN_FAILED
  | Err _ => RUN_FAILED
  end.

(** The run with this key is claimed with this token. *)
Definition run_held (key : string * string) (t : uuid) (db : scheduler_state) : Prop :=
  ∃ r, run_of key db = Some r ∧ rr_status r = ClaimStatus_str RUN_RUNNING
       ∧ rr_claim_token r = Some (uuid_str t).

Definition ended (key : string * string) (status : ClaimStatus) (db : scheduler_state) : Prop :=
  ∃ r, run_of key db = Some r ∧ rr_status r = ClaimStatus_str status.

Lemma holds_run_held name at_ t r :
  holds_run name at_ t r = true
  ↔ run_key r = (name, at_) ∧ rr_status r = ClaimStatus_str RUN_RUNNING
    ∧ rr_claim_token r = Some (uuid_str t).
Proof.
  unfold holds_run, run_in_status. rewrite !andb_true_iff, bool_decide_eq_true, String.eqb_eq.
  destruct (rr_claim_token r) as [t'|]; cbn [col_eq]; [rewrite String.eqb_eq|]; naive_solver.
Qed.

(** A claim that is still held is completed; one that is not is refused. *)
Lemma complete_held name at_ t d res db :
  unique_runs db → run_held (name, isoformat at_) t db →
  ∃ db', complete name at_ t d res db = (Ok tt, db')
    ∧ ended (name, isoformat at_) (recorded_status (Ok res)) db'.
Proof.
  intros Hu (r & Hr & Hs & Ht). unfold complete, atomically. cbv zeta.
  assert (holds_run name (isoformat at_) t r = true) as Hw
    by (apply holds_run_held; split; [by eapply row_of_key|done]).
  match goal with |- context [update_runs ?w ?f db] =>
    destruct (update_run_cases w f (name, isoformat at_) db Hu) as [(r0&db'&Hr0&_&->&_&Hrows)|Hno] end.
  - intros r' Hr'. by apply holds_run_spec in Hr' as [].
  - done.
  - exists db'. split; [done|]. eexists. rewrite Hrows, decide_True by done. split; [done|].
    cbn. by destruct (rrr_successful res).
  - exfalso. rewrite (update_run _ _ (name, isoformat at_)), Hr, Hw in Hno; [discriminate Hno|done|].
    intros r' Hr'. by apply holds_run_spec in Hr' as [].
Qed.

Definition not_claimed (name : string) (at_ : datetime) : exn :=
  ConfigurationError ("recurring occurrence is not actively claimed: " +:+ name +:+ " at "
    +:+ isoformat at_).

Lemma complete_lost name at_ t d res db :
  unique_runs db → ¬ run_held (name, isoformat at_) t db →
  complete name at_ t d res db = (Err (not_claimed name at_), db).
Proof.
  intros Hu Hh. unfold complete, atomically. cbv zeta.
  match goal with |- context [update_runs ?w ?f db] =>
    destruct (update_run_cases w f (name, isoformat at_) db Hu) as [(r&db'&Hr&Hw&_&_&_)| ->] end.
  - intros r Hr. by apply holds_run_spec in Hr as [].
  - done.
  - exfalso. apply Hh. apply holds_run_held in Hw as (_ & ? & ?). by exists r.
  - done.
Qed.

(** A granted claim is held. *)
Lemma claim_held lease name at_ d t t' db db' :
  unique_runs db → claim lease name at_ d t db = (Ok (Some t'), db') →
  unique_runs db' ∧ run_held (name, isoformat at_) t db' ∧ t' = t.
Proof using local_zone.
  intros Hu. unfold claim, atomically. destruct (dt_add d lease) as [until|]; rstep; [|discriminate].
  destruct (existsb _ _) eqn:Ex.
  - match goal with |- context [update_runs ?w ?f db] =>
      destruct (update_run_cases w f (name, isoformat at_) db Hu) as [(r&db2&Hr&Hw&->&Hu2&Hrows)| ->] end.
    + intros r Hr. by apply run_in_status_spec in Hr as [].
    + done.
    + intros [= <- <-]. split; [exact Hu2|]. split; [|reflexivity]. eexists.
      rewrite Hrows, decide_True by reflexivity. split_and!; reflexivity.
    + discriminate.
  - assert (run_of (name, isoformat at_) db = None) as Hno.
    { apply row_of_None. intros Hin. apply list_elem_of_fmap in Hin as (r&Hr&Hin).
      apply not_true_iff_false in Ex. apply Ex, existsb_exists. exists r.
      split; [by apply list_elem_of_In|]. by apply bool_decide_eq_true. }
    intros [= <- <-]. split; [|split; [|reflexivity]].
    + unfold unique_runs, set_runs. cbn [recurring_runs]. rewrite map_app. apply NoDup_app.
      split; [exact Hu|]. split; [|apply NoDup_singleton]. intros x Hx ->%list_elem_of_singleton.
      by apply row_of_None in Hno.
    + eexists. unfold run_of, set_runs in *. cbn [recurring_runs]. rewrite row_of_snoc, Hno.
      rewrite bool_decide_true by reflexivity. split_and!; reflexivity.
Qed.

(** What the run raises or returns once the callback has ended. *)
Definition lease_lost : exn := ConfigurationError "recurring occurrence lease could not be renewed".
Definition call_outcome (outcome : result RecurringRunResult) (heartbeat_errors : list exn)
    : result RecurringRunResult :=
  match outcome, heartbeat_errors with Ok _, _ :: _ => Err lease_lost | _, _ => outcome end.

Lemma store_set db s : rs_store (set_store db s) = db.
Proof. done. Qed.
Lemma locks_set db s : rs_locks (set_store db s) = rs_locks s.
Proof. done. Qed.

Section granted.
Context (config : RecurringConfig) (name k : string) (workflow : RegisteredWorkflow)
  (now : datetime) (force : bool) (token : uuid) (finished : datetime) (s : runner_state)
  (status : WorkflowDueStatus) (db : scheduler_state) (started : datetime) (db1 : scheduler_state)
  (Hfind : List.find (λ kv, (kv.1 =? name)%string) (rcfg_workflows config) = Some (k, workflow))
  (Henabled : rw_enabled workflow = true)
  (Hdue : due_status workflow now (rs_store s) = (Ok status, db))
  (Hforce : force || wds_due status = true)
  (Hstarted : astimezone_utc now = Ok started)
  (Hclaim : claim default_lease name (wds_scheduled_at status) started token db
            = (Ok (Some token), db1)).
Let key := (name, isoformat (wds_scheduled_at status)).

(** A run whose claim was granted calls the workflow under the lock and records
    the outcome. *)
Lemma run_granted call outcome s2 :
  locked_call name workflow call (set_store db1 (set_store db s)) = (outcome, s2) →
  run config name call now force token finished s
  = match outcome with
    | Err error =>
        let '(failed, db) := fail name (wds_scheduled_at status) token finished error (rs_store s2) in
        (match failed with Ok _ => Err error | Err e => Err e end, set_store db s2)
    | Ok result_ =>
        let '(completed, db) := complete name (wds_scheduled_at status) token finished result_ (rs_store s2) in
        (completed;; Ok result_, set_store db s2)
    end.
Proof using All.
  intros Hl. unfold run. rewrite Hfind, Hdue, Henabled. unfold negb at 1.
  rewrite <-negb_orb, Hforce. unfold negb at 1. rewrite Hstarted, store_set, Hclaim, Hl. done.
Qed.

Lemma run_settled call outcome s2 :
  locked_call name workflow call (set_store db1 (set_store db s)) = (outcome, s2) →
  unique_runs (rs_store s2) →
  (run_held key token (rs_store s2) →
     ∃ db3, run config name call now force token finished s = (outcome, set_store db3 s2)
       ∧ ended key (recorded_status outcome) db3)
  ∧ (¬ run_held key token (rs_store s2) →
     run config name call now force token finished s = (Err (not_claimed name (wds_scheduled_at status)), s2)).
Proof using All.
  intros Hl Hu. rewrite (run_granted call outcome s2 Hl). split; intros Hh.
  - destruct outcome as [res|e]; [|unfold fail];
      match goal with |- context [complete _ _ _ _ ?res _] =>
        destruct (complete_held name _ token finished res (rs_store s2) Hu Hh) as (db3&->&Hs3) end;
      by exists db3.
  - destruct outcome as [res|e]; [|unfold fail]; rewrite complete_lost by done; by destruct s2.
Qed.
End granted.

(** C35: what becomes of a run whose claim was granted, on every branch.  A
    workflow is due (or forced) and enabled, and its scheduled run was claimed.
    When a lock file of the workflow is already there, the workflow is not
    called: the run is recorded as failed, the lock files stay as they are and
    the error says that it is already running.  Otherwise it is called with the
    lock file created, and the file is gone afterwards.  If the claim is still
    held when it has ended, [run] returns what the callback returned or raises
    what it raised (or that the lease could not be renewed, when the heartbeat
    failed) and the run is recorded as succeeded or failed accordingly.  If the
    claim was lost meanwhile, [run] raises that it is not claimed and the store
    is left as it is. *)
Theorem called_run_recorded config name k workflow call now force token finished s status db started db1 :
  let lock := safe_name name +:+ ".lock" in
  let key := (name, isoformat (wds_scheduled_at status)) in
  List.find (λ kv, (kv.1 =? name)%string) (rcfg_workflows config) = Some (k, workflow) →
  rw_enabled workflow = true →
  due_status workflow now (rs_store s) = (Ok status, db) →
  force || wds_due status = true →
  astimezone_utc now = Ok started →
  claim default_lease name (wds_scheduled_at status) started token db = (Ok (Some token), db1) →
  unique_runs db →
  (lock ∈ rs_locks s →
     ∃ db3, run config name call now force token finished s
              = (Err (ConfigurationError ("recurring workflow is already running: " +:+ name)),
                 mk_runner_state db3 (rs_locks s))
       ∧ ended key RUN_FAILED db3)
  ∧ (lock ∉ rs_locks s →
     ∀ outcome errors s2,
     call workflow (mk_runner_state db1 ({[lock]} ∪ rs_locks s)) = (outcome, errors, s2) →
     unique_runs (rs_store s2) →
     (run_held key token (rs_store s2) →
        ∃ db3, run config name call now force token finished s
                 = (call_outcome outcome errors, mk_runner_state db3 (rs_locks s2 ∖ {[lock]}))
          ∧ ended key (recorded_status (call_outcome outcome errors)) db3)
     ∧ (¬ run_held key token (rs_store s2) →
        run config name call now force token finished s
        = (Err (not_claimed name (wds_scheduled_at status)),
           mk_runner_state (rs_store s2) (rs_locks s2 ∖ {[lock]})))).
Proof.
  intros lock key Hf He Hd Hdue Hst Hcl Hu. destruct (claim_held _ _ _ _ _ _ _ _ Hu Hcl) as (Hu1&Hh1&_).
  pose proof (run_settled _ _ _ _ now force token finished _ _ _ _ _ Hf He Hd Hdue Hst Hcl call) as Hrun.
  unfold locked_call in Hrun. fold lock in Hrun. cbn [set_store rs_locks rs_store] in Hrun. split.
  - intros Hlock. rewrite bool_decide_true in Hrun by done.
    destruct (Hrun _ _ eq_refl Hu1) as [Hr _]. destruct (Hr Hh1) as (db3 & ? & ?). by exists db3.
  - intros Hlock outcome errors s2 Hcall Hu2. rewrite bool_decide_false, Hcall in Hrun by done.
    destruct (Hrun (call_outcome outcome errors) (mk_runner_state (rs_store s2) (rs_locks s2 ∖ {[lock]}))) as [Hr Hl].
    + by destruct outcome, errors.
    + done.
    + split; [|exact Hl]. intros Hh. destruct (Hr Hh) as (db3 & ? & ?). by exists db3.
Qed.
End schedule.

(** ** A concrete zone and workflow *)

(** London in 2026: summer time until 2026-10-25T01:00Z, when wall clocks go
    from 02:00 back to 01:00. *)
Definition fall_back : Z := instant (mk_datetime 2026 10 25 1 0 0 0 (Some 0)).
Definition hour_us : Z := 3600000000.

#[export] Instance london : ZoneDatabase := {
  zone := unit;
  zone_load name := if (name =? "Europe/London")%string then Ok tt
                    else Err (PySubclassError KeyErrorBase "ZoneInfoNotFoundError" name);
  zone_utcoffset _ d fold :=
    if instant d <? fall_back then 3600
    else if (instant d <? fall_back + hour_us) && negb fold then 3600 else 0;
  zone_local _ n :=
    if n <? fall_back then (with_offset (of_instant (n + hour_us)) None, false)
    else (with_offset (of_instant n) None, n <? fall_back + hour_us);
}.

#[export] Instance utc_system : SystemZone := λ _, 0.

Lemma naive_instant n : instant (with_offset (of_instant n) None) = n.
Proof. rewrite instant_utc by apply of_instant_utc. apply instant_of_instant. Qed.

Lemma naive_valid n : 0 ≤ n ≤ last_instant → datetime_valid (with_offset (of_instant n) None) = true.
Proof.
  intros Hn. pose proof (of_instant_valid n Hn) as Hv. unfold utc_valid in Hv.
  apply andb_true_iff in Hv as [Hv _]. unfold datetime_valid in *. rewrite of_instant_utc in Hv.
  apply andb_true_iff in Hv as [Hv _]. unfold with_offset.
  cbn [dt_year dt_month dt_day dt_hour dt_minute dt_second dt_micro dt_utcoffset].
  by rewrite andb_true_r.
Qed.

#[export] Instance london_laws : ZoneLaws.
Proof.
  split.
  - intros [] d f. cbn [zone_utcoffset london]. repeat case_match; lia.
  - intros [] n. cbn [zone_local london]. by destruct (n <? fall_back).
  - intros [] n Hn. cbn [zone_local london].
    assert (hour_us < day_us) by done. assert (0 < hour_us) by done.
    destruct (n <? fall_back); cbn [fst]; apply naive_valid; lia.
  - intros [] n. cbn [zone_local zone_utcoffset london].
    assert (0 < hour_us) by done. assert (hour_us = 3600 * 1000000) as Hh by done.
    destruct (n <? fall_back) eqn:E; cbn [fst snd]; rewrite !naive_instant.
    + apply Z.ltb_lt in E. rewrite (proj2 (Z.ltb_lt (n + hour_us) (fall_back + hour_us))) by lia. cbn [andb negb].
      destruct (n + hour_us <? fall_back); lia.
    + rewrite E. destruct (n <? fall_back + hour_us); cbn [andb negb]; lia.
Qed.

Definition sample_schedule : WeeklySchedule := mk_WeeklySchedule 6 1 30 "Europe/London" 1440 FOLD_FIRST.
Definition sample_now : datetime := mk_datetime 2026 10 25 2 0 0 0 (Some 0).

(** 01:30 happens twice that night; the first one is chosen. *)
Example sample_scheduled :
  scheduled_at_or_before sample_schedule sample_now = Ok (mk_datetime 2026 10 25 0 30 0 0 (Some 0)).
Proof. vm_compute. reflexivity. Qed.

Lemma scheduled_at_or_before_correct_witness :
  let r := mk_datetime 2026 10 25 0 30 0 0 (Some 0) in
  utc_valid r = true ∧ instant sample_now - 16 * day_us < instant r ≤ instant sample_now
  ∧ on_schedule sample_schedule (@zone_local london tt (instant r)).1.
Proof.
  apply (scheduled_at_or_before_correct (zones:=london) sample_schedule sample_now tt); try (vm_compute; done).
Defined.

Definition sample_workflow : RegisteredWorkflow :=
  mk_RegisteredWorkflow "weekly" true WEEKLY_STATUS_PACKAGE sample_schedule LOCAL_ONLY
    "/out" "/i" "/w" None None ["status"] [] ["src"] 1 false LATEST_ONLY 1440.
Definition sample_config : RecurringConfig :=
  mk_RecurringConfig "/state/db" "/state/locks" [("weekly", sample_workflow)] None.
Definition idle : runner_state := mk_runner_state empty_state ∅.
Definition package : RecurringRunResult := mk_RecurringRunResult true [("files", JInt 3)].

Definition sample_status : WorkflowDueStatus :=
  mk_WorkflowDueStatus "weekly" true true (mk_datetime 2026 10 25 0 30 0 0 (Some 0)) None
    "registered workflow is due".

(** A lock file that another process has left, and a callback during which the
    claim is lost. *)
Definition weekly_lock : string := safe_name "weekly" +:+ ".lock".
Definition stuck : runner_state := mk_runner_state empty_state {[weekly_lock]}.
Definition sample_run (lost : bool) : runner_state → result RecurringRunResult * runner_state :=
  run sample_config "weekly"
    (λ _ s, (Ok package, [], if lost then mk_runner_state empty_state (rs_locks s) else s))
    sample_now false 5 sample_now.
Definition weekly_key : string * string := ("weekly", isoformat (wds_scheduled_at sample_status)).

Lemma called_run_recorded_witness :
  (∃ db locks, sample_run false idle = (Ok package, mk_runner_state db locks)
     ∧ ended weekly_key RUN_SUCCEEDED db)
  ∧ (∃ db, sample_run false stuck
       = (Err (ConfigurationError "recurring workflow is already running: weekly"),
          mk_runner_state db {[weekly_lock]})
     ∧ ended weekly_key RUN_FAILED db)
  ∧ (∃ s, sample_run true idle = (Err (not_claimed "weekly" (wds_scheduled_at sample_status)), s)).
Proof.
  assert (due_status sample_workflow sample_now empty_state = (Ok sample_status, empty_state)) as Hdue
    by (vm_compute; reflexivity).
  set (db1 := (claim default_lease "weekly" (wds_scheduled_at sample_status) sample_now 5 empty_state).2).
  assert (claim default_lease "weekly" (wds_scheduled_at sample_status) sample_now 5 empty_state
          = (Ok (Some 5), db1)) as Hclaim by (vm_compute; reflexivity).
  assert (run_held weekly_key 5 db1 ∧ unique_runs db1) as [Hheld Hunique].
  { split; [eexists; split; [vm_compute; reflexivity|split; reflexivity]|apply NoDup_singleton]. }
  pose proof (λ lost locks, called_run_recorded sample_config "weekly" "weekly" sample_workflow
      (λ _ s, (Ok package, [], if lost : bool then mk_runner_state empty_state (rs_locks s) else s))
      sample_now false 5 sample_now (mk_runner_state empty_state locks) sample_status empty_state
      sample_now db1 eq_refl eq_refl Hdue eq_refl eq_refl Hclaim (NoDup_nil_2 (A:=_))) as H.
  split; [|split].
  - destruct (H false ∅) as [_ Hc].
    destruct (Hc (not_elem_of_empty _) _ _ _ eq_refl Hunique) as [Hh _].
    destruct (Hh Hheld) as (db & Hr & He). exists db. eexists. split; [exact Hr|exact He].
  - destruct (H false {[weekly_lock]}) as [Hl _].
    exact (Hl (proj2 (elem_of_singleton _ _) eq_refl)).
  - destruct (H true ∅) as [_ Hc].
    destruct (Hc (not_elem_of_empty _) _ _ _ eq_refl (NoDup_nil_2 (A:=_))) as [_ Hl].
    eexists. apply Hl. intros (r & Hr & _). discriminate Hr.
Defined.

(** The state while the run is claimed. *)
Definition claimed_state : runner_state :=
  set_store (claim default_lease "weekly" (mk_datetime 2026 10 25 0 30 0 0 (Some 0)) sample_now 5 empty_state).2 idle.

Lemma claimed_run_not_repeated_witness :
  ∃ outcome, ((∃ reason, outcome = Ok (skipped reason)) ∨ outcome = Err overflow)
    ∧ ∀ call, run sample_config "weekly" call sample_now true 6 sample_now claimed_state
              = (outcome, set_store (rs_store claimed_state) claimed_state).
Proof.
  eapply (claimed_run_not_repeated sample_config "weekly" "weekly" sample_workflow _ _ _ _ _
    (mk_WorkflowDueStatus "weekly" true false (mk_datetime 2026 10 25 0 30 0 0 (Some 0)) None
       "latest scheduled occurrence is already claimed (running)")).
  - reflexivity.
  - reflexivity.
  - vm_compute. reflexivity.
  - vm_compute. apply NoDup_singleton.
  - vm_compute. reflexivity.
  - done.
Defined.
