(* ===== verification/EvidenceTheorems.v ===== *)
(** * EvidenceTheorems: what summaries do not depend on

    The audit summary of a connector result does not depend on the values of its
    secret fields, at any depth. *)

From S2P Require Import Prelude PyText PyJson PyHash PyTime PyStd JsonCanonical PyJsonLoads.
From S2P Require Import ModelsBase ModelsResults Evidence Samples.
From Stdlib Require Import Ascii.

Open Scope Z_scope.

(** The same value but for what is under sensitive keys. *)
Inductive same_but_secrets : json → json → Prop :=
  | same_value v : same_but_secrets v v
  | same_list l l' : Forall2 same_but_secrets l l' → same_but_secrets (JList l) (JList l')
  | same_dict d d' :
      Forall2 (λ kv kv', kv.1 = kv'.1 ∧ (is_sensitive kv.1 = true ∨ same_but_secrets kv.2 kv'.2))
        d d' → same_but_secrets (JDict d) (JDict d').

Definition redact_entry (kv : string * json) : string * json :=
  let '(key, item) := kv in
  (key, if is_sensitive key then JStr "<redacted>" else redact_secrets item).

Lemma redact_same v v' : same_but_secrets v v' → redact_secrets v = redact_secrets v'.
Proof.
  revert v'. induction v as [| | | | |l IH|d IH] using json_nested_ind;
    intros v' Hv; inversion Hv as [|? l' Hl|? d' Hd]; subst; try done.
  - simpl. f_equal. clear Hv. revert l' Hl.
    induction IH as [|v l Hx _ IHl]; intros l' Hl; inversion Hl; subst; [done|].
    simpl. f_equal; auto.
  - simpl. f_equal. clear Hv. change (map redact_entry d = map redact_entry d'). revert d' Hd.
    induction IH as [|[k v] d Hx _ IHd]; intros d' Hd; inversion Hd as [|? [k' v'] ? ? [Hk Hor]];
      subst; [done|]. simpl in *. subst k'. f_equal; [|auto].
    destruct (is_sensitive k) eqn:E; [done|]. f_equal. apply Hx. by destruct Hor.
Qed.

Definition same_entries (d d' : dict) : Prop := same_but_secrets (JDict d) (JDict d').

Lemma same_entries_cases d d' :
  same_entries d d' → d = d' ∨ Forall2 (λ kv kv', kv.1 = kv'.1
    ∧ (is_sensitive kv.1 = true ∨ same_but_secrets kv.2 kv'.2)) d d'.
Proof. intros Hs. inversion Hs; subst; auto. Qed.

Lemma same_keys d d' : same_entries d d' → map fst d = map fst d'.
Proof.
  intros [->|Hf]%same_entries_cases; [done|]. induction Hf as [|kv kv' d d' [E _] _ IH]; [done|].
  simpl. by rewrite E, IH.
Qed.

Lemma same_dict_get d d' k :
  is_sensitive k = false → same_entries d d' →
  same_but_secrets (dict_get d k) (dict_get d' k).
Proof.
  intros Hk [->|Hf]%same_entries_cases; [constructor|]. unfold dict_get, dict_get_or.
  induction Hf as [|[k1 v] [k2 v'] d d' [E Hv] _ IH]; [constructor|]. simpl in *. subst k2.
  destruct (String.eqb_spec k k1) as [<-|Hne]; [|exact IH]. destruct Hv; [congruence|done].
Qed.

(** The fields a summary copies are no secrets. *)
Lemma same_fields (p : json → bool) ks d d' :
  (∀ v, p v = true → match v with JList _ | JDict _ => False | _ => True end) →
  Forall (λ k, is_sensitive k = false) ks → same_entries d d' →
  List.filter (λ kv : string * json, p kv.2) (map (λ k, (k, dict_get d k)) ks)
  = List.filter (λ kv : string * json, p kv.2) (map (λ k, (k, dict_get d' k)) ks).
Proof.
  intros Hp Hks Hd. induction Hks as [|k ks Hk _ IH]; [done|]. simpl. rewrite IH.
  pose proof (same_dict_get d d' k Hk Hd) as Hv. clear IH.
  inversion Hv as [|l l' Hl E1 E2|x x' Hx E1 E2]; [done|..].
  - destruct (p (JList l)) eqn:E; [by destruct (Hp _ E)|].
    destruct (p (JList l')) eqn:E'; [by destruct (Hp _ E')|done].
  - destruct (p (JDict x)) eqn:E; [by destruct (Hp _ E)|].
    destruct (p (JDict x')) eqn:E'; [by destruct (Hp _ E')|done].
Qed.

Definition same_mapping (o o' : option dict) : Prop :=
  match o, o' with
  | Some d, Some d' => same_entries d d'
  | None, None => True
  | _, _ => False
  end.

Lemma mapping_summary_same o o' : same_mapping o o' → mapping_summary o = mapping_summary o'.
Proof.
  destruct o as [d|], o' as [d'|]; cbn [same_mapping]; try done. intros Hd. unfold mapping_summary.
  rewrite (redact_same _ _ Hd), (same_keys _ _ Hd).
  rewrite (same_fields is_int_value ["count"; "total"; "returned"] d d'),
    (same_fields is_str ["schema"] d d'); try done.
  1, 3: by intros [].
  all: repeat constructor.
Qed.

(** Secrets stay out of the audit summary.  Two results that differ only in
    values under sensitive keys (a token, a password, at any depth of the
    payloads, whatever the case of the key) have the same summary: nothing can be
    learnt about a secret from it, not even through its digests. *)
Theorem secrets_not_summarised r r' :
  er_action_id r = er_action_id r' → er_state r = er_state r' →
  er_connector_reference r = er_connector_reference r' → er_message r = er_message r' →
  same_mapping (er_before r) (er_before r') → same_mapping (er_after r) (er_after r') →
  result_audit_summary r = result_audit_summary r'.
Proof.
  intros E1 E2 E3 E4 Hb Ha. unfold result_audit_summary.
  by rewrite E1, E2, E3, E4, (mapping_summary_same _ _ Hb), (mapping_summary_same _ _ Ha).
Qed.

Definition login_result (token : string) : ExecutionResult :=
  mk_ExecutionResult 1 SUCCEEDED None
    (Some [("count", JInt 1); ("login", JDict [("Access_Token", JStr token)])])
    None "ok" None "" "".

Lemma secrets_not_summarised_witness :
  result_audit_summary (login_result "a") = result_audit_summary (login_result "b").
Proof.
  apply secrets_not_summarised; [reflexivity..|exact I|].
  apply same_dict. constructor; [split; [reflexivity|right; constructor]|].
  constructor; [|constructor]. split; [reflexivity|]. right. apply same_dict.
  constructor; [|constructor]. split; [reflexivity|]. left. reflexivity.
Defined.
