(* ===== verification/EgressTheorems.v ===== *)
(** * EgressTheorems: properties of the provider-data boundary

    Which read the organization policy lets out, what the binding of a read
    records, and what a sanitized result can contain. *)

From S2P Require Import Prelude PyText PyJson PyHash PyTime PyStd ResourceLimits PyJsonLoads JsonCanonical.
From S2P Require Import ModelsBase PlatformIdentity ModelsAction ModelsBindings ModelsContext ModelsResults.
From S2P Require Import Capabilities Governance Evidence Security EgressPolicy EgressBinding EgressSanitize.
From S2P Require Import Samples EgressSamples.
From Stdlib Require Import Ascii.

Open Scope Z_scope.

(** ** The most specific rule *)

Lemma codes_le_trans s t u : codes_le s t = true → codes_le t u = true → codes_le s u = true.
Proof.
  revert t u. induction s as [|a s IH]; intros [|b t] [|c u]; simpl; try done.
  destruct (Z.eqb_spec a b), (Z.eqb_spec b c), (Z.eqb_spec a c); rewrite ?Z.ltb_lt;
    try done; try lia. apply IH.
Qed.

Lemma codes_le_antisym s t : codes_le s t = true → codes_le t s = true → s = t.
Proof.
  revert t. induction s as [|a s IH]; intros [|b t]; simpl; try done.
  destruct (Z.eqb_spec a b), (Z.eqb_spec b a); rewrite ?Z.ltb_lt; try done; try lia.
  intros. subst. f_equal. auto.
Qed.

Lemma max_specificity_spec first others :
  let best := max_specificity first others in
  best ∈ first :: others ∧ Forall (λ s, codes_le s best = true) (first :: others).
Proof.
  unfold max_specificity. revert first. induction others as [|s others IH]; intros first; simpl.
  { split; [by left|]. repeat constructor. by destruct (codes_le_total first first). }
  assert (codes_le first (if codes_le s first then first else s) = true
    ∧ codes_le s (if codes_le s first then first else s) = true) as [H1 H2].
  { destruct (codes_le s first) eqn:E; destruct (codes_le_total first first),
      (codes_le_total s s), (codes_le_total first s); by try congruence. }
  destruct (IH (if codes_le s first then first else s)) as [Hin Hall].
  apply Forall_cons in Hall as [Hb Hall]. split.
  - apply elem_of_cons in Hin as [->|Hin]; [destruct (codes_le s first); set_solver|set_solver].
  - constructor; [by eapply codes_le_trans|]. constructor; [by eapply codes_le_trans|done].
Qed.

(** [x] is strictly less specific than [r]. *)
Definition less_specific (x r : ModelContextRule) : Prop :=
  codes_le (rule_specificity x) (rule_specificity r) = true
  ∧ rule_specificity x ≠ rule_specificity r.

(** The one rule that is more specific than all others that match. *)
Definition governs (self : ProviderDataEgressPolicy) (provider capability : string)
    (c : DataClassification) (route : ProviderDataRoute) (rule : ModelContextRule) : Prop :=
  ∃ before after,
    matching_rules self provider capability c route = before ++ rule :: after
    ∧ Forall (λ x, less_specific x rule) (before ++ after).

(** What a rule asks for before it lets data out. *)
Definition releases (rule : ModelContextRule) (audit_available : bool) : Prop :=
  mr_handling rule ≠ HANDLING_DENY
  ∧ (mr_audit_required rule = true → audit_available = true)
  ∧ mr_dlp_required rule = false.

Lemma filter_single {A} (p : A → bool) l x :
  List.filter p l = [x] →
  ∃ before after, l = before ++ x :: after ∧ Forall (λ y, p y = false) (before ++ after) ∧ p x = true.
Proof.
  induction l as [|y l IH]; simpl; [done|]. destruct (p y) eqn:E.
  - intros [= -> Hl]. exists [], l. split_and!; [done| |done]. apply Forall_forall.
    intros z Hz. apply not_true_is_false. intros Hpz.
    assert (z ∈ List.filter p l) as Hin by (apply list_elem_of_In, filter_In; by rewrite <- list_elem_of_In).
    rewrite Hl in Hin. by apply elem_of_nil in Hin.
  - intros (before&after&->&Hall&Hx)%IH. exists (y :: before), after. by split_and!; [|constructor|].
Qed.

Lemma filter_app_single {A} (p : A → bool) before x after :
  Forall (λ y, p y = false) (before ++ after) → p x = true →
  List.filter p (before ++ x :: after) = [x].
Proof.
  intros H Hx. apply Forall_app in H as [Hb Ha]. rewrite List.filter_app. simpl. rewrite Hx.
  assert (∀ l, Forall (λ y, p y = false) l → List.filter p l = []) as Hnil.
  { induction 1 as [|y l Hy _ IH]; [done|]. simpl. by rewrite Hy. }
  by rewrite !Hnil.
Qed.

Lemma decide_rule_permits self rule audit :
  dd_permitted (decide_rule self rule audit) = true ↔ releases rule audit.
Proof.
  unfold decide_rule, releases, implemented_dlp_adapter. cbn [is_someb negb]. rewrite andb_true_r.
  case_bool_decide; simpl; [naive_solver|].
  destruct (mr_audit_required rule), audit, (mr_dlp_required rule); simpl; naive_solver.
Qed.

Lemma decide_rule_rule self rule audit : dd_rule (decide_rule self rule audit) = Some rule.
Proof. unfold decide_rule. by repeat case_match. Qed.

Lemma evaluate_egress_rule self provider capability c route audit rule :
  governs self provider capability c route rule →
  evaluate_egress self provider capability c route audit = decide_rule self rule audit.
Proof.
  intros (before & after & E & Hl). unfold evaluate_egress. rewrite E.
  destruct (before ++ rule :: after) as [|first others] eqn:El; [by destruct before|].
  destruct (max_specificity_spec (rule_specificity first) (map rule_specificity others))
    as [Hin Hmax]. set (best := max_specificity _ _) in *.
  change (rule_specificity first :: map rule_specificity others)
    with (map rule_specificity (first :: others)) in *. rewrite <- El in *.
  assert (best = rule_specificity rule) as Eb.
  { apply list_elem_of_fmap in Hin as (x & Ex & Hx). rewrite Ex.
    apply elem_of_app in Hx as Hx'. rewrite elem_of_cons in Hx'.
    destruct (decide (x = rule)) as [->|Hne]; [done|].
    assert (x ∈ before ++ after) as Hba by set_solver.
    rewrite Forall_forall in Hl. destruct (Hl x Hba) as [H1 H2].
    apply codes_le_antisym; [done|]. rewrite <- Ex. rewrite Forall_forall in Hmax.
    apply Hmax, list_elem_of_fmap. exists rule. split; [done|set_solver]. }
  rewrite filter_app_single; [done| |by apply bool_decide_eq_true].
  eapply Forall_impl; [exact Hl|]. intros x [_ Hx]. apply bool_decide_eq_false. congruence.
Qed.

Lemma evaluate_egress_permitted self provider capability c route audit :
  dd_permitted (evaluate_egress self provider capability c route audit) = true →
  ∃ rule, governs self provider capability c route rule
    ∧ dd_rule (evaluate_egress self provider capability c route audit) = Some rule
    ∧ releases rule audit.
Proof.
  unfold evaluate_egress. destruct (matching_rules _ _ _ _ _) as [|first others] eqn:E; [done|].
  destruct (max_specificity_spec (rule_specificity first) (map rule_specificity others))
    as [_ Hmax]. set (best := max_specificity _ _) in *.
  destruct (List.filter _ (first :: others)) as [|rule [|]] eqn:Ef; try done.
  intros Hp. apply decide_rule_permits in Hp as Hrel. exists rule. rewrite decide_rule_rule.
  split_and!; [|done..].
  apply filter_single in Ef as (before & after & El & Hall & Hr).
  exists before, after. rewrite E, El. split; [done|].
  apply bool_decide_eq_true in Hr.
  change (rule_specificity first :: map rule_specificity others)
    with (map rule_specificity (first :: others)) in Hmax.
  rewrite El, Forall_map in Hmax. rewrite Forall_forall in Hall, Hmax |- *.
  intros x Hx. specialize (Hall x Hx). apply bool_decide_eq_false in Hall.
  split; [|by rewrite Hr]. rewrite Hr. apply Hmax. set_solver.
Qed.

(** The organization policy lets provider data out by exactly one rule.  An
    evaluation permits a read if and only if one matching rule is strictly more
    specific than every other rule that matches the provider, capability,
    classification, destination, tenancy and route, and this rule neither
    denies, nor asks for an audit that is not available, nor asks for data-loss
    prevention; no match, a tie, or a more specific denial all refuse. *)
Theorem egress_permitted_iff self provider capability c route audit :
  dd_permitted (evaluate_egress self provider capability c route audit) = true
  ↔ ∃ rule, governs self provider capability c route rule ∧ releases rule audit.
Proof.
  split.
  - intros (rule & ? & _ & ?)%evaluate_egress_permitted. eauto.
  - intros (rule & Hg & Hr). rewrite (evaluate_egress_rule _ _ _ _ _ _ _ Hg).
    by apply decide_rule_permits.
Qed.

(** ** Rules that are loaded *)

Lemma ModelContextRule_post_init_id x y : ModelContextRule_post_init x = Ok y → y = x.
Proof. unfold ModelContextRule_post_init. intros H. by inv_ok. Qed.

Definition rule_wf (r : ModelContextRule) : Prop := ModelContextRule_post_init r = Ok r.

Lemma load_context_rule_wf i raw r : load_context_rule i raw = Ok r → rule_wf r.
Proof.
  unfold load_context_rule, rule_wf. intros H.
  destruct raw; try done. inv_ok.
  by pose proof (ModelContextRule_post_init_id _ _ H) as ->.
Qed.

Lemma load_context_rules_wf i raws rs : load_context_rules i raws = Ok rs → Forall rule_wf rs.
Proof.
  revert i rs. induction raws as [|raw raws IH]; intros i rs H; cbn [load_context_rules] in H;
    inv_ok; constructor; eauto using load_context_rule_wf.
Qed.

Lemma policy_from_mapping_wf value policy :
  policy_from_mapping value = Ok policy → Forall rule_wf (ep_rules policy).
Proof.
  unfold policy_from_mapping, ProviderDataEgressPolicy_post_init. intros H. inv_ok.
  rename select (load_context_rules _ _ = Ok _) into Hr. by apply load_context_rules_wf in Hr.
Qed.

(** What a rule of the policy guarantees when it lets sensitive data out. *)
Lemma rule_wf_sensitive r c :
  rule_wf r → mr_handling r ≠ HANDLING_DENY → c ∈ HIGH_SENSITIVITY →
  c ∈ mr_data_classifications r →
  mr_routes r = [AUDITED] ∧ mr_audit_required r = true ∧ "*" ∉ mr_allowed_fields r.
Proof.
  unfold rule_wf, ModelContextRule_post_init. intros H Hh Hc Hin. inv_ok.
  assert (releases_sensitive r = true) as E.
  { unfold releases_sensitive. rewrite bool_decide_false by done. simpl.
    apply existsb_exists. exists c. rewrite <- list_elem_of_In. split; [done|].
    by apply bool_decide_eq_true. }
  rewrite E in *. cbn [andb] in *. to_prop. done.
Qed.

Lemma rule_wf_bounds r :
  rule_wf r →
  0 < mr_max_items r ≤ MAX_JSON_COLLECTION_ITEMS
  ∧ 0 < mr_max_output_bytes r ≤ MAX_RUN_ARTIFACT_BYTES.
Proof. unfold rule_wf, ModelContextRule_post_init. intros H. inv_ok. to_prop. lia. Qed.

Lemma governs_matches self provider capability c route rule :
  governs self provider capability c route rule →
  rule ∈ ep_rules self
  ∧ rule_matches rule provider capability c (ep_destination self) (ep_model_tenancy self) route
    = true.
Proof.
  intros (before & after & E & _).
  assert (rule ∈ matching_rules self provider capability c route) as Hin
    by (rewrite E; set_solver).
  apply list_elem_of_In, filter_In in Hin. by rewrite list_elem_of_In.
Qed.

Lemma rule_matches_inv rule provider capability c destination tenancy route :
  rule_matches rule provider capability c destination tenancy route = true →
  c ∈ mr_data_classifications rule ∧ route ∈ mr_routes rule.
Proof.
  unfold rule_matches. rewrite !andb_true_iff. intros (((((_&_)&Hc)&_)&_)&Hr).
  by apply bool_decide_eq_true in Hc, Hr.
Qed.

(** ** The binding of a read *)

Definition field_allowed (rule : ModelContextRule) (field : string) : Prop :=
  "*" ∈ mr_allowed_fields rule ∨ ∃ a, a ∈ mr_allowed_fields rule ∧ same_folded field a = true.

Lemma disallowed_fields_nil rule requested :
  disallowed_fields rule requested = [] → Forall (field_allowed rule) requested.
Proof.
  unfold disallowed_fields. intros E. apply Forall_forall. intros f Hf.
  destruct (decide ("*" ∈ mr_allowed_fields rule)) as [|Hs]; [by left|]. right.
  destruct (existsb (same_folded f) (mr_allowed_fields rule)) eqn:Ex.
  { apply existsb_exists in Ex as (a & Ha%list_elem_of_In & Hfa). eauto. }
  exfalso. assert (f ∈ sort_by str_le (List.filter (λ f,
    negb (bool_decide ("*" ∈ mr_allowed_fields rule))
    && negb (existsb (same_folded f) (mr_allowed_fields rule))) requested)) as Hin.
  { rewrite sort_by_elem, list_elem_of_In, filter_In, <- list_elem_of_In.
    by rewrite Ex, bool_decide_false. }
  rewrite E in Hin. by apply elem_of_nil in Hin.
Qed.

(** What the preflight found. *)
Definition shape_ok (policy : ProviderDataEgressPolicy) (action : AgentAction)
    (route : ProviderDataRoute) (audit_available : bool) (shape : egress_shape) : Prop :=
  governs policy (rr_system (aa_target action)) (aa_capability action)
    (aa_data_classification action) route (es_rule shape)
  ∧ releases (es_rule shape) audit_available
  ∧ Forall (field_allowed (es_rule shape)) (es_requested_fields shape)
  ∧ (es_requested_fields shape = [] → "*" ∈ mr_allowed_fields (es_rule shape))
  ∧ (es_item_limit shape = mr_max_items (es_rule shape)
     ∨ 0 < es_item_limit shape ≤ mr_max_items (es_rule shape)).

Lemma shape_preflight_Ok policy action definition route audit shape :
  shape_preflight policy action definition route audit = Ok shape →
  shape_ok policy action route audit shape.
Proof.
  unfold shape_preflight. intros H. apply bind_Ok in H as (rule & Hrule & H).
  apply or_raise_Ok in Hrule.
  destruct (dd_permitted _) eqn:Hp; [|done].
  apply evaluate_egress_permitted in Hp as (rule' & Hg & Hd & Hrel).
  rewrite Hd in Hrule. injection Hrule as ->.
  apply bind_Ok in H as ([fields contract] & _ & H).
  apply bind_Ok in H as ([] & Hf & H). apply bind_Ok in H as (limit & Hl & H).
  apply bind_Ok in H as ([] & Hmax%raise_if_Ok & H). apply bind_Ok in H as ([] & _ & H).
  injection H as <-. unfold shape_ok. cbn [es_rule es_requested_fields es_item_limit].
  split_and!; [done|done| | |].
  - case_bool_decide as E; [by subst|]. simpl in Hf. apply raise_if_Ok in Hf.
    apply negb_false_iff, bool_decide_eq_true in Hf. by apply disallowed_fields_nil.
  - intros ->. rewrite bool_decide_true in Hf by done. simpl in Hf.
    by apply raise_if_Ok, negb_false_iff, bool_decide_eq_true in Hf.
  - destruct (dict_get (aa_parameters action) "limit"); inv_ok; simpl; [by left|right].
    to_prop. lia.
Qed.

Lemma binding_post_init_id x y : ProviderDataEgressBinding_post_init x = Ok y → y = x.
Proof. unfold ProviderDataEgressBinding_post_init. intros H. by inv_ok. Qed.

Lemma bind_egress_Ok policy action definition connector route audit mode b :
  bind_egress policy action definition connector route audit mode = Ok b →
  ∃ shape, shape_ok policy action route audit shape
    ∧ eb_provider b = rr_system (aa_target action) ∧ eb_capability b = aa_capability action
    ∧ eb_action_fingerprint b = AgentAction_effect_fingerprint action
    ∧ eb_policy_fingerprint b = policy_fingerprint policy
    ∧ eb_data_classification b = aa_data_classification action ∧ eb_route b = route
    ∧ eb_rule_name b = mr_name (es_rule shape) ∧ eb_handling b = mr_handling (es_rule shape)
    ∧ eb_audit_required b = mr_audit_required (es_rule shape)
    ∧ eb_requested_fields b = es_requested_fields shape
    ∧ eb_requested_item_limit b = Some (es_item_limit shape)
    ∧ eb_max_output_bytes b = mr_max_output_bytes (es_rule shape)
    ∧ eb_redacted_fields b = mr_redacted_fields (es_rule shape)
    ∧ ProviderDataEgressBinding_post_init b = Ok b.
Proof.
  unfold bind_egress. intros H. apply bind_Ok in H as (shape & Hs & H).
  apply bind_Ok in H as ([[cd od] ad] & _ & H). apply bind_Ok in H as (pd & _ & H).
  apply binding_post_init_id in H as E. exists shape.
  split; [by eapply shape_preflight_Ok|]. subst b. by split_and!.
Qed.

(** A read is bound to what the policy in force lets out.  Whenever a read is
    authorised under a loaded policy, the binding names the exact effect of the
    action and the exact policy, and the one governing rule: this rule lets the
    data out; every requested field is one it allows, and only a rule that
    allows all fields admits a read that names none; the item limit and the
    byte limit are positive and within the rule's.  For confidential and
    restricted data moreover the route is the audited one, an audit is required
    and available, and the fields are named one by one. *)
Theorem bound_read_within_policy raw policy action definition connector route audit mode b :
  policy_from_mapping raw = Ok policy →
  bind_egress policy action definition connector route audit mode = Ok b →
  ∃ rule,
    governs policy (eb_provider b) (eb_capability b) (eb_data_classification b) (eb_route b) rule
    ∧ releases rule audit
    ∧ eb_rule_name b = mr_name rule
    ∧ eb_route b = route ∧ eb_data_classification b = aa_data_classification action
    ∧ eb_action_fingerprint b = AgentAction_effect_fingerprint action
    ∧ eb_policy_fingerprint b = policy_fingerprint policy
    ∧ Forall (field_allowed rule) (eb_requested_fields b)
    ∧ (eb_requested_fields b = [] → "*" ∈ mr_allowed_fields rule)
    ∧ (∃ limit, eb_requested_item_limit b = Some limit ∧ 0 < limit ≤ mr_max_items rule)
    ∧ 0 < eb_max_output_bytes b ≤ mr_max_output_bytes rule
    ∧ (aa_data_classification action ∈ HIGH_SENSITIVITY →
         route = AUDITED ∧ audit = true ∧ eb_audit_required b = true
         ∧ eb_requested_fields b ≠ [] ∧ "*" ∉ mr_allowed_fields rule).
Proof.
  intros Hpol Hb. apply policy_from_mapping_wf in Hpol.
  apply bind_egress_Ok in Hb as (shape&(Hg&Hrel&Hf&Hnil&Hlim)&Hpr&Hcap&Haf&Hpf&Hc&Hro&Hn&Hh&Hau&Hrf&Hil&Hmb&_).
  set (rule := es_rule shape) in *. apply governs_matches in Hg as Hm. destruct Hm as [Hin Hm].
  rewrite Forall_forall in Hpol. pose proof (Hpol rule Hin) as Hwf.
  apply rule_matches_inv in Hm as [Hcl Hrt].
  destruct (rule_wf_bounds _ Hwf) as [Hitems Hbytes].
  exists rule. rewrite Hpr, Hcap, Hc, Hro, Hrf, Hau.
  split; [exact Hg|]. split; [exact Hrel|]. do 5 (split; [first [exact Hn|reflexivity|assumption]|]).
  split; [exact Hf|]. split; [exact Hnil|].
  split; [exists (es_item_limit shape); split; [exact Hil|lia]|]. split; [lia|].
  intros Hhigh. destruct Hrel as (Hd&Ha&_).
  destruct (rule_wf_sensitive _ _ Hwf Hd Hhigh Hcl) as (Er&Ea&Es). rewrite Er in Hrt.
  apply list_elem_of_singleton in Hrt. split_and!; auto.
Qed.

Lemma bound_read_within_policy_witness :
  ∃ b, bind_egress sample_policy confidential_read contract_definition None AUDITED true "local"
         = Ok b
    ∧ eb_audit_required b = true ∧ eb_requested_fields b ≠ [].
Proof.
  assert (is_ok (bind_egress sample_policy confidential_read contract_definition None AUDITED
    true "local") = true) as Hok by check.
  destruct (bind_egress sample_policy confidential_read contract_definition None AUDITED true
    "local") as [b|] eqn:Hb; [|discriminate Hok].
  exists b. split; [reflexivity|].
  destruct (bound_read_within_policy _ _ _ _ _ _ _ _ _ sample_policy_loaded Hb)
    as (rule&_&_&_&_&_&_&_&_&_&_&_&Hhigh).
  destruct Hhigh as (_&_&Haudit&Hfields&_); [by left|]. split; [exact Haudit|exact Hfields].
Defined.
