(* ===== verification/SanitizeTheorems.v ===== *)
(** * SanitizeTheorems: what a sanitized result can contain

    The result that crosses the boundary is confined to its contract and to the
    requested fields, and does not depend on what is redacted; and what the checks
    and the sanitization raise is of the classes the boundary names. *)

From S2P Require Import Prelude PyText PyJson PyHash PyTime PyStd ResourceLimits PyJsonLoads JsonCanonical.
From S2P Require Import ModelsBase PlatformIdentity ModelsAction ModelsBindings ModelsContext ModelsResults.
From S2P Require Import Capabilities Governance Evidence Security EgressPolicy EgressBinding EgressSanitize.
From S2P Require Import Samples EgressSamples EgressTheorems.
From Stdlib Require Import Ascii.

Open Scope Z_scope.

(** ** Redaction *)

(** The same value but for what is under the keys of [p], at any depth. *)
Inductive same_but (p : string → bool) : json → json → Prop :=
  | same_but_value v : same_but p v v
  | same_but_list l l' : Forall2 (same_but p) l l' → same_but p (JList l) (JList l')
  | same_but_dict d d' :
      Forall2 (λ kv kv', kv.1 = kv'.1 ∧ (p kv.1 = true ∨ same_but p kv.2 kv'.2)) d d' →
      same_but p (JDict d) (JDict d').

Definition redact_item (p : string → bool) (kv : string * json) : string * json :=
  let '(key, item) := kv in (key, if p key then JStr "<redacted>" else redact_keys p item).

Lemma redact_keys_same p v v' : same_but p v v' → redact_keys p v = redact_keys p v'.
Proof.
  revert v'. induction v as [| | | | |l IH|d IH] using json_nested_ind;
    intros v' Hv; inversion Hv as [|? l' Hl|? d' Hd]; subst; try done.
  - simpl. f_equal. clear Hv. revert l' Hl.
    induction IH as [|v l Hx _ IHl]; intros l' Hl; inversion Hl; subst; [done|].
    simpl. f_equal; auto.
  - simpl. f_equal. clear Hv. change (map (redact_item p) d = map (redact_item p) d').
    revert d' Hd. induction IH as [|[k v] d Hx _ IHd]; intros d' Hd;
      inversion Hd as [|? [k' v'] ? ? [Hk Hor]]; subst; [done|]. simpl in *. subst k'.
    f_equal; [|auto]. destruct (p k) eqn:E; [done|]. f_equal. apply Hx. by destruct Hor.
Qed.

Lemma redact_keys_fuse p q v :
  redact_keys p (redact_keys q v) = redact_keys (λ k, q k || p k) v.
Proof.
  induction v as [| | | | |l IH|d IH] using json_nested_ind; try done.
  - simpl. f_equal. rewrite map_map. induction IH as [|v l Hv _ IHl]; [done|]. simpl. by rewrite Hv, IHl.
  - simpl. f_equal. rewrite map_map. induction IH as [|[k v] d Hv _ IHd]; [done|].
    cbn [map]. rewrite IHd. simpl in Hv. f_equal. destruct (q k); simpl; [by destruct (p k)|].
    destruct (p k); [done|]. by rewrite Hv.
Qed.

Lemma redact_secrets_keys v : redact_secrets v = redact_keys is_sensitive v.
Proof.
  induction v as [| | | | |l IH|d IH] using json_nested_ind; try done.
  - simpl. f_equal. induction IH as [|v l Hv _ IHl]; [done|]. simpl. by rewrite Hv, IHl.
  - simpl. f_equal. induction IH as [|[k v] d Hv _ IHd]; [done|].
    cbn [map]. rewrite IHd. simpl in Hv. by rewrite Hv.
Qed.

(** The keys under which nothing crosses the boundary: secrets, their variants in
    any case, separator or prefix, and the configured fields. *)
Definition hidden (b : ProviderDataEgressBinding) (key : string) : bool :=
  is_sensitive key || (is_sensitive_variant key
    || bool_decide (field_identity key ∈ map field_identity (eb_redacted_fields b))).

Lemma redact_value_hidden b value :
  redact_value b value
  = minimize_prompt_injection_findings (redact_keys (hidden b) (JDict value)).
Proof.
  unfold redact_value, redact_configured_fields, redact_provider_secret_variants, hidden.
  by rewrite redact_secrets_keys, !redact_keys_fuse.
Qed.

(** C30: Secrets and redacted fields do not cross the boundary.  Two verified
    results that differ only in values under a secret's key (a token, a cookie, a
    key, in any spelling, at any depth) or under a field the binding redacts are
    sanitized to the same result, or are both refused in the same way: not even a
    digest, a count or an error depends on what was hidden. *)
Theorem hidden_fields_do_not_cross b r r' d d' :
  er_action_id r = er_action_id r' → er_state r = er_state r' →
  er_connector_reference r = er_connector_reference r' →
  er_compensation r = er_compensation r' →
  er_after r = Some d → er_after r' = Some d' →
  same_but (hidden b) (JDict d) (JDict d') →
  sanitize_result b r = sanitize_result b r'.
Proof.
  intros E1 E2 E3 E4 E5 E6 Hs. unfold sanitize_result. rewrite E1, E2, E3, E4, E5, E6.
  cbn [or_raise mbind result_bind].
  assert (sanitize_provider_mapping b d = sanitize_provider_mapping b d') as ->; [|done].
  unfold sanitize_provider_mapping. rewrite !redact_value_hidden.
  by rewrite (redact_keys_same _ _ _ Hs).
Qed.

(** ** Building an object *)

Lemma dict_set_keys d k v k' :
  k' ∈ map fst (dict_set d k v) → k' = k ∨ k' ∈ map fst d.
Proof.
  induction d as [|[k1 v1] d IH]; simpl.
  - intros ->%list_elem_of_singleton. by left.
  - destruct (String.eqb_spec k k1) as [->|Hne]; simpl; rewrite !elem_of_cons; [tauto|].
    intros [->|[->|?]%IH]; auto.
Qed.

(** ** Names *)

(** No object in the value has an entry with a reserved name. *)
Fixpoint no_reserved (v : json) : bool :=
  match v with
  | JDict d => forallb (λ kv, let '(key, item) := kv in
                 negb (is_reserved_read_result_field_name key) && no_reserved item) d
  | JList l => forallb no_reserved l
  | _ => true
  end.

Lemma omit_reserved_no_reserved v : no_reserved (omit_reserved_resource_fields v) = true.
Proof.
  induction v as [| | | | |l IH|d IH] using json_nested_ind; try done.
  - simpl. rewrite forallb_forall. intros x (y & <- & Hy)%in_map_iff.
    rewrite Forall_forall in IH. by apply IH, list_elem_of_In.
  - simpl. induction IH as [|[k v] d Hv _ IHd]; [done|].
    destruct (is_reserved_read_result_field_name k) eqn:E; [done|].
    simpl. rewrite E. simpl in Hv |- *. by rewrite Hv.
Qed.

(** The keys of the filtered object. *)
Lemma omit_reserved_dict d :
  ∃ d', omit_reserved_resource_fields (JDict d) = JDict d'
    ∧ ∀ k, k ∈ map fst d' → k ∈ map fst d.
Proof.
  simpl. eexists. split; [done|]. induction d as [|[k v] d IH]; [done|].
  intros k'. destruct (is_reserved_read_result_field_name k); simpl;
    rewrite ?elem_of_cons; [auto|]. intros [->|?]; auto.
Qed.

Section confined.
Context (b : ProviderDataEgressBinding).

(** The field was asked for, by name or by an alias, or all fields were. *)
Definition requested (key : string) : Prop :=
  eb_requested_fields b = []
  ∨ normalize_read_result_field_name key ∈ normalized_requested_fields (eb_requested_fields b).

(** An object of requested fields only, without a reserved name at any depth. *)
Definition confined (v : json) : Prop :=
  ∃ d, v = JDict d ∧ Forall requested (map fst d) ∧ no_reserved v = true.

Lemma render_resource_confined d : confined (render_resource b d).
Proof.
  unfold render_resource, project_resource_object. case_bool_decide as E.
  - destruct (omit_reserved_dict d) as (d' & Ed & Hk). exists d'. split; [done|].
    split; [|apply omit_reserved_no_reserved]. apply Forall_forall. intros k _. by left.
  - set (kept := List.filter _ d). destruct (omit_reserved_dict kept) as (d' & Ed & Hk).
    exists d'. split; [done|]. split; [|apply omit_reserved_no_reserved].
    apply Forall_forall. intros k Hin%Hk. right.
    apply list_elem_of_fmap in Hin as ([k' v] & -> & Hin%list_elem_of_In).
    apply filter_In in Hin as [_ Hin]. by apply bool_decide_eq_true in Hin.
Qed.

(** What a resource of the contract looks like in the result. *)
Definition resource_ok (key descriptor : string) (v : option json) : Prop :=
  (descriptor = "object" ∧ ∃ o, v = Some o ∧ confined o)
  ∨ (descriptor = "object_list" ∧ ∃ l, v = Some (JList l) ∧ Forall confined l)
  ∨ (descriptor = "value"
     ∧ match v with Some s => is_json_scalar s = true ∧ requested key | None => True end).

Lemma project_resource_ok value key descriptor v :
  project_resource b value key descriptor = Ok v → resource_ok key descriptor v.
Proof.
  unfold project_resource, resource_ok. intros H. apply bind_Ok in H as (item & _ & H).
  destruct (String.eqb_spec descriptor "object") as [->|].
  { left. split; [done|]. destruct item; inv_ok. eauto using render_resource_confined. }
  destruct (String.eqb_spec descriptor "object_list") as [->|].
  { right; left. split; [done|]. inv_ok. eexists. split; [done|]. apply Forall_map, Forall_true.
    intros d. apply render_resource_confined. }
  destruct (String.eqb_spec descriptor "value") as [->|]; [|done].
  right; right. split; [done|]. inv_ok. to_prop.
  destruct (bool_decide (eb_requested_fields b = []) || _) eqn:E; [|done]. split; [done|].
  apply orb_true_iff in E as [E|E]; apply bool_decide_eq_true in E; [by left|by right].
Qed.

Lemma project_resources_spec value projected resources out :
  project_resources b value projected resources = Ok out → NoDup (map fst resources) →
  (∀ k, k ∈ map fst out → k ∈ map fst projected ∨ k ∈ map fst resources)
  ∧ (∀ k, k ∉ map fst resources → dict_lookup out k = dict_lookup projected k)
  ∧ ∀ key descriptor, (key, descriptor) ∈ resources → dict_lookup projected key = None →
      resource_ok key descriptor (dict_lookup out key).
Proof.
  revert projected. induction resources as [|[key descriptor] resources IH];
    intros projected H Hn; cbn [project_resources] in H.
  { injection H as <-. split_and!; [auto|done|]. by intros ?? ?%elem_of_nil. }
  apply bind_Ok in H as (rendered & Hr & H). cbn [map fst] in Hn. apply NoDup_cons in Hn as [Hk Hn].
  apply project_resource_ok in Hr.
  assert (∀ k, dict_lookup (match rendered with Some v => dict_set projected key v
      | None => projected end) k
    = if (k =? key)%string then match rendered with Some v => Some v
        | None => dict_lookup projected k end else dict_lookup projected k) as Hset.
  { intros k. destruct rendered; [by rewrite dict_set_lookup|by case_match]. }
  destruct (IH _ H Hn) as (H1&H2&H3). cbn [map fst]. split_and!.
  - intros k [Hin|Hin]%H1; rewrite elem_of_cons; [|auto]. destruct rendered; [|auto].
    apply dict_set_keys in Hin as [->|Hin]; auto.
  - intros k [Hne Hin]%not_elem_of_cons. rewrite H2, Hset by done. by apply String.eqb_neq in Hne as ->.
  - intros k d [[= -> ->]|Hin]%elem_of_cons Hnone.
    + rewrite H2, Hset, String.eqb_refl, Hnone by done. by destruct rendered.
    + apply H3; [done|]. rewrite Hset. destruct (String.eqb_spec k key) as [->|]; [|done].
      exfalso. apply Hk, list_elem_of_fmap. by exists (key, d).
Qed.

Lemma copy_metadata_fields_keys value projected keys out :
  copy_metadata_fields b value projected keys = Ok out →
  ∀ k, k ∈ map fst out → k ∈ map fst projected ∨ k ∈ keys.
Proof.
  revert projected. induction keys as [|key keys IH]; intros projected H k Hk;
    cbn [copy_metadata_fields] in H; [injection H as <-; auto|]. rewrite elem_of_cons.
  destruct (dict_lookup value key).
  - apply bind_Ok in H as (copied & _ & H). destruct (IH _ H k Hk) as [Hin|]; [|auto].
    apply dict_set_keys in Hin as [->|]; auto.
  - destruct (IH _ H k Hk); auto.
Qed.

Lemma add_citations_keys value projected out :
  add_citations b value projected = Ok out →
  ∀ k, k ∈ map fst out → k ∈ map fst projected ∨ k ∈ ["citations"; "citation_ids"].
Proof.
  unfold add_citations. intros H k Hk. case_bool_decide; cbn [negb] in H; [|injection H as <-; auto].
  apply bind_Ok in H as (cs & _ & H). injection H as <-. destruct cs; [auto|].
  apply dict_set_keys in Hk as [->|Hk]; [set_solver|].
  apply dict_set_keys in Hk as [->|Hk]; [set_solver|auto].
Qed.

Lemma copy_metadata_fields_lookup value projected keys out :
  copy_metadata_fields b value projected keys = Ok out →
  ∀ k, k ∉ keys → dict_lookup out k = dict_lookup projected k.
Proof.
  revert projected. induction keys as [|key keys IH]; intros projected H k Hk;
    cbn [copy_metadata_fields] in H; [by injection H as <-|].
  apply not_elem_of_cons in Hk as [Hne Hk].
  destruct (dict_lookup value key); [|by apply IH].
  apply bind_Ok in H as (copied & _ & H). rewrite (IH _ H k Hk), dict_set_lookup.
  by apply String.eqb_neq in Hne as ->.
Qed.

Lemma add_citations_lookup value projected out :
  add_citations b value projected = Ok out →
  ∀ k, k ∉ ["citations"; "citation_ids"] → dict_lookup out k = dict_lookup projected k.
Proof.
  unfold add_citations. intros H k [H1 [H2 _]%not_elem_of_cons]%not_elem_of_cons.
  case_bool_decide; cbn [negb] in H; [|by injection H as <-].
  apply bind_Ok in H as (cs & _ & H). injection H as <-. destruct cs; [done|].
  apply String.eqb_neq in H1 as E1. apply String.eqb_neq in H2 as E2.
  by rewrite !dict_set_lookup, E1, E2.
Qed.

(** ** The contract of a binding *)

Definition contract_wf : Prop :=
  NoDup (resource_names b)
  ∧ (∀ k, k ∈ resource_names b → k ∉ eb_output_metadata_fields b)
  ∧ ∀ k, k ∈ resource_names b ++ eb_output_metadata_fields b →
      k ∉ ["schema"; "evidence"; "security"; "citations"; "citation_ids"].

Lemma check_output_resources_NoDup seen l u :
  check_output_resources seen l = Ok u → NoDup (map fst l) ∧ ∀ k, k ∈ map fst l → k ∉ seen.
Proof.
  revert seen u. induction l as [|[k d] l IH]; intros seen u H; cbn [check_output_resources] in H.
  { split; [constructor|]. by intros ? ?%elem_of_nil. }
  inv_ok. to_prop. rename select (check_output_resources _ _ = Ok _) into Hl.
  destruct (IH _ _ Hl) as [Hn Hs]. cbn [map fst]. split.
  - constructor; [|done]. intros Hk. specialize (Hs k Hk). set_solver.
  - intros k' [->|Hk']%elem_of_cons; [done|]. specialize (Hs k' Hk'). set_solver.
Qed.

Lemma existsb_false_elem {A} (p : A → bool) l x : existsb p l = false → x ∈ l → p x = false.
Proof.
  intros Hp Hx. destruct (p x) eqn:E; [|done]. rewrite <- Hp. symmetry. apply existsb_exists.
  exists x. by rewrite <- list_elem_of_In.
Qed.

Lemma reserved_crosscut k :
  k ∈ ["schema"; "evidence"; "security"; "citations"; "citation_ids"] →
  is_reserved_read_result_field_name k = true.
Proof.
  intros Hk. assert (forallb is_reserved_read_result_field_name
    ["schema"; "evidence"; "security"; "citations"; "citation_ids"] = true) as Hall
    by (vm_compute; reflexivity).
  rewrite forallb_forall in Hall. by apply Hall, list_elem_of_In.
Qed.

Lemma post_init_contract : ProviderDataEgressBinding_post_init b = Ok b → contract_wf.
Proof.
  unfold ProviderDataEgressBinding_post_init, binding_checks. intros H. inv_ok.
  rename select (check_output_resources _ _ = Ok _) into Hr.
  rename select (existsb is_reserved_read_result_field_name _ = false) into Hres.
  rename select (existsb _ (resource_names b) = false) into Hov.
  destruct (check_output_resources_NoDup _ _ _ Hr) as [Hn _]. split; [done|].
  split.
  - intros k Hk Hm. pose proof (existsb_false_elem _ _ k Hov Hk) as E. by apply bool_decide_eq_false in E.
  - intros k Hk Hc%reserved_crosscut. pose proof (existsb_false_elem _ _ k Hres Hk). congruence.
Qed.

(** A result that is no more than the contract of its binding admits. *)
Definition within_contract (out : dict) : Prop :=
  (∀ k, k ∈ map fst out →
     k ∈ READ_RESULT_CROSSCUT_FIELDS ∨ k ∈ eb_output_metadata_fields b ∨ k ∈ resource_names b)
  ∧ dict_lookup out "schema" = Some (JStr (eb_output_schema b))
  ∧ ∀ key descriptor, (key, descriptor) ∈ eb_output_resources b →
      resource_ok key descriptor (dict_lookup out key).

Lemma apply_output_contract_within value out :
  contract_wf → apply_output_contract b value = Ok out → within_contract out.
Proof.
  intros (Hn & Hov & Hres) H. unfold apply_output_contract in H.
  apply bind_Ok in H as ([] & _ & H). apply bind_Ok in H as ([] & _ & H).
  apply bind_Ok in H as (p1 & H1 & H). apply bind_Ok in H as (p2 & H2 & H).
  apply bind_Ok in H as (p3 & H3 & H). apply bind_Ok in H as ([] & _ & H).
  injection H as <-. destruct (project_resources_spec _ _ _ _ H3 Hn) as (K3 & L3 & R3).
  pose proof (copy_metadata_fields_keys _ _ _ _ H1) as K1.
  pose proof (add_citations_keys _ _ _ H2) as K2.
  assert (∀ k, k ∈ resource_names b → k ∉ map fst p2) as Hfresh.
  { intros k Hk [[Hp|Hp]%K1|Hp]%K2.
    - apply list_elem_of_singleton in Hp as ->. apply (Hres "schema"); [|by left].
      apply elem_of_app. by left.
    - by apply (Hov k).
    - apply (Hres k); [apply elem_of_app; by left|]. set_solver. }
  split; [|split].
  - intros k [->|[->|[Hk|Hk]%K3]%dict_set_keys]%dict_set_keys;
      [left; set_solver|left; set_solver| |auto].
    apply K2 in Hk as [[Hk|Hk]%K1|Hk]; [left; set_solver|auto|left; set_solver].
  - rewrite !dict_set_lookup. cbn [String.eqb Ascii.eqb Bool.eqb].
    assert (∀ k, k ∈ resource_names b ++ eb_output_metadata_fields b → k ≠ "schema") as Hsc.
    { intros k Hk ->. apply (Hres "schema" Hk). by left. }
    rewrite L3 by (intros Hk; by apply (Hsc "schema"); [apply elem_of_app; left|]).
    rewrite (add_citations_lookup _ _ _ H2) by set_solver.
    by rewrite (copy_metadata_fields_lookup _ _ _ _ H1)
      by (intros Hk; by apply (Hsc "schema"); [apply elem_of_app; right|]).
  - intros key descriptor Hin.
    assert (key ∈ resource_names b) as Hk by (apply list_elem_of_fmap; by exists (key, descriptor)).
    assert (key ≠ "security" ∧ key ≠ "evidence") as [Hs%String.eqb_neq He%String.eqb_neq].
    { assert (key ∉ ["schema"; "evidence"; "security"; "citations"; "citation_ids"]) as Hno
        by (apply Hres, elem_of_app; by left).
      split; intros ->; apply Hno; set_solver. }
    rewrite !dict_set_lookup, Hs, He. apply R3; [done|].
    destruct (dict_lookup p2 key) as [v|] eqn:E; [|done]. exfalso. apply (Hfresh key Hk).
    apply dict_lookup_elem in E. apply list_elem_of_fmap. by exists (key, v).
Qed.
End confined.

Lemma sanitized_within b value out :
  contract_wf b → sanitize_provider_mapping b value = Ok out → within_contract b out.
Proof.
  intros Hwf H. unfold sanitize_provider_mapping in H.
  apply bind_Ok in H as (minimized & _ & H). apply bind_Ok in H as (redacted & _ & H).
  apply bind_Ok in H as (normalized & Hn & H). apply bind_Ok in H as ([] & _ & H).
  apply bind_Ok in H as ([] & _ & H). apply bind_Ok in H as (text & _ & H).
  apply bind_Ok in H as ([] & _ & H). injection H as <-.
  by eapply apply_output_contract_within.
Qed.

(** C31: A sanitized result is confined to what the read was authorised for.  Its
    entries are the five the boundary itself writes, the bound metadata and the
    bound resources; its schema is the bound one; every bound object, and every
    element of a bound collection, is an object of requested fields (by name or
    by an alias) that holds a reserved name at no depth, and a bound value is a
    finite scalar that was requested; a collection is no longer than the item
    limit; and the canonical text of the whole is within the byte limit. *)
Theorem sanitized_result_confined b value out :
  ProviderDataEgressBinding_post_init b = Ok b →
  sanitize_provider_mapping b value = Ok out →
  within_contract b out
  ∧ (∀ key l limit, (key, "object_list") ∈ eb_output_resources b →
       dict_lookup out key = Some (JList l) → eb_requested_item_limit b = Some limit →
       Z.of_nat (length l) ≤ limit)
  ∧ ∃ text, dumps (JDict out) = Ok text ∧ utf8_length text ≤ eb_max_output_bytes b.
Proof.
  intros Hwf%post_init_contract H. split; [by eapply sanitized_within|].
  unfold sanitize_provider_mapping in H.
  apply bind_Ok in H as (minimized & _ & H). apply bind_Ok in H as (redacted & _ & H).
  apply bind_Ok in H as (normalized & _ & H). apply bind_Ok in H as ([] & Hlim & H).
  apply bind_Ok in H as ([] & _ & H). apply bind_Ok in H as (text & Ht & H).
  apply bind_Ok in H as ([] & Hbytes%raise_if_Ok & H). injection H as <-.
  split.
  - intros key l limit Hin Hl Hb. unfold enforce_item_limit in Hlim. rewrite Hb in Hlim.
    apply raise_if_Ok, orb_false_iff in Hlim as [_ Hlim].
    pose proof (existsb_false_elem _ _ _ Hlim Hin) as E. cbn [fst snd] in E.
    unfold dict_get, dict_get_or in E. rewrite String.eqb_refl, Hl in E. apply Z.ltb_ge in E. exact E.
  - exists text. split; [done|]. to_prop. lia.
Qed.

(** ** What the checks and the sanitization of an answer can raise

    [raises_named r]: if [r] raises, it is an exception of one of the classes the
    provider boundary names.  The combinators of [result] keep this, and the
    checks and the sanitization of a provider's answer have it: only what a
    connector itself raises can be of another class. *)

(** An instance of [KeyError], [MasterAgentError], [OSError], [OverflowError],
    [RuntimeError], [TypeError] or [ValueError]. *)
Definition named_class (e : exn) : Prop :=
  match e with
  | ValidationError _ | ConfigurationError _ | ConnectorError _ | PreEffectError _
  | VersionConflictError _ => True
  | StructuredDataTypeError _ | PyTypeError _ | PyValueError _ => True
  | PyKeyError _ | PyRuntimeError _ | PyOSError _ => True
  | PySubclassError base _ _ =>
      base ∈ [ConnectorErrorBase; MasterAgentErrorBase; KeyErrorBase; OSErrorBase;
              OverflowErrorBase; RuntimeErrorBase; TypeErrorBase; ValueErrorBase]
  | PyOtherError _ => False
  end.

Definition raises_named {A} (r : result A) : Prop := ∀ e, r = Err e → named_class e.

(** *** The combinators *)

Create HintDb named_db.

Lemma named_Ok {A} (a : A) : raises_named (Ok a).
Proof. by intros e. Qed.
Lemma named_Err {A} e : named_class e → raises_named (Err e : result A).
Proof. by intros H e' [= <-]. Qed.
Lemma named_raise_if c e : named_class e → raises_named (raise_if c e).
Proof. intros H e'. destruct c; [|done]. by intros [= <-]. Qed.
Lemma named_or_raise {A} (o : option A) e : named_class e → raises_named (or_raise o e).
Proof. intros H e'. destruct o; [done|]. by intros [= <-]. Qed.
Lemma named_bind {A B} (m : result A) (f : A → result B) :
  raises_named m → (∀ a, raises_named (f a)) → raises_named (m ≫= f).
Proof.
  intros Hm Hf e. destruct m as [a|e']; cbn; [apply Hf|]. intros [= <-]. by apply Hm.
Qed.
Lemma named_fmap {A B} (f : A → B) (m : result A) : raises_named m → raises_named (f <$> m).
Proof. intros Hm e. destruct m as [a|e']; cbn; [done|]. intros [= <-]. by apply Hm. Qed.
Lemma named_for_each {A} (f : A → result unit) l :
  (∀ x, raises_named (f x)) → raises_named (for_each f l).
Proof. intros Hf. induction l; [apply named_Ok|]. by apply named_bind. Qed.

(** [named] walks through a computation; [named_db] has what is known of the
    functions it calls. *)
Ltac named_step :=
  match goal with
  | |- raises_named (Ok _) => apply named_Ok
  | |- raises_named (mret _) => apply named_Ok
  | |- raises_named (Err _) => apply named_Err; exact I
  | |- raises_named (raise_if _ _) => apply named_raise_if; exact I
  | |- raises_named (or_raise _ _) => apply named_or_raise; exact I
  | |- raises_named _ => solve [eauto 2 with named_db]
  | |- raises_named (mbind _ _) => apply named_bind; [|intros ?]
  | |- raises_named (fmap _ _) => apply named_fmap
  | |- raises_named (for_each _ _) => apply named_for_each; intros ?
  | |- raises_named (match ?x with _ => _ end) => destruct x
  end.
Ltac named := repeat (cbn beta zeta; named_step).

(** *** What is shared by the checks *)

Lemma named_freeze v path : raises_named (freeze_json v path).
Proof.
  revert path. induction v as [|b|z|r|s|l IH|kvs IH] using json_nested_ind; intros path; simpl;
    try solve [named].
  - apply named_bind; [|intros ?; named]. generalize 0%nat.
    induction IH as [|v l Hv _ IHl]; intros i; simpl; [named|].
    apply named_bind; [apply Hv|]. intros w. apply named_bind; [apply IHl|intros ?; named].
  - apply named_bind; [|intros ?; named].
    induction IH as [|[k v] kvs Hv _ IHl]; simpl; [named|].
    apply named_bind; [apply Hv|]. intros w. apply named_bind; [apply IHl|intros ?; named].
Qed.
#[export] Hint Resolve named_freeze : named_db.

Lemma named_freeze_mapping d : raises_named (freeze_json_mapping d).
Proof. unfold freeze_json_mapping. named. Qed.
Lemma named_dumps v : raises_named (dumps v).
Proof. unfold dumps. named. Qed.
#[export] Hint Resolve named_freeze_mapping named_dumps : named_db.

Lemma named_digest v : raises_named (result_state_digest v).
Proof. unfold result_state_digest, stable_sha256. named. Qed.
Lemma named_bounded s context : raises_named (bounded_string_bytes s context).
Proof. unfold bounded_string_bytes. named. Qed.
#[export] Hint Resolve named_digest named_bounded : named_db.

Lemma named_key_bytes kvs context acc : raises_named (key_bytes kvs context acc).
Proof. revert acc. induction kvs as [|[k v] kvs IH]; intros acc; simpl; named. Qed.
#[export] Hint Resolve named_key_bytes : named_db.

Lemma named_measure_step v depth context max_bytes u :
  raises_named (measure_step v depth context max_bytes u).
Proof. unfold measure_step, visit. named. Qed.

Lemma named_measure v context max_bytes :
  raises_named (measure_json_resources v context max_bytes).
Proof.
  assert (∀ fuel stack u r, measure_loop fuel stack context max_bytes u = Some r → raises_named r)
    as Hloop.
  { induction fuel as [|fuel IH]; intros [|[v' depth|] stack] u r; simpl.
    - intros [= <-]. apply named_Ok.
    - done.
    - done.
    - intros [= <-]. apply named_Ok.
    - destruct (measure_step v' depth context max_bytes u) as [[u' pushed]|e] eqn:E; [apply IH|].
      intros [= <-]. apply named_Err. by eapply named_measure_step.
    - apply IH. }
  unfold measure_json_resources. destruct (measure_loop _ _ _ _ _) as [r|] eqn:E; [|named].
  by eapply Hloop.
Qed.
#[export] Hint Resolve named_measure : named_db.

Lemma named_result_init action_id state before after reference message compensation :
  raises_named (ExecutionResult_post_init action_id state before after reference message compensation).
Proof. unfold ExecutionResult_post_init, when_some. named. Qed.
Lemma named_integrity r : raises_named (validate_integrity r).
Proof. unfold validate_integrity. named. Qed.
#[export] Hint Resolve named_result_init named_integrity : named_db.

(** *** The sanitization of a provider's answer *)

Lemma named_reference minimize_path s : raises_named (safe_reference minimize_path s).
Proof. unfold safe_reference, validate_bounded_string. named. Qed.
#[export] Hint Resolve named_reference : named_db.

Lemma named_references minimize_path key v : raises_named (minimize_references minimize_path key v).
Proof.
  revert key. induction v as [|b|z|r|s|l IH|kvs IH] using json_nested_ind; intros key; simpl;
    try solve [named].
  - apply named_bind; [|intros ?; named]. induction IH as [|v l Hv _ IHl]; simpl; [named|].
    apply named_bind; [apply Hv|]. intros w. apply named_bind; [apply IHl|intros ?; named].
  - apply named_bind; [|intros ?; named]. induction IH as [|[k v] kvs Hv _ IHl]; simpl; [named|].
    apply named_bind; [apply Hv|]. intros w. apply named_bind; [apply IHl|intros ?; named].
Qed.
#[export] Hint Resolve named_references : named_db.

Section contract.
Context (binding : ProviderDataEgressBinding).

Lemma named_output_metadata key v limit : raises_named (copy_output_metadata key v limit).
Proof.
  unfold copy_output_metadata, copy_source_urls, copy_retention, copy_repository,
    check_retention_item. named.
Qed.
#[local] Hint Resolve named_output_metadata : named_db.

Lemma named_metadata_fields value projected keys :
  raises_named (copy_metadata_fields binding value projected keys).
Proof. revert projected. induction keys as [|k keys IH]; intros projected; simpl; named. Qed.

Lemma named_resources value projected resources :
  raises_named (project_resources binding value projected resources).
Proof.
  revert projected. induction resources as [|[k d] resources IH]; intros projected; simpl; [named|].
  apply named_bind; [unfold project_resource; named|intros; apply IH].
Qed.

Lemma named_citations value projected : raises_named (add_citations binding value projected).
Proof. unfold add_citations, sanitize_citations, check_citation. named. Qed.
#[local] Hint Resolve named_metadata_fields named_resources named_citations : named_db.

Lemma named_sanitize_mapping value : raises_named (sanitize_provider_mapping binding value).
Proof.
  unfold sanitize_provider_mapping, as_mapping, apply_output_contract, enforce_item_limit. named.
Qed.
#[local] Hint Resolve named_sanitize_mapping : named_db.

Lemma named_sanitize_result r : raises_named (sanitize_result binding r).
Proof. unfold sanitize_result. named. Qed.

Lemma named_verification_metadata o : raises_named (verification_metadata binding o).
Proof. unfold verification_metadata. named. Qed.
End contract.
#[export] Hint Resolve named_sanitize_result named_verification_metadata : named_db.

(** ** Witnesses *)

Definition answer_result (token : string) : ExecutionResult := {|
  er_action_id := 3; er_state := SUCCEEDED; er_before := None;
  er_after := Some (provider_answer token); er_connector_reference := None;
  er_message := ""; er_compensation := None; er_before_digest := ""; er_after_digest := "" |}.

Lemma hidden_fields_do_not_cross_witness :
  answer_result "s3cret" ≠ answer_result "other"
  ∧ sanitize_result sample_egress_binding (answer_result "s3cret")
    = sanitize_result sample_egress_binding (answer_result "other").
Proof.
  split; [done|].
  apply (hidden_fields_do_not_cross _ _ _ (provider_answer "s3cret") (provider_answer "other"));
    [reflexivity..|].
  constructor. do 2 (constructor; [split; [done|right; constructor]|]).
  constructor; [|constructor; [split; [done|right; constructor]|constructor]].
  split; [done|right]. constructor. do 2 (constructor; [split; [done|right; constructor]|]).
  constructor; [|constructor]. split; [done|left]. check.
Defined.

Lemma sanitized_result_confined_witness :
  ∃ out, sanitize_provider_mapping sample_egress_binding (provider_answer "s3cret") = Ok out
    ∧ dict_lookup out "issue" = Some (JDict [("summary", JStr "broken")])
    ∧ dict_lookup out "comments" = Some (JList [JDict [("Summary", JStr "seen")]])
    ∧ within_contract sample_egress_binding out.
Proof.
  set (out := ok_or (sanitize_provider_mapping sample_egress_binding (provider_answer "s3cret")) []).
  assert (sanitize_provider_mapping sample_egress_binding (provider_answer "s3cret") = Ok out)
    as Hout by check.
  exists out. split; [exact Hout|]. split; [check|]. split; [check|].
  destruct (sanitized_result_confined sample_egress_binding (provider_answer "s3cret") out
    ltac:(check) Hout) as [Hw _]. exact Hw.
Defined.
