(* ===== verification/EgressRunTheorems.v ===== *)
(** * EgressRunTheorems: what a run returns of a provider read

    Every result a run reports either belongs to an action that needed no egress
    authorisation, or is a sanitized one, reported with the authorisation it
    crossed the boundary under. *)

From S2P Require Import Prelude PyText PyJson PyHash PyTime PyStd ResourceLimits JsonCanonical PyJsonLoads.
From S2P Require Import ModelsBase PlatformIdentity ModelsSystems ModelsReviews ModelsAction ModelsBindings.
From S2P Require Import ModelsContext ActionGraph ModelsPlan ModelsResults Approvals Policy.
From S2P Require Import Capabilities Governance AuditLog PlannerGate Canonical Evidence Registry RunMonad.
From S2P Require Import Orchestrator Samples RunSamples PlanTheorems OrderTheorems OrchestratorTheorems.
From S2P Require Import EgressPolicy EgressBinding EgressSanitize EgressRuntime EgressSamples.
From S2P Require Import EgressTheorems SanitizeTheorems.
From Stdlib Require Import Ascii.

Open Scope Z_scope.

Section crossing.
Context {A P B W : Type} `{Authenticator A} `{ProviderEgress P B}.
Context (env : environment) (self : WorkflowOrchestrator (A := A) (P := P) (W := W)).
Context (plan : ChangePlan).
#[local] Abbreviation run_state := (run_state W B).

(** [egress] is what the action needs before its connector is read: the
    authorisation, or none. *)
Definition authorised_egress (action : AgentAction) (egress : option B) : Prop :=
  ∃ connector,
    resolve (wo_connectors self) (rr_system (aa_target action)) (Some (aa_capability action))
      = Ok connector
    ∧ provider_data_egress_binding self plan action connector = Ok egress.

(** The result of the report, if it has one, is what the boundary let through. *)
Definition crossed (report : ActionReport B) : Prop :=
  ∀ result_, ar_result report = Some result_ →
    ∃ action, action ∈ cp_actions plan ∧ aa_action_id action = ar_action_id report
      ∧ authorised_egress action (ar_egress report)
      ∧ ∀ b, ar_egress report = Some b →
          ar_state report = VERIFIED
          ∧ ∃ raw, sanitize_provider_result raw b = Ok result_.

Lemma crossed_no_result report : ar_result report = None → crossed report.
Proof. intros E result_ Hr. congruence. Qed.

(** A compensated action is a write, which needs no authorisation. *)
Definition item_ok (item : ExecutedAction W) : Prop :=
  xa_action item ∈ cp_actions plan
  ∧ aa_risk (xa_action item) = REVERSIBLE_WRITE
  ∧ resolve (wo_connectors self) (rr_system (aa_target (xa_action item)))
      (Some (aa_capability (xa_action item))) = Ok (xa_connector item).

Lemma item_egress item : item_ok item → authorised_egress (xa_action item) None.
Proof.
  intros (_&Hr&Hc). exists (xa_connector item). split; [done|].
  unfold provider_data_egress_binding. by rewrite Hr.
Qed.

Lemma item_report_crossed item st message c :
  item_ok item → crossed (compensation_report item st message c).
Proof.
  intros Hi result_ _. exists (xa_action item). split; [apply Hi|]. split; [done|].
  split; [by apply item_egress|done].
Qed.

(** ** The invariant, with a condition on the attempt's authorisation and result *)

Definition sound (X : option B → option ExecutionResult → Prop) (s : run_state) : Prop :=
  Forall crossed (rv_reports (rs_vars s)) ∧ Forall item_ok (rv_executed (rs_vars s))
  ∧ X (rv_egress (rs_vars s)) (rv_result (rs_vars s)).

Section invariant.
Context (X : option B → option ExecutionResult → Prop).

Lemma sound_now : keeps (sound X) (now env).
Proof. by intros s. Qed.
Lemma sound_uuid4 : keeps (sound X) (uuid4 env).
Proof. by intros s. Qed.
Lemma sound_audit {A'} op (project : audit_reply → result A') : keeps (sound X) (audit op project).
Proof. apply keeps_audit. by intros s. Qed.
Lemma sound_provider {A'} call (wrap : result A' → provider_reply) f :
  keeps (sound X) (provider call wrap f).
Proof. apply keeps_provider. by intros s. Qed.
Lemma sound_assign f :
  (∀ v, rv_reports (f v) = rv_reports v ∧ rv_executed (f v) = rv_executed v
        ∧ rv_egress (f v) = rv_egress v ∧ rv_result (f v) = rv_result v) →
  keeps (sound X) (assign f).
Proof.
  intros Hf s. destruct (Hf (rs_vars s)) as (E1&E2&E3&E4). unfold sound. cbn.
  by rewrite E1, E2, E3, E4.
Qed.
#[local] Hint Resolve sound_now sound_uuid4 sound_audit sound_provider : keeps_db.
#[local] Hint Extern 1 (keeps _ (assign _)) => apply sound_assign; done : keeps_db.

Lemma sound_event run_id plan_id action_id event_type payload :
  keeps (sound X) (record_event env run_id plan_id action_id event_type payload).
Proof. unfold record_event. keep. Qed.
#[local] Hint Resolve sound_event : keeps_db.

Lemma sound_report report : crossed report → keeps (sound X) (assign (set_reports (λ l, l ++ [report]))).
Proof.
  intros Hr s (H1&H2&H3). split_and!; [|done|done]. cbn. by apply Forall_app_2; [|apply Forall_singleton].
Qed.

Lemma sound_replace i report : crossed report → keeps (sound X) (replace_report i report).
Proof.
  intros Hr s (H1&H2&H3). unfold replace_report, mbind, run_bind, get.
  destruct (i <? length _)%nat; [|by split_and!].
  split_and!; [|done|done]. cbn. by apply Forall_insert.
Qed.

Lemma sound_conclude_with run_id action report extra :
  crossed report → keeps (sound X) (conclude_with env self run_id plan action report extra).
Proof.
  intros Hr. apply keeps_bind; [by apply sound_report|]. intros _. unfold record_action. keep.
Qed.

Lemma sound_compensate_item run_id item :
  item_ok item → keeps (sound X) (compensate_item env self run_id plan item).
Proof.
  intros Hi.
  assert (∀ st m c, keeps (sound X)
    (replace_report (xa_report_index item) (compensation_report item st m c))) as Hr.
  { intros. by apply sound_replace, item_report_crossed. }
  unfold compensate_item, settle_report, failed_compensation, current_report, record_action. keep.
  all: unfold compensate_verified, failed_compensation; keep.
Qed.

Lemma sound_compensate run_id dry_run :
  keeps (sound X) (maybe_compensate env self run_id plan dry_run).
Proof.
  intros s Hs. apply (wp_state _ (sound X)). unfold maybe_compensate.
  apply wp_bind, wp_get. pose proof Hs as (_&Hi&_).
  remember (rv_executed (rs_vars s)) as executed eqn:Ee. clear Ee.
  apply (proj1 (keeps_wp (sound X) _)); [|exact Hs]. keep.
  - apply sound_compensate_item. rewrite Forall_forall in Hi. apply Hi.
    by apply list_elem_of_In, in_rev, list_elem_of_In.
  - assert (∀ items, keeps (sound X) (item_states items)) as Hitems.
    { induction items; simpl; unfold current_report; keep. }
    apply Hitems.
  - intros s' (H1&_&H3). by split_and!.
Qed.

Lemma sound_stop run_id dry_run :
  keeps (sound X) (compensate_and_stop env self run_id plan dry_run).
Proof. apply keeps_bind; [apply sound_compensate|]. intros b. keep. Qed.

Lemma sound_refuse run_id dry_run action state message :
  keeps (sound X) (refuse env self run_id plan dry_run action state message).
Proof.
  apply keeps_bind; [by apply sound_conclude_with, crossed_no_result|]. intros _. apply sound_stop.
Qed.

Lemma sound_persist action token certified message r connector :
  keeps (sound X) (persist_idempotency_outcome env action token certified message r connector).
Proof. unfold persist_idempotency_outcome, idempotency_record. keep. Qed.
End invariant.
#[local] Hint Resolve sound_now sound_uuid4 sound_audit sound_provider sound_event
  sound_stop sound_refuse sound_persist : keeps_db.
#[local] Hint Extern 1 (keeps _ (conclude_with _ _ _ _ _ (report_of _ _ _) _)) =>
  apply sound_conclude_with, crossed_no_result; done : keeps_db.
#[local] Hint Extern 1 (keeps _ (conclude _ _ _ _ _ (report_of _ _ _))) =>
  apply sound_conclude_with, crossed_no_result; done : keeps_db.

(** ** An attempt *)

Section attempt.
Context (run_id : uuid) (dry_run : bool) (action : AgentAction).
Context (Hin : action ∈ cp_actions plan).

(** What may be said of the report that an attempt under [egress] returns. *)
Definition pending (egress : option B) (report : ActionReport B) : Prop :=
  ar_action_id report = aa_action_id action
  ∧ ∀ result_, ar_result report = Some result_ →
      authorised_egress action egress
      ∧ (ar_egress report = None ∨ ar_egress report = egress)
      ∧ (ar_state report = VERIFIED → ar_egress report = egress
         ∧ ∀ b, egress = Some b → ∃ raw, sanitize_provider_result raw b = Ok result_).

Lemma pending_crossed egress report : pending egress report → crossed (hide_failed_read egress report).
Proof using Hin.
  intros [Hid Hp] result_ Hr. exists action. split; [done|].
  unfold hide_failed_read in *. destruct egress as [e|].
  - case_bool_decide as Es; [|done]. destruct (Hp _ Hr) as (Ha&_&Hv).
    destruct (Hv Es) as [Ee Hs]. rewrite Ee. split; [done|]. split; [done|].
    intros b [= <-]. split; [done|]. by apply Hs.
  - destruct (Hp _ Hr) as (Ha&Ho&_). assert (ar_egress report = None) as -> by (by destruct Ho).
    by split_and!.
Qed.

(** Before the authorisation there is no result; after it, it does not change. *)
Definition before (egress : option B) (result_ : option ExecutionResult) : Prop := result_ = None.
Definition under (e : option B) (egress : option B) (result_ : option ExecutionResult) : Prop :=
  egress = e.
#[local] Hint Extern 1 (keeps _ (assign _)) => apply sound_assign; done : keeps_db.

Lemma under_result e f : keeps (sound (under e)) (assign (set_result f)).
Proof. by intros s. Qed.
#[local] Hint Resolve under_result : keeps_db.

Lemma sound_executed X item :
  item_ok item → keeps (sound X) (assign (set_executed (λ l, l ++ [item]))).
Proof.
  intros Hi s (H1&H2&H3). split_and!; [done| |done]. cbn.
  apply Forall_app_2; [done|]. by apply Forall_singleton.
Qed.

Lemma sound_claim X connector : keeps (sound X) (claim_key env self run_id plan dry_run action connector).
Proof.
  unfold claim_key, reuse_completed, resolve_indeterminate, reconcile. keep.
Qed.

Definition left (egress : option B) (result_ : option ExecutionResult) : Prop :=
  result_ = None ∨ authorised_egress action egress.

Lemma pending_failed e st message r :
  left e r → st ≠ VERIFIED → pending e (with_result (report_of action st message) r None).
Proof.
  intros Hl Hs. split; [done|]. intros result_ Hr. cbn in Hr.
  destruct Hl as [?|Ha]; [congruence|]. split; [done|]. split; [by left|]. intros Hv. by destruct Hs.
Qed.

(** The repeated check either fails or puts a sanitized result in place. *)
Lemma gives_recheck e connector r :
  gives (sound (under (Some e))) (recheck_egress self plan action connector r e)
    (λ o s', o = None → ∃ raw sanitized, sanitize_provider_result raw e = Ok sanitized
       ∧ rv_result (rs_vars s') = Some sanitized).
Proof.
  unfold recheck_egress. apply gives_try; [|intros x k E; case_match; simplify_eq; by apply gives_ret].
  apply gives_bind; [keep|]. intros [ok reason]. do 3 (apply gives_bind; [keep|]; intros ?).
  eapply gives_seq; [apply gives_lift|]. intros sanitized s Hs Es.
  apply wp_bind. split; [by apply under_result|]. intros _. by exists r, sanitized.
Qed.

Lemma gives_verified e connector verification :
  authorised_egress action e →
  gives (sound (under e)) (verified_report env self plan action connector verification)
    (λ r _, pending e r).
Proof.
  intros Ha. unfold verified_report. intros s Hs. apply wp_bind, wp_get.
  assert (rv_egress (rs_vars s) = e) as -> by apply Hs.
  apply wp_bind, wp_get. apply wp_bind. apply wp_lift; [|done]. intros result_ Er.
  apply or_raise_Ok in Er. apply wp_bind.
  assert (wp (match e with Some e0 => recheck_egress self plan action connector result_ e0
              | None => mret None end)
    (λ o s', sound (under e) s' ∧ (o = None → ∀ b, e = Some b → ∃ raw sanitized,
       sanitize_provider_result raw b = Ok sanitized ∧ rv_result (rs_vars s') = Some sanitized))
    (λ _ s', sound (under e) s') s) as Hw.
  { destruct e as [e|]; [|by split].
    eapply wp_mono; [by apply gives_recheck| |done]. intros o s' [Hs' Ho]. split; [done|].
    intros En b [= <-]. auto. }
  eapply wp_mono; [exact Hw| |done]. intros recheck s1 [Hs1 Ho]. apply wp_bind, wp_get.
  set (report := with_result _ _ _).
  assert (pending e report) as Hp.
  { split; [done|]. intros res Hres. split; [done|]. split; [by right|]. intros Hv. split; [done|].
    intros b ->. destruct recheck; [done|].
    destruct (Ho eq_refl b eq_refl) as (raw&sanitized&E1&E2). exists raw.
    cbn in Hres. rewrite E2 in Hres. by injection Hres as <-. }
  clearbody report. generalize (rv_result (rs_vars s1)) as result'. intros result'.
  clear Ho. revert s1 Hs1.
  apply (gives_bind (sound (under e)) _ _ (λ r _, pending e r)).
  - unfold idempotency_record. keep.
  - intros _. by apply gives_ret.
Qed.

Lemma gives_dispatch_pending e connector budget :
  authorised_egress action e →
  resolve (wo_connectors self) (rr_system (aa_target action)) (Some (aa_capability action))
    = Ok connector →
  gives (sound (under e)) (dispatch env self run_id plan action connector budget)
    (λ r _, pending e r).
Proof using Hin.
  intros Ha Hc. unfold dispatch. apply gives_bind; [keep|]. intros r.
  apply gives_bind.
  { unfold retain_effect. keep. apply sound_executed. to_prop. by split_and!. }
  intros r'. unfold verify_effect.
  do 2 (apply gives_bind; [keep|]; intros ?). case_match; [|by apply gives_verified].
  unfold unverified_report. do 2 (apply gives_bind; [keep|]; intros ?).
  apply gives_ret. intros s. by apply pending_failed; [right|].
Qed.

(** What an attempt leaves besides: a report that may be concluded. *)
Definition attempt_pending (o : option (ActionReport B)) (s : run_state) : Prop :=
  ∀ report, o = Some report → pending (rv_egress (rs_vars s)) report.

Lemma sound_weaken (X Y : option B → option ExecutionResult → Prop) s :
  (∀ e r, X e r → Y e r) → sound X s → sound Y s.
Proof. intros HXY (H1&H2&H3). split_and!; auto. Qed.

Lemma sound_any X s : sound X s → sound (λ _ _, True) s.
Proof. by apply sound_weaken. Qed.

(** From a stronger invariant to a weaker one. *)
Lemma wp_weaken {A'} (X Y : option B → option ExecutionResult → Prop) (m : run W B A') Q Q' s :
  (∀ e r, X e r → Y e r) → gives (sound X) m Q → sound X s →
  (∀ a s', sound X s' → Q a s' → Q' a s') →
  wp m (λ a s', sound Y s' ∧ Q' a s') (λ _ s', sound Y s') s.
Proof.
  intros HXY Hm Hs HQ. eapply wp_mono; [by apply Hm| |].
  - intros a s' [Hs' Ha]. split; [by eapply sound_weaken|auto].
  - intros e s' Hs'. by eapply sound_weaken.
Qed.

(** The rest of the attempt, once its egress is settled. *)
Lemma wp_permitted e connector s :
  authorised_egress action e →
  resolve (wo_connectors self) (rr_system (aa_target action)) (Some (aa_capability action))
    = Ok connector →
  sound (under e) s →
  wp (record_egress env run_id plan action;;
      budget ← lift (connector_http_action_budget connector);
      proceed ← (if uses_idempotency action
                 then claim_key env self run_id plan dry_run action connector else mret true);
      if negb (proceed : bool) then mret None
      else
        pre_effect_guard self action;;
        report ← dispatch env self run_id plan action connector budget;
        mret (Some report))
    (λ o s', sound left s' ∧ attempt_pending o s') (λ _ s', sound left s') s.
Proof using Hin.
  intros Ha Hc Hs.
  eapply wp_weaken with (X := under e) (Q := λ o _, ∀ report, o = Some report → pending e report);
    [intros e' r ->; by right| |exact Hs|].
  - apply gives_bind; [unfold record_egress; keep|]. intros _. apply gives_bind; [keep|].
    intros budget. apply gives_bind; [keep; apply sound_claim|]. intros [] ; cbn [negb];
      [|by apply gives_ret].
    apply gives_bind; [unfold pre_effect_guard; keep|]. intros _.
    eapply gives_then; [by apply gives_dispatch_pending|]. cbn beta. intros report Hr.
    apply gives_ret. by intros _ r [= <-].
  - intros o s' (_&_&Eu) Ho. unfold under in Eu. unfold attempt_pending. by rewrite Eu.
Qed.

Lemma wp_attempt_pending s :
  sound before s →
  wp (attempt env self run_id plan dry_run action)
    (λ o s', sound left s' ∧ attempt_pending o s') (λ _ s', sound left s') s.
Proof using Hin.
  assert (∀ e r, before e r → left e r) as Hw by (intros e r ->; by left).
  intros Hs. unfold attempt. apply wp_bind. apply wp_lift; [|intros ? _; by eapply sound_weaken].
  intros connector Hc. apply wp_bind.
  eapply wp_mono; [apply (proj1 (keeps_wp (sound before) _)); [by apply sound_assign|exact Hs]| |
    intros; by eapply sound_weaken].
  intros ? s1 Hs1. apply wp_bind. apply wp_lift; [|intros ? _; by eapply sound_weaken].
  assert (∀ message s', sound before s' → wp (refuse env self run_id plan dry_run action PROHIBITED message;; mret None)
    (λ o s', sound left s' ∧ attempt_pending o s') (λ _ s', sound left s') s') as Hrefuse.
  { intros message s' Hs'. eapply (wp_weaken before) with (Q := λ o _, o = None); [done| |exact Hs'|].
    - apply gives_bind; [keep|]. intros _. by apply gives_ret.
    - by intros ? s2 _ -> report. }
  intros [[] reason] _; cbn [negb]; [|by apply Hrefuse].
  apply wp_bind. unfold authorize_egress. apply wp_try.
  apply wp_bind. apply wp_lift.
  - intros e He. apply wp_bind. unfold wp at 1, assign. apply wp_ret.
    apply (wp_permitted e); [by exists connector|done|]. by destruct Hs1 as (?&?&_).
  - intros x _. destruct x; try by eapply sound_weaken. apply wp_ret. by apply Hrefuse.
Qed.

Lemma gives_get {A'} X (f : run_vars W B → A') :
  gives (sound X) (get f) (λ a s, a = f (rs_vars s)).
Proof. intros s Hs. by apply wp_get. Qed.

Definition failed_report (r : option ExecutionResult) (report : ActionReport B) : Prop :=
  ∃ st message, st ≠ VERIFIED ∧ report = with_result (report_of action st message) r None.

(** The two failure handlers read the result and persist the outcome. *)
Lemma gives_failed_report e r (rest : option ExecutionResult → run W B (ActionReport B)) :
  left e r →
  (∀ X, gives (sound X) (rest r) (λ report _, failed_report r report)) →
  gives (sound (λ e' r', e' = e ∧ r' = r)) (result_ ← get rv_result; rest result_)
    (λ report _, pending e report).
Proof.
  intros Hl Hrest. eapply gives_seq; [apply gives_get|]. intros r' s Hs Er.
  assert (r' = r) as -> by (destruct Hs as (_&_&_&?); congruence).
  eapply gives_mono; [apply Hrest| |exact Hs].
  intros report s' _ (st&message&Hst&->). by apply pending_failed.
Qed.

Lemma gives_certified X st message after_effect r :
  st ≠ VERIFIED →
  gives (sound X)
    (claim_token ← get rv_claim_token;
     connector ← get rv_connector;
     persisted ← match r, claim_token with
                 | None, None => mret true
                 | None, Some _ =>
                     persist_idempotency_outcome env action claim_token true message None connector
                 | Some r, Some _ =>
                     persist_idempotency_outcome env action claim_token false message (Some r)
                       connector;; mret false
                 | Some _, None => mret false
                 end;
     mret (with_result
       (report_of action (if (persisted : bool) then st else INDETERMINATE)
          (message +:+ (if persisted then ""
                        else if is_someb r then after_effect
                        else "; durable failure outcome could not be recorded"))) r None))
    (λ report _, failed_report r report).
Proof.
  intros Hst. do 3 (apply gives_bind; [keep|]; intros ?). apply gives_ret. intros s.
  eexists _, _. split; [|done]. by case_match.
Qed.

Lemma gives_uncertain X x r :
  gives (sound X)
    (claim_token ← get rv_claim_token;
     connector ← get rv_connector;
     persisted ← persist_idempotency_outcome env action claim_token false (described x) r connector;
     mret (with_result
       (report_of action (if is_someb r || is_someb claim_token then INDETERMINATE else FAILED)
          (described x +:+ (if (persisted : bool) then ""
                            else "; durable outcome could not be finalized"))) r None))
    (λ report _, failed_report r report).
Proof.
  do 3 (apply gives_bind; [keep|]; intros ?). apply gives_ret. intros s.
  eexists _, _. split; [|done]. by case_match.
Qed.

Lemma wp_failure_pending x m s :
  attempt_failure env action x = Some m → sound left s →
  wp m (λ o s', sound left s' ∧ attempt_pending o s') (λ _ s', sound left s') s.
Proof.
  intros E Hs. set (e := rv_egress (rs_vars s)). set (r := rv_result (rs_vars s)).
  assert (left e r) as Hl by apply Hs.
  assert (∀ m', gives (sound (λ e' r', e' = e ∧ r' = r)) m' (λ report _, pending e report) →
    wp (report ← m'; mret (Some report))
      (λ o s', sound left s' ∧ attempt_pending o s') (λ _ s', sound left s') s) as Hm.
  { intros m' Hm'. eapply (wp_weaken (λ e' r', e' = e ∧ r' = r)) with
      (Q := λ o _, ∀ report, o = Some report → pending e report); [by intros ?? [-> ->]| | |].
    - eapply gives_then; [exact Hm'|]. intros report Hr. apply gives_ret. by intros _ ? [= <-].
    - destruct Hs as (H1&H2&_). by split_and!.
    - intros o s' (_&_&Ee&_) Ho. unfold attempt_pending. by rewrite Ee. }
  unfold attempt_failure in E.
  destruct x; simplify_eq/=; apply Hm; apply gives_failed_report; try done; intros X;
    first [by apply gives_certified|apply gives_uncertain].
Qed.

Lemma sound_execute :
  keeps (sound (λ _ _, True)) (execute_permitted env self run_id plan dry_run action).
Proof using Hin.
  apply keeps_wp. intros s Hs. unfold execute_permitted. apply wp_bind. unfold wp at 1, assign.
  set (s1 := mk_run_state _ _ _ _ _).
  assert (sound before s1) as Hs1 by (destruct Hs as (?&?&_); by split_and!).
  clearbody s1. apply wp_bind.
  assert (wp (try_except (attempt env self run_id plan dry_run action) (attempt_failure env action))
    (λ o s', sound left s' ∧ attempt_pending o s') (λ _ s', sound left s') s1) as Hw.
  { apply wp_try. eapply wp_mono; [by apply wp_attempt_pending|done|]. intros x s2 Hs2.
    destruct (attempt_failure env action x) as [m|] eqn:E; [by eapply wp_failure_pending|done]. }
  eapply wp_mono; [exact Hw| |intros ??; apply sound_any].
  intros o s2 [Hs2 Ho]. apply sound_any in Hs2.
  destruct o as [report|]; [|done]. apply wp_bind, wp_get.
  specialize (Ho report eq_refl). apply pending_crossed in Ho.
  apply (proj1 (keeps_wp (sound (λ _ _, True)) _)); [|done].
  apply keeps_bind; [by apply sound_conclude_with|]. intros _. keep.
Qed.
End attempt.

(** ** The run *)

#[local] Hint Resolve sound_execute : keeps_db.

Lemma sound_process run_id approvals dry_run required action :
  action ∈ cp_actions plan →
  keeps (sound (λ _ _, True)) (process_action env self run_id plan approvals dry_run required action).
Proof.
  intros Hin. unfold process_action, review_required, decide_action, failed_dependencies. keep.
  apply sound_conclude_with, crossed_no_result. by case_match.
Qed.
End crossing.

Lemma sound_run {A P B W : Type} `{Authenticator A} `{ProviderEgress P B} env
    (self : WorkflowOrchestrator (A := A) (P := P) (W := W)) plan approvals dry_run db w :
  let s' := (run_internal env self plan approvals dry_run (start db w)).2 in
  rv_reports (rs_vars s') = []
  ∨ ∃ p, execution_snapshot plan = Ok p ∧ Forall (crossed self p) (rv_reports (rs_vars s')).
Proof.
  apply (wp_state (run_internal env self plan approvals dry_run) (λ s',
    rv_reports (rs_vars s') = []
    ∨ ∃ p, execution_snapshot plan = Ok p ∧ Forall (crossed self p) (rv_reports (rs_vars s')))
    (start db w)).
  apply wp_bind. eapply wp_mono; [apply wp_admit_plan| |intros x s1 [_ Ev]; left; by rewrite Ev].
  intros [[[p x] d] required] s1 ([Hp _]&_&_&_&Ev). cbn [fst snd] in Hp.
  destruct (plan_order p) as (ordered&Eo&Hperm&_); [by apply (execution_snapshot_sound plan)|].
  assert (sound self p (λ _ _, True) s1) as Hs1 by (unfold sound; rewrite Ev; by split_and!).
  eapply wp_mono with (Q := λ _ s', sound self p (λ _ _, True) s')
    (E := λ _ s', sound self p (λ _ _, True) s').
  2,3: intros ? s' Hs'; right; exists p; split; [exact Hp|apply Hs'].
  clear Ev. revert s1 Hs1. apply keeps_wp.
  apply keeps_bind; [apply sound_uuid4|]. intros run_id. apply keeps_wp. intros s1 Hs1.
  apply wp_bind. apply wp_lift; [|by intros]. intros ordered' Eo'.
  assert (ordered' = ordered) as -> by congruence.
  revert s1 Hs1. apply keeps_wp. apply keeps_bind; [apply sound_event|]. intros _.
  apply keeps_bind.
  { apply keeps_for_each. intros action Ha. apply sound_process. by rewrite <-Hperm. }
  intros _. apply keeps_bind; [apply keeps_get|]. intros reports.
  apply keeps_bind; [apply keeps_lift|]. intros review.
  apply keeps_bind; [apply sound_event|]. intros _. apply keeps_ret.
Qed.

(** Provider data leaves a run only across the boundary.  Every result that a
    run reports, whatever happened in it, is that of an action of its plan,
    reported with exactly the egress authorisation that this action needs with
    the connector its target resolves to.  If it needs one, the action is
    verified and the reported result is what the sanitizing of a provider
    result under this very authorisation returned. *)
Lemma results_cross_the_boundary {A P B W : Type} `{Authenticator A} `{ProviderEgress P B}
    env (self : WorkflowOrchestrator (A := A) (P := P) (W := W)) plan approvals dry_run db (w : W)
    report result_ :
  report ∈ rv_reports (rs_vars (run_internal env self plan approvals dry_run (start db w)).2) →
  ar_result report = Some result_ →
  ∃ p action, execution_snapshot plan = Ok p ∧ action ∈ cp_actions p
    ∧ aa_action_id action = ar_action_id report
    ∧ authorised_egress self p action (ar_egress report)
    ∧ ∀ b, ar_egress report = Some b →
        ar_state report = VERIFIED ∧ ∃ raw, sanitize_provider_result raw b = Ok result_.
Proof.
  intros Hin Hr. destruct (sound_run env self plan approvals dry_run db w) as [E|(p&Hp&Hall)].
  { rewrite E in Hin. by apply elem_of_nil in Hin. }
  rewrite Forall_forall in Hall. destruct (Hall _ Hin _ Hr) as (action&H1&H2&H3&H4).
  exists p, action. by split_and!.
Qed.

(** When an action needs no authorisation. *)
Lemma authorised_egress_none {A P B W : Type} `{ProviderEgress P B}
    (self : WorkflowOrchestrator (A := A) (P := P) (W := W)) p action capabilities :
  wo_capabilities self = Some capabilities → authorised_egress self p action None →
  aa_risk action ≠ READ_ONLY
  ∨ ∃ d, catalog_definition capabilities (aa_capability action) = Ok d
      ∧ cap_authentication d = "local".
Proof.
  intros Ec (connector&_&Hb). unfold provider_data_egress_binding in Hb. rewrite Ec in Hb.
  case_bool_decide as Er; [|by left]. cbn [negb] in Hb. right.
  apply bind_Ok in Hb as (d & Hd & Hb). exists d. split; [done|].
  destruct (cap_authentication d =? "local")%string eqn:El; [by apply String.eqb_eq|].
  by inv_ok.
Qed.

Lemma authorised_egress_some {A W : Type}
    (self : WorkflowOrchestrator (A := A) (P := ProviderDataEgressPolicy) (W := W)) p action b :
  authorised_egress self p action (Some b) →
  ∃ governance policy d connector,
    wo_governance self = Some governance ∧ gp_model_context governance = Some policy
    ∧ bind_egress policy action d (execution_connector_binding p action) AUDITED
        (is_someb (implemented_audit_sink (gp_audit_sink governance)))
        (if con_is_mock (connector : Connector W) then "mock" else "live") = Ok b.
Proof.
  intros (connector&_&Hb). unfold provider_data_egress_binding in Hb.
  case_match; [done|]. destruct (wo_capabilities self) as [capabilities|].
  2: by case_match.
  apply bind_Ok in Hb as (d & Hd & Hb). case_match; [done|].
  apply bind_Ok in Hb as (governance & Hg%or_raise_Ok & Hb).
  apply bind_Ok in Hb as (policy & Hp%or_raise_Ok & Hb).
  apply bind_Ok in Hb as (b' & Hb' & Hb). injection Hb as ->.
  by exists governance, policy, d, connector.
Qed.

(** What a sanitized result is. *)
Lemma sanitize_result_Ok b raw r :
  sanitize_result b raw = Ok r →
  er_before r = None ∧ er_compensation r = None
  ∧ ∃ value out, er_after raw = Some value ∧ er_after r = Some out
      ∧ sanitize_provider_mapping b value = Ok out.
Proof.
  unfold sanitize_result. intros H. apply bind_Ok in H as ([] & _ & H).
  apply bind_Ok in H as (value & Hv%or_raise_Ok & H). apply bind_Ok in H as (out & Ho & H).
  apply bind_Ok in H as (reference & _ & H).
  apply ExecutionResult_post_init_Ok in H as (_&_&->). split; [done|]. split; [done|].
  by exists value, out.
Qed.

(** C16: A run returns provider data only within the contract it was authorised
    for.  With the boundary of [provider_egress] in place and a capability
    catalog, whatever connectors, policy and approvals a run has, and however it
    ends, every result it reports is that of an action of its plan that is no
    read, or whose capability is local, or else of a verified read: its report
    carries the binding that the organization's policy gives this action on the
    audited route, and its content, with no prior state and no compensation, is
    confined to the contract of that binding. *)
Theorem provider_reads_confined {A W : Type} `{Authenticator A} env
    (self : WorkflowOrchestrator (A := A) (P := ProviderDataEgressPolicy) (W := W))
    capabilities plan approvals dry_run db (w : W) report result_ :
  wo_capabilities self = Some capabilities →
  report ∈ rv_reports (rs_vars (run_internal env self plan approvals dry_run (start db w)).2) →
  ar_result report = Some result_ →
  ∃ p action, execution_snapshot plan = Ok p ∧ action ∈ cp_actions p
    ∧ aa_action_id action = ar_action_id report
    ∧ ((ar_egress report = None
        ∧ (aa_risk action ≠ READ_ONLY
           ∨ ∃ d, catalog_definition capabilities (aa_capability action) = Ok d
               ∧ cap_authentication d = "local"))
       ∨ ∃ b governance policy d mode out,
           ar_egress report = Some b ∧ ar_state report = VERIFIED
           ∧ wo_governance self = Some governance ∧ gp_model_context governance = Some policy
           ∧ bind_egress policy action d (execution_connector_binding p action) AUDITED
               (is_someb (implemented_audit_sink (gp_audit_sink governance))) mode = Ok b
           ∧ er_before result_ = None ∧ er_compensation result_ = None
           ∧ er_after result_ = Some out ∧ within_contract b out).
Proof.
  intros Hc Hin Hr.
  destruct (results_cross_the_boundary _ _ _ _ _ _ _ _ _ Hin Hr) as (p&action&Hp&Ha&Hid&He&Hs).
  exists p, action. split; [exact Hp|]. split; [exact Ha|]. split; [exact Hid|].
  destruct (ar_egress report) as [b|] eqn:Eb.
  - right. destruct (Hs b eq_refl) as (Hv&raw&Hraw).
    apply sanitize_result_Ok in Hraw as (H1&H2&value&out&_&H3&H4).
    apply authorised_egress_some in He as (governance&policy&d&connector&Hg&Hpol&Hbind).
    pose proof (bind_egress_Ok _ _ _ _ _ _ _ _ Hbind)
      as (_&_&_&_&_&_&_&_&_&_&_&_&_&_&_&Hwf%post_init_contract).
    exists b, governance, policy, d, (if con_is_mock connector then "mock" else "live"), out.
    do 7 (split; [done|]). split; [exact H3|]. by eapply sanitized_within.
  - left. split; [reflexivity|]. exact (authorised_egress_none _ _ _ _ Hc He).
Qed.

Lemma read_run_reports :
  match rv_reports (rs_vars read_run.2) with
  | [report] => is_someb (ar_result report) && is_someb (ar_egress report)
  | _ => false
  end = true.
Proof. check. Qed.

Lemma provider_reads_confined_witness :
  ∃ report result_ b out, rv_reports (rs_vars read_run.2) = [report]
    ∧ ar_result report = Some result_ ∧ ar_egress report = Some b
    ∧ er_after result_ = Some out ∧ within_contract b out.
Proof.
  pose proof read_run_reports as Hr. unfold read_run in *.
  destruct (rv_reports _) as [|report [|]] eqn:E; [discriminate Hr| |discriminate Hr].
  destruct (ar_result report) as [result_|] eqn:Er; [|discriminate Hr].
  destruct (ar_egress report) as [b|] eqn:Eb; [|discriminate Hr].
  assert (report ∈ rv_reports (rs_vars (run_internal (run_env 5000) read_orchestrator
    (ok_or read_run_plan sample_plan) [] false (start (initialize empty_database) tt)).2)) as Hin
    by (rewrite E; left).
  destruct (provider_reads_confined (run_env 5000) read_orchestrator read_catalog _ _ _ _ _ _ _
    eq_refl Hin Er) as (p&action&_&_&_&[[En _]|(b'&_&_&_&_&out&Eb'&_&_&_&_&_&_&Ho&Hw)]).
  - exfalso. congruence.
  - exists report, result_, b, out. split; [reflexivity|]. split; [exact Er|]. split; [exact Eb|].
    split; [exact Ho|]. assert (b' = b) as <- by congruence. exact Hw.
Defined.
