(* ===== verification/CompensationTheorems.v ===== *)
(** * CompensationTheorems: properties of corrective plans

    A compensation plan undoes every reported reversible effect, in reverse
    order, or is not built; every corrective plan is accepted by the check
    before execution and none of its actions runs without approval. *)

From S2P Require Import Prelude PyText PyJson PyHash PyTime PyStd ResourceLimits JsonCanonical.
From S2P Require Import ModelsBase PlatformIdentity ModelsSystems ModelsReviews ModelsAction ModelsPlan.
From S2P Require Import ModelsResults Approvals Policy PlannerGate Canonical RunMonad Orchestrator.
From S2P Require Import Compensation Samples PlanTheorems PolicyTheorems CanonicalTheorems PlannerTheorems OrderTheorems.

Open Scope Z_scope.

(** ** Order *)

(** Actions that come after their dependencies are left in their order. *)
Lemma topological_order_sorted actions :
  NoDup (map aa_action_id actions) → dependencies_first actions →
  topological_order actions = Ok actions.
Proof.
  intros Hn Hf. unfold topological_order.
  assert (∀ post pre, actions = pre ++ post →
    visit_actions actions (S (length actions)) pre post = Ok actions) as H; [|by apply (H actions [])].
  induction post as [|a post IH]; intros pre E; [by rewrite E, app_nil_r|].
  cbn [visit_actions visit_action]. rewrite bool_decide_false; last first.
  { intros Hin. rewrite E, map_app in Hn. apply NoDup_app in Hn as (_&Hd&_).
       apply (Hd _ Hin). by left. }
  assert (∀ ds, (∀ d, d ∈ ds → d ∈ done_ids pre) →
    visit_dependencies actions (visit_action actions (length actions)) pre ds = Ok pre) as Hds.
  { induction ds as [|d ds IHd]; intros Hd; [done|]. cbn [visit_dependencies].
    assert (d ∈ done_ids pre) as (b&->&Hb)%list_elem_of_fmap by (apply Hd; by left). unfold action_by_id.
    assert (find_action actions (aa_action_id b) = Some b) as ->.
    { apply find_action_spec; [done|]. split; [|done]. rewrite E. apply elem_of_app. by left. }
    mstep. destruct (length actions) eqn:El; [rewrite E, length_app in El; simpl in El; lia|].
    cbn [visit_action]. rewrite bool_decide_true by (apply list_elem_of_fmap; eauto). mstep.
    apply IHd. intros e He. apply Hd. by right. }
  rewrite Hds by (intros d; by apply (Hf pre a post)).
  mstep. apply IH. by rewrite <- (assoc_L (++)).
Qed.

(** Each action depends on the one before it, the first on [previous]. *)
Fixpoint chained (previous : option uuid) (l : list AgentAction) : Prop :=
  match l with
  | [] => True
  | a :: l => aa_dependencies a = option_list previous ∧ chained (Some (aa_action_id a)) l
  end.

Lemma chained_first l : chained None l → dependencies_first l.
Proof.
  assert (∀ pre a post prev, chained prev (pre ++ a :: post) → ∀ d, d ∈ aa_dependencies a →
    prev = Some d ∨ d ∈ done_ids pre) as H.
  { induction pre as [|b pre IH]; intros a post prev; simpl.
    - intros [-> _] d Hd. destruct prev; simpl in Hd; [|by apply elem_of_nil in Hd].
      left. by apply list_elem_of_singleton in Hd as ->.
    - intros [_ Hc] d Hd. right. destruct (IH _ _ _ Hc d Hd) as [[= ->]|Hin]; [by left|by right]. }
  intros Hc pre a post -> d Hd. by destruct (H _ _ _ _ Hc d Hd).
Qed.

(** ** Governance *)

Lemma new_plan_Ok goal actions created_by plan_id now plan :
  new_plan goal actions created_by plan_id now = Ok plan →
  plan_sound plan ∧ cp_actions plan = actions.
Proof.
  unfold new_plan. intros H. apply ChangePlan_post_init_id in H as E. subst plan.
  split; [by apply ChangePlan_post_init_sound|done].
Qed.

(** The governance bound to a correction is the gate's own decision on it. *)
Lemma bind_correction_Ok plan c s m f p :
  bind_correction_governance plan c s m f = Ok p →
  cp_actions p = cp_actions plan
  ∧ ∃ assessment d q, p = set_trusted true q
      ∧ gate_evaluate default_gate q assessment = Ok d ∧ sd_permitted d = true
      ∧ cp_systems_assessment q = Some assessment ∧ cp_systems_decision q = Some d
      ∧ sa_added_complexity assessment = [].
Proof.
  unfold bind_correction_governance, SystemsAssessment_for_static_intervention,
    bind_static_intervention_governance. intros H. inv_ok.
  rename select (SystemsAssessment_post_init _ = Ok _) into Ha.
  apply SystemsAssessment_post_init_id in Ha as Ea.
  rename select (bind_systems_governance _ _ _ = Ok _) into Hb.
  rename select (replace_governance _ _ _ _ _ = Ok _) into Hr.
  unfold replace_governance in Hr. apply ChangePlan_post_init_id in Hr as Er.
  split; [|apply bind_systems_governance_Ok in Hb as (d&Hg&Hp&Hsa&Hsd);
    do 3 eexists; split; [done|]; split_and!; try done; by rewrite Ea].
  revert Hb. unfold bind_systems_governance, replace_governance. intros Hb. inv_ok.
  apply ChangePlan_post_init_id in Hb as ->. by rewrite Er.
Qed.

(** ** The reversible effects of a run *)

Section effects.
Context {B : Type} (original : ChangePlan) (fresh : nat → uuid).

(** The report names an action of the plan, if it reports an effect. *)
Definition effect_known (item : ActionReport B) : Prop :=
  is_Some (ar_result item) → is_Some (find_action (cp_actions original) (ar_action_id item)).

(** The reversible write a report says was applied, with its result. *)
Definition reversible_effect (item : ActionReport B) : option (AgentAction * ExecutionResult) :=
  result_ ← ar_result item;
  source ← find_action (cp_actions original) (ar_action_id item);
  if bool_decide (aa_risk source = REVERSIBLE_WRITE) then Some (source, result_) else None.

(** [action] is the reverse operation that the connector described when it
    applied the effect, on the resource of the effect. *)
Definition undoes (effect : AgentAction * ExecutionResult) (action : AgentAction) : Prop :=
  ∃ descriptor, er_compensation effect.2 = Some descriptor ∧ cd_mode descriptor = PLAN
    ∧ cd_capability descriptor = Some (aa_capability action)
    ∧ aa_parameters action = cd_parameters descriptor
    ∧ aa_target action = mk_ResourceRef (rr_system (aa_target effect.1))
        (rr_resource_type (aa_target effect.1))
        (text_or (cd_target_resource_id descriptor) (rr_resource_id (aa_target effect.1)))
        (cd_expected_version descriptor)
    ∧ aa_risk action = REVERSIBLE_WRITE ∧ aa_authority_source action = DIRECT_USER
    ∧ aa_requires_approval action = true
    ∧ aa_idempotency_key action = "compensate:" +:+ ChangePlan_fingerprint original +:+ ":"
        +:+ uuid_str (aa_action_id effect.1) +:+ ":" +:+ aa_capability action.

Lemma reverse_action_Ok source result_ descriptor prev i a :
  reverse_action original source descriptor prev i = Ok a →
  er_compensation result_ = Some descriptor → cd_mode descriptor = PLAN →
  undoes (source, result_) a ∧ aa_action_id a = i ∧ aa_dependencies a = option_list prev.
Proof.
  unfold reverse_action. intros H Hd Hm. apply bind_Ok in H as (t & Ht & H).
  apply ResourceRef_post_init_id in Ht. apply AgentAction_post_init_id in H as Ea.
  assert (is_Some (cd_capability descriptor)) as [c Hc].
  { unfold AgentAction_post_init in H. destruct (cd_capability descriptor); [eauto|]. by inv_ok. }
  rewrite Hc in *. cbn [default from_option id] in *. subst a t.
  split; [|done]. exists descriptor. by split_and!.
Qed.

(** What the loop adds to its variables. *)
Lemma draft_all_Ok items st st' :
  draft_all original fresh st items = Ok st' →
  ∃ actions why, compensation_actions st' = compensation_actions st ++ actions
    ∧ unavailable st' = unavailable st ++ why
    ∧ (why = [] → Forall effect_known items ∧ Forall2 undoes (omap reversible_effect items) actions
        ∧ chained (previous st) actions).
Proof.
  revert st. induction items as [|item items IH]; intros st H.
  { injection H as <-. exists [], []. by rewrite !app_nil_r. }
  cbn [draft_all] in H. apply bind_Ok in H as (st1 & H1 & H).
  apply IH in H as (actions & why & Ea & Ew & Hall). clear IH.
  assert (∀ w, st1 = not_available item w st → ∃ actions' why',
    compensation_actions st' = compensation_actions st ++ actions'
    ∧ unavailable st' = unavailable st ++ why' ∧ why' ≠ []) as Hno.
  { intros w ->. exists actions, ([uuid_str (ar_action_id item) +:+ ": " +:+ w] ++ why).
    cbn [unavailable not_available] in Ew. rewrite Ew, <- (assoc_L (++)). by split_and!. }
  assert (∀ P, (∃ actions' why', compensation_actions st' = compensation_actions st ++ actions'
    ∧ unavailable st' = unavailable st ++ why' ∧ why' ≠ []) → ∃ actions' why',
    compensation_actions st' = compensation_actions st ++ actions'
    ∧ unavailable st' = unavailable st ++ why' ∧ (why' = [] → P actions')) as Hno'.
  { intros P (a'&w'&?&?&?). exists a', w'. split_and!; naive_solver. }
  unfold draft_compensation in H1. cbn [omap list_omap]. unfold reversible_effect at 1.
  destruct (ar_result item) as [result_|] eqn:Er; cbn [mbind option_bind].
  2: { injection H1 as <-. exists actions, why. split_and!; [done..|]. intros E.
       destruct (Hall E) as (?&?&?). split_and!; try done. constructor; [|done].
       unfold effect_known. rewrite Er. by intros []. }
  destruct (find_action _ _) as [source|] eqn:Ef; cbn [mbind option_bind].
  2: { injection H1 as <-. by eapply Hno', Hno. }
  assert (Forall effect_known items → Forall effect_known (item :: items)) as Hk
    by (constructor; [unfold effect_known; rewrite Ef|]; eauto).
  case_bool_decide as Hr; cbn [negb] in H1.
  2: { injection H1 as <-. exists actions, why. split_and!; [done..|]. intros E.
       destruct (Hall E) as (?&?&?). split_and!; auto. }
  destruct (er_compensation result_) as [descriptor|] eqn:Ed;
    [|injection H1 as <-; by eapply Hno', Hno].
  case_bool_decide as Hm; cbn [negb] in H1; [|injection H1 as <-; by eapply Hno', Hno].
  apply bind_Ok in H1 as (a & Ha & H1). injection H1 as <-.
  destruct (reverse_action_Ok _ _ _ _ _ _ Ha Ed Hm) as (Hu&Hi&Hdep).
  exists (a :: actions), why. cbn [compensation_actions unavailable previous] in *.
  rewrite Ea, <- (assoc_L (++)). split_and!; [done..|]. intros E.
  destruct (Hall E) as (?&?&?). split_and!; auto. by constructor.
Qed.

(** C14: Compensation is complete, reversed and ordered, or refused.  When
    [build_compensation_plan] returns a plan, every effect the run reports is of
    an action of the original plan; the plan's actions are, one for one, the
    connectors' reverse operations of all the reported reversible writes, the
    last effect first, each on the resource of its effect, with approval
    required and a key derived from the original plan; each depends on the one
    before it, and the orchestrator's dependency order is exactly this order.
    In particular there is at least one, and no reversible effect without a
    separately executable descriptor is silently left out. *)
Theorem compensation_plan_complete report created_by now p :
  build_compensation_plan original fresh report created_by now = Ok p →
  Forall effect_known (rr_actions report)
  ∧ Forall2 undoes (rev (omap reversible_effect (rr_actions report))) (cp_actions p)
  ∧ cp_actions p ≠ []
  ∧ chained None (cp_actions p)
  ∧ topological_order (cp_actions p) = Ok (cp_actions p).
Proof.
  unfold build_compensation_plan. intros H.
  apply bind_Ok in H as (st & Hst & H). apply draft_all_Ok in Hst as (actions&why&Ea&Ew&Hall).
  cbn [compensation_actions unavailable previous app] in *.
  apply bind_Ok in H as ([] & Hu%raise_if_Ok%negb_false_iff%is_nil_true & H).
  apply bind_Ok in H as ([] & Hne%raise_if_Ok%is_nil_false & H).
  apply bind_Ok in H as (plan & Hp & H). apply new_plan_Ok in Hp as [Hs Ep].
  apply bind_correction_Ok in H as [-> _]. rewrite Ep in *.
  destruct Hall as (Hk&H2&Hc); [congruence|]. rewrite Ea in *.
  apply Forall_rev in Hk. rewrite rev_involutive in Hk. split_and!; [done| |done|done|].
  - replace (rev (omap _ _)) with (omap reversible_effect (rev (rr_actions report))); [done|].
    clear. induction (rr_actions report) as [|x l IH]; [done|]. simpl.
    rewrite omap_app, IH. simpl. destruct (reversible_effect x); simpl; [done|by rewrite app_nil_r].
  - apply topological_order_sorted; [rewrite <- Ep; apply Hs|by apply chained_first].
Qed.
End effects.

(** ** Corrections of a message *)

Definition corrects (original_reference : string) (action : AgentAction) : Prop :=
  aa_risk action = EXTERNAL_COMMUNICATION ∧ aa_authority_source action = DIRECT_USER
  ∧ aa_requires_approval action = true ∧ aa_dependencies action = []
  ∧ rr_resource_id (aa_target action) = "correction:" +:+ original_reference.

Lemma correction_action_Ok capability system kind ref ps key why i a :
  correction_action capability system kind ref ps key why i = Ok a →
  corrects ref a ∧ aa_capability a = capability ∧ aa_parameters a = ps
  ∧ aa_idempotency_key a = key +:+ ref.
Proof.
  unfold correction_action. intros H. apply bind_Ok in H as (t & Ht & H).
  apply ResourceRef_post_init_id in Ht. apply AgentAction_post_init_id in H. by subst a t.
Qed.

(** One external communication, to be approved; sending the same correction
    again uses the same key. *)
Lemma outlook_correction_action ref to subject body by_ fresh now p :
  build_outlook_correction_plan ref to subject body by_ fresh now = Ok p →
  ∃ action, cp_actions p = [action] ∧ corrects ref action
    ∧ aa_capability action = "outlook.email.send"
    ∧ aa_idempotency_key action = "outlook-correction:" +:+ ref
    ∧ dict_get (aa_parameters action) "to" = str_list to
    ∧ dict_get (aa_parameters action) "body" = JStr body.
Proof.
  unfold build_outlook_correction_plan. intros H. apply bind_Ok in H as (a & Ha & H).
  apply bind_Ok in H as (plan & Hp & H). apply new_plan_Ok in Hp as [_ Ep].
  apply bind_correction_Ok in H as [-> _]. rewrite Ep.
  apply correction_action_Ok in Ha as (Hc&Hcap&Hps&Hk). exists a. rewrite Hps. by split_and!.
Qed.

(** The destination is kept, but for the text, its type and the correlation. *)
Lemma teams_correction_action ref body destination by_ fresh now p :
  build_teams_correction_plan ref body destination by_ fresh now = Ok p →
  ∃ action, cp_actions p = [action] ∧ corrects ref action
    ∧ teams_correction_capability destination = Ok (aa_capability action)
    ∧ aa_idempotency_key action = "teams-correction:" +:+ ref
    ∧ aa_parameters action
      = dict_set (dict_set (dict_set destination "body" (JStr body))
          "content_type" (JStr "text")) "correlation_id" (JStr ref).
Proof.
  unfold build_teams_correction_plan. intros H. apply bind_Ok in H as (c & Hd & H).
  apply bind_Ok in H as (a & Ha & H).
  apply bind_Ok in H as (plan & Hp & H). apply new_plan_Ok in Hp as [_ Ep].
  apply bind_correction_Ok in H as [-> _]. rewrite Ep.
  apply correction_action_Ok in Ha as (Hc&<-&Hps&Hk). exists a. by split_and!.
Qed.

(** ** Corrective plans *)

(** The plans this part of the program makes. *)
Inductive corrective : ChangePlan → Prop :=
  | corrective_compensation {B} original fresh (report : RunReport (B := B)) by_ now p :
      build_compensation_plan original fresh report by_ now = Ok p → corrective p
  | corrective_outlook ref to subject body by_ fresh now p :
      build_outlook_correction_plan ref to subject body by_ fresh now = Ok p → corrective p
  | corrective_teams ref body destination by_ fresh now p :
      build_teams_correction_plan ref body destination by_ fresh now = Ok p → corrective p.

Lemma compensation_requires_approval {B} original fresh (report : RunReport (B := B)) by_ now p :
  build_compensation_plan original fresh report by_ now = Ok p →
  Forall (λ a, aa_requires_approval a = true) (cp_actions p).
Proof.
  unfold build_compensation_plan. intros H.
  apply bind_Ok in H as (st & Hst & H). apply draft_all_Ok in Hst as (actions&why&Ea&Ew&Hall).
  cbn [compensation_actions unavailable app] in *.
  apply bind_Ok in H as ([] & Hu%raise_if_Ok%negb_false_iff%is_nil_true & H).
  apply bind_Ok in H as ([] & _ & H). apply bind_Ok in H as (plan & Hp & H).
  apply new_plan_Ok in Hp as [_ Ep]. apply bind_correction_Ok in H as [-> _].
  rewrite Ep, Ea. destruct Hall as (_&H2&_); [congruence|].
  eapply Forall2_Forall_r; [exact H2|]. apply Forall_true.
  intros effect a (?&?). naive_solver.
Qed.

Lemma corrective_inv p :
  corrective p →
  Forall (λ a, aa_requires_approval a = true) (cp_actions p)
  ∧ ∃ plan c s m f, bind_correction_governance plan c s m f = Ok p.
Proof.
  intros [B original fresh report by_ now q H|ref to subject body by_ fresh now q H
         |ref body destination by_ fresh now q H]; split.
  - by eapply compensation_requires_approval.
  - unfold build_compensation_plan in H. inv_ok. eauto 6.
  - apply outlook_correction_action in H as (a&->&Hc&_). by repeat constructor; apply Hc.
  - unfold build_outlook_correction_plan in H. inv_ok. eauto 6.
  - apply teams_correction_action in H as (a&->&Hc&_). by repeat constructor; apply Hc.
  - unfold build_teams_correction_plan in H. inv_ok. eauto 6.
Qed.

Section authenticator.
Context {A : Type} `{AuthenticatorLaws A}.

(** C15: A corrective plan is ready to run but never runs by itself.  The check
    before execution accepts every plan that compensation or a message
    correction builds, under the default gate and without any approval, with
    the decision the plan carries; and whatever its configuration, the policy
    permits an action of such a plan only when the authenticated principals of
    genuine approvals, bound to this very plan and in force, are as many as are
    asked for, and at least one. *)
Theorem corrections_governed p :
  corrective p →
  (∀ (policy : option (PolicyEngine A)) approvals now,
     ∃ d, cp_systems_decision p = Some d
       ∧ enforce_systems_governance p (Some default_gate) policy approvals true now = Ok d)
  ∧ ∀ (engine : PolicyEngine A) action approvals now n d,
      action ∈ cp_actions p → evaluate engine p action approvals now n = Ok d →
      pd_permitted d = true →
      ∃ a, pe_authenticator engine = Some a ∧ approved_by a p action now approvals (Z.max 1 n).
Proof using All.
  intros Hp. apply corrective_inv in Hp as [Hr (plan&c&s&m&f&Hb)]. split.
  - intros policy approvals now.
    apply bind_correction_Ok in Hb as (_&assessment&d&q&->&Hg&Hd&Ha&Hsd&Hz).
    exists d. split; [done|]. apply (trusted_bound_enforced q assessment); try done.
    unfold over_budget, SystemsAssessment_complexity_score. by rewrite Hz.
  - intros engine action approvals now n d Hin He Hperm.
    destruct (permitted_inv _ _ _ _ _ _ _ He Hperm) as (_&_&_&_&_&_&Hneed).
    rewrite Forall_forall in Hr. unfold approval_needed in Hneed. rewrite (Hr _ Hin) in Hneed.
    destruct Hneed as (covered_by & Hc & Hle).
    eapply covered_principals; [exact Hc|exact Hle|lia].
Qed.
End authenticator.

(** ** What is not read *)

(** The report of the same effect in another state. *)
Definition in_state {B} (f : ActionReport B → ActionState) (item : ActionReport B) : ActionReport B :=
  mk_ActionReport (ar_action_id item) (ar_capability item) (f item) (ar_message item)
    (ar_result item) (ar_compensation item) (ar_egress item).

Definition report_in_states {B} (f : ActionReport B → ActionState) (report : RunReport (B := B))
    : RunReport (B := B) :=
  mk_RunReport (rr_run_id report) (rr_plan_id report) (rr_plan_fingerprint report)
    (rr_dry_run report) (map (in_state f) (rr_actions report)) (rr_systems_review report).

(** The plan does not depend on the reported states: an effect the run has
    already compensated ([COMPENSATED]) is planned to be undone once more. *)
Theorem compensation_ignores_states {B} (f : ActionReport B → ActionState) original fresh report
    created_by now :
  build_compensation_plan original fresh (report_in_states f report) created_by now
  = build_compensation_plan original fresh report created_by now.
Proof.
  assert (∀ items st, draft_all original fresh st (map (in_state f) items)
    = draft_all original fresh st items) as H.
  { induction items as [|item items IH]; intros st; [done|]. cbn [map draft_all].
    change (draft_compensation original fresh st (in_state f item))
      with (draft_compensation original fresh st item).
    destruct (draft_compensation _ _ _ _); [apply IH|done]. }
  unfold build_compensation_plan. cbn [rr_actions report_in_states].
  by rewrite <- map_rev, H.
Qed.

(** ** A run of two writes *)

Definition second_write : AgentAction :=
  mk_AgentAction "jira.issue.update" (mk_ResourceRef "jira" "issue" "OPS-2" None)
    [("summary", JStr "moved")] REVERSIBLE_WRITE DIRECT_USER true "write-2" "rename the issue"
    INTERNAL [2] 3.

Definition two_writes : ChangePlan :=
  mk_ChangePlan "close OPS-1" [read_action; write_action; second_write] "planner" 16
    (sample_time 9) "2.0" None None false None None None [] None true.

Definition restore (summary : string) (target : option string) : CompensationDescriptor :=
  mk_CompensationDescriptor "restore" PLAN (Some "jira.issue.restore")
    [("summary", JStr summary)] (Some "8") target None "master-agent/compensation@1".

Definition written (action : AgentAction) (descriptor : CompensationDescriptor) : ActionReport unit :=
  mk_ActionReport (aa_action_id action) (aa_capability action) VERIFIED "verified"
    (Some (mk_ExecutionResult (aa_action_id action) SUCCEEDED None None None "" (Some descriptor)
       "" "")) None None.

Definition two_writes_report : RunReport :=
  mk_RunReport 50 16 (ChangePlan_fingerprint two_writes) false
    [mk_ActionReport 1 "jira.issue.read" VERIFIED "read" None None None;
     written write_action (restore "open" None); written second_write (restore "old" (Some "OPS-9"))]
    None.

Definition sample_fresh (k : nat) : uuid := 100 + Z.of_nat k.

Definition reverse_plan : result ChangePlan := Eval vm_compute in
  build_compensation_plan two_writes sample_fresh two_writes_report "operator" (sample_time 11).

Lemma reverse_plan_built :
  build_compensation_plan two_writes sample_fresh two_writes_report "operator" (sample_time 11)
  = reverse_plan.
Proof. check. Defined.

Definition reverse_plan_value : ChangePlan := ok_or reverse_plan sample_plan.

Lemma compensation_plan_complete_witness :
  topological_order (cp_actions reverse_plan_value) = Ok (cp_actions reverse_plan_value)
  ∧ map (λ a, (rr_resource_id (aa_target a), aa_dependencies a)) (cp_actions reverse_plan_value)
    = [("OPS-9", []); ("OPS-1", [100])].
Proof.
  split; [|check].
  apply (compensation_plan_complete two_writes sample_fresh two_writes_report "operator"
    (sample_time 11)). rewrite reverse_plan_built. reflexivity.
Defined.

Lemma corrections_governed_witness :
  ∃ d, enforce_systems_governance reverse_plan_value (Some default_gate) (Some sample_engine) []
    true (sample_time 12) = Ok d.
Proof.
  destruct (corrections_governed (A := HmacApprovalAuthenticator) reverse_plan_value) as [H _].
  - apply (corrective_compensation two_writes sample_fresh two_writes_report "operator"
      (sample_time 11)). rewrite reverse_plan_built. reflexivity.
  - destruct (H (Some sample_engine) [] (sample_time 12)) as (d&_&Hd). exists d. exact Hd.
Defined.
