(* ===== verification/DirectReadTheorems.v ===== *)
(** * DirectReadTheorems: properties of direct read sessions

    A session asks nothing of the provider before every action of the plan has
    passed every gate; it then reads and verifies the actions in order, and stops
    at the first failure; what it returns is confined to the binding of each
    read; what it raises tells nothing of what the provider answered; and it
    leaves the database alone. *)

From S2P Require Import Prelude PyText PyJson PyHash PyTime PyStd ResourceLimits ModelsBase PlatformIdentity.
From S2P Require Import ModelsSystems ModelsReviews ModelsAction ModelsBindings ModelsContext ModelsPlan.
From S2P Require Import ModelsResults Approvals Policy Capabilities Governance PlannerGate Canonical.
From S2P Require Import AuditLog Registry RunMonad Orchestrator EgressPolicy EgressBinding EgressSanitize.
From S2P Require Import EgressTheorems SanitizeTheorems DirectRead Samples RunSamples EgressSamples.

Open Scope Z_scope.

Section theorems.
Context {A W : Type} `{Auth : Authenticator A} (env : environment).
Context (self : DirectReadSession (A := A) (W := W)).
#[local] Abbreviation run := (run W ProviderDataEgressBinding).
#[local] Abbreviation run_state := (run_state W ProviderDataEgressBinding).

(** ** The specification of a session *)

(** The configured connector is the one the execution binding was made for. *)
Definition connector_bound : Prop :=
  let c := con_view (ds_connector self) in
  let binding := ds_execution_binding self in
  con_http_config (ds_connector self) ≠ None
  ∧ cv_implementation c = Some (ceb_implementation binding)
  ∧ cv_base_url c = Some (ceb_resolved_base_url binding) ∧ ceb_resolved_base_url binding ≠ ""
  ∧ cv_ca_bundle c = ceb_ca_bundle_path binding
  ∧ cv_ca_bundle_sha256 c = ceb_ca_bundle_sha256 binding
  ∧ network_drifted c binding = false.

(** What every action of a session has passed, and the binding it is read under. *)
Definition direct_read_permitted (p : ChangePlan) (a : AgentAction)
    (b : ProviderDataEgressBinding) : Prop :=
  aa_risk a = READ_ONLY ∧ aa_authority_source a = DIRECT_USER ∧ aa_requires_approval a = false
  ∧ rr_system (aa_target a) = con_system (ds_connector self)
  ∧ aa_capability a ∈ con_capabilities (ds_connector self)
  ∧ (catalog_validate_action (ds_catalog self) a true).1 = true
  ∧ (governance_validate_action (ds_governance self) a).1 = true
  ∧ (∃ reason, source_validate (ds_sources self) p a = Ok (true, reason))
  ∧ (∃ t minimum d, minimum_approvers (ds_governance self) (aa_capability a) = Ok minimum
       ∧ evaluate (ds_policy self) p a [] t minimum = Ok d
       ∧ pd_permitted d = true ∧ pd_approval_required d = false)
  ∧ (∃ reason, validate_execution (ds_catalog self) a (con_view (ds_connector self))
       (Some (ds_execution_binding self)) "live" = Ok (true, reason))
  ∧ connector_bound
  ∧ ∃ policy d, gp_model_context (ds_governance self) = Some policy
       ∧ catalog_definition (ds_catalog self) (aa_capability a) = Ok d
       ∧ preflight_provider_data_egress policy a d EPHEMERAL false = Ok tt
       ∧ (validate_external_model (ds_governance self) a d).1 = true
       ∧ bind_egress policy a d (Some (ds_execution_binding self)) EPHEMERAL false "live" = Ok b.

(** What a plan has passed. *)
Record admitted (p : ChangePlan) (bindings : list ProviderDataEgressBinding) : Prop := {
  adm_governed : ∃ t d,
    enforce_systems_governance p None (Some (ds_policy self)) [] false t = Ok d;
  adm_unbound : cp_execution_context p = None ∧ cp_workflow_id p = None
    ∧ cp_workflow_fingerprint p = None ∧ cp_compensate_on_failure p = false;
  adm_session : (allows_direct_read_session (ds_governance self) p).1 = true;
  adm_endpoint : validate_binding_endpoint (ds_execution_binding self) = Ok tt;
  adm_system : ceb_system (ds_execution_binding self)
    = binding_system_for (con_system (ds_connector self));
  adm_actions : Forall2 (direct_read_permitted p) (cp_actions p) bindings;
}.

(** The calls of an action that was read, verified and reported: the payload is
    the sanitized content of what the provider answered. *)
Definition delivered_read (ab : AgentAction * ProviderDataEgressBinding) (l : list event)
    (rep : DirectReadActionReport) : Prop :=
  let '(a, b) := ab in
  ∃ x c v raw,
    l = [Called (CallExecute a) (ReplyResult (Ok x));
         Called (CallVerify a c) (ReplyVerification (Ok v))]
    ∧ er_action_id x = aa_action_id a ∧ er_state x = SUCCEEDED ∧ er_after x = Some raw
    ∧ er_after c = Some raw ∧ vr_action_id v = aa_action_id a ∧ vr_verified v = true
    ∧ dar_action_id rep = aa_action_id a ∧ dar_capability rep = aa_capability a
    ∧ dar_state rep = VERIFIED ∧ dv_verified (dar_verification rep) = true
    ∧ dar_egress rep = b
    ∧ sanitize_provider_mapping b raw = Ok (dp_data (dar_payload rep))
    ∧ verification_metadata b (vr_observed v) = Ok (dv_observed (dar_verification rep)).

Inductive delivered_reads : list (AgentAction * ProviderDataEgressBinding) → list event
    → list DirectReadActionReport → Prop :=
  | delivered_nil : delivered_reads [] [] []
  | delivered_cons ab l1 rep bound l2 reports :
      delivered_read ab l1 rep → delivered_reads bound l2 reports →
      delivered_reads (ab :: bound) (l1 ++ l2) (rep :: reports).

(** The calls of an action that may have failed. *)
Inductive attempted_read (a : AgentAction) : list event → Prop :=
  | attempted_none : attempted_read a []
  | attempted_execute r : attempted_read a [Called (CallExecute a) r]
  | attempted_verify x c r :
      attempted_read a [Called (CallExecute a) (ReplyResult (Ok x)); Called (CallVerify a c) r].

(** The calls of a session: reads in order, each but the last one delivered. *)
Definition reads_in_order (bound : list (AgentAction * ProviderDataEgressBinding))
    (l : list event) : Prop :=
  ∃ delivered todo l1 l2 reports,
    bound = delivered ++ todo ∧ l = l1 ++ l2 ∧ delivered_reads delivered l1 reports
    ∧ match todo with [] => l2 = [] | (a, _) :: _ => attempted_read a l2 end.

(** The errors of a session that do not depend on what the provider answered,
    save for how far the session went: they are fixed by the session and the
    plan. *)
Inductive public_error (p : ChangePlan) : exn → Prop :=
  | public_opaque : public_error p provider_read_failed
  | public_unverified a : a ∈ cp_actions p → public_error p (not_verified a)
  | public_empty : public_error p (ConnectorError "direct read connector returned no payload")
  | public_budget e :
      connector_http_action_budget (ds_connector self) = Err e → public_error p e
  | public_no_budget :
      public_error p
        (ConfigurationError "direct read connector is missing a live HTTP action budget")
  | public_review e :
      (∀ reports, map dar_state reports = map (λ _, VERIFIED) (cp_actions p) →
         direct_read_report self p reports = Err e) →
      public_error p e.

(** The call raised [e]. *)
Definition raised (ev : event) (e : exn) : Prop :=
  match ev with
  | Called (CallExecute _) (ReplyResult (Err e'))
  | Called (CallVerify _ _) (ReplyVerification (Err e')) => e' = e
  | _ => False
  end.

Definition last_raised (l : list event) (e : exn) : Prop :=
  ∃ pre ev, l = pre ++ [ev] ∧ raised ev e.

(** The connector itself raised [e] in the last call, and [e] is of none of the
    classes the boundary names. *)
Definition escaped (l : list event) (e : exn) : Prop := ¬ named_class e ∧ last_raised l e.

Lemma last_raised_app l l' e : last_raised l' e → last_raised (l ++ l') e.
Proof. intros (pre&ev&->&Hr). exists (l ++ pre), ev. by rewrite (assoc_L (++)). Qed.

(** ** Steps *)

(** The run went from [s] to [s'] through the calls [l]. *)
Definition extends (s : run_state) (l : list event) (s' : run_state) : Prop :=
  rs_database s' = rs_database s ∧ rs_trace s' = rs_trace s ++ l.

Lemma extends_refl s : extends s [] s.
Proof. split; [done|]. by rewrite app_nil_r. Qed.

Lemma extends_trans s l s' l' s'' : extends s l s' → extends s' l' s'' → extends s (l ++ l') s''.
Proof. intros [H1 H2] [H3 H4]. split; [congruence|]. by rewrite H4, H2, (assoc_L (++)). Qed.

Lemma wp_provider {X} call (wrap : result X → provider_reply) f Q E (s : run_state) :
  (∀ r s', extends s [Called call (wrap r)] s' →
     match r with Ok x => Q x s' | Err e => E e s' end) →
  wp (provider call wrap f) Q E s.
Proof.
  intros Hq. unfold wp, provider. destruct (f (rs_world s)) as [r w].
  assert (extends s [Called call (wrap r)]
    (mk_run_state (rs_database s) w (rs_tick s) (rs_trace s ++ [Called call (wrap r)]) (rs_vars s)))
    as Hx by done.
  specialize (Hq r _ Hx). by destruct r.
Qed.

Lemma wp_opaquely {X} (m : run X) Q (E : exn → run_state → Prop) s :
  wp m Q (λ e s', E (if boundary_failure e then provider_read_failed else e) s') s →
  wp (opaquely m) Q E s.
Proof.
  intros Hm. apply wp_try. eapply wp_mono; [exact Hm|done|].
  intros e s'. cbv beta. by destruct (boundary_failure e).
Qed.

(** The clause names every named class. *)
Lemma named_boundary e : named_class e → boundary_failure e = true.
Proof. by destruct e. Qed.

Lemma public_or_escaped p l e :
  named_class e ∨ last_raised l e →
  let e' := if boundary_failure e then provider_read_failed else e in
  public_error p e' ∨ escaped l e'.
Proof.
  intros He. cbn zeta. destruct (boundary_failure e) eqn:E; [left; apply public_opaque|].
  assert (¬ named_class e) as Hn by (intros Hn%named_boundary; congruence).
  right. split; [done|]. by destruct He.
Qed.

Lemma copy_Ok x c : copy_execution_result x = Ok c →
  er_after c = er_after x ∧ all_finite (opt_dict (er_after x)) = true.
Proof.
  unfold copy_execution_result. intros ([] & _ & Hc)%bind_Ok.
  apply ExecutionResult_post_init_Ok in Hc as (_ & Hf & ->). done.
Qed.

Lemma named_read_result a x : raises_named (validate_read_result a x).
Proof. unfold validate_read_result. named. Qed.
Lemma named_copy x : raises_named (copy_execution_result x).
Proof. unfold copy_execution_result. named. Qed.
Lemma named_verification a v : raises_named (validate_verification a v).
Proof. unfold validate_verification. named. Qed.
Lemma named_sanitize_read b x v : raises_named (sanitize_read b x v).
Proof. unfold sanitize_read. named. Qed.

(** ** One action *)

Lemma wp_read_and_verify a s :
  wp (read_and_verify self a)
    (λ xv s', ∃ x c, er_action_id x = aa_action_id a ∧ er_state x = SUCCEEDED
       ∧ er_after xv.1 = er_after x ∧ er_after c = er_after x
       ∧ vr_action_id xv.2 = aa_action_id a
       ∧ extends s [Called (CallExecute a) (ReplyResult (Ok x));
                    Called (CallVerify a c) (ReplyVerification (Ok xv.2))] s')
    (λ e s', ∃ l, attempted_read a l ∧ extends s l s' ∧ (named_class e ∨ last_raised l e)) s.
Proof.
  unfold read_and_verify. apply wp_bind, wp_provider. intros [x|e] s1 H1.
  2: { eexists. split_and!; [apply attempted_execute|exact H1|]. right. by exists [], (Called (CallExecute a) (ReplyResult (Err e))). }
  assert (∀ e, named_class e →
    ∃ l, attempted_read a l ∧ extends s l s1 ∧ (named_class e ∨ last_raised l e)) as Hstop
    by (intros e He; eexists; split_and!; [apply attempted_execute|exact H1|by left]).
  apply wp_bind, wp_lift; [intros [] Hx|intros e He; by apply Hstop, (named_read_result _ _ _ He)].
  apply wp_bind, wp_lift; [intros y Hy|intros e He; by apply Hstop, (named_copy _ _ He)].
  apply wp_bind, wp_lift; [intros c Hc|intros e He; by apply Hstop, (named_copy _ _ He)].
  apply wp_bind, wp_provider. intros r s2 H2.
  pose proof (extends_trans _ _ _ _ _ H1 H2) as H3.
  assert (∀ e l, l = [Called (CallExecute a) (ReplyResult (Ok x)); Called (CallVerify a c) (ReplyVerification r)] →
    named_class e ∨ last_raised l e →
    ∃ l, attempted_read a l ∧ extends s l s2 ∧ (named_class e ∨ last_raised l e)) as Hstop'
    by (intros e l -> He; eexists; split_and!; [apply attempted_verify|exact H3|done]).
  destruct r as [v|e].
  2: { eapply Hstop'; [reflexivity|]. right. by exists [Called (CallExecute a) (ReplyResult (Ok x))], (Called (CallVerify a c) (ReplyVerification (Err e))). }
  apply wp_bind, wp_lift; [intros [] Hv|intros e He; eapply Hstop'; [reflexivity|];
    left; by apply (named_verification _ _ _ He)]. apply wp_ret.
  apply copy_Ok in Hy as [Hy _]. apply copy_Ok in Hc as [Hc _].
  unfold validate_read_result, validate_verification in *. inv_ok. to_prop.
  exists x, c. split_and!; [done|done|done|by rewrite Hc|done|done].
Qed.

(** What is done with an answer that was verified. *)
Lemma sanitize_read_Ok b x v y observed :
  sanitize_read b x v = Ok (y, observed) →
  ∃ raw out, er_after x = Some raw ∧ er_after y = Some out ∧ all_finite (JDict out) = true
    ∧ sanitize_provider_mapping b raw = Ok out
    ∧ verification_metadata b (vr_observed v) = Ok observed
    ∧ all_finite (opt_dict observed) = true.
Proof.
  unfold sanitize_read. intros (y' & Hy & (o & Ho & [= <- <-])%bind_Ok)%bind_Ok.
  unfold sanitize_result in Hy. apply bind_Ok in Hy as ([] & _ & Hy).
  apply bind_Ok in Hy as (raw & Hr%or_raise_Ok & Hy). apply bind_Ok in Hy as (out & Hout & Hy).
  apply bind_Ok in Hy as (reference & _ & Hy).
  apply ExecutionResult_post_init_Ok in Hy as (_ & Hf & ->).
  exists raw, out. split_and!; [done..|].
  unfold verification_metadata in Ho. destruct (vr_observed v) as [w|]; [|by inv_ok].
  apply bind_Ok in Ho as (z & _ & Ho). by inv_ok.
Qed.

Lemma direct_action_report_Ok a b y out observed :
  er_after y = Some out → all_finite (JDict out) = true →
  all_finite (opt_dict observed) = true →
  ∃ rep, direct_action_report a b y true observed = Ok rep
    ∧ dar_action_id rep = aa_action_id a ∧ dar_capability rep = aa_capability a
    ∧ dar_state rep = VERIFIED ∧ dv_verified (dar_verification rep) = true
    ∧ dar_egress rep = b ∧ dp_data (dar_payload rep) = out
    ∧ dv_observed (dar_verification rep) = observed.
Proof.
  intros Hy Hf Ho. unfold direct_action_report. rewrite Hy.
  unfold DirectReadPayload_post_init, DirectReadVerification_post_init.
  cbn [or_raise mbind result_bind dp_data dv_observed].
  rewrite (proj2 (freeze_json_mapping_Ok out out)) by done. cbn [mbind result_bind].
  destruct observed as [o|]; cbn [mbind result_bind].
  - rewrite (proj2 (freeze_json_mapping_Ok o o)) by done. by eexists.
  - by eexists.
Qed.

Lemma wp_execute_direct_action p a b s :
  a ∈ cp_actions p → validate_direct_contract self a = Ok b →
  wp (execute_direct_action self a b)
    (λ rep s', ∃ l, delivered_read (a, b) l rep ∧ extends s l s')
    (λ e s', ∃ l, attempted_read a l ∧ extends s l s' ∧ (public_error p e ∨ escaped l e)) s.
Proof.
  intros Ha Hb. unfold execute_direct_action.
  assert (∀ e, public_error p e →
    ∃ l, attempted_read a l ∧ extends s l s ∧ (public_error p e ∨ escaped l e)) as Hstop
    by (intros e He; exists []; split_and!; [apply attempted_none|apply extends_refl|by left]).
  apply wp_bind, wp_lift; [intros budget _|intros e He; by apply Hstop, public_budget].
  apply wp_bind, wp_lift; [intros [] _|intros e [_ ->]%raise_if_Err; by apply Hstop, public_no_budget].
  apply wp_bind, wp_opaquely. eapply wp_mono; [apply wp_read_and_verify| |].
  2: { intros e s' (l & Hl & Hx & He). exists l. split_and!; [done|done|by apply public_or_escaped]. }
  intros [y v] s1 (x & c & Hid & Hst & Hy & Hc & Hv & Hx). cbn [fst snd] in *.
  assert (∀ e, public_error p e →
    ∃ l, attempted_read a l ∧ extends s l s1 ∧ (public_error p e ∨ escaped l e)) as Hstop'
    by (intros e He; eexists; split_and!; [apply attempted_verify|exact Hx|by left]).
  apply wp_bind, wp_lift;
    [intros [] Hver%raise_if_Ok|intros e [_ ->]%raise_if_Err; by apply Hstop', public_unverified].
  apply negb_false_iff in Hver.
  apply wp_bind, wp_lift; [intros [] _|intros e [_ ->]%raise_if_Err; by apply Hstop', public_empty].
  rewrite Hb. apply wp_bind, wp_lift; [|done]. intros ? [= <-].
  rewrite String.eqb_refl. apply wp_bind, wp_lift; [intros [] _|done].
  apply wp_bind, wp_opaquely, wp_lift;
    [|intros e He%named_sanitize_read%named_boundary; rewrite He; apply Hstop', public_opaque].
  intros [z observed] (raw & out & Hr & Ho & Hf & Hs & Hm & Hfo)%sanitize_read_Ok.
  rewrite Hver. destruct (direct_action_report_Ok a b z out observed Ho Hf Hfo)
    as (rep & -> & H1 & H2 & H3 & H4 & H5 & H6 & H7).
  apply wp_lift; [|done]. intros ? [= <-]. eexists. split; [|exact Hx].
  exists x, c, v, raw. rewrite H6, H7. split_and!; congruence.
Qed.

(** ** All actions *)

Lemma delivered_states bound l reports : delivered_reads bound l reports →
  map dar_state reports = map (λ _, VERIFIED) bound.
Proof.
  induction 1 as [|[a b] l1 rep bound l2 reports Hd _ IH]; [done|]. simpl. rewrite IH.
  destruct Hd as (x&c&v&raw&_&_&_&_&_&_&_&_&_&->&_). done.
Qed.

(** Whether a report is refused does not depend on what was read. *)
Lemma direct_read_report_Err p reports reports' e :
  map dar_state reports' = map dar_state reports →
  direct_read_report self p reports = Err e → direct_read_report self p reports' = Err e.
Proof.
  intros Hst. unfold direct_read_report. rewrite Hst.
  destruct (or_raise (cp_systems_assessment p) _); [|done].
  destruct (or_raise (cp_systems_decision p) _); [|done]. cbn [mbind result_bind].
  destruct (build_systems_post_execution_review _ _ _ _ _); [|done]. cbn [mbind result_bind].
  unfold DirectReadReport_post_init. cbn [drr_schema drr_provider drr_actions].
  destruct reports as [|], reports' as [|]; [done..|].
  by destruct (raise_if (negb _) _), (raise_if (is_blank _) _).
Qed.

Lemma wp_execute_direct_actions p bound s :
  Forall (λ ab, ab.1 ∈ cp_actions p ∧ validate_direct_contract self ab.1 = Ok ab.2) bound →
  wp (execute_direct_actions self bound)
    (λ reports s', ∃ l, delivered_reads bound l reports ∧ extends s l s')
    (λ e s', ∃ l, reads_in_order bound l ∧ extends s l s' ∧ (public_error p e ∨ escaped l e)) s.
Proof.
  intros Hbound. revert s. induction Hbound as [|[a b] bound [Ha Hb] _ IH]; intros s.
  { exists []. split; [constructor|apply extends_refl]. }
  cbn [execute_direct_actions fst snd] in *. apply wp_bind.
  eapply wp_mono; [by apply (wp_execute_direct_action p)| |].
  2: { intros e s' (l & Hl & Hx & He). exists l. split_and!; [|done|done].
       exists [], ((a, b) :: bound), [], l, []. split_and!; [done|done|constructor|done]. }
  intros rep s1 (l1 & Hd & Hx). apply wp_bind. eapply wp_mono; [apply IH| |].
  - intros reports s2 (l2 & Hds & Hx2). apply wp_ret. exists (l1 ++ l2).
    split; [by constructor|by eapply extends_trans].
  - intros e s2 (l2 & (done_&todo&k1&k2&reports&->&->&Hds&Hk) & Hx2 & He).
    exists (l1 ++ k1 ++ k2). split_and!; [|by eapply extends_trans|].
    2: { destruct He as [?|[Hn Hr]]; [by left|right; split; [done|by apply last_raised_app]]. }
    exists ((a, b) :: done_), todo, (l1 ++ k1), k2, (rep :: reports).
    split_and!; [done|by rewrite (assoc_L (++))|by constructor|done].
Qed.

(** ** Admission *)

(** The run read the clock only. *)
Lemma wp_quiet_now Q E (s : run_state) :
  (∀ t s', extends s [] s' → Q t s') → wp (now env) Q E s.
Proof. intros HQ. apply wp_now, HQ. split; [done|]. by rewrite app_nil_r. Qed.

Lemma extends_quiet s l s' s'' : extends s [] s' → extends s' l s'' → extends s l s''.
Proof. apply extends_trans. Qed.

Definition gates : ChangePlan → AgentAction → datetime → result unit :=
  validate_unbound_action (ds_catalog self) (ds_governance self) (ds_policy self)
    (ds_sources self).

Lemma wp_unbound_actions p l s :
  wp (for_each_run (λ a, t ← now env; lift (gates p a t)) l)
    (λ _ s', extends s [] s' ∧ Forall (λ a, ∃ t, gates p a t = Ok tt) l)
    (λ _ s', extends s [] s') s.
Proof.
  revert s. induction l as [|a l IH]; intros s; cbn [for_each_run].
  { apply wp_ret. split; [apply extends_refl|constructor]. }
  apply wp_bind, wp_bind, wp_quiet_now. intros t s1 H1.
  apply wp_lift; [|done]. intros [] Ht. eapply wp_mono; [apply IH| |].
  - intros [] s2 [H2 Hl]. split; [by eapply extends_quiet|]. constructor; [by exists t|done].
  - intros e s2 H2. by eapply extends_quiet.
Qed.

Lemma wp_preflight p s :
  wp (preflight_direct_read_plan env (ds_catalog self) (ds_governance self) (ds_policy self)
        (ds_sources self) p)
    (λ provider s', extends s [] s'
       ∧ (∃ t d, enforce_systems_governance p None (Some (ds_policy self)) [] false t = Ok d)
       ∧ validate_unbound_session_shape p = Ok provider
       ∧ (allows_direct_read_session (ds_governance self) p).1 = true
       ∧ Forall (λ a, ∃ t, gates p a t = Ok tt) (cp_actions p))
    (λ _ s', extends s [] s') s.
Proof.
  unfold preflight_direct_read_plan. apply wp_bind, wp_quiet_now. intros t s1 H1.
  apply wp_bind, wp_lift; [intros d Hd|done]. apply wp_bind, wp_lift; [intros provider Hs|done].
  destruct (allows_direct_read_session _ p) as [ok reason] eqn:Eg.
  apply wp_bind, wp_lift; [intros [] Hok%raise_if_Ok|done]. apply negb_false_iff in Hok.
  apply wp_bind. eapply wp_mono; [apply wp_unbound_actions| |].
  - intros [] s2 [H2 Hl]. apply wp_ret. split_and!; [by eapply extends_quiet|by eauto|done|done|done].
  - intros e s2 H2. by eapply extends_quiet.
Qed.

Lemma wp_admit p s :
  wp (admit_direct_plan env self p)
    (λ bindings s', extends s [] s' ∧ ∃ provider,
       (∃ t d, enforce_systems_governance p None (Some (ds_policy self)) [] false t = Ok d)
       ∧ validate_unbound_session_shape p = Ok provider
       ∧ (allows_direct_read_session (ds_governance self) p).1 = true
       ∧ Forall (λ a, ∃ t, gates p a t = Ok tt) (cp_actions p)
       ∧ validate_connector_shape self p provider = Ok tt
       ∧ Forall2 (λ a b, validate_direct_contract self a = Ok b) (cp_actions p) bindings)
    (λ _ s', extends s [] s') s.
Proof.
  unfold admit_direct_plan. apply wp_bind. eapply wp_mono; [apply wp_preflight| |done].
  intros provider s1 (H1 & Hg & Hs & Ha & Hl). apply wp_bind, wp_lift; [intros [] Hc|done].
  apply wp_lift; [|done]. intros bindings Hb%mapM_Ok. split; [done|]. by exists provider.
Qed.

(** *** What the gates establish *)

Lemma shape_Ok p provider : validate_unbound_session_shape p = Ok provider →
  (cp_execution_context p = None ∧ cp_workflow_id p = None
   ∧ cp_workflow_fingerprint p = None ∧ cp_compensate_on_failure p = false)
  ∧ Forall (λ a, rr_system (aa_target a) = provider ∧ aa_risk a = READ_ONLY
      ∧ aa_authority_source a = DIRECT_USER ∧ aa_requires_approval a = false) (cp_actions p).
Proof.
  unfold validate_unbound_session_shape.
  destruct (cp_execution_context p); [intros; by inv_ok|]. intros ([] & H1%raise_if_Ok & H2)%bind_Ok.
  apply bind_Ok in H2 as ([] & H2%raise_if_Ok & H3). apply orb_false_iff in H1 as [Hi Hf].
  split; [split_and!; [done|..|done]|].
  { by destruct (cp_workflow_id p). } { by destruct (cp_workflow_fingerprint p). }
  destruct (remove_dups _) as [|x [|]] eqn:E; [done| |done].
  apply bind_Ok in H3 as ([] & Hl%for_each_Ok & [= <-]).
  apply Forall_forall. intros a Ha. rewrite Forall_forall in Hl. specialize (Hl a Ha).
  split.
  - assert (rr_system (aa_target a) ∈ [x]) as Hx; [|by apply list_elem_of_singleton in Hx].
    rewrite <- E. apply elem_of_remove_dups, list_elem_of_fmap. by exists a.
  - unfold check_direct_action in Hl. inv_ok. to_prop. done.
Qed.

Lemma gates_Ok p a t : gates p a t = Ok tt →
  (catalog_validate_action (ds_catalog self) a true).1 = true
  ∧ (governance_validate_action (ds_governance self) a).1 = true
  ∧ (∃ reason, source_validate (ds_sources self) p a = Ok (true, reason))
  ∧ (∃ t minimum d, minimum_approvers (ds_governance self) (aa_capability a) = Ok minimum
      ∧ evaluate (ds_policy self) p a [] t minimum = Ok d
      ∧ pd_permitted d = true ∧ pd_approval_required d = false)
  ∧ ∃ policy d, gp_model_context (ds_governance self) = Some policy
      ∧ catalog_definition (ds_catalog self) (aa_capability a) = Ok d
      ∧ preflight_provider_data_egress policy a d EPHEMERAL false = Ok tt
      ∧ (validate_external_model (ds_governance self) a d).1 = true.
Proof.
  unfold gates, validate_unbound_action.
  destruct (catalog_validate_action _ a true) as [ok1 ?].
  destruct (governance_validate_action _ a) as [ok2 ?].
  intros ([] & H1%raise_if_Ok & H)%bind_Ok. apply bind_Ok in H as ([] & H2%raise_if_Ok & H).
  apply bind_Ok in H as (d & Hdef & H). apply bind_Ok in H as (policy & Hpol%or_raise_Ok & H).
  apply bind_Ok in H as ([] & Hpre & H). destruct (validate_external_model _ a d) as [ok3 ?] eqn:Eext.
  apply bind_Ok in H as ([] & H3%raise_if_Ok & H). apply bind_Ok in H as ([ok4 reason] & H4 & H).
  apply bind_Ok in H as ([] & H5%raise_if_Ok & H). apply bind_Ok in H as (minimum & Hm & H).
  apply bind_Ok in H as (decision & Hd & H%raise_if_Ok).
  apply orb_false_iff in H as [Hp Ha]. apply negb_false_iff in H1, H2, H3, H5, Hp. subst.
  split_and!; [done..|by exists reason|by exists t, minimum, decision|].
  exists policy, d. by rewrite Eext.
Qed.

Lemma connector_endpoint_Ok :
  validate_connector_endpoint (is_someb (con_http_config (ds_connector self)))
    (con_view (ds_connector self)) (ds_execution_binding self) = Ok tt → connector_bound.
Proof.
  unfold validate_connector_endpoint, connector_bound. generalize (con_view (ds_connector self)).
  intros c H. inv_ok. to_prop.
  match goal with H : default "" _ ≠ "" |- _ => rename H into Hne end.
  match goal with H : cv_base_url c = _ |- _ => rewrite H in Hne; rename H into Hbase end.
  match goal with H : _ ∨ _ |- _ => rename H into Hca end.
  assert (cv_ca_bundle c = ceb_ca_bundle_path (ds_execution_binding self)
    ∧ cv_ca_bundle_sha256 c = ceb_ca_bundle_sha256 (ds_execution_binding self)) as [Hca1 Hca2].
  { destruct Hca as [[[[H1 H2] H3] H4]|?]; [|done].
    destruct (cv_ca_bundle c), (cv_ca_bundle_sha256 c), (ceb_ca_bundle_path _),
      (ceb_ca_bundle_sha256 _); done. }
  split_and!; try done. by destruct (con_http_config _).
Qed.

Lemma contract_Ok a b : validate_direct_contract self a = Ok b →
  (∃ reason, validate_execution (ds_catalog self) a (con_view (ds_connector self))
     (Some (ds_execution_binding self)) "live" = Ok (true, reason))
  ∧ connector_bound
  ∧ ∃ policy d, gp_model_context (ds_governance self) = Some policy
    ∧ catalog_definition (ds_catalog self) (aa_capability a) = Ok d
    ∧ bind_egress policy a d (Some (ds_execution_binding self)) EPHEMERAL false "live" = Ok b.
Proof.
  unfold validate_direct_contract. intros ([ok reason] & Hx & H)%bind_Ok.
  apply bind_Ok in H as ([] & Hok%raise_if_Ok & H). apply negb_false_iff in Hok. subst ok.
  apply bind_Ok in H as ([] & Hc%connector_endpoint_Ok & H).
  apply bind_Ok in H as (policy & Hp%or_raise_Ok & H). apply bind_Ok in H as (d & Hd & H).
  split; [by exists reason|]. split; [done|]. by exists policy, d.
Qed.

Lemma admitted_intro p provider bindings :
  (∃ t d, enforce_systems_governance p None (Some (ds_policy self)) [] false t = Ok d) →
  validate_unbound_session_shape p = Ok provider →
  (allows_direct_read_session (ds_governance self) p).1 = true →
  Forall (λ a, ∃ t, gates p a t = Ok tt) (cp_actions p) →
  validate_connector_shape self p provider = Ok tt →
  Forall2 (λ a b, validate_direct_contract self a = Ok b) (cp_actions p) bindings →
  admitted p bindings.
Proof.
  intros Hgov [Hun Hsh]%shape_Ok Hs Hg Hc Hb. unfold validate_connector_shape in Hc.
  apply bind_Ok in Hc as ([] & Hsys%raise_if_Ok & Hc).
  apply bind_Ok in Hc as ([] & Hbs%raise_if_Ok & Hc).
  apply bind_Ok in Hc as ([] & He & Hcap%for_each_Ok).
  apply negb_false_iff, String.eqb_eq in Hsys, Hbs. rewrite Forall_forall in Hsh, Hg, Hcap.
  split; try done. apply Forall2_same_length_lookup_2; [by eapply Forall2_length|].
  intros i a b Ha Hbi. pose proof (Forall2_lookup_lr _ _ _ _ _ _ Hb Ha Hbi) as Hab.
  apply list_elem_of_lookup_2 in Ha. destruct (Hsh a Ha) as (H1 & H2 & H3 & H4).
  destruct (Hg a Ha) as (t & (G1 & G2 & G3 & G4 & pol & d & G5 & G6 & G7 & G8)%gates_Ok).
  specialize (Hcap a Ha). apply raise_if_Ok, negb_false_iff, bool_decide_eq_true in Hcap.
  apply contract_Ok in Hab as (Hx & Hcb & pol' & d' & C1 & C2 & C3).
  assert (pol' = pol ∧ d' = d) as [-> ->] by (split; congruence).
  split_and!; try done; [congruence|]. by exists pol, d.
Qed.

(** ** The session *)

Definition session_outcome (plan : ChangePlan) (l : list event)
    (r : result DirectReadReport) : Prop :=
  (l = [] ∧ is_ok r = false)
  ∨ ∃ p bindings, execution_snapshot plan = Ok p ∧ admitted p bindings
      ∧ match r with
        | Ok report => delivered_reads (combine (cp_actions p) bindings) l (drr_actions report)
            ∧ direct_read_report self p (drr_actions report) = Ok report
        | Err e => reads_in_order (combine (cp_actions p) bindings) l
            ∧ (public_error p e ∨ escaped l e)
        end.

Lemma direct_read_report_actions p reports report :
  direct_read_report self p reports = Ok report →
  drr_actions report = reports ∧ drr_plan_fingerprint report = ChangePlan_fingerprint p
  ∧ drr_provider report = con_system (ds_connector self).
Proof.
  unfold direct_read_report. intros (assessment & _ & H)%bind_Ok.
  apply bind_Ok in H as (decision & _ & H). apply bind_Ok in H as (review & _ & H).
  unfold DirectReadReport_post_init in H. by inv_ok.
Qed.

Lemma wp_execute_direct plan s :
  wp (execute_direct env self plan)
    (λ report s', ∃ l, extends s l s' ∧ session_outcome plan l (Ok report))
    (λ e s', ∃ l, extends s l s' ∧ session_outcome plan l (Err e)) s.
Proof.
  unfold execute_direct.
  assert (∀ (e : exn) s', extends s [] s' →
    ∃ l, extends s l s' ∧ session_outcome plan l (Err e)) as Hnone
    by (intros e s' Hx; exists []; split; [done|by left]).
  apply wp_bind, wp_lift; [intros p Hp|intros e _; apply Hnone, extends_refl].
  apply wp_bind. eapply wp_mono; [apply wp_admit| |intros; by apply Hnone].
  intros bindings s1 (H1 & provider & Hgov & Hsh & Hs & Hg & Hc & Hb).
  pose proof (admitted_intro _ _ _ Hgov Hsh Hs Hg Hc Hb) as Hadm.
  assert (length (cp_actions p) = length bindings) as Hlen by by eapply Forall2_length.
  assert (map fst (combine (cp_actions p) bindings) = cp_actions p) as Hfst
    by (apply fst_zip; lia).
  apply wp_bind. eapply wp_mono; [apply (wp_execute_direct_actions p)| |].
  - apply Forall_forall. intros [a b] Hab. apply list_elem_of_lookup_1 in Hab as [i Hi].
    apply lookup_zip_Some in Hi as [Ha Hbi]. split; [by eapply list_elem_of_lookup_2|].
    by eapply Forall2_lookup_lr in Hb.
  - intros reports s2 (l & Hd & H2). apply wp_lift.
    + intros report Hr. exists l. split; [by eapply extends_quiet|]. right.
      exists p, bindings. destruct (direct_read_report_actions _ _ _ Hr) as [Ha _]. rewrite Ha. by split_and!.
    + intros e He. exists l. split; [by eapply extends_quiet|]. right.
      exists p, bindings. split_and!; [done|done| |].
      * exists (combine (cp_actions p) bindings), [], l, [], reports.
        by rewrite !app_nil_r.
      * left. apply public_review. intros reports' Hst. eapply direct_read_report_Err; [|exact He].
        rewrite Hst, (delivered_states _ _ _ Hd). symmetry.
        transitivity (map (λ _, VERIFIED) (map fst (combine (cp_actions p) bindings)));
          [by rewrite map_map|by rewrite Hfst].
  - intros e s2 (l & Hl & H2 & He). exists l. split; [by eapply extends_quiet|].
    right. by exists p, bindings.
Qed.
End theorems.

(** ** Properties *)

Lemma delivered_in_order bound l reports :
  delivered_reads bound l reports → reads_in_order bound l.
Proof. intros Hd. exists bound, [], l, [], reports. by rewrite !app_nil_r. Qed.

Lemma execute_direct_outcome {A W : Type} `{Authenticator A} env
    (self : DirectReadSession (A := A) (W := W)) plan s r s' :
  execute_direct env self plan s = (r, s') →
  ∃ l, extends s l s' ∧ session_outcome self plan l r.
Proof.
  intros E. pose proof (wp_execute_direct env self plan s) as Hw. unfold wp in Hw.
  rewrite E in Hw. by destruct r.
Qed.

(** C18: No provider call precedes the gates of a direct read session.  However the
    connector behaves and however the session ends, the audit database is
    untouched; and either the connector was not called at all, or the whole plan
    had passed: its systems decision is in force, it has no execution context,
    workflow or compensation, governance allows direct sessions, the execution
    binding is of the connector's system and its endpoint is the HTTPS origin it
    declares; and every action is an unapproved read by a direct user of the one
    provider that the catalog, the governance rules, the external-model gate,
    the sources and the policy permit, whose execution contract the configured
    connector satisfies, whose connector has not drifted from the binding
    (implementation, endpoint, CA and network), and which the egress policy
    binds on the ephemeral route.  The calls then are reads and verifications of
    the actions in order, and an action is only read when those before it were
    verified. *)
Theorem direct_reads_gated {A W : Type} `{Authenticator A} env
    (self : DirectReadSession (A := A) (W := W)) plan s :
  let '(_, s') := execute_direct env self plan s in
  rs_database s' = rs_database s
  ∧ ∃ l, rs_trace s' = rs_trace s ++ l
    ∧ (l = [] ∨ ∃ p bindings, execution_snapshot plan = Ok p ∧ admitted self p bindings
        ∧ reads_in_order (combine (cp_actions p) bindings) l).
Proof.
  destruct (execute_direct env self plan s) as [r s'] eqn:E.
  destruct (execute_direct_outcome _ _ _ _ _ _ E) as (l & [Hd Ht] & Ho).
  split; [exact Hd|]. exists l. split; [exact Ht|].
  destruct Ho as [[-> _]|(p & bindings & Hp & Ha & Hr)]; [by left|right].
  exists p, bindings. split_and!; [done|done|]. destruct r as [report|e].
  - destruct Hr as [Hr _]. by eapply delivered_in_order.
  - by destruct Hr.
Qed.

Lemma delivered_reads_spec bound l reports : delivered_reads bound l reports →
  Forall2 (λ ab rep, ∃ l', (∀ e, e ∈ l' → e ∈ l) ∧ delivered_read ab l' rep) bound reports.
Proof.
  induction 1 as [|ab l1 rep bound l2 reports Hd Hds IH]; constructor.
  - exists l1. split; [intros e He; apply elem_of_app; by left|done].
  - eapply Forall2_impl; [exact IH|]. intros ab' rep' (l' & Hl & Hd'). exists l'.
    split; [intros e He; apply elem_of_app; right; by apply Hl|done].
Qed.

(** Data of high sensitivity has no ephemeral route. *)
Lemma ephemeral_insensitive raw policy action d connector audit mode b :
  policy_from_mapping raw = Ok policy →
  bind_egress policy action d connector EPHEMERAL audit mode = Ok b →
  aa_data_classification action ∉ HIGH_SENSITIVITY ∧ eb_route b = EPHEMERAL
  ∧ contract_wf b.
Proof.
  intros Hpol Hb. apply policy_from_mapping_wf in Hpol. rewrite Forall_forall in Hpol.
  apply bind_egress_Ok in Hb
    as (shape & (Hg & [Hd _] & _) & _ & _ & _ & _ & _ & Hro & _ & _ & _ & _ & _ & _ & _ & Hwf).
  split_and!; [|done|by apply post_init_contract]. intros Hhigh.
  apply governs_matches in Hg as [Hin [Hcl Hrt]%rule_matches_inv].
  destruct (rule_wf_sensitive _ _ (Hpol _ Hin) Hd Hhigh Hcl) as [Er _].
  rewrite Er in Hrt. apply list_elem_of_singleton in Hrt. done.
Qed.

(** What a direct read session reports of an action. *)
Definition confined_report (self_binding : ConnectorExecutionBinding)
    (policy : ProviderDataEgressPolicy) (trace : list event) (a : AgentAction)
    (rep : DirectReadActionReport) : Prop :=
  dar_action_id rep = aa_action_id a ∧ dar_capability rep = aa_capability a
  ∧ dar_state rep = VERIFIED
  ∧ aa_data_classification a ∉ HIGH_SENSITIVITY
  ∧ (∃ d, bind_egress policy a d (Some self_binding) EPHEMERAL false "live"
          = Ok (dar_egress rep))
  ∧ within_contract (dar_egress rep) (dp_data (dar_payload rep))
  ∧ ∃ x c v raw,
      Called (CallExecute a) (ReplyResult (Ok x)) ∈ trace
      ∧ Called (CallVerify a c) (ReplyVerification (Ok v)) ∈ trace
      ∧ er_after x = Some raw ∧ er_after c = Some raw ∧ vr_verified v = true
      ∧ sanitize_provider_mapping (dar_egress rep) raw = Ok (dp_data (dar_payload rep)).

(** C17: A direct read returns verified, sanitized and insensitive data only.  When
    a session under a loaded model-context policy returns, its report has one
    entry per action, in order: the action's data is neither confidential nor
    restricted; the connector read it and, given a copy with the same content,
    verified it; and the payload is the sanitized content of that answer, within
    the contract of the binding the policy gives the action on the ephemeral
    route. *)
Theorem direct_read_confined {A W : Type} `{Authenticator A} env
    (self : DirectReadSession (A := A) (W := W)) raw policy plan s report s' :
  policy_from_mapping raw = Ok policy →
  gp_model_context (ds_governance self) = Some policy →
  execute_direct env self plan s = (Ok report, s') →
  ∃ p, execution_snapshot plan = Ok p
    ∧ drr_plan_fingerprint report = ChangePlan_fingerprint p
    ∧ drr_provider report = con_system (ds_connector self)
    ∧ Forall2 (confined_report (ds_execution_binding self) policy (rs_trace s'))
        (cp_actions p) (drr_actions report).
Proof.
  intros Hraw Hpol E.
  destruct (execute_direct_outcome _ _ _ _ _ _ E) as (l & [_ Ht] & [[_ Hr]|Ho]); [done|].
  destruct Ho as (p & bindings & Hp & [_ _ _ _ _ Hact] & Hds & Hrep). exists p.
  split; [exact Hp|]. destruct (direct_read_report_actions _ _ _ _ Hrep) as (_ & Hf & Hs).
  split; [exact Hf|]. split; [exact Hs|]. clear Hrep Hf Hs.
  apply delivered_reads_spec in Hds.
  assert (length (cp_actions p) = length bindings) as Hlen by by eapply Forall2_length.
  apply Forall2_same_length_lookup_2.
  { rewrite <- (Forall2_length _ _ _ Hds). symmetry. rewrite length_combine. lia. }
  intros i a rep Ha Hrep.
  destruct (Forall2_lookup_l _ _ _ _ _ Hact Ha) as (b & Hb & Hperm).
  assert (combine (cp_actions p) bindings !! i = Some (a, b)) as Hab
    by (by apply lookup_zip_Some).
  pose proof (Forall2_lookup_lr _ _ _ _ _ _ Hds Hab Hrep) as (l' & Hl & Hd).
  destruct Hperm as (_&_&_&_&_&_&_&_&_&_&_&pol&d&Hpol'&_&_&_&Hbind).
  rewrite Hpol in Hpol'. injection Hpol' as <-.
  destruct (ephemeral_insensitive _ _ _ _ _ _ _ _ Hraw Hbind) as (Hlow & _ & Hwf).
  destruct Hd as (x&c&v&content&->&_&_&Hx&Hc&_&Hv&Hid&Hcap&Hst&_&<-&Hs&_).
  rewrite Ht. do 4 (split; [done|]). split; [by exists d|].
  split; [by eapply sanitized_within|].
  exists x, c, v, content. split_and!; [..|done|done|done|done].
  - apply elem_of_app. right. apply Hl. by left.
  - apply elem_of_app. right. apply Hl. right. by left.
Qed.

(** C19: What a direct read raises tells nothing of what the provider answered.  An
    error raised after a provider call is one of a list fixed by the session and
    the plan: the one opaque message for every failure of the read, its checks
    or its sanitization; that an action was not verified, or had no payload; the
    session's own budget or review.  The one exception is an exception of none
    of the seven classes the session names that the connector itself raised in
    the very last call: that one passes as it is. *)
Theorem direct_read_errors_opaque {A W : Type} `{Authenticator A} env
    (self : DirectReadSession (A := A) (W := W)) plan s e s' :
  execute_direct env self plan s = (Err e, s') →
  rs_trace s' ≠ rs_trace s →
  ∃ p, execution_snapshot plan = Ok p
    ∧ (public_error self p e ∨ ¬ named_class e ∧ last_raised (rs_trace s') e).
Proof.
  intros E Hne.
  destruct (execute_direct_outcome _ _ _ _ _ _ E) as (l & [_ Ht] & [[-> _]|Ho]).
  { by rewrite app_nil_r in Ht. }
  destruct Ho as (p & bindings & Hp & _ & _ & He). exists p. split; [done|].
  destruct He as [He|[Hn Hr]]; [by left|right]. split; [done|]. rewrite Ht. by apply last_raised_app.
Qed.

(** ** Witnesses *)

(** A session over a connector that answers with [answer]. *)
Definition live_binding : ConnectorExecutionBinding := {|
  ceb_system := "jira"; ceb_deployment := "cloud"; ceb_config_identity_sha256 := some_digest;
  ceb_resolved_base_url := "https://jira.example/rest"; ceb_resolved_origin := "https://jira.example";
  ceb_implementation := "native"; ceb_authentication_mode := "oauth_delegated";
  ceb_credential_scopes := []; ceb_credential_identity := Some "ann";
  ceb_ca_bundle_path := None; ceb_ca_bundle_sha256 := None;
  ceb_network_profile_name := "direct"; ceb_network_profile_sha256 := None;
  ceb_proxy_origin := None |}.

Definition live_connector (answer : AgentAction → result ExecutionResult) : Connector unit := {|
  con_system := "jira";
  con_capabilities := ["jira.issue.read"];
  con_is_mock := false;
  con_view := mk_ConnectorView (Some "oauth_delegated") (Some some_digest) (Some "native")
    (Some "https://jira.example/rest") None None "direct" None None false;
  con_http_config := Some (10, 4096);
  con_execute := λ action w, (answer action, w);
  con_verify := λ action _ w, (Ok (mk_VerificationResult (aa_action_id action) true None "same"), w);
  con_verify_completed := None;
  con_idempotency_record := None;
  con_compensation := None |}.

Definition direct_profile : GovernanceProfile ProviderDataEgressPolicy := {|
  gp_organization := "acme"; gp_environment := PRODUCTION; gp_secret_manager := "vault";
  gp_audit_sink := "none"; gp_external_model_policy := "deny";
  gp_rules := [{| gr_pattern := "jira.*"; gr_owner := "ops"; gr_authentication := "oauth";
                  gr_data_classifications := [INTERNAL]; gr_approval_tier := AUTOMATIC;
                  gr_environments := [PRODUCTION]; gr_enabled := true |}];
  gp_metadata := [("allow_ephemeral_direct_reads", JBool true)];
  gp_model_context := Some sample_policy |}.

Definition direct_session (answer : AgentAction → result ExecutionResult)
    : DirectReadSession (A := HmacApprovalAuthenticator) (W := unit) :=
  mk_DirectReadSession read_catalog direct_profile run_policy [] (live_connector answer)
    live_binding None.

Definition direct_action : AgentAction := {|
  aa_capability := "jira.issue.read";
  aa_target := aa_target read_action;
  aa_parameters := [("limit", JInt 5)];
  aa_risk := READ_ONLY;
  aa_authority_source := DIRECT_USER;
  aa_requires_approval := false;
  aa_idempotency_key := "read-3";
  aa_justification := "read the issue";
  aa_data_classification := INTERNAL;
  aa_dependencies := [];
  aa_action_id := 4 |}.

Definition direct_plan : result ChangePlan := Eval vm_compute in
  bind_static_intervention_governance
    (mk_ChangePlan "close" [direct_action] "planner" 22 (sample_time 9) "1.0"
       None None false None None None [] None false) run_assessment None.

Definition good_answer (action : AgentAction) : result ExecutionResult :=
  ExecutionResult_post_init (aa_action_id action) SUCCEEDED None
    (Some (provider_answer "s3cret")) None "read" None.

Definition direct_run (answer : AgentAction → result ExecutionResult) :=
  execute_direct (run_env 7000) (direct_session answer) (ok_or direct_plan sample_plan)
    (start (initialize empty_database) tt).

Lemma direct_run_reports :
  match (direct_run good_answer).1 with
  | Ok report => match drr_actions report with [_] => true | _ => false end
  | Err _ => false
  end = true.
Proof. check. Qed.

Lemma direct_read_confined_witness :
  ∃ report rep, (direct_run good_answer).1 = Ok report ∧ drr_actions report = [rep]
    ∧ dar_state rep = VERIFIED
    ∧ within_contract (dar_egress rep) (dp_data (dar_payload rep)).
Proof.
  pose proof direct_run_reports as Hr. unfold direct_run in *.
  destruct (execute_direct _ _ _ _) as [r s'] eqn:E. cbn [fst] in *.
  destruct r as [report|]; [|discriminate Hr].
  destruct (drr_actions report) as [|rep [|]] eqn:Ea; [discriminate Hr| |discriminate Hr].
  exists report, rep. split; [reflexivity|]. split; [exact Ea|].
  destruct (direct_read_confined (run_env 7000) (direct_session good_answer) _ _ _ _ _ _
    sample_policy_loaded eq_refl E) as (p&_&_&_&Hf). rewrite Ea in Hf.
  destruct (Forall2_lookup_r _ _ _ 0%nat rep Hf eq_refl) as (a&_&_&_&Hst&_&_&Hw&_).
  split; [exact Hst|exact Hw].
Defined.

(** The provider raises an error that carries content: one of a class the
    session names, and one of another class. *)
Definition leaking_answer (action : AgentAction) : result ExecutionResult :=
  Err (PyRuntimeError "s3cret").
Definition escaping_answer (action : AgentAction) : result ExecutionResult :=
  Err (PyOtherError "AssertionError: s3cret").

Lemma direct_run_raises :
  let '(r, s') := direct_run leaking_answer in
  match r with
  | Ok _ => false
  | Err e => bool_decide (e = provider_read_failed) && negb (length (rs_trace s') =? 0)%nat
  end = true.
Proof. check. Qed.

(** What escapes is what the connector raised. *)
Example direct_run_escapes :
  match (direct_run escaping_answer).1 with
  | Ok _ => false
  | Err e => bool_decide (e = PyOtherError "AssertionError: s3cret")
  end = true.
Proof. check. Qed.

Lemma direct_read_errors_opaque_witness :
  (direct_run leaking_answer).1 = Err provider_read_failed
  ∧ ∃ p, execution_snapshot (ok_or direct_plan sample_plan) = Ok p
      ∧ public_error (direct_session leaking_answer) p provider_read_failed.
Proof.
  pose proof direct_run_raises as Hr. unfold direct_run in *.
  destruct (execute_direct _ _ _ _) as [r s'] eqn:E. cbn [fst].
  destruct r as [|e]; [discriminate Hr|].
  apply andb_true_iff in Hr as [->%bool_decide_eq_true Ht]. split; [reflexivity|].
  destruct (direct_read_errors_opaque _ _ _ _ _ _ E) as (p & Hp & [He|[Hn _]]).
  - intros Hs. rewrite Hs in Ht. discriminate Ht.
  - exists p. split; [exact Hp|exact He].
  - exfalso. exact (Hn I).
Defined.
