(* ===== verification/ReceiptTheorems.v ===== *)
(** * ReceiptTheorems: properties of execution receipts

    A receipt that a run's evidence is built into verifies under its signer; a
    signature belongs to one receipt; and a receipt says nothing of what the
    results contain but its digests. *)

From S2P Require Import Prelude PyText PyJson PyHash PyTime PyDate PyStd JsonCanonical PyJsonLoads.
From S2P Require Import ModelsBase PlatformIdentity ModelsAction ModelsBindings ModelsContext ModelsPlan PlanBinding.
From S2P Require Import ModelsResults Approvals ApprovalTheorems RunMonad Orchestrator Receipts Samples.

Open Scope Z_scope.

#[local] Opaque astimezone_utc isoformat uuid_str hmac_sha256 canonical_ascii.

Section theorems.
Context `{SystemZone}.

(** ** Valid receipts *)

(** What the constructor accepts; it changes nothing. *)
Record receipt_ok (x : ExecutionReceipt) : Prop := {
  ro_schema : xr_schema x = EXECUTION_RECEIPT_SCHEMA;
  ro_fingerprint : is_sha256_hex (xr_plan_fingerprint x) = true;
  ro_anchor : is_sha256_hex (xr_audit_anchor_sha256 x) = true;
  ro_aware : is_aware (xr_created_at x) = true;
  ro_signer : xr_signer_key_id x ≠ "";
  ro_signature : xr_signature x = "" ∨ is_sha256_hex (xr_signature x) = true;
  ro_claims : Forall (λ d, all_finite (JDict d) = true) (xr_approval_claims x);
  ro_capsules : Forall (λ d, all_finite (JDict d) = true) (xr_capsule_bindings x);
  ro_outcomes : Forall (λ d, all_finite (JDict d) = true) (xr_action_outcomes x);
}.

Lemma mapM_freeze l l' :
  mapM freeze_json_mapping l = Ok l' ↔ Forall (λ d, all_finite (JDict d) = true) l ∧ l' = l.
Proof.
  rewrite mapM_Ok. split.
  - induction 1 as [|d d' l l' Hd _ [IH ->]]; [by split|].
    apply freeze_json_mapping_Ok in Hd as [Hd ->]. split; [by constructor|done].
  - intros [Hl ->]. apply Forall_Forall2_diag. eapply Forall_impl; [exact Hl|].
    intros d Hd. by apply freeze_json_mapping_Ok.
Qed.

Lemma post_init_receipt x y : ExecutionReceipt_post_init x = Ok y ↔ receipt_ok x ∧ y = x.
Proof.
  unfold ExecutionReceipt_post_init, receipt_sha256_text. split.
  - intros Hx. inv_ok.
    repeat match goal with
    | E : mapM freeze_json_mapping _ = Ok _ |- _ => apply mapM_freeze in E as [? ->]
    end.
    split; [|by destruct x]. split; to_prop; try done.
    destruct (xr_signature x =? "")%string eqn:E; [left; by apply String.eqb_eq|right].
    cbn [negb] in *. inv_ok. by to_prop.
  - intros [[] ->]. rewrite ro_schema0, String.eqb_refl, ro_fingerprint0, ro_anchor0, ro_aware0.
    cbn [negb raise_if mbind result_bind].
    apply String.eqb_neq in ro_signer0. rewrite ro_signer0. cbn [raise_if mbind result_bind].
    assert ((if negb (xr_signature x =? "")%string
             then raise_if (negb (is_sha256_hex (xr_signature x)))
               (ConfigurationError ("execution receipt signature" +:+ " must be a lowercase SHA-256 digest"))
             else Ok tt) = Ok tt) as ->
      by (destruct ro_signature0 as [->| ->]; [done|by destruct (negb _)]).
    cbn [mbind result_bind].
    rewrite (proj2 (mapM_freeze (xr_approval_claims x) _)) by done. cbn [mbind result_bind].
    rewrite (proj2 (mapM_freeze (xr_capsule_bindings x) _)) by done. cbn [mbind result_bind].
    rewrite (proj2 (mapM_freeze (xr_action_outcomes x) _)) by done. cbn [mbind result_bind].
    destruct x; cbn in *; by subst.
Qed.

Lemma dicts_finite l :
  Forall (λ d, all_finite (JDict d) = true) l → all_finite (dicts l) = true.
Proof.
  intros Hl. unfold dicts. cbn [all_finite]. induction Hl as [|d l Hd _ IH]; [done|].
  cbn [map forallb]. by rewrite Hd, IH.
Qed.

(** ** Signatures *)

(** The text a receipt is signed over. *)
Definition signed_text (x : ExecutionReceipt) (text : string) : Prop :=
  ∃ d, unsigned_dict x = Ok d ∧ receipt_json (JDict d) = Ok text.

Lemma signed_text_signature x s text : signed_text x text → signed_text (with_signature x s) text.
Proof. done. Qed.

Lemma unsigned_dict_unsigned x :
  xr_schema x = EXECUTION_RECEIPT_SCHEMA → unsigned_dict (unsigned x) = unsigned_dict x.
Proof. intros E. unfold unsigned_dict. cbn. by rewrite E. Qed.

Lemma receipt_ok_signature x s :
  receipt_ok x → s = "" ∨ is_sha256_hex s = true → receipt_ok (with_signature x s).
Proof. intros [] Hs. by split. Qed.

Lemma sign_Ok signer x y :
  receipt_ok x →
  sign signer x = Ok y ↔
  xr_signer_key_id x = rs_key_id signer
  ∧ ∃ text, signed_text x text ∧ y = with_signature x (hmac_sha256 (rs_secret signer) text).
Proof.
  intros Hx. unfold sign, signed_text. split.
  - intros ([] & Hk%raise_if_Ok & Hs)%bind_Ok. apply negb_false_iff, String.eqb_eq in Hk.
    apply bind_Ok in Hs as (d & Hd & Hs). apply bind_Ok in Hs as (text & Ht & Hs).
    apply post_init_receipt in Hs as [_ ->]. split; [done|]. exists text. by split; [exists d|].
  - intros (Hk & text & (d & Hd & Ht) & ->). apply bind_Ok. exists tt.
    split; [by rewrite Hk, String.eqb_refl|]. apply bind_Ok. exists d. split; [exact Hd|].
    apply bind_Ok. exists text. split; [exact Ht|]. apply post_init_receipt. split; [|done].
    apply receipt_ok_signature; [done|]. right. apply hmac_hex.
Qed.

Lemma verify_Ok signer x :
  receipt_ok x →
  verify_receipt signer x = Ok true ↔
  xr_signer_key_id x = rs_key_id signer
  ∧ ∃ text, signed_text x text ∧ xr_signature x = hmac_sha256 (rs_secret signer) text.
Proof.
  intros Hx. unfold verify_receipt.
  assert (receipt_ok (unsigned x)) as Hu by (destruct Hx; split; try done; by left).
  rewrite (proj2 (post_init_receipt (unsigned x) _)) by done.
  assert (∀ text, signed_text (unsigned x) text ↔ signed_text x text) as Htext
    by (intros text; unfold signed_text; by rewrite unsigned_dict_unsigned by apply Hx).
  split.
  - intros Hv. destruct (xr_signer_key_id x =? rs_key_id signer)%string eqn:Ek; [|done].
    destruct (xr_signature x =? "")%string; [done|]. cbn [negb orb mbind result_bind] in Hv.
    split; [by apply String.eqb_eq|]. apply bind_Ok in Hv as (y & Hy & Hv).
    apply sign_Ok in Hy as (_ & text & Ht & ->); [|done]. exists text.
    split; [by apply Htext|]. unfold compare_digest in Hv. apply bind_Ok in Hv as ([] & _ & [= Hv]).
    symmetry. by apply String.eqb_eq.
  - intros (Hk & text & Ht & Hs). rewrite Hk, String.eqb_refl, Hs.
    assert ((hmac_sha256 (rs_secret signer) text =? "")%string = false) as ->.
    { apply String.eqb_neq. intros E. pose proof (hmac_hex (rs_secret signer) text) as Hh.
      rewrite E in Hh. done. }
    cbn [negb orb mbind result_bind].
    rewrite (proj2 (sign_Ok signer (unsigned x) _ Hu)
      (conj Hk (ex_intro _ text (conj (proj2 (Htext text) Ht) eq_refl)))).
    cbn [mbind result_bind xr_signature with_signature]. unfold compare_digest.
    rewrite hmac_ascii. cbn [andb negb raise_if mbind result_bind]. by rewrite String.eqb_refl.
Qed.

(** ** What the signed text determines *)

(** The values of a receipt are such as Python objects have. *)
Record receipt_wf (x : ExecutionReceipt) : Prop := {
  rw_ok : receipt_ok x;
  rw_receipt_id : uuid_valid (xr_receipt_id x) = true;
  rw_run_id : uuid_valid (xr_run_id x) = true;
  rw_plan_id : uuid_valid (xr_plan_id x) = true;
  rw_claims : forallb json_ok (map JDict (xr_approval_claims x)) = true;
  rw_capsules : forallb json_ok (map JDict (xr_capsule_bindings x)) = true;
  rw_outcomes : forallb json_ok (map JDict (xr_action_outcomes x)) = true;
}.

(** The two receipts are the same up to signature, the order of the keys of their
    mappings and the zone their time is given in. *)
Definition receipts_agree (x y : ExecutionReceipt) : Prop :=
  xr_receipt_id x = xr_receipt_id y ∧ xr_run_id x = xr_run_id y ∧ xr_plan_id x = xr_plan_id y
  ∧ xr_plan_fingerprint x = xr_plan_fingerprint y ∧ xr_dry_run x = xr_dry_run y
  ∧ xr_successful x = xr_successful y
  ∧ Forall2 same_json (xr_approval_claims x) (xr_approval_claims y)
  ∧ Forall2 same_json (xr_capsule_bindings x) (xr_capsule_bindings y)
  ∧ Forall2 same_json (xr_action_outcomes x) (xr_action_outcomes y)
  ∧ xr_audit_anchor_sha256 x = xr_audit_anchor_sha256 y
  ∧ instant (xr_created_at x) = instant (xr_created_at y)
  ∧ xr_signer_key_id x = xr_signer_key_id y.

Lemma dicts_norm_inj l l' : norm (dicts l) = norm (dicts l') → Forall2 same_json l l'.
Proof.
  unfold dicts. cbn [norm]. intros [= E]. rewrite !map_map in E.
  revert l' E. induction l as [|d l IH]; intros [|d' l'] E; try discriminate E; [constructor|].
  cbn [map] in E. apply cons_eq_inv in E as [Ed E]. constructor; [exact Ed|by apply IH].
Qed.

Lemma unsigned_dict_Ok x d :
  unsigned_dict x = Ok d → ∃ u, astimezone_utc (xr_created_at x) = Ok u
    ∧ NoDup (map fst d)
    ∧ (receipt_wf x → json_ok (JDict d) = true)
    ∧ dict_get d "created_at" = JStr (isoformat u).
Proof.
  unfold unsigned_dict. intros (u & Hu & [= <-])%bind_Ok. exists u. split; [done|].
  split; [apply (bool_decide_unpack _); by vm_compute|]. split; [|done].
  intros [_ _ _ _ H1 H2 H3]. cbn [json_ok forallb dicts]. by rewrite H1, H2, H3.
Qed.

Lemma unsigned_dict_agree x y dx dy :
  receipt_wf x → receipt_wf y → unsigned_dict x = Ok dx → unsigned_dict y = Ok dy →
  same_json dx dy → receipts_agree x y.
Proof.
  intros Hx Hy Ex Ey Hs.
  destruct (unsigned_dict_Ok _ _ Ex) as (u & Hu & Nx & _ & Cx).
  destruct (unsigned_dict_Ok _ _ Ey) as (v & Hv & Ny & _ & Cy).
  pose proof (λ k, dict_value _ _ k Nx Ny Hs) as E.
  pose proof (E "created_at") as Ec. rewrite Cx, Cy in Ec. apply JStr_inj in Ec.
  apply astimezone_utc_aware in Hu as [[Vu _]%andb_true_iff Iu]; [|apply Hx].
  apply astimezone_utc_aware in Hv as [[Vv _]%andb_true_iff Iv]; [|apply Hy].
  apply isoformat_inj in Ec; [|done|done]. subst v.
  unfold unsigned_dict in Ex, Ey. apply bind_Ok in Ex as (? & _ & [= <-]).
  apply bind_Ok in Ey as (? & _ & [= <-]).
  destruct Hx, Hy. unfold receipts_agree.
  split; [apply uuid_str_inj; [done|done|exact (JStr_inj _ _ (E "receipt_id"))]|].
  split; [apply uuid_str_inj; [done|done|exact (JStr_inj _ _ (E "run_id"))]|].
  split; [apply uuid_str_inj; [done|done|exact (JStr_inj _ _ (E "plan_id"))]|].
  split; [exact (JStr_inj _ _ (E "plan_fingerprint"))|].
  split; [by injection (E "dry_run")|]. split; [by injection (E "successful")|].
  split; [exact (dicts_norm_inj _ _ (E "approval_claims"))|].
  split; [exact (dicts_norm_inj _ _ (E "capsule_bindings"))|].
  split; [exact (dicts_norm_inj _ _ (E "action_outcomes"))|].
  split; [exact (JStr_inj _ _ (E "audit_anchor_sha256"))|].
  split; [congruence|]. exact (JStr_inj _ _ (E "signer_key_id")).
Qed.
End theorems.

(** C20: The signature of a receipt belongs to one receipt.  If a signer verifies
    two receipts that bear the same signature, they agree on receipt, run and
    plan, the plan's fingerprint, the outcome, the approval claims, capsules and
    action outcomes, the audit anchor, the time and the signer, unless the two
    signed texts are an HMAC collision under the signer's key. *)
Theorem receipt_signature_binds `{SystemZone} signer x y :
  receipt_wf x → receipt_wf y →
  verify_receipt signer x = Ok true → verify_receipt signer y = Ok true →
  xr_signature x = xr_signature y →
  (∀ s t, signed_text x s → signed_text y t → ¬ hmac_collide (rs_secret signer) s t) →
  receipts_agree x y.
Proof.
  intros Wx Wy (_ & s & (dx & Hdx & Hs) & Sx)%verify_Ok (_ & t & (dy & Hdy & Ht) & Sy)%verify_Ok
    Heq Hc; [|apply Wy|apply Wx].
  eapply unsigned_dict_agree; [done|done|exact Hdx|exact Hdy|].
  destruct (unsigned_dict_Ok _ _ Hdx) as (_ & _ & _ & Jx & _).
  destruct (unsigned_dict_Ok _ _ Hdy) as (_ & _ & _ & Jy & _).
  unfold receipt_json, dumps_ascii in Hs, Ht.
  assert (s = t) as ->.
  { destruct (decide (s = t)) as [|Hn]; [done|]. exfalso. apply (Hc s t).
    - by exists dx.
    - by exists dy.
    - split; [done|]. congruence. }
  apply canonical_ascii_inj; [by apply Jx|by apply Jy|].
  destruct (all_finite (JDict dx)), (all_finite (JDict dy)); congruence.
Qed.

(** ** Building *)

(** What an outcome of a receipt says of the report of an action. *)
Definition outcome_of {B} (item : ActionReport B) (d : dict) : Prop :=
  dict_get d "action_id" = JStr (uuid_str (ar_action_id item))
  ∧ dict_get d "capability" = JStr (ar_capability item)
  ∧ dict_get d "state" = JStr (enum_str (ar_state item))
  ∧ dict_get d "policy_permitted"
    = JBool (negb (bool_decide (ar_state item ∈ [PROHIBITED; APPROVAL_REQUIRED])))
  ∧ dict_get d "readback_verified"
    = JBool (bool_decide (ar_state item ∈ [VERIFIED; REUSED]))
  ∧ ∃ before after, mapping_digest (ar_result item ≫= er_before) = Ok before
      ∧ mapping_digest (ar_result item ≫= er_after) = Ok after
      ∧ dict_get d "result_before_sha256" = opt_json JStr before
      ∧ dict_get d "result_after_sha256" = opt_json JStr after.

Lemma action_outcome_of {B} (item : ActionReport B) d :
  action_outcome item = Ok d → outcome_of item d.
Proof.
  unfold action_outcome. intros (before & Hb & Ho)%bind_Ok. apply bind_Ok in Ho as (after & Ha & Ho).
  apply bind_Ok in Ho as (c & _ & [= <-]). unfold outcome_of.
  do 3 (split; [done|]). split; [by destruct (ar_state item)|].
  split; [by destruct (ar_state item)|]. by exists before, after.
Qed.

Section building.
Context `{SystemZone} {B : Type}.

Lemma build_Ok plan (report : RunReport (B := B)) approvals anchor signer fresh now r :
  build_execution_receipt plan report approvals anchor signer fresh now = Ok r →
  rr_plan_id report = cp_plan_id plan ∧ rr_plan_fingerprint report = ChangePlan_fingerprint plan
  ∧ ∃ outcomes created_at x text,
      mapM action_outcome (rr_actions report) = Ok outcomes
      ∧ astimezone_utc now = Ok created_at
      ∧ x = mk_ExecutionReceipt fresh (rr_run_id report) (cp_plan_id plan)
              (ChangePlan_fingerprint plan) (rr_dry_run report) (successful report)
              (receipt_approvals (ChangePlan_fingerprint plan) approvals)
              (match cp_execution_context plan with
               | Some context => map CapsuleBinding_to_dict (ec_capsules context)
               | None => []
               end) outcomes anchor created_at (rs_key_id signer) "" EXECUTION_RECEIPT_SCHEMA
      ∧ receipt_ok x ∧ signed_text x text
      ∧ r = with_signature x (hmac_sha256 (rs_secret signer) text).
Proof.
  unfold build_execution_receipt. intros ([] & Hid%raise_if_Ok & Hb)%bind_Ok.
  apply orb_false_iff in Hid as [Hid Hf]. apply negb_false_iff in Hid, Hf.
  apply bool_decide_eq_true in Hid. apply String.eqb_eq in Hf.
  apply bind_Ok in Hb as (outcomes & Ho & Hb). apply bind_Ok in Hb as (created_at & Hc & Hb).
  apply bind_Ok in Hb as (x & Hx & Hb). apply post_init_receipt in Hx as [Hx ->].
  apply sign_Ok in Hb as (_ & text & Ht & Hr); [|done].
  split; [done|]. split; [done|]. by eexists outcomes, created_at, _, text.
Qed.
End building.

(** A receipt is evidence of one run of one plan.  A receipt that was built
    verifies under its signer, and names the run, the plan and its fingerprint,
    which are those the report states, and the instant it was made; its action
    outcomes are those of the report, in order: identity, capability and state,
    whether policy permitted the action, whether it was read back, and the
    digests of the states before and after; its approval claims are those of the
    given approvals that are bound to this very plan. *)
Theorem built_receipt_verifies `{SystemZone} {B} plan (report : RunReport (B := B)) approvals
    anchor signer fresh now r :
  build_execution_receipt plan report approvals anchor signer fresh now = Ok r →
  verify_receipt signer r = Ok true
  ∧ xr_run_id r = rr_run_id report ∧ xr_plan_id r = cp_plan_id plan
  ∧ cp_plan_id plan = rr_plan_id report
  ∧ xr_plan_fingerprint r = ChangePlan_fingerprint plan
  ∧ ChangePlan_fingerprint plan = rr_plan_fingerprint report
  ∧ xr_successful r = successful report ∧ xr_dry_run r = rr_dry_run report
  ∧ xr_audit_anchor_sha256 r = anchor
  ∧ (is_aware now = true → instant (xr_created_at r) = instant now)
  ∧ Forall2 outcome_of (rr_actions report) (xr_action_outcomes r)
  ∧ ∀ claim, claim ∈ xr_approval_claims r →
      ∃ approval subject, (approval, subject) ∈ approvals
        ∧ ap_plan_fingerprint approval = ChangePlan_fingerprint plan
        ∧ claim = approval_claim approval subject.
Proof.
  intros (Hid & Hf & outcomes & created_at & x & text & Ho & Hc & Ex & Hx & Ht & ->)%build_Ok.
  assert (receipt_ok (with_signature x (hmac_sha256 (rs_secret signer) text))) as Hr
    by (apply receipt_ok_signature; [done|]; right; apply hmac_hex).
  split.
  { apply verify_Ok; [done|]. split; [by rewrite Ex|]. exists text. split; [by apply signed_text_signature|done]. }
  rewrite Ex. cbn [with_signature xr_run_id xr_plan_id xr_plan_fingerprint xr_successful xr_dry_run
    xr_audit_anchor_sha256 xr_created_at xr_action_outcomes xr_approval_claims].
  do 8 (split; [done|]). split.
  { intros Ha. by eapply astimezone_utc_aware. }
  split.
  - apply mapM_Ok in Ho. eapply Forall2_impl; [exact Ho|]. intros item d. apply action_outcome_of.
  - intros claim ([approval subject] & -> & Hin)%list_elem_of_fmap.
    apply list_elem_of_In, filter_In in Hin as [Hin%list_elem_of_In Hp%String.eqb_eq].
    by exists approval, subject.
Qed.

(** Two reports of an action that show the same digests. *)
Definition same_evidence {B} (a b : ActionReport B) : Prop :=
  ar_action_id a = ar_action_id b ∧ ar_capability a = ar_capability b
  ∧ ar_state a = ar_state b
  ∧ reference_digest (ar_result a) = reference_digest (ar_result b)
  ∧ mapping_digest (ar_result a ≫= er_before) = mapping_digest (ar_result b ≫= er_before)
  ∧ mapping_digest (ar_result a ≫= er_after) = mapping_digest (ar_result b ≫= er_after)
  ∧ er_state <$> ar_compensation a = er_state <$> ar_compensation b
  ∧ mapping_digest (ar_compensation a ≫= er_after)
    = mapping_digest (ar_compensation b ≫= er_after).

Lemma same_evidence_outcome {B} (a b : ActionReport B) :
  same_evidence a b → action_outcome a = action_outcome b.
Proof.
  intros (E1&E2&E3&E4&E5&E6&E7&E8). unfold action_outcome.
  rewrite E1, E2, E3, E4, E5, E6, E8.
  assert (opt_json (λ c, JStr (enum_str (er_state c))) (ar_compensation a)
          = opt_json (λ c, JStr (enum_str (er_state c))) (ar_compensation b)) as ->; [|done].
  destruct (ar_compensation a), (ar_compensation b); simpl in E7; try discriminate E7; [|done].
  injection E7 as E7. cbn. by rewrite E7.
Qed.

(** A receipt is free of content.  Two runs of a plan whose reports differ only
    in messages, egress bindings, and results that have the same digests of
    their states and reference give the same receipt, or fail in the same way:
    what a result contains reaches the receipt through its digests only. *)
Theorem receipt_content_free `{SystemZone} {B} plan (report report' : RunReport (B := B)) approvals
    anchor signer fresh now :
  rr_run_id report = rr_run_id report' → rr_plan_id report = rr_plan_id report' →
  rr_plan_fingerprint report = rr_plan_fingerprint report' →
  rr_dry_run report = rr_dry_run report' →
  Forall2 same_evidence (rr_actions report) (rr_actions report') →
  build_execution_receipt plan report approvals anchor signer fresh now
  = build_execution_receipt plan report' approvals anchor signer fresh now.
Proof.
  intros E1 E2 E3 E4 Hl. unfold build_execution_receipt. rewrite E1, E2, E3, E4.
  assert (mapM action_outcome (rr_actions report) = mapM action_outcome (rr_actions report')) as ->.
  { clear -Hl. induction Hl as [|a b l l' Hab _ IH]; [done|]. cbn [mapM].
    by rewrite (same_evidence_outcome _ _ Hab), IH. }
  assert (successful report = successful report') as ->; [|done].
  unfold successful. clear -Hl. induction Hl as [|a b l l' Hab _ IH]; [done|].
  cbn [forallb]. destruct Hab as (_&_&->&_). by rewrite IH.
Qed.

(** ** Witnesses *)

#[local] Instance utc_zone : SystemZone := λ _, 0.

Definition receipt_signer : ReceiptSigner := mk_ReceiptSigner "audit" (repeat 7 32).

Definition receipt_result (message : string) : option ExecutionResult :=
  Some (mk_ExecutionResult 1 SUCCEEDED None (Some [("summary", JStr "open")]) (Some "A-1") message
          None "" "").

Definition receipt_report (message : string) : RunReport (B := unit) :=
  mk_RunReport 30 (cp_plan_id sample_plan) (ChangePlan_fingerprint sample_plan) false
    [mk_ActionReport 1 "jira.issue.read" VERIFIED message (receipt_result message) None None] None.

Definition sample_anchor : string := sha256 "anchor".

Definition sample_receipt (message : string) : result ExecutionReceipt :=
  build_execution_receipt sample_plan (receipt_report message) [] sample_anchor receipt_signer 31
    (sample_time 9).

Definition built_receipt : ExecutionReceipt := Eval vm_compute in
  ok_or (sample_receipt "secret") (mk_ExecutionReceipt 0 0 0 "" false false [] [] [] ""
    (sample_time 9) "" "" "").

Lemma built_receipt_built : sample_receipt "secret" = Ok built_receipt.
Proof. check. Qed.

Lemma built_receipt_verifies_witness :
  sample_receipt "secret" = Ok built_receipt
  ∧ verify_receipt receipt_signer built_receipt = Ok true.
Proof.
  split; [exact built_receipt_built|].
  destruct (built_receipt_verifies _ _ _ _ _ _ _ _ built_receipt_built) as [Hv _]. exact Hv.
Defined.

Lemma receipt_content_free_witness : sample_receipt "secret" = sample_receipt "other".
Proof.
  unfold sample_receipt.
  apply (receipt_content_free sample_plan (receipt_report "secret") (receipt_report "other"));
    [reflexivity..|].
  constructor; [|constructor]. do 7 (split; [reflexivity|]). reflexivity.
Defined.

(** The same receipt, its time given two hours east of UTC. *)
Definition moved_receipt : ExecutionReceipt :=
  mk_ExecutionReceipt (xr_receipt_id built_receipt) (xr_run_id built_receipt)
    (xr_plan_id built_receipt) (xr_plan_fingerprint built_receipt) (xr_dry_run built_receipt)
    (xr_successful built_receipt) (xr_approval_claims built_receipt)
    (xr_capsule_bindings built_receipt) (xr_action_outcomes built_receipt)
    (xr_audit_anchor_sha256 built_receipt)
    (with_offset (of_instant (instant (xr_created_at built_receipt) + 7200000000)) (Some 7200))
    (xr_signer_key_id built_receipt) (xr_signature built_receipt) (xr_schema built_receipt).

Lemma sample_receipts_wf : receipt_wf built_receipt ∧ receipt_wf moved_receipt.
Proof.
  split; (split; [|check..]); (split; [check..| |right; check|repeat constructor|constructor|
    repeat constructor]); discriminate.
Qed.

Lemma sample_receipts_verify :
  verify_receipt receipt_signer built_receipt = Ok true
  ∧ verify_receipt receipt_signer moved_receipt = Ok true.
Proof. split; check. Qed.

Lemma receipt_signature_binds_witness :
  xr_created_at built_receipt ≠ xr_created_at moved_receipt
  ∧ receipts_agree built_receipt moved_receipt.
Proof.
  split; [intros E%(f_equal dt_utcoffset); discriminate E|].
  destruct sample_receipts_wf as [W1 W2]. destruct sample_receipts_verify as [V1 V2].
  apply (receipt_signature_binds receipt_signer built_receipt moved_receipt W1 W2 V1 V2 eq_refl).
  intros s t (d & Hd & Hs) (d' & Hd' & Ht) [Hn _]. apply Hn.
  assert (unsigned_dict built_receipt = unsigned_dict moved_receipt) as E by check. congruence.
Defined.
