(* ===== verification/AdvisoryTheorems.v ===== *)
(** * AdvisoryTheorems: properties of advisory delegation

    The durable budget implements a map from goals to counters, its rows cannot be
    exchanged, and a broker on it calls a child at most so often for a goal,
    whatever the sessions do.  What may be handed to a child is characterised
    without the traversal. *)

From S2P Require Import Prelude PyText PyJson PyHash PyTime PyDate PyStd PySql JsonCanonical PyJsonLoads PlatformIdentity.
From S2P Require Import ModelsBase Capabilities Security SecurityTheorems ModelsResults Approvals ApprovalTheorems.
From S2P Require Import Advisory AdvisoryBudget.
From stdpp Require Import gmap strings.
From Stdlib Require Import FunctionalExtensionality.

Open Scope Z_scope.

#[local] Opaque sha256 hmac_sha256 canonical_ascii.

(** ** The abstract budget *)

(** The attempts counted for each goal. *)
Abbreviation ledger_of_goals := (gmap string (Z * Z)).

Definition attempts (role : AdvisoryRole) (counts : Z * Z) : Z :=
  match role with RESEARCH => counts.1 | PLAN_REVIEW => counts.2 end.

Definition one_more (role : AdvisoryRole) (counts : Z * Z) : Z * Z :=
  match role with
  | RESEARCH => (counts.1 + 1, counts.2)
  | PLAN_REVIEW => (counts.1, counts.2 + 1)
  end.

Definition counted (m : ledger_of_goals) (digest : string) : Z * Z := default (0, 0) (m !! digest).

(** An attempt below the limit of its role is granted and counted; one at the
    limit is refused and changes nothing, as does an invalid request. *)
Definition spec_reserve (goal_id : string) (role : AdvisoryRole) (max_research max_reviews : Z)
    (m : ledger_of_goals) : result AdvisoryBudgetReservation * ledger_of_goals :=
  let limit := match role with RESEARCH => max_research | PLAN_REVIEW => max_reviews end in
  match goal_digest goal_id with
  | Err e => (Err e, m)
  | Ok digest =>
      let counts := counted m digest in
      let next := one_more role counts in
      if (max_research <=? 0) || (max_reviews <=? 0)
      then (Err (PyValueError "advisory budget limits must be positive"), m)
      else if bool_decide (m !! digest = None) && (MAX_GOAL_RECORDS <=? Z.of_nat (size m))
      then (Err (AdvisoryBudgetStateError "advisory budget record limit is exhausted"), m)
      else if limit <=? attempts role counts
      then (Ok (mk_AdvisoryBudgetReservation false counts.1 counts.2), m)
      else match check_sqlite_int next.1;; check_sqlite_int next.2 with
           | Err e => (Err e, m)
           | Ok _ => (Ok (mk_AdvisoryBudgetReservation true next.1 next.2), <[digest := next]> m)
           end
  end.

Lemma select_digest d rows :
  select_where (λ r, (gb_goal_digest r =? d)%string) rows = row_of gb_goal_digest d rows.
Proof.
  unfold row_of, select_where. induction rows as [|r rows IH]; [done|]. cbn.
  rewrite IH. destruct (String.eqb_spec (gb_goal_digest r) d); by case_bool_decide.
Qed.

(** ** What a table represents *)

Section store.
Context (self : AdvisoryBudgetStore).

Abbreviation row := (row_of gb_goal_digest).

(** One signed row for each goal of the map. *)
Record represents (m : ledger_of_goals) (db : budget_database) : Prop := {
  re_columns : bd_columns db = Some SCHEMA_COLUMNS;
  re_size : length (bd_rows db) = size m;
  re_rows : ∀ d, row d (bd_rows db) = signed_row self d <$> m !! d;
  re_key : NoDup (map gb_goal_digest (bd_rows db));
  re_counts : map_Forall (λ _ c, 0 ≤ c.1 ∧ 0 ≤ c.2) m;
}.

Lemma verified_signed d c :
  0 ≤ c.1 → 0 ≤ c.2 → verified_counts self d (signed_row self d c) = Ok c.
Proof.
  intros H1%Z.ltb_ge H2%Z.ltb_ge. destruct c as [x y]. cbn [fst snd] in *.
  unfold verified_counts, signed_row, compare_digest, budget_tag.
  cbn [gb_repository_digest gb_research_attempts gb_review_attempts gb_tag fst snd].
  rewrite String.eqb_refl, H1, H2. cbn [negb orb]. rewrite hmac_ascii.
  cbn [andb negb raise_if mbind result_bind]. by rewrite String.eqb_refl.
Qed.

Lemma represents_counts m db d :
  represents m db → 0 ≤ (counted m d).1 ∧ 0 ≤ (counted m d).2.
Proof.
  intros Hr. unfold counted. destruct (m !! d) as [c|] eqn:E; cbn; [|lia].
  exact (re_counts _ _ Hr d c E).
Qed.

Lemma current_represents m db d :
  represents m db →
  current_counts self d db
  = if bool_decide (m !! d = None) && (MAX_GOAL_RECORDS <=? Z.of_nat (size m))
    then Err (AdvisoryBudgetStateError "advisory budget record limit is exhausted")
    else Ok (counted m d).
Proof.
  intros Hr. unfold current_counts.
  rewrite select_digest, (re_rows _ _ Hr), (re_size _ _ Hr). pose proof (represents_counts _ _ d Hr) as [? ?].
  unfold counted in *. destruct (m !! d) as [c|] eqn:E; cbn [fmap option_fmap option_map default] in *.
  - rewrite bool_decide_false by done. by apply verified_signed.
  - rewrite bool_decide_true by done. cbn [andb]. rewrite Z.ltb_antisym, negb_involutive.
    by destruct (MAX_GOAL_RECORDS <=? Z.of_nat (size m)).
Qed.

Lemma count_attempt_spec role x y c :
  count_attempt role x y c
  = if (match role with RESEARCH => x | PLAN_REVIEW => y end) <=? attempts role c
    then (false, c) else (true, one_more role c).
Proof.
  destruct c as [a b], role; unfold count_attempt; cbn [attempts one_more fst snd];
    rewrite Z.leb_antisym; by destruct (_ <? _).
Qed.

(** [upsert] sets the row of the key, or appends one. *)
Definition replaced_by (r r' : goal_budget) : goal_budget :=
  if decide (gb_goal_digest r' = gb_goal_digest r) then r else r'.

Lemma replaced_key r r' : gb_goal_digest (replaced_by r r') = gb_goal_digest r'.
Proof. unfold replaced_by. by case_decide. Qed.

Lemma upsert_row r rows :
  upsert r rows
  = if decide (row (gb_goal_digest r) rows = None) then rows ++ [r]
    else set_row gb_goal_digest (gb_goal_digest r) (replaced_by r) rows.
Proof.
  unfold upsert. destruct (existsb _ rows) eqn:E.
  - rewrite decide_False.
    + apply map_ext. intros r'. unfold replaced_by.
      destruct (String.eqb_spec (gb_goal_digest r') (gb_goal_digest r)).
      * by rewrite bool_decide_true, decide_True.
      * by rewrite bool_decide_false.
    + intros Hn%row_of_None. apply Hn. apply existsb_exists in E as (r' & Hin & E%String.eqb_eq).
      rewrite <- E. apply list_elem_of_fmap. exists r'. split; [done|by apply list_elem_of_In].
  - rewrite decide_True; [done|]. apply row_of_None. intros (r' & Hk & Hin)%list_elem_of_fmap.
    enough (existsb (λ x, (gb_goal_digest x =? gb_goal_digest r)%string) rows = true) by congruence.
    apply existsb_exists. exists r'. split; [by apply list_elem_of_In|]. by rewrite Hk, String.eqb_refl.
Qed.

Lemma upsert_keys r rows :
  map gb_goal_digest (upsert r rows)
  = if decide (row (gb_goal_digest r) rows = None)
    then map gb_goal_digest rows ++ [gb_goal_digest r] else map gb_goal_digest rows.
Proof.
  rewrite upsert_row. destruct (decide _); [apply map_app|].
  apply set_row_keys, replaced_key.
Qed.

Lemma row_upsert r rows d :
  row d (upsert r rows) = if decide (d = gb_goal_digest r) then Some r else row d rows.
Proof.
  rewrite upsert_row. destruct (decide (row (gb_goal_digest r) rows = None)) as [Hn|Hn].
  - rewrite row_of_snoc. destruct (decide (d = gb_goal_digest r)) as [->|Hd].
    + by rewrite Hn, bool_decide_true.
    + rewrite bool_decide_false by congruence. by destruct (row d rows).
  - rewrite row_of_set_row by apply replaced_key. destruct (decide (d = gb_goal_digest r)); [|done].
    destruct (row (gb_goal_digest r) rows) as [r'|] eqn:E; [|done]. cbn. f_equal.
    apply row_of_key in E. unfold replaced_by. by rewrite decide_True.
Qed.

Lemma represents_insert m db d c :
  represents m db → 0 ≤ c.1 → 0 ≤ c.2 →
  represents (<[d := c]> m)
    (mk_budget_database (bd_columns db) (upsert (signed_row self d c) (bd_rows db))).
Proof.
  intros Hr H1 H2. pose proof (re_rows _ _ Hr d) as Hd.
  split; cbn [bd_columns bd_rows]; [apply Hr|..].
  - rewrite <- (length_map gb_goal_digest), upsert_keys. cbn [gb_goal_digest signed_row]. rewrite Hd.
    rewrite map_size_insert. destruct (m !! d); cbn [fmap option_fmap option_map].
    + rewrite decide_False by done. rewrite length_map. apply Hr.
    + rewrite decide_True by done. rewrite length_app, length_map, (re_size _ _ Hr). cbn. lia.
  - intros d'. rewrite row_upsert. cbn [gb_goal_digest signed_row].
    rewrite (re_rows _ _ Hr). destruct (decide (d' = d)) as [->|Hne].
    + by rewrite lookup_insert_eq.
    + by rewrite lookup_insert_ne by congruence.
  - rewrite upsert_keys. cbn [gb_goal_digest signed_row].
    destruct (decide _) as [Hn|_]; [|apply Hr].
    apply row_of_None in Hn. apply NoDup_app. split; [apply Hr|].
    split; [|apply NoDup_singleton]. intros x Hx Hx'. apply list_elem_of_singleton in Hx' as ->. done.
  - apply map_Forall_insert_2; [done|apply Hr].
Qed.

(** One reservation, in lock step. *)
Lemma reserve_represents m db goal_id role x y :
  represents m db →
  let '(r, m') := spec_reserve goal_id role x y m in
  let '(r', db') := reserve_attempt self goal_id role x y db in
  r' = r ∧ represents m' db'.
Proof.
  intros Hr. unfold spec_reserve, reserve_attempt. destruct (goal_digest goal_id) as [d|e]; [|done].
  destruct ((x <=? 0) || (y <=? 0)); [done|]. unfold atomically.
  rewrite (current_represents m) by done. destruct (bool_decide _ && _); [done|].
  rewrite Ok_bind, count_attempt_spec. pose proof (represents_counts _ _ d Hr) as [? ?].
  destruct (_ <=? attempts role _); [by destruct db|].
  assert (0 ≤ (one_more role (counted m d)).1 ∧ 0 ≤ (one_more role (counted m d)).2) as [? ?]
    by (destruct role; cbn [one_more fst snd]; lia).
  cbn beta iota.
  destruct (check_sqlite_int (one_more role (counted m d)).1) as [[]|e];
    rewrite ?Ok_bind, ?Err_bind; [|done].
  destruct (check_sqlite_int (one_more role (counted m d)).2) as [[]|e];
    rewrite ?Ok_bind, ?Err_bind; [|done].
  split; [done|]. by apply represents_insert.
Qed.
End store.

(** ** Histories of a store *)

(** What a process does with the store: open it, or reserve an attempt. *)
Inductive budget_call : Type :=
  | Open_store
  | Reserve_goal (goal_id : string) (role : AdvisoryRole) (max_research max_reviews : Z).

Inductive budget_reply : Type :=
  | Opened (r : result unit)
  | Reserved (r : result AdvisoryBudgetReservation).

Definition store_call (self : AdvisoryBudgetStore) (c : budget_call) (db : budget_database)
    : budget_reply * budget_database :=
  match c with
  | Open_store => let '(r, db) := initialize_budget db in (Opened r, db)
  | Reserve_goal g role x y => let '(r, db) := reserve_attempt self g role x y db in (Reserved r, db)
  end.

Definition spec_call (c : budget_call) (m : ledger_of_goals) : budget_reply * ledger_of_goals :=
  match c with
  | Open_store => (Opened (Ok tt), m)
  | Reserve_goal g role x y => let '(r, m) := spec_reserve g role x y m in (Reserved r, m)
  end.

Lemma open_represents self m db :
  represents self m db → initialize_budget db = (Ok tt, db).
Proof.
  intros [Hc _ _ _ _]. destruct db. cbn in Hc. by subst.
Qed.

Lemma call_represents self c m db :
  represents self m db →
  (store_call self c db).1 = (spec_call c m).1
  ∧ represents self (spec_call c m).2 (store_call self c db).2.
Proof.
  intros Hr. destruct c as [|g role x y]; cbn.
  - by rewrite (open_represents self m) by done.
  - pose proof (reserve_represents self m db g role x y Hr) as H.
    destruct (spec_reserve _ _ _ _ m), (reserve_attempt _ _ _ _ _ db). by destruct H as [-> ?].
Qed.

(** The database before any process opened it. *)
Definition new_database : budget_database := mk_budget_database None [].

Definition opened_database : budget_database := mk_budget_database (Some SCHEMA_COLUMNS) [].

Lemma open_new : initialize_budget new_database = (Ok tt, opened_database).
Proof. done. Qed.

Lemma represents_opened self : represents self ∅ opened_database.
Proof. split; [done..|apply NoDup_nil_2|apply map_Forall_empty]. Qed.

(** C22: The durable budget implements a map of counters.  From the new database,
    any history of openings and reservations, with any goals, roles and limits,
    answers as the specification does on a map from goal digests to counters,
    errors included: the record limit, the bounds of an integer column and
    invalid requests.  The table then holds exactly one row per goal of the map,
    and each row authenticates under the store's key. *)
Theorem budget_refines self (calls : list budget_call) :
  let '(replies, db) := call_all (store_call self) (Open_store :: calls) new_database in
  let '(replies', m) := call_all spec_call (Open_store :: calls) ∅ in
  replies = replies' ∧ represents self m db
  ∧ map_Forall (λ d c, ∃ row, row_of gb_goal_digest d (bd_rows db) = Some row
                              ∧ verified_counts self d row = Ok c) m.
Proof.
  pose proof (call_all_simulates _ _ _ (call_represents self) calls _ _ (represents_opened self)) as [E Hr].
  cbn. rewrite open_new. destruct (call_all (store_call self) calls _) as [rs db], (call_all spec_call calls _) as [rs' m].
  cbn in E, Hr. subst rs'. split; [done|split; [done|]]. intros d c Hd. exists (signed_row self d c).
  rewrite (re_rows _ _ _ Hr), Hd. split; [done|].
  destruct (re_counts _ _ _ Hr d c Hd). by apply verified_signed.
Qed.

(** ** The broker on a durable budget *)

Section broker.
Context (self : AdvisoryBudgetStore) {W : Type}.

(** One call of [delegate], by any session of any broker that has the store. *)
Record delegation : Type := mk_delegation {
  dg_broker : AdvisoryBroker;
  dg_session : AdvisorySession;
  dg_role : AdvisoryRole;
  dg_payload : dict;
  dg_worker : option (AdvisoryEnvelope → AdvisoryDispatcher → W → result AdvisoryReport * W);
  dg_depth : Z;
}.

(** A child whose calls are logged with the goal they work on. *)
Definition logged (goal : string) (role : AdvisoryRole)
    (w : AdvisoryEnvelope → AdvisoryDispatcher → W → result AdvisoryReport * W)
    : AdvisoryEnvelope → AdvisoryDispatcher → list (string * AdvisoryRole) * W →
      result AdvisoryReport * (list (string * AdvisoryRole) * W) :=
  λ envelope dispatcher '(log, world),
    let '(r, world) := w envelope dispatcher world in (r, (log ++ [(goal, role)], world)).

Definition delegation_step (c : delegation) (s : budget_database * (list (string * AdvisoryRole) * W))
    : result DelegationOutcome * (budget_database * (list (string * AdvisoryRole) * W)) :=
  let goal := as_goal_id (dg_session c) in
  let '(r, _, db, world) :=
    @delegate _ _ (store_budget self) (dg_broker c) (dg_role c) (dg_payload c)
      (logged goal (dg_role c) <$> dg_worker c) (dg_depth c) (dg_session c) s.1 s.2 in
  (r, (db, world)).

Definition calls_of (log : list (string * AdvisoryRole)) (goal : string) (role : AdvisoryRole) : nat :=
  length (List.filter (λ c, (c.1 =? goal)%string && bool_decide (c.2 = role)) log).

Definition role_limit (role : AdvisoryRole) : Z :=
  match role with RESEARCH => MAX_RESEARCH_TASKS | PLAN_REVIEW => MAX_PLAN_REVIEWS end.

(** The calls made are within the attempts counted, and those within the limits. *)
Definition within_budget (m : ledger_of_goals) (log : list (string * AdvisoryRole)) : Prop :=
  ∀ goal role, Z.of_nat (calls_of log goal role) ≤ attempts role (counted m (sha256 goal))
               ≤ role_limit role.

Lemma calls_snoc log g r goal role :
  calls_of (log ++ [(g, r)]) goal role
  = (calls_of log goal role + if decide ((g, r) = (goal, role)) then 1 else 0)%nat.
Proof.
  unfold calls_of. rewrite List.filter_app, length_app. cbn.
  destruct (String.eqb_spec g goal); case_bool_decide; cbn; case_decide; simplify_eq; done.
Qed.

(** A reservation that is granted counts one attempt. *)
Lemma spec_reserve_granted goal role m r m' :
  spec_reserve goal role MAX_RESEARCH_TASKS MAX_PLAN_REVIEWS m = (r, m') →
  m' = m ∧ (∀ x, r = Ok x → br_allowed x = false)
  ∨ attempts role (counted m (sha256 goal)) < role_limit role
    ∧ m' = <[sha256 goal := one_more role (counted m (sha256 goal))]> m.
Proof.
  unfold spec_reserve. destruct (goal_digest goal) as [d|e] eqn:Ed; [|intros [= <- <-]; by left].
  unfold goal_digest in Ed. apply bind_Ok in Ed as ([] & _ & [= <-]).
  change ((MAX_RESEARCH_TASKS <=? 0) || (MAX_PLAN_REVIEWS <=? 0)) with false. cbn [orb].
  destruct (_ && _); [intros [= <- <-]; by left|].
  destruct (_ <=? attempts _ _) eqn:El; [intros [= <- <-]; left; split; [done|]; by intros ? [= <-]|].
  apply Z.leb_gt in El. destruct (_ ≫= _); intros [= <- <-]; [right|by left].
  by destruct role.
Qed.

Lemma counted_insert m d c d' : counted (<[d := c]> m) d' = if decide (d' = d) then c else counted m d'.
Proof.
  unfold counted. destruct (decide (d' = d)) as [->|Hne]; [by rewrite lookup_insert_eq|].
  by rewrite lookup_insert_ne by congruence.
Qed.

Lemma within_count m log goal role :
  within_budget m log → attempts role (counted m (sha256 goal)) < role_limit role →
  let m' := <[sha256 goal := one_more role (counted m (sha256 goal))]> m in
  within_budget m' log ∧ within_budget m' (log ++ [(goal, role)]).
Proof.
  intros Hw Hl. enough (∀ n : string * AdvisoryRole → nat,
    (∀ g r, n (g, r) ≤ calls_of log g r + if decide ((goal, role) = (g, r)) then 1 else 0)%nat →
    ∀ g r, Z.of_nat (n (g, r)) ≤ attempts r (counted
      (<[sha256 goal := one_more role (counted m (sha256 goal))]> m) (sha256 g)) ≤ role_limit r) as Hn.
  { split; intros g r; [apply (Hn (λ c, calls_of log c.1 c.2))|
      apply (Hn (λ c, calls_of (log ++ [(goal, role)]) c.1 c.2))]; intros; cbn; [lia|].
    by rewrite calls_snoc. }
  intros n Hn g r. specialize (Hn g r). pose proof (Hw g r) as Hg. rewrite counted_insert.
  destruct (decide (sha256 g = sha256 goal)) as [E|E]; [rewrite E in Hg|case_decide; simplify_eq; lia].
  destruct role, r; cbn [attempts one_more fst snd] in *; case_decide; simplify_eq; lia.
Qed.

(** What a call leaves: the counters unchanged and no call of the child, or one
    attempt below the limit counted and at most one call of the child. *)
Lemma delegate_budget c db log world m :
  bro_budget (dg_broker c) = true → represents self m db →
  let goal := as_goal_id (dg_session c) in
  let role := dg_role c in
  let s := (delegation_step c (db, (log, world))).2 in
  (represents self m s.1 ∧ s.2.1 = log)
  ∨ attempts role (counted m (sha256 goal)) < role_limit role
    ∧ represents self (<[sha256 goal := one_more role (counted m (sha256 goal))]> m) s.1
    ∧ (s.2.1 = log ∨ s.2.1 = log ++ [(goal, role)]).
Proof.
  intros Hb Hr. unfold delegation_step, delegate. cbn [fst snd].
  destruct (negb (dg_depth c =? 0)); [by left|].
  destruct (as_semantic_route (dg_session c)) as [route|]; [|by left].
  destruct (sanitize_payload (dg_payload c)) as [sanitized|e];
    [|by destruct (is_class _ e); left].
  unfold reserve_role. rewrite Hb. unfold reserve_goal, store_budget.
  pose proof (reserve_represents self m db (as_goal_id (dg_session c)) (dg_role c)
    MAX_RESEARCH_TASKS MAX_PLAN_REVIEWS Hr) as Hs.
  destruct (spec_reserve _ _ _ _ m) as [r m'] eqn:Es.
  destruct (reserve_attempt self _ _ _ _ db) as [r' db']. destruct Hs as [-> Hr'].
  apply spec_reserve_granted in Es as [[-> Hno]|[Hl ->]]; [left|right; split; [done|]].
  - destruct r as [x|e]; [rewrite (Hno x eq_refl)|destruct (budget_unavailable e)]; done.
  - destruct r as [x|e]; [|destruct (budget_unavailable e); (split; [done|by left])].
    destruct (br_allowed x); [|(split; [done|by left])].
    destruct (dg_worker c) as [w|]; cbn [fmap option_fmap option_map]; [|(split; [done|by left])].
    unfold run_worker, logged. destruct (w _ _ world) as [rep world'].
    destruct (_ ≫= _); (split; [done|by right]).
Qed.

Lemma delegations_invariant calls db log world m :
  Forall (λ c, bro_budget (dg_broker c) = true) calls → represents self m db → within_budget m log →
  let s := (call_all delegation_step calls (db, (log, world))).2 in
  ∃ m', represents self m' s.1 ∧ within_budget m' s.2.1.
Proof.
  intros Hc. revert db log world m. induction Hc as [|c calls Hb _ IH]; intros db log world m Hr Hw.
  { by exists m. }
  cbn. pose proof (delegate_budget c db log world m Hb Hr) as Hs. cbn zeta in Hs.
  destruct (delegation_step c (db, (log, world))) as [r [db' [log' world']]]. cbn [fst snd] in Hs.
  assert (∃ m', represents self m' db' ∧ within_budget m' log') as (m' & Hr' & Hw').
  { destruct Hs as [[? ->]|(Hl & ? & Hlog)]; [by exists m|]. eexists. split; [done|].
    destruct (within_count m log _ _ Hw Hl) as [H1 H2]. by destruct Hlog as [-> | ->]. }
  specialize (IH db' log' world' m' Hr' Hw').
  by destruct (call_all delegation_step calls (db', (log', world'))) as [rs s'].
Qed.
End broker.

(** C21: No sequence of delegations spends more attempts than a goal has.  Any
    sessions of any brokers that share one durable budget, started anew as often
    as one likes, with any payloads, children and nesting depths, call a child
    for one goal at most three times for research and at most once to review a
    plan. *)
Theorem delegations_within_budget self {W} (calls : list (@delegation W)) (world : W) :
  Forall (λ c, bro_budget (dg_broker c) = true) calls →
  let '(_, (_, (log, _))) := call_all (delegation_step self) calls
    ((initialize_budget new_database).2, ([], world)) in
  ∀ goal, (calls_of log goal RESEARCH ≤ 3)%nat ∧ (calls_of log goal PLAN_REVIEW ≤ 1)%nat.
Proof.
  intros Hc. rewrite open_new.
  destruct (delegations_invariant self calls opened_database [] world ∅ Hc (represents_opened self))
    as (m & _ & Hw); [by intros goal []|].
  cbn [snd]. destruct (call_all _ _ _) as [rs [db [log world']]]. cbn [fst snd] in Hw.
  intros goal. pose proof (Hw goal RESEARCH) as H1. pose proof (Hw goal PLAN_REVIEW) as H2.
  cbv [role_limit MAX_RESEARCH_TASKS MAX_PLAN_REVIEWS] in H1, H2. lia.
Qed.

(** ** Rows that were moved *)

Lemma tag_material_inj self self' d d' x y x' y' :
  canonical_ascii (tag_material self d x y) = canonical_ascii (tag_material self' d' x' y') →
  d = d' ∧ bs_repository_digest self = bs_repository_digest self' ∧ x = x' ∧ y = y'.
Proof.
  intros E%canonical_ascii_inj; [|done..]. injection E as -> -> -> ->. done.
Qed.

Lemma verified_counts_Ok self d r c :
  verified_counts self d r = Ok c →
  gb_repository_digest r = JStr (bs_repository_digest self)
  ∧ gb_research_attempts r = JInt c.1 ∧ gb_review_attempts r = JInt c.2
  ∧ gb_tag r = JStr (budget_tag self d c.1 c.2) ∧ 0 ≤ c.1 ∧ 0 ≤ c.2.
Proof.
  unfold verified_counts, compare_digest. intros H.
  destruct (gb_repository_digest r) as [| | | |repo| |]; try done.
  destruct (gb_research_attempts r) as [| |x| | | |]; try done.
  destruct (gb_review_attempts r) as [| |y| | | |]; try done.
  destruct (gb_tag r) as [| | | |tag| |]; try done.
  destruct (_ || _ || _) eqn:E; [done|]. apply orb_false_iff in E as [[E Hx]%orb_false_iff Hy].
  apply bind_Ok in H as (authentic & Ha & H). apply bind_Ok in Ha as ([] & _ & [= <-]).
  apply bind_Ok in H as ([] & Ht%raise_if_Ok & [= <-]). cbn [fst snd].
  apply negb_false_iff, String.eqb_eq in E, Ht. subst. split_and!; try done; lia.
Qed.

(** C23: A row of the durable budget belongs to one goal of one repository.
    Suppose someone rewrites the table so that the row found for a goal bears a
    tag that the key once made: for a goal, a repository and two counters.
    Unless the text the row now stands for and the one signed then are an HMAC
    collision, a reservation gives an answer only if the tag was made for this
    very goal and repository and the row states those very counters, from which
    the answer counts; in every other case it raises, and the database stays as it
    was. *)
Theorem moved_row_refused self goal role x y db db' r row other digest a b :
  let made_for := mk_AdvisoryBudgetStore other (bs_key self) in
  row_of gb_goal_digest (sha256 goal) (bd_rows db) = Some row →
  gb_tag row = JStr (budget_tag made_for digest a b) →
  (∀ a' b', gb_research_attempts row = JInt a' → gb_review_attempts row = JInt b' →
   ¬ hmac_collide (bs_key self)
       (canonical_ascii (tag_material self (sha256 goal) a' b'))
       (canonical_ascii (tag_material made_for digest a b))) →
  reserve_attempt self goal role x y db = (r, db') →
  match r with
  | Ok reply =>
      digest = sha256 goal ∧ other = bs_repository_digest self
      ∧ gb_research_attempts row = JInt a ∧ gb_review_attempts row = JInt b ∧ 0 ≤ a ∧ 0 ≤ b
      ∧ (br_research_attempts reply, br_review_attempts reply)
        = if br_allowed reply then one_more role (a, b) else (a, b)
  | Err _ => db' = db
  end.
Proof.
  intros made_for Hrow Ht Hc. unfold reserve_attempt.
  destruct (goal_digest goal) as [d|e] eqn:Ed; [|by intros [= <- <-]].
  unfold goal_digest in Ed. apply bind_Ok in Ed as ([] & _ & [= <-]).
  destruct (_ || _); [by intros [= <- <-]|]. unfold atomically, current_counts.
  rewrite select_digest, Hrow.
  destruct (verified_counts self (sha256 goal) row) as [c|e] eqn:Ev; [|by intros [= <- <-]].
  apply verified_counts_Ok in Ev as (_ & Hx & Hy & Htag & Ha & Hb).
  rewrite Ht in Htag. injection Htag as Htag.
  assert (tag_material made_for digest a b = tag_material self (sha256 goal) c.1 c.2) as E.
  { destruct (decide (canonical_ascii (tag_material self (sha256 goal) c.1 c.2)
      = canonical_ascii (tag_material made_for digest a b))) as [E|Hn].
    - apply tag_material_inj in E as (-> & E & -> & ->). unfold tag_material. by rewrite E.
    - destruct (Hc c.1 c.2 Hx Hy). split; [done|]. symmetry. exact Htag. }
  injection E as -> -> -> ->. rewrite Ok_bind, count_attempt_spec.
  destruct (_ <=? attempts role c).
  - cbn beta iota. rewrite !Ok_bind. intros [= <- <-]. by destruct c.
  - cbn beta iota.
    destruct (check_sqlite_int (one_more role c).1) as [[]|e]; rewrite ?Ok_bind, ?Err_bind; [|by intros [= <- <-]].
    destruct (check_sqlite_int (one_more role c).2) as [[]|e]; rewrite ?Ok_bind, ?Err_bind; [|by intros [= <- <-]].
    intros [= <- <-]. cbn. split_and!; try done. by destruct c, role.
Qed.

(** ** What a child may be handed *)

(** [w] occurs in [v], so many levels down. *)
Inductive value_in : json → Z → json → Prop :=
  | value_here v : value_in v 0 v
  | value_item l x n w : x ∈ l → value_in x n w → value_in (JList l) (n + 1) w
  | value_field d k x n w : (k, x) ∈ d → value_in x n w → value_in (JDict d) (n + 1) w.

Fixpoint value_count (v : json) : Z :=
  1 + match v with
      | JList l => foldr (λ x n, value_count x + n) 0 l
      | JDict d => foldr (λ kv n, value_count kv.2 + n) 0 d
      | _ => 0
      end.

(** A forbidden part occurs in the key, compared without case and with
    underscores for hyphens. *)
Definition names_authority (key : string) : Prop :=
  ∃ part before after, part ∈ FORBIDDEN_KEYS
    ∧ normalized_key key = before ++ casefold_codes part ++ after.

Definition holds_secret (text : string) : Prop :=
  ∃ p, p ∈ secret_patterns (String.length text) ∧ contains p text.

Definition safe_value (v : json) : Prop :=
  match v with
  | JFloat _ => False
  | JStr s => len s ≤ MAX_TEXT ∧ ¬ holds_secret s
  | JDict d => ∀ k x, (k, x) ∈ d → k ≠ "" ∧ ¬ names_authority k
  | _ => True
  end.

(** Everything in the value, which is [depth] levels down, is safe. *)
Definition safe_at (depth : Z) (v : json) : Prop :=
  ∀ n w, value_in v n w → depth + n ≤ MAX_PAYLOAD_DEPTH ∧ safe_value w.

Lemma has_secret_spec s : has_secret s = true ↔ holds_secret s.
Proof.
  unfold has_secret, holds_secret. rewrite existsb_exists. setoid_rewrite list_elem_of_In.
  setoid_rewrite <- re_search_contains. split; intros (p & Hp & H); exists p; (split; [done|]).
  - destruct (re_search p s); [eauto|done].
  - destruct H as [? ->]. done.
Qed.

Lemma codes_prefix_spec p s : codes_prefix p s = true ↔ ∃ after, s = p ++ after.
Proof.
  revert s. induction p as [|x p IH]; intros [|y s]; cbn;
    [split; [by eexists|done]|split; [by eexists|done]|split; [done|by intros []]|].
  rewrite andb_true_iff, Z.eqb_eq, IH. split.
  - intros [-> [after ->]]. by exists after.
  - intros [after [= -> ->]]. eauto.
Qed.

Lemma codes_find_spec p s : is_Some (codes_find p s) ↔ ∃ before after, s = before ++ p ++ after.
Proof.
  induction s as [|x s IH]; cbn [codes_find].
  - destruct (codes_prefix p []) eqn:E.
    + split; [intros _|by eauto]. apply codes_prefix_spec in E as [after E]. by exists [], after.
    + split; [by intros []|]. intros (before & after & H). symmetry in H.
      apply app_nil in H as [-> H]. symmetry in H.
      by rewrite (proj2 (codes_prefix_spec p []) (ex_intro _ after H)) in E.
  - destruct (codes_prefix p (x :: s)) eqn:E.
    + split; [intros _|by eauto]. apply codes_prefix_spec in E as [after E]. by exists [], after.
    + rewrite fmap_is_Some, IH. split; intros (before & after & H).
      * exists (x :: before), after. by rewrite H.
      * destruct before as [|x' before]; [|injection H as -> H; eauto].
        by rewrite (proj2 (codes_prefix_spec p (x :: s)) (ex_intro _ after H)) in E.
Qed.

Lemma forbidden_key_spec k : forbidden_key k = true ↔ names_authority k.
Proof.
  unfold forbidden_key, names_authority. rewrite existsb_exists. split.
  - intros (part & Hp%list_elem_of_In & H). destruct (codes_find _ _) as [i|] eqn:E; [|done].
    destruct (proj1 (codes_find_spec (casefold_codes part) (normalized_key k)) (ex_intro _ i E))
      as (before & after & ?). eauto 6.
  - intros (part & before & after & Hp & H). exists part. split; [by apply list_elem_of_In|].
    destruct (proj2 (codes_find_spec (casefold_codes part) (normalized_key k))) as [i ->]; eauto.
Qed.

Lemma check_payload_key_Ok context k u :
  check_payload_key context k = Ok u ↔ k ≠ "" ∧ ¬ names_authority k.
Proof.
  unfold check_payload_key. rewrite bind_Ok. setoid_rewrite raise_if_Ok.
  rewrite <- forbidden_key_spec, not_true_iff_false. split.
  - intros (_ & H%String.eqb_neq & ?). done.
  - intros (H%String.eqb_neq & ?). by exists tt.
Qed.

(** The elements of a list or mapping, one level down. *)
Lemma safe_at_item depth l :
  safe_at depth (JList l)
  ↔ depth ≤ MAX_PAYLOAD_DEPTH ∧ Forall (safe_at (depth + 1)) l.
Proof.
  rewrite Forall_forall. split.
  - intros H. split; [destruct (H 0 (JList l)); [constructor|lia]|].
    intros x Hx n w Hw. destruct (H (n + 1) w); [by econstructor|]. split; [lia|done].
  - intros [Hd H] n w Hw. inversion Hw; subst; [by split; [lia|]|].
    edestruct H as [? ?]; [done|done|]. split; [lia|done].
Qed.

Lemma safe_at_field depth d :
  safe_at depth (JDict d)
  ↔ depth ≤ MAX_PAYLOAD_DEPTH
    ∧ Forall (λ kv, (kv.1 ≠ "" ∧ ¬ names_authority kv.1) ∧ safe_at (depth + 1) kv.2) d.
Proof.
  rewrite Forall_forall. split.
  - intros H. destruct (H 0 (JDict d)) as [Hd Hk]; [constructor|]. split; [lia|].
    intros [k x] Hx. split; [by apply (Hk k x)|].
    intros n w Hw. destruct (H (n + 1) w); [by econstructor|]. split; [lia|done].
  - intros [Hd H] n w Hw. inversion Hw; subst.
    + split; [lia|]. intros k x Hx. by apply (H (k, x)).
    + edestruct (H (k, x)) as [_ Hs]; [done|]. destruct (Hs n0 w); [done|]. split; [lia|done].
Qed.

Lemma value_count_pos v : 1 ≤ value_count v.
Proof.
  induction v as [|b|z|t|t|l IH|d IH] using json_nested_ind; cbn; try lia.
  - enough (0 ≤ foldr (λ x n, value_count x + n) 0 l) by lia. induction IH; cbn; lia.
  - enough (0 ≤ foldr (λ kv n, value_count kv.2 + n) 0 d) by lia. induction IH; cbn; lia.
Qed.

(** The traversal accepts exactly the safe values. *)
Definition accepts (v : json) : Prop :=
  ∀ depth count context count',
    sanitize_value v depth count context = Ok count'
    ↔ count' = count + value_count v ∧ count' ≤ MAX_PAYLOAD_ITEMS ∧ safe_at depth v.

(** The two checks that every value passes. *)
Lemma sanitize_value_head v depth count context (rest : result Z) count' :
  sanitize_value v depth count context
  = (raise_if (MAX_PAYLOAD_DEPTH <? depth)
       (AdvisoryPayloadRejected "delegated payload exceeds the depth limit");;
     raise_if (MAX_PAYLOAD_ITEMS <? count + 1)
       (AdvisoryPayloadRejected "delegated payload exceeds the item limit");; rest) →
  sanitize_value v depth count context = Ok count'
  ↔ depth ≤ MAX_PAYLOAD_DEPTH ∧ count + 1 ≤ MAX_PAYLOAD_ITEMS ∧ rest = Ok count'.
Proof.
  intros ->. rewrite bind_Ok. setoid_rewrite bind_Ok. setoid_rewrite raise_if_Ok. split.
  - intros (_ & H1%Z.ltb_ge & _ & H2%Z.ltb_ge & H3). done.
  - intros (H1%Z.ltb_ge & H2%Z.ltb_ge & H3). exists tt. split; [done|]. by exists tt.
Qed.

Lemma sanitize_scalar v : 
  match v with JNull | JBool _ | JInt _ => True | _ => False end → accepts v.
Proof.
  intros Hv depth count context count'.
  rewrite (sanitize_value_head _ _ _ _ (Ok (count + 1))) by by destruct v.
  assert (value_count v = 1) as -> by by destruct v.
  assert (safe_at depth v ↔ depth ≤ MAX_PAYLOAD_DEPTH) as ->.
  { split; [intros H; destruct (H 0 v); [constructor|lia]|].
    intros Hd n w Hw. destruct v; try done; inversion Hw; subst; split; lia || done. }
  split; [intros (? & ? & [= <-]); lia|]. intros (-> & ? & ?). done.
Qed.

Lemma sanitize_text s : accepts (JStr s).
Proof.
  intros depth count context count'.
  rewrite (sanitize_value_head _ _ _ _
    (raise_if (MAX_TEXT <? len s) (AdvisoryPayloadRejected (context +:+ " string is too large"));;
     reject_secret_text s context;; Ok (count + 1))) by done.
  assert (safe_at depth (JStr s) ↔ depth ≤ MAX_PAYLOAD_DEPTH ∧ safe_value (JStr s)) as ->.
  { split; [intros H; destruct (H 0 (JStr s)); [constructor|]; split; [lia|done]|].
    intros [Hd Hs] n w Hw. inversion Hw; subst. split; [lia|done]. }
  cbn [value_count safe_value]. rewrite <- has_secret_spec, not_true_iff_false.
  unfold reject_secret_text. setoid_rewrite bind_Ok. setoid_rewrite bind_Ok. setoid_rewrite raise_if_Ok.
  split.
  - intros (? & ? & _ & H1%Z.ltb_ge & _ & ? & [= <-]). split_and!; (done || lia).
  - intros (-> & ? & ? & H1%Z.ltb_ge & ?). split_and!; [done|lia|]. exists tt. split; [done|].
    by exists tt.
Qed.

(** A loop that threads the count through the elements. *)
Fixpoint thread {A} (f : A → Z → result Z) (l : list A) (count : Z) : result Z :=
  match l with
  | [] => Ok count
  | a :: l => count ← f a count; thread f l count
  end.

Lemma thread_Ok {A} (f : A → Z → result Z) (weight : A → Z) (P : A → Prop) l c c' :
  (∀ a, 0 ≤ weight a) → c ≤ MAX_PAYLOAD_ITEMS →
  Forall (λ a, ∀ c c', f a c = Ok c' ↔ c' = c + weight a ∧ c' ≤ MAX_PAYLOAD_ITEMS ∧ P a) l →
  thread f l c = Ok c'
  ↔ c' = c + foldr (λ a n, weight a + n) 0 l ∧ c' ≤ MAX_PAYLOAD_ITEMS ∧ Forall P l.
Proof.
  intros Hw Hc Hf. revert c Hc. induction Hf as [|a l Ha Hf IH]; intros c Hc; cbn.
  { split; [intros [= <-]; by rewrite Z.add_0_r|]. intros (-> & _ & _). by rewrite Z.add_0_r. }
  assert (0 ≤ foldr (λ a n, weight a + n) 0 l) as Hl.
  { clear -Hw. induction l as [|x l IH]; cbn; [lia|]. specialize (Hw x). lia. }
  rewrite bind_Ok, Forall_cons. split.
  - intros (c1 & (-> & H1 & H2)%Ha & H3). apply IH in H3 as (-> & H4 & H5); [|done].
    split_and!; (done || lia).
  - intros (-> & H1 & H2 & H3). exists (c + weight a). rewrite Ha, IH by lia.
    split_and!; (done || lia).
Qed.

Lemma sanitize_list l : Forall accepts l → accepts (JList l).
Proof.
  intros IH depth count context count'.
  rewrite (sanitize_value_head _ _ _ _ (thread (λ x c,
    sanitize_value x (depth + 1) c (context +:+ "[]")) l (count + 1))).
  2:{ cbn [sanitize_value]. do 2 (f_equal; apply functional_extensionality; intros []).
      generalize (count + 1). clear IH. induction l as [|x l IH]; intros c; [done|]. cbn [thread].
      destruct (sanitize_value x _ _ _) as [c1|e]; rewrite ?Ok_bind, ?Err_bind; [apply IH|done]. }
  rewrite safe_at_item. cbn [value_count].
  assert (0 ≤ foldr (λ x n, value_count x + n) 0 l) as Hl
    by (pose proof (value_count_pos (JList l)) as H; cbn in H; lia).
  split.
  - intros (? & ? & H). apply (thread_Ok _ value_count (safe_at (depth + 1))) in H as (-> & ? & ?);
      [split_and!; (done || lia)|intros x; pose proof (value_count_pos x); lia|done|].
    eapply Forall_impl; [exact IH|]. intros x Hx c c'. apply Hx.
  - intros (-> & ? & ? & ?). split_and!; [done|lia|].
    apply (thread_Ok _ value_count (safe_at (depth + 1)));
      [intros x; pose proof (value_count_pos x); lia|lia| |split_and!; (done || lia)].
    eapply Forall_impl; [exact IH|]. intros x Hx c c'. apply Hx.
Qed.

Lemma sanitize_dict d : Forall (λ kv, accepts kv.2) d → accepts (JDict d).
Proof.
  intros IH depth count context count'.
  set (field := λ (kv : string * json) c, check_payload_key context kv.1;;
    sanitize_value kv.2 (depth + 1) c (context +:+ "." +:+ kv.1)).
  rewrite (sanitize_value_head _ _ _ _ (thread field d (count + 1))).
  2:{ cbn [sanitize_value]. do 2 (f_equal; apply functional_extensionality; intros []).
      generalize (count + 1). clear IH. induction d as [|[k x] d IH]; intros c; [done|].
      cbn [thread]. change (field (k, x) c) with (check_payload_key context k;;
        sanitize_value x (depth + 1) c (context +:+ "." +:+ k)).
      destruct (check_payload_key context k) as [[]|e]; rewrite ?Ok_bind, ?Err_bind; [|done].
      destruct (sanitize_value x _ _ _) as [c1|e]; rewrite ?Ok_bind, ?Err_bind; [apply IH|done]. }
  rewrite safe_at_field. cbn [value_count].
  assert (0 ≤ foldr (λ kv n, value_count kv.2 + n) 0 d) as Hd
    by (pose proof (value_count_pos (JDict d)) as H; cbn in H; lia).
  assert (Forall (λ kv, ∀ c c', field kv c = Ok c' ↔ c' = c + value_count kv.2 ∧ c' ≤ MAX_PAYLOAD_ITEMS
    ∧ ((kv.1 ≠ "" ∧ ¬ names_authority kv.1) ∧ safe_at (depth + 1) kv.2)) d) as Hf.
  { eapply Forall_impl; [exact IH|]. intros kv Hx c c'. unfold field. rewrite bind_Ok.
    setoid_rewrite check_payload_key_Ok. setoid_rewrite (Hx _ _ _ _).
    split; [intros ([] & ? & ? & ? & ?)|intros (? & ? & ? & ?); exists tt]; done. }
  assert (∀ kv : string * json, 0 ≤ value_count kv.2) as Hw
    by (intros kv; pose proof (value_count_pos kv.2); lia).
  pose proof (λ c H, thread_Ok field (λ kv, value_count kv.2) _ d c count' Hw H Hf) as E.
  split.
  - intros (? & ? & (-> & ? & ?)%E); [split_and!; (done || lia)|done].
  - intros (-> & ? & ? & ?). split_and!; [done|lia|]. apply E; [lia|]. split_and!; (done || lia).
Qed.

Lemma sanitize_accepts v : accepts v.
Proof.
  induction v as [|b|z|t|t|l IH|d IH] using json_nested_ind; try by apply sanitize_scalar.
  - intros depth count context count'. split.
    + cbn [sanitize_value]. by intros (? & _ & (? & _ & ?)%bind_Ok)%bind_Ok.
    + intros (_ & _ & H). destruct (H 0 (JFloat t)) as [_ []]. constructor.
  - apply sanitize_text.
  - by apply sanitize_list.
  - by apply sanitize_dict.
Qed.

Lemma safe_finite depth v : safe_at depth v → all_finite v = true.
Proof.
  revert depth. induction v as [|b|z|t|t|l IH|d IH] using json_nested_ind; intros depth H; try done.
  - destruct (H 0 (JFloat t)) as [_ []]. constructor.
  - apply safe_at_item in H as [_ H]. cbn [all_finite]. apply forallb_forall.
    intros x Hx%list_elem_of_In. rewrite Forall_forall in IH, H. by eapply IH; [|apply H].
  - apply safe_at_field in H as [_ H]. cbn [all_finite]. apply forallb_forall.
    intros [k x] Hx%list_elem_of_In. rewrite Forall_forall in IH, H.
    apply (IH _ Hx (depth + 1)). by apply (H _ Hx).
Qed.

(** C24: What may be handed to a child, and that it is handed unchanged.
    [sanitize_payload] accepts a payload if and only if it has at most 256
    values, none more than eight levels down and none a float; every string is
    bounded and contains no match, in the declarative reading, of a pattern of
    secrets; no key at any level is empty or has a forbidden part (authority,
    credential, recipient, target and so on) in it; and its text is bounded.
    The result is the payload. *)
Theorem sanitize_payload_iff payload out :
  sanitize_payload payload = Ok out
  ↔ out = payload
    ∧ value_count (JDict payload) ≤ 256
    ∧ (∀ n v, value_in (JDict payload) n v → n ≤ 8 ∧ safe_value v)
    ∧ utf8_length (canonical_text (JDict payload)) ≤ 64 * 1024.
Proof.
  unfold sanitize_payload. rewrite bind_Ok.
  setoid_rewrite (sanitize_accepts (JDict payload) 0 0 "payload" _).
  setoid_rewrite bind_Ok. setoid_rewrite bind_Ok. setoid_rewrite raise_if_Ok.
  unfold safe_at, dumps. split.
  - intros (? & (-> & H1 & H2) & text & Ht & _ & H3%Z.ltb_ge & [= <-]).
    destruct (all_finite _); [injection Ht as <-|done]. split_and!; done.
  - intros (-> & H1 & H2 & H3). eexists. split; [split; [reflexivity|]; by split|].
    exists (canonical_text (JDict payload)). rewrite (safe_finite 0) by done. split; [done|].
    exists tt. split; [|done]. by apply Z.ltb_ge.
Qed.

(** ** Witnesses *)

Definition sample_store : AdvisoryBudgetStore :=
  mk_AdvisoryBudgetStore (sha256 "repository") (repeat 7 32).

Definition sample_route : SemanticRouteSlice :=
  mk_SemanticRouteSlice "planning" "Planning" "stable" "How plans are made" [] ["src/planner.py"]
    [] [] [] [].

Definition advisory_profile (name : string) : AgentProfile :=
  mk_AgentProfile name "reads" ["read"; "search"] false true "".

Definition sample_broker : AdvisoryBroker :=
  mk_AdvisoryBroker
    (mk_AgentInventory (advisory_profile "master") (advisory_profile "researcher")
       (advisory_profile "reviewer"))
    (mk_RepositoryFixture [("src/planner.py", "def plan(): pass")]) true.

Definition sample_session : AdvisorySession :=
  mk_AdvisorySession "task" "goal" (Some sample_route) 0 0.

(** A research task delegated in a session of its own. *)
Definition sample_delegation : @delegation unit :=
  mk_delegation sample_broker sample_session RESEARCH [("question", JStr "where?")]
    (Some (λ _ _ w, (Ok (mk_AdvisoryReport "found" [] ["src/planner.py"] None None None []), w))) 0.

(** Four sessions ask for research: the child is called three times. *)
Lemma delegations_within_budget_witness :
  let s := call_all (delegation_step sample_store) (repeat sample_delegation 4)
    ((initialize_budget new_database).2, ([], ())) in
  s.2.2.1 = [("goal", RESEARCH); ("goal", RESEARCH); ("goal", RESEARCH)]
  ∧ (calls_of s.2.2.1 "goal" RESEARCH ≤ 3)%nat.
Proof.
  intros s. split; [vm_compute; reflexivity|].
  pose proof (delegations_within_budget sample_store (repeat sample_delegation 4) ()
    ltac:(repeat constructor)) as H.
  subst s. destruct (call_all _ _ _) as [rs [db [log w]]]. apply (H "goal").
Defined.

(** The row of a goal that was never tried, put in the place of one that was. *)
Definition moved_row : goal_budget :=
  let row := signed_row sample_store (sha256 "fresh") (0, 0) in
  mk_goal_budget (sha256 "spent") (gb_repository_digest row) (gb_research_attempts row)
    (gb_review_attempts row) (gb_tag row).

Definition moved_database : budget_database :=
  mk_budget_database (Some SCHEMA_COLUMNS) [moved_row].

Lemma moved_row_found :
  row_of gb_goal_digest (sha256 "spent") (bd_rows moved_database) = Some moved_row.
Proof. unfold row_of, select_where. cbn. by rewrite bool_decide_true. Qed.

Lemma moved_row_refused_witness :
  (reserve_attempt sample_store "spent" RESEARCH 3 1 moved_database).2 = moved_database.
Proof.
  destruct (reserve_attempt sample_store "spent" RESEARCH 3 1 moved_database) as [r db'] eqn:E.
  assert (is_ok r = false) as Hr.
  { change r with (r, db').1. rewrite <- E. vm_compute. reflexivity. }
  assert (gb_tag moved_row = JStr (budget_tag
    (mk_AdvisoryBudgetStore (bs_repository_digest sample_store) (bs_key sample_store))
    (sha256 "fresh") 0 0)) as Ht by reflexivity.
  pose proof (moved_row_refused sample_store "spent" RESEARCH 3 1 moved_database db' r moved_row
    _ _ _ _ moved_row_found Ht) as H.
  destruct r as [reply|e]; [discriminate Hr|]. apply H; [|exact E].
  intros a b Ha Hb [_ Hc]. cbn in Ha, Hb. injection Ha as <-. injection Hb as <-.
  assert ((hmac_sha256 (bs_key sample_store)
             (canonical_ascii (tag_material sample_store (sha256 "spent") 0 0))
           =? hmac_sha256 (bs_key sample_store)
                (canonical_ascii (tag_material sample_store (sha256 "fresh") 0 0)))%string = false)
    as Hn by (vm_compute; reflexivity).
  apply String.eqb_neq in Hn. exact (Hn Hc).
Defined.
