(* ===== verification/WorkMemoryTheorems.v ===== *)
(** * WorkMemoryTheorems: properties of the work journal

    A journal replays exactly when it is the encoding of a history that a
    declarative relation describes; two journals with one head are equal or
    exhibit a collision; every work in a journal that replays went through the
    stages in order; and writing to the journal implements appending a note to a
    list. *)

From S2P Require Import Prelude PyText PyJson PyHash PyTime PyDate PyStd PySql JsonCanonical PyJsonLoads PyRegex.
From S2P Require Import ModelsBase PlatformIdentity ModelsAction PlanBinding WorkMemory.
From stdpp Require Import gmap strings.

Open Scope Z_scope.

#[local] Opaque sha256 canonical_ascii sensitive_text isoformat uuid_str.

(** ** The fields of an event *)

Definition clean_text (max_bytes : Z) (value : string) : Prop :=
  value ≠ "" ∧ untrimmed value = false ∧ utf8_length value ≤ max_bytes
  ∧ str_exists (λ c, (code c <? 32) || in_range 127 159 c) value = false
  ∧ sensitive_text value = false.

(** A URL in a reference is plain HTTPS: no user, query or fragment. *)
Definition plain_reference (value : string) : Prop :=
  clean_text MAX_REFERENCE_BYTES value
  ∧ ∃ parsed, urlsplit value = Ok parsed
    ∧ (str_contains "://" value = true →
       url_scheme parsed = "https" ∧ url_netloc parsed ≠ "" ∧ url_has_userinfo parsed = false
       ∧ url_query parsed = "" ∧ url_fragment parsed = "").

Definition safe_work_id (value : string) : Prop :=
  value ≠ "" ∧ untrimmed value = false ∧ utf8_length value ≤ MAX_WORK_ID_BYTES
  ∧ fullmatch WORK_ID_PATTERN value = true ∧ sensitive_text value = false.

Lemma check_work_text_Ok label n v v' :
  check_work_text label n v = Ok v' ↔ v' = v ∧ clean_text n v.
Proof.
  unfold check_work_text, clean_text. split.
  - intros (_ & H%raise_if_Ok & [= <-])%bind_Ok.
    rewrite !orb_false_iff, String.eqb_neq, Z.ltb_ge in H. tauto.
  - intros (-> & H%String.eqb_neq & -> & Hl%Z.ltb_ge & -> & ->). by rewrite H, Hl.
Qed.

Lemma check_work_id_Ok v v' : check_work_id v = Ok v' ↔ v' = v ∧ safe_work_id v.
Proof.
  unfold check_work_id, safe_work_id. split.
  - intros (_ & H%raise_if_Ok & [= <-])%bind_Ok.
    rewrite !orb_false_iff, String.eqb_neq, Z.ltb_ge, negb_false_iff in H. tauto.
  - intros (-> & H%String.eqb_neq & -> & Hl%Z.ltb_ge & -> & ->). by rewrite H, Hl.
Qed.

Lemma check_reference_Ok label v v' : check_reference label v = Ok v' ↔ v' = v ∧ plain_reference v.
Proof.
  unfold check_reference, plain_reference. rewrite bind_Ok. setoid_rewrite check_work_text_Ok.
  split.
  - intros (s & [-> Hc] & H). apply bind_Ok in H as (parsed & Hp & H).
    apply bind_Ok in H as (_ & Hu%raise_if_Ok & [= <-]). do 2 (split; [done|]).
    exists parsed. split; [done|]. intros Hs. rewrite Hs in Hu. cbn [andb] in Hu.
    rewrite !orb_false_iff, !negb_false_iff, !String.eqb_eq, String.eqb_neq in Hu. tauto.
  - intros (-> & Hc & parsed & Hp & Hu). exists v. split; [done|]. rewrite Hp. cbn [mbind result_bind].
    apply bind_Ok. exists tt. split; [|done]. apply raise_if_Ok.
    destruct (str_contains "://" v); [|done]. cbn [andb].
    destruct Hu as (-> & Hn & -> & -> & ->); [done|]. apply String.eqb_neq in Hn. by rewrite Hn.
Qed.

(** What every event of a journal satisfies on its own. *)
Record event_ok (e : WorkEvent) : Prop := {
  eo_event_id : uuid_valid (we_event_id e) = true;
  eo_timestamp : utc_valid (we_timestamp e) = true;
  eo_work_id : safe_work_id (we_work_id e);
  eo_summary : clean_text MAX_SUMMARY_BYTES (we_summary e);
  eo_reference : ∀ r, we_reference e = Some r → plain_reference r;
  eo_previous : is_chain_hash (we_previous_hash e) true = true;
  eo_hash : is_chain_hash (we_event_hash e) false = true;
}.

Lemma exact_uuid_Ok s u : exact_uuid s = Ok u ↔ s = uuid_str u ∧ uuid_valid u = true.
Proof.
  unfold exact_uuid. split.
  - intros H. apply bind_Ok in H as (v & Hv & H).
    apply bind_Ok in H as (_ & Hs%raise_if_Ok & [= <-]).
    apply negb_false_iff, String.eqb_eq in Hs. split; [done|by apply uuid_parse_valid in Hv].
  - intros [-> Hu]. rewrite (uuid_parse_str _ Hu). cbn [mbind result_bind].
    by rewrite String.eqb_refl.
Qed.

Lemma exact_utc_Ok s d : exact_utc s = Ok d ↔ s = isoformat d ∧ utc_valid d = true.
Proof.
  unfold exact_utc, utc_valid. split.
  - intros H. apply bind_Ok in H as (t & Ht & H).
    apply bind_Ok in H as (_ & Ho%raise_if_Ok & H).
    apply bind_Ok in H as (_ & Hs%raise_if_Ok & [= <-]).
    apply negb_false_iff in Ho, Hs. apply String.eqb_eq in Hs.
    apply fromisoformat_valid in Ht. by rewrite Ht, Ho.
  - intros [-> [Hd Ho]%andb_true_iff]. rewrite (fromisoformat_isoformat _ Hd).
    cbn [mbind result_bind]. by rewrite Ho, String.eqb_refl.
Qed.

Lemma enum_parse_Ok {A} `{StrEnumLaws A} s (a : A) : enum_parse s = Ok a ↔ s = enum_str a.
Proof.
  split; [|intros ->; apply enum_parse_str]. unfold enum_parse.
  destruct (List.find _ _) as [b|] eqn:E; [|done]. intros [= <-].
  apply find_some in E as [_ E]. by apply String.eqb_eq in E.
Qed.

Lemma check_optional_reference_Ok r r' :
  check_optional_reference r = Ok r' ↔ r' = r ∧ ∀ x, r = Some x → plain_reference x.
Proof.
  destruct r as [x|]; cbn [check_optional_reference].
  - rewrite fmap_Ok. setoid_rewrite check_reference_Ok. split.
    + intros (y & [-> Hx] & <-). split; [done|]. by intros y [= <-].
    + intros (-> & Hx). exists x. split; [|done]. split; [done|]. by apply Hx.
  - split; [by intros [= <-]|by intros [-> _]].
Qed.

Lemma decode_fields_Ok id t w k s u r x :
  decode_fields id t w k s u r = Ok x ↔
  ∃ event_id timestamp kind stage,
    x = (event_id, timestamp, kind, stage, w, u, r)
    ∧ id = uuid_str event_id ∧ uuid_valid event_id = true
    ∧ t = isoformat timestamp ∧ utc_valid timestamp = true
    ∧ k = enum_str kind ∧ s = enum_str stage
    ∧ safe_work_id w ∧ clean_text MAX_SUMMARY_BYTES u ∧ ∀ y, r = Some y → plain_reference y.
Proof.
  unfold decode_fields, check_summary. split.
  - intros (event_id & [-> V1]%exact_uuid_Ok & H)%bind_Ok.
    apply bind_Ok in H as (timestamp & [-> V2]%exact_utc_Ok & H).
    apply bind_Ok in H as (kind & ->%enum_parse_Ok & H).
    apply bind_Ok in H as (stage & ->%enum_parse_Ok & H).
    apply bind_Ok in H as (x1 & [-> V3]%check_work_id_Ok & H).
    apply bind_Ok in H as (x2 & [-> V4]%check_work_text_Ok & H).
    apply bind_Ok in H as (x3 & [-> V5]%check_optional_reference_Ok & [= <-]).
    by exists event_id, timestamp, kind, stage.
  - intros (event_id & timestamp & kind & stage & -> & -> & Hi & -> & Ht & -> & -> & Hw & Hu & Hr).
    rewrite (proj2 (exact_uuid_Ok _ event_id) (conj eq_refl Hi)), Ok_bind.
    rewrite (proj2 (exact_utc_Ok _ timestamp) (conj eq_refl Ht)), Ok_bind.
    rewrite !enum_parse_str, !Ok_bind.
    rewrite (proj2 (check_work_id_Ok w w) (conj eq_refl Hw)), Ok_bind.
    rewrite (proj2 (check_work_text_Ok _ _ u u) (conj eq_refl Hu)), Ok_bind.
    by rewrite (proj2 (check_optional_reference_Ok r r) (conj eq_refl Hr)), Ok_bind.
Qed.

Lemma nullable_text_Some v r : nullable_text v = Some r ↔ v = opt_json JStr r.
Proof. destruct v, r; cbn; naive_solver. Qed.

(** A row decodes to an event exactly when it is the row of that event. *)
Lemma decode_event_Ok row n e :
  decode_event row n = Ok e ↔ row = event_row e ∧ we_sequence e = n ∧ event_ok e.
Proof.
  unfold decode_event. split.
  - intros (_ & Hn%raise_if_Ok%negb_false_iff & H)%bind_Ok.
    destruct row as [[| |m| | | |] ri rt rw rk rs ru rr rp rh]; try done.
    cbn [wr_sequence wr_event_id wr_timestamp wr_work_id wr_kind wr_stage wr_summary wr_reference
         wr_previous_hash wr_event_hash] in *.
    apply Z.eqb_eq in Hn as ->.
    destruct ri as [| | | |id| |]; try done. destruct rt as [| | | |t| |]; try done.
    destruct rw as [| | | |w| |]; try done. destruct rk as [| | | |k| |]; try done.
    destruct rs as [| | | |s| |]; try done. destruct ru as [| | | |u| |]; try done.
    destruct (nullable_text rr) as [r|] eqn:Er; [|done]. apply nullable_text_Some in Er as ->.
    apply bind_Ok in H as (x & Hx%reraise_Ok & H).
    apply decode_fields_Ok in Hx as (event_id & timestamp & kind & stage & -> & -> & V1 & -> & V2 & -> & -> & V3 & V4 & V5).
    destruct rp as [| | | |p| |]; try done. destruct rh as [| | | |h| |]; try done.
    apply bind_Ok in H as (_ & [Hp Hh]%raise_if_Ok%orb_false_iff & [= <-]).
    apply negb_false_iff in Hp, Hh. done.
  - intros (-> & <- & [Hi Ht Hw Hu Hr Hp Hh]). cbn [event_row wr_sequence wr_event_id wr_timestamp
      wr_work_id wr_kind wr_stage wr_summary wr_reference wr_previous_hash wr_event_hash].
    rewrite Z.eqb_refl. cbn [negb raise_if mbind result_bind].
    rewrite (proj2 (nullable_text_Some _ (we_reference e)) eq_refl).
    rewrite (proj2 (decode_fields_Ok _ _ _ _ _ _ _ (we_event_id e, we_timestamp e, we_kind e, we_stage e,
      we_work_id e, we_summary e, we_reference e)))
      by (by exists (we_event_id e), (we_timestamp e), (we_kind e), (we_stage e)).
    cbn [reraise mbind result_bind]. rewrite Hp, Hh. cbn [negb orb raise_if]. by destruct e.
Qed.

(** ** Histories *)

Definition of_work (work_id : string) (es : list WorkEvent) : list WorkEvent :=
  List.filter (λ e, (we_work_id e =? work_id)%string) es.

Definition head_of (es : list WorkEvent) : string :=
  match last es with Some e => we_event_hash e | None => GENESIS_HASH end.

(** How an event may follow the earlier events of its work. *)
Definition lifecycle_step (existing : list WorkEvent) (e : WorkEvent) : Prop :=
  match last existing with
  | None => we_kind e = STARTED ∧ we_stage e = ISSUE ∧ is_Some (we_reference e)
  | Some p =>
      we_kind e ≠ STARTED ∧ (we_kind e = REFERENCE → is_Some (we_reference e))
      ∧ we_stage p ≠ MERGED
      ∧ (stage_order (we_stage e) = stage_order (we_stage p)
         ∨ stage_order (we_stage e) = stage_order (we_stage p) + 1)
  end.

Inductive history_ok : list WorkEvent → Prop :=
  | history_new : history_ok []
  | history_event es e :
      history_ok es → event_ok e →
      we_sequence e = Z.of_nat (length es) + 1 →
      we_event_id e ∉ map we_event_id es →
      we_previous_hash e = head_of es → work_event_hash e = we_event_hash e →
      lifecycle_step (of_work (we_work_id e) es) e →
      history_ok (es ++ [e]).

(** What a replay of the history computes. *)
Definition by_work_of (es : list WorkEvent) : gmap string (list WorkEvent) :=
  foldl (λ m e, <[we_work_id e := events_of m (we_work_id e) ++ [e]]> m) ∅ es.
Definition replay_of (es : list WorkEvent) : Replay := mk_Replay es (by_work_of es) (head_of es).

Lemma of_work_app w es es' : of_work w (es ++ es') = of_work w es ++ of_work w es'.
Proof. apply List.filter_app. Qed.

Lemma by_work_snoc es e :
  by_work_of (es ++ [e])
  = <[we_work_id e := events_of (by_work_of es) (we_work_id e) ++ [e]]> (by_work_of es).
Proof. unfold by_work_of. by rewrite foldl_app. Qed.

Lemma by_work_lookup es w :
  by_work_of es !! w = match of_work w es with [] => None | l => Some l end.
Proof.
  induction es as [|e es IH] using rev_ind; [done|].
  rewrite by_work_snoc, of_work_app. cbn [of_work List.filter].
  destruct (String.eqb_spec (we_work_id e) w) as [<-|Hne].
  - rewrite lookup_insert_eq. unfold events_of. rewrite IH. by destruct (of_work (we_work_id e) es).
  - by rewrite lookup_insert_ne, app_nil_r by done.
Qed.

Lemma events_of_work es w : events_of (by_work_of es) w = of_work w es.
Proof. unfold events_of. rewrite by_work_lookup. by destruct (of_work w es). Qed.

Lemma head_of_snoc es e : head_of (es ++ [e]) = we_event_hash e.
Proof. unfold head_of. by rewrite last_snoc. Qed.

Lemma replay_of_snoc es e :
  replay_of (es ++ [e])
  = mk_Replay (es ++ [e])
      (<[we_work_id e := of_work (we_work_id e) es ++ [e]]> (by_work_of es)) (we_event_hash e).
Proof.
  unfold replay_of. by rewrite head_of_snoc, by_work_snoc, events_of_work.
Qed.

Lemma validate_lifecycle_Ok e existing u :
  validate_lifecycle_event e existing = Ok u
  ↔ lifecycle_step existing e.
Proof.
  unfold validate_lifecycle_event, lifecycle_step. destruct (last existing) as [p|].
  - split.
    + intros (_ & H1%raise_if_Ok%bool_decide_eq_false & H)%bind_Ok.
      apply bind_Ok in H as (_ & H2%raise_if_Ok & H).
      apply bind_Ok in H as (_ & H3%raise_if_Ok%bool_decide_eq_false & H).
      apply bind_Ok in H as (_ & H4%raise_if_Ok%Z.ltb_ge & H5%raise_if_Ok%Z.ltb_ge).
      split; [done|]. split; [|split; [done|lia]].
      intros Hk. rewrite (bool_decide_true _ Hk) in H2. by destruct (we_reference e).
    + intros (H1 & H2 & H3 & H4). rewrite (bool_decide_false _ H1), (bool_decide_false _ H3).
      assert (bool_decide (we_kind e = REFERENCE) && negb (is_someb (we_reference e)) = false) as ->.
      { case_bool_decide as Hk; [|done]. by destruct (H2 Hk) as [r ->]. }
      cbn [raise_if mbind result_bind].
      assert ((stage_order (we_stage e) - stage_order (we_stage p) <? 0) = false) as -> by lia.
      assert ((1 <? stage_order (we_stage e) - stage_order (we_stage p)) = false) as -> by lia.
      by destruct u.
  - rewrite raise_if_Ok, !orb_false_iff, !negb_false_iff, !bool_decide_eq_true.
    destruct (we_reference e) as [x|]; cbn [is_someb].
    + split; [intros [[? ?] _]; by eauto|intros (? & ? & _); done].
    + split; [by intros [_ ?]|by intros (_ & _ & [])].
Qed.

Lemma replay_row_Ok row es st :
  replay_row row (replay_of es) = Ok st ↔
  ∃ e, row = event_row e ∧ st = replay_of (es ++ [e])
    ∧ event_ok e ∧ we_sequence e = Z.of_nat (length es) + 1
    ∧ (we_event_id e ∉ map we_event_id es)
    ∧ we_previous_hash e = head_of es ∧ work_event_hash e = we_event_hash e
    ∧ lifecycle_step (of_work (we_work_id e) es) e.
Proof.
  unfold replay_row. cbn [rp_events rp_by_work rp_head_hash replay_of]. split.
  - intros (e & (-> & Hn & He)%decode_event_Ok & H)%bind_Ok.
    apply bind_Ok in H as (_ & Hi%raise_if_Ok%bool_decide_eq_false & H).
    apply bind_Ok in H as (_ & Hp%raise_if_Ok%negb_false_iff%String.eqb_eq & H).
    apply bind_Ok in H as (_ & Hh%raise_if_Ok%negb_false_iff%String.eqb_eq & H).
    rewrite events_of_work in H. apply bind_Ok in H as (_ & Hl%validate_lifecycle_Ok & [= <-]).
    exists e. by rewrite replay_of_snoc.
  - intros (e & -> & -> & He & Hn & Hi & Hp & Hh & Hl).
    rewrite (proj2 (decode_event_Ok _ _ e) (conj eq_refl (conj Hn He))), Ok_bind.
    rewrite (bool_decide_false _ Hi), Hp, Hh, !String.eqb_refl. cbn [negb raise_if mbind result_bind].
    rewrite events_of_work, (proj2 (validate_lifecycle_Ok e _ tt) Hl). cbn [mbind result_bind].
    by rewrite replay_of_snoc.
Qed.

Lemma replay_rows_Ok rows es st :
  history_ok es →
  replay_rows rows (replay_of es) = Ok st ↔
  ∃ es', rows = map event_row es' ∧ history_ok (es ++ es') ∧ st = replay_of (es ++ es').
Proof.
  revert es. induction rows as [|row rows IH]; intros es Hes; cbn [replay_rows].
  - split.
    + intros [= <-]. exists []. by rewrite app_nil_r.
    + intros ([|e es'] & Hr & _ & ->); [by rewrite app_nil_r|done].
  - rewrite bind_Ok. split.
    + intros (st' & (e & -> & -> & He)%replay_row_Ok & H).
      apply IH in H as (es' & -> & Hes' & ->); [|by destruct He as (?&?&?&?&?&?); constructor].
      exists (e :: es'). by rewrite <- app_assoc in *.
    + intros ([|e es'] & Hr & Hes' & ->); [done|]. injection Hr as -> ->.
      replace (es ++ e :: es') with ((es ++ [e]) ++ es') in * by by rewrite <- app_assoc.
      assert (history_ok (es ++ [e])) as He.
      { clear -Hes'. induction es' as [|e' es' IH] using rev_ind; [by rewrite app_nil_r in Hes'|].
        apply IH. rewrite app_assoc in Hes'. inversion Hes' as [E|? ? H ? ? ? ? ? ? E].
        - by apply app_cons_not_nil in E.
        - by apply app_inj_tail in E as [-> ->]. }
      exists (replay_of (es ++ [e])). split; [|by apply IH; [|exists es']].
      apply replay_row_Ok. exists e. inversion He as [E|es0 e0 ? ? ? ? ? ? ? E].
      * by apply app_cons_not_nil in E.
      * apply app_inj_tail in E as [-> ->]. done.
Qed.

Lemma replay_exact_spec db allow_empty r :
  replay db allow_empty = Ok r
  ↔ ∃ es, history_ok es ∧ Z.of_nat (length es) ≤ 1024 ∧ (allow_empty = false → es ≠ [])
    ∧ wd_events db = map event_row es
    ∧ wd_state db = [mk_state_row (JInt 1) (JInt (Z.of_nat (length es))) (JStr (head_of es))]
    ∧ r = replay_of es.
Proof.
  unfold replay. split.
  - intros (_ & Hlen%raise_if_Ok%Z.ltb_ge & H)%bind_Ok.
    assert (firstn (Z.to_nat (MAX_EVENTS + 1)) (wd_events db) = wd_events db) as Hall.
    { apply firstn_all2. rewrite length_firstn in Hlen. unfold MAX_EVENTS in *. lia. }
    rewrite Hall in *.
    destruct (wd_state db) as [|[si sc sh] [|]]; try done.
    cbn [sr_id sr_event_count sr_head_hash] in H.
    destruct si as [| |[|[]|]| | | |]; try done. destruct sc as [| |c| | | |]; try done.
    destruct sh as [| | | |h| |]; try done. destruct (c <? 0); [done|].
    apply bind_Ok in H as (_ & He%raise_if_Ok & H). apply bind_Ok in H as (st & Hst & H).
    apply bind_Ok in H as (_ & Hc%raise_if_Ok%negb_false_iff%Z.eqb_eq & H).
    apply bind_Ok in H as (_ & Hh%raise_if_Ok%negb_false_iff%String.eqb_eq & [= <-]).
    apply (replay_rows_Ok _ [] st history_new) in Hst as (es & Hes & Hok & ->).
    cbn [app] in *. exists es. rewrite Hes, length_map in Hlen. cbn [rp_events rp_head_hash replay_of] in *.
    subst c h. split; [done|]. split; [done|]. split; [|done].
    intros -> ->. rewrite Hes in He. done.
  - intros (es & Hok & Hlen & He & Hrows & Hstate & ->). rewrite Hrows, Hstate.
    rewrite firstn_all2 by (rewrite length_map; unfold MAX_EVENTS; lia).
    rewrite length_map. apply Z.ltb_ge in Hlen. unfold MAX_EVENTS. rewrite Hlen.
    cbn [sr_id sr_event_count sr_head_hash raise_if mbind result_bind].
    rewrite (proj2 (Z.ltb_ge (Z.of_nat (length es)) 0)) by apply Nat2Z.is_nonneg.
    assert (match map event_row es with [] => negb allow_empty | _ => false end = false) as ->.
    { destruct es; [|done]. destruct allow_empty; [done|]. by destruct He. }
    cbn [raise_if mbind result_bind].
    change empty_replay with (replay_of []).
    rewrite (proj2 (replay_rows_Ok (map event_row es) [] (replay_of es) history_new)) by (by exists es).
    cbn [mbind result_bind rp_events rp_head_hash replay_of].
    by rewrite Z.eqb_refl, String.eqb_refl.
Qed.

(** C26: A journal replays exactly when it is the encoding of a history.  The
    replay of a database succeeds if and only if its event rows are the rows of a
    list of at most 1024 events, its checkpoint states their number and the last
    hash, and the list is a history: each event has clean fields, the next
    sequence number, a fresh ID, the hash before it and the hash of its own
    fields, and follows the earlier events of its work in the life cycle.  The
    result then is that list, the events of each work, and the last hash. *)
Theorem replay_exact db allow_empty r :
  replay db allow_empty = Ok r
  ↔ ∃ es, history_ok es ∧ Z.of_nat (length es) ≤ 1024 ∧ (allow_empty = false → es ≠ [])
    ∧ wd_events db = map event_row es
    ∧ wd_state db = [mk_state_row (JInt 1) (JInt (Z.of_nat (length es))) (JStr (head_of es))]
    ∧ r = replay_of es.
Proof. apply replay_exact_spec. Qed.

(** ** Tampering *)

Lemma work_event_material_ok e : json_ok (JDict (work_event_material e)) = true.
Proof. unfold work_event_material. by destruct (we_reference e). Qed.

Lemma work_event_material_keys e : NoDup (map fst (work_event_material e)).
Proof. apply (bool_decide_unpack _). by vm_compute. Qed.

(** The hashed text determines every field but the hash. *)
Lemma work_event_material_inj e e' :
  event_ok e → event_ok e' →
  canonical_ascii (JDict (work_event_material e)) = canonical_ascii (JDict (work_event_material e')) →
  we_sequence e = we_sequence e' ∧ we_event_id e = we_event_id e'
  ∧ we_timestamp e = we_timestamp e' ∧ we_work_id e = we_work_id e'
  ∧ we_kind e = we_kind e' ∧ we_stage e = we_stage e' ∧ we_summary e = we_summary e'
  ∧ we_reference e = we_reference e' ∧ we_previous_hash e = we_previous_hash e'.
Proof.
  intros [Hi Ht _ _ _ _ _] [Hi' Ht' _ _ _ _ _] E%canonical_ascii_inj; [|apply work_event_material_ok..].
  pose proof (λ k, dict_value _ _ k (work_event_material_keys e) (work_event_material_keys e') E) as D. clear E.
  apply andb_true_iff in Ht as [Ht _], Ht' as [Ht' _].
  split; [by injection (D "sequence")|].
  split; [apply uuid_str_inj; [done|done|exact (JStr_inj _ _ (D "event_id"))]|].
  split; [apply isoformat_inj; [done|done|exact (JStr_inj _ _ (D "timestamp"))]|].
  split; [exact (JStr_inj _ _ (D "work_id"))|].
  split; [exact (enum_str_inj _ _ (JStr_inj _ _ (D "kind")))|].
  split; [exact (enum_str_inj _ _ (JStr_inj _ _ (D "stage")))|].
  split; [exact (JStr_inj _ _ (D "summary"))|].
  split; [|exact (JStr_inj _ _ (D "previous_hash"))].
  pose proof (D "reference") as Dr. change (norm (opt_json JStr (we_reference e))
    = norm (opt_json JStr (we_reference e'))) in Dr.
  destruct (we_reference e), (we_reference e'); cbn in Dr; congruence.
Qed.

Lemma history_snoc es e :
  history_ok (es ++ [e]) →
  history_ok es ∧ event_ok e ∧ we_sequence e = Z.of_nat (length es) + 1
  ∧ (we_event_id e ∉ map we_event_id es)
  ∧ we_previous_hash e = head_of es ∧ work_event_hash e = we_event_hash e
  ∧ lifecycle_step (of_work (we_work_id e) es) e.
Proof.
  intros H. inversion H as [E|? ? ? ? ? ? ? ? ? E]; [by apply app_cons_not_nil in E|].
  by apply app_inj_tail in E as [-> ->].
Qed.

Lemma genesis_not_hash e : event_ok e → we_event_hash e ≠ GENESIS_HASH.
Proof. intros [_ _ _ _ _ _ H] E. by rewrite E in H. Qed.

(** The two events exhibit a collision. *)
Definition events_collide (e e' : WorkEvent) : Prop :=
  collide (canonical_ascii (JDict (work_event_material e))) (canonical_ascii (JDict (work_event_material e'))).

Lemma history_determined es es' :
  history_ok es → history_ok es' → head_of es = head_of es' →
  (∀ e e', e ∈ es → e' ∈ es' → ¬ events_collide e e') → es = es'.
Proof.
  revert es'. induction es as [|e es IH] using rev_ind; intros es' H H' Hh Hc.
  - destruct es' as [|e' es' _] using rev_ind; [done|].
    apply history_snoc in H' as (_ & He' & _). rewrite head_of_snoc in Hh.
    by destruct (genesis_not_hash e' He').
  - apply history_snoc in H as (H & He & _ & _ & Hp & Hw & _). rewrite head_of_snoc in Hh.
    destruct es' as [|e' es' _] using rev_ind; [by destruct (genesis_not_hash e He)|].
    apply history_snoc in H' as (H' & He' & _ & _ & Hp' & Hw' & _). rewrite head_of_snoc in Hh.
    assert (canonical_ascii (JDict (work_event_material e)) = canonical_ascii (JDict (work_event_material e'))) as E.
    { destruct (decide (canonical_ascii (JDict (work_event_material e))
        = canonical_ascii (JDict (work_event_material e')))) as [|Hn]; [done|].
      destruct (Hc e e'); [apply elem_of_app; right; by left..|]. split; [done|].
      change (work_event_hash e = work_event_hash e'). congruence. }
    apply work_event_material_inj in E as (E1 & E2 & E3 & E4 & E5 & E6 & E7 & E8 & E9); [|done..].
    rewrite (IH es' H H'); [|congruence|].
    + f_equal. destruct e, e'. cbn in *. congruence.
    + intros x x' Hx Hx'. apply Hc; apply elem_of_app; by left.
Qed.

(** Rewriting the journal is detected by its last hash.  If two databases
    replay and end in the same hash, they hold the same events in every field, in
    the same order, and the same checkpoint, unless two events among them exhibit
    a SHA-256 collision. *)
Theorem journal_tampering_detected db db' a a' r r' :
  replay db a = Ok r → replay db' a' = Ok r' → rp_head_hash r = rp_head_hash r' →
  (∀ e e', e ∈ rp_events r → e' ∈ rp_events r' → ¬ events_collide e e') →
  wd_events db = wd_events db' ∧ wd_state db = wd_state db' ∧ rp_events r = rp_events r'.
Proof.
  intros (es & Hok & _ & _ & Hrows & Hstate & ->)%replay_exact_spec
    (es' & Hok' & _ & _ & Hrows' & Hstate' & ->)%replay_exact_spec Hh Hc.
  cbn [rp_events rp_head_hash replay_of] in *.
  rewrite (history_determined es es' Hok Hok' Hh Hc) in *. by rewrite Hrows, Hrows', Hstate, Hstate'.
Qed.

(** ** The life cycle *)

Lemma last_of_work_elem w es e : last (of_work w es) = Some e → e ∈ es ∧ we_work_id e = w.
Proof.
  intros H. assert (e ∈ of_work w es) as Hin by (eapply last_Some_elem_of; exact H).
  apply elem_filter in Hin as [E%String.eqb_eq Hin]. done.
Qed.

Lemma history_sequence es e : history_ok es → e ∈ es → we_sequence e ≤ Z.of_nat (length es).
Proof.
  intros H. induction H as [|es e' H IH He Hn _ _ _ _]; intros Hin; [by apply not_elem_of_nil in Hin|].
  rewrite length_app. cbn. apply elem_of_app in Hin as [Hin| ->%list_elem_of_singleton]; [|lia].
  apply IH in Hin. lia.
Qed.

(** How one event of a work follows the one before it. *)
Definition follows (e e' : WorkEvent) : Prop :=
  we_sequence e < we_sequence e' ∧ we_stage e ≠ MERGED ∧ we_kind e' ≠ STARTED
  ∧ (stage_order (we_stage e') = stage_order (we_stage e)
     ∨ stage_order (we_stage e') = stage_order (we_stage e) + 1).

Lemma of_work_path w es :
  history_ok es →
  (∀ e, head (of_work w es) = Some e → we_kind e = STARTED ∧ we_stage e = ISSUE ∧ is_Some (we_reference e))
  ∧ ∀ i e e', of_work w es !! i = Some e → of_work w es !! (S i) = Some e' → follows e e'.
Proof.
  induction 1 as [|es e0 H [IH1 IH2] He Hn _ _ _ Hl]; [done|].
  rewrite of_work_app. cbn [of_work List.filter].
  destruct (String.eqb_spec (we_work_id e0) w) as [<-|Hne]; [|by rewrite app_nil_r].
  unfold lifecycle_step in Hl. destruct (last (of_work (we_work_id e0) es)) as [p|] eqn:Ep.
  - destruct (of_work (we_work_id e0) es) as [|e1 l] eqn:El; [done|]. split; [exact IH1|].
    intros i e e' Hi Hi'. rewrite lookup_app in Hi'.
    destruct ((e1 :: l) !! S i) as [x|] eqn:Ex.
    + injection Hi' as ->. apply (IH2 i); [|done].
      rewrite lookup_app in Hi. apply lookup_lt_Some in Ex.
      destruct ((e1 :: l) !! i) eqn:E0; [done|]. apply lookup_ge_None in E0. lia.
    + apply list_lookup_singleton_Some in Hi' as [Hi0 <-].
      apply lookup_ge_None in Ex. rewrite lookup_app_l in Hi by (cbn [length] in *; lia).
      assert (last (e1 :: l) = Some e) as Hlast.
      { rewrite last_lookup. rewrite <- Hi. f_equal. cbn [length] in *. lia. }
      rewrite Hlast in Ep. injection Ep as <-. destruct Hl as (H1 & _ & H2 & H3).
      rewrite <- El in Hlast. apply last_of_work_elem in Hlast as [Hin _].
      pose proof (history_sequence _ _ H Hin). split; [lia|done].
  - apply last_None in Ep. rewrite Ep. split.
    + intros e [= <-]. exact Hl.
    + intros i e e' Hi Hi'. by apply lookup_cons_Some in Hi' as [[? _]|[_ Hi']].
Qed.

Lemma history_events_ok es : history_ok es → Forall event_ok es.
Proof. induction 1; [constructor|]. apply Forall_app. split; [done|by constructor]. Qed.

Lemma show_work_Ok w db snap :
  show_work w db = Ok snap →
  ∃ es first rest latest, history_ok es ∧ of_work w es = first :: rest ∧ last (first :: rest) = Some latest
    ∧ we_reference first = Some (ws_issue_reference snap) ∧ ws_work_id snap = w
    ∧ ws_initial_summary snap = we_summary first ∧ ws_stage snap = we_stage latest
    ∧ ws_events snap = first :: rest.
Proof.
  unfold show_work. intros (? & [-> _]%check_work_id_Ok & H)%bind_Ok.
  apply bind_Ok in H as (_ & _ & H).
  apply bind_Ok in H as (r & (es & Hok & _ & _ & _ & _ & ->)%replay_exact_spec & H).
  unfold work_snapshot in H. apply bind_Ok in H as (events & He%or_raise_Ok & H).
  cbn [replay_of rp_by_work] in He. rewrite by_work_lookup in He.
  destruct (of_work w es) as [|first rest] eqn:Ew; [done|]. injection He as <-.
  destruct (last (first :: rest)) as [latest|] eqn:El; [|done].
  apply bind_Ok in H as (issue & Hi%or_raise_Ok & [= <-]).
  by exists es, first, rest, latest.
Qed.

(** Stages that start at the first and move on by at most one go through every
    stage up to the last. *)
Lemma stages_passed (l : list WorkEvent) first latest stage :
  head l = Some first → we_stage first = ISSUE → last l = Some latest →
  (∀ i e e', l !! i = Some e → l !! S i = Some e' → follows e e') →
  stage_order stage ≤ stage_order (we_stage latest) →
  ∃ e, e ∈ l ∧ we_stage e = stage.
Proof.
  intros Hf Hi. revert latest. induction l as [|x l IH] using rev_ind; intros latest Hl Hp Hs; [done|].
  rewrite last_snoc in Hl. injection Hl as ->.
  destruct (decide (we_stage latest = stage)) as [<-|Hne]; [by exists latest; split; [apply elem_of_app; right; apply list_elem_of_singleton|]|].
  assert (stage_order stage < stage_order (we_stage latest)) as Hlt
    by (destruct stage, (we_stage latest); cbn in *; (done || lia)).
  destruct (last l) as [p|] eqn:Ep.
  - assert (∃ e, e ∈ l ∧ we_stage e = stage) as (e & He & ?);
      [|by exists e; split; [apply elem_of_app; left|]].
    apply (IH ltac:(by destruct l) p); [done| |].
    + intros i e e' H1 H2. apply (Hp i); by apply lookup_app_l_Some.
    + destruct (Hp (pred (length l)) p latest) as (_ & _ & _ & Hstep).
      * apply lookup_app_l_Some. by rewrite <- last_lookup.
      * destruct l; [done|]. cbn [length pred]. by rewrite lookup_app_r, Nat.sub_diag.
      * lia.
  - apply last_None in Ep as ->. injection Hf as ->. rewrite Hi in Hlt. by destruct stage.
Qed.

(** C27: The life cycle of a work.  Whenever a work can be shown, from any file that
    replays, its first event started it at the issue stage with an issue
    reference; every later event has a higher sequence number and keeps the stage
    or moves it on by exactly one, so that every stage up to the one shown was
    recorded; no event follows a merge; the snapshot states the stage of the last
    event, whatever that stage is; and all of its text is clean: bounded, without
    control characters and without a match of the pattern of secrets, its URLs
    plain HTTPS. *)
Theorem work_lifecycle db w snap :
  show_work w db = Ok snap →
  (∃ first rest, ws_events snap = first :: rest
     ∧ we_kind first = STARTED ∧ we_stage first = ISSUE
     ∧ we_reference first = Some (ws_issue_reference snap)
     ∧ ws_initial_summary snap = we_summary first)
  ∧ (∀ i e e', ws_events snap !! i = Some e → ws_events snap !! S i = Some e' → follows e e')
  ∧ we_stage <$> last (ws_events snap) = Some (ws_stage snap)
  ∧ (∀ stage, stage_order stage ≤ stage_order (ws_stage snap) →
       ∃ e, e ∈ ws_events snap ∧ we_stage e = stage)
  ∧ (∀ i e, ws_events snap !! i = Some e → we_stage e = MERGED → S i = length (ws_events snap))
  ∧ Forall (λ e, we_work_id e = w ∧ clean_text MAX_SUMMARY_BYTES (we_summary e)
                 ∧ ∀ r, we_reference e = Some r → plain_reference r) (ws_events snap).
Proof.
  intros (es & first & rest & latest & Hok & Ew & El & Hr & _ & Hs & Hst & Hev)%show_work_Ok.
  destruct (of_work_path w es Hok) as [Hhead Hpath]. rewrite Ew in Hhead, Hpath. rewrite Hev, El.
  destruct (Hhead first eq_refl) as (? & ? & _).
  split; [by exists first, rest|]. split; [exact Hpath|]. split; [by rewrite Hst|].
  split; [intros stage; rewrite Hst; by eapply stages_passed|].
  split.
  { intros i e Hi Hm. destruct ((first :: rest) !! S i) as [e'|] eqn:Ei.
    - by destruct (Hpath i e e' Hi Ei) as (_ & ? & _).
    - apply lookup_ge_None in Ei. apply lookup_lt_Some in Hi. lia. }
  rewrite <- Ew. apply Forall_forall. intros e [Hw%String.eqb_eq Hin]%elem_filter.
  pose proof (history_events_ok es Hok) as Hall. rewrite Forall_forall in Hall.
  by destruct (Hall e Hin).
Qed.

(** ** The journal as a list of notes *)

Record note : Type := mk_note {
  n_work_id : string;
  n_kind : WorkEventKind;
  n_stage : WorkStage;
  n_summary : string;
  n_reference : option string;
}.

Definition note_of (e : WorkEvent) : note :=
  mk_note (we_work_id e) (we_kind e) (we_stage e) (we_summary e) (we_reference e).

Definition notes_of (work_id : string) (notes : list note) : list note :=
  List.filter (λ n, (n_work_id n =? work_id)%string) notes.

(** What a write answers: the notes of the work and the length of the journal. *)
Abbreviation view := (list note * Z)%type.

Definition view_of (snap : WorkSnapshot) : view :=
  (map note_of (ws_events snap), ws_journal_event_count snap).

(** A call, with the decision of the caller's validator. *)
Inductive work_call : Type :=
  | Start (work_id issue summary : string) (rejected : option exn)
  | Record_event (work_id : string) (kind : WorkEventKind) (summary : string)
      (stage : option WorkStage) (reference : option string) (rejected : option exn).

Definition spec_append (n : note) (rejected : option exn) (notes : list note)
    : result view * list note :=
  if 1024 <=? Z.of_nat (length notes)
  then (Err (WorkMemoryError "work-memory event limit is exhausted"), notes)
  else match rejected with
       | Some e => (Err e, notes)
       | None => (Ok (notes_of (n_work_id n) (notes ++ [n]), Z.of_nat (length notes) + 1), notes ++ [n])
       end.

Definition spec_work (c : work_call) (notes : list note) : result view * list note :=
  match c with
  | Start w issue summary rejected =>
      match validate_start_fields w issue summary with
      | Err e => (Err e, notes)
      | Ok _ =>
          match notes_of w notes with
          | _ :: _ => (Err (WorkMemoryError "work record already exists"), notes)
          | [] => spec_append (mk_note w STARTED ISSUE summary (Some issue)) rejected notes
          end
      end
  | Record_event w kind summary stage reference rejected =>
      match validate_record_fields w kind summary reference with
      | Err e => (Err e, notes)
      | Ok _ =>
          match notes with
          | [] => (Err (WorkMemoryError "work-memory journal contains no events"), notes)
          | _ :: _ =>
              match last (notes_of w notes) with
              | None => (Err (WorkMemoryError "work record does not exist"), notes)
              | Some p =>
                  let selected := default (n_stage p) stage in
                  if bool_decide (n_stage p = MERGED)
                  then (Err (WorkMemoryError "merged work records are terminal"), notes)
                  else if stage_order selected <? stage_order (n_stage p)
                  then (Err (WorkMemoryError "work stage cannot regress"), notes)
                  else if stage_order (n_stage p) + 1 <? stage_order selected
                  then (Err (WorkMemoryError "work stage cannot skip lifecycle stages"), notes)
                  else spec_append (mk_note w kind selected summary reference) rejected notes
              end
          end
      end
  end.

(** The call on the database, with the fresh ID and the time of its event. *)
Definition validator_of (rejected : option exn) (snap : WorkSnapshot) : result unit :=
  match rejected with Some e => Err e | None => Ok tt end.

Definition write_journal (c : work_call) (event_id : uuid) (now : datetime) (db : work_database)
    : result WorkSnapshot * work_database :=
  match c with
  | Start w issue summary rejected =>
      start_work event_id now (validator_of rejected) w issue summary db
  | Record_event w kind summary stage reference rejected =>
      record_work event_id now (validator_of rejected) w kind summary stage reference db
  end.

Definition call_journal (c : work_call * (uuid * datetime)) (db : work_database)
    : result view * work_database :=
  let x := write_journal c.1 c.2.1 c.2.2 db in (view_of <$> x.1, x.2).

(** ** Writing implements appending *)

(** The database holds the history. *)
Record holds (es : list WorkEvent) (db : work_database) : Prop := {
  ho_schema : validate_schema (wd_schema db) = Ok tt;
  ho_history : history_ok es;
  ho_length : Z.of_nat (length es) ≤ 1024;
  ho_rows : wd_events db = map event_row es;
  ho_state : wd_state db
    = [mk_state_row (JInt 1) (JInt (Z.of_nat (length es))) (JStr (head_of es))];
}.

Lemma holds_replay es db allow :
  holds es db → (allow = false → es ≠ []) → replay db allow = Ok (replay_of es).
Proof. intros [] Ha. apply replay_exact_spec. by exists es. Qed.

Lemma holds_replay_empty db : holds [] db →
  replay db false = Err (WorkMemoryError "work-memory journal contains no events").
Proof. intros [_ _ _ Hr Hs]. unfold replay. by rewrite Hr, Hs. Qed.

Lemma head_chain es : history_ok es → is_chain_hash (head_of es) true = true.
Proof.
  intros H. destruct es as [|e es _] using rev_ind; [done|].
  apply history_snoc in H as (_ & He & _). rewrite head_of_snoc.
  pose proof (eo_hash _ He) as Hh. unfold is_chain_hash in *. cbn [andb orb] in Hh. rewrite Hh. apply orb_true_r.
Qed.

Lemma notes_of_work w es : notes_of w (map note_of es) = map note_of (of_work w es).
Proof.
  induction es as [|e es IH]; [done|]. cbn [notes_of of_work List.filter map].
  change (n_work_id (note_of e)) with (we_work_id e).
  destruct (we_work_id e =? w)%string; cbn [map]; [f_equal|]; exact IH.
Qed.

Lemma work_snapshot_of w es first rest issue :
  of_work w es = first :: rest → we_reference first = Some issue →
  ∃ snap, work_snapshot (replay_of es) w = Ok snap
    ∧ view_of snap = (notes_of w (map note_of es), Z.of_nat (length es)).
Proof.
  intros Hw Hi. unfold work_snapshot. cbn [replay_of rp_by_work rp_events rp_head_hash].
  rewrite by_work_lookup, Hw. cbn [or_raise mbind result_bind].
  destruct (last (first :: rest)) as [latest|] eqn:El; [|by apply last_None in El].
  rewrite Hi. cbn [or_raise mbind result_bind]. eexists. split; [reflexivity|].
  unfold view_of. cbn [ws_events ws_journal_event_count]. by rewrite notes_of_work, Hw.
Qed.

(** An event that may be appended is appended, unless the journal is full or the
    caller rejects the snapshot; the journal then replays. *)
Lemma append_holds es db id now w kind stage summary reference rejected :
  holds es db → uuid_valid id = true → utc_valid now = true → id ∉ map we_event_id es →
  safe_work_id w → clean_text MAX_SUMMARY_BYTES summary →
  (∀ r, reference = Some r → plain_reference r) →
  (∀ e, we_kind e = kind → we_stage e = stage → we_reference e = reference →
        lifecycle_step (of_work w es) e) →
  let '(r, notes) := spec_append (mk_note w kind stage summary reference) rejected (map note_of es) in
  match append_and_replay (replay_of es) id now w kind stage summary reference
          (validator_of rejected) db with
  | Ok (snap, db') => r = Ok (view_of snap)
      ∧ ∃ e, we_event_id e = id ∧ notes = map note_of (es ++ [e]) ∧ holds (es ++ [e]) db'
  | Err e => r = Err e ∧ notes = map note_of es
  end.
Proof.
  intros Hh Hid Hnow Hfresh Hw Hs Hr Hl. unfold spec_append, append_and_replay, append_event.
  rewrite length_map. cbn [rp_events rp_head_hash replay_of]. unfold MAX_EVENTS.
  destruct (1024 <=? Z.of_nat (length es)) eqn:Elen; [by split|]. apply Z.leb_gt in Elen.
  cbn [raise_if]. rewrite Ok_bind.
  set (e := next_event (replay_of es) id now w kind stage summary reference).
  assert (work_event_hash e = we_event_hash e) as Hhash by reflexivity.
  assert (history_ok (es ++ [e])) as Hok.
  { constructor; try done; [apply Hh| |by apply Hl]. constructor; try done.
    - by apply head_chain, Hh.
    - unfold is_chain_hash. cbn [andb orb]. apply sha256_hex. }
  rewrite (ho_state _ _ Hh). unfold update_where. cbn [List.filter map].
  assert (state_at (we_sequence e - 1) (head_of es)
    (mk_state_row (JInt 1) (JInt (Z.of_nat (length es))) (JStr (head_of es))) = true) as ->.
  { unfold state_at. cbn [sr_id sr_event_count sr_head_hash]. rewrite String.eqb_refl, andb_true_r.
    apply Z.eqb_eq. change (we_sequence e) with (Z.of_nat (length es) + 1). lia. }
  cbn [length]. change (Z.of_nat 1 =? 1) with true. cbn [negb raise_if sr_id]. rewrite !Ok_bind.
  set (db' := mk_work_database _ _ _).
  assert (holds (es ++ [e]) db') as Hh'.
  { split; cbn [db' wd_schema wd_events wd_state]; [apply Hh|done|rewrite length_app; cbn; lia|..].
    - by rewrite (ho_rows _ _ Hh), map_app.
    - rewrite head_of_snoc, length_app. do 3 f_equal. change (we_sequence e) with (Z.of_nat (length es) + 1).
      cbn [length]. lia. }
  rewrite (holds_replay _ _ _ Hh') by (intros _ E; by apply app_nil in E as [_ E]).
  rewrite Ok_bind.
  assert (∃ first rest issue, of_work w (es ++ [e]) = first :: rest ∧ we_reference first = Some issue)
    as (first & rest & issue & Hf & Hi).
  { destruct (of_work_path w _ Hok) as [Hhead _]. rewrite of_work_app in *. cbn [of_work List.filter] in *.
    change (we_work_id e) with w in *. rewrite String.eqb_refl in *.
    destruct (of_work w es ++ [e]) as [|first rest] eqn:E; [by apply app_nil in E as [_ E]|].
    destruct (Hhead first eq_refl) as (_ & _ & [issue Hi]). by exists first, rest, issue. }
  destruct (work_snapshot_of _ _ _ _ _ Hf Hi) as (snap & Hsnap & Hview). rewrite Hsnap, Ok_bind.
  destruct rejected as [err|]; cbn [validator_of mbind result_bind]; [done|].
  rewrite Hview, map_app. cbn [map]. change (note_of e) with (mk_note w kind stage summary reference).
  rewrite length_app. cbn [length n_work_id]. split; [do 2 f_equal; lia|].
  exists e. by rewrite map_app.
Qed.

Lemma note_last w es p : last (of_work w es) = Some p → last (notes_of w (map note_of es)) = Some (note_of p).
Proof. intros H. rewrite notes_of_work. change (last (note_of <$> of_work w es) = Some (note_of p)). by rewrite fmap_last, H. Qed.

(** The outcome of a call is the one specified, and the database holds a history
    with at most one more event, which has the fresh ID. *)
Definition agrees (es : list WorkEvent) (id : uuid) (spec : result view * list note)
    (x : result WorkSnapshot * work_database) : Prop :=
  view_of <$> x.1 = spec.1
  ∧ ∃ es', spec.2 = map note_of es' ∧ holds es' x.2
    ∧ ∀ i, i ∈ map we_event_id es' → i = id ∨ i ∈ map we_event_id es.

Lemma agrees_err es id db e : holds es db → agrees es id (Err e, map note_of es) (Err e, db).
Proof. intros Hh. split; [done|]. exists es. split; [done|]. split; [done|]. by right. Qed.

Lemma agrees_append es id spec db (out : result (WorkSnapshot * work_database)) :
  holds es db →
  (let '(r, notes) := spec in
   match out with
   | Ok (snap, db') => r = Ok (view_of snap)
       ∧ ∃ e, we_event_id e = id ∧ notes = map note_of (es ++ [e]) ∧ holds (es ++ [e]) db'
   | Err e => r = Err e ∧ notes = map note_of es
   end) →
  agrees es id spec match out with Ok (a, db') => (Ok a, db') | Err e => (Err e, db) end.
Proof.
  intros Hh. destruct spec as [r notes], out as [[snap db']|e].
  - intros (-> & e & He & -> & Hh'). split; [done|]. exists (es ++ [e]). split; [done|].
    split; [done|]. intros x. rewrite map_app, elem_of_app. cbn. rewrite list_elem_of_singleton, He. tauto.
  - intros [-> ->]. by apply agrees_err.
Qed.

Section one_call.
Context (es : list WorkEvent) (db : work_database) (id : uuid) (now : datetime).
Hypothesis Hh : holds es db.
Hypothesis Hid : uuid_valid id = true.
Hypothesis Hnow : utc_valid now = true.
Hypothesis Hfresh : id ∉ map we_event_id es.

Lemma start_agrees w issue summary rejected :
  agrees es id (spec_work (Start w issue summary rejected) (map note_of es))
    (start_work id now (validator_of rejected) w issue summary db).
Proof using Hh Hid Hnow Hfresh.
  cbn [spec_work]. unfold start_work, atomically.
  destruct (validate_start_fields w issue summary) as [[[w' issue'] summary']|e] eqn:Ef;
    [|by apply agrees_err].
  unfold validate_start_fields in Ef. apply bind_Ok in Ef as (? & [-> Hw]%check_work_id_Ok & Ef).
  apply bind_Ok in Ef as (? & [-> Hi]%check_reference_Ok & Ef).
  apply bind_Ok in Ef as (? & [-> Hs]%check_work_text_Ok & [= <- <- <-]).
  rewrite (ho_schema _ _ Hh), Ok_bind, (holds_replay _ _ true Hh), Ok_bind by done.
  cbn [replay_of rp_by_work]. rewrite by_work_lookup, notes_of_work.
  destruct (of_work w es) as [|e0 l] eqn:Ew; cbn [map is_someb raise_if]; [rewrite Ok_bind|by apply agrees_err].
  apply agrees_append; [done|]. apply append_holds; try done; [by intros ? [= <-]|].
  intros e Hk Hst Hr. rewrite Ew. unfold lifecycle_step. cbn [last]. rewrite Hr. eauto.
Qed.

Lemma record_agrees w kind summary stage reference rejected :
  agrees es id (spec_work (Record_event w kind summary stage reference rejected) (map note_of es))
    (record_work id now (validator_of rejected) w kind summary stage reference db).
Proof using Hh Hid Hnow Hfresh.
  cbn [spec_work]. unfold record_work, atomically.
  destruct (validate_record_fields w kind summary reference) as [[[w' summary'] reference']|e] eqn:Ef;
    [|by apply agrees_err].
  unfold validate_record_fields in Ef. apply bind_Ok in Ef as (? & [-> Hw]%check_work_id_Ok & Ef).
  apply bind_Ok in Ef as (_ & Hkind%raise_if_Ok%bool_decide_eq_false & Ef).
  apply bind_Ok in Ef as (? & [-> Hs]%check_work_text_Ok & Ef).
  apply bind_Ok in Ef as (? & [-> Hr]%check_optional_reference_Ok & Ef).
  apply bind_Ok in Ef as (_ & Href%raise_if_Ok & [= <- <- <-]).
  rewrite (ho_schema _ _ Hh), Ok_bind.
  destruct (decide (es = [])) as [->|Hne].
  { rewrite (holds_replay_empty _ Hh), Err_bind. by apply agrees_err. }
  rewrite (holds_replay _ _ false Hh), Ok_bind by done. cbn [replay_of rp_by_work].
  rewrite by_work_lookup.
  assert (∀ A (x y : A), match map note_of es with [] => x | _ => y end = y) as Hnotes
    by (intros; by destruct es).
  destruct (of_work w es) as [|e1 l] eqn:Ew.
  { rewrite notes_of_work, Ew. cbn [map last or_raise]. rewrite Err_bind, Hnotes. by apply agrees_err. }
  cbn [or_raise]. rewrite Ok_bind. destruct (last (e1 :: l)) as [p|] eqn:Ep; [|by apply last_None in Ep].
  rewrite <- Ew in Ep. rewrite (note_last _ _ _ Ep), Hnotes. cbn [or_raise]. rewrite Ok_bind.
  change (n_stage (note_of p)) with (we_stage p).
  destruct (bool_decide (we_stage p = MERGED)) eqn:Em; cbn [raise_if];
    [rewrite Err_bind; by apply agrees_err|].
  rewrite Ok_bind. set (selected := default (we_stage p) stage).
  destruct (stage_order selected <? stage_order (we_stage p)) eqn:E1; cbn [raise_if];
    [rewrite Err_bind; by apply agrees_err|].
  rewrite Ok_bind.
  destruct (stage_order (we_stage p) + 1 <? stage_order selected) eqn:E2; cbn [raise_if];
    [rewrite Err_bind; by apply agrees_err|].
  rewrite Ok_bind. apply agrees_append; [done|]. apply append_holds; try done.
  intros e Hk Hst Hre. unfold lifecycle_step. rewrite Ep, Hk, Hst, Hre.
  apply bool_decide_eq_false in Em. apply Z.ltb_ge in E1, E2.
  split; [done|]. split; [|split; [done|lia]].
  intros ->. rewrite bool_decide_true in Href by done. by destruct reference.
Qed.

Lemma call_agrees c :
  agrees es id (spec_work c (map note_of es)) (write_journal c id now db).
Proof using Hh Hid Hnow Hfresh. destruct c; [apply start_agrees|apply record_agrees]. Qed.
End one_call.

Definition new_file : work_database := mk_work_database (mk_schema 0 [] [] [] []) [] [].
Definition new_journal : work_database := (initialize_journal true new_file).2.

Lemma new_journal_holds : initialize_journal true new_file = (Ok tt, new_journal) ∧ holds [] new_journal.
Proof. split; [by vm_compute|]. split; [by vm_compute|constructor|done|by vm_compute..]. Qed.

Lemma history_holds calls es db :
  NoDup (map (λ c, c.2.1) calls) →
  Forall (λ c, uuid_valid c.2.1 = true ∧ utc_valid c.2.2 = true) calls →
  (∀ i, i ∈ map (λ c, c.2.1) calls → i ∉ map we_event_id es) → holds es db →
  let x := call_all call_journal calls db in
  let y := call_all (λ c, spec_work c.1) calls (map note_of es) in
  x.1 = y.1 ∧ ∃ es', y.2 = map note_of es' ∧ holds es' x.2.
Proof.
  intros Hnd Hok. revert es db Hnd. induction Hok as [|[c [id now]] calls [Hid Hnow] _ IH];
    intros es db Hnd Hfresh Hh; [split; [done|by exists es]|].
  cbn [map fst snd] in Hnd, Hfresh, Hid, Hnow. apply NoDup_cons in Hnd as [Hin Hnd].
  destruct (call_agrees es db id now Hh Hid Hnow ltac:(apply Hfresh; by left) c)
    as (Er & es' & En & Hh' & Hids).
  cbn [call_all fst snd].
  change (call_journal (c, (id, now)) db)
    with (view_of <$> (write_journal c id now db).1, (write_journal c id now db).2).
  destruct (write_journal c id now db) as [r db'], (spec_work c (map note_of es)) as [v notes].
  cbn [fst snd] in *. subst notes.
  destruct (IH es' db' Hnd) as (E & es2 & E2 & Hh2); [|done|].
  { intros i Hi Hi'. apply Hids in Hi' as [->|Hi']; [done|]. apply (Hfresh i); [by right|done]. }
  destruct (call_all call_journal calls db') as [rs db2].
  destruct (call_all _ calls (map note_of es')) as [rs' notes2]. cbn [fst snd] in *.
  split; [by rewrite Er, E|]. by exists es2.
Qed.

(** C25: The work journal implements a list of notes.  From a new file, any
    sequence of starts and records, with distinct fresh IDs and any times, texts,
    stages, references and verdicts of the caller, answers as the specification
    does on a list of notes, which knows no rows, hashes or checkpoints: the same
    error, or the notes of the work and the length of the journal; whatever is
    refused leaves the list as it was.  The database then holds a history of
    exactly these notes, and if there are any the journal verifies with their
    number: no write ever makes the journal unreadable. *)
Theorem work_memory_refines calls :
  NoDup (map (λ c : work_call * (uuid * datetime), c.2.1) calls) →
  Forall (λ c, uuid_valid c.2.1 = true ∧ utc_valid c.2.2 = true) calls →
  let '(replies, db) := call_all call_journal calls new_journal in
  let '(replies', notes) := call_all (λ c, spec_work c.1) calls [] in
  replies = replies'
  ∧ (∃ es, notes = map note_of es ∧ holds es db)
  ∧ (notes ≠ [] → wv_valid (verify_journal db) = true
                  ∧ wv_event_count (verify_journal db) = Z.of_nat (length notes)).
Proof.
  intros Hnd Hok. destruct (history_holds calls [] new_journal Hnd Hok) as (E & es & En & Hh);
    [intros; apply not_elem_of_nil|apply new_journal_holds|].
  cbn [map] in E, En. destruct (call_all call_journal calls new_journal) as [rs db].
  destruct (call_all _ calls []) as [rs' notes]. cbn [fst snd] in *. subst.
  split; [done|]. split; [by exists es|]. intros Hne.
  assert (es ≠ []) as Hes by (intros ->; by apply Hne).
  unfold verify_journal. rewrite (ho_schema _ _ Hh), Ok_bind, (holds_replay _ _ false Hh) by done.
  cbn [wv_valid wv_event_count rp_events replay_of]. by rewrite length_map.
Qed.

(** ** Witnesses *)

Definition sample_calls : list (work_call * (uuid * datetime)) :=
  [(Start "W-1" "org/repo#7" "Fix the parser" None, (5, of_instant 63900000000000000));
   (Record_event "W-1" REFERENCE "no link" None None None, (6, of_instant 63900000001000000));
   (Record_event "W-1" CHECKPOINT "skipping" (Some REVIEWING) None None, (7, of_instant 63900000002000000));
   (Record_event "W-1" DECISION "grammar first" (Some PLANNED) None None, (8, of_instant 63900000003000000))].

Lemma work_memory_refines_witness :
  let '(replies, db) := call_all call_journal sample_calls new_journal in
  map is_ok replies = [true; false; false; true]
  ∧ wv_event_count (verify_journal db) = 2.
Proof.
  pose proof (work_memory_refines sample_calls ltac:(apply (bool_decide_unpack _); by vm_compute)
    ltac:(repeat constructor)) as H.
  destruct (call_all call_journal sample_calls new_journal) as [replies db].
  assert (call_all (λ c : work_call * (uuid * datetime), spec_work c.1) sample_calls []
    = ((call_all (λ c : work_call * (uuid * datetime), spec_work c.1) sample_calls []).1,
       (call_all (λ c : work_call * (uuid * datetime), spec_work c.1) sample_calls []).2)) as E
    by (by destruct (call_all _ sample_calls [])).
  rewrite E in H. destruct H as (-> & _ & Hv). split; [vm_compute; reflexivity|].
  destruct Hv as [_ ->]; [vm_compute; discriminate|]. vm_compute. reflexivity.
Defined.

(** The journal of one start. *)
Definition sample_journal : work_database := Eval vm_compute in
  (write_journal (Start "W-1" "org/repo#7" "Fix the parser" None) 5 (of_instant 63900000000000000)
     new_journal).2.

Definition sample_replay : Replay := Eval vm_compute in
  match replay sample_journal true with Ok r => r | Err _ => empty_replay end.

Lemma sample_replayed : replay sample_journal true = Ok sample_replay.
Proof. vm_compute. reflexivity. Qed.

Lemma journal_tampering_detected_witness :
  rp_events sample_replay ≠ []
  ∧ wd_events sample_journal = wd_events sample_journal
  ∧ wd_state sample_journal = wd_state sample_journal
  ∧ rp_events sample_replay = rp_events sample_replay.
Proof.
  split; [discriminate|].
  apply (journal_tampering_detected sample_journal sample_journal true true sample_replay sample_replay
    sample_replayed sample_replayed eq_refl).
  intros e e' He He' [Hn _]. apply Hn. cbn [sample_replay rp_events] in He, He'.
  apply list_elem_of_singleton in He, He'. by rewrite He, He'.
Defined.

(** The journal of a work recorded through every stage to its merge. *)
Definition merged_journal : work_database := Eval vm_compute in
  (call_all call_journal
    [(Start "W-1" "org/repo#7" "Fix the parser" None, (5, of_instant 63900000000000000));
     (Record_event "W-1" CHECKPOINT "planned" (Some PLANNED) None None, (6, of_instant 63900000001000000));
     (Record_event "W-1" CHECKPOINT "coding" (Some IMPLEMENTING) None None, (7, of_instant 63900000002000000));
     (Record_event "W-1" CHECKPOINT "in review" (Some REVIEWING) None None, (8, of_instant 63900000003000000));
     (Record_event "W-1" CHECKPOINT "verified" (Some VERIFIED) None None, (9, of_instant 63900000004000000));
     (Record_event "W-1" CHECKPOINT "merged" (Some MERGED) None None, (10, of_instant 63900000005000000))]
    new_journal).2.

Definition merged_snapshot : WorkSnapshot := Eval vm_compute in
  match show_work "W-1" merged_journal with
  | Ok s => s
  | Err _ => mk_WorkSnapshot "" "" "" ISSUE [] 0 ""
  end.

Lemma merged_shown : show_work "W-1" merged_journal = Ok merged_snapshot.
Proof. vm_compute. reflexivity. Qed.

Lemma work_lifecycle_witness :
  length (ws_events merged_snapshot) = 6%nat
  ∧ we_stage <$> last (ws_events merged_snapshot) = Some MERGED
  ∧ (∃ e, e ∈ ws_events merged_snapshot ∧ we_stage e = REVIEWING)
  ∧ ∃ first rest, ws_events merged_snapshot = first :: rest
     ∧ we_kind first = STARTED ∧ we_stage first = ISSUE
     ∧ we_reference first = Some (ws_issue_reference merged_snapshot)
     ∧ ws_initial_summary merged_snapshot = we_summary first.
Proof.
  destruct (work_lifecycle merged_journal "W-1" merged_snapshot merged_shown) as (H & _ & Hl & Hs & _).
  split; [reflexivity|]. split; [exact Hl|]. split; [|exact H].
  apply (Hs REVIEWING). vm_compute. discriminate.
Defined.
