(* ===== verification/RoutingTheorems.v ===== *)
(** * RoutingTheorems: properties of capability routing and sessions

    A session never spends more than its budgets, and only on its own cards; the
    router returns the best of the cards that the policy and the prompt leave, and
    never one whose operation the prompt negates. *)

From S2P Require Import Prelude PyText PyJson PyHash PyTime PyDate PySql ResourceLimits ModelsBase CapabilityRouting.

Open Scope Z_scope.

#[local] Opaque astimezone_utc isoformat sha256 nfkc_casefold.

(** ** Sessions *)

Section sessions.
Context `{SystemZone}.

(** A call that a session may serve. *)
Record admissible (s : CapabilitySession) (c : capability_call) : Prop := {
  ad_plan : cl_plan_fingerprint c = cs_plan_fingerprint s;
  ad_card : cl_identity c ∈ map card_identity (cs_cards s);
  ad_time : ∃ now expires, astimezone_utc (cl_now c) = Ok now
              ∧ astimezone_utc (cs_expires_at s) = Ok expires ∧ instant now < instant expires;
  ad_payload : within_limits (JDict (cl_payload c)) (cs_maximum_total_bytes s) = true;
}.

Definition call_bytes (c : capability_call) : Z := scalar_bytes (usage_of (JDict (cl_payload c))).

Lemma check_call_Ok s c u :
  check_call s c = Ok u
  ↔ admissible s c ∧ u = usage_of (JDict (cl_payload c))
    ∧ cs_calls s + 1 ≤ cs_maximum_calls s
    ∧ cs_bytes s + call_bytes c ≤ cs_maximum_total_bytes s.
Proof.
  unfold check_call, call_bytes. split.
  - intros (now & Hn & H1)%bind_Ok. apply bind_Ok in H1 as (expires & He & H1).
    apply bind_Ok in H1 as (_ & Ht%raise_if_Ok%Z.leb_gt & H1).
    apply bind_Ok in H1 as (_ & Hp%raise_if_Ok%negb_false_iff%String.eqb_eq & H1).
    apply bind_Ok in H1 as (_ & Hc%raise_if_Ok%negb_false_iff%bool_decide_eq_true & H1).
    apply bind_Ok in H1 as (usage & [Hw ->]%measure_spec & H1).
    apply bind_Ok in H1 as (_ & Hcalls%raise_if_Ok%Z.ltb_ge & H1).
    apply bind_Ok in H1 as (_ & Hbytes%raise_if_Ok%Z.ltb_ge & [= <-]).
    split; [|done]. split; [done|done| |done]. by exists now, expires.
  - intros ([Hp Hc (now & expires & Hn & He & Ht) Hw] & -> & Hcalls & Hbytes).
    rewrite Hn, Ok_bind, He, Ok_bind. unfold dt_le.
    rewrite (proj2 (Z.leb_gt (instant expires) (instant now)) Ht), Hp, String.eqb_refl.
    rewrite (bool_decide_true _ Hc). cbn [negb raise_if]. rewrite !Ok_bind.
    rewrite (proj2 (measure_spec _ _ _ _) (conj Hw eq_refl)), Ok_bind.
    apply Z.ltb_ge in Hcalls, Hbytes. by rewrite Hcalls, Hbytes.
Qed.

(** The calls that were granted. *)
Definition granted (calls : list capability_call) (replies : list (result unit)) : list capability_call :=
  map fst (List.filter (λ x : capability_call * result unit, is_ok x.2) (zip calls replies)).

Lemma granted_Ok c calls rs : granted (c :: calls) (Ok tt :: rs) = c :: granted calls rs.
Proof. done. Qed.

Lemma granted_Err c calls e rs : granted (c :: calls) (Err e :: rs) = granted calls rs.
Proof. done. Qed.

Definition same_terms (s s' : CapabilitySession) : Prop :=
  cs_plan_fingerprint s' = cs_plan_fingerprint s ∧ cs_cards s' = cs_cards s
  ∧ cs_expires_at s' = cs_expires_at s ∧ cs_maximum_calls s' = cs_maximum_calls s
  ∧ cs_maximum_total_bytes s' = cs_maximum_total_bytes s.

Lemma admissible_same s s' c : same_terms s s' → admissible s' c → admissible s c.
Proof.
  intros (E1 & E2 & E3 & E4 & E5) [A1 A2 A3 A4]. rewrite E1 in A1. rewrite E2 in A2.
  rewrite E3 in A3. rewrite E5 in A4. by split.
Qed.

Lemma calls_spend calls s :
  cs_calls s ≤ cs_maximum_calls s → cs_bytes s ≤ cs_maximum_total_bytes s →
  let x := call_all authorize calls s in
  let g := granted calls x.1 in
  same_terms s x.2 ∧ Forall (admissible s) g
  ∧ cs_calls x.2 = cs_calls s + Z.of_nat (length g)
  ∧ cs_bytes x.2 = cs_bytes s + zsum (map call_bytes g)
  ∧ cs_calls x.2 ≤ cs_maximum_calls s ∧ cs_bytes x.2 ≤ cs_maximum_total_bytes s.
Proof.
  revert s. induction calls as [|c calls IH]; intros s Hc Hb.
  { cbn. rewrite !Z.add_0_r. by repeat split. }
  cbn [call_all]. destruct (check_call s c) as [u|e] eqn:E.
  - set (s1 := mk_CapabilitySession (cs_plan_fingerprint s) (cs_cards s) (cs_expires_at s)
      (cs_maximum_calls s) (cs_maximum_total_bytes s) (cs_calls s + 1) (cs_bytes s + scalar_bytes u)).
    assert (authorize c s = (Ok tt, s1)) as -> by (unfold authorize; by rewrite E).
    apply check_call_Ok in E as (Ha & -> & Hc' & Hb').
    destruct (IH s1 Hc' Hb') as (Hs & Hf & H1 & H2 & H3 & H4).
    destruct (call_all authorize calls s1) as [rs s2]. cbn [fst snd] in *. rewrite granted_Ok.
    split; [exact Hs|]. split.
    { constructor; [done|]. eapply Forall_impl; [exact Hf|]. intros x. by apply admissible_same. }
    change (cs_calls s1) with (cs_calls s + 1) in H1.
    change (cs_bytes s1) with (cs_bytes s + call_bytes c) in H2.
    cbn [length map zsum foldr]. fold (zsum (map call_bytes (granted calls rs))).
    split; [lia|]. split; [lia|]. done.
  - assert (authorize c s = (Err e, s)) as -> by (unfold authorize; by rewrite E).
    destruct (IH s Hc Hb) as (Hs & Hf & H1 & H2 & H3 & H4).
    destruct (call_all authorize calls s) as [rs s2]. cbn [fst snd] in *. rewrite granted_Err. done.
Qed.
End sessions.

(** C28: A capability session spends its budgets on its own cards only.  Whatever
    calls are made of a new session, in any order and number, those it grants are
    at most its number of calls and carry together at most its number of bytes,
    by the reference measure of their payloads; each names the session's plan and
    one of its exact cards (capability, version and manifest), came before the
    session expired, and has a payload within the limits; and the counters state
    what was granted, so that a refused call costs nothing. *)
Theorem session_within_budget `{SystemZone} s calls :
  CapabilitySession_post_init s = Ok s → cs_calls s = 0 → cs_bytes s = 0 →
  let '(replies, s') := call_all authorize calls s in
  let g := granted calls replies in
  Z.of_nat (length g) ≤ cs_maximum_calls s
  ∧ zsum (map call_bytes g) ≤ cs_maximum_total_bytes s
  ∧ Forall (admissible s) g
  ∧ cs_calls s' = Z.of_nat (length g) ∧ cs_bytes s' = zsum (map call_bytes g).
Proof.
  intros Hok Hc Hb. unfold CapabilitySession_post_init in Hok. inv_ok. to_prop.
  pose proof (calls_spend calls s ltac:(lia) ltac:(lia)) as Hs.
  destruct (call_all authorize calls s) as [rs s']. cbn [fst snd] in Hs.
  destruct Hs as (_ & Hf & H1 & H2 & H3 & H4). rewrite Hc, Hb in *.
  split; [lia|]. split; [lia|]. split; [done|]. split; lia.
Qed.

(** ** Ranking *)

Lemma rank_le_total x y : rank_le x y = true ∨ rank_le y x = true.
Proof.
  unfold rank_le. rewrite (Z.eqb_sym (fst y)), (String.eqb_sym (cc_capability_id y.2)).
  destruct (Z.eqb_spec x.1 y.1) as [E|E]; cbn [negb]; [|rewrite !Z.ltb_lt; lia].
  destruct (cc_capability_id x.2 =? cc_capability_id y.2)%string; apply str_le_total.
Qed.

Lemma rank_le_trans x y z : rank_le x y = true → rank_le y z = true → rank_le x z = true.
Proof.
  unfold rank_le.
  destruct (Z.eqb_spec x.1 y.1) as [E1|E1], (Z.eqb_spec y.1 z.1) as [E2|E2],
    (Z.eqb_spec x.1 z.1) as [E3|E3]; cbn [negb]; rewrite ?Z.ltb_lt; try lia.
  destruct (String.eqb_spec (cc_capability_id x.2) (cc_capability_id y.2)) as [F1|F1],
    (String.eqb_spec (cc_capability_id y.2) (cc_capability_id z.2)) as [F2|F2],
    (String.eqb_spec (cc_capability_id x.2) (cc_capability_id z.2)) as [F3|F3]; cbn [negb];
    intros H1 H2; try congruence.
  - by eapply str_le_trans.
  - rewrite F3 in H1. destruct F1. rewrite F3. by apply str_le_antisym.
  - by eapply str_le_trans.
Qed.

Lemma score_cards_Ok p cards scored :
  score_cards p cards = Ok scored →
  ∀ n c, (n, c) ∈ scored ↔ c ∈ cards ∧ score_card p c = Ok n ∧ n ≠ 0.
Proof.
  revert scored. induction cards as [|c0 cards IH]; intros scored.
  { intros [= <-] n c. split; [intros Hin|intros [Hin _]]; by apply not_elem_of_nil in Hin. }
  cbn [score_cards]. intros (m & Hm & H)%bind_Ok. apply bind_Ok in H as (rest & Hr & [= <-]).
  intros n c. rewrite elem_of_cons. specialize (IH rest Hr n c).
  destruct (Z.eqb_spec m 0) as [->|Hne].
  - rewrite IH. split.
    + intros (? & ? & ?). split; [by right|done].
    + intros ([->|?] & Hs & ?); [congruence|done].
  - rewrite elem_of_cons, IH. split.
    + intros [[= -> ->]|(? & ? & ?)]; (split; [by (left + right)|done]).
    + intros ([->|?] & Hs & ?); [left; congruence|by right].
Qed.

Section sorted.
Context {A : Type} (le : A → A → bool) (trans : ∀ x y z, le x y = true → le y z = true → le x z = true).

Lemma sorted_head x l : sorted_by le (x :: l) → ∀ y, y ∈ l → le x y = true.
Proof using trans.
  revert x. induction l as [|z l IH]; intros x Hs y Hy; [by apply not_elem_of_nil in Hy|].
  destruct Hs as [Hxz Hs]. apply elem_of_cons in Hy as [->|Hy]; [done|].
  apply (trans x z y Hxz). by apply IH.
Qed.

(** The first elements of a sorted list come before the others. *)
Lemma sorted_firstn n l x y :
  sorted_by le l → x ∈ firstn n l → y ∈ skipn n l → le x y = true.
Proof using trans.
  revert n. induction l as [|z l IH]; intros [|n] Hs Hx Hy; cbn in Hx, Hy;
    try (by apply not_elem_of_nil in Hx).
  apply elem_of_cons in Hx as [->|Hx].
  - apply (sorted_head z l Hs). rewrite <- (firstn_skipn n l). apply elem_of_app. by right.
  - apply (IH n); [by eapply sorted_by_tail|done|done].
Qed.
End sorted.

(** The card passed the tests of the prompt, with this score. *)
Definition eligible (p : prompt) (cards : list CapabilityCard) (allowed : CapabilityCard → bool)
    (n : Z) (c : CapabilityCard) : Prop :=
  c ∈ cards ∧ allowed c = true ∧ score_card p c = Ok n ∧ n ≠ 0.

Lemma resolve_intent_Ok text cards allowed limit d :
  resolve_intent text cards allowed limit = Ok d →
  ∃ p scored,
    1 ≤ limit ≤ 8 ∧ read_prompt text = Ok p
    ∧ (∀ n c, (n, c) ∈ scored ↔ eligible p cards allowed n c)
    ∧ rd_cards d = map snd (firstn (Z.to_nat limit) (sort_by rank_le scored)) ∧ rd_cards d ≠ [].
Proof.
  unfold resolve_intent. intros (_ & Hl%raise_if_Ok & H)%bind_Ok.
  apply bind_Ok in H as (p & Hp & H). apply bind_Ok in H as (_ & _ & H).
  apply bind_Ok in H as (scored & Hs & H). apply bind_Ok in H as (_ & Hne%raise_if_Ok & [= <-]).
  exists p, scored. to_prop. split; [lia|]. split; [done|]. split.
  - intros n c. rewrite (score_cards_Ok _ _ _ Hs). unfold eligible.
    rewrite list_elem_of_In, filter_In, <- list_elem_of_In. tauto.
  - split; [done|]. cbn [rd_cards]. by destruct (map snd _).
Qed.

(** What a positive score means. *)
Lemma score_card_positive p c n :
  score_card p c = Ok n → n ≠ 0 →
  other_mode p c = false
  ∧ ∃ tokens, intent_tokens c = Ok tokens ∧ ∀ t, t ∈ tokens → t ∉ pr_negated p.
Proof.
  unfold score_card. destruct (other_mode p c); [by intros [= <-]|].
  intros (tokens & Ht & H)%bind_Ok Hn. split; [done|].
  apply bind_Ok in H as (negatives & _ & H). destruct (existsb _ negatives); [by injection H as <-|].
  destruct (existsb _ tokens) eqn:Et; [by injection H as <-|]. exists tokens. split; [done|].
  intros t Hin Hneg. apply not_true_iff_false in Et. apply Et. apply existsb_exists.
  exists t. split; [by apply list_elem_of_In|]. by apply bool_decide_eq_true.
Qed.

(** C29: The router returns the best of what the policy and the prompt leave.  Each
    card of a decision is one of the given cards, allowed by the policy, with a
    positive score, in the mode of the prompt (a prompt that names reads and no
    write that is not negated gets no card that writes, one that names such
    writes and no reads only these), and without a negated term among its intents.  There is at
    least one and at most the limit; and when an eligible card is left out, the
    limit is reached and every card of the decision ranks before it, by score,
    then ID, then version. *)
Theorem resolve_intent_best text cards allowed limit d :
  resolve_intent text cards allowed limit = Ok d →
  ∃ p, read_prompt text = Ok p
    ∧ 1 ≤ Z.of_nat (length (rd_cards d)) ≤ limit
    ∧ ∀ c, c ∈ rd_cards d → ∃ n, eligible p cards allowed n c ∧ other_mode p c = false
        ∧ (∃ tokens, intent_tokens c = Ok tokens ∧ ∀ t, t ∈ tokens → t ∉ pr_negated p)
        ∧ ∀ m c', eligible p cards allowed m c' → c' ∉ rd_cards d →
            Z.of_nat (length (rd_cards d)) = limit ∧ rank_le (n, c) (m, c') = true.
Proof.
  intros (p & scored & Hl & Hp & Hs & Hd & Hne)%resolve_intent_Ok. exists p. split; [done|].
  set (sorted := sort_by rank_le scored) in *.
  assert (length (rd_cards d) = Nat.min (Z.to_nat limit) (length sorted)) as Hlen
    by (by rewrite Hd, length_map, length_firstn).
  split.
  { assert (length (rd_cards d) ≠ 0%nat) by (by destruct (rd_cards d)). lia. }
  intros c Hc. rewrite Hd in Hc. apply list_elem_of_fmap in Hc as ([n c'] & -> & Hin). cbn [snd].
  assert ((n, c') ∈ scored) as Hin' by (apply (sort_by_elem rank_le); rewrite <- (firstn_skipn (Z.to_nat limit));
    apply elem_of_app; by left).
  apply Hs in Hin'. exists n. split; [done|]. destruct Hin' as (_ & _ & Hscore & Hpos).
  destruct (score_card_positive _ _ _ Hscore Hpos) as [Hmode Htok]. split; [done|]. split; [done|].
  intros m c2 He Hout.
  assert ((m, c2) ∈ skipn (Z.to_nat limit) sorted) as Hskip.
  { apply Hs, (sort_by_elem rank_le) in He. fold sorted in He.
    rewrite <- (firstn_skipn (Z.to_nat limit)) in He. apply elem_of_app in He as [He|He]; [|done].
    destruct Hout. rewrite Hd. apply list_elem_of_fmap. by exists (m, c2). }
  split.
  - assert (Z.to_nat limit < length sorted)%nat; [|lia].
    destruct (Nat.lt_ge_cases (Z.to_nat limit) (length sorted)) as [|Hge]; [done|].
    rewrite skipn_all2 in Hskip by lia. by apply not_elem_of_nil in Hskip.
  - eapply (sorted_firstn rank_le rank_le_trans); [|exact Hin|exact Hskip].
    apply sort_by_is_sorted, rank_le_total.
Qed.

(** ** Negation *)

Lemma one_of_terms_true terms t : t ∈ terms → one_of_terms terms t = true.
Proof. apply bool_decide_true. Qed.

Lemma operation_not_breaker t :
  t ∈ READ_TERMS ++ WRITE_TERMS → one_of_terms NEGATION_BREAKERS t = false.
Proof.
  assert (Forall (λ t, one_of_terms NEGATION_BREAKERS t = false) (READ_TERMS ++ WRITE_TERMS)) as H
    by (repeat constructor).
  rewrite Forall_forall in H. apply H.
Qed.

Lemma negated_terms_app units units' :
  ∀ t, t ∈ negated_terms units' → t ∈ negated_terms (units ++ units').
Proof.
  intros t Ht. induction units as [|[w|m] units IH]; cbn; [done| |done].
  apply elem_of_app. by right.
Qed.

Lemma negated_next pre n t post :
  n ∈ NEGATORS → t ∈ READ_TERMS ++ WRITE_TERMS →
  t ∈ negated_terms (pre ++ Word n :: Word t :: post).
Proof.
  intros Hn Ht. apply negated_terms_app. cbn [negated_terms].
  rewrite (one_of_terms_true _ _ Hn). apply elem_of_app. left.
  unfold negated_by. cbn [negation_scope]. rewrite (operation_not_breaker t Ht).
  change (MAX_NEGATION_SCOPE_TOKENS <? 0 + 1) with false. cbn iota.
  rewrite (one_of_terms_true _ _ Ht).
  destruct (negation_scope post _ true _) as [operations fallback]. by left.
Qed.

(** What a prompt forbids is not routed.  When a negator ("never", "without",
    "don't" and so on) directly precedes one of the known operations in a prompt,
    anywhere in it, no card that names the operation among its intents is part
    of a decision, whatever else the prompt says and however well the card
    scores. *)
Theorem negated_operation_not_routed text surface pre n t post cards allowed limit d :
  normalize_surface text = Ok surface →
  negation_units surface = pre ++ Word n :: Word t :: post →
  n ∈ NEGATORS → t ∈ READ_TERMS ++ WRITE_TERMS →
  resolve_intent text cards allowed limit = Ok d →
  ∀ c, c ∈ rd_cards d → allowed c = true
    ∧ ∃ tokens, intent_tokens c = Ok tokens ∧ t ∉ tokens.
Proof.
  intros Hsurf Hunits Hn Ht (p & scored & _ & Hp & Hs & Hd & _)%resolve_intent_Ok c Hc.
  rewrite Hd in Hc. apply list_elem_of_fmap in Hc as ([m c'] & -> & Hin). cbn [snd].
  assert ((m, c') ∈ scored) as (_ & Hallow & Hscore & Hpos)%Hs
    by (apply (sort_by_elem rank_le); rewrite <- (firstn_skipn (Z.to_nat limit)); apply elem_of_app; by left).
  split; [done|]. destruct (score_card_positive _ _ _ Hscore Hpos) as (_ & tokens & Htok & Hneg).
  exists tokens. split; [done|]. intros Hin'. apply (Hneg t Hin').
  unfold read_prompt in Hp. rewrite Hsurf in Hp. apply bind_Ok in Hp as (? & [= <-] & Hp).
  apply bind_Ok in Hp as (_ & _ & [= <-]). cbn [pr_negated]. rewrite Hunits. by apply negated_next.
Qed.

(** ** Witnesses *)

#[local] Instance routing_zone : SystemZone := λ _, 0.

Definition routing_card (id : string) (risk : RiskLevel) (intents negative_intents : list string)
    : CapabilityCard :=
  mk_CapabilityCard id "1.0.0" (sha256 id) risk intents negative_intents CONFIDENTIAL.

Definition routing_cards : list CapabilityCard :=
  [routing_card "issues.read" READ_ONLY ["read issue"; "show issue"] ["delete"];
   routing_card "issues.search" READ_ONLY ["search issue"] [];
   routing_card "issues.remove" DESTRUCTIVE ["remove issue"] []].

Definition routed (text : string) : RoutingDecision :=
  match resolve_intent text routing_cards (λ _, true) 3 with
  | Ok d => d
  | Err _ => mk_RoutingDecision [] ""
  end.

Definition routing_text : string := "Show the issue, but never remove an issue".

Lemma routing_text_resolved :
  resolve_intent routing_text routing_cards (λ _, true) 3 = Ok (routed routing_text).
Proof. vm_compute. reflexivity. Qed.

Lemma resolve_intent_best_witness :
  map cc_capability_id (rd_cards (routed routing_text)) = ["issues.read"; "issues.search"]
  ∧ 1 ≤ Z.of_nat (length (rd_cards (routed routing_text))) ≤ 3.
Proof.
  split; [vm_compute; reflexivity|].
  destruct (resolve_intent_best _ _ _ _ _ routing_text_resolved) as (p & _ & Hl & _). exact Hl.
Defined.

Lemma negated_operation_not_routed_witness :
  ∀ c, c ∈ rd_cards (routed routing_text) →
    ∃ tokens, intent_tokens c = Ok tokens ∧ "remove" ∉ tokens.
Proof.
  intros c Hc. destruct (normalize_surface routing_text) as [surface|e] eqn:E; [|vm_compute in E; discriminate E].
  assert (negation_units surface
    = [Word "show"; Word "the"; Word "issue"; Mark ","; Word "but"]
      ++ Word "never" :: Word "remove" :: [Word "an"; Word "issue"]) as Hu.
  { vm_compute in E. injection E as <-. vm_compute. reflexivity. }
  refine (proj2 (negated_operation_not_routed routing_text surface _ _ _ _ routing_cards (λ _, true) 3
    (routed routing_text) E Hu _ _ routing_text_resolved c Hc)).
  - by apply (bool_decide_unpack _).
  - by apply (bool_decide_unpack _).
Defined.

(** A card is complete with an intent that has no usable terms; the empty phrase
    then occurs in every prompt. *)
Example unusable_intent_routed :
  let odd := routing_card "odd.one" READ_ONLY ["???"] [] in
  CapabilityCard_post_init odd = Ok odd
  ∧ rd_cards <$> resolve_intent "hello" [odd] (λ _, true) 3 = Ok [odd].
Proof. split; vm_compute; reflexivity. Qed.

Definition sample_session : CapabilitySession :=
  mk_CapabilitySession (sha256 "plan") routing_cards (of_instant 63900000000000000) 2 1000 0 0.

Definition session_call (now : Z) : capability_call :=
  mk_capability_call (sha256 "plan") "issues.read" "1.0.0" (sha256 "issues.read")
    [("key", JStr "OPS-1")] (of_instant now).

(** Three calls in time and one too late: two are granted. *)
Definition session_calls : list capability_call :=
  [session_call 63890000000000000; session_call 63900000000000000;
   session_call 63891000000000000; session_call 63892000000000000].

Lemma session_within_budget_witness :
  CapabilitySession_post_init sample_session = Ok sample_session
  ∧ cs_calls (call_all authorize session_calls sample_session).2 = 2
  ∧ zsum (map call_bytes (granted session_calls
      (call_all authorize session_calls sample_session).1)) ≤ 1000.
Proof.
  assert (CapabilitySession_post_init sample_session = Ok sample_session) as Hok
    by (vm_compute; reflexivity).
  split; [exact Hok|]. split; [vm_compute; reflexivity|].
  pose proof (session_within_budget sample_session session_calls Hok eq_refl eq_refl) as H.
  destruct (call_all authorize session_calls sample_session) as [replies s']. apply H.
Defined.
