(* ===== verification/CapsuleRun.v ===== *)
(** * CapsuleRun: coordinated runs of capsule-bound plans,
    [src/src/master_agent/capsule_operations.py]

    The coordinator persists the state of a run as a checkpoint of the audit log,
    asks the orchestrator for a policy report and for the run itself, signs the
    receipt of what happened and exports it.  Its steps are those of the run
    monad: the audit log is the one the orchestrator writes, and the world [W]
    holds the systems behind the connectors and behind the two sinks.  A call of
    the orchestrator starts with fresh local variables ([start]) and its trace is
    appended.  The performance snapshot of a report is an argument.

    Then their properties. *)

From S2P Require Import Prelude PyText PyJson PyHash PyTime PyDate PyStd PyJsonLoads ModelsBase.
From S2P Require Import PlatformIdentity ModelsSystems ModelsReviews ModelsAction ModelsBindings ModelsContext ModelsPlan ModelsResults.
From S2P Require Import Approvals Policy Capabilities Governance AuditLog PlannerGate Canonical Evidence Registry RunMonad.
From S2P Require Import Orchestrator Receipts AuditTheorems LedgerTheorems OrderTheorems.
From S2P Require Import PlanBinding OrchestratorTheorems ReceiptTheorems.
From Stdlib Require Import Ascii.

Open Scope Z_scope.

(** ** States *)

Inductive CapsuleRunState : Type :=
  | RUN_PLANNED | RUN_AWAITING_CONNECTION | RUN_AWAITING_APPROVAL | RUN_EXECUTING
  | RUN_VERIFYING | RUN_COMPENSATING | RUN_TERMINAL.
#[export] Instance CapsuleRunState_eq_dec : EqDecision CapsuleRunState.
Proof. solve_decision. Defined.
Definition CapsuleRunState_str (s : CapsuleRunState) : string :=
  match s with
  | RUN_PLANNED => "planned" | RUN_AWAITING_CONNECTION => "awaiting_connection"
  | RUN_AWAITING_APPROVAL => "awaiting_approval" | RUN_EXECUTING => "executing"
  | RUN_VERIFYING => "verifying" | RUN_COMPENSATING => "compensating"
  | RUN_TERMINAL => "terminal"
  end.
#[export] Instance CapsuleRunState_enum : StrEnum CapsuleRunState := {
  enum_name := "CapsuleRunState";
  enum_members := [RUN_PLANNED; RUN_AWAITING_CONNECTION; RUN_AWAITING_APPROVAL; RUN_EXECUTING;
    RUN_VERIFYING; RUN_COMPENSATING; RUN_TERMINAL];
  enum_str := CapsuleRunState_str }.
#[export] Instance CapsuleRunState_laws : StrEnumLaws CapsuleRunState.
Proof. by intros []. Qed.

Definition TRANSITIONS (s : CapsuleRunState) : list CapsuleRunState :=
  match s with
  | RUN_PLANNED => [RUN_AWAITING_CONNECTION; RUN_AWAITING_APPROVAL; RUN_EXECUTING; RUN_VERIFYING]
  | RUN_AWAITING_CONNECTION => [RUN_AWAITING_CONNECTION; RUN_AWAITING_APPROVAL; RUN_EXECUTING]
  | RUN_AWAITING_APPROVAL => [RUN_AWAITING_APPROVAL; RUN_EXECUTING]
  | RUN_EXECUTING => [RUN_EXECUTING; RUN_VERIFYING]
  | RUN_VERIFYING => [RUN_EXECUTING; RUN_COMPENSATING; RUN_TERMINAL]
  | RUN_COMPENSATING => [RUN_EXECUTING; RUN_COMPENSATING; RUN_TERMINAL]
  | RUN_TERMINAL => []
  end.

(** ** The digests *)

(** [_capsule_bindings_sha256], of the capsules of the execution context. *)
Definition capsule_bindings_sha256 (capsules : list CapabilityCapsuleExecutionBinding)
    : result string :=
  text ← dumps_ascii (dicts (map CapsuleBinding_to_dict capsules));
  Ok (sha256 text).

Definition optional_dict {X} (to_dict : X → result dict) (x : option X) : result json :=
  match x with
  | Some x => d ← to_dict x; Ok (JDict d)
  | None => Ok JNull
  end.

Section reports.
Context {P B : Type} `{ProviderEgress P B}.

Definition ActionReport_to_dict (self : ActionReport B) : result dict :=
  result_ ← optional_dict ExecutionResult_to_dict (ar_result self);
  compensation ← optional_dict ExecutionResult_to_dict (ar_compensation self);
  Ok [("action_id", JStr (uuid_str (ar_action_id self)));
      ("capability", JStr (ar_capability self));
      ("state", JStr (enum_str (ar_state self)));
      ("message", JStr (ar_message self));
      ("result", result_);
      ("compensation", compensation);
      ("egress", opt_json (λ e, JDict (egress_to_dict e)) (ar_egress self))].

(** [performance] is the dictionary of the snapshot the report carries. *)
Definition RunReport_to_dict (performance : option dict) (self : RunReport (B := B))
    : result dict :=
  actions ← mapM ActionReport_to_dict (rr_actions self);
  Ok ([("run_id", JStr (uuid_str (rr_run_id self)));
       ("plan_id", JStr (uuid_str (rr_plan_id self)));
       ("plan_fingerprint", JStr (rr_plan_fingerprint self));
       ("dry_run", JBool (rr_dry_run self));
       ("successful", JBool (successful self));
       ("compensated", JBool (compensated self));
       ("actions", dicts actions)]
      ++ match rr_systems_review self with
         | Some review => [("systems_review", JDict (SystemsPostExecutionReview_to_dict review))]
         | None => []
         end
      ++ match performance with Some d => [("performance", JDict d)] | None => [] end).

Definition report_sha256 (performance : option dict) (report : RunReport (B := B))
    : result string :=
  d ← RunReport_to_dict performance report;
  text ← dumps_ascii (JDict d);
  Ok (sha256 text).
End reports.

Definition validate_resume (checkpoint : RunCheckpoint) (plan : ChangePlan)
    (capsule_digest : string) : result unit :=
  raise_if (negb (bool_decide (rc_plan_id checkpoint = cp_plan_id plan))
            || negb (rc_plan_fingerprint checkpoint =? ChangePlan_fingerprint plan)%string
            || negb (rc_capsule_bindings_sha256 checkpoint =? capsule_digest)%string)
    (ConfigurationError
       "capsule run resume requires the exact captured plan and capsule bindings").

(** A subject as a string: [authenticated_subject] gives code points, of which a
    receipt of this model can only state those of its range. *)
Fixpoint subject_string (t : text) : result string :=
  match t with
  | [] => Ok ""
  | z :: t =>
      raise_if ((z <? 0) || (255 <? z)) (PyOtherError "a subject outside the modelled characters");;
      s ← subject_string t;
      Ok (String (chr z) s)
  end.

Definition stated_subject (p : Approval * text) : result (Approval * string) :=
  s ← subject_string p.2; Ok (p.1, s).

(** ** The coordinator *)

Record GovernedCapsuleRun (B : Type) : Type := mk_GovernedCapsuleRun {
  gcr_coordinator_run_id : uuid;
  gcr_state : CapsuleRunState;
  gcr_checkpoint : RunCheckpoint;
  gcr_report : option (RunReport (B := B));
  gcr_receipt : option ExecutionReceipt;
  gcr_external_receipt_locator : option string;
}.
#[global] Arguments mk_GovernedCapsuleRun {B}.
#[global] Arguments gcr_coordinator_run_id {B} _.
#[global] Arguments gcr_state {B} _.
#[global] Arguments gcr_checkpoint {B} _.
#[global] Arguments gcr_report {B} _.
#[global] Arguments gcr_receipt {B} _.
#[global] Arguments gcr_external_receipt_locator {B} _.

Record CapsuleRunCoordinator (A P W : Type) : Type := mk_CapsuleRunCoordinator {
  crc_orchestrator : WorkflowOrchestrator (A := A) (P := P) (W := W);
  crc_receipt_signer : ReceiptSigner;
  crc_external_sink : option (ExternalReceiptSink W);
  crc_telemetry_sink : option (dict → W → result unit * W);
  crc_require_external_audit : bool;
}.
#[global] Arguments mk_CapsuleRunCoordinator {A P W}.
#[global] Arguments crc_orchestrator {A P W} _.
#[global] Arguments crc_receipt_signer {A P W} _.
#[global] Arguments crc_external_sink {A P W} _.
#[global] Arguments crc_telemetry_sink {A P W} _.
#[global] Arguments crc_require_external_audit {A P W} _.

(** The readings that are left after [n]. *)
Definition later_env (env : environment) (n : nat) : environment :=
  mk_environment (λ k, clock_now env (n + k)%nat) (λ k, fresh_uuid env (n + k)%nat).

Definition as_checkpoint (r : audit_reply) : result RunCheckpoint :=
  match r with RCheckpoint r => r | _ => unexpected_reply end.
Definition as_hash (r : audit_reply) : result string :=
  match r with RRecord r => r | _ => unexpected_reply end.

(** A call of a sink. *)
Definition on_world {W B X} (f : W → result X * W) : run W B X := λ s,
  let '(r, w) := f (rs_world s) in
  (r, mk_run_state (rs_database s) w (rs_tick s) (rs_trace s) (rs_vars s)).

Definition compensation_state (item : ActionState) : bool :=
  bool_decide (item ∈ [COMPENSATING; COMPENSATION_FAILED]).

Section coordinator.
Context {A P B W : Type} `{Authenticator A} `{ProviderEgress P B} `{SystemZone}.
Context (env : environment) (performance : nat → option dict).
Context (self : CapsuleRunCoordinator A P W).
#[local] Abbreviation run := (run W B).

(** [self._orchestrator.run(...)]. *)
Definition orchestrate (plan : ChangePlan) (approvals : list Approval) (dry_run : bool)
    : run (RunReport (B := B)) := λ s,
  let '(r, s') := run_internal (later_env env (rs_tick s)) (crc_orchestrator self) plan approvals
                    dry_run (start (rs_database s) (rs_world s)) in
  (r, mk_run_state (rs_database s') (rs_world s') (rs_tick s + rs_tick s')%nat
        (rs_trace s ++ rs_trace s') (rs_vars s)).

Definition load_checkpoint (run_id : uuid) : run (option RunCheckpoint) := λ s,
  (run_checkpoint run_id (rs_database s), s).

Definition write_checkpoint (run_id : uuid) (plan : ChangePlan) (state : CapsuleRunState)
    (capsule_digest : string) (expected_state result_sha256 : option string)
    : run RunCheckpoint :=
  t ← now env;
  audit (OpCheckpoint run_id (cp_plan_id plan) (ChangePlan_fingerprint plan) (enum_str state)
           capsule_digest expected_state result_sha256 t) as_checkpoint.

Definition record_state (checkpoint : RunCheckpoint) : run unit :=
  record_event env (rc_run_id checkpoint) (rc_plan_id checkpoint) None "capsule_run_state"
    [("state", JStr (rc_state checkpoint));
     ("sequence", JInt (rc_sequence checkpoint));
     ("plan_fingerprint", JStr (rc_plan_fingerprint checkpoint));
     ("capsule_bindings_sha256", JStr (rc_capsule_bindings_sha256 checkpoint));
     ("result_sha256", opt_json JStr (rc_result_sha256 checkpoint))].

Definition transition (checkpoint : RunCheckpoint) (target : CapsuleRunState) (plan : ChangePlan)
    (capsule_digest : string) (result_sha256 : option string) : run RunCheckpoint :=
  current ← lift (enum_parse (rc_state checkpoint));
  lift (raise_if (negb (bool_decide (target ∈ TRANSITIONS current)))
    (ConfigurationError ("capsule run transition " +:+ enum_str current +:+ " -> "
       +:+ enum_str target +:+ " is not allowed")));;
  updated ← write_checkpoint (rc_run_id checkpoint) plan target capsule_digest
    (Some (enum_str current)) result_sha256;
  record_state updated;;
  mret updated.

(** The checkpoint of the run: a new one, or the stored one if it may resume. *)
Definition open_run (run_id : uuid) (plan : ChangePlan) (capsule_digest : string)
    : run RunCheckpoint :=
  stored ← load_checkpoint run_id;
  match stored with
  | None =>
      checkpoint ← write_checkpoint run_id plan RUN_PLANNED capsule_digest None None;
      record_state checkpoint;;
      mret checkpoint
  | Some checkpoint =>
      lift (validate_resume checkpoint plan capsule_digest);;
      lift (raise_if (rc_state checkpoint =? enum_str RUN_TERMINAL)%string
        (ConfigurationError "capsule run is already terminal; replay is refused"));;
      mret checkpoint
  end.

Definition audit_sink_unhealthy : exn :=
  ConfigurationError
    "production capsule run requires a healthy external tamper-resistant audit sink".

Definition require_audit_sink : run unit :=
  match crc_external_sink self with
  | None => raise audit_sink_unhealthy
  | Some sink =>
      if negb (sink_external sink) || negb (sink_tamper_resistant sink)
      then raise audit_sink_unhealthy
      else healthy ← on_world (sink_healthy sink);
           lift (raise_if (negb healthy) audit_sink_unhealthy)
  end.

(** The run itself, or the policy report of a dry run, with the checkpoints
    around it. *)
Definition carry_out (checkpoint : RunCheckpoint) (plan : ChangePlan) (approvals : list Approval)
    (dry_run : bool) (capsule_digest : string) (policy_report : RunReport (B := B))
    : run (RunReport (B := B) * RunCheckpoint) :=
  if dry_run then
    checkpoint ← transition checkpoint RUN_VERIFYING plan capsule_digest None;
    mret (policy_report, checkpoint)
  else
    checkpoint ← transition checkpoint RUN_EXECUTING plan capsule_digest None;
    report ← orchestrate plan approvals false;
    checkpoint ← transition checkpoint RUN_VERIFYING plan capsule_digest None;
    (if compensated report || existsb (λ item, compensation_state (ar_state item)) (rr_actions report)
     then checkpoint ← transition checkpoint RUN_COMPENSATING plan capsule_digest None;
          mret (report, checkpoint)
     else mret (report, checkpoint)).

Definition anchor_payload (plan : ChangePlan) (capsule_digest result_sha256 : string) : dict :=
  [("plan_fingerprint", JStr (ChangePlan_fingerprint plan));
   ("capsule_bindings_sha256", JStr capsule_digest);
   ("result_sha256", JStr result_sha256)].

Definition receipt_payload (receipt : ExecutionReceipt) (digest : string)
    (locator : option string) : dict :=
  [("receipt_id", JStr (uuid_str (xr_receipt_id receipt)));
   ("receipt_sha256", JStr digest);
   ("signer_key_id", JStr (xr_signer_key_id receipt));
   ("external_sink", opt_json (λ sink, JStr (sink_id _ sink)) (crc_external_sink self));
   ("external_locator_sha256",
    match locator with
    | Some l => if (l =? "")%string then JNull else JStr (sha256 l)
    | None => JNull
    end)].

(** The evidence of the run: the audit anchor, the receipt and its exports. *)
Definition settle_run (run_id : uuid) (plan : ChangePlan) (capsule_digest : string)
    (authenticated : list (Approval * string)) (report : RunReport (B := B))
    (checkpoint : RunCheckpoint) : run (GovernedCapsuleRun B) :=
  tick ← (λ s, (Ok (rs_tick s), s)) : run nat;
  result_sha256 ← lift (report_sha256 (performance tick) report);
  t ← now env;
  anchor ← audit (OpRecord run_id (cp_plan_id plan) None "capsule_receipt_anchor"
                    (anchor_payload plan capsule_digest result_sha256) t) as_hash;
  fresh ← uuid4 env;
  t ← now env;
  receipt ← lift (build_execution_receipt plan report authenticated anchor
                    (crc_receipt_signer self) fresh t);
  locator ← match crc_external_sink self with
            | Some sink => l ← on_world (export_execution_receipt receipt sink); mret (Some l)
            | None => mret None
            end;
  match crc_telemetry_sink self with
  | Some emit => on_world (emit_receipt_telemetry receipt emit)
  | None => mret tt
  end;;
  digest ← lift (receipt_sha256 receipt);
  checkpoint ← transition checkpoint RUN_TERMINAL plan capsule_digest (Some digest);
  record_event env run_id (cp_plan_id plan) None "capsule_execution_receipt"
    (receipt_payload receipt digest locator);;
  mret (mk_GovernedCapsuleRun run_id RUN_TERMINAL checkpoint (Some report) (Some receipt) locator).

(** [run]; without a run identifier a fresh one is drawn. *)
Definition coordinate (plan : ChangePlan) (approvals : list Approval)
    (dry_run connections_ready : bool) (coordinator_run_id : option uuid)
    : run (GovernedCapsuleRun B) :=
  capsules ← lift (match cp_execution_context plan with
    | Some context => match ec_capsules context with
                      | [] => Err (ConfigurationError
                          "capsule run requires exact capsule bindings in execution context")
                      | capsules => Ok capsules
                      end
    | None => Err (ConfigurationError
        "capsule run requires exact capsule bindings in execution context")
    end);
  capsule_digest ← lift (capsule_bindings_sha256 capsules);
  run_id ← match coordinator_run_id with Some i => mret i | None => uuid4 env end;
  checkpoint ← open_run run_id plan capsule_digest;
  if existsb (λ binding, match ccb_credential_names binding with [] => false | _ => true end) capsules
     && negb connections_ready
  then
    checkpoint ← transition checkpoint RUN_AWAITING_CONNECTION plan capsule_digest None;
    mret (mk_GovernedCapsuleRun run_id RUN_AWAITING_CONNECTION checkpoint None None None)
  else
    when_run (crc_require_external_audit self) require_audit_sink;;
    t ← now env;
    authenticated ← lift (orchestrator_authenticated_approvals (crc_orchestrator self) plan
                            approvals t);
    authenticated ← lift (mapM stated_subject authenticated);
    policy_report ← orchestrate plan approvals true;
    if existsb (λ item, bool_decide (ar_state item = APPROVAL_REQUIRED)) (rr_actions policy_report)
    then
      checkpoint ← transition checkpoint RUN_AWAITING_APPROVAL plan capsule_digest None;
      mret (mk_GovernedCapsuleRun run_id RUN_AWAITING_APPROVAL checkpoint (Some policy_report)
              None None)
    else
      '(report, checkpoint) ← carry_out checkpoint plan approvals dry_run capsule_digest
                                policy_report;
      settle_run run_id plan capsule_digest authenticated report checkpoint.
End coordinator.

(** ** Properties *)

(** ** The orchestrator leaves the checkpoints alone *)

Definition checkpoint_event (e : event) : option RunCheckpoint :=
  match e with
  | Audited (OpCheckpoint _ _ _ _ _ _ _ _) (RCheckpoint (Ok checkpoint)) => Some checkpoint
  | _ => None
  end.

Lemma op_events op db : db_events db `prefix_of` db_events (run_op op db).2.
Proof. destruct (run_op_appends op db) as (es&->&_). by exists es. Qed.

Lemma op_checkpoints op db :
  is_checkpoint op = false → db_checkpoints (run_op op db).2 = db_checkpoints db.
Proof. intros Hop. destruct op; try discriminate Hop; run_cases; done. Qed.

(** The operations of the audit log in a trace, in the order they committed. *)
Definition audited_ops (tr : list event) : list audit_op :=
  flat_map (λ e, match e with Audited op _ => [op] | Called _ _ => [] end) tr.

Lemma audited_ops_app tr tr' : audited_ops (tr ++ tr') = audited_ops tr ++ audited_ops tr'.
Proof. apply flat_map_app. Qed.

Lemma audited_ops_snoc tr op r : audited_ops (tr ++ [Audited op r]) = audited_ops tr ++ [op].
Proof. apply audited_ops_app. Qed.

Lemma after_one op db : after [op] db = (run_op op db).2.
Proof. by rewrite after_cons. Qed.

Section orchestrator.
Context {A P B W : Type} `{Authenticator A} `{ProviderEgress P B}.
Context (env : environment) (self : WorkflowOrchestrator (A := A) (P := P) (W := W)).
Context (db0 : database).

(** The database is what the operations of the trace made of [db0]; none of them
    is on a checkpoint; the log extends that of [db0]. *)
Definition uncheckpointed (s : run_state W B) : Prop :=
  rs_database s = after (audited_ops (rs_trace s)) db0
  ∧ Forall (λ op, is_checkpoint op = false) (audited_ops (rs_trace s))
  ∧ db_events db0 `prefix_of` db_events (rs_database s)
  ∧ Forall (λ e, checkpoint_event e = None) (rs_trace s).

Lemma uncheckpointed_audit {A'} op (project : audit_reply → result A') :
  is_checkpoint op = false → keeps uncheckpointed (audit op project).
Proof.
  intros Hop. apply keeps_audit. intros s (Hr&Hc&He&Ht). split_and!.
  - cbn [rs_database rs_trace]. by rewrite audited_ops_snoc, after_app, <-Hr, after_one.
  - cbn [rs_trace]. rewrite audited_ops_snoc. apply Forall_app_2; [done|]. by apply Forall_singleton.
  - cbn. etrans; [exact He|]. apply op_events.
  - cbn. apply Forall_app_2; [done|]. apply Forall_singleton. by destruct op.
Qed.
Lemma uncheckpointed_call call : call_kept uncheckpointed call.
Proof.
  intros s w r (Hr&Hc&He&Ht). unfold uncheckpointed. cbn [rs_database rs_trace].
  rewrite audited_ops_app, app_nil_r. split_and!; try done.
  by apply Forall_app_2; [|apply Forall_singleton].
Qed.
Lemma uncheckpointed_assign f : keeps uncheckpointed (assign f).
Proof. by intros s. Qed.
Lemma uncheckpointed_provider {A'} call (wrap : result A' → provider_reply) f :
  keeps uncheckpointed (provider call wrap f).
Proof. apply keeps_provider, uncheckpointed_call. Qed.
Lemma uncheckpointed_now : keeps uncheckpointed (now env).
Proof. by intros s. Qed.
Lemma uncheckpointed_uuid4 : keeps uncheckpointed (uuid4 env).
Proof. by intros s. Qed.
Lemma uncheckpointed_replace i report : keeps uncheckpointed (replace_report i report).
Proof. apply keeps_replace_report. intros f. apply uncheckpointed_assign. Qed.
#[local] Hint Resolve uncheckpointed_assign uncheckpointed_provider uncheckpointed_now
  uncheckpointed_uuid4 uncheckpointed_replace : keeps_db.
#[local] Hint Extern 1 (keeps _ (audit _ _)) => apply uncheckpointed_audit; repeat case_match; reflexivity : keeps_db.

Lemma uncheckpointed_event run_id plan_id action_id event_type payload :
  keeps uncheckpointed (record_event env run_id plan_id action_id event_type payload).
Proof. unfold record_event. keep. Qed.
#[local] Hint Resolve uncheckpointed_event : keeps_db.

Lemma uncheckpointed_bookkept : bookkept uncheckpointed (λ _, True).
Proof.
  split; [by intros s| |by intros report _ s|by intros i st _ s|by intros b s].
  intros r p a t d now s Hs.
  pose proof (uncheckpointed_audit (OpRecord r p a t d now) as_record eq_refl s Hs) as Ha.
  unfold audit in Ha. by destruct (run_op _ _).
Qed.

Lemma uncheckpointed_conclude run_id plan action report extra :
  keeps uncheckpointed (conclude_with env self run_id plan action report extra).
Proof. by eapply keeps_conclude_with; [apply uncheckpointed_bookkept|]. Qed.

Lemma uncheckpointed_compensate run_id plan dry_run :
  keeps uncheckpointed (maybe_compensate env self run_id plan dry_run).
Proof.
  assert (∀ item, keeps uncheckpointed (compensate_item env self run_id plan item)) as Hi.
  { intros item. unfold compensate_item, settle_report, failed_compensation, current_report,
      record_action. keep.
    all: unfold compensate_verified, failed_compensation; keep. }
  unfold maybe_compensate. keep.
  assert (∀ items, keeps uncheckpointed (item_states items)) as Hs.
  { induction items; simpl; unfold current_report; keep. }
  apply Hs.
Qed.
#[local] Hint Resolve uncheckpointed_compensate uncheckpointed_conclude : keeps_db.

Lemma uncheckpointed_persist action token certified message r connector :
  keeps uncheckpointed (persist_idempotency_outcome env action token certified message r connector).
Proof. unfold persist_idempotency_outcome, idempotency_record. keep. Qed.
#[local] Hint Resolve uncheckpointed_persist : keeps_db.

Lemma uncheckpointed_claim run_id plan dry_run action connector :
  keeps uncheckpointed (claim_key env self run_id plan dry_run action connector).
Proof.
  unfold claim_key, reuse_completed, resolve_indeterminate, reconcile, refuse, compensate_and_stop,
    conclude. keep.
Qed.

Lemma uncheckpointed_dispatch run_id plan action connector budget :
  keeps uncheckpointed (dispatch env self run_id plan action connector budget).
Proof.
  unfold dispatch, retain_effect, verify_effect, verified_report, unverified_report,
    recheck_egress, idempotency_record. keep.
Qed.
#[local] Hint Resolve uncheckpointed_claim uncheckpointed_dispatch : keeps_db.

Lemma uncheckpointed_execute run_id plan dry_run action :
  keeps uncheckpointed (execute_permitted env self run_id plan dry_run action).
Proof.
  unfold execute_permitted. apply keeps_bind; [keep|]. intros _. apply keeps_bind.
  - apply keeps_try.
    + unfold attempt, authorize_egress, record_egress, pre_effect_guard, refuse,
        compensate_and_stop, conclude. keep.
    + unfold attempt_failure, certified_failure, uncertain_failure. intros e k E.
      destruct e; simplify_eq/=; keep.
  - intros o. unfold conclude, compensate_and_stop. keep.
Qed.

Lemma uncheckpointed_run plan approvals dry_run :
  keeps uncheckpointed (run_internal env self plan approvals dry_run).
Proof.
  eapply keeps_run; [apply uncheckpointed_bookkept|]. intros. eapply keeps_process.
  - apply uncheckpointed_bookkept.
  - apply uncheckpointed_compensate.
  - done.
  - intros _. apply uncheckpointed_execute.
Qed.
End orchestrator.

(** ** The lifecycle of a run *)

(** What a commit may do to the row of a run. *)
Inductive advances : option checkpoint_row → option checkpoint_row → Prop :=
  | run_created row :
      cr_state row = enum_str RUN_PLANNED → cr_sequence row = 0 → cr_result_sha256 row = None →
      advances None (Some row)
  | run_moved row row' state target :
      cr_state row = enum_str state → cr_state row' = enum_str target →
      target ∈ TRANSITIONS state →
      cr_plan_id row' = cr_plan_id row → cr_plan_fingerprint row' = cr_plan_fingerprint row →
      cr_capsule_bindings_sha256 row' = cr_capsule_bindings_sha256 row →
      cr_sequence row' = cr_sequence row + 1 →
      advances (Some row) (Some row').

(** A checkpoint operation that the coordinator may commit. *)
Definition legal_move (expected : option string) (state : string) (digest : option string) : Prop :=
  (expected = None ∧ state = enum_str RUN_PLANNED ∧ digest = None)
  ∨ ∃ current target, expected = Some (enum_str current) ∧ state = enum_str target
      ∧ target ∈ TRANSITIONS current.

Definition legal_op (op : audit_op) : Prop :=
  match op with
  | OpCheckpoint _ _ _ state _ expected digest _ => legal_move expected state digest
  | _ => is_checkpoint op = false
  end.

(** What [checkpoint_run] leaves. *)
Lemma checkpoint_run_cases run_id plan_id fp st capsules expected digest now db :
  (∃ e, checkpoint_run run_id plan_id fp st capsules expected digest now db = (Err e, db))
  ∨ ∃ row,
      checkpoint_run run_id plan_id fp st capsules expected digest now db
      = (Ok (mk_RunCheckpoint run_id plan_id fp st (cr_sequence row) capsules digest now),
         set_checkpoints (<[uuid_str run_id := row]> (db_checkpoints db)) db)
      ∧ cr_plan_id row = uuid_str plan_id ∧ cr_plan_fingerprint row = fp
      ∧ cr_capsule_bindings_sha256 row = capsules ∧ cr_state row = st
      ∧ cr_result_sha256 row = digest
      ∧ match db_checkpoints db !! uuid_str run_id with
        | None => expected = None ∧ cr_sequence row = 0
        | Some old =>
            cr_plan_id old = uuid_str plan_id ∧ cr_plan_fingerprint old = fp
            ∧ cr_capsule_bindings_sha256 old = capsules ∧ expected = Some (cr_state old)
            ∧ cr_sequence row = cr_sequence old + 1
        end.
Proof.
  unfold checkpoint_run, transaction, next_checkpoint.
  destruct (check_checkpoint fp st capsules digest) as [_|e]; [|left; by eexists].
  destruct (db_checkpoints db !! uuid_str run_id) as [old|].
  - destruct (checkpoint_differs old plan_id fp expected capsules) eqn:Hd; [left; by eexists|].
    apply checkpoint_differs_false in Hd as (H1&H2&H3&H4).
    cbn [raise_if mbind result_bind]. rewrite (bool_decide_eq_true_2 _ H4).
    right. exists (mk_checkpoint_row (cr_plan_id old) (cr_plan_fingerprint old) st
      (cr_sequence old + 1) (cr_capsule_bindings_sha256 old) digest (isoformat now)).
    cbn. by split_and!.
  - destruct expected as [x|]; [left; by eexists|]. right.
    exists (mk_checkpoint_row (uuid_str plan_id) fp st 0 capsules digest (isoformat now)).
    cbn. by split_and!.
Qed.

Lemma legal_op_advances op db k :
  legal_op op → rtc advances (db_checkpoints db !! k) (db_checkpoints (run_op op db).2 !! k).
Proof.
  intros Hl. destruct (is_checkpoint op) eqn:Hc; [|by rewrite op_checkpoints].
  destruct op as [|run_id plan_id fp st capsules expected digest now| | | | | | | |];
    try discriminate Hc. cbn [run_op reply snd legal_op] in *.
  destruct (checkpoint_run_cases run_id plan_id fp st capsules expected digest now db)
    as [[e ->]|(row&->&H1&H2&H3&H4&H5&Hold)]; [done|]. cbn.
  destruct (decide (k = uuid_str run_id)) as [->|Hk]; [|by rewrite lookup_insert_ne by done].
  rewrite lookup_insert_eq. apply rtc_once.
  destruct (db_checkpoints db !! uuid_str run_id) as [old|].
  - destruct Hold as (O1&O2&O3&O4&O5).
    destruct Hl as [(->&_)|(current&target&Ee&Et&Hin)]; [done|]. rewrite Ee in O4.
    injection O4 as O4. by eapply run_moved with (state := current) (target := target); congruence.
  - destruct Hold as [-> O]. destruct Hl as [(_&Es&Ed)|(c&t&Ee&_)]; [|done].
    apply run_created; congruence.
Qed.

Lemma legal_ops_advance ops db k :
  Forall legal_op ops → rtc advances (db_checkpoints db !! k) (db_checkpoints (after ops db) !! k).
Proof.
  revert db. induction ops as [|op ops IH]; intros db Hl; [done|]. inversion Hl; subst.
  rewrite after_cons. etrans; [by apply legal_op_advances|]. by apply IH.
Qed.

Section session.
Context {A P B W : Type} `{Authenticator A} `{ProviderEgress P B} `{SystemZone}.
Context (env : environment) (performance : nat → option dict).
Context (self : CapsuleRunCoordinator A P W).
#[local] Abbreviation run_state := (run_state W B).

(** The database is what the operations of the trace made of [db0]; they are
    legal; the log extends that of [db0]. *)
Definition orderly (db0 : database) (s : run_state) : Prop :=
  rs_database s = after (audited_ops (rs_trace s)) db0
  ∧ Forall legal_op (audited_ops (rs_trace s))
  ∧ db_events db0 `prefix_of` db_events (rs_database s).

Section invariant.
Context (db0 : database).

Lemma orderly_audit {A'} op (project : audit_reply → result A') :
  legal_op op → keeps (orderly db0) (audit op project).
Proof.
  intros Hop. apply keeps_audit. intros s (Hr&Hc&He). split_and!.
  - cbn [rs_database rs_trace]. by rewrite audited_ops_snoc, after_app, <-Hr, after_one.
  - cbn [rs_trace]. rewrite audited_ops_snoc. apply Forall_app_2; [done|]. by apply Forall_singleton.
  - cbn. etrans; [exact He|]. apply op_events.
Qed.
Lemma orderly_now : keeps (orderly db0) (now env).
Proof. by intros s. Qed.
Lemma orderly_uuid4 : keeps (orderly db0) (uuid4 env).
Proof. by intros s. Qed.
Lemma orderly_world {X} (f : W → result X * W) : keeps (orderly db0) (on_world f).
Proof. intros s. unfold on_world. by destruct (f (rs_world s)). Qed.
Lemma orderly_load run_id : keeps (orderly db0) (load_checkpoint run_id).
Proof. by intros s. Qed.
Lemma orderly_tick : keeps (orderly db0) (λ s, (Ok (rs_tick s), s)).
Proof. by intros s. Qed.
#[local] Hint Resolve orderly_now orderly_uuid4 orderly_world orderly_load orderly_tick : keeps_db.

Lemma orderly_event run_id plan_id action_id event_type payload :
  keeps (orderly db0) (record_event env run_id plan_id action_id event_type payload).
Proof.
  unfold record_event. apply keeps_bind; [apply orderly_now|]. intros t. by apply orderly_audit.
Qed.

Lemma orderly_orchestrate plan approvals dry_run :
  keeps (orderly db0) (orchestrate env self plan approvals dry_run).
Proof.
  intros s (Hr&Hl&He). unfold orchestrate.
  pose proof (uncheckpointed_run (later_env env (rs_tick s)) (crc_orchestrator self)
    (rs_database s) plan approvals dry_run (start (rs_database s) (rs_world s))) as Hn.
  destruct (run_internal _ _ _ _ _ _) as [r s']. cbn [snd] in Hn.
  destruct Hn as (Hr'&Hc'&He'&_); [by split_and!|]. cbn [snd]. split_and!.
  - cbn [rs_database rs_trace]. by rewrite audited_ops_app, after_app, <-Hr, <-Hr'.
  - cbn [rs_trace]. rewrite audited_ops_app. apply Forall_app_2; [done|].
    eapply Forall_impl; [exact Hc'|]. intros op Hop. by destruct op.
  - by etrans.
Qed.

Lemma orderly_write run_id plan state digest expected result_ :
  legal_move expected (enum_str state) result_ →
  keeps (orderly db0) (write_checkpoint env run_id plan state digest expected result_).
Proof.
  intros Hm. apply keeps_bind; [apply orderly_now|]. intros t. by apply orderly_audit.
Qed.
#[local] Hint Resolve orderly_event orderly_orchestrate : keeps_db.

Lemma orderly_record_state checkpoint : keeps (orderly db0) (record_state env checkpoint).
Proof. apply orderly_event. Qed.
#[local] Hint Resolve orderly_record_state : keeps_db.

Lemma orderly_transition checkpoint target plan digest result_ :
  keeps (orderly db0) (transition env checkpoint target plan digest result_).
Proof.
  unfold transition. apply keeps_bind; [keep|]. intros current. eapply gives_keeps.
  eapply gives_then with (Q1 := λ _, target ∈ TRANSITIONS current).
  - eapply gives_mono; [apply gives_lift|]. intros a s _ Ha. apply raise_if_Ok in Ha.
    apply negb_false_iff, bool_decide_eq_true in Ha. exact Ha.
  - intros _ Hin. apply keeps_gives. apply keeps_bind; [|intros; keep].
    apply orderly_write. right. by exists current, target.
Qed.

Lemma orderly_open run_id plan digest : keeps (orderly db0) (open_run env run_id plan digest).
Proof.
  unfold open_run. apply keeps_bind; [keep|]. intros [c|]; [keep|].
  apply keeps_bind; [|intros; keep]. apply orderly_write. by left.
Qed.
#[local] Hint Resolve orderly_transition orderly_open : keeps_db.

Lemma orderly_settle run_id plan digest authenticated report checkpoint :
  keeps (orderly db0)
    (settle_run env performance self run_id plan digest authenticated report checkpoint).
Proof.
  assert (∀ op (project : audit_reply → result string), is_record op = true →
    keeps (orderly db0) (audit op project)) as Ha.
  { intros op project Hop. apply orderly_audit. by destruct op. }
  unfold settle_run. keep; by apply Ha.
Qed.
#[local] Hint Resolve orderly_settle : keeps_db.

Lemma orderly_coordinate plan approvals dry_run ready id :
  keeps (orderly db0) (coordinate env performance self plan approvals dry_run ready id).
Proof. unfold coordinate, carry_out, require_audit_sink. keep. Qed.
End invariant.
End session.

Section histories.
Context {A P B W : Type} `{Authenticator A} `{ProviderEgress P B} `{SystemZone}.

(** Databases that coordinated sessions may leave: each session may be of any
    plan and coordinator, and it may stop after any number of the operations it
    commits, as when the process dies. *)
Inductive served (db : database) : database → Prop :=
  | served_refl : served db db
  | served_session db1 env performance (self : CapsuleRunCoordinator A P W) plan approvals dry_run
      ready id (w : W) ops :
      served db db1 →
      ops `prefix_of` audited_ops (rs_trace (coordinate env performance self plan approvals
                        dry_run ready id (start db1 w)).2) →
      served db (after ops db1).

Lemma served_advances db db' k :
  served db db' → rtc advances (db_checkpoints db !! k) (db_checkpoints db' !! k).
Proof.
  induction 1 as [|db1 env performance self plan approvals dry_run ready id w ops Hs IH Hp];
    [done|].
  etrans; [exact IH|]. apply legal_ops_advance. destruct Hp as [rest E].
  destruct (orderly_coordinate env performance self db1 plan approvals dry_run ready id
    (start db1 w)) as (_&Hl&_); [by split_and!|].
  rewrite E in Hl. by apply Forall_app in Hl as [Hl _].
Qed.
End histories.

Lemma advances_row row x :
  rtc advances (Some row) x →
  ∃ row', x = Some row' ∧ cr_plan_id row' = cr_plan_id row
    ∧ cr_plan_fingerprint row' = cr_plan_fingerprint row
    ∧ cr_capsule_bindings_sha256 row' = cr_capsule_bindings_sha256 row
    ∧ cr_sequence row ≤ cr_sequence row'
    ∧ (cr_state row = enum_str RUN_TERMINAL ∨ cr_sequence row' = cr_sequence row → row' = row).
Proof.
  intros Hr. remember (Some row) as y eqn:Ey. revert row Ey.
  induction Hr as [|y z x Hyz _ IH]; intros row ->.
  { exists row. by split_and!. }
  inversion Hyz as [|? row1 state target E1 E2 Hin H1 H2 H3 Hs]; subst.
  destruct (IH row1 eq_refl) as (row'&->&G1&G2&G3&Gs&_). exists row'.
  split; [done|]. split; [congruence|]. split; [congruence|]. split; [congruence|].
  split; [lia|]. intros [Ht|Hq]; [|lia]. exfalso. rewrite Ht in E1.
  destruct state; try discriminate E1. by apply elem_of_nil in Hin.
Qed.

(** The lifecycle of a coordinated run.  Over any sequence of sessions on one
    audit database, of any plans and coordinators and each cut short anywhere,
    the stored run of an identifier is created planned with sequence number 0 and
    then only moves along the transitions, one sequence number at a time; it
    keeps its plan, its fingerprint and its capsule bindings; and once terminal
    it never changes. *)
Theorem run_lifecycle {A P B W : Type} `{Authenticator A} `{ProviderEgress P B} `{SystemZone}
    db db' k :
  served (A := A) (P := P) (B := B) (W := W) db db' →
  rtc advances (db_checkpoints db !! k) (db_checkpoints db' !! k)
  ∧ ∀ row, db_checkpoints db !! k = Some row →
      ∃ row', db_checkpoints db' !! k = Some row'
        ∧ cr_plan_id row' = cr_plan_id row
        ∧ cr_plan_fingerprint row' = cr_plan_fingerprint row
        ∧ cr_capsule_bindings_sha256 row' = cr_capsule_bindings_sha256 row
        ∧ cr_sequence row ≤ cr_sequence row'
        ∧ (cr_state row = enum_str RUN_TERMINAL → row' = row).
Proof.
  intros Hs. apply (served_advances _ _ k) in Hs. split; [done|]. intros row E. rewrite E in Hs.
  destruct (advances_row _ _ Hs) as (row'&Hr&G1&G2&G3&Hq&Ht). exists row'. naive_solver.
Qed.

(** ** Effects happen under an executing checkpoint *)

(** The checkpoint that was committed last. *)
Definition last_checkpoint (tr : list event) : option RunCheckpoint :=
  fold_left (λ acc e, match checkpoint_event e with Some c => Some c | None => acc end) tr None.

Lemma last_checkpoint_quiet tr tr' :
  Forall (λ e, checkpoint_event e = None) tr' → last_checkpoint (tr ++ tr') = last_checkpoint tr.
Proof.
  intros Hq. unfold last_checkpoint. rewrite fold_left_app. generalize (fold_left
    (λ acc e, match checkpoint_event e with Some c => Some c | None => acc end) tr None).
  induction Hq as [|e tr' He _ IH]; intros acc; [done|]. cbn. by rewrite He, IH.
Qed.

Lemma last_checkpoint_snoc tr e c : checkpoint_event e = Some c → last_checkpoint (tr ++ [e]) = Some c.
Proof. intros E. unfold last_checkpoint. rewrite fold_left_app. cbn. by rewrite E. Qed.

(** The checkpoint is of this very plan with these very capsules. *)
Definition bound_to (plan : ChangePlan) (checkpoint : RunCheckpoint) : Prop :=
  rc_plan_id checkpoint = cp_plan_id plan
  ∧ rc_plan_fingerprint checkpoint = ChangePlan_fingerprint plan
  ∧ ∃ context, cp_execution_context plan = Some context
      ∧ capsule_bindings_sha256 (ec_capsules context) = Ok (rc_capsule_bindings_sha256 checkpoint).

Definition is_call (e : event) : bool :=
  match e with Called _ _ => true | Audited _ _ => false end.

(** Whatever precedes a call justifies it. *)
Definition each_call (R : list event → Prop) (tr : list event) : Prop :=
  ∀ pre call reply post, tr = pre ++ Called call reply :: post → R pre.

Lemma each_call_app R tr tr' :
  each_call R tr → each_call (λ pre, R (tr ++ pre)) tr' → each_call R (tr ++ tr').
Proof.
  intros H1 H2 pre call reply post E. apply app_eq_inv in E as [(k&E1&E2)|(k&E1&E2)].
  - destruct k as [|x k]; cbn in E2.
    + rewrite app_nil_r in E1. subst pre. cut (R (tr ++ [])); [by rewrite app_nil_r|].
      exact (H2 [] call reply post (eq_sym E2)).
    + injection E2 as <- _. by eapply H1.
  - subst pre. by eapply H2.
Qed.

Lemma each_call_quiet R tr : Forall (λ e, is_call e = false) tr → each_call R tr.
Proof.
  intros Hq pre call reply post ->. apply Forall_app in Hq as [_ Hq].
  inversion Hq. discriminate.
Qed.

(** ** The steps of the coordinator *)

Section steps.
Context {B W : Type}.
Context (env : environment).
#[local] Abbreviation run_state := (run_state W B).

(** Only events of the log were added. *)
Definition event_logged (s s' : run_state) : Prop :=
  db_checkpoints (rs_database s') = db_checkpoints (rs_database s)
  ∧ db_completed (rs_database s') = db_completed (rs_database s)
  ∧ rs_world s' = rs_world s
  ∧ db_events (rs_database s) `prefix_of` db_events (rs_database s')
  ∧ ∃ op r, rs_trace s' = rs_trace s ++ [Audited op r] ∧ is_record op = true.

Lemma wp_record_event run_id plan_id action_id event_type payload (s : run_state) E :
  (∀ e s', event_logged s s' → E e s') →
  wp (record_event env run_id plan_id action_id event_type payload) (λ _ s', event_logged s s') E s.
Proof.
  intros HE. unfold record_event. apply wp_bind, wp_now.
  set (op := OpRecord _ _ _ _ _ _). unfold wp, audit.
  destruct (record_ledger run_id plan_id action_id event_type payload (clock_now env (rs_tick s))
    (rs_database s)) as [Hc Hk].
  pose proof (op_events op (rs_database s)) as He.
  cbn [rs_database]. destruct (run_op op (rs_database s)) as [r db'] eqn:Er. cbn [snd] in He.
  unfold op in Er. rewrite Er in Hc, Hk. cbn [snd] in Hc, Hk.
  assert (∀ s', s' = mk_run_state db' (rs_world s) (S (rs_tick s)) (rs_trace s ++ [Audited op r])
    (rs_vars s) → event_logged s s') as Hl.
  { intros s' ->. split_and!; [exact Hk|exact Hc|done|exact He|]. by exists op, r. }
  cbn [rs_world rs_tick rs_trace rs_vars]. destruct (as_record r) as [u|e]; [by apply Hl|].
  by apply HE, Hl.
Qed.

(** The checkpoint [c] of the plan was written for the run, by one operation. *)
Definition checkpointed (run_id : uuid) (plan : ChangePlan) (st : CapsuleRunState)
    (digest : string) (res : option string) (s : run_state) (c : RunCheckpoint) (s' : run_state)
    : Prop :=
  rc_run_id c = run_id ∧ rc_plan_id c = cp_plan_id plan
  ∧ rc_plan_fingerprint c = ChangePlan_fingerprint plan ∧ rc_state c = enum_str st
  ∧ rc_capsule_bindings_sha256 c = digest ∧ rc_result_sha256 c = res
  ∧ (∃ row, db_checkpoints (rs_database s') !! uuid_str run_id = Some row
      ∧ cr_plan_id row = uuid_str (cp_plan_id plan)
      ∧ cr_plan_fingerprint row = ChangePlan_fingerprint plan
      ∧ cr_capsule_bindings_sha256 row = digest ∧ cr_state row = enum_str st
      ∧ cr_result_sha256 row = res ∧ cr_sequence row = rc_sequence c)
  ∧ db_completed (rs_database s') = db_completed (rs_database s)
  ∧ db_events (rs_database s') = db_events (rs_database s)
  ∧ rs_world s' = rs_world s
  ∧ ∃ op, rs_trace s' = rs_trace s ++ [Audited op (RCheckpoint (Ok c))] ∧ is_checkpoint op = true.

Lemma wp_write run_id plan st digest expected res (s : run_state) (E : exn → run_state → Prop) :
  (∀ e s', rs_trace s' = rs_trace s ++ [Audited (OpCheckpoint run_id (cp_plan_id plan)
      (ChangePlan_fingerprint plan) (enum_str st) digest expected res (clock_now env (rs_tick s)))
      (RCheckpoint (Err e))] → E e s') →
  wp (write_checkpoint env run_id plan st digest expected res)
    (checkpointed run_id plan st digest res s) E s.
Proof.
  intros HE. unfold write_checkpoint. apply wp_bind, wp_now. unfold wp, audit.
  cbn [run_op reply fst snd rs_database rs_world rs_tick rs_trace rs_vars].
  destruct (checkpoint_run_cases run_id (cp_plan_id plan) (ChangePlan_fingerprint plan)
    (enum_str st) digest expected res (clock_now env (rs_tick s)) (rs_database s))
    as [[e ->]|(row&->&H1&H2&H3&H4&H5&_)]; cbn [fst snd as_checkpoint]; [by apply HE|].
  split_and!; try done.
  - exists row. split; [cbn; apply lookup_insert_eq|done].
  - by eexists.
Qed.

(** A transition that returns has committed one checkpoint; its event follows. *)
Lemma wp_transition checkpoint target plan digest res (s : run_state) :
  wp (transition env checkpoint target plan digest res)
    (λ c s', ∃ s1, checkpointed (rc_run_id checkpoint) plan target digest res s c s1 ∧ event_logged s1 s')
    (λ _ _, True) s.
Proof.
  unfold transition. apply wp_bind, wp_lift; [|done]. intros current _.
  apply wp_bind, wp_lift; [|done]. intros _ _. apply wp_bind.
  eapply wp_mono; [by apply wp_write with (E := λ _ _, True)| |done].
  intros c s1 Hc. apply wp_bind.
  eapply wp_mono; [by apply wp_record_event with (E := λ _ _, True)| |done].
  intros [] s2 Hl. by exists s1.
Qed.

Lemma wp_transition_refused checkpoint current target plan digest res (s : run_state)
    (Q : RunCheckpoint → run_state → Prop) (E : exn → run_state → Prop) :
  rc_state checkpoint = enum_str current → target ∉ TRANSITIONS current →
  (∀ e, E e s) → wp (transition env checkpoint target plan digest res) Q E s.
Proof.
  intros Hst Hin HE. unfold transition. apply wp_bind. rewrite Hst, enum_parse_str.
  apply wp_lift; [|by intros]. intros c [= <-]. apply wp_bind. apply wp_lift; [|by intros].
  intros [] Hr%raise_if_Ok. by apply negb_false_iff, bool_decide_eq_true in Hr.
Qed.
End steps.

Section justified.
Context {A P B W : Type} `{Authenticator A} `{ProviderEgress P B} `{SystemZone}.
Context (env : environment) (performance : nat → option dict).
Context (self : CapsuleRunCoordinator A P W) (plan : ChangePlan) (dry_run : bool).
#[local] Abbreviation run_state := (run_state W B).

Definition executing (tr : list event) : Prop :=
  ∃ checkpoint, last_checkpoint tr = Some checkpoint
    ∧ rc_state checkpoint = enum_str RUN_EXECUTING ∧ bound_to plan checkpoint.

Definition justified (s : run_state) : Prop :=
  each_call (λ pre, dry_run = false ∧ executing pre) (rs_trace s).

Lemma justified_extends s s' tr :
  rs_trace s' = rs_trace s ++ tr → Forall (λ e, is_call e = false) tr → justified s → justified s'.
Proof.
  intros E Hq Hs. unfold justified. rewrite E. apply each_call_app; [done|]. by apply each_call_quiet.
Qed.

Lemma justified_audit {A'} op (project : audit_reply → result A') : keeps justified (audit op project).
Proof.
  apply keeps_audit. intros s. eapply justified_extends; [reflexivity|]. by apply Forall_singleton.
Qed.
Lemma justified_now : keeps justified (now env).
Proof. by intros s. Qed.
Lemma justified_uuid4 : keeps justified (uuid4 env).
Proof. by intros s. Qed.
Lemma justified_world {X} (f : W → result X * W) : keeps justified (on_world f).
Proof. intros s. unfold on_world. by destruct (f (rs_world s)). Qed.
Lemma justified_load run_id : keeps justified (load_checkpoint run_id).
Proof. by intros s. Qed.
Lemma justified_tick : keeps justified (λ s, (Ok (rs_tick s), s)).
Proof. by intros s. Qed.
#[local] Hint Resolve justified_audit justified_now justified_uuid4 justified_world justified_load
  justified_tick : keeps_db.

(** A policy report calls no connector; the run is asked for under an executing
    checkpoint. *)
Lemma dry_orchestrate_trace approvals s :
  let s' := (orchestrate env self plan approvals true s).2 in
  (∃ tr, rs_trace s' = rs_trace s ++ tr ∧ Forall (λ e, is_call e = false) tr)
  ∧ rs_world s' = rs_world s ∧ db_completed (rs_database s') = db_completed (rs_database s).
Proof.
  unfold orchestrate. set (s1 := start (rs_database s) (rs_world s) : run_state).
  pose proof (untouched_bookkept s1) as Hb.
  assert (untouched s1 (run_internal (later_env env (rs_tick s)) (crc_orchestrator self) plan approvals
    true s1).2) as (Hw&Hc&_&(es&Et&He)&_).
  { apply (keeps_run _ (crc_orchestrator self) _ _ Hb).
    - intros. apply (keeps_process _ _ _ _ Hb); [apply keeps_dry_compensation|auto|done].
    - split_and!; try done. by exists []. }
  destruct (run_internal _ _ _ _ _ _) as [r s']. cbn [fst snd rs_trace rs_world rs_database] in *.
  split; [|done]. exists (rs_trace s'). split; [done|]. rewrite Et. cbn.
  eapply Forall_impl; [exact He|]. by intros [].
Qed.

Lemma justified_policy_report approvals : keeps justified (orchestrate env self plan approvals true).
Proof.
  intros s Hs. destruct (dry_orchestrate_trace approvals s) as ((tr&Et&Hq)&_).
  by eapply justified_extends.
Qed.

Lemma justified_orchestrate approvals s :
  dry_run = false → executing (rs_trace s) → justified s →
  justified (orchestrate env self plan approvals false s).2.
Proof.
  intros Hd (c&Hc&Hst&Hb) Hs. unfold orchestrate.
  pose proof (uncheckpointed_run (later_env env (rs_tick s)) (crc_orchestrator self)
    (rs_database s) plan approvals false (start (rs_database s) (rs_world s))) as Hn.
  destruct (run_internal _ _ _ _ _ _) as [r s']. cbn [snd] in *.
  destruct Hn as (_&_&_&Hq); [by split_and!|]. unfold justified. cbn [rs_trace].
  apply each_call_app; [done|]. intros pre call reply post E. split; [done|].
  exists c. split; [|done]. rewrite last_checkpoint_quiet; [done|].
  rewrite E in Hq. by apply Forall_app in Hq as [Hq _].
Qed.

Lemma justified_event run_id plan_id action_id event_type payload :
  keeps justified (record_event env run_id plan_id action_id event_type payload).
Proof. unfold record_event. keep. Qed.
#[local] Hint Resolve justified_event justified_policy_report : keeps_db.

Lemma justified_write run_id p st digest expected res :
  keeps justified (write_checkpoint env run_id p st digest expected res).
Proof. unfold write_checkpoint. keep. Qed.
#[local] Hint Resolve justified_write : keeps_db.

Lemma justified_transition checkpoint target p digest res :
  keeps justified (transition env checkpoint target p digest res).
Proof. unfold transition, record_state. keep. Qed.
Lemma justified_open run_id p digest : keeps justified (open_run env run_id p digest).
Proof. unfold open_run, record_state. keep. Qed.
#[local] Hint Resolve justified_transition justified_open : keeps_db.

Lemma justified_settle run_id digest authenticated report checkpoint :
  keeps justified
    (settle_run env performance self run_id plan digest authenticated report checkpoint).
Proof. unfold settle_run. keep. Qed.
#[local] Hint Resolve justified_settle : keeps_db.

(** After the transition to [executing] the run may proceed. *)
Lemma gives_executing checkpoint digest context :
  cp_execution_context plan = Some context →
  capsule_bindings_sha256 (ec_capsules context) = Ok digest →
  gives justified (transition env checkpoint RUN_EXECUTING plan digest None)
    (λ _ s, executing (rs_trace s)).
Proof.
  intros Hctx Hd s Hs. eapply wp_mono.
  - apply wp_and; [|apply wp_transition].
    by apply (proj1 (keeps_wp _ _) (justified_transition checkpoint RUN_EXECUTING plan digest None)).
  - intros c s2 [Hj (s1&(_&Hp&Hf&Hst&Hb&_&_&_&_&_&op&Et&Hop)&(_&_&_&_&op'&r&Et'&Hr))].
    split; [done|]. exists c. split; [|split; [done|]].
    + rewrite Et'. rewrite last_checkpoint_quiet by (apply Forall_singleton; by destruct op').
      rewrite Et. apply last_checkpoint_snoc. by destruct op.
    + split; [done|]. split; [done|]. exists context. by rewrite Hb.
  - by intros e s' [? _].
Qed.

Lemma justified_carry_out checkpoint approvals digest report context :
  cp_execution_context plan = Some context →
  capsule_bindings_sha256 (ec_capsules context) = Ok digest →
  keeps justified (carry_out env self checkpoint plan approvals dry_run digest report).
Proof.
  intros Hctx Hd. unfold carry_out. destruct dry_run eqn:Edry; [keep|].
  eapply gives_keeps. eapply gives_seq; [by apply (gives_executing _ _ context)|].
  intros c s Hs Hex. apply wp_bind. unfold wp at 1.
  pose proof (justified_orchestrate approvals s Edry Hex Hs) as Hs'.
  destruct (orchestrate env self plan approvals false s) as [[r|e] s']; [|exact Hs'].
  match goal with |- wp ?m _ _ _ => enough (gives justified m (λ _ _, True)) as Hg by exact (Hg s' Hs') end.
  apply keeps_gives. keep.
Qed.
#[local] Hint Resolve justified_carry_out : keeps_db.

Lemma justified_coordinate approvals ready id :
  keeps justified (coordinate env performance self plan approvals dry_run ready id).
Proof.
  unfold coordinate. eapply gives_keeps. eapply gives_then with
    (Q1 := λ capsules, ∃ context, cp_execution_context plan = Some context
                        ∧ ec_capsules context = capsules).
  { eapply gives_mono; [apply gives_lift|]. intros capsules s _ E.
    destruct (cp_execution_context plan) as [context|]; [|done]. exists context.
    split; [done|]. destruct (ec_capsules context); by simplify_eq. }
  intros capsules (context&Hctx&<-). eapply gives_then with
    (Q1 := λ digest, capsule_bindings_sha256 (ec_capsules context) = Ok digest).
  { eapply gives_mono; [apply gives_lift|]. done. }
  intros digest Hd. apply keeps_gives. unfold require_audit_sink. keep.
Qed.
End justified.

(** Effects happen under an executing checkpoint.  Whenever a session of the
    coordinator calls a connector, in whatever way the session ends, it is not a
    dry run, and the checkpoint it committed last is the executing one of this
    very plan, with its fingerprint and the digest of its capsule bindings: a
    crash during an effect is found as an executing run. *)
Theorem effects_under_executing {A P B W : Type} `{Authenticator A} `{ProviderEgress P B} `{SystemZone}
    env performance (self : CapsuleRunCoordinator A P W) plan approvals dry_run ready id db (w : W)
    pre call reply post :
  rs_trace (coordinate (B := B) env performance self plan approvals dry_run ready id (start db w)).2
    = pre ++ Called call reply :: post →
  dry_run = false
  ∧ ∃ checkpoint, last_checkpoint pre = Some checkpoint
      ∧ rc_state checkpoint = enum_str RUN_EXECUTING ∧ bound_to plan checkpoint.
Proof.
  intros E. refine (justified_coordinate env performance self plan dry_run approvals ready id
    (start db w) _ _ _ _ _ E). by apply each_call_quiet.
Qed.

(** ** Receipts *)

Section receipt.
Context {A P B W : Type} `{Authenticator A} `{ProviderEgress P B} `{SystemZone}.
Context (env : environment) (performance : nat → option dict).
Context (self : CapsuleRunCoordinator A P W) (plan : ChangePlan).
#[local] Abbreviation run_state := (run_state W B).

(** The log has an anchor event of the run with this hash and this result. *)
Definition anchored (run_id : uuid) (digest hash result : string) (s : run_state) : Prop :=
  ∃ e, e ∈ db_events (rs_database s) ∧ ev_event_type e = "capsule_receipt_anchor"
    ∧ ev_run_id e = uuid_str run_id ∧ ev_event_hash e = hash
    ∧ ev_payload_json e = dumps_compact (JDict (anchor_payload plan digest result)).

Lemma anchored_prefix run_id digest hash result s s' :
  db_events (rs_database s) `prefix_of` db_events (rs_database s') →
  anchored run_id digest hash result s → anchored run_id digest hash result s'.
Proof. intros [l E] (e&He&Hr). exists e. rewrite E. split; [set_solver|done]. Qed.

Lemma wp_anchor run_id digest result t (s : run_state) :
  wp (audit (OpRecord run_id (cp_plan_id plan) None "capsule_receipt_anchor"
               (anchor_payload plan digest result) t) as_hash)
    (λ hash s', anchored run_id digest hash result s') (λ _ _, True) s.
Proof.
  unfold wp, audit. cbn [run_op reply fst snd as_hash]. unfold record, transaction.
  destruct (db_state (rs_database s)) as [[n h]|]; [|done]. cbn [or_raise mbind result_bind].
  destruct (negb (latest_hash (db_events (rs_database s)) =? h)%string); [done|].
  cbn [raise_if mbind result_bind fst snd]. unfold anchored. cbn [rs_database set_events db_events].
  eexists. split; [apply elem_of_app; right; left|done].
Qed.

(** The stored run is of the plan, in this state and with this result. *)
Definition stored (run_id : uuid) (digest : string) (st : CapsuleRunState) (res : option string)
    (s : run_state) : Prop :=
  ∃ row, db_checkpoints (rs_database s) !! uuid_str run_id = Some row
    ∧ cr_plan_id row = uuid_str (cp_plan_id plan)
    ∧ cr_plan_fingerprint row = ChangePlan_fingerprint plan
    ∧ cr_capsule_bindings_sha256 row = digest ∧ cr_state row = enum_str st
    ∧ cr_result_sha256 row = res.

Lemma transition_stored run_id digest st res s c s1 s' :
  checkpointed run_id plan st digest res s c s1 → event_logged s1 s' → stored run_id digest st res s'.
Proof.
  intros (_&_&_&_&_&_&(row&Hr&H1'&H2'&H3'&H4'&H5'&_)&_) (Hk&_). exists row. by rewrite Hk.
Qed.

(** What a session that settled leaves. *)
Definition settled (run_id : uuid) (digest : string) (g : GovernedCapsuleRun B) (s : run_state)
    : Prop :=
  ∃ report receipt receipt_digest result snapshot,
    gcr_report g = Some report ∧ gcr_receipt g = Some receipt
    ∧ verify_receipt (crc_receipt_signer self) receipt = Ok true
    ∧ xr_plan_fingerprint receipt = ChangePlan_fingerprint plan
    ∧ xr_run_id receipt = rr_run_id report ∧ xr_dry_run receipt = rr_dry_run report
    ∧ xr_successful receipt = successful report
    ∧ receipt_sha256 receipt = Ok receipt_digest
    ∧ report_sha256 snapshot report = Ok result
    ∧ anchored run_id digest (xr_audit_anchor_sha256 receipt) result s
    ∧ stored run_id digest RUN_TERMINAL (Some receipt_digest) s.

Lemma wp_settle digest authenticated report checkpoint (s : run_state) :
  wp (settle_run env performance self (rc_run_id checkpoint) plan digest authenticated report
        checkpoint)
    (λ g s', gcr_coordinator_run_id g = rc_run_id checkpoint ∧ gcr_state g = RUN_TERMINAL
       ∧ settled (rc_run_id checkpoint) digest g s') (λ _ _, True) s.
Proof.
  unfold settle_run. apply wp_bind. unfold wp at 1. apply wp_bind, wp_lift; [|done].
  intros res Hres. apply wp_bind, wp_now. apply wp_bind.
  eapply wp_mono; [apply wp_anchor| |done]. intros hash s1 Ha.
  apply wp_bind. unfold wp at 1, uuid4. apply wp_bind, wp_now. apply wp_bind, wp_lift; [|done].
  intros receipt Hb. apply built_receipt_verifies in Hb
    as (Hv&Hrun&_&_&Hfp&_&Hok&Hdry&Hanchor&_).
  match goal with |- wp _ _ _ ?s' => assert (anchored (rc_run_id checkpoint) digest hash res s')
    as Ha1 by exact Ha; generalize dependent s' end.
  intros s2 Ha2. apply wp_bind.
  assert (∀ X (f : W → result X * W) (s : run_state),
    anchored (rc_run_id checkpoint) digest hash res s →
    wp (on_world f) (λ _ s', anchored (rc_run_id checkpoint) digest hash res s') (λ _ _, True) s)
    as Hworld.
  { intros X f s' Hs'. unfold wp, on_world. by destruct (f (rs_world s')) as [[]]. }
  eapply wp_mono with (Q := λ _ s', anchored (rc_run_id checkpoint) digest hash res s')
    (E := λ _ _, True); [| |done].
  { destruct (crc_external_sink self); [|done]. apply wp_bind.
    eapply wp_mono; [by apply Hworld| |done]. by intros. }
  intros locator s3 Ha3. apply wp_bind.
  eapply wp_mono with (Q := λ _ s', anchored (rc_run_id checkpoint) digest hash res s')
    (E := λ _ _, True); [| |done].
  { destruct (crc_telemetry_sink self); [by apply Hworld|done]. }
  intros _ s4 Ha4. apply wp_bind, wp_lift; [|done]. intros receipt_digest Hd. apply wp_bind.
  eapply wp_mono; [apply wp_transition| |done]. intros c s5 (s5'&Hc&Hl). apply wp_bind.
  eapply wp_mono; [by apply wp_record_event with (E := λ _ _, True)| |done].
  intros [] s6 Hl6. split; [done|]. split; [done|].
  exists report, receipt, receipt_digest, res. eexists. split_and!; try done.
  - rewrite Hanchor. destruct Hl as (_&_&_&Hp&_). destruct Hl6 as (_&_&_&Hp6&_).
    destruct Hc as (_&_&_&_&_&_&_&_&He&_).
    eapply anchored_prefix; [exact Hp6|]. eapply anchored_prefix; [exact Hp|].
    apply (anchored_prefix _ _ _ _ s4); [by rewrite He|]. exact Ha4.
  - pose proof (transition_stored _ _ _ _ _ _ _ _ Hc Hl) as (row&Hr&Hrow). exists row.
    destruct Hl6 as (Hk&_). by rewrite Hk.
Qed.

(** No connector was called and the ledger is that of [db0]. *)
Definition calm (db0 : database) (s : run_state) : Prop :=
  Forall (λ e, is_call e = false) (rs_trace s) ∧ db_completed (rs_database s) = db_completed db0.

Section calm.
Context (db0 : database).

Lemma calm_audit {A'} op (project : audit_reply → result A') :
  is_record op || is_checkpoint op = true → keeps (calm db0) (audit op project).
Proof.
  intros Hop. apply keeps_audit. intros s [Ht Hc]. split; cbn.
  - apply Forall_app_2; [done|]. by apply Forall_singleton.
  - by rewrite ledger_untouched.
Qed.
Lemma calm_now : keeps (calm db0) (now env).
Proof. by intros s. Qed.
Lemma calm_uuid4 : keeps (calm db0) (uuid4 env).
Proof. by intros s. Qed.
Lemma calm_world {X} (f : W → result X * W) : keeps (calm db0) (on_world f).
Proof. intros s. unfold on_world. by destruct (f (rs_world s)). Qed.
Lemma calm_load run_id : keeps (calm db0) (load_checkpoint run_id).
Proof. by intros s. Qed.
Lemma calm_policy_report approvals : keeps (calm db0) (orchestrate env self plan approvals true).
Proof.
  intros s [Ht Hc]. destruct (dry_orchestrate_trace env self plan approvals s) as ((tr&Et&Hq)&_&Hd).
  split; [|by rewrite Hd]. rewrite Et. by apply Forall_app_2.
Qed.
#[local] Hint Resolve calm_now calm_uuid4 calm_world calm_load calm_policy_report : keeps_db.
#[local] Hint Extern 1 (keeps _ (audit _ _)) => apply calm_audit; reflexivity : keeps_db.

Lemma calm_transition checkpoint target digest res :
  keeps (calm db0) (transition env checkpoint target plan digest res).
Proof. unfold transition, write_checkpoint, record_state, record_event. keep. Qed.
#[local] Hint Resolve calm_transition : keeps_db.

(** The checkpoint a session starts from is that of its run. *)
Lemma gives_open run_id digest :
  gives (calm db0) (open_run env run_id plan digest) (λ c _, rc_run_id c = run_id).
Proof.
  unfold open_run. intros s Hs. apply wp_bind. unfold wp at 1, load_checkpoint.
  destruct (run_checkpoint run_id (rs_database s)) as [[c|]|e] eqn:El; [| |exact Hs].
  - apply wp_bind, wp_lift; [|done]. intros _ _. apply wp_bind, wp_lift; [|done]. intros _ _.
    split; [done|]. unfold run_checkpoint in El.
    destruct (db_checkpoints (rs_database s) !! uuid_str run_id); [|done].
    apply bind_Ok in El as (?&_&El). apply bind_Ok in El as (?&_&El). by simplify_eq/=.
  - assert (keeps (calm db0) (write_checkpoint env run_id plan RUN_PLANNED digest None None)) as Hw
      by (unfold write_checkpoint; keep).
    apply wp_bind. eapply wp_mono.
    + apply wp_and; [by apply (proj1 (keeps_wp _ _) Hw)|by apply wp_write with (E := λ _ _, True)].
    + intros c s' [Hs' (Hid&_)]. apply wp_bind.
      eapply wp_mono with (Q := λ _ s2, calm db0 s2) (E := λ _ s2, calm db0 s2);
        [|by intros [] s2 H2|done].
      apply (proj1 (keeps_wp (calm db0) _)); [|exact Hs']. unfold record_state, record_event. keep.
    + by intros e s' [? _].
Qed.

(** A session that stops to wait. *)
Definition waiting (digest : string) (g : GovernedCapsuleRun B) (s : run_state) : Prop :=
  (gcr_state g = RUN_AWAITING_CONNECTION ∨ gcr_state g = RUN_AWAITING_APPROVAL)
  ∧ gcr_receipt g = None ∧ calm db0 s
  ∧ stored (gcr_coordinator_run_id g) digest (gcr_state g) None s.

Lemma wp_wait checkpoint st digest report (s : run_state) :
  st = RUN_AWAITING_CONNECTION ∨ st = RUN_AWAITING_APPROVAL → calm db0 s →
  wp (checkpoint' ← transition env checkpoint st plan digest None;
      mret (mk_GovernedCapsuleRun (rc_run_id checkpoint) st checkpoint' report None None))
    (λ g s', waiting digest g s') (λ _ _, True) s.
Proof.
  intros Hst Hs. apply wp_bind. eapply wp_mono.
  - apply wp_and; [|apply wp_transition].
    by apply (proj1 (keeps_wp _ _) (calm_transition checkpoint st digest None)).
  - intros c s' [Hc (s1&Hp&Hl)].
    split; [done|]. split; [done|]. split; [done|]. by eapply transition_stored.
  - done.
Qed.

Lemma wp_carry_out checkpoint approvals dry_run digest report (s : run_state) :
  wp (carry_out env self checkpoint plan approvals dry_run digest report)
    (λ rc _, rc_run_id rc.2 = rc_run_id checkpoint) (λ _ _, True) s.
Proof.
  assert (∀ c st s, wp (transition env c st plan digest None)
    (λ c' _, rc_run_id c' = rc_run_id c) (λ _ _, True) (s : run_state)) as Ht.
  { intros c st s'. eapply wp_mono; [apply wp_transition| |done]. by intros c' s2 (s1&(->&_)&_). }
  unfold carry_out. destruct dry_run.
  { apply wp_bind. eapply wp_mono; [apply Ht| |done]. by intros c s1 Hc. }
  apply wp_bind. eapply wp_mono; [apply Ht| |done]. intros c s1 <-. apply wp_bind.
  unfold wp at 1. destruct (orchestrate env self plan approvals false s1) as [[r|e] s2]; [|done].
  apply wp_bind. eapply wp_mono; [apply Ht| |done]. intros c' s3 <-.
  destruct (compensated r || _); [|done]. apply wp_bind.
  eapply wp_mono; [apply Ht| |done]. by intros c'' s4 Hc.
Qed.

Lemma wp_coordinate approvals dry_run ready id (s : run_state) :
  calm db0 s →
  wp (coordinate env performance self plan approvals dry_run ready id)
    (λ g s', ∃ context digest, cp_execution_context plan = Some context
       ∧ capsule_bindings_sha256 (ec_capsules context) = Ok digest
       ∧ (waiting digest g s' ∨ gcr_state g = RUN_TERMINAL
                                ∧ settled (gcr_coordinator_run_id g) digest g s'))
    (λ _ _, True) s.
Proof.
  intros Hs. unfold coordinate. apply wp_bind, wp_lift; [|done]. intros capsules Hcap.
  assert (∃ context, cp_execution_context plan = Some context ∧ ec_capsules context = capsules)
    as (context&Hctx&<-).
  { destruct (cp_execution_context plan) as [context|]; [|done]. exists context.
    split; [done|]. destruct (ec_capsules context); by simplify_eq. }
  apply wp_bind, wp_lift; [|done]. intros digest Hd.
  assert (∀ (m : run W B (GovernedCapsuleRun B)) s, wp m (λ g s', waiting digest g s'
      ∨ gcr_state g = RUN_TERMINAL ∧ settled (gcr_coordinator_run_id g) digest g s') (λ _ _, True) s →
    wp m (λ g s', ∃ context digest, cp_execution_context plan = Some context
       ∧ capsule_bindings_sha256 (ec_capsules context) = Ok digest
       ∧ (waiting digest g s' ∨ gcr_state g = RUN_TERMINAL
                                ∧ settled (gcr_coordinator_run_id g) digest g s')) (λ _ _, True) s)
    as Hweak.
  { intros m s' Hm. eapply wp_mono; [exact Hm| |done]. intros g s2 Hg. by exists context, digest. }
  apply Hweak. clear Hweak. apply wp_bind.
  eapply wp_mono with (Q := λ _ s', calm db0 s') (E := λ _ _, True);
    [destruct id; [done|exact Hs]| |done].
  intros run_id s1 Hs1. apply wp_bind.
  eapply wp_mono; [by apply gives_open| |done]. intros c s2 [Hs2 <-].
  match goal with |- wp (if ?b then _ else _) _ _ _ => destruct b end.
  { eapply wp_mono; [apply wp_wait; [by left|done]| |done]. by left. }
  apply wp_bind. eapply wp_mono with (Q := λ _ s', calm db0 s') (E := λ _ _, True); [| |done].
  { eapply wp_mono; [apply (proj1 (keeps_wp (calm db0) _)); [|exact Hs2]|done|done].
    unfold require_audit_sink. keep. }
  intros _ s3 Hs3. apply wp_bind, wp_now. apply wp_bind, wp_lift; [|done]. intros au _.
  apply wp_bind, wp_lift; [|done]. intros au' _. apply wp_bind.
  eapply wp_mono; [apply (proj1 (keeps_wp (calm db0) _) (calm_policy_report approvals)), Hs3| |done].
  intros report s4 Hs4.
  match goal with |- wp (if ?b then _ else _) _ _ _ => destruct b end.
  { eapply wp_mono; [apply wp_wait; [by right|done]| |done]. by left. }
  apply wp_bind. eapply wp_mono; [apply wp_carry_out| |done]. intros [r c'] s5 Hc. cbn in Hc.
  rewrite <-Hc. eapply wp_mono; [apply wp_settle| |done].
  intros g s6 (Hid&Hst&Hset). right. by rewrite Hid.
Qed.
End calm.
End receipt.

(** A coordinated run ends in evidence.  What a session returns is stored:
    the run of the returned identifier is of this plan, with the digest of its
    capsule bindings, in the returned state.  If that is terminal, the session
    returns the report and a receipt that verifies under the signer and states
    this plan's fingerprint, the run, whether it was dry and whether it
    succeeded; the stored result is the receipt's digest; and the log has the
    anchor the receipt names, an event of this run with the digest of the report.
    Otherwise the session waits for a connection or an approval: it has no
    receipt, called no connector and left the ledger as it was. *)
Theorem runs_end_in_evidence {A P B W : Type} `{Authenticator A} `{ProviderEgress P B} `{SystemZone}
    env performance (self : CapsuleRunCoordinator A P W) plan approvals dry_run ready id db (w : W)
    (g : GovernedCapsuleRun B) s' :
  coordinate env performance self plan approvals dry_run ready id (start db w) = (Ok g, s') →
  let run_id := gcr_coordinator_run_id g in
  ∃ context digest, cp_execution_context plan = Some context
    ∧ capsule_bindings_sha256 (ec_capsules context) = Ok digest
    ∧ ((gcr_state g = RUN_TERMINAL
        ∧ ∃ report receipt receipt_digest result snapshot,
            gcr_report g = Some report ∧ gcr_receipt g = Some receipt
            ∧ verify_receipt (crc_receipt_signer self) receipt = Ok true
            ∧ xr_plan_fingerprint receipt = ChangePlan_fingerprint plan
            ∧ xr_run_id receipt = rr_run_id report ∧ xr_dry_run receipt = rr_dry_run report
            ∧ xr_successful receipt = successful report
            ∧ receipt_sha256 receipt = Ok receipt_digest
            ∧ report_sha256 snapshot report = Ok result
            ∧ anchored plan run_id digest (xr_audit_anchor_sha256 receipt) result s'
            ∧ stored plan run_id digest RUN_TERMINAL (Some receipt_digest) s')
       ∨ ((gcr_state g = RUN_AWAITING_CONNECTION ∨ gcr_state g = RUN_AWAITING_APPROVAL)
          ∧ gcr_receipt g = None
          ∧ Forall (λ e, is_call e = false) (rs_trace s')
          ∧ db_completed (rs_database s') = db_completed db
          ∧ stored plan run_id digest (gcr_state g) None s')).
Proof.
  intros E run_id.
  pose proof (wp_coordinate env performance self plan db approvals dry_run ready id (start db w)) as Hw.
  unfold wp in Hw. rewrite E in Hw.
  destruct Hw as (context&digest&Hctx&Hd&[(Hst&Hr&[Ht Hc]&Hrow)|[Hst Hs]]); [done| |];
    exists context, digest; (split; [done|]; split; [done|]).
  - by right.
  - left. split; [done|]. exact Hs.
Qed.

(** A stored run that is terminal is not touched: whatever the session asks for,
    it raises at once. *)
Theorem terminal_replay_refused {A P B W : Type} `{Authenticator A} `{ProviderEgress P B}
    `{SystemZone} env performance (self : CapsuleRunCoordinator A P W) plan approvals dry_run ready
    run_id db (w : W) row :
  db_checkpoints db !! uuid_str run_id = Some row → cr_state row = enum_str RUN_TERMINAL →
  ∃ e, coordinate (B := B) env performance self plan approvals dry_run ready (Some run_id)
         (start db w) = (Err e, start db w).
Proof.
  intros Hrow Hst.
  assert (wp (coordinate (B := B) env performance self plan approvals dry_run ready (Some run_id))
    (λ _ _, False) (λ _ s', s' = start db w) (start db w)) as Hw.
  { unfold coordinate. apply wp_bind, wp_lift; [|done]. intros capsules _.
    apply wp_bind, wp_lift; [|done]. intros digest _. apply wp_bind, wp_ret. apply wp_bind.
    unfold open_run. apply wp_bind. unfold wp at 1, load_checkpoint, run_checkpoint. cbn [rs_database start].
    rewrite Hrow. destruct (uuid_parse _) as [p|e]; [|done]. cbn [mbind result_bind].
    destruct (fromisoformat _) as [u|e]; [|done]. cbn [mbind result_bind].
    apply wp_bind, wp_lift; [|done]. intros _ _. apply wp_bind, wp_lift; [|done].
    intros [] Hr%raise_if_Ok. cbn [rc_state] in Hr. by rewrite Hst in Hr. }
  unfold wp in Hw. destruct (coordinate _ _ _ _ _ _ _ _ _) as [[g|e] s']; [done|].
  subst s'. by exists e.
Qed.

(** A dry run that waited is lost.  The transitions let a dry run finish
    from a run that is planned or executing only: resumed as a dry run from any
    other state (it waited for a connection or an approval, or it stopped after
    its own verifying checkpoint), no session ever completes it, whatever its
    approvals and connections. *)
Theorem waited_dry_run_never_completes {A P B W : Type} `{Authenticator A} `{ProviderEgress P B}
    `{SystemZone} env performance (self : CapsuleRunCoordinator A P W) plan approvals ready run_id db
    (w : W) row st (g : GovernedCapsuleRun B) :
  db_checkpoints db !! uuid_str run_id = Some row → cr_state row = enum_str st →
  st ∉ [RUN_PLANNED; RUN_EXECUTING] →
  (coordinate env performance self plan approvals true ready (Some run_id) (start db w)).1 = Ok g →
  gcr_state g ≠ RUN_TERMINAL.
Proof.
  intros Hrow Hst Hin E.
  assert (wp (coordinate (B := B) env performance self plan approvals true ready (Some run_id))
    (λ g _, gcr_state g ≠ RUN_TERMINAL) (λ _ _, True) (start db w)) as Hw.
  2: { unfold wp in Hw. destruct (coordinate _ _ _ _ _ _ _ _ _) as [[g'|e] s']; by simplify_eq/=. }
  assert (∀ X (m : run W B X) s, wp m (λ _ _, True) (λ _ _, True) s) as Hany.
  { intros X m s. unfold wp. by destruct (m s) as [[]]. }
  assert (∀ c target digest (s : run_state W B) report, target ≠ RUN_TERMINAL →
    wp (c' ← transition env c target plan digest None;
        mret (mk_GovernedCapsuleRun (B := B) run_id target c' report None None))
      (λ g _, gcr_state g ≠ RUN_TERMINAL) (λ _ _, True) s) as Hwait.
  { intros. apply wp_bind. by eapply wp_mono; [apply Hany| |]. }
  unfold coordinate. apply wp_bind, wp_lift; [|done]. intros capsules _.
  apply wp_bind, wp_lift; [|done]. intros digest _. apply wp_bind, wp_ret. apply wp_bind.
  eapply wp_mono with (Q := λ c _, rc_state c = enum_str st) (E := λ _ _, True); [| |done].
  { unfold open_run. apply wp_bind. unfold wp at 1, load_checkpoint, run_checkpoint.
    cbn [rs_database start]. rewrite Hrow. destruct (uuid_parse _) as [p|e]; [|done].
    cbn [mbind result_bind]. destruct (fromisoformat _) as [u|e]; [|done]. cbn [mbind result_bind].
    apply wp_bind, wp_lift; [|done]. intros _ _. by apply wp_bind, wp_lift. }
  intros c s2 Hc. match goal with |- wp (if ?b then _ else _) _ _ _ => destruct b end;
    [by apply Hwait|].
  apply wp_bind. eapply wp_mono; [apply Hany| |done]. intros _ s3 _.
  apply wp_bind, wp_now. apply wp_bind, wp_lift; [|done]. intros au _.
  apply wp_bind, wp_lift; [|done]. intros au' _. apply wp_bind.
  eapply wp_mono; [apply Hany| |done]. intros report s4 _.
  match goal with |- wp (if ?b then _ else _) _ _ _ => destruct b end; [by apply Hwait|].
  apply wp_bind. unfold carry_out. apply wp_bind.
  eapply wp_transition_refused; [exact Hc| |done].
  destruct st; cbn; set_solver.
Qed.
